(* ===== verification/_CoqProject ===== *)
-Q . S2P
Prelude.v
Errors.v
Pod.v
Hash.v
Sha256.v
MerkleProof.v
AppendTree.v
TxoIndex.v
Fees.v
Runtime.v
Types.v
PublicInputs.v
MintBuffer.v
MintBufferProofs.v
TxoBuffer.v
TxoBufferProofs.v
GenericBuffer.v
BufferClient.v
MintGroup.v
ProgramState.v
StateProofs.v
BlockUpdate.v
BlockUpdateProofs.v
Payout.v
CommittedMints.v
TxoUpload.v
MintUpload.v
BridgeInstructions.v
DogeBridge.v
NoopShim.v
Secp256k1.v
ZkProof.v
RpcClient.v
BufferManager.v
BufferManagerProofs.v
MintManagerProofs.v
BufferScenario.v
Ledger.v
StateTypes.v
DogeBridgeProofs.v
BridgeHistory.v
BridgeSafety.v
TokenSupply.v
ManualClaim.v
BridgeClient.v
HistorySync.v
HistoryProofs.v
Monitor.v
OperatorClient.v
OperatorProofs.v
BlockPosting.v
ClientSignatures.v
BlockUpdateClient.v
UserClient.v
UserClientProofs.v
Cli.v
CliProofs.v
MonitorProofs.v
Tasks.v
TaskProofs.v
Scenario.v
BridgeScenario.v
HistoryScenario.v
MonitorScenario.v
ManagerScenario.v
OperatorScenario.v
UserScenario.v
CliScenario.v
TaskScenario.v
SupplyScenario.v
