(* ===== verification/Prelude.v ===== *)
(** * The Psy Doge-Solana bridge: a verification library

    The repository is a Solana bridge that mints a wrapped Dogecoin token against
    proofs about the Dogecoin chain.  Its parts, and how they interact:

    - [libraries/psy-bridge-core]: hashing, Merkle proofs, the append-only Merkle
      tree, the TXO index arithmetic, the bridge header and the error codes;
    - [libraries/psy-doge-solana-core]: the bridge state machine.  A relayer submits
      a new header with a zero-knowledge proof ([block_update.rs]); the mints that
      the header commits to are paid out in groups of 24 ([auto_mint.rs],
      [mint_group.rs]); users request withdrawals, an operator submits the Dogecoin
      transactions that serve them ([core.rs], [proc_withdrawal.rs]), deposits may be
      claimed by hand ([deposit.rs]) and fees go to the operator ([operator.rs]);
    - [programs/pending-mint-buffer]: the account in which a relayer uploads the
      mints of a block.  The bridge locks it, pays its mints and unlocks it;
    - [programs/txo-buffer]: the account that lists the transaction outputs behind
      those mints; [programs/generic-buffer]: call data too large for a transaction;
    - [programs/doge-bridge], [manual-claim], [noop-shim]: the entry point that joins
      these, the claim front end and a logging shim;
    - [clients/rust]: the operator's client: builds and uploads the buffers, sends the
      instructions, retries and limits its RPC calls, and rebuilds the history of the
      bridge from the transactions on the chain;
    - [clients/rust_user]: the users' clients, for withdrawal requests and manual claims;
    - [cli]: the commands that set the bridge, its token and its users up.

    ** Files

    In dependency order; "proofs" files hold theorems about the definitions of the
    file before them.

    - [Prelude.v]: results with errors and panics ([res]), machine-width integers,
      byte slices with Rust's bounds checks, little-endian integers, the tactics
      [peel] (step through a successful [?]), [branch] and [reflect_guards], and the
      hint databases [bridge] and [bridge_len];
    - [Errors.v]: the error enums, their codes and conversions ([error.rs] of the core
      library and of two programs);
    - [Pod.v]: class [Pod], what [bytemuck] promises of a struct: its size, its bytes
      and the cast back; combinators derive instances with their laws;
    - [Hash.v], [Sha256.v]: the hash wrappers over the interface [Sha256] (with
      [Sha256Laws]), which stands for the sha2 crate; FIPS 180-4 instantiates it;
    - [MerkleProof.v]: proofs, delta proofs and the Dogecoin block verifiers
      ([crypto/hash/merkle]);
    - [AppendTree.v]: [append.rs] and [fixed_append_tree.rs], specified by the perfect
      tree over a list of leaves ([tree_of]);
    - [TxoIndex.v], [Fees.v]: [txo_constants.rs], [utils/fees.rs];
    - [Types.v]: the structs of [header.rs], [pending_mint.rs], [withdrawal.rs] and
      [core.rs] with their byte layout and hashes;
    - [PublicInputs.v]: [public_inputs/mod.rs];
    - [Runtime.v]: Solana's account store as a [gmap], and the interface [Runtime] of
      what programs call (rent, address derivation, reallocation, system program);
    - [MintBuffer.v], [MintBufferProofs.v]: the pending-mint-buffer program;
    - [TxoBuffer.v], [TxoBufferProofs.v], [GenericBuffer.v]: the txo-buffer and
      generic-buffer programs;
    - [BufferClient.v]: the client's buffer builders and instructions
      ([clients/rust/src/buffer], [instructions.rs]);
    - [MintGroup.v]: [mint_group.rs], the claim bitmap and the queue of blocks;
    - [ProgramState.v], [StateProofs.v]: [core.rs], [proc_withdrawal.rs],
      [operator.rs], [deposit.rs].  A state operation returns its result with the
      state it leaves behind, so that a failing operation's effects are visible;
      the proof verifier ([ZkVerifier]) and the token calls are parameters;
    - [BlockUpdate.v], [BlockUpdateProofs.v]: [block_update.rs], [auto_mint.rs];
    - [Payout.v]: the queue and the buffer together, over a whole block;
    - [CommittedMints.v]: the mint buffer program and the bridge together;
    - [TxoUpload.v], [MintUpload.v]: client, buffer program and bridge together;
    - [BridgeInstructions.v]: the instruction structs, discriminators and readers of
      [instructions] in the core library;
    - [DogeBridge.v]: [doge-bridge/processor.rs] and [cpi_impl.rs]: every instruction
      from raw accounts and bytes to the new store, with its calls of other programs
      and the borrow rules of account data; [NoopShim.v]: the logging shim;
    - [Secp256k1.v], [ZkProof.v]: [crypto/secp256k1] and [crypto/zk] with [fake_zkp]: the
      formats of signatures, the wallet, and the two proof verifiers, over interfaces
      for the curve and for the pairing check;
    - [RpcClient.v]: [errors.rs], the retry executor with its builder, and the rate limiter
      with its queue and the cancellation of waiting requests;
    - [BufferManager.v], [BufferManagerProofs.v], [MintManagerProofs.v]: the two buffer
      managers of the client ([buffer_manager.rs], [buffer/manager.rs]) over the interface
      [Cluster], with the interleaving of concurrent transactions decided by a scheduler;
    - [Ledger.v]: histories of bridge operations (an inductive reachability relation)
      and the abstract ledger they implement;
    - [StateTypes.v]: the typing invariant of the bridge state;
    - [DogeBridgeProofs.v], [BridgeHistory.v], [BridgeSafety.v]: the handlers step by
      step; histories of the store; who may do what, and what is paid and announced.
      The called programs satisfy the interfaces [CpiLaws] and [BufferCpi];
    - [TokenSupply.v]: the supply of the token over these histories, against the token
      program as an interface ([TokenBooks] with [TokenLaws]);
    - [ManualClaim.v]: the manual-claim program and its per-user state;
    - [BridgeClient.v]: the client's bridge instructions ([instructions.rs]);
    - [HistorySync.v], [HistoryProofs.v]: [history.rs], over the interface [RpcServer];
    - [Monitor.v], [MonitorProofs.v]: [monitor.rs] and [noop_shim_monitor.rs], polling a
      chain that grows;
    - [OperatorClient.v], [OperatorProofs.v]: [client.rs], [config.rs] and [api], and how a
      block is paid out; [BlockPosting.v]: a block from its header to the last payment;
      [ClientSignatures.v]: the signers of the client's transactions, with the check of
      the SDK made explicit; [BlockUpdateClient.v]: the older [bridge_client.rs];
    - [UserClient.v], [UserClientProofs.v]: the users' clients ([clients/rust_user]);
    - [Cli.v], [CliProofs.v]: the commands, over a machine (files, keys, console), the
      formats of its files and a blocking RPC client;
    - [Tasks.v], [TaskProofs.v]: the background tasks around [history.rs], [monitor.rs] and
      [noop_shim_monitor.rs]: a task, its receiver and its handle as interleaved steps,
      over the channels of tokio as an interface ([Channels]);
    - [BufferScenario.v], [ManagerScenario.v], [Scenario.v], [BridgeScenario.v],
      [HistoryScenario.v], [MonitorScenario.v], [OperatorScenario.v], [UserScenario.v],
      [CliScenario.v], [TaskScenario.v], [SupplyScenario.v]: concrete histories, at which the theorems are instantiated.

    ** What the theorems show

    - Refinement: the append tree is exactly the Merkle tree of the list of appended
      leaves ([append_refines_list]), and the bridge state after any history is exactly
      the image of an abstract ledger of requests, sent transactions, deposits, fees and
      accepted headers ([bridge_state_refines_ledger]); so is the bridge account after any calls of the
      program, among calls of other programs ([bridge_account_implements_ledger]).
    - The program: mint groups pay exactly the stored mints and are recorded as paid
      ([mint_group_pays_exactly]), privileged instructions need their signers, the one
      that advances the queue any signer ([privileged_instructions_authorised],
      [advance_any_signer]),
      block updates lock the buffer they will pay from ([block_update_locks_buffer]) and
      withdrawals announce the transaction they record, in builds that announce at all
      ([withdrawal_announces_transaction]).
    - Backing: tokens in circulation, withdrawals owed and fees kept are together covered by
      what was deposited and paid out ([token_covered_by_deposits]), for calls that burn
      the token they record and announce to a program that does not issue it.
    - Payment safety: a block is accepted only with a proof, buffers and heights that
      match its header ([single_block_transition_sound], [reorg_transition_sound]); the
      hash in the header determines the payments of an accepted buffer
      ([accepted_hash_determines_payments]), which rests on the buffer program
      ([locked_buffer_commits_all_groups], [locked_buffer_frozen]); every one of these
      payments is made exactly once ([every_pending_mint_paid_exactly_once],
      [groups_claimed_at_most_once]) and all groups can be claimed, in any order
      ([all_groups_claimable_in_any_order]).
    - Buffers: the client's uploads succeed in any order and are what the bridge
      hashes ([txo_upload_accepted], [mint_upload_accepted]); finalized batches and foreign buffers cannot be
      changed ([finalized_batch_immutable], [generic_buffer_writer_only]).
    - Client: every instruction that it builds is read by the program as the arguments
      it was built from ([client_operator_instructions_delivered],
      [client_user_instructions_delivered], [manual_claim_passed_on]); retries end
      ([retry_terminates]) and the limiter's queue is bounded
      ([limiter_queue_bounded]); the history rebuilds a block from the transactions that
      uploaded it ([history_rebuilds_block]) and misses no transaction
      ([collect_all_signatures_complete]); the managers' uploads end in a buffer that the
      bridge accepts, for every schedule, when one key is payer and operator
      ([managers_upload_outputs]); the monitors report
      each transaction at most once and in order ([monitor_reports_newest]), catch up
      completely ([fetch_since_complete]) and read what the bridge announces
      ([announcement_reported]); under every schedule of the background tasks, nothing is
      lost, repeated or reordered on the way to the receiver ([stream_delivers],
      [monitor_delivers]), and a stream that is read ends with everything delivered
      ([stream_ends]).
    - Operation: on a network that executes transactions the operator's two calls take a
      block from its header to the last payment ([block_posted_and_paid]), whatever groups
      were paid before the second one, the last excepted ([remaining_groups_paid]); the
      uploads of mints end in what the bridge pays ([managers_upload_mints]), and the
      signers of eleven of thirteen calls fit ([client_signatures_fit]).
    - Users: a withdrawal request is refused or ends in the burn and the books
      ([withdrawal_requested]); the scan of a claim history ends
      ([claim_history_scanned]).
    - Commands: on a machine whose directories can be created, and confirmed by --yes
      without an airdrop, the set-up ends in a bridge with empty books that owns its token, run by
      the keys in the files ([bridge_set_up]), and every readable user has an account
      ([user_accounts_set_up]).
    - Proof system of the tests: what the mock prover signs is accepted by the verifier
      ([mock_proofs_accepted]).
    - Withdrawals and deposits: sent transactions are backed by proofs, replays name
      sent transactions, manual deposits use recent roots ([manual_deposit_sound]), fees
      are paid once, and rejected operations change nothing ([StateProofs.v]); reachable
      states survive the round trip through account memory ([StateTypes.v]).
    - Binding: equal public inputs come from equal transitions ([PublicInputs.v]); a
      Merkle proof against a tree root names the stored leaf ([membership_sound],
      [verify_btc_block_tx_tree_sound]).
    - Arithmetic: exact fees, index packing as a bijection, round trips of structs.
    - Defects: some theorems state behaviour that is hardly intended; their names say
      what goes wrong ([group_256_panics], [revert_to_index_loses_sibling],
      [oversized_block_never_completes], [last_transaction_claim_can_be_short],
      [fee_truncates_above_full_rate], [get_txo_merkle_index_out_of_tree],
      [reinitialize_mints_at_will], [manual_claim_never_succeeds],
      [abandoned_upload_wins], [history_names_bridge_as_user],
      [uncompressed_signature_never_verifies], [last_group_first_blocks],
      [builder_outputs_need_zero_confirmations], [generate_keys_overwrites],
      [cancelled_requests_fill_queue], [join_never_returns], [monitor_goes_on],
      [no_fees_no_withdrawals], [request_burns_any_token], [message_program_unchecked]).

    ** Conventions and assumptions

    - A [w]-bit integer is a [Z]; [u16], [u32] and [u64] wrap, as the release profile
      of the programs (no [overflow-checks]) does; [checked_*] return options.
    - A panic is a result of its own ([Panic]); on Solana it aborts the transaction.
    - SHA-256 is a function with 32-byte results.  Where a theorem needs that it does
      not collide, it says on which finite list of messages, computed from its
      arguments ([collision_free], [messages_collision_free]); the witnesses check
      these lists by evaluation.
    - Loops are structural recursions over lists or over the loop's bound, except some
      with fuel: [partial_root_loop] (as much as there are leaves; log2 of that is
      proved enough), [execute_loop] (the configured retries and one more, proved
      enough), [join_tasks] (the steps that the retries allow, proved enough on a network
      that executes transactions), and [collect_loop], [fetch_loop] and
      [fetch_since_loop], which page through the answers of a server (one more than there
      are signatures is proved enough for the first and the last).
    - The RPC server, the token bucket of the rate limiter, the clock and the order of a
      [HashMap] are parameters; what is assumed of them is stated with the theorems.
    - Trees have height 32 and hold at most 2^32 leaves; theorems on appends carry that
      bound, and histories of fewer than 2^32 operations respect it.

    ** Not modelled

    The arithmetic of the curve and the pairing check (third-party cryptography, behind
    interfaces), the channels of tokio and the token program (behind interfaces), log
    messages and console output, the texts that errors format from other errors, the
    parsing of command lines and JSON, functions of the client that only hand their
    arguments on, re-exports, the end-to-end example and the unit tests with the in-memory
    tree that only they use ([test_merkle_tree.rs]). *)
From Stdlib Require Import ZArith Lia.
From stdpp Require Import base decidable list numbers option.

Open Scope Z_scope.

(** ** Notation scope and hint databases *)

Declare Scope bridge_scope.
Delimit Scope bridge_scope with bridge.
Open Scope bridge_scope.

Create HintDb bridge.
Create Rewrite HintDb bridge_len.

(** ** Results of Rust code

    [Ok] and [Err] are the constructors of [Result]; [Panic] is a Rust panic
    (an out-of-range index or slice, a failed [assert!]), which on Solana aborts
    the transaction just as an error does. *)

Inductive res (E A : Type) : Type :=
| Ok (a : A)
| Err (e : E)
| Panic.
Arguments Ok {E A} a.
Arguments Err {E A} e.
Arguments Panic {E A}.

#[export] Instance res_eq_dec {E A} `{EqDecision E} `{EqDecision A} : EqDecision (res E A).
Proof. solve_decision. Defined.

(** [map_err f r]: Rust's [Result::map_err]. *)
Definition map_err {E F A} (f : E -> F) (r : res E A) : res F A :=
  match r with Ok a => Ok a | Err e => Err (f e) | Panic => Panic end.

Definition is_ok {E A} (r : res E A) : bool :=
  match r with Ok _ => true | _ => false end.

(** Pure fallible code: the [?] operator. *)
Definition res_bind {E A B} (r : res E A) (k : A -> res E B) : res E B :=
  match r with Ok a => k a | Err e => Err e | Panic => Panic end.

Notation "'try' x <- r ; k" := (res_bind r (fun x => k))
  (at level 100, x binder, r at level 99, k at level 200, right associativity,
   format "'[v' 'try'  x  <-  r ;  '/' k ']'") : bridge_scope.

Notation "'bail' e 'if' c ; k" := (if c then Err e else k)
  (at level 100, e at level 99, c at level 99, k at level 200, right associativity,
   format "'[v' 'bail'  e  'if'  c ;  '/' k ']'") : bridge_scope.

(** An indexing or slicing expression that panics when it is out of range. *)
Definition or_panic {E A} (o : option A) : res E A :=
  match o with Some a => Ok a | None => Panic end.

(** [Option::ok_or]. *)
Definition ok_or {E A} (o : option A) (e : E) : res E A :=
  match o with Some a => Ok a | None => Err e end.

(** Code with a [&mut self] receiver returns the result together with the
    state it leaves behind.  An early [return Err(..)] keeps the mutations made
    before it, as the Rust code does. *)
Notation "'bail' e 'if' c 'on' s ; k" := (if c then (Err e, s) else k)
  (at level 100, e at level 99, c at level 99, s at level 99, k at level 200,
   right associativity,
   format "'[v' 'bail'  e  'if'  c  'on'  s ;  '/' k ']'") : bridge_scope.

(** A pure fallible call inside stateful code. *)
Definition pure_call {E S A B} (s : S) (r : res E A) (k : A -> res E B * S) : res E B * S :=
  match r with Ok a => k a | Err e => (Err e, s) | Panic => (Panic, s) end.

Notation "'try' x <- r 'on' s ; k" := (pure_call s r (fun x => k))
  (at level 100, x binder, r at level 99, s at level 99, k at level 200,
   right associativity,
   format "'[v' 'try'  x  <-  r  'on'  s ;  '/' k ']'") : bridge_scope.

(** A call that itself mutates a state.  [wrap] puts the callee's final state
    back into the caller's. *)
Definition state_call {E S T A B} (c : res E A * T) (wrap : T -> S)
    (k : A -> S -> res E B * S) : res E B * S :=
  match c with
  | (Ok a, t) => k a (wrap t)
  | (Err e, t) => (Err e, wrap t)
  | (Panic, t) => (Panic, wrap t)
  end.

Notation "'call' ( x , s ) <- c 'into' w ; k" := (state_call c w (fun x s => k))
  (at level 100, x name, s name, c at level 99, w at level 99, k at level 200,
   right associativity,
   format "'[v' 'call'  ( x ,  s )  <-  c  'into'  w ;  '/' k ']'") : bridge_scope.

(** Equations for rewriting, so that proofs need not unfold the combinators. *)
Section equations.
Context {E S T A B : Type}.
Lemma state_call_ok (a : A) (t : T) (w : T -> S) (k : A -> S -> res E B * S) :
  state_call (Ok a, t) w k = k a (w t).
Proof. reflexivity. Qed.
Lemma state_call_err (e : E) (t : T) (w : T -> S) (k : A -> S -> res E B * S) :
  state_call (Err e, t) w k = (Err e, w t).
Proof. reflexivity. Qed.
Lemma pure_call_ok (s : S) (a : A) (k : A -> res E B * S) : pure_call s (Ok a) k = k a.
Proof. reflexivity. Qed.
Lemma pure_call_err (s : S) (e : E) (k : A -> res E B * S) : pure_call s (Err e) k = (Err e, s).
Proof. reflexivity. Qed.
End equations.

(** ** Machine integers

    A [uN] value is a [Z] in [0, 2^N).  The programs are built by
    [cargo build-sbf] in the release profile and the workspace does not set
    [overflow-checks], so [+], [-] and [*] wrap. *)

Definition wrap (w : Z) (z : Z) : Z := z mod 2 ^ w.
Abbreviation u8 := (wrap 8).
Abbreviation u16 := (wrap 16).
Abbreviation u32 := (wrap 32).
Abbreviation u64 := (wrap 64).

Definition in_width (w z : Z) : Prop := 0 <= z < 2 ^ w.
Arguments in_width w z : simpl never.

#[export] Instance in_width_dec w z : Decision (in_width w z).
Proof. unfold in_width. apply _. Defined.

Lemma wrap_id w z : in_width w z -> wrap w z = z.
Proof. intros [? ?]. by apply Z.mod_small. Qed.

Lemma wrap_in_width w z : 0 <= w -> in_width w (wrap w z).
Proof. intros Hw. apply Z.mod_pos_bound. by apply Z.pow_pos_nonneg. Qed.

Lemma in_width_mono w w' z : w <= w' -> in_width w z -> in_width w' z.
Proof.
  unfold in_width. intros Hw [? Hz]. split; [done|].
  pose proof (Z.pow_le_mono_r 2 w w'). lia.
Qed.

(** Checked arithmetic ([checked_sub], [checked_add], [checked_mul],
    [checked_div]). *)
Definition checked_sub (a b : Z) : option Z := if a <? b then None else Some (a - b).
Definition checked_add (w a b : Z) : option Z :=
  if a + b <? 2 ^ w then Some (a + b) else None.
Definition checked_mul (w a b : Z) : option Z :=
  if a * b <? 2 ^ w then Some (a * b) else None.
Definition checked_div (a b : Z) : option Z := if b =? 0 then None else Some (a / b).

Lemma checked_sub_Some a b c : checked_sub a b = Some c <-> b <= a /\ c = a - b.
Proof.
  unfold checked_sub. destruct (Z.ltb_spec a b); split; try done; [lia|by intros [= <-]|].
  by intros [_ ->].
Qed.

(** ** Bytes and byte arrays *)

Abbreviation bytes := (list Z).
Definition is_byte (z : Z) : Prop := 0 <= z < 256.

#[export] Instance is_byte_dec z : Decision (is_byte z).
Proof. unfold is_byte. apply _. Defined.

Definition len {A} (l : list A) : Z := Z.of_nat (length l).

Lemma len_nonneg {A} (l : list A) : 0 <= len l.
Proof. unfold len. lia. Qed.
Lemma len_app {A} (l k : list A) : len (l ++ k) = len l + len k.
Proof. unfold len. rewrite length_app. lia. Qed.
Lemma len_replicate {A} n (x : A) : len (replicate n x) = Z.of_nat n.
Proof. unfold len. by rewrite length_replicate. Qed.
Lemma len_nil {A} : len (@nil A) = 0.
Proof. done. Qed.
Lemma len_cons {A} (x : A) l : len (x :: l) = 1 + len l.
Proof. unfold len. simpl. lia. Qed.
#[export] Hint Rewrite @len_app @len_replicate @len_nil @len_cons : bridge_len.

(** [[0u8; N]] *)
Definition zeros (n : nat) : bytes := replicate n 0.

Lemma length_zeros n : length (zeros n) = n.
Proof. apply length_replicate. Qed.
Lemma zeros_bytes n : Forall is_byte (zeros n).
Proof. apply Forall_replicate. unfold is_byte. lia. Qed.

(** A fixed-size byte array [[u8; n]]. *)
Definition byte_array (n : nat) (b : bytes) : Prop := length b = n /\ Forall is_byte b.

#[export] Instance byte_array_dec n b : Decision (byte_array n b).
Proof. unfold byte_array. apply _. Defined.

Lemma byte_array_zeros n : byte_array n (zeros n).
Proof. split; [apply length_zeros | apply zeros_bytes]. Qed.
#[export] Hint Resolve byte_array_zeros zeros_bytes : bridge.

(** [&l[a..b]]: panics ([None]) unless [a <= b <= l.len()]. *)
Definition slice {A} (a b : Z) (l : list A) : option (list A) :=
  if (0 <=? a) && (a <=? b) && (b <=? len l)
  then Some (take (Z.to_nat (b - a)) (drop (Z.to_nat a) l)) else None.

(** [l[a..a + src.len()].copy_from_slice(src)] *)
Definition write_slice {A} (a : Z) (src l : list A) : option (list A) :=
  if (0 <=? a) && (a + len src <=? len l)
  then Some (take (Z.to_nat a) l ++ src ++ drop (Z.to_nat (a + len src)) l) else None.

(** [l[i]] with [i] a machine integer. *)
Definition index {A} (l : list A) (i : Z) : option A :=
  if 0 <=? i then l !! Z.to_nat i else None.

(** [l[i] = x], which panics when [i] is out of range. *)
Definition set_index {A} (l : list A) (i : Z) (x : A) : option (list A) :=
  if (0 <=? i) && (i <? len l) then Some (<[Z.to_nat i := x]> l) else None.

(** *** Generic list lemmas shared by the components *)

Section slices.
Context {A : Type}.
Implicit Types l k : list A.

Lemma slice_Some a b l k :
  slice a b l = Some k <->
  0 <= a <= b /\ b <= len l /\ k = take (Z.to_nat (b - a)) (drop (Z.to_nat a) l).
Proof.
  unfold slice. destruct (_ && _) eqn:E.
  - apply andb_true_iff in E as [[??]%andb_true_iff ?]. rewrite !Z.leb_le in *.
    split; [intros [= <-]; auto|by intros (_ & _ & ->)].
  - split; [done|]. intros (? & ? & _).
    rewrite !andb_false_iff, !Z.leb_gt in E. lia.
Qed.

Lemma slice_len a b l k : slice a b l = Some k -> len k = b - a.
Proof.
  intros (? & ? & ->)%slice_Some. unfold len in *.
  rewrite length_take, length_drop. lia.
Qed.

Lemma slice_is_Some a b l : 0 <= a <= b -> b <= len l -> is_Some (slice a b l).
Proof. intros. eexists. by apply slice_Some. Qed.

(** The middle of a concatenation. *)
Lemma slice_app_mid a b l1 l2 l3 :
  a = len l1 -> b = len l1 + len l2 -> slice a b (l1 ++ l2 ++ l3) = Some l2.
Proof.
  intros -> ->. apply slice_Some. unfold len. split; [lia|]. split.
  { rewrite !length_app. lia. }
  replace (Z.to_nat (Z.of_nat (length l1) + Z.of_nat (length l2) - Z.of_nat (length l1)))
    with (length l2) by lia.
  by rewrite Nat2Z.id, drop_app_length, take_app_length.
Qed.

Lemma slice_prefix a l1 l2 : a = len l1 -> slice 0 a (l1 ++ l2) = Some l1.
Proof. intros ->. apply (slice_app_mid 0 _ [] l1 l2); unfold len; simpl; lia. Qed.

Lemma slice_suffix a b l1 l2 :
  a = len l1 -> b = len l1 + len l2 -> slice a b (l1 ++ l2) = Some l2.
Proof. intros. rewrite <- (app_nil_r l2) at 1. by apply slice_app_mid. Qed.

Lemma slice_full l : slice 0 (len l) l = Some l.
Proof. rewrite <- (app_nil_r l) at 2. by apply slice_prefix. Qed.

(** A list is its prefix, a slice and its suffix. *)
Lemma slice_decompose a b l k :
  slice a b l = Some k ->
  l = take (Z.to_nat a) l ++ k ++ drop (Z.to_nat b) l.
Proof.
  intros (? & ? & ->)%slice_Some.
  replace (Z.to_nat b) with (Z.to_nat a + Z.to_nat (b - a))%nat by lia.
  by rewrite <- drop_drop, !take_drop.
Qed.

Lemma slice_app_l a b l1 l2 : b <= len l1 -> slice a b (l1 ++ l2) = slice a b l1.
Proof.
  intros Hb. pose proof (len_nonneg l2). unfold slice. rewrite len_app.
  destruct (Z.leb_spec 0 a), (Z.leb_spec a b); simpl; [|done..].
  destruct (Z.leb_spec b (len l1 + len l2)), (Z.leb_spec b (len l1)); try lia.
  f_equal. unfold len in *.
  rewrite drop_app_le, take_app_le; [done|rewrite length_drop|]; lia.
Qed.

Lemma slice_lookup a b l k (i : nat) :
  slice a b l = Some k -> Z.of_nat i < b - a -> k !! i = l !! (Z.to_nat a + i)%nat.
Proof.
  intros (? & ? & ->)%slice_Some ?. rewrite lookup_take_lt by lia. by rewrite lookup_drop.
Qed.

Lemma slice_ext a b l l' :
  len l = len l' ->
  (forall i : nat, a <= Z.of_nat i < b -> l !! i = l' !! i) ->
  slice a b l = slice a b l'.
Proof.
  intros Hl H. unfold slice. rewrite <- Hl.
  destruct (Z.leb_spec 0 a), (Z.leb_spec a b), (Z.leb_spec b (len l)); simpl; try done.
  f_equal. apply list_eq. intros i.
  destruct (decide (i < Z.to_nat (b - a))%nat).
  - rewrite !lookup_take_lt, !lookup_drop by done. apply H. lia.
  - rewrite !lookup_take_ge by lia. done.
Qed.

Lemma write_slice_Some a src l l' :
  write_slice a src l = Some l' <->
  0 <= a /\ a + len src <= len l /\
  l' = take (Z.to_nat a) l ++ src ++ drop (Z.to_nat (a + len src)) l.
Proof.
  unfold write_slice. destruct (_ && _) eqn:E.
  - apply andb_true_iff in E as [??]. rewrite !Z.leb_le in *.
    split; [intros [= <-]; auto|by intros (_ & _ & ->)].
  - split; [done|]. intros (? & ? & _).
    rewrite !andb_false_iff, !Z.leb_gt in E. lia.
Qed.

Lemma write_slice_len a src l l' : write_slice a src l = Some l' -> len l' = len l.
Proof.
  intros (? & ? & ->)%write_slice_Some. unfold len in *.
  rewrite !length_app, length_take, length_drop. lia.
Qed.

Lemma write_slice_lookup_in a src l l' (i : nat) :
  write_slice a src l = Some l' -> a <= Z.of_nat i < a + len src ->
  l' !! i = src !! (i - Z.to_nat a)%nat.
Proof.
  intros (? & ? & ->)%write_slice_Some ?. unfold len in *.
  rewrite lookup_app_r; rewrite length_take; [|lia].
  rewrite Nat.min_l by lia.
  rewrite lookup_app_l by lia. done.
Qed.

Lemma write_slice_lookup_out a src l l' (i : nat) :
  write_slice a src l = Some l' -> Z.of_nat i < a \/ a + len src <= Z.of_nat i ->
  l' !! i = l !! i.
Proof.
  intros (? & ? & ->)%write_slice_Some Hi. unfold len in *. destruct Hi.
  - rewrite lookup_app_l by (rewrite length_take; lia). by rewrite lookup_take_lt by lia.
  - rewrite lookup_app_r; rewrite length_take; [|lia].
    rewrite lookup_app_r by lia. rewrite lookup_drop. f_equal. lia.
Qed.

(** Reading back what was written. *)
Lemma slice_write_same a src l l' :
  write_slice a src l = Some l' -> slice a (a + len src) l' = Some src.
Proof.
  intros (? & ? & ->)%write_slice_Some. apply slice_app_mid; unfold len in *;
    rewrite length_take; lia.
Qed.

(** A write leaves disjoint ranges alone. *)
Lemma slice_write_disjoint a src l l' c d :
  write_slice a src l = Some l' -> d <= a \/ a + len src <= c ->
  slice c d l' = slice c d l.
Proof.
  intros H Hd. apply slice_ext; [by eapply write_slice_len|].
  intros i Hi. eapply write_slice_lookup_out; [done|]. lia.
Qed.

Lemma index_Some l i x : index l i = Some x <-> 0 <= i /\ l !! Z.to_nat i = Some x.
Proof.
  unfold index. destruct (Z.leb_spec 0 i); [by split; [|intros [_ ?]]|].
  split; [done|]. intros [? _]. lia.
Qed.

Lemma index_is_Some l i : 0 <= i < len l -> is_Some (index l i).
Proof.
  intros. unfold index, len in *. destruct (Z.leb_spec 0 i); [|lia].
  apply lookup_lt_is_Some. lia.
Qed.

Lemma set_index_Some l i x l' :
  set_index l i x = Some l' <-> 0 <= i < len l /\ l' = <[Z.to_nat i := x]> l.
Proof.
  unfold set_index. destruct (_ && _) eqn:E.
  - apply andb_true_iff in E as [??%Z.ltb_lt]. rewrite !Z.leb_le in *.
    split; [intros [= <-]; auto|by intros (_ & ->)].
  - split; [done|]. intros ([? ?] & _).
    rewrite !andb_false_iff, !Z.leb_gt, !Z.ltb_ge in E. lia.
Qed.

Lemma set_index_ok l i x : 0 <= i < len l -> set_index l i x = Some (<[Z.to_nat i := x]> l).
Proof. intros. by apply set_index_Some. Qed.
End slices.

Lemma slice_Forall {A} (P : A -> Prop) a b l k :
  slice a b l = Some k -> Forall P l -> Forall P k.
Proof. intros (? & ? & ->)%slice_Some ?. by apply Forall_take, Forall_drop. Qed.

Lemma write_slice_Forall {A} (P : A -> Prop) a src l l' :
  write_slice a src l = Some l' -> Forall P src -> Forall P l -> Forall P l'.
Proof.
  intros (? & ? & ->)%write_slice_Some ??.
  apply Forall_app; split; [by apply Forall_take|].
  apply Forall_app; split; [done|by apply Forall_drop].
Qed.
#[export] Hint Resolve slice_Forall write_slice_Forall : bridge.

(** Filling a zeroed array from the left. *)
Lemma write_slice_zeros (a : Z) (p s : bytes) (n : nat) :
  a = len p -> (length s <= n)%nat ->
  write_slice a s (p ++ zeros n) = Some ((p ++ s) ++ zeros (n - length s)).
Proof.
  intros -> Hs. apply write_slice_Some. unfold len. rewrite length_app, length_zeros.
  split; [lia|]. split; [lia|].
  rewrite Nat2Z.id, take_app_length, <- app_assoc. f_equal. f_equal.
  rewrite drop_app_ge by lia. unfold zeros. rewrite drop_replicate. f_equal. lia.
Qed.

(** Consecutive pieces make up the list. *)
Lemma concat_pieces {A} (n k : nat) (l : list A) :
  concat ((fun i => take n (drop (i * n) l)) <$> seq 0 k) = take (k * n) l.
Proof.
  induction k as [|k IH]; [done|]. rewrite seq_S, fmap_app, concat_app, IH. cbn [fmap list_fmap concat Nat.add].
  rewrite app_nil_r, take_take_drop. f_equal. lia.
Qed.

Lemma filter_all {A} (P : A -> Prop) `{!forall x, Decision (P x)} (l : list A) : Forall P l -> filter P l = l.
Proof. induction 1 as [|x l Hx Hl IH]; [done|]. by rewrite filter_cons_True, IH. Qed.

Lemma len_insert {A} i (x : A) l : len (<[i := x]> l) = len l.
Proof. unfold len. by rewrite length_insert. Qed.
#[export] Hint Rewrite @len_insert : bridge_len.

(** Splitting a fixed-size prefix off an array. *)
Lemma byte_array_app n m b :
  byte_array (n + m) b -> byte_array n (take n b) /\ byte_array m (drop n b).
Proof.
  intros [Hl Hb]. split; split; auto using Forall_take, Forall_drop.
  - rewrite length_take. lia.
  - rewrite length_drop. lia.
Qed.

Lemma byte_array_app_inv n m b c :
  byte_array n b -> byte_array m c -> byte_array (n + m) (b ++ c).
Proof. intros [<- ?] [<- ?]. split; [by rewrite length_app|by apply Forall_app]. Qed.

Lemma byte_array_len n b : byte_array n b -> len b = Z.of_nat n.
Proof. intros [<- _]. done. Qed.

(** ** Little-endian integers ([to_le_bytes], [from_le_bytes]) *)

Fixpoint le_bytes (n : nat) (z : Z) : bytes :=
  match n with O => [] | S n' => z mod 256 :: le_bytes n' (z / 256) end.

Fixpoint le_val (b : bytes) : Z :=
  match b with [] => 0 | x :: b' => x + 256 * le_val b' end.

Lemma length_le_bytes n z : length (le_bytes n z) = n.
Proof. revert z. induction n; intros; simpl; auto. Qed.

Lemma le_bytes_bytes n z : Forall is_byte (le_bytes n z).
Proof.
  revert z. induction n; intros; simpl; constructor; auto.
  apply Z.mod_pos_bound. lia.
Qed.

Lemma le_bytes_array n z : byte_array n (le_bytes n z).
Proof. split; [apply length_le_bytes|apply le_bytes_bytes]. Qed.
#[export] Hint Resolve le_bytes_array le_bytes_bytes : bridge.

Lemma pow256_succ n : 2 ^ (8 * Z.of_nat (S n)) = 256 * 2 ^ (8 * Z.of_nat n).
Proof.
  replace (8 * Z.of_nat (S n)) with (8 + 8 * Z.of_nat n) by lia.
  rewrite Z.pow_add_r by lia. done.
Qed.

Lemma le_val_bytes n z : in_width (8 * Z.of_nat n) z -> le_val (le_bytes n z) = z.
Proof.
  unfold in_width. revert z. induction n as [|n IH]; intros z Hz.
  { simpl in *. lia. }
  rewrite pow256_succ in Hz. simpl. rewrite IH.
  - rewrite (Z.div_mod z 256) at 3; lia.
  - split; [apply Z.div_pos; lia|]. apply Z.div_lt_upper_bound; lia.
Qed.

Lemma le_val_bound b : Forall is_byte b -> in_width (8 * len b) (le_val b).
Proof.
  unfold in_width, len. induction 1 as [|x b Hx Hb IH]; [simpl; lia|].
  cbn [length le_val]. rewrite pow256_succ. unfold is_byte in Hx. lia.
Qed.

Lemma le_bytes_val b : Forall is_byte b -> le_bytes (length b) (le_val b) = b.
Proof.
  induction 1 as [|x b Hx Hb IH]; [done|]. unfold is_byte in Hx. cbn [length le_bytes le_val].
  rewrite Z.mul_comm, Z.mod_add, Z.mod_small, Z.div_add, Z.div_small by lia.
  by rewrite Z.add_0_l, IH.
Qed.

Lemma le_bytes_inj n z z' :
  in_width (8 * Z.of_nat n) z -> in_width (8 * Z.of_nat n) z' ->
  le_bytes n z = le_bytes n z' -> z = z'.
Proof. intros Hz Hz' H. rewrite <- (le_val_bytes n z), <- (le_val_bytes n z') by done. by rewrite H. Qed.

(** ** Bits of an index *)

Lemma land1_eqb0 i : (Z.land i 1 =? 0) = Z.even i.
Proof.
  change 1 with (Z.ones 1). rewrite Z.land_ones by lia. change (2 ^ 1) with 2.
  rewrite Zmod_even. by destruct (Z.even i).
Qed.

Lemma land1_eqb1 i : (Z.land i 1 =? 1) = Z.odd i.
Proof.
  change 1 with (Z.ones 1) at 1. rewrite Z.land_ones by lia. change (2 ^ 1) with 2.
  rewrite Zmod_odd. by destruct (Z.odd i).
Qed.

Lemma shiftr_1 i : Z.shiftr i 1 = i / 2.
Proof. by rewrite Z.shiftr_div_pow2. Qed.

Lemma div_pow2_succ n k : n / 2 ^ Z.of_nat k / 2 = n / 2 ^ Z.of_nat (S k).
Proof.
  rewrite Z.div_div by lia. f_equal.
  replace (Z.of_nat (S k)) with (Z.of_nat k + 1) by lia. rewrite Z.pow_add_r by lia. lia.
Qed.

Lemma pow2_succ k : 2 ^ Z.of_nat (S k) = 2 * 2 ^ Z.of_nat k.
Proof. by rewrite Nat2Z.inj_succ, Z.pow_succ_r by lia. Qed.

Lemma even_double n : Z.even n = true -> n = 2 * (n / 2).
Proof. intros Hn. pose proof (Zmod_even n) as Hm. rewrite Hn in Hm. Z.to_euclidean_division_equations; lia. Qed.
Lemma odd_double n : Z.even n = false -> n = 2 * (n / 2) + 1.
Proof. intros Hn. pose proof (Zmod_even n) as Hm. rewrite Hn in Hm. Z.to_euclidean_division_equations; lia. Qed.

(** Disjoint bit fields: [or] is addition. *)
Lemma lor_shiftl_add a b k : 0 <= k -> in_width k b -> Z.lor (Z.shiftl a k) b = a * 2 ^ k + b.
Proof.
  intros Hk Hb. rewrite Z.shiftl_mul_pow2, <- Z.add_lor_land by done.
  replace (Z.land (a * 2 ^ k) b) with 0; [lia|]. symmetry.
  apply Z.bits_inj'. intros i Hi. rewrite Z.land_spec, Z.bits_0.
  destruct (Z.lt_ge_cases i k).
  - by rewrite Z.mul_pow2_bits_low.
  - rewrite <- (Z.mod_small b (2 ^ k)), Z.mod_pow2_bits_high, andb_false_r; [done|lia|done].
Qed.

(** A mask [(1 << k) - 1] keeps the value modulo [2^k]. *)
Lemma land_mask a k : 0 <= k -> Z.land a (2 ^ k - 1) = a mod 2 ^ k.
Proof. intros. by rewrite Z.sub_1_r, <- Z.ones_equiv, Z.land_ones. Qed.

Lemma in_width_land_mask a k : 0 <= k -> (Z.land a (2 ^ k - 1) =? a) = true <-> in_width k a.
Proof.
  intros. rewrite land_mask, Z.eqb_eq by done. unfold in_width. split.
  - intros <-. apply Z.mod_pos_bound, Z.pow_pos_nonneg; lia.
  - apply Z.mod_small.
Qed.

(** ** Tactics of the library *)

(** Turn boolean tests in the context and the goal into propositions. *)
Ltac reflect_bool :=
  repeat match goal with
  | H : context [bool_decide _] |- _ => rewrite bool_decide_eq_true in H
  | H : context [bool_decide _] |- _ => rewrite bool_decide_eq_false in H
  | H : (_ && _) = true |- _ => apply andb_true_iff in H as [? ?]
  | H : (_ || _) = false |- _ => apply orb_false_iff in H as [? ?]
  | H : negb _ = true |- _ => apply negb_true_iff in H
  | H : negb _ = false |- _ => apply negb_false_iff in H
  | H : (_ =? _)%Z = true |- _ => apply Z.eqb_eq in H
  | H : (_ =? _)%Z = false |- _ => apply Z.eqb_neq in H
  | H : (_ <? _)%Z = true |- _ => apply Z.ltb_lt in H
  | H : (_ <? _)%Z = false |- _ => apply Z.ltb_ge in H
  | H : (_ <=? _)%Z = true |- _ => apply Z.leb_le in H
  | H : (_ <=? _)%Z = false |- _ => apply Z.leb_gt in H
  end.

(** One step of inverting a successful run: split the next guard, match or
    sub-call of a hypothesis [H : code = (Ok _, _)] (or [code = Ok _]). *)
Ltac inv_step H :=
  match type of H with
  | context [or_panic ?r] =>
      let E := fresh "E" in destruct r eqn:E; simpl in H; try discriminate H
  | context [ok_or ?r _] =>
      let E := fresh "E" in destruct r eqn:E; simpl in H; try discriminate H
  | context [res_bind ?r _] =>
      let E := fresh "E" in destruct r eqn:E; simpl in H; try discriminate H
  | context [pure_call _ ?r _] =>
      let E := fresh "E" in destruct r eqn:E; simpl in H; try discriminate H
  | context [state_call ?c _ _] =>
      let E := fresh "E" in destruct c as [[] ?] eqn:E; simpl in H; try discriminate H
  | context [if ?c then _ else _] =>
      let E := fresh "E" in destruct c eqn:E; simpl in H; try discriminate H
  | context [match ?c with _ => _ end] =>
      let E := fresh "E" in destruct c eqn:E; simpl in H; try discriminate H
  end.
Ltac inv_run H := repeat inv_step H; simplify_eq; reflect_bool.

(** Peel the first check or sub-call off a successful run [H], naming the fact
    learnt [E]; the failing branch is closed. *)
Ltac peel_as H E := match type of H with
  | (if ?c then _ else _) = _ => destruct c eqn:E; [discriminate H|]
  | res_bind (or_panic ?o) _ = _ =>
      let x := fresh "x" in destruct o as [x|] eqn:E; [cbn [or_panic res_bind] in H|discriminate H]
  | res_bind ?r _ = _ =>
      let x := fresh "x" in destruct r as [x| |] eqn:E; [cbn [res_bind] in H|discriminate H..]
  | pure_call _ (or_panic ?o) _ = _ =>
      let x := fresh "x" in destruct o as [x|] eqn:E; [cbn [or_panic pure_call] in H|discriminate H]
  | pure_call _ ?r _ = _ =>
      let x := fresh "x" in destruct r as [x| |] eqn:E; [cbn [pure_call] in H|discriminate H..]
  | state_call ?c _ _ = _ =>
      let x := fresh "x" in let s := fresh "s" in
      destruct c as [[x| |] s] eqn:E; [rewrite state_call_ok in H|discriminate H..]
  end.
Tactic Notation "peel" hyp(H) "as" ident(E) := peel_as H E.
Ltac peel_all H := repeat (let E := fresh "E" in peel_as H E).

(** Both branches of a test at the head of [H]. *)
Ltac branch_as H E := match type of H with (if ?c then _ else _) = _ => destruct c eqn:E end.
Tactic Notation "branch" hyp(H) "as" ident(E) := branch_as H E.

(** Facts about tests that came out false, as rejected guards do. *)
Ltac reflect_guards := repeat match goal with
  | E : negb (bool_decide _) = false |- _ => apply negb_false_iff, bool_decide_eq_true in E
  end; reflect_bool.
