(* ===== verification/Errors.v ===== *)
(** * Errors: the error enumerations and their program error codes

    Models [libraries/psy-bridge-core/src/error.rs] (the enum with its
    discriminants, the messages of [ToStr], the conversion to a program error),
    [programs/doge-bridge/src/error.rs] and [programs/manual-claim/src/error.rs],
    and the variants of Solana's [ProgramError] that the programs return. *)
From S2P Require Import Prelude.
From Stdlib Require Import ZArith Lia String.
From stdpp Require Import base decidable list numbers option.

Open Scope Z_scope.

Inductive DogeBridgeError : Type :=
| DeserializationError
| SerializationError
| InvalidProgramOwner
| InvalidPda
| ExpectedEmptyAccount
| ExpectedNonEmptyAccount
| ExpectedSignerAccount
| ExpectedWritableAccount
| AccountMismatch
| InvalidAccountKey
| NumericalOverflow
| UnknownError
| AuxPowVersionBitsMismatch
| AuxPowChainIdMismatch
| DifficutlyBitsMismatch
| StandardPoWCheckFailed
| AuxPowParentBlockPoWCheckFailed
| AuxPowCoinBaseBranchSideMaskNonZero
| AuxPowChainMerkleBranchTooLong
| AuxPowParentHasOurChainId
| IncorrectAuxPowMerkleRoot
| AuxPowCoinbaseNoInputs
| AuxPowCoinbaseMissingChainMerkleRoot
| MergedMiningHeaderFoundTwiceInCoinbase
| MergedMiningHeaderNotFoundAtCoinbaseScriptStart
| AuxPowChainMerkleRootTooLateInCoinbaseInputScript
| AuxPowCoinbaseTransactionInputScriptTooShort
| AuxPowCoinbaseScriptInvalidNSize
| AuxPowCoinbaseScriptInvalidSideMask
| BlockNotInCache
| AttemptedToModifiyFinalizedBlock
| InsufficientBlocksProvidedForRollback
| InsertBlockAlreadyInCache
| InsertBlockNotAtTip
| InvalidParentBlockHash
| AuxPowMissing
| AuxPowNotExpected
| BlockTipSyncMismatch
| RollbackBlockTreeRootMismatch
| RollbackBlockTreeIndexMismatch
| RevertIndexTooHigh
| NotEnoughChangedLeftSiblings
| RevertIndexNotPrefix
| TooManyChangedLeftSiblings
| BridgeZKPError
| InvalidBridgeInputZKP
| InvalidVerifierKeyForBridgeZKP
| InvalidPublicInputsForBridgeZKP
| NoFeesToSendToFeeCollector
| AttemptedRollbackOfFinalizedBlock
| BitListBufferTooSmall
| BitListHashMismatch
| BitListEmpty
| AutoProcessMintHashMismatch
| AutoProcessMintHashNotEmpty
| DepositAlreadyProcessed
| AutoClaimedDepositTreeRootNotRecentEnough
| BlockMerkleTreeRootNotRecentEnough
| InsufficientBridgeFees
| ProcessedWithdrawalsTreeRootMismatch
| PendingFinalizedBlockMintsNotEmpty
| NoPendingMintsToProcess
| PendingMintsGroupIndexOutOfBounds
| PendingMintsGroupAlreadyProcessed
| PendingFinalizedBlockMintsInvalidGroupCount
| PendingFinalizedBlockMintsInvalidAutoClaimMintsData
| ProgramStateNotReadyForBlockUpdate
| InvalidZKProofSize
| InvalidZKVerifierKeySize
| InvalidBlockHeightForSingleBlockTransition
| InvalidAutoClaimedDepositsNextIndex
| InvalidMintBufferPdaProgram
| InvalidMintBufferHeaderGroupCountOrDepositsCount
| InvalidAutoClaimMintBufferDataAccountSize
| InvalidMintBufferLockingPermission
| InvalidMintBufferPendingMintGroupsCount
| InvalidMintBufferPendingMintsCount
| TooManyNewAutoClaimedDeposits
| InvalidPendingMintsBufferHash
| InvalidAutoClaimTxoBufferDataAccountSize
| InvalidAutoClaimTxoBufferPendingMintsCount
| InvalidAutoClaimTxoBufferHash
| InvalidBlockHeightForReorgTransition
| InvalidExtraFinalizedBlocksLengthForReorg
| InvalidPendingMintsCountForTransition
| NoPendingMintsToAutoProcess
| RemainingPendingMintsInPreviousState
| InvalidWithdrawalAmount
| InsufficientBridgeBalanceForWithdrawal
| NoOperatorFeesToWithdraw
| InvalidPDAForManualDepositManager
| CpiLockCallError
| CpiUnlockCallError
| CpiSendSignatureRequestCallError
| CpiCreateGenericBufferCallError
| CpiCloseGenericBufferCallError
| CpiCreatePendingMintBufferCallError
| CpiCreateTxoBufferCallError
| CpiCloseTxoBufferCallError
| CpiTokenMintToCallError
| CpiTokenBurnCallError
| CpiManualDepositCallError
| AttemptedUnlockPendingMintBuffer
| FailedUnlockPendingMintBuffer
| InvalidMintBufferPDA
| InvalidTxoBufferPDA
| CannotUnlockAfterAutoAdvance
| InvalidDogeTxHash.

(** [e as u32]: the declared discriminants. *)
Definition error_code (e : DogeBridgeError) : Z :=
  match e with
  | DeserializationError => 0
  | SerializationError => 1
  | InvalidProgramOwner => 2
  | InvalidPda => 3
  | ExpectedEmptyAccount => 4
  | ExpectedNonEmptyAccount => 5
  | ExpectedSignerAccount => 6
  | ExpectedWritableAccount => 7
  | AccountMismatch => 8
  | InvalidAccountKey => 9
  | NumericalOverflow => 10
  | UnknownError => 600
  | AuxPowVersionBitsMismatch => 601
  | AuxPowChainIdMismatch => 602
  | DifficutlyBitsMismatch => 603
  | StandardPoWCheckFailed => 604
  | AuxPowParentBlockPoWCheckFailed => 605
  | AuxPowCoinBaseBranchSideMaskNonZero => 606
  | AuxPowChainMerkleBranchTooLong => 607
  | AuxPowParentHasOurChainId => 608
  | IncorrectAuxPowMerkleRoot => 609
  | AuxPowCoinbaseNoInputs => 610
  | AuxPowCoinbaseMissingChainMerkleRoot => 611
  | MergedMiningHeaderFoundTwiceInCoinbase => 612
  | MergedMiningHeaderNotFoundAtCoinbaseScriptStart => 613
  | AuxPowChainMerkleRootTooLateInCoinbaseInputScript => 614
  | AuxPowCoinbaseTransactionInputScriptTooShort => 615
  | AuxPowCoinbaseScriptInvalidNSize => 616
  | AuxPowCoinbaseScriptInvalidSideMask => 617
  | BlockNotInCache => 701
  | AttemptedToModifiyFinalizedBlock => 702
  | InsufficientBlocksProvidedForRollback => 703
  | InsertBlockAlreadyInCache => 704
  | InsertBlockNotAtTip => 705
  | InvalidParentBlockHash => 706
  | AuxPowMissing => 707
  | AuxPowNotExpected => 708
  | BlockTipSyncMismatch => 709
  | RollbackBlockTreeRootMismatch => 710
  | RollbackBlockTreeIndexMismatch => 711
  | RevertIndexTooHigh => 724
  | NotEnoughChangedLeftSiblings => 725
  | RevertIndexNotPrefix => 726
  | TooManyChangedLeftSiblings => 727
  | BridgeZKPError => 750
  | InvalidBridgeInputZKP => 751
  | InvalidVerifierKeyForBridgeZKP => 752
  | InvalidPublicInputsForBridgeZKP => 753
  | NoFeesToSendToFeeCollector => 800
  | AttemptedRollbackOfFinalizedBlock => 801
  | BitListBufferTooSmall => 802
  | BitListHashMismatch => 803
  | BitListEmpty => 804
  | AutoProcessMintHashMismatch => 805
  | AutoProcessMintHashNotEmpty => 806
  | DepositAlreadyProcessed => 900
  | AutoClaimedDepositTreeRootNotRecentEnough => 901
  | BlockMerkleTreeRootNotRecentEnough => 902
  | InsufficientBridgeFees => 903
  | ProcessedWithdrawalsTreeRootMismatch => 904
  | PendingFinalizedBlockMintsNotEmpty => 905
  | NoPendingMintsToProcess => 906
  | PendingMintsGroupIndexOutOfBounds => 907
  | PendingMintsGroupAlreadyProcessed => 908
  | PendingFinalizedBlockMintsInvalidGroupCount => 909
  | PendingFinalizedBlockMintsInvalidAutoClaimMintsData => 910
  | ProgramStateNotReadyForBlockUpdate => 911
  | InvalidZKProofSize => 912
  | InvalidZKVerifierKeySize => 913
  | InvalidBlockHeightForSingleBlockTransition => 914
  | InvalidAutoClaimedDepositsNextIndex => 915
  | InvalidMintBufferPdaProgram => 916
  | InvalidMintBufferHeaderGroupCountOrDepositsCount => 917
  | InvalidAutoClaimMintBufferDataAccountSize => 918
  | InvalidMintBufferLockingPermission => 919
  | InvalidMintBufferPendingMintGroupsCount => 920
  | InvalidMintBufferPendingMintsCount => 921
  | TooManyNewAutoClaimedDeposits => 922
  | InvalidPendingMintsBufferHash => 923
  | InvalidAutoClaimTxoBufferDataAccountSize => 924
  | InvalidAutoClaimTxoBufferPendingMintsCount => 925
  | InvalidAutoClaimTxoBufferHash => 926
  | InvalidBlockHeightForReorgTransition => 927
  | InvalidExtraFinalizedBlocksLengthForReorg => 928
  | InvalidPendingMintsCountForTransition => 929
  | NoPendingMintsToAutoProcess => 930
  | RemainingPendingMintsInPreviousState => 931
  | InvalidWithdrawalAmount => 932
  | InsufficientBridgeBalanceForWithdrawal => 933
  | NoOperatorFeesToWithdraw => 934
  | InvalidPDAForManualDepositManager => 935
  | CpiLockCallError => 936
  | CpiUnlockCallError => 937
  | CpiSendSignatureRequestCallError => 938
  | CpiCreateGenericBufferCallError => 939
  | CpiCloseGenericBufferCallError => 940
  | CpiCreatePendingMintBufferCallError => 941
  | CpiCreateTxoBufferCallError => 942
  | CpiCloseTxoBufferCallError => 943
  | CpiTokenMintToCallError => 944
  | CpiTokenBurnCallError => 945
  | CpiManualDepositCallError => 946
  | AttemptedUnlockPendingMintBuffer => 947
  | FailedUnlockPendingMintBuffer => 948
  | InvalidMintBufferPDA => 949
  | InvalidTxoBufferPDA => 950
  | CannotUnlockAfterAutoAdvance => 951
  | InvalidDogeTxHash => 952
  end.

(** Every code below 1000 that belongs to a variant, decoded. *)
Definition all_errors : list DogeBridgeError := [
  DeserializationError; SerializationError; InvalidProgramOwner;
  InvalidPda; ExpectedEmptyAccount; ExpectedNonEmptyAccount;
  ExpectedSignerAccount; ExpectedWritableAccount; AccountMismatch;
  InvalidAccountKey; NumericalOverflow; UnknownError;
  AuxPowVersionBitsMismatch; AuxPowChainIdMismatch; DifficutlyBitsMismatch;
  StandardPoWCheckFailed; AuxPowParentBlockPoWCheckFailed; AuxPowCoinBaseBranchSideMaskNonZero;
  AuxPowChainMerkleBranchTooLong; AuxPowParentHasOurChainId; IncorrectAuxPowMerkleRoot;
  AuxPowCoinbaseNoInputs; AuxPowCoinbaseMissingChainMerkleRoot; MergedMiningHeaderFoundTwiceInCoinbase;
  MergedMiningHeaderNotFoundAtCoinbaseScriptStart; AuxPowChainMerkleRootTooLateInCoinbaseInputScript; AuxPowCoinbaseTransactionInputScriptTooShort;
  AuxPowCoinbaseScriptInvalidNSize; AuxPowCoinbaseScriptInvalidSideMask; BlockNotInCache;
  AttemptedToModifiyFinalizedBlock; InsufficientBlocksProvidedForRollback; InsertBlockAlreadyInCache;
  InsertBlockNotAtTip; InvalidParentBlockHash; AuxPowMissing;
  AuxPowNotExpected; BlockTipSyncMismatch; RollbackBlockTreeRootMismatch;
  RollbackBlockTreeIndexMismatch; RevertIndexTooHigh; NotEnoughChangedLeftSiblings;
  RevertIndexNotPrefix; TooManyChangedLeftSiblings; BridgeZKPError;
  InvalidBridgeInputZKP; InvalidVerifierKeyForBridgeZKP; InvalidPublicInputsForBridgeZKP;
  NoFeesToSendToFeeCollector; AttemptedRollbackOfFinalizedBlock; BitListBufferTooSmall;
  BitListHashMismatch; BitListEmpty; AutoProcessMintHashMismatch;
  AutoProcessMintHashNotEmpty; DepositAlreadyProcessed; AutoClaimedDepositTreeRootNotRecentEnough;
  BlockMerkleTreeRootNotRecentEnough; InsufficientBridgeFees; ProcessedWithdrawalsTreeRootMismatch;
  PendingFinalizedBlockMintsNotEmpty; NoPendingMintsToProcess; PendingMintsGroupIndexOutOfBounds;
  PendingMintsGroupAlreadyProcessed; PendingFinalizedBlockMintsInvalidGroupCount; PendingFinalizedBlockMintsInvalidAutoClaimMintsData;
  ProgramStateNotReadyForBlockUpdate; InvalidZKProofSize; InvalidZKVerifierKeySize;
  InvalidBlockHeightForSingleBlockTransition; InvalidAutoClaimedDepositsNextIndex; InvalidMintBufferPdaProgram;
  InvalidMintBufferHeaderGroupCountOrDepositsCount; InvalidAutoClaimMintBufferDataAccountSize; InvalidMintBufferLockingPermission;
  InvalidMintBufferPendingMintGroupsCount; InvalidMintBufferPendingMintsCount; TooManyNewAutoClaimedDeposits;
  InvalidPendingMintsBufferHash; InvalidAutoClaimTxoBufferDataAccountSize; InvalidAutoClaimTxoBufferPendingMintsCount;
  InvalidAutoClaimTxoBufferHash; InvalidBlockHeightForReorgTransition; InvalidExtraFinalizedBlocksLengthForReorg;
  InvalidPendingMintsCountForTransition; NoPendingMintsToAutoProcess; RemainingPendingMintsInPreviousState;
  InvalidWithdrawalAmount; InsufficientBridgeBalanceForWithdrawal; NoOperatorFeesToWithdraw;
  InvalidPDAForManualDepositManager; CpiLockCallError; CpiUnlockCallError;
  CpiSendSignatureRequestCallError; CpiCreateGenericBufferCallError; CpiCloseGenericBufferCallError;
  CpiCreatePendingMintBufferCallError; CpiCreateTxoBufferCallError; CpiCloseTxoBufferCallError;
  CpiTokenMintToCallError; CpiTokenBurnCallError; CpiManualDepositCallError;
  AttemptedUnlockPendingMintBuffer; FailedUnlockPendingMintBuffer; InvalidMintBufferPDA;
  InvalidTxoBufferPDA; CannotUnlockAfterAutoAdvance; InvalidDogeTxHash].

Definition decode (code : Z) : option DogeBridgeError :=
  List.find (fun e => error_code e =? code) all_errors.

Lemma decode_error_code e : decode (error_code e) = Some e.
Proof. by destruct e. Qed.

#[export] Instance DogeBridgeError_eq_dec : EqDecision DogeBridgeError.
Proof.
  intros e e'. destruct (decide (error_code e = error_code e')) as [E|E].
  - left. pose proof (decode_error_code e) as H. rewrite E, decode_error_code in H. congruence.
  - right. intros ->. by apply E.
Defined.

(** [ToStr::to_str]. *)
Definition to_str (e : DogeBridgeError) : string :=
  (match e with
  | DeserializationError => "Error deserializing an account"
  | SerializationError => "Error serializing an account"
  | InvalidProgramOwner => "Invalid program owner. This likely mean the provided account does not exist"
  | InvalidPda => "Invalid PDA derivation"
  | ExpectedEmptyAccount => "Expected empty account"
  | ExpectedNonEmptyAccount => "Expected non empty account"
  | ExpectedSignerAccount => "Expected signer account"
  | ExpectedWritableAccount => "Expected writable account"
  | AccountMismatch => "Account mismatch"
  | InvalidAccountKey => "Invalid account key"
  | NumericalOverflow => "Numerical overflow"
  | UnknownError => "Unknown Error"
  | AuxPowVersionBitsMismatch => "AuxPow version bits mismatch"
  | AuxPowChainIdMismatch => "AuxPow chain id mismatch"
  | DifficutlyBitsMismatch => "Difficulty bits mismatch"
  | StandardPoWCheckFailed => "Standard proof of work check failed"
  | AuxPowParentBlockPoWCheckFailed => "AuxPow parent block proof of work check failed"
  | AuxPowCoinBaseBranchSideMaskNonZero => "coinbase_branch.side_mask != 0, AuxPow is not a generate"
  | AuxPowChainMerkleBranchTooLong => "Aux POW chain merkle branch too long"
  | AuxPowParentHasOurChainId => "Aux POW parent has our chain ID"
  | IncorrectAuxPowMerkleRoot => "Incorrect Aux POW merkle root"
  | AuxPowCoinbaseNoInputs => "Aux POW coinbase has no inputs"
  | AuxPowCoinbaseMissingChainMerkleRoot => "Aux POW missing chain merkle root in parent coinbase"
  | MergedMiningHeaderFoundTwiceInCoinbase => "MERGED_MINING_HEADER found twice in coinbase transaction input script"
  | MergedMiningHeaderNotFoundAtCoinbaseScriptStart => "MERGED_MINING_HEADER not found at the beginning of the coinbase transaction input script"
  | AuxPowChainMerkleRootTooLateInCoinbaseInputScript => "chain merkle root starts too late in the coinbase transaction input script"
  | AuxPowCoinbaseTransactionInputScriptTooShort => "coinbase transaction input script is too short"
  | AuxPowCoinbaseScriptInvalidNSize => "n_size in coinbase script does not correspond to the number of leaves of the merkle tree implictly defined by the blockchain branch hashes length"
  | AuxPowCoinbaseScriptInvalidSideMask => "the sidemask provided in blockchain branch does not match the one computed from the coinbase transaction script"
  | BlockNotInCache => "Attempted to fetch a Block at a height that is not stored in the cache (it is either too old or has not been processed yet)"
  | AttemptedToModifiyFinalizedBlock => "Attempted to modify an already finalized/confirmed block"
  | InsufficientBlocksProvidedForRollback => "Insufficient block provided for rollback in the block data tracker"
  | InsertBlockAlreadyInCache => "Attempted to insert a Block that already exists in the cache"
  | InsertBlockNotAtTip => "Attempted to append a block with a height that is not equal to the current tip + 1"
  | InvalidParentBlockHash => "Parent block hash in block header does not match the current tip"
  | AuxPowMissing => "AuxPow missing in aux pow block"
  | AuxPowNotExpected => "AuxPow found in non-aux pow block"
  | BlockTipSyncMismatch => "Block tip sync mismatch error"
  | RollbackBlockTreeRootMismatch => "The root of the Block tree after rollback doesn't match the known correct root"
  | RollbackBlockTreeIndexMismatch => "The index of the block tree failed to rollback correctly"
  | RevertIndexTooHigh => "Cannot revert to index greater than or equal to current index"
  | NotEnoughChangedLeftSiblings => "Not enough changed left siblings"
  | RevertIndexNotPrefix => "Revert index is not a prefix of current index"
  | TooManyChangedLeftSiblings => "Too many changed left siblings provided"
  | BridgeZKPError => "Invalid bridge ZKP"
  | InvalidBridgeInputZKP => "Invalid bridge ZKP provided as input"
  | InvalidVerifierKeyForBridgeZKP => "Invalid verifier key for bridge ZKP"
  | InvalidPublicInputsForBridgeZKP => "Invalid public inputs for bridge ZKP"
  | NoFeesToSendToFeeCollector => "There are no fees to send to the fee collector"
  | AttemptedRollbackOfFinalizedBlock => "You cannot rollback to a state before the last finalized block"
  | BitListBufferTooSmall => "The bit-list buffer provided is too small for the size specified in the bit vector header"
  | BitListHashMismatch => "The hash of the bit-list or the provided new bit-list hash stack does not match the expected hash"
  | BitListEmpty => "The user attempted to pop from an empty bit-list hash stack"
  | AutoProcessMintHashMismatch => "The provided public key and amount or updated pending mint hash stack hash do not match the expected value"
  | AutoProcessMintHashNotEmpty => "The caller attempted to perform a bridge state transition without clearing the pending auto processed mint hash stack"
  | DepositAlreadyProcessed => "The deposit being processed has already been recorded"
  | AutoClaimedDepositTreeRootNotRecentEnough => "Auto claimed deposit tree root not found or is not recent enough"
  | BlockMerkleTreeRootNotRecentEnough => "Block merkle tree root not found or is not recent enough"
  | InsufficientBridgeFees => "The request could not be processed due to insufficient fees"
  | ProcessedWithdrawalsTreeRootMismatch => "processed withdrawals tree root mismatch"
  | PendingFinalizedBlockMintsNotEmpty => "Mints from finalized blocks are still pending processing"
  | NoPendingMintsToProcess => "No pending mints to process"
  | PendingMintsGroupIndexOutOfBounds => "Pending mints group index out of bounds"
  | PendingMintsGroupAlreadyProcessed => "Pending mints group already processed"
  | PendingFinalizedBlockMintsInvalidGroupCount => "Invalid pending finalized block mints group count, must be less than or equal to 8"
  | PendingFinalizedBlockMintsInvalidAutoClaimMintsData => "Invalid pending finalized block mints data"
  | ProgramStateNotReadyForBlockUpdate => "Program state not ready for new block update"
  | InvalidZKProofSize => "Invalid ZK proof size"
  | InvalidZKVerifierKeySize => "Invalid ZK verifier key size"
  | InvalidBlockHeightForSingleBlockTransition => "Invalid block height for single block transition"
  | InvalidAutoClaimedDepositsNextIndex => "Invalid auto claimed deposits next index less than previous"
  | InvalidMintBufferPdaProgram => "Mint buffer PDA is not for the correct buffer builder program"
  | InvalidMintBufferHeaderGroupCountOrDepositsCount => "Mint buffer header group count/deposits count does not match the values in the incoming finalized bridge header"
  | InvalidAutoClaimMintBufferDataAccountSize => "Invalid mint buffer size passed to block update"
  | InvalidMintBufferLockingPermission => "Mint buffer locking permission is not set to the bridge program"
  | InvalidMintBufferPendingMintGroupsCount => "Invalid pending mint groups count in mint buffer header"
  | InvalidMintBufferPendingMintsCount => "Invalid pending mints count in mint buffer header"
  | TooManyNewAutoClaimedDeposits => "Too many new auto claimed deposits in block update"
  | InvalidPendingMintsBufferHash => "Invalid pending mints buffer hash"
  | InvalidAutoClaimTxoBufferDataAccountSize => "Invalid auto claim txo buffer size"
  | InvalidAutoClaimTxoBufferPendingMintsCount => "Invalid auto claim txo buffer pending mints count"
  | InvalidAutoClaimTxoBufferHash => "Invalid auto claim txo buffer hash"
  | InvalidBlockHeightForReorgTransition => "Invalid block height for reorg transition"
  | InvalidExtraFinalizedBlocksLengthForReorg => "Invalid extra finalized blocks length for reorg transition"
  | InvalidPendingMintsCountForTransition => "Invalid pending mints count for transition"
  | NoPendingMintsToAutoProcess => "no pending mints to auto process"
  | RemainingPendingMintsInPreviousState => "previous pending mints not completed"
  | InvalidWithdrawalAmount => "invalid withdrawal amount"
  | InsufficientBridgeBalanceForWithdrawal => "insufficient bridge balance for withdrawal"
  | NoOperatorFeesToWithdraw => "no operator fees to withdraw"
  | InvalidPDAForManualDepositManager => "Invalid PDA for manual deposit manager"
  | CpiLockCallError => "Error in cpi lock call to mint buffer"
  | CpiUnlockCallError => "Error in cpi lock call to mint buffer"
  | CpiSendSignatureRequestCallError => "Error in cpi send signature request call to doge sig requester program"
  | CpiCreateGenericBufferCallError => "Error in cpi create generic buffer call to generic buffer program"
  | CpiCloseGenericBufferCallError => "Error in cpi close generic buffer call to generic buffer program"
  | CpiCreatePendingMintBufferCallError => "Error in cpi create pending mint buffer call to pending mint buffer program"
  | CpiCreateTxoBufferCallError => "Error in cpi create txo buffer call to txo buffer program"
  | CpiCloseTxoBufferCallError => "Error in cpi close txo buffer call to txo buffer program"
  | CpiTokenMintToCallError => "Error in cpi token mint to call to token program"
  | CpiTokenBurnCallError => "Error in cpi burn call to token program"
  | CpiManualDepositCallError => "Error in cpi manual deposit call to manual claim program"
  | AttemptedUnlockPendingMintBuffer => "Attempted to unlock pending mint buffer when not allowed"
  | FailedUnlockPendingMintBuffer => "Failed to unlock pending mint buffer when necessary"
  | InvalidMintBufferPDA => "Invalid mint buffer PDA"
  | InvalidTxoBufferPDA => "Invalid txo buffer PDA"
  | CannotUnlockAfterAutoAdvance => "Cannot unlock pending mint buffer after auto advancing pending mint state"
  | InvalidDogeTxHash => "Invalid Doge transaction hash"
  end)%string.

(** ** Solana program errors

    The variants of [ProgramError] that the programs construct or propagate. *)
Inductive ProgramError : Type :=
| Custom (code : Z)
| InvalidArgument
| InvalidInstructionData
| InvalidAccountData
| AccountDataTooSmall
| InsufficientFunds
| IncorrectProgramId
| MissingRequiredSignature
| AccountAlreadyInitialized
| UninitializedAccount
| NotEnoughAccountKeys
| AccountBorrowFailed
| InvalidSeeds
| IllegalOwner
| InvalidRealloc.

#[export] Instance ProgramError_eq_dec : EqDecision ProgramError.
Proof. solve_decision. Defined.

(** [impl From<DogeBridgeError> for ProgramError]. *)
Definition doge_to_program_error (e : DogeBridgeError) : ProgramError := Custom (error_code e).

(** [programs/doge-bridge/src/error.rs] *)
Module BridgeError.
Inductive BridgeError : Type :=
| CoreError
| SerializationError
| InvalidPDA
| InvalidAccountInput
| UnauthorizedManualClaimer.

Definition code (e : BridgeError) : Z :=
  match e with
  | CoreError => 0
  | SerializationError => 1
  | InvalidPDA => 2
  | InvalidAccountInput => 3
  | UnauthorizedManualClaimer => 4
  end.

Definition to_program_error (e : BridgeError) : ProgramError := Custom (code e).
Definition from_doge (e : DogeBridgeError) : BridgeError := CoreError.
End BridgeError.

(** [programs/manual-claim/src/error.rs] *)
Module ManualClaimError.
Inductive ManualClaimError : Type :=
| CoreError
| SerializationError
| InvalidPDA
| InvalidRecipientATA.

Definition code (e : ManualClaimError) : Z :=
  match e with
  | CoreError => 0
  | SerializationError => 1
  | InvalidPDA => 2
  | InvalidRecipientATA => 3
  end.

Definition to_program_error (e : ManualClaimError) : ProgramError := Custom (code e).
Definition from_doge (e : DogeBridgeError) : ManualClaimError := CoreError.
End ManualClaimError.

(** ** Lemmas *)

Lemma error_code_u32 e : in_width 32 (error_code e).
Proof. destruct e; unfold in_width; simpl; lia. Qed.

(** The error code that reaches a Solana client identifies the bridge error:
    the discriminants are distinct, fit [u32], and survive the conversion to a
    program error. *)
Theorem program_error_identifies_bridge_error e e' :
  doge_to_program_error e = doge_to_program_error e' <-> e = e'.
Proof.
  split; [|by intros ->]. intros [= E].
  pose proof (decode_error_code e) as H. rewrite E, decode_error_code in H. congruence.
Qed.

(** The codes of the doge-bridge program's own enum are also codes of
    [DogeBridgeError] with a different meaning. *)
Lemma bridge_error_codes_overlap :
  BridgeError.to_program_error BridgeError.InvalidPDA = doge_to_program_error InvalidProgramOwner /\
  BridgeError.to_program_error BridgeError.InvalidAccountInput = doge_to_program_error InvalidPda.
Proof. done. Qed.
