(* ===== verification/Pod.v ===== *)
(** * Pod: plain-old-data layouts

    The programs read and write account memory through [bytemuck]: a [#[repr(C)]]
    struct without padding is the concatenation of its fields, integers in little
    endian.  [Pod A] states that contract as an interface: a size, a
    well-formedness predicate, the encoding, the decoding and their round trips.
    Instances exist for integers, byte arrays, arrays and products; a struct gets
    its instance from the product of its fields through [pod_iso]. *)
From S2P Require Import Prelude.
From Stdlib Require Import ZArith Lia.
From stdpp Require Import base decidable list numbers option.

Open Scope Z_scope.

Class Pod (A : Type) := {
  pod_size : nat;
  pod_wf : A -> Prop;
  bytes_of : A -> bytes;
  from_bytes : bytes -> A;
  bytes_of_array a : pod_wf a -> byte_array pod_size (bytes_of a);
  from_bytes_wf b : byte_array pod_size b -> pod_wf (from_bytes b);
  from_bytes_of a : pod_wf a -> from_bytes (bytes_of a) = a;
  bytes_of_from b : byte_array pod_size b -> bytes_of (from_bytes b) = b
}.
Arguments pod_size A {_}.

(** An [n]-byte unsigned integer. *)
Definition pod_uint (n : nat) : Pod Z.
Proof.
  refine {| pod_size := n; pod_wf := in_width (8 * Z.of_nat n);
            bytes_of := le_bytes n; from_bytes := le_val |}.
  - intros; apply le_bytes_array.
  - intros b [<- Hb]. by apply le_val_bound.
  - intros a Ha. by apply le_val_bytes.
  - intros b [<- Hb]. by apply le_bytes_val.
Defined.

(** [[u8; n]] *)
Definition pod_array (n : nat) : Pod bytes.
Proof.
  refine {| pod_size := n; pod_wf := byte_array n;
            bytes_of := fun b => b; from_bytes := fun b => b |}; auto.
Defined.

(** Two fields, one after the other. *)
Definition pod_prod {A B} (PA : Pod A) (PB : Pod B) : Pod (A * B).
Proof.
  refine {| pod_size := pod_size A + pod_size B;
            pod_wf := fun p => pod_wf p.1 /\ pod_wf p.2;
            bytes_of := fun p => bytes_of p.1 ++ bytes_of p.2;
            from_bytes := fun b => (from_bytes (take (pod_size A) b), from_bytes (drop (pod_size A) b)) |}.
  - intros [a b] [Ha Hb]. apply byte_array_app_inv; by apply bytes_of_array.
  - intros b Hb. apply byte_array_app in Hb as [? ?]. split; by apply from_bytes_wf.
  - intros [a b] [Ha Hb]. simpl. destruct (bytes_of_array a Ha) as [Hl _].
    by rewrite take_app_length', drop_app_length', !from_bytes_of by done.
  - intros b Hb. apply byte_array_app in Hb as [? ?]. simpl.
    by rewrite !bytes_of_from, take_drop by done.
Defined.

(** [[T; n]] *)
Fixpoint bytes_of_list {A} (f : A -> bytes) (l : list A) : bytes :=
  match l with [] => [] | x :: l => f x ++ bytes_of_list f l end.

Fixpoint list_from_bytes {A} (size : nat) (f : bytes -> A) (n : nat) (b : bytes) : list A :=
  match n with O => [] | S n => f (take size b) :: list_from_bytes size f n (drop size b) end.

Section pod_list_lemmas.
Context {A : Type} {PA : Pod A}.

Lemma bytes_of_list_array l :
  Forall pod_wf l -> byte_array (length l * pod_size A) (bytes_of_list bytes_of l).
Proof.
  induction 1 as [|x l Hx Hl IH]; simpl; [by split|].
  apply byte_array_app_inv; [by apply bytes_of_array|done].
Qed.

Lemma list_from_bytes_wf n b :
  byte_array (n * pod_size A) b ->
  length (list_from_bytes (pod_size A) from_bytes n b) = n /\
  Forall pod_wf (list_from_bytes (pod_size A) from_bytes n b).
Proof.
  revert b. induction n as [|n IH]; intros b Hb; simpl; [done|].
  simpl in Hb. apply byte_array_app in Hb as [Hb1 Hb2].
  destruct (IH _ Hb2) as [? ?]. split; [lia|]. constructor; [by apply from_bytes_wf|done].
Qed.

Lemma list_from_bytes_of l :
  Forall pod_wf l ->
  list_from_bytes (pod_size A) from_bytes (length l) (bytes_of_list bytes_of l) = l.
Proof.
  induction 1 as [|x l Hx Hl IH]; simpl; [done|].
  destruct (bytes_of_array x Hx) as [Hs _].
  by rewrite take_app_length', drop_app_length', from_bytes_of, IH by done.
Qed.

Lemma bytes_of_list_from n b :
  byte_array (n * pod_size A) b ->
  bytes_of_list bytes_of (list_from_bytes (pod_size A) from_bytes n b) = b.
Proof.
  revert b. induction n as [|n IH]; intros b Hb; simpl in *.
  { destruct Hb as [Hb _]. by destruct b. }
  apply byte_array_app in Hb as [Hb1 Hb2]. by rewrite bytes_of_from, IH, take_drop.
Qed.
End pod_list_lemmas.

Definition pod_list {A} (n : nat) (PA : Pod A) : Pod (list A).
Proof.
  refine {| pod_size := n * pod_size A;
            pod_wf := fun l => length l = n /\ Forall pod_wf l;
            bytes_of := bytes_of_list bytes_of;
            from_bytes := list_from_bytes (pod_size A) from_bytes n |}.
  - intros l [<- Hl]. by apply bytes_of_list_array.
  - intros b Hb. by apply list_from_bytes_wf.
  - intros l [<- Hl]. by apply list_from_bytes_of.
  - intros b Hb. by apply bytes_of_list_from.
Defined.

(** A struct through the tuple of its fields. *)
Definition pod_iso {A B} (PA : Pod A) (to : A -> B) (from : B -> A)
    (Hto : forall b, to (from b) = b) (Hfrom : forall a, from (to a) = a) : Pod B.
Proof.
  refine {| pod_size := pod_size A; pod_wf := fun b => pod_wf (from b);
            bytes_of := fun b => bytes_of (from b); from_bytes := fun bs => to (from_bytes bs) |}.
  - intros b Hb. by apply bytes_of_array.
  - intros b Hb. rewrite Hfrom. by apply from_bytes_wf.
  - intros b Hb. by rewrite from_bytes_of.
  - intros b Hb. by rewrite Hfrom, bytes_of_from.
Defined.

(** A value that survives the round trip through bytes is well formed; for closed
    values both conditions are decided by evaluation. *)
Lemma pod_wf_round_trip {A} {PA : Pod A} (a : A) :
  byte_array (pod_size A) (bytes_of a) -> from_bytes (bytes_of a) = a -> pod_wf a.
Proof. intros Hb Hr. rewrite <- Hr. by apply from_bytes_wf. Qed.

Ltac pod_wf_closed :=
  apply pod_wf_round_trip; [apply (bool_decide_unpack _); vm_compute; exact I|vm_compute; reflexivity].

Infix "**" := pod_prod (at level 41, right associativity) : bridge_scope.

(** [bytemuck::from_bytes] on a slice: panics ([None]) unless the length is the
    size of the type. *)
Definition cast {A} {PA : Pod A} (b : bytes) : option A :=
  if decide (length b = pod_size A) then Some (from_bytes b) else None.

Section cast_lemmas.
Context {A : Type} {PA : Pod A}.

Lemma cast_Some b (a : A) : cast b = Some a <-> length b = pod_size A /\ a = from_bytes b.
Proof.
  unfold cast. destruct (decide _); [|by split; [|intros []]].
  split; [by intros [= <-]|by intros [_ ->]].
Qed.

Lemma cast_bytes_of (a : A) : pod_wf a -> cast (bytes_of a) = Some a.
Proof.
  intros Ha. apply cast_Some. destruct (bytes_of_array a Ha). by rewrite from_bytes_of.
Qed.

Lemma bytes_of_inj (a b : A) : pod_wf a -> pod_wf b -> bytes_of a = bytes_of b -> a = b.
Proof. intros Ha Hb E. rewrite <- (from_bytes_of a), <- (from_bytes_of b) by done. by rewrite E. Qed.
End cast_lemmas.

(** Structs one after the other. *)
Lemma len_concat_pods {A} {PA : Pod A} (l : list A) :
  Forall pod_wf l -> len (concat (bytes_of <$> l)) = Z.of_nat (pod_size A) * len l.
Proof.
  induction 1 as [|a l Ha Hl IH]; [unfold len; simpl; lia|]. cbn [fmap list_fmap concat].
  destruct (bytes_of_array a Ha) as [Hs _]. rewrite len_app, len_cons, IH. unfold len at 1. rewrite Hs. lia.
Qed.

(** The all-zero value: [Zeroable::zeroed], and [Default::default] of a struct whose
    fields default to zero. *)
Definition zeroed {A} {PA : Pod A} : A := from_bytes (zeros (pod_size A)).
Arguments zeroed A {_}.

Lemma zeroed_wf {A} {PA : Pod A} : pod_wf (zeroed A).
Proof. apply from_bytes_wf, byte_array_zeros. Qed.
#[export] Hint Resolve zeroed_wf : bridge.

(** A struct at the start of an account's memory, as [bytemuck::from_bytes] of
    [&data[0..size]] reads it and [from_bytes_mut] writes it. *)
Definition read_pod {A} {PA : Pod A} (d : bytes) : option A :=
  b ← slice 0 (Z.of_nat (pod_size A)) d; cast b.
Definition write_pod {A} {PA : Pod A} (a : A) (d : bytes) : option bytes := write_slice 0 (bytes_of a) d.

Section read_write.
Context {A : Type} {PA : Pod A}.

Lemma read_pod_wf d (a : A) : Forall is_byte d -> read_pod d = Some a -> pod_wf a.
Proof.
  intros Hd Hr. unfold read_pod in Hr. destruct (slice _ _ _) as [b|] eqn:Es; [|done].
  cbn [mbind option_bind] in Hr. apply cast_Some in Hr as [Hl ->]. apply from_bytes_wf. split; [done|].
  by eapply slice_Forall.
Qed.

Lemma read_pod_len d (a : A) : read_pod d = Some a -> Z.of_nat (pod_size A) <= len d.
Proof.
  unfold read_pod. destruct (slice _ _ _) eqn:Es; [|done]. intros _. by apply slice_Some in Es as (_ & ? & _).
Qed.

(** Only the bytes of the struct matter for reading it. *)
Lemma read_pod_ext d d' :
  slice 0 (Z.of_nat (pod_size A)) d' = slice 0 (Z.of_nat (pod_size A)) d -> read_pod (A := A) d' = read_pod d.
Proof. unfold read_pod. by intros ->. Qed.

(** Writing a struct: it reads back, the rest of the memory is kept. *)
Lemma write_pod_spec (a : A) d d' :
  pod_wf a -> write_pod a d = Some d' ->
  read_pod d' = Some a /\ len d' = len d /\
  (forall b c, Z.of_nat (pod_size A) <= b -> slice b c d' = slice b c d) /\
  (Forall is_byte d -> Forall is_byte d').
Proof.
  intros Ha Hw. unfold write_pod in Hw. destruct (bytes_of_array a Ha) as [Hl Hb].
  assert (len (bytes_of a) = Z.of_nat (pod_size A)) as Hlen by (unfold len; by rewrite Hl).
  pose proof (slice_write_same _ _ _ _ Hw) as Hs. rewrite Hlen in Hs.
  split; [unfold read_pod; rewrite Z.add_0_l in Hs; rewrite Hs; cbn [mbind option_bind]; by apply cast_bytes_of|].
  split; [by eapply write_slice_len|]. split.
  - intros b c Hbc. eapply slice_write_disjoint; [exact Hw|]. lia.
  - intros Hd. by eapply write_slice_Forall.
Qed.

Lemma write_pod_Some (a : A) d : pod_wf a -> Z.of_nat (pod_size A) <= len d -> is_Some (write_pod a d).
Proof.
  intros Ha Hd. destruct (bytes_of_array a Ha) as [Hl _]. eexists. unfold write_pod. apply write_slice_Some.
  split; [done|]. split; [unfold len in *; lia|]. done.
Qed.
End read_write.

(** Solve the two side conditions of [pod_iso] for a record and its tuple. *)
Ltac pod_iso_tac :=
  intros; repeat match goal with p : (_ * _)%type |- _ => destruct p end;
  first [ reflexivity | match goal with r : _ |- _ => destruct r; reflexivity end ].
