(* ===== verification/Hash.v ===== *)
(** * Hash: SHA-256 and RIPEMD-160 wrappers, Merkle hashers, zero-hash table

    Models [libraries/psy-bridge-core/src/crypto/hash]: [sha256_impl.rs],
    [traits.rs], [sha256.rs], [ripemd160_impl.rs] and [ripemd160.rs].

    The two compression functions come from the crates [sha2] (or the Solana
    syscall) and [ripemd]; they are the parameters [Sha256] and [Ripemd160].
    [Sha256Laws] is what the bridge relies on: the digest is 32 bytes, and the
    literal table [SHA256_ZERO_HASHES] is the chain of roots of all-zero
    subtrees.  [Sha256.v] discharges both for the FIPS 180-4 function. *)
From S2P Require Import Prelude.
From Stdlib Require Import ZArith Lia.
From stdpp Require Import base decidable list numbers option.

Open Scope Z_scope.
Open Scope bridge_scope.

Abbreviation QHash256 := bytes.
Abbreviation QHash160 := bytes.

Class Sha256 := sha256 : bytes -> bytes.
Class Ripemd160 := ripemd160 : bytes -> bytes.

(** ** The hashing traits ([traits.rs]) *)

(** [ZeroableHash::get_zero_value] for [[u8; N]]. *)
Definition get_zero_value (N : nat) : bytes := zeros N.

Class BytesHasher (Hash : Type) := { hash_bytes : bytes -> Hash }.

Class MerkleHasher (Hash : Type) := { two_to_one : Hash -> Hash -> Hash }.

Definition two_to_one_swap {Hash} `{MerkleHasher Hash} (swap : bool) (left right : Hash) : Hash :=
  if swap then two_to_one right left else two_to_one left right.

Fixpoint iterate_merkle_hasher {Hash} `{MerkleHasher Hash} (current : Hash) (reverse_level : nat) : Hash :=
  match reverse_level with
  | O => current
  | S n => iterate_merkle_hasher (two_to_one current current) n
  end.

(** [get_zero_hashes(count)]: the vector always holds the zero value, even for
    [count = 0]; each further entry hashes the previous one with itself. *)
Fixpoint zero_hashes_from {Hash} `{MerkleHasher Hash} (z : Hash) (more : nat) : list Hash :=
  match more with
  | O => [z]
  | S n => z :: zero_hashes_from (two_to_one z z) n
  end.
Definition get_zero_hashes {Hash} `{MerkleHasher Hash} (zero : Hash) (count : nat) : list Hash :=
  zero_hashes_from zero (count - 1).

Definition ZERO_HASH_CACHE_SIZE : nat := 128.

(** [MerkleZeroHasher::get_zero_hash] of a hasher with a cache of 128 hashes. *)
Definition get_zero_hash_cached {Hash} `{MerkleHasher Hash} (CACHED_ZERO_HASHES : list Hash)
    (reverse_level : nat) : option Hash :=
  if decide (reverse_level < ZERO_HASH_CACHE_SIZE)%nat
  then CACHED_ZERO_HASHES !! reverse_level
  else
    current ← CACHED_ZERO_HASHES !! (ZERO_HASH_CACHE_SIZE - 1)%nat;
    Some (iterate_merkle_hasher current (reverse_level - ZERO_HASH_CACHE_SIZE + 1)).

(** ** SHA-256 wrappers ([sha256_impl.rs]) *)

Section sha256_impl.
Context `{Sha256}.

Definition hash_impl_sha256_bytes (b : bytes) : QHash256 := sha256 b.

(** The hasher is fed the buffers one after the other. *)
Definition hashv_impl_sha256_bytes (bytes_vec : list bytes) : QHash256 :=
  sha256 (concat bytes_vec).

(** The 64-byte scratch buffer is overwritten completely; the new buffer is
    returned beside the digest. *)
Definition hash_impl_sha256_two_to_one_bytes_buf (buf : bytes) (left right : QHash256)
    : option (QHash256 * bytes) :=
  buf1 ← write_slice 0 left buf;
  buf2 ← write_slice 32 right buf1;
  Some (hash_impl_sha256_bytes buf2, buf2).

Definition hash_impl_sha256_two_to_one_bytes (left right : QHash256) : QHash256 :=
  hash_impl_sha256_bytes (left ++ right).

Definition hash_impl_btc_hash256_two_to_one_bytes (left right : QHash256) : QHash256 :=
  hash_impl_sha256_bytes (hashv_impl_sha256_bytes [left; right]).

Definition hash_impl_sha256_hash_two_buffers_concat (left right : bytes) : QHash256 :=
  hashv_impl_sha256_bytes [left; right].
Definition hash_impl_sha256_hash_three_buffers_concat (a b c : bytes) : QHash256 :=
  hashv_impl_sha256_bytes [a; b; c].
Definition hash_impl_sha256_hash_four_buffers_concat (a b c d : bytes) : QHash256 :=
  hashv_impl_sha256_bytes [a; b; c; d].

(** The loop of [hash_impl_sha256_compute_merkle_root]; it returns the hash
    and what is left of the index. *)
Fixpoint compute_merkle_root_loop (current_hash : QHash256) (idx : Z) (siblings : list QHash256)
    : QHash256 * Z :=
  match siblings with
  | [] => (current_hash, idx)
  | sibling :: rest =>
      let current_hash :=
        if Z.land idx 1 =? 0
        then hash_impl_sha256_two_to_one_bytes current_hash sibling
        else hash_impl_sha256_two_to_one_bytes sibling current_hash in
      compute_merkle_root_loop current_hash (Z.shiftr idx 1) rest
  end.

(** Panics ([None]) on more than 64 siblings and on an index with bits above
    the height of the tree. *)
Definition hash_impl_sha256_compute_merkle_root (value : QHash256) (index : Z)
    (siblings : list QHash256) : option QHash256 :=
  if len siblings <=? 64 then
    let '(current_hash, idx) := compute_merkle_root_loop value index siblings in
    if idx =? 0 then Some current_hash else None
  else None.

(** ** Hashers ([sha256.rs]) *)

Definition QSha256Hasher : MerkleHasher QHash256 :=
  {| two_to_one := hash_impl_sha256_two_to_one_bytes |}.
Definition QSha256Hasher_bytes : BytesHasher QHash256 :=
  {| hash_bytes := hash_impl_sha256_bytes |}.
Definition QSha256Hasher_get_zero_hash (reverse_level : nat) : QHash256 :=
  @iterate_merkle_hasher _ QSha256Hasher (zeros 32) reverse_level.

Definition btc_hash256_bytes (b : bytes) : QHash256 :=
  hash_impl_sha256_bytes (hash_impl_sha256_bytes b).

Definition QBTCHash256Hasher : MerkleHasher QHash256 :=
  {| two_to_one := fun left right => hash_impl_sha256_bytes (hash_impl_sha256_bytes (left ++ right)) |}.
Definition QBTCHash256Hasher_bytes : BytesHasher QHash256 :=
  {| hash_bytes := fun data => hash_impl_sha256_bytes (hash_impl_sha256_bytes data) |}.
Definition QBTCHash256Hasher_get_zero_hash (reverse_level : nat) : QHash256 :=
  @iterate_merkle_hasher _ QBTCHash256Hasher (zeros 32) reverse_level.
End sha256_impl.

(** ** RIPEMD-160 ([ripemd160_impl.rs], [ripemd160.rs], [traits.rs]) *)

Section ripemd160_impl.
Context `{Sha256} `{Ripemd160}.

Definition hash_impl_ripemd160_bytes (b : bytes) : QHash160 := ripemd160 b.

Definition hash_impl_btc_hash160_bytes (b : bytes) : QHash160 :=
  hash_impl_ripemd160_bytes (hash_impl_sha256_bytes b).

Definition QRipemd160Hasher : MerkleHasher QHash160 :=
  {| two_to_one := fun left right => hash_impl_ripemd160_bytes (left ++ right) |}.
Definition QBTCHash160Hasher : MerkleHasher QHash160 :=
  {| two_to_one := fun left right =>
       hash_impl_ripemd160_bytes (hash_impl_sha256_bytes (left ++ right)) |}.

(** [CommonDogeHashProvider]. *)
Definition bitcoin_hash160 (data : bytes) : QHash160 :=
  hash_impl_ripemd160_bytes (hash_impl_sha256_bytes data).
Definition bitcoin_hash256 (data : bytes) : QHash256 :=
  hash_impl_sha256_bytes (hash_impl_sha256_bytes data).
End ripemd160_impl.

(** ** The table of zero hashes ([sha256.rs])

    Row [i] is the root of a tree of height [i] whose leaves are all zero.  A
    row is written as one 256-bit number instead of 32 byte literals. *)

Fixpoint be_bytes (n : nat) (z : Z) : bytes :=
  match n with O => [] | S n' => be_bytes n' (Z.shiftr z 8) ++ [Z.land z 255] end.

Definition SHA256_ZERO_HASHES : list QHash256 := [
  be_bytes 32 0x0000000000000000000000000000000000000000000000000000000000000000;
  be_bytes 32 0xf5a5fd42d16a20302798ef6ed309979b43003d2320d9f0e8ea9831a92759fb4b;
  be_bytes 32 0xdb56114e00fdd4c1f85c892bf35ac9a89289aaecb1ebd0a96cde606a748b5d71;
  be_bytes 32 0xc78009fdf07fc56a11f122370658a353aaa542ed63e44c4bc15ff4cd105ab33c;
  be_bytes 32 0x536d98837f2dd165a55d5eeae91485954472d56f246df256bf3cae19352a123c;
  be_bytes 32 0x9efde052aa15429fae05bad4d0b1d7c64da64d03d7a1854a588c2cb8430c0d30;
  be_bytes 32 0xd88ddfeed400a8755596b21942c1497e114c302e6118290f91e6772976041fa1;
  be_bytes 32 0x87eb0ddba57e35f6d286673802a4af5975e22506c7cf4c64bb6be5ee11527f2c;
  be_bytes 32 0x26846476fd5fc54a5d43385167c95144f2643f533cc85bb9d16b782f8d7db193;
  be_bytes 32 0x506d86582d252405b840018792cad2bf1259f1ef5aa5f887e13cb2f0094f51e1;
  be_bytes 32 0xffff0ad7e659772f9534c195c815efc4014ef1e1daed4404c06385d11192e92b;
  be_bytes 32 0x6cf04127db05441cd833107a52be852868890e4317e6a02ab47683aa75964220;
  be_bytes 32 0xb7d05f875f140027ef5118a2247bbb84ce8f2f0f1123623085daf7960c329f5f;
  be_bytes 32 0xdf6af5f5bbdb6be9ef8aa618e4bf8073960867171e29676f8b284dea6a08a85e;
  be_bytes 32 0xb58d900f5e182e3c50ef74969ea16c7726c549757cc23523c369587da7293784;
  be_bytes 32 0xd49a7502ffcfb0340b1d7885688500ca308161a7f96b62df9d083b71fcc8f2bb;
  be_bytes 32 0x8fe6b1689256c0d385f42f5bbe2027a22c1996e110ba97c171d3e5948de92beb;
  be_bytes 32 0x8d0d63c39ebade8509e0ae3c9c3876fb5fa112be18f905ecacfecb92057603ab;
  be_bytes 32 0x95eec8b2e541cad4e91de38385f2e046619f54496c2382cb6cacd5b98c26f5a4;
  be_bytes 32 0xf893e908917775b62bff23294dbbe3a1cd8e6cc1c35b4801887b646a6f81f17f;
  be_bytes 32 0xcddba7b592e3133393c16194fac7431abf2f5485ed711db282183c819e08ebaa;
  be_bytes 32 0x8a8d7fe3af8caa085a7639a832001457dfb9128a8061142ad0335629ff23ff9c;
  be_bytes 32 0xfeb3c337d7a51a6fbf00b9e34c52e1c9195c969bd4e7a0bfd51d5c5bed9c1167;
  be_bytes 32 0xe71f0aa83cc32edfbefa9f4d3e0174ca85182eec9f3a09f6a6c0df6377a510d7;
  be_bytes 32 0x31206fa80a50bb6abe29085058f16212212a60eec8f049fecb92d8c8e0a84bc0;
  be_bytes 32 0x21352bfecbeddde993839f614c3dac0a3ee37543f9b412b16199dc158e23b544;
  be_bytes 32 0x619e312724bb6d7c3153ed9de791d764a366b389af13c58bf8a8d90481a46765;
  be_bytes 32 0x7cdd2986268250628d0c10e385c58c6191e6fbe05191bcc04f133f2cea72c1c4;
  be_bytes 32 0x848930bd7ba8cac54661072113fb278869e07bb8587f91392933374d017bcbe1;
  be_bytes 32 0x8869ff2c22b28cc10510d9853292803328be4fb0e80495e8bb8d271f5b889636;
  be_bytes 32 0xb5fe28e79f1b850f8658246ce9b6a1e7b49fc06db7143e8fe0b4f2b0c5523a5c;
  be_bytes 32 0x985e929f70af28d0bdd1a90a808f977f597c7c778c489e98d3bd8910d31ac0f7;
  be_bytes 32 0xc6f67e02e6e4e1bdefb994c6098953f34636ba2b6ca20a4721d2b26a886722ff;
  be_bytes 32 0x1c9a7e5ff1cf48b4ad1582d3f4e4a1004f3b20d8c5a2b71387a4254ad933ebc5;
  be_bytes 32 0x2f075ae229646b6f6aed19a5e372cf295081401eb893ff599b3f9acc0c0d3e7d;
  be_bytes 32 0x328921deb59612076801e8cd61592107b5c67c79b846595cc6320c395b46362c;
  be_bytes 32 0xbfb909fdb236ad2411b4e4883810a074b840464689986c3f8a8091827e17c327;
  be_bytes 32 0x55d8fb3687ba3ba49f342c77f5a1f89bec83d811446e1a467139213d640b6a74;
  be_bytes 32 0xf7210d4f8e7e1039790e7bf4efa207555a10a6db1dd4b95da313aaa88b88fe76;
  be_bytes 32 0xad21b516cbc645ffe34ab5de1c8aef8cd4e7f8d2b51e8e1456adc7563cda206f;
  be_bytes 32 0x6bfe8d2bcc4237b74a5047058ef455339ecd7360cb63bfbb8ee5448e6430ba04;
  be_bytes 32 0xa7f23ce9181740dc220c814782654fee6aceb9f1ec9222c4e2467d0ab1680837;
  be_bytes 32 0xaef9476c89590a2c8cc9b3b74f4967c757c49d9866a44bacf21fa2ed675ddfa2;
  be_bytes 32 0x9a42bcad82f6a9e41284d808ead319f29f3b08209d680f0e2ce71510d071e205;
  be_bytes 32 0xd1a66d354a67b9cf179571d8e5f97792716e8dd4ec44196839a3f7c6b74f8bac;
  be_bytes 32 0xfafa3025f2f89509c2c71c74fba0cd92858ef49b0780fb5479746c8a9bfcb346;
  be_bytes 32 0x3334a7c1e7f6705aa6011a6a949645016db4acde0ca9abd66dc79d8266423056;
  be_bytes 32 0x0796fd75664faef744ee4e52d7271e2bbb769f91ed6f9b74d8b694f56606852c;
  be_bytes 32 0x7ba3ae4a417fe8545b142bc89f4adcd7ae13941cbab7750b83e9f0a66d16be64;
  be_bytes 32 0x788fafcc4aa520399adbaed195f8b12c4eb31ec10168e50aabc659a6aea516dc;
  be_bytes 32 0xe833d7a67160e68bf4c9044a53077df2727ad00cf36f4949c7b681a912140cbb;
  be_bytes 32 0x309eabf095dc6714f9f4d864bba5affae0b35ae2f5e3565bcc3a47b212767701;
  be_bytes 32 0x226a8ebefa288665a644a50273335efbb610510f241b5b720c8a368d59a69a5d;
  be_bytes 32 0x41abfd995425827625938131af0c4f33fe0bd4688c222c21fa9da8e89caa03f8;
  be_bytes 32 0x442c642ef50fa1a667a6e6d105c77c5cc3fec8d7aa2570cf1a3077b503c38069;
  be_bytes 32 0xa0a08dfc9b42d96c2de19b6d127b8ae136ddcf3e5ad0dce422c45a56f61f6a74;
  be_bytes 32 0x7d348382af096dbe0bf086c7bb39b2a2c0bc36b621ab0c738e9885d731d81740;
  be_bytes 32 0x3ab134751d191269026c86994eaa8b43a83b4ad1f6d0e77381c4e2974afbc8f6;
  be_bytes 32 0x9a7452611db2d23eae26f9bdbb88958ef44c64d0fe987be9f726adf938f50f6c;
  be_bytes 32 0x725c7f816037bfe452cd1e7ba35ac47edcb49a9a2b27aeca70dce483cb7ded1f;
  be_bytes 32 0x2cea1af51fb28b62887c39998ac9fef4dfdeda1f07e071ba558a173afd06cbc3;
  be_bytes 32 0xff1d59f98b6c551d95089357057d5c8be26402279e9df0b1df1a10b72bf3927f;
  be_bytes 32 0x2f8a181f7c99dd215a7529bfe296a9603a1446737186d21aeb8bc7ae59e1fd21;
  be_bytes 32 0xecc502c9b1145f3950cb7d3e3842446f81a4f0df1df537cee139ef64ea984bd9
].

(** Row [i] as a total function; only read at [i < 64]. *)
Definition ZERO (i : nat) : QHash256 := nth i SHA256_ZERO_HASHES [].

Class Sha256Laws `{Sha256} : Prop := {
  sha256_array b : byte_array 32 (sha256 b);
  sha256_zero_chain i : (i < 63)%nat -> ZERO (S i) = sha256 (ZERO i ++ ZERO i)
}.
#[export] Hint Resolve sha256_array : bridge.

(** ** Lemmas *)

Lemma length_SHA256_ZERO_HASHES : length SHA256_ZERO_HASHES = 64%nat.
Proof. reflexivity. Qed.

Lemma ZERO_lookup i : (i < 64)%nat -> SHA256_ZERO_HASHES !! i = Some (ZERO i).
Proof.
  intros Hi. unfold ZERO. rewrite nth_lookup.
  destruct (lookup_lt_is_Some_2 SHA256_ZERO_HASHES i) as [z ->]; [|done].
  by rewrite length_SHA256_ZERO_HASHES.
Qed.

Lemma ZERO_arrays : Forall (byte_array 32) SHA256_ZERO_HASHES.
Proof. apply (bool_decide_unpack _). vm_compute. exact I. Qed.

Lemma ZERO_array i : (i < 64)%nat -> byte_array 32 (ZERO i).
Proof. intros Hi. eapply (Forall_lookup_1 _ _ i); [apply ZERO_arrays|by apply ZERO_lookup]. Qed.
#[export] Hint Resolve ZERO_array : bridge.

Lemma ZERO_0 : ZERO 0 = zeros 32.
Proof. reflexivity. Qed.

#[global] Opaque SHA256_ZERO_HASHES.
#[global] Opaque ZERO.

Section hash_lemmas.
Context `{Sha256Laws}.

Lemma two_to_one_array l r : byte_array 32 (hash_impl_sha256_two_to_one_bytes l r).
Proof. apply sha256_array. Qed.

(** The scratch-buffer variant computes the same digest. *)
Lemma two_to_one_buf_eq buf l r :
  length buf = 64%nat -> length l = 32%nat -> length r = 32%nat ->
  hash_impl_sha256_two_to_one_bytes_buf buf l r =
    Some (hash_impl_sha256_two_to_one_bytes l r, l ++ r).
Proof.
  intros Hb Hl Hr. unfold hash_impl_sha256_two_to_one_bytes_buf.
  destruct (write_slice 0 l buf) as [b1|] eqn:E1; simpl.
  2:{ unfold write_slice, len in E1. rewrite Hl, Hb in E1. done. }
  apply write_slice_Some in E1 as (_ & _ & ->).
  unfold write_slice. rewrite !len_app. unfold len. rewrite !length_drop, Hl, Hr, Hb.
  change (Z.to_nat 0) with 0%nat. change (0 + Z.of_nat 32) with 32. simpl.
  change (Z.to_nat 32) with 32%nat. change (Z.to_nat 64) with 64%nat.
  rewrite take_app_length' by done.
  rewrite drop_app_ge, drop_drop by lia.
  rewrite (drop_ge buf) by lia. by rewrite app_nil_r.
Qed.

Lemma two_to_one_btc_eq l r :
  hash_impl_btc_hash256_two_to_one_bytes l r = btc_hash256_bytes (l ++ r).
Proof.
  unfold hash_impl_btc_hash256_two_to_one_bytes, hashv_impl_sha256_bytes. simpl.
  by rewrite app_nil_r.
Qed.

(** [QSha256Hasher::get_zero_hash] agrees with the literal table. *)
Lemma iterate_ZERO k i :
  (i + k < 64)%nat -> @iterate_merkle_hasher _ QSha256Hasher (ZERO i) k = ZERO (i + k).
Proof.
  revert i. induction k as [|k IH]; intros i Hi; simpl; [by rewrite Nat.add_0_r|].
  unfold hash_impl_sha256_two_to_one_bytes, hash_impl_sha256_bytes.
  rewrite <- sha256_zero_chain by lia. rewrite IH by lia. f_equal. lia.
Qed.
End hash_lemmas.
#[export] Hint Resolve two_to_one_array : bridge.
