(* ===== verification/Sha256.v ===== *)
(** * Sha256: an executable SHA-256

    The bridge takes SHA-256 from a crate or from a syscall; [Hash.v] keeps it a
    parameter.  This file instantiates the parameter with the function of FIPS
    180-4, so that hypotheses about the hash can be discharged and concrete
    inputs evaluated.  It also checks the hash constants of the sources. *)
From S2P Require Import Prelude Hash.
From Stdlib Require Import ZArith Lia.
From stdpp Require Import base decidable list numbers option.

Open Scope Z_scope.

Module Fips180.
Definition mask32 : Z := 4294967295.
Definition add32 (a b : Z) : Z := Z.land (a + b) mask32.
Definition rotr (x n : Z) : Z := Z.lor (Z.shiftr x n) (Z.land (Z.shiftl x (32 - n)) mask32).
Definition ch (x y z : Z) : Z := Z.lxor (Z.land x y) (Z.land (mask32 - x) z).
Definition maj (x y z : Z) : Z := Z.lxor (Z.lxor (Z.land x y) (Z.land x z)) (Z.land y z).
Definition big_sigma0 (x : Z) : Z := Z.lxor (Z.lxor (rotr x 2) (rotr x 13)) (rotr x 22).
Definition big_sigma1 (x : Z) : Z := Z.lxor (Z.lxor (rotr x 6) (rotr x 11)) (rotr x 25).
Definition small_sigma0 (x : Z) : Z := Z.lxor (Z.lxor (rotr x 7) (rotr x 18)) (Z.shiftr x 3).
Definition small_sigma1 (x : Z) : Z := Z.lxor (Z.lxor (rotr x 17) (rotr x 19)) (Z.shiftr x 10).

(** The constants are the leading 32 bits of the fractional parts of roots of
    the first primes: square roots for the initial state, cube roots for the
    round constants. *)
Definition primes64 : list Z :=
  List.filter (fun p => List.forallb (fun q => negb (p mod Z.of_nat q =? 0)) (seq 2 (Z.to_nat p - 2)))
    (Z.of_nat <$> seq 2 310).

Fixpoint cube_root_bits (bits : nat) (n r : Z) : Z :=
  match bits with
  | O => r
  | S k =>
      let r' := r + 2 ^ Z.of_nat k in
      cube_root_bits k n (if r' * r' * r' <=? n then r' else r)
  end.

Definition K : list Z :=
  Eval vm_compute in (fun p => Z.land (cube_root_bits 36 (p * 2 ^ 96) 0) mask32) <$> primes64.

(** Working variables [a] to [h]. *)
Record words8 := W8 { wa : Z; wb : Z; wc : Z; wd : Z; we : Z; wf : Z; wg : Z; wh : Z }.

Definition initial_word (i : nat) : Z :=
  Z.land (Z.sqrt (nth i primes64 0 * 2 ^ 64)) mask32.

Definition H0 : words8 :=
  Eval vm_compute in
    W8 (initial_word 0) (initial_word 1) (initial_word 2) (initial_word 3)
       (initial_word 4) (initial_word 5) (initial_word 6) (initial_word 7).

(** The compression rounds; [w] is the sliding window of the message schedule,
    sixteen words, oldest first. *)
Fixpoint rounds (ks w : list Z) (st : words8) : words8 :=
  match ks, w with
  | k :: ks', w0 :: wt =>
      let '(W8 a b c d e f g h) := st in
      let t1 := add32 (add32 (add32 h (big_sigma1 e)) (add32 (ch e f g) k)) w0 in
      let t2 := add32 (big_sigma0 a) (maj a b c) in
      let wn := add32 (add32 (small_sigma1 (nth 13 wt 0)) (nth 8 wt 0))
                      (add32 (small_sigma0 (nth 0 wt 0)) w0) in
      rounds ks' (wt ++ [wn]) (W8 (add32 t1 t2) a b c (add32 d t1) e f g)
  | _, _ => st
  end.

Definition add8 (x y : words8) : words8 :=
  W8 (add32 (wa x) (wa y)) (add32 (wb x) (wb y)) (add32 (wc x) (wc y)) (add32 (wd x) (wd y))
     (add32 (we x) (we y)) (add32 (wf x) (wf y)) (add32 (wg x) (wg y)) (add32 (wh x) (wh y)).

Fixpoint be_words (l : bytes) : list Z :=
  match l with
  | a :: b :: c :: d :: t => (((a * 256 + b) * 256 + c) * 256 + d) :: be_words t
  | _ => []
  end.

Fixpoint blocks (n : nat) (l : list Z) (st : words8) : words8 :=
  match n with
  | O => st
  | S n => blocks n (skipn 16 l) (add8 st (rounds K (firstn 16 l) st))
  end.

Definition pad (m : bytes) : bytes :=
  let l := len m in
  m ++ [128] ++ zeros (Z.to_nat ((55 - l) mod 64)) ++ be_bytes 8 (8 * l).

Definition digest (m : bytes) : bytes :=
  let w := be_words (pad m) in
  let st := blocks (length w / 16) w H0 in
  be_bytes 4 (wa st) ++ be_bytes 4 (wb st) ++ be_bytes 4 (wc st) ++ be_bytes 4 (wd st) ++
  be_bytes 4 (we st) ++ be_bytes 4 (wf st) ++ be_bytes 4 (wg st) ++ be_bytes 4 (wh st).
End Fips180.

(** The instance is a plain definition: it is never found by type-class search,
    only named in witnesses. *)
Definition fips_sha256 : Sha256 := Fips180.digest.

Lemma be_bytes_array n z : byte_array n (be_bytes n z).
Proof.
  revert z. induction n as [|n IH]; intros z; simpl; [by split|].
  replace (S n) with (n + 1)%nat by lia. apply byte_array_app_inv; [apply IH|].
  split; [done|]. constructor; [|constructor]. unfold is_byte.
  change 255 with (Z.ones 8). rewrite Z.land_ones by lia. apply Z.mod_pos_bound. lia.
Qed.

(** Test vectors of FIPS 180-4: the empty message and "abc". *)
Example fips_sha256_empty :
  fips_sha256 [] = be_bytes 32 0xe3b0c44298fc1c149afbf4c8996fb92427ae41e4649b934ca495991b7852b855.
Proof. vm_compute. reflexivity. Qed.
Example fips_sha256_abc :
  fips_sha256 [97; 98; 99] =
    be_bytes 32 0xba7816bf8f01cfea414140de5dae2223b00361a396177a9cb410ff61f20015ad.
Proof. vm_compute. reflexivity. Qed.

(** Recompute the table with the executable function. *)
Lemma zero_hashes_recomputed :
  @zero_hashes_from _ (@QSha256Hasher fips_sha256) (zeros 32) 63 = SHA256_ZERO_HASHES.
Proof. vm_compute. reflexivity. Qed.

Lemma zero_hashes_from_nth {Hash} `{MerkleHasher Hash} (z d : Hash) n i :
  (i < n)%nat ->
  nth (S i) (zero_hashes_from z n) d =
    two_to_one (nth i (zero_hashes_from z n) d) (nth i (zero_hashes_from z n) d).
Proof.
  revert z i. induction n as [|n IH]; intros z i Hi; [lia|].
  destruct i as [|i]; [by destruct n|]. exact (IH (two_to_one z z) i ltac:(lia)).
Qed.

(** SHA-256 satisfies what the bridge relies on. *)
Lemma fips_sha256_laws : @Sha256Laws fips_sha256.
Proof.
  split.
  - intros b. unfold sha256, fips_sha256, Fips180.digest.
    repeat first [ apply be_bytes_array
                 | apply (byte_array_app_inv 4 28) | apply (byte_array_app_inv 4 24)
                 | apply (byte_array_app_inv 4 20) | apply (byte_array_app_inv 4 16)
                 | apply (byte_array_app_inv 4 12) | apply (byte_array_app_inv 4 8)
                 | apply (byte_array_app_inv 4 4) ].
  - intros i Hi. with_strategy transparent [ZERO] unfold ZERO.
    rewrite <- zero_hashes_recomputed.
    exact (zero_hashes_from_nth (H := @QSha256Hasher fips_sha256) (zeros 32) [] 63 i Hi).
Qed.
