(* ===== verification/MerkleProof.v ===== *)
(** * MerkleProof: Merkle proofs and the Dogecoin transaction tree

    Models [libraries/psy-bridge-core/src/crypto/hash/merkle]: [utils.rs],
    [merkle_proof.rs], [delta_merkle_proof.rs] and [in_memory.rs].

    The generic part works for any [MerkleHasher].  The specification of the
    Dogecoin (Bitcoin) transaction tree, in which the last node of an odd level
    is paired with itself, is [btc_levels]; the theorems relate an accepted
    proof to the leaves of such a tree, unless the hashed pairs collide. *)
From S2P Require Import Prelude Hash Sha256.
From Stdlib Require Import ZArith Lia.
From stdpp Require Import base decidable sets list numbers option.

Open Scope Z_scope.
Open Scope bridge_scope.

Section generic.
Context {Hash : Type} `{EqDecision Hash} `{MerkleHasher Hash}.

(** ** utils.rs *)

Fixpoint compute_root_merkle_proof_generic (value : Hash) (index : Z) (siblings : list Hash) : Hash :=
  match siblings with
  | [] => value
  | sibling :: rest =>
      compute_root_merkle_proof_generic
        (two_to_one_swap (Z.land index 1 =? 1) value sibling) (Z.shiftr index 1) rest
  end.

(** One round of the [while] loop: neighbours are hashed, an odd last node is
    carried over. *)
Fixpoint pair_up (current : list Hash) : list Hash :=
  match current with
  | a :: b :: rest => two_to_one a b :: pair_up rest
  | [a] => [a]
  | [] => []
  end.

Fixpoint partial_root_loop (fuel : nat) (current : list Hash) : option Hash :=
  match current with
  | [] => None
  | [a] => Some a
  | _ => match fuel with O => None | S fuel => partial_root_loop fuel (pair_up current) end
  end.

(** [None] is the panic of [current[0]] on an empty slice.  Every round makes
    the list shorter, so its length is enough fuel. *)
Definition compute_partial_merkle_root_from_leaves (leaves : list Hash) : option Hash :=
  partial_root_loop (length leaves) leaves.

(** ** delta_merkle_proof.rs *)

Record DeltaMerkleProofCore := {
  dmp_old_root : Hash;
  dmp_old_value : Hash;
  dmp_new_root : Hash;
  dmp_new_value : Hash;
  dmp_index : Z;
  dmp_siblings : list Hash
}.

Record DeltaMerkleProofCorePartial := {
  dmpp_old_value : Hash;
  dmpp_new_value : Hash;
  dmpp_index : Z;
  dmpp_siblings : list Hash
}.

Definition dmp_from_params (index : Z) (old_value new_value : Hash) (siblings : list Hash)
    : DeltaMerkleProofCore :=
  {| dmp_old_root := compute_root_merkle_proof_generic old_value index siblings;
     dmp_old_value := old_value;
     dmp_new_root := compute_root_merkle_proof_generic new_value index siblings;
     dmp_new_value := new_value;
     dmp_index := index;
     dmp_siblings := siblings |}.

Definition dmp_single_value (index : Z) (old_value new_value : Hash) : DeltaMerkleProofCore :=
  {| dmp_old_root := old_value; dmp_old_value := old_value;
     dmp_new_root := new_value; dmp_new_value := new_value;
     dmp_index := index; dmp_siblings := [] |}.

(** [None] is the [assert!]; a [u64] shift amount is taken modulo 64. *)
Definition dmp_with_shortened_height_from_bottom (self : DeltaMerkleProofCore) (new_height : nat)
    : option DeltaMerkleProofCore :=
  let siblings := dmp_siblings self in
  if decide (new_height <= length siblings)%nat then
    if decide (new_height = length siblings) then Some self
    else
      let height_diff := (length siblings - new_height)%nat in
      let shift := Z.of_nat height_diff mod 64 in
      let low_index := Z.land (dmp_index self) (Z.shiftl 1 shift - 1) in
      let new_index := Z.shiftr (dmp_index self) shift in
      let old_value := compute_root_merkle_proof_generic (dmp_old_value self) low_index
                         (take height_diff siblings) in
      let new_value := compute_root_merkle_proof_generic (dmp_new_value self) low_index
                         (take height_diff siblings) in
      Some (dmp_from_params new_index old_value new_value (drop height_diff siblings))
  else None.

Definition dmp_shorten_height (self : DeltaMerkleProofCore) (new_height : nat)
    : option DeltaMerkleProofCore :=
  let siblings := dmp_siblings self in
  if decide (new_height <= length siblings)%nat then
    if decide (new_height = length siblings) then Some self
    else Some (dmp_from_params (dmp_index self) (dmp_old_value self) (dmp_new_value self)
                 (take new_height siblings))
  else None.

Definition dmp_verify (self : DeltaMerkleProofCore) : bool :=
  bool_decide (compute_root_merkle_proof_generic (dmp_old_value self) (dmp_index self)
                 (dmp_siblings self) = dmp_old_root self)
  && bool_decide (compute_root_merkle_proof_generic (dmp_new_value self) (dmp_index self)
                 (dmp_siblings self) = dmp_new_root self).

Definition dmpp_to_full (self : DeltaMerkleProofCorePartial) : DeltaMerkleProofCore :=
  {| dmp_old_root := compute_root_merkle_proof_generic (dmpp_old_value self) (dmpp_index self)
                       (dmpp_siblings self);
     dmp_old_value := dmpp_old_value self;
     dmp_new_root := compute_root_merkle_proof_generic (dmpp_new_value self) (dmpp_index self)
                       (dmpp_siblings self);
     dmp_new_value := dmpp_new_value self;
     dmp_index := dmpp_index self;
     dmp_siblings := dmpp_siblings self |}.

Definition dmpp_from (value : DeltaMerkleProofCore) : DeltaMerkleProofCorePartial :=
  {| dmpp_old_value := dmp_old_value value; dmpp_new_value := dmp_new_value value;
     dmpp_index := dmp_index value; dmpp_siblings := dmp_siblings value |}.

(** ** merkle_proof.rs *)

Record MerkleProofCore := {
  mp_root : Hash;
  mp_value : Hash;
  mp_index : Z;
  mp_siblings : list Hash
}.

Record MerkleProofCorePartial := {
  mpp_value : Hash;
  mpp_index : Z;
  mpp_siblings : list Hash
}.

Definition mp_new_from_params (index : Z) (value : Hash) (siblings : list Hash) : MerkleProofCore :=
  {| mp_root := compute_root_merkle_proof_generic value index siblings;
     mp_value := value; mp_index := index; mp_siblings := siblings |}.

Definition mp_verify (self : MerkleProofCore) : bool :=
  bool_decide (compute_root_merkle_proof_generic (mp_value self) (mp_index self) (mp_siblings self)
               = mp_root self).

(** The loop of [verify_btc_block_tx_tree]: [None] is the early
    [return false] of the odd-leaf rule. *)
Fixpoint btc_path (current : Hash) (index_tracker : Z) (siblings : list Hash) : option (Hash * Z) :=
  match siblings with
  | [] => Some (current, index_tracker)
  | sibling :: rest =>
      if Z.land index_tracker 1 =? 0
      then btc_path (two_to_one current sibling) (Z.shiftr index_tracker 1) rest
      else if bool_decide (sibling = current) then None
      else btc_path (two_to_one sibling current) (Z.shiftr index_tracker 1) rest
  end.

Definition mp_verify_btc_block_tx_tree (self : MerkleProofCore) : bool :=
  match btc_path (mp_value self) (mp_index self) (mp_siblings self) with
  | None => false
  | Some (current, index_tracker) =>
      if negb (index_tracker =? 0) then false else bool_decide (current = mp_root self)
  end.

Definition mp_to_delta_merkle_proof (self : MerkleProofCore) : DeltaMerkleProofCore :=
  {| dmp_old_root := mp_root self; dmp_new_root := mp_root self;
     dmp_old_value := mp_value self; dmp_new_value := mp_value self;
     dmp_index := mp_index self; dmp_siblings := mp_siblings self |}.

Definition mpp_new_from_params (index : Z) (value : Hash) (siblings : list Hash)
    : MerkleProofCorePartial :=
  {| mpp_value := value; mpp_index := index; mpp_siblings := siblings |}.

Definition mpp_to_full (self : MerkleProofCorePartial) : MerkleProofCore :=
  {| mp_root := compute_root_merkle_proof_generic (mpp_value self) (mpp_index self) (mpp_siblings self);
     mp_value := mpp_value self; mp_index := mpp_index self; mp_siblings := mpp_siblings self |}.

Definition mpp_from (value : MerkleProofCore) : MerkleProofCorePartial :=
  {| mpp_value := mp_value value; mpp_index := mp_index value; mpp_siblings := mp_siblings value |}.
End generic.
Arguments DeltaMerkleProofCore : clear implicits.
Arguments DeltaMerkleProofCorePartial : clear implicits.
Arguments MerkleProofCore : clear implicits.
Arguments MerkleProofCorePartial : clear implicits.

(** ** in_memory.rs

    Siblings come as one flat buffer.  The functions that return an [Option] give
    [Err tt] for its [None]; [Panic] is an out-of-range slice or a failed
    [assert!]. *)
Section in_memory.
Context `{Sha256}.

(** [for i in 0..siblings_count]: [odd_leaf_rule] says whether a left sibling
    equal to the current node is rejected (CVE-2012-2459). *)
Fixpoint in_memory_path (odd_leaf_rule : bool) (hash : bytes -> QHash256) (siblings : bytes)
    (i : Z) (todo : nat) (current : QHash256) (index : Z) : res unit (QHash256 * Z) :=
  match todo with
  | O => Ok (current, index)
  | S todo =>
      try sibling <- or_panic (slice (i * 32) ((i + 1) * 32) siblings);
      if Z.land index 1 =? 0
      then in_memory_path odd_leaf_rule hash siblings (i + 1) todo (hash (current ++ sibling))
             (Z.shiftr index 1)
      else
        bail tt if odd_leaf_rule && bool_decide (sibling = current);
        in_memory_path odd_leaf_rule hash siblings (i + 1) todo (hash (sibling ++ current))
          (Z.shiftr index 1)
  end.

Definition compute_dogecoin_last_transaction_in_block_merkle_root_in_memory (value : QHash256)
    (siblings : bytes) (index claimed_total_transaction_count siblings_count : Z)
    : res unit QHash256 :=
  bail tt if claimed_total_transaction_count =? 0;
  bail tt if negb (index =? claimed_total_transaction_count - 1);
  bail tt if len siblings <? 32 * siblings_count;
  try r <- in_memory_path true btc_hash256_bytes siblings 0 (Z.to_nat siblings_count) value index;
  bail tt if negb (r.2 =? 0);
  Ok r.1.

Definition compute_dogecoin_block_transaction_merkle_proof_tree_root_in_memory (value : QHash256)
    (siblings : bytes) (index siblings_count : Z) : res unit QHash256 :=
  bail tt if len siblings <? 32 * siblings_count;
  try r <- in_memory_path true btc_hash256_bytes siblings 0 (Z.to_nat siblings_count) value index;
  bail tt if negb (r.2 =? 0);
  Ok r.1.

Fixpoint tree_root_hash256_loop (current : QHash256) (siblings : list QHash256) (index : Z)
    : res unit (QHash256 * Z) :=
  match siblings with
  | [] => Ok (current, index)
  | sibling :: rest =>
      if Z.land index 1 =? 0
      then tree_root_hash256_loop (hash_impl_btc_hash256_two_to_one_bytes current sibling) rest
             (Z.shiftr index 1)
      else
        bail tt if bool_decide (sibling = current);
        tree_root_hash256_loop (hash_impl_btc_hash256_two_to_one_bytes sibling current) rest
          (Z.shiftr index 1)
  end.

Definition compute_dogecoin_block_transaction_merkle_proof_tree_root_hash256 (value : QHash256)
    (siblings : list QHash256) (index : Z) : res unit QHash256 :=
  try r <- tree_root_hash256_loop value siblings index;
  bail tt if negb (r.2 =? 0);
  Ok r.1.

(** The [assert!] bounds the buffer from above, the slices from below: any
    other length than [32 * siblings_count] panics. *)
Definition compute_btc_hash256_merkle_root_in_memory (value : QHash256) (siblings : bytes)
    (index siblings_count : Z) : res unit QHash256 :=
  if negb (len siblings <=? 32 * siblings_count) then Panic else
  try r <- in_memory_path false (fun buf => hash_impl_sha256_bytes (hash_impl_sha256_bytes buf))
             siblings 0 (Z.to_nat siblings_count) value index;
  if r.2 =? 0 then Ok r.1 else Panic.

Definition compute_sha256_merkle_root_in_memory (value : QHash256) (siblings : bytes)
    (index siblings_count : Z) : res unit QHash256 :=
  if negb (len siblings <=? 32 * siblings_count) then Panic else
  try r <- in_memory_path false hash_impl_sha256_bytes siblings 0 (Z.to_nat siblings_count) value index;
  if r.2 =? 0 then Ok r.1 else Panic.
End in_memory.

(** ** Lemmas *)

Section generic_lemmas.
Context {Hash : Type} `{EqDecision Hash} `{MerkleHasher Hash}.
Implicit Types (v : Hash) (s : list Hash).

(** No two different pairs of the list have the same hash.  Soundness theorems
    assume this of the finitely many pairs that are hashed in the computations
    they compare; it is decidable, and fails only if those exhibit a collision. *)
Definition collision_free (ps : list (Hash * Hash)) : Prop :=
  Forall (fun p => Forall (fun q => two_to_one p.1 p.2 = two_to_one q.1 q.2 -> p = q) ps) ps.

Lemma collision_free_inj ps a b c d :
  collision_free ps -> (a, b) ∈ ps -> (c, d) ∈ ps ->
  two_to_one a b = two_to_one c d -> a = c /\ b = d.
Proof.
  intros Hc H1 H2 E. unfold collision_free in Hc. rewrite list.Forall_forall in Hc.
  specialize (Hc _ H1). simpl in Hc. rewrite list.Forall_forall in Hc.
  by pose proof (Hc _ H2 E) as [= -> ->].
Qed.

Lemma collision_free_mono ps qs : ps ⊆ qs -> collision_free qs -> collision_free ps.
Proof.
  unfold collision_free. rewrite !list.Forall_forall. intros Hs Hc p Hp. specialize (Hc p (Hs p Hp)).
  rewrite list.Forall_forall in *. auto.
Qed.

Lemma collision_free_NoDup ps : NoDup ((fun p => two_to_one p.1 p.2) <$> ps) -> collision_free ps.
Proof.
  intros HN. unfold collision_free. rewrite list.Forall_forall. intros p [i Hi]%list_elem_of_lookup_1.
  rewrite list.Forall_forall. intros q [j Hj]%list_elem_of_lookup_1 E.
  assert (i = j) as ->; [|congruence].
  eapply NoDup_lookup; [exact HN|rewrite list_lookup_fmap, Hi; reflexivity|].
  rewrite list_lookup_fmap, Hj. simpl. by rewrite E.
Qed.

Lemma collision_free_twice ps : collision_free ps -> collision_free (ps ++ ps).
Proof. apply collision_free_mono. intros p. rewrite elem_of_app. by intros [?|?]. Qed.

(** The pairs hashed along a path. *)
Fixpoint path_pairs (v : Hash) (i : Z) (s : list Hash) : list (Hash * Hash) :=
  match s with
  | [] => []
  | x :: s =>
      let p := if Z.even i then (v, x) else (x, v) in
      p :: path_pairs (two_to_one p.1 p.2) (i / 2) s
  end.

Lemma root_cons v i x s :
  compute_root_merkle_proof_generic v i (x :: s) =
    compute_root_merkle_proof_generic (if Z.even i then two_to_one v x else two_to_one x v) (i / 2) s.
Proof.
  simpl. rewrite land1_eqb1, shiftr_1, <- Z.negb_even. unfold two_to_one_swap.
  by destruct (Z.even i).
Qed.

Lemma root_app v i s1 s2 :
  compute_root_merkle_proof_generic v i (s1 ++ s2) =
    compute_root_merkle_proof_generic (compute_root_merkle_proof_generic v i s1)
      (i / 2 ^ len s1) s2.
Proof.
  revert v i. induction s1 as [|x s1 IH]; intros v i.
  { simpl. by rewrite len_nil, Z.div_1_r. }
  rewrite <- app_comm_cons, !root_cons, IH. f_equal.
  rewrite Z.div_div by (pose proof (Z.pow_pos_nonneg 2 (len s1) ltac:(lia) (len_nonneg s1)); lia).
  rewrite len_cons, Z.pow_add_r by (pose proof (len_nonneg s1); lia). done.
Qed.

(** Only the low [len s] bits of the index matter. *)
Lemma root_low_bits v i s :
  compute_root_merkle_proof_generic v (i mod 2 ^ len s) s = compute_root_merkle_proof_generic v i s.
Proof.
  revert v i. induction s as [|x s IH]; intros v i; [done|].
  rewrite !root_cons, len_cons. pose proof (len_nonneg s).
  rewrite Z.pow_add_r by lia. change (2 ^ 1) with 2.
  assert (0 < 2 ^ len s) by (apply Z.pow_pos_nonneg; lia).
  rewrite Z.rem_mul_r by lia.
  replace (Z.even (i mod 2 + 2 * ((i / 2) mod 2 ^ len s))) with (Z.even i).
  2:{ rewrite Z.even_add, Z.even_mul. simpl. rewrite Zmod_even. by destruct (Z.even i). }
  rewrite (Z.mul_comm 2), Z.div_add by lia.
  rewrite (Z.div_small (i mod 2) 2), Z.add_0_l by (apply Z.mod_pos_bound; lia).
  apply IH.
Qed.

(** Proofs bind: equal roots at one index force equal leaves and siblings, unless
    the pairs hashed on the two paths collide. *)
Lemma root_binding v v' i s s' :
  length s = length s' -> collision_free (path_pairs v i s ++ path_pairs v' i s') ->
  compute_root_merkle_proof_generic v i s = compute_root_merkle_proof_generic v' i s' ->
  v = v' /\ s = s'.
Proof.
  revert v v' i s'. induction s as [|x s IH]; intros v v' i [|x' s'] Hl Hc E; simplify_eq; [done|].
  rewrite !root_cons in E. simpl in Hl. cbn [path_pairs] in Hc.
  destruct (IH (if Z.even i then two_to_one v x else two_to_one x v)
    (if Z.even i then two_to_one v' x' else two_to_one x' v') (i / 2) s' ltac:(lia)) as [Ev ->].
  - eapply collision_free_mono; [|exact Hc]. clear. destruct (Z.even i); set_solver.
  - done.
  - destruct (Z.even i); eapply collision_free_inj in Ev as [-> ->]; try exact Hc; clear; set_solver.
Qed.

Lemma btc_path_root v i s r j :
  btc_path v i s = Some (r, j) ->
  r = compute_root_merkle_proof_generic v i s /\ j = i / 2 ^ len s.
Proof.
  revert v i. induction s as [|x s IH]; intros v i E.
  { simpl in E. simplify_eq. by rewrite len_nil, Z.div_1_r. }
  rewrite root_cons. simpl in E. rewrite land1_eqb0, shiftr_1 in E. pose proof (len_nonneg s).
  assert (i / 2 / 2 ^ len s = i / 2 ^ len (x :: s)) as Hd.
  { rewrite len_cons, Z.pow_add_r by lia.
    rewrite Z.div_div by (try apply Z.pow_pos_nonneg; lia). done. }
  rewrite <- Hd. destruct (Z.even i); [by apply IH|]. case_bool_decide; [done|]. by apply IH.
Qed.
End generic_lemmas.

(** ** The root of a list of leaves *)

Section partial_root.
Context {Hash : Type} `{EqDecision Hash} `{MerkleHasher Hash}.
Implicit Types l : list Hash.

Lemma pair_up_length l : length (pair_up l) = Nat.div2 (S (length l)).
Proof.
  induction l as [l IH] using (induction_ltof1 _ length). destruct l as [|a [|b l]]; [done..|].
  cbn [pair_up length Nat.div2]. rewrite (IH l); [done|]. unfold ltof. simpl. lia.
Qed.

Lemma pair_up_app k l r : length l = (2 * k)%nat -> pair_up (l ++ r) = pair_up l ++ pair_up r.
Proof.
  revert l. induction k as [|k IH]; intros l Hl; [by destruct l|].
  destruct l as [|a [|b l]]; [simpl in Hl; lia..|]. cbn [app pair_up]. rewrite IH; [done|]. simpl in Hl. lia.
Qed.

(** A list of [2] to [2^(n+1)] nodes has [1] to [2^n] parents. *)
Lemma pair_up_bound n l :
  (length l <= 2 ^ S n)%nat -> l <> [] -> (length (pair_up l) <= 2 ^ n)%nat /\ pair_up l <> [].
Proof.
  intros Hl Hne. split; [|by destruct l as [|? [|? ?]]]. rewrite pair_up_length.
  pose proof (Nat.div2_odd (S (length l))) as Hd. destruct (Nat.odd _); simpl in *; lia.
Qed.

Lemma partial_root_loop_enough n l :
  (length l <= 2 ^ n)%nat -> l <> [] ->
  exists r, forall fuel, (n <= fuel)%nat -> partial_root_loop fuel l = Some r.
Proof.
  revert l. induction n as [|n IH]; intros l Hl Hne.
  { destruct l as [|a [|b l]]; [done| |simpl in Hl; lia]. exists a. by intros [|?]. }
  destruct (decide (length l = 1%nat)) as [Hone|Hmany].
  { destruct l as [|a [|b l]]; try discriminate Hone. exists a. by intros [|?]. }
  destruct (pair_up_bound n l Hl Hne) as [Hb Hp]. destruct (IH (pair_up l) Hb Hp) as [r Hr]. exists r.
  intros fuel Hf. destruct fuel as [|fuel]; [lia|]. destruct l as [|a [|b l]]; [done..|]. apply Hr. lia.
Qed.

(** The rounds on two halves of equal size run side by side until one node is left of each. *)
Lemma partial_root_loop_halves h l r fuel :
  length l = (2 ^ h)%nat -> length r = (2 ^ h)%nat -> (h <= fuel)%nat ->
  partial_root_loop (S fuel) (l ++ r) =
  (a ← partial_root_loop fuel l; b ← partial_root_loop fuel r; Some (two_to_one a b)).
Proof.
  revert l r fuel. induction h as [|h IH]; intros l r fuel Hl Hr Hf.
  { destruct l as [|a [|]]; try discriminate Hl. destruct r as [|b [|]]; try discriminate Hr.
    by destruct fuel. }
  assert (forall k, length k = (2 ^ S h)%nat -> length (pair_up k) = (2 ^ h)%nat) as Hhalf.
  { intros k Hk. rewrite pair_up_length, Hk. replace (2 ^ S h)%nat with (2 * 2 ^ h)%nat by (simpl; lia).
    apply Nat.div2_succ_double. }
  assert (2 <= 2 ^ S h)%nat by (simpl; pose proof (Nat.pow_nonzero 2 h); lia).
  destruct fuel as [|fuel]; [lia|].
  assert (forall f k, (2 <= length k)%nat -> partial_root_loop (S f) k = partial_root_loop f (pair_up k)) as Hstep.
  { intros f k Hk. destruct k as [|a [|b k]]; simpl in Hk; [lia..|done]. }
  rewrite (Hstep (S fuel)), (Hstep fuel l), (Hstep fuel r) by (rewrite ?length_app; lia).
  rewrite (pair_up_app (2 ^ h)) by (rewrite Hl; simpl; lia). apply IH; [by apply Hhalf..|lia].
Qed.

(** The root of a list of leaves is computed and is the tree's root.  The loop of
    [compute_partial_merkle_root_from_leaves] ends: on [n] leaves it takes at most
    [log2 n] rounds, rounded up, more change nothing, and it panics only on an empty
    list; and on twice [2^h] leaves the root is the hash of the roots of the halves. *)
Theorem partial_root_terminates l :
  (compute_partial_merkle_root_from_leaves l = None <-> l = []) /\
  (forall fuel, (Nat.log2_up (length l) <= fuel)%nat ->
     partial_root_loop fuel l = compute_partial_merkle_root_from_leaves l) /\
  (forall h l1 l2, l = l1 ++ l2 -> length l1 = (2 ^ h)%nat -> length l2 = (2 ^ h)%nat ->
     compute_partial_merkle_root_from_leaves l =
     (a ← compute_partial_merkle_root_from_leaves l1; b ← compute_partial_merkle_root_from_leaves l2;
      Some (two_to_one a b))).
Proof.
  assert (forall k, k <> [] -> exists r, forall fuel, (Nat.log2_up (length k) <= fuel)%nat ->
    partial_root_loop fuel k = Some r) as Henough.
  { intros k Hk. apply partial_root_loop_enough; [|done]. destruct k as [|a [|b k]]; [done|simpl; lia|].
    apply Nat.log2_up_spec. simpl. lia. }
  assert (forall k : list Hash, (Nat.log2_up (length k) <= length k)%nat) as Hlog by (intros k; apply Nat.log2_up_le_lin; lia).
  unfold compute_partial_merkle_root_from_leaves. split; [|split].
  - split; [|by intros ->]. intros Hn. destruct l as [|a l]; [done|].
    destruct (Henough (a :: l) ltac:(done)) as [r Hr]. by rewrite Hr in Hn.
  - intros fuel Hf. destruct l as [|a l]; [by destruct fuel|].
    destruct (Henough (a :: l) ltac:(done)) as [r Hr]. by rewrite !Hr.
  - intros h l1 l2 -> H1 H2. pose proof (Nat.pow_nonzero 2 h ltac:(lia)).
    assert (h < 2 ^ h)%nat by (apply Nat.pow_gt_lin_r; lia).
    assert (forall k fuel, length k = (2 ^ h)%nat -> (h <= fuel)%nat ->
      partial_root_loop fuel k = partial_root_loop (length k) k) as Hfuel.
    { intros k fuel Hk Hf. destruct (Henough k) as [r Hr]; [intros ->; simpl in Hk; lia|].
      rewrite Hk, Nat.log2_up_pow2 in Hr by lia. rewrite !Hr by lia. done. }
    destruct (length (l1 ++ l2)) as [|fuel] eqn:E; rewrite length_app in E; [lia|].
    rewrite (partial_root_loop_halves h) by lia. by rewrite (Hfuel l1 fuel), (Hfuel l2 fuel) by lia.
Qed.
End partial_root.

Section delta_theorems.
Context {Hash : Type} `{EqDecision Hash} `{MerkleHasher Hash}.

Lemma dmp_from_params_verify i (o n : Hash) s : dmp_verify (dmp_from_params i o n s) = true.
Proof. unfold dmp_verify. simpl. by rewrite !bool_decide_true. Qed.

Lemma root_split_low (v : Hash) i s (k : nat) :
  (k <= length s)%nat -> (k < 64)%nat -> 0 <= i ->
  compute_root_merkle_proof_generic
    (compute_root_merkle_proof_generic v (Z.land i (Z.shiftl 1 (Z.of_nat k) - 1)) (take k s))
    (Z.shiftr i (Z.of_nat k)) (drop k s) = compute_root_merkle_proof_generic v i s.
Proof.
  intros Hk Hk' Hi.
  rewrite Z.shiftl_1_l, Z.sub_1_r, <- Z.ones_equiv, Z.land_ones by lia.
  assert (len (take k s) = Z.of_nat k) as Hlen by (unfold len; rewrite length_take; lia).
  rewrite <- Hlen at 1. rewrite root_low_bits, Z.shiftr_div_pow2 by lia.
  rewrite <- Hlen at 1. by rewrite <- root_app, take_drop.
Qed.

(** Cutting the bottom levels off a verifying delta proof (by fewer than 64
    levels) gives a delta proof of the remaining height that verifies against
    the same old and new roots at the shifted index. *)
Theorem shortened_from_bottom_verifies (p : DeltaMerkleProofCore Hash) (h : nat) :
  dmp_verify p = true -> 0 <= dmp_index p ->
  (h <= length (dmp_siblings p) < h + 64)%nat ->
  exists q, dmp_with_shortened_height_from_bottom p h = Some q /\
    dmp_verify q = true /\ length (dmp_siblings q) = h /\
    dmp_old_root q = dmp_old_root p /\ dmp_new_root q = dmp_new_root p /\
    dmp_index q = Z.shiftr (dmp_index p) (Z.of_nat (length (dmp_siblings p) - h)).
Proof.
  unfold dmp_verify at 1. intros [Ho%bool_decide_eq_true Hn%bool_decide_eq_true]%andb_true_iff Hi Hh.
  unfold dmp_with_shortened_height_from_bottom.
  rewrite decide_True by lia. destruct (decide (h = _)) as [->|Hne].
  { eexists. split; [done|]. rewrite Nat.sub_diag. simpl. rewrite Z.shiftr_0_r. repeat split.
    unfold dmp_verify. by rewrite !bool_decide_true. }
  eexists. split; [reflexivity|]. split; [apply dmp_from_params_verify|].
  cbn [dmp_siblings dmp_old_root dmp_new_root dmp_index dmp_from_params].
  rewrite Z.mod_small by lia. rewrite !root_split_low by lia.
  split; [rewrite length_drop; lia|]. auto.
Qed.
End delta_theorems.

Definition xor_hasher : MerkleHasher Z := {| two_to_one := fun a b => Z.lxor (3 * a) (5 * b) + 1 |}.

Lemma shortened_from_bottom_verifies_witness :
  exists q, @dmp_with_shortened_height_from_bottom Z xor_hasher
      (@dmp_from_params Z xor_hasher 5 7 9 [1; 2; 3]) 1 = Some q /\
    @dmp_verify Z _ xor_hasher q = true /\ dmp_index q = 1.
Proof.
  destruct (@shortened_from_bottom_verifies Z _ xor_hasher
    (@dmp_from_params Z xor_hasher 5 7 9 [1; 2; 3]) 1) as (q & Hq & Hv & _ & _ & _ & Hi).
  - vm_compute. reflexivity.
  - vm_compute. discriminate.
  - simpl. lia.
  - exists q. split; [exact Hq|]. split; [exact Hv|]. exact Hi.
Defined.

(** ** The Dogecoin transaction tree *)

Section btc_tree.
Context {Hash : Type} `{EqDecision Hash} `{MerkleHasher Hash}.

(** One level of the Bitcoin Merkle tree: an odd last node is hashed with
    itself. *)
Fixpoint btc_level (l : list Hash) : list Hash :=
  match l with
  | a :: b :: rest => two_to_one a b :: btc_level rest
  | [a] => [two_to_one a a]
  | [] => []
  end.

(** [btc_tree d leaves r]: after [d] levels the root [r] is left. *)
Fixpoint btc_tree (d : nat) (leaves : list Hash) (r : Hash) : Prop :=
  match d with
  | O => leaves = [r]
  | S d => (1 < length leaves)%nat /\ btc_tree d (btc_level leaves) r
  end.

Lemma btc_level_lookup (l : list Hash) j c :
  btc_level l !! j = Some c ->
  exists a, l !! (2 * j)%nat = Some a /\ c = two_to_one a (default a (l !! (2 * j + 1)%nat)).
Proof.
  revert l. induction j as [|j IH]; intros [|a [|b l]] Hj; simpl in Hj; simplify_eq; eauto.
  apply IH in Hj as (x & Hx & ->). exists x.
  replace (2 * S j)%nat with (S (S (2 * j))) by lia. split; [done|].
  by replace (S (S (2 * j)) + 1)%nat with (S (S (2 * j + 1))) by lia.
Qed.

(** The pairs hashed on one level, and in the whole tree. *)
Fixpoint btc_level_pairs (l : list Hash) : list (Hash * Hash) :=
  match l with
  | a :: b :: rest => (a, b) :: btc_level_pairs rest
  | [a] => [(a, a)]
  | [] => []
  end.

Fixpoint btc_tree_pairs (d : nat) (leaves : list Hash) : list (Hash * Hash) :=
  match d with
  | O => []
  | S d => btc_level_pairs leaves ++ btc_tree_pairs d (btc_level leaves)
  end.

Lemma btc_level_pairs_lookup (l : list Hash) j a :
  l !! (2 * j)%nat = Some a -> (a, default a (l !! (2 * j + 1)%nat)) ∈ btc_level_pairs l.
Proof.
  revert l. induction j as [|j IH]; intros l Hj.
  { destruct l as [|x [|y l]]; simpl in Hj; simplify_eq; by left. }
  replace (2 * S j)%nat with (S (S (2 * j))) in * by lia. destruct l as [|x [|y l]]; try done.
  right. by apply IH.
Qed.

(** A path accepted under the odd-leaf rule leads to a real leaf. *)
Lemma btc_path_sound d leaves r v i s :
  btc_tree d leaves r -> length s = d -> 0 <= i ->
  collision_free (path_pairs v i s ++ btc_tree_pairs d leaves) ->
  btc_path v i s = Some (r, 0) ->
  leaves !! Z.to_nat i = Some v.
Proof.
  revert leaves v i s. induction d as [|d IH]; intros leaves v i [|x s] HT Hl Hi HC HP; try done.
  { simpl in *. by simplify_eq. }
  destruct HT as [_ HT]. simpl in HP. rewrite land1_eqb0, shiftr_1 in HP.
  assert (0 <= i / 2) by (apply Z.div_pos; lia).
  simpl in Hl. cbn [path_pairs btc_tree_pairs] in HC.
  assert (btc_level leaves !! Z.to_nat (i / 2) = Some (if Z.even i then two_to_one v x else two_to_one x v)) as Hn.
  { apply (IH _ _ _ s); [done|lia|done| |].
    - eapply collision_free_mono; [|exact HC]. clear. destruct (Z.even i); set_solver.
    - destruct (Z.even i); [done|]. by case_bool_decide. }
  apply btc_level_lookup in Hn as (a & Ha & Hc). pose proof (btc_level_pairs_lookup _ _ _ Ha) as Hin.
  destruct (Z.even i) eqn:Ev; (edestruct collision_free_inj as [Hav Hx];
    [exact HC|by apply elem_of_app; left; left|apply elem_of_app; right; apply elem_of_app; left; exact Hin
    |exact Hc|]).
  - rewrite Hav, <- Ha. f_equal. apply even_double in Ev. lia.
  - case_bool_decide as Hne; [done|]. subst v x.
    replace (Z.to_nat i) with (2 * Z.to_nat (i / 2) + 1)%nat by (apply odd_double in Ev; lia).
    destruct (leaves !! _); [done|]. simpl in *. congruence.
Qed.

(** [verify_btc_block_tx_tree] is sound against CVE-2012-2459: a proof whose
    number of siblings is the depth of a Bitcoin tree, accepted against its
    root, names an index inside the block and the leaf stored there, provided
    the pairs hashed on the path and in the tree do not collide.  In particular
    no index in the duplicated padding is accepted. *)
Theorem verify_btc_block_tx_tree_sound (leaves : list Hash) (d : nat) (p : MerkleProofCore Hash) :
  btc_tree d leaves (mp_root p) -> length (mp_siblings p) = d -> 0 <= mp_index p ->
  collision_free (path_pairs (mp_value p) (mp_index p) (mp_siblings p) ++ btc_tree_pairs d leaves) ->
  mp_verify_btc_block_tx_tree p = true ->
  leaves !! Z.to_nat (mp_index p) = Some (mp_value p).
Proof.
  unfold mp_verify_btc_block_tx_tree. intros HT Hl Hi HC HV.
  destruct (btc_path _ _ _) as [[c j]|] eqn:HP; [|done].
  destruct (j =? 0) eqn:Hj; [|done]. apply Z.eqb_eq in Hj as ->. simpl in HV.
  apply bool_decide_eq_true in HV as ->. by eapply btc_path_sound.
Qed.
End btc_tree.

(** Three leaves: the path to the genuine last leaf is accepted. *)
Lemma verify_btc_block_tx_tree_sound_witness :
  let leaves := [10; 20; 30] in
  let h := xor_hasher in
  let n01 := two_to_one 10 20 in let n22 := two_to_one 30 30 in
  let p := {| mp_root := two_to_one n01 n22; mp_value := 30; mp_index := 2;
              mp_siblings := [30; n01] |} in
  leaves !! Z.to_nat (mp_index p) = Some (mp_value p).
Proof.
  intros leaves h n01 n22 p.
  apply (@verify_btc_block_tx_tree_sound Z _ h leaves 2 p).
  - vm_compute. repeat split; lia.
  - reflexivity.
  - vm_compute. discriminate.
  - apply (bool_decide_unpack _). vm_compute. exact I.
  - vm_compute. reflexivity.
Defined.

(** ** Flat sibling buffers *)

Section in_memory_lemmas.
Context `{Sha256}.
#[local] Existing Instance QBTCHash256Hasher.

(** The siblings a flat buffer holds. *)
Fixpoint chunks32 (n : nat) (b : bytes) : list QHash256 :=
  match n with O => [] | S n => take 32 b :: chunks32 n (drop 32 b) end.

Lemma length_chunks32 n b : length (chunks32 n b) = n.
Proof. revert b. induction n; intros; simpl; auto. Qed.

Lemma in_memory_path_chunks rule siblings i n current index :
  0 <= i -> 32 * (i + Z.of_nat n) <= len siblings ->
  in_memory_path rule btc_hash256_bytes siblings i n current index =
    in_memory_path rule btc_hash256_bytes (drop (Z.to_nat (32 * i)) siblings) 0 n current index.
Proof.
  revert i current index siblings. induction n as [|n IH]; intros i current index siblings Hi Hl; [done|].
  cbn [in_memory_path]. unfold len in Hl.
  replace (slice (0 * 32) ((0 + 1) * 32) (drop (Z.to_nat (32 * i)) siblings))
    with (slice (i * 32) ((i + 1) * 32) siblings).
  2:{ destruct (slice_is_Some (i * 32) ((i + 1) * 32) siblings) as [c Hc]; [lia|unfold len; lia|].
      rewrite Hc. symmetry. apply slice_Some in Hc as (_ & _ & ->). apply slice_Some.
      unfold len. rewrite length_drop. split_and!; [lia..|].
      rewrite drop_drop. f_equal; [lia|f_equal; lia]. }
  destruct (slice (i * 32) _ siblings) as [c|]; [|done]. simpl.
  assert (forall cur idx,
    in_memory_path rule btc_hash256_bytes siblings (i + 1) n cur idx =
    in_memory_path rule btc_hash256_bytes (drop (Z.to_nat (32 * i)) siblings) 1 n cur idx) as E.
  { intros. rewrite (IH (i + 1)), (IH 1) by (unfold len; rewrite ?length_drop; lia).
    rewrite drop_drop. do 2 f_equal. lia. }
  by rewrite !E.
Qed.

(** The flat loop is the list loop over the chunks. *)
Lemma in_memory_path_btc siblings n current index :
  32 * Z.of_nat n <= len siblings ->
  in_memory_path true btc_hash256_bytes siblings 0 n current index =
    match btc_path current index (chunks32 n siblings) with Some p => Ok p | None => Err tt end.
Proof.
  revert siblings current index. induction n as [|n IH]; intros siblings current index Hl; [done|].
  cbn [in_memory_path chunks32 btc_path]. unfold len in Hl.
  replace (slice (0 * 32) ((0 + 1) * 32) siblings) with (Some (take 32 siblings)).
  2:{ symmetry. apply slice_Some. unfold len. split_and!; [lia..|done]. }
  simpl or_panic. cbn [res_bind]. change (two_to_one ?a ?b) with (btc_hash256_bytes (a ++ b)).
  destruct (Z.land index 1 =? 0); [|case_bool_decide; [done|]];
    (rewrite in_memory_path_chunks by (unfold len; lia); change (Z.to_nat (32 * (0 + 1))) with 32%nat;
     apply IH; unfold len; rewrite length_drop; lia).
Qed.

Lemma tree_root_hash256_loop_btc current siblings index :
  tree_root_hash256_loop current siblings index =
    match btc_path current index siblings with Some p => Ok p | None => Err tt end.
Proof.
  revert current index. induction siblings as [|x s IH]; intros current index; [done|].
  simpl. rewrite !two_to_one_btc_eq, !IH.
  by destruct (Z.land index 1 =? 0), (bool_decide (x = current)).
Qed.

(** The two Dogecoin proof verifiers agree: on a buffer that holds the
    siblings, the flat-buffer routine returns what the list routine returns on
    the 32-byte chunks, including the rejections of the odd-leaf rule; a buffer
    that is too short is rejected, never read out of range. *)
Theorem dogecoin_proof_root_flat_eq_list value siblings index count :
  0 <= count ->
  compute_dogecoin_block_transaction_merkle_proof_tree_root_in_memory value siblings index count =
    (if len siblings <? 32 * count then Err tt
     else compute_dogecoin_block_transaction_merkle_proof_tree_root_hash256 value
            (chunks32 (Z.to_nat count) siblings) index).
Proof.
  intros Hc. unfold compute_dogecoin_block_transaction_merkle_proof_tree_root_in_memory.
  destruct (Z.ltb_spec (len siblings) (32 * count)); [done|].
  unfold compute_dogecoin_block_transaction_merkle_proof_tree_root_hash256.
  by rewrite in_memory_path_btc, tree_root_hash256_loop_btc by lia.
Qed.

(** The number of transactions claimed for a block is never too large: if
    the last-transaction routine returns the root of a Dogecoin tree over
    [leaves], with as many siblings as the tree is deep, then the claimed count
    is at most the number of leaves and the value is the leaf at
    [claimed - 1], provided the pairs hashed on the path and in the tree do not
    collide. *)
Theorem last_transaction_claim_bounded leaves d root value siblings index claimed :
  btc_tree d leaves root -> 0 <= index ->
  collision_free (path_pairs value index (chunks32 d siblings) ++ btc_tree_pairs d leaves) ->
  compute_dogecoin_last_transaction_in_block_merkle_root_in_memory value siblings index claimed
    (Z.of_nat d) = Ok root ->
  1 <= claimed <= len leaves /\ leaves !! Z.to_nat (claimed - 1) = Some value.
Proof.
  intros HT Hi HC HR. unfold compute_dogecoin_last_transaction_in_block_merkle_root_in_memory in HR.
  destruct (claimed =? 0) eqn:E0; [done|]. destruct (index =? claimed - 1) eqn:E1; [|done].
  destruct (len siblings <? _) eqn:E2; [done|]. simpl in HR. reflect_bool. subst index.
  rewrite Nat2Z.id, in_memory_path_btc in HR by lia.
  destruct (btc_path _ _ _) as [[c j]|] eqn:HP; [|done]. simpl in HR.
  destruct (j =? 0) eqn:Hj; [|done]. simpl in HR. reflect_bool. simplify_eq.
  pose proof (btc_path_sound _ _ _ _ _ _ HT (length_chunks32 d siblings) Hi HC HP) as HL.
  split; [|done]. apply lookup_lt_Some in HL. unfold len. lia.
Qed.

(** The claimed count is not bounded from below: in a block of two
    transactions the first one is accepted as the last of a one-transaction
    block. *)
Theorem last_transaction_claim_can_be_short a b :
  length a = 32%nat -> length b = 32%nat ->
  btc_tree 1 [a; b] (two_to_one a b) /\
  compute_dogecoin_last_transaction_in_block_merkle_root_in_memory a b 0 1 1 = Ok (two_to_one a b).
Proof.
  intros Ha Hb. split; [by repeat split; simpl; lia|].
  unfold compute_dogecoin_last_transaction_in_block_merkle_root_in_memory.
  cbn [Z.eqb Z.sub negb]. unfold len. rewrite Hb. simpl (_ <? _).
  change (Z.to_nat 1) with 1%nat. rewrite in_memory_path_btc by (unfold len; lia).
  simpl. rewrite firstn_all2 by lia. done.
Qed.
End in_memory_lemmas.

Lemma dogecoin_proof_root_flat_eq_list_witness :
  @compute_dogecoin_block_transaction_merkle_proof_tree_root_in_memory fips_sha256
    (zeros 32) (replicate 32 7 ++ replicate 32 9) 2 2 =
  @compute_dogecoin_block_transaction_merkle_proof_tree_root_hash256 fips_sha256
    (zeros 32) [replicate 32 7; replicate 32 9] 2.
Proof.
  rewrite (@dogecoin_proof_root_flat_eq_list fips_sha256 (zeros 32)
             (replicate 32 7 ++ replicate 32 9) 2 2) by lia.
  reflexivity.
Defined.

(** A block with the two transactions [7..7] and [9..9]; the second is last. *)
Lemma last_transaction_claim_bounded_witness :
  let a := replicate 32 7 in let b := replicate 32 9 in
  1 <= 2 <= len [a; b] /\ [a; b] !! Z.to_nat (2 - 1) = Some b.
Proof.
  intros a b.
  apply (@last_transaction_claim_bounded fips_sha256 [a; b] 1
           (@two_to_one _ (@QBTCHash256Hasher fips_sha256) a b) b a 1 2).
  - split; [simpl; lia|]. reflexivity.
  - lia.
  - apply (bool_decide_unpack _). vm_compute. exact I.
  - vm_compute. reflexivity.
Defined.

Lemma last_transaction_claim_can_be_short_witness :
  @compute_dogecoin_last_transaction_in_block_merkle_root_in_memory fips_sha256
    (replicate 32 7) (replicate 32 9) 0 1 1 =
  Ok (@two_to_one _ (@QBTCHash256Hasher fips_sha256) (replicate 32 7) (replicate 32 9)).
Proof.
  apply (@last_transaction_claim_can_be_short fips_sha256 (replicate 32 7) (replicate 32 9));
    reflexivity.
Defined.
