(* ===== verification/AppendTree.v ===== *)
(** * AppendTree: the append-only Merkle tree of height 32

    Models [libraries/psy-bridge-core/src/crypto/hash/merkle/append.rs] and
    [fixed_append_tree.rs].  The tree keeps only the next index, the root and, per
    level, the left sibling that the next leaf will need.

    The specification is the perfect tree over the list of appended leaves
    ([node]); [tree_repr t leaves] says that [t] represents [leaves], and the
    theorems show that every mutation of the tree refines the corresponding
    list operation. *)
From S2P Require Import Prelude Hash Sha256 Errors MerkleProof.
From Stdlib Require Import ZArith Lia.
From stdpp Require Import base decidable list numbers option.

Open Scope Z_scope.
Open Scope bridge_scope.

Section append_tree.
Context `{Sha256}.

Definition TREE_HEIGHT : nat := 32.

(** ** append.rs *)

(** The loop of [update_siblings_append_merkle_tree].  [zero_hashes] is the part
    of [SHA256_ZERO_HASHES] from the current level on; running out of it is
    the out-of-range panic. *)
Fixpoint append_loop (next_siblings zero_hashes : list QHash256) (current : QHash256)
    (index next_changes : Z) : option (QHash256 * list QHash256) :=
  match next_siblings with
  | [] => Some (current, [])
  | sibling :: siblings =>
      match zero_hashes with
      | [] => None
      | zero :: zeros' =>
          let '(current', sibling') :=
            if Z.land index 1 =? 0 then
              (* left child *)
              (hash_impl_sha256_two_to_one_bytes current zero,
               if Z.land next_changes 1 =? 1 then current else sibling)
            else
              (* right child *)
              (hash_impl_sha256_two_to_one_bytes sibling current,
               if Z.land next_changes 1 =? 1 then zero else sibling) in
          '(root, rest) ← append_loop siblings zeros' current' (Z.shiftr index 1)
                            (Z.shiftr next_changes 1);
          Some (root, sibling' :: rest)
      end
  end.

Definition update_siblings_append_merkle_tree (next_siblings : list QHash256)
    (next_value : QHash256) (next_index : Z) : option (QHash256 * list QHash256) :=
  append_loop next_siblings SHA256_ZERO_HASHES next_value next_index
    (Z.lxor next_index (u64 (next_index + 1))).

(** [update_siblings_append_merkle_tree_imm_fixed] runs the same update on a copy. *)
Definition update_siblings_append_merkle_tree_imm_fixed (next_siblings : list QHash256)
    (next_value : QHash256) (next_index : Z) : option (QHash256 * list QHash256) :=
  update_siblings_append_merkle_tree next_siblings next_value next_index.

(** ** fixed_append_tree.rs *)

Record FixedMerkleAppendTreePartialMerkleProof := {
  fpp_index : Z;
  fpp_value : QHash256;
  fpp_siblings : list QHash256
}.

Definition fpp_compute_root_sha256 (self : FixedMerkleAppendTreePartialMerkleProof)
    : option QHash256 :=
  hash_impl_sha256_compute_merkle_root (fpp_value self) (fpp_index self) (fpp_siblings self).

(** The loop over the levels, from level [i] on. *)
Fixpoint changed_siblings_loop (target_next_siblings : list QHash256) (i : nat) (levels : nat)
    (temp_index changed_index : Z) : option (list QHash256) :=
  match levels with
  | O => Some []
  | S levels =>
      let rest := changed_siblings_loop target_next_siblings (S i) levels
                    (Z.shiftr temp_index 1) (Z.shiftr changed_index 1) in
      if negb (Z.land temp_index 1 =? 0) && negb (changed_index =? 0) then
        s ← target_next_siblings !! i;
        r ← rest;
        Some (s :: r)
      else rest
  end.

Definition get_changed_next_siblings_for_revert (current_next_index target_next_index : Z)
    (target_next_siblings : list QHash256) : res DogeBridgeError (list QHash256) :=
  bail RevertIndexTooHigh if (current_next_index =? 0) || (current_next_index <=? target_next_index);
  or_panic (changed_siblings_loop target_next_siblings 0 TREE_HEIGHT target_next_index
              (Z.lxor target_next_index current_next_index)).

Record FixedMerkleAppendTreeDeltaPartialMerkleProof := {
  fdp_new_value : QHash256;
  fdp_old_value : QHash256;
  fdp_index : Z;
  fdp_siblings : list QHash256
}.

Record FixedMerkleAppendTree := {
  next_index : Z;
  current_root : QHash256;
  next_siblings : list QHash256
}.

#[export] Instance FixedMerkleAppendTree_eq_dec : EqDecision FixedMerkleAppendTree.
Proof. solve_decision. Defined.

(** [core::array::from_fn(|i| SHA256_ZERO_HASHES[i])] *)
Definition zero_siblings : list QHash256 := take TREE_HEIGHT SHA256_ZERO_HASHES.

Definition new_empty : FixedMerkleAppendTree :=
  {| next_index := 0; current_root := ZERO TREE_HEIGHT; next_siblings := zero_siblings |}.

(** [new]; [None] is a panic of the root computation. *)
Definition tree_new (next_index : Z) (next_siblings : list QHash256) : option FixedMerkleAppendTree :=
  if next_index =? 0 then Some new_empty else
  root ← hash_impl_sha256_compute_merkle_root (zeros 32) next_index next_siblings;
  Some {| next_index := next_index; current_root := root; next_siblings := next_siblings |}.

Definition tree_new_vec (next_index : Z) (next_siblings : list QHash256)
    : option FixedMerkleAppendTree :=
  if decide (length next_siblings = TREE_HEIGHT) then tree_new next_index next_siblings else None.

(** [get_value]: the last leaf, when it is a left child. *)
Definition get_value (self : FixedMerkleAppendTree) : option QHash256 :=
  if Z.land (next_index self) 1 =? 1 then next_siblings self !! 0%nat else Some (ZERO 0).

Definition append (self : FixedMerkleAppendTree) (new_value : QHash256)
    : option FixedMerkleAppendTree :=
  '(new_root, siblings) ← update_siblings_append_merkle_tree (next_siblings self) new_value
                            (next_index self);
  Some {| next_index := u64 (next_index self + 1); current_root := new_root;
          next_siblings := siblings |}.

(** The loop of the proof generators: at each level the stored sibling on a
    right child, the zero hash on a left child. *)
Fixpoint proof_siblings (stored : list QHash256) (i : nat) (levels : nat) (temp_idx : Z)
    : option (list QHash256) :=
  match levels with
  | O => Some []
  | S levels =>
      s ← (if Z.land temp_idx 1 =? 1 then stored !! i else Some (ZERO i));
      r ← proof_siblings stored (S i) levels (Z.shiftr temp_idx 1);
      Some (s :: r)
  end.

Definition get_partial_merkle_proof_for_current_index (self : FixedMerkleAppendTree)
    : option (MerkleProofCorePartial QHash256) :=
  siblings ← proof_siblings (next_siblings self) 0 TREE_HEIGHT (next_index self);
  Some (mpp_new_from_params (next_index self) (ZERO 0) siblings).

(** [core::array::from_fn(|i| if (index >> i) & 1 == 1 {..} else {..})] *)
Definition get_partial_merkle_proof_fixed_for_current_index (self : FixedMerkleAppendTree)
    : option FixedMerkleAppendTreePartialMerkleProof :=
  siblings ← mapM (fun i : nat =>
      if Z.land (Z.shiftr (next_index self) (Z.of_nat i)) 1 =? 1
      then next_siblings self !! i else Some (ZERO i)) (seq 0 TREE_HEIGHT);
  Some {| fpp_index := next_index self; fpp_value := ZERO 0; fpp_siblings := siblings |}.

Definition append_delta_merkle_proof (self : FixedMerkleAppendTree) (new_value : QHash256)
    : option (DeltaMerkleProofCore QHash256 * FixedMerkleAppendTree) :=
  proof ← get_partial_merkle_proof_for_current_index self;
  self' ← append self new_value;
  Some (@dmp_from_params _ QSha256Hasher (mpp_index proof) (ZERO 0) new_value (mpp_siblings proof),
        self').

Definition append_partial_delta_merkle_proof (self : FixedMerkleAppendTree) (new_value : QHash256)
    : option (FixedMerkleAppendTreeDeltaPartialMerkleProof * FixedMerkleAppendTree) :=
  proof ← get_partial_merkle_proof_fixed_for_current_index self;
  self' ← append self new_value;
  Some ({| fdp_new_value := new_value; fdp_old_value := ZERO 0; fdp_index := fpp_index proof;
           fdp_siblings := fpp_siblings proof |}, self').

(** The loop of [revert_to_next_index]: a right child takes the next given
    sibling, a left child the zero hash; the levels above the highest bit in
    which the indices differ are kept.  The siblings written so far come back
    with an error too. *)
Fixpoint revert_loop (levels i : nat) (siblings : list QHash256) (target changed_index : Z)
    (changed : list QHash256) : res DogeBridgeError unit * list QHash256 :=
  match levels with
  | O => (Ok tt, siblings)
  | S levels =>
      if changed_index =? 0 then (Ok tt, siblings) else
      if negb (Z.land target (Z.shiftl 1 (Z.of_nat i)) =? 0) then
        match changed with
        | [] => (Err NotEnoughChangedLeftSiblings, siblings)
        | c :: changed => revert_loop levels (S i) (<[i := c]> siblings) target
                            (Z.shiftr changed_index 1) changed
        end
      else revert_loop levels (S i) (<[i := ZERO i]> siblings) target
             (Z.shiftr changed_index 1) changed
  end.

Definition revert_to_next_index (self : FixedMerkleAppendTree) (target_next_index : Z)
    (changed_left_next_siblings : list QHash256)
    : res DogeBridgeError unit * FixedMerkleAppendTree :=
  bail RevertIndexTooHigh if (next_index self =? 0) || (next_index self <=? target_next_index) on self;
  if target_next_index =? 0 then (Ok tt, new_empty) else
  call (_, self1) <- revert_loop 32 0 (next_siblings self) target_next_index
                       (Z.lxor target_next_index (next_index self)) changed_left_next_siblings
    into (fun s => {| next_index := next_index self; current_root := current_root self;
                      next_siblings := s |});
  try root <- or_panic (hash_impl_sha256_compute_merkle_root (zeros 32) target_next_index
                          (next_siblings self1)) on self1;
  (Ok tt, {| next_index := target_next_index; current_root := root;
             next_siblings := next_siblings self1 |}).

(** The loop of [revert_to_index]: returns the hash, the unused siblings and
    the rewritten sibling array. *)
Fixpoint revert_index_loop (levels i : nat) (siblings : list QHash256) (current_hash : QHash256)
    (revert_path_index : Z) (changed : list QHash256)
    : res DogeBridgeError (QHash256 * list QHash256) * list QHash256 :=
  match levels with
  | O => (Ok (current_hash, changed), siblings)
  | S levels =>
      if Z.land revert_path_index 1 =? 1 then
        match changed with
        | [] => (Err NotEnoughChangedLeftSiblings, siblings)
        | left_sibling :: changed =>
            revert_index_loop levels (S i) (<[i := ZERO i]> siblings)
              (hash_impl_sha256_two_to_one_bytes left_sibling current_hash)
              (Z.shiftr revert_path_index 1) changed
        end
      else
        revert_index_loop levels (S i) (<[i := current_hash]> siblings)
          (hash_impl_sha256_two_to_one_bytes current_hash (ZERO i))
          (Z.shiftr revert_path_index 1) changed
  end.

Definition revert_to_index (self : FixedMerkleAppendTree) (index : Z)
    (changed_left_siblings : list QHash256) (value : QHash256)
    : res DogeBridgeError unit * FixedMerkleAppendTree :=
  bail RevertIndexTooHigh if (next_index self =? 0) || (next_index self <=? index) on self;
  if index =? 0 then (Ok tt, new_empty) else
  call (r, self1) <- revert_index_loop TREE_HEIGHT 0 (next_siblings self) value (index - 1)
                       changed_left_siblings
    into (fun s => {| next_index := next_index self; current_root := current_root self;
                      next_siblings := s |});
  bail TooManyChangedLeftSiblings if negb (bool_decide (r.2 = [])) on self1;
  (Ok tt, {| next_index := index; current_root := r.1; next_siblings := next_siblings self1 |}).

Definition get_merkle_proof_for_current_index (self : FixedMerkleAppendTree)
    : option (MerkleProofCore QHash256) :=
  if next_index self =? 0
  then Some (@mp_new_from_params _ QSha256Hasher 0 (ZERO 0) zero_siblings)
  else
    siblings ← proof_siblings (next_siblings self) 0 TREE_HEIGHT (next_index self - 1);
    Some (@mp_new_from_params _ QSha256Hasher (next_index self - 1) (ZERO 0) siblings).
End append_tree.

(** ** Specification: the perfect tree over the appended leaves *)

Section spec.
Context `{Sha256}.

Definition leaf (leaves : list QHash256) (i : Z) : QHash256 := nth (Z.to_nat i) leaves (ZERO 0).

(** The node at position [i] of level [lvl]; unused leaves are zero. *)
Fixpoint node (leaves : list QHash256) (lvl : nat) (i : Z) : QHash256 :=
  match lvl with
  | O => leaf leaves i
  | S lvl => hash_impl_sha256_two_to_one_bytes (node leaves lvl (2 * i)) (node leaves lvl (2 * i + 1))
  end.

(** What level [i] stores: the left neighbour of the next leaf's ancestor, when
    that ancestor is a right child. *)
Definition stored_sibling (leaves : list QHash256) (i : nat) : QHash256 :=
  let n := len leaves / 2 ^ Z.of_nat i in
  if Z.odd n then node leaves i (n - 1) else ZERO i.

Definition tree_of (leaves : list QHash256) : FixedMerkleAppendTree :=
  {| next_index := len leaves;
     current_root := node leaves TREE_HEIGHT 0;
     next_siblings := stored_sibling leaves <$> seq 0 TREE_HEIGHT |}.
End spec.

Section tree_lemmas.
Context `{Sha256Laws}.
Implicit Types leaves ls ext : list QHash256.

Lemma node_unused leaves lvl i :
  (lvl < 64)%nat -> len leaves <= i * 2 ^ Z.of_nat lvl -> node leaves lvl i = ZERO lvl.
Proof.
  revert i. induction lvl as [|lvl IH]; intros i Hl Hi.
  - simpl. unfold leaf. apply nth_overflow. unfold len in Hi. simpl in Hi. lia.
  - rewrite pow2_succ in Hi. cbn [node].
    rewrite !IH by lia. unfold hash_impl_sha256_two_to_one_bytes, hash_impl_sha256_bytes.
    by rewrite <- sha256_zero_chain by lia.
Qed.

Lemma node_app leaves ext lvl i :
  0 <= i -> (i + 1) * 2 ^ Z.of_nat lvl <= len leaves ->
  node (leaves ++ ext) lvl i = node leaves lvl i.
Proof.
  revert i. induction lvl as [|lvl IH]; intros i Hi Hl.
  - simpl. unfold leaf. apply app_nth1. unfold len in Hl. simpl in Hl. lia.
  - rewrite pow2_succ in Hl. cbn [node]. by rewrite !IH by lia.
Qed.

Lemma pow2_pos (k : nat) : 0 < 2 ^ Z.of_nat k.
Proof. apply Z.pow_pos_nonneg; lia. Qed.

Lemma div_pow2_bounds n k :
  n / 2 ^ Z.of_nat k * 2 ^ Z.of_nat k <= n < (n / 2 ^ Z.of_nat k + 1) * 2 ^ Z.of_nat k.
Proof.
  pose proof (pow2_pos k). pose proof (Z.div_mod n (2 ^ Z.of_nat k) ltac:(lia)).
  pose proof (Z.mod_pos_bound n (2 ^ Z.of_nat k) ltac:(lia)). lia.
Qed.

Lemma div_pow2_pos n k : 0 <= n -> 0 <= n / 2 ^ Z.of_nat k.
Proof. intros. apply Z.div_pos; [done|apply pow2_pos]. Qed.

(** Adding one leaf carries into level [k] or leaves it alone. *)
Lemma div_pow2_carry n k :
  (n + 1) / 2 ^ Z.of_nat k = n / 2 ^ Z.of_nat k + 1 \/
  (n + 1) / 2 ^ Z.of_nat k = n / 2 ^ Z.of_nat k.
Proof.
  pose proof (pow2_pos k). pose proof (div_pow2_bounds n k). pose proof (div_pow2_bounds (n + 1) k).
  nia.
Qed.

Lemma odd_lxor_div a b k :
  Z.odd (Z.lxor a b / 2 ^ Z.of_nat k) =
    xorb (Z.odd (a / 2 ^ Z.of_nat k)) (Z.odd (b / 2 ^ Z.of_nat k)).
Proof.
  rewrite <- !Z.shiftr_div_pow2 by lia. rewrite <- !Z.testbit_odd. apply Z.lxor_spec.
Qed.

(** One level up from the ancestor of leaf [n], on a left child ... *)
Lemma node_up_left ls n k :
  (k < 64)%nat -> len ls <= n + 1 -> Z.even (n / 2 ^ Z.of_nat k) = true ->
  hash_impl_sha256_two_to_one_bytes (node ls k (n / 2 ^ Z.of_nat k)) (ZERO k) =
    node ls (S k) (n / 2 ^ Z.of_nat (S k)).
Proof.
  intros Hk Hn Ev. cbn [node]. rewrite <- div_pow2_succ.
  pose proof (div_pow2_bounds n k). rewrite <- (even_double _ Ev).
  by rewrite (node_unused ls k (n / 2 ^ Z.of_nat k + 1)) by lia.
Qed.

(** ... and on a right child. *)
Lemma node_up_right ls n k :
  Z.even (n / 2 ^ Z.of_nat k) = false ->
  hash_impl_sha256_two_to_one_bytes (node ls k (n / 2 ^ Z.of_nat k - 1)) (node ls k (n / 2 ^ Z.of_nat k)) =
    node ls (S k) (n / 2 ^ Z.of_nat (S k)).
Proof.
  intros Ev. cbn [node]. rewrite <- div_pow2_succ.
  pose proof (odd_double _ Ev) as E. rewrite <- E. f_equal. f_equal. lia.
Qed.

Lemma stored_sibling_odd ls ext k :
  Z.even (len ls / 2 ^ Z.of_nat k) = false ->
  stored_sibling ls k = node (ls ++ ext) k (len ls / 2 ^ Z.of_nat k - 1).
Proof.
  intros Ev. unfold stored_sibling. rewrite <- Z.negb_even, Ev. simpl.
  pose proof (div_pow2_bounds (len ls) k).
  pose proof (div_pow2_pos (len ls) k (len_nonneg ls)). pose proof (odd_double _ Ev).
  symmetry. apply node_app; nia.
Qed.

Lemma stored_sibling_even ls k :
  Z.even (len ls / 2 ^ Z.of_nat k) = true -> stored_sibling ls k = ZERO k.
Proof. intros Ev. unfold stored_sibling. by rewrite <- Z.negb_even, Ev. Qed.

(** The sibling of a level that the longer list does not carry into. *)
Lemma stored_sibling_stable ls ext k :
  len ls / 2 ^ Z.of_nat k = len (ls ++ ext) / 2 ^ Z.of_nat k ->
  stored_sibling (ls ++ ext) k = stored_sibling ls k.
Proof.
  intros E. destruct (Z.even (len ls / 2 ^ Z.of_nat k)) eqn:Ev.
  - rewrite !stored_sibling_even; congruence.
  - rewrite (stored_sibling_odd ls ext), (stored_sibling_odd (ls ++ ext) []), app_nil_r by congruence.
    congruence.
Qed.

Lemma table_drop k : (k < 64)%nat -> drop k SHA256_ZERO_HASHES = ZERO k :: drop (S k) SHA256_ZERO_HASHES.
Proof. intros Hk. apply drop_S. by apply ZERO_lookup. Qed.

(** What the loop writes at one level is the sibling of the longer list. *)
Lemma append_level_sibling ls v k :
  let n := len ls in
  let changed := Z.odd (Z.lxor n (n + 1) / 2 ^ Z.of_nat k) in
  stored_sibling (ls ++ [v]) k =
    if changed
    then (if Z.even (n / 2 ^ Z.of_nat k) then node (ls ++ [v]) k (n / 2 ^ Z.of_nat k) else ZERO k)
    else stored_sibling ls k.
Proof.
  intros n changed. unfold changed. rewrite odd_lxor_div.
  assert (len (ls ++ [v]) = n + 1) as Hlen by (rewrite len_app, len_cons, len_nil; lia).
  destruct (div_pow2_carry n k) as [E|E]; rewrite E.
  - rewrite Z.odd_add, <- xorb_assoc, xorb_nilpotent. change (xorb false (Z.odd 1)) with true.
    destruct (Z.even (n / 2 ^ Z.of_nat k)) eqn:Ev.
    + rewrite (stored_sibling_odd _ []), app_nil_r, Hlen, E; [f_equal; lia|].
      rewrite Hlen, E, Z.even_add, Ev. done.
    + apply stored_sibling_even. rewrite Hlen, E, Z.even_add, Ev. done.
  - rewrite xorb_nilpotent. apply stored_sibling_stable. by rewrite Hlen, E.
Qed.

Lemma append_loop_spec ls v k lvl :
  (k + lvl <= 64)%nat ->
  append_loop (stored_sibling ls <$> seq k lvl) (drop k SHA256_ZERO_HASHES)
    (node (ls ++ [v]) k (len ls / 2 ^ Z.of_nat k)) (len ls / 2 ^ Z.of_nat k)
    (Z.lxor (len ls) (len ls + 1) / 2 ^ Z.of_nat k) =
  Some (node (ls ++ [v]) (k + lvl) (len ls / 2 ^ Z.of_nat (k + lvl)),
        stored_sibling (ls ++ [v]) <$> seq k lvl).
Proof.
  revert k. induction lvl as [|lvl IH]; intros k Hk; [by rewrite Nat.add_0_r|].
  cbn [seq fmap list_fmap append_loop]. rewrite table_drop by lia.
  rewrite land1_eqb0, land1_eqb1, !shiftr_1, !div_pow2_succ.
  rewrite (append_level_sibling ls v k).
  destruct (Z.even (len ls / 2 ^ Z.of_nat k)) eqn:Ev.
  - rewrite node_up_left by (rewrite ?len_app, ?len_cons, ?len_nil; lia || done).
    rewrite IH by lia. cbn [mbind option_bind].
    by replace (S k + lvl)%nat with (k + S lvl)%nat by lia.
  - rewrite (stored_sibling_odd ls [v]) by done. rewrite node_up_right by done.
    rewrite IH by lia. cbn [mbind option_bind].
    by replace (S k + lvl)%nat with (k + S lvl)%nat by lia.
Qed.

(** [append] refines appending to the list. *)
Lemma append_tree_of ls v :
  len ls < 2 ^ 32 -> append (tree_of ls) v = Some (tree_of (ls ++ [v])).
Proof.
  intros Hn. pose proof (len_nonneg ls). unfold append, update_siblings_append_merkle_tree.
  cbn [next_index next_siblings tree_of]. rewrite wrap_id by (unfold in_width; lia).
  pose proof (append_loop_spec ls v 0 32 ltac:(lia)) as E.
  rewrite !Z.div_1_r in E. unfold TREE_HEIGHT.
  replace (node (ls ++ [v]) 0 (len ls)) with v in E.
  2:{ unfold node, leaf, len. rewrite Nat2Z.id, app_nth2, Nat.sub_diag by lia. done. }
  rewrite drop_0 in E. rewrite E. cbn [mbind option_bind].
  unfold tree_of. do 2 f_equal.
  - rewrite len_app, len_cons, len_nil. lia.
  - rewrite Z.div_small by (simpl Z.of_nat; lia). done.
Qed.

Lemma tree_of_nil : tree_of [] = new_empty.
Proof.
  unfold tree_of, new_empty. f_equal.
  apply node_unused; [unfold TREE_HEIGHT; lia|done].
Qed.

(** The path from the next free leaf over the stored siblings leads to the root. *)
Lemma path_spec ls ext k lvl :
  (k + lvl <= 64)%nat -> len ext <= 1 ->
  @compute_root_merkle_proof_generic _ QSha256Hasher
    (node (ls ++ ext) k (len ls / 2 ^ Z.of_nat k)) (len ls / 2 ^ Z.of_nat k)
    (stored_sibling ls <$> seq k lvl) =
  node (ls ++ ext) (k + lvl) (len ls / 2 ^ Z.of_nat (k + lvl)).
Proof.
  intros Hk Hext. revert k Hk. induction lvl as [|lvl IH]; intros k Hk; [by rewrite Nat.add_0_r|].
  cbn [seq fmap list_fmap]. rewrite root_cons, div_pow2_succ.
  change (two_to_one ?a ?b) with (hash_impl_sha256_two_to_one_bytes a b).
  replace (k + S lvl)%nat with (S k + lvl)%nat by lia. rewrite <- IH by lia.
  destruct (Z.even (len ls / 2 ^ Z.of_nat k)) eqn:Ev; f_equal.
  - rewrite stored_sibling_even by done. apply node_up_left; rewrite ?len_app; lia || done.
  - rewrite (stored_sibling_odd ls ext) by done. by apply node_up_right.
Qed.

Lemma root_of_slot ls ext :
  len ls < 2 ^ 32 -> len ext <= 1 ->
  @compute_root_merkle_proof_generic _ QSha256Hasher (leaf (ls ++ ext) (len ls)) (len ls)
    (next_siblings (tree_of ls)) = node (ls ++ ext) 32 0.
Proof.
  intros Hn Hext. pose proof (len_nonneg ls). pose proof (path_spec ls ext 0 32 ltac:(lia) Hext) as E.
  rewrite !Z.div_1_r in E. rewrite Z.div_small in E by (simpl Z.of_nat; lia). exact E.
Qed.

(** The asserting root computation of [sha256_impl.rs] agrees with the generic
    one on indices inside the tree. *)
Lemma compute_merkle_root_generic v i s :
  len s <= 64 -> 0 <= i < 2 ^ len s ->
  hash_impl_sha256_compute_merkle_root v i s =
    Some (@compute_root_merkle_proof_generic _ QSha256Hasher v i s).
Proof.
  intros Hs Hi. unfold hash_impl_sha256_compute_merkle_root.
  replace (len s <=? 64) with true by (symmetry; by apply Z.leb_le).
  assert (compute_merkle_root_loop v i s =
    (@compute_root_merkle_proof_generic _ QSha256Hasher v i s, i / 2 ^ len s)) as ->.
  { clear Hs Hi. revert v i. induction s as [|x s IH]; intros v i; [simpl; by rewrite len_nil, Z.div_1_r|].
    rewrite root_cons. simpl. rewrite land1_eqb0, shiftr_1, IH. f_equal.
    pose proof (len_nonneg s). rewrite len_cons, Z.pow_add_r by lia.
    rewrite Z.div_div by (try apply Z.pow_pos_nonneg; lia). done. }
  by rewrite Z.div_small.
Qed.

Lemma len_next_siblings ls : len (next_siblings (tree_of ls)) = 32.
Proof. done. Qed.

Lemma leaf_unused ls : leaf (ls ++ []) (len ls) = ZERO 0.
Proof. apply nth_overflow. rewrite app_nil_r. unfold len. lia. Qed.

Lemma compute_root_empty_slot ls :
  len ls < 2 ^ 32 ->
  hash_impl_sha256_compute_merkle_root (zeros 32) (len ls) (next_siblings (tree_of ls)) =
    Some (node ls 32 0).
Proof.
  intros Hn. pose proof (len_nonneg ls).
  rewrite compute_merkle_root_generic by (rewrite len_next_siblings; lia).
  rewrite <- ZERO_0, <- (leaf_unused ls), (root_of_slot ls []) by (rewrite ?len_nil; lia).
  by rewrite app_nil_r.
Qed.

Lemma lookup_next_siblings ls i :
  (i < 32)%nat -> next_siblings (tree_of ls) !! i = Some (stored_sibling ls i).
Proof.
  intros Hi. change (next_siblings (tree_of ls)) with (stored_sibling ls <$> seq 0 32).
  by rewrite list_lookup_fmap, lookup_seq_lt.
Qed.

(** The proof generator reproduces the stored siblings. *)
Lemma proof_siblings_spec ls k lvl :
  (k + lvl <= 32)%nat ->
  proof_siblings (next_siblings (tree_of ls)) k lvl (len ls / 2 ^ Z.of_nat k) =
    Some (stored_sibling ls <$> seq k lvl).
Proof.
  revert k. induction lvl as [|lvl IH]; intros k Hk; [done|].
  cbn [proof_siblings seq fmap list_fmap].
  rewrite lookup_next_siblings, shiftr_1, div_pow2_succ, IH by lia.
  rewrite land1_eqb1, <- Z.negb_even.
  destruct (Z.even (len ls / 2 ^ Z.of_nat k)) eqn:Ev; simpl; [|done].
  by rewrite stored_sibling_even.
Qed.

Lemma fixed_proof_siblings_spec ls :
  mapM (fun i : nat =>
      if Z.land (Z.shiftr (len ls) (Z.of_nat i)) 1 =? 1
      then next_siblings (tree_of ls) !! i else Some (ZERO i)) (seq 0 TREE_HEIGHT) =
    Some (next_siblings (tree_of ls)).
Proof.
  apply mapM_Some, Forall2_same_length_lookup. split; [done|]. intros i x y Hx Hy.
  apply lookup_seq in Hx as [-> Hi]. unfold TREE_HEIGHT in Hi. simpl (0 + i)%nat.
  rewrite lookup_next_siblings in * by lia. simplify_eq.
  rewrite land1_eqb1, Z.shiftr_div_pow2, <- Z.negb_even by lia.
  destruct (Z.even (len ls / 2 ^ Z.of_nat i)) eqn:Ev; simpl; [|done].
  by rewrite stored_sibling_even.
Qed.

(** The sibling array in the middle of a revert: the levels below [i] are those
    of the shorter list, the others those of the longer one. *)
Definition mixed_siblings a b (i : nat) : list QHash256 :=
  (stored_sibling a <$> seq 0 i) ++ (stored_sibling (a ++ b) <$> seq i (32 - i)).

Lemma mixed_siblings_step a b i x :
  (i < 32)%nat -> x = stored_sibling a i ->
  <[i := x]> (mixed_siblings a b i) = mixed_siblings a b (S i).
Proof.
  intros Hi ->. unfold mixed_siblings. rewrite seq_S, fmap_app, <- app_assoc.
  replace (32 - i)%nat with (S (32 - S i)) by lia.
  rewrite insert_app_r_alt by (rewrite length_fmap, length_seq; lia).
  by rewrite length_fmap, length_seq, Nat.sub_diag.
Qed.

Lemma land_bit_test n i : 0 <= n -> negb (Z.land n (Z.shiftl 1 (Z.of_nat i)) =? 0) = Z.testbit n (Z.of_nat i).
Proof.
  intros Hn. destruct (Z.testbit n (Z.of_nat i)) eqn:E.
  - apply negb_true_iff, Z.eqb_neq. intros Hz.
    assert (Z.testbit (Z.land n (Z.shiftl 1 (Z.of_nat i))) (Z.of_nat i) = true) as Ht.
    { rewrite Z.land_spec, E, Z.shiftl_spec, Z.sub_diag by lia. done. }
    by rewrite Hz, Z.bits_0 in Ht.
  - apply negb_false_iff, Z.eqb_eq. apply Z.bits_inj'. intros j Hj.
    rewrite Z.land_spec, Z.bits_0, Z.shiftl_1_l, Z.pow2_bits_eqb by lia.
    destruct (Z.eqb_spec (Z.of_nat i) j) as [<-|]; [by rewrite E|by rewrite andb_false_r].
Qed.

Lemma odd_div_testbit n i : Z.odd (n / 2 ^ Z.of_nat i) = Z.testbit n (Z.of_nat i).
Proof. by rewrite <- Z.shiftr_div_pow2, Z.testbit_odd by lia. Qed.

(** Once the differing bits are used up, the levels above agree. *)
Lemma lxor_div_zero a b i :
  0 <= a -> 0 <= b -> Z.lxor a b / 2 ^ Z.of_nat i = 0 -> a / 2 ^ Z.of_nat i = b / 2 ^ Z.of_nat i.
Proof.
  intros Ha Hb Hz. rewrite <- !Z.shiftr_div_pow2 in * by lia.
  rewrite Z.shiftr_lxor in Hz. by apply Z.lxor_eq.
Qed.

Lemma mixed_siblings_done a b i :
  (i <= 32)%nat -> Z.lxor (len a) (len (a ++ b)) / 2 ^ Z.of_nat i = 0 ->
  mixed_siblings a b i = next_siblings (tree_of a).
Proof.
  intros Hi Hz. unfold mixed_siblings.
  change (next_siblings (tree_of a)) with (stored_sibling a <$> seq 0 32).
  replace 32%nat with (i + (32 - i))%nat at 2 by lia. rewrite seq_app, fmap_app. f_equal.
  apply list_fmap_ext. intros j k [-> Hk]%lookup_seq.
  apply stored_sibling_stable.
  apply lxor_div_zero; [apply len_nonneg..|].
  rewrite Nat2Z.inj_add, Z.pow_add_r by lia.
  pose proof (pow2_pos i). pose proof (pow2_pos j).
  rewrite <- Z.div_div by lia. change (0 + i)%nat with i. by rewrite Hz, Z.div_0_l by lia.
Qed.

Lemma revert_loop_spec a b lvl i :
  (i + lvl = 32)%nat ->
  exists changed,
    changed_siblings_loop (next_siblings (tree_of a)) i lvl (len a / 2 ^ Z.of_nat i)
      (Z.lxor (len a) (len (a ++ b)) / 2 ^ Z.of_nat i) = Some changed /\
    revert_loop lvl i (mixed_siblings a b i) (len a)
      (Z.lxor (len a) (len (a ++ b)) / 2 ^ Z.of_nat i) changed = (Ok tt, next_siblings (tree_of a)).
Proof.
  revert i. induction lvl as [|lvl IH]; intros i Hi.
  { exists []. split; [done|]. by replace i with 32%nat by lia. }
  destruct (IH (S i) ltac:(lia)) as (rest & Hc & Hr).
  cbn [changed_siblings_loop revert_loop]. rewrite !shiftr_1, !div_pow2_succ, Hc.
  rewrite land_bit_test, land1_eqb0 by apply len_nonneg.
  rewrite <- odd_div_testbit, <- Z.negb_even.
  destruct (_ / 2 ^ Z.of_nat i =? 0) eqn:Ez.
  - apply Z.eqb_eq in Ez. rewrite mixed_siblings_done by (done || lia).
    rewrite andb_false_r. eauto.
  - rewrite lookup_next_siblings by lia.
    destruct (Z.even (len a / 2 ^ Z.of_nat i)) eqn:Ev; cbn [negb andb].
    + exists rest. split; [done|].
      by rewrite mixed_siblings_step by (rewrite ?stored_sibling_even; done || lia).
    + exists (stored_sibling a i :: rest). split; [done|]. cbv iota.
      by rewrite mixed_siblings_step by (done || lia).
Qed.

Lemma revert_loop_full a b :
  exists changed,
    changed_siblings_loop (next_siblings (tree_of a)) 0 TREE_HEIGHT (len a)
      (Z.lxor (len a) (len (a ++ b))) = Some changed /\
    revert_loop 32 0 (next_siblings (tree_of (a ++ b))) (len a)
      (Z.lxor (len a) (len (a ++ b))) changed = (Ok tt, next_siblings (tree_of a)).
Proof.
  destruct (revert_loop_spec a b 32 0 eq_refl) as (changed & Hc & Hr). exists changed.
  replace (2 ^ Z.of_nat 0) with 1 in Hc, Hr by done. rewrite Z.div_1_r in Hr. rewrite !Z.div_1_r in Hc.
  split; [exact Hc|exact Hr].
Qed.

(** Membership: the authentic path of leaf [i]. *)
Lemma authentic_path ls i k lvl :
  @compute_root_merkle_proof_generic _ QSha256Hasher (node ls k (i / 2 ^ Z.of_nat k))
    (i / 2 ^ Z.of_nat k)
    ((fun j : nat => let p := i / 2 ^ Z.of_nat j in
        node ls j (if Z.even p then p + 1 else p - 1)) <$> seq k lvl) =
  node ls (k + lvl) (i / 2 ^ Z.of_nat (k + lvl)).
Proof.
  revert k. induction lvl as [|lvl IH]; intros k; [by rewrite Nat.add_0_r|].
  cbn [seq fmap list_fmap]. rewrite root_cons, div_pow2_succ.
  replace (k + S lvl)%nat with (S k + lvl)%nat by lia. rewrite <- IH. f_equal.
  change (two_to_one ?x ?y) with (hash_impl_sha256_two_to_one_bytes x y).
  cbn [node]. rewrite <- div_pow2_succ. destruct (Z.even (i / 2 ^ Z.of_nat k)) eqn:Ev.
  - by rewrite <- (even_double _ Ev).
  - rewrite <- (odd_double _ Ev). f_equal. f_equal. pose proof (odd_double _ Ev). lia.
Qed.
(** The siblings on the path from leaf [i] to the root of the tree. *)
Definition authentic_siblings ls (i : Z) : list QHash256 :=
  (fun j : nat => let p := i / 2 ^ Z.of_nat j in
     node ls j (if Z.even p then p + 1 else p - 1)) <$> seq 0 32.

End tree_lemmas.

(** The specification is never to be computed at height 32. *)
#[global] Opaque node.
#[global] Opaque stored_sibling.

(** ** Theorems *)

Section tree_theorems.
Context `{Sha256Laws}.

(** A path that leads to the root starts at the stored leaf. *)
Lemma root_names_leaf (ls : list QHash256) v i s :
  length s = 32%nat -> 0 <= i < 2 ^ 32 ->
  @collision_free _ QSha256Hasher
    (@path_pairs _ QSha256Hasher v i s ++ @path_pairs _ QSha256Hasher (leaf ls i) i (authentic_siblings ls i)) ->
  current_root (tree_of ls) = @compute_root_merkle_proof_generic _ QSha256Hasher v i s ->
  v = leaf ls i.
Proof.
  intros Hs Hi HC HV. pose proof (authentic_path ls i 0 32) as Ha.
  rewrite !Z.div_1_r in Ha. rewrite Z.div_small in Ha by (simpl Z.of_nat; lia).
  cbn [current_root tree_of] in HV. unfold TREE_HEIGHT in HV.
  change (0 + 32)%nat with 32%nat in Ha. rewrite <- Ha in HV. symmetry in HV.
  apply root_binding in HV as [HV _]; [exact HV| |done].
  by rewrite length_fmap, length_seq.
Qed.

(** The siblings of the first leaf, when there is no second one. *)
Lemma authentic_siblings_first (ls : list QHash256) :
  len ls <= 1 -> authentic_siblings ls 0 = zero_siblings.
Proof.
  intros Hls. apply list_eq. intros j. unfold authentic_siblings. rewrite list_lookup_fmap.
  destruct (decide (j < 32)%nat) as [Hj|Hj].
  - rewrite lookup_seq_lt by done. cbn [fmap option_fmap option_map]. rewrite Z.div_0_l by (pose proof (pow2_pos j); lia).
    cbn [Z.even]. rewrite node_unused by (pose proof (pow2_pos (0 + j)); lia).
    symmetry. unfold zero_siblings. rewrite lookup_take, decide_True by done. by apply ZERO_lookup; lia.
  - rewrite lookup_seq_ge, (lookup_ge_None_2 zero_siblings) by (try change (length zero_siblings) with 32%nat; lia).
    done.
Qed.

(** Appending a sequence of leaves; [None] would be a panic on the way. *)
Fixpoint append_all (t : FixedMerkleAppendTree) (leaves : list QHash256) : option FixedMerkleAppendTree :=
  match leaves with
  | [] => Some t
  | v :: rest => t' ← append t v; append_all t' rest
  end.

Lemma append_all_tree_of ls vs :
  len (ls ++ vs) <= 2 ^ 32 -> append_all (tree_of ls) vs = Some (tree_of (ls ++ vs)).
Proof.
  revert ls. induction vs as [|v vs IH]; intros ls Hl; simpl; [by rewrite app_nil_r|].
  autorewrite with bridge_len in Hl. pose proof (len_nonneg vs).
  rewrite append_tree_of by lia. simpl. rewrite IH, <- app_assoc; [done|].
  autorewrite with bridge_len. lia.
Qed.

(** [C18] The append tree refines a list of leaves: starting from the empty tree,
    appending any sequence of at most 2^32 leaves never panics and ends in the
    state that the specification assigns to the sequence: the next index is its
    length, the root is the root of the perfect tree of height 32 over it
    (padded with zero leaves), and each stored sibling is the node of that tree
    the next append needs. *)
Theorem append_refines_list (leaves : list QHash256) :
  len leaves <= 2 ^ 32 ->
  append_all new_empty leaves = Some (tree_of leaves).
Proof. intros Hl. rewrite <- tree_of_nil. by apply append_all_tree_of. Qed.

(** Rebuilding a tree from its index and siblings ([new], [new_vec]) is
    exact: the recomputed root is the root of the tree. *)
Theorem tree_new_roundtrip (leaves : list QHash256) :
  len leaves < 2 ^ 32 ->
  let t := tree_of leaves in
  tree_new (next_index t) (next_siblings t) = Some t /\
  tree_new_vec (next_index t) (next_siblings t) = Some t.
Proof.
  intros Hl t. assert (tree_new (next_index t) (next_siblings t) = Some t) as E.
  { unfold tree_new. destruct (next_index t =? 0) eqn:E0.
    - apply Z.eqb_eq in E0. unfold t in *. simpl in E0. destruct leaves; [by rewrite tree_of_nil|].
      rewrite len_cons in E0. pose proof (len_nonneg leaves). lia.
    - unfold t. cbn [next_index tree_of]. by rewrite compute_root_empty_slot. }
  split; [done|]. unfold tree_new_vec. by rewrite decide_True by done.
Qed.

(** The delta proof that an append hands out is right: it verifies, it leads
    from the root before to the root after, it is at the index of the new leaf
    and replaces the zero leaf by the new value.  The fixed-size partial proof
    of the free slot recomputes the current root. *)
Theorem append_delta_proof_correct (leaves : list QHash256) (v : QHash256) :
  len leaves < 2 ^ 32 ->
  let t := tree_of leaves in let t' := tree_of (leaves ++ [v]) in
  (exists p, append_delta_merkle_proof t v = Some (p, t') /\
     @dmp_verify _ _ QSha256Hasher p = true /\
     dmp_old_root p = current_root t /\ dmp_new_root p = current_root t' /\
     dmp_index p = len leaves /\ dmp_old_value p = zeros 32 /\ dmp_new_value p = v) /\
  (exists q, get_partial_merkle_proof_fixed_for_current_index t = Some q /\
     fpp_compute_root_sha256 q = Some (current_root t)).
Proof.
  intros Hl t t'. split.
  - unfold append_delta_merkle_proof, get_partial_merkle_proof_for_current_index.
    pose proof (proof_siblings_spec leaves 0 32 ltac:(lia)) as E. rewrite Z.div_1_r in E.
    unfold t. cbn [next_index tree_of]. unfold TREE_HEIGHT at 1. rewrite E.
    cbn [mbind option_bind]. rewrite append_tree_of by done. cbn [mbind option_bind].
    eexists. split; [reflexivity|]. split; [apply dmp_from_params_verify|].
    cbn [dmp_from_params dmp_old_root dmp_new_root dmp_index dmp_old_value dmp_new_value
         mpp_index mpp_siblings mpp_new_from_params].
    split_and!; [| |done|apply ZERO_0|done].
    + rewrite <- (leaf_unused leaves).
      pose proof (root_of_slot leaves [] Hl ltac:(done)) as R.
      rewrite app_nil_r in R at 2. exact R.
    + pose proof (root_of_slot leaves [v] Hl ltac:(done)) as R.
      replace (leaf (leaves ++ [v]) (len leaves)) with v in R; [exact R|].
      unfold leaf, len. by rewrite Nat2Z.id, app_nth2, Nat.sub_diag by lia.
  - unfold get_partial_merkle_proof_fixed_for_current_index. unfold t. cbn [next_index tree_of].
    pose proof (fixed_proof_siblings_spec leaves) as E. rewrite E. cbn [mbind option_bind].
    eexists. split; [reflexivity|]. unfold fpp_compute_root_sha256. cbn [fpp_value fpp_index fpp_siblings].
    rewrite ZERO_0. by apply compute_root_empty_slot.
Qed.

(** A reorganisation can be undone exactly: the siblings that
    [get_changed_next_siblings_for_revert] extracts from the earlier state let
    [revert_to_next_index] take a tree with further leaves back to that state,
    bit for bit (index, root and all stored siblings). *)
Theorem revert_undoes_appends (a b : list QHash256) :
  b <> [] -> len (a ++ b) <= 2 ^ 32 ->
  exists changed,
    get_changed_next_siblings_for_revert (len (a ++ b)) (len a) (next_siblings (tree_of a))
      = Ok changed /\
    revert_to_next_index (tree_of (a ++ b)) (len a) changed = (Ok tt, tree_of a).
Proof.
  intros Hb Hl. pose proof (len_nonneg a).
  assert (1 <= len b) by (destruct b; [done|]; rewrite len_cons; pose proof (len_nonneg b); lia).
  rewrite len_app in Hl.
  destruct (revert_loop_full a b) as (changed & Hc & Hr). exists changed.
  unfold get_changed_next_siblings_for_revert, revert_to_next_index.
  change (next_index (tree_of (a ++ b))) with (len (a ++ b)).
  replace ((len (a ++ b) =? 0) || (len (a ++ b) <=? len a)) with false.
  2:{ symmetry. rewrite len_app. apply orb_false_iff.
      split; [apply Z.eqb_neq|apply Z.leb_gt]; lia. }
  rewrite Hc, Hr. split; [done|]. destruct (len a =? 0) eqn:E0.
  { apply Z.eqb_eq in E0. destruct a; [by rewrite tree_of_nil|].
    rewrite len_cons in E0. pose proof (len_nonneg a). lia. }
  rewrite state_call_ok. cbv beta. cbn [next_siblings].
  rewrite compute_root_empty_slot by lia. cbn [or_panic]. by rewrite pure_call_ok.
Qed.

(** Membership is binding: a proof of the full height at an index below 2^32
    that leads to the root of the tree names the leaf stored at that index (the
    zero leaf, if none was appended there), provided the pairs hashed on its
    path and on the path of the tree do not collide. *)
Theorem membership_sound (leaves : list QHash256) (p : MerkleProofCore QHash256) :
  mp_root p = current_root (tree_of leaves) ->
  length (mp_siblings p) = 32%nat -> 0 <= mp_index p < 2 ^ 32 ->
  @collision_free _ QSha256Hasher
    (@path_pairs _ QSha256Hasher (mp_value p) (mp_index p) (mp_siblings p) ++
     @path_pairs _ QSha256Hasher (leaf leaves (mp_index p)) (mp_index p)
       (authentic_siblings leaves (mp_index p))) ->
  @mp_verify _ _ QSha256Hasher p = true ->
  mp_value p = leaf leaves (mp_index p).
Proof.
  intros Hr Hs Hi HC HV. apply bool_decide_eq_true in HV. rewrite Hr in HV.
  by apply (root_names_leaf leaves (mp_value p) (mp_index p) (mp_siblings p)).
Qed.

(** [revert_to_index] does not restore the stored siblings: reverting a tree
    of four leaves to three, with the left sibling and the leaf that its
    documentation asks for, succeeds but stores the zero hash at level 1, where
    the tree of three leaves (and the next append) needs the hash of the first
    two leaves. *)
Theorem revert_to_index_loses_sibling (a b c d : QHash256) :
  let ab := hash_impl_sha256_two_to_one_bytes a b in
  exists t, revert_to_index (tree_of [a; b; c; d]) 3 [ab] c = (Ok tt, t) /\
    next_index t = 3 /\
    next_siblings t !! 1%nat = Some (ZERO 1) /\
    next_siblings (tree_of [a; b; c]) !! 1%nat = Some ab.
Proof.
  intros ab. eexists. split; [reflexivity|].
  split; [reflexivity|]. split; [reflexivity|].
  rewrite lookup_next_siblings by lia. reflexivity.
Qed.
End tree_theorems.

(** Witnesses at SHA-256 and small leaves. *)
Section tree_witnesses.
Definition leaf7 : QHash256 := replicate 32 7.
Definition leaf9 : QHash256 := replicate 32 9.

Lemma append_refines_list_witness :
  @append_all fips_sha256 new_empty [leaf7; leaf9; leaf7] =
    Some (@tree_of fips_sha256 [leaf7; leaf9; leaf7]).
Proof.
  apply (@append_refines_list fips_sha256 fips_sha256_laws [leaf7; leaf9; leaf7]).
  vm_compute. discriminate.
Defined.

Lemma tree_new_roundtrip_witness :
  let t := @tree_of fips_sha256 [leaf7; leaf9] in
  @tree_new fips_sha256 (next_index t) (next_siblings t) = Some t.
Proof.
  assert (len [leaf7; leaf9] < 2 ^ 32) as Hl by (vm_compute; reflexivity).
  exact (proj1 (@tree_new_roundtrip fips_sha256 fips_sha256_laws [leaf7; leaf9] Hl)).
Defined.

Lemma append_delta_proof_correct_witness :
  exists q, @get_partial_merkle_proof_fixed_for_current_index
      (@tree_of fips_sha256 [leaf7; leaf9]) = Some q /\
    @fpp_compute_root_sha256 fips_sha256 q = Some (current_root (@tree_of fips_sha256 [leaf7; leaf9])).
Proof.
  assert (len [leaf7; leaf9] < 2 ^ 32) as Hl by (vm_compute; reflexivity).
  exact (proj2 (@append_delta_proof_correct fips_sha256 fips_sha256_laws [leaf7; leaf9] leaf7 Hl)).
Defined.

Lemma revert_undoes_appends_witness :
  exists changed,
    get_changed_next_siblings_for_revert 4 3
      (next_siblings (@tree_of fips_sha256 [leaf7; leaf9; leaf7])) = Ok changed /\
    @revert_to_next_index fips_sha256 (@tree_of fips_sha256 [leaf7; leaf9; leaf7; leaf9]) 3 changed
      = (Ok tt, @tree_of fips_sha256 [leaf7; leaf9; leaf7]).
Proof.
  apply (@revert_undoes_appends fips_sha256 fips_sha256_laws [leaf7; leaf9; leaf7] [leaf9]).
  - discriminate.
  - vm_compute. discriminate.
Defined.

(** The proof of the free slot of the empty tree. *)
Lemma membership_sound_witness : zeros 32 = leaf [] 0.
Proof.
  apply (@membership_sound fips_sha256 []
    {| mp_root := current_root (@tree_of fips_sha256 []); mp_value := zeros 32; mp_index := 0;
       mp_siblings := zero_siblings |}).
  - reflexivity.
  - reflexivity.
  - simpl. lia.
  - cbn [mp_value mp_index mp_siblings]. rewrite (@authentic_siblings_first fips_sha256 fips_sha256_laws) by done.
    apply collision_free_twice, collision_free_NoDup.
    apply (bool_decide_unpack _). vm_compute. exact I.
  - rewrite (@tree_of_nil fips_sha256 fips_sha256_laws). vm_compute. reflexivity.
Defined.

Lemma revert_to_index_loses_sibling_witness :
  let ab := @hash_impl_sha256_two_to_one_bytes fips_sha256 leaf7 leaf9 in
  exists t, @revert_to_index fips_sha256 (@tree_of fips_sha256 [leaf7; leaf9; leaf7; leaf9]) 3 [ab] leaf7
      = (Ok tt, t) /\
    next_siblings t !! 1%nat = Some (ZERO 1) /\
    next_siblings (@tree_of fips_sha256 [leaf7; leaf9; leaf7]) !! 1%nat = Some ab /\
    ZERO 1 <> ab.
Proof.
  intros ab.
  destruct (@revert_to_index_loses_sibling fips_sha256 leaf7 leaf9 leaf7 leaf9)
    as (t & Ht & _ & H1 & H2).
  exists t. split; [exact Ht|]. split; [exact H1|]. split; [exact H2|]. vm_compute. discriminate.
Defined.
End tree_witnesses.
