(* ===== verification/TxoIndex.v ===== *)
(** * TxoIndex: packed indices of transaction outputs

    Models [libraries/psy-bridge-core/src/txo_constants.rs].  A combined index
    packs block number (28 bits), transaction number (13 bits) and output number
    (12 bits); the low 8 bits of the output number select a bit inside a 256-bit
    leaf, the rest is the position in the Merkle tree of height 45. *)
From S2P Require Import Prelude Hash.
From Stdlib Require Import ZArith Lia.
From stdpp Require Import base decidable list numbers option.

Open Scope Z_scope.

Definition TXO_TREE_INDEX_BITS_BLOCK_NUM_LENGTH : Z := 28.
Definition TXO_TREE_INDEX_BITS_TX_NUM_LENGTH : Z := 13.
Definition TXO_TREE_INDEX_BITS_TOP_OUTPUT_NUM_LENGTH : Z := 4.
Definition TXO_TREE_LEAF_BIT_INDEX_LENGTH : Z := 8.
Definition TXO_TREE_COMBINED_INDEX_BITS_OUTPUT_NUM_LENGTH : Z :=
  TXO_TREE_INDEX_BITS_TOP_OUTPUT_NUM_LENGTH + TXO_TREE_LEAF_BIT_INDEX_LENGTH.
Definition TXO_MERKLE_INDEX_TOTAL_BITS : Z :=
  TXO_TREE_INDEX_BITS_BLOCK_NUM_LENGTH + TXO_TREE_INDEX_BITS_TX_NUM_LENGTH +
  TXO_TREE_INDEX_BITS_TOP_OUTPUT_NUM_LENGTH.
Definition TXO_MERKLE_TREE_HEIGHT : Z := TXO_MERKLE_INDEX_TOTAL_BITS.
Definition TXO_MERKLE_INDEX_MASK : Z := 2 ^ TXO_MERKLE_INDEX_TOTAL_BITS - 1.
Definition TXO_COMBINED_INDEX_TOTAL_BITS : Z :=
  TXO_TREE_INDEX_BITS_BLOCK_NUM_LENGTH + TXO_TREE_INDEX_BITS_TX_NUM_LENGTH +
  TXO_TREE_COMBINED_INDEX_BITS_OUTPUT_NUM_LENGTH.
Definition TXO_COMBINED_INDEX_MASK : Z := 2 ^ TXO_COMBINED_INDEX_TOTAL_BITS - 1.
Definition TXO_TREE_MAX_BLOCK_NUMBER : Z := 2 ^ TXO_TREE_INDEX_BITS_BLOCK_NUM_LENGTH - 1.
Definition TXO_TREE_MAX_TX_PER_BLOCK : Z := 2 ^ TXO_TREE_INDEX_BITS_TX_NUM_LENGTH.
Definition TXO_TREE_MAX_OUTPUTS_PER_TX : Z := 2 ^ TXO_TREE_COMBINED_INDEX_BITS_OUTPUT_NUM_LENGTH.
Definition TXO_TREE_INDEX_BLOCK_NUM_LOWERED_MASK : Z := 2 ^ TXO_TREE_INDEX_BITS_BLOCK_NUM_LENGTH - 1.
Definition TXO_TREE_INDEX_TX_NUM_LOWERED_MASK : Z := 2 ^ TXO_TREE_INDEX_BITS_TX_NUM_LENGTH - 1.
Definition TXO_TREE_INDEX_OUTPUT_NUM_LOWERED_MASK : Z :=
  2 ^ TXO_TREE_COMBINED_INDEX_BITS_OUTPUT_NUM_LENGTH - 1.

(** The empty roots are rows of the zero-hash table. *)
Definition TXO_EMPTY_MERKLE_TREE_ROOT : QHash256 := ZERO 45.
Definition TXO_EMPTY_BLOCK_MERKLE_TREE_ROOT : QHash256 := ZERO 17.
Definition TXO_EMPTY_TRANSACTION_MERKLE_TREE_ROOT : QHash256 := ZERO 4.

Definition is_valid_txo_combined_index (index : Z) : bool :=
  Z.land index TXO_COMBINED_INDEX_MASK =? index.
Definition is_valid_txo_merkle_index (index : Z) : bool :=
  Z.land index TXO_MERKLE_INDEX_MASK =? index.

Definition get_txo_block_number_tx_number_output_leaf_merkle_index (index : Z) : Z * Z * Z :=
  let block_num := u32 (Z.land (Z.shiftr index (TXO_TREE_INDEX_BITS_TX_NUM_LENGTH +
                          TXO_TREE_COMBINED_INDEX_BITS_OUTPUT_NUM_LENGTH))
                        TXO_TREE_INDEX_BLOCK_NUM_LOWERED_MASK) in
  let tx_num := u16 (Z.land (Z.shiftr index TXO_TREE_COMBINED_INDEX_BITS_OUTPUT_NUM_LENGTH)
                       TXO_TREE_INDEX_TX_NUM_LOWERED_MASK) in
  let output_num := u8 (Z.land index TXO_TREE_INDEX_OUTPUT_NUM_LOWERED_MASK) in
  (block_num, tx_num, output_num).

(** The arguments are a [u32], a [u16] and a [u8]; no bit leaves the [u64]. *)
Definition get_txo_merkle_index (block_num tx_num output_leaf_index : Z) : Z :=
  Z.lor (Z.lor
    (Z.shiftl block_num (TXO_TREE_INDEX_BITS_TX_NUM_LENGTH + TXO_TREE_COMBINED_INDEX_BITS_OUTPUT_NUM_LENGTH))
    (Z.shiftl tx_num TXO_TREE_COMBINED_INDEX_BITS_OUTPUT_NUM_LENGTH))
    output_leaf_index.

Definition get_txo_merkle_index_with_output_index (block_num tx_num output_index_in_tx : Z) : Z :=
  get_txo_merkle_index block_num tx_num (u8 (Z.shiftr output_index_in_tx 8)).

Definition get_txo_merkle_index_and_bit_index (block_num tx_num output_index_in_tx : Z) : Z * Z :=
  (get_txo_merkle_index block_num tx_num (u8 (Z.shiftr output_index_in_tx 8)),
   u8 (Z.land output_index_in_tx 0xFF)).

Definition get_txo_combined_index (block_num tx_num output_index_in_tx : Z) : Z :=
  Z.lor (Z.lor
    (Z.shiftl block_num (TXO_TREE_INDEX_BITS_TX_NUM_LENGTH + TXO_TREE_COMBINED_INDEX_BITS_OUTPUT_NUM_LENGTH))
    (Z.shiftl tx_num TXO_TREE_COMBINED_INDEX_BITS_OUTPUT_NUM_LENGTH))
    output_index_in_tx.

Definition get_txo_combined_index_for_merkle_index_bit_index
    (block_num tx_num output_merkle_index output_bit_index : Z) : Z :=
  Z.lor (Z.lor
    (Z.shiftl block_num (TXO_TREE_INDEX_BITS_TX_NUM_LENGTH + TXO_TREE_COMBINED_INDEX_BITS_OUTPUT_NUM_LENGTH))
    (Z.shiftl tx_num TXO_TREE_COMBINED_INDEX_BITS_OUTPUT_NUM_LENGTH))
    (Z.lor (Z.shiftl output_merkle_index 8) output_bit_index).

Definition get_txo_block_number_tx_number_output_index_from_combined_index (index : Z) : Z * Z * Z :=
  let block_num := u32 (Z.land (Z.shiftr index (TXO_TREE_INDEX_BITS_TX_NUM_LENGTH +
                          TXO_TREE_COMBINED_INDEX_BITS_OUTPUT_NUM_LENGTH))
                        TXO_TREE_INDEX_BLOCK_NUM_LOWERED_MASK) in
  let tx_num := u16 (Z.land (Z.shiftr index TXO_TREE_COMBINED_INDEX_BITS_OUTPUT_NUM_LENGTH)
                       TXO_TREE_INDEX_TX_NUM_LOWERED_MASK) in
  let output_index := u16 (Z.land index TXO_TREE_INDEX_OUTPUT_NUM_LOWERED_MASK) in
  (block_num, tx_num, output_index).

Definition is_valid_block_num_tx_num_output_index (block_num tx_num output_index_in_tx : Z) : bool :=
  (Z.land block_num (u32 TXO_TREE_INDEX_BLOCK_NUM_LOWERED_MASK) =? block_num) &&
  (Z.land tx_num (u16 TXO_TREE_INDEX_TX_NUM_LOWERED_MASK) =? tx_num) &&
  (Z.land output_index_in_tx (u16 TXO_TREE_INDEX_OUTPUT_NUM_LOWERED_MASK) =? output_index_in_tx).

Definition is_valid_siblings_length_for_txo_merkle_proof (siblings_length : Z) : bool :=
  siblings_length =? TXO_MERKLE_TREE_HEIGHT.

Definition get_output_in_tx_merkle_index_bit_index (output_index_in_tx : Z) : Z * Z :=
  let bit_index := u8 (Z.land output_index_in_tx 0xFF) in
  let merkle_index := u8 (Z.shiftr output_index_in_tx 8) in
  (merkle_index, bit_index).

Definition get_output_index_from_combined_index (combined_index : Z) : Z :=
  u16 (Z.land combined_index TXO_TREE_INDEX_OUTPUT_NUM_LOWERED_MASK).

Definition get_output_in_tx_merkle_index_bit_index_byte_index_bit_mask (output_index_in_tx : Z)
    : Z * Z * Z * Z :=
  let merkle_index := u8 (Z.shiftr output_index_in_tx TXO_TREE_LEAF_BIT_INDEX_LENGTH) in
  let bit_index := u8 (u16 (output_index_in_tx -
                      u16 (Z.shiftl merkle_index TXO_TREE_LEAF_BIT_INDEX_LENGTH))) in
  let bit_mask := Z.land bit_index 7 in
  let byte_index := Z.shiftr bit_index 3 in
  (merkle_index, bit_index, byte_index, bit_mask).

Definition get_output_bit_index_in_leaf (output_index_in_tx : Z) : Z * Z * Z :=
  let merkle_index := u8 (Z.shiftr output_index_in_tx 8) in
  let byte_bit_index := u8 (u16 (output_index_in_tx - u16 (merkle_index * 256))) in
  let bit_mask := Z.land byte_bit_index 7 in
  let byte_index := Z.shiftr byte_bit_index 3 in
  (merkle_index, byte_index, bit_mask).

Definition get_txo_merkle_index_and_leaf_bit_index_from_combined_index (combined_index : Z) : Z * Z :=
  let merkle_index := Z.shiftr combined_index TXO_TREE_LEAF_BIT_INDEX_LENGTH in
  let bit_index := u8 (Z.land combined_index (2 ^ TXO_TREE_LEAF_BIT_INDEX_LENGTH - 1)) in
  (merkle_index, bit_index).

(** ** Lemmas *)

(** Unfold the constants to numbers. *)
Ltac txo_consts :=
  unfold TXO_COMBINED_INDEX_MASK, TXO_MERKLE_INDEX_MASK, TXO_TREE_INDEX_BLOCK_NUM_LOWERED_MASK,
    TXO_TREE_INDEX_TX_NUM_LOWERED_MASK, TXO_TREE_INDEX_OUTPUT_NUM_LOWERED_MASK,
    TXO_COMBINED_INDEX_TOTAL_BITS, TXO_MERKLE_INDEX_TOTAL_BITS,
    TXO_TREE_COMBINED_INDEX_BITS_OUTPUT_NUM_LENGTH, TXO_TREE_INDEX_BITS_BLOCK_NUM_LENGTH,
    TXO_TREE_INDEX_BITS_TX_NUM_LENGTH, TXO_TREE_INDEX_BITS_TOP_OUTPUT_NUM_LENGTH,
    TXO_TREE_LEAF_BIT_INDEX_LENGTH in *;
  change (13 + (4 + 8)) with 25 in *; change (4 + 8) with 12 in *;
  change (28 + 13 + 12) with 53 in *; change (28 + 13 + 4) with 45 in *.

Definition valid_parts (b t o : Z) : Prop := in_width 28 b /\ in_width 13 t /\ in_width 12 o.

Lemma valid_parts_spec b t o :
  is_valid_block_num_tx_num_output_index b t o = true <-> valid_parts b t o.
Proof.
  unfold is_valid_block_num_tx_num_output_index, valid_parts. txo_consts.
  change (u32 (2 ^ 28 - 1)) with (2 ^ 28 - 1). change (u16 (2 ^ 13 - 1)) with (2 ^ 13 - 1).
  change (u16 (2 ^ 12 - 1)) with (2 ^ 12 - 1).
  rewrite !andb_true_iff, !in_width_land_mask by lia. tauto.
Qed.

Lemma combined_index_sum b t o :
  valid_parts b t o -> get_txo_combined_index b t o = b * 2 ^ 25 + t * 2 ^ 12 + o.
Proof.
  intros (Hb & Ht & Ho). unfold get_txo_combined_index. txo_consts.
  rewrite <- Z.lor_assoc, (lor_shiftl_add t o) by (done || lia).
  rewrite lor_shiftl_add; [lia|lia|]. unfold in_width in *. lia.
Qed.

Lemma decode_combined_index i :
  0 <= i ->
  get_txo_block_number_tx_number_output_index_from_combined_index i =
    (i / 2 ^ 25 mod 2 ^ 28, i / 2 ^ 12 mod 2 ^ 13, i mod 2 ^ 12).
Proof.
  intros Hi. unfold get_txo_block_number_tx_number_output_index_from_combined_index. txo_consts.
  rewrite !land_mask, !Z.shiftr_div_pow2 by lia.
  rewrite !wrap_id; [done|unfold in_width; Z.to_euclidean_division_equations; lia..].
Qed.

(** Packing is a bijection between valid (block, transaction, output)
    triples and valid combined indices: a valid triple packs into a valid index
    that unpacks to the triple, and a valid index unpacks to a valid triple that
    packs back into it. *)
Theorem combined_index_bijection :
  (forall b t o, is_valid_block_num_tx_num_output_index b t o = true ->
     is_valid_txo_combined_index (get_txo_combined_index b t o) = true /\
     get_txo_block_number_tx_number_output_index_from_combined_index (get_txo_combined_index b t o)
       = (b, t, o)) /\
  (forall i, is_valid_txo_combined_index i = true ->
     exists b t o,
       get_txo_block_number_tx_number_output_index_from_combined_index i = (b, t, o) /\
       is_valid_block_num_tx_num_output_index b t o = true /\
       get_txo_combined_index b t o = i).
Proof.
  unfold is_valid_txo_combined_index. txo_consts. split.
  - intros b t o Hv%valid_parts_spec. rewrite in_width_land_mask, combined_index_sum by (done || lia).
    destruct Hv as (Hb & Ht & Ho). unfold in_width in *. split; [lia|].
    rewrite decode_combined_index by lia. repeat f_equal; Z.to_euclidean_division_equations; lia.
  - intros i Hi%in_width_land_mask; [|lia]. unfold in_width in Hi.
    rewrite decode_combined_index by lia. do 3 eexists. split; [reflexivity|].
    assert (valid_parts (i / 2 ^ 25 mod 2 ^ 28) (i / 2 ^ 12 mod 2 ^ 13) (i mod 2 ^ 12)) as Hv.
    { unfold valid_parts, in_width. Z.to_euclidean_division_equations; lia. }
    split; [by apply valid_parts_spec|]. rewrite combined_index_sum by done.
    Z.to_euclidean_division_equations; lia.
Qed.

(** The tree position of an output: splitting a valid combined index gives
    an index inside the tree of height 45 and a bit inside the 256-bit leaf, and
    distinct outputs get distinct (leaf, bit) pairs because the two recombine to
    the index. *)
Theorem leaf_position_correct (b t o : Z) :
  is_valid_block_num_tx_num_output_index b t o = true ->
  exists leaf bit,
    get_txo_merkle_index_and_leaf_bit_index_from_combined_index (get_txo_combined_index b t o)
      = (leaf, bit) /\
    is_valid_txo_merkle_index leaf = true /\ in_width 8 bit /\
    get_output_in_tx_merkle_index_bit_index o = (leaf mod 16, bit) /\
    leaf * 256 + bit = get_txo_combined_index b t o.
Proof.
  intros Hv%valid_parts_spec. rewrite combined_index_sum by done.
  destruct Hv as (Hb & Ht & Ho). unfold in_width in *.
  unfold get_txo_merkle_index_and_leaf_bit_index_from_combined_index, is_valid_txo_merkle_index,
    get_output_in_tx_merkle_index_bit_index. txo_consts.
  do 2 eexists. split; [reflexivity|]. change 0xFF with (2 ^ 8 - 1).
  rewrite in_width_land_mask, !land_mask, !Z.shiftr_div_pow2 by lia.
  rewrite !wrap_id by (unfold in_width; Z.to_euclidean_division_equations; lia).
  unfold in_width. split_and!; try (Z.to_euclidean_division_equations; lia).
  f_equal; Z.to_euclidean_division_equations; lia.
Qed.

(** [get_txo_merkle_index] is not the Merkle index of an output: already for
    block 2^20 it is outside the tree of height 45, and it differs from the
    position derived from the combined index. *)
Theorem get_txo_merkle_index_out_of_tree :
  is_valid_block_num_tx_num_output_index (2 ^ 20) 0 0 = true /\
  is_valid_txo_merkle_index (get_txo_merkle_index_with_output_index (2 ^ 20) 0 0) = false /\
  (get_txo_merkle_index_and_leaf_bit_index_from_combined_index (get_txo_combined_index (2 ^ 20) 0 0)).1
    <> get_txo_merkle_index_with_output_index (2 ^ 20) 0 0.
Proof. vm_compute. done. Qed.

Lemma leaf_position_correct_witness :
  exists leaf bit,
    get_txo_merkle_index_and_leaf_bit_index_from_combined_index
      (get_txo_combined_index 236520000 6000 2800) = (leaf, bit) /\
    is_valid_txo_merkle_index leaf = true.
Proof.
  destruct (leaf_position_correct 236520000 6000 2800) as (l & b & H1 & H2 & _).
  - vm_compute. reflexivity.
  - exists l, b. split; [exact H1|exact H2].
Defined.
