(* ===== verification/Fees.v ===== *)
(** * Fees: deposit and withdrawal fees

    Models [libraries/psy-doge-solana-core/src/utils/fees.rs].  The arithmetic is
    done in [u128] and cast to [u64]; an error is [Err] with the message. *)
From S2P Require Import Prelude.
From Stdlib Require Import ZArith Lia String.
From stdpp Require Import base decidable list numbers option.

Open Scope Z_scope.
Open Scope bridge_scope.

Record FeeResult := {
  fees_generated : Z;
  amount_after_fees : Z
}.

Definition calcuate_deposit_fee (total_deposit_amount flat_fee_per_deposit_sats
    deposit_fee_rate_numerator deposit_fee_rate_denominator : Z) : res string FeeResult :=
  try product <- ok_or (checked_mul 128 total_deposit_amount deposit_fee_rate_numerator)
                   "Fee calculation overflow"%string;
  try quotient <- ok_or (checked_div product deposit_fee_rate_denominator)
                    "Division by zero in fee calculation"%string;
  try sum <- ok_or (checked_add 128 quotient flat_fee_per_deposit_sats)
               "Fee calculation overflow"%string;
  let fees_generated := u64 sum in
  try rest <- ok_or (checked_sub total_deposit_amount fees_generated)
                "Fee calculation underflow"%string;
  Ok {| fees_generated := fees_generated; amount_after_fees := rest |}.

Definition calcuate_withdrawal_fee (total_withdrawal_amount flat_fee_per_withdrawal_sats
    withdrawal_fee_rate_numerator withdrawal_fee_rate_denominator : Z) : res string FeeResult :=
  try product <- ok_or (checked_mul 128 total_withdrawal_amount withdrawal_fee_rate_numerator)
                   "Fee calculation overflow"%string;
  try quotient <- ok_or (checked_div product withdrawal_fee_rate_denominator)
                    "Division by zero in fee calculation"%string;
  try sum <- ok_or (checked_add 128 quotient flat_fee_per_withdrawal_sats)
               "Fee calculation overflow"%string;
  let fees_generated := u64 sum in
  try rest <- ok_or (checked_sub total_withdrawal_amount fees_generated)
                "Fee calculation underflow"%string;
  Ok {| fees_generated := fees_generated; amount_after_fees := rest |}.

(** ** Lemmas *)

(** The fee before the cast. *)
Definition exact_fee (amount flat num den : Z) : Z := amount * num / den + flat.

(** On [u64] inputs with a non-zero denominator the [u128] steps cannot fail;
    only the final subtraction can. *)
Lemma withdrawal_fee_eq amount flat num den :
  in_width 64 amount -> in_width 64 flat -> in_width 64 num -> in_width 64 den -> den <> 0 ->
  calcuate_withdrawal_fee amount flat num den =
    let fee := u64 (exact_fee amount flat num den) in
    if amount <? fee then Err "Fee calculation underflow"%string
    else Ok {| fees_generated := fee; amount_after_fees := amount - fee |}.
Proof.
  unfold in_width. intros Ha Hf Hn Hd Hd0.
  unfold calcuate_withdrawal_fee, checked_mul, checked_div, checked_add, checked_sub.
  assert (amount * num <= (2 ^ 64 - 1) * (2 ^ 64 - 1)) as Hm by (apply Z.mul_le_mono_nonneg; lia).
  assert (0 <= amount * num / den <= amount * num) as Hq.
  { assert (0 <= amount * num) by (apply Z.mul_nonneg_nonneg; lia).
    split; [apply Z.div_pos; lia|]. apply Z.div_le_upper_bound; [lia|]. nia. }
  assert ((amount * num <? 2 ^ 128) = true) as -> by (apply Z.ltb_lt; lia).
  cbn [ok_or res_bind]. assert ((den =? 0) = false) as -> by (apply Z.eqb_neq; lia).
  cbn [ok_or res_bind].
  assert ((amount * num / den + flat <? 2 ^ 128) = true) as -> by (apply Z.ltb_lt; lia).
  cbn [ok_or res_bind]. unfold exact_fee. by destruct (amount <? _).
Qed.

(** What a successful computation returns, for any parameters. *)
Lemma withdrawal_fee_Ok amount flat num den r :
  calcuate_withdrawal_fee amount flat num den = Ok r ->
  fees_generated r = u64 (exact_fee amount flat num den) /\
  amount_after_fees r = amount - fees_generated r /\ 0 <= amount_after_fees r.
Proof.
  unfold calcuate_withdrawal_fee, checked_mul, checked_div, checked_add. intros Hr.
  destruct (_ * _ <? _); [|discriminate]. cbn [ok_or res_bind] in Hr.
  destruct (den =? 0); [discriminate|]. cbn [ok_or res_bind] in Hr.
  destruct (_ <? _); [|discriminate]. cbn [ok_or res_bind] in Hr.
  destruct (checked_sub _ _) as [d|] eqn:E; [|discriminate]. injection Hr as <-.
  apply checked_sub_Some in E as [Hle ->]. unfold exact_fee. simpl. lia.
Qed.

(** [C40] The fee is exact: for all [u64] parameters, the fee is the floor of the rate of
    the amount plus the flat fee, whenever the denominator is not zero and this fee is at
    most the amount, and the fee and what remains add up to the amount.  A zero
    denominator and a larger fee below 2^64 are refused, and no earlier step overflows;
    only a fee of 2^64 or more is truncated. *)
Theorem withdrawal_fee_exact (amount flat num den : Z) :
  in_width 64 amount -> in_width 64 flat -> in_width 64 num -> in_width 64 den ->
  let fee := exact_fee amount flat num den in
  calcuate_withdrawal_fee amount flat num den =
    (if den =? 0 then Err "Division by zero in fee calculation"%string
     else if fee <=? amount then Ok {| fees_generated := fee; amount_after_fees := amount - fee |}
     else if (fee <? 2 ^ 64) || (amount <? u64 fee) then Err "Fee calculation underflow"%string
     else Ok {| fees_generated := u64 fee; amount_after_fees := amount - u64 fee |}) /\
  calcuate_deposit_fee amount flat num den = calcuate_withdrawal_fee amount flat num den.
Proof.
  intros Ha Hf Hn Hd fee. split; [|done]. destruct (Z.eqb_spec den 0) as [->|Hd0].
  { unfold calcuate_withdrawal_fee, checked_mul. unfold in_width in *.
    assert ((amount * num <? 2 ^ 128) = true) as -> by (apply Z.ltb_lt; nia). done. }
  rewrite withdrawal_fee_eq by done. fold fee. cbv zeta.
  assert (0 <= fee) by (unfold fee, exact_fee, in_width in *; pose proof (Z.div_pos (amount * num) den); nia).
  destruct (Z.leb_spec fee amount).
  - rewrite wrap_id by (unfold in_width in *; lia). by rewrite (proj2 (Z.ltb_ge _ _)) by lia.
  - destruct (Z.ltb_spec fee (2 ^ 64)); [|done].
    rewrite wrap_id by (unfold in_width; lia). by rewrite (proj2 (Z.ltb_lt _ _)) by lia.
Qed.

(** A successful fee computation never creates value, whatever the rate:
    fee plus remainder is the amount, and neither is negative. *)
Theorem fee_conserves_amount (amount flat num den : Z) (r : FeeResult) :
  in_width 64 amount ->
  calcuate_withdrawal_fee amount flat num den = Ok r ->
  fees_generated r + amount_after_fees r = amount /\
  0 <= fees_generated r /\ 0 <= amount_after_fees r.
Proof.
  intros Ha Hr. unfold calcuate_withdrawal_fee in Hr. inv_run Hr. simpl.
  match goal with E : checked_sub _ (u64 ?s) = Some _ |- _ =>
    apply checked_sub_Some in E as [? ->]; pose proof (wrap_in_width 64 s ltac:(lia)) end.
  unfold in_width in *. lia.
Qed.

(** The final cast to [u64] truncates: with a rate above 100% a fee of 2^64
    or more wraps around and is charged as its low 64 bits instead of being
    rejected. *)
Theorem fee_truncates_above_full_rate :
  exact_fee (2 ^ 63) 1 2 1 = 2 ^ 64 + 1 /\
  calcuate_withdrawal_fee (2 ^ 63) 1 2 1 =
    Ok {| fees_generated := 1; amount_after_fees := 2 ^ 63 - 1 |}.
Proof. split; vm_compute; reflexivity. Qed.

Lemma withdrawal_fee_exact_witness :
  calcuate_withdrawal_fee 100000 500 1 100 = Ok {| fees_generated := 1500; amount_after_fees := 98500 |}.
Proof. refine (proj1 (withdrawal_fee_exact 100000 500 1 100 _ _ _ _)); unfold in_width; lia. Defined.

Lemma fee_conserves_amount_witness : 1500 + 98500 = 100000.
Proof.
  refine (proj1 (fee_conserves_amount 100000 500 1 100
    {| fees_generated := 1500; amount_after_fees := 98500 |} _ _)).
  - unfold in_width. lia.
  - vm_compute. reflexivity.
Defined.
