(* ===== verification/Runtime.v ===== *)
(** * Runtime: the Solana account model that the programs run in

    Accounts live in one store, keyed by address; the [AccountInfo]s an instruction
    receives name addresses of that store, so two of them may alias one account.
    What the programs call but do not define (rent, address derivation, account
    reallocation, cross-program invocation) is the interface [Runtime]; the
    behaviour that the theorems rely on, as Solana documents it, is [RuntimeLaws].

    An instruction either succeeds, with the new store, or fails and is rolled
    back; a program is therefore a function to [res ProgramError World]. *)
From S2P Require Import Prelude Errors.
From Stdlib Require Import ZArith Lia.
From stdpp Require Import base decidable list numbers option countable gmap.

Open Scope Z_scope.
Open Scope bridge_scope.

Abbreviation Pubkey := bytes.

Record Account := {
  lamports : Z;
  owner : Pubkey;
  data : bytes
}.

(** [solana_program::account_info::AccountInfo], without the account itself. *)
Record AccountInfo := {
  key : Pubkey;
  is_signer : bool;
  is_writable : bool
}.

Abbreviation World := (gmap bytes Account).

(** An address that has never been used: owned by the system program (the zero
    address), without lamports or data. *)
Definition absent_account : Account := {| lamports := 0; owner := zeros 32; data := [] |}.

Definition account_at (w : World) (k : Pubkey) : Account := default absent_account (w !! k).
Definition data_at (w : World) (k : Pubkey) : bytes := data (account_at w k).
Definition owner_at (w : World) (k : Pubkey) : Pubkey := owner (account_at w k).
Definition lamports_at (w : World) (k : Pubkey) : Z := lamports (account_at w k).

Definition set_data (w : World) (k : Pubkey) (d : bytes) : World :=
  <[k := {| lamports := lamports_at w k; owner := owner_at w k; data := d |}]> w.
Definition set_lamports (w : World) (k : Pubkey) (l : Z) : World :=
  <[k := {| lamports := l; owner := owner_at w k; data := data_at w k |}]> w.

(** [AccountMeta] of an instruction. *)
Record AccountMeta := {
  meta_key : Pubkey;
  meta_is_signer : bool;
  meta_is_writable : bool
}.

(** The instructions that the programs build: of the system program, of the token
    program, and raw ones. *)
Inductive Instruction :=
  | SystemTransfer (from to : Pubkey) (amount : Z)
  | SystemAllocate (account : Pubkey) (space : Z)
  | SystemAssign (account owner : Pubkey)
  | SystemCreateAccount (from to : Pubkey) (amount space : Z) (owner : Pubkey)
  | TokenMintTo (mint account authority : Pubkey) (amount : Z)
  | TokenBurn (account mint authority : Pubkey) (amount : Z)
  | RawInstruction (program_id : Pubkey) (accounts : list AccountMeta) (input : bytes).

Class Runtime := {
  (** [Rent::get()?.minimum_balance(len)] *)
  minimum_balance : Z -> Z;
  (** [Pubkey::find_program_address] and [create_program_address] *)
  find_program_address : list bytes -> Pubkey -> Pubkey * Z;
  create_program_address : list bytes -> Pubkey -> option Pubkey;
  (** [Clock::get()?.unix_timestamp] *)
  unix_timestamp : Z;
  (** [account.realloc(new_len, false)] *)
  realloc : World -> Pubkey -> Z -> res ProgramError World;
  (** [invoke_signed]; [invoke] is the case of no seeds *)
  invoke_signed : World -> Instruction -> list AccountInfo -> list (list bytes) -> res ProgramError World
}.

(** The accounts an instruction lists: [system_instruction::create_account] and the
    token program's [mint_to] and [burn] as these crates build them. *)
Definition instruction_metas (i : Instruction) : list AccountMeta :=
  let writable k := {| meta_key := k; meta_is_signer := false; meta_is_writable := true |} in
  let signer k w := {| meta_key := k; meta_is_signer := true; meta_is_writable := w |} in
  match i with
  | SystemTransfer from to _ => [signer from true; writable to]
  | SystemAllocate account _ | SystemAssign account _ => [signer account true]
  | SystemCreateAccount from to _ _ _ => [signer from true; signer to true]
  | TokenMintTo mint account authority _ => [writable mint; writable account; signer authority false]
  | TokenBurn account mint authority _ => [writable account; writable mint; signer authority false]
  | RawInstruction _ metas _ => metas
  end.

(** Before the call, [invoke] and [invoke_signed] of [solana_program] try to borrow
    every account of the instruction, mutably if it is writable, and return
    [AccountBorrowFailed] when the caller still holds a conflicting borrow of its
    data: [held_mut] and [held] are the keys of the accounts that it has borrowed. *)
Definition borrow_conflict (held_mut held : list Pubkey) (i : Instruction) : bool :=
  existsb (fun m => bool_decide (meta_key m ∈ held_mut) ||
                    meta_is_writable m && bool_decide (meta_key m ∈ held)) (instruction_metas i).

Definition invoke_signed_holding `{Runtime} (held_mut held : list Pubkey) (w : World) (i : Instruction)
    (infos : list AccountInfo) (seeds : list (list bytes)) : res ProgramError World :=
  bail AccountBorrowFailed if borrow_conflict held_mut held i;
  invoke_signed w i infos seeds.

(** The memory after a reallocation: cut off, or extended by zero bytes. *)
Definition resized (n : Z) (d : bytes) : bytes :=
  take (Z.to_nat n) d ++ zeros (Z.to_nat n - length d).

(** Documented behaviour of the runtime. *)
Class RuntimeLaws `{Runtime} : Prop := {
  (** new bytes are zero: the programs reallocate an account at most once per call *)
  realloc_resizes w k n w' : realloc w k n = Ok w' -> w' = set_data w k (resized n (data_at w k));
  (** a lamport transfer moves lamports only *)
  transfer_keeps_data w from to amount infos seeds w' :
    invoke_signed w (SystemTransfer from to amount) infos seeds = Ok w' ->
    forall k, data_at w' k = data_at w k /\ owner_at w' k = owner_at w k;
  (** allocated memory is zeroed *)
  allocate_zeroes w account space infos seeds w' :
    invoke_signed w (SystemAllocate account space) infos seeds = Ok w' ->
    data_at w' account = zeros (Z.to_nat space) /\ forall k, k <> account -> data_at w' k = data_at w k;
  (** assigning changes the owner only *)
  assign_keeps_data w account owner infos seeds w' :
    invoke_signed w (SystemAssign account owner) infos seeds = Ok w' ->
    forall k, data_at w' k = data_at w k
}.

(** [next_account_info], the [i]-th time it is called. *)
Definition nth_account (accounts : list AccountInfo) (i : nat) : res ProgramError AccountInfo :=
  ok_or (accounts !! i) NotEnoughAccountKeys.

(** ** Lemmas *)

Section world.
Implicit Types (w : World) (k : Pubkey).

Lemma account_at_insert w k a : account_at (<[k := a]> w) k = a.
Proof. unfold account_at. by rewrite lookup_insert_eq. Qed.

Lemma account_at_insert_ne w k k' a : k <> k' -> account_at (<[k := a]> w) k' = account_at w k'.
Proof. intros. unfold account_at. by rewrite lookup_insert_ne. Qed.

Lemma data_at_set_data w k d : data_at (set_data w k d) k = d.
Proof. unfold data_at, set_data. by rewrite account_at_insert. Qed.

Lemma data_at_set_data_ne w k k' d : k <> k' -> data_at (set_data w k d) k' = data_at w k'.
Proof. intros. unfold data_at, set_data. by rewrite account_at_insert_ne. Qed.

Lemma owner_at_set_data w k k' d : owner_at (set_data w k d) k' = owner_at w k'.
Proof.
  unfold owner_at, set_data. destruct (decide (k = k')) as [->|Hne].
  - by rewrite account_at_insert.
  - by rewrite account_at_insert_ne.
Qed.

Lemma set_data_set_data w k d d' : set_data (set_data w k d) k d' = set_data w k d'.
Proof.
  unfold set_data at 1. unfold lamports_at, owner_at, set_data. rewrite account_at_insert. cbn [lamports owner].
  by rewrite insert_insert_eq.
Qed.

Lemma data_at_set_lamports w k k' l : data_at (set_lamports w k l) k' = data_at w k'.
Proof.
  unfold data_at, set_lamports. destruct (decide (k = k')) as [->|Hne].
  - by rewrite account_at_insert.
  - by rewrite account_at_insert_ne.
Qed.

Lemma owner_at_set_lamports w k k' l : owner_at (set_lamports w k l) k' = owner_at w k'.
Proof.
  unfold owner_at, set_lamports. destruct (decide (k = k')) as [->|Hne].
  - by rewrite account_at_insert.
  - by rewrite account_at_insert_ne.
Qed.

Lemma length_resized n d : 0 <= n -> len (resized n d) = n.
Proof.
  intros Hn. unfold resized, len. rewrite length_app, length_take, length_zeros. lia.
Qed.

Lemma resized_bytes n d : Forall is_byte d -> Forall is_byte (resized n d).
Proof. intros Hd. apply Forall_app. split; [by apply Forall_take|apply zeros_bytes]. Qed.

(** What lies below both lengths is kept. *)
Lemma slice_resized a b n d :
  0 <= a <= b -> b <= n -> b <= len d -> slice a b (resized n d) = slice a b d.
Proof.
  intros Hab Hn Hd. destruct (slice_is_Some a b d) as [x Hx]; [lia..|]. rewrite Hx.
  apply slice_Some in Hx as (_ & _ & ->). apply slice_Some. rewrite length_resized by lia.
  split; [lia|]. split; [done|]. apply list_eq. intros i.
  destruct (decide (i < Z.to_nat (b - a))%nat); [|by rewrite !lookup_take_ge by lia].
  rewrite !lookup_take_lt, !lookup_drop by done. unfold len in Hd. unfold resized.
  rewrite lookup_app_l by (rewrite length_take; lia). by rewrite lookup_take_lt by lia.
Qed.
End world.

(** Nothing held, nothing refused. *)
Lemma invoke_holding_nothing `{Runtime} w i infos seeds :
  invoke_signed_holding [] [] w i infos seeds = invoke_signed w i infos seeds.
Proof.
  unfold invoke_signed_holding, borrow_conflict. induction (instruction_metas i) as [|m l IH]; [done|].
  cbn [existsb]. rewrite !bool_decide_false by apply not_elem_of_nil. rewrite andb_false_r. exact IH.
Qed.

Create Rewrite HintDb world.
#[export] Hint Rewrite data_at_set_data set_data_set_data owner_at_set_data data_at_set_lamports owner_at_set_lamports : world.
