(* ===== verification/Types.v ===== *)
(** * Types: the structs of the bridge and their memory layouts

    Models the data declarations of [psy-bridge-core/src/header.rs],
    [psy-doge-solana-core/src/data_accounts/pending_mint.rs],
    [program_state/withdrawal.rs], the configuration and access-control records of
    [program_state/core.rs] and [utils/deposit_leaf.rs], with their operations.
    Every [#[repr(C)]] struct has a [Pod] instance: field order and widths are
    those of the declaration, so sizes, encodings and round trips come from
    [Pod.v]. *)
From S2P Require Import Prelude Pod Hash Sha256.
From Stdlib Require Import ZArith Lia.
From stdpp Require Import base decidable list numbers option.

Open Scope Z_scope.
Open Scope bridge_scope.

(** ** header.rs *)

Record PsyBridgeStateCommitment := {
  sc_block_hash : QHash256;
  sc_block_merkle_tree_root : QHash256;
  sc_pending_mints_finalized_hash : QHash256;
  sc_txo_output_list_finalized_hash : QHash256;
  sc_auto_claimed_txo_tree_root : QHash256;
  sc_auto_claimed_deposits_tree_root : QHash256;
  sc_auto_claimed_deposits_next_index : Z;
  sc_block_height : Z
}.

#[export] Instance PsyBridgeStateCommitment_eq_dec : EqDecision PsyBridgeStateCommitment.
Proof. solve_decision. Defined.

#[export] Instance PsyBridgeStateCommitment_pod : Pod PsyBridgeStateCommitment.
Proof.
  refine (pod_iso (pod_array 32 ** pod_array 32 ** pod_array 32 ** pod_array 32 ** pod_array 32 **
      pod_array 32 ** pod_uint 4 ** pod_uint 4)
    (fun '(x0, (x1, (x2, (x3, (x4, (x5, (x6, x7))))))) =>
      {| sc_block_hash := x0;
         sc_block_merkle_tree_root := x1;
         sc_pending_mints_finalized_hash := x2;
         sc_txo_output_list_finalized_hash := x3;
         sc_auto_claimed_txo_tree_root := x4;
         sc_auto_claimed_deposits_tree_root := x5;
         sc_auto_claimed_deposits_next_index := x6;
         sc_block_height := x7 |})
    (fun r => (sc_block_hash r, (sc_block_merkle_tree_root r, (sc_pending_mints_finalized_hash r,
      (sc_txo_output_list_finalized_hash r, (sc_auto_claimed_txo_tree_root r,
      (sc_auto_claimed_deposits_tree_root r, (sc_auto_claimed_deposits_next_index r,
      sc_block_height r)))))))) _ _);
    pod_iso_tac.
Defined.

Record PsyBridgeTipStateCommitment := {
  tip_block_hash : QHash256;
  tip_block_merkle_tree_root : QHash256;
  tip_block_time : Z;
  tip_block_height : Z
}.

#[export] Instance PsyBridgeTipStateCommitment_eq_dec : EqDecision PsyBridgeTipStateCommitment.
Proof. solve_decision. Defined.

#[export] Instance PsyBridgeTipStateCommitment_pod : Pod PsyBridgeTipStateCommitment.
Proof.
  refine (pod_iso (pod_array 32 ** pod_array 32 ** pod_uint 4 ** pod_uint 4)
    (fun '(x0, (x1, (x2, x3))) =>
      {| tip_block_hash := x0;
         tip_block_merkle_tree_root := x1;
         tip_block_time := x2;
         tip_block_height := x3 |})
    (fun r => (tip_block_hash r, (tip_block_merkle_tree_root r, (tip_block_time r,
      tip_block_height r)))) _ _);
    pod_iso_tac.
Defined.

Record PsyBridgeHeader := {
  tip_state : PsyBridgeTipStateCommitment;
  finalized_state : PsyBridgeStateCommitment;
  bridge_state_hash : QHash256;
  last_rollback_at_secs : Z;
  paused_until_secs : Z;
  total_finalized_fees_collected_chain_history : Z
}.

#[export] Instance PsyBridgeHeader_eq_dec : EqDecision PsyBridgeHeader.
Proof. solve_decision. Defined.

#[export] Instance PsyBridgeHeader_pod : Pod PsyBridgeHeader.
Proof.
  refine (pod_iso (PsyBridgeTipStateCommitment_pod ** PsyBridgeStateCommitment_pod ** pod_array 32
      ** pod_uint 4 ** pod_uint 4 ** pod_uint 8)
    (fun '(x0, (x1, (x2, (x3, (x4, x5))))) =>
      {| tip_state := x0;
         finalized_state := x1;
         bridge_state_hash := x2;
         last_rollback_at_secs := x3;
         paused_until_secs := x4;
         total_finalized_fees_collected_chain_history := x5 |})
    (fun r => (tip_state r, (finalized_state r, (bridge_state_hash r, (last_rollback_at_secs r,
      (paused_until_secs r, total_finalized_fees_collected_chain_history r)))))) _ _);
    pod_iso_tac.
Defined.

(** A header without the fields that the bridge derives itself. *)
Record PsyBridgeHeaderUpdate := {
  hu_tip_state : PsyBridgeTipStateCommitment;
  hu_finalized_block_hash : QHash256;
  hu_finalized_block_merkle_tree_root : QHash256;
  hu_finalized_auto_claimed_txo_tree_root : QHash256;
  hu_finalized_auto_claimed_deposits_tree_root : QHash256;
  hu_bridge_state_hash : QHash256;
  hu_last_rollback_at_secs : Z;
  hu_paused_until_secs : Z;
  hu_total_finalized_fees_collected_chain_history : Z
}.

Definition to_header (self : PsyBridgeHeaderUpdate) (required_confirmations : Z)
    (pending_mints_finalized_hash txo_output_list_finalized_hash : QHash256)
    (auto_claimed_deposits_next_index : Z) : PsyBridgeHeader :=
  {| tip_state := hu_tip_state self;
     finalized_state :=
       {| sc_block_hash := hu_finalized_block_hash self;
          sc_block_merkle_tree_root := hu_finalized_block_merkle_tree_root self;
          sc_pending_mints_finalized_hash := pending_mints_finalized_hash;
          sc_txo_output_list_finalized_hash := txo_output_list_finalized_hash;
          sc_auto_claimed_txo_tree_root := hu_finalized_auto_claimed_txo_tree_root self;
          sc_auto_claimed_deposits_tree_root := hu_finalized_auto_claimed_deposits_tree_root self;
          sc_auto_claimed_deposits_next_index := auto_claimed_deposits_next_index;
          sc_block_height :=
            default 0 (checked_sub (tip_block_height (hu_tip_state self)) required_confirmations) |};
     bridge_state_hash := hu_bridge_state_hash self;
     last_rollback_at_secs := hu_last_rollback_at_secs self;
     paused_until_secs := hu_paused_until_secs self;
     total_finalized_fees_collected_chain_history :=
       hu_total_finalized_fees_collected_chain_history self |}.

(** [copy_from] assigns the six fields one by one. *)
Definition header_copy_from (self other : PsyBridgeHeader) : PsyBridgeHeader :=
  {| tip_state := tip_state other;
     finalized_state := finalized_state other;
     bridge_state_hash := bridge_state_hash other;
     last_rollback_at_secs := last_rollback_at_secs other;
     paused_until_secs := paused_until_secs other;
     total_finalized_fees_collected_chain_history :=
       total_finalized_fees_collected_chain_history other |}.

Definition header_is_paused (self : PsyBridgeHeader) (current_unix_timestamp_secs : Z) : bool :=
  current_unix_timestamp_secs <? paused_until_secs self.

(** ** data_accounts/pending_mint.rs *)

Record PendingMint := {
  recipient : bytes;
  amount : Z
}.

#[export] Instance PendingMint_eq_dec : EqDecision PendingMint.
Proof. solve_decision. Defined.

#[export] Instance PendingMint_pod : Pod PendingMint.
Proof.
  refine (pod_iso (pod_array 32 ** pod_uint 8)
    (fun '(x0, x1) =>
      {| recipient := x0;
         amount := x1 |})
    (fun r => (recipient r, amount r)) _ _);
    pod_iso_tac.
Defined.

Record PendingMintsBufferStateHeader := {
  authorized_locker_public_key : bytes;
  authorized_writer_public_key : bytes;
  is_locked : Z;
  mode : Z;
  pending_mint_groups_count : Z;
  pending_mints_initialized : Z;
  pending_mints_count : Z
}.

#[export] Instance PendingMintsBufferStateHeader_eq_dec : EqDecision PendingMintsBufferStateHeader.
Proof. solve_decision. Defined.

#[export] Instance PendingMintsBufferStateHeader_pod : Pod PendingMintsBufferStateHeader.
Proof.
  refine (pod_iso (pod_array 32 ** pod_array 32 ** pod_uint 1 ** pod_uint 1 ** pod_uint 2 **
      pod_uint 2 ** pod_uint 2)
    (fun '(x0, (x1, (x2, (x3, (x4, (x5, x6)))))) =>
      {| authorized_locker_public_key := x0;
         authorized_writer_public_key := x1;
         is_locked := x2;
         mode := x3;
         pending_mint_groups_count := x4;
         pending_mints_initialized := x5;
         pending_mints_count := x6 |})
    (fun r => (authorized_locker_public_key r, (authorized_writer_public_key r, (is_locked r,
      (mode r, (pending_mint_groups_count r, (pending_mints_initialized r, pending_mints_count
      r))))))) _ _);
    pod_iso_tac.
Defined.

Record PendingMintsTxoBufferHeader := {
  txo_authorized_writer : bytes;
  txo_init_status : Z;
  txo_finalized_status : Z;
  txo_doge_block_height : Z;
  txo_batch_id : Z;
  txo_data_size : Z
}.

#[export] Instance PendingMintsTxoBufferHeader_eq_dec : EqDecision PendingMintsTxoBufferHeader.
Proof. solve_decision. Defined.

#[export] Instance PendingMintsTxoBufferHeader_pod : Pod PendingMintsTxoBufferHeader.
Proof.
  refine (pod_iso (pod_array 32 ** pod_uint 2 ** pod_uint 2 ** pod_uint 4 ** pod_uint 4 **
      pod_uint 4)
    (fun '(x0, (x1, (x2, (x3, (x4, x5))))) =>
      {| txo_authorized_writer := x0;
         txo_init_status := x1;
         txo_finalized_status := x2;
         txo_doge_block_height := x3;
         txo_batch_id := x4;
         txo_data_size := x5 |})
    (fun r => (txo_authorized_writer r, (txo_init_status r, (txo_finalized_status r,
      (txo_doge_block_height r, (txo_batch_id r, txo_data_size r)))))) _ _);
    pod_iso_tac.
Defined.

Definition PM_DA_PENDING_MINT_SIZE : Z := 40.
Definition PM_DA_PENDING_MINTS_BUFFER_STATE_HEADER_SIZE : Z := 72.
Definition PM_MAX_PENDING_MINTS_PER_GROUP : Z := 24.
Definition PM_TXO_BUFFER_HEADER_SIZE : Z := 48.

(** The sizes that the source asserts at compile time. *)
Lemma pod_sizes :
  Z.of_nat (pod_size PendingMint) = PM_DA_PENDING_MINT_SIZE /\
  Z.of_nat (pod_size PendingMintsBufferStateHeader) = PM_DA_PENDING_MINTS_BUFFER_STATE_HEADER_SIZE /\
  Z.of_nat (pod_size PendingMintsTxoBufferHeader) = PM_TXO_BUFFER_HEADER_SIZE /\
  pod_size PsyBridgeHeader = 320%nat.
Proof. done. Qed.

Definition pm_calculate_data_account_min_size (pending_mints_count : Z) : Z :=
  let groups := (pending_mints_count + PM_MAX_PENDING_MINTS_PER_GROUP - 1)
                / PM_MAX_PENDING_MINTS_PER_GROUP in
  PM_DA_PENDING_MINTS_BUFFER_STATE_HEADER_SIZE + groups * 32
  + pending_mints_count * PM_DA_PENDING_MINT_SIZE.

Definition PM_DA_DEFAULT_PENDING_MINTS_BUFFER_HASH : QHash256 := [
  150; 162; 150; 210; 36; 242; 133; 198; 123; 238; 147; 195; 15; 138; 48; 145; 87; 240; 218; 163;
  93; 197; 184; 126; 65; 11; 120; 99; 10; 9; 207; 199
].

Definition PM_TXO_DEFAULT_BUFFER_HASH : QHash256 := [
  227; 176; 196; 66; 152; 252; 28; 20; 154; 251; 244; 200; 153; 111; 185; 36; 39; 174; 65; 228;
  100; 155; 147; 76; 164; 149; 153; 27; 120; 82; 184; 85
].

Definition pm_txo_data_account_min_size (total_pending_mints : Z) : Z :=
  PM_TXO_BUFFER_HEADER_SIZE + total_pending_mints * 4.

(** The number of mints in group [g] of [G], of [n] mints in all: 24, and the rest
    in the last group. *)
Definition group_size (n G g : Z) : Z := if g =? G - 1 then n - 24 * (G - 1) else 24.

(** The two default hashes are what their comments say. *)
Lemma default_hashes_are_sha256 :
  PM_DA_DEFAULT_PENDING_MINTS_BUFFER_HASH = fips_sha256 [0; 0] /\
  PM_TXO_DEFAULT_BUFFER_HASH = fips_sha256 [].
Proof. split; vm_compute; reflexivity. Qed.

(** ** program_state/withdrawal.rs *)

Record PsyWithdrawalRequest := {
  wr_amount_sats : Z;
  wr_address_type : Z;
  wr_recipient_address : bytes
}.

#[export] Instance PsyWithdrawalRequest_eq_dec : EqDecision PsyWithdrawalRequest.
Proof. solve_decision. Defined.

#[export] Instance PsyWithdrawalRequest_pod : Pod PsyWithdrawalRequest.
Proof.
  refine (pod_iso (pod_uint 8 ** pod_uint 4 ** pod_array 20)
    (fun '(x0, (x1, x2)) =>
      {| wr_amount_sats := x0;
         wr_address_type := x1;
         wr_recipient_address := x2 |})
    (fun r => (wr_amount_sats r, (wr_address_type r, wr_recipient_address r))) _ _);
    pod_iso_tac.
Defined.

Record PsyWithdrawalChainSnapshot := {
  ws_auto_claimed_deposits_tree_root : QHash256;
  ws_requested_withdrawals_tree_root : QHash256;
  ws_block_merkle_tree_root : QHash256;
  ws_manual_deposits_tree_root : QHash256;
  ws_block_height : Z;
  ws_last_snapshotted_for_withdrawals_seconds : Z;
  ws_next_requested_withdrawals_tree_index : Z;
  ws_next_manual_deposits_tree_index : Z
}.

#[export] Instance PsyWithdrawalChainSnapshot_eq_dec : EqDecision PsyWithdrawalChainSnapshot.
Proof. solve_decision. Defined.

#[export] Instance PsyWithdrawalChainSnapshot_pod : Pod PsyWithdrawalChainSnapshot.
Proof.
  refine (pod_iso (pod_array 32 ** pod_array 32 ** pod_array 32 ** pod_array 32 ** pod_uint 4 **
      pod_uint 4 ** pod_uint 8 ** pod_uint 8)
    (fun '(x0, (x1, (x2, (x3, (x4, (x5, (x6, x7))))))) =>
      {| ws_auto_claimed_deposits_tree_root := x0;
         ws_requested_withdrawals_tree_root := x1;
         ws_block_merkle_tree_root := x2;
         ws_manual_deposits_tree_root := x3;
         ws_block_height := x4;
         ws_last_snapshotted_for_withdrawals_seconds := x5;
         ws_next_requested_withdrawals_tree_index := x6;
         ws_next_manual_deposits_tree_index := x7 |})
    (fun r => (ws_auto_claimed_deposits_tree_root r, (ws_requested_withdrawals_tree_root r,
      (ws_block_merkle_tree_root r, (ws_manual_deposits_tree_root r, (ws_block_height r,
      (ws_last_snapshotted_for_withdrawals_seconds r, (ws_next_requested_withdrawals_tree_index r,
      ws_next_manual_deposits_tree_index r)))))))) _ _);
    pod_iso_tac.
Defined.

Record PsyReturnTxOutput := {
  ro_sighash : QHash256;
  ro_output_index : Z;
  ro_amount_sats : Z
}.

#[export] Instance PsyReturnTxOutput_eq_dec : EqDecision PsyReturnTxOutput.
Proof. solve_decision. Defined.

#[export] Instance PsyReturnTxOutput_pod : Pod PsyReturnTxOutput.
Proof.
  refine (pod_iso (pod_array 32 ** pod_uint 8 ** pod_uint 8)
    (fun '(x0, (x1, x2)) =>
      {| ro_sighash := x0;
         ro_output_index := x1;
         ro_amount_sats := x2 |})
    (fun r => (ro_sighash r, (ro_output_index r, ro_amount_sats r))) _ _);
    pod_iso_tac.
Defined.

(** [to_leaf] writes the three fields into a zeroed 32-byte array; the slices
    are in range, so no write panics. *)
Definition to_leaf (self : PsyWithdrawalRequest) : option bytes :=
  b1 ← write_slice 0 (le_bytes 8 (wr_amount_sats self)) (zeros 32);
  b2 ← write_slice 8 (le_bytes 4 (wr_address_type self)) b1;
  write_slice 12 (wr_recipient_address self) b2.

Definition from_leaf (leaf : bytes) : option PsyWithdrawalRequest :=
  amount ← slice 0 8 leaf;
  address_type ← slice 8 12 leaf;
  recipient ← slice 12 32 leaf;
  Some {| wr_amount_sats := le_val amount; wr_address_type := le_val address_type;
          wr_recipient_address := recipient |}.

(** ** program_state/mint_group.rs: what a finalized block commits to *)

Record FinalizedBlockMintTxoInfo := {
  pending_mints_finalized_hash : QHash256;
  txo_output_list_finalized_hash : QHash256
}.

#[export] Instance FinalizedBlockMintTxoInfo_eq_dec : EqDecision FinalizedBlockMintTxoInfo.
Proof. solve_decision. Defined.

#[export] Instance FinalizedBlockMintTxoInfo_pod : Pod FinalizedBlockMintTxoInfo.
Proof.
  refine (pod_iso (pod_array 32 ** pod_array 32)
    (fun '(x0, x1) => {| pending_mints_finalized_hash := x0; txo_output_list_finalized_hash := x1 |})
    (fun r => (pending_mints_finalized_hash r, txo_output_list_finalized_hash r)) _ _);
    pod_iso_tac.
Defined.

Definition info_is_empty (self : FinalizedBlockMintTxoInfo) : bool :=
  bool_decide (pending_mints_finalized_hash self = PM_DA_DEFAULT_PENDING_MINTS_BUFFER_HASH)
  && bool_decide (txo_output_list_finalized_hash self = PM_TXO_DEFAULT_BUFFER_HASH).

(** ** program_state/core.rs: configuration and access control *)

Record PsyBridgeAccessControlHeader := {
  operator_pubkey : bytes;
  fee_spender_pubkey : bytes
}.

#[export] Instance PsyBridgeAccessControlHeader_eq_dec : EqDecision PsyBridgeAccessControlHeader.
Proof. solve_decision. Defined.

#[export] Instance PsyBridgeAccessControlHeader_pod : Pod PsyBridgeAccessControlHeader.
Proof.
  refine (pod_iso (pod_array 32 ** pod_array 32)
    (fun '(x0, x1) =>
      {| operator_pubkey := x0;
         fee_spender_pubkey := x1 |})
    (fun r => (operator_pubkey r, fee_spender_pubkey r)) _ _);
    pod_iso_tac.
Defined.

Record PsyBridgeConfig := {
  deposit_fee_rate_numerator : Z;
  deposit_fee_rate_denominator : Z;
  withdrawal_fee_rate_numerator : Z;
  withdrawal_fee_rate_denominator : Z;
  deposit_flat_fee_sats : Z;
  withdrawal_flat_fee_sats : Z
}.

#[export] Instance PsyBridgeConfig_eq_dec : EqDecision PsyBridgeConfig.
Proof. solve_decision. Defined.

#[export] Instance PsyBridgeConfig_pod : Pod PsyBridgeConfig.
Proof.
  refine (pod_iso (pod_uint 8 ** pod_uint 8 ** pod_uint 8 ** pod_uint 8 ** pod_uint 8 ** pod_uint 8)
    (fun '(x0, (x1, (x2, (x3, (x4, x5))))) =>
      {| deposit_fee_rate_numerator := x0;
         deposit_fee_rate_denominator := x1;
         withdrawal_fee_rate_numerator := x2;
         withdrawal_fee_rate_denominator := x3;
         deposit_flat_fee_sats := x4;
         withdrawal_flat_fee_sats := x5 |})
    (fun r => (deposit_fee_rate_numerator r, (deposit_fee_rate_denominator r,
      (withdrawal_fee_rate_numerator r, (withdrawal_fee_rate_denominator r, (deposit_flat_fee_sats
      r, withdrawal_flat_fee_sats r)))))) _ _);
    pod_iso_tac.
Defined.

(** ** Hashes of structs *)

Section hashes.
Context `{Sha256}.

(** [get_hash_canonical] and [get_hash_bm] of the header. *)
Definition get_hash_canonical (self : PsyBridgeHeader) : QHash256 :=
  hash_impl_sha256_bytes (bytes_of self).
Definition snapshot_get_hash (self : PsyWithdrawalChainSnapshot) : QHash256 :=
  hash_impl_sha256_bytes (bytes_of self).
Definition return_output_get_hash (self : PsyReturnTxOutput) : QHash256 :=
  hash_impl_sha256_bytes (bytes_of self).
Definition config_get_hash (self : PsyBridgeConfig) : QHash256 :=
  hash_impl_sha256_bytes (bytes_of self).

(** [utils/deposit_leaf.rs] *)
Definition hash_deposit_leaf (tx_hash : QHash256) (txo_combined_index : Z) (depositor_ata : QHash256)
    (amount : Z) : QHash256 :=
  hashv_impl_sha256_bytes [tx_hash; depositor_ata; le_bytes 8 txo_combined_index; le_bytes 8 amount].
End hashes.

(** ** Lemmas *)

(** [to_leaf] is the memory layout of the struct. *)
Lemma to_leaf_layout r : pod_wf r -> to_leaf r = Some (bytes_of r).
Proof.
  intros (_ & _ & [Hl _]). unfold to_leaf. rewrite <- (app_nil_l (zeros 32)).
  rewrite write_slice_zeros by (done || rewrite length_le_bytes; lia). cbn [mbind option_bind].
  rewrite write_slice_zeros by (done || rewrite ?length_le_bytes; lia). cbn [mbind option_bind].
  simpl in Hl. rewrite write_slice_zeros by (done || rewrite ?Hl, ?length_le_bytes; lia).
  rewrite !length_le_bytes, Hl. simpl (zeros _).
  by rewrite app_nil_l, app_nil_r, <- app_assoc.
Qed.

(** A withdrawal request survives its tree leaf: the leaf is the struct's
    memory layout, 32 bytes, and [from_leaf] reads the same request back. *)
Theorem withdrawal_leaf_roundtrip (r : PsyWithdrawalRequest) :
  pod_wf r ->
  exists leaf, to_leaf r = Some leaf /\ leaf = bytes_of r /\ byte_array 32 leaf /\
    from_leaf leaf = Some r.
Proof.
  intros Hr. exists (bytes_of r). split; [by apply to_leaf_layout|]. split; [done|].
  split; [exact (bytes_of_array r Hr)|]. destruct Hr as (Ha & Ht & [Hl _]).
  destruct r as [a t addr]. change (length addr = 20%nat) in Hl.
  change (in_width (8 * Z.of_nat 8) a) in Ha. change (in_width (8 * Z.of_nat 4) t) in Ht.
  change (bytes_of _) with (le_bytes 8 a ++ le_bytes 4 t ++ addr). unfold from_leaf.
  rewrite (slice_prefix 8 (le_bytes 8 a)) by (unfold len; by rewrite length_le_bytes).
  cbn [mbind option_bind].
  rewrite (slice_app_mid 8 12 (le_bytes 8 a) (le_bytes 4 t)) by (unfold len; by rewrite !length_le_bytes).
  cbn [mbind option_bind]. rewrite app_assoc.
  rewrite (slice_suffix 12 32 (le_bytes 8 a ++ le_bytes 4 t) addr)
    by (unfold len; by rewrite length_app, !length_le_bytes, ?Hl).
  cbn [mbind option_bind]. by rewrite !le_val_bytes.
Qed.

Lemma withdrawal_leaf_roundtrip_witness :
  let r := {| wr_amount_sats := 123456789; wr_address_type := 1;
              wr_recipient_address := replicate 20 7 |} in
  exists leaf, to_leaf r = Some leaf /\ from_leaf leaf = Some r.
Proof.
  intros r.
  assert (pod_wf r) as Hr.
  { split; [vm_compute; done|]. split; [vm_compute; done|].
    apply (bool_decide_unpack (byte_array 20 (replicate 20 7))). vm_compute. exact I. }
  destruct (withdrawal_leaf_roundtrip r Hr) as (leaf & H1 & _ & _ & H2).
  exists leaf. split; [exact H1|exact H2].
Defined.
