(* ===== verification/PublicInputs.v ===== *)
(** * PublicInputs: what the zero-knowledge proofs commit to

    Models [psy-doge-solana-core/src/public_inputs/mod.rs].  The theorems show that
    the 32-byte public input of each proof determines everything the bridge
    state transition depends on: two different sets of arguments with the same
    public input exhibit a SHA-256 collision. *)
From S2P Require Import Prelude Pod Hash Sha256 Types.
From Stdlib Require Import ZArith Lia.
From stdpp Require Import base decidable sets list numbers option.

Open Scope Z_scope.

Section public_inputs.
Context `{Sha256}.

Definition get_withdrawal_proof_public_inputs (snapshot_hash old_return_output_hash
    new_return_output_hash old_spent_txo_tree_root new_spent_txo_tree_root
    custodian_wallet_config_hash : QHash256) (new_next_processed_withdrawals_index : Z) : QHash256 :=
  let return_output_hash_transition :=
    hash_impl_sha256_two_to_one_bytes old_return_output_hash new_return_output_hash in
  let spent_txo_tree_root_transition :=
    hash_impl_sha256_two_to_one_bytes old_spent_txo_tree_root new_spent_txo_tree_root in
  hashv_impl_sha256_bytes [
    snapshot_hash; return_output_hash_transition; spent_txo_tree_root_transition;
    le_bytes 8 new_next_processed_withdrawals_index; custodian_wallet_config_hash ].

Definition get_block_transition_public_inputs (previous_header_hash new_header_hash
    config_params_hash custodian_wallet_config_hash : QHash256) : QHash256 :=
  let transition_hash := hash_impl_sha256_two_to_one_bytes previous_header_hash new_header_hash in
  hashv_impl_sha256_bytes [ transition_hash; config_params_hash; custodian_wallet_config_hash ].

Fixpoint backlog_hash_loop (current_hash : QHash256) (backlog : list FinalizedBlockMintTxoInfo)
    : QHash256 :=
  match backlog with
  | [] => current_hash
  | mint_info :: rest =>
      let combined_hash :=
        hash_impl_sha256_two_to_one_bytes (pending_mints_finalized_hash mint_info)
          (txo_output_list_finalized_hash mint_info) in
      backlog_hash_loop (hash_impl_sha256_two_to_one_bytes current_hash combined_hash) rest
  end.

Definition compute_backlog_hash (backlog_txo_mints : list FinalizedBlockMintTxoInfo) : QHash256 :=
  match backlog_txo_mints with
  | [] => zeros 32
  | _ => backlog_hash_loop (zeros 32) backlog_txo_mints
  end.

Definition get_reorg_block_transition_public_inputs (previous_header_hash new_header_hash : QHash256)
    (backlog_txo_mints : list FinalizedBlockMintTxoInfo)
    (config_params_hash custodian_wallet_config_hash : QHash256) : QHash256 :=
  let backlog_hash := compute_backlog_hash backlog_txo_mints in
  let transition_hash := hash_impl_sha256_two_to_one_bytes previous_header_hash new_header_hash in
  let transition_and_backlog_hash :=
    hash_impl_sha256_two_to_one_bytes transition_hash backlog_hash in
  hashv_impl_sha256_bytes [
    transition_and_backlog_hash; config_params_hash; custodian_wallet_config_hash ].

Definition get_manual_deposit_proof_public_inputs (recent_block_merkle_tree_root
    recent_auto_claim_txo_root old_manual_claim_deposit_txo_root new_manual_claim_txo_root tx_hash
    user_ata custodian_wallet_config_hash : QHash256) (combined_txo_index deposit_amount_sats : Z)
    : QHash256 :=
  let recent_info :=
    hash_impl_sha256_two_to_one_bytes recent_block_merkle_tree_root recent_auto_claim_txo_root in
  let manual_claim_deposit_txo_transition :=
    hash_impl_sha256_two_to_one_bytes old_manual_claim_deposit_txo_root new_manual_claim_txo_root in
  let recent_info_with_user_txo_root :=
    hash_impl_sha256_two_to_one_bytes recent_info manual_claim_deposit_txo_transition in
  let tx_info := hashv_impl_sha256_bytes [
    tx_hash; user_ata; le_bytes 8 combined_txo_index; le_bytes 8 deposit_amount_sats ] in
  hashv_impl_sha256_bytes [ recent_info_with_user_txo_root; tx_info; custodian_wallet_config_hash ].
End public_inputs.

(** ** Lemmas *)

Section binding.
Context `{Sha256Laws}.

(** No two different messages of the list have the same digest.  The binding
    theorems assume this of the messages that the two computations hash. *)
Definition messages_collision_free (ms : list bytes) : Prop :=
  Forall (fun x => Forall (fun y => sha256 x = sha256 y -> x = y) ms) ms.

Lemma message_inj ms x y :
  messages_collision_free ms -> x ∈ ms -> y ∈ ms -> sha256 x = sha256 y -> x = y.
Proof.
  unfold messages_collision_free. rewrite list.Forall_forall. intros Hc Hx Hy.
  specialize (Hc _ Hx). rewrite list.Forall_forall in Hc. by apply Hc.
Qed.

Lemma messages_collision_free_mono ms ms' :
  ms ⊆ ms' -> messages_collision_free ms' -> messages_collision_free ms.
Proof.
  unfold messages_collision_free. rewrite !list.Forall_forall. intros Hs Hc x Hx.
  specialize (Hc x (Hs x Hx)). rewrite list.Forall_forall in *. auto.
Qed.

Lemma cons_inj {A} (x y : A) l k : x :: l = y :: k -> x = y /\ l = k.
Proof. by intros [= -> ->]. Qed.

(** Equal concatenations of pieces of equal lengths are equal piece by piece. *)
Lemma concat_inj (xs ys : list bytes) :
  Forall2 (fun x y => length x = length y) xs ys -> concat xs = concat ys -> xs = ys.
Proof.
  induction 1 as [|x y xs ys Hl Hls IH]; intros E; [done|]. simpl in E.
  apply app_inj_1 in E as [-> E]; [|done]. by rewrite IH.
Qed.

Lemma hashv_binding ms xs ys :
  messages_collision_free ms -> concat xs ∈ ms -> concat ys ∈ ms ->
  Forall2 (fun x y => length x = length y) xs ys ->
  hashv_impl_sha256_bytes xs = hashv_impl_sha256_bytes ys -> xs = ys.
Proof. intros Hc Hx Hy Hl E. apply concat_inj; [done|]. by eapply message_inj. Qed.

Lemma two_to_one_binding ms a b c d :
  messages_collision_free ms -> a ++ b ∈ ms -> c ++ d ∈ ms ->
  length a = 32%nat -> length c = 32%nat ->
  hash_impl_sha256_two_to_one_bytes a b = hash_impl_sha256_two_to_one_bytes c d -> a = c /\ b = d.
Proof.
  intros Hm H1 H2 Ha Hc E. apply app_inj_1; [congruence|]. by eapply message_inj.
Qed.

Lemma digest_length b : length (sha256 b) = 32%nat.
Proof. apply sha256_array. Qed.

(** The digest of a struct determines the struct. *)
Lemma pod_hash_binding {A} {PA : Pod A} ms (a b : A) :
  messages_collision_free ms -> bytes_of a ∈ ms -> bytes_of b ∈ ms ->
  pod_wf a -> pod_wf b -> sha256 (bytes_of a) = sha256 (bytes_of b) -> a = b.
Proof. intros Hm H1 H2 Ha Hb E. apply bytes_of_inj; [done..|]. by eapply message_inj. Qed.

(** Same number of bytes, whatever the digests are. *)
Ltac same_length := repeat (constructor;
  [ first [ congruence | reflexivity | by rewrite !length_le_bytes
          | etransitivity; [apply digest_length|symmetry; apply digest_length] ] |]);
  constructor.

(** Membership of the [k]-th message of the left or right run. *)
Ltac left_message k := apply elem_of_app; left; apply (list_elem_of_lookup_2 _ k); reflexivity.
Ltac right_message k := apply elem_of_app; right; apply (list_elem_of_lookup_2 _ k); reflexivity.

(** The messages hashed for a block transition, outermost first. *)
Definition transition_messages (prev new : PsyBridgeHeader) (config : PsyBridgeConfig)
    (custodian : QHash256) : list bytes :=
  let transition := get_hash_canonical prev ++ get_hash_canonical new in
  [ concat [sha256 transition; config_get_hash config; custodian]; transition;
    bytes_of prev; bytes_of new; bytes_of config ].


(** The messages hashed for a backlog, from the running hash [c] on. *)
Fixpoint backlog_messages (c : QHash256) (l : list FinalizedBlockMintTxoInfo) : list bytes :=
  match l with
  | [] => []
  | x :: l =>
      let pair := pending_mints_finalized_hash x ++ txo_output_list_finalized_hash x in
      pair :: (c ++ sha256 pair) :: backlog_messages (sha256 (c ++ sha256 pair)) l
  end.

(** The chained hash of a backlog determines it, among backlogs of its length. *)
Lemma backlog_loop_binding l l' c c' :
  length l = length l' -> length c = 32%nat -> length c' = 32%nat ->
  Forall pod_wf l -> Forall pod_wf l' ->
  messages_collision_free (backlog_messages c l ++ backlog_messages c' l') ->
  backlog_hash_loop c l = backlog_hash_loop c' l' -> c = c' /\ l = l'.
Proof.
  revert l' c c'. induction l as [|x l IH]; intros [|x' l'] c c' Hl Hc Hc' Hw Hw' HC E; try done.
  inversion_clear Hw as [|? ? [[Hx _] _]]. inversion_clear Hw' as [|? ? [[Hx' _] _]].
  cbn [backlog_messages backlog_hash_loop length] in *.
  apply IH in E as [E ->]; [|lia|apply digest_length..|done|done
    |eapply messages_collision_free_mono; [|exact HC]; clear; set_solver].
  apply (two_to_one_binding _ _ _ _ _ HC) in E as [-> E]; [|left_message 1%nat|right_message 1%nat|done..].
  apply (two_to_one_binding _ _ _ _ _ HC) in E as [E1 E2]; [|left_message 0%nat|right_message 0%nat|done..].
  split; [done|]. f_equal. destruct x, x'; simpl in *; congruence.
Qed.

Lemma backlog_hash_binding l l' :
  length l = length l' -> Forall pod_wf l -> Forall pod_wf l' ->
  messages_collision_free (backlog_messages (zeros 32) l ++ backlog_messages (zeros 32) l') ->
  compute_backlog_hash l = compute_backlog_hash l' -> l = l'.
Proof.
  intros Hl Hw Hw' HC E. destruct l as [|x l], l' as [|x' l']; try done.
  apply (backlog_loop_binding _ _ _ _ Hl) in E as [_ ->]; auto using length_zeros.
Qed.

(** The messages hashed for a reorg, outermost first. *)
Definition reorg_messages (prev new : PsyBridgeHeader) (backlog : list FinalizedBlockMintTxoInfo)
    (config : PsyBridgeConfig) (custodian : QHash256) : list bytes :=
  let transition := get_hash_canonical prev ++ get_hash_canonical new in
  let with_backlog := sha256 transition ++ compute_backlog_hash backlog in
  [ concat [sha256 with_backlog; config_get_hash config; custodian]; with_backlog; transition;
    bytes_of prev; bytes_of new; bytes_of config ] ++ backlog_messages (zeros 32) backlog.

(** A reorg proof commits to the transition and to the backlog of finalized
    blocks: among backlogs of the same length (the length is fixed by the block
    heights of the two headers), equal public inputs force equal headers,
    backlog, configuration and custodian hash, provided the messages hashed for
    them do not collide. *)
Theorem reorg_inputs_binding
    (prev new prev' new' : PsyBridgeHeader) (backlog backlog' : list FinalizedBlockMintTxoInfo)
    (config config' : PsyBridgeConfig) (custodian custodian' : QHash256) :
  pod_wf prev -> pod_wf new -> pod_wf prev' -> pod_wf new' ->
  length backlog = length backlog' -> Forall pod_wf backlog -> Forall pod_wf backlog' ->
  pod_wf config -> pod_wf config' -> byte_array 32 custodian -> byte_array 32 custodian' ->
  messages_collision_free (reorg_messages prev new backlog config custodian ++
                           reorg_messages prev' new' backlog' config' custodian') ->
  get_reorg_block_transition_public_inputs (get_hash_canonical prev) (get_hash_canonical new)
    backlog (config_get_hash config) custodian =
  get_reorg_block_transition_public_inputs (get_hash_canonical prev') (get_hash_canonical new')
    backlog' (config_get_hash config') custodian' ->
  prev = prev' /\ new = new' /\ backlog = backlog' /\ config = config' /\ custodian = custodian'.
Proof.
  intros Hp Hn Hp' Hn' Hl Hb Hb' Hc Hc' [Hw _] [Hw' _] HC E.
  apply (hashv_binding _ _ _ HC) in E as [= Et Ec Ew];
    [|left_message 0%nat|right_message 0%nat|same_length].
  apply (two_to_one_binding _ _ _ _ _ HC) in Et as [Et Eb];
    [|left_message 1%nat|right_message 1%nat|apply digest_length..].
  apply (two_to_one_binding _ _ _ _ _ HC) in Et as [E1 E2];
    [|left_message 2%nat|right_message 2%nat|apply digest_length..].
  apply (pod_hash_binding _ _ _ HC) in E1; [|left_message 3%nat|right_message 3%nat|done..].
  apply (pod_hash_binding _ _ _ HC) in E2; [|left_message 4%nat|right_message 4%nat|done..].
  apply (pod_hash_binding _ _ _ HC) in Ec; [|left_message 5%nat|right_message 5%nat|done..].
  apply backlog_hash_binding in Eb; [done..|].
  eapply messages_collision_free_mono; [|exact HC]. unfold reorg_messages. clear. set_solver.
Qed.

(** The messages hashed for a withdrawal proof, outermost first. *)
Definition withdrawal_messages (snap : PsyWithdrawalChainSnapshot) (ro rn : PsyReturnTxOutput)
    (so sn custodian : QHash256) (idx : Z) : list bytes :=
  let outputs := return_output_get_hash ro ++ return_output_get_hash rn in
  [ concat [snapshot_get_hash snap; sha256 outputs; sha256 (so ++ sn); le_bytes 8 idx; custodian];
    outputs; so ++ sn; bytes_of snap; bytes_of ro; bytes_of rn ].

(** A withdrawal proof commits to the snapshot, to the old and new return
    outputs, to the old and new spent-output roots, to the next withdrawal index
    and to the custodian hash, provided the messages hashed for two such tuples
    do not collide. *)
Theorem withdrawal_inputs_binding
    (snap snap' : PsyWithdrawalChainSnapshot) (ro rn ro' rn' : PsyReturnTxOutput)
    (so sn so' sn' custodian custodian' : QHash256) (idx idx' : Z) :
  pod_wf snap -> pod_wf snap' -> pod_wf ro -> pod_wf rn -> pod_wf ro' -> pod_wf rn' ->
  byte_array 32 so -> byte_array 32 so' -> byte_array 32 custodian -> byte_array 32 custodian' ->
  in_width 64 idx -> in_width 64 idx' ->
  messages_collision_free (withdrawal_messages snap ro rn so sn custodian idx ++
                           withdrawal_messages snap' ro' rn' so' sn' custodian' idx') ->
  get_withdrawal_proof_public_inputs (snapshot_get_hash snap) (return_output_get_hash ro)
    (return_output_get_hash rn) so sn custodian idx =
  get_withdrawal_proof_public_inputs (snapshot_get_hash snap') (return_output_get_hash ro')
    (return_output_get_hash rn') so' sn' custodian' idx' ->
  snap = snap' /\ ro = ro' /\ rn = rn' /\ so = so' /\ sn = sn' /\ idx = idx' /\ custodian = custodian'.
Proof.
  intros Hs Hs' Hro Hrn Hro' Hrn' [Hso _] [Hso' _] [Hw _] [Hw' _] Hi Hi' HC E.
  apply (hashv_binding _ _ _ HC) in E; [|left_message 0%nat|right_message 0%nat|same_length].
  apply cons_inj in E as [Es E]. apply cons_inj in E as [Er E]. apply cons_inj in E as [Et E].
  apply cons_inj in E as [Ei E]. apply cons_inj in E as [Ew _].
  apply (two_to_one_binding _ _ _ _ _ HC) in Er as [E1 E2];
    [|left_message 1%nat|right_message 1%nat|apply digest_length..].
  apply (two_to_one_binding _ _ _ _ _ HC) in Et as [E3 E4];
    [|left_message 2%nat|right_message 2%nat|done..].
  apply (pod_hash_binding _ _ _ HC) in Es; [|left_message 3%nat|right_message 3%nat|done..].
  apply (pod_hash_binding _ _ _ HC) in E1; [|left_message 4%nat|right_message 4%nat|done..].
  apply (pod_hash_binding _ _ _ HC) in E2; [|left_message 5%nat|right_message 5%nat|done..].
  apply (le_bytes_inj 8) in Ei; done.
Qed.

(** The messages hashed for a manual-deposit proof, outermost first. *)
Definition manual_deposit_messages (br ar o n tx ata cu : QHash256) (i a : Z) : list bytes :=
  let recent := sha256 (br ++ ar) ++ sha256 (o ++ n) in
  let info := concat [tx; ata; le_bytes 8 i; le_bytes 8 a] in
  [ concat [sha256 recent; sha256 info; cu]; recent; br ++ ar; o ++ n; info ].

(** A manual-deposit proof commits to the recent roots, to the user's old and
    new claim roots, to the transaction, the receiving token account, the output
    index, the amount and the custodian hash, provided the messages hashed for
    two such tuples do not collide. *)
Theorem manual_deposit_inputs_binding
    (br ar o n tx ata cu br' ar' o' n' tx' ata' cu' : QHash256) (i a i' a' : Z) :
  Forall (byte_array 32) [br; ar; o; n; tx; ata; cu] ->
  Forall (byte_array 32) [br'; ar'; o'; n'; tx'; ata'; cu'] ->
  in_width 64 i -> in_width 64 i' -> in_width 64 a -> in_width 64 a' ->
  messages_collision_free (manual_deposit_messages br ar o n tx ata cu i a ++
                           manual_deposit_messages br' ar' o' n' tx' ata' cu' i' a') ->
  get_manual_deposit_proof_public_inputs br ar o n tx ata cu i a =
  get_manual_deposit_proof_public_inputs br' ar' o' n' tx' ata' cu' i' a' ->
  br = br' /\ ar = ar' /\ o = o' /\ n = n' /\ tx = tx' /\ ata = ata' /\ cu = cu' /\ i = i' /\ a = a'.
Proof.
  intros HF HF' Hi Hi' Ha Ha' HC E.
  do 7 (apply Forall_cons_1 in HF as [[? _] HF]). do 7 (apply Forall_cons_1 in HF' as [[? _] HF']).
  apply (hashv_binding _ _ _ HC) in E as [= Er Et Ecu];
    [|left_message 0%nat|right_message 0%nat|same_length].
  apply (two_to_one_binding _ _ _ _ _ HC) in Er as [E1 E2];
    [|left_message 1%nat|right_message 1%nat|apply digest_length..].
  apply (two_to_one_binding _ _ _ _ _ HC) in E1 as [-> ->];
    [|left_message 2%nat|right_message 2%nat|done..].
  apply (two_to_one_binding _ _ _ _ _ HC) in E2 as [-> ->];
    [|left_message 3%nat|right_message 3%nat|done..].
  apply (hashv_binding _ _ _ HC) in Et; [|left_message 4%nat|right_message 4%nat|same_length].
  apply cons_inj in Et as [-> Et]. apply cons_inj in Et as [-> Et].
  apply cons_inj in Et as [Ei Et]. apply cons_inj in Et as [Ea _].
  apply (le_bytes_inj 8) in Ei; [|done..]. by apply (le_bytes_inj 8) in Ea.
Qed.
End binding.

(** Witnesses: the all-zero headers and configuration satisfy the hypotheses; the
    messages of the two equal runs do not collide. *)

Lemma same_messages_collision_free (ms : list bytes) :
  NoDup (@sha256 fips_sha256 <$> remove_dups ms) -> @messages_collision_free fips_sha256 (ms ++ ms).
Proof.
  intros HN. eapply messages_collision_free_mono with (ms' := remove_dups ms).
  { intros x. rewrite elem_of_app, elem_of_remove_dups. by intros [?|?]. }
  unfold messages_collision_free. rewrite list.Forall_forall. intros x [i Hi]%list_elem_of_lookup_1.
  rewrite list.Forall_forall. intros y [j Hj]%list_elem_of_lookup_1 E.
  assert (i = j) as ->; [|congruence].
  eapply NoDup_lookup; [exact HN|rewrite list_lookup_fmap, Hi; reflexivity|].
  rewrite list_lookup_fmap, Hj. simpl. by rewrite E.
Qed.

Ltac witness_messages := apply same_messages_collision_free; apply (bool_decide_unpack _); vm_compute; exact I.


Lemma reorg_inputs_binding_witness :
  let b := [zeroed FinalizedBlockMintTxoInfo] in
  zeroed PsyBridgeHeader = zeroed PsyBridgeHeader /\ zeroed PsyBridgeHeader = zeroed PsyBridgeHeader /\
  b = b /\ zeroed PsyBridgeConfig = zeroed PsyBridgeConfig /\ zeros 32 = zeros 32.
Proof.
  intros b.
  apply (@reorg_inputs_binding fips_sha256 fips_sha256_laws
    (zeroed _) (zeroed _) (zeroed _) (zeroed _) b b (zeroed _) (zeroed _) (zeros 32) (zeros 32));
    first [apply zeroed_wf | apply byte_array_zeros
          | (constructor; [apply zeroed_wf|constructor]) | reflexivity | witness_messages].
Defined.

Lemma withdrawal_inputs_binding_witness :
  zeroed PsyWithdrawalChainSnapshot = zeroed PsyWithdrawalChainSnapshot /\
  zeroed PsyReturnTxOutput = zeroed PsyReturnTxOutput /\
  zeroed PsyReturnTxOutput = zeroed PsyReturnTxOutput /\
  zeros 32 = zeros 32 /\ zeros 32 = zeros 32 /\ 5 = 5 /\ zeros 32 = zeros 32.
Proof.
  apply (@withdrawal_inputs_binding fips_sha256 fips_sha256_laws
    (zeroed _) (zeroed _) (zeroed _) (zeroed _) (zeroed _) (zeroed _)
    (zeros 32) (zeros 32) (zeros 32) (zeros 32) (zeros 32) (zeros 32) 5 5);
    first [apply zeroed_wf | apply byte_array_zeros | (unfold in_width; lia) | reflexivity | witness_messages].
Defined.

Lemma manual_deposit_inputs_binding_witness :
  let z := zeros 32 in
  z = z /\ z = z /\ z = z /\ z = z /\ z = z /\ z = z /\ z = z /\ 7 = 7 /\ 1000 = 1000.
Proof.
  intros z.
  apply (@manual_deposit_inputs_binding fips_sha256 fips_sha256_laws z z z z z z z z z z z z z z 7 1000 7 1000);
    first [ (unfold in_width; lia)
          | (repeat (apply Forall_cons_2; [apply byte_array_zeros|]); apply Forall_nil_2)
          | reflexivity | witness_messages ].
Defined.
