(* ===== verification/MintBufferProofs.v ===== *)
(** * MintBufferProofs: what a locked mint buffer guarantees

    Invariant of [MintBuffer.v]: every group of a buffer is either empty, with a
    zeroed hash slot, or filled once with at most its share of the mints, with the
    SHA-256 of those mints in its slot; the header counts the filled mints.  When
    the count is complete, as locking demands, every group is filled to its exact
    size, so the hash slots commit to all mints of the buffer. *)
From S2P Require Import Prelude Errors Pod Hash Sha256 Runtime Types MintBuffer.
From Stdlib Require Import ZArith Lia.
From stdpp Require Import base decidable list numbers option gmap.
Import MintBuffer.

Open Scope Z_scope.
Open Scope bridge_scope.

(** ** The invariant *)

Definition slot_start (g : Z) : Z := 72 + 32 * g.
Definition area_start (G g : Z) : Z := 72 + 32 * G + 960 * g.

(** State of group [g] in memory [d], for a buffer of [G] groups and [n] mints:
    [None] when nothing was inserted, [Some k] after inserting [k] mints. *)
Definition group_ok `{Sha256} (d : bytes) (G n g : Z) (c : option Z) : Prop :=
  match c with
  | None => forall (i : nat) b, slot_start g <= Z.of_nat i < slot_start g + 32 -> d !! i = Some b -> b = 0
  | Some k =>
      0 <= k <= 24 /\ 24 * g + k <= n /\
      exists area, slice (area_start G g) (area_start G g + 40 * k) d = Some area /\
        slice (slot_start g) (slot_start g + 32) d = Some (sha256 area) /\ sha256 area <> zeros 32
  end.

Definition sum_filled (cs : list (option Z)) : Z := foldr (fun c s => default 0 c + s) 0 cs.

(** Header and memory agree. *)
Definition counted `{Sha256} (d : bytes) (h : Header) : Prop :=
  let G := pending_mint_groups_count h in
  let n := pending_mints_count h in
  (0 < G -> len d <= get_total_buffer_size h) /\
  exists cs, len cs = G /\ (forall (g : nat) c, cs !! g = Some c -> group_ok d G n (Z.of_nat g) c) /\
    pending_mints_initialized h = sum_filled cs.

(** A locked buffer has received all its mints. *)
Definition locked_complete (h : Header) : Prop :=
  is_locked h <> 0 -> pending_mints_initialized h = pending_mints_count h.

(** The invariant of a buffer account.  The counts are tied to the memory when the
    group count did not wrap around; the bridge rejects the other buffers. *)
Definition buffer_inv `{Sha256} (d : bytes) : Prop :=
  Forall is_byte d /\
  forall h, get_header d = Some h -> locked_complete h /\
    (pending_mint_groups_count h = (pending_mints_count h + 23) / 24 -> counted d h).

(** Every group is filled to its size and its slot is the hash of its mints. *)
Definition all_groups_hashed `{Sha256} (d : bytes) (G n : Z) : Prop :=
  forall g, 0 <= g < G -> exists area,
    slice (area_start G g) (area_start G g + 40 * group_size n G g) d = Some area /\
    slice (slot_start g) (slot_start g + 32) d = Some (sha256 area).

(** ** Memory above the header *)

(** [d'] is [d] except for the first 72 bytes. *)
Definition same_body (d d' : bytes) : Prop :=
  len d' = len d /\ forall i : nat, 72 <= Z.of_nat i -> d' !! i = d !! i.

Lemma same_body_slice d d' a b : same_body d d' -> 72 <= a -> slice a b d' = slice a b d.
Proof. intros [Hl Hi] Ha. apply slice_ext; [done|]. intros i ?. apply Hi. lia. Qed.

Lemma get_header_wf d h :
  Forall is_byte d -> get_header d = Some h -> pod_wf h /\ slice 0 72 d = Some (bytes_of h).
Proof.
  intros Hb Hg. unfold get_header, HEADER_SIZE in Hg. destruct (slice 0 72 d) as [b|] eqn:Es; [|done].
  cbn [mbind option_bind] in Hg. apply cast_Some in Hg as [Hl ->].
  assert (byte_array (pod_size Header) b) as Ha by (split; [done|by eapply slice_Forall]).
  split; [by apply from_bytes_wf|]. by rewrite bytes_of_from.
Qed.

Lemma put_header_spec h d d' :
  pod_wf h -> Forall is_byte d -> put_header h d = Some d' ->
  get_header d' = Some h /\ Forall is_byte d' /\ same_body d d'.
Proof.
  intros Hh Hd Hp. unfold put_header in Hp. destruct (bytes_of_array h Hh) as [Hl Hb].
  assert (len (bytes_of h) = 72) as Hlen by (unfold len; by rewrite Hl).
  pose proof (slice_write_same _ _ _ _ Hp) as Hs. rewrite Hlen in Hs. change (0 + 72) with 72 in Hs.
  split; [unfold get_header, HEADER_SIZE; rewrite Hs; cbn [mbind option_bind]; by apply cast_bytes_of|].
  split; [by eapply write_slice_Forall|]. split; [by eapply write_slice_len|].
  intros i Hi. eapply write_slice_lookup_out; [done|]. lia.
Qed.

Section groups.
Context `{Sha256Laws}.

Lemma digest_len b : len (sha256 b) = 32.
Proof. unfold len. by destruct (sha256_array b) as [-> _]. Qed.

Lemma group_ok_same_body d d' G n g c :
  same_body d d' -> 0 <= g -> 0 <= G -> group_ok d G n g c -> group_ok d' G n g c.
Proof.
  intros Hs Hg HG. destruct c as [k|]; simpl.
  - intros (Hk & Hn & area & Ha & Hh & Hz). split; [done|]. split; [done|]. exists area.
    rewrite !(same_body_slice d d') by (done || unfold area_start, slot_start; lia). done.
  - intros Hi i b Hr Hb. destruct Hs as [_ Hs]. rewrite Hs in Hb by (unfold slot_start in Hr; lia). eauto.
Qed.

Lemma group_ok_grow d G n g c size :
  len d <= size -> 0 <= g -> 0 <= G -> group_ok d G n g c -> group_ok (resized size d) G n g c.
Proof.
  intros Hs Hg HG. pose proof (len_nonneg d). destruct c as [k|]; simpl.
  - intros (Hk & Hn & area & Ha & Hh & Hz). split; [done|]. split; [done|]. exists area.
    pose proof Ha as (? & ? & _)%slice_Some. pose proof Hh as (? & ? & _)%slice_Some.
    rewrite !slice_resized by (done || lia). done.
  - intros Hi i b Hr Hb. unfold resized in Hb. rewrite take_ge in Hb by (unfold len in *; lia).
    apply lookup_app_Some in Hb as [Hb|[_ Hb]]; [by eapply Hi|].
    by apply lookup_replicate in Hb as [-> _].
Qed.

Lemma counted_empty d h :
  pending_mint_groups_count h = 0 -> pending_mints_initialized h = 0 -> counted d h.
Proof.
  intros HG Hi. split; [lia|]. exists []. rewrite HG, Hi. split; [done|]. split; [|done].
  intros g c Hg. by rewrite lookup_nil in Hg.
Qed.

Lemma counted_nonneg d h : counted d h -> 0 <= pending_mint_groups_count h.
Proof. intros (_ & cs & Hl & _). pose proof (len_nonneg cs). lia. Qed.

(** Writing a header with the same counts. *)
Lemma counted_same_body d d' h h' :
  same_body d d' -> pending_mint_groups_count h' = pending_mint_groups_count h ->
  pending_mints_count h' = pending_mints_count h ->
  pending_mints_initialized h' = pending_mints_initialized h -> counted d h -> counted d' h'.
Proof.
  intros Hs HG Hn Hi Hc. pose proof (counted_nonneg d h Hc). destruct Hc as (Hlen & cs & Hl & Hcs & Hsum).
  split.
  - unfold get_total_buffer_size in *. rewrite HG, Hn. destruct Hs as [-> _]. done.
  - exists cs. rewrite HG, Hn, Hi. split; [done|]. split; [|done].
    intros g c Hg. eapply group_ok_same_body; [done|lia|done|]. by apply Hcs.
Qed.

(** ** Growing *)

Lemma counted_grow d h size :
  counted d h -> len d <= size -> size <= get_total_buffer_size h -> counted (resized size d) h.
Proof.
  intros Hc Hs Ht. pose proof (counted_nonneg d h Hc). destruct Hc as (Hlen & cs & Hl & Hcs & Hsum).
  pose proof (len_nonneg d). split; [rewrite length_resized; lia|].
  exists cs. split; [done|]. split; [|done]. intros g c Hg. apply group_ok_grow; [done|lia|done|]. by apply Hcs.
Qed.

Lemma get_header_grow d size : 72 <= len d -> len d <= size -> get_header (resized size d) = get_header d.
Proof. intros. unfold get_header, HEADER_SIZE. rewrite slice_resized by lia. done. Qed.

(** ** The sum argument *)

Lemma sum_filled_le (n G : Z) cs (o : nat) :
  (forall (g : nat) c, cs !! g = Some c -> default 0 c <= group_size n G (Z.of_nat (o + g))) ->
  sum_filled cs <= foldr Z.add 0 (group_size n G <$> seqZ (Z.of_nat o) (len cs)) /\
  (sum_filled cs = foldr Z.add 0 (group_size n G <$> seqZ (Z.of_nat o) (len cs)) ->
   forall (g : nat) c, cs !! g = Some c -> default 0 c = group_size n G (Z.of_nat (o + g))).
Proof.
  revert o. induction cs as [|c cs IH]; intros o Hle; [done|].
  pose proof (Hle 0%nat c eq_refl) as H0'. rewrite Nat.add_0_r in H0'.
  destruct (IH (S o)) as [IH1 IH2].
  { intros g c' Hg. replace (S o + g)%nat with (o + S g)%nat by lia. by apply Hle. }
  rewrite len_cons. rewrite (seqZ_cons (Z.of_nat o)) by (pose proof (len_nonneg cs); lia).
  replace (Z.succ (Z.of_nat o)) with (Z.of_nat (S o)) by lia.
  replace (Z.pred (1 + len cs)) with (len cs) by lia. cbn [fmap list_fmap sum_filled foldr].
  change (foldr (fun c s => default 0 c + s) 0 cs) with (sum_filled cs).
  split; [lia|]. intros E g c' Hg. destruct g as [|g]; [injection Hg as <-; rewrite Nat.add_0_r; lia|].
  replace (o + S g)%nat with (S o + g)%nat by lia. apply IH2; [lia|done].
Qed.

Lemma sum_constant k : 0 <= k -> forall f, (forall g, 0 <= g < k -> f g = 24) ->
  foldr Z.add 0 (f <$> seqZ 0 k) = 24 * k.
Proof.
  intros Hk. pattern k. apply natlike_ind; [done| |done]. clear k Hk. intros k Hk IH f Hf.
  rewrite <- Z.add_1_r, (seqZ_app 0 k 1) by lia. rewrite fmap_app, foldr_app.
  change (seqZ (0 + k) 1) with [k]. cbn [fmap list_fmap foldr].
  assert (forall l a, foldr Z.add a l = a + foldr Z.add 0 l) as Hacc.
  { induction l as [|x l IHl]; intros a; simpl; [lia|]. rewrite IHl. lia. }
  rewrite Hacc, IH, (Hf k) by (intros; try apply Hf; lia). lia.
Qed.

Lemma sum_group_sizes n G :
  1 <= G -> foldr Z.add 0 (group_size n G <$> seqZ 0 G) = n.
Proof.
  intros HG. replace G with (G - 1 + 1) at 2 by lia. rewrite (seqZ_app 0 (G - 1) 1) by lia.
  rewrite fmap_app, foldr_app. replace (0 + (G - 1)) with (G - 1) by lia.
  change (seqZ (G - 1) 1) with [G - 1]. cbn [fmap list_fmap foldr].
  assert (forall l a, foldr Z.add a l = a + foldr Z.add 0 l) as Hacc.
  { induction l as [|x l IHl]; intros a; simpl; [lia|]. rewrite IHl. lia. }
  rewrite Hacc, sum_constant by (intros; unfold group_size; rewrite ?(proj2 (Z.eqb_neq _ _)) by lia; lia).
  unfold group_size. rewrite Z.eqb_refl. lia.
Qed.

Lemma group_ok_bound d G n g c :
  G = (n + 23) / 24 -> 0 <= g < G -> group_ok d G n g c -> default 0 c <= group_size n G g.
Proof.
  intros HG Hg. unfold group_size.
  destruct c as [k|]; simpl; destruct (Z.eqb_spec g (G - 1)); intros; Z.to_euclidean_division_equations; lia.
Qed.

(** A complete count means that every group is full. *)
Lemma counted_complete d h :
  counted d h -> pending_mint_groups_count h = (pending_mints_count h + 23) / 24 ->
  pending_mints_initialized h = pending_mints_count h ->
  all_groups_hashed d (pending_mint_groups_count h) (pending_mints_count h).
Proof.
  set (G := pending_mint_groups_count h). set (n := pending_mints_count h).
  intros (_ & cs & Hl & Hcs & Hsum) HG Hi g Hg. fold G n in Hl, Hcs.
  destruct (sum_filled_le n G cs 0) as [_ Heq].
  { intros g' c Hg'. apply (group_ok_bound d G n); [done| |by apply Hcs].
    apply lookup_lt_Some in Hg'. unfold len in Hl. simpl. lia. }
  simpl Z.of_nat in Heq. rewrite Hl, sum_group_sizes in Heq by lia.
  destruct (lookup_lt_is_Some_2 cs (Z.to_nat g)) as [c Hc]; [unfold len in Hl; lia|].
  assert (default 0 c = group_size n G g) as Hd.
  { rewrite (Heq ltac:(congruence) (Z.to_nat g) c Hc). f_equal. lia. }
  pose proof (Hcs _ _ Hc) as Hok. rewrite Z2Nat.id in Hok by lia.
  destruct c as [k|]; simpl in Hd.
  - subst k. destruct Hok as (_ & _ & area & Ha & Hh & _). by exists area.
  - exfalso. revert Hd. unfold group_size. destruct (Z.eqb_spec g (G - 1)); [|lia].
    intros. Z.to_euclidean_division_equations. lia.
Qed.

(** ** Inserting a group *)

(** What a successful insertion checked and wrote. *)
Lemma insert_inv d g m d' :
  insert_pending_mints d g m = Ok d' ->
  exists h d1 d2, get_header d = Some h /\ is_locked h = 0 /\ g < pending_mint_groups_count h /\
    len m <= 960 /\ len m mod 40 = 0 /\
    slice (slot_start g) (slot_start g + 32) d = Some (zeros 32) /\
    write_slice (slot_start g) (sha256 m) d = Some d1 /\
    write_slice (72 + 32 * pending_mint_groups_count h + 40 * u16 (g * 24)) m d1 = Some d2 /\
    exists h2, get_header d2 = Some h2 /\
      put_header (add_initialized h2 (u16 (len m / 40))) d2 = Some d'.
Proof.
  intros Hr. unfold insert_pending_mints in Hr. peel Hr as E0. peel Hr as E1. peel Hr as E2. peel Hr as E3.
  peel Hr as E4. cbv zeta in Hr. peel Hr as E5. peel Hr as E6. peel Hr as E7. peel Hr as E8. peel Hr as E9.
  peel Hr as E10. destruct (put_header _ _) as [d3|] eqn:E11; [|discriminate Hr]. injection Hr as ->.
  unfold get_nth_group_hash_offset, get_nth_pending_mint_offset, MAX_PENDING_MINTS_PER_GROUP,
    PENDING_MINT_SIZE, HEADER_SIZE in *.
  replace (72 + g * 32) with (slot_start g) in * by (unfold slot_start; lia).
  replace (72 + pending_mint_groups_count x * 32 + u16 (g * 24) * 40)
    with (72 + 32 * pending_mint_groups_count x + 40 * u16 (g * 24)) in * by lia.
  clear E5. reflect_guards. subst x0. eexists x, _, _. repeat (split; [done|]). eauto.
Qed.

(** A group other than the one written. *)
Lemma group_ok_other d d1 d2 m G n g g' c :
  0 <= g < G -> 0 <= g' < G -> g' <> g -> len m <= 960 ->
  write_slice (slot_start g) (sha256 m) d = Some d1 ->
  write_slice (area_start G g) m d1 = Some d2 ->
  group_ok d G n g' c -> group_ok d2 G n g' c.
Proof.
  intros Hg Hg' Hne Hm H1 H2. assert (len (sha256 m) = 32) as Hs by apply digest_len.
  destruct c as [k|]; simpl.
  - intros (Hk & Hn & area & Ha & Hh & Hz). split; [done|]. split; [done|]. exists area.
    rewrite !(slice_write_disjoint _ _ _ _ _ _ H2), !(slice_write_disjoint _ _ _ _ _ _ H1)
      by (rewrite ?Hs; unfold area_start, slot_start; lia). done.
  - intros Hi i b Hr Hb.
    rewrite (write_slice_lookup_out _ _ _ _ _ H2), (write_slice_lookup_out _ _ _ _ _ H1) in Hb
      by (rewrite ?Hs; unfold area_start, slot_start in *; lia). eauto.
Qed.

Lemma sum_filled_insert cs (g : nat) k :
  cs !! g = Some None -> sum_filled (<[g := Some k]> cs) = sum_filled cs + k.
Proof.
  revert g. induction cs as [|c cs IH]; intros [|g] Hg; simplify_eq/=; [lia|].
  change (foldr (fun c s => default 0 c + s) 0) with sum_filled. rewrite IH by done. lia.
Qed.

(** The memory after an insertion: slot and mints written into [d2], then the
    header's counter. *)
Lemma insert_memory d g m d' :
  Forall is_byte d -> Forall is_byte m -> 0 <= g -> insert_pending_mints d g m = Ok d' ->
  exists h d1 d2, get_header d = Some h /\ is_locked h = 0 /\ g < pending_mint_groups_count h /\
    len m <= 960 /\ len m mod 40 = 0 /\
    slice (slot_start g) (slot_start g + 32) d = Some (zeros 32) /\
    write_slice (slot_start g) (sha256 m) d = Some d1 /\
    write_slice (72 + 32 * pending_mint_groups_count h + 40 * u16 (g * 24)) m d1 = Some d2 /\
    get_header d' = Some (add_initialized h (u16 (len m / 40))) /\
    same_body d2 d' /\ Forall is_byte d'.
Proof.
  intros Hb Hm Hg0 (h & d1 & d2 & Hh & Hlk & Hg & Hlen & Hmod & Hzero & H1 & H2 & h2 & Hh2 & Hput)%insert_inv.
  destruct (get_header_wf d h Hb Hh) as [(Wl & Ww & Wk & Wm & WG & _ & Wn) _].
  change (in_width 16 (pending_mint_groups_count h)) in WG. unfold in_width in WG.
  pose proof (wrap_in_width 16 (g * 24) ltac:(lia)) as Hw. unfold in_width in Hw.
  assert (get_header d2 = get_header d) as Hsame.
  { unfold get_header, HEADER_SIZE.
    by rewrite (slice_write_disjoint _ _ _ _ _ _ H2), (slice_write_disjoint _ _ _ _ _ _ H1)
      by (rewrite ?digest_len; unfold slot_start; lia). }
  rewrite Hsame, Hh in Hh2. injection Hh2 as <-.
  assert (Forall is_byte d2) as Hb2.
  { eapply write_slice_Forall; [exact H2|done|]. eapply write_slice_Forall; [exact H1|apply sha256_array|done]. }
  assert (pod_wf (add_initialized h (u16 (len m / 40)))) as Hwf.
  { repeat (split; [done|]). split; [|done]. apply (wrap_in_width 16). lia. }
  destruct (put_header_spec _ _ _ Hwf Hb2 Hput) as (Hget & Hb' & Hbody).
  exists h, d1, d2. repeat (split; [done|]). done.
Qed.

(** The groups after writing [k] mints of group [g]. *)
Lemma inserted_groups d d1 d2 m G n g k cs :
  0 <= g < G -> len cs = G -> len m = 40 * k -> 0 <= k <= 24 -> 24 * g + k <= n -> sha256 m <> zeros 32 ->
  write_slice (slot_start g) (sha256 m) d = Some d1 ->
  write_slice (area_start G g) m d1 = Some d2 ->
  (forall (j : nat) c, cs !! j = Some c -> group_ok d G n (Z.of_nat j) c) ->
  forall (j : nat) c, <[Z.to_nat g := Some k]> cs !! j = Some c -> group_ok d2 G n (Z.of_nat j) c.
Proof.
  intros Hg Hl Hm Hk Hn Hnz H1 H2 Hcs j c Hj. destruct (decide (j = Z.to_nat g)) as [->|Hne].
  - rewrite list_lookup_insert_eq in Hj by (unfold len in Hl; lia).
    injection Hj as <-. rewrite Z2Nat.id by lia. split; [done|]. split; [done|]. exists m.
    rewrite <- Hm. split; [by apply slice_write_same in H2|]. split; [|done].
    rewrite (slice_write_disjoint _ _ _ _ _ _ H2) by (unfold area_start, slot_start; lia).
    apply slice_write_same in H1. by rewrite digest_len in H1.
  - rewrite list_lookup_insert_ne in Hj by done.
    assert (0 <= Z.of_nat j < G) by (apply lookup_lt_Some in Hj; unfold len in Hl; lia).
    eapply group_ok_other; [..|exact H1|exact H2|by apply Hcs]; lia.
Qed.

(** The filled mints never exceed the announced count. *)
Lemma sum_filled_bound d G n cs :
  G = (n + 23) / 24 -> 1 <= G -> len cs = G ->
  (forall (j : nat) c, cs !! j = Some c -> group_ok d G n (Z.of_nat j) c) -> sum_filled cs <= n.
Proof.
  intros HG HG1 Hl Hcs. destruct (sum_filled_le n G cs 0) as [Hle _].
  - intros j c Hj. apply (group_ok_bound d G n); [done| |by apply Hcs].
    apply lookup_lt_Some in Hj. unfold len in Hl. simpl. lia.
  - simpl Z.of_nat in Hle. by rewrite Hl, sum_group_sizes in Hle by lia.
Qed.

(** Inserting keeps the invariant, unless the data hashes to zero. *)
Lemma insert_buffer_inv d g m d' :
  buffer_inv d -> 0 <= g -> Forall is_byte m -> sha256 m <> zeros 32 ->
  insert_pending_mints d g m = Ok d' -> buffer_inv d'.
Proof.
  intros [Hb Hinv] Hg0 Hm Hnz (h & d1 & d2 & Hh & Hlk & Hg & Hlen & Hmod & Hzero & H1 & H2 & Hget & Hbody & Hb')%insert_memory;
    [|done..].
  split; [done|]. intros h' Hh'. rewrite Hget in Hh'. injection Hh' as <-. split; [intros []; exact Hlk|].
  intros HG. simpl in HG. destruct (Hinv h Hh) as [_ Hct]. destruct (Hct HG) as (Hsize & cs & Hl & Hcs & Hsum).
  destruct (get_header_wf d h Hb Hh) as [(_ & _ & _ & _ & _ & Wi & Wn) _].
  set (G := pending_mint_groups_count h) in *. set (n := pending_mints_count h) in *.
  change (in_width 16 n) in Wn. unfold in_width in Wn.
  rewrite wrap_id in H2 by (unfold in_width; Z.to_euclidean_division_equations; lia).
  replace (72 + 32 * G + 40 * (g * 24)) with (area_start G g) in H2 by (unfold area_start; lia).
  pose proof (len_nonneg m). set (k := len m / 40) in *.
  assert (len m = 40 * k) as Hk by (unfold k; Z.to_euclidean_division_equations; lia).
  assert (len d2 = len d) as Hld by (rewrite (write_slice_len _ _ _ _ H2); by eapply write_slice_len).
  assert (24 * g + k <= n) as Hfit.
  { specialize (Hsize ltac:(lia)). unfold get_total_buffer_size, HEADER_SIZE, PENDING_MINT_SIZE in Hsize.
    pose proof H2 as (_ & He & _)%write_slice_Some. rewrite (write_slice_len _ _ _ _ H1) in He.
    fold G n in Hsize. unfold area_start in He. lia. }
  destruct (lookup_lt_is_Some_2 cs (Z.to_nat g)) as [c Hc]; [unfold len in Hl; lia|].
  assert (c = None) as ->.
  { destruct c as [k0|]; [|done]. pose proof (Hcs _ _ Hc) as (_ & _ & area & _ & Hslot & Hz).
    rewrite Z2Nat.id, Hzero in Hslot by lia. congruence. }
  pose proof (inserted_groups d d1 d2 m G n g k cs ltac:(lia) Hl Hk ltac:(lia) Hfit Hnz H1 H2 Hcs) as Hcs'.
  pose proof (sum_filled_bound d2 G n _ HG ltac:(lia) ltac:(by rewrite len_insert) Hcs') as Hbound.
  rewrite sum_filled_insert in Hbound by done.
  change (in_width 16 (pending_mints_initialized h)) in Wi. unfold in_width in Wi.
  eapply (counted_same_body d2); [exact Hbody|reflexivity..|].
  split; [intros HGpos; rewrite Hld; by apply Hsize|].
  eexists. split; [by rewrite len_insert|]. split; [exact Hcs'|].
  rewrite sum_filled_insert by done. cbn [add_initialized pending_mints_initialized].
  rewrite (wrap_id 16 k) by (unfold in_width; lia). rewrite (wrap_id 16) by (unfold in_width; lia). lia.
Qed.
End groups.

(** ** The instructions *)

Section instructions.
Context `{Sha256Laws} `{RuntimeLaws}.
Implicit Types (w : World) (accounts : list AccountInfo).

Lemma transfer_lamports_data w from to amount w' k :
  transfer_lamports_from_pdas w from to amount = Ok w' -> data_at w' k = data_at w k.
Proof.
  unfold transfer_lamports_from_pdas. intros Hr. peel Hr as E0.
  destruct (checked_sub _ _); [|discriminate Hr]. destruct (checked_add _ _ _); [|discriminate Hr].
  injection Hr as <-. by autorewrite with world.
Qed.

Lemma realloc_account_data w target funding system n refund w' :
  realloc_account w target funding system n refund = Ok w' ->
  data_at w' (key target) = resized n (data_at w (key target)) /\
  forall k, k <> key target -> data_at w' k = data_at w k.
Proof.
  intros Hr. unfold realloc_account in Hr. cbv zeta in Hr. peel Hr as E0. rename x into w1.
  assert (forall k, data_at w1 k = data_at w k) as Hsame.
  { destruct (_ <? _).
    - intros k. by apply (transfer_keeps_data _ _ _ _ _ _ _ E0).
    - destruct (refund && _); [|by injection E0 as <-]. intros k. by eapply transfer_lamports_data. }
  apply realloc_resizes in Hr as ->. split; [by rewrite data_at_set_data, Hsame|].
  intros k Hk. by rewrite data_at_set_data_ne by done.
Qed.

Lemma update_header_inv w k f w' :
  update_header w k f = Ok w' ->
  exists h h' d', get_header (data_at w k) = Some h /\ f h = Ok h' /\
    put_header h' (data_at w k) = Some d' /\ w' = set_data w k d'.
Proof.
  unfold update_header. intros Hr. peel Hr as E0. peel Hr as E1. peel Hr as E2. injection Hr as <-. eauto 10.
Qed.

Lemma grow_buffer_inv d size :
  buffer_inv d -> 72 <= len d -> len d <= size ->
  (forall h, get_header d = Some h -> size <= get_total_buffer_size h) -> buffer_inv (resized size d).
Proof.
  intros [Hb Hinv] Hd Hs Ht. split; [by apply resized_bytes|]. rewrite get_header_grow by done.
  intros h Hh. destruct (Hinv h Hh) as [Hlk Hct]. split; [done|]. intros HG. apply counted_grow; auto.
Qed.

Lemma limited_growth_bounds c t : c < t -> c <= limited_growth c t <= t.
Proof. unfold limited_growth, MAX_PERMITTED_DATA_INCREASE. lia. Qed.

Lemma setup_inv pid storage rest w w' :
  Forall is_byte rest -> buffer_inv (data_at w (key storage)) ->
  process_setup pid storage rest w = Ok w' -> buffer_inv (data_at w' (key storage)).
Proof.
  intros Hrest [Hb _] Hr. unfold process_setup in Hr. peel Hr as E0. peel Hr as E1. peel Hr as E2.
  destruct (find_program_address _ _) as [pda bump]. peel Hr as E3. peel Hr as E4. rename x1 into w1.
  assert (Forall is_byte (data_at w1 (key storage))) as Hb1.
  { branch E4 as F; [|by injection E4 as <-]. peel E4 as F0. peel E4 as F1.
    rewrite (assign_keeps_data _ _ _ _ _ _ E4). apply allocate_zeroes in F1 as [-> _]. apply zeros_bytes. }
  peel Hr as E5. peel Hr as E6. apply update_header_inv in Hr as (h & h' & d' & _ & Hf & Hp & ->).
  unfold setup in Hf. peel Hf as F0. injection Hf as <-. rewrite data_at_set_data.
  assert (forall a b (l : bytes), slice a b rest = Some l -> b - a = 32 -> byte_array 32 l) as Hk.
  { intros a b l Hs Hl. split; [apply slice_len in Hs; unfold len in Hs; lia|by eapply slice_Forall]. }
  match type of Hp with put_header ?h' _ = _ => assert (pod_wf h') as Hwf end.
  { split; [by eapply Hk|]. split; [by eapply Hk|]. repeat (split; [by vm_compute|]). by vm_compute. }
  destruct (put_header_spec _ _ _ Hwf Hb1 Hp) as (Hget & Hb' & _). split; [done|].
  intros h' Hh'. rewrite Hget in Hh'. injection Hh' as <-. split; [done|]. intros _. by apply counted_empty.
Qed.

(** Lock and unlock only rewrite the header. *)
Lemma lock_inv pid accounts storage w w' :
  buffer_inv (data_at w (key storage)) -> process_lock pid accounts storage w = Ok w' ->
  exists h d', get_header (data_at w (key storage)) = Some h /\
    pending_mints_initialized h = pending_mints_count h /\
    w' = set_data w (key storage) d' /\ same_body (data_at w (key storage)) d' /\ buffer_inv d' /\
    exists h', get_header d' = Some h' /\ is_locked h' = 1 /\
      pending_mint_groups_count h' = pending_mint_groups_count h /\
      pending_mints_count h' = pending_mints_count h.
Proof.
  intros [Hb Hinv] Hr. unfold process_lock in Hr. peel Hr as E0. peel Hr as E1. peel Hr as E2.
  apply update_header_inv in Hr as (h & h' & d' & Hh & Hf & Hp & ->).
  unfold lock in Hf. peel Hf as F0. peel Hf as F1. peel Hf as F2. injection Hf as <-.
  apply negb_false_iff, Z.eqb_eq in F1.
  destruct (get_header_wf _ _ Hb Hh) as [(? & ? & ? & ? & ? & ? & ?) _].
  match type of Hp with put_header ?h' _ = _ => assert (pod_wf h') as Hwf end.
  { split; [done|]. split; [done|]. split; [change (in_width 8 1); unfold in_width; lia|].
    repeat (split; [done|]). done. }
  destruct (put_header_spec _ _ _ Hwf Hb Hp) as (Hget & Hb' & Hbody).
  exists h, d'. split; [done|]. split; [done|]. split; [done|]. split; [done|]. split.
  - split; [done|]. intros h' Hh'. rewrite Hget in Hh'. injection Hh' as <-. split; [intros _; exact F1|].
    intros HG. apply (counted_same_body (data_at w (key storage)) d' h); [exact Hbody|reflexivity..|]. by apply Hinv.
  - eexists. split; [exact Hget|]. done.
Qed.

Lemma unlock_inv pid accounts storage w w' :
  buffer_inv (data_at w (key storage)) -> process_unlock pid accounts storage w = Ok w' ->
  buffer_inv (data_at w' (key storage)).
Proof.
  intros [Hb Hinv] Hr. unfold process_unlock in Hr. peel Hr as E0. peel Hr as E1. peel Hr as E2.
  apply update_header_inv in Hr as (h & h' & d' & Hh & Hf & Hp & ->).
  unfold unlock in Hf. peel Hf as F0. peel Hf as F1. injection Hf as <-. rewrite data_at_set_data.
  destruct (get_header_wf _ _ Hb Hh) as [(? & ? & ? & ? & ? & ? & ?) _].
  match type of Hp with put_header ?h' _ = _ => assert (pod_wf h') as Hwf end.
  { split; [done|]. split; [done|]. split; [change (in_width 8 0); unfold in_width; lia|]. split; [done|].
    repeat (split; [change (in_width 16 0); unfold in_width; lia|]). change (in_width 16 0). unfold in_width. lia. }
  destruct (put_header_spec _ _ _ Hwf Hb Hp) as (Hget & Hb' & Hbody).
  split; [done|]. intros h' Hh'. rewrite Hget in Hh'. injection Hh' as <-. split; [done|].
  intros _. by apply counted_empty.
Qed.

Lemma resize_inv pid accounts storage w w' :
  buffer_inv (data_at w (key storage)) -> process_resize pid accounts storage w = Ok w' ->
  buffer_inv (data_at w' (key storage)).
Proof.
  intros Hinv Hr. unfold process_resize in Hr. peel Hr as E0. peel Hr as E1. peel Hr as E2. peel Hr as E3.
  peel Hr as E4. cbv zeta in Hr. peel Hr as E5. peel Hr as E6. peel Hr as E7. peel Hr as E8.
  branch Hr as E9; [|by injection Hr as <-].
  apply realloc_account_data in Hr as [-> _]. apply Z.ltb_lt, limited_growth_bounds in E9.
  unfold HEADER_SIZE in E5. apply Z.ltb_ge in E5.
  apply grow_buffer_inv; [done|done|lia|]. intros h Hh. rewrite E6 in Hh. injection Hh as <-. lia.
Qed.

Lemma process_insert_inv pid accounts storage rest w w' :
  buffer_inv (data_at w (key storage)) -> Forall is_byte rest -> sha256 (drop 2 rest) <> zeros 32 ->
  process_insert pid accounts storage rest w = Ok w' -> buffer_inv (data_at w' (key storage)).
Proof.
  intros Hinv Hrest Hnz Hr. unfold process_insert in Hr. peel Hr as E0. peel Hr as E1. peel Hr as E2. peel Hr as E3.
  peel Hr as E4. peel Hr as E5. cbv zeta in Hr. peel Hr as E6. peel Hr as E7. peel Hr as E8. peel Hr as E9.
  injection Hr as <-. rewrite data_at_set_data.
  eapply insert_buffer_inv; [| | |exact Hnz|exact E9]; [|apply le_val_bound, Forall_take, Hrest|by apply Forall_drop].
  branch E8 as E10; [|by injection E8 as <-].
  apply realloc_account_data in E8 as [-> _]. apply Z.ltb_lt, limited_growth_bounds in E10.
  unfold HEADER_SIZE in E6. apply Z.ltb_ge in E6.
  apply grow_buffer_inv; [done|done|lia|]. intros h Hh. rewrite E7 in Hh. injection Hh as <-. lia.
Qed.

Lemma zero_filled a m d d' (i : nat) b :
  write_slice a (zeros m) d = Some d' -> a <= Z.of_nat i < a + Z.of_nat m -> d' !! i = Some b -> b = 0.
Proof.
  intros Hw Hi Hb. rewrite (write_slice_lookup_in _ _ _ _ _ Hw) in Hb.
  - by apply lookup_replicate in Hb as [-> _].
  - unfold len. by rewrite length_zeros.
Qed.

(** The memory after [Reinit]: the hash slots are zero as far as they exist. *)
Definition reinit_clears (d d' : bytes) (groups : Z) : Prop :=
  let hash_end := 72 + groups * 32 in
  if hash_end <=? len d then write_slice 72 (zeros (Z.to_nat (hash_end - 72))) d = Some d'
  else if 72 <? len d then write_slice 72 (zeros (Z.to_nat (len d - 72))) d = Some d'
  else d' = d.

Lemma reinit_clears_spec d d' groups :
  0 <= groups -> reinit_clears d d' groups ->
  get_header d' = get_header d /\ len d' = len d /\
  forall (i : nat) b, 72 <= Z.of_nat i < 72 + groups * 32 -> d' !! i = Some b -> b = 0.
Proof.
  intros HG Hw. unfold reinit_clears in Hw. cbv zeta in Hw. unfold get_header, HEADER_SIZE.
  destruct (Z.leb_spec (72 + groups * 32) (len d)); [|destruct (Z.ltb_spec 72 (len d))].
  - split; [by rewrite (slice_write_disjoint _ _ _ _ _ _ Hw) by lia|].
    split; [by eapply write_slice_len|]. intros i b Hr. eapply zero_filled; [exact Hw|lia].
  - pose proof (write_slice_len _ _ _ _ Hw) as Hld.
    split; [by rewrite (slice_write_disjoint _ _ _ _ _ _ Hw) by lia|]. split; [done|].
    intros i b Hr Hb. eapply zero_filled; [exact Hw| |exact Hb].
    apply lookup_lt_Some in Hb. unfold len in *. lia.
  - subst d'. split; [done|]. split; [done|]. intros i b Hr Hb. apply lookup_lt_Some in Hb. unfold len in *. lia.
Qed.

Lemma reinit_counted d d' h :
  pending_mints_initialized h = 0 -> 0 <= pending_mint_groups_count h ->
  len d <= get_total_buffer_size h -> reinit_clears d d' (pending_mint_groups_count h) -> counted d' h.
Proof.
  intros Hi HG Hl Hw. destruct (reinit_clears_spec _ _ _ HG Hw) as (_ & Hlen & Hz).
  split; [intros _; by rewrite Hlen|].
  exists (replicate (Z.to_nat (pending_mint_groups_count h)) None).
  split; [rewrite len_replicate; lia|]. split.
  - intros g c [-> Hg]%lookup_replicate. intros i b Hr. apply Hz. unfold slot_start in Hr. lia.
  - rewrite Hi. clear. induction (Z.to_nat (pending_mint_groups_count h)) as [|m IH]; [done|]. simpl. by rewrite <- IH.
Qed.

(** Size of the account after the reallocation step of [Reinit]. *)
Definition reinit_len (cur target : Z) : Z :=
  if cur <? target then limited_growth cur target else if target <? cur then target else cur.

Lemma reinit_len_bounds cur target : 0 <= cur -> 0 <= target -> 0 <= reinit_len cur target <= target.
Proof.
  intros. unfold reinit_len, limited_growth, MAX_PERMITTED_DATA_INCREASE.
  destruct (Z.ltb_spec cur target); [|destruct (Z.ltb_spec target cur)]; lia.
Qed.

Lemma calculate_target_size_nonneg count : 0 <= count -> 0 <= calculate_target_size count.
Proof.
  intros. unfold calculate_target_size, HEADER_SIZE, MAX_PENDING_MINTS_PER_GROUP, PENDING_MINT_SIZE.
  Z.to_euclidean_division_equations; lia.
Qed.

Lemma target_size_is_total h :
  pending_mint_groups_count h = (pending_mints_count h + 23) / 24 ->
  calculate_target_size (pending_mints_count h) = get_total_buffer_size h.
Proof.
  intros HG. unfold calculate_target_size, get_total_buffer_size, HEADER_SIZE, MAX_PENDING_MINTS_PER_GROUP,
    PENDING_MINT_SIZE. rewrite HG. replace (pending_mints_count h + 24 - 1) with (pending_mints_count h + 23) by lia. lia.
Qed.

Lemma reinit_header_wf h h' count :
  pod_wf h -> in_width 16 count -> reinit h count = Ok h' ->
  pod_wf h' /\ is_locked h' = 0 /\ pending_mints_initialized h' = 0 /\ pending_mints_count h' = count /\
  0 <= pending_mint_groups_count h'.
Proof.
  intros (? & ? & ? & ? & _ & _ & _) Hc Hr. unfold reinit in Hr. peel Hr as E0. injection Hr as <-.
  set (x := u16 (u16 (count + MAX_PENDING_MINTS_PER_GROUP) - 1)).
  assert (in_width 16 x) as Hx by (apply wrap_in_width; lia). unfold in_width in *.
  assert (0 <= x / MAX_PENDING_MINTS_PER_GROUP < 2 ^ 16) as Hg
    by (unfold MAX_PENDING_MINTS_PER_GROUP; Z.to_euclidean_division_equations; lia).
  split; [|split; [by reflect_guards|split; [done|split; [done|exact (proj1 Hg)]]]].
  split; [done|]. split; [done|]. split; [done|]. split; [done|]. split; [exact Hg|].
  split; [change (in_width 16 0); unfold in_width; lia|exact Hc].
Qed.

Lemma reinit_realloc w w1 storage payer sys new_len :
  Forall is_byte (data_at w (key storage)) -> 0 <= new_len ->
  (if negb (new_len =? len (data_at w (key storage)))
   then realloc_account w storage payer sys new_len true else Ok w) = Ok w1 ->
  Forall is_byte (data_at w1 (key storage)) /\ len (data_at w1 (key storage)) = new_len.
Proof.
  intros Hb Hn Hr. branch Hr as F.
  - apply realloc_account_data in Hr as [-> _]. split; [by apply resized_bytes|by apply length_resized].
  - injection Hr as <-. split; [done|]. apply negb_false_iff, Z.eqb_eq in F. by rewrite F.
Qed.

Lemma reinit_clears_intro d d' groups :
  (if 72 + groups * 32 <=? len d then or_panic (write_slice 72 (zeros (Z.to_nat (72 + groups * 32 - 72))) d)
   else if 72 <? len d then or_panic (write_slice 72 (zeros (Z.to_nat (len d - 72))) d)
   else Ok d) = Ok (E := ProgramError) d' ->
  Forall is_byte d -> reinit_clears d d' groups /\ Forall is_byte d'.
Proof.
  intros Hr Hd. unfold reinit_clears. cbv zeta.
  branch Hr as F0; [|branch Hr as F1]; [| |by injection Hr as <-];
    (destruct (write_slice _ _ _) eqn:Ew in Hr |- *; [injection Hr as <-|discriminate Hr];
     split; [done|]; eapply write_slice_Forall; [exact Ew|apply zeros_bytes|done]).
Qed.

(** What a successful [Reinit] leaves in the account. *)
Lemma process_reinit_memory pid accounts storage rest w w' :
  Forall is_byte (data_at w (key storage)) -> Forall is_byte rest ->
  process_reinit pid accounts storage rest w = Ok w' ->
  let d' := data_at w' (key storage) in
  exists h h', reinit h (le_val rest) = Ok h' /\ pod_wf h /\ in_width 16 (le_val rest) /\ get_header d' = Some h' /\
    Forall is_byte d' /\ len d' <= calculate_target_size (le_val rest) /\
    exists d, len d = len d' /\ reinit_clears d d' (pending_mint_groups_count h').
Proof.
  intros Hb Hrest Hr. unfold process_reinit in Hr. peel Hr as E0. peel Hr as E1. peel Hr as E2. peel Hr as E3.
  peel Hr as E4. peel Hr as E5. cbv zeta in Hr.
  assert (in_width 16 (le_val rest)) as Hcount.
  { apply negb_false_iff, Z.eqb_eq in E5. pose proof (le_val_bound rest Hrest) as Hv. by rewrite E5 in Hv. }
  assert (0 <= le_val rest) as Hc0 by apply Hcount.
  pose proof (reinit_len_bounds _ _ (len_nonneg (data_at w (key storage))) (calculate_target_size_nonneg _ Hc0)) as Hnew.
  unfold reinit_len in Hnew. peel Hr as E6. apply reinit_realloc in E6 as [Hb1 Hl1]; [|done|apply Hnew].
  peel Hr as E7. peel Hr as E8. apply update_header_inv in E8 as (h & h' & d' & Hh & Hf & Hp & ->).
  rewrite data_at_set_data in Hr. destruct (get_header_wf _ _ Hb1 Hh) as [Hwf _].
  destruct (reinit_header_wf _ _ _ Hwf Hcount Hf) as (Hwf' & _ & _ & _ & HG').
  destruct (put_header_spec _ _ _ Hwf' Hb1 Hp) as (Hget & Hb' & [Hl' _]).
  rewrite Hget in Hr. cbn [or_panic res_bind] in Hr. peel Hr as E9. injection Hr as <-.
  apply (reinit_clears_intro d') in E9 as [Hclr Hb'']; [|done].
  destruct (reinit_clears_spec _ _ _ HG' Hclr) as (Hg'' & Hl'' & _).
  rewrite data_at_set_data. exists h, h'. split; [done|]. split; [done|]. split; [done|].
  split; [by rewrite Hg''|]. split; [done|]. split; [lia|]. exists d'. by split.
Qed.

Lemma process_reinit_inv pid accounts storage rest w w' :
  buffer_inv (data_at w (key storage)) -> Forall is_byte rest ->
  process_reinit pid accounts storage rest w = Ok w' -> buffer_inv (data_at w' (key storage)).
Proof.
  intros [Hb _] Hrest (h & h' & Hf & Hwf & Hc & Hget & Hb' & Hl & d & Hld & Hclr)%process_reinit_memory; [|done..].
  destruct (reinit_header_wf _ _ _ Hwf Hc Hf) as (_ & Hlk' & Hi' & Hn' & HG').
  split; [done|]. intros h'' Hh''. rewrite Hget in Hh''. injection Hh'' as <-.
  split; [intros []; exact Hlk'|]. intros HG.
  eapply reinit_counted; [done..| |exact Hclr]. rewrite Hld, <- target_size_is_total, Hn' by done. exact Hl.
Qed.

(** ** Frame: an instruction writes the data of its storage account only *)

Lemma update_header_frame w k f w' k' :
  update_header w k f = Ok w' -> k' <> k -> data_at w' k' = data_at w k'.
Proof. intros (h & h' & d' & _ & _ & _ & ->)%update_header_inv Hk. by apply data_at_set_data_ne. Qed.

Lemma setup_frame pid storage rest w w' k :
  process_setup pid storage rest w = Ok w' -> k <> key storage -> data_at w' k = data_at w k.
Proof.
  intros Hr Hk. unfold process_setup in Hr. peel Hr as E0. peel Hr as E1. peel Hr as E2.
  destruct (find_program_address _ _) as [pda bump]. peel Hr as E3. peel Hr as E4. peel Hr as E5. peel Hr as E6.
  rewrite (update_header_frame _ _ _ _ _ Hr Hk).
  branch E4 as F; [|by injection E4 as <-]. cbv zeta in E4. peel E4 as F1. peel E4 as F2.
  rewrite (assign_keeps_data _ _ _ _ _ _ E4 k). by apply (allocate_zeroes _ _ _ _ _ _ F2).
Qed.

Lemma optional_realloc_frame (c : bool) w target funding sys n refund w' k :
  (if c then realloc_account w target funding sys n refund else Ok w) = Ok w' ->
  k <> key target -> data_at w' k = data_at w k.
Proof. intros Hr Hk. branch Hr as F; [|by injection Hr as <-]. apply realloc_account_data in Hr as [_ Hf]. auto. Qed.

Lemma reinit_frame pid accounts storage rest w w' k :
  process_reinit pid accounts storage rest w = Ok w' -> k <> key storage -> data_at w' k = data_at w k.
Proof.
  intros Hr Hk. unfold process_reinit in Hr. peel Hr as E0. peel Hr as E1. peel Hr as E2. peel Hr as E3.
  peel Hr as E4. peel Hr as E5. cbv zeta in Hr. peel Hr as E6. peel Hr as E7. peel Hr as E8. peel Hr as E9.
  peel Hr as E10. injection Hr as <-. rewrite data_at_set_data_ne by done.
  rewrite (update_header_frame _ _ _ _ _ E8 Hk). by eapply optional_realloc_frame.
Qed.

Lemma resize_frame pid accounts storage w w' k :
  process_resize pid accounts storage w = Ok w' -> k <> key storage -> data_at w' k = data_at w k.
Proof.
  intros Hr Hk. unfold process_resize in Hr. peel Hr as E0. peel Hr as E1. peel Hr as E2. peel Hr as E3.
  peel Hr as E4. cbv zeta in Hr. peel Hr as E5. peel Hr as E6. peel Hr as E7. peel Hr as E8.
  by eapply optional_realloc_frame.
Qed.

Lemma insert_frame pid accounts storage rest w w' k :
  process_insert pid accounts storage rest w = Ok w' -> k <> key storage -> data_at w' k = data_at w k.
Proof.
  intros Hr Hk. unfold process_insert in Hr. peel Hr as E0. peel Hr as E1. peel Hr as E2. peel Hr as E3.
  peel Hr as E4. peel Hr as E5. cbv zeta in Hr. peel Hr as E6. peel Hr as E7. peel Hr as E8. peel Hr as E9.
  injection Hr as <-. rewrite data_at_set_data_ne by done. by eapply optional_realloc_frame.
Qed.

Lemma lock_unlock_frame pid accounts storage w w' k :
  process_lock pid accounts storage w = Ok w' \/ process_unlock pid accounts storage w = Ok w' ->
  k <> key storage -> data_at w' k = data_at w k.
Proof.
  intros [Hr|Hr] Hk; [unfold process_lock in Hr|unfold process_unlock in Hr];
    peel Hr as E0; peel Hr as E1; peel Hr as E2; by eapply update_header_frame.
Qed.

(** ** One instruction of the program, by cases *)

Variant dispatch (pid : Pubkey) (accounts : list AccountInfo) (storage : AccountInfo) (rest : bytes)
    (w w' : World) : Z -> Prop :=
  | DoSetup : process_setup pid storage rest w = Ok w' -> dispatch pid accounts storage rest w w' 0
  | DoReinit : process_reinit pid accounts storage rest w = Ok w' -> dispatch pid accounts storage rest w w' 1
  | DoResize : process_resize pid accounts storage w = Ok w' -> dispatch pid accounts storage rest w w' 2
  | DoInsert : process_insert pid accounts storage rest w = Ok w' -> dispatch pid accounts storage rest w w' 3
  | DoLock : process_lock pid accounts storage w = Ok w' -> dispatch pid accounts storage rest w w' 4
  | DoUnlock : process_unlock pid accounts storage w = Ok w' -> dispatch pid accounts storage rest w w' 5.

Lemma process_instruction_cases pid accounts input w w' :
  process_instruction pid accounts input w = Ok w' ->
  exists tag rest storage, input = tag :: rest /\ accounts !! 0%nat = Some storage /\
    dispatch pid accounts storage rest w w' tag.
Proof.
  intros Hr. unfold process_instruction in Hr. destruct input as [|tag rest]; [discriminate Hr|].
  unfold nth_account in Hr. destruct (accounts !! 0%nat) as [storage|] eqn:Ea; [|discriminate Hr].
  cbn [ok_or res_bind] in Hr. exists tag, rest, storage. split; [done|]. split; [done|].
  destruct tag as [|t|]; [by constructor| |discriminate Hr].
  do 3 (try destruct t as [t|t|]); first [discriminate Hr | by constructor].
Qed.

Lemma dispatch_frame pid accounts storage rest w w' tag k :
  dispatch pid accounts storage rest w w' tag -> k <> key storage -> data_at w' k = data_at w k.
Proof.
  intros Hd Hk. destruct Hd as [Hr|Hr|Hr|Hr|Hr|Hr];
    eauto using setup_frame, reinit_frame, resize_frame, insert_frame, lock_unlock_frame.
Qed.

Lemma dispatch_inv pid accounts storage rest w w' tag :
  dispatch pid accounts storage rest w w' tag -> Forall is_byte rest ->
  (tag = 3 -> sha256 (drop 2 rest) <> zeros 32) ->
  buffer_inv (data_at w (key storage)) -> buffer_inv (data_at w' (key storage)).
Proof.
  intros Hd Hb Hz Hinv. destruct Hd as [Hr|Hr|Hr|Hr|Hr|Hr].
  - by eapply setup_inv.
  - by eapply process_reinit_inv.
  - by eapply resize_inv.
  - eapply process_insert_inv; eauto.
  - destruct (lock_inv _ _ _ _ _ Hinv Hr) as (h & d' & _ & _ & -> & _ & Hi & _). by rewrite data_at_set_data.
  - by eapply unlock_inv.
Qed.

(** ** Histories of the program *)

(** Instruction data as it arrives: bytes, and no inserted group hashes to the
    value that marks an empty slot. *)
Definition usual_input (input : bytes) : Prop :=
  Forall is_byte input /\ (head input = Some 3 -> sha256 (drop 3 input) <> zeros 32).

(** The worlds reached from [w0] by successful instructions of the program. *)
Inductive runs (pid : Pubkey) (w0 : World) : World -> Prop :=
  | runs_nil : runs pid w0 w0
  | runs_step w accounts input w' :
      runs pid w0 w -> usual_input input -> process_instruction pid accounts input w = Ok w' ->
      runs pid w0 w'.

Lemma instruction_inv pid accounts input w w' k :
  process_instruction pid accounts input w = Ok w' -> usual_input input ->
  buffer_inv (data_at w k) -> buffer_inv (data_at w' k).
Proof.
  intros (tag & rest & storage & -> & _ & Hd)%process_instruction_cases [Hb Hz] Hinv.
  apply Forall_cons in Hb as [_ Hb]. destruct (decide (k = key storage)) as [->|Hk].
  - eapply dispatch_inv; [exact Hd|done| |done]. intros ->. by apply Hz.
  - by rewrite (dispatch_frame _ _ _ _ _ _ _ _ Hd Hk).
Qed.

Lemma runs_inv pid w0 w k : runs pid w0 w -> buffer_inv (data_at w0 k) -> buffer_inv (data_at w k).
Proof. induction 1; eauto using instruction_inv. Qed.

Lemma empty_buffer_inv : buffer_inv [].
Proof. split; [constructor|]. done. Qed.

(** ** A locked buffer accepts no instruction but [Unlock] *)

Lemma get_header_len d h : get_header d = Some h -> 72 <= len d.
Proof.
  unfold get_header, HEADER_SIZE. destruct (slice 0 72 d) eqn:Es; [|done]. intros _.
  by apply slice_Some in Es as (_ & ? & _).
Qed.

Lemma get_header_resized n d h : get_header d = Some h -> 72 <= n -> get_header (resized n d) = Some h.
Proof.
  intros Hh Hn. pose proof (get_header_len _ _ Hh). rewrite <- Hh. unfold get_header, HEADER_SIZE.
  by rewrite slice_resized by lia.
Qed.

Lemma optional_realloc_header (c : bool) w target funding sys n refund w' h :
  (if c then realloc_account w target funding sys n refund else Ok w) = Ok w' ->
  get_header (data_at w (key target)) = Some h -> 0 <= n -> 72 <= len (data_at w' (key target)) ->
  get_header (data_at w' (key target)) = Some h.
Proof.
  intros Hr Hh Hn Hl. branch Hr as F; [|by injection Hr as <-].
  apply realloc_account_data in Hr as [E _]. rewrite E in *. rewrite length_resized in Hl by done.
  by apply get_header_resized.
Qed.

Section locked.
Context (w : World) (storage : AccountInfo) (h : Header).
Context (Hh : get_header (data_at w (key storage)) = Some h) (Hlocked : is_locked h <> 0).

Lemma locked_guard : negb (is_locked h =? 0) = true.
Proof. apply negb_true_iff, Z.eqb_neq, Hlocked. Qed.

Lemma locked_rejects_setup pid rest w' :
  authorized_locker_public_key h <> zeros 32 -> process_setup pid storage rest w <> Ok w'.
Proof.
  intros Hkey Hr. unfold process_setup in Hr. peel Hr as E0. peel Hr as E1. peel Hr as E2.
  destruct (find_program_address _ _) as [pda bump]. peel Hr as E3. peel Hr as E4. peel Hr as E5. peel Hr as E6.
  pose proof (get_header_len _ _ Hh). branch E4 as F; [apply Z.eqb_eq in F; lia|]. injection E4 as <-.
  apply update_header_inv in Hr as (h0 & h' & d' & Hh0 & Hf & _). rewrite Hh in Hh0. injection Hh0 as <-.
  unfold setup in Hf. peel Hf as G. by reflect_guards.
Qed.

Lemma locked_rejects_reinit pid accounts rest w' :
  Forall is_byte rest -> process_reinit pid accounts storage rest w <> Ok w'.
Proof.
  intros Hb Hr. unfold process_reinit in Hr. peel Hr as E0. peel Hr as E1. peel Hr as E2. peel Hr as E3.
  peel Hr as E4. peel Hr as E5. cbv zeta in Hr. peel Hr as E6. peel Hr as E7. peel Hr as E8.
  pose proof (reinit_len_bounds _ _ (len_nonneg (data_at w (key storage)))
    (calculate_target_size_nonneg _ (proj1 (le_val_bound rest Hb)))) as [Hn _]. unfold reinit_len in Hn.
  unfold HEADER_SIZE in E7. apply Z.ltb_ge in E7.
  pose proof (optional_realloc_header _ _ _ _ _ _ _ _ _ E6 Hh Hn E7) as Hh1.
  apply update_header_inv in E8 as (h0 & h' & d' & Hh0 & Hf & _). rewrite Hh1 in Hh0. injection Hh0 as <-.
  unfold reinit in Hf. by rewrite locked_guard in Hf.
Qed.

Lemma locked_rejects_resize pid accounts w' : process_resize pid accounts storage w <> Ok w'.
Proof.
  intros Hr. unfold process_resize in Hr. peel Hr as E0. peel Hr as E1. peel Hr as E2. peel Hr as E3.
  peel Hr as E4. cbv zeta in Hr. peel Hr as E5. rewrite Hh in Hr. cbn [or_panic res_bind] in Hr.
  by rewrite locked_guard in Hr.
Qed.

Lemma locked_rejects_insert pid accounts rest w' : process_insert pid accounts storage rest w <> Ok w'.
Proof.
  intros Hr. pose proof (get_header_len _ _ Hh).
  assert (forall d, d = data_at w (key storage) -> get_header d = Some h) as Hget by (by intros d ->).
  unfold process_insert in Hr. peel Hr as E0. peel Hr as E1. peel Hr as E2. peel Hr as E3.
  peel Hr as E4. peel Hr as E5. cbv zeta in Hr. peel Hr as E6. peel Hr as E7. peel Hr as E8. peel Hr as E9.
  apply insert_inv in E9 as (h0 & d1 & d2 & Hh0 & Hlk & _).
  assert (h0 = h) as ->; [|done]. enough (Some h0 = Some h) by congruence. rewrite <- Hh0.
  branch E8 as F; [|injection E8 as <-; by apply Hget]. apply realloc_account_data in E8 as [-> _].
  apply Z.ltb_lt, limited_growth_bounds in F. apply get_header_resized; [by apply Hget|lia].
Qed.

Lemma locked_rejects_lock pid accounts w' : process_lock pid accounts storage w <> Ok w'.
Proof.
  intros Hr. unfold process_lock in Hr. peel Hr as E0. peel Hr as E1. peel Hr as E2.
  apply update_header_inv in Hr as (h0 & h' & d' & Hh0 & Hf & _). rewrite Hh in Hh0. injection Hh0 as <-.
  unfold lock in Hf. by rewrite locked_guard in Hf.
Qed.

Lemma unlock_signed_by_locker pid accounts w' :
  process_unlock pid accounts storage w = Ok w' ->
  exists signer, accounts !! 1%nat = Some signer /\ is_signer signer = true /\
    key signer = authorized_locker_public_key h.
Proof.
  intros Hr. unfold process_unlock, nth_account in Hr. peel Hr as E0.
  destruct (accounts !! 1%nat) as [signer|] eqn:Ea; [|discriminate Hr]. cbn [ok_or res_bind] in Hr.
  unfold require_signer in Hr. destruct (is_signer signer) eqn:Es; [|discriminate Hr]. cbn [negb res_bind] in Hr.
  apply update_header_inv in Hr as (h0 & h' & d' & Hh0 & Hf & _). rewrite Hh in Hh0. injection Hh0 as <-.
  unfold unlock in Hf. peel Hf as F0. peel Hf as F1. exists signer. split; [done|]. split; [done|]. by reflect_guards.
Qed.
End locked.

(** [C17] A locked mint buffer is frozen: whatever instruction of the buffer program
    succeeds, with whatever accounts, the buffer's memory is unchanged, except for
    an [Unlock] signed by the authorised locker (the bridge). *)
Theorem locked_buffer_frozen pid accounts input w w' k h :
  Forall is_byte input -> get_header (data_at w k) = Some h -> is_locked h <> 0 ->
  authorized_locker_public_key h <> zeros 32 ->
  process_instruction pid accounts input w = Ok w' ->
  data_at w' k = data_at w k \/
  exists rest signer, input = 5 :: rest /\ accounts !! 1%nat = Some signer /\ is_signer signer = true /\
    key signer = authorized_locker_public_key h.
Proof.
  intros Hb Hh Hl Hkey (tag & rest & storage & -> & _ & Hd)%process_instruction_cases.
  destruct (decide (k = key storage)) as [->|Hk]; [right|left; by eapply dispatch_frame].
  apply Forall_cons in Hb as [_ Hb]. destruct Hd as [Hr|Hr|Hr|Hr|Hr|Hr].
  - by destruct (locked_rejects_setup w storage h Hh pid rest w' Hkey).
  - by destruct (locked_rejects_reinit w storage h Hh Hl pid accounts rest w' Hb).
  - by destruct (locked_rejects_resize w storage h Hh Hl pid accounts w').
  - by destruct (locked_rejects_insert w storage h Hh Hl pid accounts rest w').
  - by destruct (locked_rejects_lock w storage h Hh Hl pid accounts w').
  - destruct (unlock_signed_by_locker w storage h Hh pid accounts w' Hr) as (signer & ? & ? & ?). by exists rest, signer.
Qed.

(** [C16] In every world the buffer program reaches from one where the buffer account
    was empty, a locked buffer (with the group count of its mint count) has every
    group filled to its exact size, and every group's hash slot holds the SHA-256 of
    exactly that group's mints. *)
Theorem locked_buffer_commits_all_groups pid w0 w k h :
  runs pid w0 w -> data_at w0 k = [] ->
  get_header (data_at w k) = Some h -> is_locked h <> 0 ->
  pending_mint_groups_count h = (pending_mints_count h + 23) / 24 ->
  all_groups_hashed (data_at w k) (pending_mint_groups_count h) (pending_mints_count h).
Proof.
  intros Hr Hnil Hh Hl HG. destruct (runs_inv _ _ _ k Hr) as [_ Hinv]; [rewrite Hnil; apply empty_buffer_inv|].
  destruct (Hinv h Hh) as [Hc Hct]. apply counted_complete; auto.
Qed.
End instructions.
