(* ===== verification/TxoBuffer.v ===== *)
(** * TxoBuffer: the TXO buffer program

    Models [programs/txo-buffer/src/lib.rs].  The account lists the transaction
    outputs behind the mints of one Dogecoin block: a 48-byte header (the struct
    [PendingMintsTxoBufferHeader] of [Types.v]) and the indices as raw bytes.  The
    authorised writer fills it in batches; a finalized batch must not change. *)
From S2P Require Import Prelude Errors Pod Runtime Types.
From Stdlib Require Import ZArith Lia.
From stdpp Require Import base decidable list numbers option gmap.

Open Scope Z_scope.
Open Scope bridge_scope.

Module TxoBuffer.

Definition HEADER_SIZE : Z := 48.

Abbreviation Header := PendingMintsTxoBufferHeader.

(** ** The header *)

Definition with_writer (writer : bytes) (h : Header) : Header :=
  {| txo_authorized_writer := writer; txo_init_status := 1;
     txo_finalized_status := txo_finalized_status h; txo_doge_block_height := txo_doge_block_height h;
     txo_batch_id := txo_batch_id h; txo_data_size := txo_data_size h |}.

Definition with_batch (batch_id finalized_status : Z) (h : Header) : Header :=
  {| txo_authorized_writer := txo_authorized_writer h; txo_init_status := txo_init_status h;
     txo_finalized_status := finalized_status; txo_doge_block_height := txo_doge_block_height h;
     txo_batch_id := batch_id; txo_data_size := txo_data_size h |}.

Definition with_height (height : Z) (finalize : bool) (h : Header) : Header :=
  {| txo_authorized_writer := txo_authorized_writer h; txo_init_status := txo_init_status h;
     txo_finalized_status := if finalize then 1 else txo_finalized_status h;
     txo_doge_block_height := height; txo_batch_id := txo_batch_id h; txo_data_size := txo_data_size h |}.

Definition with_data_size (size : Z) (h : Header) : Header :=
  {| txo_authorized_writer := txo_authorized_writer h; txo_init_status := txo_init_status h;
     txo_finalized_status := txo_finalized_status h; txo_doge_block_height := txo_doge_block_height h;
     txo_batch_id := txo_batch_id h; txo_data_size := size |}.

Definition handle_batch_transition (header : Header) (input_batch_id : Z) : res ProgramError Header :=
  if input_batch_id =? txo_batch_id header then
    bail AccountAlreadyInitialized if txo_finalized_status header =? 1;
    Ok header
  else if input_batch_id =? u32 (txo_batch_id header + 1) then Ok (with_batch input_batch_id 0 header)
  else Err InvalidArgument.

Section program.
Context `{Runtime}.

(** A refund borrows both lamport cells at once, which fails on one account. *)
Definition realloc_account (w : World) (account payer system_program : AccountInfo) (new_size : Z)
    : res ProgramError World :=
  let old_rent := minimum_balance (len (data_at w (key account))) in
  let new_rent := minimum_balance new_size in
  try w1 <-
    (if old_rent <? new_rent then
       invoke_signed w (SystemTransfer (key payer) (key account) (new_rent - old_rent))
         [payer; account; system_program] []
     else if new_rent <? old_rent then
       let diff := old_rent - new_rent in
       bail AccountBorrowFailed if bool_decide (key account = key payer);
       Ok (set_lamports (set_lamports w (key account) (u64 (lamports_at w (key account) - diff)))
             (key payer) (u64 (lamports_at w (key payer) + diff)))
     else Ok w);
  realloc w1 (key account) new_size.

(** [b"txo_buffer"] *)
Definition txo_buffer_seed : bytes := [116; 120; 111; 95; 98; 117; 102; 102; 101; 114].

Definition process_initialize (program_id : Pubkey) (contract_account : AccountInfo) (rest : bytes) (w : World)
    : res ProgramError World :=
  bail InvalidInstructionData if negb (len rest =? 32);
  let auth_key := rest in
  let '(expected_pda, bump) := find_program_address [txo_buffer_seed; auth_key] program_id in
  bail InvalidSeeds if negb (bool_decide (key contract_account = expected_pda));
  try w1 <-
    (if len (data_at w (key contract_account)) =? 0 then
       let seeds := [txo_buffer_seed; auth_key; [bump]] in
       bail InsufficientFunds if lamports_at w (key contract_account) <? minimum_balance HEADER_SIZE;
       try wa <- invoke_signed w (SystemAllocate (key contract_account) HEADER_SIZE) [contract_account] [seeds];
       invoke_signed wa (SystemAssign (key contract_account) program_id) [contract_account] [seeds]
     else Ok w);
  bail IncorrectProgramId if negb (bool_decide (owner_at w1 (key contract_account) = program_id));
  let d := data_at w1 (key contract_account) in
  bail AccountDataTooSmall if len d <? HEADER_SIZE;
  try header <- or_panic (read_pod d);
  try d' <- or_panic (write_pod (with_writer auth_key header) d);
  Ok (set_data w1 (key contract_account) d').

Definition process_set_data_length (program_id : Pubkey) (accounts : list AccountInfo)
    (contract_account : AccountInfo) (rest : bytes) (w : World) : res ProgramError World :=
  bail IncorrectProgramId if negb (bool_decide (owner_at w (key contract_account) = program_id));
  bail InvalidInstructionData if negb (len rest =? 14);
  let new_length := le_val (take 4 rest) in
  let resize := negb (nth 4 rest 0 =? 0) in
  let input_batch_id := le_val (take 4 (drop 5 rest)) in
  let input_doge_height := le_val (take 4 (drop 9 rest)) in
  let finalize := negb (nth 13 rest 0 =? 0) in
  try signer <- nth_account accounts 1;
  try system_program <- nth_account accounts 2;
  bail MissingRequiredSignature if negb (is_signer signer);
  let d := data_at w (key contract_account) in
  try header <- or_panic (read_pod d);
  bail IllegalOwner if negb (bool_decide (txo_authorized_writer header = key signer));
  let is_new_batch := input_batch_id =? u32 (txo_batch_id header + 1) in
  try header1 <- handle_batch_transition header input_batch_id;
  bail InvalidInstructionData
    if negb is_new_batch && negb (txo_doge_block_height header1 =? 0)
       && negb (txo_doge_block_height header1 =? input_doge_height);
  try d1 <- or_panic (write_pod (with_height input_doge_height finalize header1) d);
  let w1 := set_data w (key contract_account) d1 in
  try w2 <-
    (if resize then realloc_account w1 contract_account signer system_program (HEADER_SIZE + new_length)
     else bail AccountDataTooSmall if len (data_at w1 (key contract_account)) <? HEADER_SIZE + new_length; Ok w1);
  let d2 := data_at w2 (key contract_account) in
  try header2 <- or_panic (read_pod d2);
  try d3 <- or_panic (write_pod (with_data_size new_length header2) d2);
  Ok (set_data w2 (key contract_account) d3).

Definition process_write_data (program_id : Pubkey) (accounts : list AccountInfo)
    (contract_account : AccountInfo) (rest : bytes) (w : World) : res ProgramError World :=
  bail IncorrectProgramId if negb (bool_decide (owner_at w (key contract_account) = program_id));
  bail InvalidInstructionData if len rest <? 8;
  let input_batch_id := le_val (take 4 rest) in
  let offset := le_val (take 4 (drop 4 rest)) in
  let raw_data := drop 8 rest in
  try signer <- nth_account accounts 1;
  bail MissingRequiredSignature if negb (is_signer signer);
  let d := data_at w (key contract_account) in
  try header <- or_panic (read_pod d);
  bail IllegalOwner if negb (bool_decide (txo_authorized_writer header = key signer));
  try header1 <- handle_batch_transition header input_batch_id;
  let write_end := offset + len raw_data in
  bail AccountDataTooSmall if len d - HEADER_SIZE <? write_end;
  try d1 <- or_panic (write_slice (HEADER_SIZE + offset) raw_data d);
  let header2 := if txo_data_size header1 <? write_end then with_data_size (u32 write_end) header1 else header1 in
  try d2 <- or_panic (write_pod header2 d1);
  Ok (set_data w (key contract_account) d2).

Definition process_instruction (program_id : Pubkey) (accounts : list AccountInfo)
    (instruction_data : bytes) (w : World) : res ProgramError World :=
  match instruction_data with
  | [] => Err InvalidInstructionData
  | tag :: rest =>
      try contract_account <- nth_account accounts 0;
      match tag with
      | 0 => process_initialize program_id contract_account rest w
      | 1 => process_set_data_length program_id accounts contract_account rest w
      | 2 => process_write_data program_id accounts contract_account rest w
      | _ => Err InvalidInstructionData
      end
  end.
End program.
End TxoBuffer.
