(* ===== verification/TxoBufferProofs.v ===== *)
(** * TxoBufferProofs: finalized batches of a TXO buffer do not change

    Invariants of [TxoBuffer.v]: each instruction writes one account only, the
    authorised writer alone changes its contents, and a finalized batch can only be
    left for the next one. *)
From S2P Require Import Prelude Errors Pod Runtime Types TxoBuffer.
From Stdlib Require Import ZArith Lia.
From stdpp Require Import base decidable list numbers option gmap.
Import TxoBuffer.

Open Scope Z_scope.
Open Scope bridge_scope.

(** ** Headers *)

Lemma txo_header_size : Z.of_nat (pod_size Header) = 48.
Proof. done. Qed.

Lemma with_batch_wf b f h : pod_wf h -> in_width 32 b -> in_width 16 f -> pod_wf (with_batch b f h).
Proof. intros (? & ? & ? & ? & ? & ?) Hb Hf. repeat (split; [assumption|]). assumption. Qed.

Lemma with_height_wf z (fin : bool) h : pod_wf h -> in_width 32 z -> pod_wf (with_height z fin h).
Proof.
  intros (? & ? & ? & ? & ? & ?) Hz. split; [done|]. split; [done|].
  split; [destruct fin; [change (in_width 16 1); unfold in_width; lia|done]|]. split; [exact Hz|]. done.
Qed.

Lemma with_data_size_wf z h : pod_wf h -> in_width 32 z -> pod_wf (with_data_size z h).
Proof. intros (? & ? & ? & ? & ? & ?) Hz. repeat (split; [assumption|]). assumption. Qed.

Lemma with_writer_wf z h : pod_wf h -> byte_array 32 z -> pod_wf (with_writer z h).
Proof.
  intros (? & ? & ? & ? & ? & ?) Hz. split; [exact Hz|].
  split; [change (in_width 16 1); unfold in_width; lia|]. repeat (split; [assumption|]). assumption.
Qed.

(** The [u32] field at the start of some input. *)
Lemma le_val_u32 (b : bytes) : Forall is_byte b -> in_width 32 (le_val (take 4 b)).
Proof.
  intros Hb. pose proof (le_val_bound (take 4 b) (Forall_take _ 4 _ Hb)) as [Hlo Hhi]. split; [done|].
  eapply Z.lt_le_trans; [exact Hhi|]. apply Z.pow_le_mono_r; [lia|]. unfold len. rewrite length_take. lia.
Qed.

Lemma handle_batch_wf h b h' :
  pod_wf h -> in_width 32 b -> handle_batch_transition h b = Ok h' -> pod_wf h'.
Proof.
  intros Hh Hb Hr. unfold handle_batch_transition in Hr. branch Hr as E0; [|branch Hr as E1; [|discriminate Hr]].
  - peel Hr as E1. by injection Hr as <-.
  - injection Hr as <-. apply with_batch_wf; [done|done|]. unfold in_width; lia.
Qed.

(** A finalized batch is only left for the next one. *)
Lemma handle_batch_finalized h b h' :
  txo_finalized_status h = 1 -> handle_batch_transition h b = Ok h' ->
  h' = with_batch (u32 (txo_batch_id h + 1)) 0 h.
Proof.
  intros Hf Hr. unfold handle_batch_transition in Hr. branch Hr as E0; [|branch Hr as E1; [|discriminate Hr]].
  - rewrite Hf in Hr. discriminate Hr.
  - injection Hr as <-. apply Z.eqb_eq in E1. by subst b.
Qed.

Section instructions.
Context `{RuntimeLaws}.
Implicit Types (w : World) (accounts : list AccountInfo).

Lemma txo_realloc_data w account payer system n w' :
  realloc_account w account payer system n = Ok w' ->
  data_at w' (key account) = resized n (data_at w (key account)) /\
  forall k, k <> key account -> data_at w' k = data_at w k.
Proof.
  intros Hr. unfold realloc_account in Hr. cbv zeta in Hr. peel Hr as E0. rename x into w1.
  assert (forall k, data_at w1 k = data_at w k) as Hsame.
  { branch E0 as F0; [|branch E0 as F1; [|by injection E0 as <-]].
    - intros k. by apply (transfer_keeps_data _ _ _ _ _ _ _ E0).
    - peel E0 as F2. injection E0 as <-. intros k. by autorewrite with world. }
  apply realloc_resizes in Hr as ->. split; [by rewrite data_at_set_data, Hsame|].
  intros k Hk. by rewrite data_at_set_data_ne by done.
Qed.

(** A header survives a reallocation that keeps its bytes. *)
Lemma read_pod_resized n d (h : Header) :
  read_pod d = Some h -> 48 <= n -> read_pod (resized n d) = Some h.
Proof.
  intros Hh Hn. pose proof (read_pod_len _ _ Hh) as Hl. rewrite txo_header_size in Hl. rewrite <- Hh.
  apply read_pod_ext. rewrite txo_header_size. by apply slice_resized.
Qed.

(** ** What a successful instruction did *)

(** The authorised writer signed. *)
Definition signed_by_writer (accounts : list AccountInfo) (h : Header) : Prop :=
  exists signer, accounts !! 1%nat = Some signer /\ is_signer signer = true /\
    key signer = txo_authorized_writer h.

Lemma nth_account_ok accounts i a : nth_account accounts i = Ok a -> accounts !! i = Some a.
Proof. unfold nth_account. destruct (accounts !! i); [|done]. by intros [= ->]. Qed.

(** The resizing step of [SetDataLength]. *)
Lemma set_length_memory w contract payer sys n d1 (h : Header) (resize : bool) w2 :
  (if resize then realloc_account (set_data w (key contract) d1) contract payer sys (48 + n)
   else bail AccountDataTooSmall if len (data_at (set_data w (key contract) d1) (key contract)) <? 48 + n;
        Ok (set_data w (key contract) d1)) = Ok w2 ->
  read_pod d1 = Some h -> Forall is_byte d1 -> 0 <= n ->
  exists d2, data_at w2 (key contract) = d2 /\ (d2 = resized (48 + n) d1 \/ d2 = d1 /\ 48 + n <= len d1) /\
    read_pod d2 = Some h /\ Forall is_byte d2.
Proof.
  intros Hr Hh Hb Hn. branch Hr as F.
  - apply txo_realloc_data in Hr as [E _]. rewrite data_at_set_data in E. rewrite E.
    exists (resized (48 + n) d1). split; [done|]. split; [by left|].
    split; [apply read_pod_resized; [done|lia]|by apply resized_bytes].
  - peel Hr as F1. injection Hr as <-. rewrite data_at_set_data in F1 |- *. apply Z.ltb_ge in F1. exists d1.
    split; [done|]. split; [by right|]. done.
Qed.

Lemma set_data_length_inv pid accounts contract rest w w' :
  Forall is_byte rest -> Forall is_byte (data_at w (key contract)) ->
  process_set_data_length pid accounts contract rest w = Ok w' ->
  let n := le_val (take 4 rest) in
  let height := le_val (take 4 (drop 9 rest)) in
  let fin := negb (nth 13 rest 0 =? 0) in
  exists h h1 d1, read_pod (data_at w (key contract)) = Some h /\ signed_by_writer accounts h /\
    handle_batch_transition h (le_val (take 4 (drop 5 rest))) = Ok h1 /\
    write_pod (with_height height fin h1) (data_at w (key contract)) = Some d1 /\
    read_pod (data_at w' (key contract)) = Some (with_data_size n (with_height height fin h1)) /\
    exists d2, (d2 = resized (48 + n) d1 \/ d2 = d1 /\ 48 + n <= len d1) /\
      len (data_at w' (key contract)) = len d2 /\ Forall is_byte (data_at w' (key contract)) /\
      forall a b, 48 <= a -> slice a b (data_at w' (key contract)) = slice a b d2.
Proof.
  intros Hb Hd Hr n height fin. unfold process_set_data_length in Hr. cbv zeta in Hr. fold n height fin in Hr.
  peel Hr as E0. peel Hr as E1. peel Hr as E2. rename x into signer. peel Hr as E3. peel Hr as E4.
  destruct (read_pod (data_at w (key contract))) as [h|] eqn:Hh; [|discriminate Hr]. cbn [or_panic res_bind] in Hr.
  peel Hr as E5. peel Hr as E6. rename x0 into h1. peel Hr as E7.
  destruct (write_pod (with_height height fin h1) _) as [d1|] eqn:Hw1; [|discriminate Hr]. cbn [or_panic res_bind] in Hr.
  assert (pod_wf (with_height height fin h1)) as Hwf1.
  { apply with_height_wf; [|by apply le_val_u32, Forall_drop].
    eapply handle_batch_wf; [by eapply read_pod_wf| |exact E6]. by apply le_val_u32, Forall_drop. }
  destruct (write_pod_spec _ _ _ Hwf1 Hw1) as (Hr1 & Hl1 & Hs1 & Hb1). specialize (Hb1 Hd).
  pose proof (read_pod_len _ _ Hr1) as Hl48. rewrite txo_header_size in Hl48.
  peel Hr as E8. rename x0 into w2.
  assert (0 <= n) as Hn by apply (le_val_u32 rest Hb).
  apply (set_length_memory _ _ _ _ _ _ (with_height height fin h1)) in E8
    as (d2 & Hd2 & Hcase & Hr2 & Hb2); [|done..].
  rewrite Hd2, Hr2 in Hr. cbn [or_panic res_bind] in Hr. peel Hr as E9. rename x0 into d3. injection Hr as <-.
  destruct (write_pod (with_data_size n _) d2) as [d3'|] eqn:Hw3; [|discriminate E9]. injection E9 as ->.
  destruct (write_pod_spec (with_data_size n (with_height height fin h1)) d2 d3) as (Hr3 & Hl3 & Hs3 & Hb3);
    [apply with_data_size_wf; [done|by apply le_val_u32]|done|].
  exists h, h1, d1. split; [done|]. split; [|split; [done|split; [done|]]].
  { exists signer. split; [by apply nth_account_ok|]. reflect_guards. split; [by destruct (is_signer signer)|done]. }
  rewrite data_at_set_data. split; [done|]. exists d2. split; [done|]. split; [done|]. split; [by apply Hb3|].
  intros a b Ha. by apply Hs3.
Qed.

Lemma txo_write_data_inv pid accounts contract rest w w' :
  Forall is_byte rest -> Forall is_byte (data_at w (key contract)) ->
  process_write_data pid accounts contract rest w = Ok w' ->
  let offset := le_val (take 4 (drop 4 rest)) in
  exists h h1 d1, read_pod (data_at w (key contract)) = Some h /\ signed_by_writer accounts h /\
    handle_batch_transition h (le_val (take 4 rest)) = Ok h1 /\
    write_slice (48 + offset) (drop 8 rest) (data_at w (key contract)) = Some d1 /\
    exists size, read_pod (data_at w' (key contract)) = Some (with_data_size size h1).
Proof.
  intros Hb Hd Hr offset. unfold process_write_data in Hr. cbv zeta in Hr. fold offset in Hr.
  peel Hr as E0. peel Hr as E1. peel Hr as E2. rename x into signer. peel Hr as E3.
  destruct (read_pod (data_at w (key contract))) as [h|] eqn:Hh; [|discriminate Hr]. cbn [or_panic res_bind] in Hr.
  peel Hr as E4. peel Hr as E5. rename x into h1. peel Hr as E6. unfold HEADER_SIZE in *.
  destruct (write_slice (48 + offset) (drop 8 rest) _) as [d1|] eqn:Hw1; [|discriminate Hr]. cbn [or_panic res_bind] in Hr.
  peel Hr as E7. rename x into d2. injection Hr as <-.
  destruct (write_pod _ d1) as [d2'|] eqn:Hw2 in E7; [|discriminate E7]. injection E7 as ->.
  assert (pod_wf h1) as Hwf1.
  { eapply handle_batch_wf; [by eapply read_pod_wf| |exact E5]. by apply le_val_u32. }
  assert (exists size, (if txo_data_size h1 <? offset + len (drop 8 rest)
    then with_data_size (u32 (offset + len (drop 8 rest))) h1 else h1) = with_data_size size h1 /\ in_width 32 size)
    as (size & Es & Hsz).
  { destruct (txo_data_size h1 <? _); [eexists; split; [reflexivity|by apply wrap_in_width]|].
    exists (txo_data_size h1). split; [by destruct h1|]. by destruct Hwf1 as (_ & _ & _ & _ & _ & ?). }
  rewrite Es in Hw2. destruct (write_pod_spec (with_data_size size h1) d1 d2) as (Hr2 & _);
    [by apply with_data_size_wf|done|].
  exists h, h1, d1. split; [done|]. split; [|split; [done|split; [done|]]].
  { exists signer. split; [by apply nth_account_ok|]. reflect_guards. split; [by destruct (is_signer signer)|done]. }
  exists size. by rewrite data_at_set_data.
Qed.

Lemma txo_initialize_inv pid contract rest w w' :
  process_initialize pid contract rest w = Ok w' ->
  len rest = 32 /\ key contract = (find_program_address [txo_buffer_seed; rest] pid).1 /\
  (forall k, k <> key contract -> data_at w' k = data_at w k) /\
  (len (data_at w (key contract)) <> 0 ->
   exists h, read_pod (data_at w (key contract)) = Some h /\
     write_pod (with_writer rest h) (data_at w (key contract)) = Some (data_at w' (key contract))).
Proof.
  intros Hr. unfold process_initialize in Hr. cbv zeta in Hr. peel Hr as E0.
  destruct (find_program_address _ _) as [pda bump]. peel Hr as E1. peel Hr as E2. rename x into w1.
  peel Hr as E3. peel Hr as E4. peel Hr as E5. rename x into h. peel Hr as E6. rename x into d'.
  injection Hr as <-. reflect_guards. split; [done|]. split; [done|]. split.
  - intros k Hk. rewrite data_at_set_data_ne by done. branch E2 as F; [|by injection E2 as <-].
    peel E2 as F1. peel E2 as F2. rewrite (assign_keeps_data _ _ _ _ _ _ E2 k).
    by apply (allocate_zeroes _ _ _ _ _ _ F2).
  - intros Hne. branch E2 as F; [apply Z.eqb_eq in F; done|]. injection E2 as <-. rewrite data_at_set_data.
    destruct (read_pod _) as [h0|] eqn:Eh in E5; [|discriminate E5]. injection E5 as ->.
    destruct (write_pod _ _) as [d0|] eqn:Ew in E6; [|discriminate E6]. injection E6 as ->. by exists h.
Qed.

(** An instruction writes the contract account only. *)
Lemma set_data_length_frame pid accounts contract rest w w' k :
  process_set_data_length pid accounts contract rest w = Ok w' -> k <> key contract -> data_at w' k = data_at w k.
Proof.
  intros Hr Hk. unfold process_set_data_length in Hr. cbv zeta in Hr. peel Hr as E0. peel Hr as E1. peel Hr as E2.
  peel Hr as E3. peel Hr as E4. peel Hr as E5. peel Hr as E6. peel Hr as E7. peel Hr as E8. peel Hr as E9.
  peel Hr as E10. peel Hr as E11. peel Hr as E12. injection Hr as <-. rewrite data_at_set_data_ne by done.
  branch E10 as F; [|peel E10 as F1; injection E10 as <-; by apply data_at_set_data_ne].
  apply txo_realloc_data in E10 as [_ Hf]. rewrite Hf by done. by apply data_at_set_data_ne.
Qed.

Lemma txo_write_frame pid accounts contract rest w w' k :
  process_write_data pid accounts contract rest w = Ok w' -> k <> key contract -> data_at w' k = data_at w k.
Proof.
  intros Hr Hk. unfold process_write_data in Hr. cbv zeta in Hr. peel Hr as E0. peel Hr as E1. peel Hr as E2.
  peel Hr as E3. peel Hr as E4. peel Hr as E5. peel Hr as E6. peel Hr as E7. peel Hr as E8. peel Hr as E9.
  injection Hr as <-. by apply data_at_set_data_ne.
Qed.

(** [C39] A finalized batch of a TXO buffer does not change.  When an instruction of
    the program succeeds, whatever its accounts and data, a buffer whose header is
    finalized keeps its whole memory, or it is re-initialised for the writer its
    address is derived from (only the writer and the status field are written), or
    its authorised writer signed and opened the batch with the next number. *)
Theorem finalized_batch_immutable pid accounts input w w' k (h : Header) :
  Forall is_byte input -> Forall is_byte (data_at w k) ->
  read_pod (data_at w k) = Some h -> txo_finalized_status h = 1 ->
  process_instruction pid accounts input w = Ok w' ->
  data_at w' k = data_at w k \/
  (exists writer, input = 0 :: writer /\ k = (find_program_address [txo_buffer_seed; writer] pid).1 /\
     write_pod (with_writer writer h) (data_at w k) = Some (data_at w' k)) \/
  (signed_by_writer accounts h /\
   exists h', read_pod (data_at w' k) = Some h' /\ txo_batch_id h' = u32 (txo_batch_id h + 1)).
Proof.
  intros Hb Hd Hh Hf Hr. unfold process_instruction in Hr. destruct input as [|tag rest]; [discriminate Hr|].
  apply Forall_cons in Hb as [_ Hb]. peel Hr as E0. rename x into contract.
  destruct tag as [|tag|]; [| |discriminate Hr].
  - apply txo_initialize_inv in Hr as (_ & Hpda & Hframe & Hw). destruct (decide (k = key contract)) as [->|Hk];
      [|left; by apply Hframe].
    right. left. destruct Hw as (h0 & Hh0 & Hw); [pose proof (read_pod_len _ _ Hh) as Hl; rewrite txo_header_size in Hl; lia|].
    rewrite Hh in Hh0. injection Hh0 as <-. by exists rest.
  - destruct tag as [tag|tag|]; [discriminate Hr| |].
    + destruct tag; try discriminate Hr. destruct (decide (k = key contract)) as [->|Hk].
      * apply txo_write_data_inv in Hr as (h0 & h1 & d1 & Hh0 & Hsig & Hbt & _ & size & Hr'); [|done..].
        rewrite Hh in Hh0. injection Hh0 as <-. apply handle_batch_finalized in Hbt as ->; [|done].
        right. right. split; [done|]. eexists. split; [exact Hr'|]. done.
      * left. by eapply txo_write_frame.
    + destruct (decide (k = key contract)) as [->|Hk].
      * apply set_data_length_inv in Hr as (h0 & h1 & d1 & Hh0 & Hsig & Hbt & _ & Hr' & _); [|done..].
        rewrite Hh in Hh0. injection Hh0 as <-. apply handle_batch_finalized in Hbt as ->; [|done].
        right. right. split; [done|]. eexists. split; [exact Hr'|]. done.
      * left. by eapply set_data_length_frame.
Qed.
End instructions.
