(* ===== verification/GenericBuffer.v ===== *)
(** * GenericBuffer: the generic buffer program

    Models [programs/generic-buffer/src/lib.rs].  The buffer carries call data that is
    too large for one transaction: a 32-byte header that names the writer, and the
    data.  The processor reads the data of a buffer in one go, so the program needs no
    lock; what counts is that nobody but the writer can change it. *)
From S2P Require Import Prelude Errors Pod Runtime.
From Stdlib Require Import ZArith Lia.
From stdpp Require Import base decidable list numbers option gmap.

Open Scope Z_scope.
Open Scope bridge_scope.

Module GenericBuffer.

Record BufferBuilderHeader := { authorized_writer : bytes }.

#[global] Instance BufferBuilderHeader_eq_dec : EqDecision BufferBuilderHeader.
Proof. solve_decision. Defined.

#[global] Instance BufferBuilderHeader_pod : Pod BufferBuilderHeader.
Proof.
  refine (pod_iso (pod_array 32) (fun x => {| authorized_writer := x |}) authorized_writer _ _); pod_iso_tac.
Defined.

Definition HEADER_SIZE : Z := 32.
Definition MAX_PERMITTED_DATA_INCREASE : Z := 10240.

Section program.
Context `{Runtime}.

(** The balances are moved one after the other, so one account may be both. *)
Definition realloc_account (w : World) (account payer system_program : AccountInfo) (target_size : Z)
    : res ProgramError World :=
  let current_size := len (data_at w (key account)) in
  let current_minimum_balance := minimum_balance current_size in
  let target_minimum_balance := minimum_balance target_size in
  let lamports_diff :=
    if current_size <? target_size then u64 (target_minimum_balance - current_minimum_balance)
    else u64 (current_minimum_balance - target_minimum_balance) in
  try w1 <-
    (if current_size <? target_size then
       invoke_signed w (SystemTransfer (key payer) (key account) lamports_diff)
         [payer; account; system_program] []
     else if target_size <? current_size then
       let wa := set_lamports w (key account) (u64 (lamports_at w (key account) - lamports_diff)) in
       Ok (set_lamports wa (key payer) (u64 (lamports_at wa (key payer) + lamports_diff)))
     else Ok w);
  realloc w1 (key account) target_size.

(** Growth is limited per instruction, shrinking is not. *)
Definition achievable_size (current_size target_total_size : Z) : Z :=
  if current_size <? target_total_size
  then current_size + Z.min (target_total_size - current_size) MAX_PERMITTED_DATA_INCREASE
  else target_total_size.

Definition process_init (storage_account payer system_program : AccountInfo) (rest : bytes) (w : World)
    : res ProgramError World :=
  bail InvalidInstructionData if negb (len rest =? 4);
  let target_total_size := HEADER_SIZE + le_val rest in
  let d := data_at w (key storage_account) in
  bail AccountDataTooSmall if len d <? HEADER_SIZE;
  try header <- or_panic (read_pod d);
  bail AccountAlreadyInitialized if negb (bool_decide (authorized_writer header = zeros 32));
  try d' <- or_panic (write_pod {| authorized_writer := key payer |} d);
  let w1 := set_data w (key storage_account) d' in
  realloc_account w1 storage_account payer system_program
    (achievable_size (len (data_at w1 (key storage_account))) target_total_size).

(** The check that [Resize] and [WriteData] begin with. *)
Definition verify_writer (w : World) (storage_account payer : AccountInfo) : res ProgramError unit :=
  let d := data_at w (key storage_account) in
  bail AccountDataTooSmall if len d <? HEADER_SIZE;
  try header <- or_panic (read_pod d);
  bail IllegalOwner if negb (bool_decide (authorized_writer header = key payer));
  Ok tt.

Definition process_resize (storage_account payer system_program : AccountInfo) (rest : bytes) (w : World)
    : res ProgramError World :=
  bail InvalidInstructionData if negb (len rest =? 4);
  let target_total_size := HEADER_SIZE + le_val rest in
  try _ <- verify_writer w storage_account payer;
  realloc_account w storage_account payer system_program
    (achievable_size (len (data_at w (key storage_account))) target_total_size).

Definition process_write_data (storage_account payer system_program : AccountInfo) (rest : bytes) (w : World)
    : res ProgramError World :=
  bail InvalidInstructionData if len rest <? 4;
  let offset := le_val (take 4 rest) in
  let write_data := drop 4 rest in
  try _ <- verify_writer w storage_account payer;
  let current_total_size := len (data_at w (key storage_account)) in
  let required_total_size := HEADER_SIZE + offset + len write_data in
  try w1 <-
    (if current_total_size <? required_total_size
     then realloc_account w storage_account payer system_program
            (achievable_size current_total_size required_total_size)
     else Ok w);
  let d := data_at w1 (key storage_account) in
  bail AccountDataTooSmall if len d <? HEADER_SIZE + offset + len write_data;
  try d' <- or_panic (write_slice (HEADER_SIZE + offset) write_data d);
  Ok (set_data w1 (key storage_account) d').

Definition process_instruction (program_id : Pubkey) (accounts : list AccountInfo)
    (instruction_data : bytes) (w : World) : res ProgramError World :=
  match instruction_data with
  | [] => Err InvalidInstructionData
  | tag :: rest =>
      try storage_account <- nth_account accounts 0;
      bail IncorrectProgramId if negb (bool_decide (owner_at w (key storage_account) = program_id));
      try payer <- nth_account accounts 1;
      try system_program <- nth_account accounts 2;
      bail MissingRequiredSignature if negb (is_signer payer);
      match tag with
      | 0 => process_init storage_account payer system_program rest w
      | 1 => process_resize storage_account payer system_program rest w
      | 2 => process_write_data storage_account payer system_program rest w
      | _ => Err InvalidInstructionData
      end
  end.
End program.

(** ** Nobody but the writer changes a buffer *)

Lemma generic_header_size : Z.of_nat (pod_size BufferBuilderHeader) = 32.
Proof. done. Qed.

Section safety.
Context `{RuntimeLaws}.

Lemma generic_realloc_data w account payer system n w' :
  realloc_account w account payer system n = Ok w' ->
  data_at w' (key account) = resized n (data_at w (key account)) /\
  forall k, k <> key account -> data_at w' k = data_at w k.
Proof.
  intros Hr. unfold realloc_account in Hr. cbv zeta in Hr. peel Hr as E0. rename x into w1.
  assert (forall k, data_at w1 k = data_at w k) as Hsame.
  { branch E0 as F0; [|branch E0 as F1; [|by injection E0 as <-]].
    - intros k. by apply (transfer_keeps_data _ _ _ _ _ _ _ E0).
    - injection E0 as <-. intros k. by autorewrite with world. }
  apply realloc_resizes in Hr as ->. split; [by rewrite data_at_set_data, Hsame|].
  intros k Hk. by rewrite data_at_set_data_ne by done.
Qed.

Lemma generic_verify_writer_inv w storage payer u :
  verify_writer w storage payer = Ok u ->
  exists h, read_pod (data_at w (key storage)) = Some h /\ authorized_writer h = key payer.
Proof.
  intros Hr. unfold verify_writer in Hr. peel Hr as E0. peel Hr as E1. rename x into h. peel Hr as E2.
  destruct (read_pod _) as [h0|] eqn:Eh in E1; [|discriminate E1]. injection E1 as ->. reflect_guards. by exists h.
Qed.

Lemma generic_init_inv storage payer system rest w w' :
  process_init storage payer system rest w = Ok w' ->
  (exists h, read_pod (data_at w (key storage)) = Some h /\ authorized_writer h = zeros 32) /\
  forall k, k <> key storage -> data_at w' k = data_at w k.
Proof.
  intros Hr. unfold process_init in Hr. cbv zeta in Hr. peel Hr as E0. peel Hr as E1. peel Hr as E2. rename x into h.
  peel Hr as E3. peel Hr as E4. destruct (read_pod _) as [h0|] eqn:Eh in E2; [|discriminate E2]. injection E2 as ->.
  apply generic_realloc_data in Hr as [_ Hf]. reflect_guards. split; [by exists h|].
  intros k Hk. rewrite Hf by done. by apply data_at_set_data_ne.
Qed.

Lemma generic_write_data_inv storage payer system rest w w' :
  process_write_data storage payer system rest w = Ok w' ->
  (exists h, read_pod (data_at w (key storage)) = Some h /\ authorized_writer h = key payer) /\
  (forall k, k <> key storage -> data_at w' k = data_at w k) /\
  let offset := le_val (take 4 rest) in
  slice (32 + offset) (32 + offset + len (drop 4 rest)) (data_at w' (key storage)) = Some (drop 4 rest).
Proof.
  intros Hr. unfold process_write_data in Hr. cbv zeta in Hr. peel Hr as E0. peel Hr as E1. peel Hr as E2.
  rename x0 into w1. peel Hr as E3. peel Hr as E4. rename x0 into d'. injection Hr as <-.
  split; [by eapply generic_verify_writer_inv|]. split.
  - intros k Hk. rewrite data_at_set_data_ne by done. branch E2 as F; [|by injection E2 as <-].
    apply generic_realloc_data in E2 as [_ Hf]. by apply Hf.
  - destruct (write_slice _ _ _) as [d0|] eqn:Ew in E4; [|discriminate E4]. injection E4 as ->.
    rewrite data_at_set_data. by apply slice_write_same in Ew.
Qed.

(** A generic buffer belongs to its writer: an instruction of the program that
    succeeds changes an initialised buffer only if the authorised writer signed it,
    and a write leaves exactly the written bytes at their place. *)
Theorem generic_buffer_writer_only pid accounts input w w' k h :
  read_pod (data_at w k) = Some h -> authorized_writer h <> zeros 32 ->
  process_instruction pid accounts input w = Ok w' ->
  data_at w' k = data_at w k \/
  exists storage payer, accounts !! 0%nat = Some storage /\ key storage = k /\
    accounts !! 1%nat = Some payer /\ is_signer payer = true /\ key payer = authorized_writer h /\
    (head input = Some 2 -> let rest := tail input in let offset := le_val (take 4 rest) in
       slice (32 + offset) (32 + offset + len (drop 4 rest)) (data_at w' k) = Some (drop 4 rest)).
Proof.
  intros Hh Hne Hr. unfold process_instruction, nth_account in Hr. destruct input as [|tag rest]; [discriminate Hr|].
  destruct (accounts !! 0%nat) as [storage|] eqn:Ea; [|discriminate Hr]. cbn [ok_or res_bind] in Hr. peel Hr as E0.
  destruct (accounts !! 1%nat) as [payer|] eqn:Ep; [|discriminate Hr]. cbn [ok_or res_bind] in Hr.
  peel Hr as E1. peel Hr as E2. rename x into system. apply negb_false_iff in E2.
  destruct (decide (k = key storage)) as [->|Hk]; [right; exists storage, payer|left].
  - split; [done|]. split; [done|]. split; [done|]. split; [done|].
    destruct tag as [|tag|]; [| |discriminate Hr].
    { apply generic_init_inv in Hr as [(h0 & Hh0 & Hz) _]. congruence. }
    destruct tag as [tag|tag|]; [discriminate Hr|destruct tag; try discriminate Hr|].
    + apply generic_write_data_inv in Hr as ((h0 & Hh0 & Hw) & _ & Hs). split; [congruence|]. by intros _.
    + unfold process_resize in Hr. peel Hr as E3. cbv zeta in Hr. peel Hr as E4.
      apply generic_verify_writer_inv in E4 as (h0 & Hh0 & Hw). split; [congruence|]. done.
  - destruct tag as [|tag|]; [by eapply generic_init_inv| |discriminate Hr].
    destruct tag as [tag|tag|]; [discriminate Hr|destruct tag; try discriminate Hr; by apply generic_write_data_inv in Hr as (_ & Hf & _); auto|].
    unfold process_resize in Hr. peel Hr as E3. cbv zeta in Hr. peel Hr as E4.
    apply generic_realloc_data in Hr as [_ Hf]. by apply Hf.
Qed.
End safety.
End GenericBuffer.
