(* ===== verification/BufferClient.v ===== *)
(** * BufferClient: how the client builds buffers

    Models the buffer builders of the Rust client ([clients/rust/src/buffer]) and the
    instructions they send ([clients/rust/src/instructions.rs]).  The client splits
    the TXO indices into chunks of 900 bytes and writes them concurrently, so the
    program sees the writes in any order, and a retried write more than once. *)
From S2P Require Import Prelude Errors Pod Hash Runtime Types.
From Stdlib Require Import ZArith Lia.
From stdpp Require Import base decidable list numbers option gmap.

Open Scope Z_scope.
Open Scope bridge_scope.

Module BufferClient.

Definition CHUNK_SIZE : Z := 900.

(** ** buffer/txo.rs *)

Definition TXO_BUFFER_HEADER_SIZE : Z := 48.

Record TxoBufferBuilder := { indices : list Z; block_height : Z }.

Definition total_indices (self : TxoBufferBuilder) : Z := len (indices self).
Definition data_size (self : TxoBufferBuilder) : Z := len (indices self) * 4.
Definition txo_buffer_size (self : TxoBufferBuilder) : Z := TXO_BUFFER_HEADER_SIZE + data_size self.

Definition serialize_all (self : TxoBufferBuilder) : bytes := concat (le_bytes 4 <$> indices self).

Definition num_chunks (self : TxoBufferBuilder) : Z :=
  if data_size self =? 0 then 0 else (data_size self + CHUNK_SIZE - 1) / CHUNK_SIZE.

(** [all_data[start..end]] panics when the chunk does not exist. *)
Definition get_chunk (self : TxoBufferBuilder) (chunk_idx : Z) : option bytes :=
  let all_data := serialize_all self in
  let start := chunk_idx * CHUNK_SIZE in
  slice start (Z.min (start + CHUNK_SIZE) (len all_data)) all_data.

(** [slice::chunks]: consecutive pieces of [n] elements, the last one shorter. *)
Definition slice_chunks {A} (n : nat) (l : list A) : list (list A) :=
  (fun i => take n (drop (i * n) l)) <$> seq 0 ((length l + n - 1) / n).

Definition chunks (self : TxoBufferBuilder) : list (Z * bytes) :=
  imap (fun i chunk => (Z.of_nat i * CHUNK_SIZE, chunk)) (slice_chunks 900 (serialize_all self)).

(** ** buffer/pending_mint.rs *)

Definition PENDING_MINT_BUFFER_HEADER_SIZE : Z := 72.

Record PendingMintBufferBuilder := { mints : list PendingMint }.

Definition total_mints (self : PendingMintBufferBuilder) : Z := len (mints self).

Definition num_groups (self : PendingMintBufferBuilder) : Z :=
  if len (mints self) =? 0 then 0
  else (len (mints self) + PM_MAX_PENDING_MINTS_PER_GROUP - 1) / PM_MAX_PENDING_MINTS_PER_GROUP.

Definition mint_buffer_size (self : PendingMintBufferBuilder) : Z :=
  PENDING_MINT_BUFFER_HEADER_SIZE + num_groups self * 32 + len (mints self) * PM_DA_PENDING_MINT_SIZE.

Definition get_group (self : PendingMintBufferBuilder) (group_idx : Z) : option (list PendingMint) :=
  let start := group_idx * PM_MAX_PENDING_MINTS_PER_GROUP in
  slice start (Z.min (start + PM_MAX_PENDING_MINTS_PER_GROUP) (len (mints self))) (mints self).

Definition serialize_group (self : PendingMintBufferBuilder) (group_idx : Z) : option bytes :=
  group ← get_group self group_idx; Some (concat (bytes_of <$> group)).

(** ** instructions.rs *)

(** [AccountMeta::new] and [AccountMeta::new_readonly]. *)
Definition meta_new (k : Pubkey) (signer : bool) : AccountMeta :=
  {| meta_key := k; meta_is_signer := signer; meta_is_writable := true |}.
Definition meta_new_readonly (k : Pubkey) (signer : bool) : AccountMeta :=
  {| meta_key := k; meta_is_signer := signer; meta_is_writable := false |}.

(** [system_program::id()] is the zero address. *)
Definition system_program_id : Pubkey := zeros 32.

Definition flag (b : bool) : Z := if b then 1 else 0.

Definition generic_buffer_init (program_id account payer : Pubkey) (target_size : Z) : Instruction :=
  RawInstruction program_id
    [meta_new account false; meta_new payer true; meta_new_readonly system_program_id false]
    (0 :: le_bytes 4 target_size).

Definition generic_buffer_write (program_id account payer : Pubkey) (offset : Z) (bs : bytes) : Instruction :=
  RawInstruction program_id
    [meta_new account false; meta_new payer true; meta_new_readonly system_program_id false]
    (2 :: le_bytes 4 offset ++ bs).

Definition pending_mint_setup (program_id account locker writer : Pubkey) : Instruction :=
  RawInstruction program_id
    [meta_new account false; meta_new_readonly system_program_id false]
    (0 :: locker ++ writer).

Definition pending_mint_reinit (program_id account payer : Pubkey) (total_mints : Z) : Instruction :=
  RawInstruction program_id
    [meta_new account false; meta_new payer true; meta_new_readonly system_program_id false]
    (1 :: le_bytes 2 total_mints).

Definition pending_mint_insert (program_id account payer : Pubkey) (group_idx : Z) (mint_data : bytes) : Instruction :=
  RawInstruction program_id
    [meta_new account false; meta_new payer true; meta_new_readonly system_program_id false]
    (3 :: le_bytes 2 group_idx ++ mint_data).

Definition txo_buffer_init (program_id account writer : Pubkey) : Instruction :=
  RawInstruction program_id
    [meta_new account false; meta_new_readonly system_program_id false]
    (0 :: writer).

(** The program takes its signer from the second account, which is the payer here;
    the writer only comes fourth. *)
Definition txo_buffer_set_len (program_id account payer writer : Pubkey) (new_len : Z) (resize : bool)
    (batch_id height : Z) (finalize : bool) : Instruction :=
  RawInstruction program_id
    [meta_new account false; meta_new payer true; meta_new_readonly system_program_id false;
     meta_new_readonly writer true]
    (1 :: le_bytes 4 new_len ++ [flag resize] ++ le_bytes 4 batch_id ++ le_bytes 4 height ++ [flag finalize]).

Definition txo_buffer_write (program_id account writer : Pubkey) (batch_id offset : Z) (bs : bytes) : Instruction :=
  RawInstruction program_id
    [meta_new account false; meta_new writer true]
    (2 :: le_bytes 4 batch_id ++ le_bytes 4 offset ++ bs).

(** ** Delivery: a program runs on the accounts and data of an instruction *)

Definition account_info (m : AccountMeta) : AccountInfo :=
  {| key := meta_key m; is_signer := meta_is_signer m; is_writable := meta_is_writable m |}.

Definition deliver (entry : Pubkey -> list AccountInfo -> bytes -> World -> res ProgramError World)
    (i : Instruction) (w : World) : res ProgramError World :=
  match i with
  | RawInstruction program_id metas input => entry program_id (account_info <$> metas) input w
  | _ => Err InvalidInstructionData
  end.

(** Instructions one after the other. *)
Fixpoint deliver_all (entry : Pubkey -> list AccountInfo -> bytes -> World -> res ProgramError World)
    (l : list Instruction) (w : World) : res ProgramError World :=
  match l with
  | [] => Ok w
  | i :: l => try w1 <- deliver entry i w; deliver_all entry l w1
  end.
End BufferClient.
