(* ===== verification/MintGroup.v ===== *)
(** * MintGroup: claiming pending mints in groups

    Models [psy-doge-solana-core/src/program_state/mint_group.rs]: the tracker with
    its 256-bit claim bitmap, and the manager that walks through up to eight
    finalized blocks whose mints are still to be claimed.

    The specification of the tracker is the set of claimed group indices; the
    invariant [tracker_inv] ties the bitmap and the remaining counter together. *)
From S2P Require Import Prelude Pod Hash Errors Types.
From Stdlib Require Import ZArith Lia.
From stdpp Require Import base decidable list numbers option.

Open Scope Z_scope.
Open Scope bridge_scope.

(** ** PendingMintsTracker *)

Record PendingMintsTracker := {
  last_finalized_auto_claim_mints_storage_account : bytes;
  pending_mint_groups_claimed : bytes;
  total_pending_mints : Z;
  pending_mints_groups_remaining : Z
}.

#[export] Instance PendingMintsTracker_eq_dec : EqDecision PendingMintsTracker.
Proof. solve_decision. Defined.

#[export] Instance PendingMintsTracker_pod : Pod PendingMintsTracker.
Proof.
  refine (pod_iso (pod_array 32 ** pod_array 32 ** pod_uint 4 ** pod_uint 4)
    (fun '(x0, (x1, (x2, x3))) =>
      {| last_finalized_auto_claim_mints_storage_account := x0; pending_mint_groups_claimed := x1;
         total_pending_mints := x2; pending_mints_groups_remaining := x3 |})
    (fun r => (last_finalized_auto_claim_mints_storage_account r, (pending_mint_groups_claimed r,
      (total_pending_mints r, pending_mints_groups_remaining r)))) _ _);
    pod_iso_tac.
Defined.

Definition tracker_is_empty (self : PendingMintsTracker) : bool :=
  pending_mints_groups_remaining self =? 0.

(** Panics ([None]) when the byte index is outside the 32-byte bitmap. *)
Definition is_pending_mints_group_already_claimed (self : PendingMintsTracker) (group_index : Z)
    : option bool :=
  let byte_index := Z.shiftr group_index 3 in
  byte ← index (pending_mint_groups_claimed self) byte_index;
  Some (Z.land (Z.shiftr byte (Z.land group_index 7)) 1 =? 1).

Definition get_current_total_pending_mints_groups (self : PendingMintsTracker) : Z :=
  if u16 (total_pending_mints self) mod PM_MAX_PENDING_MINTS_PER_GROUP =? 0
  then u16 (total_pending_mints self) / PM_MAX_PENDING_MINTS_PER_GROUP
  else u16 (total_pending_mints self) / PM_MAX_PENDING_MINTS_PER_GROUP + 1.

Definition ensure_can_claim_pending_mints_group (self : PendingMintsTracker) (group_index : Z)
    : res DogeBridgeError unit :=
  bail NoPendingMintsToProcess
    if (total_pending_mints self =? 0) || (pending_mints_groups_remaining self =? 0);
  bail PendingMintsGroupIndexOutOfBounds if 256 <? group_index;
  bail PendingMintsGroupIndexOutOfBounds
    if get_current_total_pending_mints_groups self <=? group_index;
  try claimed <- or_panic (is_pending_mints_group_already_claimed self group_index);
  bail PendingMintsGroupAlreadyProcessed if claimed;
  Ok tt.

Definition tracker_mark_pending_mints_group_claimed (self : PendingMintsTracker) (group_index : Z)
    : res DogeBridgeError bool * PendingMintsTracker :=
  bail NoPendingMintsToProcess
    if (total_pending_mints self <=? 0) || (pending_mints_groups_remaining self <=? 0) on self;
  bail PendingMintsGroupIndexOutOfBounds if 256 <? group_index on self;
  try claimed <- or_panic (is_pending_mints_group_already_claimed self group_index) on self;
  bail PendingMintsGroupAlreadyProcessed if claimed on self;
  let byte_index := Z.shiftr group_index 3 in
  try byte <- or_panic (index (pending_mint_groups_claimed self) byte_index) on self;
  try bitmap <- or_panic (set_index (pending_mint_groups_claimed self) byte_index
                            (Z.lor byte (Z.shiftl 1 (Z.land group_index 7)))) on self;
  let remaining := u32 (pending_mints_groups_remaining self - 1) in
  (Ok (remaining =? 0),
   {| last_finalized_auto_claim_mints_storage_account :=
        last_finalized_auto_claim_mints_storage_account self;
      pending_mint_groups_claimed := bitmap;
      total_pending_mints := total_pending_mints self;
      pending_mints_groups_remaining := remaining |}).

(** A tracker with no claims, as every assignment in the source builds it. *)
Definition fresh_tracker (account : bytes) (total remaining : Z) : PendingMintsTracker :=
  {| last_finalized_auto_claim_mints_storage_account := account;
     pending_mint_groups_claimed := zeros 32;
     total_pending_mints := total;
     pending_mints_groups_remaining := remaining |}.

(** ** FinalizedBlockMintTxoManager *)

Record FinalizedBlockMintTxoManager := {
  pending_finalized_info : list FinalizedBlockMintTxoInfo;
  pending_finalized_info_current_index : Z;
  pending_finalized_info_total_count : Z;
  start_block_height : Z;
  current_pending_mints_tracker : PendingMintsTracker
}.

#[export] Instance FinalizedBlockMintTxoManager_eq_dec : EqDecision FinalizedBlockMintTxoManager.
Proof. solve_decision. Defined.

#[export] Instance FinalizedBlockMintTxoManager_pod : Pod FinalizedBlockMintTxoManager.
Proof.
  refine (pod_iso (pod_list 8 FinalizedBlockMintTxoInfo_pod ** pod_uint 2 ** pod_uint 2 ** pod_uint 4 **
      PendingMintsTracker_pod)
    (fun '(x0, (x1, (x2, (x3, x4)))) =>
      {| pending_finalized_info := x0; pending_finalized_info_current_index := x1;
         pending_finalized_info_total_count := x2; start_block_height := x3;
         current_pending_mints_tracker := x4 |})
    (fun r => (pending_finalized_info r, (pending_finalized_info_current_index r,
      (pending_finalized_info_total_count r, (start_block_height r,
      current_pending_mints_tracker r))))) _ _);
    pod_iso_tac.
Defined.

Definition set_tracker (m : FinalizedBlockMintTxoManager) (t : PendingMintsTracker)
    : FinalizedBlockMintTxoManager :=
  {| pending_finalized_info := pending_finalized_info m;
     pending_finalized_info_current_index := pending_finalized_info_current_index m;
     pending_finalized_info_total_count := pending_finalized_info_total_count m;
     start_block_height := start_block_height m;
     current_pending_mints_tracker := t |}.

Definition set_current_index (m : FinalizedBlockMintTxoManager) (i : Z)
    : FinalizedBlockMintTxoManager :=
  {| pending_finalized_info := pending_finalized_info m;
     pending_finalized_info_current_index := i;
     pending_finalized_info_total_count := pending_finalized_info_total_count m;
     start_block_height := start_block_height m;
     current_pending_mints_tracker := current_pending_mints_tracker m |}.

(** [reset] overwrites every field. *)
Definition manager_reset (self : FinalizedBlockMintTxoManager) : FinalizedBlockMintTxoManager :=
  {| pending_finalized_info := replicate 8 {| pending_mints_finalized_hash := zeros 32;
                                              txo_output_list_finalized_hash := zeros 32 |};
     pending_finalized_info_current_index := 0;
     pending_finalized_info_total_count := 0;
     start_block_height := 0;
     current_pending_mints_tracker := fresh_tracker (zeros 32) 0 0 |}.

Definition manager_new_empty : FinalizedBlockMintTxoManager := zeroed FinalizedBlockMintTxoManager.

Definition manager_is_empty (self : FinalizedBlockMintTxoManager) : bool :=
  (pending_finalized_info_total_count self =? 0)
  || ((pending_finalized_info_total_count self =? pending_finalized_info_current_index self)
      && tracker_is_empty (current_pending_mints_tracker self)).

(** [for i in current..total]: the number of leading empty blocks from [i] on;
    [None] is an index outside the array of eight. *)
Fixpoint skip_empty (info : list FinalizedBlockMintTxoInfo) (i : Z) (todo : nat) : option Z :=
  match todo with
  | O => Some 0
  | S todo =>
      x ← index info i;
      if negb (info_is_empty x) then Some 0
      else n ← skip_empty info (i + 1) todo; Some (n + 1)
  end.

Definition fast_forward_empty (self : FinalizedBlockMintTxoManager)
    : option FinalizedBlockMintTxoManager :=
  let current := pending_finalized_info_current_index self in
  let total := pending_finalized_info_total_count self in
  if (total <=? current) || negb (tracker_is_empty (current_pending_mints_tracker self))
     || manager_is_empty self
  then Some self
  else
    skipped ← skip_empty (pending_finalized_info self) current (Z.to_nat (total - current));
    let self1 := set_current_index self (u16 (current + skipped)) in
    Some (if 0 <? skipped then set_tracker self1 (fresh_tracker (zeros 32) 0 0) else self1).

Definition mark_pending_mints_group_claimed (self : FinalizedBlockMintTxoManager) (group_index : Z)
    : res DogeBridgeError bool * FinalizedBlockMintTxoManager :=
  call (result, self1) <-
    tracker_mark_pending_mints_group_claimed (current_pending_mints_tracker self) group_index
    into (set_tracker self);
  let self2 :=
    if result then
      if pending_finalized_info_current_index self1 <? pending_finalized_info_total_count self1
      then set_current_index self1 (u16 (pending_finalized_info_current_index self1 + 1))
      else self1
    else self1 in
  (Ok result, self2).

Definition ensure_ready_to_start_next_pending_finalized_info (self : FinalizedBlockMintTxoManager)
    : res DogeBridgeError unit :=
  bail RemainingPendingMintsInPreviousState
    if negb (tracker_is_empty (current_pending_mints_tracker self));
  bail NoPendingMintsToAutoProcess
    if pending_finalized_info_total_count self <=? pending_finalized_info_current_index self;
  Ok tt.

(** [for i in 0..block_groups.len() { self.pending_finalized_info[i] = *block_groups[i] }]; the
    caller has checked that there are at most eight. *)
Definition copy_block_groups (info block_groups : list FinalizedBlockMintTxoInfo)
    : list FinalizedBlockMintTxoInfo :=
  block_groups ++ drop (length block_groups) info.

Definition standard_append_block (self : FinalizedBlockMintTxoManager) (block_height : Z)
    (block_groups : list FinalizedBlockMintTxoInfo) (auto_claim_mints_storage_account : bytes)
    (total_pending_mints_for_first_block total_pending_mints_groups_for_first_block : Z)
    : res DogeBridgeError unit * FinalizedBlockMintTxoManager :=
  bail PendingFinalizedBlockMintsNotEmpty if negb (manager_is_empty self) on self;
  bail PendingFinalizedBlockMintsInvalidGroupCount if 8 <? len block_groups on self;
  if len block_groups =? 0 then (Ok tt, self) else
  let self1 :=
    {| pending_finalized_info := copy_block_groups (pending_finalized_info self) block_groups;
       pending_finalized_info_current_index := 0;
       pending_finalized_info_total_count := u16 (len block_groups);
       start_block_height := block_height;
       current_pending_mints_tracker := fresh_tracker auto_claim_mints_storage_account 0 0 |} in
  try self2 <- or_panic (fast_forward_empty self1) on self1;
  if manager_is_empty self2 then
    bail PendingFinalizedBlockMintsInvalidAutoClaimMintsData
      if negb (total_pending_mints_for_first_block =? 0)
         || negb (total_pending_mints_groups_for_first_block =? 0) on self2;
    (Ok tt, self2)
  else
    (Ok tt, set_tracker self2
       {| last_finalized_auto_claim_mints_storage_account :=
            last_finalized_auto_claim_mints_storage_account (current_pending_mints_tracker self2);
          pending_mint_groups_claimed :=
            pending_mint_groups_claimed (current_pending_mints_tracker self2);
          total_pending_mints := total_pending_mints_for_first_block;
          pending_mints_groups_remaining := total_pending_mints_groups_for_first_block |}).

(** ** Specification of the tracker *)

(** Bit [g] of the bitmap. *)
Definition claimed_bit (t : PendingMintsTracker) (g : Z) : bool :=
  Z.testbit (nth (Z.to_nat (g / 8)) (pending_mint_groups_claimed t) 0) (g mod 8).

(** The claimed groups. *)
Definition claimed (t : PendingMintsTracker) : list Z :=
  filter (fun g => claimed_bit t g = true) (seqZ 0 256).

Abbreviation groups := get_current_total_pending_mints_groups.

(** The counter is what is left of the groups, and only existing groups are
    claimed. *)
Definition tracker_inv (t : PendingMintsTracker) : Prop :=
  byte_array 32 (pending_mint_groups_claimed t) /\
  0 < total_pending_mints t < 2 ^ 16 /\
  pending_mints_groups_remaining t = groups t - len (claimed t) /\
  (forall g, g ∈ claimed t -> g < groups t).

(** One claim as [auto_mint.rs] performs it: check, then mark. *)
Definition claim (t : PendingMintsTracker) (g : Z) : res DogeBridgeError bool * PendingMintsTracker :=
  try _ <- ensure_can_claim_pending_mints_group t g on t;
  tracker_mark_pending_mints_group_claimed t g.

(** ** Lemmas on the bitmap *)

Lemma land7 g : Z.land g 7 = g mod 8.
Proof. change 7 with (Z.ones 3). by rewrite Z.land_ones by lia. Qed.

Lemma shiftr3 g : Z.shiftr g 3 = g / 8.
Proof. by rewrite Z.shiftr_div_pow2. Qed.

Lemma bit_read b k : 0 <= k -> (Z.land (Z.shiftr b k) 1 =? 1) = Z.testbit b k.
Proof. intros. by rewrite land1_eqb1, Z.testbit_odd. Qed.

Lemma bitmap_index t g :
  byte_array 32 (pending_mint_groups_claimed t) -> 0 <= g < 256 ->
  index (pending_mint_groups_claimed t) (g / 8) =
    Some (nth (Z.to_nat (g / 8)) (pending_mint_groups_claimed t) 0).
Proof.
  intros [Hl _] Hg. assert (0 <= g / 8 < 32) by (Z.to_euclidean_division_equations; lia).
  destruct (index_is_Some (pending_mint_groups_claimed t) (g / 8)) as [b Hb]; [unfold len; lia|].
  rewrite Hb. apply index_Some in Hb as [_ Hb]. by rewrite nth_lookup, Hb.
Qed.

Lemma already_claimed_spec t g :
  byte_array 32 (pending_mint_groups_claimed t) -> 0 <= g < 256 ->
  is_pending_mints_group_already_claimed t g = Some (claimed_bit t g).
Proof.
  intros Hb Hg. unfold is_pending_mints_group_already_claimed.
  rewrite shiftr3, land7, bitmap_index by done. cbn [mbind option_bind].
  by rewrite bit_read by (Z.to_euclidean_division_equations; lia).
Qed.

Lemma already_claimed_panics t g :
  byte_array 32 (pending_mint_groups_claimed t) -> 256 <= g ->
  is_pending_mints_group_already_claimed t g = None.
Proof.
  intros [Hl _] Hg. unfold is_pending_mints_group_already_claimed, index. rewrite shiftr3.
  destruct (0 <=? g / 8); [|done]. rewrite lookup_ge_None_2; [done|].
  rewrite Hl. Z.to_euclidean_division_equations; lia.
Qed.

Lemma lor_bit_byte b k : is_byte b -> 0 <= k < 8 -> is_byte (Z.lor b (Z.shiftl 1 k)).
Proof.
  unfold is_byte. intros Hb Hk. rewrite Z.shiftl_1_l.
  split; [apply Z.lor_nonneg; lia|].
  destruct (Z.eq_dec (Z.lor b (2 ^ k)) 0) as [->|Hn]; [lia|].
  apply (Z.log2_lt_pow2 _ 8); [pose proof (Z.lor_nonneg b (2 ^ k)); lia|].
  rewrite Z.log2_lor by lia. rewrite Z.log2_pow2 by lia.
  assert (Z.log2 b < 8); [|lia].
  destruct (Z.eq_dec b 0) as [->|]; [simpl; lia|]. apply Z.log2_lt_pow2; lia.
Qed.

(** The tracker after marking group [g]. *)
Definition marked (t : PendingMintsTracker) (g : Z) : PendingMintsTracker :=
  let i := Z.to_nat (g / 8) in
  let b := nth i (pending_mint_groups_claimed t) 0 in
  {| last_finalized_auto_claim_mints_storage_account :=
       last_finalized_auto_claim_mints_storage_account t;
     pending_mint_groups_claimed :=
       <[i := Z.lor b (Z.shiftl 1 (g mod 8))]> (pending_mint_groups_claimed t);
     total_pending_mints := total_pending_mints t;
     pending_mints_groups_remaining := u32 (pending_mints_groups_remaining t - 1) |}.

Lemma marked_bytes t g :
  byte_array 32 (pending_mint_groups_claimed t) -> 0 <= g < 256 ->
  byte_array 32 (pending_mint_groups_claimed (marked t g)).
Proof.
  intros [Hl Hb] Hg. split; simpl; [by rewrite length_insert|].
  apply Forall_insert; [done|]. apply lor_bit_byte; [|Z.to_euclidean_division_equations; lia].
  assert (Z.to_nat (g / 8) < 32)%nat by (Z.to_euclidean_division_equations; lia).
  rewrite nth_lookup. destruct (lookup_lt_is_Some_2 (pending_mint_groups_claimed t) (Z.to_nat (g / 8)))
    as [x Hx]; [lia|]. rewrite Hx. by eapply Forall_lookup_1 in Hb.
Qed.

Lemma marked_bit t g h :
  byte_array 32 (pending_mint_groups_claimed t) -> 0 <= g < 256 -> 0 <= h < 256 ->
  claimed_bit (marked t g) h = claimed_bit t h || (h =? g).
Proof.
  intros [Hl _] Hg Hh. unfold claimed_bit, marked. cbn [pending_mint_groups_claimed].
  assert (Z.to_nat (g / 8) < 32)%nat by (Z.to_euclidean_division_equations; lia).
  rewrite (nth_lookup (<[_:=_]> _)). destruct (decide (g / 8 = h / 8)) as [E|E].
  - rewrite <- E, list_lookup_insert_eq by lia. simpl.
    rewrite Z.lor_spec, Z.shiftl_1_l, Z.pow2_bits_eqb by (Z.to_euclidean_division_equations; lia).
    f_equal. apply eq_true_iff_eq. rewrite !Z.eqb_eq.
    split; [|by intros ->]. intros Em. rewrite (Z.div_mod h 8), (Z.div_mod g 8) by lia. congruence.
  - rewrite list_lookup_insert_ne by (Z.to_euclidean_division_equations; lia).
    replace (h =? g) with false by (symmetry; apply Z.eqb_neq; congruence).
    by rewrite orb_false_r, <- nth_lookup.
Qed.

Lemma elem_of_claimed t g : g ∈ claimed t <-> claimed_bit t g = true /\ 0 <= g < 256.
Proof. unfold claimed. rewrite list_elem_of_filter, elem_of_seqZ. done. Qed.

Lemma NoDup_claimed t : NoDup (claimed t).
Proof. apply list.NoDup_filter, NoDup_seqZ. Qed.

Lemma claimed_marked t g :
  byte_array 32 (pending_mint_groups_claimed t) -> 0 <= g < 256 -> claimed_bit t g = false ->
  claimed (marked t g) ≡ₚ g :: claimed t.
Proof.
  intros Hb Hg Hc. apply NoDup_Permutation; [apply NoDup_claimed| |].
  - constructor; [|apply NoDup_claimed]. rewrite elem_of_claimed. intros [? _]. congruence.
  - intros h. rewrite elem_of_cons, !elem_of_claimed. split.
    + intros [Hbit Hh]. rewrite marked_bit in Hbit by done.
      apply orb_true_iff in Hbit as [?|?%Z.eqb_eq]; auto.
    + intros [->|[Hbit Hh]]; (split; [|done]); rewrite marked_bit by done.
      * by rewrite Z.eqb_refl, orb_true_r.
      * by rewrite Hbit.
Qed.

(** [mark] on a group that is not claimed yet. *)
Lemma mark_ok t g :
  byte_array 32 (pending_mint_groups_claimed t) -> 0 < total_pending_mints t ->
  0 < pending_mints_groups_remaining t -> 0 <= g < 256 -> claimed_bit t g = false ->
  tracker_mark_pending_mints_group_claimed t g =
    (Ok (u32 (pending_mints_groups_remaining t - 1) =? 0), marked t g).
Proof.
  intros Hb Ht Hr Hg Hc. unfold tracker_mark_pending_mints_group_claimed.
  rewrite already_claimed_spec, shiftr3, land7, bitmap_index, Hc by done.
  replace (_ || _) with false by (symmetry; apply orb_false_iff; rewrite !Z.leb_gt; lia).
  replace (256 <? g) with false by (symmetry; apply Z.ltb_ge; lia).
  cbn [or_panic pure_call]. rewrite set_index_ok; [done|].
  destruct Hb as [Hl _]. unfold len. rewrite Hl. Z.to_euclidean_division_equations; lia.
Qed.

(** The number of groups is the mint count divided by 24, rounded up. *)
Lemma groups_eq t : 0 <= total_pending_mints t < 2 ^ 16 -> groups t = (total_pending_mints t + 23) / 24.
Proof.
  intros Ht. unfold get_current_total_pending_mints_groups, PM_MAX_PENDING_MINTS_PER_GROUP.
  rewrite wrap_id by (unfold in_width; lia).
  destruct (_ =? 0) eqn:E; reflect_bool; Z.to_euclidean_division_equations; lia.
Qed.

Lemma groups_bound t : 0 < total_pending_mints t < 2 ^ 16 -> 1 <= groups t <= 2731.
Proof. intros Ht. rewrite groups_eq by lia. Z.to_euclidean_division_equations; lia. Qed.

(** Unclaimed groups below 256 imply that the counter is positive. *)
Lemma remaining_pos t g :
  tracker_inv t -> 0 <= g < 256 -> g < groups t -> claimed_bit t g = false ->
  0 < pending_mints_groups_remaining t.
Proof.
  intros (_ & _ & -> & Hin) Hg Hlt Hc.
  assert (g :: claimed t ⊆+ seqZ 0 (groups t)) as Hs%submseteq_length.
  { apply NoDup_submseteq.
    - constructor; [|apply NoDup_claimed]. rewrite elem_of_claimed. intros [? _]. congruence.
    - intros h [->|Hh]%elem_of_cons; apply elem_of_seqZ; [lia|].
      pose proof (Hin _ Hh). apply elem_of_claimed in Hh as [_ ?]. lia. }
  rewrite length_seqZ in Hs. simpl in Hs. unfold len. lia.
Qed.

Lemma claimed_at_most_256 t : len (claimed t) <= 256.
Proof.
  unfold len. assert (claimed t ⊆+ seqZ 0 256) as Hs%submseteq_length.
  { apply NoDup_submseteq; [apply NoDup_claimed|]. intros h [_ ?]%elem_of_claimed.
    apply elem_of_seqZ. lia. }
  rewrite length_seqZ in Hs. lia.
Qed.

(** Marking keeps the invariant. *)
Lemma marked_inv t g :
  tracker_inv t -> 0 <= g < 256 -> g < groups t -> claimed_bit t g = false -> tracker_inv (marked t g).
Proof.
  intros Hinv Hg Hlt Hc. pose proof (remaining_pos _ _ Hinv Hg Hlt Hc) as Hpos.
  destruct Hinv as (Hb & Ht & Hr & Hin). pose proof (claimed_marked _ _ Hb Hg Hc) as HP.
  pose proof (groups_bound t Ht). pose proof (len_nonneg (claimed t)).
  split_and!; [by apply marked_bytes|exact (proj1 Ht)|exact (proj2 Ht)| |].
  - change (groups (marked t g)) with (groups t). simpl.
    apply Permutation_length in HP. unfold len in *. rewrite HP. simpl.
    rewrite wrap_id by (unfold in_width; lia). lia.
  - intros h Hh. change (groups (marked t g)) with (groups t).
    rewrite HP in Hh. apply elem_of_cons in Hh as [->|Hh]; [done|by apply Hin].
Qed.

(** Every claim either succeeds, on a group that exists and is unclaimed, or
    leaves the tracker as it was. *)
Lemma claim_cases t g :
  tracker_inv t -> 0 <= g ->
  (g < groups t /\ g < 256 /\ claimed_bit t g = false /\ tracker_inv (marked t g) /\
   claim t g = (Ok (pending_mints_groups_remaining t =? 1), marked t g)) \/
  (~ (g < groups t /\ g < 256 /\ claimed_bit t g = false) /\
   is_ok (claim t g).1 = false /\ (claim t g).2 = t).
Proof.
  intros Hinv Hg0. pose proof Hinv as (Hb & Ht & Hr & Hin).
  unfold claim, ensure_can_claim_pending_mints_group.
  destruct (_ || _) eqn:E0.
  { right. split; [|done]. intros (? & ? & ?).
    pose proof (remaining_pos _ g Hinv ltac:(lia) ltac:(done) ltac:(done)).
    apply orb_true_iff in E0. rewrite !Z.eqb_eq in E0. lia. }
  destruct (Z.ltb_spec 256 g); [right; simpl; split; [lia|done]|].
  destruct (Z.leb_spec (groups t) g); [right; simpl; split; [lia|done]|].
  destruct (decide (g = 256)) as [->|Hne].
  { rewrite already_claimed_panics by (done || lia). right. simpl. split; [lia|done]. }
  rewrite already_claimed_spec by (done || lia). cbn [or_panic res_bind].
  destruct (claimed_bit t g) eqn:Hc; [right; simpl; split; [by intros (_ & _ & ?)|done]|left].
  assert (0 <= g < 256) as Hg by lia.
  pose proof (remaining_pos _ _ Hinv Hg ltac:(done) Hc). pose proof (groups_bound t Ht).
  pose proof (len_nonneg (claimed t)).
  split_and!; [done|lia|done|by apply marked_inv|]. cbn [pure_call].
  rewrite mark_ok by (done || lia). rewrite wrap_id by (unfold in_width; lia).
  do 2 f_equal. apply eq_true_iff_eq. rewrite !Z.eqb_eq. lia.
Qed.

(** A sequence of claim attempts; the successful ones are collected. *)
Fixpoint run_claims (t : PendingMintsTracker) (gs : list Z) : list Z * PendingMintsTracker :=
  match gs with
  | [] => ([], t)
  | g :: gs =>
      match claim t g with
      | (Ok _, t') => let '(ok, t'') := run_claims t' gs in (g :: ok, t'')
      | (_, t') => run_claims t' gs
      end
  end.

Lemma run_claims_inv t gs :
  tracker_inv t -> Forall (fun g => 0 <= g) gs ->
  let '(ok, t') := run_claims t gs in
  tracker_inv t' /\ groups t' = groups t /\ claimed t' ≡ₚ ok ++ claimed t.
Proof.
  revert t. induction gs as [|g gs IH]; intros t Hinv Hgs; [done|].
  inversion_clear Hgs as [|? ? Hg Hgs']. simpl.
  destruct (claim_cases t g Hinv Hg) as [(Hlt & H256 & Hc & Hinv' & ->)|(_ & Hf & Hs)].
  - pose proof (IH _ Hinv' Hgs') as HI. destruct (run_claims (marked t g) gs) as [ok t'].
    destruct HI as (? & ? & HP). split_and!; [done|done|].
    rewrite HP, claimed_marked by (apply Hinv || lia || done).
    simpl. by rewrite Permutation_middle.
  - destruct (claim t g) as [[] t1]; simpl in *; try done; subst t1; by apply IH.
Qed.

Lemma claimed_fresh account total remaining : claimed (fresh_tracker account total remaining) = [].
Proof. reflexivity. Qed.

Lemma fresh_tracker_inv account total :
  0 < total < 2 ^ 16 ->
  tracker_inv (fresh_tracker account total (groups (fresh_tracker account total 0))).
Proof.
  intros Ht. split_and!; [apply byte_array_zeros..|simpl;lia|simpl;lia| |].
  - rewrite claimed_fresh. change (groups (fresh_tracker _ _ _)) with (groups (fresh_tracker account total 0)).
    unfold len. simpl. lia.
  - intros g. rewrite claimed_fresh. by intros ?%elem_of_nil.
Qed.

(** No mint group is paid out twice: in any sequence of claim attempts on a
    tracker that satisfies the invariant, the successful claims are of distinct,
    existing groups that were unclaimed before, each lowers the counter by one,
    and the invariant still holds at the end. *)
Theorem groups_claimed_at_most_once (t : PendingMintsTracker) (gs ok : list Z) (t' : PendingMintsTracker) :
  tracker_inv t -> Forall (fun g => 0 <= g) gs -> run_claims t gs = (ok, t') ->
  NoDup ok /\ (forall g, g ∈ ok -> g < groups t /\ claimed_bit t g = false) /\
  pending_mints_groups_remaining t' = pending_mints_groups_remaining t - len ok /\
  tracker_inv t'.
Proof.
  intros Hinv Hgs Hrun. pose proof (run_claims_inv t gs Hinv Hgs) as HI. rewrite Hrun in HI.
  destruct HI as (Hinv' & Hg & HP). pose proof (NoDup_claimed t') as HN. rewrite HP in HN.
  apply list.NoDup_app in HN as (HN & Hdisj & _).
  split_and!; [done| | |done].
  - intros g Hin. assert (g ∈ claimed t') as Hc by (rewrite HP; apply elem_of_app; by left).
    destruct Hinv' as (_ & _ & _ & Hlt). split; [rewrite <- Hg; by apply Hlt|].
    apply elem_of_claimed in Hc as [_ Hr]. specialize (Hdisj g Hin).
    rewrite elem_of_claimed in Hdisj. destruct (claimed_bit t g) eqn:E; [|done]. exfalso. by apply Hdisj.
  - destruct Hinv as (_ & _ & -> & _), Hinv' as (_ & _ & -> & _). rewrite Hg.
    apply Permutation_length in HP. rewrite length_app in HP. unfold len. lia.
Qed.

(** Claiming a list of distinct unclaimed groups succeeds throughout. *)
Lemma run_claims_all t gs :
  tracker_inv t -> NoDup gs ->
  (forall g, g ∈ gs -> 0 <= g < 256 /\ g < groups t /\ claimed_bit t g = false) ->
  (run_claims t gs).1 = gs.
Proof.
  revert t. induction gs as [|g gs IH]; intros t Hinv HN Hgs; [done|].
  apply list.NoDup_cons in HN as [Hni HN]. simpl.
  destruct (Hgs g) as (Hg & Hlt & Hc); [by left|].
  destruct (claim_cases t g Hinv ltac:(lia)) as [(_ & _ & _ & Hinv' & ->)|(Hn & _)]; [|exfalso; apply Hn; lia || auto with lia].
  - pose proof (IH (marked t g) Hinv' HN) as HI.
    destruct (run_claims (marked t g) gs) as [ok t']. simpl in *. f_equal. apply HI.
    intros h Hh. destruct (Hgs h) as (Hh1 & Hh2 & Hh3); [by right|]. split_and!; try done; try lia.
    rewrite marked_bit, Hh3 by (apply Hinv || done). simpl. apply Z.eqb_neq. by intros ->.
Qed.

(** Every block whose mints fit the bitmap can be finished: from the tracker
    the bridge sets up for 1 to 6144 pending mints (256 groups), the groups can
    be claimed in any order; all claims succeed, and afterwards the tracker is
    empty, so the next block can be processed. *)
Theorem all_groups_claimable_in_any_order (account : bytes) (total : Z) (gs : list Z) :
  0 < total <= 6144 ->
  let t := fresh_tracker account total (groups (fresh_tracker account total 0)) in
  gs ≡ₚ seqZ 0 (groups t) ->
  let '(ok, t') := run_claims t gs in
  ok = gs /\ tracker_is_empty t' = true.
Proof.
  intros Ht t HP. assert (tracker_inv t) as Hinv by (apply fresh_tracker_inv; lia).
  assert (groups t <= 256) as Hg
    by (rewrite groups_eq by (simpl; lia); simpl; Z.to_euclidean_division_equations; lia).
  pose proof (groups_bound t ltac:(simpl; lia)).
  assert (NoDup gs) as HN by (rewrite HP; apply NoDup_seqZ).
  assert (forall g, g ∈ gs -> 0 <= g < groups t) as Hin
    by (intros g; rewrite HP, elem_of_seqZ; lia).
  pose proof (run_claims_all t gs Hinv HN) as Hall.
  pose proof (run_claims_inv t gs Hinv) as HI.
  destruct (run_claims t gs) as [ok t']. simpl in Hall.
  assert (ok = gs) as ->.
  { apply Hall. intros g Hgin. pose proof (Hin g Hgin). split; [lia|]. split; [lia|].
    destruct (claimed_bit t g) eqn:E; [|done].
    assert (g ∈ claimed t) as Hc by (apply elem_of_claimed; lia || split; [done|lia]).
    unfold t in Hc. rewrite claimed_fresh in Hc. by apply elem_of_nil in Hc. }
  split; [done|]. destruct HI as (Hinv' & Hge & HPc).
  { apply list.Forall_forall. intros g ?%Hin. lia. }
  destruct Hinv' as (_ & _ & Hr & _). unfold tracker_is_empty. apply Z.eqb_eq. rewrite Hr, Hge.
  apply Permutation_length in HPc, HP. rewrite length_app in HPc.
  change (claimed t) with (@nil Z) in HPc. simpl in HPc. rewrite length_seqZ in HP.
  unfold len. lia.
Qed.

(** A block with more than 256 mint groups blocks the bridge for good: no
    sequence of claims ever empties its tracker, because the bitmap has 256 bits
    and group 256 itself panics.  The counts that a block update accepts go far
    beyond this (65534 mints, 2731 groups). *)
Theorem oversized_block_never_completes (account : bytes) (total : Z) (gs : list Z) :
  6144 < total < 2 ^ 16 -> Forall (fun g => 0 <= g) gs ->
  let t := fresh_tracker account total (groups (fresh_tracker account total 0)) in
  tracker_is_empty (run_claims t gs).2 = false.
Proof.
  intros Ht Hgs t. assert (tracker_inv t) as Hinv by (apply fresh_tracker_inv; lia).
  assert (256 < groups t) as Hg
    by (rewrite groups_eq by (simpl; lia); simpl; Z.to_euclidean_division_equations; lia).
  pose proof (run_claims_inv t gs Hinv Hgs) as HI. destruct (run_claims t gs) as [ok t'].
  destruct HI as ((_ & _ & Hr & _) & Hge & _). unfold tracker_is_empty. simpl.
  apply Z.eqb_neq. rewrite Hr, Hge. pose proof (claimed_at_most_256 t'). lia.
Qed.

(** The bounds check lets group index 256 through to the bitmap: on a block
    with more than 256 groups both the check and the mark panic at index 256
    instead of returning the out-of-bounds error. *)
Theorem group_256_panics (account : bytes) (total : Z) :
  6144 < total < 2 ^ 16 ->
  let t := fresh_tracker account total (groups (fresh_tracker account total 0)) in
  ensure_can_claim_pending_mints_group t 256 = Panic /\
  (tracker_mark_pending_mints_group_claimed t 256).1 = Panic.
Proof.
  intros Ht t. assert (tracker_inv t) as (Hb & Htt & Hr & _) by (apply fresh_tracker_inv; lia).
  assert (256 < groups t) as Hg
    by (rewrite groups_eq by (simpl; lia); simpl; Z.to_euclidean_division_equations; lia).
  change (claimed t) with (@nil Z) in Hr. change (len []) with 0 in Hr.
  unfold ensure_can_claim_pending_mints_group, tracker_mark_pending_mints_group_claimed.
  rewrite already_claimed_panics by (done || lia).
  replace (_ || _) with false
    by (symmetry; apply orb_false_iff; rewrite !Z.eqb_neq; lia).
  replace (_ || _) with false
    by (symmetry; apply orb_false_iff; rewrite !Z.leb_gt; lia).
  replace (256 <? 256) with false by done.
  replace (groups t <=? 256) with false by (symmetry; apply Z.leb_gt; lia). done.
Qed.

(** ** The manager *)

Definition manager_wf (m : FinalizedBlockMintTxoManager) : Prop :=
  length (pending_finalized_info m) = 8%nat /\
  0 <= pending_finalized_info_current_index m <= pending_finalized_info_total_count m /\
  pending_finalized_info_total_count m <= 8.

Lemma length_copy_block_groups info gs :
  (length gs <= length info)%nat -> length (copy_block_groups info gs) = length info.
Proof. intros. unfold copy_block_groups. rewrite length_app, length_drop. lia. Qed.

(** Inside the array the scan never panics; it counts the leading empty blocks. *)
Lemma skip_empty_spec info i todo :
  0 <= i -> i + Z.of_nat todo <= len info ->
  exists n, skip_empty info i todo = Some n /\ 0 <= n <= Z.of_nat todo /\
    (forall j, i <= j < i + n -> exists x, index info j = Some x /\ info_is_empty x = true) /\
    (n < Z.of_nat todo -> exists x, index info (i + n) = Some x /\ info_is_empty x = false).
Proof.
  revert i. induction todo as [|todo IH]; intros i Hi Hl.
  { exists 0. split; [done|]. split; [lia|]. split; intros; lia. }
  cbn [skip_empty]. destruct (index_is_Some info i) as [x Hx]; [lia|]. rewrite Hx.
  cbn [mbind option_bind]. destruct (info_is_empty x) eqn:Ex; cbn [negb].
  - destruct (IH (i + 1)) as (n & -> & Hn & Hall & Hend); [lia|lia|]. cbn [mbind option_bind].
    exists (n + 1). split; [done|]. split; [lia|]. split.
    + intros j Hj. destruct (decide (j = i)) as [->|]; [eauto|]. apply Hall. lia.
    + intros Hlt. replace (i + (n + 1)) with (i + 1 + n) by lia. apply Hend. lia.
  - exists 0. split; [done|]. split; [lia|]. split; [intros; lia|].
    intros _. rewrite Z.add_0_r. eauto.
Qed.

(** Empty blocks are skipped exactly: on a well-formed manager whose current
    block is finished, [fast_forward_empty] never panics, moves forward over
    empty blocks only, stops at the first block that has something to claim (or
    at the end), and changes nothing but the index and the tracker. *)
Theorem fast_forward_skips_exactly_empty (m : FinalizedBlockMintTxoManager) :
  manager_wf m -> tracker_is_empty (current_pending_mints_tracker m) = true ->
  exists m', fast_forward_empty m = Some m' /\ manager_wf m' /\
    pending_finalized_info m' = pending_finalized_info m /\
    start_block_height m' = start_block_height m /\
    pending_finalized_info_total_count m' = pending_finalized_info_total_count m /\
    tracker_is_empty (current_pending_mints_tracker m') = true /\
    pending_finalized_info_current_index m <= pending_finalized_info_current_index m' /\
    (forall j, pending_finalized_info_current_index m <= j < pending_finalized_info_current_index m' ->
       exists x, index (pending_finalized_info m) j = Some x /\ info_is_empty x = true) /\
    (pending_finalized_info_current_index m' < pending_finalized_info_total_count m ->
       exists x, index (pending_finalized_info m) (pending_finalized_info_current_index m') = Some x /\
         info_is_empty x = false).
Proof.
  intros Hwf Ht. pose proof Hwf as (Hl & Hc & H8). unfold fast_forward_empty. rewrite Ht.
  destruct (Z.leb_spec (pending_finalized_info_total_count m) (pending_finalized_info_current_index m)).
  { simpl. exists m. split_and!; auto; try lia; intros; lia. }
  assert (manager_is_empty m = false) as ->.
  { unfold manager_is_empty. apply orb_false_iff. split; [apply Z.eqb_neq; lia|].
    apply andb_false_iff. left. apply Z.eqb_neq. lia. }
  cbn [negb orb].
  destruct (skip_empty_spec (pending_finalized_info m) (pending_finalized_info_current_index m)
    (Z.to_nat (pending_finalized_info_total_count m - pending_finalized_info_current_index m)))
    as (n & -> & Hn & Hall & Hend); [lia|unfold len; lia|]. cbn [mbind option_bind].
  rewrite wrap_id by (unfold in_width; lia).
  eexists. split; [reflexivity|].
  destruct (0 <? n); cbn [set_tracker set_current_index pending_finalized_info start_block_height
    pending_finalized_info_total_count pending_finalized_info_current_index
    current_pending_mints_tracker];
    (split; [unfold manager_wf; simpl; lia|]);
    (split_and!; [done|done|done|done|lia|exact Hall|]); intros; apply Hend; lia.
Qed.

(** A finalized block is queued exactly: on an idle manager,
    [standard_append_block] with one to eight blocks, the first of which has
    mints, stores them in order with the height of the first, and arms the
    tracker with the buffer account, the counts and an empty bitmap. *)
Theorem append_block_arms_tracker (m : FinalizedBlockMintTxoManager) (height : Z)
    (g : FinalizedBlockMintTxoInfo) (gs : list FinalizedBlockMintTxoInfo) (account : bytes)
    (total remaining : Z) :
  manager_is_empty m = true -> length (pending_finalized_info m) = 8%nat ->
  (length (g :: gs) <= 8)%nat -> info_is_empty g = false ->
  exists m', standard_append_block m height (g :: gs) account total remaining = (Ok tt, m') /\
    manager_wf m' /\
    take (length (g :: gs)) (pending_finalized_info m') = g :: gs /\
    pending_finalized_info_current_index m' = 0 /\
    pending_finalized_info_total_count m' = len (g :: gs) /\
    start_block_height m' = height /\
    current_pending_mints_tracker m' = fresh_tracker account total remaining.
Proof.
  intros He Hl H8 Hg. unfold standard_append_block. rewrite He. cbn [negb].
  replace (8 <? len (g :: gs)) with false by (symmetry; apply Z.ltb_ge; unfold len; lia).
  replace (len (g :: gs) =? 0) with false by (symmetry; apply Z.eqb_neq; unfold len; simpl; lia).
  rewrite wrap_id by (unfold in_width, len; lia). cbv zeta.
  set (m1 := {| pending_finalized_info := _; pending_finalized_info_current_index := _;
                pending_finalized_info_total_count := _; start_block_height := _;
                current_pending_mints_tracker := _ |}).
  assert (length (pending_finalized_info m1) = 8%nat) as Hl1
    by (unfold m1; cbn [pending_finalized_info]; rewrite length_copy_block_groups; lia).
  assert (manager_is_empty m1 = false) as Hne.
  { unfold manager_is_empty, m1. cbn [pending_finalized_info_total_count pending_finalized_info_current_index].
    rewrite (proj2 (Z.eqb_neq _ _)) by (unfold len; simpl; lia). done. }
  assert (fast_forward_empty m1 = Some m1) as ->.
  { unfold fast_forward_empty. rewrite Hne.
    replace (pending_finalized_info_total_count m1 <=? pending_finalized_info_current_index m1) with false
      by (symmetry; apply Z.leb_gt; unfold m1, len; simpl; lia).
    cbn [negb orb current_pending_mints_tracker m1 tracker_is_empty fresh_tracker
         pending_mints_groups_remaining Z.eqb].
    cbn [pending_finalized_info_total_count pending_finalized_info_current_index m1].
    replace (Z.to_nat (len (g :: gs) - 0)) with (S (length gs)) by (unfold len; simpl; lia).
    cbn [skip_empty pending_finalized_info]. unfold copy_block_groups, index. simpl. by rewrite Hg. }
  cbn [or_panic pure_call]. rewrite Hne. eexists. split; [reflexivity|].
  split; [split; [exact Hl1|unfold m1, len in *; simpl in *; lia]|].
  split; [|done]. cbn [set_tracker pending_finalized_info m1]. unfold copy_block_groups.
  by rewrite take_app_length.
Qed.

(** A manager is either between blocks (nothing left of the current one) or in
    the middle of a block whose tracker is consistent. *)
Definition manager_ok (m : FinalizedBlockMintTxoManager) : Prop :=
  manager_wf m /\
  (tracker_is_empty (current_pending_mints_tracker m) = true \/
   tracker_inv (current_pending_mints_tracker m) /\
   pending_finalized_info_current_index m < pending_finalized_info_total_count m).

Lemma fresh_tracker_ok account n :
  0 <= n < 2 ^ 16 ->
  tracker_is_empty (fresh_tracker account n ((n + 23) / 24)) = true \/
  tracker_inv (fresh_tracker account n ((n + 23) / 24)).
Proof.
  intros Hn. destruct (decide (n = 0)) as [->|]; [by left|right].
  pose proof (fresh_tracker_inv account n ltac:(lia)) as Hi.
  by rewrite groups_eq in Hi by (simpl; lia).
Qed.

(** Skipping empty blocks keeps the manager between blocks. *)
Lemma fast_forward_wf m m' :
  manager_wf m -> fast_forward_empty m = Some m' ->
  manager_wf m' /\
  (current_pending_mints_tracker m' = current_pending_mints_tracker m \/
   current_pending_mints_tracker m' = fresh_tracker (zeros 32) 0 0).
Proof.
  intros Hwf Hf. pose proof Hwf as (Hl & Hc & H8). unfold fast_forward_empty in Hf.
  destruct (_ || _); [injection Hf as <-; auto|].
  destruct (skip_empty _ _ _) as [n|] eqn:E; [|discriminate Hf]. cbn [mbind option_bind] in Hf.
  destruct (skip_empty_spec (pending_finalized_info m) (pending_finalized_info_current_index m)
    (Z.to_nat (pending_finalized_info_total_count m - pending_finalized_info_current_index m)))
    as (n' & E' & Hn & _); [lia|unfold len; lia|]. rewrite E in E'. injection E' as <-.
  rewrite wrap_id in Hf by (unfold in_width; lia). injection Hf as <-.
  destruct (0 <? n); (split; [unfold manager_wf; simpl; lia|]); auto.
Qed.

(** Queueing blocks on an idle manager. *)
Lemma append_block_ok m height infos account n m' :
  manager_wf m -> 0 <= n < 2 ^ 16 ->
  standard_append_block m height infos account n ((n + 23) / 24) = (Ok tt, m') ->
  m' = m \/ manager_ok m'.
Proof.
  intros (Hl & Hc & H8) Hn Hr. unfold standard_append_block in Hr. peel Hr as E0. peel Hr as E1.
  destruct (len infos =? 0) eqn:E2; [injection Hr as <-; by left|right]. cbv zeta in Hr. reflect_guards.
  rewrite wrap_id in Hr by (unfold in_width, len in *; lia).
  peel Hr as E3. rename x into m2.
  apply fast_forward_wf in E3 as [Hwf2 Ht2].
  2:{ split; [cbn [pending_finalized_info]; rewrite length_copy_block_groups; unfold len in *; lia|].
      unfold len in *. simpl. lia. }
  assert (tracker_is_empty (current_pending_mints_tracker m2) = true /\
    pending_mint_groups_claimed (current_pending_mints_tracker m2) = zeros 32) as [He Hz]
    by (destruct Ht2 as [-> | ->]; done).
  destruct (manager_is_empty m2) eqn:Em.
  { peel Hr as E4. injection Hr as <-. split; [done|]. by left. }
  injection Hr as <-. split; [exact Hwf2|].
  destruct (fresh_tracker_ok (last_finalized_auto_claim_mints_storage_account
    (current_pending_mints_tracker m2)) n Hn) as [Ht|Ht]; [left; exact Ht|right].
  cbn [set_tracker current_pending_mints_tracker]. rewrite Hz. split; [exact Ht|].
  unfold manager_is_empty in Em. rewrite He, andb_true_r in Em. apply orb_false_iff in Em as [_ Em].
  apply Z.eqb_neq in Em. destruct Hwf2 as (_ & ? & _). simpl. lia.
Qed.

(** Marking an unclaimed group of the current block. *)
Lemma manager_mark_ok (m : FinalizedBlockMintTxoManager) (g : Z) :
  let t := current_pending_mints_tracker m in
  let last := pending_mints_groups_remaining t =? 1 in
  manager_wf m -> tracker_inv t ->
  pending_finalized_info_current_index m < pending_finalized_info_total_count m -> 0 <= g < 256 ->
  g < groups t -> claimed_bit t g = false ->
  exists m', mark_pending_mints_group_claimed m g = (Ok last, m') /\ manager_wf m' /\
    current_pending_mints_tracker m' = marked t g /\
    pending_finalized_info_total_count m' = pending_finalized_info_total_count m /\
    pending_finalized_info_current_index m' =
      (if last then pending_finalized_info_current_index m + 1
       else pending_finalized_info_current_index m).
Proof.
  intros t last (Hl & Hc & H8) Hinv Hlt Hg Hgt Ecl. pose proof Hinv as (Hb & Htot & Hr & Hin).
  unfold mark_pending_mints_group_claimed. fold t.
  pose proof (remaining_pos t g Hinv Hg Hgt Ecl). pose proof (groups_bound t Htot).
  pose proof (len_nonneg (claimed t)).
  rewrite mark_ok by (done || lia). rewrite state_call_ok. cbv zeta.
  rewrite wrap_id by (unfold in_width; lia).
  assert ((pending_mints_groups_remaining t - 1 =? 0) = last) as ->.
  { unfold last. apply eq_true_iff_eq. rewrite !Z.eqb_eq. lia. }
  cbn [set_tracker pending_finalized_info_current_index pending_finalized_info_total_count].
  rewrite (proj2 (Z.ltb_lt _ _)) by done.
  rewrite wrap_id by (unfold in_width; lia).
  eexists. split; [reflexivity|]. destruct last; simpl; unfold manager_wf; simpl; repeat split; try done; lia.
Qed.

(** The claim that finishes a block moves on to the next one, any other claim
    only updates the tracker; a rejected claim changes nothing. *)
Theorem manager_mark_spec (m : FinalizedBlockMintTxoManager) (g : Z) :
  manager_wf m -> tracker_inv (current_pending_mints_tracker m) ->
  pending_finalized_info_current_index m < pending_finalized_info_total_count m -> 0 <= g < 256 ->
  let t := current_pending_mints_tracker m in
  let last := pending_mints_groups_remaining t =? 1 in
  g < groups t ->
  if claimed_bit t g
  then mark_pending_mints_group_claimed m g = (Err PendingMintsGroupAlreadyProcessed, m) \/
       mark_pending_mints_group_claimed m g = (Err NoPendingMintsToProcess, m)
  else exists m', mark_pending_mints_group_claimed m g = (Ok last, m') /\ manager_wf m' /\
    current_pending_mints_tracker m' = marked t g /\
    pending_finalized_info_current_index m' =
      (if last then pending_finalized_info_current_index m + 1
       else pending_finalized_info_current_index m).
Proof.
  intros Hwf Hinv Hlt Hg t last Hgt. fold t in Hinv. pose proof Hinv as (Hb & Htot & Hr & Hin).
  destruct (claimed_bit t g) eqn:Ecl.
  - unfold mark_pending_mints_group_claimed. fold t. unfold tracker_mark_pending_mints_group_claimed. fold t.
    rewrite already_claimed_spec, Ecl by done.
    assert (set_tracker m t = m) as Hid by (unfold t; by destruct m).
    destruct (_ || _); [right; cbn [state_call]; by rewrite Hid|left].
    replace (256 <? g) with false by (symmetry; apply Z.ltb_ge; lia).
    cbn [or_panic pure_call state_call]. by rewrite Hid.
  - destruct (manager_mark_ok m g) as (m' & Hm & Hwf' & Ht' & _ & Hi'); [done..|].
    exists m'. split; [exact Hm|]. by split_and!.
Qed.

(** A successful claim keeps the manager consistent. *)
Lemma manager_claim_ok m g last m' :
  manager_ok m -> 0 <= g -> tracker_is_empty (current_pending_mints_tracker m) = false ->
  ensure_can_claim_pending_mints_group (current_pending_mints_tracker m) g = Ok tt ->
  mark_pending_mints_group_claimed m g = (Ok last, m') -> manager_ok m'.
Proof.
  intros [Hwf [He|[Hinv Hlt]]] Hg Hne Hcan Hm; [congruence|].
  set (t := current_pending_mints_tracker m) in *.
  destruct (claim_cases t g Hinv Hg) as [(Hgt & H256 & Hc & Hinv' & _)|(_ & Hf & _)].
  - destruct (manager_mark_ok m g) as (m1 & Hm1 & Hwf1 & Ht1 & Htc & Hci); [done..|].
    rewrite Hm in Hm1. injection Hm1 as -> <-. split; [done|]. fold t in Ht1, Hci. rewrite Ht1, Htc, Hci.
    destruct (pending_mints_groups_remaining t =? 1) eqn:El; [left|by right].
    apply Z.eqb_eq in El. unfold tracker_is_empty, marked. simpl. by rewrite El.
  - unfold claim in Hf. rewrite Hcan in Hf. rewrite pure_call_ok in Hf.
    unfold mark_pending_mints_group_claimed in Hm. fold t in Hm. by peel Hm as E.
Qed.

(** Group [g], unclaimed before, is recorded as paid: its bit is set, one group less
    remains, and the last one moves on to the next block.  Nothing else changes. *)
Definition group_claimed (g : Z) (m m' : FinalizedBlockMintTxoManager) : Prop :=
  let t := current_pending_mints_tracker m in
  let t' := current_pending_mints_tracker m' in
  claimed_bit t g = false /\ claimed t' ≡ₚ g :: claimed t /\
  pending_mints_groups_remaining t' = pending_mints_groups_remaining t - 1 /\
  total_pending_mints t' = total_pending_mints t /\
  last_finalized_auto_claim_mints_storage_account t' = last_finalized_auto_claim_mints_storage_account t /\
  pending_finalized_info m' = pending_finalized_info m /\
  pending_finalized_info_total_count m' = pending_finalized_info_total_count m /\
  start_block_height m' = start_block_height m /\
  pending_finalized_info_current_index m' =
    pending_finalized_info_current_index m + (if pending_mints_groups_remaining t' =? 0 then 1 else 0).

Lemma claim_recorded m g last m' :
  let t := current_pending_mints_tracker m in
  manager_ok m -> 0 <= g -> tracker_is_empty t = false -> ensure_can_claim_pending_mints_group t g = Ok tt ->
  mark_pending_mints_group_claimed m g = (Ok last, m') ->
  0 < total_pending_mints t < 2 ^ 16 /\ g < groups t /\ g < 256 /\ group_claimed g m m' /\
  last = (pending_mints_groups_remaining t =? 1).
Proof.
  intros t [Hwf [He|[Hinv Hlt]]] Hg Hne Hcan Hm; [unfold t in Hne; congruence|fold t in Hinv].
  destruct (claim_cases t g Hinv Hg) as [(Hgt & H256 & Hc & _)|(_ & Hf & _)].
  2:{ unfold claim in Hf. rewrite Hcan, pure_call_ok in Hf.
      unfold mark_pending_mints_group_claimed in Hm. fold t in Hm. by peel Hm as E. }
  pose proof (remaining_pos t g Hinv ltac:(lia) Hgt Hc) as Hpos. destruct Hinv as (Hb & Ht & Hr & _).
  pose proof (groups_bound t Ht). pose proof (len_nonneg (claimed t)). destruct Hwf as (_ & ? & ?).
  split; [done|]. split; [done|]. split; [done|]. unfold mark_pending_mints_group_claimed in Hm. fold t in Hm.
  rewrite mark_ok, state_call_ok in Hm by (done || lia). cbv zeta in Hm.
  rewrite wrap_id in Hm by (unfold in_width; lia).
  cbn [set_tracker pending_finalized_info_current_index pending_finalized_info_total_count] in Hm.
  rewrite (proj2 (Z.ltb_lt _ _)), wrap_id in Hm by (unfold in_width; lia). injection Hm as <- <-.
  assert (current_pending_mints_tracker (if pending_mints_groups_remaining t - 1 =? 0
    then set_current_index (set_tracker m (marked t g)) (pending_finalized_info_current_index m + 1)
    else set_tracker m (marked t g)) = marked t g) as Htr by (by destruct (_ =? 0)).
  assert (pending_mints_groups_remaining (marked t g) = pending_mints_groups_remaining t - 1) as Hrem
    by (apply wrap_id; unfold in_width; lia).
  split; [|apply eq_true_iff_eq; rewrite !Z.eqb_eq; lia].
  unfold group_claimed. cbv zeta. rewrite Htr, Hrem. fold t. split; [done|]. split; [by apply claimed_marked|].
  destruct (_ =? 0); cbn; repeat split; lia.
Qed.

(** A queue that begins with an empty block loses the buffer account: skipping
    resets the whole tracker, and only the counts are set afterwards.  (Both
    callers pass lists that begin with a non-empty block.) *)
Lemma append_block_leading_empty_loses_account :
  let empty := {| pending_mints_finalized_hash := PM_DA_DEFAULT_PENDING_MINTS_BUFFER_HASH;
                  txo_output_list_finalized_hash := PM_TXO_DEFAULT_BUFFER_HASH |} in
  let full := {| pending_mints_finalized_hash := zeros 32; txo_output_list_finalized_hash := zeros 32 |} in
  let '(r, m) := standard_append_block manager_new_empty 100 [empty; full] (replicate 32 9) 1 1 in
  r = Ok tt /\
  current_pending_mints_tracker m = fresh_tracker (zeros 32) 1 1.
Proof. vm_compute. done. Qed.

(** ** Witnesses: 50 mints make three groups *)

Definition tracker50 : PendingMintsTracker :=
  fresh_tracker (replicate 32 9) 50 (groups (fresh_tracker (replicate 32 9) 50 0)).

Lemma tracker50_inv : tracker_inv tracker50.
Proof. apply fresh_tracker_inv. lia. Qed.

Definition empty_info : FinalizedBlockMintTxoInfo :=
  {| pending_mints_finalized_hash := PM_DA_DEFAULT_PENDING_MINTS_BUFFER_HASH;
     txo_output_list_finalized_hash := PM_TXO_DEFAULT_BUFFER_HASH |}.
Definition full_info : FinalizedBlockMintTxoInfo :=
  {| pending_mints_finalized_hash := zeros 32; txo_output_list_finalized_hash := zeros 32 |}.

(** Three blocks, the second of which has no mints. *)
Definition manager3 (current : Z) (t : PendingMintsTracker) : FinalizedBlockMintTxoManager :=
  {| pending_finalized_info := [full_info; empty_info; full_info] ++ replicate 5 full_info;
     pending_finalized_info_current_index := current;
     pending_finalized_info_total_count := 3;
     start_block_height := 100;
     current_pending_mints_tracker := t |}.

Lemma groups_claimed_at_most_once_witness :
  NoDup [1; 0] /\ run_claims tracker50 [1; 1; 5; 0] = ([1; 0], (run_claims tracker50 [1; 1; 5; 0]).2).
Proof.
  split; [|vm_compute; reflexivity].
  refine (proj1 (groups_claimed_at_most_once tracker50 [1; 1; 5; 0] [1; 0]
    (run_claims tracker50 [1; 1; 5; 0]).2 tracker50_inv _ _)).
  - repeat (apply Forall_cons_2; [lia|]). apply Forall_nil_2.
  - vm_compute. reflexivity.
Defined.

Lemma all_groups_claimable_in_any_order_witness :
  let '(ok, t') := run_claims tracker50 [2; 0; 1] in ok = [2; 0; 1] /\ tracker_is_empty t' = true.
Proof.
  apply (all_groups_claimable_in_any_order (replicate 32 9) 50 [2; 0; 1]).
  - lia.
  - change (seqZ 0 _) with [0; 1; 2].
    apply (perm_trans (perm_swap 0 2 [1])). apply perm_skip. apply perm_swap.
Defined.

Lemma oversized_block_never_completes_witness :
  let t := fresh_tracker (zeros 32) 6145 (groups (fresh_tracker (zeros 32) 6145 0)) in
  tracker_is_empty (run_claims t (seqZ 0 256)).2 = false.
Proof.
  apply (oversized_block_never_completes (zeros 32) 6145 (seqZ 0 256)).
  - lia.
  - apply list.Forall_forall. intros g Hg%elem_of_seqZ. lia.
Defined.

Lemma group_256_panics_witness :
  ensure_can_claim_pending_mints_group
    (fresh_tracker (zeros 32) 6145 (groups (fresh_tracker (zeros 32) 6145 0))) 256 = Panic.
Proof. exact (proj1 (group_256_panics (zeros 32) 6145 ltac:(lia))). Defined.

Lemma fast_forward_skips_exactly_empty_witness :
  exists m', fast_forward_empty (manager3 1 (fresh_tracker (zeros 32) 0 0)) = Some m' /\
    pending_finalized_info_current_index m' = 2.
Proof.
  destruct (fast_forward_skips_exactly_empty (manager3 1 (fresh_tracker (zeros 32) 0 0)))
    as (m' & Hm & _).
  - unfold manager_wf. simpl. lia.
  - reflexivity.
  - exists m'. split; [exact Hm|]. vm_compute in Hm. injection Hm as <-. reflexivity.
Defined.

Lemma append_block_arms_tracker_witness :
  exists m', standard_append_block manager_new_empty 100 [full_info; empty_info] (replicate 32 9) 50 3
      = (Ok tt, m') /\
    current_pending_mints_tracker m' = fresh_tracker (replicate 32 9) 50 3.
Proof.
  destruct (append_block_arms_tracker manager_new_empty 100 full_info [empty_info] (replicate 32 9) 50 3)
    as (m' & Hm & _ & _ & _ & _ & _ & Ht).
  - vm_compute. reflexivity.
  - vm_compute. reflexivity.
  - simpl. lia.
  - vm_compute. reflexivity.
  - exists m'. split; [exact Hm|exact Ht].
Defined.

Lemma manager_mark_spec_witness :
  exists m', mark_pending_mints_group_claimed (manager3 0 tracker50) 1 = (Ok false, m') /\
    pending_finalized_info_current_index m' = 0.
Proof.
  pose proof (manager_mark_spec (manager3 0 tracker50) 1) as H.
  destruct H as (m' & Hm & _ & _ & Hi).
  - unfold manager_wf. simpl. lia.
  - exact tracker50_inv.
  - simpl. lia.
  - lia.
  - vm_compute. reflexivity.
  - exists m'. split; [exact Hm|exact Hi].
Defined.
