(* ===== verification/ProgramState.v ===== *)
(** * ProgramState: the bridge state and its core operations

    Models [psy-doge-solana-core/src/program_state/core.rs],
    [proc_withdrawal.rs], [operator.rs] and [deposit.rs], with the initialisation
    parameters of [instructions/doge_bridge.rs].

    The zero-knowledge verifier and the token program are parameters: a
    [ZkVerifier] decides whether a proof is accepted for a public input, a CPI
    helper returns the result of the call.  Operations that can panic on the way
    (the append tree) return [Panic]; operations on [&mut self] return the state
    they leave behind, also on errors. *)
From S2P Require Import Prelude Pod Hash Sha256 Errors AppendTree TxoIndex Fees Types PublicInputs MintGroup.
From Stdlib Require Import ZArith Lia.
From Stdlib Require String.
From stdpp Require Import base decidable list numbers option.

Open Scope Z_scope.
Open Scope bridge_scope.

(** [CompactZKProofVerifier::verify_compact_zkp_slice(proof, vk, public_inputs)] *)
Class ZkVerifier := verify_compact_zkp_slice : bytes -> bytes -> bytes -> bool.

(** The append tree in account memory: index, root, 32 siblings. *)
#[export] Instance FixedMerkleAppendTree_pod : Pod FixedMerkleAppendTree.
Proof.
  refine (pod_iso (pod_uint 8 ** pod_array 32 ** pod_list 32 (pod_array 32))
    (fun '(x0, (x1, x2)) => {| next_index := x0; current_root := x1; next_siblings := x2 |})
    (fun r => (next_index r, (current_root r, next_siblings r))) _ _);
    pod_iso_tac.
Defined.

Record PsyBridgeProgramState := {
  bridge_header : PsyBridgeHeader;
  recent_finalized_blocks : list PsyBridgeStateCommitment;
  last_return_output : PsyReturnTxOutput;
  pending_mint_txos : FinalizedBlockMintTxoManager;
  spent_txo_tree_root : QHash256;
  withdrawal_snapshot : PsyWithdrawalChainSnapshot;
  next_processed_withdrawals_index : Z;
  sent_transactions_tree : FixedMerkleAppendTree;
  manual_deposits_tree : FixedMerkleAppendTree;
  requested_withdrawals_tree : FixedMerkleAppendTree;
  custodian_wallet_config_hash : QHash256;
  bridge_control_mode : Z;
  next_recent_finalized_block_index : Z;
  last_processed_withdrawals_at_ms : Z;
  total_requested_withdrawals_sats : Z;
  total_fees_withdrawn_sats : Z;
  total_manual_deposit_fees_sats : Z;
  total_withdrawal_fees_sats : Z;
  last_received_block_at_ms : Z;
  last_replayed_withdrawal_at_ms : Z;
  config_params : PsyBridgeConfig;
  access_control : PsyBridgeAccessControlHeader
}.

#[export] Instance PsyBridgeProgramState_eq_dec : EqDecision PsyBridgeProgramState.
Proof. solve_decision. Defined.

#[export] Instance PsyBridgeProgramState_pod : Pod PsyBridgeProgramState.
Proof.
  refine (pod_iso (PsyBridgeHeader_pod ** pod_list 8 PsyBridgeStateCommitment_pod **
      PsyReturnTxOutput_pod ** FinalizedBlockMintTxoManager_pod ** pod_array 32 **
      PsyWithdrawalChainSnapshot_pod ** pod_uint 8 ** FixedMerkleAppendTree_pod **
      FixedMerkleAppendTree_pod ** FixedMerkleAppendTree_pod ** pod_array 32 ** pod_uint 4 **
      pod_uint 4 ** pod_uint 8 ** pod_uint 8 ** pod_uint 8 ** pod_uint 8 ** pod_uint 8 ** pod_uint
      8 ** pod_uint 8 ** PsyBridgeConfig_pod ** PsyBridgeAccessControlHeader_pod)
    (fun '(x0, (x1, (x2, (x3, (x4, (x5, (x6, (x7, (x8, (x9, (x10, (x11, (x12, (x13, (x14, (x15,
      (x16, (x17, (x18, (x19, (x20, x21))))))))))))))))))))) =>
      {| bridge_header := x0;
         recent_finalized_blocks := x1;
         last_return_output := x2;
         pending_mint_txos := x3;
         spent_txo_tree_root := x4;
         withdrawal_snapshot := x5;
         next_processed_withdrawals_index := x6;
         sent_transactions_tree := x7;
         manual_deposits_tree := x8;
         requested_withdrawals_tree := x9;
         custodian_wallet_config_hash := x10;
         bridge_control_mode := x11;
         next_recent_finalized_block_index := x12;
         last_processed_withdrawals_at_ms := x13;
         total_requested_withdrawals_sats := x14;
         total_fees_withdrawn_sats := x15;
         total_manual_deposit_fees_sats := x16;
         total_withdrawal_fees_sats := x17;
         last_received_block_at_ms := x18;
         last_replayed_withdrawal_at_ms := x19;
         config_params := x20;
         access_control := x21 |})
    (fun r => (bridge_header r, (recent_finalized_blocks r, (last_return_output r,
      (pending_mint_txos r, (spent_txo_tree_root r, (withdrawal_snapshot r,
      (next_processed_withdrawals_index r, (sent_transactions_tree r, (manual_deposits_tree r,
      (requested_withdrawals_tree r, (custodian_wallet_config_hash r, (bridge_control_mode r,
      (next_recent_finalized_block_index r, (last_processed_withdrawals_at_ms r,
      (total_requested_withdrawals_sats r, (total_fees_withdrawn_sats r,
      (total_manual_deposit_fees_sats r, (total_withdrawal_fees_sats r, (last_received_block_at_ms
      r, (last_replayed_withdrawal_at_ms r, (config_params r, access_control
      r)))))))))))))))))))))) _ _);
    pod_iso_tac.
Defined.

(** Assignments to single fields. *)
Definition with_bridge_header (x : PsyBridgeHeader) (s : PsyBridgeProgramState) : PsyBridgeProgramState :=
    {| bridge_header := x; recent_finalized_blocks := recent_finalized_blocks s;
     last_return_output := last_return_output s; pending_mint_txos := pending_mint_txos s;
     spent_txo_tree_root := spent_txo_tree_root s; withdrawal_snapshot := withdrawal_snapshot s;
     next_processed_withdrawals_index := next_processed_withdrawals_index s;
     sent_transactions_tree := sent_transactions_tree s; manual_deposits_tree :=
     manual_deposits_tree s; requested_withdrawals_tree := requested_withdrawals_tree s;
     custodian_wallet_config_hash := custodian_wallet_config_hash s; bridge_control_mode :=
     bridge_control_mode s; next_recent_finalized_block_index := next_recent_finalized_block_index
     s; last_processed_withdrawals_at_ms := last_processed_withdrawals_at_ms s;
     total_requested_withdrawals_sats := total_requested_withdrawals_sats s;
     total_fees_withdrawn_sats := total_fees_withdrawn_sats s; total_manual_deposit_fees_sats :=
     total_manual_deposit_fees_sats s; total_withdrawal_fees_sats := total_withdrawal_fees_sats s;
     last_received_block_at_ms := last_received_block_at_ms s; last_replayed_withdrawal_at_ms :=
     last_replayed_withdrawal_at_ms s; config_params := config_params s; access_control :=
     access_control s |}.
Definition with_recent_finalized_blocks (x : list PsyBridgeStateCommitment) (s : PsyBridgeProgramState) : PsyBridgeProgramState :=
    {| bridge_header := bridge_header s; recent_finalized_blocks := x; last_return_output :=
     last_return_output s; pending_mint_txos := pending_mint_txos s; spent_txo_tree_root :=
     spent_txo_tree_root s; withdrawal_snapshot := withdrawal_snapshot s;
     next_processed_withdrawals_index := next_processed_withdrawals_index s;
     sent_transactions_tree := sent_transactions_tree s; manual_deposits_tree :=
     manual_deposits_tree s; requested_withdrawals_tree := requested_withdrawals_tree s;
     custodian_wallet_config_hash := custodian_wallet_config_hash s; bridge_control_mode :=
     bridge_control_mode s; next_recent_finalized_block_index := next_recent_finalized_block_index
     s; last_processed_withdrawals_at_ms := last_processed_withdrawals_at_ms s;
     total_requested_withdrawals_sats := total_requested_withdrawals_sats s;
     total_fees_withdrawn_sats := total_fees_withdrawn_sats s; total_manual_deposit_fees_sats :=
     total_manual_deposit_fees_sats s; total_withdrawal_fees_sats := total_withdrawal_fees_sats s;
     last_received_block_at_ms := last_received_block_at_ms s; last_replayed_withdrawal_at_ms :=
     last_replayed_withdrawal_at_ms s; config_params := config_params s; access_control :=
     access_control s |}.
Definition with_last_return_output (x : PsyReturnTxOutput) (s : PsyBridgeProgramState) : PsyBridgeProgramState :=
    {| bridge_header := bridge_header s; recent_finalized_blocks := recent_finalized_blocks s;
     last_return_output := x; pending_mint_txos := pending_mint_txos s; spent_txo_tree_root :=
     spent_txo_tree_root s; withdrawal_snapshot := withdrawal_snapshot s;
     next_processed_withdrawals_index := next_processed_withdrawals_index s;
     sent_transactions_tree := sent_transactions_tree s; manual_deposits_tree :=
     manual_deposits_tree s; requested_withdrawals_tree := requested_withdrawals_tree s;
     custodian_wallet_config_hash := custodian_wallet_config_hash s; bridge_control_mode :=
     bridge_control_mode s; next_recent_finalized_block_index := next_recent_finalized_block_index
     s; last_processed_withdrawals_at_ms := last_processed_withdrawals_at_ms s;
     total_requested_withdrawals_sats := total_requested_withdrawals_sats s;
     total_fees_withdrawn_sats := total_fees_withdrawn_sats s; total_manual_deposit_fees_sats :=
     total_manual_deposit_fees_sats s; total_withdrawal_fees_sats := total_withdrawal_fees_sats s;
     last_received_block_at_ms := last_received_block_at_ms s; last_replayed_withdrawal_at_ms :=
     last_replayed_withdrawal_at_ms s; config_params := config_params s; access_control :=
     access_control s |}.
Definition with_pending_mint_txos (x : FinalizedBlockMintTxoManager) (s : PsyBridgeProgramState) : PsyBridgeProgramState :=
    {| bridge_header := bridge_header s; recent_finalized_blocks := recent_finalized_blocks s;
     last_return_output := last_return_output s; pending_mint_txos := x; spent_txo_tree_root :=
     spent_txo_tree_root s; withdrawal_snapshot := withdrawal_snapshot s;
     next_processed_withdrawals_index := next_processed_withdrawals_index s;
     sent_transactions_tree := sent_transactions_tree s; manual_deposits_tree :=
     manual_deposits_tree s; requested_withdrawals_tree := requested_withdrawals_tree s;
     custodian_wallet_config_hash := custodian_wallet_config_hash s; bridge_control_mode :=
     bridge_control_mode s; next_recent_finalized_block_index := next_recent_finalized_block_index
     s; last_processed_withdrawals_at_ms := last_processed_withdrawals_at_ms s;
     total_requested_withdrawals_sats := total_requested_withdrawals_sats s;
     total_fees_withdrawn_sats := total_fees_withdrawn_sats s; total_manual_deposit_fees_sats :=
     total_manual_deposit_fees_sats s; total_withdrawal_fees_sats := total_withdrawal_fees_sats s;
     last_received_block_at_ms := last_received_block_at_ms s; last_replayed_withdrawal_at_ms :=
     last_replayed_withdrawal_at_ms s; config_params := config_params s; access_control :=
     access_control s |}.
Definition with_spent_txo_tree_root (x : QHash256) (s : PsyBridgeProgramState) : PsyBridgeProgramState :=
    {| bridge_header := bridge_header s; recent_finalized_blocks := recent_finalized_blocks s;
     last_return_output := last_return_output s; pending_mint_txos := pending_mint_txos s;
     spent_txo_tree_root := x; withdrawal_snapshot := withdrawal_snapshot s;
     next_processed_withdrawals_index := next_processed_withdrawals_index s;
     sent_transactions_tree := sent_transactions_tree s; manual_deposits_tree :=
     manual_deposits_tree s; requested_withdrawals_tree := requested_withdrawals_tree s;
     custodian_wallet_config_hash := custodian_wallet_config_hash s; bridge_control_mode :=
     bridge_control_mode s; next_recent_finalized_block_index := next_recent_finalized_block_index
     s; last_processed_withdrawals_at_ms := last_processed_withdrawals_at_ms s;
     total_requested_withdrawals_sats := total_requested_withdrawals_sats s;
     total_fees_withdrawn_sats := total_fees_withdrawn_sats s; total_manual_deposit_fees_sats :=
     total_manual_deposit_fees_sats s; total_withdrawal_fees_sats := total_withdrawal_fees_sats s;
     last_received_block_at_ms := last_received_block_at_ms s; last_replayed_withdrawal_at_ms :=
     last_replayed_withdrawal_at_ms s; config_params := config_params s; access_control :=
     access_control s |}.
Definition with_withdrawal_snapshot (x : PsyWithdrawalChainSnapshot) (s : PsyBridgeProgramState) : PsyBridgeProgramState :=
    {| bridge_header := bridge_header s; recent_finalized_blocks := recent_finalized_blocks s;
     last_return_output := last_return_output s; pending_mint_txos := pending_mint_txos s;
     spent_txo_tree_root := spent_txo_tree_root s; withdrawal_snapshot := x;
     next_processed_withdrawals_index := next_processed_withdrawals_index s;
     sent_transactions_tree := sent_transactions_tree s; manual_deposits_tree :=
     manual_deposits_tree s; requested_withdrawals_tree := requested_withdrawals_tree s;
     custodian_wallet_config_hash := custodian_wallet_config_hash s; bridge_control_mode :=
     bridge_control_mode s; next_recent_finalized_block_index := next_recent_finalized_block_index
     s; last_processed_withdrawals_at_ms := last_processed_withdrawals_at_ms s;
     total_requested_withdrawals_sats := total_requested_withdrawals_sats s;
     total_fees_withdrawn_sats := total_fees_withdrawn_sats s; total_manual_deposit_fees_sats :=
     total_manual_deposit_fees_sats s; total_withdrawal_fees_sats := total_withdrawal_fees_sats s;
     last_received_block_at_ms := last_received_block_at_ms s; last_replayed_withdrawal_at_ms :=
     last_replayed_withdrawal_at_ms s; config_params := config_params s; access_control :=
     access_control s |}.
Definition with_next_processed_withdrawals_index (x : Z) (s : PsyBridgeProgramState) : PsyBridgeProgramState :=
    {| bridge_header := bridge_header s; recent_finalized_blocks := recent_finalized_blocks s;
     last_return_output := last_return_output s; pending_mint_txos := pending_mint_txos s;
     spent_txo_tree_root := spent_txo_tree_root s; withdrawal_snapshot := withdrawal_snapshot s;
     next_processed_withdrawals_index := x; sent_transactions_tree := sent_transactions_tree s;
     manual_deposits_tree := manual_deposits_tree s; requested_withdrawals_tree :=
     requested_withdrawals_tree s; custodian_wallet_config_hash := custodian_wallet_config_hash s;
     bridge_control_mode := bridge_control_mode s; next_recent_finalized_block_index :=
     next_recent_finalized_block_index s; last_processed_withdrawals_at_ms :=
     last_processed_withdrawals_at_ms s; total_requested_withdrawals_sats :=
     total_requested_withdrawals_sats s; total_fees_withdrawn_sats := total_fees_withdrawn_sats s;
     total_manual_deposit_fees_sats := total_manual_deposit_fees_sats s;
     total_withdrawal_fees_sats := total_withdrawal_fees_sats s; last_received_block_at_ms :=
     last_received_block_at_ms s; last_replayed_withdrawal_at_ms := last_replayed_withdrawal_at_ms
     s; config_params := config_params s; access_control := access_control s |}.
Definition with_sent_transactions_tree (x : FixedMerkleAppendTree) (s : PsyBridgeProgramState) : PsyBridgeProgramState :=
    {| bridge_header := bridge_header s; recent_finalized_blocks := recent_finalized_blocks s;
     last_return_output := last_return_output s; pending_mint_txos := pending_mint_txos s;
     spent_txo_tree_root := spent_txo_tree_root s; withdrawal_snapshot := withdrawal_snapshot s;
     next_processed_withdrawals_index := next_processed_withdrawals_index s;
     sent_transactions_tree := x; manual_deposits_tree := manual_deposits_tree s;
     requested_withdrawals_tree := requested_withdrawals_tree s; custodian_wallet_config_hash :=
     custodian_wallet_config_hash s; bridge_control_mode := bridge_control_mode s;
     next_recent_finalized_block_index := next_recent_finalized_block_index s;
     last_processed_withdrawals_at_ms := last_processed_withdrawals_at_ms s;
     total_requested_withdrawals_sats := total_requested_withdrawals_sats s;
     total_fees_withdrawn_sats := total_fees_withdrawn_sats s; total_manual_deposit_fees_sats :=
     total_manual_deposit_fees_sats s; total_withdrawal_fees_sats := total_withdrawal_fees_sats s;
     last_received_block_at_ms := last_received_block_at_ms s; last_replayed_withdrawal_at_ms :=
     last_replayed_withdrawal_at_ms s; config_params := config_params s; access_control :=
     access_control s |}.
Definition with_manual_deposits_tree (x : FixedMerkleAppendTree) (s : PsyBridgeProgramState) : PsyBridgeProgramState :=
    {| bridge_header := bridge_header s; recent_finalized_blocks := recent_finalized_blocks s;
     last_return_output := last_return_output s; pending_mint_txos := pending_mint_txos s;
     spent_txo_tree_root := spent_txo_tree_root s; withdrawal_snapshot := withdrawal_snapshot s;
     next_processed_withdrawals_index := next_processed_withdrawals_index s;
     sent_transactions_tree := sent_transactions_tree s; manual_deposits_tree := x;
     requested_withdrawals_tree := requested_withdrawals_tree s; custodian_wallet_config_hash :=
     custodian_wallet_config_hash s; bridge_control_mode := bridge_control_mode s;
     next_recent_finalized_block_index := next_recent_finalized_block_index s;
     last_processed_withdrawals_at_ms := last_processed_withdrawals_at_ms s;
     total_requested_withdrawals_sats := total_requested_withdrawals_sats s;
     total_fees_withdrawn_sats := total_fees_withdrawn_sats s; total_manual_deposit_fees_sats :=
     total_manual_deposit_fees_sats s; total_withdrawal_fees_sats := total_withdrawal_fees_sats s;
     last_received_block_at_ms := last_received_block_at_ms s; last_replayed_withdrawal_at_ms :=
     last_replayed_withdrawal_at_ms s; config_params := config_params s; access_control :=
     access_control s |}.
Definition with_requested_withdrawals_tree (x : FixedMerkleAppendTree) (s : PsyBridgeProgramState) : PsyBridgeProgramState :=
    {| bridge_header := bridge_header s; recent_finalized_blocks := recent_finalized_blocks s;
     last_return_output := last_return_output s; pending_mint_txos := pending_mint_txos s;
     spent_txo_tree_root := spent_txo_tree_root s; withdrawal_snapshot := withdrawal_snapshot s;
     next_processed_withdrawals_index := next_processed_withdrawals_index s;
     sent_transactions_tree := sent_transactions_tree s; manual_deposits_tree :=
     manual_deposits_tree s; requested_withdrawals_tree := x; custodian_wallet_config_hash :=
     custodian_wallet_config_hash s; bridge_control_mode := bridge_control_mode s;
     next_recent_finalized_block_index := next_recent_finalized_block_index s;
     last_processed_withdrawals_at_ms := last_processed_withdrawals_at_ms s;
     total_requested_withdrawals_sats := total_requested_withdrawals_sats s;
     total_fees_withdrawn_sats := total_fees_withdrawn_sats s; total_manual_deposit_fees_sats :=
     total_manual_deposit_fees_sats s; total_withdrawal_fees_sats := total_withdrawal_fees_sats s;
     last_received_block_at_ms := last_received_block_at_ms s; last_replayed_withdrawal_at_ms :=
     last_replayed_withdrawal_at_ms s; config_params := config_params s; access_control :=
     access_control s |}.
Definition with_next_recent_finalized_block_index (x : Z) (s : PsyBridgeProgramState) : PsyBridgeProgramState :=
    {| bridge_header := bridge_header s; recent_finalized_blocks := recent_finalized_blocks s;
     last_return_output := last_return_output s; pending_mint_txos := pending_mint_txos s;
     spent_txo_tree_root := spent_txo_tree_root s; withdrawal_snapshot := withdrawal_snapshot s;
     next_processed_withdrawals_index := next_processed_withdrawals_index s;
     sent_transactions_tree := sent_transactions_tree s; manual_deposits_tree :=
     manual_deposits_tree s; requested_withdrawals_tree := requested_withdrawals_tree s;
     custodian_wallet_config_hash := custodian_wallet_config_hash s; bridge_control_mode :=
     bridge_control_mode s; next_recent_finalized_block_index := x;
     last_processed_withdrawals_at_ms := last_processed_withdrawals_at_ms s;
     total_requested_withdrawals_sats := total_requested_withdrawals_sats s;
     total_fees_withdrawn_sats := total_fees_withdrawn_sats s; total_manual_deposit_fees_sats :=
     total_manual_deposit_fees_sats s; total_withdrawal_fees_sats := total_withdrawal_fees_sats s;
     last_received_block_at_ms := last_received_block_at_ms s; last_replayed_withdrawal_at_ms :=
     last_replayed_withdrawal_at_ms s; config_params := config_params s; access_control :=
     access_control s |}.
Definition with_last_processed_withdrawals_at_ms (x : Z) (s : PsyBridgeProgramState) : PsyBridgeProgramState :=
    {| bridge_header := bridge_header s; recent_finalized_blocks := recent_finalized_blocks s;
     last_return_output := last_return_output s; pending_mint_txos := pending_mint_txos s;
     spent_txo_tree_root := spent_txo_tree_root s; withdrawal_snapshot := withdrawal_snapshot s;
     next_processed_withdrawals_index := next_processed_withdrawals_index s;
     sent_transactions_tree := sent_transactions_tree s; manual_deposits_tree :=
     manual_deposits_tree s; requested_withdrawals_tree := requested_withdrawals_tree s;
     custodian_wallet_config_hash := custodian_wallet_config_hash s; bridge_control_mode :=
     bridge_control_mode s; next_recent_finalized_block_index := next_recent_finalized_block_index
     s; last_processed_withdrawals_at_ms := x; total_requested_withdrawals_sats :=
     total_requested_withdrawals_sats s; total_fees_withdrawn_sats := total_fees_withdrawn_sats s;
     total_manual_deposit_fees_sats := total_manual_deposit_fees_sats s;
     total_withdrawal_fees_sats := total_withdrawal_fees_sats s; last_received_block_at_ms :=
     last_received_block_at_ms s; last_replayed_withdrawal_at_ms := last_replayed_withdrawal_at_ms
     s; config_params := config_params s; access_control := access_control s |}.
Definition with_total_requested_withdrawals_sats (x : Z) (s : PsyBridgeProgramState) : PsyBridgeProgramState :=
    {| bridge_header := bridge_header s; recent_finalized_blocks := recent_finalized_blocks s;
     last_return_output := last_return_output s; pending_mint_txos := pending_mint_txos s;
     spent_txo_tree_root := spent_txo_tree_root s; withdrawal_snapshot := withdrawal_snapshot s;
     next_processed_withdrawals_index := next_processed_withdrawals_index s;
     sent_transactions_tree := sent_transactions_tree s; manual_deposits_tree :=
     manual_deposits_tree s; requested_withdrawals_tree := requested_withdrawals_tree s;
     custodian_wallet_config_hash := custodian_wallet_config_hash s; bridge_control_mode :=
     bridge_control_mode s; next_recent_finalized_block_index := next_recent_finalized_block_index
     s; last_processed_withdrawals_at_ms := last_processed_withdrawals_at_ms s;
     total_requested_withdrawals_sats := x; total_fees_withdrawn_sats := total_fees_withdrawn_sats
     s; total_manual_deposit_fees_sats := total_manual_deposit_fees_sats s;
     total_withdrawal_fees_sats := total_withdrawal_fees_sats s; last_received_block_at_ms :=
     last_received_block_at_ms s; last_replayed_withdrawal_at_ms := last_replayed_withdrawal_at_ms
     s; config_params := config_params s; access_control := access_control s |}.
Definition with_total_fees_withdrawn_sats (x : Z) (s : PsyBridgeProgramState) : PsyBridgeProgramState :=
    {| bridge_header := bridge_header s; recent_finalized_blocks := recent_finalized_blocks s;
     last_return_output := last_return_output s; pending_mint_txos := pending_mint_txos s;
     spent_txo_tree_root := spent_txo_tree_root s; withdrawal_snapshot := withdrawal_snapshot s;
     next_processed_withdrawals_index := next_processed_withdrawals_index s;
     sent_transactions_tree := sent_transactions_tree s; manual_deposits_tree :=
     manual_deposits_tree s; requested_withdrawals_tree := requested_withdrawals_tree s;
     custodian_wallet_config_hash := custodian_wallet_config_hash s; bridge_control_mode :=
     bridge_control_mode s; next_recent_finalized_block_index := next_recent_finalized_block_index
     s; last_processed_withdrawals_at_ms := last_processed_withdrawals_at_ms s;
     total_requested_withdrawals_sats := total_requested_withdrawals_sats s;
     total_fees_withdrawn_sats := x; total_manual_deposit_fees_sats :=
     total_manual_deposit_fees_sats s; total_withdrawal_fees_sats := total_withdrawal_fees_sats s;
     last_received_block_at_ms := last_received_block_at_ms s; last_replayed_withdrawal_at_ms :=
     last_replayed_withdrawal_at_ms s; config_params := config_params s; access_control :=
     access_control s |}.
Definition with_total_manual_deposit_fees_sats (x : Z) (s : PsyBridgeProgramState) : PsyBridgeProgramState :=
    {| bridge_header := bridge_header s; recent_finalized_blocks := recent_finalized_blocks s;
     last_return_output := last_return_output s; pending_mint_txos := pending_mint_txos s;
     spent_txo_tree_root := spent_txo_tree_root s; withdrawal_snapshot := withdrawal_snapshot s;
     next_processed_withdrawals_index := next_processed_withdrawals_index s;
     sent_transactions_tree := sent_transactions_tree s; manual_deposits_tree :=
     manual_deposits_tree s; requested_withdrawals_tree := requested_withdrawals_tree s;
     custodian_wallet_config_hash := custodian_wallet_config_hash s; bridge_control_mode :=
     bridge_control_mode s; next_recent_finalized_block_index := next_recent_finalized_block_index
     s; last_processed_withdrawals_at_ms := last_processed_withdrawals_at_ms s;
     total_requested_withdrawals_sats := total_requested_withdrawals_sats s;
     total_fees_withdrawn_sats := total_fees_withdrawn_sats s; total_manual_deposit_fees_sats :=
     x; total_withdrawal_fees_sats := total_withdrawal_fees_sats s; last_received_block_at_ms :=
     last_received_block_at_ms s; last_replayed_withdrawal_at_ms := last_replayed_withdrawal_at_ms
     s; config_params := config_params s; access_control := access_control s |}.
Definition with_total_withdrawal_fees_sats (x : Z) (s : PsyBridgeProgramState) : PsyBridgeProgramState :=
    {| bridge_header := bridge_header s; recent_finalized_blocks := recent_finalized_blocks s;
     last_return_output := last_return_output s; pending_mint_txos := pending_mint_txos s;
     spent_txo_tree_root := spent_txo_tree_root s; withdrawal_snapshot := withdrawal_snapshot s;
     next_processed_withdrawals_index := next_processed_withdrawals_index s;
     sent_transactions_tree := sent_transactions_tree s; manual_deposits_tree :=
     manual_deposits_tree s; requested_withdrawals_tree := requested_withdrawals_tree s;
     custodian_wallet_config_hash := custodian_wallet_config_hash s; bridge_control_mode :=
     bridge_control_mode s; next_recent_finalized_block_index := next_recent_finalized_block_index
     s; last_processed_withdrawals_at_ms := last_processed_withdrawals_at_ms s;
     total_requested_withdrawals_sats := total_requested_withdrawals_sats s;
     total_fees_withdrawn_sats := total_fees_withdrawn_sats s; total_manual_deposit_fees_sats :=
     total_manual_deposit_fees_sats s; total_withdrawal_fees_sats := x; last_received_block_at_ms
     := last_received_block_at_ms s; last_replayed_withdrawal_at_ms :=
     last_replayed_withdrawal_at_ms s; config_params := config_params s; access_control :=
     access_control s |}.

Record BridgeProgramStateWithDogeMint := {
  core_state : PsyBridgeProgramState;
  doge_mint : bytes
}.

#[export] Instance BridgeProgramStateWithDogeMint_eq_dec : EqDecision BridgeProgramStateWithDogeMint.
Proof. solve_decision. Defined.

#[export] Instance BridgeProgramStateWithDogeMint_pod : Pod BridgeProgramStateWithDogeMint.
Proof.
  refine (pod_iso (PsyBridgeProgramState_pod ** pod_array 32)
    (fun '(x0, x1) =>
      {| core_state := x0;
         doge_mint := x1 |})
    (fun r => (core_state r, doge_mint r)) _ _);
    pod_iso_tac.
Defined.

(** The parameters of the initialize instruction ([instructions/doge_bridge.rs]). *)
Record InitializeBridgeInstructionData := {
  init_operator_pubkey : bytes;
  init_fee_spender_pubkey : bytes;
  init_doge_mint : bytes;
  init_bridge_header : PsyBridgeHeader;
  init_start_return_txo_output : PsyReturnTxOutput;
  init_config_params : PsyBridgeConfig;
  init_custodian_wallet_config_hash : QHash256
}.

#[export] Instance InitializeBridgeInstructionData_eq_dec : EqDecision InitializeBridgeInstructionData.
Proof. solve_decision. Defined.

#[export] Instance InitializeBridgeInstructionData_pod : Pod InitializeBridgeInstructionData.
Proof.
  refine (pod_iso (pod_array 32 ** pod_array 32 ** pod_array 32 ** PsyBridgeHeader_pod **
      PsyReturnTxOutput_pod ** PsyBridgeConfig_pod ** pod_array 32)
    (fun '(x0, (x1, (x2, (x3, (x4, (x5, x6)))))) =>
      {| init_operator_pubkey := x0;
         init_fee_spender_pubkey := x1;
         init_doge_mint := x2;
         init_bridge_header := x3;
         init_start_return_txo_output := x4;
         init_config_params := x5;
         init_custodian_wallet_config_hash := x6 |})
    (fun r => (init_operator_pubkey r, (init_fee_spender_pubkey r, (init_doge_mint r,
      (init_bridge_header r, (init_start_return_txo_output r, (init_config_params r,
      init_custodian_wallet_config_hash r))))))) _ _);
    pod_iso_tac.
Defined.

Definition INVALID_BLOCK_HEIGHT : Z := 0xFFFFFFFF.
Definition MIN_WAIT_TIME_REPLAY_WITHDRAWAL_SECS : Z := 60.

Section core.
Context `{Sha256} `{ZkVerifier}.
Abbreviation State := PsyBridgeProgramState.

(** [initialize] assigns every field. *)
Definition initialize (self : State) (ix : InitializeBridgeInstructionData) : State :=
  {| bridge_header := header_copy_from (bridge_header self) (init_bridge_header ix);
     recent_finalized_blocks := replicate 8 (finalized_state (init_bridge_header ix));
     last_return_output := init_start_return_txo_output ix;
     pending_mint_txos := zeroed FinalizedBlockMintTxoManager;
     spent_txo_tree_root := ZERO 45;
     withdrawal_snapshot := zeroed PsyWithdrawalChainSnapshot;
     next_processed_withdrawals_index := 0;
     sent_transactions_tree := new_empty;
     manual_deposits_tree := new_empty;
     requested_withdrawals_tree := new_empty;
     custodian_wallet_config_hash := init_custodian_wallet_config_hash ix;
     bridge_control_mode := 0;
     next_recent_finalized_block_index := 0;
     last_processed_withdrawals_at_ms := 0;
     total_requested_withdrawals_sats := 0;
     total_fees_withdrawn_sats := 0;
     total_manual_deposit_fees_sats := 0;
     total_withdrawal_fees_sats := 0;
     last_received_block_at_ms := 0;
     last_replayed_withdrawal_at_ms := 0;
     config_params := init_config_params ix;
     access_control := {| operator_pubkey := init_operator_pubkey ix;
                          fee_spender_pubkey := init_fee_spender_pubkey ix |} |}.

Definition get_total_finalized_fees (self : State) : Z :=
  u64 (u64 (total_manual_deposit_fees_sats self + total_withdrawal_fees_sats self)
       + total_finalized_fees_collected_chain_history (bridge_header self)).

Definition get_operator_withdrawable_fees (self : State) : Z :=
  u64 (get_total_finalized_fees self - total_fees_withdrawn_sats self).

Definition is_paused (self : State) (current_unix_timestamp_secs : Z) : bool :=
  header_is_paused (bridge_header self) current_unix_timestamp_secs.

Definition snapshot_for_withdrawal (self : State) (current_unix_timestamp_secs : Z) : State :=
  let fin := finalized_state (bridge_header self) in
  with_withdrawal_snapshot
    {| ws_auto_claimed_deposits_tree_root := sc_auto_claimed_deposits_tree_root fin;
       ws_requested_withdrawals_tree_root := current_root (requested_withdrawals_tree self);
       ws_block_merkle_tree_root := sc_block_merkle_tree_root fin;
       ws_manual_deposits_tree_root := current_root (manual_deposits_tree self);
       ws_block_height := sc_block_height fin;
       ws_last_snapshotted_for_withdrawals_seconds := current_unix_timestamp_secs;
       ws_next_requested_withdrawals_tree_index := next_index (requested_withdrawals_tree self);
       ws_next_manual_deposits_tree_index := next_index (manual_deposits_tree self) |} self.

Definition get_expected_public_inputs_for_withdrawal_proof (self : State)
    (new_return_output : PsyReturnTxOutput) (new_spent_txo_tree_root : QHash256)
    (new_next_processed_withdrawals_index : Z) : QHash256 :=
  get_withdrawal_proof_public_inputs
    (snapshot_get_hash (withdrawal_snapshot self))
    (return_output_get_hash (last_return_output self))
    (return_output_get_hash new_return_output)
    (spent_txo_tree_root self)
    new_spent_txo_tree_root
    (custodian_wallet_config_hash self)
    new_next_processed_withdrawals_index.

(** [Result::unwrap_or(FeeResult { 0, 0 })] *)
Definition fee_or_zero (r : res String.string FeeResult) : FeeResult :=
  match r with Ok f => f | _ => {| fees_generated := 0; amount_after_fees := 0 |} end.

(** The [bool] result; [Panic] would come from the tree or the leaf. *)
Definition process_request_withdrawal (self : State) (address_type : Z) (address : bytes)
    (amount_burned_sats : Z) : res DogeBridgeError bool * State :=
  let fee_result := fee_or_zero
    (calcuate_withdrawal_fee amount_burned_sats
       (withdrawal_flat_fee_sats (config_params self))
       (withdrawal_fee_rate_numerator (config_params self))
       (withdrawal_fee_rate_denominator (config_params self))) in
  if (fees_generated fee_result =? 0) || (amount_after_fees fee_result =? 0)
  then (Ok false, self)
  else
    let self1 := with_total_withdrawal_fees_sats
      (u64 (total_withdrawal_fees_sats self + fees_generated fee_result)) self in
    let withdrawal_request :=
      {| wr_amount_sats := amount_after_fees fee_result; wr_address_type := address_type;
         wr_recipient_address := address |} in
    try leaf <- or_panic (to_leaf withdrawal_request) on self1;
    try tree <- or_panic (append (requested_withdrawals_tree self1) leaf) on self1;
    let self2 := with_requested_withdrawals_tree tree self1 in
    (Ok true, with_total_requested_withdrawals_sats
                (u64 (total_requested_withdrawals_sats self2 + amount_burned_sats)) self2).

Definition update_for_withdrawal (self : State) (new_return_output : PsyReturnTxOutput)
    (new_spent_txo_tree_root : QHash256) (new_next_processed_withdrawals_index : Z)
    : res DogeBridgeError unit * State :=
  let self1 :=
    with_next_processed_withdrawals_index new_next_processed_withdrawals_index
      (with_spent_txo_tree_root new_spent_txo_tree_root
         (with_last_return_output new_return_output self)) in
  try tree <- or_panic (append (sent_transactions_tree self1) (ro_sighash new_return_output)) on self1;
  (Ok tt, with_sent_transactions_tree tree self1).

Definition process_replay_withdrawal_proof (self : State)
    (proof : FixedMerkleAppendTreePartialMerkleProof) (current_unix_timestamp_secs : Z)
    : res DogeBridgeError bool * State :=
  try proof_root <- or_panic (fpp_compute_root_sha256 proof) on self;
  if negb (bool_decide (proof_root = current_root (sent_transactions_tree self)))
  then (Ok false, self)
  else if current_unix_timestamp_secs <?
            u64 (last_processed_withdrawals_at_ms self / 1000 + MIN_WAIT_TIME_REPLAY_WITHDRAWAL_SECS)
  then (Ok false, self)
  else (Ok true, with_last_processed_withdrawals_at_ms (u64 (current_unix_timestamp_secs * 1000)) self).

(** The scan over the eight recent blocks. *)
Fixpoint find_recent_block (blocks : list PsyBridgeStateCommitment) (root : QHash256)
    : option PsyBridgeStateCommitment :=
  match blocks with
  | [] => None
  | b :: rest =>
      if bool_decide (sc_auto_claimed_deposits_tree_root b = root) then Some b
      else find_recent_block rest root
  end.

Definition find_recent_auto_claim_txo_tree_root (self : State) (recent_auto_claim_txo_root : QHash256) : Z :=
  let fin := finalized_state (bridge_header self) in
  if bool_decide (sc_auto_claimed_deposits_tree_root fin = recent_auto_claim_txo_root)
  then sc_block_height fin
  else match find_recent_block (recent_finalized_blocks self) recent_auto_claim_txo_root with
       | Some b => sc_block_height b
       | None => INVALID_BLOCK_HEIGHT
       end.

Definition find_recent_auto_claim_txo_tree_root_and_block_merkle_root (self : State)
    (recent_auto_claim_txo_root : QHash256) : Z * QHash256 :=
  let fin := finalized_state (bridge_header self) in
  if bool_decide (sc_auto_claimed_deposits_tree_root fin = recent_auto_claim_txo_root)
  then (sc_block_height fin, sc_block_merkle_tree_root fin)
  else match find_recent_block (recent_finalized_blocks self) recent_auto_claim_txo_root with
       | Some b => (sc_block_height b, sc_block_merkle_tree_root b)
       | None => (INVALID_BLOCK_HEIGHT, zeros 32)
       end.

Definition process_manual_claimed_deposit (self : State) (tx_hash recent_block_merkle_tree_root
    recent_auto_claim_txo_root : QHash256) (combined_txo_index : Z) (depositor_ata : bytes)
    (deposit_amount_sats : Z) : res DogeBridgeError Z * State :=
  let '(block_height, _, _) :=
    get_txo_block_number_tx_number_output_index_from_combined_index combined_txo_index in
  let '(block_height_for_auto_claim_txo_root, block_merkle_tree_root) :=
    find_recent_auto_claim_txo_tree_root_and_block_merkle_root self recent_auto_claim_txo_root in
  bail AutoClaimedDepositTreeRootNotRecentEnough
    if (block_height_for_auto_claim_txo_root =? INVALID_BLOCK_HEIGHT)
       || (block_height_for_auto_claim_txo_root <? block_height) on self;
  bail BlockMerkleTreeRootNotRecentEnough
    if negb (bool_decide (block_merkle_tree_root = recent_block_merkle_tree_root)) on self;
  let fee_result := fee_or_zero
    (calcuate_deposit_fee deposit_amount_sats
       (deposit_flat_fee_sats (config_params self))
       (deposit_fee_rate_numerator (config_params self))
       (deposit_fee_rate_denominator (config_params self))) in
  bail InsufficientBridgeFees
    if (fees_generated fee_result =? 0) || (amount_after_fees fee_result =? 0) on self;
  let leaf_hash := hash_deposit_leaf tx_hash combined_txo_index depositor_ata
                     (amount_after_fees fee_result) in
  let self1 := with_total_manual_deposit_fees_sats
    (u64 (total_manual_deposit_fees_sats self + fees_generated fee_result)) self in
  try tree <- or_panic (append (manual_deposits_tree self1) leaf_hash) on self1;
  (Ok (amount_after_fees fee_result), with_manual_deposits_tree tree self1).

(** ** proc_withdrawal.rs *)

Definition run_process_bridge_withdrawal (self : State) (proof vk dogecoin_tx : bytes)
    (new_return_output : PsyReturnTxOutput) (new_spent_txo_tree_root : QHash256)
    (new_next_processed_withdrawals_index : Z) : res DogeBridgeError QHash256 * State :=
  let doge_tx_hash := hash_impl_sha256_bytes dogecoin_tx in
  bail InvalidDogeTxHash if negb (bool_decide (doge_tx_hash = ro_sighash new_return_output)) on self;
  let expected_public_inputs := get_expected_public_inputs_for_withdrawal_proof self
    new_return_output new_spent_txo_tree_root new_next_processed_withdrawals_index in
  bail BridgeZKPError if negb (verify_compact_zkp_slice proof vk expected_public_inputs) on self;
  call (_, self1) <- update_for_withdrawal self new_return_output new_spent_txo_tree_root
                       new_next_processed_withdrawals_index into (fun s => s);
  (Ok doge_tx_hash, self1).

(** [burn_from] is the result of the burn CPI. *)
Definition request_withdrawal (self : State) (burn_from : bytes -> Z -> res DogeBridgeError unit)
    (requester : bytes) (request : PsyWithdrawalRequest) : res DogeBridgeError unit * State :=
  call (ok, self1) <- process_request_withdrawal self (wr_address_type request)
                        (wr_recipient_address request) (wr_amount_sats request) into (fun s => s);
  bail InvalidWithdrawalAmount if negb ok on self1;
  try _ <- burn_from requester (wr_amount_sats request) on self1;
  (Ok tt, self1).

(** ** operator.rs *)

Definition run_bridge_operator_withdraw_fees_precheck (self : State) : res DogeBridgeError Z * State :=
  bail NoOperatorFeesToWithdraw if get_total_finalized_fees self <=? total_fees_withdrawn_sats self on self;
  let fees_to_withdraw := u64 (get_total_finalized_fees self - total_fees_withdrawn_sats self) in
  bail NoOperatorFeesToWithdraw if fees_to_withdraw =? 0 on self;
  (Ok fees_to_withdraw,
   with_total_fees_withdrawn_sats (u64 (total_fees_withdrawn_sats self + fees_to_withdraw)) self).

(** [mint_to index account amount] is the result of the mint CPI. *)
Definition run_bridge_operator_withdraw_fees (self : State)
    (mint_to : Z -> bytes -> Z -> res DogeBridgeError unit) (operator_ata : bytes)
    : res DogeBridgeError unit * State :=
  call (fees_to_withdraw, self1) <- run_bridge_operator_withdraw_fees_precheck self into (fun s => s);
  try _ <- mint_to 0 operator_ata fees_to_withdraw on self1;
  (Ok tt, self1).

(** ** deposit.rs *)

Definition run_claim_deposit_manual (self : State)
    (mint_to : Z -> bytes -> Z -> res DogeBridgeError unit)
    (recent_block_merkle_tree_root recent_auto_claim_txo_root tx_hash : QHash256)
    (combined_txo_index : Z) (depositor_public_key : bytes) (deposit_amount_sats : Z)
    : res DogeBridgeError unit * State :=
  call (mint_amount, self1) <- process_manual_claimed_deposit self tx_hash
      recent_block_merkle_tree_root recent_auto_claim_txo_root combined_txo_index
      depositor_public_key deposit_amount_sats into (fun s => s);
  try _ <- mint_to 0 depositor_public_key mint_amount on self1;
  (Ok tt, self1).
End core.
