(* ===== verification/StateProofs.v ===== *)
(** * StateProofs: what each operation on the bridge state guarantees

    Theorems about the withdrawal, replay, fee and manual-deposit operations of
    [ProgramState.v]: what has been checked when they succeed, what they write, and
    that a rejection leaves the state as it was. *)
From S2P Require Import Prelude Pod Hash Sha256 Errors MerkleProof AppendTree TxoIndex Fees Types PublicInputs MintGroup ProgramState.
From Stdlib Require Import ZArith Lia.
From stdpp Require Import base decidable list numbers option.

Open Scope Z_scope.
Open Scope bridge_scope.

Section state_theorems.
Context `{Sha256Laws} `{ZkVerifier}.
Abbreviation State := PsyBridgeProgramState.

(** [C19] A withdrawal transaction is only sent with an accepted proof: when
    processing succeeds, the transaction hashes to the sighash of the new return
    output, the proof was accepted for the public input that commits to the
    snapshot, the old and new return outputs and spent-output roots and the
    custodian; exactly those fields are replaced and the sighash is appended to
    the tree of sent transactions. *)
Theorem process_withdrawal_sound (self self' : State) (proof vk tx : bytes) (ro : PsyReturnTxOutput)
    (root : QHash256) (next : Z) (h : QHash256) :
  run_process_bridge_withdrawal self proof vk tx ro root next = (Ok h, self') ->
  h = sha256 tx /\ h = ro_sighash ro /\
  verify_compact_zkp_slice proof vk
    (get_withdrawal_proof_public_inputs (snapshot_get_hash (withdrawal_snapshot self))
       (return_output_get_hash (last_return_output self)) (return_output_get_hash ro)
       (spent_txo_tree_root self) root (custodian_wallet_config_hash self) next) = true /\
  exists tree, append (sent_transactions_tree self) h = Some tree /\
    self' = with_sent_transactions_tree tree (with_next_processed_withdrawals_index next
              (with_spent_txo_tree_root root (with_last_return_output ro self))).
Proof.
  intros Hr. unfold run_process_bridge_withdrawal in Hr. peel Hr as E0. peel Hr as E1. peel Hr as E2.
  injection Hr as <- <-. unfold update_for_withdrawal in E2. peel E2 as E3. injection E2 as _ <-.
  apply negb_false_iff in E0, E1. apply bool_decide_eq_true in E0.
  split; [done|]. split; [done|]. split; [done|]. exists x0. by rewrite E0.
Qed.

Lemma replay_accepted (self self' : State) proof now :
  process_replay_withdrawal_proof self proof now = (Ok true, self') ->
  fpp_compute_root_sha256 proof = Some (current_root (sent_transactions_tree self)) /\
  u64 (last_processed_withdrawals_at_ms self / 1000 + 60) <= now /\
  self' = with_last_processed_withdrawals_at_ms (u64 (now * 1000)) self.
Proof.
  unfold process_replay_withdrawal_proof. intros Hr. peel Hr as E0.
  destruct (negb _) eqn:E1; [discriminate|]. destruct (_ <? _) eqn:E2; [discriminate|].
  injection Hr as <-. apply negb_false_iff, bool_decide_eq_true in E1. subst x.
  apply Z.ltb_ge in E2. done.
Qed.

(** Replays are restricted to sent transactions and rate limited: an accepted
    replay proof names a transaction that was sent (given that the pairs hashed
    on the paths do not collide), at least 60 seconds have passed since the last
    replay, nothing but the time stamp changes, and no other replay is accepted
    within the next 60 seconds. *)
Theorem replay_sound_and_rate_limited (self self' : State) (sent : list QHash256)
    (proof : FixedMerkleAppendTreePartialMerkleProof) (now : Z) :
  sent_transactions_tree self = tree_of sent ->
  length (fpp_siblings proof) = 32%nat -> 0 <= fpp_index proof < 2 ^ 32 ->
  @collision_free _ QSha256Hasher
    (@path_pairs _ QSha256Hasher (fpp_value proof) (fpp_index proof) (fpp_siblings proof) ++
     @path_pairs _ QSha256Hasher (leaf sent (fpp_index proof)) (fpp_index proof)
       (authentic_siblings sent (fpp_index proof))) ->
  in_width 64 (last_processed_withdrawals_at_ms self) -> in_width 32 now ->
  process_replay_withdrawal_proof self proof now = (Ok true, self') ->
  fpp_value proof = leaf sent (fpp_index proof) /\
  last_processed_withdrawals_at_ms self / 1000 + 60 <= now /\
  self' = with_last_processed_withdrawals_at_ms (now * 1000) self /\
  forall proof' now' self'', now' < now + 60 ->
    process_replay_withdrawal_proof self' proof' now' <> (Ok true, self'').
Proof.
  intros Hsent Hs Hi HC Hlast Hnow (E0 & E1 & E2)%replay_accepted. unfold in_width in *.
  rewrite wrap_id in E1 by (unfold in_width; Z.to_euclidean_division_equations; lia).
  rewrite wrap_id in E2 by (unfold in_width; lia). subst self'.
  split; [|split; [done|split; [done|]]].
  - unfold fpp_compute_root_sha256 in E0.
    rewrite compute_merkle_root_generic in E0 by (unfold len; rewrite Hs; simpl; lia).
    injection E0 as E0. rewrite Hsent in E0. by eapply root_names_leaf.
  - intros proof' now' self'' Hlt (_ & Hw & _)%replay_accepted.
    cbn [last_processed_withdrawals_at_ms with_last_processed_withdrawals_at_ms] in Hw.
    rewrite Z.div_mul in Hw by lia. rewrite wrap_id in Hw by (unfold in_width; lia). lia.
Qed.

(** Operator fees are paid out exactly once: a successful withdrawal hands out
    precisely the finalized fees not paid yet, a positive amount, and directly
    afterwards nothing is left to withdraw. *)
Theorem operator_fees_paid_once (self self' : State) (fees : Z) :
  in_width 64 (total_fees_withdrawn_sats self) ->
  run_bridge_operator_withdraw_fees_precheck self = (Ok fees, self') ->
  fees = get_operator_withdrawable_fees self /\ 0 < fees /\
  total_fees_withdrawn_sats self' = total_fees_withdrawn_sats self + fees /\
  total_fees_withdrawn_sats self' = get_total_finalized_fees self /\
  get_operator_withdrawable_fees self' = 0 /\
  run_bridge_operator_withdraw_fees_precheck self' = (Err NoOperatorFeesToWithdraw, self').
Proof.
  intros Hw Hr. unfold run_bridge_operator_withdraw_fees_precheck in Hr. peel Hr as E0. cbv zeta in Hr.
  peel Hr as E1. injection Hr as <- <-. clear E1. apply Z.leb_gt in E0.
  assert (in_width 64 (get_total_finalized_fees self)) as Ht by (apply wrap_in_width; lia).
  unfold in_width in *. rewrite (wrap_id 64 (get_total_finalized_fees self - _)) by (unfold in_width; lia).
  replace (total_fees_withdrawn_sats self + (get_total_finalized_fees self - total_fees_withdrawn_sats self))
    with (get_total_finalized_fees self) by lia.
  rewrite (wrap_id 64 (get_total_finalized_fees self)) by done.
  set (self' := with_total_fees_withdrawn_sats _ _).
  assert (get_total_finalized_fees self' = get_total_finalized_fees self) as Hsame by done.
  unfold get_operator_withdrawable_fees at 1. rewrite wrap_id by (unfold in_width; lia).
  split; [done|]. split; [lia|]. split; [simpl; lia|]. split; [done|].
  unfold get_operator_withdrawable_fees, run_bridge_operator_withdraw_fees_precheck. rewrite Hsame.
  change (total_fees_withdrawn_sats self') with (get_total_finalized_fees self).
  by rewrite Z.sub_diag, Z.leb_refl.
Qed.

(** The block that a pair of recent roots comes from. *)
Definition recent_block (self : State) (b : PsyBridgeStateCommitment) : Prop :=
  b = finalized_state (bridge_header self) \/ b ∈ recent_finalized_blocks self.

Lemma find_recent_block_spec blocks root :
  match find_recent_block blocks root with
  | Some b => b ∈ blocks /\ sc_auto_claimed_deposits_tree_root b = root
  | None => True
  end.
Proof.
  induction blocks as [|b blocks IH]; [done|]. simpl. case_bool_decide; [split; [by left|done]|].
  destruct (find_recent_block blocks root); [|done]. destruct IH. split; [by right|done].
Qed.

(** [C22] A manual deposit is credited only against recent chain state: success means
    that both given roots belong to one block among the finalized header and the
    eight recent blocks, and that the deposit is not from a later block; the
    amount credited is the deposit less its fee (both positive), and the leaf that
    binds transaction, output, account and amount is appended.  Besides that leaf and the
    sum of the fees, nothing in the state changes. *)
Theorem manual_deposit_sound (self self' : State) (tx_hash block_root auto_root : QHash256)
    (index : Z) (ata : bytes) (amount credited : Z) :
  process_manual_claimed_deposit self tx_hash block_root auto_root index ata amount = (Ok credited, self') ->
  let cfg := config_params self in
  let fee := u64 (exact_fee amount (deposit_flat_fee_sats cfg) (deposit_fee_rate_numerator cfg)
                    (deposit_fee_rate_denominator cfg)) in
  (exists b, recent_block self b /\
    sc_auto_claimed_deposits_tree_root b = auto_root /\ sc_block_merkle_tree_root b = block_root /\
    (get_txo_block_number_tx_number_output_index_from_combined_index index).1.1 <= sc_block_height b) /\
  credited = amount - fee /\ 0 < fee /\ 0 < credited /\
  exists tree, append (manual_deposits_tree self) (hash_deposit_leaf tx_hash index ata credited) = Some tree /\
    self' = with_manual_deposits_tree tree
              (with_total_manual_deposit_fees_sats (u64 (total_manual_deposit_fees_sats self + fee)) self).
Proof.
  intros Hr cfg fee. unfold process_manual_claimed_deposit in Hr.
  destruct (get_txo_block_number_tx_number_output_index_from_combined_index index) as [[bh txn] oi].
  destruct (find_recent_auto_claim_txo_tree_root_and_block_merkle_root self auto_root) as [h root] eqn:Ef.
  peel Hr as E0. peel Hr as E1. cbv zeta in Hr. peel Hr as E2. peel Hr as E3. injection Hr as <- <-.
  destruct (calcuate_deposit_fee _ _ _ _) as [f| |] eqn:Efee; cbn [fee_or_zero] in *; [|discriminate E2..].
  change calcuate_deposit_fee with calcuate_withdrawal_fee in Efee.
  apply withdrawal_fee_Ok in Efee as (Hf & Hn & Hpos). fold cfg in Hf. fold fee in Hf.
  apply negb_false_iff, bool_decide_eq_true in E1. subst root.
  apply orb_false_iff in E0 as [Eh0%Z.eqb_neq Eh1%Z.ltb_ge].
  apply orb_false_iff in E2 as [Ef0%Z.eqb_neq Ef1%Z.eqb_neq].
  assert (0 <= fee) by (apply (wrap_in_width 64); lia). split.
  - unfold find_recent_auto_claim_txo_tree_root_and_block_merkle_root in Ef. case_bool_decide as Hb.
    + injection Ef as <- <-. exists (finalized_state (bridge_header self)). split; [by left|done].
    + pose proof (find_recent_block_spec (recent_finalized_blocks self) auto_root) as Hs.
      destruct (find_recent_block _ _) as [b|]; [|injection Ef as <- _; done].
      injection Ef as <- <-. destruct Hs. exists b. split; [by right|done].
  - split; [congruence|]. split; [lia|]. split; [lia|]. exists x. rewrite Hf in *. done.
Qed.

(** A rejected operation changes nothing: processing a withdrawal, crediting a
    manual deposit and the operator's fee check leave the state as it was when
    they return an error, and a withdrawal request that is turned down does
    too. *)
Theorem rejected_operations_change_nothing (self : State) :
  (forall proof vk tx ro root next e s,
     run_process_bridge_withdrawal self proof vk tx ro root next = (Err e, s) -> s = self) /\
  (forall tx br ar i ata a e s,
     process_manual_claimed_deposit self tx br ar i ata a = (Err e, s) -> s = self) /\
  (forall e s, run_bridge_operator_withdraw_fees_precheck self = (Err e, s) -> s = self) /\
  (forall t addr a s, process_request_withdrawal self t addr a = (Ok false, s) -> s = self) /\
  (forall p now s, process_replay_withdrawal_proof self p now = (Ok false, s) -> s = self).
Proof.
  split_and!; intros.
  - unfold run_process_bridge_withdrawal in *. destruct (negb _); [congruence|].
    destruct (negb _); [congruence|]. unfold update_for_withdrawal in *.
    destruct (append _ _); done.
  - unfold process_manual_claimed_deposit in *. repeat (case_match; try congruence).
    destruct (append _ _); done.
  - unfold run_bridge_operator_withdraw_fees_precheck in *. repeat (case_match; try congruence).
  - unfold process_request_withdrawal in *. case_match; [congruence|].
    destruct (to_leaf _); [|done]. cbn [or_panic pure_call] in *. destruct (append _ _); done.
  - unfold process_replay_withdrawal_proof in *. destruct (fpp_compute_root_sha256 _); [|done].
    cbn [or_panic pure_call] in *. repeat (case_match; try congruence).
Qed.
End state_theorems.
