(* ===== verification/BlockUpdate.v ===== *)
(** * BlockUpdate: block transitions, reorgs and automatic mints

    Models [psy-doge-solana-core/src/program_state/block_update.rs] and
    [auto_mint.rs]: the checks that tie a new header to the mint and TXO buffers,
    the two state transitions, and the processing of mint groups.

    Account memories are byte lists.  The mint CPI is a parameter that returns the
    result of each call; [run_auto_mint_group] also returns the calls it made. *)
From S2P Require Import Prelude Pod Hash Sha256 Errors AppendTree Types PublicInputs MintGroup ProgramState.
From Stdlib Require Import ZArith Lia.
From stdpp Require Import base decidable list numbers option.

Open Scope Z_scope.
Open Scope bridge_scope.

Definition COMPACT_BRIDGE_ZK_PROOF_SIZE : Z := 256.
Definition COMPACT_BRIDGE_ZK_VERIFIER_KEY_SIZE : Z := 32.
Definition u16_MAX : Z := 65535.

(** (total groups, size of last group) *)
Definition compute_mint_group_info (total_mints : Z) : Z * Z :=
  if total_mints =? 0 then (0, 0) else
  let rem := total_mints mod PM_MAX_PENDING_MINTS_PER_GROUP in
  let last_group_size := if rem =? 0 then PM_MAX_PENDING_MINTS_PER_GROUP else rem in
  if rem =? 0 then (total_mints / PM_MAX_PENDING_MINTS_PER_GROUP, last_group_size)
  else (total_mints / PM_MAX_PENDING_MINTS_PER_GROUP + 1, last_group_size).

(** The position of the first block of the backlog that has something to mint. *)
Fixpoint get_backlog_contains_pending_mints (pending_backlog : list FinalizedBlockMintTxoInfo)
    : option nat :=
  match pending_backlog with
  | [] => None
  | item :: rest =>
      if negb (info_is_empty item) then Some 0%nat
      else i ← get_backlog_contains_pending_mints rest; Some (S i)
  end.

Section block_update.
Context `{Sha256} `{ZkVerifier}.
Abbreviation State := PsyBridgeProgramState.

Definition is_ready_for_new_block_update (self : State) : bool :=
  manager_is_empty (pending_mint_txos self).

(** It takes [&mut self] but only reads the buffer. *)
Definition ensure_pending_mints_ready_for_transition_inner
    (self_bridge_program_pub_key : bytes) (expected_pending_mints_buffer_hash : QHash256)
    (mint_buffer : bytes) : res DogeBridgeError (QHash256 * Z) :=
  bail InvalidAutoClaimMintBufferDataAccountSize
    if len mint_buffer <? PM_DA_PENDING_MINTS_BUFFER_STATE_HEADER_SIZE;
  try header_bytes <- or_panic (slice 0 PM_DA_PENDING_MINTS_BUFFER_STATE_HEADER_SIZE mint_buffer);
  try mint_buffer_header <- or_panic (cast (A := PendingMintsBufferStateHeader) header_bytes);
  bail InvalidMintBufferLockingPermission
    if negb (bool_decide (authorized_locker_public_key mint_buffer_header = self_bridge_program_pub_key));
  let count := pending_mints_count mint_buffer_header in
  let '(mint_groups, _) := compute_mint_group_info count in
  bail InvalidMintBufferPendingMintGroupsCount
    if negb (pending_mint_groups_count mint_buffer_header =? mint_groups);
  bail InvalidMintBufferPendingMintsCount
    if (u16_MAX <=? count) || negb (pending_mints_count mint_buffer_header =? count);
  bail InvalidAutoClaimMintBufferDataAccountSize
    if len mint_buffer <? pm_calculate_data_account_min_size count;
  try hash_preimage_slice <- or_panic (slice 70 (mint_groups * 32 + 72) mint_buffer);
  let pending_mints_buffer_hash := hash_impl_sha256_bytes hash_preimage_slice in
  bail InvalidPendingMintsBufferHash
    if negb (bool_decide (expected_pending_mints_buffer_hash = pending_mints_buffer_hash));
  Ok (pending_mints_buffer_hash, count).

Definition ensure_pending_mints_ready_for_transition (pending_mints_count : Z)
    (self_bridge_program_pub_key : bytes) (expected_pending_mints_buffer_hash : QHash256)
    (mint_buffer : bytes) : res DogeBridgeError (QHash256 * bool) :=
  if pending_mints_count =? 0 then Ok (PM_DA_DEFAULT_PENDING_MINTS_BUFFER_HASH, false) else
  try r <- ensure_pending_mints_ready_for_transition_inner self_bridge_program_pub_key
             expected_pending_mints_buffer_hash mint_buffer;
  bail InvalidPendingMintsCountForTransition if negb (r.2 =? pending_mints_count);
  Ok (r.1, 0 <? pending_mints_count).

(** The TXO-buffer checks of a transition with mints: returns the hash of the
    listed outputs. *)
Definition read_txo_hash (txo_buffer : bytes) (pending_mints_count : Z)
    (header_ok : PendingMintsTxoBufferHeader -> bool) (height_error : DogeBridgeError)
    : res DogeBridgeError QHash256 :=
  let pm_txo_data_account_size := pm_txo_data_account_min_size pending_mints_count in
  bail InvalidAutoClaimTxoBufferDataAccountSize if len txo_buffer <? pm_txo_data_account_size;
  try header_bytes <- or_panic (slice 0 PM_TXO_BUFFER_HEADER_SIZE txo_buffer);
  try txo_header <- or_panic (cast (A := PendingMintsTxoBufferHeader) header_bytes);
  bail height_error if negb (header_ok txo_header);
  try listed <- or_panic (slice PM_TXO_BUFFER_HEADER_SIZE pm_txo_data_account_size txo_buffer);
  Ok (hash_impl_sha256_bytes listed).

(** [if has_new_auto_mints { .. }]: check the TXO buffer and queue the block. *)
Definition queue_new_mints (self : State) (new_fin : PsyBridgeStateCommitment)
    (has_new_auto_mints : bool) (pending_mints_buffer_hash : QHash256) (total_new_auto_claims : Z)
    (mint_buffer_storage_account_pub_key txo_buffer : bytes) : res DogeBridgeError unit * State :=
  if has_new_auto_mints then
    try txo_hash <- read_txo_hash txo_buffer total_new_auto_claims
        (fun h => (txo_doge_block_height h =? sc_block_height new_fin) && negb (txo_data_size h =? 0))
        InvalidAutoClaimTxoBufferPendingMintsCount on self;
    bail InvalidAutoClaimTxoBufferHash
      if negb (bool_decide (txo_hash = sc_txo_output_list_finalized_hash new_fin)) on self;
    let '(mint_groups, _) := compute_mint_group_info total_new_auto_claims in
    call (_, self1) <- standard_append_block (pending_mint_txos self) (sc_block_height new_fin)
        [{| pending_mints_finalized_hash := pending_mints_buffer_hash;
            txo_output_list_finalized_hash := txo_hash |}]
        mint_buffer_storage_account_pub_key total_new_auto_claims mint_groups
      into (fun m => with_pending_mint_txos m self);
    (Ok tt, self1)
  else (Ok tt, self).

Definition run_standard_single_block_transition (self : State) (proof vk : bytes)
    (new_header : PsyBridgeHeader) (self_bridge_program_pub_key mint_buffer_storage_account_pub_key : bytes)
    (txo_buffer mint_buffer : bytes) : res DogeBridgeError unit * State :=
  let fin := finalized_state (bridge_header self) in
  let new_fin := finalized_state new_header in
  bail ProgramStateNotReadyForBlockUpdate if negb (is_ready_for_new_block_update self) on self;
  bail InvalidZKProofSize if negb (len proof =? COMPACT_BRIDGE_ZK_PROOF_SIZE) on self;
  bail InvalidZKVerifierKeySize if negb (len vk =? COMPACT_BRIDGE_ZK_VERIFIER_KEY_SIZE) on self;
  bail InvalidBlockHeightForSingleBlockTransition
    if negb (sc_block_height new_fin =? u32 (sc_block_height fin + 1)) on self;
  bail InvalidBlockHeightForSingleBlockTransition
    if tip_block_height (tip_state new_header) <=? tip_block_height (tip_state (bridge_header self)) on self;
  bail InvalidAutoClaimedDepositsNextIndex
    if sc_auto_claimed_deposits_next_index new_fin <? sc_auto_claimed_deposits_next_index fin on self;
  let total_new_auto_claims :=
    sc_auto_claimed_deposits_next_index new_fin - sc_auto_claimed_deposits_next_index fin in
  bail TooManyNewAutoClaimedDeposits if u16_MAX <? total_new_auto_claims on self;
  let expected_zkp_public_inputs := get_block_transition_public_inputs
    (get_hash_canonical (bridge_header self)) (get_hash_canonical new_header)
    (config_get_hash (config_params self)) (custodian_wallet_config_hash self) in
  bail InvalidBridgeInputZKP if negb (verify_compact_zkp_slice proof vk expected_zkp_public_inputs) on self;
  try r <- ensure_pending_mints_ready_for_transition total_new_auto_claims
             self_bridge_program_pub_key (sc_pending_mints_finalized_hash new_fin) mint_buffer on self;
  bail InvalidPendingMintsBufferHash
    if negb (bool_decide (r.1 = sc_pending_mints_finalized_hash new_fin)) on self;
  call (_, self1) <- queue_new_mints self new_fin (r.2) (r.1) total_new_auto_claims
      mint_buffer_storage_account_pub_key txo_buffer into (fun s => s);
  let self2 := with_bridge_header new_header self1 in
  try recent <- or_panic (set_index (recent_finalized_blocks self2)
                            (next_recent_finalized_block_index self2) new_fin) on self2;
  (Ok tt, with_next_recent_finalized_block_index
            (u32 (next_recent_finalized_block_index self2 + 1) mod 8)
            (with_recent_finalized_blocks recent self2)).

Definition run_block_transition_reorg (self : State) (proof vk : bytes)
    (new_header : PsyBridgeHeader) (extra_finalized_blocks : list FinalizedBlockMintTxoInfo)
    (self_bridge_program_pub_key mint_buffer_locker_account_pubkey : bytes)
    (txo_buffer mint_buffer : bytes) : res DogeBridgeError unit * State :=
  let fin := finalized_state (bridge_header self) in
  let new_fin := finalized_state new_header in
  bail ProgramStateNotReadyForBlockUpdate if negb (is_ready_for_new_block_update self) on self;
  bail InvalidZKProofSize if negb (len proof =? COMPACT_BRIDGE_ZK_PROOF_SIZE) on self;
  bail InvalidZKVerifierKeySize if negb (len vk =? COMPACT_BRIDGE_ZK_VERIFIER_KEY_SIZE) on self;
  bail InvalidBlockHeightForSingleBlockTransition
    if sc_block_height new_fin <=? sc_block_height fin on self;
  bail InvalidBlockHeightForSingleBlockTransition
    if tip_block_height (tip_state new_header) <=? tip_block_height (tip_state (bridge_header self)) on self;
  let fast_forward_size := sc_block_height new_fin - sc_block_height fin in
  bail InvalidExtraFinalizedBlocksLengthForReorg
    if negb (len extra_finalized_blocks =? fast_forward_size - 1) on self;
  let extra_fast_forwarded := fast_forward_size - 1 in
  bail InvalidExtraFinalizedBlocksLengthForReorg
    if negb (extra_fast_forwarded =? u32 (len extra_finalized_blocks)) on self;
  bail InvalidAutoClaimedDepositsNextIndex
    if sc_auto_claimed_deposits_next_index new_fin <? sc_auto_claimed_deposits_next_index fin on self;
  let expected_zkp_public_inputs := get_reorg_block_transition_public_inputs
    (get_hash_canonical (bridge_header self)) (get_hash_canonical new_header)
    extra_finalized_blocks (config_get_hash (config_params self)) (custodian_wallet_config_hash self) in
  bail InvalidBridgeInputZKP if negb (verify_compact_zkp_slice proof vk expected_zkp_public_inputs) on self;
  let last_block_info :=
    {| pending_mints_finalized_hash := sc_pending_mints_finalized_hash new_fin;
       txo_output_list_finalized_hash := sc_txo_output_list_finalized_hash new_fin |} in
  let new_items := extra_finalized_blocks ++ [last_block_info] in
  match get_backlog_contains_pending_mints new_items with
  | None => (Ok tt, with_bridge_header new_header self)
  | Some first =>
      try item <- or_panic (new_items !! first) on self;
      try r <- ensure_pending_mints_ready_for_transition_inner self_bridge_program_pub_key
                 (pending_mints_finalized_hash item) mint_buffer on self;
      bail InvalidPendingMintsBufferHash
        if negb (bool_decide (r.1 = pending_mints_finalized_hash item)) on self;
      let first_block_height_in_backlog :=
        u32 (sc_block_height new_fin - (len new_items - Z.of_nat first - 1)) in
      try txo_hash <- read_txo_hash txo_buffer r.2
          (fun h => txo_doge_block_height h =? first_block_height_in_backlog)
          InvalidAutoClaimTxoBufferPendingMintsCount on self;
      bail InvalidAutoClaimTxoBufferHash
        if negb (bool_decide (txo_hash = txo_output_list_finalized_hash item)) on self;
      let '(mint_groups, _) := compute_mint_group_info r.2 in
      call (_, self1) <- standard_append_block (pending_mint_txos self) first_block_height_in_backlog
          (drop first new_items) mint_buffer_locker_account_pubkey r.2 mint_groups
        into (fun m => with_pending_mint_txos m self);
      (Ok tt, with_bridge_header new_header self1)
  end.

(** ** auto_mint.rs *)

Definition get_nth_pending_mint_offset (pending_mint_groups_count global_mint_idx : Z) : Z :=
  PM_DA_PENDING_MINTS_BUFFER_STATE_HEADER_SIZE + pending_mint_groups_count * 32
  + global_mint_idx * PM_DA_PENDING_MINT_SIZE.

(** The number of mints in a group: 24, or the rest in the last group. *)
Definition mints_count_for_group (tracker : PendingMintsTracker) (total_groups mint_group_index : Z) : Z :=
  if mint_group_index =? u16 (total_groups - 1) then
    let rem := u16 (total_pending_mints tracker) mod PM_MAX_PENDING_MINTS_PER_GROUP in
    if rem =? 0 then PM_MAX_PENDING_MINTS_PER_GROUP else rem
  else PM_MAX_PENDING_MINTS_PER_GROUP.

Definition run_auto_mint_group_precheck (self : State) (mint_group_index : Z)
    (pending_mints_buffer_pubkey : bytes) : res DogeBridgeError (bool * Z * Z) * State :=
  let tracker := current_pending_mints_tracker (pending_mint_txos self) in
  bail NoPendingMintsToAutoProcess if manager_is_empty (pending_mint_txos self) on self;
  let total_groups := get_current_total_pending_mints_groups tracker in
  bail NoPendingMintsToAutoProcess if total_groups =? 0 on self;
  bail NoPendingMintsToAutoProcess if tracker_is_empty tracker on self;
  try _ <- ensure_can_claim_pending_mints_group tracker mint_group_index on self;
  let mints_count := mints_count_for_group tracker total_groups mint_group_index in
  let offset_start := get_nth_pending_mint_offset total_groups
                        (u16 (mint_group_index * PM_MAX_PENDING_MINTS_PER_GROUP)) in
  bail InvalidAccountKey
    if negb (bool_decide (pending_mints_buffer_pubkey =
                          last_finalized_auto_claim_mints_storage_account tracker)) on self;
  call (can_unlock, self1) <- mark_pending_mints_group_claimed (pending_mint_txos self) mint_group_index
    into (fun m => with_pending_mint_txos m self);
  (Ok (can_unlock, mints_count, offset_start), self1).

(** [for p in 0..mints_count]: read the p-th mint of the group and call the
    minter.  The calls made are returned, the failing one included. *)
Fixpoint mint_loop (mint_to : Z -> bytes -> Z -> res DogeBridgeError unit) (mint_buffer : bytes)
    (offset_start p : Z) (todo : nat) : res DogeBridgeError unit * list (Z * bytes * Z) :=
  match todo with
  | O => (Ok tt, [])
  | S todo =>
      let offset := offset_start + p * PM_DA_PENDING_MINT_SIZE in
      match (mint_bytes ← slice offset (offset + PM_DA_PENDING_MINT_SIZE) mint_buffer;
             cast (A := PendingMint) mint_bytes) with
      | None => (Panic, [])
      | Some m =>
          let c := (p, recipient m, amount m) in
          match mint_to p (recipient m) (amount m) with
          | Ok _ => let '(r, l) := mint_loop mint_to mint_buffer offset_start (p + 1) todo in (r, c :: l)
          | Err e => (Err e, [c])
          | Panic => (Panic, [c])
          end
      end
  end.

Definition run_auto_mint_group (self : State) (mint_to : Z -> bytes -> Z -> res DogeBridgeError unit)
    (self_bridge_program_pub_key mint_buffer_public_key mint_buffer : bytes) (mint_group_index : Z)
    : res DogeBridgeError (bool * Z) * State * list (Z * bytes * Z) :=
  let tracker := current_pending_mints_tracker (pending_mint_txos self) in
  let checked : res DogeBridgeError (bool * Z * Z) * State :=
    bail NoPendingMintsToAutoProcess if manager_is_empty (pending_mint_txos self) on self;
    let total_groups := get_current_total_pending_mints_groups tracker in
    bail NoPendingMintsToAutoProcess if total_groups =? 0 on self;
    bail NoPendingMintsToAutoProcess if tracker_is_empty tracker on self;
    try _ <- ensure_can_claim_pending_mints_group tracker mint_group_index on self;
    try header_bytes <- or_panic (slice 0 PM_DA_PENDING_MINTS_BUFFER_STATE_HEADER_SIZE mint_buffer) on self;
    try header <- or_panic (cast (A := PendingMintsBufferStateHeader) header_bytes) on self;
    bail PendingMintsGroupIndexOutOfBounds
      if pending_mint_groups_count header <=? mint_group_index on self;
    bail InvalidMintBufferLockingPermission
      if negb (bool_decide (authorized_locker_public_key header = self_bridge_program_pub_key)) on self;
    let mints_count := mints_count_for_group tracker total_groups mint_group_index in
    let offset_start := get_nth_pending_mint_offset total_groups
                          (u16 (mint_group_index * PM_MAX_PENDING_MINTS_PER_GROUP)) in
    bail InvalidAccountKey
      if negb (bool_decide (last_finalized_auto_claim_mints_storage_account tracker
                            = mint_buffer_public_key)) on self;
    call (can_unlock, self1) <- mark_pending_mints_group_claimed (pending_mint_txos self) mint_group_index
      into (fun m => with_pending_mint_txos m self);
    (Ok (can_unlock, mints_count, offset_start), self1) in
  match checked with
  | (Ok (can_unlock, mints_count, offset_start), self1) =>
      match mint_loop mint_to mint_buffer offset_start 0 (Z.to_nat mints_count) with
      | (Ok _, calls) => (Ok (can_unlock, mints_count), self1, calls)
      | (Err e, calls) => (Err e, self1, calls)
      | (Panic, calls) => (Panic, self1, calls)
      end
  | (Err e, self1) => (Err e, self1, [])
  | (Panic, self1) => (Panic, self1, [])
  end.

(** The older form of the operation, which takes the buffer account from the tracker
    and calls the unlock helper itself. *)
Definition run_auto_mint_group_old (self : State) (mint_to : Z -> bytes -> Z -> res DogeBridgeError unit)
    (unlock_buffer : bytes -> res DogeBridgeError unit) (self_bridge_program_pub_key mint_buffer : bytes)
    (mint_group_index : Z) : res DogeBridgeError unit * State * list (Z * bytes * Z) :=
  let tracker := current_pending_mints_tracker (pending_mint_txos self) in
  let checked : res DogeBridgeError (bool * Z * Z) * State :=
    bail NoPendingMintsToAutoProcess if manager_is_empty (pending_mint_txos self) on self;
    let total_groups := get_current_total_pending_mints_groups tracker in
    bail NoPendingMintsToAutoProcess if total_groups =? 0 on self;
    bail NoPendingMintsToAutoProcess if tracker_is_empty tracker on self;
    try _ <- ensure_can_claim_pending_mints_group tracker mint_group_index on self;
    try header_bytes <- or_panic (slice 0 PM_DA_PENDING_MINTS_BUFFER_STATE_HEADER_SIZE mint_buffer) on self;
    try header <- or_panic (cast (A := PendingMintsBufferStateHeader) header_bytes) on self;
    bail PendingMintsGroupIndexOutOfBounds
      if pending_mint_groups_count header <=? mint_group_index on self;
    bail InvalidMintBufferLockingPermission
      if negb (bool_decide (authorized_locker_public_key header = self_bridge_program_pub_key)) on self;
    let mints_count := mints_count_for_group tracker total_groups mint_group_index in
    let offset_start := get_nth_pending_mint_offset total_groups
                          (u16 (mint_group_index * PM_MAX_PENDING_MINTS_PER_GROUP)) in
    call (can_unlock, self1) <- mark_pending_mints_group_claimed (pending_mint_txos self) mint_group_index
      into (fun m => with_pending_mint_txos m self);
    (Ok (can_unlock, mints_count, offset_start), self1) in
  let buffer_account := last_finalized_auto_claim_mints_storage_account tracker in
  match checked with
  | (Ok (can_unlock, mints_count, offset_start), self1) =>
      match mint_loop mint_to mint_buffer offset_start 0 (Z.to_nat mints_count) with
      | (Ok _, calls) => ((if can_unlock then unlock_buffer buffer_account else Ok tt), self1, calls)
      | (Err e, calls) => (Err e, self1, calls)
      | (Panic, calls) => (Panic, self1, calls)
      end
  | (Err e, self1) => (Err e, self1, [])
  | (Panic, self1) => (Panic, self1, [])
  end.

Definition run_setup_next_pending_buffer (self : State)
    (self_bridge_program_pub_key mint_buffer_public_key txo_buffer mint_buffer : bytes)
    : res DogeBridgeError unit * State :=
  bail NoPendingMintsToAutoProcess
    if is_ready_for_new_block_update self || manager_is_empty (pending_mint_txos self) on self;
  bail RemainingPendingMintsInPreviousState
    if negb (tracker_is_empty (current_pending_mints_tracker (pending_mint_txos self))) on self;
  try _ <- ensure_ready_to_start_next_pending_finalized_info (pending_mint_txos self) on self;
  try m1 <- or_panic (fast_forward_empty (pending_mint_txos self)) on self;
  let self1 := with_pending_mint_txos m1 self in
  bail NoPendingMintsToAutoProcess
    if is_ready_for_new_block_update self1 || manager_is_empty (pending_mint_txos self1) on self1;
  bail RemainingPendingMintsInPreviousState
    if negb (tracker_is_empty (current_pending_mints_tracker (pending_mint_txos self1))) on self1;
  try _ <- ensure_ready_to_start_next_pending_finalized_info (pending_mint_txos self1) on self1;
  let m := pending_mint_txos self1 in
  try new_pfi <- or_panic (index (pending_finalized_info m) (pending_finalized_info_current_index m)) on self1;
  try r <- ensure_pending_mints_ready_for_transition_inner self_bridge_program_pub_key
             (pending_mints_finalized_hash new_pfi) mint_buffer on self1;
  try txo_hash <- read_txo_hash txo_buffer r.2
      (fun h => txo_doge_block_height h =?
                u32 (start_block_height m + pending_finalized_info_current_index m))
      InvalidBlockHeightForReorgTransition on self1;
  bail InvalidAutoClaimTxoBufferHash
    if negb (bool_decide (txo_hash = txo_output_list_finalized_hash new_pfi)) on self1;
  bail InvalidPendingMintsBufferHash
    if negb (bool_decide (pending_mints_finalized_hash new_pfi = r.1)) on self1;
  let '(mint_groups, _) := compute_mint_group_info r.2 in
  (Ok tt, with_pending_mint_txos
            (set_tracker m (fresh_tracker mint_buffer_public_key r.2 mint_groups)) self1).
End block_update.
