(* ===== verification/BlockUpdateProofs.v ===== *)
(** * BlockUpdateProofs: what a block transition guarantees

    Theorems about [BlockUpdate.v]: an accepted transition is backed by an accepted
    proof over the right public input and by buffers whose contents hash to the
    values in the new header; every pending mint of a block is paid exactly once. *)
From S2P Require Import Prelude Pod Hash Sha256 Errors AppendTree Types PublicInputs MintGroup ProgramState BlockUpdate.
From Stdlib Require Import ZArith Lia.
From stdpp Require Import base decidable list numbers option.

Open Scope Z_scope.
Open Scope bridge_scope.

(** ** Lemmas *)

Lemma mint_group_count total :
  0 <= total < 2 ^ 16 -> (compute_mint_group_info total).1 = (total + 23) / 24.
Proof.
  intros Ht. unfold compute_mint_group_info, PM_MAX_PENDING_MINTS_PER_GROUP.
  destruct (total =? 0) eqn:E0; [apply Z.eqb_eq in E0 as ->; done|].
  destruct (total mod 24 =? 0) eqn:E; reflect_bool; simpl; Z.to_euclidean_division_equations; lia.
Qed.

Lemma mint_group_count_tracker account total remaining :
  0 <= total < 2 ^ 16 ->
  (compute_mint_group_info total).1 =
    get_current_total_pending_mints_groups (fresh_tracker account total remaining).
Proof. intros Ht. by rewrite mint_group_count, groups_eq. Qed.

Section inversion.
Context `{Sha256} `{ZkVerifier}.

(** The mint buffer that an accepted transition refers to. *)
Definition mint_buffer_committed (program_id : bytes) (hash : QHash256) (count : Z) (buf : bytes) : Prop :=
  exists header preimage,
    slice 0 72 buf = Some (bytes_of header) /\ pod_wf header /\
    authorized_locker_public_key header = program_id /\
    pending_mints_count header = count /\ count < u16_MAX /\
    pending_mint_groups_count header = (compute_mint_group_info count).1 /\
    pm_calculate_data_account_min_size count <= len buf /\
    slice 70 ((compute_mint_group_info count).1 * 32 + 72) buf = Some preimage /\
    sha256 preimage = hash.

(** The TXO buffer that an accepted transition refers to. *)
Definition txo_buffer_committed (hash : QHash256) (count height : Z) (buf : bytes) : Prop :=
  exists header listed,
    slice 0 48 buf = Some (bytes_of header) /\ pod_wf header /\
    txo_doge_block_height header = height /\
    slice 48 (48 + count * 4) buf = Some listed /\
    sha256 listed = hash.

Lemma slice_cast {A} {PA : Pod A} {m} n (buf b : bytes) (a : A) :
  Forall is_byte buf -> slice m n buf = Some b -> cast b = Some a -> b = bytes_of a /\ pod_wf a.
Proof.
  intros Hb Hs [Hl ->]%cast_Some. assert (byte_array (pod_size A) b) as Ha
    by (split; [done|by eapply slice_Forall]).
  split; [by rewrite bytes_of_from|by apply from_bytes_wf].
Qed.

Lemma ensure_inner_ok program_id hash buf h count :
  Forall is_byte buf ->
  ensure_pending_mints_ready_for_transition_inner program_id hash buf = Ok (h, count) ->
  h = hash /\ mint_buffer_committed program_id hash count buf.
Proof.
  intros Hb Hr. unfold ensure_pending_mints_ready_for_transition_inner in Hr.
  peel Hr as E0. peel Hr as E1. peel Hr as E2.
  destruct (slice_cast _ _ _ _ Hb E1 E2) as [-> Hwf]. peel Hr as E3.
  destruct (compute_mint_group_info (pending_mints_count x0)) as [g last] eqn:Eg.
  peel Hr as E4. peel Hr as E5. peel Hr as E6. peel Hr as E7. peel Hr as E8.
  injection Hr as <- <-. reflect_guards. split; [done|]. exists x0, x.
  rewrite Eg. cbn [fst]. repeat (split; [done|]). done.
Qed.

Lemma committed_count_range program_id hash count buf :
  mint_buffer_committed program_id hash count buf -> 0 <= count < u16_MAX.
Proof.
  intros (hd & _ & _ & Hwf & _ & Hcnt & Hlt & _). split; [|done].
  destruct Hwf as (_ & _ & _ & _ & _ & _ & Hw). simpl in Hw. rewrite Hcnt in Hw.
  unfold in_width in Hw. lia.
Qed.

Lemma read_txo_hash_ok buf count ok err h :
  Forall is_byte buf -> read_txo_hash buf count ok err = Ok h ->
  exists header listed,
    slice 0 48 buf = Some (bytes_of header) /\ pod_wf header /\ ok header = true /\
    slice 48 (48 + count * 4) buf = Some listed /\ sha256 listed = h.
Proof.
  intros Hb Hr. unfold read_txo_hash in Hr. peel Hr as E0. peel Hr as E1. peel Hr as E2.
  destruct (slice_cast _ _ _ _ Hb E1 E2) as [-> Hwf]. peel Hr as E3. peel Hr as E4.
  injection Hr as <-. apply negb_false_iff in E3. by exists x0, x.
Qed.

Lemma queue_new_mints_ok self new_fin has hash n account txo_buffer r s :
  Forall is_byte txo_buffer -> 0 <= n < 2 ^ 16 ->
  queue_new_mints self new_fin has hash n account txo_buffer = (Ok r, s) ->
  if has then
    txo_buffer_committed (sc_txo_output_list_finalized_hash new_fin) n (sc_block_height new_fin) txo_buffer /\
    exists m, standard_append_block (pending_mint_txos self) (sc_block_height new_fin)
      [{| pending_mints_finalized_hash := hash;
          txo_output_list_finalized_hash := sc_txo_output_list_finalized_hash new_fin |}]
      account n ((n + 23) / 24) = (Ok tt, m) /\ s = with_pending_mint_txos m self
  else s = self.
Proof.
  intros Hb Hn Hr. unfold queue_new_mints in Hr. destruct has; [|by injection Hr].
  peel Hr as E0. peel Hr as E1. destruct (compute_mint_group_info n) as [g last] eqn:Eg.
  pose proof (mint_group_count n Hn) as Hg. rewrite Eg in Hg. simpl in Hg. subst g.
  peel Hr as E2. injection Hr as <- <-. apply negb_false_iff, bool_decide_eq_true in E1. subst x.
  apply read_txo_hash_ok in E0 as (header & listed & H1 & H2 & H3 & H4 & H5); [|done].
  apply andb_true_iff in H3 as [H3%Z.eqb_eq _]. destruct x0.
  split; [by exists header, listed|eauto].
Qed.

Lemma ensure_ready_ok n program_id hash buf r :
  Forall is_byte buf -> 0 <= n ->
  ensure_pending_mints_ready_for_transition n program_id hash buf = Ok r ->
  if n =? 0 then r = (PM_DA_DEFAULT_PENDING_MINTS_BUFFER_HASH, false)
  else r = (hash, true) /\ mint_buffer_committed program_id hash n buf.
Proof.
  intros Hb Hn Hr. unfold ensure_pending_mints_ready_for_transition in Hr.
  destruct (n =? 0) eqn:E0; [by injection Hr|]. peel Hr as E1. peel Hr as E2. injection Hr as <-.
  destruct x as [h c]. apply negb_false_iff, Z.eqb_eq in E2. simpl in E2. subst c.
  apply ensure_inner_ok in E1 as [-> Hc]; [|done]. split; [|done]. simpl. f_equal.
  apply Z.ltb_lt. apply Z.eqb_neq in E0. lia.
Qed.

(** The state with the header of a single-block update: its finalized state goes over the
    oldest entry of the ring, whose cursor moves on by one, and the queue of mints is [m].
    Nothing else changes. *)
Definition block_stored (new_header : PsyBridgeHeader) (m : FinalizedBlockMintTxoManager) (self : PsyBridgeProgramState)
    : PsyBridgeProgramState :=
  let i := next_recent_finalized_block_index self in
  with_next_recent_finalized_block_index (u32 (i + 1) mod 8)
    (with_recent_finalized_blocks (<[Z.to_nat i := finalized_state new_header]> (recent_finalized_blocks self))
      (with_bridge_header new_header (with_pending_mint_txos m self))).

(** What has been checked before the buffers are looked at. *)
Definition transition_checked (self : PsyBridgeProgramState) (proof vk : bytes)
    (new_header : PsyBridgeHeader) (public_inputs : QHash256) : Prop :=
  is_ready_for_new_block_update self = true /\
  len proof = 256 /\ len vk = 32 /\
  tip_block_height (tip_state (bridge_header self)) < tip_block_height (tip_state new_header) /\
  sc_auto_claimed_deposits_next_index (finalized_state (bridge_header self))
    <= sc_auto_claimed_deposits_next_index (finalized_state new_header) /\
  verify_compact_zkp_slice proof vk public_inputs = true.

(** [C14] A single-block update is accepted only when it is fully backed: the bridge
    was idle, the finalized height advances by exactly one and the tip height
    strictly, the proof was accepted for the public input that commits to the
    old and new header, the configuration and the custodian; and when the header
    adds mints, the mint buffer is owned by the program with exactly that many mints and hashes
    to the committed value, the TXO buffer is tagged with the block height and
    hashes to the committed value, and the mint manager is armed with the count,
    the number of groups and the buffer account.  The new state is the old one with
    exactly these changes: the new header, its finalized state in place of the oldest
    recent block, the cursor of the recent blocks one further, and that manager, which
    is untouched without new mints. *)
Theorem single_block_transition_sound (self self' : PsyBridgeProgramState) (proof vk : bytes)
    (new_header : PsyBridgeHeader) (program_id account txo_buffer mint_buffer : bytes) :
  Forall is_byte txo_buffer -> Forall is_byte mint_buffer ->
  run_standard_single_block_transition self proof vk new_header program_id account txo_buffer mint_buffer
    = (Ok tt, self') ->
  let fin := finalized_state (bridge_header self) in
  let new_fin := finalized_state new_header in
  let n := sc_auto_claimed_deposits_next_index new_fin - sc_auto_claimed_deposits_next_index fin in
  let i := next_recent_finalized_block_index self in
  transition_checked self proof vk new_header
    (get_block_transition_public_inputs (get_hash_canonical (bridge_header self))
       (get_hash_canonical new_header) (config_get_hash (config_params self))
       (custodian_wallet_config_hash self)) /\
  sc_block_height new_fin = u32 (sc_block_height fin + 1) /\ 0 <= n <= u16_MAX /\
  0 <= i < len (recent_finalized_blocks self) /\
  exists m,
    (if n =? 0
     then sc_pending_mints_finalized_hash new_fin = PM_DA_DEFAULT_PENDING_MINTS_BUFFER_HASH /\
          m = pending_mint_txos self
     else
       mint_buffer_committed program_id (sc_pending_mints_finalized_hash new_fin) n mint_buffer /\
       txo_buffer_committed (sc_txo_output_list_finalized_hash new_fin) n (sc_block_height new_fin) txo_buffer /\
       standard_append_block (pending_mint_txos self) (sc_block_height new_fin)
         [{| pending_mints_finalized_hash := sc_pending_mints_finalized_hash new_fin;
             txo_output_list_finalized_hash := sc_txo_output_list_finalized_hash new_fin |}]
         account n ((n + 23) / 24) = (Ok tt, m)) /\
    self' = block_stored new_header m self.
Proof.
  intros Htb Hmb Hr fin new_fin n i.
  unfold run_standard_single_block_transition in Hr. cbv zeta in Hr.
  fold fin new_fin in Hr. fold n in Hr.
  peel Hr as E0. peel Hr as E1. peel Hr as E2. peel Hr as E3. peel Hr as E4. peel Hr as E5.
  peel Hr as E6. peel Hr as E7. peel Hr as E8. peel Hr as E9. peel Hr as E10. peel Hr as E11.
  injection Hr as <-. apply set_index_Some in E11 as [Hidx ->].
  apply negb_false_iff in E0, E7. reflect_guards.
  assert (0 <= n <= u16_MAX) as Hn by lia.
  apply ensure_ready_ok in E8; [|done|lia].
  apply queue_new_mints_ok in E10; [|done|unfold u16_MAX in Hn; lia].
  split; [unfold transition_checked; repeat (split; [done|]); done|].
  split; [done|]. split; [done|].
  destruct (n =? 0).
  - subst x. simpl in E10, E9. subst s. split; [done|]. exists (pending_mint_txos self).
    split; [done|]. by destruct self.
  - destruct E8 as [-> Hc]. simpl in E10. destruct E10 as (Ht & m & Hm & ->).
    split; [exact Hidx|]. by exists m.
Qed.

Lemma backlog_first_spec items :
  match get_backlog_contains_pending_mints items with
  | None => Forall (fun x => info_is_empty x = true) items
  | Some k => exists x, items !! k = Some x /\ info_is_empty x = false /\
      Forall (fun y => info_is_empty y = true) (take k items)
  end.
Proof.
  induction items as [|x items IH]; [by constructor|]. simpl.
  destruct (info_is_empty x) eqn:E; simpl.
  - destruct (get_backlog_contains_pending_mints items) as [k|]; simpl.
    + destruct IH as (y & Hy & He & Hf). exists y. repeat split; [done..|by constructor].
    + by constructor.
  - exists x. repeat split; [done|constructor].
Qed.

(** [C15] A reorg (fast-forward over several blocks) is accepted only when it is
    fully backed: finalized and tip heights strictly increase, one block record
    is given for each intermediate height, and the proof was accepted for the
    public input that also commits to those records.  If no block has mints only
    the header changes; otherwise the blocks before the first one with mints are
    empty, the buffers passed are those of exactly that block (tagged with its
    height, hashing to its committed values), and the remaining blocks, at most
    eight, are queued from it on. *)
Theorem reorg_transition_sound (self self' : PsyBridgeProgramState) (proof vk : bytes)
    (new_header : PsyBridgeHeader) (extra : list FinalizedBlockMintTxoInfo)
    (program_id account txo_buffer mint_buffer : bytes) :
  Forall is_byte txo_buffer -> Forall is_byte mint_buffer ->
  run_block_transition_reorg self proof vk new_header extra program_id account txo_buffer mint_buffer
    = (Ok tt, self') ->
  let fin := finalized_state (bridge_header self) in
  let new_fin := finalized_state new_header in
  let items := extra ++ [{| pending_mints_finalized_hash := sc_pending_mints_finalized_hash new_fin;
                            txo_output_list_finalized_hash := sc_txo_output_list_finalized_hash new_fin |}] in
  transition_checked self proof vk new_header
    (get_reorg_block_transition_public_inputs (get_hash_canonical (bridge_header self))
       (get_hash_canonical new_header) extra (config_get_hash (config_params self))
       (custodian_wallet_config_hash self)) /\
  sc_block_height fin < sc_block_height new_fin /\
  len items = sc_block_height new_fin - sc_block_height fin /\
  bridge_header self' = new_header /\
  recent_finalized_blocks self' = recent_finalized_blocks self /\
  ((Forall (fun x => info_is_empty x = true) items /\ pending_mint_txos self' = pending_mint_txos self) \/
   exists (k : nat) x count m,
     items !! k = Some x /\ info_is_empty x = false /\
     Forall (fun y => info_is_empty y = true) (take k items) /\
     let height := u32 (sc_block_height new_fin - (len items - Z.of_nat k - 1)) in
     mint_buffer_committed program_id (pending_mints_finalized_hash x) count mint_buffer /\
     txo_buffer_committed (txo_output_list_finalized_hash x) count height txo_buffer /\
     standard_append_block (pending_mint_txos self) height (drop k items) account count
       ((count + 23) / 24) = (Ok tt, m) /\
     len (drop k items) <= 8 /\ pending_mint_txos self' = m).
Proof.
  intros Htb Hmb Hr fin new_fin items. unfold run_block_transition_reorg in Hr. cbv zeta in Hr.
  fold fin new_fin in Hr. fold items in Hr.
  peel Hr as E0. peel Hr as E1. peel Hr as E2. peel Hr as E3. peel Hr as E4. peel Hr as E5.
  peel Hr as E6. peel Hr as E7. peel Hr as E8.
  apply negb_false_iff in E0, E8. reflect_guards.
  assert (len items = sc_block_height new_fin - sc_block_height fin) as Hlen
    by (unfold items; rewrite len_app, len_cons, len_nil; lia).
  assert (transition_checked self proof vk new_header
    (get_reorg_block_transition_public_inputs (get_hash_canonical (bridge_header self))
       (get_hash_canonical new_header) extra (config_get_hash (config_params self))
       (custodian_wallet_config_hash self))) as Htc
    by (unfold transition_checked; repeat (split; [done|]); done).
  split; [done|]. split; [done|]. split; [done|].
  pose proof (backlog_first_spec items) as Hfirst.
  destruct (get_backlog_contains_pending_mints items) as [k|].
  2:{ injection Hr as <-. split; [done|]. split; [done|]. by left. }
  destruct Hfirst as (x & Hx & Hne & Hskip). rewrite Hx in Hr. cbn [or_panic pure_call] in Hr.
  peel Hr as E9. destruct x0 as [h count]. simpl in Hr. apply ensure_inner_ok in E9 as [-> Hmc]; [|done].
  peel Hr as E10. peel Hr as E11. peel Hr as E12.
  destruct (compute_mint_group_info count) as [g last] eqn:Eg.
  assert (g = (count + 23) / 24) as ->.
  { rewrite <- mint_group_count, Eg; [done|].
    apply committed_count_range in Hmc. unfold u16_MAX in Hmc. lia. }
  peel Hr as E13. injection Hr as <-. destruct x1.
  apply negb_false_iff, bool_decide_eq_true in E12. subst x0.
  apply read_txo_hash_ok in E11 as (hd & listed & T1 & T2 & T3%Z.eqb_eq & T4 & T5); [|done].
  split; [done|]. split; [done|]. right. exists k, x, count, s.
  split; [done|]. split; [done|]. split; [done|]. cbv zeta. split; [done|].
  split; [by exists hd, listed|]. split; [done|]. split; [|done].
  unfold standard_append_block in E13. peel E13 as F0. peel E13 as F1. by apply Z.ltb_ge in F1.
Qed.

(** The mints and outputs that a header commits to. *)
Definition header_info (h : PsyBridgeHeader) : FinalizedBlockMintTxoInfo :=
  {| pending_mints_finalized_hash := sc_pending_mints_finalized_hash (finalized_state h);
     txo_output_list_finalized_hash := sc_txo_output_list_finalized_hash (finalized_state h) |}.

(** The mint manager after a transition: untouched, or with some of the given blocks
    queued. *)
Definition manager_queued (account : bytes) (blocks : list FinalizedBlockMintTxoInfo)
    (m m' : FinalizedBlockMintTxoManager) : Prop :=
  m' = m \/
  exists height infos n, standard_append_block m height infos account n ((n + 23) / 24) = (Ok tt, m') /\
    0 <= n < 2 ^ 16 /\ in_width 32 height /\ infos ⊆ blocks.

(** What a single-block update writes. *)
Lemma single_block_frame (self self' : PsyBridgeProgramState) proof vk new_header
    program_id account txo_buffer mint_buffer :
  Forall is_byte txo_buffer -> Forall is_byte mint_buffer ->
  run_standard_single_block_transition self proof vk new_header program_id account txo_buffer mint_buffer
    = (Ok tt, self') ->
  exists m, manager_queued account [header_info new_header] (pending_mint_txos self) m /\
    self' = block_stored new_header m self.
Proof.
  intros Htb Hmb Hr. unfold run_standard_single_block_transition in Hr. cbv zeta in Hr.
  set (n := sc_auto_claimed_deposits_next_index (finalized_state new_header) - _) in Hr.
  peel Hr as E0. peel Hr as E1. peel Hr as E2. peel Hr as E3. peel Hr as E4. peel Hr as E5.
  peel Hr as E6. peel Hr as E7. peel Hr as E8. peel Hr as E9. peel Hr as E10. peel Hr as E11.
  injection Hr as <-. apply set_index_Some in E11 as [_ ->]. clear E0 E1 E2 E4 E7 E8. reflect_guards.
  apply queue_new_mints_ok in E10; [|done|unfold u16_MAX in *; lia].
  destruct (x.2).
  - destruct E10 as (_ & m & Hm & ->). rewrite E9 in Hm. exists m. split; [|done].
    right. eexists _, _, n. split; [exact Hm|]. split; [unfold u16_MAX in *; lia|].
    split; [rewrite E3; apply wrap_in_width; lia|done].
  - subst s. exists (pending_mint_txos self). split; [by left|by destruct self].
Qed.

(** What a reorg writes. *)
Lemma reorg_frame (self self' : PsyBridgeProgramState) proof vk new_header extra
    program_id account txo_buffer mint_buffer :
  Forall is_byte txo_buffer -> Forall is_byte mint_buffer ->
  run_block_transition_reorg self proof vk new_header extra program_id account txo_buffer mint_buffer
    = (Ok tt, self') ->
  exists m, manager_queued account (extra ++ [header_info new_header]) (pending_mint_txos self) m /\
    self' = with_bridge_header new_header (with_pending_mint_txos m self).
Proof.
  intros Htb Hmb Hr. unfold run_block_transition_reorg in Hr. cbv zeta in Hr.
  do 9 (let E := fresh "E" in peel Hr as E; clear E).
  destruct (get_backlog_contains_pending_mints _) as [k|].
  2:{ injection Hr as <-. exists (pending_mint_txos self). split; [by left|by destruct self]. }
  peel Hr as E0. peel Hr as E1. peel Hr as E2. peel Hr as E3. peel Hr as E4.
  destruct x0 as [h count]. simpl in Hr. apply ensure_inner_ok in E1 as [-> Hc]; [|done].
  apply committed_count_range in Hc. unfold u16_MAX in Hc.
  pose proof (mint_group_count count ltac:(lia)) as Hg.
  destruct (compute_mint_group_info count) as [g last]. simpl in Hg. subst g.
  peel Hr as E5. injection Hr as <-. destruct x0. exists s. split; [|done].
  right. eexists _, _, count. split; [exact E5|]. split; [lia|]. split; [apply wrap_in_width; lia|].
  apply subseteq_drop.
Qed.

(** What processing a mint group writes. *)
Lemma auto_mint_frame (self self' : PsyBridgeProgramState) mint_to program_id account mint_buffer g x calls :
  run_auto_mint_group self mint_to program_id account mint_buffer g = (Ok x, self', calls) ->
  let t := current_pending_mints_tracker (pending_mint_txos self) in
  tracker_is_empty t = false /\ ensure_can_claim_pending_mints_group t g = Ok tt /\
  exists last m, mark_pending_mints_group_claimed (pending_mint_txos self) g = (Ok last, m) /\
    self' = with_pending_mint_txos m self.
Proof.
  intros Hr t. unfold run_auto_mint_group in Hr. fold t in Hr. cbv zeta in Hr.
  match type of Hr with match ?c with _ => _ end = _ => destruct c as [[[[b n] off]| |] s1] eqn:E end;
    [|discriminate Hr..].
  assert (s1 = self') as -> by (destruct (mint_loop _ _ _ _ _) as [[] ?]; [by injection Hr|discriminate Hr..]).
  clear Hr. peel E as E0. peel E as E1. peel E as E2. peel E as E3. destruct x0.
  peel E as E4. peel E as E5. peel E as E6. peel E as E7. peel E as E8. peel E as E9.
  injection E as <- <- <- <-. split; [done|]. split; [done|]. by exists x2, s.
Qed.

(** The older operation is the current one, called with the buffer account of the
    tracker, followed by the unlock call when the block is finished. *)
Lemma run_auto_mint_group_old_eq (self : PsyBridgeProgramState) mint_to unlock program_id mint_buffer g :
  run_auto_mint_group_old self mint_to unlock program_id mint_buffer g =
  let account := last_finalized_auto_claim_mints_storage_account
                   (current_pending_mints_tracker (pending_mint_txos self)) in
  match run_auto_mint_group self mint_to program_id account mint_buffer g with
  | (Ok (can_unlock, _), self', calls) => ((if can_unlock then unlock account else Ok tt), self', calls)
  | (Err e, self', calls) => (Err e, self', calls)
  | (Panic, self', calls) => (Panic, self', calls)
  end.
Proof.
  unfold run_auto_mint_group_old, run_auto_mint_group. cbv zeta. rewrite bool_decide_true by done. cbn [negb].
  match goal with |- match ?c with _ => _ end = _ => destruct c as [[[[b n] off]| |] s1] end; [|done..].
  by destruct (mint_loop _ _ _ _ _) as [[] ?].
Qed.

(** The same for the check that the bridge program calls before it pays a group. *)
Lemma auto_mint_precheck_frame (self self' : PsyBridgeProgramState) g account x :
  run_auto_mint_group_precheck self g account = (Ok x, self') ->
  let t := current_pending_mints_tracker (pending_mint_txos self) in
  tracker_is_empty t = false /\ ensure_can_claim_pending_mints_group t g = Ok tt /\
  exists last m, mark_pending_mints_group_claimed (pending_mint_txos self) g = (Ok last, m) /\
    self' = with_pending_mint_txos m self.
Proof.
  intros E t. unfold run_auto_mint_group_precheck in E. fold t in E. cbv zeta in E.
  peel E as E0. peel E as E1. peel E as E2. peel E as E3. destruct x0. peel E as E4. peel E as E5.
  injection E as _ <-. split; [done|]. split; [done|]. by exists x0, s.
Qed.

(** What advancing to the next queued block writes. *)
Lemma setup_next_frame (self self' : PsyBridgeProgramState) program_id account txo_buffer mint_buffer :
  Forall is_byte mint_buffer ->
  run_setup_next_pending_buffer self program_id account txo_buffer mint_buffer = (Ok tt, self') ->
  tracker_is_empty (current_pending_mints_tracker (pending_mint_txos self)) = true /\
  exists m n, fast_forward_empty (pending_mint_txos self) = Some m /\
    pending_finalized_info_current_index m < pending_finalized_info_total_count m /\
    0 <= n < 2 ^ 16 /\
    self' = with_pending_mint_txos (set_tracker m (fresh_tracker account n ((n + 23) / 24))) self.
Proof.
  intros Hmb Hr. unfold run_setup_next_pending_buffer in Hr.
  peel Hr as E0. peel Hr as E1. peel Hr as E2. peel Hr as E3. cbv zeta in Hr.
  change (pending_mint_txos (with_pending_mint_txos x0 self)) with x0 in Hr.
  peel Hr as E4. peel Hr as E5. peel Hr as E6. peel Hr as E7. peel Hr as E8. peel Hr as E9.
  peel Hr as E10. peel Hr as E11.
  destruct x3 as [h count]. simpl in Hr. apply ensure_inner_ok in E8 as [-> Hc]; [|done].
  apply committed_count_range in Hc. unfold u16_MAX in Hc.
  pose proof (mint_group_count count ltac:(lia)) as Hg.
  destruct (compute_mint_group_info count) as [g last]. simpl in Hg. subst g. injection Hr as <-.
  apply negb_false_iff in E1. split; [done|]. exists x0, count. split; [done|]. split.
  - unfold ensure_ready_to_start_next_pending_finalized_info in E6.
    peel E6 as F0. peel E6 as F1. by apply Z.leb_gt in F1.
  - split; [lia|done].
Qed.
End inversion.
