(* ===== verification/Payout.v ===== *)
(** * Payout: every pending mint of a block is paid exactly once

    Composes [MintGroup.v] (claiming groups) with [auto_mint.rs] as modelled in
    [BlockUpdate.v] (reading a group's mints from the buffer and calling the token
    program): over a whole block, in whatever order the groups are processed, the
    mint calls are a permutation of the mints stored in the buffer. *)
From S2P Require Import Prelude Pod Hash Sha256 Errors AppendTree Types PublicInputs MintGroup ProgramState BlockUpdate BlockUpdateProofs.
From Stdlib Require Import ZArith Lia.
From stdpp Require Import base decidable list numbers option.

Open Scope Z_scope.
Open Scope bridge_scope.

(** ** The mints of a buffer *)

(** The [i]-th mint of a buffer with [G] groups. *)
Definition mint_at (buf : bytes) (G i : Z) : PendingMint :=
  from_bytes (take 40 (drop (Z.to_nat (72 + G * 32 + i * 40)) buf)).

(** Recipient and amount of the [i]-th mint. *)
Definition payment_at (buf : bytes) (G i : Z) : bytes * Z :=
  (recipient (mint_at buf G i), amount (mint_at buf G i)).

(** All payments that a buffer with [n] mints orders. *)
Definition all_payments (buf : bytes) (G n : Z) : list (bytes * Z) := payment_at buf G <$> seqZ 0 n.

(** The mints of group [g] of [G], of [n] mints in all. *)
Definition group_range (n G g : Z) : list Z := seqZ (24 * g) (group_size n G g).

(** Recipient and amount of a call. *)
Definition call_payment (c : Z * bytes * Z) : bytes * Z := (c.1.2, c.2).

(** ** The groups partition the mints *)

Lemma concat_full_groups k :
  0 <= k -> concat ((fun g => seqZ (24 * g) 24) <$> seqZ 0 k) = seqZ 0 (24 * k).
Proof.
  intros Hk. pattern k. apply natlike_ind; [done| |done]. clear k Hk. intros k Hk IH.
  rewrite <- Z.add_1_r, (seqZ_app 0 k 1) by lia.
  rewrite fmap_app, concat_app, IH. change (seqZ (0 + k) 1) with [k].
  cbn [fmap list_fmap concat]. rewrite app_nil_r, Z.mul_add_distr_l, Z.mul_1_r.
  by rewrite (seqZ_app 0 (24 * k) 24) by lia.
Qed.

Lemma ranges_partition n G :
  1 <= G -> 24 * (G - 1) < n -> concat (group_range n G <$> seqZ 0 G) = seqZ 0 n.
Proof.
  intros HG Hn. replace (seqZ 0 G) with (seqZ 0 (G - 1) ++ [G - 1]).
  2:{ replace G with (G - 1 + 1) at 3 by lia. rewrite seqZ_app by lia. done. }
  rewrite fmap_app, concat_app. cbn [fmap list_fmap concat]. rewrite app_nil_r.
  unfold group_range at 2, group_size. rewrite Z.eqb_refl.
  rewrite (list_fmap_ext _ (fun g => seqZ (24 * g) 24)).
  - rewrite concat_full_groups, <- seqZ_app by lia. f_equal. lia.
  - intros i g Hg%list_elem_of_lookup_2. apply elem_of_seqZ in Hg.
    unfold group_range, group_size. by rewrite (proj2 (Z.eqb_neq _ _)) by lia.
Qed.

(** ** One group *)

Lemma mint_loop_ok mint_to buf offset_start p todo :
  (forall p r a, mint_to p r a = Ok tt) ->
  0 <= offset_start + p * 40 -> offset_start + (p + Z.of_nat todo) * 40 <= len buf ->
  mint_loop mint_to buf offset_start p todo =
    (Ok tt, (fun q => let m : PendingMint := from_bytes (take 40 (drop (Z.to_nat (offset_start + q * 40)) buf)) in
                      (q, recipient m, amount m)) <$> seqZ p (Z.of_nat todo)).
Proof.
  intros Hok. revert p. induction todo as [|todo IH]; intros p Hlo Hhi; [done|].
  cbn [mint_loop]. unfold PM_DA_PENDING_MINT_SIZE in *.
  assert (slice (offset_start + p * 40) (offset_start + p * 40 + 40) buf
          = Some (take 40 (drop (Z.to_nat (offset_start + p * 40)) buf))) as Hs.
  { apply slice_Some. repeat split; try lia. do 2 f_equal. lia. }
  rewrite Hs. cbn [mbind option_bind].
  assert (cast (A := PendingMint) (take 40 (drop (Z.to_nat (offset_start + p * 40)) buf))
          = Some (from_bytes (take 40 (drop (Z.to_nat (offset_start + p * 40)) buf)))) as Hc.
  { apply cast_Some. split; [|done]. apply slice_len in Hs. unfold len in Hs.
    change (pod_size PendingMint) with 40%nat. lia. }
  rewrite Hc, Hok, IH by lia.
  rewrite (seqZ_cons p) by lia. rewrite fmap_cons.
  replace (Z.pred (Z.of_nat (S todo))) with (Z.of_nat todo) by lia.
  by replace (Z.succ p) with (p + 1) by lia.
Qed.

(** The part of the tracker that a claim leaves alone. *)
Definition tracks (m : FinalizedBlockMintTxoManager) (account : bytes) (n : Z) : Prop :=
  let t := current_pending_mints_tracker m in
  manager_wf m /\ tracker_inv t /\
  last_finalized_auto_claim_mints_storage_account t = account /\ total_pending_mints t = n.

Lemma mints_count_group_size t n g :
  total_pending_mints t = n -> 0 < n < 2 ^ 16 -> 0 <= g < groups t ->
  mints_count_for_group t (groups t) g = group_size n (groups t) g /\
  0 < group_size n (groups t) g <= 24 /\ 24 * g + group_size n (groups t) g <= n.
Proof.
  intros Ht Hn Hg. pose proof (groups_bound t ltac:(lia)). pose proof (groups_eq t ltac:(lia)) as HG.
  rewrite Ht in HG. unfold mints_count_for_group, group_size, PM_MAX_PENDING_MINTS_PER_GROUP.
  rewrite Ht, !wrap_id by (unfold in_width; lia).
  destruct (Z.eqb_spec g (groups t - 1)); [|Z.to_euclidean_division_equations; lia].
  destruct (Z.eqb_spec (n mod 24) 0); Z.to_euclidean_division_equations; lia.
Qed.

(** The group can be claimed: the checks before the payment pass, and the claim is
    recorded. *)
Lemma claim_ready (m : FinalizedBlockMintTxoManager) account n g :
  let t := current_pending_mints_tracker m in
  let last := pending_mints_groups_remaining t =? 1 in
  tracks m account n -> 0 < n <= 6144 ->
  pending_finalized_info_current_index m < pending_finalized_info_total_count m ->
  0 <= g < (n + 23) / 24 -> claimed_bit t g = false ->
  groups t = (n + 23) / 24 /\ manager_is_empty m = false /\ tracker_is_empty t = false /\
  ensure_can_claim_pending_mints_group t g = Ok tt /\
  exists m', mark_pending_mints_group_claimed m g = (Ok last, m') /\
    tracks m' account n /\ current_pending_mints_tracker m' = marked t g /\
    pending_finalized_info_total_count m' = pending_finalized_info_total_count m /\
    pending_finalized_info_current_index m' =
      (if last then pending_finalized_info_current_index m + 1
       else pending_finalized_info_current_index m).
Proof.
  intros t last (Hwf & Hinv & Hacc & Htot) Hn Hlt Hg Hc. fold t in Hinv, Hacc, Htot.
  assert (groups t = (n + 23) / 24) as HG by (rewrite groups_eq, Htot by lia; done).
  assert ((n + 23) / 24 <= 256) as H256 by (Z.to_euclidean_division_equations; lia).
  pose proof (remaining_pos t g Hinv ltac:(lia) ltac:(lia) Hc) as Hpos. split; [exact HG|]. split.
  { unfold manager_is_empty. apply orb_false_iff. split; [apply Z.eqb_neq|apply andb_false_iff; left; apply Z.eqb_neq];
      destruct Hwf as (_ & ? & _); lia. }
  split; [by apply Z.eqb_neq; lia|]. split.
  { destruct (claim_cases t g Hinv ltac:(lia)) as [(_ & _ & _ & _ & Hcl)|(Hx & _)]; [|exfalso; apply Hx; split_and!; done || lia].
    unfold claim in Hcl. destruct (ensure_can_claim_pending_mints_group t g) as [[]| |]; done. }
  destruct (manager_mark_ok m g) as (m' & Hm & Hwf' & Ht' & Htc' & Hi'); [done..|lia|fold t; lia|done|].
  exists m'. split; [done|]. split; [|done]. unfold tracks. rewrite Ht'. split_and!; try done.
  apply marked_inv; fold t; done || lia.
Qed.

Section payout.
Context `{Sha256}.
Variable mint_to : Z -> bytes -> Z -> res DogeBridgeError unit.
Variables program_id account buf : bytes.
Variable n : Z.
Variable hash : QHash256.
Hypothesis mint_to_ok : forall p r a, mint_to p r a = Ok tt.
Hypothesis n_range : 0 < n <= 6144.
Hypothesis committed : mint_buffer_committed program_id hash n buf.

Local Abbreviation G := ((n + 23) / 24).
Local Abbreviation State := PsyBridgeProgramState.

Lemma run_auto_mint_group_ok (self : State) (g : Z) :
  let m := pending_mint_txos self in
  let t := current_pending_mints_tracker m in
  let last := pending_mints_groups_remaining t =? 1 in
  tracks m account n -> pending_finalized_info_current_index m < pending_finalized_info_total_count m ->
  0 <= g < G -> claimed_bit t g = false ->
  exists m' calls,
    run_auto_mint_group self mint_to program_id account buf g =
      (Ok (last, group_size n G g), with_pending_mint_txos m' self, calls) /\
    call_payment <$> calls = payment_at buf G <$> group_range n G g /\
    tracks m' account n /\ current_pending_mints_tracker m' = marked t g /\
    pending_finalized_info_total_count m' = pending_finalized_info_total_count m /\
    pending_finalized_info_current_index m' =
      (if last then pending_finalized_info_current_index m + 1
       else pending_finalized_info_current_index m).
Proof.
  intros m t last Htr Hlt Hg Hc. pose proof Htr as (_ & _ & Hacc & Htot). fold t in Hacc, Htot.
  destruct committed as (hd & pre & Hs & Hpw & Hlock & Hcnt & _ & Hgc & Hsize & _ & _).
  rewrite mint_group_count in Hgc by lia.
  destruct (claim_ready m account n g Htr n_range Hlt Hg Hc) as (HG & Hme & Hte & Hcan & m' & Hm & Htr' & Ht' & Htc' & Hi').
  fold t in HG, Hte, Hcan, Ht'. fold t last in Hm, Hi'.
  assert (G <= 256) as H256 by (Z.to_euclidean_division_equations; lia).
  destruct (mints_count_group_size t n g Htot ltac:(lia) ltac:(lia)) as (Hmc & Hsz & Hend).
  unfold run_auto_mint_group. fold m. fold t. cbv zeta. rewrite Hme.
  rewrite Hmc, HG. rewrite HG in Hmc, Hsz, Hend. replace (G =? 0) with false by (symmetry; apply Z.eqb_neq; lia).
  rewrite Hte, Hcan.
  unfold PM_DA_PENDING_MINTS_BUFFER_STATE_HEADER_SIZE. rewrite Hs. cbn [or_panic]. rewrite !pure_call_ok.
  rewrite cast_bytes_of by done. cbn [or_panic]. rewrite pure_call_ok.
  rewrite Hgc, (proj2 (Z.leb_gt _ _)) by lia.
  rewrite !bool_decide_eq_true_2 by done. cbn [negb]. rewrite Hm, state_call_ok.
  unfold PM_MAX_PENDING_MINTS_PER_GROUP. rewrite wrap_id by (unfold in_width; lia).
  unfold pm_calculate_data_account_min_size, PM_MAX_PENDING_MINTS_PER_GROUP,
    PM_DA_PENDING_MINTS_BUFFER_STATE_HEADER_SIZE, PM_DA_PENDING_MINT_SIZE in Hsize.
  replace (n + 24 - 1) with (n + 23) in Hsize by lia. cbv zeta in Hsize.
  unfold get_nth_pending_mint_offset, PM_DA_PENDING_MINTS_BUFFER_STATE_HEADER_SIZE, PM_DA_PENDING_MINT_SIZE.
  rewrite mint_loop_ok by (done || lia).
  exists m'. eexists. split; [reflexivity|]. rewrite Z2Nat.id by lia. split.
  - unfold group_range. rewrite <- list_fmap_compose. apply list_eq. intros i. rewrite !list_lookup_fmap.
    destruct (decide (Z.of_nat i < group_size n G g)).
    + rewrite !lookup_seqZ_lt by lia. cbn [fmap option_fmap option_map]. unfold call_payment, payment_at, mint_at.
      cbn [compose fst snd].
      by replace (72 + G * 32 + g * 24 * 40 + (0 + Z.of_nat i) * 40)
        with (72 + G * 32 + (24 * g + Z.of_nat i) * 40) by lia.
    + by rewrite !lookup_seqZ_ge by lia.
  - done.
Qed.

(** Processing several groups in turn, as a sequence of instructions; [None] when
    one of them fails. *)
Fixpoint run_groups (self : State) (gs : list Z) : option (State * list (bytes * Z)) :=
  match gs with
  | [] => Some (self, [])
  | g :: gs =>
      match run_auto_mint_group self mint_to program_id account buf g with
      | (Ok _, self', calls) =>
          '(self'', rest) ← run_groups self' gs; Some (self'', (call_payment <$> calls) ++ rest)
      | _ => None
      end
  end.

Lemma run_groups_ok (self : State) gs :
  let m := pending_mint_txos self in
  let t := current_pending_mints_tracker m in
  tracks m account n -> NoDup gs ->
  (gs <> [] -> pending_finalized_info_current_index m < pending_finalized_info_total_count m) ->
  pending_mints_groups_remaining t = len gs ->
  (forall g, g ∈ gs -> 0 <= g < G /\ claimed_bit t g = false) ->
  exists m', run_groups self gs =
      Some (with_pending_mint_txos m' self, concat ((fun g => payment_at buf G <$> group_range n G g) <$> gs)) /\
    tracker_is_empty (current_pending_mints_tracker m') = true /\ manager_wf m'.
Proof.
  revert self. induction gs as [|g gs IH]; intros self m t Htr HN Hcur Hrem Hgs.
  { exists m. simpl. split; [do 2 f_equal; unfold m; by destruct self|]. split; [|apply Htr].
    unfold tracker_is_empty. fold t. by rewrite Hrem. }
  apply list.NoDup_cons in HN as [Hni HN]. destruct (Hgs g) as [Hg Hc]; [by left|].
  destruct (run_auto_mint_group_ok self g) as (m' & calls & Hrun & Hpay & Htr' & Ht' & Htc' & Hi');
    [done|by apply Hcur|done..|]. fold m t in Ht', Htc', Hi', Hrun.
  assert (G <= 256) as H256 by (Z.to_euclidean_division_equations; lia).
  assert (in_width 32 (len gs)) as Hw.
  { unfold in_width. pose proof Htr as (_ & (_ & Htt & Hr & _) & _). fold t in Htt, Hr.
    pose proof (groups_bound t Htt). pose proof (len_nonneg (claimed t)). rewrite len_cons in Hrem.
    pose proof (len_nonneg gs). lia. }
  cbn [run_groups]. rewrite Hrun.
  destruct (IH (with_pending_mint_txos m' self)) as (m'' & Hm'' & He & Hwf'').
  - done.
  - done.
  - intros Hne. change (pending_mint_txos (with_pending_mint_txos m' self)) with m'.
    rewrite Htc', Hi', Hrem. rewrite len_cons. replace (1 + len gs =? 1) with false; [by apply Hcur|].
    symmetry. apply Z.eqb_neq. destruct gs; [done|]. rewrite len_cons. pose proof (len_nonneg gs). lia.
  - change (pending_mint_txos (with_pending_mint_txos m' self)) with m'. rewrite Ht'. simpl.
    rewrite Hrem, len_cons. rewrite wrap_id; [lia|]. by replace (1 + len gs - 1) with (len gs) by lia.
  - intros h Hh. destruct (Hgs h) as [Hh1 Hh2]; [by right|]. split; [done|].
    change (pending_mint_txos (with_pending_mint_txos m' self)) with m'. rewrite Ht'.
    rewrite marked_bit, Hh2 by (apply Htr || lia). simpl. apply Z.eqb_neq. by intros ->.
  - rewrite Hm''. cbn [mbind option_bind]. exists m''. rewrite Hpay. done.
Qed.

(** [C5] Every pending mint of a block is paid exactly once: when the tracker has
    been armed for a committed buffer with 1 to 6144 mints, processing the mint
    groups in any order succeeds, the recipients and amounts passed to the token
    program are, up to order, exactly the mints stored in the buffer, and
    afterwards no group is left. *)
Theorem every_pending_mint_paid_exactly_once (self : State) (gs : list Z) :
  let m := pending_mint_txos self in
  manager_wf m ->
  pending_finalized_info_current_index m < pending_finalized_info_total_count m ->
  current_pending_mints_tracker m = fresh_tracker account n G ->
  gs ≡ₚ seqZ 0 G ->
  exists self' payments, run_groups self gs = Some (self', payments) /\
    payments ≡ₚ all_payments buf G n /\
    tracker_is_empty (current_pending_mints_tracker (pending_mint_txos self')) = true /\
    bridge_header self' = bridge_header self.
Proof.
  intros m Hwf Hlt Ht HP.
  assert (groups (fresh_tracker account n G) = G) as HG by (rewrite groups_eq; simpl; lia || done).
  assert (1 <= G /\ 24 * (G - 1) < n) as [HG1 Hn1] by (Z.to_euclidean_division_equations; lia).
  destruct (run_groups_ok self gs) as (m' & Hrun & He & _).
  - split; [done|]. fold m. rewrite Ht. split; [|done].
    pose proof (fresh_tracker_inv account n ltac:(lia)) as Hi.
    change (groups (fresh_tracker account n 0)) with (groups (fresh_tracker account n G)) in Hi.
    by rewrite HG in Hi.
  - rewrite HP. apply NoDup_seqZ.
  - intros _. done.
  - fold m. rewrite Ht. apply Permutation_length in HP. rewrite length_seqZ in HP. unfold len.
    cbn [fresh_tracker pending_mints_groups_remaining]. lia.
  - intros g. rewrite HP, elem_of_seqZ. intros Hg. split; [lia|]. fold m. rewrite Ht.
    destruct (claimed_bit (fresh_tracker account n G) g) eqn:E; [|done].
    assert (0 <= g < 256) by (Z.to_euclidean_division_equations; lia).
    assert (g ∈ claimed (fresh_tracker account n G)) as Hin by (apply elem_of_claimed; lia || auto).
    rewrite claimed_fresh in Hin. by apply elem_of_nil in Hin.
  - eexists _, _. split; [exact Hrun|]. split; [|done].
    unfold all_payments. rewrite <- (ranges_partition n G) by done.
    rewrite <- HP. clear. induction gs as [|g gs IH]; [done|].
    cbn [fmap list_fmap concat]. rewrite fmap_app. by f_equiv.
Qed.
End payout.
