(* ===== verification/CommittedMints.v ===== *)
(** * CommittedMints: the proved hash determines the payments

    Joins the buffer program ([MintBuffer.v]) with the bridge's check of a buffer
    ([ensure_pending_mints_ready_for_transition_inner], [BlockUpdate.v]).  The bridge
    hashes only the mint count and the group hashes of the buffer; that this hash
    commits to every recipient and amount follows from the buffer program keeping
    each group hash equal to the hash of the group's mints while the buffer is locked. *)
From S2P Require Import Prelude Errors Pod Hash Sha256 Runtime Types PublicInputs MintBuffer MintBufferProofs MintGroup ProgramState BlockUpdate BlockUpdateProofs Payout.
From Stdlib Require Import ZArith Lia.
From stdpp Require Import base decidable list numbers option gmap.
Import MintBuffer.

Open Scope Z_scope.
Open Scope bridge_scope.

(** What is hashed for a buffer of [n] mints: the count with the group hashes, and
    the mints of every group. *)
Definition buffer_messages (d : bytes) (n : Z) : list bytes :=
  let G := (n + 23) / 24 in
  omap id (slice 70 (G * 32 + 72) d ::
    ((fun g => slice (area_start G g) (area_start G g + 40 * group_size n G g) d) <$> seqZ 0 G)).

Lemma preimage_message d n p : slice 70 ((n + 23) / 24 * 32 + 72) d = Some p -> p ∈ buffer_messages d n.
Proof. intros Hp. unfold buffer_messages. cbv zeta. rewrite Hp. left. Qed.

Lemma area_message d n g area :
  0 <= g < (n + 23) / 24 ->
  slice (area_start ((n + 23) / 24) g) (area_start ((n + 23) / 24) g + 40 * group_size n ((n + 23) / 24) g) d
    = Some area -> area ∈ buffer_messages d n.
Proof.
  intros Hg Ha. unfold buffer_messages. cbv zeta. apply list_elem_of_omap. exists (Some area). split; [|done].
  right. apply list_elem_of_fmap. exists g. split; [by rewrite Ha|]. by apply elem_of_seqZ; lia.
Qed.

(** A slice of a slice. *)
Lemma slice_within a b c e (d p : bytes) :
  slice a b d = Some p -> a <= c <= e -> e <= b -> slice c e d = slice (c - a) (e - a) p.
Proof.
  intros Hp Hc He. pose proof (slice_len _ _ _ _ Hp) as Hl. pose proof Hp as (H0 & Hb & _)%slice_Some.
  destruct (slice_is_Some c e d) as [x Hx]; [lia..|]. destruct (slice_is_Some (c - a) (e - a) p) as [y Hy]; [lia..|].
  rewrite Hx, Hy. f_equal. pose proof (slice_len _ _ _ _ Hx). pose proof (slice_len _ _ _ _ Hy).
  apply list_eq. intros i. destruct (decide (Z.of_nat i < e - c)) as [Hi|Hi].
  - rewrite (slice_lookup _ _ _ _ _ Hx Hi), (slice_lookup _ _ _ _ _ Hy) by lia.
    rewrite (slice_lookup _ _ _ _ _ Hp) by lia. f_equal. lia.
  - rewrite !lookup_ge_None_2 by (unfold len in *; lia). done.
Qed.

(** The mint count is the first field of the hashed message. *)
Lemma header_count_bytes d h :
  slice 0 72 d = Some (bytes_of h) -> slice 70 72 d = Some (le_bytes 2 (pending_mints_count h)).
Proof.
  intros Hs. rewrite (slice_within _ _ 70 72 _ _ Hs) by lia.
  assert (exists p, bytes_of h = p ++ le_bytes 2 (pending_mints_count h)) as [p E].
  { exists (authorized_locker_public_key h ++ authorized_writer_public_key h ++ le_bytes 1 (is_locked h)
      ++ le_bytes 1 (mode h) ++ le_bytes 2 (pending_mint_groups_count h) ++ le_bytes 2 (pending_mints_initialized h)).
    destruct h. rewrite <- !app_assoc. reflexivity. }
  apply slice_len in Hs. rewrite E in Hs |- *. rewrite len_app in Hs.
  change (len (le_bytes 2 (pending_mints_count h))) with 2 in Hs.
  apply slice_suffix; [lia|]. change (len (le_bytes 2 (pending_mints_count h))) with 2. lia.
Qed.

Section committed.
Context `{Sha256Laws}.

(** The count determines the message's length, and the message the count. *)
Lemma preimage_determines_count prog1 prog2 hash d1 d2 n1 n2 :
  mint_buffer_committed prog1 hash n1 d1 -> mint_buffer_committed prog2 hash n2 d2 ->
  messages_collision_free (buffer_messages d1 n1 ++ buffer_messages d2 n2) ->
  n1 = n2 /\ slice 70 ((n1 + 23) / 24 * 32 + 72) d1 = slice 70 ((n1 + 23) / 24 * 32 + 72) d2.
Proof.
  intros C1 C2 Hm. pose proof (committed_count_range _ _ _ _ C1) as R1. pose proof (committed_count_range _ _ _ _ C2) as R2.
  destruct C1 as (h1 & p1 & Hs1 & _ & _ & Hn1 & _ & _ & _ & Hp1 & Hh1).
  destruct C2 as (h2 & p2 & Hs2 & _ & _ & Hn2 & _ & _ & _ & Hp2 & Hh2).
  unfold u16_MAX in *. rewrite mint_group_count in Hp1, Hp2 by lia.
  assert (p1 = p2) as <-.
  { eapply message_inj; [exact Hm| | |congruence]; apply elem_of_app;
      [left; by apply preimage_message|right; by apply preimage_message]. }
  apply header_count_bytes in Hs1, Hs2. rewrite Hn1 in Hs1. rewrite Hn2 in Hs2.
  assert (n1 = n2) as <-; [|by rewrite Hp1, Hp2].
  rewrite (slice_within _ _ _ _ _ _ Hp1) in Hs1 by (Z.to_euclidean_division_equations; lia).
  rewrite (slice_within _ _ _ _ _ _ Hp2), Hs1 in Hs2 by (Z.to_euclidean_division_equations; lia).
  apply (inj Some) in Hs2. apply (le_bytes_inj 2); [unfold in_width; lia..|]. exact Hs2.
Qed.

(** Equal slots, equal groups. *)
Lemma groups_agree d1 d2 n :
  let G := (n + 23) / 24 in
  all_groups_hashed d1 G n -> all_groups_hashed d2 G n ->
  slice 70 (G * 32 + 72) d1 = slice 70 (G * 32 + 72) d2 -> is_Some (slice 70 (G * 32 + 72) d1) ->
  messages_collision_free (buffer_messages d1 n ++ buffer_messages d2 n) ->
  forall g, 0 <= g < G -> exists area,
    slice (area_start G g) (area_start G g + 40 * group_size n G g) d1 = Some area /\
    slice (area_start G g) (area_start G g + 40 * group_size n G g) d2 = Some area.
Proof.
  intros G A1 A2 Hp [p Hp1] Hm g Hg. rewrite Hp1 in Hp. symmetry in Hp.
  destruct (A1 g Hg) as (a1 & Ha1 & Hs1). destruct (A2 g Hg) as (a2 & Ha2 & Hs2).
  rewrite (slice_within _ _ _ _ _ _ Hp1) in Hs1 by (unfold slot_start; lia).
  rewrite (slice_within _ _ _ _ _ _ Hp), Hs1 in Hs2 by (unfold slot_start; lia).
  assert (a1 = a2) as <-; [|eauto].
  eapply message_inj; [exact Hm| | |congruence]; apply elem_of_app;
    [left; by eapply area_message|right; by eapply area_message].
Qed.

(** A mint lies in its group. *)
Lemma mint_of_group (d : bytes) n i area :
  let G := (n + 23) / 24 in let g := i / 24 in
  0 <= i < n -> slice (area_start G g) (area_start G g + 40 * group_size n G g) d = Some area ->
  slice (40 * (i - 24 * g)) (40 * (i - 24 * g) + 40) area = Some (take 40 (drop (Z.to_nat (72 + G * 32 + i * 40)) d)).
Proof.
  intros G g Hi Ha.
  assert (0 <= g < G /\ 24 * g <= i < 24 * g + group_size n G g) as [Hg Hr].
  { unfold G, g, group_size. case_match; Z.to_euclidean_division_equations; lia. }
  pose proof Ha as (_ & Hb & _)%slice_Some.
  pose proof (slice_within _ _ (72 + G * 32 + i * 40) (72 + G * 32 + i * 40 + 40) _ _ Ha) as Hw.
  unfold area_start in *.
  replace (40 * (i - 24 * g)) with (72 + G * 32 + i * 40 - (72 + 32 * G + 960 * g)) by lia.
  replace (72 + G * 32 + i * 40 - (72 + 32 * G + 960 * g) + 40)
    with (72 + G * 32 + i * 40 + 40 - (72 + 32 * G + 960 * g)) by lia.
  rewrite <- Hw by lia. apply slice_Some. split; [lia|]. split; [lia|]. do 2 f_equal. lia.
Qed.

Lemma agreeing_groups_pay_same (d1 d2 : bytes) n :
  let G := (n + 23) / 24 in
  (forall g, 0 <= g < G -> exists area,
    slice (area_start G g) (area_start G g + 40 * group_size n G g) d1 = Some area /\
    slice (area_start G g) (area_start G g + 40 * group_size n G g) d2 = Some area) ->
  all_payments d1 G n = all_payments d2 G n.
Proof.
  intros G Hall. unfold all_payments. apply list_fmap_ext. intros j i Hi%list_elem_of_lookup_2.
  apply elem_of_seqZ in Hi. destruct (Hall (i / 24)) as (area & A1 & A2).
  { unfold G. Z.to_euclidean_division_equations; lia. }
  apply mint_of_group in A1, A2; [|lia..]. rewrite A1 in A2. injection A2 as E.
  unfold payment_at, mint_at. fold G in E. by rewrite E.
Qed.

Context `{RuntimeLaws}.

Lemma committed_preimage prog hash n d :
  mint_buffer_committed prog hash n d -> is_Some (slice 70 ((n + 23) / 24 * 32 + 72) d).
Proof.
  intros C. pose proof (committed_count_range _ _ _ _ C) as R. unfold u16_MAX in R.
  destruct C as (h & p & _ & _ & _ & _ & _ & _ & _ & Hp & _). rewrite mint_group_count in Hp by lia. by exists p.
Qed.

(** What the bridge sees of a locked buffer that it accepts. *)
Lemma locked_accepted_hashed pid w0 w k h prog hash n :
  runs pid w0 w -> data_at w0 k = [] -> get_header (data_at w k) = Some h -> is_locked h <> 0 ->
  ensure_pending_mints_ready_for_transition_inner prog hash (data_at w k) = Ok (hash, n) ->
  mint_buffer_committed prog hash n (data_at w k) /\ all_groups_hashed (data_at w k) ((n + 23) / 24) n.
Proof.
  intros Hr Hnil Hh Hl Hok. destruct (runs_inv _ _ _ k Hr) as [Hb Hinv]; [rewrite Hnil; apply empty_buffer_inv|].
  destruct (ensure_inner_ok _ _ _ _ _ Hb Hok) as [_ C]. split; [done|].
  pose proof (committed_count_range _ _ _ _ C) as R. unfold u16_MAX in R.
  destruct C as (h0 & p & Hs & Hwf0 & _ & Hn & _ & HG & _). rewrite mint_group_count in HG by lia.
  destruct (get_header_wf _ _ Hb Hh) as [Hwf Hs']. rewrite Hs in Hs'. injection Hs' as Hs'.
  destruct (Hinv h Hh) as [Hc Hct].
  assert (pending_mints_count h = n /\ pending_mint_groups_count h = (n + 23) / 24) as [En EG].
  { assert (h0 = h) as -> by (by apply bytes_of_inj). done. }
  rewrite <- EG, <- En. apply counted_complete; [apply Hct|..|by apply Hc]; congruence.
Qed.

(** [C13] The hash that a block's proof commits to determines the payments.  Take two
    mint buffers, each created and filled through the buffer program from an empty
    account and locked, that the bridge accepts for the same finalized mints hash.
    Then they hold the same number of mints, with the same recipients and amounts in
    the same order (SHA-256 not colliding on the two buffers' hashed messages). *)
Theorem accepted_hash_determines_payments pid w1 w1' k1 h1 w2 w2' k2 h2 prog1 prog2 hash n1 n2 :
  runs pid w1 w1' -> data_at w1 k1 = [] -> get_header (data_at w1' k1) = Some h1 -> is_locked h1 <> 0 ->
  runs pid w2 w2' -> data_at w2 k2 = [] -> get_header (data_at w2' k2) = Some h2 -> is_locked h2 <> 0 ->
  ensure_pending_mints_ready_for_transition_inner prog1 hash (data_at w1' k1) = Ok (hash, n1) ->
  ensure_pending_mints_ready_for_transition_inner prog2 hash (data_at w2' k2) = Ok (hash, n2) ->
  messages_collision_free (buffer_messages (data_at w1' k1) n1 ++ buffer_messages (data_at w2' k2) n2) ->
  n1 = n2 /\
  all_payments (data_at w1' k1) ((n1 + 23) / 24) n1 = all_payments (data_at w2' k2) ((n2 + 23) / 24) n2.
Proof.
  intros R1 E1 G1 L1 R2 E2 G2 L2 C1 C2 Hm.
  destruct (locked_accepted_hashed _ _ _ _ _ _ _ _ R1 E1 G1 L1 C1) as [D1 A1].
  destruct (locked_accepted_hashed _ _ _ _ _ _ _ _ R2 E2 G2 L2 C2) as [D2 A2].
  destruct (preimage_determines_count _ _ _ _ _ _ _ D1 D2 Hm) as [<- Hp].
  split; [done|]. apply agreeing_groups_pay_same, groups_agree; [done..| |done].
  by eapply committed_preimage.
Qed.
End committed.
