(* ===== verification/TxoUpload.v ===== *)
(** * TxoUpload: what the client uploads is what the bridge hashes

    Joins the client's builder ([BufferClient.v]), the TXO buffer program
    ([TxoBuffer.v]) and the bridge's check of a buffer ([read_txo_hash],
    [BlockUpdate.v]): once the buffer has been sized, the concurrent writes succeed
    in whatever order and however often each is sent, and the finalized buffer is
    accepted with the hash of the serialized indices. *)
From S2P Require Import Prelude Errors Pod Hash Sha256 Runtime Types TxoBuffer TxoBufferProofs BufferClient MintGroup ProgramState BlockUpdate.
From Stdlib Require Import ZArith Lia.
From stdpp Require Import base decidable list numbers option gmap.
Import TxoBuffer BufferClient.

Open Scope Z_scope.
Open Scope bridge_scope.

(** ** Chunks *)

Lemma le_bytes_4_length z : length (le_bytes 4 z) = 4%nat.
Proof. done. Qed.

Lemma serialize_len b : len (serialize_all b) = data_size b.
Proof.
  unfold serialize_all, data_size, len. induction (indices b) as [|x l IH]; [done|].
  cbn [fmap list_fmap concat]. rewrite length_app, le_bytes_4_length. cbn [length]. lia.
Qed.

Lemma serialize_bytes b : Forall is_byte (serialize_all b).
Proof.
  unfold serialize_all. induction (indices b) as [|x l IH]; [constructor|]. apply Forall_app. split; [|exact IH].
  apply le_bytes_bytes.
Qed.

(** A chunk is a piece of the data at its offset. *)
Lemma chunk_piece b o c :
  (o, c) ∈ chunks b -> 0 <= o /\ slice o (o + len c) (serialize_all b) = Some c.
Proof.
  intros Hin. unfold chunks in Hin. apply elem_of_lookup_imap in Hin as (i & x & [= -> ->] & Hx).
  unfold slice_chunks in Hx. apply list_lookup_fmap_Some in Hx as (j & -> & Hj).
  apply lookup_seq in Hj as [-> Hj]. cbn [Nat.add] in *. unfold CHUNK_SIZE. split; [lia|].
  set (d := serialize_all b) in *.
  apply slice_Some. assert (Z.of_nat i * 900 <= len d) as Hle.
  { unfold len. pose proof (Nat.div_mod_eq (length d + 900 - 1) 900).
    pose proof (Nat.mod_upper_bound (length d + 900 - 1) 900 ltac:(done)). nia. }
  unfold len in *. rewrite length_take, length_drop. split; [lia|]. split; [lia|].
  replace (Z.to_nat (Z.of_nat i * 900)) with (i * 900)%nat by lia.
  set (rest := drop (i * 900) d). replace (Z.to_nat _) with (length (take 900 rest)).
  - rewrite length_take. apply list_eq. intros k. destruct (decide (k < 900 `min` length rest)%nat).
    + by rewrite !lookup_take_lt by lia.
    + rewrite (lookup_take_ge _ (900 `min` _)) by lia. destruct (decide (k < 900)%nat); [|by rewrite lookup_take_ge by lia].
      rewrite lookup_take_lt by lia. apply lookup_ge_None_2. lia.
  - unfold rest. rewrite length_take, length_drop. lia.
Qed.

(** Every position of the data lies in a chunk. *)
Lemma chunks_cover b (i : nat) :
  (i < length (serialize_all b))%nat -> exists o c, (o, c) ∈ chunks b /\ o <= Z.of_nat i < o + len c.
Proof.
  intros Hi. set (d := serialize_all b) in *. set (j := (i / 900)%nat).
  pose proof (Nat.div_mod_eq i 900) as Hdm. pose proof (Nat.mod_upper_bound i 900 ltac:(done)). fold j in Hdm.
  exists (Z.of_nat j * CHUNK_SIZE), (take 900 (drop (j * 900) d)). split.
  - unfold chunks. apply elem_of_lookup_imap. exists j, (take 900 (drop (j * 900) d)). split; [done|].
    unfold slice_chunks. fold d. apply list_lookup_fmap_Some. exists j. split; [done|]. apply lookup_seq. split; [done|].
    pose proof (Nat.div_mod_eq (length d + 900 - 1) 900).
    pose proof (Nat.mod_upper_bound (length d + 900 - 1) 900 ltac:(done)). lia.
  - unfold CHUNK_SIZE, len. rewrite length_take, length_drop. lia.
Qed.

(** ** Sequences of instructions *)

Lemma deliver_all_app entry l i w w1 :
  deliver_all entry l w = Ok w1 -> deliver_all entry (l ++ [i]) w = deliver entry i w1.
Proof.
  revert w. induction l as [|j l IH]; intros w Hr.
  - injection Hr as ->. cbn [app deliver_all]. by destruct (deliver entry i w1).
  - cbn [app deliver_all] in *. destruct (deliver entry j w) as [w'| |]; [|discriminate Hr..].
    cbn [res_bind] in *. by apply IH.
Qed.

(** The bridge reads a final buffer. *)
Lemma read_txo_hash_final `{Sha256} (d : bytes) count height h body err :
  0 < count -> read_pod d = Some (with_data_size (count * 4) (with_height height true h)) ->
  slice 48 (48 + count * 4) d = Some body ->
  read_txo_hash d count (fun h => (txo_doge_block_height h =? height) && negb (txo_data_size h =? 0)) err
    = Ok (sha256 body).
Proof.
  intros Hc Hr Hs. pose proof Hs as (_ & Hl & _)%slice_Some.
  unfold read_txo_hash, pm_txo_data_account_min_size, PM_TXO_BUFFER_HEADER_SIZE. rewrite (proj2 (Z.ltb_ge _ _) Hl).
  unfold read_pod in Hr. rewrite txo_header_size in Hr. destruct (slice 0 48 d) as [hb|]; [|discriminate Hr].
  cbn [mbind option_bind] in Hr. cbn [or_panic res_bind]. rewrite Hr. cbn [or_panic res_bind].
  cbn [txo_doge_block_height txo_data_size with_data_size with_height]. rewrite Z.eqb_refl, (proj2 (Z.eqb_neq _ 0)) by lia.
  cbn [andb negb]. by rewrite Hs.
Qed.

(** ** The upload *)

Section upload.
Context `{Runtime}.
Context (pid account writer : Pubkey) (batch height : Z) (b : TxoBufferBuilder).
Context (Hbatch : in_width 32 batch) (Hheight : in_width 32 height) (Hsize : in_width 32 (data_size b)).

Local Abbreviation n := (data_size b).

(** The buffer between the first [SetDataLength] and the last: sized, not final. *)
Definition uploading (w : World) (h : Header) (body : bytes) : Prop :=
  owner_at w account = pid /\ Forall is_byte (data_at w account) /\
  read_pod (data_at w account) = Some h /\ txo_authorized_writer h = writer /\ txo_batch_id h = batch /\
  txo_finalized_status h <> 1 /\ txo_doge_block_height h = height /\ txo_data_size h = n /\
  slice 48 (48 + n) (data_at w account) = Some body.

Definition write_chunk (oc : Z * bytes) : Instruction := txo_buffer_write pid account writer batch oc.1 oc.2.

Lemma handle_same_batch h :
  txo_batch_id h = batch -> txo_finalized_status h <> 1 -> handle_batch_transition h batch = Ok h.
Proof.
  intros Hb Hf. unfold handle_batch_transition. rewrite Hb, Z.eqb_refl. by rewrite (proj2 (Z.eqb_neq _ 1) Hf).
Qed.

(** One write. *)
Lemma process_write_forward w contract system_and_rest signer h h1 d1 d2 bt o c :
  let d := data_at w (key contract) in
  owner_at w (key contract) = pid -> in_width 32 bt -> in_width 32 o -> is_signer signer = true ->
  read_pod d = Some h -> txo_authorized_writer h = key signer -> handle_batch_transition h bt = Ok h1 ->
  48 + (o + len c) <= len d -> o + len c <= txo_data_size h1 ->
  write_slice (48 + o) c d = Some d1 -> write_pod h1 d1 = Some d2 ->
  process_write_data pid (contract :: signer :: system_and_rest) contract (le_bytes 4 bt ++ le_bytes 4 o ++ c) w
    = Ok (set_data w (key contract) d2).
Proof.
  intros d Ho Hbt Hoff Hs Hh Hw Hr Hl Hds Hw1 Hw2. unfold process_write_data. fold d.
  rewrite bool_decide_eq_true_2 by done. cbn [negb].
  replace (take 4 (le_bytes 4 bt ++ le_bytes 4 o ++ c)) with (le_bytes 4 bt) by reflexivity.
  replace (take 4 (drop 4 (le_bytes 4 bt ++ le_bytes 4 o ++ c))) with (le_bytes 4 o) by reflexivity.
  replace (drop 8 (le_bytes 4 bt ++ le_bytes 4 o ++ c)) with c by reflexivity.
  rewrite !le_val_bytes by done. rewrite (proj2 (Z.ltb_ge _ 8)) by (rewrite !len_app; pose proof (len_nonneg c);
    change (len (le_bytes 4 bt)) with 4; change (len (le_bytes 4 o)) with 4; lia).
  unfold nth_account. cbn [lookup list_lookup ok_or res_bind]. rewrite Hs, Hh. cbn [negb or_panic res_bind].
  rewrite bool_decide_eq_true_2 by done. cbn [negb]. rewrite Hr. cbn [res_bind]. unfold HEADER_SIZE.
  rewrite (proj2 (Z.ltb_ge _ (o + len c))) by lia. rewrite Hw1. cbn [or_panic res_bind].
  rewrite (proj2 (Z.ltb_ge _ (o + len c))) by lia. by rewrite Hw2.
Qed.

(** A write inside the body of the buffer. *)
Lemma write_in_body (d body : bytes) o c d1 :
  slice 48 (48 + n) d = Some body -> 0 <= o -> o + len c <= n -> write_slice (48 + o) c d = Some d1 ->
  exists body', write_slice o c body = Some body' /\ slice 48 (48 + n) d1 = Some body'.
Proof.
  intros Hb Ho Hc Hw. pose proof (slice_len _ _ _ _ Hb) as Hl. pose proof (write_slice_len _ _ _ _ Hw) as Hl1.
  pose proof Hb as (_ & Hd & _)%slice_Some. pose proof (len_nonneg c).
  destruct (slice_is_Some 48 (48 + n) d1) as [body' Hb']; [unfold in_width in Hsize; lia|lia|]. exists body'. split; [|done].
  destruct (write_slice o c body) as [x|] eqn:Hx.
  2:{ exfalso. apply eq_None_not_Some in Hx. apply Hx. eexists. apply write_slice_Some. split; [done|]. split; [lia|done]. }
  f_equal. pose proof (write_slice_len _ _ _ _ Hx) as Hlx. pose proof (slice_len _ _ _ _ Hb') as Hlb.
  apply list_eq_same_length with (n := length x); [unfold len in *; lia|done|]. intros i y z Hi Hy Hz.
  rewrite (slice_lookup _ _ _ _ _ Hb') in Hz by (unfold len in *; lia).
  destruct (decide (o <= Z.of_nat i < o + len c)) as [Hin|Hout].
  - rewrite (write_slice_lookup_in _ _ _ _ _ Hx Hin) in Hy. rewrite (write_slice_lookup_in _ _ _ _ _ Hw) in Hz by lia.
    replace (Z.to_nat 48 + i - Z.to_nat (48 + o))%nat with (i - Z.to_nat o)%nat in Hz by lia. congruence.
  - rewrite (write_slice_lookup_out _ _ _ _ _ Hx) in Hy by lia. rewrite (write_slice_lookup_out _ _ _ _ _ Hw) in Hz by lia.
    rewrite (slice_lookup _ _ _ _ _ Hb) in Hy by (unfold len in *; lia). congruence.
Qed.

Lemma write_chunk_ok w h body o c :
  uploading w h body -> (o, c) ∈ chunks b ->
  exists w' body', deliver process_instruction (write_chunk (o, c)) w = Ok w' /\ uploading w' h body' /\
    write_slice o c body = Some body'.
Proof.
  intros (Ho & Hb & Hh & Hwr & Hbt & Hf & Hht & Hds & Hbody) Hc.
  destruct (chunk_piece _ _ _ Hc) as [Ho0 Hp]. pose proof Hp as (_ & Hend & _)%slice_Some. rewrite serialize_len in Hend.
  pose proof (slice_Forall _ _ _ _ _ Hp (serialize_bytes b)) as Hcb. pose proof (len_nonneg c).
  pose proof Hbody as (_ & Hlen & _)%slice_Some. pose proof (read_pod_wf _ _ Hb Hh) as Hwf.
  assert (is_Some (write_slice (48 + o) c (data_at w account))) as [d1 Hw1].
  { eexists. apply write_slice_Some. split; [lia|]. split; [lia|done]. }
  destruct (write_pod_Some h d1 Hwf) as [d2 Hw2].
  { rewrite (write_slice_len _ _ _ _ Hw1). by apply read_pod_len in Hh. }
  destruct (write_pod_spec h d1 d2 Hwf Hw2) as (Hr2 & Hl2 & Hs2 & Hb2).
  destruct (write_in_body _ _ _ _ _ Hbody Ho0 Hend Hw1) as (body' & Hbw & Hb1).
  exists (set_data w account d2), body'. split; [|split; [|done]].
  - cbn [deliver write_chunk txo_buffer_write fst snd process_instruction fmap list_fmap]. unfold nth_account.
    cbn [lookup list_lookup ok_or res_bind].
    eapply (process_write_forward w (account_info (meta_new account false)) [] (account_info (meta_new writer true)) h h);
      [done|done|unfold in_width in *; lia|done|exact Hh|exact Hwr|by apply handle_same_batch| | |exact Hw1|exact Hw2].
    + cbn [key account_info meta_key meta_new]. lia.
    + lia.
  - split; [by rewrite owner_at_set_data|]. rewrite data_at_set_data. split.
    { apply Hb2. by eapply write_slice_Forall. }
    repeat (split; [done|]). by rewrite Hs2.
Qed.

(** All writes: afterwards a position is right if it was, or if some write covered it. *)
Lemma writes_ok ws w h body :
  uploading w h body -> Forall (fun oc => oc ∈ chunks b) ws ->
  exists w' body', deliver_all process_instruction (write_chunk <$> ws) w = Ok w' /\ uploading w' h body' /\
    forall i : nat, (body !! i = serialize_all b !! i \/ exists o c, (o, c) ∈ ws /\ o <= Z.of_nat i < o + len c) ->
      body' !! i = serialize_all b !! i.
Proof.
  intros Hu Hws. revert w body Hu. induction Hws as [|[o c] ws Hc Hws IH]; intros w body Hu.
  { exists w, body. split; [done|]. split; [done|]. intros i [Hi|(o & c & Hin & _)]; [done|]. by apply elem_of_nil in Hin. }
  destruct (write_chunk_ok w h body o c Hu Hc) as (w1 & body1 & Hd & Hu1 & Hw).
  destruct (chunk_piece _ _ _ Hc) as [Ho Hp].
  destruct (IH w1 body1 Hu1) as (w' & body' & Hd' & Hu' & Hi'). exists w', body'.
  split; [rewrite fmap_cons; cbn [deliver_all]; rewrite Hd; exact Hd'|]. split; [done|].
  intros i Hi. apply Hi'. destruct (decide (o <= Z.of_nat i < o + len c)) as [Hin|Hout].
  - left. rewrite (write_slice_lookup_in _ _ _ _ _ Hw Hin), (slice_lookup _ _ _ _ _ Hp) by lia. f_equal. lia.
  - destruct Hi as [Hi|(o' & c' & Hin & Hr)].
    + left. by rewrite (write_slice_lookup_out _ _ _ _ _ Hw) by lia.
    + apply elem_of_cons in Hin as [[= -> ->]|Hin]; [done|]. right. by exists o', c'.
Qed.

(** ** [SetDataLength] as the client sends it *)

Definition set_len_input (resize fin : bool) : bytes :=
  le_bytes 4 n ++ [flag resize] ++ le_bytes 4 batch ++ le_bytes 4 height ++ [flag fin].

Lemma set_len_fields resize fin :
  let rest := set_len_input resize fin in
  Forall is_byte rest /\ len rest = 14 /\ le_val (take 4 rest) = n /\ negb (nth 4 rest 0 =? 0) = resize /\
  le_val (take 4 (drop 5 rest)) = batch /\ le_val (take 4 (drop 9 rest)) = height /\ negb (nth 13 rest 0 =? 0) = fin.
Proof.
  cbv zeta. split.
  { unfold set_len_input. repeat (apply Forall_app; split); auto using le_bytes_bytes;
      (constructor; [|constructor]; unfold is_byte; destruct resize, fin; simpl; lia). }
  split; [done|]. split; [by apply (le_val_bytes 4)|]. split; [by destruct resize|].
  split; [by apply (le_val_bytes 4)|]. split; [by apply (le_val_bytes 4)|by destruct fin].
Qed.

(** The finalizing instruction. *)
Lemma finalize_ok w h body sys tl :
  uploading w h body ->
  exists d, process_set_data_length pid (account_info (meta_new account false) ::
      account_info (meta_new writer true) :: sys :: tl) (account_info (meta_new account false))
      (set_len_input false true) w = Ok (set_data w account d) /\
    read_pod d = Some (with_data_size n (with_height height true h)) /\
    slice 48 (48 + n) d = Some body /\ Forall is_byte d.
Proof.
  intros (Ho & Hb & Hh & Hwr & Hbt & Hf & Hht & Hds & Hbody). pose proof (read_pod_wf _ _ Hb Hh) as Hwf.
  pose proof Hbody as (_ & Hlen & _)%slice_Some. pose proof (read_pod_len _ _ Hh) as Hhl.
  destruct (set_len_fields false true) as (_ & F0 & F1 & F2 & F3 & F4 & F5).
  destruct (write_pod_Some (with_height height true h) (data_at w account)) as [d1 Hw1]; [by apply with_height_wf|done|].
  destruct (write_pod_spec _ _ _ (with_height_wf height true h Hwf Hheight) Hw1) as (Hr1 & Hl1 & Hs1 & Hb1).
  destruct (write_pod_Some (with_data_size n (with_height height true h)) d1) as [d2 Hw2];
    [by apply with_data_size_wf, Hsize; apply with_height_wf|lia|].
  destruct (write_pod_spec _ _ _ (with_data_size_wf n _ (with_height_wf height true h Hwf Hheight) Hsize) Hw2)
    as (Hr2 & Hl2 & Hs2 & Hb2).
  exists d2. split; [|split; [done|split; [by rewrite Hs2, Hs1|by apply Hb2, Hb1]]].
  unfold process_set_data_length. cbn [key account_info meta_key meta_new].
  rewrite bool_decide_eq_true_2 by done. rewrite F0, F1, F2, F3, F4, F5. cbn [negb]. unfold nth_account.
  cbn [Z.eqb Pos.eqb lookup list_lookup ok_or res_bind is_signer account_info meta_is_signer meta_new negb key meta_key].
  rewrite Hh. cbn [or_panic res_bind]. rewrite bool_decide_eq_true_2 by done. cbn [negb].
  rewrite handle_same_batch by done. cbn [res_bind]. rewrite Hht, Z.eqb_refl, andb_false_r, Hw1. cbn [or_panic res_bind].
  rewrite data_at_set_data. unfold HEADER_SIZE. rewrite (proj2 (Z.ltb_ge _ (48 + n))) by lia. cbn [res_bind].
  rewrite data_at_set_data, Hr1. cbn [or_panic res_bind]. rewrite Hw2. cbn [or_panic res_bind].
  by rewrite set_data_set_data.
Qed.

Context `{!RuntimeLaws}.

Lemma set_len_owner accounts contract rest w w' :
  process_set_data_length pid accounts contract rest w = Ok w' ->
  owner_at w (key contract) = pid /\ owner_at w' (key contract) = pid.
Proof.
  intros Hr. unfold process_set_data_length in Hr. cbv zeta in Hr. peel Hr as E0. peel Hr as E1. peel Hr as E2.
  peel Hr as E3. peel Hr as E4. peel Hr as E5. peel Hr as E6. peel Hr as E7. peel Hr as E8. peel Hr as E9.
  peel Hr as E10. peel Hr as E11. peel Hr as E12. injection Hr as <-. reflect_guards. split; [done|].
  rewrite owner_at_set_data. branch E10 as F; [|peel E10 as F1; injection E10 as <-; by rewrite owner_at_set_data].
  unfold realloc_account in E10. cbv zeta in E10. peel E10 as G0. apply realloc_resizes in E10 as ->.
  rewrite owner_at_set_data. branch G0 as G1; [|branch G0 as G2].
  - rewrite (proj2 (transfer_keeps_data _ _ _ _ _ _ _ G0 (key contract))). by rewrite owner_at_set_data.
  - peel G0 as G3. injection G0 as <-. by rewrite !owner_at_set_lamports, owner_at_set_data.
  - injection G0 as <-. by rewrite owner_at_set_data.
Qed.

(** After the first [SetDataLength] the buffer takes writes. *)
Lemma set_len_uploading w w1 resize :
  Forall is_byte (data_at w account) ->
  deliver process_instruction (txo_buffer_set_len pid account writer writer n resize batch height false) w = Ok w1 ->
  exists h body, uploading w1 h body.
Proof.
  intros Hb Hr. cbn [deliver txo_buffer_set_len process_instruction fmap list_fmap] in Hr. unfold nth_account in Hr.
  cbn [lookup list_lookup ok_or res_bind] in Hr. fold (set_len_input resize false) in Hr.
  destruct (set_len_owner _ _ _ _ _ Hr) as [_ Ho1]. cbn [key account_info meta_key meta_new] in Ho1.
  destruct (set_len_fields resize false) as (Hib & _ & F1 & _ & F3 & F4 & F5).
  apply set_data_length_inv in Hr as (h & h1 & d1 & Hh & Hsig & Hbt & Hw1 & Hr1 & d2 & Hd2 & Hl & Hb1 & Hs); [|done..].
  cbn [key account_info meta_key meta_new] in *. rewrite F1, F4, F5 in *. rewrite F3 in Hbt.
  destruct Hsig as (signer & [= <-] & _ & Hwr). cbn [key account_info meta_key meta_new] in Hwr.
  assert (txo_authorized_writer h1 = writer /\ txo_batch_id h1 = batch /\ txo_finalized_status h1 <> 1) as (Hwr1 & Hb2 & Hf1).
  { unfold handle_batch_transition in Hbt. branch Hbt as G0; [|branch Hbt as G1; [|discriminate Hbt]].
    - peel Hbt as G1. injection Hbt as <-. apply Z.eqb_eq in G0. apply Z.eqb_neq in G1. by split_and!.
    - injection Hbt as <-. by split_and!. }
  assert (is_Some (slice 48 (48 + n) (data_at w1 account))) as [body Hbody].
  { unfold in_width in Hsize. apply slice_is_Some; [lia|]. rewrite Hl.
    destruct Hd2 as [->|[-> Hd2]]; [rewrite length_resized; lia|done]. }
  eexists _, body. split; [done|]. split; [done|]. split; [exact Hr1|]. by split_and!.
Qed.

Context `{Sha256}.

(** The writes, in any order and with repetitions, and the final instruction. *)
Lemma upload_finishes w w1 resize ws err :
  Forall is_byte (data_at w account) -> 0 < total_indices b ->
  deliver process_instruction (txo_buffer_set_len pid account writer writer n resize batch height false) w = Ok w1 ->
  Forall (fun oc => oc ∈ chunks b) ws -> (forall oc, oc ∈ chunks b -> oc ∈ ws) ->
  exists w2, deliver_all process_instruction ((write_chunk <$> ws) ++
      [txo_buffer_set_len pid account writer writer n false batch height true]) w1 = Ok w2 /\
    read_txo_hash (data_at w2 account) (total_indices b)
      (fun h => (txo_doge_block_height h =? height) && negb (txo_data_size h =? 0)) err
      = Ok (sha256 (serialize_all b)) /\
    exists h, read_pod (data_at w2 account) = Some h /\ txo_finalized_status h = 1 /\ txo_batch_id h = batch.
Proof.
  intros Hb Hpos Hset Hin Hall. destruct (set_len_uploading _ _ _ Hb Hset) as (h & body & Hu).
  destruct (writes_ok ws w1 h body Hu Hin) as (w2 & body2 & Hd & Hu2 & Hi).
  assert (body2 = serialize_all b) as ->.
  { destruct Hu2 as (_ & _ & _ & _ & _ & _ & _ & _ & Hs). apply slice_len in Hs. pose proof (serialize_len b).
    apply list_eq. intros i. destruct (decide (i < length (serialize_all b))%nat) as [Hlt|Hge].
    - apply Hi. right. destruct (chunks_cover b i Hlt) as (o & c & Hc & Hr). exists o, c. split; [by apply Hall|done].
    - rewrite !lookup_ge_None_2 by (unfold len in *; lia). done. }
  destruct (finalize_ok w2 h _ (account_info (meta_new_readonly system_program_id false))
    [account_info (meta_new_readonly writer true)] Hu2) as (d & Hf & Hr & Hs & Hbd).
  exists (set_data w2 account d). split; [|rewrite data_at_set_data; split].
  - by rewrite (deliver_all_app _ _ _ _ _ Hd).
  - unfold data_size in Hpos, Hs. unfold total_indices in *.
    exact (read_txo_hash_final d _ _ _ _ _ Hpos Hr Hs).
  - eexists. split; [exact Hr|]. split; [done|]. by destruct Hu2 as (_ & _ & _ & _ & ? & _).
Qed.

(** What the client uploads is what the bridge hashes.  Once the buffer has been
    sized by the writer, the client's chunk writes succeed in any order and with any
    repetitions, as long as every chunk is sent, and so does the finalizing
    instruction; the bridge then reads the SHA-256 of exactly the serialized indices
    from the buffer, whose header is final and carries the block height. *)
Theorem txo_upload_accepted w w1 resize ws err :
  Forall is_byte (data_at w account) -> 0 < total_indices b ->
  deliver process_instruction (txo_buffer_set_len pid account writer writer n resize batch height false) w = Ok w1 ->
  Forall (fun oc => oc ∈ chunks b) ws -> (forall oc, oc ∈ chunks b -> oc ∈ ws) ->
  exists w2, deliver_all process_instruction ((write_chunk <$> ws) ++
      [txo_buffer_set_len pid account writer writer n false batch height true]) w1 = Ok w2 /\
    read_txo_hash (data_at w2 account) (total_indices b)
      (fun h => (txo_doge_block_height h =? height) && negb (txo_data_size h =? 0)) err
      = Ok (sha256 (serialize_all b)) /\
    exists h, read_pod (data_at w2 account) = Some h /\ txo_finalized_status h = 1 /\ txo_batch_id h = batch.
Proof. exact (upload_finishes w w1 resize ws err). Qed.
End upload.
