(* ===== verification/MintUpload.v ===== *)
(** * MintUpload: what the client uploads is what the bridge pays

    Joins the client's builder ([BufferClient.v]), the mint buffer program
    ([MintBuffer.v]), the bridge's check of a buffer and its reading of the mints
    ([BlockUpdate.v], [Payout.v]): the groups that the client inserts, in any order,
    fill the buffer, it can be locked, and the bridge accepts it for the hash of the
    client's groups and pays the client's mints. *)
From S2P Require Import Prelude Errors Pod Hash Sha256 Runtime Types PublicInputs MintBuffer MintBufferProofs BufferClient MintGroup ProgramState BlockUpdate BlockUpdateProofs Payout CommittedMints.
From Stdlib Require Import ZArith Lia.
From stdpp Require Import base decidable list numbers option gmap.
Import MintBuffer BufferClient.

Open Scope Z_scope.
Open Scope bridge_scope.

(** ** Pieces of lists *)

(** A piece of at most [c] elements. *)
Lemma slice_piece {A} a c (l : list A) :
  0 <= a <= len l -> 0 <= c ->
  slice a (Z.min (a + c) (len l)) l = Some (take (Z.to_nat c) (drop (Z.to_nat a) l)).
Proof.
  intros Ha Hc. apply slice_Some. split; [lia|]. split; [lia|].
  destruct (Z.min_spec (a + c) (len l)) as [[Hlt ->]|[Hge ->]].
  - do 2 f_equal. lia.
  - rewrite !take_ge by (rewrite length_drop; unfold len in *; lia). done.
Qed.

Lemma slice_join (a b c : Z) (d x y : bytes) :
  slice a b d = Some x -> slice b c d = Some y -> slice a c d = Some (x ++ y).
Proof.
  intros Hx Hy. pose proof (slice_len _ _ _ _ Hx). pose proof (slice_len _ _ _ _ Hy).
  pose proof Hx as (? & ? & _)%slice_Some. pose proof Hy as (? & ? & _)%slice_Some.
  destruct (slice_is_Some a c d) as [z Hz]; [lia..|]. rewrite Hz. f_equal. pose proof (slice_len _ _ _ _ Hz).
  apply list_eq. intros i. destruct (decide (Z.of_nat i < c - a)) as [Hi|Hi].
  - rewrite (slice_lookup _ _ _ _ _ Hz Hi). destruct (decide (Z.of_nat i < b - a)) as [Hl|Hl].
    + rewrite lookup_app_l by (unfold len in *; lia). by rewrite (slice_lookup _ _ _ _ _ Hx).
    + rewrite lookup_app_r by (unfold len in *; lia). rewrite (slice_lookup _ _ _ _ _ Hy) by (unfold len in *; lia).
      f_equal. unfold len in *. lia.
  - rewrite !lookup_ge_None_2; [done| |unfold len in *; lia]. rewrite length_app. unfold len in *. lia.
Qed.

(** The bytes of a list of mints, and one mint among them. *)
Lemma mints_bytes_len (l : list PendingMint) :
  Forall pod_wf l -> len (concat (bytes_of <$> l)) = 40 * len l.
Proof. exact (len_concat_pods l). Qed.

Lemma mint_in_bytes (l : list PendingMint) (j : nat) m :
  Forall pod_wf l -> l !! j = Some m ->
  slice (40 * Z.of_nat j) (40 * Z.of_nat j + 40) (concat (bytes_of <$> l)) = Some (bytes_of m).
Proof.
  intros Hl Hj. pose proof (Forall_lookup_1 _ _ _ _ Hl Hj) as Hm. destruct (bytes_of_array m Hm) as [E _].
  change (pod_size PendingMint) with 40%nat in E.
  rewrite <- (take_drop_middle l j m Hj), fmap_app, fmap_cons, concat_app. cbn [concat].
  pose proof (mints_bytes_len (take j l) (Forall_take _ _ _ Hl)) as Ht.
  apply lookup_lt_Some in Hj. unfold len in Ht. rewrite length_take in Ht.
  apply slice_app_mid; unfold len in *; lia.
Qed.

Section upload.
Context `{Sha256Laws} `{Runtime}.
Context (pid account payer : Pubkey) (b : PendingMintBufferBuilder).
Context (Hmints : Forall pod_wf (mints b)) (Hn : 0 < total_mints b <= 65512).

Local Abbreviation n := (total_mints b).
Local Abbreviation G := ((total_mints b + 23) / 24).

Lemma groups_bounds : 0 < G /\ 24 * (G - 1) < n <= 24 * G.
Proof. Z.to_euclidean_division_equations; lia. Qed.

Lemma group_size_bounds g : 0 <= g < G -> 0 < group_size n G g <= 24 /\ 24 * g + group_size n G g <= n.
Proof.
  intros Hg. pose proof groups_bounds. unfold group_size. destruct (Z.eqb_spec g (G - 1)); lia.
Qed.

(** ** The client's groups *)

Definition group_bytes (g : Z) : bytes :=
  concat (bytes_of <$> take 24 (drop (Z.to_nat (24 * g)) (mints b))).

Lemma serialize_group_ok g : 0 <= g < G -> serialize_group b g = Some (group_bytes g).
Proof.
  intros Hg. pose proof (group_size_bounds g Hg). unfold serialize_group, get_group, PM_MAX_PENDING_MINTS_PER_GROUP.
  unfold total_mints in *. rewrite slice_piece by lia. cbn [mbind option_bind]. unfold group_bytes.
  by rewrite (Z.mul_comm g 24).
Qed.

Lemma group_bytes_len g : 0 <= g < G -> len (group_bytes g) = 40 * group_size n G g.
Proof.
  intros Hg. pose proof (group_size_bounds g Hg). unfold group_bytes.
  rewrite mints_bytes_len by (by apply Forall_take, Forall_drop). f_equal. pose proof groups_bounds.
  unfold total_mints, group_size, len in *. rewrite length_take, length_drop.
  destruct (Z.eqb_spec g ((Z.of_nat (length (mints b)) + 23) / 24 - 1)); lia.
Qed.

Lemma group_bytes_bytes g : Forall is_byte (group_bytes g).
Proof.
  unfold group_bytes. apply Forall_concat, Forall_fmap. apply (Forall_impl pod_wf); [by apply Forall_take, Forall_drop|].
  intros m Hm. apply (bytes_of_array m Hm).
Qed.

(** What the bridge hashes: the count and the hashes of the groups. *)
Definition commitment_preimage : bytes := le_bytes 2 n ++ concat ((fun g => sha256 (group_bytes g)) <$> seqZ 0 G).

(** ** Filling the buffer *)

Definition filled (inserted : list Z) : Z := foldr Z.add 0 (group_size n G <$> inserted).

(** The memory once the groups in [inserted] have been written; [h0] is the header
    that [Reinit] left. *)
Definition filling_memory (h0 : Header) (d : bytes) (inserted : list Z) : Prop :=
  Forall is_byte d /\ len d = mint_buffer_size b /\ get_header d = Some (add_initialized h0 (filled inserted)) /\
  forall g, 0 <= g < G ->
    if decide (g ∈ inserted)
    then slice (slot_start g) (slot_start g + 32) d = Some (sha256 (group_bytes g)) /\
         slice (area_start G g) (area_start G g + 40 * group_size n G g) d = Some (group_bytes g)
    else slice (slot_start g) (slot_start g + 32) d = Some (zeros 32).

(** The header of a buffer that is being filled. *)
Definition fresh_header (h0 : Header) : Prop :=
  authorized_writer_public_key h0 = payer /\ is_locked h0 = 0 /\ pending_mints_initialized h0 = 0 /\
  pending_mints_count h0 = n /\ pending_mint_groups_count h0 = G.

Lemma buffer_size_eq : mint_buffer_size b = 72 + 32 * G + 40 * n.
Proof.
  unfold mint_buffer_size, num_groups, PENDING_MINT_BUFFER_HEADER_SIZE, PM_MAX_PENDING_MINTS_PER_GROUP, PM_DA_PENDING_MINT_SIZE.
  unfold total_mints in *. rewrite (proj2 (Z.eqb_neq _ 0)) by lia. replace (len (mints b) + 24 - 1) with (len (mints b) + 23) by lia. lia.
Qed.

Lemma insert_forward d h g m :
  get_header d = Some h -> is_locked h = 0 -> pending_mint_groups_count h = G -> 0 <= g < G ->
  len m = 40 * group_size n G g -> len d = mint_buffer_size b ->
  slice (slot_start g) (slot_start g + 32) d = Some (zeros 32) ->
  exists d1 d2, write_slice (slot_start g) (sha256 m) d = Some d1 /\
    write_slice (area_start G g) m d1 = Some d2 /\
    (forall d', put_header (add_initialized h (u16 (group_size n G g))) d2 = Some d' ->
     insert_pending_mints d g m = Ok d').
Proof.
  intros Hh Hlk HG Hg Hm Hd Hz. pose proof (group_size_bounds g Hg) as [Hs He]. pose proof groups_bounds as [_ Hgb].
  rewrite buffer_size_eq in Hd. assert (len (sha256 m) = 32) as Hsl by apply digest_len.
  assert (is_Some (write_slice (slot_start g) (sha256 m) d)) as [d1 Hw1].
  { eexists. apply write_slice_Some. rewrite Hsl. unfold slot_start. split; [lia|]. split; [lia|done]. }
  pose proof (write_slice_len _ _ _ _ Hw1) as Hl1.
  assert (is_Some (write_slice (area_start G g) m d1)) as [d2 Hw2].
  { eexists. apply write_slice_Some. unfold area_start. split; [lia|]. split; [lia|done]. }
  exists d1, d2. split; [done|]. split; [done|]. intros d' Hp.
  assert (get_header d2 = get_header d) as Hsame.
  { unfold get_header, HEADER_SIZE. by rewrite (slice_write_disjoint _ _ _ _ _ _ Hw2), (slice_write_disjoint _ _ _ _ _ _ Hw1)
      by (rewrite ?Hsl; unfold slot_start, area_start; lia). }
  unfold insert_pending_mints. rewrite Hh. cbn [or_panic res_bind]. rewrite Hlk, HG, Hm. cbn [Z.eqb negb].
  unfold get_nth_group_hash_offset, get_nth_pending_mint_offset, MAX_PENDING_MINTS_PER_GROUP, PENDING_MINT_SIZE, HEADER_SIZE.
  rewrite (proj2 (Z.leb_gt G g)), (proj2 (Z.ltb_ge (24 * 40) _)) by lia.
  rewrite (Z.mul_comm 40 (group_size n G g)), Z_mod_mult, Z_div_mult by lia. cbn [Z.eqb negb].
  rewrite HG, (wrap_id 16 (g * 24)) by (unfold in_width; lia).
  replace (72 + g * 32) with (slot_start g) by (unfold slot_start; lia).
  replace (72 + G * 32 + g * 24 * 40) with (area_start G g) by (unfold area_start; lia).
  replace ((len d <? area_start G g + group_size n G g * 40) || (len d <? slot_start g + 32)) with false.
  2:{ symmetry. apply orb_false_iff. rewrite !Z.ltb_ge. unfold area_start, slot_start. lia. }
  rewrite Hz. cbn [or_panic res_bind]. rewrite bool_decide_eq_true_2 by done. cbn [negb].
  rewrite Hw1. cbn [or_panic res_bind]. rewrite Hw2. cbn [or_panic res_bind]. rewrite Hsame, Hh. cbn [or_panic res_bind].
  by rewrite Hp.
Qed.

Lemma add_initialized_wf h z : pod_wf h -> pod_wf (add_initialized h z).
Proof.
  intros (? & ? & ? & ? & ? & ? & ?). repeat (split; [done|]). split; [|done]. apply (wrap_in_width 16). lia.
Qed.

Lemma add_initialized_twice h x y : add_initialized (add_initialized h x) (u16 y) = add_initialized h (y + x).
Proof.
  unfold add_initialized. cbn [pending_mints_initialized authorized_locker_public_key authorized_writer_public_key
    is_locked mode pending_mint_groups_count pending_mints_count]. f_equal. unfold wrap.
  rewrite <- Zplus_mod. f_equal. lia.
Qed.

Lemma put_header_Some h d : pod_wf h -> 72 <= len d -> is_Some (put_header h d).
Proof.
  intros Hh Hd. destruct (bytes_of_array h Hh) as [Hl _]. change (pod_size Header) with 72%nat in Hl.
  eexists. unfold put_header. apply write_slice_Some. split; [done|]. split; [unfold len in *; lia|done].
Qed.

(** One insertion. *)
Lemma insert_memory_ok h0 d inserted g :
  fresh_header h0 -> pod_wf h0 -> filling_memory h0 d inserted -> 0 <= g < G -> g ∉ inserted ->
  exists d', insert_pending_mints d g (group_bytes g) = Ok d' /\ filling_memory h0 d' (g :: inserted).
Proof.
  intros (_ & Hlk & _ & _ & HG) Hwf (Hb & Hl & Hh & Hg') Hg Hni. pose proof (group_bytes_len g Hg) as Hm.
  pose proof (Hg' g Hg) as Hz. rewrite decide_False in Hz by done.
  destruct (insert_forward d _ g (group_bytes g) Hh Hlk HG Hg Hm Hl Hz) as (d1 & d2 & Hw1 & Hw2 & Hins).
  pose proof (write_slice_len _ _ _ _ Hw1). pose proof (write_slice_len _ _ _ _ Hw2). pose proof buffer_size_eq.
  pose proof groups_bounds as [_ Hgb].
  assert (pod_wf (add_initialized (add_initialized h0 (filled inserted)) (u16 (group_size n G g)))) as Hwf'
    by (by apply add_initialized_wf, add_initialized_wf).
  destruct (put_header_Some _ d2 Hwf') as [d' Hp]; [lia|]. exists d'. split; [by apply Hins|].
  assert (Forall is_byte d2) as Hb2.
  { eapply write_slice_Forall; [exact Hw2|apply group_bytes_bytes|].
    eapply write_slice_Forall; [exact Hw1|apply sha256_array|done]. }
  destruct (put_header_spec _ _ _ Hwf' Hb2 Hp) as (Hget & Hb' & Hbody).
  split; [done|]. split; [destruct Hbody; lia|]. split; [by rewrite Hget, add_initialized_twice|].
  assert (len (sha256 (group_bytes g)) = 32) as Hsl by apply digest_len. pose proof (group_size_bounds g Hg).
  intros k Hk. pose proof (group_size_bounds k Hk). unfold slot_start, area_start in *.
  rewrite !(same_body_slice _ _ _ _ Hbody) by lia. destruct (decide (k = g)) as [->|Hne].
  - rewrite decide_True by (by left). split.
    + rewrite (slice_write_disjoint _ _ _ _ _ _ Hw2) by lia.
      apply slice_write_same in Hw1. by rewrite Hsl in Hw1.
    + apply slice_write_same in Hw2. by rewrite Hm in Hw2.
  - rewrite !(slice_write_disjoint _ _ _ _ _ _ Hw2), !(slice_write_disjoint _ _ _ _ _ _ Hw1) by (rewrite ?Hsl; lia).
    specialize (Hg' k Hk). destruct (decide (k ∈ inserted)) as [Hin|Hnin].
    + rewrite decide_True by (by right). done.
    + rewrite decide_False; [done|]. intros [Heq|Hin]%elem_of_cons; done.
Qed.

(** ** The instructions *)

Definition filling (h0 : Header) (w : World) (inserted : list Z) : Prop :=
  owner_at w account = pid /\ filling_memory h0 (data_at w account) inserted.

Definition insert_group (g : Z) : Instruction := pending_mint_insert pid account payer g (group_bytes g).

Lemma insert_group_ok h0 w inserted g :
  fresh_header h0 -> pod_wf h0 -> filling h0 w inserted -> 0 <= g < G -> g ∉ inserted ->
  exists w', deliver process_instruction (insert_group g) w = Ok w' /\ filling h0 w' (g :: inserted).
Proof.
  intros Hf Hwf [Ho Hm] Hg Hni. destruct (insert_memory_ok _ _ _ _ Hf Hwf Hm Hg Hni) as (d' & Hins & Hm').
  exists (set_data w account d'). split; [|split; [by rewrite owner_at_set_data|by rewrite data_at_set_data]].
  destruct Hf as (Hwr & _ & _ & Hcnt & HG). destruct Hm as (_ & Hl & Hh & _). pose proof buffer_size_eq as Hbs.
  pose proof groups_bounds as [_ Hgb]. pose proof (group_size_bounds g Hg).
  cbn [deliver insert_group pending_mint_insert process_instruction fmap list_fmap]. unfold nth_account at 1.
  cbn [lookup list_lookup ok_or res_bind]. unfold process_insert, nth_account.
  cbn [key account_info meta_key meta_new lookup list_lookup ok_or res_bind].
  rewrite bool_decide_eq_true_2 by done. cbn [negb require_signer is_signer account_info meta_is_signer meta_new res_bind].
  unfold verify_writer. cbn [key account_info meta_key meta_new]. unfold HEADER_SIZE.
  rewrite (proj2 (Z.ltb_ge _ 72)) by lia. rewrite Hh. cbn [or_panic res_bind].
  rewrite bool_decide_eq_true_2 by done. cbn [negb res_bind].
  rewrite (proj2 (Z.ltb_ge _ 2)) by (rewrite len_app; change (len (le_bytes 2 g)) with 2; pose proof (len_nonneg (group_bytes g)); lia).
  replace (take 2 (le_bytes 2 g ++ group_bytes g)) with (le_bytes 2 g) by reflexivity.
  replace (drop 2 (le_bytes 2 g ++ group_bytes g)) with (group_bytes g) by reflexivity.
  rewrite le_val_bytes by (unfold in_width; lia).
  unfold get_total_buffer_size. cbn [pending_mint_groups_count pending_mints_count add_initialized].
  rewrite HG, Hcnt. unfold HEADER_SIZE, PENDING_MINT_SIZE. rewrite (proj2 (Z.ltb_ge _ (72 + 32 * G + n * 40))) by lia.
  cbn [res_bind]. rewrite Hins. done.
Qed.

Lemma insert_groups_ok h0 w inserted gs :
  fresh_header h0 -> pod_wf h0 -> filling h0 w inserted -> NoDup (gs ++ inserted) -> Forall (fun g => 0 <= g < G) gs ->
  exists w', deliver_all process_instruction (insert_group <$> gs) w = Ok w' /\ filling h0 w' (reverse gs ++ inserted).
Proof.
  intros Hf Hwf. revert w inserted. induction gs as [|g gs IH]; intros w inserted Hfill HN Hr; [by exists w|].
  apply Forall_cons in Hr as [Hg Hr]. cbn [app] in HN. apply list.NoDup_cons in HN as [Hni HN].
  destruct (insert_group_ok h0 w inserted g Hf Hwf Hfill Hg) as (w1 & Hd & Hfill1).
  { intros Hin. apply Hni. apply elem_of_app. by right. }
  destruct (IH w1 (g :: inserted) Hfill1) as (w' & Hd' & Hfill'); [|done|].
  { apply (NoDup_Permutation_proper _ (g :: gs ++ inserted)); [by rewrite Permutation_middle|].
    apply list.NoDup_cons. by split. }
  exists w'. split; [rewrite fmap_cons; cbn [deliver_all]; by rewrite Hd|]. by rewrite reverse_cons, <- app_assoc.
Qed.

(** ** The full buffer *)

#[local] Instance filled_proper : Proper ((≡ₚ) ==> (=)) filled.
Proof.
  unfold filled. intros l l' Hp. induction Hp as [|x l l' Hp IH|x y l|l1 l2 l3 Hp1 IH1 Hp2 IH2];
    [done|cbn [fmap list_fmap foldr] in *; by rewrite IH|cbn [fmap list_fmap foldr]; lia|by rewrite IH1].
Qed.

Lemma filled_all inserted : inserted ≡ₚ seqZ 0 G -> filled inserted = n.
Proof. intros ->. unfold filled. apply sum_group_sizes. pose proof groups_bounds. lia. Qed.

Lemma filling_all h0 d inserted :
  filling_memory h0 d inserted -> inserted ≡ₚ seqZ 0 G -> forall g, 0 <= g < G ->
  slice (slot_start g) (slot_start g + 32) d = Some (sha256 (group_bytes g)) /\
  slice (area_start G g) (area_start G g + 40 * group_size n G g) d = Some (group_bytes g).
Proof.
  intros (_ & _ & _ & Hall) Hp g Hg. specialize (Hall g Hg). rewrite decide_True in Hall; [done|].
  rewrite Hp. apply elem_of_seqZ. lia.
Qed.

(** Locking. *)
Definition storage_info : AccountInfo := account_info (meta_new account false).

Lemma lock_full h0 w inserted signer :
  fresh_header h0 -> pod_wf h0 -> filling h0 w inserted -> inserted ≡ₚ seqZ 0 G ->
  is_signer signer = true -> authorized_locker_public_key h0 = key signer ->
  exists d' h', process_instruction pid [storage_info; signer] [4] w = Ok (set_data w account d') /\
    get_header d' = Some h' /\ is_locked h' = 1 /\ authorized_locker_public_key h' = key signer /\
    pending_mints_count h' = n /\ pending_mint_groups_count h' = G /\
    same_body (data_at w account) d' /\ Forall is_byte d'.
Proof.
  intros (Hwr & Hlk & Hi & Hcnt & HG) Hwf [Ho Hm] Hp Hs Hl. destruct Hm as (Hb & Hlen & Hh & _). pose proof groups_bounds.
  rewrite (filled_all _ Hp) in Hh. pose proof buffer_size_eq.
  assert (exists h', lock (add_initialized h0 n) (key signer) = Ok h' /\ pod_wf h' /\ is_locked h' = 1 /\
    authorized_locker_public_key h' = key signer /\ pending_mints_count h' = n /\ pending_mint_groups_count h' = G)
    as (h' & Hlock & Hwf' & Hlk' & Hl' & Hn' & HG').
  { destruct (add_initialized_wf h0 n Hwf) as (? & ? & ? & ? & ? & ? & ?). eexists. split.
    - unfold lock. cbn [is_locked pending_mints_initialized pending_mints_count authorized_locker_public_key add_initialized].
      rewrite Hlk, Hi, Hcnt, Z.add_0_l, (wrap_id 16 n), !Z.eqb_refl by (unfold in_width; lia). cbn [negb].
      rewrite bool_decide_eq_true_2 by done. cbn [negb]. reflexivity.
    - split; [|by split_and!]. split; [done|]. split; [done|]. split; [change (in_width 8 1); unfold in_width; lia|].
      split; [done|]. split; [done|]. split; change (in_width 16 n); unfold in_width; lia. }
  destruct (put_header_Some h' (data_at w account) Hwf') as [d' Hput]; [lia|].
  destruct (put_header_spec _ _ _ Hwf' Hb Hput) as (Hget & Hb' & Hbody). exists d', h'. split; [|by split_and!].
  cbn [process_instruction]. unfold nth_account at 1. cbn [lookup list_lookup ok_or res_bind]. unfold process_lock, nth_account.
  cbn [storage_info key account_info meta_key meta_new lookup list_lookup ok_or res_bind].
  rewrite bool_decide_eq_true_2 by done. cbn [negb]. unfold require_signer. rewrite Hs. cbn [negb res_bind].
  unfold update_header. rewrite Hh. cbn [or_panic res_bind]. rewrite Hlock. cbn [res_bind]. by rewrite Hput.
Qed.

(** What the bridge hashes of a full buffer. *)
Lemma slots_preimage d k :
  (forall g, 0 <= g < G -> slice (slot_start g) (slot_start g + 32) d = Some (sha256 (group_bytes g))) ->
  0 <= k <= G -> 72 <= len d ->
  slice 72 (72 + 32 * k) d = Some (concat ((fun g => sha256 (group_bytes g)) <$> seqZ 0 k)).
Proof.
  intros Hall Hk Hd. destruct Hk as [Hk0 Hk]. revert Hk. pattern k. apply natlike_ind; [intros _| |done]; clear k Hk0.
  { apply slice_Some. split; [lia|]. by split. }
  intros j Hj IH Hk. rewrite <- Z.add_1_r, (seqZ_app 0 j 1) by lia. rewrite fmap_app, concat_app.
  change (seqZ (0 + j) 1) with [j]. cbn [fmap list_fmap concat]. rewrite app_nil_r.
  eapply slice_join; [apply IH; lia|]. specialize (Hall j ltac:(lia)). unfold slot_start in Hall.
  by replace (72 + 32 * (j + 1)) with (72 + 32 * j + 32) by lia.
Qed.

Lemma bridge_accepts d h :
  get_header d = Some h -> Forall is_byte d -> pending_mints_count h = n -> pending_mint_groups_count h = G ->
  mint_buffer_size b <= len d ->
  (forall g, 0 <= g < G -> slice (slot_start g) (slot_start g + 32) d = Some (sha256 (group_bytes g))) ->
  ensure_pending_mints_ready_for_transition_inner (authorized_locker_public_key h) (sha256 commitment_preimage) d
    = Ok (sha256 commitment_preimage, n).
Proof.
  intros Hh Hb Hn' HG Hl Hslots. pose proof groups_bounds. rewrite buffer_size_eq in Hl.
  destruct (get_header_wf _ _ Hb Hh) as [Hwf Hs]. pose proof (header_count_bytes _ _ Hs) as Hc. rewrite Hn' in Hc.
  assert (slice 70 (G * 32 + 72) d = Some commitment_preimage) as Hpre.
  { replace (G * 32 + 72) with (72 + 32 * G) by lia. eapply slice_join; [exact Hc|]. apply slots_preimage; [done|lia..]. }
  unfold ensure_pending_mints_ready_for_transition_inner, PM_DA_PENDING_MINTS_BUFFER_STATE_HEADER_SIZE.
  rewrite (proj2 (Z.ltb_ge _ 72)) by lia. rewrite Hs. cbn [or_panic res_bind]. rewrite cast_bytes_of by done.
  cbn [or_panic res_bind]. rewrite bool_decide_eq_true_2 by done. cbn [negb]. rewrite Hn', HG.
  pose proof (mint_group_count n ltac:(lia)) as Hg. destruct (compute_mint_group_info n) as [g last]. cbn [fst] in Hg. subst g.
  rewrite !Z.eqb_refl. cbn [negb]. rewrite (proj2 (Z.leb_gt u16_MAX n)) by (unfold u16_MAX; lia). cbn [orb].
  unfold pm_calculate_data_account_min_size, PM_MAX_PENDING_MINTS_PER_GROUP, PM_DA_PENDING_MINTS_BUFFER_STATE_HEADER_SIZE,
    PM_DA_PENDING_MINT_SIZE. replace (n + 24 - 1) with (n + 23) by lia.
  rewrite (proj2 (Z.ltb_ge _ (72 + G * 32 + n * 40))) by lia. rewrite Hpre. cbn [or_panic res_bind].
  unfold hash_impl_sha256_bytes. by rewrite bool_decide_eq_true_2.
Qed.

(** The payments that a mint stands for. *)
Definition payment (m : PendingMint) : bytes * Z := (recipient m, amount m).

Lemma full_payments d :
  (forall g, 0 <= g < G -> slice (area_start G g) (area_start G g + 40 * group_size n G g) d = Some (group_bytes g)) ->
  all_payments d G n = payment <$> mints b.
Proof.
  intros Hall. unfold all_payments. apply list_eq. intros i. rewrite !list_lookup_fmap.
  destruct (mints b !! i) as [m|] eqn:Hm.
  - pose proof Hm as Hi%lookup_lt_Some. unfold total_mints, len in Hall, Hn |- *.
    rewrite lookup_seqZ_lt by lia. cbn [fmap option_fmap option_map]. f_equal. rewrite Z.add_0_l.
    set (N := Z.of_nat (length (mints b))) in *. set (g := Z.of_nat i / 24).
    assert (0 <= g < (N + 23) / 24) as Hg by (unfold g; Z.to_euclidean_division_equations; lia).
    pose proof (mint_of_group d N (Z.of_nat i) _ ltac:(lia) (Hall g Hg)) as Hs. cbv zeta in Hs. fold g in Hs.
    assert (take 24 (drop (Z.to_nat (24 * g)) (mints b)) !! (Z.to_nat (Z.of_nat i - 24 * g)) = Some m) as Hl.
    { rewrite lookup_take_lt, lookup_drop by (unfold g; Z.to_euclidean_division_equations; lia).
      rewrite <- Hm. f_equal. unfold g; Z.to_euclidean_division_equations; lia. }
    pose proof (mint_in_bytes _ _ _ (Forall_take _ _ _ (Forall_drop _ _ _ Hmints)) Hl) as Hb.
    rewrite Z2Nat.id in Hb by (unfold g; Z.to_euclidean_division_equations; lia).
    unfold group_bytes in Hs. rewrite Hb in Hs. apply (inj Some) in Hs. unfold payment_at, mint_at. rewrite <- Hs.
    rewrite from_bytes_of by (by eapply Forall_lookup_1). done.
  - apply lookup_ge_None_1 in Hm. unfold total_mints, len. by rewrite lookup_seqZ_ge by lia.
Qed.

(** ** After [Reinit] *)

Lemma zero_slot d a :
  0 <= a -> a + 32 <= len d -> (forall (i : nat) x, a <= Z.of_nat i < a + 32 -> d !! i = Some x -> x = 0) ->
  slice a (a + 32) d = Some (zeros 32).
Proof.
  intros Ha Hl Hz. destruct (slice_is_Some a (a + 32) d) as [x Hx]; [lia..|]. rewrite Hx. f_equal.
  pose proof (slice_len _ _ _ _ Hx). apply list_eq. intros i. destruct (decide (i < 32)%nat) as [Hi|Hi].
  - destruct (x !! i) as [y|] eqn:Ey; [|apply lookup_ge_None_1 in Ey; unfold len in *; lia].
    rewrite (slice_lookup _ _ _ _ _ Hx) in Ey by lia. apply Hz in Ey as ->; [|lia].
    symmetry. by apply lookup_replicate.
  - rewrite !lookup_ge_None_2; [done|rewrite length_zeros; lia|unfold len in *; lia].
Qed.

Context `{!RuntimeLaws}.

Lemma realloc_account_owner w target funding sys size refund w' k :
  realloc_account w target funding sys size refund = Ok w' -> owner_at w' k = owner_at w k.
Proof.
  intros Hr. unfold realloc_account in Hr. cbv zeta in Hr. peel Hr as E0. apply realloc_resizes in Hr as ->.
  rewrite owner_at_set_data. branch E0 as F0; [|branch E0 as F1].
  - by apply (transfer_keeps_data _ _ _ _ _ _ _ E0).
  - unfold transfer_lamports_from_pdas in E0. peel E0 as F2. destruct (checked_sub _ _); [|discriminate E0].
    destruct (checked_add _ _ _); [|discriminate E0]. injection E0 as <-. by rewrite !owner_at_set_lamports.
  - by injection E0 as <-.
Qed.

Lemma reinit_owner accounts contract rest w w' :
  process_reinit pid accounts contract rest w = Ok w' -> owner_at w' (key contract) = pid.
Proof.
  intros Hr. unfold process_reinit in Hr. peel Hr as E0. peel Hr as E1. peel Hr as E2. peel Hr as E3. peel Hr as E4.
  peel Hr as E5. cbv zeta in Hr. peel Hr as E6. peel Hr as E7. peel Hr as E8. peel Hr as E9. peel Hr as E10.
  injection Hr as <-. rewrite owner_at_set_data. apply update_header_inv in E8 as (h & h' & d & _ & _ & _ & ->).
  rewrite owner_at_set_data. reflect_guards. branch E6 as F; [|by injection E6 as <-].
  by rewrite (realloc_account_owner _ _ _ _ _ _ _ _ E6).
Qed.

Lemma reinit_filling w w1 h1 :
  Forall is_byte (data_at w account) ->
  deliver process_instruction (pending_mint_reinit pid account payer n) w = Ok w1 ->
  get_header (data_at w1 account) = Some h1 -> authorized_writer_public_key h1 = payer ->
  len (data_at w1 account) = mint_buffer_size b ->
  fresh_header h1 /\ pod_wf h1 /\ filling h1 w1 [].
Proof.
  intros Hb Hr Hh1 Hwr Hl. pose proof groups_bounds. pose proof buffer_size_eq as Hbs.
  cbn [deliver pending_mint_reinit process_instruction fmap list_fmap] in Hr. unfold nth_account in Hr.
  cbn [lookup list_lookup ok_or res_bind] in Hr. pose proof (reinit_owner _ _ _ _ _ Hr) as Ho.
  apply process_reinit_memory in Hr as (h & h' & Hf & Hwf & _ & Hget & Hb' & _ & d & Hld & Hclr);
    [|done|apply le_bytes_bytes].
  cbn [key account_info meta_key meta_new] in *. rewrite Hget in Hh1. injection Hh1 as ->.
  rewrite le_val_bytes in Hf by (unfold in_width; lia).
  destruct (reinit_header_wf h h1 n Hwf ltac:(unfold in_width; lia) Hf) as (Hwf1 & Hlk & Hi & Hcnt & HG0).
  assert (pending_mint_groups_count h1 = G) as HG.
  { unfold reinit in Hf. peel Hf as F. injection Hf as <-. cbn [pending_mint_groups_count].
    unfold MAX_PENDING_MINTS_PER_GROUP, wrap. rewrite Zminus_mod_idemp_l.
    rewrite (Z.mod_small (n + 24 - 1)) by lia. f_equal. lia. }
  split; [by split_and!|]. split; [done|]. split; [done|]. split; [done|]. split; [done|]. split.
  - rewrite Hget. f_equal. unfold add_initialized. rewrite Hi. destruct h1. simpl in Hi. by rewrite Hi.
  - intros g Hg. rewrite decide_False by apply not_elem_of_nil.
    destruct (reinit_clears_spec _ _ _ HG0 Hclr) as (_ & _ & Hz). rewrite HG in Hz. unfold slot_start.
    apply zero_slot; [lia|lia|]. intros i x Hi'. apply Hz. lia.
Qed.

(** The client's insertions, in the order [gs]. *)
Definition client_inserts (gs : list Z) : option (list Instruction) :=
  mapM (fun g => group ← serialize_group b g; Some (pending_mint_insert pid account payer g group)) gs.

Lemma client_inserts_ok gs : Forall (fun g => 0 <= g < G) gs -> client_inserts gs = Some (insert_group <$> gs).
Proof.
  intros Hgs. unfold client_inserts. apply mapM_Some. induction Hgs as [|g gs Hg Hgs IH]; [constructor|].
  rewrite fmap_cons. constructor; [|exact IH]. by rewrite serialize_group_ok.
Qed.

(** The locked buffer pays the client's mints. *)
Definition mints_accepted (signer : AccountInfo) (w : World) : Prop :=
  exists w', process_instruction pid [storage_info; signer] [4] w = Ok w' /\
    ensure_pending_mints_ready_for_transition_inner (key signer) (sha256 commitment_preimage) (data_at w' account)
      = Ok (sha256 commitment_preimage, n) /\
    all_payments (data_at w' account) G n = payment <$> mints b.

(** A full buffer is accepted. *)
Lemma full_buffer_accepted h1 w inserted signer :
  fresh_header h1 -> pod_wf h1 -> filling h1 w inserted -> inserted ≡ₚ seqZ 0 G ->
  is_signer signer = true -> authorized_locker_public_key h1 = key signer -> mints_accepted signer w.
Proof.
  intros Hf Hwf Hfill Hp Hs Hlk.
  destruct (lock_full _ _ _ signer Hf Hwf Hfill Hp Hs Hlk) as (d & h & Hlock & Hget & _ & Hlk' & Hn' & HG & Hbody & Hbd).
  destruct Hfill as [_ Hm]. pose proof (filling_all _ _ _ Hm Hp) as Hall.
  pose proof groups_bounds. destruct Hm as (_ & Hlen & _).
  exists (set_data w account d). split; [done|]. rewrite data_at_set_data. split.
  - rewrite <- Hlk'. apply bridge_accepts; [done..|destruct Hbody; lia|]. intros g Hg.
    rewrite (same_body_slice _ _ _ _ Hbody) by (unfold slot_start; lia). by apply Hall.
  - apply full_payments. intros g Hg. rewrite (same_body_slice _ _ _ _ Hbody) by (unfold area_start; lia). by apply Hall.
Qed.

(** What the client uploads is what the bridge pays.  Once the client has
    re-initialised its mint buffer for its (1 to 65512) mints and the account has the
    full size, the insertions of its groups succeed in any order, the buffer can then
    be locked by its locker, the bridge accepts the locked buffer for the hash of the
    mint count and the group hashes, and the payments it reads from the buffer are
    the client's mints, in order. *)
Theorem mint_upload_accepted w w1 h1 gs signer :
  Forall is_byte (data_at w account) ->
  deliver process_instruction (pending_mint_reinit pid account payer n) w = Ok w1 ->
  get_header (data_at w1 account) = Some h1 -> authorized_writer_public_key h1 = payer ->
  len (data_at w1 account) = mint_buffer_size b -> gs ≡ₚ seqZ 0 G ->
  is_signer signer = true -> authorized_locker_public_key h1 = key signer ->
  exists inserts w2, client_inserts gs = Some inserts /\ deliver_all process_instruction inserts w1 = Ok w2 /\
    mints_accepted signer w2.
Proof.
  intros Hb Hr Hh1 Hwr Hl Hp Hs Hlk. destruct (reinit_filling _ _ _ Hb Hr Hh1 Hwr Hl) as (Hf & Hwf & Hfill).
  assert (Forall (fun g => 0 <= g < G) gs) as Hgs.
  { rewrite Hp. apply list.Forall_forall. intros g Hg%elem_of_seqZ. lia. }
  destruct (insert_groups_ok h1 w1 [] gs Hf Hwf Hfill) as (w2 & Hd & Hfill2); [|done|].
  { rewrite app_nil_r, Hp. apply NoDup_seqZ. }
  exists (insert_group <$> gs), w2. split; [by apply client_inserts_ok|]. split; [done|].
  apply (full_buffer_accepted h1 w2 (reverse gs ++ [])); [done..| |done|done]. by rewrite app_nil_r, reverse_Permutation.
Qed.
End upload.
