(* ===== verification/BridgeInstructions.v ===== *)
(** * BridgeInstructions: what the instructions of the bridge and of the claim program carry

    Models the data declarations and readers of
    [psy-doge-solana-core/src/instructions/doge_bridge.rs] and [manual_claim.rs], of
    [programs/doge-bridge/src/instruction.rs], and the program addresses and build
    features that the programs are compiled with.

    An instruction is eight bytes, the first of them the discriminator, followed by a
    [bytemuck] struct.  The runtime hands out instruction data and account memory
    8-byte aligned, so of the two conditions of [from_bytes] only the length matters. *)
From S2P Require Import Prelude Errors Pod Hash AppendTree Types MintGroup ProgramState Runtime.
From Stdlib Require Import ZArith Lia.
From stdpp Require Import base decidable list numbers option.

Open Scope Z_scope.
Open Scope bridge_scope.

(** ** Addresses and features

    [Pubkey::from_str_const] decodes the addresses of the companion programs from
    base58 strings at compile time; the model takes the decoded addresses. *)
Class ProgramIds := {
  DOGE_BRIDGE_PROGRAM_ID : Pubkey;
  MANUAL_CLAIM_PROGRAM_ID : Pubkey;
  TXO_BUFFER_BUILDER_PROGRAM_ID : Pubkey;
  GENERIC_BUFFER_BUILDER_PROGRAM_ID : Pubkey;
  PENDING_MINT_BUFFER_BUILDER_PROGRAM_ID : Pubkey;
  TOKEN_PROGRAM_ID : Pubkey
}.

(** Cargo features: [mock-zkp] chooses the verifier keys, [wormhole] and [noopshim]
    each add a call of the message program. *)
Class Features := {
  mock_zkp : bool;
  wormhole : bool;
  noopshim : bool
}.

(** ** instructions/doge_bridge.rs *)

Definition DOGE_BRIDGE_INSTRUCTION_INITIALIZE : Z := 0.
Definition DOGE_BRIDGE_INSTRUCTION_BLOCK_UPDATE : Z := 1.
Definition DOGE_BRIDGE_INSTRUCTION_REQUEST_WITHDRAWAL : Z := 2.
Definition DOGE_BRIDGE_INSTRUCTION_PROCESS_WITHDRAWAL : Z := 3.
Definition DOGE_BRIDGE_INSTRUCTION_OPERATOR_WITHDRAW_FEES : Z := 4.
Definition DOGE_BRIDGE_INSTRUCTION_PROCESS_MANUAL_DEPOSIT : Z := 5.
Definition DOGE_BRIDGE_INSTRUCTION_REPLAY_WITHDRAWAL : Z := 6.
Definition DOGE_BRIDGE_INSTRUCTION_PROCESS_MINT_GROUP : Z := 7.
Definition DOGE_BRIDGE_INSTRUCTION_PROCESS_REORG_BLOCKS : Z := 8.
Definition DOGE_BRIDGE_INSTRUCTION_PROCESS_MINT_GROUP_AUTO_ADVANCE : Z := 9.
Definition DOGE_BRIDGE_INSTRUCTION_SNAPSHOT_WITHDRAWALS : Z := 10.

Record InitializeBridgeParams := {
  ip_bridge_header : PsyBridgeHeader;
  ip_start_return_txo_output : PsyReturnTxOutput;
  ip_config_params : PsyBridgeConfig;
  ip_custodian_wallet_config_hash : QHash256
}.

#[export] Instance InitializeBridgeParams_eq_dec : EqDecision InitializeBridgeParams.
Proof. solve_decision. Defined.

#[export] Instance InitializeBridgeParams_pod : Pod InitializeBridgeParams.
Proof.
  refine (pod_iso (PsyBridgeHeader_pod ** PsyReturnTxOutput_pod ** PsyBridgeConfig_pod **
      pod_array 32)
    (fun '(x0, (x1, (x2, x3))) =>
      {| ip_bridge_header := x0;
         ip_start_return_txo_output := x1;
         ip_config_params := x2;
         ip_custodian_wallet_config_hash := x3 |})
    (fun r => (ip_bridge_header r, (ip_start_return_txo_output r, (ip_config_params r,
      ip_custodian_wallet_config_hash r)))) _ _);
    pod_iso_tac.
Defined.

Record BlockUpdateFixedData := {
  bu_proof : bytes;
  bu_header : PsyBridgeHeader
}.

#[export] Instance BlockUpdateFixedData_eq_dec : EqDecision BlockUpdateFixedData.
Proof. solve_decision. Defined.

#[export] Instance BlockUpdateFixedData_pod : Pod BlockUpdateFixedData.
Proof.
  refine (pod_iso (pod_array 256 ** PsyBridgeHeader_pod)
    (fun '(x0, x1) =>
      {| bu_proof := x0;
         bu_header := x1 |})
    (fun r => (bu_proof r, bu_header r)) _ _);
    pod_iso_tac.
Defined.

Record RequestWithdrawalInstructionData := {
  rw_request : PsyWithdrawalRequest
}.

#[export] Instance RequestWithdrawalInstructionData_eq_dec : EqDecision RequestWithdrawalInstructionData.
Proof. solve_decision. Defined.

#[export] Instance RequestWithdrawalInstructionData_pod : Pod RequestWithdrawalInstructionData.
Proof.
  refine (pod_iso (PsyWithdrawalRequest_pod)
    (fun x0 =>
      {| rw_request := x0 |})
    (fun r => rw_request r) _ _);
    pod_iso_tac.
Defined.

Record ProcessWithdrawalInstructionData := {
  pw_proof : bytes;
  pw_new_return_output : PsyReturnTxOutput;
  pw_new_spent_txo_tree_root : QHash256;
  pw_new_next_processed_withdrawals_index : Z
}.

#[export] Instance ProcessWithdrawalInstructionData_eq_dec : EqDecision ProcessWithdrawalInstructionData.
Proof. solve_decision. Defined.

#[export] Instance ProcessWithdrawalInstructionData_pod : Pod ProcessWithdrawalInstructionData.
Proof.
  refine (pod_iso (pod_array 256 ** PsyReturnTxOutput_pod ** pod_array 32 ** pod_uint 8)
    (fun '(x0, (x1, (x2, x3))) =>
      {| pw_proof := x0;
         pw_new_return_output := x1;
         pw_new_spent_txo_tree_root := x2;
         pw_new_next_processed_withdrawals_index := x3 |})
    (fun r => (pw_proof r, (pw_new_return_output r, (pw_new_spent_txo_tree_root r,
      pw_new_next_processed_withdrawals_index r)))) _ _);
    pod_iso_tac.
Defined.

Record ProcessManualDepositInstructionData := {
  md_tx_hash : QHash256;
  md_recent_block_merkle_tree_root : QHash256;
  md_recent_auto_claim_txo_root : QHash256;
  md_combined_txo_index : Z;
  md_depositor_solana_public_key : bytes;
  md_deposit_amount_sats : Z
}.

#[export] Instance ProcessManualDepositInstructionData_eq_dec : EqDecision ProcessManualDepositInstructionData.
Proof. solve_decision. Defined.

#[export] Instance ProcessManualDepositInstructionData_pod : Pod ProcessManualDepositInstructionData.
Proof.
  refine (pod_iso (pod_array 32 ** pod_array 32 ** pod_array 32 ** pod_uint 8 ** pod_array 32 **
      pod_uint 8)
    (fun '(x0, (x1, (x2, (x3, (x4, x5))))) =>
      {| md_tx_hash := x0;
         md_recent_block_merkle_tree_root := x1;
         md_recent_auto_claim_txo_root := x2;
         md_combined_txo_index := x3;
         md_depositor_solana_public_key := x4;
         md_deposit_amount_sats := x5 |})
    (fun r => (md_tx_hash r, (md_recent_block_merkle_tree_root r, (md_recent_auto_claim_txo_root
      r, (md_combined_txo_index r, (md_depositor_solana_public_key r, md_deposit_amount_sats
      r)))))) _ _);
    pod_iso_tac.
Defined.

(** Followed by the records of the extra finalized blocks. *)
Record ProcessReorgBlocksFixedData := {
  pr_proof : bytes;
  pr_header : PsyBridgeHeader
}.

#[export] Instance ProcessReorgBlocksFixedData_eq_dec : EqDecision ProcessReorgBlocksFixedData.
Proof. solve_decision. Defined.

#[export] Instance ProcessReorgBlocksFixedData_pod : Pod ProcessReorgBlocksFixedData.
Proof.
  refine (pod_iso (pod_array 256 ** PsyBridgeHeader_pod)
    (fun '(x0, x1) =>
      {| pr_proof := x0;
         pr_header := x1 |})
    (fun r => (pr_proof r, pr_header r)) _ _);
    pod_iso_tac.
Defined.

(** The proof of a replayed withdrawal, as it lies in a buffer account. *)
#[export] Instance FixedMerkleAppendTreePartialMerkleProof_pod : Pod FixedMerkleAppendTreePartialMerkleProof.
Proof.
  refine (pod_iso (pod_uint 8 ** pod_array 32 ** pod_list 32 (pod_array 32))
    (fun '(x0, (x1, x2)) => {| fpp_index := x0; fpp_value := x1; fpp_siblings := x2 |})
    (fun r => (fpp_index r, (fpp_value r, fpp_siblings r))) _ _);
    pod_iso_tac.
Defined.

(** The sizes of the structs, in bytes. *)
Lemma instruction_sizes :
  pod_size BlockUpdateFixedData = 576%nat /\ pod_size RequestWithdrawalInstructionData = 32%nat /\
  pod_size ProcessWithdrawalInstructionData = 344%nat /\
  pod_size ProcessManualDepositInstructionData = 144%nat /\
  pod_size FixedMerkleAppendTreePartialMerkleProof = 1064%nat.
Proof. done. Qed.

(** *** Readers of the block update data

    [for i in 0..items]: the records after the fixed part, one by one. *)
Fixpoint read_extra_blocks (bs : bytes) (fixed_size item_size i : Z) (todo : nat)
    : res ProgramError (list FinalizedBlockMintTxoInfo) :=
  match todo with
  | O => Ok []
  | S todo =>
      let start := fixed_size + i * item_size in
      try item_bytes <- or_panic (slice start (start + item_size) bs);
      try item <- or_panic (cast (A := FinalizedBlockMintTxoInfo) item_bytes);
      try rest <- read_extra_blocks bs fixed_size item_size (i + 1) todo;
      Ok (item :: rest)
  end.

Definition FINALIZED_BLOCK_INFO_SIZE : Z := Z.of_nat (pod_size FinalizedBlockMintTxoInfo).

(** The number of whole records after the fixed part; a rest is ignored. *)
Definition extra_block_count (bs : bytes) (fixed_size : Z) : Z :=
  let remaining_len := len bs - fixed_size in
  if 0 <? remaining_len then remaining_len / FINALIZED_BLOCK_INFO_SIZE else 0.

Record BlockUpdateReader := {
  bur_proof : bytes;
  bur_header : PsyBridgeHeader;
  bur_extra_finalized_blocks : list FinalizedBlockMintTxoInfo
}.

(** [Ok None] is the reader's [None]: the data is too short.  Slices have the length
    of their range, so the check of [item_bytes.len()] never fires. *)
Definition BlockUpdateReader_new (bs : bytes) : res ProgramError (option BlockUpdateReader) :=
  let fixed_size := Z.of_nat (pod_size BlockUpdateFixedData) in
  if len bs <? fixed_size then Ok None else
  try fixed_bytes <- or_panic (slice 0 fixed_size bs);
  try fixed <- or_panic (cast (A := BlockUpdateFixedData) fixed_bytes);
  try extra_blocks <- read_extra_blocks bs fixed_size FINALIZED_BLOCK_INFO_SIZE 0
                        (Z.to_nat (extra_block_count bs fixed_size));
  Ok (Some {| bur_proof := bu_proof fixed; bur_header := bu_header fixed;
              bur_extra_finalized_blocks := extra_blocks |}).

(** *** programs/doge-bridge/src/instruction.rs *)

Record ReorgBlockUpdateReader := {
  rbr_proof : bytes;
  rbr_header : PsyBridgeHeader;
  rbr_extra_finalized_blocks : list FinalizedBlockMintTxoInfo
}.

Definition ReorgBlockUpdateReader_new (bs : bytes) : res ProgramError (option ReorgBlockUpdateReader) :=
  let fixed_size := Z.of_nat (pod_size ProcessReorgBlocksFixedData) in
  if len bs <? fixed_size then Ok None else
  try fixed_bytes <- or_panic (slice 0 fixed_size bs);
  try fixed <- or_panic (cast (A := ProcessReorgBlocksFixedData) fixed_bytes);
  try extra_blocks <- read_extra_blocks bs fixed_size FINALIZED_BLOCK_INFO_SIZE 0
                        (Z.to_nat (extra_block_count bs fixed_size));
  Ok (Some {| rbr_proof := pr_proof fixed; rbr_header := pr_header fixed;
              rbr_extra_finalized_blocks := extra_blocks |}).

(** ** instructions/manual_claim.rs *)

Definition MC_MANUAL_CLAIM_TRANSACTION_DESCRIMINATOR : Z := 0.

Record ManualClaimInstruction := {
  mc_proof : bytes;
  mc_recent_block_merkle_tree_root : QHash256;
  mc_recent_auto_claim_txo_root : QHash256;
  mc_new_manual_claim_txo_root : QHash256;
  mc_tx_hash : QHash256;
  mc_combined_txo_index : Z;
  mc_deposit_amount_sats : Z
}.

#[export] Instance ManualClaimInstruction_eq_dec : EqDecision ManualClaimInstruction.
Proof. solve_decision. Defined.

#[export] Instance ManualClaimInstruction_pod : Pod ManualClaimInstruction.
Proof.
  refine (pod_iso (pod_array 256 ** pod_array 32 ** pod_array 32 ** pod_array 32 ** pod_array 32
      ** pod_uint 8 ** pod_uint 8)
    (fun '(x0, (x1, (x2, (x3, (x4, (x5, x6)))))) =>
      {| mc_proof := x0;
         mc_recent_block_merkle_tree_root := x1;
         mc_recent_auto_claim_txo_root := x2;
         mc_new_manual_claim_txo_root := x3;
         mc_tx_hash := x4;
         mc_combined_txo_index := x5;
         mc_deposit_amount_sats := x6 |})
    (fun r => (mc_proof r, (mc_recent_block_merkle_tree_root r, (mc_recent_auto_claim_txo_root r,
      (mc_new_manual_claim_txo_root r, (mc_tx_hash r, (mc_combined_txo_index r,
      mc_deposit_amount_sats r))))))) _ _);
    pod_iso_tac.
Defined.

