(* ===== verification/DogeBridge.v ===== *)
(** * DogeBridge: the bridge program

    Models [programs/doge-bridge/src/processor.rs] with its call helpers
    ([cpi_impl.rs]): every instruction from its raw data and accounts to the new store.
    The bridge account holds a [BridgeProgramStateWithDogeMint]; a handler reads it,
    runs one operation of the state, writes it back and calls the token program, the
    mint buffer program or the message program.

    Account memory is mutated in place, so a handler writes the new state to the store
    before the calls that follow; when it fails, the runtime rolls everything back.
    [RefCell] borrows matter where one account is passed twice: a second borrow, or
    a call with an account that is still borrowed, is [AccountBorrowFailed]. *)
From S2P Require Import Prelude Errors Pod Hash Sha256 AppendTree Types PublicInputs Runtime MintBuffer TxoBuffer MintGroup ProgramState BlockUpdate BridgeInstructions.
From Stdlib Require Import ZArith Lia.
From stdpp Require Import base decidable list numbers option countable gmap.

Open Scope Z_scope.
Open Scope bridge_scope.

Module DogeBridge.

Abbreviation BridgeState := BridgeProgramStateWithDogeMint.

Definition bridge_state_seed : bytes := [98; 114; 105; 100; 103; 101; 95; 115; 116; 97; 116; 101].
Definition manual_claim_seed : bytes := [109; 97; 110; 117; 97; 108; 45; 99; 108; 97; 105; 109].

(** [?] on a [QDogeResult] in a function that returns a [ProgramResult]. *)
Definition doge_err {A} (r : res DogeBridgeError A) : res ProgramError A := map_err doge_to_program_error r.

(** A call of an operation of [core_state], followed by [?]: the result and the
    bridge state that it leaves. *)
Definition on_core {A} (bs : BridgeState) (c : res DogeBridgeError A * PsyBridgeProgramState)
    : res ProgramError (A * BridgeState) :=
  match c with
  | (Ok a, s) => Ok (a, {| core_state := s; doge_mint := doge_mint bs |})
  | (Err e, _) => Err (doge_to_program_error e)
  | (Panic, _) => Panic
  end.

(** [bytemuck::try_from_bytes_mut::<BridgeState>], and the writes through it. *)
Definition load_bridge_state (w : World) (k : Pubkey) : res ProgramError BridgeState :=
  ok_or (cast (data_at w k)) (BridgeError.to_program_error BridgeError.SerializationError).
Definition store_bridge_state (w : World) (k : Pubkey) (bs : BridgeState) : World :=
  set_data w k (bytes_of bs).

Definition key_eqb (a b : Pubkey) : bool := bool_decide (a = b).

Section program.
Context `{Sha256} `{ZkVerifier} `{Runtime} `{ProgramIds} `{Features}.

(** ** cpi_impl.rs *)

Definition verify_pda (base_seed provided_account program_id user_key : bytes) (bump : Z)
    : res ProgramError unit :=
  try expected_pda <- ok_or (create_program_address [base_seed; user_key; [bump]] program_id) InvalidSeeds;
  bail InvalidSeeds if negb (key_eqb provided_account expected_pda);
  Ok tt.

Definition verify_lowest_pda (base_seed provided_account program_id user_key : bytes)
    : res ProgramError unit :=
  let '(lowest_pda, _) := find_program_address [base_seed; user_key] program_id in
  bail InvalidSeeds if negb (key_eqb provided_account lowest_pda);
  Ok tt.

Record SolanaMinter := {
  minter_mint : AccountInfo;
  minter_authority_info : AccountInfo;
  minter_authority_seeds : list bytes;
  minter_recipient_map : list AccountInfo;
  minter_token_program : AccountInfo
}.

(** [held] are the accounts whose data the caller has borrowed. *)
Definition mint_to (self : SolanaMinter) (held : list Pubkey) (index_in_mint_group : Z)
    (account : bytes) (amount : Z) (w : World) : res DogeBridgeError World :=
  bail AccountMismatch if len (minter_recipient_map self) <=? index_in_mint_group;
  try recipient_info <- or_panic (index (minter_recipient_map self) index_in_mint_group);
  bail AccountMismatch if negb (key_eqb (key recipient_info) account);
  let ix := TokenMintTo (key (minter_mint self)) (key recipient_info) (key (minter_authority_info self)) amount in
  match invoke_signed_holding [] held w ix
          [minter_mint self; recipient_info; minter_authority_info self; minter_token_program self]
          [minter_authority_seeds self] with
  | Ok w' => Ok w'
  | Err _ => Err CpiTokenMintToCallError
  | Panic => Panic
  end.

Record SolanaBurner := {
  burner_mint : AccountInfo;
  burner_user_token_account : AccountInfo;
  burner_authority : AccountInfo;
  burner_token_program : AccountInfo
}.

(** [held_mut]: the bridge account, whose data is mutably borrowed meanwhile. *)
Definition burn_from (self : SolanaBurner) (held_mut : list Pubkey) (amount : Z) (w : World)
    : res DogeBridgeError World :=
  let ix := TokenBurn (key (burner_user_token_account self)) (key (burner_mint self))
              (key (burner_authority self)) amount in
  map_err (fun _ => CpiTokenBurnCallError)
    (invoke_signed_holding held_mut [] w ix
       [burner_user_token_account self; burner_mint self; burner_authority self; burner_token_program self] []).

Record SolanaMintBufferLocker := {
  locker_buffer_program_key : Pubkey;
  locker_is_valid_pda : bool;
  locker_buffer_account : AccountInfo;
  locker_buffer_program_account : AccountInfo;
  locker_authority_info : AccountInfo;
  locker_authority_seeds : list bytes
}.

Definition get_mint_buffer_program_address (self : SolanaMintBufferLocker) : bytes :=
  key (locker_buffer_account self).

(** The instruction of the mint buffer program with tag [tag]: the buffer, and the
    bridge account as the signing authority. *)
Definition buffer_instruction (self : SolanaMintBufferLocker) (tag : Z) : Instruction :=
  RawInstruction (locker_buffer_program_key self)
    [{| meta_key := key (locker_buffer_account self); meta_is_signer := false; meta_is_writable := true |};
     {| meta_key := key (locker_authority_info self); meta_is_signer := true; meta_is_writable := false |}]
    [tag].

Definition lock_buffer (self : SolanaMintBufferLocker) (w : World) : res DogeBridgeError World :=
  map_err (fun _ => CpiLockCallError)
    (invoke_signed w (buffer_instruction self 4)
       [locker_buffer_program_account self; locker_buffer_account self; locker_authority_info self]
       [locker_authority_seeds self]).

Definition unlock_buffer (self : SolanaMintBufferLocker) (w : World) : res DogeBridgeError World :=
  map_err (fun _ => CpiUnlockCallError)
    (invoke_signed w (buffer_instruction self 5)
       [locker_buffer_program_account self; locker_buffer_account self; locker_authority_info self]
       [locker_authority_seeds self]).

(** ** processor.rs *)

Definition SINGLE_BLOCK_UPDATE_VK : bytes :=
  if mock_zkp then [
    224; 71; 200; 255; 235; 105; 228; 248; 83; 103; 107; 62; 251; 29; 89; 254; 141; 66; 191; 70;
    35; 77; 2; 119; 194; 250; 202; 121; 98; 143; 174; 36] else zeros 32.
Definition BLOCK_REORG_VK : bytes :=
  if mock_zkp then [
    228; 86; 252; 55; 160; 173; 2; 14; 26; 224; 246; 209; 47; 74; 197; 29; 210; 177; 146; 100; 219;
    86; 83; 85; 50; 6; 37; 144; 62; 51; 225; 225] else zeros 32.
Definition WITHDRAWAL_VK : bytes :=
  if mock_zkp then [
    8; 226; 175; 15; 239; 184; 85; 227; 153; 188; 3; 12; 129; 135; 7; 228; 244; 252; 32; 220; 134;
    243; 114; 51; 151; 15; 18; 170; 135; 135; 20; 16] else zeros 32.

Abbreviation bridge_err e := (BridgeError.to_program_error e).

(** [&[b"bridge_state", &[bump]]], with the bump that [find_program_address] finds. *)
Definition bridge_seeds (program_id : Pubkey) : list bytes :=
  [bridge_state_seed; [(find_program_address [bridge_state_seed] program_id).2]].
Definition bridge_pda (program_id : Pubkey) : Pubkey :=
  (find_program_address [bridge_state_seed] program_id).1.

Definition process_initialize (program_id : Pubkey) (accounts : list AccountInfo)
    (initialize_instruction : InitializeBridgeInstructionData) (w : World) : res ProgramError World :=
  try bridge_state_account <- nth_account accounts 0;
  try payer <- nth_account accounts 1;
  try system_program <- nth_account accounts 2;
  let '(pda, bump) := find_program_address [bridge_state_seed] program_id in
  bail bridge_err BridgeError.InvalidPDA if negb (key_eqb pda (key bridge_state_account));
  try w1 <- (if len (data_at w (key bridge_state_account)) =? 0 then
               let space := Z.of_nat (pod_size BridgeState) in
               invoke_signed w
                 (SystemCreateAccount (key payer) (key bridge_state_account) (minimum_balance space) space program_id)
                 [payer; bridge_state_account; system_program] [[bridge_state_seed; [bump]]]
             else Ok w);
  try bs <- load_bridge_state w1 (key bridge_state_account);
  Ok (store_bridge_state w1 (key bridge_state_account)
        {| core_state := initialize (core_state bs) initialize_instruction;
           doge_mint := init_doge_mint initialize_instruction |}).

(** [bridge_header.finalized_state.auto_claimed_deposits_next_index] *)
Definition deposits_index (bs : BridgeState) : Z :=
  sc_auto_claimed_deposits_next_index (finalized_state (bridge_header (core_state bs))).

Definition mint_buffer_locker (program_id : Pubkey)
    (buffer_account buffer_program_account authority_info : AccountInfo) : SolanaMintBufferLocker :=
  {| locker_buffer_program_key := PENDING_MINT_BUFFER_BUILDER_PROGRAM_ID;
     locker_is_valid_pda := true;
     locker_buffer_account := buffer_account;
     locker_buffer_program_account := buffer_program_account;
     locker_authority_info := authority_info;
     locker_authority_seeds := bridge_seeds program_id |}.

Definition run_block_update_common (program_id : Pubkey) (accounts : list AccountInfo) (proof : bytes)
    (new_header : PsyBridgeHeader) (extra_finalized_blocks : list FinalizedBlockMintTxoInfo)
    (auto_claim_mint_buffer_bump auto_claim_txo_buffer_bump : Z) (is_reorg : bool) (w : World)
    : res ProgramError World :=
  try bridge_state_account <- nth_account accounts 0;
  try auto_claim_mint_buffer <- nth_account accounts 1;
  try auto_claim_txo_buffer <- nth_account accounts 2;
  try operator <- nth_account accounts 3;
  try _ <- nth_account accounts 4;
  try mint_buffer_program_account <- nth_account accounts 5;
  try _ <- nth_account accounts 6;
  bail MissingRequiredSignature if negb (is_signer operator);
  try expected <- ok_or (create_program_address
      [MintBuffer.mint_buffer_seed; key operator; [auto_claim_mint_buffer_bump]]
      PENDING_MINT_BUFFER_BUILDER_PROGRAM_ID) InvalidSeeds;
  bail doge_to_program_error InvalidMintBufferPDA if negb (key_eqb (key auto_claim_mint_buffer) expected);
  try expected <- ok_or (create_program_address
      [TxoBuffer.txo_buffer_seed; key operator; [auto_claim_txo_buffer_bump]]
      TXO_BUFFER_BUILDER_PROGRAM_ID) InvalidSeeds;
  bail doge_to_program_error InvalidTxoBufferPDA if negb (key_eqb (key auto_claim_txo_buffer) expected);
  let locker := mint_buffer_locker program_id auto_claim_mint_buffer mint_buffer_program_account
                  bridge_state_account in
  bail doge_to_program_error InvalidMintBufferPdaProgram
    if negb (key_eqb (owner_at w (key auto_claim_mint_buffer)) PENDING_MINT_BUFFER_BUILDER_PROGRAM_ID);
  try w1 <- doge_err (lock_buffer locker w);
  try bs <- load_bridge_state w1 (key bridge_state_account);
  bail IllegalOwner
    if negb (key_eqb (owner_at w1 (key auto_claim_txo_buffer)) TXO_BUFFER_BUILDER_PROGRAM_ID);
  bail AccountBorrowFailed if key_eqb (key auto_claim_mint_buffer) (key bridge_state_account);
  bail AccountBorrowFailed if key_eqb (key auto_claim_txo_buffer) (key bridge_state_account);
  let mint_buffer_data := data_at w1 (key auto_claim_mint_buffer) in
  let txo_buffer_data := data_at w1 (key auto_claim_txo_buffer) in
  try r <- on_core bs
    (if is_reorg then
       run_block_transition_reorg (core_state bs) proof BLOCK_REORG_VK new_header extra_finalized_blocks
         (key bridge_state_account) (get_mint_buffer_program_address locker) txo_buffer_data mint_buffer_data
     else
       run_standard_single_block_transition (core_state bs) proof SINGLE_BLOCK_UPDATE_VK new_header
         (key bridge_state_account) (get_mint_buffer_program_address locker) txo_buffer_data mint_buffer_data);
  let w2 := store_bridge_state w1 (key bridge_state_account) r.2 in
  if deposits_index bs =? deposits_index r.2 then doge_err (unlock_buffer locker w2) else Ok w2.

(** A standard update expects no extra blocks. *)
Definition process_block_update (program_id : Pubkey) (accounts : list AccountInfo) (proof : bytes)
    (new_header : PsyBridgeHeader) (auto_claim_mint_buffer_bump auto_claim_txo_buffer_bump : Z) (w : World)
    : res ProgramError World :=
  run_block_update_common program_id accounts proof new_header [] auto_claim_mint_buffer_bump
    auto_claim_txo_buffer_bump false w.

Definition process_reorg_blocks (program_id : Pubkey) (accounts : list AccountInfo) (proof : bytes)
    (new_header : PsyBridgeHeader) (extra_finalized_blocks : list FinalizedBlockMintTxoInfo)
    (auto_claim_mint_buffer_bump auto_claim_txo_buffer_bump : Z) (w : World) : res ProgramError World :=
  run_block_update_common program_id accounts proof new_header extra_finalized_blocks
    auto_claim_mint_buffer_bump auto_claim_txo_buffer_bump true w.

(** [for p in 0..mints_count]: read a mint of the group from the borrowed buffer and
    mint it to the account that is passed for it. *)
Fixpoint mint_group_loop (minter : SolanaMinter) (held : list Pubkey) (buffer_data : bytes)
    (start_offset p : Z) (todo : nat) (w : World) : res ProgramError World :=
  match todo with
  | O => Ok w
  | S todo =>
      let offset := start_offset + p * PM_DA_PENDING_MINT_SIZE in
      try mint_bytes <- or_panic (slice offset (offset + PM_DA_PENDING_MINT_SIZE) buffer_data);
      try pending_mint <- or_panic (cast (A := PendingMint) mint_bytes);
      try w1 <- doge_err (mint_to minter held p (recipient pending_mint) (amount pending_mint) w);
      mint_group_loop minter held buffer_data start_offset (p + 1) todo w1
  end.

(** [if can_unlock != should_unlock { .. }] *)
Definition check_unlock (can_unlock should_unlock : bool) : res ProgramError unit :=
  if eqb can_unlock should_unlock then Ok tt
  else if should_unlock then Err (doge_to_program_error AttemptedUnlockPendingMintBuffer)
  else Err (doge_to_program_error FailedUnlockPendingMintBuffer).

Definition active_buffer (bs : BridgeState) : bytes :=
  last_finalized_auto_claim_mints_storage_account
    (current_pending_mints_tracker (pending_mint_txos (core_state bs))).

Definition process_process_mint_group (program_id : Pubkey) (accounts : list AccountInfo)
    (mint_group_index : Z) (should_unlock : bool) (w : World) : res ProgramError World :=
  try bridge_state_account <- nth_account accounts 0;
  try auto_claim_mint_buffer <- nth_account accounts 1;
  try operator <- nth_account accounts 2;
  try doge_mint_account <- nth_account accounts 3;
  try _ <- nth_account accounts 4;
  try mint_buffer_program_account <- nth_account accounts 5;
  try token_program <- nth_account accounts 6;
  bail MissingRequiredSignature if negb (is_signer operator);
  try bs <- load_bridge_state w (key bridge_state_account);
  bail doge_to_program_error InvalidAccountKey
    if negb (key_eqb (key auto_claim_mint_buffer) (active_buffer bs));
  bail bridge_err BridgeError.InvalidAccountInput if negb (key_eqb (key doge_mint_account) (doge_mint bs));
  bail MissingRequiredSignature
    if negb (key_eqb (key operator) (operator_pubkey (access_control (core_state bs))));
  try r <- on_core bs
    (run_auto_mint_group_precheck (core_state bs) mint_group_index (key auto_claim_mint_buffer));
  let '((can_unlock, mints_count, start_offset), bs1) := r in
  try _ <- check_unlock can_unlock should_unlock;
  let w1 := store_bridge_state w (key bridge_state_account) bs1 in
  let recipients_slice := drop 7 accounts in
  bail bridge_err BridgeError.InvalidAccountInput if negb (mints_count =? len recipients_slice);
  let minter := {| minter_mint := doge_mint_account; minter_authority_info := bridge_state_account;
                   minter_authority_seeds := bridge_seeds program_id;
                   minter_recipient_map := recipients_slice; minter_token_program := token_program |} in
  try w2 <- mint_group_loop minter [key auto_claim_mint_buffer] (data_at w1 (key auto_claim_mint_buffer))
              start_offset 0 (Z.to_nat mints_count) w1;
  if should_unlock then
    doge_err (unlock_buffer (mint_buffer_locker program_id auto_claim_mint_buffer mint_buffer_program_account
                               bridge_state_account) w2)
  else Ok w2.

Definition PM_MAX_PENDING_MINTS_PER_GROUP_U16 : Z := 24.

(** The just-in-time step: nothing is being paid out, but blocks are waiting. *)
Definition advance_with_jit (bs : BridgeState) : bool :=
  tracker_is_empty (current_pending_mints_tracker (pending_mint_txos (core_state bs)))
  && negb (manager_is_empty (pending_mint_txos (core_state bs))).

Definition process_process_mint_group_auto_advance (program_id : Pubkey) (accounts : list AccountInfo)
    (mint_group_index txo_buffer_pda_bump : Z) (should_unlock : bool) (w : World) : res ProgramError World :=
  try bridge_state_account <- nth_account accounts 0;
  try auto_claim_mint_buffer <- nth_account accounts 1;
  try auto_claim_txo_buffer <- nth_account accounts 2;
  try operator <- nth_account accounts 3;
  try doge_mint_account <- nth_account accounts 4;
  try _ <- nth_account accounts 5;
  try mint_buffer_program_account <- nth_account accounts 6;
  try _ <- nth_account accounts 7;
  try token_program <- nth_account accounts 8;
  bail MissingRequiredSignature if negb (is_signer operator);
  let locker := mint_buffer_locker program_id auto_claim_mint_buffer mint_buffer_program_account
                  bridge_state_account in
  try bs <- load_bridge_state w (key bridge_state_account);
  let jit := advance_with_jit bs in
  try bs1 <-
    (if jit then
       bail IllegalOwner
         if negb (key_eqb (owner_at w (key auto_claim_txo_buffer)) TXO_BUFFER_BUILDER_PROGRAM_ID);
       try expected_txo <- ok_or (create_program_address
           [TxoBuffer.txo_buffer_seed; key operator; [txo_buffer_pda_bump]]
           TXO_BUFFER_BUILDER_PROGRAM_ID) InvalidSeeds;
       bail doge_to_program_error InvalidTxoBufferPDA
         if negb (key_eqb (key auto_claim_txo_buffer) expected_txo);
       bail AccountBorrowFailed if key_eqb (key auto_claim_txo_buffer) (key bridge_state_account);
       bail AccountBorrowFailed if key_eqb (key auto_claim_mint_buffer) (key bridge_state_account);
       try r <- on_core bs (run_setup_next_pending_buffer (core_state bs) (key bridge_state_account)
           (get_mint_buffer_program_address locker) (data_at w (key auto_claim_txo_buffer))
           (data_at w (key auto_claim_mint_buffer)));
       Ok (snd r)
     else Ok bs);
  bail doge_to_program_error InvalidAccountKey
    if negb (key_eqb (key auto_claim_mint_buffer) (active_buffer bs1));
  try r <- on_core bs1
    (run_auto_mint_group_precheck (core_state bs1) mint_group_index (key auto_claim_mint_buffer));
  let '((can_unlock, mints_count, start_offset), bs2) := r in
  try _ <- check_unlock can_unlock should_unlock;
  let w1 := store_bridge_state w (key bridge_state_account) bs2 in
  let recipients_slice := drop 9 accounts in
  bail bridge_err BridgeError.InvalidAccountInput if negb (mints_count =? len recipients_slice);
  let minter := {| minter_mint := doge_mint_account; minter_authority_info := bridge_state_account;
                   minter_authority_seeds := bridge_seeds program_id;
                   minter_recipient_map := recipients_slice; minter_token_program := token_program |} in
  try w2 <- (if jit then doge_err (lock_buffer locker w1) else Ok w1);
  try w3 <- mint_group_loop minter [key auto_claim_mint_buffer] (data_at w2 (key auto_claim_mint_buffer))
              start_offset 0 (Z.to_nat mints_count) w2;
  if should_unlock then
    bail doge_to_program_error CannotUnlockAfterAutoAdvance
      if jit && (PM_MAX_PENDING_MINTS_PER_GROUP_U16 <? mints_count);
    doge_err (unlock_buffer locker w3)
  else Ok w3.

(** [request_withdrawal] of the state with a burner that acts on the store. *)
Definition request_withdrawal_in (self : PsyBridgeProgramState)
    (burner : bytes -> Z -> World -> res DogeBridgeError World) (requester : bytes)
    (request : PsyWithdrawalRequest) (w : World) : res DogeBridgeError World * PsyBridgeProgramState :=
  call (ok, self1) <- ProgramState.process_request_withdrawal self (wr_address_type request)
                        (wr_recipient_address request) (wr_amount_sats request) into (fun s => s);
  bail InvalidWithdrawalAmount if negb ok on self1;
  try w1 <- burner requester (wr_amount_sats request) w on self1;
  (Ok w1, self1).

Definition process_request_withdrawal (accounts : list AccountInfo) (request : PsyWithdrawalRequest)
    (w : World) : res ProgramError World :=
  try bridge_state_account <- nth_account accounts 0;
  try user_token_account <- nth_account accounts 1;
  try doge_mint_account <- nth_account accounts 2;
  try user_authority <- nth_account accounts 3;
  try token_program <- nth_account accounts 4;
  try bs <- load_bridge_state w (key bridge_state_account);
  let burner := {| burner_mint := doge_mint_account; burner_user_token_account := user_token_account;
                   burner_authority := user_authority; burner_token_program := token_program |} in
  try r <- on_core bs (request_withdrawal_in (core_state bs)
      (fun _ amount => burn_from burner [key bridge_state_account] amount) (key user_authority) request w);
  Ok (store_bridge_state r.1 (key bridge_state_account) r.2).

Definition WORMHOLE_VAA_DISCRIMINATOR : bytes := [214; 50; 100; 209; 38; 34; 7; 76].

(** The accounts of the message program, in the order of [send_wormhole_vaa]. *)
Record WormholeAccounts := {
  wh_shim_program : AccountInfo;
  wh_bridge_config : AccountInfo;
  wh_message : AccountInfo;
  wh_emitter : AccountInfo;
  wh_sequence : AccountInfo;
  wh_payer : AccountInfo;
  wh_fee_collector : AccountInfo;
  wh_clock : AccountInfo;
  wh_system_program : AccountInfo;
  wh_core_bridge_program : AccountInfo;
  wh_event_authority : AccountInfo
}.

(** The instruction that [send_wormhole_vaa] builds: discriminator, nonce,
    consistency level, and the payload with its length. *)
Definition vaa_instruction (withdrawal_nonce : Z) (a : WormholeAccounts) (sighash transaction_buffer : bytes)
    : Instruction :=
  let payload_len := len sighash + len transaction_buffer in
  let consistency_level := 1 in
  RawInstruction (key (wh_shim_program a))
    [{| meta_key := key (wh_bridge_config a); meta_is_signer := false; meta_is_writable := true |};
     {| meta_key := key (wh_message a); meta_is_signer := false; meta_is_writable := true |};
     {| meta_key := key (wh_emitter a); meta_is_signer := true; meta_is_writable := false |};
     {| meta_key := key (wh_sequence a); meta_is_signer := false; meta_is_writable := true |};
     {| meta_key := key (wh_payer a); meta_is_signer := true; meta_is_writable := true |};
     {| meta_key := key (wh_fee_collector a); meta_is_signer := false; meta_is_writable := true |};
     {| meta_key := key (wh_clock a); meta_is_signer := false; meta_is_writable := false |};
     {| meta_key := key (wh_system_program a); meta_is_signer := false; meta_is_writable := false |};
     {| meta_key := key (wh_core_bridge_program a); meta_is_signer := false; meta_is_writable := false |};
     {| meta_key := key (wh_event_authority a); meta_is_signer := false; meta_is_writable := false |}]
    (WORMHOLE_VAA_DISCRIMINATOR ++ le_bytes 4 withdrawal_nonce ++ [consistency_level]
     ++ le_bytes 4 (u32 payload_len) ++ sighash ++ transaction_buffer).

(** The call is compiled in once per feature. *)
Definition send_wormhole_vaa (withdrawal_nonce : Z) (a : WormholeAccounts) (held : list Pubkey)
    (emitter_seeds : list bytes) (sighash transaction_buffer : bytes) (w : World) : res ProgramError World :=
  let invoke w := invoke_signed_holding [] held w (vaa_instruction withdrawal_nonce a sighash transaction_buffer)
    [wh_bridge_config a; wh_message a; wh_emitter a; wh_sequence a; wh_payer a; wh_fee_collector a;
     wh_clock a; wh_system_program a; wh_core_bridge_program a; wh_event_authority a] [emitter_seeds] in
  try w1 <- (if wormhole then invoke w else Ok w);
  (if noopshim then invoke w1 else Ok w1).

(** The twelve accounts of the two withdrawal instructions. *)
Definition withdrawal_accounts (accounts : list AccountInfo)
    : res ProgramError (AccountInfo * AccountInfo * WormholeAccounts) :=
  try bridge_state_account <- nth_account accounts 0;
  try doge_tx_buffer <- nth_account accounts 1;
  try shim_program_id <- nth_account accounts 2;
  try bridge_config <- nth_account accounts 3;
  try message <- nth_account accounts 4;
  try sequence <- nth_account accounts 5;
  try payer <- nth_account accounts 6;
  try fee_collector <- nth_account accounts 7;
  try clock <- nth_account accounts 8;
  try system_program <- nth_account accounts 9;
  try core_bridge_program <- nth_account accounts 10;
  try event_authority <- nth_account accounts 11;
  Ok (bridge_state_account, doge_tx_buffer,
      {| wh_shim_program := shim_program_id; wh_bridge_config := bridge_config; wh_message := message;
         wh_emitter := bridge_state_account; wh_sequence := sequence; wh_payer := payer;
         wh_fee_collector := fee_collector; wh_clock := clock; wh_system_program := system_program;
         wh_core_bridge_program := core_bridge_program; wh_event_authority := event_authority |}).

(** [(index & 0xFFFFFFFF) as u32] *)
Definition withdrawal_nonce (bs : BridgeState) : Z :=
  Z.land (next_processed_withdrawals_index (core_state bs)) 0xFFFFFFFF.

Definition process_process_withdrawal (program_id : Pubkey) (accounts : list AccountInfo) (proof : bytes)
    (new_return_output : PsyReturnTxOutput) (new_spent_txo_tree_root : QHash256)
    (new_next_processed_withdrawals_index : Z) (w : World) : res ProgramError World :=
  try a <- withdrawal_accounts accounts;
  let '(bridge_state_account, doge_tx_buffer, wh) := a in
  bail bridge_err BridgeError.InvalidPDA if negb (key_eqb (key bridge_state_account) (bridge_pda program_id));
  bail IllegalOwner if negb (key_eqb (owner_at w (key doge_tx_buffer)) GENERIC_BUFFER_BUILDER_PROGRAM_ID);
  bail bridge_err BridgeError.InvalidPDA if negb (key_eqb (bridge_pda program_id) (key bridge_state_account));
  try bs <- load_bridge_state w (key bridge_state_account);
  bail AccountBorrowFailed if key_eqb (key doge_tx_buffer) (key bridge_state_account);
  let dogecoin_tx := data_at w (key doge_tx_buffer) in
  bail bridge_err BridgeError.InvalidAccountInput if len dogecoin_tx <? 32;
  try tx_data <- or_panic (slice 32 (len dogecoin_tx) dogecoin_tx);
  try r <- on_core bs (run_process_bridge_withdrawal (core_state bs) proof WITHDRAWAL_VK tx_data
      new_return_output new_spent_txo_tree_root new_next_processed_withdrawals_index);
  let '(sighash, bs1) := r in
  send_wormhole_vaa (withdrawal_nonce bs1) wh [key doge_tx_buffer] (bridge_seeds program_id) sighash tx_data
    (store_bridge_state w (key bridge_state_account) bs1).

Definition process_operator_withdraw_fees (program_id : Pubkey) (accounts : list AccountInfo) (w : World)
    : res ProgramError World :=
  try bridge_state_account <- nth_account accounts 0;
  try operator_token_account <- nth_account accounts 1;
  try doge_mint_account <- nth_account accounts 2;
  try operator <- nth_account accounts 3;
  try token_program <- nth_account accounts 4;
  bail MissingRequiredSignature if negb (is_signer operator);
  let minter := {| minter_mint := doge_mint_account; minter_authority_info := bridge_state_account;
                   minter_authority_seeds := bridge_seeds program_id;
                   minter_recipient_map := [operator_token_account]; minter_token_program := token_program |} in
  try bs <- load_bridge_state w (key bridge_state_account);
  bail bridge_err BridgeError.InvalidAccountInput if negb (key_eqb (key doge_mint_account) (doge_mint bs));
  bail MissingRequiredSignature
    if negb (key_eqb (key operator) (operator_pubkey (access_control (core_state bs))));
  try r <- on_core bs (run_bridge_operator_withdraw_fees_precheck (core_state bs));
  let '(fees_to_withdraw, bs1) := r in
  doge_err (mint_to minter [] 0 (key operator_token_account) fees_to_withdraw
              (store_bridge_state w (key bridge_state_account) bs1)).

Definition process_process_manual_deposit (program_id : Pubkey) (accounts : list AccountInfo)
    (tx_hash recent_block_merkle_tree_root recent_auto_claim_txo_root : QHash256)
    (combined_txo_index deposit_amount_sats : Z) (depositor_solana_public_key : bytes) (w : World)
    : res ProgramError World :=
  try bridge_state_account <- nth_account accounts 0;
  try recipient_account <- nth_account accounts 1;
  try doge_mint_account <- nth_account accounts 2;
  try token_program <- nth_account accounts 3;
  try manual_claim_program_signer <- nth_account accounts 4;
  bail MissingRequiredSignature if negb (is_signer manual_claim_program_signer);
  try _ <- verify_lowest_pda manual_claim_seed (key manual_claim_program_signer) MANUAL_CLAIM_PROGRAM_ID
             depositor_solana_public_key;
  try bs <- load_bridge_state w (key bridge_state_account);
  try r <- on_core bs (process_manual_claimed_deposit (core_state bs) tx_hash recent_block_merkle_tree_root
      recent_auto_claim_txo_root combined_txo_index (key recipient_account) deposit_amount_sats);
  let '(mint_amount, bs1) := r in
  let minter := {| minter_mint := doge_mint_account; minter_authority_info := bridge_state_account;
                   minter_authority_seeds := bridge_seeds program_id;
                   minter_recipient_map := [recipient_account]; minter_token_program := token_program |} in
  doge_err (mint_to minter [] 0 (key recipient_account) mint_amount
              (store_bridge_state w (key bridge_state_account) bs1)).

(** [(Clock::get()?.unix_timestamp & 0xFFFFFFFFi64) as u32] *)
Definition clock_seconds : Z := Z.land unix_timestamp 0xFFFFFFFF.

Definition REPLAY_PROOF_SIZE : Z := Z.of_nat (pod_size FixedMerkleAppendTreePartialMerkleProof).

Definition process_replay_withdrawal (program_id : Pubkey) (accounts : list AccountInfo) (w : World)
    : res ProgramError World :=
  try a <- withdrawal_accounts accounts;
  let '(bridge_state_account, doge_tx_buffer, wh) := a in
  bail bridge_err BridgeError.InvalidPDA if negb (key_eqb (key bridge_state_account) (bridge_pda program_id));
  bail IllegalOwner if negb (key_eqb (owner_at w (key doge_tx_buffer)) GENERIC_BUFFER_BUILDER_PROGRAM_ID);
  bail bridge_err BridgeError.InvalidPDA if negb (key_eqb (bridge_pda program_id) (key bridge_state_account));
  try bs <- load_bridge_state w (key bridge_state_account);
  bail AccountBorrowFailed if key_eqb (key doge_tx_buffer) (key bridge_state_account);
  let proof_and_dogecoin_tx := data_at w (key doge_tx_buffer) in
  bail bridge_err BridgeError.InvalidAccountInput if len proof_and_dogecoin_tx <? 32 + REPLAY_PROOF_SIZE + 10;
  try proof_bytes <- or_panic (slice 32 (32 + REPLAY_PROOF_SIZE) proof_and_dogecoin_tx);
  try proof <- or_panic (cast (A := FixedMerkleAppendTreePartialMerkleProof) proof_bytes);
  try tx_data <- or_panic (slice (32 + REPLAY_PROOF_SIZE) (len proof_and_dogecoin_tx) proof_and_dogecoin_tx);
  let sighash := btc_hash256_bytes tx_data in
  let current_timestamp :=
    if last_processed_withdrawals_at_ms (core_state bs) =? clock_seconds
    then u32 (clock_seconds + 1) else clock_seconds in
  bail bridge_err BridgeError.InvalidAccountInput if negb (bool_decide (fpp_value proof = sighash));
  try r <- on_core bs (process_replay_withdrawal_proof (core_state bs) proof current_timestamp);
  let '(accepted, bs1) := r in
  if accepted then
    send_wormhole_vaa (withdrawal_nonce bs1) wh [key doge_tx_buffer] (bridge_seeds program_id) sighash tx_data
      (store_bridge_state w (key bridge_state_account) bs1)
  else Err (bridge_err BridgeError.CoreError).

Definition process_snapshot_withdrawals (program_id : Pubkey) (accounts : list AccountInfo) (w : World)
    : res ProgramError World :=
  try bridge_state_account <- nth_account accounts 0;
  try operator <- nth_account accounts 1;
  try _ <- nth_account accounts 2;
  bail MissingRequiredSignature if negb (is_signer operator);
  bail bridge_err BridgeError.InvalidPDA if negb (key_eqb (bridge_pda program_id) (key bridge_state_account));
  try bs <- load_bridge_state w (key bridge_state_account);
  bail MissingRequiredSignature
    if negb (key_eqb (operator_pubkey (access_control (core_state bs))) (key operator));
  Ok (store_bridge_state w (key bridge_state_account)
        {| core_state := snapshot_for_withdrawal (core_state bs) clock_seconds; doge_mint := doge_mint bs |}).

(** [if data.len() != size_of::<T>() { return Err(SerializationError) }; from_bytes(data)] *)
Definition parse {A} {PA : Pod A} (data : bytes) : res ProgramError A :=
  ok_or (cast data) (bridge_err BridgeError.SerializationError).

(** The four bytes of a mint group instruction: index, bump of the mint buffer,
    unlock flag.  The bump is not used. *)
Definition parse_mint_group (data : bytes) : res ProgramError (Z * bool) :=
  match data with
  | [b0; b1; _; b3] => Ok (le_val [b0; b1], negb (b3 =? 0))
  | _ => Err (bridge_err BridgeError.SerializationError)
  end.

(** [match discriminator { .. }] *)
Definition dispatch (program_id : Pubkey) (accounts : list AccountInfo) (discriminator : Z) (data : bytes)
    (bump6 bump7 : Z) (w : World) : res ProgramError World :=
  match discriminator with
  | 0 =>
      try params <- parse (A := InitializeBridgeInstructionData) data;
      process_initialize program_id accounts params w
  | 1 =>
      try fixed <- parse (A := BlockUpdateFixedData) data;
      process_block_update program_id accounts (bu_proof fixed) (bu_header fixed) bump6 bump7 w
  | 8 =>
      try reader <- ReorgBlockUpdateReader_new data;
      match reader with
      | None => Err (bridge_err BridgeError.SerializationError)
      | Some reader =>
          process_reorg_blocks program_id accounts (rbr_proof reader) (rbr_header reader)
            (rbr_extra_finalized_blocks reader) bump6 bump7 w
      end
  | 2 =>
      try params <- parse (A := RequestWithdrawalInstructionData) data;
      process_request_withdrawal accounts (rw_request params) w
  | 3 =>
      try params <- parse (A := ProcessWithdrawalInstructionData) data;
      process_process_withdrawal program_id accounts (pw_proof params) (pw_new_return_output params)
        (pw_new_spent_txo_tree_root params) (pw_new_next_processed_withdrawals_index params) w
  | 4 => process_operator_withdraw_fees program_id accounts w
  | 5 =>
      try params <- parse (A := ProcessManualDepositInstructionData) data;
      process_process_manual_deposit program_id accounts (md_tx_hash params)
        (md_recent_block_merkle_tree_root params) (md_recent_auto_claim_txo_root params)
        (md_combined_txo_index params) (md_deposit_amount_sats params)
        (md_depositor_solana_public_key params) w
  | 6 => process_replay_withdrawal program_id accounts w
  | 7 =>
      try params <- parse_mint_group data;
      process_process_mint_group program_id accounts params.1 params.2 w
  | 9 =>
      try params <- parse_mint_group data;
      process_process_mint_group_auto_advance program_id accounts params.1 bump7 params.2 w
  | 10 => process_snapshot_withdrawals program_id accounts w
  | _ => Err (bridge_err BridgeError.SerializationError)
  end.

Definition process_instruction (program_id : Pubkey) (accounts : list AccountInfo)
    (instruction_data : bytes) (w : World) : res ProgramError World :=
  match instruction_data with
  | [] => Err (bridge_err BridgeError.SerializationError)
  | discriminator :: _ =>
      try data <- or_panic (slice 8 (len instruction_data) instruction_data);
      try bump6 <- or_panic (index instruction_data 6);
      try bump7 <- or_panic (index instruction_data 7);
      dispatch program_id accounts discriminator data bump6 bump7 w
  end.
End program.
End DogeBridge.
