(* ===== verification/NoopShim.v ===== *)
(** * NoopShim: the message program used in tests

    Models [programs/noop-shim/src/lib.rs], which stands in for the Wormhole shim: it
    checks who sends a message and writes it to the transaction log. *)
From S2P Require Import Prelude Errors Runtime BridgeInstructions DogeBridge.
From Stdlib Require Import ZArith Lia.
From stdpp Require Import base decidable list numbers option gmap.

Open Scope Z_scope.
Open Scope bridge_scope.

Module NoopShim.
Section program.
Context `{Runtime} `{ProgramIds}.

(** The program changes no account; its log is not modelled. *)
Definition process_instruction (program_id : Pubkey) (accounts : list AccountInfo)
    (instruction_data : bytes) (w : World) : res ProgramError World :=
  try _ <- nth_account accounts 0;
  try _ <- nth_account accounts 1;
  try emitter <- nth_account accounts 2;
  try _ <- nth_account accounts 3;
  try payer <- nth_account accounts 4;
  bail MissingRequiredSignature if negb (is_signer emitter);
  bail MissingRequiredSignature if negb (is_signer payer);
  let '(expected_bridge_pda, _) := find_program_address [DogeBridge.bridge_state_seed] DOGE_BRIDGE_PROGRAM_ID in
  bail InvalidAccountData if negb (bool_decide (key emitter = expected_bridge_pda));
  Ok w.
End program.
End NoopShim.
