(* ===== verification/Secp256k1.v ===== *)
(** * Secp256k1: signatures, the memory wallet and recovery

    Models [psy-bridge-core/src/crypto/secp256k1].  The k256 crate and the recovery
    syscall of Solana are the interface [K256]; what the wrappers rely on, as these
    document it, is [K256Laws].  An error keeps whether the crate reported it or the
    wrapper did, with the wrapper's text. *)
From Stdlib Require Import String ZArith Lia.
From stdpp Require Import base decidable list numbers option countable gmap strings.
From S2P Require Import Prelude Pod Hash.

Open Scope Z_scope.
Open Scope bridge_scope.

(** [k256] and [solana_program::secp256k1_recover]. *)
Class K256 := {
  SigningKey : Type;
  VerifyingKey : Type;
  EncodedPoint : Type;
  EcdsaSignature : Type;
  RecoveryId : Type;
  (** [SigningKey::from_slice], [verifying_key()] *)
  signing_key_from_slice : bytes -> option SigningKey;
  verifying_key : SigningKey -> VerifyingKey;
  (** [to_encoded_point(compress).to_bytes()], [EncodedPoint::from_bytes],
      [VerifyingKey::from_encoded_point], [VerifyingKey::from_sec1_bytes] *)
  to_encoded_point : bool -> VerifyingKey -> bytes;
  encoded_point_from_bytes : bytes -> option EncodedPoint;
  from_encoded_point : EncodedPoint -> option VerifyingKey;
  from_sec1_bytes : bytes -> option VerifyingKey;
  (** [sign_prehash], [sign_prehash_recoverable] *)
  sign_prehash : SigningKey -> bytes -> option EcdsaSignature;
  sign_prehash_recoverable : SigningKey -> bytes -> option (EcdsaSignature * RecoveryId);
  sig_r : EcdsaSignature -> bytes;
  sig_s : EcdsaSignature -> bytes;
  signature_from_bytes : bytes -> option EcdsaSignature;
  verify_prehash : VerifyingKey -> bytes -> EcdsaSignature -> bool;
  recovery_id_to_byte : RecoveryId -> Z;
  recovery_id_from_byte : Z -> option RecoveryId;
  recover_from_prehash : bytes -> EcdsaSignature -> RecoveryId -> option VerifyingKey;
  (** the syscall: hash, recovery byte, signature *)
  secp256k1_recover : bytes -> Z -> bytes -> option bytes
}.

(** Documented behaviour.  SEC1 encodes a point in 33 bytes that begin with 2 or 3, or
    in 65 that begin with 4. *)
Class K256Laws `{K256} : Prop := {
  compressed_point vk : byte_array 33 (to_encoded_point true vk);
  uncompressed_point vk : exists xy, to_encoded_point false vk = 4 :: xy /\ byte_array 64 xy;
  point_decodes vk : exists p,
    encoded_point_from_bytes (to_encoded_point true vk) = Some p /\ from_encoded_point p = Some vk;
  sec1_tagged b vk : from_sec1_bytes b = Some vk -> length b = 33%nat \/ length b = 65%nat;
  signs sk m : length m = 32%nat -> exists s, sign_prehash sk m = Some s /\ verify_prehash (verifying_key sk) m s = true;
  signs_recoverably sk m : length m = 32%nat -> exists s rid,
    sign_prehash_recoverable sk m = Some (s, rid) /\ recover_from_prehash m s rid = Some (verifying_key sk);
  sig_parts s : byte_array 32 (sig_r s) /\ byte_array 32 (sig_s s) /\ signature_from_bytes (sig_r s ++ sig_s s) = Some s;
  recovery_byte rid : is_byte (recovery_id_to_byte rid) /\ recovery_id_from_byte (recovery_id_to_byte rid) = Some rid;
  syscall_recovers m byte sig s rid vk xy :
    signature_from_bytes sig = Some s -> recovery_id_from_byte byte = Some rid ->
    recover_from_prehash m s rid = Some vk -> to_encoded_point false vk = 4 :: xy ->
    secp256k1_recover m byte sig = Some xy
}.

(** Cargo features of the core library. *)
Record SecpFeatures := { feature_secp256k1 : bool; feature_solprogram : bool }.

Module Secp256k1.

(** [anyhow::Error]: of the crate, or [bail!] with a text. *)
Inductive Failure := K256Error | Bail (message : string).

Abbreviation result A := (res Failure A).

(** [?] on a result of the crate. *)
Definition or_fail {A} (o : option A) : result A := ok_or o K256Error.

(** ** signature.rs *)

(** [assert_eq!(u256.len(), 32)] *)
Definition u256_to_der (u256 : bytes) : option bytes :=
  if negb (len u256 =? 32) then None else
  b0 ← index u256 0;
  Some (if negb (Z.land b0 0x80 =? 0) then [0x02; u8 (len u256 + 1); 0] ++ u256
        else [0x02; u8 (len u256)] ++ u256).

Record PsyCompressedSecp256K1Signature := {
  cs_public_key : bytes;
  cs_signature : bytes;
  cs_message : QHash256
}.

(** The sums are of [u8]s. *)
Definition to_btc_script (self : PsyCompressedSecp256K1Signature) : option bytes :=
  r_bytes ← slice 0 32 (cs_signature self);
  r ← u256_to_der r_bytes;
  s_bytes ← slice 32 64 (cs_signature self);
  s ← u256_to_der s_bytes;
  let combined_rs_length := u8 (len r + len s) in
  let sig_stack_raw := [u8 (combined_rs_length + 3); 0x30; combined_rs_length] ++ r ++ s ++ [0x01] in
  Some (sig_stack_raw ++ [0x21] ++ cs_public_key self).

Record PsySecp256K1Signature := {
  us_public_key : bytes;
  us_signature : bytes;
  us_message : QHash256
}.

Abbreviation CompressedPublicKey := bytes.

Section signature.
Context `{K256} `{Sha256} `{Ripemd160}.
Context (f : SecpFeatures).

(** The body of [decompress], which [to_uncompressed_signature] repeats. *)
Definition decompress_point (b : bytes) : result bytes :=
  try point <- or_fail (encoded_point_from_bytes b);
  try vk <- or_fail (from_encoded_point point);
  match to_encoded_point false vk with
  | 4 :: xy => if len xy =? 64 then Ok xy else Err (Bail "public key length is not 64")
  | _ => Err (Bail "public key length is not 64")
  end.

Definition to_p2pkh_address (self : CompressedPublicKey) : QHash160 := hash_impl_btc_hash160_bytes self.

Definition decompress (self : CompressedPublicKey) : result bytes :=
  if feature_secp256k1 f then decompress_point self else Err (Bail "secp256k1 feature not enabled").

(** Compiled with the feature [secp256k1] only. *)
Definition to_uncompressed_signature (self : PsyCompressedSecp256K1Signature) : result PsySecp256K1Signature :=
  try uncompressed <- decompress_point (cs_public_key self);
  Ok {| us_public_key := uncompressed; us_signature := cs_signature self; us_message := cs_message self |}.

(** [verifying_key.verify_prehash(..)?] *)
Definition check_prehash (vk : VerifyingKey) (message signature : bytes) : result unit :=
  try s <- or_fail (signature_from_bytes signature);
  bail K256Error if negb (verify_prehash vk message s);
  Ok tt.

Definition compressed_verify (self : PsyCompressedSecp256K1Signature) : result unit :=
  if feature_secp256k1 f then
    try enc_point <- or_fail (encoded_point_from_bytes (cs_public_key self));
    try vk <- or_fail (from_encoded_point enc_point);
    check_prehash vk (cs_message self) (cs_signature self)
  else Err (Bail "secp256k1 feature not enabled").

Definition to_compressed_signature (self : PsySecp256K1Signature) : result PsyCompressedSecp256K1Signature :=
  try vk <- or_fail (from_sec1_bytes (us_public_key self));
  let compressed_pubkey_bytes := to_encoded_point true vk in
  if len compressed_pubkey_bytes =? 33 then
    Ok {| cs_public_key := compressed_pubkey_bytes; cs_signature := us_signature self; cs_message := us_message self |}
  else Err (Bail "public key length is not 33").

Definition uncompressed_verify (self : PsySecp256K1Signature) : result unit :=
  if feature_secp256k1 f then
    try vk <- or_fail (from_sec1_bytes (us_public_key self));
    check_prehash vk (us_message self) (us_signature self)
  else Err (Bail "secp256k1 feature not enabled").

(** ** recover.rs *)

Definition secp256k1_recover_uncompressed (prehash : bytes) (recovery_id : Z) (signature : bytes) : result bytes :=
  bail Bail "prehash length is not 32" if negb (len prehash =? 32);
  bail Bail "signature length is not 64" if negb (len signature =? 64);
  if feature_solprogram f then
    ok_or (secp256k1_recover prehash recovery_id signature) (Bail "secp256k1 recovery failed")
  else if feature_secp256k1 f then
    match recovery_id_from_byte recovery_id with
    | Some rec_id =>
        try s <- or_fail (signature_from_bytes signature);
        try vk <- or_fail (recover_from_prehash prehash s rec_id);
        match to_encoded_point false vk with
        | 4 :: xy => if len xy =? 64 then Ok xy else Err (Bail "public key length is not 64")
        | _ => Err (Bail "public key length is not 64")
        end
    | None => Err (Bail "invalid recovery id")
    end
  else Err (Bail "secp256k1 recovery not supported").
End signature.

(** ** memory_wallet.rs, single.rs *)

Record MemorySecp256K1Wallet `{K256} := {
  key_map : gmap bytes SigningKey;
  p2pkh_key_map : gmap bytes CompressedPublicKey
}.

(** The trait [Secp256K1WalletProvider] ([traits.rs]). *)
Class Secp256K1WalletProvider (W : Type) := {
  wallet_sign : W -> CompressedPublicKey -> QHash256 -> result PsyCompressedSecp256K1Signature;
  wallet_sign_message_hash_recoverable : W -> CompressedPublicKey -> QHash256 -> result (Z * bytes);
  wallet_contains_public_key : W -> CompressedPublicKey -> bool;
  wallet_get_public_keys : W -> list CompressedPublicKey;
  wallet_contains_p2pkh_address : W -> QHash160 -> bool;
  wallet_get_public_key_for_p2pkh : W -> QHash160 -> option CompressedPublicKey
}.

Record SimpleSinglePublicKeySigner (W : Type) := {
  wallet_provider : W;
  signer_public_key : CompressedPublicKey
}.
Arguments wallet_provider {W}.
Arguments signer_public_key {W}.

Definition sign_message `{Secp256K1WalletProvider W} (self : SimpleSinglePublicKeySigner W) (message : QHash256)
    : result PsyCompressedSecp256K1Signature :=
  wallet_sign (wallet_provider self) (signer_public_key self) message.
Definition get_compressed_public_key {W} (self : SimpleSinglePublicKeySigner W) : CompressedPublicKey :=
  signer_public_key self.

Section wallet.
Context `{K256} `{Sha256} `{Ripemd160}.

(** [rs_bytes]: [copy_from_slice] panics unless both halves have 32 bytes. *)
Definition rs_bytes (s : EcdsaSignature) : option bytes :=
  if (len (sig_r s) =? 32) && (len (sig_s s) =? 32) then Some (sig_r s ++ sig_s s) else None.

Definition sign_message_hash_recoverable (self : MemorySecp256K1Wallet) (public_key : CompressedPublicKey)
    (message_hash : QHash256) : result (Z * bytes) :=
  match key_map self !! public_key with
  | Some key =>
      try sr <- or_fail (sign_prehash_recoverable key message_hash);
      try rs <- or_panic (rs_bytes sr.1);
      Ok (recovery_id_to_byte sr.2, rs)
  | None => Err (Bail "private key not found")
  end.

Definition sign (self : MemorySecp256K1Wallet) (public_key : CompressedPublicKey) (message : QHash256)
    : result PsyCompressedSecp256K1Signature :=
  match key_map self !! public_key with
  | Some key =>
      try s <- or_fail (sign_prehash key message);
      try rs <- or_panic (rs_bytes s);
      Ok {| cs_public_key := public_key; cs_signature := rs; cs_message := message |}
  | None => Err (Bail "private key not found")
  end.

Definition contains_public_key (self : MemorySecp256K1Wallet) (public_key : CompressedPublicKey) : bool :=
  bool_decide (is_Some (key_map self !! public_key)).
(** In the order of the map. *)
Definition get_public_keys (self : MemorySecp256K1Wallet) : list CompressedPublicKey :=
  (map_to_list (key_map self)).*1.
Definition contains_p2pkh_address (self : MemorySecp256K1Wallet) (p2pkh_address : QHash160) : bool :=
  bool_decide (is_Some (p2pkh_key_map self !! p2pkh_address)).
Definition get_public_key_for_p2pkh (self : MemorySecp256K1Wallet) (p2pkh : QHash160) : option CompressedPublicKey :=
  p2pkh_key_map self !! p2pkh.

#[export] Instance memory_wallet_provider : Secp256K1WalletProvider MemorySecp256K1Wallet := {
  wallet_sign := sign;
  wallet_sign_message_hash_recoverable := sign_message_hash_recoverable;
  wallet_contains_public_key := contains_public_key;
  wallet_get_public_keys := get_public_keys;
  wallet_contains_p2pkh_address := contains_p2pkh_address;
  wallet_get_public_key_for_p2pkh := get_public_key_for_p2pkh
}.

Definition wallet_new : MemorySecp256K1Wallet := {| key_map := ∅; p2pkh_key_map := ∅ |}.

Definition add_private_key (self : MemorySecp256K1Wallet) (private_key : QHash256)
    : result CompressedPublicKey * MemorySecp256K1Wallet :=
  try signing_key <- or_fail (signing_key_from_slice private_key) on self;
  let public_key := to_encoded_point true (verifying_key signing_key) in
  bail Bail "public key length is not 33" if negb (len public_key =? 33) on self;
  let p2pkh := to_p2pkh_address public_key in
  (Ok public_key, {| key_map := <[public_key := signing_key]> (key_map self);
                     p2pkh_key_map := <[p2pkh := public_key]> (p2pkh_key_map self) |}).

Definition new_insecure_memory_signer_with_private_key (private_key : QHash256)
    : result (SimpleSinglePublicKeySigner MemorySecp256K1Wallet) :=
  match add_private_key wallet_new private_key with
  | (Ok public_key, wallet) => Ok {| wallet_provider := wallet; signer_public_key := public_key |}
  | (Err e, _) => Err e
  | (Panic, _) => Panic
  end.
End wallet.
End Secp256k1.

(** ** Theorems on the wallet *)

Section wallet_theorems.
Import Secp256k1.
Context `{K256Laws} `{Sha256} `{Ripemd160}.

(** The wallets that the program can build. *)
Inductive wallet_built : MemorySecp256K1Wallet -> Prop :=
  | built_new : wallet_built wallet_new
  | built_add w k r w' : wallet_built w -> add_private_key w k = (r, w') -> wallet_built w'.

(** A key is stored under its own public key, and under the address of that. *)
Definition wallet_consistent (w : MemorySecp256K1Wallet) : Prop :=
  (forall pk sk, key_map w !! pk = Some sk -> pk = to_encoded_point true (verifying_key sk)) /\
  (forall h pk, p2pkh_key_map w !! h = Some pk -> h = to_p2pkh_address pk /\ is_Some (key_map w !! pk)).

Lemma wallet_built_consistent w : wallet_built w -> wallet_consistent w.
Proof.
  induction 1 as [|w k r w' _ [IHk IHp] Ha].
  { split; intros ? ? Hl; cbn in Hl; by rewrite lookup_empty in Hl. }
  unfold add_private_key in Ha. destruct (signing_key_from_slice k) as [sk|]; [|by injection Ha as _ <-].
  cbn [or_fail ok_or pure_call] in Ha. destruct (negb _); [by injection Ha as _ <-|]. injection Ha as _ <-.
  split; cbn [key_map p2pkh_key_map].
  - intros pk sk' [[<- <-]|[_ Hl]]%lookup_insert_Some; [done|by apply IHk].
  - intros h pk [[<- <-]|[_ Hl]]%lookup_insert_Some; [split; [done|by rewrite lookup_insert_eq]|].
    destruct (IHp _ _ Hl) as [-> Hk]. split; [done|]. apply lookup_insert_is_Some'. by right.
Qed.

Lemma rs_bytes_ok s : rs_bytes s = Some (sig_r s ++ sig_s s).
Proof.
  destruct (sig_parts s) as ([Hr _] & [Hs _] & _). unfold rs_bytes, len. by rewrite Hr, Hs.
Qed.

Lemma decompress_ok vk xy :
  to_encoded_point false vk = 4 :: xy -> length xy = 64%nat -> decompress_point (to_encoded_point true vk) = Ok xy.
Proof.
  intros Hxy Hl. destruct (point_decodes vk) as (p & Hp & Hvk). unfold decompress_point.
  rewrite Hp. cbn [or_fail ok_or res_bind]. rewrite Hvk. cbn [or_fail ok_or res_bind]. rewrite Hxy.
  unfold len. by rewrite Hl.
Qed.

(** What the wallet signs, everybody verifies; and from the recoverable signature the
    verifier, on the chain or off it, recovers exactly the decompressed public key. *)
Lemma wallet_signatures_verify w f pk m :
  wallet_built w -> feature_secp256k1 f = true -> contains_public_key w pk = true -> length m = 32%nat ->
  (exists s, sign w pk m = Ok s /\ cs_public_key s = pk /\ cs_message s = m /\ compressed_verify f s = Ok tt) /\
  exists byte rs xy, sign_message_hash_recoverable w pk m = Ok (byte, rs) /\ is_byte byte /\ byte_array 64 rs /\
    decompress f pk = Ok xy /\ byte_array 64 xy /\
    forall g, feature_solprogram g || feature_secp256k1 g = true ->
      secp256k1_recover_uncompressed g m byte rs = Ok xy.
Proof.
  intros Hw Hf Hc Hm. apply bool_decide_eq_true in Hc as [sk Hsk].
  destruct (wallet_built_consistent w Hw) as [Hkeys _]. specialize (Hkeys _ _ Hsk) as Hpk.
  destruct (point_decodes (verifying_key sk)) as (p & Hp & Hvk).
  destruct (uncompressed_point (verifying_key sk)) as (xy & Hxy & Hlen).
  split.
  - destruct (signs sk m Hm) as (s & Hs & Hv). destruct (sig_parts s) as (_ & _ & Hsig).
    eexists. unfold sign. rewrite Hsk, Hs. cbn [or_fail ok_or res_bind]. rewrite rs_bytes_ok. cbn [or_panic res_bind].
    split_and!; [done..|]. unfold compressed_verify, check_prehash. rewrite Hf. cbn [cs_public_key cs_message cs_signature].
    rewrite Hpk, Hp. cbn [or_fail ok_or res_bind]. rewrite Hvk. cbn [or_fail ok_or res_bind].
    rewrite Hsig. cbn [or_fail ok_or res_bind]. by rewrite Hv.
  - destruct (signs_recoverably sk m Hm) as (s & rid & Hs & Hv).
    destruct (sig_parts s) as (Hr & Hs' & Hsig). destruct (recovery_byte rid) as [Hbyte Hrid].
    exists (recovery_id_to_byte rid), (sig_r s ++ sig_s s), xy.
    assert (byte_array 64 (sig_r s ++ sig_s s)) as Hrs by (by apply (byte_array_app_inv 32 32)).
    split; [unfold sign_message_hash_recoverable; rewrite Hsk, Hs; cbn [or_fail ok_or res_bind fst snd];
            by rewrite rs_bytes_ok|].
    split; [done|]. split; [done|]. split.
    { unfold decompress. rewrite Hf, Hpk. destruct Hlen. by apply decompress_ok. }
    split; [done|]. intros g Hg. unfold secp256k1_recover_uncompressed, len. destruct Hrs as [Hrs _].
    rewrite Hm, Hrs. cbn [Z.of_nat negb Z.eqb Pos.of_succ_nat Pos.succ Pos.eqb].
    destruct (feature_solprogram g); [by rewrite (syscall_recovers _ _ _ _ _ _ _ Hsig Hrid Hv Hxy)|].
    cbn [orb] in Hg. rewrite Hg, Hrid, Hsig. cbn [or_fail ok_or res_bind]. rewrite Hv. cbn [or_fail ok_or res_bind].
    rewrite Hxy. destruct Hlen as [Hlen _]. unfold len. by rewrite Hlen.
Qed.

(** A signature with an uncompressed key is rejected whatever it is: the key is passed
    to [from_sec1_bytes] without the tag byte of the encoding. *)
Lemma uncompressed_signature_never_verifies f (s : PsySecp256K1Signature) :
  length (us_public_key s) = 64%nat ->
  is_ok (uncompressed_verify f s) = false /\ to_compressed_signature s = Err K256Error.
Proof.
  intros Hl. assert (from_sec1_bytes (us_public_key s) = None) as Hn.
  { destruct (from_sec1_bytes _) as [vk|] eqn:E; [|done]. apply sec1_tagged in E. lia. }
  unfold uncompressed_verify, to_compressed_signature. rewrite Hn. by destruct (feature_secp256k1 f).
Qed.
End wallet_theorems.

(** ** Scripts

    A reader of the pushes of a signature script, after the ECDSA-Sig-Value of SEC 1;
    [strict] refuses integers with needless leading zeros, as BIP 66 does. *)

Definition be_val (b : bytes) : Z := le_val (rev b).

Definition needless_zero (b : bytes) : bool :=
  match b with 0 :: x :: _ => x <? 0x80 | _ => false end.
Definition negative (b : bytes) : bool :=
  match b with x :: _ => 0x80 <=? x | [] => true end.

Definition der_uint (strict : bool) (d : bytes) : option (Z * bytes) :=
  match d with
  | 2 :: n :: d =>
      content ← slice 0 n d;
      if negative content || strict && needless_zero content then None
      else Some (be_val content, drop (Z.to_nat n) d)
  | _ => None
  end.

(** The pushes of a signature with its sighash byte and of a compressed key: the two
    integers, the sighash byte, the key. *)
Definition read_script (strict : bool) (script : bytes) : option (Z * Z * Z * bytes) :=
  match script with
  | push :: 0x30 :: n :: d =>
      r ← der_uint strict d;
      s ← der_uint strict r.2;
      match s.2 with
      | sighash :: 0x21 :: key =>
          if (push =? n + 3) && (len d - len s.2 =? n) && (len key =? 33) then Some (r.1, s.1, sighash, key) else None
      | _ => None
      end
  | _ => None
  end.

Section script_theorems.
Import Secp256k1.

Lemma high_bit b : is_byte b -> (Z.land b 0x80 =? 0) = (b <? 0x80).
Proof.
  intros Hb. assert (forallb (fun b => eqb (Z.land b 0x80 =? 0) (b <? 0x80)) (seqZ 0 256) = true) as Hall
    by (vm_compute; reflexivity).
  rewrite forallb_forall in Hall. apply eqb_prop, Hall, list_elem_of_In, elem_of_seqZ. unfold is_byte in Hb. lia.
Qed.

Lemma le_val_app a b : le_val (a ++ b) = le_val a + 256 ^ len a * le_val b.
Proof.
  induction a as [|x a IH]; [cbn [app le_val]; change (256 ^ len []) with 1; lia|]. cbn [app le_val]. rewrite IH, len_cons.
  rewrite Z.pow_add_r by (pose proof (len_nonneg a); lia). lia.
Qed.

Lemma be_val_zero b : be_val (0 :: b) = be_val b.
Proof. unfold be_val. cbn [rev]. rewrite le_val_app. cbn. lia. Qed.

(** The encoded integer, and when a strict reader accepts it. *)
Lemma u256_to_der_reads (strict : bool) (x rest : bytes) :
  byte_array 32 x ->
  exists d, u256_to_der x = Some d /\ 34 <= len d <= 35 /\
    der_uint strict (d ++ rest) = if strict && needless_zero x then None else Some (be_val x, rest).
Proof.
  intros [Hl Hb]. destruct x as [|x0 x]; [discriminate Hl|]. apply Forall_cons in Hb as [Hx0 Hb].
  assert (len (x0 :: x) = 32) as Hlen by (unfold len; by rewrite Hl).
  unfold u256_to_der. rewrite Hlen. change (index (x0 :: x) 0) with (Some x0). cbn [negb Z.eqb Pos.eqb mbind option_bind].
  rewrite (high_bit x0 Hx0). destruct (Z.ltb_spec x0 0x80) as [Hlow|Hhigh]; cbn [negb].
  - eexists. split; [reflexivity|]. split; [rewrite len_app, Hlen, !len_cons, len_nil; lia|].
    change (([2; u8 32] ++ x0 :: x) ++ rest) with (2 :: 32 :: (x0 :: x) ++ rest). unfold der_uint.
    rewrite slice_prefix by done. cbn [mbind option_bind]. cbn [negative]. rewrite (proj2 (Z.leb_gt 0x80 x0)) by lia. cbn [orb].
    destruct (strict && needless_zero (x0 :: x)); [done|]. by rewrite drop_app_length' by (by rewrite Hl).
  - eexists. split; [reflexivity|]. split; [rewrite len_app, Hlen, !len_cons, len_nil; lia|].
    assert (needless_zero (x0 :: x) = false) as -> by (destruct x0 as [| |]; [lia|done|done]). rewrite andb_false_r.
    change (([2; u8 (32 + 1); 0] ++ x0 :: x) ++ rest) with (2 :: 33 :: (0 :: x0 :: x) ++ rest). unfold der_uint.
    rewrite slice_prefix by (by rewrite len_cons, Hlen). cbn [mbind option_bind negative needless_zero].
    rewrite (proj2 (Z.ltb_ge x0 0x80)) by lia. cbn [Z.leb Z.compare orb]. rewrite andb_false_r, be_val_zero. by rewrite drop_app_length' by (cbn [length] in *; by rewrite Hl).
Qed.

(** A wallet's signature is read back from its script: the two integers, the sighash
    byte 1 and the key.  A reader that follows BIP 66 refuses the script exactly when
    one of the integers begins with a needless zero byte, which [u256_to_der] keeps. *)
Lemma script_carries_signature (self : PsyCompressedSecp256K1Signature) (r s : bytes) :
  cs_signature self = r ++ s -> byte_array 32 r -> byte_array 32 s -> byte_array 33 (cs_public_key self) ->
  exists script, to_btc_script self = Some script /\
    read_script false script = Some (be_val r, be_val s, 1, cs_public_key self) /\
    read_script true script =
      (if needless_zero r || needless_zero s then None else Some (be_val r, be_val s, 1, cs_public_key self)).
Proof.
  intros Hsig Hr Hs [Hk _]. set (key := cs_public_key self) in *.
  assert (len r = 32) as Hlr by (unfold len; by rewrite (proj1 Hr)).
  assert (len s = 32) as Hls by (unfold len; by rewrite (proj1 Hs)).
  assert (len key = 33) as Hlk by (unfold len; by rewrite Hk).
  destruct (u256_to_der_reads false s (1 :: 0x21 :: key) Hs) as (ds & Hds & Hlds & Hrs).
  destruct (u256_to_der_reads false r (ds ++ 1 :: 0x21 :: key) Hr) as (dr & Hdr & Hldr & Hrr).
  destruct (u256_to_der_reads true s (1 :: 0x21 :: key) Hs) as (ds' & Hds' & _ & Hrs').
  destruct (u256_to_der_reads true r (ds ++ 1 :: 0x21 :: key) Hr) as (dr' & Hdr' & _ & Hrr').
  rewrite Hds in Hds'. injection Hds' as <-. rewrite Hdr in Hdr'. injection Hdr' as <-.
  unfold to_btc_script. rewrite Hsig, (slice_prefix 32) by done. cbn [mbind option_bind]. rewrite Hdr. cbn [mbind option_bind].
  rewrite (slice_suffix 32 64) by (rewrite ?len_app; lia). cbn [mbind option_bind]. rewrite Hds. cbn [mbind option_bind].
  eexists. split; [reflexivity|].
  rewrite (wrap_id 8 (len dr + len ds)), wrap_id by (unfold in_width; lia). fold key.
  assert (forall strict, read_script strict
    (([len dr + len ds + 3; 48; len dr + len ds] ++ dr ++ ds ++ [1]) ++ [33] ++ key) =
    (r0 ← der_uint strict (dr ++ ds ++ 1 :: 33 :: key); s0 ← der_uint strict r0.2;
    match s0.2 with
    | sighash :: 0x21 :: k =>
        if (len dr + len ds + 3 =? len dr + len ds + 3) && (len (dr ++ ds ++ 1 :: 33 :: key) - len s0.2 =? len dr + len ds) &&
           (len k =? 33) then Some (r0.1, s0.1, sighash, k) else None
    | _ => None
    end)) as Hread.
  { intros strict. cbn [app read_script]. rewrite <- !app_assoc. cbn [app]. done. }
  assert (len (dr ++ ds ++ 1 :: 33 :: key) - len (1 :: 33 :: key) = len dr + len ds) as Hd by (rewrite !len_app; lia).
  split; rewrite Hread.
  - rewrite Hrr. cbn [andb mbind option_bind fst snd]. rewrite Hrs. cbn [andb mbind option_bind fst snd].
    by rewrite Hd, !Z.eqb_refl, Hlk.
  - rewrite Hrr'. cbn [andb]. destruct (needless_zero r); [done|]. cbn [mbind option_bind fst snd orb].
    rewrite Hrs'. cbn [andb]. destruct (needless_zero s); [done|]. cbn [mbind option_bind fst snd].
    by rewrite Hd, !Z.eqb_refl, Hlk.
Qed.
End script_theorems.
