(* ===== verification/ZkProof.v ===== *)
(** * ZkProof: the two verifiers behind the bridge's proof check

    Models [psy-bridge-core/src/crypto/zk] and the generator of mock proofs
    ([psy-doge-solana-core/src/fake_zkp]).  With the feature [mock-zkp] a proof is a
    signature of the public inputs by a test key ([FakeZKProof]), otherwise a Groth16
    proof of SP1 ([SP1Groth16Verifier]), which the sp1-solana crate checks; both are
    instances of the parameter [ZkVerifier] of the bridge. *)
From Stdlib Require Import String ZArith Lia.
From stdpp Require Import base decidable list numbers option countable gmap strings.
From S2P Require Import Prelude Pod Hash Sha256 Types ProgramState Secp256k1.

Open Scope Z_scope.
Open Scope bridge_scope.

Module ZkProof.
Import Secp256k1.

Abbreviation CompactBridgeZKProof := bytes.
Abbreviation CompactBridgeZKVerifierKey := bytes.

(** ** jtmb.rs *)

Record FakeZKProof := {
  fz_signature : bytes;
  fz_public_key : bytes;
  fz_recovery_id : Z;
  fz_padding : bytes
}.

#[export] Instance FakeZKProof_pod : Pod FakeZKProof.
Proof.
  refine (pod_iso (pod_array 64 ** pod_array 64 ** pod_uint 1 ** pod_array 7)
    (fun '(x0, (x1, (x2, x3))) => {| fz_signature := x0; fz_public_key := x1; fz_recovery_id := x2; fz_padding := x3 |})
    (fun r => (fz_signature r, (fz_public_key r, (fz_recovery_id r, fz_padding r)))) _ _);
    pod_iso_tac.
Defined.

Definition FakeZKProof_new (signature public_key : bytes) (recovery_id : Z) : FakeZKProof :=
  {| fz_signature := signature; fz_public_key := public_key; fz_recovery_id := recovery_id; fz_padding := zeros 7 |}.

(** Two copies, with the recovery byte over the last byte of the second key. *)
Definition to_compact_zkp (self : FakeZKProof) : option CompactBridgeZKProof :=
  b ← write_slice 0 (fz_signature self) (zeros 256);
  b ← write_slice 64 (fz_public_key self) b;
  b ← write_slice 128 (fz_signature self) b;
  b ← write_slice 192 (fz_public_key self) b;
  set_index b 255 (fz_recovery_id self).

(** [for i in 0..127] *)
Fixpoint halves_equal (fake_zkp_bytes : bytes) (i : Z) (todo : nat) : option bool :=
  match todo with
  | O => Some true
  | S todo =>
      x ← index fake_zkp_bytes i;
      y ← index fake_zkp_bytes (128 + i);
      if negb (x =? y) then Some false else halves_equal fake_zkp_bytes (i + 1) todo
  end.

Definition check_compact_zkp_consistent (fake_zkp_bytes : bytes) : option bool :=
  if negb (len fake_zkp_bytes =? 256) then Some false else halves_equal fake_zkp_bytes 0 127.

Record FakeZKVerifierData := { public_key_hash : QHash256 }.

Section jtmb.
Context `{K256} `{Sha256}.
Context (f : SecpFeatures).

Definition new_from_public_key (public_key : bytes) : FakeZKVerifierData :=
  {| public_key_hash := hash_impl_sha256_bytes public_key |}.
Definition to_compact_vk (self : FakeZKVerifierData) : CompactBridgeZKVerifierKey := public_key_hash self.
Definition check_compact_vk_consistent (fake_zkp_bytes : bytes) : bool := len fake_zkp_bytes =? 32.

Definition verify_zkp (proof : FakeZKProof) (vk : FakeZKVerifierData) (public_inputs : bytes) : bool :=
  if negb (len public_inputs =? 32) then false else
  match secp256k1_recover_uncompressed f public_inputs (fz_recovery_id proof) (fz_signature proof) with
  | Ok recovered_public_key => bool_decide (hash_impl_sha256_bytes recovered_public_key = public_key_hash vk)
  | _ => false
  end.

(** [None]: a panic. *)
Definition fake_verify_compact_zkp_slice (proof vk public_inputs : bytes) : option bool :=
  if negb (len public_inputs =? 32) then Some false else
  if negb (len vk =? 32) then Some false else
  if negb (len proof =? 256) then Some false else
  consistent ← check_compact_zkp_consistent proof;
  if negb consistent || negb (check_compact_vk_consistent vk) then Some false else
  recovery_id ← index proof 255;
  signature_ptr ← slice 0 64 proof;
  match secp256k1_recover_uncompressed f public_inputs recovery_id signature_ptr with
  | Ok recovered_public_key => Some (bool_decide (hash_impl_sha256_bytes recovered_public_key = vk))
  | Err _ => Some false
  | Panic => None
  end.

Definition fake_verify_compact_zkp (proof : CompactBridgeZKProof) (vk : CompactBridgeZKVerifierKey)
    (public_inputs : bytes) : option bool :=
  fake_verify_compact_zkp_slice proof vk public_inputs.

(** The bridge's verifier in a build with mock proofs; it does not panic
    ([fake_verifier_total]). *)
Definition fake_zk_verifier : ZkVerifier :=
  fun proof vk public_inputs => default false (fake_verify_compact_zkp_slice proof vk public_inputs).
End jtmb.

(** ** fake_zkp/mod.rs *)

Definition TEST_PRIVATE_KEY_FAKE_ZKP_SINGLE_BLOCK : bytes := replicate 32 1.
Definition TEST_PRIVATE_KEY_FAKE_ZKP_REORG : bytes := replicate 32 2.
Definition TEST_PRIVATE_KEY_FAKE_ZKP_MANUAL_DEPOSIT : bytes := replicate 32 3.
Definition TEST_PRIVATE_KEY_FAKE_ZKP_WITHDRAWAL : bytes := replicate 32 4.

Record FakeZKProofKeyPair := {
  kp_private_key : bytes;
  kp_public_key : bytes;
  kp_vk : bytes
}.

Record FakeZKProofGenerator := {
  gen_single_block : FakeZKProofKeyPair;
  gen_reorg : FakeZKProofKeyPair;
  gen_manual_deposit : FakeZKProofKeyPair;
  gen_withdrawal : FakeZKProofKeyPair
}.

Section fake_zkp.
Context `{K256} `{Sha256} `{Ripemd160}.
Context (f : SecpFeatures).

Definition new_from_private_key (private_key : bytes) : result FakeZKProofKeyPair :=
  try mem <- new_insecure_memory_signer_with_private_key private_key;
  try public_key <- decompress f (get_compressed_public_key mem);
  Ok {| kp_private_key := private_key; kp_public_key := public_key; kp_vk := hash_impl_sha256_bytes public_key |}.

Definition generate_fake_zkp (self : FakeZKProofKeyPair) (public_inputs_hash : QHash256) : result FakeZKProof :=
  match add_private_key wallet_new (kp_private_key self) with
  | (Ok compressed_pk, signer) =>
      try rs <- sign_message_hash_recoverable signer compressed_pk public_inputs_hash;
      Ok (FakeZKProof_new rs.2 (kp_public_key self) rs.1)
  | (Err e, _) => Err e
  | (Panic, _) => Panic
  end.

Definition generator_new : result FakeZKProofGenerator :=
  try single_block <- new_from_private_key TEST_PRIVATE_KEY_FAKE_ZKP_SINGLE_BLOCK;
  try reorg <- new_from_private_key TEST_PRIVATE_KEY_FAKE_ZKP_REORG;
  try manual_deposit <- new_from_private_key TEST_PRIVATE_KEY_FAKE_ZKP_MANUAL_DEPOSIT;
  try withdrawal <- new_from_private_key TEST_PRIVATE_KEY_FAKE_ZKP_WITHDRAWAL;
  Ok {| gen_single_block := single_block; gen_reorg := reorg; gen_manual_deposit := manual_deposit;
        gen_withdrawal := withdrawal |}.
End fake_zkp.
End ZkProof.

(** ** sp1_groth16.rs *)

(** [sp1_solana::verify_proof_raw] with the key [GROTH16_VK_5_0_0_BYTES]: proof and
    public values. *)
Class Groth16 := verify_proof_raw : bytes -> bytes -> bool.

Module Sp1Groth16.
Section sp1.
Context `{Sha256} `{Groth16}.

(** The scalar field has 254 bits, so the first three bits are cleared. *)
Definition hash_public_inputs (public_inputs : bytes) : bytes :=
  match hash_impl_sha256_bytes public_inputs with
  | b0 :: rest => Z.land b0 0x1F :: rest
  | [] => []
  end.

Definition groth16_public_values (sp1_vkey_hash sp1_public_inputs : bytes) : option bytes :=
  key_part ← slice 1 32 sp1_vkey_hash;
  b ← write_slice 0 key_part (zeros 63);
  write_slice 31 (hash_public_inputs sp1_public_inputs) b.

Definition sp1_verify_zkp (proof vk public_inputs : bytes) : option bool :=
  values ← groth16_public_values vk public_inputs;
  Some (verify_proof_raw proof values).

(** The lengths are those of the array types. *)
Definition sp1_verify_compact_zkp (proof vk public_inputs : bytes) : option bool :=
  if negb (len proof =? 256) || negb (len vk =? 32) then Some false else sp1_verify_zkp proof vk public_inputs.

Definition sp1_verify_compact_zkp_slice (proof vk public_inputs : bytes) : option bool :=
  if negb (len proof =? 256) || negb (len vk =? 32) || negb (len public_inputs =? 32) then Some false else
  sp1_verify_zkp proof vk public_inputs.

Definition sp1_zk_verifier : ZkVerifier :=
  fun proof vk public_inputs => default false (sp1_verify_compact_zkp_slice proof vk public_inputs).
End sp1.
End Sp1Groth16.

(** ** Theorems *)

Section mock_theorems.
Import Secp256k1 ZkProof.
Context `{K256Laws} `{Sha256} `{!Sha256Laws} `{Ripemd160}.

(** The bytes of a compact proof. *)
Lemma compact_bytes z :
  byte_array 64 (fz_signature z) -> byte_array 64 (fz_public_key z) ->
  to_compact_zkp z = Some (fz_signature z ++ fz_public_key z ++ fz_signature z ++ take 63 (fz_public_key z) ++ [fz_recovery_id z]).
Proof.
  intros [Hs _] [Hk _]. destruct z as [sig key rid pad]. cbn [fz_signature fz_public_key fz_recovery_id] in *.
  assert (exists last, key = take 63 key ++ [last]) as [last Hkey].
  { pose proof (length_drop key 63) as Hd. rewrite Hk in Hd. pose proof (take_drop 63 key) as Htd.
    destruct (drop 63 key) as [|last [|? ?]]; [discriminate Hd|by exists last|discriminate Hd]. }
  unfold to_compact_zkp. cbn [fz_signature fz_public_key fz_recovery_id].
  change (zeros 256) with ([] ++ zeros 256). rewrite (write_slice_zeros 0 [] sig 256) by (rewrite ?Hs; done || lia). cbn [mbind option_bind app].
  rewrite (write_slice_zeros 64 sig key) by (unfold len; rewrite ?Hs, ?Hk; done || lia). cbn [mbind option_bind].
  rewrite (write_slice_zeros 128) by (unfold len; rewrite ?length_app, ?Hs, ?Hk; done || lia). cbn [mbind option_bind].
  rewrite (write_slice_zeros 192) by (unfold len; rewrite ?length_app, ?Hs, ?Hk; done || lia). cbn [mbind option_bind].
  rewrite Hs, Hk. change (zeros _) with ([] : bytes). rewrite app_nil_r.
  rewrite set_index_ok by (unfold len; rewrite !length_app, Hs, Hk; lia). f_equal.
  rewrite insert_app_r_alt by (rewrite !length_app, Hs, Hk; lia). rewrite !length_app, Hs, Hk.
  change (Z.to_nat 255 - _)%nat with 63%nat. rewrite <- !app_assoc. do 3 f_equal.
  rewrite Hkey at 1. rewrite insert_app_r_alt by (rewrite length_take; lia). rewrite length_take, Hk. done.
Qed.

(** The loop compares the first 127 bytes of the halves. *)
Lemma halves_equal_spec b i todo :
  0 <= i -> i + Z.of_nat todo <= 127 -> len b = 256 ->
  exists r, halves_equal b i todo = Some r /\
    (r = true <-> forall j, i <= j < i + Z.of_nat todo -> index b j = index b (128 + j)).
Proof.
  revert i. induction todo as [|todo IH]; intros i Hi Hle Hb.
  { exists true. split; [done|]. split; [intros _ j; lia|done]. }
  cbn [halves_equal].
  destruct (index_is_Some b i ltac:(lia)) as [x Hx]. destruct (index_is_Some b (128 + i) ltac:(lia)) as [y Hy].
  rewrite Hx, Hy. cbn [mbind option_bind]. destruct (Z.eqb_spec x y) as [->|Hne]; cbn [negb].
  - destruct (IH (i + 1)) as (r & Hr & Hspec); [lia..|done|]. exists r. split; [done|]. rewrite Hspec.
    split; intros Hall j Hj; [|apply Hall; lia].
    destruct (decide (j = i)) as [->|]; [congruence|apply Hall; lia].
  - exists false. split; [done|]. split; [done|]. intros Hall. specialize (Hall i ltac:(lia)). congruence.
Qed.

Lemma recover_no_panic f prehash rid sig : secp256k1_recover_uncompressed f prehash rid sig <> Panic.
Proof.
  unfold secp256k1_recover_uncompressed. destruct (negb _); [done|]. destruct (negb _); [done|].
  destruct (feature_solprogram f); [by destruct (secp256k1_recover _ _ _)|].
  destruct (feature_secp256k1 f); [|done]. destruct (recovery_id_from_byte rid) as [r|]; [|done].
  destruct (signature_from_bytes sig) as [s|]; [|done]. cbn [or_fail ok_or res_bind].
  destruct (recover_from_prehash prehash s r) as [vk|]; [|done]. cbn [or_fail ok_or res_bind].
  destruct (to_encoded_point false vk) as [|x xy]; [done|]. 
  repeat (match goal with |- context [match ?x with _ => _ end] => destruct x end; try done).
Qed.

(** The verdict is no, and one of the conditions fails. *)
Local Ltac rejected :=
  let Hok := fresh "Hok" in
  exists false; split; [done|]; split; [done|]; intros Hok; decompose [and ex] Hok; congruence.

(** What the mock verifier accepts, in terms of the recovery; it never panics. *)
Lemma fake_verifier_spec f proof vk inputs :
  exists r, fake_verify_compact_zkp_slice f proof vk inputs = Some r /\
    (r = true <-> len inputs = 32 /\ len vk = 32 /\ len proof = 256 /\
      (forall j, 0 <= j < 127 -> index proof j = index proof (128 + j)) /\
      exists byte sig key, index proof 255 = Some byte /\ slice 0 64 proof = Some sig /\
        secp256k1_recover_uncompressed f inputs byte sig = Ok key /\ sha256 key = vk).
Proof.
  unfold fake_verify_compact_zkp_slice.
  destruct (Z.eqb_spec (len inputs) 32) as [Hi|]; cbn [negb]; [|rejected].
  destruct (Z.eqb_spec (len vk) 32) as [Hv|]; cbn [negb]; [|rejected].
  destruct (Z.eqb_spec (len proof) 256) as [Hp|]; cbn [negb]; [|rejected].
  unfold check_compact_zkp_consistent, check_compact_vk_consistent. rewrite Hp, Hv. cbn [Z.eqb Pos.eqb negb].
  destruct (halves_equal_spec proof 0 127) as (r & -> & Hr); [lia..|done|]. cbn [mbind option_bind]. rewrite orb_false_r.
  change (0 + Z.of_nat 127) with 127 in Hr. destruct r; cbn [negb].
  2: { exists false. split; [done|]. split; [done|]. intros (_ & _ & _ & Hall & _). by apply Hr. }
  destruct (index_is_Some proof 255 ltac:(lia)) as [byte Hbyte]. destruct (slice_is_Some 0 64 proof) as [sig Hsig]; [lia..|].
  rewrite Hbyte, Hsig. cbn [mbind option_bind].
  destruct (secp256k1_recover_uncompressed f inputs byte sig) as [key|e|] eqn:Er; [|rejected|by apply recover_no_panic in Er].
  eexists. split; [reflexivity|]. rewrite bool_decide_eq_true. split.
  - intros Hk. split_and!; [done..|by apply Hr|]. by exists byte, sig, key.
  - intros Hok. decompose [and ex] Hok. unfold hash_impl_sha256_bytes. congruence.
Qed.

Lemma copies_agree (half tail : bytes) j :
  length half = 128%nat -> 0 <= j < 127 ->
  index (half ++ take 127 half ++ tail) j = index (half ++ take 127 half ++ tail) (128 + j).
Proof.
  intros Hl Hj. unfold index. rewrite !(proj2 (Z.leb_le 0 _)) by lia.
  rewrite lookup_app_l by lia. rewrite lookup_app_r by lia.
  replace (Z.to_nat (128 + j) - length half)%nat with (Z.to_nat j) by lia.
  rewrite lookup_app_l by (rewrite length_take; lia). by rewrite lookup_take_lt by lia.
Qed.

(** A private key of the generator, and the pair that it makes. *)
Lemma key_pair_ok f private_key sk :
  feature_secp256k1 f = true -> signing_key_from_slice private_key = Some sk ->
  exists w key, add_private_key wallet_new private_key = (Ok (to_encoded_point true (verifying_key sk)), w) /\
    wallet_built w /\ contains_public_key w (to_encoded_point true (verifying_key sk)) = true /\
    decompress f (to_encoded_point true (verifying_key sk)) = Ok key /\
    new_from_private_key f private_key =
      Ok {| kp_private_key := private_key; kp_public_key := key; kp_vk := sha256 key |}.
Proof.
  intros Hf Hsk. destruct (add_private_key wallet_new private_key) as [r w] eqn:Ha.
  pose proof (built_add _ _ _ _ built_new Ha) as Hw. pose proof Ha as Ha'. unfold add_private_key in Ha'.
  rewrite Hsk in Ha'. cbn [or_fail ok_or pure_call] in Ha'.
  destruct (compressed_point (verifying_key sk)) as [Hl _]. unfold len in Ha'. rewrite Hl in Ha'. cbn in Ha'.
  injection Ha' as <- Hw'.
  destruct (uncompressed_point (verifying_key sk)) as (key & Hkey & Hlen & _).
  assert (decompress f (to_encoded_point true (verifying_key sk)) = Ok key) as Hd
    by (unfold decompress; rewrite Hf; by apply decompress_ok).
  exists w, key. split; [done|]. split; [done|]. split.
  { apply bool_decide_eq_true. rewrite <- Hw'. cbn [key_map]. by rewrite lookup_insert_eq. }
  split; [done|]. unfold new_from_private_key, new_insecure_memory_signer_with_private_key. rewrite Ha.
  cbn [res_bind get_compressed_public_key signer_public_key]. by rewrite Hd.
Qed.

(** [C31] The mock proofs are accepted.  For every private key that the generator is given
    and every 32-byte public input, the pair and the proof can be made, the compact form
    has 256 bytes, and every build of the verifier that can recover keys, on the chain
    or off it, accepts both forms for the pair's verifier key. *)
Theorem mock_proofs_accepted f g private_key sk inputs :
  feature_secp256k1 f = true -> feature_solprogram g || feature_secp256k1 g = true ->
  signing_key_from_slice private_key = Some sk -> byte_array 32 inputs ->
  exists pair proof compact,
    new_from_private_key f private_key = Ok pair /\ generate_fake_zkp pair inputs = Ok proof /\
    to_compact_zkp proof = Some compact /\ byte_array 256 compact /\
    fake_zk_verifier g compact (kp_vk pair) inputs = true /\
    verify_zkp g proof (new_from_public_key (kp_public_key pair)) inputs = true.
Proof.
  intros Hf Hg Hsk [Hin _]. destruct (key_pair_ok f private_key sk Hf Hsk) as (w & key & Ha & Hw & Hc & Hd & Hpair).
  destruct (wallet_signatures_verify w f _ inputs Hw Hf Hc Hin) as (_ & byte & rs & xy & Hs & Hb & Hrs & Hd' & Hxy & Hrec).
  rewrite Hd in Hd'. injection Hd' as <-. specialize (Hrec g Hg).
  eexists _, (FakeZKProof_new rs key byte), _. split; [exact Hpair|]. split.
  { unfold generate_fake_zkp. cbn [kp_private_key kp_public_key]. by rewrite Ha, Hs. }
  split; [by apply compact_bytes|]. cbn [FakeZKProof_new fz_signature fz_public_key fz_recovery_id kp_vk kp_public_key].
  set (compact := rs ++ key ++ rs ++ take 63 key ++ [byte]).
  assert (byte_array 256 compact) as Hcomp.
  { apply (byte_array_app_inv 64 192); [done|]. apply (byte_array_app_inv 64 128); [done|].
    apply (byte_array_app_inv 64 64); [done|]. apply (byte_array_app_inv 63 1).
    - destruct Hxy as [Hl Hx]. split; [rewrite length_take; lia|by apply Forall_take].
    - split; [done|by constructor]. }
  split; [done|]. split.
  - unfold fake_zk_verifier. destruct (fake_verifier_spec g compact (sha256 key) inputs) as (r & -> & Hr). cbn [default].
    apply Hr. pose proof (sha256_array key) as [Hlk _]. destruct Hcomp as [Hlc _]. unfold len. rewrite Hin, Hlk, Hlc.
    destruct Hrs as [Hl1 _], Hxy as [Hl2 _].
    split_and!; [done..| |exists byte, rs, key].
    + intros j Hj. replace compact with ((rs ++ key) ++ take 127 (rs ++ key) ++ [byte]).
      { apply copies_agree; [by rewrite length_app, Hl1, Hl2|done]. }
      unfold compact. rewrite take_app, Hl1, (take_ge rs) by lia. by rewrite <- !app_assoc.
    + split_and!; [| |done|done].
      * unfold index. cbn [Z.leb Z.compare]. unfold compact. rewrite !app_assoc.
        rewrite lookup_app_r by (rewrite !length_app, length_take; lia).
        rewrite !length_app, length_take, Hl1, Hl2. done.
      * unfold compact. apply slice_prefix. unfold len. by rewrite Hl1.
  - unfold verify_zkp, len. rewrite Hin. cbn [Z.of_nat Pos.of_succ_nat Pos.succ Z.eqb Pos.eqb negb].
    cbn [fz_recovery_id fz_signature FakeZKProof_new]. rewrite Hrec. by apply bool_decide_eq_true.
Qed.
End mock_theorems.

Section sp1_theorems.
Import Sp1Groth16.
Context `{Sha256} `{!Sha256Laws} `{Groth16}.

Lemma hash_public_inputs_array inputs : byte_array 32 (hash_public_inputs inputs).
Proof.
  unfold hash_public_inputs, hash_impl_sha256_bytes. destruct (sha256_array inputs) as [Hl Hb].
  destruct (sha256 inputs) as [|b0 rest]; [discriminate Hl|]. apply Forall_cons in Hb as [Hb0 Hb].
  split; [done|]. constructor; [|done]. unfold is_byte. change 31 with (Z.ones 5). rewrite Z.land_ones by lia.
  pose proof (Z.mod_pos_bound b0 (2 ^ 5) ltac:(lia)). lia.
Qed.

(** The public values of the Groth16 check: 31 bytes of the verifier key, then the
    digest of the inputs as a field element. *)
Lemma groth16_public_values_eq vk inputs :
  length vk = 32%nat -> groth16_public_values vk inputs = Some (drop 1 vk ++ hash_public_inputs inputs).
Proof.
  intros Hl. unfold groth16_public_values. destruct vk as [|b0 vk]; [discriminate Hl|]. cbn [length] in Hl.
  change (b0 :: vk) with ([b0] ++ vk) at 1. rewrite (slice_suffix 1 32 [b0] vk) by (unfold len; cbn [length]; lia). cbn [mbind option_bind drop].
  change (zeros 63) with ([] ++ zeros 63). rewrite (write_slice_zeros 0 [] vk) by (done || lia). cbn [mbind option_bind app].
  destruct (hash_public_inputs_array inputs) as [Hh _].
  rewrite (write_slice_zeros 31) by (unfold len; lia). replace (63 - length vk - _)%nat with 0%nat by lia. by rewrite app_nil_r.
Qed.

(** The check is made on fewer bits than the verifier key and the digest
    have: the first byte of the key and three bits of the digest do not count.  Both
    entry points agree on 32-byte inputs. *)
Lemma sp1_checks_values proof vk inputs :
  length proof = 256%nat -> length vk = 32%nat -> length inputs = 32%nat ->
  sp1_zk_verifier proof vk inputs = verify_proof_raw proof (drop 1 vk ++ hash_public_inputs inputs) /\
  sp1_verify_compact_zkp proof vk inputs = Some (sp1_zk_verifier proof vk inputs).
Proof.
  intros Hp Hv Hi. unfold sp1_zk_verifier, sp1_verify_compact_zkp_slice, sp1_verify_compact_zkp, sp1_verify_zkp, len.
  rewrite Hp, Hv, Hi, (groth16_public_values_eq _ _ Hv). done.
Qed.

Lemma sp1_values_binding vk1 vk2 inputs1 inputs2 :
  length vk1 = 32%nat -> length vk2 = 32%nat ->
  groth16_public_values vk1 inputs1 = groth16_public_values vk2 inputs2 <->
  drop 1 vk1 = drop 1 vk2 /\ hash_public_inputs inputs1 = hash_public_inputs inputs2.
Proof.
  intros Hl1 Hl2. rewrite !groth16_public_values_eq by done. split.
  - intros [= Heq]. apply app_inj_1 in Heq; [done|]. by rewrite !length_drop, Hl1, Hl2.
  - by intros [-> ->].
Qed.
End sp1_theorems.

(** ** A scheme with two keys

    An instance of [K256] that satisfies the laws, for the witness: a key is a bit, a
    signature the bit of its key and the parity of the message. *)
Module TwoKeys.
Definition fill (n : nat) (b : bool) : bytes := replicate n (if b then 1 else 0).
Definition parity (m : bytes) : bool := Nat.odd (sum_list_with Z.to_nat m).
Definition unfill (n : nat) (l : bytes) : option bool :=
  if bool_decide (l = fill n true) then Some true else if bool_decide (l = fill n false) then Some false else None.

#[local] Instance k256 : K256 := {|
  SigningKey := bool; VerifyingKey := bool; EncodedPoint := bool; EcdsaSignature := bool * bool; RecoveryId := unit;
  signing_key_from_slice b := if len b =? 32 then Some (parity b) else None;
  verifying_key b := b;
  to_encoded_point compress b := if compress then 2 :: fill 32 b else 4 :: fill 64 b;
  encoded_point_from_bytes b := match b with 2 :: l => unfill 32 l | _ => None end;
  from_encoded_point b := Some b;
  from_sec1_bytes b := match b with 2 :: l => unfill 32 l | 4 :: l => unfill 64 l | _ => None end;
  sign_prehash sk m := Some (sk, parity m);
  sign_prehash_recoverable sk m := Some ((sk, parity m), tt);
  sig_r s := fill 32 s.1; sig_s s := fill 32 s.2;
  signature_from_bytes b := r ← unfill 32 (take 32 b); s ← unfill 32 (drop 32 b); Some (r, s);
  verify_prehash vk m s := bool_decide (s = (vk, parity m));
  recovery_id_to_byte _ := 0;
  recovery_id_from_byte b := if b =? 0 then Some tt else None;
  recover_from_prehash m s _ := if eqb s.2 (parity m) then Some s.1 else None;
  secp256k1_recover m byte sig :=
    if byte =? 0 then r ← unfill 32 (take 32 sig); s ← unfill 32 (drop 32 sig);
                      if eqb s (parity m) then Some (fill 64 r) else None
    else None
|}.

#[local] Arguments fill : simpl never.
#[local] Arguments unfill : simpl never.

Lemma fill_array n b : byte_array n (fill n b).
Proof.
  split; [apply length_replicate|]. apply Forall_replicate. destruct b; unfold is_byte; lia.
Qed.

Lemma unfill_length n l b : unfill n l = Some b -> length l = n.
Proof.
  unfold unfill. repeat case_bool_decide; intros [= <-]; subst; apply length_replicate.
Qed.

Lemma laws : @K256Laws k256.
Proof.
  split; cbn.
  - intros vk. apply (byte_array_app_inv 1 32 [2]); [|apply fill_array]. split; [done|by repeat constructor].
  - intros vk. exists (fill 64 vk). split; [done|apply fill_array].
  - intros []; by eexists.
  - intros b vk Hb. repeat (match type of Hb with match ?x with _ => _ end = _ => destruct x end; try discriminate Hb);
      apply unfill_length in Hb; cbn [length]; lia.
  - intros sk m _. eexists. split; [done|]. by apply bool_decide_eq_true.
  - intros sk m _. eexists _, tt. split; [done|]. cbn. by rewrite eqb_reflx.
  - intros [r s]. cbn [fst snd]. split; [apply fill_array|]. split; [apply fill_array|]. by destruct r, s.
  - intros []. by split.
  - intros m byte sig s rid vk xy Hs Hr Hv Hxy. destruct (byte =? 0); [|done].
    destruct (unfill 32 (take 32 sig)) as [r|]; [|done]. cbn [mbind option_bind] in *.
    destruct (unfill 32 (drop 32 sig)) as [t|]; [|done]. cbn [mbind option_bind] in *.
    injection Hs as <-. cbn [fst snd] in Hv. destruct (eqb t (parity m)); [|done]. by simplify_eq.
Qed.

(** The single-block key of the generator, and a verifier on the chain. *)
Lemma mock_proofs_accepted_witness :
  @signing_key_from_slice k256 ZkProof.TEST_PRIVATE_KEY_FAKE_ZKP_SINGLE_BLOCK = Some false /\
  exists pair proof compact,
    @ZkProof.new_from_private_key k256 fips_sha256 (fun b => take 20 b) {| feature_secp256k1 := true; feature_solprogram := false |}
      ZkProof.TEST_PRIVATE_KEY_FAKE_ZKP_SINGLE_BLOCK = Ok pair /\
    @ZkProof.generate_fake_zkp k256 fips_sha256 (fun b => take 20 b) pair (zeros 32) = Ok proof /\
    ZkProof.to_compact_zkp proof = Some compact /\ byte_array 256 compact /\
    @ZkProof.fake_zk_verifier k256 fips_sha256 {| feature_secp256k1 := false; feature_solprogram := true |} compact
      (ZkProof.kp_vk pair) (zeros 32) = true /\
    @ZkProof.verify_zkp k256 fips_sha256 {| feature_secp256k1 := false; feature_solprogram := true |} proof
      (@ZkProof.new_from_public_key fips_sha256 (ZkProof.kp_public_key pair)) (zeros 32) = true.
Proof.
  split; [reflexivity|].
  apply (@mock_proofs_accepted k256 laws fips_sha256 fips_sha256_laws) with (sk := false);
    [reflexivity|reflexivity|reflexivity|apply byte_array_zeros].
Defined.
End TwoKeys.
