(* ===== verification/RpcClient.v ===== *)
(** * RpcClient: errors, retries and rate limiting of the client

    Models [clients/rust/src/errors.rs], [rpc/retry.rs] and [rpc/rate_limiter.rs].

    The error types of the Solana client and of [anyhow] are parameters, and so is the
    token bucket of the [governor] crate, of which the limiter only asks whether a
    request may pass.  Requests of the limiter run concurrently; what one of them does
    between two suspensions is one step. *)
From S2P Require Import Prelude Errors.
From Stdlib Require Import ZArith Lia.
From stdpp Require Import base decidable list numbers option relations.

Open Scope Z_scope.
Open Scope bridge_scope.

(** Errors of other crates. *)
Class ForeignErrors := { client_error : Type; anyhow_error : Type }.

Module RpcClient.

(** Strings are their UTF-8 bytes. *)
Abbreviation text := bytes.

(** ** errors.rs *)

Section errors.
Context `{ForeignErrors}.

Inductive BridgeError :=
  | Rpc (e : client_error)
  | RateLimited (retry_after_ms : Z)
  | ConnectionTimeout
  | SimulationFailed (message : text) (logs : list text)
  | ConfirmationTimeout (timeout_ms : Z)
  | TransactionRejected (reason : text)
  | AlreadyProcessed
  | Program (e : ProgramError)
  | InvalidBridgeState (message : text)
  | PendingMintsNotReady (reason : text)
  | BlockHeightMismatch (expected actual : Z)
  | BufferCreationFailed (message : text)
  | BufferTooLarge (size max_size : Z)
  | BufferNotFound (address : text)
  | InvalidConfig (message : text)
  | MissingField (field : text)
  | InvalidProof
  | HashMismatch (expected actual : text)
  | InvalidInput (message : text)
  | SerializationError (message : text)
  | SignerError
  | AccountNotFound (address : text)
  | InsufficientBalance (required available : Z)
  | Internal (e : anyhow_error).

Definition is_retryable (self : BridgeError) : bool :=
  match self with
  | Rpc _ | RateLimited _ | ConnectionTimeout | ConfirmationTimeout _ => true
  | _ => false
  end.

Definition retry_hint_ms (self : BridgeError) : option Z :=
  match self with
  | RateLimited retry_after_ms => Some retry_after_ms
  | ConnectionTimeout => Some 1000
  | ConfirmationTimeout _ => Some 2000
  | _ => None
  end.

Inductive ErrorCategory :=
  | CNetwork | CTransaction | CProgram | CBuffer | CConfig | CCryptographic | CValidation | CAccount | CInternal.

Definition category (self : BridgeError) : ErrorCategory :=
  match self with
  | Rpc _ | RateLimited _ | ConnectionTimeout => CNetwork
  | SimulationFailed _ _ | ConfirmationTimeout _ | TransactionRejected _ | AlreadyProcessed => CTransaction
  | Program _ | InvalidBridgeState _ | PendingMintsNotReady _ | BlockHeightMismatch _ _ => CProgram
  | BufferCreationFailed _ | BufferTooLarge _ _ | BufferNotFound _ => CBuffer
  | InvalidConfig _ | MissingField _ => CConfig
  | InvalidProof | HashMismatch _ _ => CCryptographic
  | InvalidInput _ | SerializationError _ | SignerError => CValidation
  | AccountNotFound _ | InsufficientBalance _ _ => CAccount
  | Internal _ => CInternal
  end.

Definition simulation_failed (message : text) (logs : list text) : BridgeError := SimulationFailed message logs.
Definition invalid_state (message : text) : BridgeError := InvalidBridgeState message.
Definition buffer_failed (message : text) : BridgeError := BufferCreationFailed message.
End errors.

(** ** config.rs *)

Record RateLimitConfig := {
  max_rps : Z;
  burst_size : Z;
  queue_on_limit : bool;
  max_queue_depth : Z
}.

Definition RateLimitConfig_default : RateLimitConfig :=
  {| max_rps := 10; burst_size := 20; queue_on_limit := true; max_queue_depth := 100 |}.

(** The multiplier is a float; [backoff d] is [((d as f64) * multiplier) as u64]. *)
Record RetryConfig := {
  max_retries : Z;
  initial_delay_ms : Z;
  max_delay_ms : Z;
  backoff : Z -> Z;
  confirmation_timeout_ms : Z
}.

(** The multiplier 2.0 doubles delays exactly; the cast of larger floats saturates. *)
Definition RetryConfig_default : RetryConfig :=
  {| max_retries := 10; initial_delay_ms := 500; max_delay_ms := 30000;
     backoff := fun d => Z.min (2 * d) (2 ^ 64 - 1); confirmation_timeout_ms := 60000 |}.

(** ** rpc/retry.rs *)

Section retry.
Context `{ForeignErrors} {T : Type}.

(** [nanos] is the sub-second part of the system time. *)
Definition jitter (delay nanos : Z) : Z :=
  let max_jitter := delay / 4 in
  if max_jitter =? 0 then 0 else nanos mod max_jitter.

Definition no_retry : RetryConfig :=
  {| max_retries := 0; initial_delay_ms := 0; max_delay_ms := 0; backoff := fun d => d;
     confirmation_timeout_ms := 60000 |}.

(** The timeout and the bound of an executor, for its owner. *)
Definition confirmation_timeout (config : RetryConfig) : Z := confirmation_timeout_ms config.
Definition executor_max_retries (config : RetryConfig) : Z := max_retries config.

(** [RetryExecutorBuilder]: it starts from the defaults, and every call sets a field. *)
Definition set_max_retries (retries : Z) (c : RetryConfig) : RetryConfig :=
  {| max_retries := retries; initial_delay_ms := initial_delay_ms c; max_delay_ms := max_delay_ms c; backoff := backoff c;
     confirmation_timeout_ms := confirmation_timeout_ms c |}.
Definition set_initial_delay_ms (delay : Z) (c : RetryConfig) : RetryConfig :=
  {| max_retries := max_retries c; initial_delay_ms := delay; max_delay_ms := max_delay_ms c; backoff := backoff c;
     confirmation_timeout_ms := confirmation_timeout_ms c |}.
Definition set_max_delay_ms (delay : Z) (c : RetryConfig) : RetryConfig :=
  {| max_retries := max_retries c; initial_delay_ms := initial_delay_ms c; max_delay_ms := delay; backoff := backoff c;
     confirmation_timeout_ms := confirmation_timeout_ms c |}.
Definition set_backoff_multiplier (multiply : Z -> Z) (c : RetryConfig) : RetryConfig :=
  {| max_retries := max_retries c; initial_delay_ms := initial_delay_ms c; max_delay_ms := max_delay_ms c; backoff := multiply;
     confirmation_timeout_ms := confirmation_timeout_ms c |}.
Definition set_confirmation_timeout_ms (timeout : Z) (c : RetryConfig) : RetryConfig :=
  {| max_retries := max_retries c; initial_delay_ms := initial_delay_ms c; max_delay_ms := max_delay_ms c; backoff := backoff c;
     confirmation_timeout_ms := timeout |}.

(** The [loop] of [execute]; [operation n] is the outcome of the [n]-th call and
    [clock n] the time read after it.  The result comes with the times slept; [None]:
    out of fuel. *)
Fixpoint execute_loop (fuel : nat) (config : RetryConfig) (operation : Z -> res BridgeError T) (clock : Z -> Z)
    (attempts delay : Z) : option (res BridgeError T * list Z) :=
  match fuel with
  | O => None
  | S fuel =>
      let attempts := u32 (attempts + 1) in
      match operation attempts with
      | Ok result => Some (Ok result, [])
      | Panic => Some (Panic, [])
      | Err e =>
          if negb (is_retryable e) || (max_retries config <? attempts) then Some (Err e, [])
          else
            let delay := match retry_hint_ms e with Some hint => Z.max delay hint | None => delay end in
            let wait_time := u64 (delay + jitter delay (clock attempts)) in
            let delay := Z.min (backoff config delay) (max_delay_ms config) in
            r ← execute_loop fuel config operation clock attempts delay;
            Some (r.1, wait_time :: r.2)
      end
  end.

(** The retries are bounded by the configuration, and so is the fuel. *)
Definition execute (config : RetryConfig) (operation : Z -> res BridgeError T) (clock : Z -> Z)
    : option (res BridgeError T * list Z) :=
  execute_loop (Z.to_nat (max_retries config + 1)) config operation clock 0 (initial_delay_ms config).

(** Operations with errors of another type. *)
Definition execute_with {E} (convert : E -> BridgeError) (config : RetryConfig) (operation : Z -> res E T) (clock : Z -> Z)
    : option (res BridgeError T * list Z) :=
  execute config (fun n => match operation n with Ok x => Ok x | Err e => Err (convert e) | Panic => Panic end) clock.

(** *** Theorems *)

(** An outcome after which the operation is called again, as the [n]-th failed. *)
Definition retried (config : RetryConfig) (n : Z) (r : res BridgeError T) : Prop :=
  exists e, r = Err e /\ is_retryable e = true /\ n <= max_retries config.

Lemma execute_loop_spec fuel config operation clock attempts delay :
  0 <= attempts <= max_retries config -> max_retries config < 2 ^ 32 - 1 ->
  Z.of_nat fuel = max_retries config + 1 - attempts ->
  exists k r waits, execute_loop fuel config operation clock attempts delay = Some (r, waits) /\
    attempts < k <= max_retries config + 1 /\ r = operation k /\ ~ retried config k r /\
    (forall n, attempts < n < k -> retried config n (operation n)) /\ len waits = k - attempts - 1.
Proof.
  revert attempts delay. induction fuel as [|fuel IH]; intros attempts delay Ha Hm Hf; [lia|].
  cbn [execute_loop]. cbv zeta. rewrite wrap_id by (unfold in_width; lia).
  assert (forall r, ~ retried config (attempts + 1) r -> r = operation (attempts + 1) ->
    exists k r' (waits : list Z), Some (r, []) = Some (r', waits) /\ attempts < k <= max_retries config + 1 /\ r' = operation k /\
      ~ retried config k r' /\ (forall n, attempts < n < k -> retried config n (operation n)) /\
      len waits = k - attempts - 1) as Hstop.
  { intros r Hn Hr. exists (attempts + 1), r, []. split; [done|]. split; [lia|]. split; [done|]. split; [done|].
    split; [intros n Hn'; lia|rewrite len_nil; lia]. }
  destruct (operation (attempts + 1)) as [a|e|] eqn:Eo.
  - apply Hstop; [by intros (? & ? & _)|done].
  - destruct (negb (is_retryable e) || (max_retries config <? attempts + 1)) eqn:Ec.
    + apply Hstop; [|done]. intros (e' & [= <-] & Hr & Hle). rewrite Hr in Ec. apply Z.ltb_lt in Ec. lia.
    + apply orb_false_iff in Ec as [Hr Hle]. apply negb_false_iff in Hr. apply Z.ltb_ge in Hle.
      match goal with |- context [execute_loop fuel config operation clock (attempts + 1) ?d] =>
        destruct (IH (attempts + 1) d ltac:(lia) Hm ltac:(lia)) as (k & r & waits & -> & Hk & Hrk & Hn & Hall & Hl) end.
      eexists k, r, (_ :: waits). split; [reflexivity|]. split; [lia|]. split; [done|]. split; [done|]. split.
      * intros n Hn'. destruct (decide (n = attempts + 1)) as [->|Hne]; [rewrite Eo; by exists e|]. apply Hall. lia.
      * rewrite len_cons. lia.
  - apply Hstop; [by intros (? & ? & _)|done].
Qed.

(** Retries end and return the decisive outcome.  For every operation, the executor
    stops after at most [max_retries + 1] calls; the calls before the last all failed
    with retryable errors, the last succeeded, failed for good or was the last allowed,
    its outcome is the result, and there was one pause between any two calls. *)
Theorem retry_terminates config operation clock :
  0 <= max_retries config < 2 ^ 32 - 1 ->
  exists k r waits, execute config operation clock = Some (r, waits) /\
    1 <= k <= max_retries config + 1 /\ r = operation k /\ ~ retried config k r /\
    (forall n, 1 <= n < k -> retried config n (operation n)) /\ len waits = k - 1.
Proof.
  intros Hm. unfold execute.
  destruct (execute_loop_spec (Z.to_nat (max_retries config + 1)) config operation clock 0 (initial_delay_ms config))
    as (k & r & waits & Hx & Hk & Hr & Hn & Hall & Hl); [lia..|].
  exists k, r, waits. split; [done|]. split; [lia|]. split; [done|]. split; [done|].
  split; [intros n Hn'; apply Hall; lia|lia].
Qed.
End retry.

(** ** rpc/rate_limiter.rs *)

Section rate_limiter.
Context `{ForeignErrors}.

Record RpcRateLimiter := {
  rl_config : RateLimitConfig;
  queue_size : Z
}.

Definition limiter_new (config : RateLimitConfig) : RpcRateLimiter := {| rl_config := config; queue_size := 0 |}.

Definition default_limiter : RpcRateLimiter := limiter_new RateLimitConfig_default.
Definition unlimited : RpcRateLimiter :=
  limiter_new {| max_rps := 2 ^ 32 - 1; burst_size := 2 ^ 32 - 1; queue_on_limit := false; max_queue_depth := 0 |}.
Definition queue_depth (self : RpcRateLimiter) : Z := queue_size self.

(** [1000 / max_rps] panics when the rate is zero. *)
Definition estimated_wait_ms (self : RpcRateLimiter) : res BridgeError Z :=
  or_panic (checked_div 1000 (max_rps (rl_config self))).

(** [acquire] up to the point where it waits for the token bucket: [Ok true] when it
    is done at once, [Ok false] when it waits.  [check] is the bucket's answer. *)
Definition acquire_begin (check : bool) (self : RpcRateLimiter) : res BridgeError bool * RpcRateLimiter :=
  if check then (Ok true, self) else
  if queue_on_limit (rl_config self) && (max_queue_depth (rl_config self) <=? queue_size self) then
    try retry_after_ms <- estimated_wait_ms self on self;
    (Err (RateLimited retry_after_ms), self)
  else (Ok false, {| rl_config := rl_config self; queue_size := queue_size self + 1 |}).

(** [acquire] after the wait. *)
Definition acquire_end (self : RpcRateLimiter) : RpcRateLimiter :=
  {| rl_config := rl_config self; queue_size := Z.max 0 (queue_size self - 1) |}.

Definition try_acquire (check : bool) (self : RpcRateLimiter) : bool := check.

(** [would_allow] asks the bucket like a request. *)
Definition would_allow (check : bool) (self : RpcRateLimiter) : bool := check.

(** [RateLimitedExecutor]: the operation runs once a slot has been acquired. *)
Record RateLimitedExecutor {T : Type} := {
  inner : T;
  limiter : RpcRateLimiter
}.
Arguments RateLimitedExecutor : clear implicits.

Definition limited_execute {T R} (acquired : res BridgeError unit) (f : T -> res BridgeError R) (self : RateLimitedExecutor T)
    : res BridgeError R :=
  try _ <- acquired; f (inner self).

(** *** Requests that run at the same time *)

(** The limiter, the number of requests that wait for the bucket, and the number of
    requests that were cancelled while they waited, as [abort] of a task does it. *)
Inductive limiter_step : RpcRateLimiter * nat * nat -> RpcRateLimiter * nat * nat -> Prop :=
  | step_granted l n c l' :
      acquire_begin true l = (Ok true, l') -> limiter_step (l, n, c) (l', n, c)
  | step_waits l n c l' :
      acquire_begin false l = (Ok false, l') -> limiter_step (l, n, c) (l', S n, c)
  | step_rejected l n c e l' :
      acquire_begin false l = (Err e, l') -> limiter_step (l, n, c) (l', n, c)
  | step_ready l n c : limiter_step (l, S n, c) (acquire_end l, n, c)
  | step_cancelled l n c : limiter_step (l, S n, c) (l, n, S c).

(** What holds of the limiter all the time. *)
Definition limiter_inv (config : RateLimitConfig) (x : RpcRateLimiter * nat * nat) : Prop :=
  let '(l, n, c) := x in
  rl_config l = config /\ queue_size l = Z.of_nat (n + c) /\
  (queue_on_limit config = true -> Z.of_nat (n + c) <= Z.max 0 (max_queue_depth config)).

Lemma limiter_step_inv config x y : limiter_step x y -> limiter_inv config x -> limiter_inv config y.
Proof.
  unfold limiter_inv. intros Hs. destruct Hs as [l n c l' Ha|l n c l' Ha|l n c e l' Ha|l n c|l n c]; intros (Hc & Hq & Hb).
  - by injection Ha as <-.
  - unfold acquire_begin in Ha. destruct (queue_on_limit (rl_config l) && _) eqn:E.
    { destruct (estimated_wait_ms l); discriminate Ha. }
    injection Ha as <-. cbn [rl_config queue_size]. split; [done|]. split; [lia|]. intros Hon.
    rewrite Hc, Hon in E. apply Z.leb_gt in E. lia.
  - unfold acquire_begin in Ha. destruct (queue_on_limit (rl_config l) && _); [|discriminate Ha].
    by destruct (estimated_wait_ms l); injection Ha as _ <-.
  - cbn [rl_config queue_size acquire_end]. split; [done|]. split; [lia|]. intros Hon. specialize (Hb Hon). lia.
  - split; [done|]. split; [lia|]. intros Hon. specialize (Hb Hon). lia.
Qed.

Lemma limiter_inv_reachable config x : rtc limiter_step (limiter_new config, O, O) x -> limiter_inv config x.
Proof.
  intros Hr. assert (limiter_inv config (limiter_new config, O, O)) as Hi by (split_and!; cbn; lia || done).
  induction Hr; [done|]. by eauto using limiter_step_inv.
Qed.

(** The queue of the rate limiter is counted and bounded.  However requests
    interleave, the counter is the number of requests that wait or were cancelled while
    they waited; with [queue_on_limit] it never exceeds [max_queue_depth], and a request is
    turned away only when the counter has reached that bound. *)
Theorem limiter_queue_bounded config l n c :
  rtc limiter_step (limiter_new config, O, O) (l, n, c) ->
  queue_size l = Z.of_nat (n + c) /\
  (queue_on_limit config = true -> Z.of_nat (n + c) <= Z.max 0 (max_queue_depth config)) /\
  (forall e l', acquire_begin false l = (Err e, l') ->
     queue_on_limit config = true /\ max_queue_depth config <= Z.of_nat (n + c) /\ l' = l).
Proof.
  intros Hr. destruct (limiter_inv_reachable _ _ Hr) as (Hc & Hq & Hb).
  split; [done|]. split; [done|]. intros e l' Ha. unfold acquire_begin in Ha.
  destruct (queue_on_limit (rl_config l) && _) eqn:E; [|discriminate Ha].
  apply andb_true_iff in E as [Eon Ed]. apply Z.leb_le in Ed. rewrite Hc in *. split; [done|]. split; [lia|].
  by destruct (estimated_wait_ms l); [injection Ha as _ <-|injection Ha as _ <-|discriminate Ha].
Qed.

(** Nothing gives back the places of cancelled requests: once [max_queue_depth] of them
    were cancelled, every request that the bucket does not let pass at once is turned
    away, although none waits. *)
Lemma cancelled_requests_fill_queue config l c :
  rtc limiter_step (limiter_new config, O, O) (l, O, c) ->
  queue_on_limit config = true -> 0 < max_rps config -> max_queue_depth config <= Z.of_nat c ->
  acquire_begin false l = (Err (RateLimited (1000 / max_rps config)), l).
Proof.
  intros Hr Hon Hrps Hd. destruct (limiter_inv_reachable _ _ Hr) as (Hc & Hq & _). unfold acquire_begin, estimated_wait_ms.
  rewrite Hc, Hon, Hq. cbn [andb]. rewrite (proj2 (Z.leb_le _ _)) by lia. unfold checked_div. by destruct (max_rps config).
Qed.

(** A request was cancelled while it waited: requests that start together wait, and are
    all cancelled. *)
Lemma cancelled_reachable config (n : nat) :
  Z.of_nat n <= max_queue_depth config \/ queue_on_limit config = false ->
  rtc limiter_step (limiter_new config, O, O) ({| rl_config := config; queue_size := Z.of_nat n |}, O, n).
Proof.
  induction n as [|n IH]; intros Hn; [done|]. etrans; [apply IH; destruct Hn; [left; lia|by right]|].
  eapply rtc_l; [eapply step_waits|eapply rtc_l; [apply step_cancelled|]].
  - unfold acquire_begin. cbn [rl_config queue_size]. replace (queue_on_limit config && _) with false; [reflexivity|].
    symmetry. apply andb_false_iff. destruct Hn; [right; apply Z.leb_gt; lia|by left].
  - replace (Z.of_nat (S n)) with (Z.of_nat n + 1) by lia. apply rtc_refl.
Qed.
End rate_limiter.

(** ** Witnesses *)

#[local] Instance no_foreign_errors : ForeignErrors := {| client_error := unit; anyhow_error := Empty_set |}.

(** Two timeouts, then a result. *)
Definition flaky (n : Z) : res BridgeError Z := if n <? 3 then Err ConnectionTimeout else Ok 42.

Lemma retry_terminates_witness :
  exists waits, execute RetryConfig_default flaky (fun _ => 0) = Some (Ok 42, waits) /\ len waits = 2.
Proof.
  destruct (retry_terminates RetryConfig_default flaky (fun _ => 0)) as (k & r & waits & Hx & Hk & Hr & Hn & Hall & Hl);
    [cbn; lia|].
  assert (k = 3) as ->.
  { cbn in Hk. destruct (Z.lt_trichotomy k 3) as [H3|[H3|H3]]; [|done|].
    - exfalso. apply Hn. rewrite Hr. exists ConnectionTimeout. unfold flaky. rewrite (proj2 (Z.ltb_lt k 3)) by done.
      cbn. split; [done|]. split; [done|]. lia.
    - destruct (Hall 3) as (e & He & _); [lia|]. discriminate He. }
  exists waits. split; [by rewrite Hx, Hr|lia].
Defined.

Lemma limiter_queue_bounded_witness :
  exists l, rtc limiter_step (limiter_new RateLimitConfig_default, O, O) (l, 1%nat, O) /\ queue_size l = 1.
Proof.
  eexists. split; [eapply rtc_once, step_waits; reflexivity|].
  apply (limiter_queue_bounded RateLimitConfig_default _ 1 0). eapply rtc_once, step_waits. reflexivity.
Defined.

(** A hundred requests of the default limiter that were cancelled. *)
Example default_queue_full :
  acquire_begin false {| rl_config := RateLimitConfig_default; queue_size := 100 |}
  = (Err (RateLimited 100), {| rl_config := RateLimitConfig_default; queue_size := 100 |}).
Proof.
  apply (cancelled_requests_fill_queue RateLimitConfig_default _ 100); [|done|done|done].
  apply (cancelled_reachable RateLimitConfig_default 100). by left.
Qed.
End RpcClient.
