(* ===== verification/BufferManager.v ===== *)
(** * BufferManager: the client's uploads, transaction by transaction

    Models [clients/rust/src/buffer_manager.rs] (one transaction after the other) and
    [buffer/manager.rs] (batches of concurrent transactions with retries).  The network
    is the interface [Cluster]: a transaction that is submitted may change the store
    even when its submission ends with an error, for example when its confirmation
    times out.  Concurrent transactions are interleaved as a scheduler decides. *)
From S2P Require Import Prelude Errors Pod Hash Types Runtime TxoBuffer MintBuffer BufferClient RpcClient.
From Stdlib Require Import ZArith Lia.
From stdpp Require Import base decidable list numbers option countable gmap.
Import BufferClient.

Open Scope Z_scope.
Open Scope bridge_scope.

Class Cluster `{ForeignErrors} := {
  (** [rate_limiter.acquire()] *)
  acquire_slot : World -> res RpcClient.BridgeError unit;
  (** [get_account_with_commitment], of which the data is used *)
  account_data : World -> Pubkey -> res RpcClient.BridgeError (option bytes);
  (** [get_minimum_balance_for_rent_exemption] *)
  rent_exemption : Z -> res RpcClient.BridgeError Z;
  (** [get_latest_blockhash] and [send_and_confirm_transaction], with the signers *)
  submit : list Instruction -> list Pubkey -> World -> res RpcClient.BridgeError unit * World
}.

Module BufferManager.
Section manager.
Context `{Runtime} `{ForeignErrors} `{!Cluster}.
Abbreviation outcome A := (res RpcClient.BridgeError A * World)%type.

(** Transactions one after the other; the first error ends the sequence. *)
Fixpoint send_each (l : list (list Instruction * list Pubkey)) (w : World) : outcome unit :=
  match l with
  | [] => (Ok tt, w)
  | (ixs, signers) :: l => call (_, w) <- submit ixs signers w into id; send_each l w
  end.

(** [data.chunks(CHUNK_SIZE).enumerate()] with the offsets. *)
Definition offset_chunks (d : bytes) : list (Z * bytes) :=
  imap (fun i chunk => (u32 (Z.of_nat i * CHUNK_SIZE), chunk)) (slice_chunks 900 d).

(** ** buffer_manager.rs *)

Definition send_tx (payer : Pubkey) (ixs : list Instruction) (extra_signers : list Pubkey) (w : World) : outcome unit :=
  submit ixs (payer :: extra_signers) w.

(** [buffer_pubkey] is a fresh key pair. *)
Definition create_generic_buffer (payer buffer_pubkey program_id : Pubkey) (d : bytes) (w : World) : outcome Pubkey :=
  let target_size := u32 (len d) in
  let space := 32 in
  try rent <- rent_exemption space on w;
  let create_ix := SystemCreateAccount payer buffer_pubkey rent space program_id in
  let init_ix := generic_buffer_init program_id buffer_pubkey payer target_size in
  call (_, w) <- send_tx payer [create_ix; init_ix] [buffer_pubkey] w into id;
  call (_, w) <- send_each ((fun oc => ([generic_buffer_write program_id buffer_pubkey payer oc.1 oc.2], [payer]))
                              <$> offset_chunks d) w into id;
  (Ok buffer_pubkey, w).

(** The loop over the groups, with the slices that it takes. *)
Definition group_inserts (program_id buffer_pubkey payer : Pubkey) (mints : list PendingMint) : option (list Instruction) :=
  let groups_count := (len mints + PM_MAX_PENDING_MINTS_PER_GROUP - 1) / PM_MAX_PENDING_MINTS_PER_GROUP in
  mapM (fun group_idx =>
    let start := group_idx * PM_MAX_PENDING_MINTS_PER_GROUP in
    let end_ := Z.min (start + PM_MAX_PENDING_MINTS_PER_GROUP) (len mints) in
    group_mints ← slice start end_ mints;
    Some (pending_mint_insert program_id buffer_pubkey payer (u16 group_idx) (concat (bytes_of <$> group_mints))))
    (seqZ 0 groups_count).

Definition create_pending_mint_buffer (payer program_id locker : Pubkey) (mints : list PendingMint) (w : World)
    : outcome (Pubkey * Z) :=
  let '(buffer_pubkey, bump) := find_program_address [MintBuffer.mint_buffer_seed; payer] program_id in
  try account_info <- account_data w buffer_pubkey on w;
  call (_, w) <-
    (match account_info with
     | Some _ => (Ok tt, w)
     | None =>
         try rent <- rent_exemption 72 on w;
         send_tx payer [SystemTransfer payer buffer_pubkey rent; pending_mint_setup program_id buffer_pubkey locker payer]
           [] w
     end) into id;
  let total_mints := u16 (len mints) in
  call (_, w) <- send_tx payer [pending_mint_reinit program_id buffer_pubkey payer total_mints] [] w into id;
  try inserts <- or_panic (group_inserts program_id buffer_pubkey payer mints) on w;
  call (_, w) <- send_each ((fun ix => ([ix], [payer])) <$> inserts) w into id;
  (Ok (buffer_pubkey, bump), w).

(** [data[40..44]] panics on a shorter account. *)
Definition batch_after (d : bytes) : option Z := b ← slice 40 44 d; Some (u32 (1 + le_val b)).

Definition create_txo_buffer (payer program_id : Pubkey) (doge_block_height : Z) (txo_indices : list Z) (w : World)
    : outcome (Pubkey * Z) :=
  let '(buffer_pubkey, bump) := find_program_address [TxoBuffer.txo_buffer_seed; payer] program_id in
  let txo_bytes := concat (le_bytes 4 <$> txo_indices) in
  let total_len := u32 (len txo_bytes) in
  try account_info <- account_data w buffer_pubkey on w;
  call (batch_id, w) <-
    (match account_info with
     | None =>
         try rent <- rent_exemption 48 on w;
         call (_, w) <- send_tx payer [SystemTransfer payer buffer_pubkey rent;
                                       txo_buffer_init program_id buffer_pubkey payer] [] w into id;
         (Ok 0, w)
     | Some d => try batch_id <- or_panic (batch_after d) on w; (Ok batch_id, w)
     end) into id;
  call (_, w) <- send_tx payer [txo_buffer_set_len program_id buffer_pubkey payer payer total_len true batch_id
                                  doge_block_height false] [] w into id;
  call (_, w) <- send_each ((fun oc => ([txo_buffer_write program_id buffer_pubkey payer batch_id oc.1 oc.2], [payer]))
                              <$> offset_chunks txo_bytes) w into id;
  call (_, w) <- send_tx payer [txo_buffer_set_len program_id buffer_pubkey payer payer total_len false batch_id
                                  doge_block_height true] [] w into id;
  (Ok (buffer_pubkey, bump), w).

(** ** buffer/manager.rs *)

Record ParallelismConfig := {
  max_concurrent_writes : Z;
  max_concurrent_resizes : Z;
  group_batch_size : Z
}.

Definition ParallelismConfig_default : ParallelismConfig :=
  {| max_concurrent_writes := 4; max_concurrent_resizes := 2; group_batch_size := 4 |}.

(** [pm_pick n m] is the task, of [m], that makes the next step when [n] steps are left
    after it. *)
Record ParallelBufferManager := {
  pm_payer : Pubkey;
  pm_operator : Pubkey;
  pm_retry : RpcClient.RetryConfig;
  pm_config : ParallelismConfig;
  pm_pick : nat -> nat -> nat
}.

(** The retries of the executor around a submission. *)
Fixpoint submit_retrying (retries : nat) (ixs : list Instruction) (signers : list Pubkey) (w : World) : outcome unit :=
  match submit ixs signers w with
  | (Err e, w) =>
      match retries with
      | S retries => if RpcClient.is_retryable e then submit_retrying retries ixs signers w else (Err e, w)
      | O => (Err e, w)
      end
  | r => r
  end.

Definition retries_of (self : ParallelBufferManager) : nat := Z.to_nat (RpcClient.max_retries (pm_retry self)).

(** A task of [try_join_all]: a transaction, its signers, whether it has its slot of the
    limiter, and the retries it has left. *)
Record Task := { task_ixs : list Instruction; task_signers : list Pubkey; task_ready : bool; task_retries : nat }.

Definition with_slot (t : Task) : Task :=
  {| task_ixs := task_ixs t; task_signers := task_signers t; task_ready := true; task_retries := task_retries t |}.
Definition with_retries (n : nat) (t : Task) : Task :=
  {| task_ixs := task_ixs t; task_signers := task_signers t; task_ready := task_ready t; task_retries := n |}.

(** [try_join_all]: the tasks make steps in the order of the scheduler, first to take a
    slot and then to submit; a task that succeeds is done, an error that is not retried
    ends the whole.  The recursion is over the number of steps, which the retries
    bound. *)
Fixpoint join_tasks (steps : nat) (pick : nat -> nat -> nat) (tasks : list Task) (w : World) : outcome unit :=
  match tasks with
  | [] => (Ok tt, w)
  | _ =>
      match steps with
      | O => (Panic, w)
      | S steps =>
          let i := (pick steps (length tasks) mod length tasks)%nat in
          match tasks !! i with
          | None => (Panic, w)
          | Some t =>
              if task_ready t then
                match submit (task_ixs t) (task_signers t) w with
                | (Ok _, w) => join_tasks steps pick (delete i tasks) w
                | (Err e, w) =>
                    match task_retries t with
                    | S n => if RpcClient.is_retryable e then join_tasks steps pick (<[i := with_retries n t]> tasks) w
                             else (Err e, w)
                    | O => (Err e, w)
                    end
                | (Panic, w) => (Panic, w)
                end
              else
                try _ <- acquire_slot w on w;
                join_tasks steps pick (<[i := with_slot t]> tasks) w
          end
      end
  end.

(** The steps that the tasks can make. *)
Definition task_steps (t : Task) : nat := ((if task_ready t then 1 else 2) + task_retries t)%nat.
Definition steps_of (tasks : list Task) : nat := sum_list_with task_steps tasks.

Definition join_batch (self : ParallelBufferManager) (signers : list Pubkey) (batch : list Instruction) (w : World)
    : outcome unit :=
  let tasks := (fun ix => {| task_ixs := [ix]; task_signers := signers; task_ready := false;
                             task_retries := retries_of self |}) <$> batch in
  join_tasks (steps_of tasks) (pm_pick self) tasks w.

(** [(0..n).step_by(size)] panics when [size] is zero. *)
Fixpoint join_batches (self : ParallelBufferManager) (signers : list Pubkey) (batches : list (list Instruction))
    (w : World) : outcome unit :=
  match batches with
  | [] => (Ok tt, w)
  | batch :: batches => call (_, w) <- join_batch self signers batch w into id; join_batches self signers batches w
  end.

Definition batches_of (size : Z) (l : list Instruction) : option (list (list Instruction)) :=
  if size =? 0 then None else Some (slice_chunks (Z.to_nat size) l).

Definition send_and_confirm (self : ParallelBufferManager) (ixs : list Instruction) (w : World) : outcome unit :=
  try _ <- acquire_slot w on w;
  submit_retrying (retries_of self) ixs [pm_payer self] w.

Definition send_and_confirm_with_operator (self : ParallelBufferManager) (ixs : list Instruction) (w : World)
    : outcome unit :=
  try _ <- acquire_slot w on w;
  submit_retrying (retries_of self) ixs [pm_payer self; pm_operator self] w.

Definition send_and_confirm_with_signer (self : ParallelBufferManager) (ixs : list Instruction) (extra_signer : Pubkey)
    (w : World) : outcome unit :=
  try _ <- acquire_slot w on w;
  submit_retrying (retries_of self) ixs [pm_payer self; extra_signer] w.

Definition ensure_pending_mint_buffer_exists (self : ParallelBufferManager) (program_id buffer_pubkey locker : Pubkey)
    (w : World) : outcome unit :=
  try _ <- acquire_slot w on w;
  try account <- account_data w buffer_pubkey on w;
  match account with
  | Some _ => (Ok tt, w)
  | None =>
      try rent <- rent_exemption PENDING_MINT_BUFFER_HEADER_SIZE on w;
      send_and_confirm self [SystemTransfer (pm_payer self) buffer_pubkey rent;
                             pending_mint_setup program_id buffer_pubkey locker (pm_operator self)] w
  end.

Definition parallel_create_pending_mint_buffer (self : ParallelBufferManager) (program_id locker : Pubkey)
    (mints : list PendingMint) (w : World) : outcome (Pubkey * Z) :=
  let '(buffer_pubkey, bump) := find_program_address [MintBuffer.mint_buffer_seed; pm_operator self] program_id in
  call (_, w) <- ensure_pending_mint_buffer_exists self program_id buffer_pubkey locker w into id;
  if bool_decide (mints = []) then (Ok (buffer_pubkey, bump), w) else
  let total_mints := u16 (len mints) in
  call (_, w) <- send_and_confirm_with_operator self
                   [pending_mint_reinit program_id buffer_pubkey (pm_operator self) total_mints] w into id;
  let builder := {| BufferClient.mints := mints |} in
  try inserts <- or_panic (mapM (fun group_idx =>
      group_data ← serialize_group builder group_idx;
      Some (pending_mint_insert program_id buffer_pubkey (pm_operator self) (u16 group_idx) group_data))
    (seqZ 0 (num_groups builder))) on w;
  try batches <- or_panic (batches_of (group_batch_size (pm_config self)) inserts) on w;
  call (_, w) <- join_batches self [pm_payer self; pm_operator self] batches w into id;
  (Ok (buffer_pubkey, bump), w).

(** An account of fewer than 44 bytes is an error here; its text is left out. *)
Definition ensure_txo_buffer_exists (self : ParallelBufferManager) (program_id buffer_pubkey : Pubkey) (w : World)
    : outcome Z :=
  try _ <- acquire_slot w on w;
  try account <- account_data w buffer_pubkey on w;
  match account with
  | Some d => try batch_id <- ok_or (batch_after d) (RpcClient.buffer_failed []) on w; (Ok batch_id, w)
  | None =>
      try rent <- rent_exemption TXO_BUFFER_HEADER_SIZE on w;
      call (_, w) <- send_and_confirm self [SystemTransfer (pm_payer self) buffer_pubkey rent;
                                            txo_buffer_init program_id buffer_pubkey (pm_operator self)] w into id;
      (Ok 0, w)
  end.

Definition set_txo_buffer_length (self : ParallelBufferManager) (program_id buffer_pubkey : Pubkey)
    (data_size batch_id block_height : Z) (resize finalize : bool) (w : World) : outcome unit :=
  send_and_confirm_with_operator self
    [txo_buffer_set_len program_id buffer_pubkey (pm_payer self) (pm_operator self) data_size resize batch_id
       block_height finalize] w.

Definition parallel_create_txo_buffer (self : ParallelBufferManager) (program_id : Pubkey) (block_height : Z)
    (txo_indices : list Z) (w : World) : outcome (Pubkey * Z) :=
  let '(buffer_pubkey, bump) := find_program_address [TxoBuffer.txo_buffer_seed; pm_operator self] program_id in
  call (batch_id, w) <- ensure_txo_buffer_exists self program_id buffer_pubkey w into id;
  let builder := {| indices := txo_indices; BufferClient.block_height := block_height |} in
  let data_size := u32 (data_size builder) in
  call (_, w) <- set_txo_buffer_length self program_id buffer_pubkey data_size batch_id block_height true false w into id;
  let writes := (fun oc => txo_buffer_write program_id buffer_pubkey (pm_operator self) batch_id (u32 oc.1) oc.2)
                  <$> chunks builder in
  try batches <- or_panic (batches_of (max_concurrent_writes (pm_config self)) writes) on w;
  call (_, w) <- join_batches self [pm_payer self; pm_operator self] batches w into id;
  call (_, w) <- set_txo_buffer_length self program_id buffer_pubkey data_size batch_id block_height false true w into id;
  (Ok (buffer_pubkey, bump), w).

Definition parallel_create_generic_buffer (self : ParallelBufferManager) (buffer_pubkey program_id : Pubkey) (d : bytes)
    (w : World) : outcome Pubkey :=
  let target_size := u32 (len d) in
  let space := 32 in
  try rent <- rent_exemption space on w;
  let create_ix := SystemCreateAccount (pm_payer self) buffer_pubkey rent space program_id in
  let init_ix := generic_buffer_init program_id buffer_pubkey (pm_payer self) target_size in
  call (_, w) <- send_and_confirm_with_signer self [create_ix; init_ix] buffer_pubkey w into id;
  let writes := (fun oc => generic_buffer_write program_id buffer_pubkey (pm_payer self) oc.1 oc.2) <$> offset_chunks d in
  try batches <- or_panic (batches_of (max_concurrent_writes (pm_config self)) writes) on w;
  call (_, w) <- join_batches self [pm_payer self] batches w into id;
  (Ok buffer_pubkey, w).
End manager.
End BufferManager.
