(* ===== verification/BufferManagerProofs.v ===== *)
(** * BufferManagerProofs: the managers' uploads end in an accepted buffer

    Joins the client's managers ([BufferManager.v]), the TXO buffer program and the
    bridge's check ([TxoUpload.v]): on a network that executes what it is given, both
    managers succeed, whatever the scheduler does with the concurrent writes. *)
From S2P Require Import Prelude Errors Pod Hash Sha256 Types Runtime TxoBuffer TxoBufferProofs BufferClient MintGroup ProgramState BlockUpdate TxoUpload RpcClient BufferManager.
From Stdlib Require Import ZArith Lia Permutation.
From stdpp Require Import base decidable list numbers option countable gmap.
Import BufferClient BufferManager.

Open Scope Z_scope.
Open Scope bridge_scope.

(** ** Steps of tasks *)

Lemma steps_of_delete tasks i t :
  tasks !! i = Some t -> steps_of tasks = (task_steps t + steps_of (delete i tasks))%nat.
Proof.
  revert i. induction tasks as [|x tasks IH]; intros [|i] Hi; try discriminate Hi.
  - by injection Hi as ->.
  - cbn [lookup list_lookup] in Hi. unfold steps_of in *. change (delete (S i) (x :: tasks)) with (x :: delete i tasks).
    cbn [sum_list_with]. rewrite (IH i Hi). lia.
Qed.

Lemma steps_of_insert tasks i t t' :
  tasks !! i = Some t -> (steps_of (<[i := t']> tasks) + task_steps t = steps_of tasks + task_steps t')%nat.
Proof.
  revert i. induction tasks as [|x tasks IH]; intros [|i] Hi; try discriminate Hi.
  - injection Hi as ->. unfold steps_of. cbn [insert list_insert sum_list_with]. lia.
  - cbn [lookup list_lookup] in Hi. unfold steps_of in *. change (<[S i := t']> (x :: tasks)) with (x :: <[i := t']> tasks).
    cbn [sum_list_with]. specialize (IH i Hi). lia.
Qed.

Lemma concat_slice_chunks {A} (n : nat) (l : list A) : (0 < n)%nat -> concat (slice_chunks n l) = l.
Proof.
  intros Hn. unfold slice_chunks. rewrite concat_pieces. apply take_ge.
  pose proof (Nat.div_mod_eq (length l + n - 1) n). pose proof (Nat.mod_upper_bound (length l + n - 1) n ltac:(lia)). nia.
Qed.

(** ** A network that executes what it is given *)

(** The limiter lets everything pass, and a transaction with one instruction of the
    program, signed by the writer, has the effect of the program. *)
Definition executes_program `{Runtime} `{ForeignErrors} `{!Cluster}
    (entry : Pubkey -> list AccountInfo -> bytes -> World -> res ProgramError World) (pid writer : Pubkey) : Prop :=
  (forall w, acquire_slot w = Ok tt) /\
  forall w w' metas d signers, writer ∈ signers ->
    deliver entry (RawInstruction pid metas d) w = Ok w' ->
    submit [RawInstruction pid metas d] signers w = (Ok tt, w').

Lemma submit_retrying_ok `{Runtime} `{ForeignErrors} `{!Cluster} n ixs signers w w' :
  submit ixs signers w = (Ok tt, w') -> submit_retrying n ixs signers w = (Ok tt, w').
Proof. intros Hs. destruct n; cbn [submit_retrying]; by rewrite Hs. Qed.

Section reliable.
Context `{Runtime} `{ForeignErrors} `{!Cluster}.
Context (entry : Pubkey -> list AccountInfo -> bytes -> World -> res ProgramError World).
(** [Inv l w]: in [w] the instructions [l] are still to come, in any order. *)
Context (signers : list Pubkey) (Inv : list Instruction -> World -> Prop).
Context (Hslot : forall w, acquire_slot w = Ok tt).
Context (Hperm : forall l l' w, l ≡ₚ l' -> Inv l w -> Inv l' w).
Context (Hworks : forall w ix l, Inv (ix :: l) w -> exists w', deliver entry ix w = Ok w' /\ Inv l w').
Context (Hsubmit : forall w w' ix l, Inv (ix :: l) w -> deliver entry ix w = Ok w' -> submit [ix] signers w = (Ok tt, w')).

Lemma deliver_all_join l k w w1 :
  deliver_all entry l w = Ok w1 -> deliver_all entry (l ++ k) w = deliver_all entry k w1.
Proof.
  revert w. induction l as [|i l IH]; intros w Hl; [by injection Hl as ->|].
  cbn [app deliver_all] in *. destruct (deliver entry i w) as [w'| |]; [|discriminate Hl..]. by apply IH.
Qed.

(** The concurrent tasks land one after the other, in some order. *)
Lemma join_tasks_land steps pick tasks rest w :
  Forall (fun t => exists ix, task_ixs t = [ix] /\ task_signers t = signers) tasks ->
  (steps_of tasks <= steps)%nat -> Inv (concat (task_ixs <$> tasks) ++ rest) w ->
  exists order w', order ≡ₚ concat (task_ixs <$> tasks) /\ deliver_all entry order w = Ok w' /\ Inv rest w' /\
    join_tasks steps pick tasks w = (Ok tt, w').
Proof.
  revert tasks w. induction steps as [|steps IH]; intros tasks w Ht Hs Hinv.
  { destruct tasks as [|t tasks]; [by exists [], w|]. unfold steps_of, task_steps in Hs. cbn [sum_list_with] in Hs.
    destruct (task_ready t); lia. }
  destruct tasks as [|t0 tasks0]; [by exists [], w|]. cbn [join_tasks]. set (tasks := t0 :: tasks0) in *.
  assert (0 < length tasks)%nat as Hlen by (cbn; lia). clearbody tasks. clear t0 tasks0.
  set (i := (pick steps (length tasks) mod length tasks)%nat).
  assert (i < length tasks)%nat as Hi by (apply Nat.mod_upper_bound; lia).
  destruct (lookup_lt_is_Some_2 tasks i Hi) as [t Hti].
  rewrite Hti. destruct (Forall_lookup_1 _ _ _ _ Ht Hti) as (ix & Hix & Hsig).
  destruct (task_ready t) eqn:Hready.
  - assert (concat (task_ixs <$> tasks) ≡ₚ ix :: concat (task_ixs <$> delete i tasks)) as Hp.
    { rewrite (delete_Permutation _ _ _ Hti) at 1. rewrite fmap_cons. cbn [concat]. by rewrite Hix. }
    apply (Hperm _ (ix :: concat (task_ixs <$> delete i tasks) ++ rest)) in Hinv; [|by rewrite Hp].
    destruct (Hworks _ _ _ Hinv) as (w1 & Hd & Hinv1). rewrite Hix, Hsig, (Hsubmit _ _ _ _ Hinv Hd).
    destruct (IH (delete i tasks) w1) as (order & w' & Hpo & Hdel & Hinv' & Hj); [by apply Forall_delete| |done|].
    { pose proof (steps_of_delete _ _ _ Hti) as Hst. unfold task_steps in Hst. rewrite Hready in Hst. lia. }
    exists (ix :: order), w'. split; [by rewrite Hp, Hpo|split; [cbn [deliver_all]; by rewrite Hd|done]].
  - rewrite Hslot. cbn [pure_call].
    assert (task_ixs <$> <[i := with_slot t]> tasks = task_ixs <$> tasks) as Hsame.
    { rewrite list_fmap_insert. by rewrite list_insert_id by (by rewrite list_lookup_fmap, Hti). }
    destruct (IH (<[i := with_slot t]> tasks) w) as (order & w' & Hpo & Hrest).
    + apply Forall_insert; [done|]. exists ix. done.
    + pose proof (steps_of_insert _ _ _ (with_slot t) Hti) as Hst. unfold task_steps in Hst at 1 2.
      rewrite Hready in Hst. cbn [with_slot task_ready task_retries] in Hst. lia.
    + by rewrite Hsame.
    + exists order, w'. by rewrite Hsame in Hpo.
Qed.

Lemma join_batches_land self batches w :
  Inv (concat batches) w ->
  exists order w', order ≡ₚ concat batches /\ deliver_all entry order w = Ok w' /\ Inv [] w' /\
    join_batches self signers batches w = (Ok tt, w').
Proof.
  revert w. induction batches as [|batch batches IH]; intros w Hinv; [by exists [], w|].
  cbn [concat] in Hinv. cbn [join_batches]. unfold join_batch. set (tasks := _ <$> batch).
  assert (concat (task_ixs <$> tasks) = batch) as Hixs.
  { unfold tasks. rewrite <- list_fmap_compose. clear. induction batch as [|ix l IHl]; [done|].
    cbn [fmap list_fmap concat] in *. by rewrite IHl. }
  destruct (join_tasks_land (steps_of tasks) (pm_pick self) tasks (concat batches) w) as (o1 & w1 & Hp1 & Hd1 & Hinv1 & ->);
    [|done|by rewrite Hixs|].
  { apply Forall_fmap, list.Forall_forall. intros ix _. by exists ix. }
  rewrite state_call_ok. destruct (IH w1 Hinv1) as (o2 & w2 & Hp2 & Hd2 & Hinv2 & Hj).
  exists (o1 ++ o2), w2. split; [|split; [by rewrite (deliver_all_join _ _ _ _ Hd1)|done]].
  cbn [concat]. by rewrite Hp1, Hp2, Hixs.
Qed.

Lemma send_each_lands l w :
  Inv l w ->
  exists w', deliver_all entry l w = Ok w' /\ Inv [] w' /\ send_each ((fun ix => ([ix], signers)) <$> l) w = (Ok tt, w').
Proof.
  revert w. induction l as [|ix l IH]; intros w Hinv; [by exists w|].
  destruct (Hworks w ix l Hinv) as (w1 & Hd & Hinv1). destruct (IH w1 Hinv1) as (w' & Hd' & Hinv' & Hs).
  exists w'. cbn [deliver_all fmap list_fmap send_each]. rewrite Hd, (Hsubmit _ _ _ _ Hinv Hd), state_call_ok. done.
Qed.
End reliable.

(** ** Uploading outputs *)

Section txos.
Context `{RuntimeLaws} `{Sha256} `{ForeignErrors} `{!Cluster}.
Context (pid account writer : Pubkey) (bump batch height : Z) (b : TxoBufferBuilder).
Context (Hbatch : in_width 32 batch) (Hheight : in_width 32 height) (Hsize : in_width 32 (data_size b)).

Local Abbreviation executes := (executes_program TxoBuffer.process_instruction pid writer).

(** The bridge reads the hash of the outputs from the final buffer. *)
Definition outputs_accepted (err : DogeBridgeError) (w : World) : Prop :=
  read_txo_hash (data_at w account) (total_indices b)
    (fun h => (txo_doge_block_height h =? height) && negb (txo_data_size h =? 0)) err = Ok (sha256 (serialize_all b)) /\
  exists h, read_pod (data_at w account) = Some h /\ txo_finalized_status h = 1 /\ txo_batch_id h = batch.

Lemma chunk_offset_u32 oc : oc ∈ chunks b -> u32 oc.1 = oc.1.
Proof.
  destruct oc as [o c]. intros Hc. destruct (chunk_piece b o c Hc) as [Ho (_ & Hle & _)%slice_Some].
  rewrite serialize_len in Hle. pose proof (len_nonneg c). apply wrap_id. unfold in_width in *. cbn [fst]. lia.
Qed.

Lemma writes_eq :
  (fun oc => txo_buffer_write pid account writer batch (u32 oc.1) oc.2) <$> chunks b
    = write_chunk pid account writer batch <$> chunks b.
Proof.
  apply list_fmap_ext. intros i oc Hoc. apply list_elem_of_lookup_2 in Hoc. by rewrite (chunk_offset_u32 _ Hoc).
Qed.

Lemma offset_writes_eq :
  (fun oc => txo_buffer_write pid account writer batch oc.1 oc.2) <$> offset_chunks (serialize_all b)
    = write_chunk pid account writer batch <$> chunks b.
Proof.
  rewrite <- writes_eq. unfold offset_chunks, chunks. rewrite !fmap_imap. done.
Qed.

(** The writes and the final instruction, once the buffer has its size. *)
Lemma finish_upload w w1 ws resize err :
  Forall is_byte (data_at w account) -> 0 < total_indices b ->
  deliver TxoBuffer.process_instruction (txo_buffer_set_len pid account writer writer (data_size b) resize batch height false) w
    = Ok w1 ->
  ws ≡ₚ write_chunk pid account writer batch <$> chunks b ->
  exists w2 w3, deliver_all TxoBuffer.process_instruction ws w1 = Ok w2 /\
    deliver TxoBuffer.process_instruction (txo_buffer_set_len pid account writer writer (data_size b) false batch height true) w2
      = Ok w3 /\ outputs_accepted err w3.
Proof.
  intros Hb Hpos Hset Hws. apply Permutation_map_inv in Hws as (k & -> & Hk). change (map ?f ?l) with (f <$> l).
  assert (Forall (fun oc => oc ∈ chunks b) k) as Hin by (apply list.Forall_forall; intros oc; by rewrite Hk).
  destruct (set_len_uploading pid account writer batch height b Hbatch Hheight Hsize w w1 resize Hb Hset) as (h & body & Hu).
  destruct (writes_ok pid account writer batch height b Hbatch Hsize k w1 h body Hu Hin) as (w2 & _ & Hd & _).
  destruct (upload_finishes pid account writer batch height b Hbatch Hheight Hsize w w1 resize k err Hb Hpos Hset Hin)
    as (w3 & Hall & Hread & Hfin); [by intros oc; rewrite Hk|].
  rewrite (deliver_all_app _ _ _ _ _ Hd) in Hall. exists w2, w3. by split_and!.
Qed.

(** The state of the buffer between the first and the last instruction, with writes to
    come. *)
Definition in_upload (w : World) : Prop := exists h body, uploading pid account writer batch height b w h body.
Definition is_write (ix : Instruction) : Prop := ix ∈ (write_chunk pid account writer batch <$> chunks b).
Definition writes_left (l : list Instruction) (w : World) : Prop := Forall is_write l /\ in_upload w.

Lemma writes_left_perm l l' w : l ≡ₚ l' -> writes_left l w -> writes_left l' w.
Proof. unfold writes_left. by intros ->. Qed.

Lemma write_works w ix l :
  writes_left (ix :: l) w -> exists w', deliver TxoBuffer.process_instruction ix w = Ok w' /\ writes_left l w'.
Proof.
  intros [[([o c] & -> & Hc)%list_elem_of_fmap Hl]%Forall_cons (h & body & Hu)].
  destruct (write_chunk_ok pid account writer batch height b Hbatch Hsize w h body o c Hu Hc) as (w' & body' & Hd & Hu' & _).
  exists w'. split; [done|]. split; [done|]. by exists h, body'.
Qed.

Lemma write_submitted signers w w' ix l :
  executes -> writer ∈ signers -> writes_left (ix :: l) w -> deliver TxoBuffer.process_instruction ix w = Ok w' ->
  submit [ix] signers w = (Ok tt, w').
Proof. intros [_ Hsub] Hs [[([o c] & -> & Hc)%list_elem_of_fmap _]%Forall_cons _] Hd. by apply Hsub. Qed.

Context (self : ParallelBufferManager).
Context (Hkeys : pm_payer self = writer /\ pm_operator self = writer).
Context (Hpda : find_program_address [TxoBuffer.txo_buffer_seed; writer] pid = (account, bump)).

(** Sizing the buffer through the parallel manager. *)
Lemma set_length_submitted resize finalize w w' :
  executes ->
  deliver TxoBuffer.process_instruction
    (txo_buffer_set_len pid account writer writer (data_size b) resize batch height finalize) w = Ok w' ->
  set_txo_buffer_length self pid account (data_size b) batch height resize finalize w = (Ok tt, w').
Proof.
  intros [Hslot Hsub] Hd. destruct Hkeys as [Hpay Hop].
  unfold set_txo_buffer_length, send_and_confirm_with_operator. rewrite Hslot, Hpay, Hop.
  cbn [pure_call]. apply submit_retrying_ok, Hsub; [apply list_elem_of_here|exact Hd].
Qed.

Lemma parallel_upload w w1 err :
  executes -> 0 < max_concurrent_writes (pm_config self) ->
  account_data w account = Ok (Some (data_at w account)) -> batch_after (data_at w account) = Some batch ->
  Forall is_byte (data_at w account) -> 0 < total_indices b ->
  deliver TxoBuffer.process_instruction (txo_buffer_set_len pid account writer writer (data_size b) true batch height false) w
    = Ok w1 ->
  exists w', parallel_create_txo_buffer self pid height (indices b) w = (Ok (account, bump), w') /\ outputs_accepted err w'.
Proof.
  intros Hex Hmax Hacc Hba Hb Hpos Hset. pose proof Hex as [Hslot _]. pose proof Hkeys as [Hpay Hop].
  destruct (set_len_uploading pid account writer batch height b Hbatch Hheight Hsize w w1 true Hb Hset) as (h & body & Hu).
  set (writes := write_chunk pid account writer batch <$> chunks b).
  destruct (join_batches_land TxoBuffer.process_instruction [writer; writer] writes_left Hslot writes_left_perm write_works
    (fun w w' ix l Hw => write_submitted [writer; writer] w w' ix l Hex (list_elem_of_here _ _) Hw) self
    (slice_chunks (Z.to_nat (max_concurrent_writes (pm_config self))) writes) w1) as (order & w2 & Hp & Hd & _ & Hj).
  { rewrite concat_slice_chunks by lia. split; [by apply list.Forall_forall|by exists h, body]. }
  rewrite concat_slice_chunks in Hp by lia.
  destruct (finish_upload w w1 order true err Hb Hpos Hset Hp) as (w2' & w3 & Hd' & Hfin & Hacp).
  rewrite Hd in Hd'. injection Hd' as <-. exists w3. split; [|exact Hacp].
  unfold parallel_create_txo_buffer. rewrite Hop, Hpda. unfold ensure_txo_buffer_exists. rewrite Hslot. cbn [pure_call].
  rewrite Hacc. cbn [pure_call]. rewrite Hba. cbn [ok_or pure_call]. rewrite state_call_ok. unfold id.
  change (BufferClient.data_size _) with (data_size b). change (u32 (data_size b)) with (wrap 32 (data_size b)).
  rewrite (wrap_id 32 (data_size b) Hsize), (set_length_submitted true false w w1 Hex Hset), state_call_ok.
  change (chunks {| indices := indices b; BufferClient.block_height := height |}) with (chunks b). rewrite writes_eq. fold writes.
  unfold batches_of. rewrite (proj2 (Z.eqb_neq _ 0)) by lia. cbn [or_panic pure_call]. rewrite Hpay, Hj, state_call_ok.
  by rewrite (set_length_submitted false true w2 w3 Hex Hfin), state_call_ok.
Qed.

Lemma sequential_upload w w1 err :
  executes -> account_data w account = Ok (Some (data_at w account)) ->
  batch_after (data_at w account) = Some batch -> Forall is_byte (data_at w account) -> 0 < total_indices b ->
  deliver TxoBuffer.process_instruction (txo_buffer_set_len pid account writer writer (data_size b) true batch height false) w
    = Ok w1 ->
  exists w', create_txo_buffer writer pid height (indices b) w = (Ok (account, bump), w') /\ outputs_accepted err w'.
Proof.
  intros Hex Hacc Hba Hb Hpos Hset. pose proof Hex as [Hslot Hsub].
  destruct (set_len_uploading pid account writer batch height b Hbatch Hheight Hsize w w1 true Hb Hset) as (h & body & Hu).
  set (writes := write_chunk pid account writer batch <$> chunks b).
  destruct (send_each_lands TxoBuffer.process_instruction [writer] writes_left write_works
    (fun w w' ix l Hw => write_submitted [writer] w w' ix l Hex (list_elem_of_here _ _) Hw) writes w1) as (w2 & Hd & _ & Hs).
  { split; [by apply list.Forall_forall|by exists h, body]. }
  destruct (finish_upload w w1 writes true err Hb Hpos Hset ltac:(done)) as (w2' & w3 & Hd' & Hfin & Hacp).
  rewrite Hd in Hd'. injection Hd' as <-. exists w3. split; [|exact Hacp].
  unfold create_txo_buffer, send_tx. rewrite Hpda, Hacc. cbn [pure_call]. rewrite Hba. cbn [or_panic pure_call].
  rewrite state_call_ok. unfold id. fold (serialize_all b). rewrite serialize_len, (wrap_id 32 (data_size b) Hsize).
  assert (forall resize finalize x x', deliver TxoBuffer.process_instruction
      (txo_buffer_set_len pid account writer writer (data_size b) resize batch height finalize) x = Ok x' ->
    submit [txo_buffer_set_len pid account writer writer (data_size b) resize batch height finalize] [writer] x = (Ok tt, x'))
    as Hlen by (intros resize finalize x x'; apply Hsub, list_elem_of_here).
  rewrite (Hlen _ _ _ _ Hset), state_call_ok.
  assert ((fun oc => ([txo_buffer_write pid account writer batch oc.1 oc.2], [writer])) <$> offset_chunks (serialize_all b)
    = (fun ix => ([ix], [writer])) <$> writes) as ->.
  { unfold writes. rewrite <- offset_writes_eq, <- list_fmap_compose. done. }
  rewrite Hs, state_call_ok. by rewrite (Hlen _ _ _ _ Hfin), state_call_ok.
Qed.

(** [C26] The managers' uploads end in a buffer that the bridge accepts, when payer,
    operator and writer are one key (with another payer the upload of the parallel manager
    fails).  On a network that executes transactions, for such a writer whose buffer account
    exists and accepts to be resized for the new batch, and for at least one output, both
    managers return the buffer, whatever order the scheduler chooses for the concurrent
    writes, and then the bridge reads the SHA-256 of exactly the given outputs from it, in
    a finalized batch, the one after the batch that the account held before. *)
Theorem managers_upload_outputs w w1 err :
  executes -> 0 < max_concurrent_writes (pm_config self) ->
  account_data w account = Ok (Some (data_at w account)) -> batch_after (data_at w account) = Some batch ->
  Forall is_byte (data_at w account) -> 0 < total_indices b ->
  deliver TxoBuffer.process_instruction (txo_buffer_set_len pid account writer writer (data_size b) true batch height false) w
    = Ok w1 ->
  (exists w', parallel_create_txo_buffer self pid height (indices b) w = (Ok (account, bump), w') /\
     outputs_accepted err w') /\
  (exists w', create_txo_buffer writer pid height (indices b) w = (Ok (account, bump), w') /\ outputs_accepted err w').
Proof.
  intros Hex Hmax Hacc Hba Hb Hpos Hset. split; [by apply (parallel_upload w w1)|by apply (sequential_upload w w1)].
Qed.
End txos.
