(* ===== verification/MintManagerProofs.v ===== *)
(** * MintManagerProofs: the managers' mint uploads end in a buffer that pays the mints

    Joins the client's managers ([BufferManager.v]), the mint buffer program and the
    bridge ([MintUpload.v]).  A group can be inserted only once, so the instructions
    still to come are part of the invariant of the network. *)
From S2P Require Import Prelude Errors Pod Hash Sha256 Types Runtime MintBuffer MintBufferProofs BufferClient MintGroup ProgramState BlockUpdate Payout CommittedMints MintUpload RpcClient BufferManager BufferManagerProofs.
From Stdlib Require Import ZArith Lia Permutation.
From stdpp Require Import base decidable list numbers option countable gmap.
Import MintBuffer BufferClient BufferManager.

Open Scope Z_scope.
Open Scope bridge_scope.

Section mints.
Context `{Sha256Laws} `{RuntimeLaws} `{ForeignErrors} `{!Cluster}.
Context (pid account writer locker : Pubkey) (bump : Z) (b : PendingMintBufferBuilder).
Context (Hmints : Forall pod_wf (mints b)) (Hn : 0 < total_mints b <= 65512).

Local Abbreviation n := (total_mints b).
Local Abbreviation Header := PendingMintsBufferStateHeader.
Local Abbreviation G := ((total_mints b + 23) / 24).
Local Abbreviation executes := (executes_program MintBuffer.process_instruction pid writer).

(** The groups in the buffer, and those that the instructions [l] will insert. *)
Definition inserts_left (h : Header) (l : list Instruction) (w : World) : Prop :=
  exists pending inserted, l ≡ₚ insert_group pid account writer b <$> pending /\
    pending ++ inserted ≡ₚ seqZ 0 G /\ filling pid account b h w inserted.

Lemma inserts_left_perm h l l' w : l ≡ₚ l' -> inserts_left h l w -> inserts_left h l' w.
Proof. intros Hp (pending & inserted & Hl & Hrest). exists pending, inserted. by rewrite <- Hp. Qed.

Section buffer.
Context (h : Header) (Hfresh : fresh_header writer b h) (Hwf : pod_wf h).

Lemma insert_works w ix l :
  inserts_left h (ix :: l) w -> exists w', deliver MintBuffer.process_instruction ix w = Ok w' /\ inserts_left h l w'.
Proof.
  intros (pending & inserted & Hl & Hp & Hfill).
  apply Permutation_map_inv in Hl as ([|g pending'] & Hl & Hpp); [discriminate Hl|].
  cbn [map] in Hl. injection Hl as -> ->.
  assert (NoDup ((g :: pending') ++ inserted)) as HN by (rewrite <- Hpp, Hp; apply NoDup_seqZ).
  cbn [app] in HN. apply list.NoDup_cons in HN as [Hni HN].
  assert (g ∈ seqZ 0 G) as Hg%elem_of_seqZ by (rewrite <- Hp, Hpp; apply list_elem_of_here).
  destruct (insert_group_ok pid account writer b Hmints Hn h w inserted g Hfresh Hwf Hfill) as (w' & Hd & Hfill');
    [lia|intros Hin; apply Hni, elem_of_app; by right|].
  exists w'. split; [done|]. exists pending', (g :: inserted). split; [done|]. split; [|done].
  by rewrite <- Permutation_middle, <- Hp, Hpp.
Qed.

Lemma insert_submitted signers w w' ix l :
  executes -> writer ∈ signers -> inserts_left h (ix :: l) w ->
  deliver MintBuffer.process_instruction ix w = Ok w' -> submit [ix] signers w = (Ok tt, w').
Proof.
  intros [_ Hsub] Hs (pending & inserted & Hl & _) Hd.
  assert (ix ∈ insert_group pid account writer b <$> pending) as (g & -> & _)%list_elem_of_fmap
    by (rewrite <- Hl; apply list_elem_of_here).
  by apply Hsub.
Qed.

Lemma all_inserts_left w :
  filling pid account b h w [] -> inserts_left h (insert_group pid account writer b <$> seqZ 0 G) w.
Proof. intros Hfill. exists (seqZ 0 G), []. by rewrite app_nil_r. Qed.

Lemma no_inserts_left signer w :
  is_signer signer = true -> authorized_locker_public_key h = key signer ->
  inserts_left h [] w -> mints_accepted pid account b signer w.
Proof.
  intros Hs Hlk (pending & inserted & Hl & Hp & Hfill). apply Permutation_nil in Hl.
  apply fmap_nil_inv in Hl as ->. by apply (full_buffer_accepted pid account writer b Hmints Hn h w inserted).
Qed.
End buffer.

(** Both managers build the same insertions, group by group. *)
Lemma groups_in_range : Forall (fun g => 0 <= g < G) (seqZ 0 G).
Proof. apply list.Forall_forall. intros g Hg%elem_of_seqZ. lia. Qed.

Lemma u16_group g : 0 <= g < G -> u16 g = g.
Proof.
  intros Hg. pose proof (groups_bounds b Hn). apply wrap_id. unfold in_width. lia.
Qed.

Lemma u16_inserts gs (group : Z -> option bytes) :
  Forall (fun g => 0 <= g < G) gs ->
  mapM (fun g => d ← group g; Some (pending_mint_insert pid account writer (u16 g) d)) gs
    = mapM (fun g => d ← group g; Some (pending_mint_insert pid account writer g d)) gs.
Proof.
  induction 1 as [|g gs Hg _ IH]; [done|]. cbn [mapM]. by rewrite IH, u16_group.
Qed.

Lemma builder_inserts_ok :
  mapM (fun g => group_data ← serialize_group b g;
                 Some (pending_mint_insert pid account writer (u16 g) group_data)) (seqZ 0 (num_groups b))
    = Some (insert_group pid account writer b <$> seqZ 0 G).
Proof.
  assert (num_groups b = G) as ->.
  { unfold num_groups, PM_MAX_PENDING_MINTS_PER_GROUP. fold (total_mints b). rewrite (proj2 (Z.eqb_neq _ 0)) by lia.
    f_equal. lia. }
  rewrite (u16_inserts _ (serialize_group b)) by apply groups_in_range.
  apply (client_inserts_ok pid account writer b Hn _ groups_in_range).
Qed.

Lemma group_inserts_ok :
  group_inserts pid account writer (mints b) = Some (insert_group pid account writer b <$> seqZ 0 G).
Proof.
  rewrite <- builder_inserts_ok. unfold group_inserts.
  assert ((len (mints b) + PM_MAX_PENDING_MINTS_PER_GROUP - 1) / PM_MAX_PENDING_MINTS_PER_GROUP = num_groups b) as ->.
  { unfold num_groups. rewrite (proj2 (Z.eqb_neq (len (mints b)) 0)); [done|]. fold (total_mints b). lia. }
  induction (seqZ 0 (num_groups b)) as [|g gs IH]; [done|]. cbn [mapM]. rewrite IH. clear IH.
  unfold serialize_group, get_group. by destruct (slice _ _ (mints b)).
Qed.

(** *** The managers *)

Context (signer : AccountInfo).
Context (Hsigner : is_signer signer = true).
Context (Hpda : find_program_address [MintBuffer.mint_buffer_seed; writer] pid = (account, bump)).

(** The buffer exists and takes the size of the upload when it is re-initialised, and
    the signer is its locker. *)
Definition buffer_ready (w w1 : World) : Prop :=
  Forall is_byte (data_at w account) /\
  deliver MintBuffer.process_instruction (pending_mint_reinit pid account writer n) w = Ok w1 /\
  exists h, get_header (data_at w1 account) = Some h /\ authorized_writer_public_key h = writer /\
    authorized_locker_public_key h = key signer /\ len (data_at w1 account) = mint_buffer_size b.

Lemma ready_filling w w1 :
  buffer_ready w w1 -> exists h, fresh_header writer b h /\ pod_wf h /\ filling pid account b h w1 [] /\
    authorized_locker_public_key h = key signer.
Proof.
  intros (Hb & Hr & h & Hh & Hwr & Hlk & Hl). exists h.
  destruct (reinit_filling pid account writer b Hn w w1 h Hb Hr Hh Hwr Hl) as (Hf & Hwf & Hfill). by split_and!.
Qed.

Lemma u16_total : u16 (len (mints b)) = n.
Proof. apply (wrap_id 16 n). unfold in_width. lia. Qed.

Lemma sequential_mint_upload w w1 :
  executes -> account_data w account = Ok (Some (data_at w account)) -> buffer_ready w w1 ->
  exists w', create_pending_mint_buffer writer pid locker (mints b) w = (Ok (account, bump), w') /\
    mints_accepted pid account b signer w'.
Proof.
  intros Hex Hacc Hready. pose proof Hready as (_ & Hr & _).
  destruct (ready_filling w w1 Hready) as (h & Hf & Hwf & Hfill & Hlk).
  destruct (send_each_lands MintBuffer.process_instruction [writer] (inserts_left h) (insert_works h Hf Hwf)
    (fun w w' ix l Hw => insert_submitted h [writer] w w' ix l Hex (list_elem_of_here _ _) Hw) _ w1
    (all_inserts_left h w1 Hfill)) as (w2 & _ & Hleft & Hs).
  exists w2. split; [|by apply (no_inserts_left h Hf Hwf)].
  unfold create_pending_mint_buffer, send_tx. rewrite Hpda, Hacc. cbn [pure_call]. rewrite state_call_ok, u16_total. unfold id.
  destruct Hex as [_ Hsub].
  assert (submit [pending_mint_reinit pid account writer n] [writer] w = (Ok tt, w1)) as ->
    by (apply Hsub; [apply list_elem_of_here|exact Hr]).
  rewrite state_call_ok, group_inserts_ok.
  cbn [or_panic pure_call]. by rewrite Hs, state_call_ok.
Qed.

Lemma parallel_mint_upload self w w1 :
  executes -> pm_operator self = writer -> 0 < group_batch_size (pm_config self) ->
  account_data w account = Ok (Some (data_at w account)) -> buffer_ready w w1 ->
  exists w', parallel_create_pending_mint_buffer self pid locker (mints b) w = (Ok (account, bump), w') /\
    mints_accepted pid account b signer w'.
Proof.
  intros Hex Hop Hsize Hacc Hready. pose proof Hready as (_ & Hr & _). pose proof Hex as [Hslot Hsub].
  destruct (ready_filling w w1 Hready) as (h & Hf & Hwf & Hfill & Hlk).
  set (inserts := insert_group pid account writer b <$> seqZ 0 G).
  assert (writer ∈ [pm_payer self; writer]) as Hin by (apply list_elem_of_further, list_elem_of_here).
  destruct (join_batches_land MintBuffer.process_instruction [pm_payer self; writer] (inserts_left h) Hslot
    (inserts_left_perm h) (insert_works h Hf Hwf)
    (fun w w' ix l Hw => insert_submitted h [pm_payer self; writer] w w' ix l Hex Hin Hw) self
    (slice_chunks (Z.to_nat (group_batch_size (pm_config self))) inserts) w1) as (order & w2 & _ & _ & Hleft & Hj).
  { rewrite concat_slice_chunks by lia. by apply all_inserts_left. }
  exists w2. split; [|by apply (no_inserts_left h Hf Hwf)].
  unfold parallel_create_pending_mint_buffer. rewrite Hop, Hpda. unfold ensure_pending_mint_buffer_exists.
  rewrite Hslot. cbn [pure_call]. rewrite Hacc. cbn [pure_call]. rewrite state_call_ok. unfold id.
  assert (mints b <> []) as Hne by (intros He; unfold total_mints in Hn; rewrite He in Hn; unfold len in Hn; cbn in Hn; lia).
  rewrite bool_decide_eq_false_2 by done. rewrite u16_total. unfold send_and_confirm_with_operator. rewrite Hslot.
  cbn [pure_call]. rewrite Hop, (submit_retrying_ok _ _ _ _ w1) by (by apply Hsub). rewrite state_call_ok.
  assert (b = {| BufferClient.mints := mints b |}) as Hb by (by destruct b). rewrite <- Hb, builder_inserts_ok.
  cbn [or_panic pure_call]. unfold batches_of. rewrite (proj2 (Z.eqb_neq _ 0)) by lia. cbn [or_panic pure_call].
  fold inserts. by rewrite Hj, state_call_ok.
Qed.

End mints.
