(* ===== verification/BufferScenario.v ===== *)
(** * BufferScenario: buffers from creation to use

    A concrete runtime that satisfies [RuntimeLaws], and the histories of a mint
    buffer (set up, sized for one mint, filled, locked), a TXO buffer (initialised,
    sized, written, finalized) and a generic buffer in it.  The witnesses of the
    theorems on the buffer programs are instances at these histories, with FIPS
    SHA-256. *)
From S2P Require Import Prelude Errors Pod Hash Sha256 Runtime Types PublicInputs MintBuffer MintBufferProofs TxoBuffer TxoBufferProofs GenericBuffer BufferClient MintGroup ProgramState BlockUpdate BlockUpdateProofs Payout CommittedMints TxoUpload MintUpload.
From Stdlib Require Import ZArith Lia.
From stdpp Require Import base decidable list numbers option countable gmap.
Import MintBuffer.

Open Scope Z_scope.
Open Scope bridge_scope.

#[local] Existing Instance fips_sha256.
#[local] Existing Instance fips_sha256_laws.

(** ** A runtime *)

Definition simple_invoke (w : World) (i : Instruction) : res ProgramError World :=
  match i with
  | SystemTransfer from to amount =>
      bail InsufficientFunds if lamports_at w from <? amount;
      let w1 := set_lamports w from (lamports_at w from - amount) in
      Ok (set_lamports w1 to (lamports_at w1 to + amount))
  | SystemAllocate account space => Ok (set_data w account (zeros (Z.to_nat space)))
  | SystemAssign account new_owner =>
      Ok (<[account := {| lamports := lamports_at w account; owner := new_owner; data := data_at w account |}]> w)
  | _ => Err InvalidArgument
  end.

Definition simple_runtime : Runtime := {|
  minimum_balance n := 1000 + 7 * n;
  find_program_address seeds pid := (sha256 (concat seeds ++ pid), 255);
  create_program_address seeds pid := Some (sha256 (concat seeds ++ pid));
  unix_timestamp := 0;
  realloc w k n := Ok (set_data w k (resized n (data_at w k)));
  invoke_signed w i _ _ := simple_invoke w i
|}.
#[local] Existing Instance simple_runtime.

Lemma data_at_assign w account new_owner k :
  data_at (<[account := {| lamports := lamports_at w account; owner := new_owner; data := data_at w account |}]> w) k
  = data_at w k.
Proof.
  unfold data_at. destruct (decide (account = k)) as [->|Hne]; [by rewrite account_at_insert|].
  by rewrite account_at_insert_ne.
Qed.

Lemma simple_runtime_laws : RuntimeLaws.
Proof.
  constructor.
  - intros w k n w' [= <-]. done.
  - intros w from to amount infos seeds w' Hr. cbn in Hr. peel Hr as E. injection Hr as <-.
    intros k. by autorewrite with world.
  - intros w account space infos seeds w' [= <-]. split; [by rewrite data_at_set_data|].
    intros k Hk. by apply data_at_set_data_ne.
  - intros w account new_owner infos seeds w' [= <-] k. apply data_at_assign.
Qed.
#[local] Existing Instance simple_runtime_laws.

(** ** The history of one writer's buffer *)

Definition buffer_program : Pubkey := replicate 32 11.
Definition bridge_program : Pubkey := replicate 32 5.
Definition system_program : AccountInfo := {| key := zeros 32; is_signer := false; is_writable := false |}.
Definition payer (writer : Pubkey) : AccountInfo := {| key := writer; is_signer := true; is_writable := true |}.
Definition storage_key (writer : Pubkey) : Pubkey := sha256 (mint_buffer_seed ++ writer ++ buffer_program).
Definition storage (writer : Pubkey) : AccountInfo :=
  {| key := storage_key writer; is_signer := false; is_writable := true |}.

Definition mint_bytes : bytes := bytes_of {| recipient := replicate 32 3; amount := 5000 |}.

(** The four instructions, with their accounts. *)
Definition instructions (writer : Pubkey) : list (list AccountInfo * bytes) :=
  let signed := [storage writer; payer writer; system_program] in
  [ ([storage writer], 0 :: bridge_program ++ writer);
    (signed, [1; 1; 0]);
    (signed, 3 :: [0; 0] ++ mint_bytes);
    ([storage writer; {| key := bridge_program; is_signer := true; is_writable := false |}], [4]) ].

Definition start (writer : Pubkey) : World :=
  {[ storage_key writer := {| lamports := 100000; owner := zeros 32; data := [] |};
     writer := {| lamports := 100000; owner := zeros 32; data := [] |} ]}.

Fixpoint execute_all (w : World) (l : list (list AccountInfo * bytes)) : option World :=
  match l with
  | [] => Some w
  | (accounts, input) :: l =>
      match process_instruction buffer_program accounts input w with Ok w' => execute_all w' l | _ => None end
  end.

Definition locked_world (writer : Pubkey) : World :=
  default ∅ (execute_all (start writer) (instructions writer)).

Lemma execute_all_runs l w0 w w' :
  runs buffer_program w0 w -> Forall (fun '(_, input) => usual_input input) l ->
  execute_all w l = Some w' -> runs buffer_program w0 w'.
Proof.
  intros Hr Hl. revert w Hr. induction Hl as [|[accounts input] l Hi Hl IH]; intros w Hr Hx.
  { injection Hx as <-. done. }
  cbn [execute_all] in Hx. destruct (process_instruction _ _ _ _) as [w1| |] eqn:Ep; [|discriminate Hx..].
  apply (IH w1); [by eapply runs_step|exact Hx].
Qed.

Definition succeeds {A} (x : option A) : bool := match x with Some _ => true | None => false end.

Lemma succeeds_default (x : option World) : succeeds x = true -> x = Some (default ∅ x).
Proof. by destruct x. Qed.

Definition usual_inputb (input : bytes) : bool :=
  bool_decide (Forall is_byte input) &&
  (negb (bool_decide (head input = Some 3)) || negb (bool_decide (sha256 (drop 3 input) = zeros 32))).

Lemma usual_inputb_spec input : usual_inputb input = true -> usual_input input.
Proof.
  unfold usual_inputb, usual_input. rewrite andb_true_iff, orb_true_iff, !negb_true_iff, !bool_decide_eq_false,
    bool_decide_eq_true. intros [Hb Hz]. split; [done|]. intros Hh. by destruct Hz.
Qed.

Definition alice : Pubkey := replicate 32 21.
Definition bob : Pubkey := replicate 32 22.

Lemma alice_runs : runs buffer_program (start alice) (locked_world alice).
Proof.
  apply (execute_all_runs (instructions alice) _ (start alice)); [constructor| |
    apply succeeds_default; vm_compute; reflexivity].
  unfold instructions. repeat (apply Forall_cons_2; [apply usual_inputb_spec; vm_compute; reflexivity|]).
  apply Forall_nil_2.
Qed.

Lemma bob_runs : runs buffer_program (start bob) (locked_world bob).
Proof.
  apply (execute_all_runs (instructions bob) _ (start bob)); [constructor| |
    apply succeeds_default; vm_compute; reflexivity].
  unfold instructions. repeat (apply Forall_cons_2; [apply usual_inputb_spec; vm_compute; reflexivity|]).
  apply Forall_nil_2.
Qed.

Definition locked_header (writer : Pubkey) : Header :=
  {| authorized_locker_public_key := bridge_program; authorized_writer_public_key := writer;
     is_locked := 1; mode := 0; pending_mint_groups_count := 1; pending_mints_initialized := 1;
     pending_mints_count := 1 |}.

Lemma locked_buffer_commits_all_groups_witness :
  all_groups_hashed (data_at (locked_world alice) (storage_key alice)) 1 1.
Proof.
  refine (locked_buffer_commits_all_groups buffer_program (start alice) (locked_world alice) (storage_key alice)
    (locked_header alice) alice_runs _ _ _ _); vm_compute; [reflexivity|reflexivity|discriminate|reflexivity].
Defined.

(** A [Setup] of Bob's buffer, in Alice's locked world, does not touch hers. *)
Definition mixed_world : World := locked_world alice ∪ start bob.

Definition ok_world (r : res ProgramError World) : option World :=
  match r with Ok w => Some w | _ => None end.

Lemma ok_world_default r : succeeds (ok_world r) = true -> r = Ok (default ∅ (ok_world r)).
Proof. by destruct r. Qed.

Definition mixed_world' : World := default ∅
  (ok_world (process_instruction buffer_program [storage bob] (0 :: bridge_program ++ bob) mixed_world)).

Lemma mixed_run :
  process_instruction buffer_program [storage bob] (0 :: bridge_program ++ bob) mixed_world = Ok mixed_world'.
Proof. apply ok_world_default. vm_compute. reflexivity. Qed.

Lemma setup_input_bytes : Forall is_byte (0 :: bridge_program ++ bob).
Proof. apply (bool_decide_unpack _). vm_compute. exact I. Qed.

Lemma mixed_header : get_header (data_at mixed_world (storage_key alice)) = Some (locked_header alice).
Proof. vm_compute. reflexivity. Qed.

Lemma locked_buffer_frozen_witness :
  data_at mixed_world' (storage_key alice) = data_at mixed_world (storage_key alice).
Proof.
  destruct (locked_buffer_frozen buffer_program [storage bob] (0 :: bridge_program ++ bob) mixed_world mixed_world'
    (storage_key alice) (locked_header alice) setup_input_bytes mixed_header ltac:(discriminate) ltac:(discriminate)
    mixed_run) as [Hd|(rest & signer & Hi & _)]; [exact Hd|].
  discriminate Hi.
Defined.

Definition mints_hash : QHash256 := sha256 ([1; 0] ++ sha256 mint_bytes).

(** Alice's and Bob's buffers, accepted for the same hash. *)
Lemma alice_accepted :
  ensure_pending_mints_ready_for_transition_inner bridge_program mints_hash
    (data_at (locked_world alice) (storage_key alice)) = Ok (mints_hash, 1).
Proof. vm_compute. reflexivity. Qed.

Lemma bob_accepted :
  ensure_pending_mints_ready_for_transition_inner bridge_program mints_hash
    (data_at (locked_world bob) (storage_key bob)) = Ok (mints_hash, 1).
Proof. vm_compute. reflexivity. Qed.

Lemma both_messages_collision_free :
  messages_collision_free (buffer_messages (data_at (locked_world alice) (storage_key alice)) 1 ++
                           buffer_messages (data_at (locked_world bob) (storage_key bob)) 1).
Proof. apply (bool_decide_unpack _). vm_compute. exact I. Qed.

Lemma accepted_hash_determines_payments_witness :
  all_payments (data_at (locked_world alice) (storage_key alice)) ((1 + 23) / 24) 1 =
  all_payments (data_at (locked_world bob) (storage_key bob)) ((1 + 23) / 24) 1.
Proof.
  assert (data_at (start alice) (storage_key alice) = []) as E1 by (vm_compute; reflexivity).
  assert (data_at (start bob) (storage_key bob) = []) as E2 by (vm_compute; reflexivity).
  assert (get_header (data_at (locked_world alice) (storage_key alice)) = Some (locked_header alice)) as G1
    by (vm_compute; reflexivity).
  assert (get_header (data_at (locked_world bob) (storage_key bob)) = Some (locked_header bob)) as G2
    by (vm_compute; reflexivity).
  assert (is_locked (locked_header alice) <> 0) as L1 by (vm_compute; discriminate).
  assert (is_locked (locked_header bob) <> 0) as L2 by (vm_compute; discriminate).
  exact (proj2 (accepted_hash_determines_payments _ _ _ _ _ _ _ _ _ _ _ _ _ _
    alice_runs E1 G1 L1 bob_runs E2 G2 L2 alice_accepted bob_accepted both_messages_collision_free)).
Defined.

(** ** A TXO buffer, uploaded by the client *)

Definition txo_program : Pubkey := replicate 32 12.
Definition txo_key : Pubkey := sha256 (TxoBuffer.txo_buffer_seed ++ alice ++ txo_program).
Definition txo_builder : BufferClient.TxoBufferBuilder :=
  {| BufferClient.indices := [7; 9]; BufferClient.block_height := 101 |}.
Definition txo_start : World :=
  {[ txo_key := {| lamports := 100000; owner := zeros 32; data := [] |};
     alice := {| lamports := 100000; owner := zeros 32; data := [] |} ]}.

Definition txo_send (i : Instruction) (w : World) : World :=
  default ∅ (ok_world (BufferClient.deliver TxoBuffer.process_instruction i w)).

Definition txo_initialized : World := txo_send (BufferClient.txo_buffer_init txo_program txo_key alice) txo_start.
Definition txo_size_instruction (resize fin : bool) : Instruction :=
  BufferClient.txo_buffer_set_len txo_program txo_key alice alice 8 resize 0 101 fin.
Definition txo_sized : World := txo_send (txo_size_instruction true false) txo_initialized.

Lemma txo_sized_run :
  BufferClient.deliver TxoBuffer.process_instruction (txo_size_instruction true false) txo_initialized = Ok txo_sized.
Proof. apply ok_world_default. vm_compute. reflexivity. Qed.

Lemma txo_initialized_bytes : Forall is_byte (data_at txo_initialized txo_key).
Proof. apply (bool_decide_unpack _). vm_compute. exact I. Qed.

(** The one chunk is sent twice. *)
Definition txo_writes : list (Z * bytes) :=
  BufferClient.chunks txo_builder ++ BufferClient.chunks txo_builder.

Lemma txo_upload_accepted_witness :
  exists w2, read_txo_hash (data_at w2 txo_key) 2
      (fun h => (txo_doge_block_height h =? 101) && negb (txo_data_size h =? 0))
      InvalidAutoClaimTxoBufferPendingMintsCount = Ok (sha256 [7; 0; 0; 0; 9; 0; 0; 0]).
Proof.
  destruct (txo_upload_accepted txo_program txo_key alice 0 101 txo_builder
    ltac:(vm_compute; split; [discriminate|reflexivity]) ltac:(vm_compute; split; [discriminate|reflexivity])
    ltac:(vm_compute; split; [discriminate|reflexivity])
    txo_initialized txo_sized true txo_writes InvalidAutoClaimTxoBufferPendingMintsCount
    txo_initialized_bytes ltac:(vm_compute; reflexivity) txo_sized_run) as (w2 & _ & Hr & _).
  - apply list.Forall_forall. intros oc Hin. apply elem_of_app in Hin as [Hin|Hin]; exact Hin.
  - intros oc Hin. apply elem_of_app. left. exact Hin.
  - exists w2. exact Hr.
Defined.

(** ** The upload of a mint buffer by the client *)

Definition mint_builder : BufferClient.PendingMintBufferBuilder :=
  {| BufferClient.mints := [{| recipient := replicate 32 3; amount := 5000 |}; {| recipient := replicate 32 4; amount := 70 |}] |}.

Definition mint_send (i : Instruction) (w : World) : World :=
  default ∅ (ok_world (BufferClient.deliver process_instruction i w)).

Definition mint_set_up : World :=
  mint_send (BufferClient.pending_mint_setup buffer_program (storage_key alice) bridge_program alice) (start alice).
Definition mint_reinit_instruction : Instruction :=
  BufferClient.pending_mint_reinit buffer_program (storage_key alice) alice 2.
Definition mint_sized : World := mint_send mint_reinit_instruction mint_set_up.

Lemma mint_sized_run :
  BufferClient.deliver process_instruction mint_reinit_instruction mint_set_up = Ok mint_sized.
Proof. apply ok_world_default. vm_compute. reflexivity. Qed.

Lemma mint_set_up_bytes : Forall is_byte (data_at mint_set_up (storage_key alice)).
Proof. apply (bool_decide_unpack _). vm_compute. exact I. Qed.

Lemma mint_builder_wf : Forall pod_wf (BufferClient.mints mint_builder).
Proof. repeat constructor; vm_compute; try discriminate; done. Qed.

Definition mint_sized_header : PendingMintsBufferStateHeader :=
  default (zeroed _) (get_header (data_at mint_sized (storage_key alice))).

Lemma mint_upload_accepted_witness :
  exists w3, all_payments (data_at w3 (storage_key alice)) 1 2 =
    [(replicate 32 3, 5000); (replicate 32 4, 70)].
Proof.
  destruct (mint_upload_accepted buffer_program (storage_key alice) alice mint_builder mint_builder_wf
    ltac:(vm_compute; split; [reflexivity|discriminate])
    mint_set_up mint_sized mint_sized_header [0]
    {| key := bridge_program; is_signer := true; is_writable := false |}
    mint_set_up_bytes mint_sized_run) as (ins & w2 & _ & _ & w3 & _ & _ & Hp).
  1-3: vm_compute; reflexivity.
  1: vm_compute; constructor; constructor.
  1-2: vm_compute; reflexivity.
  exists w3. exact Hp.
Defined.

(** The finalized buffer, and the first write of the next batch. *)
Definition txo_final : World := txo_send (txo_size_instruction false true)
  (txo_send (BufferClient.txo_buffer_write txo_program txo_key alice 0 0 [7; 0; 0; 0; 9; 0; 0; 0]) txo_sized).
Definition next_batch_accounts : list AccountInfo :=
  [{| key := txo_key; is_signer := false; is_writable := true |}; payer alice].
Definition next_batch_input : bytes := 2 :: [1; 0; 0; 0] ++ [0; 0; 0; 0] ++ [5].
Definition txo_next : World := default ∅
  (ok_world (TxoBuffer.process_instruction txo_program next_batch_accounts next_batch_input txo_final)).

Definition txo_final_header : PendingMintsTxoBufferHeader :=
  {| txo_authorized_writer := alice; txo_init_status := 1; txo_finalized_status := 1;
     txo_doge_block_height := 101; txo_batch_id := 0; txo_data_size := 8 |}.

Lemma txo_final_read : read_pod (data_at txo_final txo_key) = Some txo_final_header.
Proof. vm_compute. reflexivity. Qed.

Lemma txo_next_run :
  TxoBuffer.process_instruction txo_program next_batch_accounts next_batch_input txo_final = Ok txo_next.
Proof. apply ok_world_default. vm_compute. reflexivity. Qed.

Lemma txo_final_bytes : Forall is_byte (data_at txo_final txo_key) /\ Forall is_byte next_batch_input.
Proof. split; apply (bool_decide_unpack _); vm_compute; exact I. Qed.

Lemma txo_data_changed : bool_decide (data_at txo_next txo_key = data_at txo_final txo_key) = false.
Proof. vm_compute. reflexivity. Qed.

Lemma finalized_batch_immutable_witness :
  exists h', read_pod (data_at txo_next txo_key) = Some h' /\ txo_batch_id h' = u32 (0 + 1).
Proof.
  destruct (finalized_batch_immutable txo_program next_batch_accounts next_batch_input txo_final txo_next txo_key
    txo_final_header (proj2 txo_final_bytes) (proj1 txo_final_bytes) txo_final_read eq_refl txo_next_run)
    as [Hd|[(writer & Hi & _)|[_ Hh]]].
  - exfalso. exact (proj1 (bool_decide_eq_false _) txo_data_changed Hd).
  - discriminate Hi.
  - exact Hh.
Defined.

(** ** A generic buffer *)

Definition generic_program : Pubkey := replicate 32 13.
Definition generic_key : Pubkey := replicate 32 14.
Definition generic_start : World :=
  {[ generic_key := {| lamports := 100000; owner := generic_program; data := zeros 32 |};
     alice := {| lamports := 100000; owner := zeros 32; data := [] |} ]}.
Definition generic_initialized : World := default ∅
  (ok_world (BufferClient.deliver GenericBuffer.process_instruction
    (BufferClient.generic_buffer_init generic_program generic_key alice 4) generic_start)).
Definition generic_accounts : list AccountInfo :=
  [{| key := generic_key; is_signer := false; is_writable := true |}; payer alice; system_program].
Definition generic_input : bytes := 2 :: [1; 0; 0; 0] ++ [8; 9].
Definition generic_written : World := default ∅
  (ok_world (GenericBuffer.process_instruction generic_program generic_accounts generic_input generic_initialized)).

Lemma generic_run :
  GenericBuffer.process_instruction generic_program generic_accounts generic_input generic_initialized
    = Ok generic_written.
Proof. apply ok_world_default. vm_compute. reflexivity. Qed.

Lemma generic_read :
  read_pod (data_at generic_initialized generic_key) = Some {| GenericBuffer.authorized_writer := alice |}.
Proof. vm_compute. reflexivity. Qed.

Lemma generic_data_changed :
  bool_decide (data_at generic_written generic_key = data_at generic_initialized generic_key) = false.
Proof. vm_compute. reflexivity. Qed.

Lemma generic_buffer_writer_only_witness :
  slice 33 35 (data_at generic_written generic_key) = Some [8; 9].
Proof.
  destruct (GenericBuffer.generic_buffer_writer_only generic_program generic_accounts generic_input
    generic_initialized generic_written generic_key {| GenericBuffer.authorized_writer := alice |}
    generic_read ltac:(discriminate) generic_run) as [Hd|(st & py & _ & _ & _ & _ & _ & Hs)].
  - exfalso. exact (proj1 (bool_decide_eq_false _) generic_data_changed Hd).
  - exact (Hs eq_refl).
Defined.
