(* ===== verification/Ledger.v ===== *)
(** * Ledger: what the bridge state records about its history

    The operations of [ProgramState.v] and [BlockUpdate.v] as one state machine, an
    abstract ledger of what they did, and the refinement: whatever sequence of
    operations succeeded since initialisation, the three Merkle trees hold exactly
    the withdrawal requests, manual deposits and sent transactions of the ledger,
    the amounts and fees are its sums, and the header, the ring of recent blocks and the
    cursor of withdrawals are its chain.  A second invariant keeps the mint manager and
    the ring of recent blocks in their ranges. *)
From S2P Require Import Prelude Pod Hash Sha256 Errors AppendTree TxoIndex Fees Types PublicInputs MintGroup ProgramState BlockUpdate BlockUpdateProofs.
From Stdlib Require Import ZArith Lia.
From stdpp Require Import base decidable list numbers option.

Open Scope Z_scope.
Open Scope bridge_scope.

(** ** The operations *)

(** The calls that the bridge program makes into its state, with the account data
    they read. *)
Inductive operation :=
  | RequestWithdrawal (requester : bytes) (request : PsyWithdrawalRequest)
  | ProcessWithdrawal (proof vk dogecoin_tx : bytes) (new_return_output : PsyReturnTxOutput)
      (new_spent_txo_tree_root : QHash256) (new_next_processed_withdrawals_index : Z)
  | ReplayWithdrawal (proof : FixedMerkleAppendTreePartialMerkleProof) (now_secs : Z)
  | SnapshotWithdrawals (now_secs : Z)
  | OperatorWithdrawFees (operator_ata : bytes)
  | ClaimDepositManual (recent_block_merkle_tree_root recent_auto_claim_txo_root tx_hash : QHash256)
      (combined_txo_index : Z) (depositor : bytes) (deposit_amount_sats : Z)
  | SingleBlockTransition (proof vk : bytes) (new_header : PsyBridgeHeader)
      (program_id account txo_buffer mint_buffer : bytes)
  | BlockTransitionReorg (proof vk : bytes) (new_header : PsyBridgeHeader)
      (extra : list FinalizedBlockMintTxoInfo) (program_id account txo_buffer mint_buffer : bytes)
  | AutoMintGroup (program_id account mint_buffer : bytes) (mint_group_index : Z)
  | AutoMintGroupPrecheck (account : bytes) (mint_group_index : Z)
  | SetupNextPendingBuffer (program_id account txo_buffer mint_buffer : bytes).

(** The widths that the instruction encoding guarantees. *)
Definition operation_wf (op : operation) : Prop :=
  match op with
  | RequestWithdrawal _ request => pod_wf request
  | ClaimDepositManual _ _ _ _ _ amount => in_width 64 amount
  | SingleBlockTransition _ _ h _ _ tb mb | BlockTransitionReorg _ _ h _ _ _ tb mb =>
      in_width 64 (total_finalized_fees_collected_chain_history h) /\
      Forall is_byte tb /\ Forall is_byte mb
  | AutoMintGroup _ _ _ g | AutoMintGroupPrecheck _ g => 0 <= g
  | SetupNextPendingBuffer _ _ tb mb => Forall is_byte tb /\ Forall is_byte mb
  | _ => True
  end.

Section machine.
Context `{Sha256} `{ZkVerifier}.
(** The token program: the results of the burn and mint calls. *)
Context (burn_from : bytes -> Z -> res DogeBridgeError unit).
Context (mint_to : Z -> bytes -> Z -> res DogeBridgeError unit).
Abbreviation State := PsyBridgeProgramState.

Definition discard {A} (c : res DogeBridgeError A * State) : res DogeBridgeError unit * State :=
  match c with
  | (Ok _, s) => (Ok tt, s)
  | (Err e, s) => (Err e, s)
  | (Panic, s) => (Panic, s)
  end.

Definition execute (s : State) (op : operation) : res DogeBridgeError unit * State :=
  match op with
  | RequestWithdrawal requester request => request_withdrawal s burn_from requester request
  | ProcessWithdrawal proof vk tx ro root next =>
      discard (run_process_bridge_withdrawal s proof vk tx ro root next)
  | ReplayWithdrawal proof now => discard (process_replay_withdrawal_proof s proof now)
  | SnapshotWithdrawals now => (Ok tt, snapshot_for_withdrawal s now)
  | OperatorWithdrawFees ata => run_bridge_operator_withdraw_fees s mint_to ata
  | ClaimDepositManual br ar tx i d a => run_claim_deposit_manual s mint_to br ar tx i d a
  | SingleBlockTransition proof vk h pid acc tb mb =>
      run_standard_single_block_transition s proof vk h pid acc tb mb
  | BlockTransitionReorg proof vk h extra pid acc tb mb =>
      run_block_transition_reorg s proof vk h extra pid acc tb mb
  | AutoMintGroup pid acc mb g => discard (run_auto_mint_group s mint_to pid acc mb g).1
  | AutoMintGroupPrecheck acc g => discard (run_auto_mint_group_precheck s g acc)
  | SetupNextPendingBuffer pid acc tb mb => run_setup_next_pending_buffer s pid acc tb mb
  end.

(** States reached by successful operations, with the operations in order.  A
    failed instruction is rolled back by the runtime and leaves no trace. *)
Inductive reaches (s0 : State) : list operation -> State -> Prop :=
  | reaches_refl : reaches s0 [] s0
  | reaches_step trace s op s' :
      reaches s0 trace s -> operation_wf op -> execute s op = (Ok tt, s') ->
      reaches s0 (trace ++ [op]) s'.
End machine.

(** ** The ledger *)

(** The chain as the bridge has it: the header accepted last; the finalized states of
    the bridge's start, eight times, and of the single-block updates since, oldest first
    (a reorg leaves no entry); and what the last processed withdrawal left for the next
    one. *)
Record Chain := {
  c_header : PsyBridgeHeader;
  c_blocks : list PsyBridgeStateCommitment;
  c_return_output : PsyReturnTxOutput;
  c_spent_root : QHash256;
  c_processed : Z
}.

Definition chain_start `{Sha256} (h : PsyBridgeHeader) (ro : PsyReturnTxOutput) : Chain :=
  {| c_header := h; c_blocks := replicate 8 (finalized_state h); c_return_output := ro;
     c_spent_root := ZERO 45; c_processed := 0 |}.
Definition block_accepted (h : PsyBridgeHeader) (c : Chain) : Chain :=
  {| c_header := h; c_blocks := c_blocks c ++ [finalized_state h]; c_return_output := c_return_output c;
     c_spent_root := c_spent_root c; c_processed := c_processed c |}.
Definition reorg_accepted (h : PsyBridgeHeader) (c : Chain) : Chain :=
  {| c_header := h; c_blocks := c_blocks c; c_return_output := c_return_output c;
     c_spent_root := c_spent_root c; c_processed := c_processed c |}.
Definition withdrawal_processed (ro : PsyReturnTxOutput) (root : QHash256) (next : Z) (c : Chain) : Chain :=
  {| c_header := c_header c; c_blocks := c_blocks c; c_return_output := ro; c_spent_root := root; c_processed := next |}.

Record Ledger := {
  (** withdrawal requests, net of fees *)
  l_requests : list PsyWithdrawalRequest;
  (** manual deposits: transaction, output, account, amount net of fees *)
  l_deposits : list (QHash256 * Z * bytes * Z);
  (** sighashes of the transactions sent to the custodian *)
  l_sent : list QHash256;
  l_requested_sats : Z;
  l_withdrawal_fees : Z;
  l_deposit_fees : Z;
  l_chain : Chain;
  l_operator_paid : Z
}.

Definition withdrawal_fee (cfg : PsyBridgeConfig) (amount : Z) : Z :=
  u64 (exact_fee amount (withdrawal_flat_fee_sats cfg) (withdrawal_fee_rate_numerator cfg)
         (withdrawal_fee_rate_denominator cfg)).
Definition deposit_fee (cfg : PsyBridgeConfig) (amount : Z) : Z :=
  u64 (exact_fee amount (deposit_flat_fee_sats cfg) (deposit_fee_rate_numerator cfg)
         (deposit_fee_rate_denominator cfg)).

(** Fees of automatic deposits, as the last header states them. *)
Definition l_chain_fees (l : Ledger) : Z := total_finalized_fees_collected_chain_history (c_header (l_chain l)).

(** Everything the operator has earned so far. *)
Definition l_fees (l : Ledger) : Z := u64 (u64 (l_deposit_fees l + l_withdrawal_fees l) + l_chain_fees l).

Definition empty_ledger `{Sha256} (h : PsyBridgeHeader) (ro : PsyReturnTxOutput) : Ledger :=
  {| l_requests := []; l_deposits := []; l_sent := []; l_requested_sats := 0; l_withdrawal_fees := 0;
     l_deposit_fees := 0; l_chain := chain_start h ro; l_operator_paid := 0 |}.

Definition with_chain (c : Chain) (l : Ledger) : Ledger :=
  {| l_requests := l_requests l; l_deposits := l_deposits l; l_sent := l_sent l;
     l_requested_sats := l_requested_sats l; l_withdrawal_fees := l_withdrawal_fees l;
     l_deposit_fees := l_deposit_fees l; l_chain := c; l_operator_paid := l_operator_paid l |}.

(** What a successful operation means. *)
Definition record (cfg : PsyBridgeConfig) (l : Ledger) (op : operation) : Ledger :=
  match op with
  | RequestWithdrawal _ request =>
      let fee := withdrawal_fee cfg (wr_amount_sats request) in
      {| l_requests := l_requests l ++
           [{| wr_amount_sats := wr_amount_sats request - fee; wr_address_type := wr_address_type request;
               wr_recipient_address := wr_recipient_address request |}];
         l_deposits := l_deposits l; l_sent := l_sent l;
         l_requested_sats := l_requested_sats l + wr_amount_sats request;
         l_withdrawal_fees := l_withdrawal_fees l + fee;
         l_deposit_fees := l_deposit_fees l; l_chain := l_chain l;
         l_operator_paid := l_operator_paid l |}
  | ProcessWithdrawal _ _ _ ro root next =>
      {| l_requests := l_requests l; l_deposits := l_deposits l; l_sent := l_sent l ++ [ro_sighash ro];
         l_requested_sats := l_requested_sats l; l_withdrawal_fees := l_withdrawal_fees l;
         l_deposit_fees := l_deposit_fees l;
         l_chain := withdrawal_processed ro root next (l_chain l);
         l_operator_paid := l_operator_paid l |}
  | OperatorWithdrawFees _ =>
      let payment := l_fees l - l_operator_paid l in
      {| l_requests := l_requests l; l_deposits := l_deposits l; l_sent := l_sent l;
         l_requested_sats := l_requested_sats l; l_withdrawal_fees := l_withdrawal_fees l;
         l_deposit_fees := l_deposit_fees l; l_chain := l_chain l;
         l_operator_paid := l_operator_paid l + payment |}
  | ClaimDepositManual _ _ tx i d amount =>
      let fee := deposit_fee cfg amount in
      {| l_requests := l_requests l; l_deposits := l_deposits l ++ [(tx, i, d, amount - fee)];
         l_sent := l_sent l; l_requested_sats := l_requested_sats l;
         l_withdrawal_fees := l_withdrawal_fees l; l_deposit_fees := l_deposit_fees l + fee;
         l_chain := l_chain l; l_operator_paid := l_operator_paid l |}
  | SingleBlockTransition _ _ h _ _ _ _ => with_chain (block_accepted h (l_chain l)) l
  | BlockTransitionReorg _ _ h _ _ _ _ _ => with_chain (reorg_accepted h (l_chain l)) l
  | _ => l
  end.

Definition ledger_of `{Sha256} (ix : InitializeBridgeInstructionData) (trace : list operation) : Ledger :=
  fold_left (record (init_config_params ix)) trace (empty_ledger (init_bridge_header ix) (init_start_return_txo_output ix)).

(** ** The refinement *)

Definition deposit_leaf `{Sha256} (d : QHash256 * Z * bytes * Z) : QHash256 :=
  let '(tx, i, ata, amount) := d in hash_deposit_leaf tx i ata amount.

(** The ring of recent blocks, read from its cursor on; and the last eight of a list. *)
Definition ring_from (k : nat) {A} (ring : list A) : list A := drop k ring ++ take k ring.
Definition last_eight {A} (l : list A) : list A := drop (length l - 8) l.

(** The state has the chain of the ledger: its header, the last eight of its blocks in
    the ring, oldest at the cursor, and the cursor of withdrawals. *)
Record refines_chain (s : PsyBridgeProgramState) (c : Chain) : Prop := {
  ref_header : bridge_header s = c_header c;
  ref_ring : length (recent_finalized_blocks s) = 8%nat;
  ref_blocks : ring_from (Z.to_nat (next_recent_finalized_block_index s)) (recent_finalized_blocks s) = last_eight (c_blocks c);
  ref_cursor : next_recent_finalized_block_index s = len (c_blocks c) mod 8;
  ref_return_output : last_return_output s = c_return_output c;
  ref_spent_root : spent_txo_tree_root s = c_spent_root c;
  ref_processed : next_processed_withdrawals_index s = c_processed c
}.

Record refines `{Sha256} (cfg : PsyBridgeConfig) (s : PsyBridgeProgramState) (l : Ledger) : Prop := {
  ref_config : config_params s = cfg;
  ref_requests : requested_withdrawals_tree s = tree_of (bytes_of <$> l_requests l);
  ref_deposits : manual_deposits_tree s = tree_of (deposit_leaf <$> l_deposits l);
  ref_sent : sent_transactions_tree s = tree_of (l_sent l);
  ref_requested_sats : total_requested_withdrawals_sats s = u64 (l_requested_sats l);
  ref_withdrawal_fees : total_withdrawal_fees_sats s = u64 (l_withdrawal_fees l);
  ref_deposit_fees : total_manual_deposit_fees_sats s = u64 (l_deposit_fees l);
  ref_chain : refines_chain s (l_chain l);
  ref_operator_paid : total_fees_withdrawn_sats s = l_operator_paid l
}.

Lemma u64_add a b : u64 (u64 a + b) = u64 (a + b).
Proof. unfold wrap. by rewrite Zplus_mod_idemp_l. Qed.

Lemma u64_add_r a b : u64 (a + u64 b) = u64 (a + b).
Proof. unfold wrap. by rewrite Zplus_mod_idemp_r. Qed.

Lemma withdrawal_fee_nonneg cfg amount : 0 <= withdrawal_fee cfg amount.
Proof. apply (wrap_in_width 64). lia. Qed.

(** A request for a smaller amount still fits its leaf. *)
Lemma net_request_wf (request : PsyWithdrawalRequest) amount :
  pod_wf request -> 0 <= amount <= wr_amount_sats request ->
  pod_wf {| wr_amount_sats := amount; wr_address_type := wr_address_type request;
            wr_recipient_address := wr_recipient_address request |}.
Proof.
  intros (Ha & Ht & Hadr) Hle. split; [|by split].
  change (in_width 64 (wr_amount_sats request)) in Ha. change (in_width 64 amount).
  unfold in_width in *. lia.
Qed.

(** Projections of updated ledgers, without unfolding trees. *)
Ltac ledger_simpl := cbn [record with_chain l_requests l_deposits l_sent l_requested_sats
  l_withdrawal_fees l_deposit_fees l_chain l_operator_paid].

(** *** The ring *)

Lemma last_eight_snoc {A} (l : list A) x : (8 <= length l)%nat -> last_eight (l ++ [x]) = tail (last_eight l) ++ [x].
Proof.
  intros Hl. unfold last_eight. rewrite length_app. cbn [length]. rewrite drop_app_le by lia.
  replace (length l + 1 - 8)%nat with (S (length l - 8)) by lia. f_equal. rewrite <- Nat.add_1_r, <- drop_drop.
  by destruct (drop (length l - 8) l).
Qed.

(** An entry over the oldest one, and the cursor one further. *)
Lemma ring_insert {A} (ring : list A) k x :
  length ring = 8%nat -> (k < 8)%nat ->
  ring_from ((k + 1) mod 8) (<[k := x]> ring) = tail (ring_from k ring) ++ [x].
Proof.
  intros Hl Hk. do 8 (destruct ring as [|? ring]; [discriminate Hl|]). destruct ring; [|discriminate Hl].
  do 8 (destruct k as [|k]; [reflexivity|]). lia.
Qed.

(** The fields that the chain is about. *)
Definition chain_fields (s : PsyBridgeProgramState) :=
  (bridge_header s, recent_finalized_blocks s, next_recent_finalized_block_index s, last_return_output s,
   spent_txo_tree_root s, next_processed_withdrawals_index s).

Lemma refines_chain_same (s s' : PsyBridgeProgramState) c :
  refines_chain s c -> chain_fields s' = chain_fields s -> refines_chain s' c.
Proof. intros [] [= Hh Hr Hn Ho Hs Hp]. split; rewrite ?Hh, ?Hr, ?Hn, ?Ho, ?Hs, ?Hp; done. Qed.

Lemma refines_block (s : PsyBridgeProgramState) m h c :
  refines_chain s c -> refines_chain (block_stored h m s) (block_accepted h c).
Proof.
  intros [Hh Hl Hb Hi Ho Hs Hp]. unfold block_stored. cbv zeta. set (i := next_recent_finalized_block_index s) in *.
  assert (0 <= i < 8) as Hr by (rewrite Hi; apply Z.mod_pos_bound; lia).
  assert (8 <= length (c_blocks c))%nat as Hlen.
  { assert (length (last_eight (c_blocks c)) = 8%nat) as E.
    { rewrite <- Hb. unfold ring_from. rewrite length_app, length_drop, length_take. lia. }
    unfold last_eight in E. rewrite length_drop in E. lia. }
  split; cbn [bridge_header recent_finalized_blocks next_recent_finalized_block_index last_return_output spent_txo_tree_root
    next_processed_withdrawals_index with_next_recent_finalized_block_index with_recent_finalized_blocks with_bridge_header
    with_pending_mint_txos block_accepted c_header c_blocks c_return_output c_spent_root c_processed]; try done.
  - by rewrite length_insert.
  - rewrite wrap_id by (unfold in_width; lia). rewrite last_eight_snoc, <- Hb, <- ring_insert by lia. f_equal.
    rewrite Z2Nat.inj_mod, Z2Nat.inj_add by lia. done.
  - rewrite wrap_id by (unfold in_width; lia). rewrite len_app. change (len [finalized_state h]) with 1.
    by rewrite Hi, Zplus_mod_idemp_l.
Qed.

Lemma refines_reorg (s : PsyBridgeProgramState) m h c :
  refines_chain s c -> refines_chain (with_bridge_header h (with_pending_mint_txos m s)) (reorg_accepted h c).
Proof. by intros []. Qed.

Section refinement.
Context `{Sha256Laws} `{ZkVerifier}.
Context (burn_from : bytes -> Z -> res DogeBridgeError unit).
Context (mint_to : Z -> bytes -> Z -> res DogeBridgeError unit).
Context (cfg : PsyBridgeConfig).
Abbreviation State := PsyBridgeProgramState.

(** Operations that leave every recorded field but the chain alone. *)
Lemma refines_frame (s s' : State) l c :
  refines cfg s l -> refines_chain s' c ->
  config_params s' = config_params s ->
  requested_withdrawals_tree s' = requested_withdrawals_tree s ->
  manual_deposits_tree s' = manual_deposits_tree s ->
  sent_transactions_tree s' = sent_transactions_tree s ->
  total_requested_withdrawals_sats s' = total_requested_withdrawals_sats s ->
  total_withdrawal_fees_sats s' = total_withdrawal_fees_sats s ->
  total_manual_deposit_fees_sats s' = total_manual_deposit_fees_sats s ->
  total_fees_withdrawn_sats s' = total_fees_withdrawn_sats s ->
  refines cfg s' (with_chain c l).
Proof. intros []. intros. split; ledger_simpl; congruence || done. Qed.

Lemma get_total_finalized_fees_ledger (s : State) l :
  refines cfg s l -> get_total_finalized_fees s = l_fees l.
Proof.
  intros []. unfold get_total_finalized_fees, l_fees.
  by rewrite ref_deposit_fees0, ref_withdrawal_fees0, (ref_header _ _ ref_chain0),
    (u64_add (l_deposit_fees l)), u64_add_r.
Qed.

Lemma refines_request (s s' : State) l requester request :
  refines cfg s l -> pod_wf request -> len (l_requests l) < 2 ^ 32 ->
  request_withdrawal s burn_from requester request = (Ok tt, s') ->
  refines cfg s' (record cfg l (RequestWithdrawal requester request)).
Proof.
  intros [] Hreq Hlen Hr. unfold request_withdrawal in Hr.
  peel Hr as E0. peel Hr as E1. peel Hr as E2. injection Hr as <-.
  apply negb_false_iff in E1. subst x. unfold process_request_withdrawal in E0.
  destruct (calcuate_withdrawal_fee _ _ _ _) as [f| |] eqn:Ef; cbn [fee_or_zero] in E0;
    [|discriminate E0..].
  apply withdrawal_fee_Ok in Ef as (Hf & Hn & Hpos). rewrite ref_config0 in Hf.
  fold (withdrawal_fee cfg (wr_amount_sats request)) in Hf.
  destruct (_ || _); [discriminate|].
  assert (pod_wf {| wr_amount_sats := amount_after_fees f; wr_address_type := wr_address_type request;
                    wr_recipient_address := wr_recipient_address request |}) as Hwf.
  { apply net_request_wf; [done|]. rewrite Hn, Hf in *. pose proof (withdrawal_fee_nonneg cfg (wr_amount_sats request)). lia. }
  rewrite to_leaf_layout in E0 by done. cbn [or_panic pure_call] in E0.
  cbn [requested_withdrawals_tree with_total_withdrawal_fees_sats] in E0.
  rewrite ref_requests0, append_tree_of in E0 by (unfold len in *; rewrite length_fmap; lia).
  cbn [or_panic pure_call] in E0. injection E0 as <-.
  split; ledger_simpl; try done.
  - rewrite fmap_app. cbn [fmap list_fmap]. by rewrite Hn, Hf.
  - by rewrite ref_requested_sats0, u64_add.
  - by rewrite ref_withdrawal_fees0, u64_add, Hf.
  - by eapply refines_chain_same.
Qed.

Lemma refines_process_withdrawal (s s' : State) l proof vk tx ro root next r :
  refines cfg s l -> len (l_sent l) < 2 ^ 32 ->
  run_process_bridge_withdrawal s proof vk tx ro root next = (Ok r, s') ->
  refines cfg s' (record cfg l (ProcessWithdrawal proof vk tx ro root next)).
Proof.
  intros [] Hlen Hr. unfold run_process_bridge_withdrawal in Hr. peel Hr as E0. peel Hr as E1.
  peel Hr as E2. injection Hr as _ <-. unfold update_for_withdrawal in E2. cbv zeta in E2.
  cbn [sent_transactions_tree with_next_processed_withdrawals_index with_spent_txo_tree_root
       with_last_return_output] in E2.
  rewrite ref_sent0, append_tree_of in E2 by done. cbn [or_panic pure_call] in E2. injection E2 as _ <-.
  split; ledger_simpl; try done. by destruct ref_chain0.
Qed.

Lemma refines_claim_deposit (s s' : State) l br ar tx i d amount :
  refines cfg s l -> len (l_deposits l) < 2 ^ 32 ->
  run_claim_deposit_manual s mint_to br ar tx i d amount = (Ok tt, s') ->
  refines cfg s' (record cfg l (ClaimDepositManual br ar tx i d amount)).
Proof.
  intros [] Hlen Hr. unfold run_claim_deposit_manual in Hr. peel Hr as E0. peel Hr as E1.
  injection Hr as <-. unfold process_manual_claimed_deposit in E0.
  destruct (get_txo_block_number_tx_number_output_index_from_combined_index i) as [[bh txn] oi].
  destruct (find_recent_auto_claim_txo_tree_root_and_block_merkle_root s ar) as [h root].
  peel E0 as E2. peel E0 as E3. cbv zeta in E0. peel E0 as E4.
  destruct (calcuate_deposit_fee _ _ _ _) as [f| |] eqn:Ef; cbn [fee_or_zero] in E0, E4;
    [|discriminate E4..].
  change calcuate_deposit_fee with calcuate_withdrawal_fee in Ef.
  apply withdrawal_fee_Ok in Ef as (Hf & Hn & _). rewrite ref_config0 in Hf.
  fold (deposit_fee cfg amount) in Hf.
  cbn [manual_deposits_tree with_total_manual_deposit_fees_sats] in E0.
  rewrite ref_deposits0, append_tree_of in E0 by (unfold len in *; rewrite length_fmap; lia).
  cbn [or_panic pure_call] in E0. injection E0 as _ <-.
  split; ledger_simpl; try done.
  - rewrite fmap_app. cbn [fmap list_fmap deposit_leaf]. by rewrite Hn, Hf.
  - cbn [total_manual_deposit_fees_sats with_manual_deposits_tree with_total_manual_deposit_fees_sats].
    by rewrite ref_deposit_fees0, u64_add, Hf.
  - by eapply refines_chain_same.
Qed.

Lemma refines_operator_fees (s s' : State) l ata :
  refines cfg s l -> in_width 64 (l_operator_paid l) ->
  run_bridge_operator_withdraw_fees s mint_to ata = (Ok tt, s') ->
  refines cfg s' (record cfg l (OperatorWithdrawFees ata)) /\
  in_width 64 (l_operator_paid (record cfg l (OperatorWithdrawFees ata))).
Proof.
  intros Href Hpaid Hr. pose proof (get_total_finalized_fees_ledger s l Href) as Hfees.
  destruct Href. unfold run_bridge_operator_withdraw_fees in Hr. peel Hr as E0. peel Hr as E1.
  injection Hr as <-. unfold run_bridge_operator_withdraw_fees_precheck in E0.
  rewrite Hfees, ref_operator_paid0 in E0. peel E0 as E2. cbv zeta in E0. peel E0 as E3.
  injection E0 as _ <-. clear E1 E3. reflect_guards.
  assert (in_width 64 (l_fees l)) as Hw by (apply wrap_in_width; lia).
  assert (l_operator_paid l + (l_fees l - l_operator_paid l) = l_fees l) as Heq by lia.
  split; [|ledger_simpl; by rewrite Heq].
  split; ledger_simpl; try done; [by eapply refines_chain_same|].
  cbn [total_fees_withdrawn_sats with_total_fees_withdrawn_sats].
  unfold in_width in *. rewrite (wrap_id 64 (l_fees l - l_operator_paid l)) by (unfold in_width; lia).
  rewrite Heq. by apply wrap_id.
Qed.

(** Operations that touch none of the recorded fields. *)
Lemma refines_same (s s' : State) l :
  refines cfg s l -> chain_fields s' = chain_fields s ->
  config_params s' = config_params s ->
  requested_withdrawals_tree s' = requested_withdrawals_tree s ->
  manual_deposits_tree s' = manual_deposits_tree s ->
  sent_transactions_tree s' = sent_transactions_tree s ->
  total_requested_withdrawals_sats s' = total_requested_withdrawals_sats s ->
  total_withdrawal_fees_sats s' = total_withdrawal_fees_sats s ->
  total_manual_deposit_fees_sats s' = total_manual_deposit_fees_sats s ->
  total_fees_withdrawn_sats s' = total_fees_withdrawn_sats s ->
  refines cfg s' l.
Proof.
  intros Href Hc. intros. assert (with_chain (l_chain l) l = l) as <- by (by destruct l).
  eapply refines_frame; [done| |done..]. eapply refines_chain_same, Hc. apply (ref_chain _ _ _ Href).
Qed.

Lemma discard_ok {A} (c : res DogeBridgeError A * State) s' :
  discard c = (Ok tt, s') -> exists a, c = (Ok a, s').
Proof. destruct c as [[] ?]; simpl; intros Hd; [injection Hd as <-; eauto|discriminate Hd..]. Qed.

Lemma replay_frame (s s' : State) proof now b :
  process_replay_withdrawal_proof s proof now = (Ok b, s') ->
  s' = s \/ s' = with_last_processed_withdrawals_at_ms (u64 (now * 1000)) s.
Proof.
  unfold process_replay_withdrawal_proof. intros Hr. peel Hr as E0.
  destruct (negb _); [injection Hr as _ <-; by left|].
  destruct (_ <? _); injection Hr as _ <-; [by left|by right].
Qed.

(** Lengths of the ledger's lists are bounded by the number of operations. *)
Definition ledger_size (n : Z) (l : Ledger) : Prop :=
  len (l_requests l) <= n /\ len (l_deposits l) <= n /\ len (l_sent l) <= n /\ in_width 64 (l_operator_paid l).

Lemma refines_step (s s' : State) l op n :
  refines cfg s l -> ledger_size n l -> 0 <= n < 2 ^ 32 -> operation_wf op ->
  execute burn_from mint_to s op = (Ok tt, s') ->
  refines cfg s' (record cfg l op) /\ ledger_size (n + 1) (record cfg l op).
Proof.
  intros Href (Hn1 & Hn2 & Hn3 & Hp) Hn Hwf Hr.
  assert (forall l', len (l_requests l') <= n + 1 -> len (l_deposits l') <= n + 1 -> len (l_sent l') <= n + 1 ->
    l_operator_paid l' = l_operator_paid l -> ledger_size (n + 1) l') as Hsz
    by (intros l' ? ? ? Heq; unfold ledger_size; rewrite Heq; auto).
  destruct op; cbn [execute operation_wf] in Hr, Hwf.
  - split; [by eapply refines_request; [..|lia|]|].
    apply Hsz; ledger_simpl; rewrite ?len_app, ?len_cons, ?len_nil; lia || done.
  - apply discard_ok in Hr as [r Hr]. split; [by eapply refines_process_withdrawal; [|lia|]|].
    apply Hsz; ledger_simpl; rewrite ?len_app, ?len_cons, ?len_nil; lia || done.
  - apply discard_ok in Hr as [r Hr]. split; [|apply Hsz; ledger_simpl; lia || done].
    destruct (replay_frame _ _ _ _ _ Hr) as [->| ->]; [done|by apply (refines_same s)].
  - injection Hr as <-. split; [|apply Hsz; ledger_simpl; lia || done]. by apply (refines_same s).
  - destruct (refines_operator_fees s s' l _ Href Hp Hr) as [Href' Hp']. split; [done|].
    unfold ledger_size. ledger_simpl. split_and!; lia || done.
  - split; [by eapply refines_claim_deposit; [|lia|]|].
    apply Hsz; ledger_simpl; rewrite ?len_app, ?len_cons, ?len_nil; lia || done.
  - destruct Hwf as (_ & Htb & Hmb).
    destruct (single_block_frame _ _ _ _ _ _ _ _ _ Htb Hmb Hr) as (m & _ & ->).
    split; [apply (refines_frame s); try done; apply refines_block, Href|apply Hsz; ledger_simpl; lia || done].
  - destruct Hwf as (_ & Htb & Hmb).
    destruct (reorg_frame _ _ _ _ _ _ _ _ _ _ Htb Hmb Hr) as (m & _ & ->).
    split; [apply (refines_frame s); try done; apply refines_reorg, Href|apply Hsz; ledger_simpl; lia || done].
  - apply discard_ok in Hr as [r Hr]. split; [|apply Hsz; ledger_simpl; lia || done].
    destruct (run_auto_mint_group _ _ _ _ _ _) as [[res s1] calls] eqn:Er. simpl in Hr. injection Hr as -> ->.
    destruct (auto_mint_frame _ _ _ _ _ _ _ _ _ Er) as (_ & _ & last & m & _ & ->). by apply (refines_same s).
  - apply discard_ok in Hr as [r Hr]. split; [|apply Hsz; ledger_simpl; lia || done].
    destruct (auto_mint_precheck_frame _ _ _ _ _ Hr) as (_ & _ & last & m & _ & ->). by apply (refines_same s).
  - destruct Hwf as (_ & Hmb). destruct (setup_next_frame _ _ _ _ _ _ Hmb Hr) as (_ & m & k & _ & _ & _ & ->).
    split; [by apply (refines_same s)|apply Hsz; ledger_simpl; lia || done].
Qed.

Lemma refines_initial (s : State) ix :
  refines (init_config_params ix) (initialize s ix) (empty_ledger (init_bridge_header ix) (init_start_return_txo_output ix)).
Proof.
  split; try done; [symmetry; exact tree_of_nil..|]. split; try done.
  change (header_copy_from (bridge_header s) (init_bridge_header ix) = init_bridge_header ix).
  by destruct (init_bridge_header ix).
Qed.
End refinement.

(** ** The mint queue and the recent blocks *)

(** The manager is consistent, and the ring of recent blocks has eight entries
    with its cursor inside. *)
Definition bridge_inv (s : PsyBridgeProgramState) : Prop :=
  manager_ok (pending_mint_txos s) /\ length (recent_finalized_blocks s) = 8%nat /\
  0 <= next_recent_finalized_block_index s < 8.

Lemma manager_queued_ok account blocks m m' :
  manager_ok m -> manager_queued account blocks m m' -> manager_ok m'.
Proof.
  intros Hm [->|(h & infos & n & Ha & Hn & _)]; [done|].
  by destruct (append_block_ok _ _ _ _ _ _ (proj1 Hm) Hn Ha) as [-> |?].
Qed.

Section invariant.
Context `{Sha256} `{ZkVerifier}.
Context (burn_from : bytes -> Z -> res DogeBridgeError unit).
Context (mint_to : Z -> bytes -> Z -> res DogeBridgeError unit).
Abbreviation State := PsyBridgeProgramState.

Lemma request_inv (s s' : State) requester request :
  request_withdrawal s burn_from requester request = (Ok tt, s') -> bridge_inv s -> bridge_inv s'.
Proof.
  intros Hr. unfold request_withdrawal in Hr. peel Hr as E0. peel Hr as E1. peel Hr as E2. injection Hr as <-.
  unfold process_request_withdrawal in E0. cbv zeta in E0. destruct (_ || _); [by injection E0 as _ <-|].
  peel E0 as E3. peel E0 as E4. by injection E0 as _ <-.
Qed.

Lemma withdrawal_inv (s s' : State) proof vk tx ro root next r :
  run_process_bridge_withdrawal s proof vk tx ro root next = (Ok r, s') -> bridge_inv s -> bridge_inv s'.
Proof.
  intros Hr. unfold run_process_bridge_withdrawal in Hr. peel Hr as E0. peel Hr as E1. peel Hr as E2.
  injection Hr as _ <-. unfold update_for_withdrawal in E2. peel E2 as E3. by injection E2 as _ <-.
Qed.

Lemma operator_inv (s s' : State) ata :
  run_bridge_operator_withdraw_fees s mint_to ata = (Ok tt, s') -> bridge_inv s -> bridge_inv s'.
Proof.
  intros Hr. unfold run_bridge_operator_withdraw_fees in Hr. peel Hr as E0. peel Hr as E1. injection Hr as <-.
  unfold run_bridge_operator_withdraw_fees_precheck in E0. peel E0 as E2. peel E0 as E3. by injection E0 as _ <-.
Qed.

Lemma deposit_inv (s s' : State) br ar tx i d a :
  run_claim_deposit_manual s mint_to br ar tx i d a = (Ok tt, s') -> bridge_inv s -> bridge_inv s'.
Proof.
  intros Hr. unfold run_claim_deposit_manual in Hr. peel Hr as E0. peel Hr as E1. injection Hr as <-.
  unfold process_manual_claimed_deposit in E0.
  destruct (get_txo_block_number_tx_number_output_index_from_combined_index i) as [[bh txn] oi].
  destruct (find_recent_auto_claim_txo_tree_root_and_block_merkle_root s ar) as [h root].
  peel E0 as E2. peel E0 as E3. cbv zeta in E0. peel E0 as E4. peel E0 as E5. by injection E0 as _ <-.
Qed.

Lemma bridge_inv_step (s s' : State) op :
  bridge_inv s -> operation_wf op -> execute burn_from mint_to s op = (Ok tt, s') -> bridge_inv s'.
Proof.
  intros Hinv Hwf Hr. pose proof Hinv as (Hm & Hl & Hi). destruct op; cbn [execute operation_wf] in Hr, Hwf.
  - by eapply request_inv.
  - apply discard_ok in Hr as [r Hr]. by eapply withdrawal_inv.
  - apply discard_ok in Hr as [r Hr]. destruct (replay_frame _ _ _ _ _ Hr) as [->| ->]; done.
  - by injection Hr as <-.
  - by eapply operator_inv.
  - by eapply deposit_inv.
  - destruct Hwf as (_ & Htb & Hmb).
    destruct (single_block_frame _ _ _ _ _ _ _ _ _ Htb Hmb Hr) as (m & Hq & ->).
    split; [by eapply manager_queued_ok|]. split; [simpl; by rewrite length_insert|].
    simpl. apply Z.mod_pos_bound. lia.
  - destruct Hwf as (_ & Htb & Hmb).
    destruct (reorg_frame _ _ _ _ _ _ _ _ _ _ Htb Hmb Hr) as (m & Hq & ->).
    split; [by eapply manager_queued_ok|done].
  - apply discard_ok in Hr as [r Hr].
    destruct (run_auto_mint_group _ _ _ _ _ _) as [[res s1] calls] eqn:Er. simpl in Hr. injection Hr as -> ->.
    destruct (auto_mint_frame _ _ _ _ _ _ _ _ _ Er) as (Hne & Hcan & last & m & Hmark & ->).
    split; [by eapply manager_claim_ok|done].
  - apply discard_ok in Hr as [r Hr].
    destruct (auto_mint_precheck_frame _ _ _ _ _ Hr) as (Hne & Hcan & last & m & Hmark & ->).
    split; [by eapply manager_claim_ok|done].
  - destruct Hwf as (_ & Hmb). destruct (setup_next_frame _ _ _ _ _ _ Hmb Hr) as (He & m & k & Hf & Hlt & Hk & ->).
    destruct (fast_forward_wf _ _ (proj1 Hm) Hf) as [Hwf' _]. split; [|done]. split; [exact Hwf'|].
    destruct (fresh_tracker_ok account k Hk) as [?|?]; [by left|right; by split].
Qed.
End invariant.

(** ** Theorems *)

Section theorems.
Context `{Sha256Laws} `{ZkVerifier}.
Context (burn_from : bytes -> Z -> res DogeBridgeError unit).
Context (mint_to : Z -> bytes -> Z -> res DogeBridgeError unit).

(** [C2] The bridge state records its history: after any sequence of fewer than 2^32
    successful operations since initialisation (with any proofs accepted and any results
    of the token program), the requested withdrawals tree is the Merkle tree of the
    requests net of fees, the manual deposits tree that of the deposits net of fees, the
    sent transactions tree that of the sighashes, all in order; the requested amount, the
    withdrawal fees and the deposit fees are the sums over the requests and deposits,
    modulo 2^64; and the operator has been paid what the ledger says.  The header is the
    one accepted last.  The ring of recent blocks, read from its cursor on, is the
    last eight of: the initial finalized state eight times, then the finalized states of
    the single-block updates in order (a reorg adds none); the cursor is their number
    modulo eight.  The return output, the root of the spent outputs and the index of the
    next withdrawal are those of the withdrawal processed last. *)
Theorem bridge_state_refines_ledger (s0 s : PsyBridgeProgramState) (ix : InitializeBridgeInstructionData)
    (trace : list operation) :
  reaches burn_from mint_to (initialize s0 ix) trace s -> len trace < 2 ^ 32 ->
  refines (init_config_params ix) s (ledger_of ix trace).
Proof.
  intros Hr. enough (len trace < 2 ^ 32 -> refines (init_config_params ix) s (ledger_of ix trace) /\
    ledger_size (len trace) (ledger_of ix trace)) by tauto.
  induction Hr as [|trace s op s' Hr IH Hwf Hx]; intros Hlen.
  - split; [apply refines_initial|]. unfold ledger_size, len, in_width. simpl. lia.
  - rewrite len_app, len_cons, len_nil in *. pose proof (len_nonneg trace).
    destruct IH as [Href Hsz]; [lia|]. unfold ledger_of. rewrite fold_left_app. simpl fold_left.
    replace (len trace + (1 + 0)) with (len trace + 1) by lia.
    by eapply refines_step; [..|lia|done|].
Qed.

(** The mint queue stays consistent: in every state reached from
    initialisation, the block cursor and counts are within the array of eight, a
    block in progress has a tracker whose counter and bitmap agree, the ring of
    recent blocks has eight entries and its cursor is inside. *)
Theorem bridge_inv_reachable (s0 s : PsyBridgeProgramState) (ix : InitializeBridgeInstructionData)
    (trace : list operation) :
  reaches burn_from mint_to (initialize s0 ix) trace s -> bridge_inv s.
Proof.
  induction 1 as [|trace s op s' _ IH Hwf Hx]; [|by eapply bridge_inv_step].
  split; [|done]. split; [|by left]. by vm_compute.
Qed.
End theorems.
