(* ===== verification/StateTypes.v ===== *)
(** * StateTypes: the bridge state stays within its types

    The model keeps [uN] fields as integers and arrays as lists; this file shows that
    every operation respects the widths and lengths that the Rust types guarantee.
    It is what makes the account memory readable: [bytes_of] of a state that is not
    well formed could not be read back. *)
From S2P Require Import Prelude Pod Hash Sha256 Errors AppendTree TxoIndex Fees Types PublicInputs MintGroup ProgramState BlockUpdate BlockUpdateProofs Ledger.
From Stdlib Require Import ZArith Lia.
From stdpp Require Import base decidable list numbers option.

Open Scope Z_scope.
Open Scope bridge_scope.

(** ** Well-formed records, field by field *)

Record tracker_typed (t : PendingMintsTracker) : Prop := {
  tt_account : byte_array 32 (last_finalized_auto_claim_mints_storage_account t);
  tt_bitmap : byte_array 32 (pending_mint_groups_claimed t);
  tt_total : in_width 32 (total_pending_mints t);
  tt_remaining : in_width 32 (pending_mints_groups_remaining t)
}.

Record manager_typed (m : FinalizedBlockMintTxoManager) : Prop := {
  mt_length : length (pending_finalized_info m) = 8%nat;
  mt_info : Forall pod_wf (pending_finalized_info m);
  mt_current : in_width 16 (pending_finalized_info_current_index m);
  mt_total : in_width 16 (pending_finalized_info_total_count m);
  mt_start : in_width 32 (start_block_height m);
  mt_tracker : tracker_typed (current_pending_mints_tracker m)
}.

Record state_typed (s : PsyBridgeProgramState) : Prop := {
  st_header : pod_wf (bridge_header s);
  st_recent_length : length (recent_finalized_blocks s) = 8%nat;
  st_recent : Forall pod_wf (recent_finalized_blocks s);
  st_return : pod_wf (last_return_output s);
  st_manager : manager_typed (pending_mint_txos s);
  st_spent : byte_array 32 (spent_txo_tree_root s);
  st_snapshot : pod_wf (withdrawal_snapshot s);
  st_next_processed : in_width 64 (next_processed_withdrawals_index s);
  st_sent : pod_wf (sent_transactions_tree s);
  st_manual : pod_wf (manual_deposits_tree s);
  st_requested : pod_wf (requested_withdrawals_tree s);
  st_custodian : byte_array 32 (custodian_wallet_config_hash s);
  st_mode : in_width 32 (bridge_control_mode s);
  st_next_recent : in_width 32 (next_recent_finalized_block_index s);
  st_last_processed : in_width 64 (last_processed_withdrawals_at_ms s);
  st_total_requested : in_width 64 (total_requested_withdrawals_sats s);
  st_fees_withdrawn : in_width 64 (total_fees_withdrawn_sats s);
  st_deposit_fees : in_width 64 (total_manual_deposit_fees_sats s);
  st_withdrawal_fees : in_width 64 (total_withdrawal_fees_sats s);
  st_last_received : in_width 64 (last_received_block_at_ms s);
  st_last_replayed : in_width 64 (last_replayed_withdrawal_at_ms s);
  st_config : pod_wf (config_params s);
  st_access : pod_wf (access_control s)
}.

Lemma tracker_typed_pod (t : PendingMintsTracker) : tracker_typed t <-> pod_wf t.
Proof.
  split; [|intros (? & ? & ? & ?); by constructor].
  intros []. split; [done|]. split; [done|]. by split.
Qed.

Lemma manager_typed_pod (m : FinalizedBlockMintTxoManager) : manager_typed m <-> pod_wf m.
Proof.
  split.
  - intros []. split; [by split|]. split; [done|]. split; [done|]. split; [done|]. by apply tracker_typed_pod.
  - intros ([? ?] & ? & ? & ? & ?). constructor; try done. by apply tracker_typed_pod.
Qed.

Lemma state_typed_pod (s : PsyBridgeProgramState) : state_typed s <-> pod_wf s.
Proof.
  split.
  - intros []. split; [done|]. split; [by split|]. split; [done|]. split; [by apply manager_typed_pod|].
    do 17 (split; [done|]). done.
  - intros (? & [? ?] & ? & ?%manager_typed_pod & ? & ? & ? & ? & ? & ? & ? & ? & ? & ? & ? & ? & ? & ? & ? & ? & ? & ?).
    by constructor.
Qed.

(** Writing a typed value to a field keeps the state typed. *)
Ltac typed_update := intros; match goal with Hs : state_typed _ |- _ => destruct Hs; by constructor end.

#[export] Hint Resolve wrap_in_width : bridge.

(** The widths and lengths that the instruction encoding guarantees. *)
Definition operation_typed (op : operation) : Prop :=
  match op with
  | RequestWithdrawal _ request => pod_wf request
  | ProcessWithdrawal _ _ _ ro root next => pod_wf ro /\ byte_array 32 root /\ in_width 64 next
  | ReplayWithdrawal _ _ | OperatorWithdrawFees _ => True
  | SnapshotWithdrawals now => in_width 32 now
  | ClaimDepositManual _ _ _ _ _ amount => in_width 64 amount
  | SingleBlockTransition _ _ h _ account tb mb =>
      pod_wf h /\ byte_array 32 account /\ Forall is_byte tb /\ Forall is_byte mb
  | BlockTransitionReorg _ _ h extra _ account tb mb =>
      pod_wf h /\ Forall pod_wf extra /\ byte_array 32 account /\ Forall is_byte tb /\ Forall is_byte mb
  | AutoMintGroup _ _ _ g | AutoMintGroupPrecheck _ g => 0 <= g
  | SetupNextPendingBuffer _ account tb mb =>
      byte_array 32 account /\ Forall is_byte tb /\ Forall is_byte mb
  end.

Lemma header_typed (h : PsyBridgeHeader) :
  pod_wf h -> pod_wf (finalized_state h) /\ pod_wf (header_info h) /\
  in_width 64 (total_finalized_fees_collected_chain_history h).
Proof.
  intros (_ & Hf & _ & _ & _ & Ht). split; [done|]. split; [|done].
  destruct Hf as (_ & _ & ? & ? & _). by split.
Qed.

Lemma operation_typed_wf op : operation_typed op -> operation_wf op.
Proof. destruct op; cbn; intuition auto. all: by apply header_typed. Qed.

Section types.
Context `{Sha256Laws} `{ZkVerifier}.
Context (burn_from : bytes -> Z -> res DogeBridgeError unit).
Context (mint_to : Z -> bytes -> Z -> res DogeBridgeError unit).
Abbreviation State := PsyBridgeProgramState.
Implicit Type s : State.

Lemma u64_typed z : in_width 64 (u64 z).
Proof. by apply wrap_in_width. Qed.

(** *** The append tree *)

Lemma append_loop_typed siblings zs current index changes root rest :
  Forall (byte_array 32) siblings -> Forall (byte_array 32) zs -> byte_array 32 current ->
  append_loop siblings zs current index changes = Some (root, rest) ->
  byte_array 32 root /\ length rest = length siblings /\ Forall (byte_array 32) rest.
Proof.
  intros Hs. revert zs current index changes root rest.
  induction Hs as [|x siblings Hx Hs IH]; intros zs current i c root rest Hz Hc Hr; cbn [append_loop] in Hr.
  { by injection Hr as <- <-. }
  destruct Hz as [|z zs Hz Hzs]; [discriminate Hr|].
  destruct (_ =? 0); cbn beta iota in Hr.
  all: destruct (append_loop siblings zs _ _ _) as [[r' l']|] eqn:E; [|discriminate Hr]; injection Hr as <- <-.
  all: apply IH in E as (? & ? & ?); [|done|apply sha256_array]; split; [done|]; split; [simpl; lia|].
  all: constructor; [by destruct (_ =? 1)|done].
Qed.

Lemma append_typed (t t' : FixedMerkleAppendTree) leaf :
  pod_wf t -> byte_array 32 leaf -> append t leaf = Some t' -> pod_wf t'.
Proof.
  intros (Hi & Hroot & Hl & Hs) Hleaf Ha. unfold append, update_siblings_append_merkle_tree in Ha.
  destruct (append_loop _ _ _ _ _) as [[root rest]|] eqn:E; [|discriminate Ha]. injection Ha as <-.
  apply append_loop_typed in E as (? & Hlen & ?); [|done|apply ZERO_arrays|done].
  split; [apply u64_typed|]. split; [done|]. split; [|done]. change (length rest = 32%nat). rewrite Hlen. exact Hl.
Qed.

(** *** The mint queue *)

Lemma fresh_tracker_typed account n k :
  byte_array 32 account -> in_width 32 n -> in_width 32 k -> tracker_typed (fresh_tracker account n k).
Proof. constructor; auto with bridge. Qed.

Lemma set_tracker_typed m t : manager_typed m -> tracker_typed t -> manager_typed (set_tracker m t).
Proof. intros [] ?. by constructor. Qed.

Lemma set_current_index_typed m i : manager_typed m -> manager_typed (set_current_index m (u16 i)).
Proof. intros []. constructor; cbn; auto with bridge lia. Qed.

Lemma tracker_mark_typed t t' g last :
  tracker_typed t -> tracker_mark_pending_mints_group_claimed t g = (Ok last, t') -> tracker_typed t'.
Proof.
  intros [Ha [Hbl Hb] Ht Hr] Hm. unfold tracker_mark_pending_mints_group_claimed in Hm.
  peel Hm as E0. peel Hm as E1. peel Hm as E2. peel Hm as E3. cbv zeta in Hm. peel Hm as E4. peel Hm as E5.
  injection Hm as _ <-. apply index_Some in E4 as [_ E4]. apply set_index_Some in E5 as [_ ->].
  constructor; [done| |done|by apply wrap_in_width].
  cbn [pending_mint_groups_claimed]. split; [by rewrite length_insert|]. apply Forall_insert; [done|]. apply lor_bit_byte.
  - by eapply (Forall_lookup_1 _ _ _ _ Hb).
  - change 7 with (Z.ones 3). rewrite Z.land_ones by lia. apply Z.mod_pos_bound. lia.
Qed.

Lemma mark_typed m m' g last :
  manager_typed m -> mark_pending_mints_group_claimed m g = (Ok last, m') -> manager_typed m'.
Proof.
  intros Hm Hr. unfold mark_pending_mints_group_claimed in Hr. peel Hr as E. injection Hr as _ <-.
  apply tracker_mark_typed in E; [|by destruct Hm].
  pose proof (set_tracker_typed m s Hm E). destruct x; [|done]. destruct (_ <? _); [|done].
  by apply set_current_index_typed.
Qed.

Lemma fast_forward_typed m m' : manager_typed m -> fast_forward_empty m = Some m' -> manager_typed m'.
Proof.
  intros Hm Hf. unfold fast_forward_empty in Hf. destruct (_ || _); [by injection Hf as <-|].
  destruct (skip_empty _ _ _) as [n|]; [|discriminate Hf]. cbn [mbind option_bind] in Hf. injection Hf as <-.
  pose proof (set_current_index_typed m (pending_finalized_info_current_index m + n) Hm).
  destruct (0 <? n); [|done]. apply set_tracker_typed; [done|].
  apply fresh_tracker_typed; auto with bridge; unfold in_width; lia.
Qed.

Lemma append_block_typed m m' height infos account n :
  manager_typed m -> Forall pod_wf infos -> byte_array 32 account -> in_width 32 height -> 0 <= n < 2 ^ 16 ->
  standard_append_block m height infos account n ((n + 23) / 24) = (Ok tt, m') -> manager_typed m'.
Proof.
  intros Hm Hi Ha Hh Hn Hr. unfold standard_append_block in Hr. peel Hr as E0. peel Hr as E1.
  destruct (_ =? 0); [by injection Hr as <-|]. cbv zeta in Hr. peel Hr as E2.
  assert (manager_typed x) as Hx.
  { eapply fast_forward_typed, E2. destruct Hm. apply Z.ltb_ge in E1. unfold len in E1.
    constructor; cbn; auto with bridge lia.
    - rewrite length_copy_block_groups; lia.
    - unfold copy_block_groups. apply Forall_app. split; [done|by apply Forall_drop].
    - unfold in_width. lia.
    - apply fresh_tracker_typed; [done|unfold in_width; lia..]. }
  destruct (manager_is_empty x); [peel Hr as E3; by injection Hr as <-|]. injection Hr as <-.
  apply set_tracker_typed; [done|]. destruct Hx as [? ? ? ? ? []].
  assert (0 <= (n + 23) / 24 <= n + 23) by (split; [apply Z.div_pos; lia|apply Z.div_le_upper_bound; lia]).
  constructor; cbn; [done..|unfold in_width; lia|unfold in_width; lia].
Qed.

Lemma manager_queued_typed account blocks m m' :
  manager_typed m -> byte_array 32 account -> Forall pod_wf blocks -> manager_queued account blocks m m' ->
  manager_typed m'.
Proof.
  intros Hm Ha Hb [->|(h & infos & n & Hap & Hn & Hh & Hsub)]; [done|].
  eapply append_block_typed, Hap; try done. apply list.Forall_forall. intros x Hx%Hsub.
  by eapply (proj1 (list.Forall_forall _ _) Hb).
Qed.

(** *** The operations *)

Lemma request_typed s s' requester request :
  state_typed s -> pod_wf request -> request_withdrawal s burn_from requester request = (Ok tt, s') -> state_typed s'.
Proof.
  intros Hs Hreq Hr. unfold request_withdrawal in Hr. peel Hr as E0. peel Hr as E1. peel Hr as E2.
  injection Hr as <-. unfold process_request_withdrawal in E0. cbv zeta in E0.
  destruct (calcuate_withdrawal_fee _ _ _ _) as [f| |] eqn:Ef; cbn [fee_or_zero] in E0.
  2-3: injection E0 as _ <-; done.
  apply withdrawal_fee_Ok in Ef as (Hf & Hn & Hpos).
  destruct (_ || _); [by injection E0 as _ <-|].
  assert (0 <= fees_generated f) by (rewrite Hf; by apply wrap_in_width).
  assert (pod_wf {| wr_amount_sats := amount_after_fees f; wr_address_type := wr_address_type request;
                    wr_recipient_address := wr_recipient_address request |}) as Hwf
    by (apply net_request_wf; [done|lia]).
  rewrite to_leaf_layout in E0 by done. cbn [or_panic pure_call] in E0. peel E0 as E3.
  injection E0 as _ <-. eapply append_typed in E3; [|by destruct Hs|by apply (bytes_of_array _ Hwf)].
  destruct Hs. constructor; done || apply u64_typed.
Qed.

Lemma process_withdrawal_typed s s' proof vk tx ro root next r :
  state_typed s -> pod_wf ro -> byte_array 32 root -> in_width 64 next ->
  run_process_bridge_withdrawal s proof vk tx ro root next = (Ok r, s') -> state_typed s'.
Proof.
  intros Hs Hro Hroot Hnext Hr. unfold run_process_bridge_withdrawal in Hr. peel Hr as E0. peel Hr as E1.
  peel Hr as E2. injection Hr as _ <-. unfold update_for_withdrawal in E2. cbv zeta in E2. peel E2 as E3.
  injection E2 as _ <-. eapply append_typed in E3; [|by destruct Hs|by destruct Hro].
  destruct Hs. by constructor.
Qed.

Lemma claim_deposit_typed s s' tx br ar i d amount r :
  state_typed s -> process_manual_claimed_deposit s tx br ar i d amount = (Ok r, s') -> state_typed s'.
Proof.
  intros Hs E0. unfold process_manual_claimed_deposit in E0.
  destruct (get_txo_block_number_tx_number_output_index_from_combined_index i) as [[bh txn] oi].
  destruct (find_recent_auto_claim_txo_tree_root_and_block_merkle_root s ar) as [h root].
  peel E0 as E2. peel E0 as E3. cbv zeta in E0. peel E0 as E4. peel E0 as E5. injection E0 as _ <-.
  eapply append_typed in E5; [|by destruct Hs|apply sha256_array].
  destruct Hs. constructor; done || apply u64_typed.
Qed.

Lemma operator_fees_typed s s' r :
  state_typed s -> run_bridge_operator_withdraw_fees_precheck s = (Ok r, s') -> state_typed s'.
Proof.
  intros Hs E0. unfold run_bridge_operator_withdraw_fees_precheck in E0. peel E0 as E1. cbv zeta in E0.
  peel E0 as E2. injection E0 as _ <-. destruct Hs. constructor; done || apply u64_typed.
Qed.

Lemma replay_typed s s' proof now r :
  state_typed s -> process_replay_withdrawal_proof s proof now = (Ok r, s') -> state_typed s'.
Proof.
  intros Hs Hr. destruct (replay_frame _ _ _ _ _ Hr) as [->| ->]; [done|].
  destruct Hs. constructor; done || apply u64_typed.
Qed.

Lemma snapshot_typed s now : state_typed s -> in_width 32 now -> state_typed (snapshot_for_withdrawal s now).
Proof.
  intros Hs Hnow. pose proof Hs as [(_ & Hf & _) _ _ _ _ _ _ _ _ (Hmi & Hmr & _) (Hri & Hrr & _) _ _ _ _ _ _ _ _ _ _ _ _].
  destruct Hf as (_ & Hb & _ & _ & _ & Hd & _ & Hh).
  assert (pod_wf (withdrawal_snapshot (snapshot_for_withdrawal s now))).
  { split; [exact Hd|]. split; [exact Hrr|]. split; [exact Hb|]. split; [exact Hmr|].
    split; [exact Hh|]. split; [exact Hnow|]. by split. }
  destruct Hs. by constructor.
Qed.

Lemma with_manager_typed s m : state_typed s -> manager_typed m -> state_typed (with_pending_mint_txos m s).
Proof. intros [] ?. by constructor. Qed.

Lemma single_block_typed s s' proof vk h pid account tb mb :
  state_typed s -> pod_wf h -> byte_array 32 account -> Forall is_byte tb -> Forall is_byte mb ->
  run_standard_single_block_transition s proof vk h pid account tb mb = (Ok tt, s') -> state_typed s'.
Proof.
  intros Hs Hh Ha Htb Hmb Hr. destruct (single_block_frame _ _ _ _ _ _ _ _ _ Htb Hmb Hr) as (m & Hq & ->).
  destruct (header_typed h Hh) as (Hf & Hi & _).
  apply manager_queued_typed in Hq; [|by destruct Hs|done|by constructor].
  destruct Hs. constructor; try done.
  - cbn. by rewrite length_insert.
  - cbn. by apply Forall_insert.
  - cbn. pose proof (Z.mod_pos_bound (u32 (next_recent_finalized_block_index s + 1)) 8). unfold in_width. lia.
Qed.

Lemma reorg_typed s s' proof vk h extra pid account tb mb :
  state_typed s -> pod_wf h -> Forall pod_wf extra -> byte_array 32 account ->
  Forall is_byte tb -> Forall is_byte mb ->
  run_block_transition_reorg s proof vk h extra pid account tb mb = (Ok tt, s') -> state_typed s'.
Proof.
  intros Hs Hh He Ha Htb Hmb Hr. destruct (reorg_frame _ _ _ _ _ _ _ _ _ _ Htb Hmb Hr) as (m & Hq & ->).
  destruct (header_typed h Hh) as (Hf & Hi & _).
  apply manager_queued_typed in Hq; [|by destruct Hs|done|apply Forall_app; split; [done|by constructor]].
  destruct Hs. by constructor.
Qed.

Lemma setup_next_typed s s' pid account tb mb :
  state_typed s -> byte_array 32 account -> Forall is_byte mb ->
  run_setup_next_pending_buffer s pid account tb mb = (Ok tt, s') -> state_typed s'.
Proof.
  intros Hs Ha Hmb Hr. destruct (setup_next_frame _ _ _ _ _ _ Hmb Hr) as (_ & m & k & Hf & _ & Hk & ->).
  apply fast_forward_typed in Hf; [|by destruct Hs]. apply with_manager_typed; [done|].
  assert (0 <= (k + 23) / 24 <= k + 23) by (split; [apply Z.div_pos; lia|apply Z.div_le_upper_bound; lia]).
  apply set_tracker_typed; [done|]. apply fresh_tracker_typed; [done|unfold in_width; lia..].
Qed.

Lemma precheck_typed s s' g account x :
  state_typed s -> run_auto_mint_group_precheck s g account = (Ok x, s') -> state_typed s'.
Proof.
  intros Hs Hr. destruct (auto_mint_precheck_frame _ _ _ _ _ Hr) as (_ & _ & last & m & Hm & ->).
  apply mark_typed in Hm; [|by destruct Hs]. by apply with_manager_typed.
Qed.

Lemma execute_typed s s' op :
  state_typed s -> operation_typed op -> execute burn_from mint_to s op = (Ok tt, s') -> state_typed s'.
Proof.
  intros Hs Hop Hr. destruct op; cbn [execute operation_typed] in Hr, Hop.
  - by eapply request_typed.
  - apply discard_ok in Hr as [r Hr]. destruct Hop as (? & ? & ?). by eapply process_withdrawal_typed.
  - apply discard_ok in Hr as [r Hr]. by eapply replay_typed.
  - injection Hr as <-. by apply snapshot_typed.
  - unfold run_bridge_operator_withdraw_fees in Hr. peel Hr as E0. peel Hr as E1. injection Hr as <-.
    by eapply operator_fees_typed.
  - unfold run_claim_deposit_manual in Hr. peel Hr as E0. peel Hr as E1. injection Hr as <-.
    by eapply claim_deposit_typed.
  - destruct Hop as (? & ? & ? & ?). eapply single_block_typed, Hr; done.
  - destruct Hop as (? & ? & ? & ? & ?). eapply reorg_typed, Hr; done.
  - apply discard_ok in Hr as [r Hr].
    destruct (run_auto_mint_group _ _ _ _ _ _) as [[res s1] calls] eqn:Er. simpl in Hr. injection Hr as -> ->.
    destruct (auto_mint_frame _ _ _ _ _ _ _ _ _ Er) as (_ & _ & last & m & Hm & ->).
    apply mark_typed in Hm; [|by destruct Hs]. by apply with_manager_typed.
  - apply discard_ok in Hr as [r Hr]. by eapply precheck_typed.
  - destruct Hop as (? & ? & ?). eapply setup_next_typed, Hr; done.
Qed.

Lemma new_empty_typed : pod_wf new_empty.
Proof.
  split; [change (in_width 64 0); unfold in_width; lia|]. split; [apply ZERO_array; unfold TREE_HEIGHT; lia|].
  split; [done|]. change (Forall (byte_array 32) zero_siblings). apply Forall_take, ZERO_arrays.
Qed.

Lemma initialize_typed s (ix : InitializeBridgeInstructionData) : pod_wf ix -> state_typed (initialize s ix).
Proof.
  intros (Ho & Hf & _ & Hh & Hr & Hc & Hw). destruct (header_typed _ Hh) as (Hfin & _ & _).
  constructor; try done.
  - by apply (Forall_replicate pod_wf 8).
  - apply manager_typed_pod, zeroed_wf.
  - apply ZERO_array. lia.
  - apply zeroed_wf.
  - apply new_empty_typed.
  - apply new_empty_typed.
  - apply new_empty_typed.
Qed.

(** The memory of the bridge account.  Whatever operations succeed since
    initialisation, every field of the state stays within the width or length of its
    Rust type, so the state occupies exactly the bytes of its account and the next
    instruction reads back the very state that the last one wrote. *)
Theorem reachable_state_typed s0 (ix : InitializeBridgeInstructionData) trace s :
  pod_wf ix -> Forall operation_typed trace ->
  reaches burn_from mint_to (initialize s0 ix) trace s ->
  pod_wf s /\ byte_array (pod_size PsyBridgeProgramState) (bytes_of s) /\ cast (bytes_of s) = Some s.
Proof.
  intros Hix Ht Hr. assert (pod_wf s) as Hwf.
  { apply (proj1 (state_typed_pod s)). induction Hr as [|trace s op s' Hr IH Hop Hx]; [by apply initialize_typed|].
    apply Forall_app in Ht as [Ht Ho]. eapply execute_typed, Hx; [by apply IH|by inversion Ho]. }
  split; [exact Hwf|]. split; [exact (bytes_of_array s Hwf)|exact (cast_bytes_of s Hwf)].
Qed.
End types.
