(* ===== verification/DogeBridgeProofs.v ===== *)
(** * DogeBridgeProofs: what the instructions of the bridge program do

    Every successful instruction of [DogeBridge.v] performs one operation of the state
    machine of [Ledger.v] (two when it advances to the next block first) on the account
    it is given, and leaves every other account of the program alone.  The calls of
    other programs are under the rules of the runtime, stated as [CpiLaws]. *)
From S2P Require Import Prelude Errors Pod Hash Sha256 AppendTree TxoIndex Fees Types PublicInputs Runtime MintBuffer TxoBuffer BufferClient MintGroup ProgramState BlockUpdate BlockUpdateProofs BridgeInstructions DogeBridge Ledger StateTypes.
From Stdlib Require Import ZArith Lia.
From stdpp Require Import base decidable list numbers option countable gmap.
Import DogeBridge.

Open Scope Z_scope.
Open Scope bridge_scope.

(** ** The rules of the runtime *)

(** Account memory and instruction data are bytes. *)
Definition memory_typed (w : World) : Prop := forall k, Forall is_byte (data_at w k).

Definition instruction_typed (i : Instruction) : Prop :=
  match i with RawInstruction _ _ input => Forall is_byte input | _ => True end.

(** Does the instruction call program [pid]?  (Not the system or token program.) *)
Definition calls (pid : Pubkey) (i : Instruction) : Prop :=
  match i with RawInstruction p _ _ => p = pid | _ => False end.

(** The accounts of program [pid] are the same in two stores. *)
Definition own_eq (pid : Pubkey) (w w' : World) : Prop :=
  forall k, owner_at w k = pid -> owner_at w' k = pid /\ data_at w' k = data_at w k.

Class CpiLaws `{Sha256} `{ZkVerifier} `{Runtime} `{ProgramIds} `{Features} (pid : Pubkey) : Prop := {
  (** only its owner may change the data or the owner of an account *)
  cpi_keeps_own w i infos seeds w' :
    invoke_signed w i infos seeds = Ok w' -> ~ calls pid i -> own_eq pid w w';
  (** a program that calls itself runs on the accounts of the instruction *)
  cpi_runs_self w metas input infos seeds w' :
    invoke_signed w (RawInstruction pid metas input) infos seeds = Ok w' ->
    process_instruction pid (BufferClient.account_info <$> metas) input w = Ok w';
  cpi_memory w i infos seeds w' :
    invoke_signed w i infos seeds = Ok w' -> instruction_typed i -> memory_typed w -> memory_typed w'
}.

Section own.
Context (pid : Pubkey).
Implicit Types w : World.

Lemma own_eq_refl w : own_eq pid w w.
Proof. by split. Qed.

Lemma own_eq_trans w1 w2 w3 : own_eq pid w1 w2 -> own_eq pid w2 w3 -> own_eq pid w1 w3.
Proof.
  intros H12 H23 k Hk. destruct (H12 k Hk) as [Hk2 E2]. destruct (H23 k Hk2) as [Hk3 E3].
  split; [done|congruence].
Qed.

Lemma own_eq_store w w' k bs :
  own_eq pid w w' -> own_eq pid (store_bridge_state w k bs) (store_bridge_state w' k bs).
Proof.
  unfold store_bridge_state. intros He k' Hk'. rewrite owner_at_set_data in *. destruct (He k' Hk') as [Ho Hd].
  split; [done|]. destruct (decide (k = k')) as [->|Hne]; [by rewrite !data_at_set_data|].
  by rewrite !data_at_set_data_ne.
Qed.

Lemma load_own w w' k :
  own_eq pid w w' -> owner_at w k = pid -> load_bridge_state w' k = load_bridge_state w k.
Proof. intros He Hk. unfold load_bridge_state. by destruct (He k Hk) as [_ ->]. Qed.
End own.

Lemma bridge_state_typed (bs : BridgeState) :
  state_typed (core_state bs) -> byte_array 32 (doge_mint bs) -> pod_wf bs.
Proof. intros Hs Hm. split; [exact (proj1 (state_typed_pod _) Hs)|done]. Qed.

Lemma memory_store w k (bs : BridgeState) : pod_wf bs -> memory_typed w -> memory_typed (store_bridge_state w k bs).
Proof.
  intros Hbs Hw k'. unfold store_bridge_state. destruct (decide (k = k')) as [->|Hne].
  - rewrite data_at_set_data. by apply (bytes_of_array bs Hbs).
  - by rewrite data_at_set_data_ne.
Qed.

(** The token program grants the calls: what the state machine sees of a successful
    instruction. *)
Definition granted_burn (r : bytes) (a : Z) : res DogeBridgeError unit := Ok tt.
Definition granted_mint (p : Z) (r : bytes) (a : Z) : res DogeBridgeError unit := Ok tt.

Lemma map_err_Ok {E F A} (f : E -> F) (r : res E A) a : map_err f r = Ok a -> r = Ok a.
Proof. by destruct r; intros [=->]. Qed.

Lemma ok_or_Ok {E A} (o : option A) (e : E) a : ok_or o e = Ok a -> o = Some a.
Proof. by destruct o; intros [=->]. Qed.

Lemma on_core_Ok {A} bs (c : res DogeBridgeError A * PsyBridgeProgramState) r :
  on_core bs c = Ok r -> c = (Ok r.1, core_state r.2) /\ doge_mint r.2 = doge_mint bs.
Proof. destruct c as [[a|e|] s]; intros Hr; [|discriminate Hr..]. by injection Hr as <-. Qed.

(** ** Instructions of eight bytes and a struct *)

Lemma process_aligned `{Sha256} `{ZkVerifier} `{Runtime} `{ProgramIds} `{Features} pid accounts tag prefix b6 b7 data w :
  length prefix = 5%nat ->
  process_instruction pid accounts (tag :: prefix ++ b6 :: b7 :: data) w = dispatch pid accounts tag data b6 b7 w.
Proof.
  intros Hl. unfold process_instruction. do 5 (destruct prefix as [|? prefix]; [discriminate Hl|]).
  destruct prefix; [|discriminate Hl]. cbn [app].
  match goal with |- context [slice 8 ?e ?l] => assert (slice 8 e l = Some data) as -> end; [|reflexivity].
  apply (slice_suffix 8 _ [tag; z; z0; z1; z2; z3; b6; b7] data); [done|]. by rewrite <- len_app.
Qed.

(** What a successful instruction dispatched to. *)
Lemma process_instruction_Ok `{Sha256} `{ZkVerifier} `{Runtime} `{ProgramIds} `{Features} pid accounts input w w' :
  process_instruction pid accounts input w = Ok w' ->
  exists tag rest b6 b7, input = tag :: rest /\ 8 <= len input /\
    dispatch pid accounts tag (drop 8 input) b6 b7 w = Ok w'.
Proof.
  intros Hr. unfold process_instruction in Hr. destruct input as [|tag rest]; [discriminate Hr|].
  peel Hr as E0. peel Hr as E1. peel Hr as E2. exists tag, rest, x0, x1. split; [done|].
  apply slice_Some in E0 as (? & ? & ->). split; [lia|].
  rewrite firstn_all2 in Hr; [exact Hr|]. rewrite length_drop. unfold len. lia.
Qed.

Section program.
Context `{Sha256Laws} `{ZkVerifier} `{Runtime} `{ProgramIds} `{Features}.
Context (pid : Pubkey) `{!CpiLaws pid}.
(** The companion programs are not the bridge program. *)
Context (Hbuffer : PENDING_MINT_BUFFER_BUILDER_PROGRAM_ID <> pid).
Implicit Types (w : World) (accounts : list AccountInfo).

Abbreviation performed := (reaches granted_burn granted_mint).

(** *** The helpers *)

Lemma invoke_holding_Ok held_mut held w i infos seeds w' :
  invoke_signed_holding held_mut held w i infos seeds = Ok w' -> invoke_signed w i infos seeds = Ok w'.
Proof. unfold invoke_signed_holding. by destruct (borrow_conflict _ _ _). Qed.

Lemma mint_to_own minter held p account amount w w' :
  mint_to minter held p account amount w = Ok w' -> own_eq pid w w'.
Proof.
  unfold mint_to. intros Hr. peel Hr as E0. peel Hr as E1. peel Hr as E2.
  destruct (invoke_signed_holding _ _ _ _ _ _) as [w1| |] eqn:E; [|discriminate Hr..]. injection Hr as <-.
  apply invoke_holding_Ok in E. by eapply cpi_keeps_own; [exact E|intros []].
Qed.

Lemma burn_from_own burner held amount w w' : burn_from burner held amount w = Ok w' -> own_eq pid w w'.
Proof.
  unfold burn_from. intros Hr%map_err_Ok%invoke_holding_Ok. by eapply cpi_keeps_own; [exact Hr|intros []].
Qed.

Lemma lock_buffer_own acc prog auth w w' :
  lock_buffer (mint_buffer_locker pid acc prog auth) w = Ok w' ->
  own_eq pid w w' /\ (memory_typed w -> memory_typed w').
Proof.
  intros Hr%map_err_Ok. split; [eapply cpi_keeps_own; [exact Hr|exact Hbuffer]|].
  eapply cpi_memory; [exact Hr|]. repeat constructor; lia.
Qed.

Lemma unlock_buffer_own acc prog auth w w' :
  unlock_buffer (mint_buffer_locker pid acc prog auth) w = Ok w' -> own_eq pid w w'.
Proof. intros Hr%map_err_Ok. eapply cpi_keeps_own; [exact Hr|exact Hbuffer]. Qed.

Lemma mint_group_loop_own minter held buf start p todo w w' :
  mint_group_loop minter held buf start p todo w = Ok w' -> own_eq pid w w'.
Proof.
  revert p w. induction todo as [|todo IH]; intros p w Hr; cbn [mint_group_loop] in Hr.
  { injection Hr as <-. apply own_eq_refl. }
  cbv zeta in Hr. peel Hr as E0. peel Hr as E1. peel Hr as E2. apply map_err_Ok, mint_to_own in E2.
  by eapply own_eq_trans; [exact E2|apply (IH (p + 1))].
Qed.

(** A message sent to the bridge program itself would be an instruction with
    discriminator 214, which fails. *)
Lemma vaa_not_self nonce a held seeds sighash tx w w' :
  invoke_signed_holding [] held w (vaa_instruction nonce a sighash tx) seeds.1 seeds.2 = Ok w' -> own_eq pid w w'.
Proof.
  intros Hr%invoke_holding_Ok. destruct (decide (key (wh_shim_program a) = pid)) as [Heq|Hne].
  - unfold vaa_instruction in Hr. rewrite Heq in Hr. apply cpi_runs_self in Hr.
    unfold process_instruction, WORMHOLE_VAA_DISCRIMINATOR in Hr. cbn [app] in Hr.
    peel Hr as E0. peel Hr as E1. peel Hr as E2. discriminate Hr.
  - by eapply cpi_keeps_own; [exact Hr|exact Hne].
Qed.

Lemma send_vaa_own nonce a held seeds sighash tx w w' :
  send_wormhole_vaa nonce a held seeds sighash tx w = Ok w' -> own_eq pid w w'.
Proof.
  unfold send_wormhole_vaa. cbv zeta. intros Hr. peel Hr as E. rename x into w1.
  assert (own_eq pid w w1) as Hw1.
  { destruct wormhole; [by apply (vaa_not_self _ _ _ (_, _) _ _ _ _ E)|]. injection E as <-. apply own_eq_refl. }
  eapply own_eq_trans; [exact Hw1|].
  destruct noopshim; [by apply (vaa_not_self _ _ _ (_, _) _ _ _ _ Hr)|]. injection Hr as <-. apply own_eq_refl.
Qed.

(** *** The handlers *)

(** The instruction turned [w] into [w'] and performed the operations [ops] on the
    account passed first; what else it changed belongs to other programs. *)
Definition handled accounts (ops : list operation) w w' : Prop :=
  exists a0 bs bs', accounts !! 0%nat = Some a0 /\
    (owner_at w (key a0) = pid -> load_bridge_state w (key a0) = Ok bs) /\
    own_eq pid (store_bridge_state w (key a0) bs') w' /\
    performed (core_state bs) ops (core_state bs') /\ Forall operation_typed ops /\
    doge_mint bs' = doge_mint bs.

(** The accounts an instruction names have 32-byte keys. *)
Definition keys_typed accounts : Prop := Forall (fun a => byte_array 32 (key a)) accounts.

Lemma nth_account_Ok accounts i a : nth_account accounts i = Ok a -> accounts !! i = Some a.
Proof. apply ok_or_Ok. Qed.

Lemma key_typed accounts i a : keys_typed accounts -> nth_account accounts i = Ok a -> byte_array 32 (key a).
Proof. intros Hk Ha%nth_account_Ok. by apply (Forall_lookup_1 _ _ _ _ Hk Ha). Qed.

Lemma performed_one s op s' :
  operation_typed op -> execute granted_burn granted_mint s op = (Ok tt, s') -> performed s [op] s'.
Proof.
  intros Ht Hx. refine (reaches_step _ _ s [] s op s' _ _ Hx); [apply reaches_refl|exact (operation_typed_wf op Ht)].
Qed.

(** One operation on the state as it was read. *)
Lemma handled_one accounts a0 bs bs' op w w' :
  nth_account accounts 0 = Ok a0 ->
  (owner_at w (key a0) = pid -> load_bridge_state w (key a0) = Ok bs) ->
  operation_typed op -> execute granted_burn granted_mint (core_state bs) op = (Ok tt, core_state bs') ->
  doge_mint bs' = doge_mint bs -> own_eq pid (store_bridge_state w (key a0) bs') w' ->
  handled accounts [op] w w'.
Proof.
  intros Ha Hl Ht Hx Hd Ho. exists a0, bs, bs'. split; [by apply nth_account_Ok|]. split; [done|].
  split; [done|]. split; [by apply performed_one|]. split; [by constructor|done].
Qed.

(** [process_block_update] and [process_reorg_blocks]. *)
Lemma block_update_handled accounts proof h extra b6 b7 is_reorg w w' :
  keys_typed accounts -> memory_typed w -> pod_wf h -> Forall pod_wf extra ->
  run_block_update_common pid accounts proof h extra b6 b7 is_reorg w = Ok w' ->
  exists a0 a1 tb mb, accounts !! 0%nat = Some a0 /\ accounts !! 1%nat = Some a1 /\
    handled accounts
      [if is_reorg then BlockTransitionReorg proof BLOCK_REORG_VK h extra (key a0) (key a1) tb mb
       else SingleBlockTransition proof SINGLE_BLOCK_UPDATE_VK h (key a0) (key a1) tb mb] w w'.
Proof.
  intros Hkeys Hmem Hh He Hr. unfold run_block_update_common in Hr.
  peel Hr as A0. rename x into a0. peel Hr as A1. rename x into a1. peel Hr as A2. rename x into a2.
  peel Hr as A3. peel Hr as A4. peel Hr as A5. peel Hr as A6. peel Hr as B0. peel Hr as B1. peel Hr as B2.
  peel Hr as B3. peel Hr as B4. cbv zeta in Hr. peel Hr as B5. peel Hr as C0. rename x5 into w1.
  apply map_err_Ok, lock_buffer_own in C0 as [Hown Hmem1]. specialize (Hmem1 Hmem).
  peel Hr as C1. rename x5 into bs. peel Hr as C2. peel Hr as C3. peel Hr as C4. peel Hr as C5.
  apply on_core_Ok in C5 as [C5 Hd]. destruct x5 as [[] bs']. cbn [fst snd] in *.
  exists a0, a1, (data_at w1 (key a2)), (data_at w1 (key a1)).
  split; [by apply nth_account_Ok|]. split; [by apply nth_account_Ok|].
  pose proof (key_typed _ _ _ Hkeys A1) as Hk1.
  eapply (handled_one accounts a0 bs bs'); [exact A0| | | |exact Hd|].
  - intros Ho. by rewrite <- (load_own pid _ _ _ Hown Ho).
  - by destruct is_reorg; cbn [operation_typed]; split_and!.
  - by destruct is_reorg.
  - apply own_eq_trans with (store_bridge_state w1 (key a0) bs'); [by apply own_eq_store|].
    branch Hr as Eu; [by apply map_err_Ok, unlock_buffer_own in Hr|]. injection Hr as <-. apply own_eq_refl.
Qed.

Lemma finish_group_own (unlock : bool) acc prog auth w w' :
  (if unlock then doge_err (unlock_buffer (mint_buffer_locker pid acc prog auth) w) else Ok w) = Ok w' ->
  own_eq pid w w'.
Proof.
  destruct unlock; [by intros Hr%map_err_Ok%unlock_buffer_own|]. intros [= <-]. apply own_eq_refl.
Qed.

Lemma mint_group_handled accounts g unlock w w' :
  0 <= g -> process_process_mint_group pid accounts g unlock w = Ok w' ->
  exists a1, accounts !! 1%nat = Some a1 /\ handled accounts [AutoMintGroupPrecheck (key a1) g] w w'.
Proof.
  intros Hg Hr. unfold process_process_mint_group in Hr.
  peel Hr as A0. rename x into a0. peel Hr as A1. rename x into a1. peel Hr as A2. peel Hr as A3. peel Hr as A4.
  peel Hr as A5. peel Hr as A6. peel Hr as B0. peel Hr as B1. rename x4 into bs. peel Hr as B2. peel Hr as B3.
  peel Hr as B4. peel Hr as B5. apply on_core_Ok in B5 as [B5 Hd]. destruct x4 as [[[can n] off] bs']. cbn [fst snd] in *.
  peel Hr as B6. cbv zeta in Hr. peel Hr as B7. peel Hr as B8. exists a1. split; [by apply nth_account_Ok|].
  eapply (handled_one accounts a0 bs bs'); [exact A0|done|exact Hg|by cbn [execute]; rewrite B5|exact Hd|].
  eapply own_eq_trans; [by eapply mint_group_loop_own|by eapply finish_group_own].
Qed.

(** With an empty tracker and a backlog, the next block is set up first. *)
Lemma auto_advance_handled accounts g b7 unlock w w' :
  keys_typed accounts -> memory_typed w -> 0 <= g ->
  process_process_mint_group_auto_advance pid accounts g b7 unlock w = Ok w' ->
  exists a0 a1 a2 (jit : bool), accounts !! 0%nat = Some a0 /\ accounts !! 1%nat = Some a1 /\
    accounts !! 2%nat = Some a2 /\
    handled accounts
      ((if jit then [SetupNextPendingBuffer (key a0) (key a1) (data_at w (key a2)) (data_at w (key a1))] else [])
       ++ [AutoMintGroupPrecheck (key a1) g]) w w'.
Proof.
  intros Hkeys Hmem Hg Hr. unfold process_process_mint_group_auto_advance in Hr.
  peel Hr as A0. rename x into a0. peel Hr as A1. rename x into a1. peel Hr as A2. rename x into a2.
  peel Hr as A3. peel Hr as A4. peel Hr as A5. peel Hr as A6. peel Hr as A7. peel Hr as A8. peel Hr as B0.
  cbv zeta in Hr. peel Hr as B1. rename x5 into bs. peel Hr as B2. rename x5 into bs1. peel Hr as B3. peel Hr as B4.
  apply on_core_Ok in B4 as [B4 Hd]. destruct x5 as [[[can n] off] bs']. cbn [fst snd] in *.
  peel Hr as B5. cbv zeta in Hr. peel Hr as B6. peel Hr as B7. rename x6 into w2. peel Hr as B8. rename x6 into w3.
  assert (own_eq pid (store_bridge_state w (key a0) bs') w2) as Hw2.
  { destruct (advance_with_jit bs); [by apply map_err_Ok, lock_buffer_own in B7 as [? _]|].
    injection B7 as <-. apply own_eq_refl. }
  assert (own_eq pid w3 w') as Hw3.
  { destruct unlock; [peel Hr as E; by apply map_err_Ok, unlock_buffer_own in Hr|].
    injection Hr as <-. apply own_eq_refl. }
  exists a0, a1, a2, (advance_with_jit bs). do 3 (split; [by apply nth_account_Ok|]).
  exists a0, bs, bs'. split; [by apply nth_account_Ok|]. split; [done|]. split.
  { eapply own_eq_trans; [exact Hw2|]. eapply own_eq_trans; [by eapply mint_group_loop_own|exact Hw3]. }
  assert (execute granted_burn granted_mint (core_state bs1) (AutoMintGroupPrecheck (key a1) g)
    = (Ok tt, core_state bs')) as Hx by (cbn [execute]; by rewrite B4).
  destruct (advance_with_jit bs); cbn [app].
  - peel B2 as E0. peel B2 as E1. peel B2 as E2. peel B2 as E3. peel B2 as E4. peel B2 as E5.
    apply on_core_Ok in E5 as [E5 Hd1]. injection B2 as <-. destruct x7 as [[] bs1]. cbn [fst snd] in *.
    assert (operation_typed (SetupNextPendingBuffer (key a0) (key a1) (data_at w (key a2)) (data_at w (key a1)))) as Ht
      by (split; [by eapply key_typed|split; apply Hmem]).
    split; [|split; [constructor; [exact Ht|constructor; [exact Hg|constructor]]|congruence]].
    refine (reaches_step _ _ _ [_] (core_state bs1) (AutoMintGroupPrecheck _ g) _ _ Hg Hx). by apply performed_one.
  - injection B2 as <-. split; [by apply performed_one|]. split; [constructor; [exact Hg|constructor]|done].
Qed.

(** The burner's effect on the store aside, [request_withdrawal_in] is the operation
    of the state. *)
Lemma request_in_Ok (s s' : PsyBridgeProgramState) burner requester request w w' :
  request_withdrawal_in s burner requester request w = (Ok w', s') ->
  request_withdrawal s granted_burn requester request = (Ok tt, s') /\
  burner requester (wr_amount_sats request) w = Ok w'.
Proof.
  unfold request_withdrawal_in, request_withdrawal. intros Hr. peel Hr as E0. peel Hr as E1. peel Hr as E2.
  injection Hr as <- <-. by rewrite state_call_ok, E1.
Qed.

Lemma request_handled accounts request w w' :
  pod_wf request -> process_request_withdrawal accounts request w = Ok w' ->
  exists a3, accounts !! 3%nat = Some a3 /\ handled accounts [RequestWithdrawal (key a3) request] w w'.
Proof.
  intros Hreq Hr. unfold process_request_withdrawal in Hr.
  peel Hr as A0. rename x into a0. peel Hr as A1. peel Hr as A2. peel Hr as A3. peel Hr as A4. peel Hr as B0.
  rename x3 into bs. cbv zeta in Hr. peel Hr as B1. apply on_core_Ok in B1 as [B1 Hd]. injection Hr as <-.
  destruct x3 as [w1 bs']. cbn [fst snd] in *. apply request_in_Ok in B1 as [B1 Hb]. apply burn_from_own in Hb.
  exists x1. split; [by apply nth_account_Ok|].
  eapply (handled_one accounts a0 bs bs'); [exact A0|done|exact Hreq|exact B1|exact Hd|by apply own_eq_store].
Qed.

Lemma withdrawal_accounts_Ok accounts a0 a1 wh :
  withdrawal_accounts accounts = Ok (a0, a1, wh) ->
  nth_account accounts 0 = Ok a0 /\ nth_account accounts 1 = Ok a1.
Proof. unfold withdrawal_accounts. intros Hr. peel_all Hr. by injection Hr as <- <- <-. Qed.

Lemma withdrawal_handled accounts proof ro root next w w' :
  pod_wf ro -> byte_array 32 root -> in_width 64 next ->
  process_process_withdrawal pid accounts proof ro root next w = Ok w' ->
  exists tx, handled accounts [ProcessWithdrawal proof WITHDRAWAL_VK tx ro root next] w w'.
Proof.
  intros Hro Hroot Hnext Hr. unfold process_process_withdrawal in Hr. peel Hr as A0. destruct x as [[a0 a1] wh].
  apply withdrawal_accounts_Ok in A0 as [A0 A1]. peel Hr as B0. peel Hr as B1. peel Hr as B2. peel Hr as B3.
  rename x into bs. cbv zeta in Hr. peel Hr as B4. peel Hr as B5. peel Hr as B6. rename x into tx. peel Hr as B7.
  apply on_core_Ok in B7 as [B7 Hd]. destruct x as [sighash bs']. cbn [fst snd] in *. apply send_vaa_own in Hr.
  exists tx. eapply (handled_one accounts a0 bs bs'); [exact A0|done|by split_and!| |exact Hd|exact Hr].
  cbn [execute]. by rewrite B7.
Qed.

Lemma fees_handled accounts w w' :
  process_operator_withdraw_fees pid accounts w = Ok w' ->
  exists a1, accounts !! 1%nat = Some a1 /\ handled accounts [OperatorWithdrawFees (key a1)] w w'.
Proof.
  intros Hr. unfold process_operator_withdraw_fees in Hr. peel Hr as A0. rename x into a0. peel Hr as A1.
  peel Hr as A2. peel Hr as A3. peel Hr as A4. peel Hr as B0. cbv zeta in Hr. peel Hr as B1. rename x3 into bs.
  peel Hr as B2. peel Hr as B3. peel Hr as B4. apply on_core_Ok in B4 as [B4 Hd]. destruct x3 as [fees bs'].
  cbn [fst snd] in *. apply map_err_Ok, mint_to_own in Hr. exists x. split; [by apply nth_account_Ok|].
  eapply (handled_one accounts a0 bs bs'); [exact A0|done|exact I| |exact Hd|exact Hr].
  cbn [execute]. unfold run_bridge_operator_withdraw_fees. by rewrite B4.
Qed.

Lemma manual_deposit_handled accounts tx br ar i amount depositor w w' :
  in_width 64 amount ->
  process_process_manual_deposit pid accounts tx br ar i amount depositor w = Ok w' ->
  exists a1, accounts !! 1%nat = Some a1 /\ handled accounts [ClaimDepositManual br ar tx i (key a1) amount] w w'.
Proof.
  intros Hamt Hr. unfold process_process_manual_deposit in Hr. peel Hr as A0. rename x into a0. peel Hr as A1.
  peel Hr as A2. peel Hr as A3. peel Hr as A4. peel Hr as B0. peel Hr as B1. peel Hr as B2. rename x4 into bs.
  peel Hr as B3. apply on_core_Ok in B3 as [B3 Hd]. destruct x4 as [minted bs']. cbn [fst snd] in *. cbv zeta in Hr.
  apply map_err_Ok, mint_to_own in Hr. exists x. split; [by apply nth_account_Ok|].
  eapply (handled_one accounts a0 bs bs'); [exact A0|done|exact Hamt| |exact Hd|exact Hr].
  cbn [execute]. unfold run_claim_deposit_manual. by rewrite B3.
Qed.

Lemma replay_handled accounts w w' :
  process_replay_withdrawal pid accounts w = Ok w' ->
  exists proof now, handled accounts [ReplayWithdrawal proof now] w w'.
Proof.
  intros Hr. unfold process_replay_withdrawal in Hr. peel Hr as A0. destruct x as [[a0 a1] wh].
  apply withdrawal_accounts_Ok in A0 as [A0 A1]. peel Hr as B0. peel Hr as B1. peel Hr as B2. peel Hr as B3.
  rename x into bs. cbv zeta in Hr. peel Hr as B4. peel Hr as B5. peel Hr as B6. peel Hr as B7. peel Hr as B8.
  peel Hr as B9. peel Hr as B10. apply on_core_Ok in B10 as [B10 Hd]. destruct x2 as [[] bs'];
    cbn [fst snd] in *; [|discriminate Hr]. apply send_vaa_own in Hr. eexists _, _.
  eapply (handled_one accounts a0 bs bs'); [exact A0|done|exact I| |exact Hd|exact Hr].
  cbn [execute]. by rewrite B10.
Qed.

Lemma clock_typed : in_width 32 clock_seconds.
Proof.
  unfold clock_seconds. change 0xFFFFFFFF with (Z.ones 32). rewrite Z.land_ones by lia.
  apply (wrap_in_width 32). lia.
Qed.

Lemma snapshot_handled accounts w w' :
  process_snapshot_withdrawals pid accounts w = Ok w' -> handled accounts [SnapshotWithdrawals clock_seconds] w w'.
Proof.
  intros Hr. unfold process_snapshot_withdrawals in Hr. peel Hr as A0. rename x into a0. peel Hr as A1.
  peel Hr as A2. peel Hr as B0. peel Hr as B1. peel Hr as B2. rename x1 into bs. peel Hr as B3. injection Hr as <-.
  set (bs' := {| core_state := snapshot_for_withdrawal (core_state bs) clock_seconds; doge_mint := doge_mint bs |}).
  by eapply (handled_one accounts a0 bs bs'); [exact A0|done|exact clock_typed|..|apply own_eq_refl].
Qed.
End program.
