(* ===== verification/BridgeHistory.v ===== *)
(** * BridgeHistory: the bridge account as a ledger

    The instructions of the bridge program, as raw accounts and bytes, against the
    ledger of [Ledger.v]: after any history of successful instructions, interleaved
    with whatever other programs do, the memory of the bridge account is the encoding
    of a state that implements the ledger which the instructions spell out. *)
From S2P Require Import Prelude Errors Pod Hash Sha256 AppendTree TxoIndex Fees Types PublicInputs Runtime MintBuffer TxoBuffer BufferClient MintGroup ProgramState BlockUpdate BlockUpdateProofs BridgeInstructions DogeBridge Ledger StateTypes DogeBridgeProofs.
From Stdlib Require Import ZArith Lia.
From stdpp Require Import base decidable list numbers option countable gmap.
Import DogeBridge.

Open Scope Z_scope.
Open Scope bridge_scope.

(** ** What an instruction means for the ledger *)

Section meaning.
Context `{Features} `{Sha256}.

(** The operation that an instruction asks for, read off its bytes and accounts; the
    buffers, the clock and the replayed proof, of which the ledger keeps nothing, are
    left out.  [None]: the ledger does not change. *)
Definition operation_of (accounts : list AccountInfo) (input : bytes) : option operation :=
  let data := drop 8 input in
  match input with
  | 1 :: _ =>
      fixed ← cast (A := BlockUpdateFixedData) data;
      Some (SingleBlockTransition (bu_proof fixed) SINGLE_BLOCK_UPDATE_VK (bu_header fixed) [] [] [] [])
  | 2 :: _ =>
      params ← cast (A := RequestWithdrawalInstructionData) data;
      user ← accounts !! 3%nat;
      Some (RequestWithdrawal (key user) (rw_request params))
  | 3 :: _ =>
      params ← cast (A := ProcessWithdrawalInstructionData) data;
      Some (ProcessWithdrawal (pw_proof params) WITHDRAWAL_VK [] (pw_new_return_output params)
              (pw_new_spent_txo_tree_root params) (pw_new_next_processed_withdrawals_index params))
  | 4 :: _ => operator_token_account ← accounts !! 1%nat; Some (OperatorWithdrawFees (key operator_token_account))
  | 5 :: _ =>
      params ← cast (A := ProcessManualDepositInstructionData) data;
      recipient_account ← accounts !! 1%nat;
      Some (ClaimDepositManual (md_recent_block_merkle_tree_root params) (md_recent_auto_claim_txo_root params)
              (md_tx_hash params) (md_combined_txo_index params) (key recipient_account) (md_deposit_amount_sats params))
  | 8 :: _ =>
      fixed ← cast (A := ProcessReorgBlocksFixedData) (take 576 data);
      Some (BlockTransitionReorg (pr_proof fixed) BLOCK_REORG_VK (pr_header fixed) [] [] [] [] [])
  | _ => None
  end.

Definition meaning (cfg : PsyBridgeConfig) (l : Ledger) (accounts : list AccountInfo) (input : bytes) : Ledger :=
  match operation_of accounts input with Some op => record cfg l op | None => l end.

(** The ledger of a list of calls: those that name [bridge] as their first account. *)
Definition ledger_of_calls (bridge : Pubkey) (ix : InitializeBridgeInstructionData)
    (calls : list (list AccountInfo * bytes)) : Ledger :=
  fold_left (fun l '(accounts, input) =>
      if bool_decide (key <$> accounts !! 0%nat = Some bridge)
      then meaning (init_config_params ix) l accounts input else l)
    calls (empty_ledger (init_bridge_header ix) (init_start_return_txo_output ix)).
End meaning.

(** ** Parsing *)

Lemma parse_Ok {A} {PA : Pod A} data (a : A) :
  parse data = Ok a -> cast data = Some a /\ (Forall is_byte data -> pod_wf a).
Proof.
  intros Hp%ok_or_Ok. split; [done|]. intros Hb. apply cast_Some in Hp as [Hl ->]. by apply from_bytes_wf.
Qed.

Lemma read_extra_blocks_typed bs a b i todo l :
  Forall is_byte bs -> read_extra_blocks bs a b i todo = Ok l -> Forall pod_wf l.
Proof.
  intros Hb. revert i l. induction todo as [|todo IH]; intros i l Hr; cbn [read_extra_blocks] in Hr.
  { injection Hr as <-. constructor. }
  cbv zeta in Hr. peel Hr as E0. peel Hr as E1. peel Hr as E2. injection Hr as <-.
  constructor; [by destruct (slice_cast _ _ _ _ Hb E0 E1)|by eapply IH].
Qed.

Lemma reorg_reader_typed data r :
  Forall is_byte data -> ReorgBlockUpdateReader_new data = Ok (Some r) ->
  pod_wf (rbr_header r) /\ Forall pod_wf (rbr_extra_finalized_blocks r) /\
  exists fixed, cast (A := ProcessReorgBlocksFixedData) (take 576 data) = Some fixed /\
    rbr_proof r = pr_proof fixed /\ rbr_header r = pr_header fixed.
Proof.
  intros Hb Hr. unfold ReorgBlockUpdateReader_new in Hr. cbv zeta in Hr. branch Hr as E; [discriminate Hr|].
  peel Hr as E0. peel Hr as E1. peel Hr as E2. injection Hr as <-. cbn [rbr_proof rbr_header rbr_extra_finalized_blocks].
  split; [by destruct (slice_cast _ _ _ _ Hb E0 E1) as [_ [_ ?]]|].
  split; [by eapply read_extra_blocks_typed|]. exists x0. split; [|done].
  apply slice_Some in E0 as (_ & _ & ->). exact E1.
Qed.

Section history.
Context `{Sha256Laws} `{ZkVerifier} `{Runtime} `{ProgramIds} `{Features}.
Context (pid : Pubkey) `{!CpiLaws pid}.
Context (Hbuffer : PENDING_MINT_BUFFER_BUILDER_PROGRAM_ID <> pid).
Implicit Types (w : World) (accounts : list AccountInfo).

Abbreviation performed := (reaches granted_burn granted_mint).

(** What the types of the entry point guarantee about a call. *)
Definition call_typed accounts (input : bytes) w : Prop :=
  keys_typed accounts /\ Forall is_byte input /\ memory_typed w.

Lemma group_index_nonneg data params : Forall is_byte data -> parse_mint_group data = Ok params -> 0 <= params.1.
Proof.
  intros Hb Hp. destruct data as [|b0 [|b1 [|b2 [|b3 [|]]]]]; try discriminate Hp. injection Hp as <-.
  apply (le_val_bound [b0; b1]). by apply (Forall_take is_byte 2 [b0; b1; b2; b3]).
Qed.

(** The instruction performs operations with the meaning that its bytes spell out. *)
Definition means accounts (input : bytes) w w' : Prop :=
  exists ops, handled pid accounts ops w w' /\ len ops <= 2 /\
    forall cfg l, fold_left (record cfg) ops l = meaning cfg l accounts input.

Section cases.
Context (accounts : list AccountInfo) (input data : bytes) (w w' : World) (rest : bytes).
Context (Hkeys : keys_typed accounts) (Hmem : memory_typed w) (Hdata : Forall is_byte data).
Context (Hdrop : data = drop 8 input).

(** One operation, recorded as [operation_of] says. *)
Lemma means_one op op' :
  handled pid accounts [op] w w' -> operation_of accounts input = Some op' ->
  (forall cfg l, record cfg l op = record cfg l op') -> means accounts input w w'.
Proof.
  intros Hh Ho He. exists [op]. split; [done|]. split; [done|]. intros cfg l. unfold meaning.
  rewrite Ho. apply He.
Qed.

Lemma means_block b6 b7 : input = 1 :: rest ->
  (try fixed <- parse (A := BlockUpdateFixedData) data;
   process_block_update pid accounts (bu_proof fixed) (bu_header fixed) b6 b7 w) = Ok w' ->
  means accounts input w w'.
Proof.
  intros Hi Hr. peel Hr as E. apply parse_Ok in E as [Ec Hwf]. specialize (Hwf Hdata).
  apply (block_update_handled pid Hbuffer) in Hr as (a0 & a1 & tb & mb & _ & _ & Hh); try done; [|by destruct Hwf].
  eapply means_one; [exact Hh|unfold operation_of; rewrite <- Hdrop, Ec, Hi; reflexivity|done].
Qed.

Lemma means_reorg b6 b7 : input = 8 :: rest ->
  (try reader <- ReorgBlockUpdateReader_new data;
   match reader with
   | None => Err (BridgeError.to_program_error BridgeError.SerializationError)
   | Some reader => process_reorg_blocks pid accounts (rbr_proof reader) (rbr_header reader)
                      (rbr_extra_finalized_blocks reader) b6 b7 w
   end) = Ok w' ->
  means accounts input w w'.
Proof.
  intros Hi Hr. peel Hr as E. destruct x as [r|]; [|discriminate Hr].
  apply reorg_reader_typed in E as (Hh & He & fixed & Ec & Ep & Eh); [|done].
  apply (block_update_handled pid Hbuffer) in Hr as (a0 & a1 & tb & mb & _ & _ & Hd); try done.
  eapply means_one; [exact Hd|unfold operation_of; rewrite <- Hdrop, Ec, Hi; reflexivity|].
  intros cfg l. cbn [record]. by rewrite Eh.
Qed.

Lemma means_request : input = 2 :: rest ->
  (try params <- parse (A := RequestWithdrawalInstructionData) data;
   process_request_withdrawal accounts (rw_request params) w) = Ok w' ->
  means accounts input w w'.
Proof.
  intros Hi Hr. peel Hr as E. apply parse_Ok in E as [Ec Hwf]. specialize (Hwf Hdata).
  apply (request_handled pid) in Hr as (a3 & Ha & Hh); [|exact Hwf].
  eapply means_one; [exact Hh|unfold operation_of; rewrite <- Hdrop, Ec, Hi, Ha; reflexivity|done].
Qed.

Lemma means_withdrawal : input = 3 :: rest ->
  (try params <- parse (A := ProcessWithdrawalInstructionData) data;
   process_process_withdrawal pid accounts (pw_proof params) (pw_new_return_output params)
     (pw_new_spent_txo_tree_root params) (pw_new_next_processed_withdrawals_index params) w) = Ok w' ->
  means accounts input w w'.
Proof.
  intros Hi Hr. peel Hr as E. apply parse_Ok in E as [Ec Hwf]. specialize (Hwf Hdata).
  destruct Hwf as (_ & Hro & Hroot & Hnext).
  apply (withdrawal_handled pid) in Hr as (tx & Hh); [|done..].
  eapply means_one; [exact Hh|unfold operation_of; rewrite <- Hdrop, Ec, Hi; reflexivity|done].
Qed.

Lemma means_fees : input = 4 :: rest ->
  process_operator_withdraw_fees pid accounts w = Ok w' -> means accounts input w w'.
Proof.
  intros Hi Hr. apply (fees_handled pid) in Hr as (a1 & Ha & Hh).
  eapply means_one; [exact Hh|unfold operation_of; rewrite Hi, Ha; reflexivity|done].
Qed.

Lemma means_deposit : input = 5 :: rest ->
  (try params <- parse (A := ProcessManualDepositInstructionData) data;
   process_process_manual_deposit pid accounts (md_tx_hash params) (md_recent_block_merkle_tree_root params)
     (md_recent_auto_claim_txo_root params) (md_combined_txo_index params) (md_deposit_amount_sats params)
     (md_depositor_solana_public_key params) w) = Ok w' ->
  means accounts input w w'.
Proof.
  intros Hi Hr. peel Hr as E. apply parse_Ok in E as [Ec Hwf]. specialize (Hwf Hdata).
  destruct Hwf as (_ & _ & _ & _ & _ & Hamt).
  apply (manual_deposit_handled pid) in Hr as (a1 & Ha & Hh); [|done..].
  eapply means_one; [exact Hh|unfold operation_of; rewrite <- Hdrop, Ec, Hi, Ha; reflexivity|done].
Qed.

(** Instructions that leave no trace in the ledger. *)
Lemma means_nothing ops :
  handled pid accounts ops w w' -> len ops <= 2 -> operation_of accounts input = None ->
  (forall cfg l, fold_left (record cfg) ops l = l) -> means accounts input w w'.
Proof.
  intros Hh Hl Ho He. exists ops. split; [done|]. split; [done|]. intros cfg l. unfold meaning. by rewrite Ho.
Qed.

Lemma means_replay : input = 6 :: rest ->
  process_replay_withdrawal pid accounts w = Ok w' -> means accounts input w w'.
Proof.
  intros Hi Hr. apply (replay_handled pid) in Hr as (proof & now & Hh).
  by eapply means_nothing; [exact Hh| |unfold operation_of; rewrite Hi|].
Qed.

Lemma means_group : input = 7 :: rest ->
  (try params <- parse_mint_group data; process_process_mint_group pid accounts params.1 params.2 w) = Ok w' ->
  means accounts input w w'.
Proof.
  intros Hi Hr. peel Hr as E. apply group_index_nonneg in E; [|done].
  apply (mint_group_handled pid Hbuffer) in Hr as (a1 & _ & Hh); [|done].
  by eapply means_nothing; [exact Hh| |unfold operation_of; rewrite Hi|].
Qed.

Lemma means_advance b7 : input = 9 :: rest ->
  (try params <- parse_mint_group data;
   process_process_mint_group_auto_advance pid accounts params.1 b7 params.2 w) = Ok w' ->
  means accounts input w w'.
Proof.
  intros Hi Hr. peel Hr as E. apply group_index_nonneg in E; [|done].
  apply (auto_advance_handled pid Hbuffer) in Hr as (a0 & a1 & a2 & jit & _ & _ & _ & Hh); [|done..].
  eapply means_nothing; [exact Hh|by destruct jit|unfold operation_of; by rewrite Hi|by destruct jit].
Qed.

Lemma means_snapshot : input = 10 :: rest ->
  process_snapshot_withdrawals pid accounts w = Ok w' -> means accounts input w w'.
Proof.
  intros Hi Hr. apply (snapshot_handled pid) in Hr.
  by eapply means_nothing; [exact Hr| |unfold operation_of; rewrite Hi|].
Qed.
End cases.

Lemma instruction_means accounts input w w' :
  call_typed accounts input w -> input !! 0%nat <> Some 0 ->
  process_instruction pid accounts input w = Ok w' -> means accounts input w w'.
Proof.
  intros (Hkeys & Hin & Hmem) Hne Hr.
  destruct (process_instruction_Ok _ _ _ _ _ Hr) as (tag & rest & b6 & b7 & -> & _ & Hd). clear Hr. rename Hd into Hr.
  remember (drop 8 (tag :: rest)) as data eqn:Hdrop.
  assert (Forall is_byte data) as Hdata by (rewrite Hdrop; by apply Forall_drop).
  unfold dispatch in Hr. destruct tag as [|p|p]; [done| |discriminate Hr].
  do 4 (try (destruct p as [p|p|]; try discriminate Hr)).
  all: first [
    solve [eapply means_block, Hr; done]
    | solve [eapply means_reorg, Hr; done]
    | solve [eapply means_request, Hr; done]
    | solve [eapply means_withdrawal, Hr; done]
    | solve [eapply means_fees, Hr; done]
    | solve [eapply means_deposit, Hr; done]
    | solve [eapply means_replay, Hr; done]
    | solve [eapply means_group, Hr; done]
    | solve [eapply means_advance, Hr; done]
    | solve [eapply means_snapshot, Hr; done]].
Qed.

(** ** Histories *)

(** Worlds after an initialisation and the calls that follow it.  Other programs act
    in between; they cannot change the accounts of the bridge program.  That the bridge
    account belongs to the program after the initialisation is a check of the runtime,
    which rejects writes to foreign accounts. *)
Inductive history (ix : InitializeBridgeInstructionData) : list (list AccountInfo * bytes) -> World -> Prop :=
  | history_init accounts prefix w w' :
      length prefix = 7%nat -> pod_wf ix ->
      process_instruction pid accounts (0 :: prefix ++ bytes_of ix) w = Ok w' ->
      owner_at w' (bridge_pda pid) = pid -> history ix [] w'
  | history_call calls accounts input w w' :
      history ix calls w -> call_typed accounts input w -> input !! 0%nat <> Some 0 ->
      process_instruction pid accounts input w = Ok w' -> history ix (calls ++ [(accounts, input)]) w'
  | history_other calls w w' : history ix calls w -> own_eq pid w w' -> history ix calls w'.

(** A list of operations keeps the refinement, the invariant and the types. *)
Lemma performed_refines cfg s ops s' l n :
  performed s ops s' -> Forall operation_typed ops -> refines cfg s l -> ledger_size n l -> bridge_inv s ->
  state_typed s -> 0 <= n -> n + len ops <= 2 ^ 32 ->
  refines cfg s' (fold_left (record cfg) ops l) /\ ledger_size (n + len ops) (fold_left (record cfg) ops l) /\
  bridge_inv s' /\ state_typed s'.
Proof.
  intros Hp Ht Href Hsz Hinv Hty Hn. induction Hp as [|ops s1 op s2 Hp IH Hwf Hx]; intros Hlen.
  { by rewrite Z.add_0_r. }
  apply Forall_app in Ht as [Ht Hop]. assert (operation_typed op) by (by inversion Hop).
  rewrite len_app, len_cons, len_nil in Hlen. pose proof (len_nonneg ops).
  destruct (IH Ht ltac:(lia)) as (Href1 & Hsz1 & Hinv1 & Hty1).
  rewrite fold_left_app, len_app, len_cons, len_nil. cbn [fold_left].
  replace (n + (len ops + (1 + 0))) with (n + len ops + 1) by lia.
  destruct (refines_step granted_burn granted_mint cfg s1 s2 _ op (n + len ops) Href1 Hsz1 ltac:(lia) Hwf Hx).
  split; [done|]. split; [done|]. split; [by eapply bridge_inv_step|by eapply execute_typed].
Qed.

(** The bridge account holds a state that implements the ledger [l]. *)
Definition account_implements (ix : InitializeBridgeInstructionData) (n : Z) (l : Ledger) w : Prop :=
  exists bs, owner_at w (bridge_pda pid) = pid /\ data_at w (bridge_pda pid) = bytes_of bs /\
    state_typed (core_state bs) /\ doge_mint bs = init_doge_mint ix /\
    refines (init_config_params ix) (core_state bs) l /\ ledger_size n l /\ bridge_inv (core_state bs).

Lemma load_typed w k (bs : BridgeState) :
  pod_wf bs -> data_at w k = bytes_of bs -> load_bridge_state w k = Ok bs.
Proof. intros Hwf Hd. unfold load_bridge_state. by rewrite Hd, (cast_bytes_of bs Hwf). Qed.

Lemma implements_own ix n l w w' :
  account_implements ix n l w -> own_eq pid w w' -> account_implements ix n l w'.
Proof.
  intros (bs & Ho & Hd & ?) He. destruct (He _ Ho) as [Ho' Hd'].
  exists bs. split; [done|]. split; [congruence|done].
Qed.

Lemma implements_size ix n m l w : n <= m -> account_implements ix n l w -> account_implements ix m l w.
Proof.
  intros Hnm (bs & ? & ? & ? & ? & ? & (? & ? & ? & ?) & ?). exists bs.
  do 5 (split; [done|]). split; [|done]. unfold ledger_size. split_and!; done || lia.
Qed.

Lemma implements_handled ix n l accounts ops w w' :
  pod_wf ix -> account_implements ix n l w -> handled pid accounts ops w w' -> len ops <= 2 -> 0 <= n ->
  n + 2 <= 2 ^ 32 ->
  account_implements ix (n + 2)
    (if bool_decide (key <$> accounts !! 0%nat = Some (bridge_pda pid))
     then fold_left (record (init_config_params ix)) ops l else l) w'.
Proof.
  intros Hix Himp (a0 & bs0 & bs' & Ha & Hload & He & Hp & Ht & Hd) Hops Hn Hn2. rewrite Ha. cbn [fmap option_fmap option_map].
  destruct Himp as (bs & Ho & Hdata & Hty & Hm & Href & Hsz & Hinv).
  destruct (decide (key a0 = bridge_pda pid)) as [Hk|Hk].
  - rewrite bool_decide_true by congruence. rewrite Hk in *.
    assert (byte_array 32 (doge_mint bs)) by (rewrite Hm; by destruct Hix as (_ & _ & ? & _)).
    assert (bs0 = bs) as ->.
    { pose proof (load_typed w (bridge_pda pid) bs ltac:(by apply bridge_state_typed) Hdata) as Hl.
      rewrite (Hload Ho) in Hl. by injection Hl. } pose proof (len_nonneg ops).
    destruct (performed_refines _ _ _ _ _ n Hp Ht Href Hsz Hinv Hty Hn ltac:(lia)) as (Href' & Hsz' & Hinv' & Hty').
    destruct (He (bridge_pda pid)) as [Ho' Hd']; [unfold store_bridge_state; by rewrite owner_at_set_data|].
    apply (implements_size ix (n + len ops)); [lia|].
    exists bs'. unfold store_bridge_state in Hd'. rewrite data_at_set_data in Hd'. by rewrite Hd.
  - rewrite bool_decide_false by congruence.
    destruct (He (bridge_pda pid)) as [Ho' Hd']; [unfold store_bridge_state; by rewrite owner_at_set_data|].
    unfold store_bridge_state in Hd'. rewrite data_at_set_data_ne in Hd' by done.
    apply (implements_size ix n); [lia|]. exists bs. split; [done|]. by rewrite Hd'.
Qed.

Lemma initialize_implements ix accounts prefix w w' :
  length prefix = 7%nat -> pod_wf ix ->
  process_instruction pid accounts (0 :: prefix ++ bytes_of ix) w = Ok w' -> owner_at w' (bridge_pda pid) = pid ->
  account_implements ix 0 (empty_ledger (init_bridge_header ix) (init_start_return_txo_output ix)) w'.
Proof.
  intros Hl Hix Hr Ho.
  assert (exists p b6 b7, prefix = p ++ [b6; b7] /\ length p = 5%nat) as (p & b6 & b7 & -> & Hp).
  { do 7 (destruct prefix as [|? prefix]; [discriminate Hl|]). destruct prefix; [|discriminate Hl].
    by exists [z; z0; z1; z2; z3], z4, z5. }
  rewrite <- app_assoc in Hr. cbn [app] in Hr. rewrite process_aligned in Hr by done. cbn [dispatch] in Hr.
  unfold parse in Hr. rewrite (cast_bytes_of ix Hix) in Hr. cbn [ok_or res_bind] in Hr.
  unfold process_initialize in Hr. peel Hr as A0. rename x into a0. peel Hr as A1. peel Hr as A2.
  destruct (find_program_address _ pid) as [pda bump] eqn:Ef. peel Hr as B0. peel Hr as B1. rename x1 into w1.
  peel Hr as B2. injection Hr as <-. apply negb_false_iff, bool_decide_eq_true in B0.
  assert (bridge_pda pid = key a0) as Hk by (unfold bridge_pda; by rewrite Ef). rewrite <- Hk in *.
  eexists. split; [done|]. split; [unfold store_bridge_state; by rewrite data_at_set_data|].
  split; [by apply initialize_typed|]. split; [done|]. split; [by apply refines_initial|].
  split; [split_and!; (unfold empty_ledger, len; cbn; lia) || by unfold in_width|].
  split; [|done]. split; [|by left]. by vm_compute.
Qed.

Lemma history_implements ix calls w :
  history ix calls w -> 2 * len calls < 2 ^ 32 ->
  pod_wf ix /\ account_implements ix (2 * len calls) (ledger_of_calls (bridge_pda pid) ix calls) w.
Proof.
  induction 1 as [accounts prefix w w' Hl Hix Hr Ho|calls accounts input w w' Hh IH Hc Hne Hr|calls w w' Hh IH He];
    intros Hlen.
  - split; [done|]. by eapply initialize_implements.
  - rewrite len_app, len_cons, len_nil in *. pose proof (len_nonneg calls). destruct IH as [Hix IH]; [lia|].
    split; [done|]. destruct (instruction_means _ _ _ _ Hc Hne Hr) as (ops & Hops & Hn & Hm).
    replace (2 * (len calls + (1 + 0))) with (2 * len calls + 2) by lia.
    unfold ledger_of_calls. rewrite fold_left_app. cbn [fold_left]. rewrite <- Hm.
    by apply (implements_handled ix _ _ accounts ops w); [..|lia|lia].
  - destruct IH as [Hix IH]; [done|]. split; [done|]. by eapply implements_own.
Qed.

(** [C1] The bridge account is the ledger.  Take any initialisation of the bridge and
    any calls of its program that succeed after it (but no second initialisation), given
    as raw accounts and bytes, interleaved with anything that other programs do.  Then
    the memory of the bridge account is the encoding of a state whose trees, counters
    and fees are exactly those of the ledger that the bytes of the calls spell out; its
    mint and configuration are those of the initialisation, and its mint queue is
    consistent.  (Fewer than 2^31 calls, as each performs at most two operations and the
    trees hold 2^32 leaves.) *)
Theorem bridge_account_implements_ledger ix calls w :
  history ix calls w -> 2 * len calls < 2 ^ 32 ->
  exists bs, load_bridge_state w (bridge_pda pid) = Ok bs /\
    data_at w (bridge_pda pid) = bytes_of bs /\ doge_mint bs = init_doge_mint ix /\
    refines (init_config_params ix) (core_state bs) (ledger_of_calls (bridge_pda pid) ix calls) /\
    bridge_inv (core_state bs).
Proof.
  intros Hh Hlen. destruct (history_implements ix calls w Hh Hlen) as (Hix & bs & _ & Hd & Ht & Hm & Href & _ & Hinv).
  exists bs. split; [|done]. apply load_typed; [|done]. apply bridge_state_typed; [done|].
  rewrite Hm. by destruct Hix as (_ & _ & ? & _).
Qed.
End history.
