(* ===== verification/BridgeSafety.v ===== *)
(** * BridgeSafety: who may do what, and what is paid

    Theorems on single instructions of the bridge program: the signatures and accounts
    that privileged instructions require, the payments of a mint group, the lock on the
    mint buffer that a block update leaves (with the mint buffer program of
    [MintBuffer.v] behind the call), the message of a withdrawal, and the missing guard
    of the initialisation. *)
From S2P Require Import Prelude Errors Pod Hash Sha256 AppendTree TxoIndex Fees Types PublicInputs Runtime MintBuffer MintBufferProofs TxoBuffer BufferClient MintGroup ProgramState BlockUpdate BlockUpdateProofs Payout BridgeInstructions DogeBridge NoopShim Ledger StateTypes DogeBridgeProofs.
From Stdlib Require Import ZArith Lia.
From stdpp Require Import base decidable list numbers option countable gmap.
Import DogeBridge.

Open Scope Z_scope.
Open Scope bridge_scope.

Lemma key_eqb_true a b : negb (key_eqb a b) = false -> a = b.
Proof. intros Hn%negb_false_iff. by apply bool_decide_eq_true in Hn. Qed.

Section safety.
Context `{Sha256} `{ZkVerifier} `{Runtime} `{ProgramIds} `{Features}.
Context (pid : Pubkey).
Implicit Types (w : World) (accounts : list AccountInfo).

(** ** Authorisation *)

(** Account [i] signed, and its key is [k]. *)
Definition signed_by accounts (i : nat) (k : Pubkey) : Prop :=
  exists a, accounts !! i = Some a /\ is_signer a = true /\ key a = k.

Definition key_of accounts (i : nat) : option Pubkey := key <$> accounts !! i.

(** The state in the account that is passed first. *)
Definition first_state accounts w (bs : BridgeState) : Prop :=
  exists a0, accounts !! 0%nat = Some a0 /\ load_bridge_state w (key a0) = Ok bs.

(** What an instruction must bring: the operator's signature for groups, fees and
    snapshots; the claim account of the depositor, which only the claim program can
    sign for, for manual deposits; a signer whose buffers these are for blocks.  A group
    whose block is advanced along the way needs some signer only, who is not compared
    with the operator; the mint buffer must be the active one, or, when the next block is
    set up first, the TXO buffer must be the signer's. *)
Definition authorised accounts (input : bytes) w : Prop :=
  match input with
  | 4 :: _ => exists bs, first_state accounts w bs /\ key_of accounts 2 = Some (doge_mint bs) /\
      signed_by accounts 3 (operator_pubkey (access_control (core_state bs)))
  | 7 :: _ => exists bs, first_state accounts w bs /\ key_of accounts 3 = Some (doge_mint bs) /\
      signed_by accounts 2 (operator_pubkey (access_control (core_state bs)))
  | 9 :: _ => exists bs signer b7, first_state accounts w bs /\ signed_by accounts 3 signer /\
      if advance_with_jit bs
      then key_of accounts 2 = create_program_address [TxoBuffer.txo_buffer_seed; signer; [b7]]
                                 TXO_BUFFER_BUILDER_PROGRAM_ID
      else key_of accounts 1 = Some (active_buffer bs)
  | 10 :: _ => exists bs, first_state accounts w bs /\ key_of accounts 0 = Some (bridge_pda pid) /\
      signed_by accounts 1 (operator_pubkey (access_control (core_state bs)))
  | 5 :: _ => exists params, parse (A := ProcessManualDepositInstructionData) (drop 8 input) = Ok params /\
      signed_by accounts 4 (find_program_address [manual_claim_seed; md_depositor_solana_public_key params]
                              MANUAL_CLAIM_PROGRAM_ID).1
  | 1 :: _ | 8 :: _ => exists operator b6 b7, signed_by accounts 3 operator /\
      key_of accounts 1 = create_program_address [MintBuffer.mint_buffer_seed; operator; [b6]]
                            PENDING_MINT_BUFFER_BUILDER_PROGRAM_ID /\
      key_of accounts 2 = create_program_address [TxoBuffer.txo_buffer_seed; operator; [b7]]
                            TXO_BUFFER_BUILDER_PROGRAM_ID
  | _ => True
  end.

Lemma signed_Ok accounts i a k :
  nth_account accounts i = Ok a -> negb (is_signer a) = false -> key a = k -> signed_by accounts i k.
Proof. intros Ha%nth_account_Ok Hs%negb_false_iff Hk. by exists a. Qed.

Lemma key_of_Ok accounts i a k : nth_account accounts i = Ok a -> key a = k -> key_of accounts i = Some k.
Proof. intros Ha%nth_account_Ok <-. unfold key_of. by rewrite Ha. Qed.

Lemma first_state_Ok accounts w a0 bs :
  nth_account accounts 0 = Ok a0 -> load_bridge_state w (key a0) = Ok bs -> first_state accounts w bs.
Proof. intros Ha%nth_account_Ok Hl. by exists a0. Qed.

Lemma block_update_authorised accounts proof h extra b6 b7 is_reorg w w' :
  run_block_update_common pid accounts proof h extra b6 b7 is_reorg w = Ok w' ->
  exists operator b6 b7, signed_by accounts 3 operator /\
    key_of accounts 1 = create_program_address [MintBuffer.mint_buffer_seed; operator; [b6]]
                          PENDING_MINT_BUFFER_BUILDER_PROGRAM_ID /\
    key_of accounts 2 = create_program_address [TxoBuffer.txo_buffer_seed; operator; [b7]]
                          TXO_BUFFER_BUILDER_PROGRAM_ID.
Proof.
  intros Hr. unfold run_block_update_common in Hr. peel Hr as A0. peel Hr as A1. peel Hr as A2. peel Hr as A3.
  peel Hr as A4. peel Hr as A5. peel Hr as A6. peel Hr as B0. peel Hr as B1. peel Hr as B2. peel Hr as B3.
  peel Hr as B4. clear Hr. apply key_eqb_true in B2, B4. apply ok_or_Ok in B1, B3.
  exists (key x2), b6, b7. split; [by eapply signed_Ok|]. rewrite B1, B3. split; by eapply key_of_Ok.
Qed.

Lemma fees_authorised accounts w w' :
  process_operator_withdraw_fees pid accounts w = Ok w' -> authorised accounts [4] w.
Proof.
  intros Hr. unfold process_operator_withdraw_fees in Hr. peel Hr as A0. peel Hr as A1. peel Hr as A2.
  peel Hr as A3. peel Hr as A4. peel Hr as B0. cbv zeta in Hr. peel Hr as B1. peel Hr as B2. peel Hr as B3.
  clear Hr. apply key_eqb_true in B2, B3. exists x4. split; [by eapply first_state_Ok|].
  split; [by eapply key_of_Ok|by eapply signed_Ok].
Qed.

Lemma group_authorised accounts g unlock w w' :
  process_process_mint_group pid accounts g unlock w = Ok w' -> authorised accounts [7] w.
Proof.
  intros Hr. unfold process_process_mint_group in Hr. peel Hr as A0. peel Hr as A1. peel Hr as A2.
  peel Hr as A3. peel Hr as A4. peel Hr as A5. peel Hr as A6. peel Hr as B0. peel Hr as B1. peel Hr as B2.
  peel Hr as B3. peel Hr as B4. clear Hr. apply key_eqb_true in B3, B4. exists x6. split; [by eapply first_state_Ok|].
  split; [by eapply key_of_Ok|by eapply signed_Ok].
Qed.

Lemma advance_authorised accounts g b7 unlock w w' :
  process_process_mint_group_auto_advance pid accounts g b7 unlock w = Ok w' -> authorised accounts [9] w.
Proof.
  intros Hr. unfold process_process_mint_group_auto_advance in Hr. peel Hr as A0. peel Hr as A1. peel Hr as A2.
  peel Hr as A3. peel Hr as A4. peel Hr as A5. peel Hr as A6. peel Hr as A7. peel Hr as A8. peel Hr as B0.
  cbv zeta in Hr. peel Hr as B1. peel Hr as B2. peel Hr as B3. clear Hr.
  exists x8, (key x2), b7. split; [by eapply first_state_Ok|]. split; [by eapply signed_Ok|].
  destruct (advance_with_jit x8).
  - peel B2 as C0. peel B2 as C1. peel B2 as C2. apply key_eqb_true in C2. apply ok_or_Ok in C1. rewrite C1.
    by eapply key_of_Ok.
  - injection B2 as <-. apply key_eqb_true in B3. by eapply key_of_Ok.
Qed.

Lemma snapshot_authorised accounts w w' :
  process_snapshot_withdrawals pid accounts w = Ok w' -> authorised accounts [10] w.
Proof.
  intros Hr. unfold process_snapshot_withdrawals in Hr. peel Hr as A0. peel Hr as A1. peel Hr as A2.
  peel Hr as B0. peel Hr as B1. peel Hr as B2. peel Hr as B3. clear Hr. apply key_eqb_true in B1, B3.
  exists x2. split; [by eapply first_state_Ok|]. split; [by eapply key_of_Ok|by eapply signed_Ok].
Qed.

Lemma deposit_authorised accounts tx br ar i amount depositor w w' :
  process_process_manual_deposit pid accounts tx br ar i amount depositor w = Ok w' ->
  signed_by accounts 4 (find_program_address [manual_claim_seed; depositor] MANUAL_CLAIM_PROGRAM_ID).1.
Proof.
  intros Hr. unfold process_process_manual_deposit in Hr. peel Hr as A0. peel Hr as A1. peel Hr as A2.
  peel Hr as A3. peel Hr as A4. peel Hr as B0. peel Hr as B1. clear Hr. unfold verify_lowest_pda in B1.
  destruct (find_program_address _ MANUAL_CLAIM_PROGRAM_ID) as [pda bump]. peel B1 as E. apply key_eqb_true in E.
  by eapply signed_Ok.
Qed.

(** Without a block to set up, the advancing instruction does not look at who signed: with
    any other signer in place of the one given, it does the same. *)
Lemma advance_any_signer before after signer other g b7 unlock w :
  length before = 3%nat -> is_signer signer = true -> is_signer other = true ->
  (forall a0 bs, before !! 0%nat = Some a0 -> load_bridge_state w (key a0) = Ok bs -> advance_with_jit bs = false) ->
  process_process_mint_group_auto_advance pid (before ++ other :: after) g b7 unlock w
  = process_process_mint_group_auto_advance pid (before ++ signer :: after) g b7 unlock w.
Proof.
  intros Hl Hs Ho Hjit. destruct before as [|a0 [|a1 [|a2 [|]]]]; try discriminate Hl. cbn [app].
  unfold process_process_mint_group_auto_advance, nth_account. cbn [lookup list_lookup ok_or res_bind drop].
  rewrite Hs, Ho. cbn [negb].
  do 5 (destruct after as [|? after]; [reflexivity|]; cbn [lookup list_lookup ok_or res_bind drop]).
  cbv zeta. destruct (load_bridge_state w (key a0)) as [bs| |] eqn:El; [|reflexivity..]. cbn [res_bind].
  by rewrite (Hjit a0 bs eq_refl El).
Qed.

(** [C9] Privileged instructions are authorised.  Operator fees are withdrawn, a snapshot is
    taken and a mint group is paid by the group instruction only with the signature of
    the operator that the state names (fees and groups for the state's own mint); a
    manual deposit is credited only when the claim account of the depositor signed, which
    is the doing of the claim program; a block is accepted only from a signer whose own
    buffers are passed.  The instruction that pays a group and advances the queue asks for
    less: some signer, who need not be the operator ([advance_any_signer]), and either
    the active mint buffer or, when it sets up the next block first, a TXO buffer that is
    the signer's. *)
Theorem privileged_instructions_authorised accounts input w w' :
  process_instruction pid accounts input w = Ok w' -> authorised accounts input w.
Proof.
  intros Hr. destruct (process_instruction_Ok _ _ _ _ _ Hr) as (tag & rest & b6 & b7 & -> & _ & Hd).
  clear Hr. rename Hd into Hr. unfold dispatch in Hr.
  destruct tag as [|p|p]; [done| |done]. do 4 (try (destruct p as [p|p|]; try done)).
  all: try (peel Hr as E).
  all: lazymatch type of Hr with
    | process_operator_withdraw_fees _ _ _ = _ => exact (fees_authorised _ _ _ Hr)
    | process_process_mint_group _ _ _ _ _ = _ => exact (group_authorised _ _ _ _ _ Hr)
    | process_process_mint_group_auto_advance _ _ _ _ _ _ = _ => exact (advance_authorised _ _ _ _ _ _ Hr)
    | process_snapshot_withdrawals _ _ _ = _ => exact (snapshot_authorised _ _ _ Hr)
    | process_process_manual_deposit _ _ _ _ _ _ _ _ _ = _ =>
        exists x; split; [exact E|exact (deposit_authorised _ _ _ _ _ _ _ _ _ Hr)]
    | process_block_update _ _ _ _ _ _ _ = _ => unfold process_block_update in Hr; exact (block_update_authorised _ _ _ _ _ _ _ _ _ Hr)
    | _ => destruct x as [r|]; [unfold process_reorg_blocks in Hr; exact (block_update_authorised _ _ _ _ _ _ _ _ _ Hr)|discriminate Hr]
    end.
Qed.
End safety.

(** ** The lock on the mint buffer *)

(** The calls of the mint buffer program run the program of [MintBuffer.v] on the
    accounts that the instruction lists. *)
Class BufferCpi `{Sha256} `{Runtime} `{ProgramIds} : Prop :=
  cpi_runs_buffer w metas input infos seeds w' :
    invoke_signed w (RawInstruction PENDING_MINT_BUFFER_BUILDER_PROGRAM_ID metas input) infos seeds = Ok w' ->
    MintBuffer.process_instruction PENDING_MINT_BUFFER_BUILDER_PROGRAM_ID
      (BufferClient.account_info <$> metas) input w = Ok w'.

Section lock.
Context `{Sha256} `{ZkVerifier} `{Runtime} `{ProgramIds} `{Features} `{!BufferCpi}.
Context (pid : Pubkey).
Implicit Types (w : World) (accounts : list AccountInfo) (h : PendingMintsBufferStateHeader).

(** The header of a buffer, and everything behind it. *)
Definition buffer_header w (k : Pubkey) : option PendingMintsBufferStateHeader := MintBuffer.get_header (data_at w k).
Definition buffer_body w (k : Pubkey) : bytes := drop 72 (data_at w k).

(** The buffer was complete and unlocked, and belongs to locker [k]. *)
Definition lockable h (k : Pubkey) : Prop :=
  is_locked h = 0 /\ pending_mints_initialized h = pending_mints_count h /\ authorized_locker_public_key h = k.

(** The two accounts of the call, as the mint buffer program receives them. *)
Definition called_buffer (acc : AccountInfo) : AccountInfo :=
  {| key := key acc; is_signer := false; is_writable := true |}.
Definition called_authority (auth : AccountInfo) : AccountInfo :=
  {| key := key auth; is_signer := true; is_writable := false |}.

Lemma update_header_effect w k f w' :
  Forall is_byte (data_at w k) -> (forall h h', pod_wf h -> f h = Ok h' -> pod_wf h') ->
  MintBuffer.update_header w k f = Ok w' ->
  exists h h', buffer_header w k = Some h /\ f h = Ok h' /\ buffer_header w' k = Some h' /\
    buffer_body w' k = buffer_body w k /\ (exists d, w' = set_data w k d) /\ Forall is_byte (data_at w' k).
Proof.
  intros Hb Hwf Hr. apply MintBufferProofs.update_header_inv in Hr as (h & h' & d' & Hh & Hf & Hp & ->).
  destruct (get_header_wf _ _ Hb Hh) as [Hwfh _]. pose proof (Hwf h h' Hwfh Hf) as Hwfh'.
  destruct (put_header_spec h' _ _ Hwfh' Hb Hp) as (Hget & Hb' & Hl & Hbody).
  exists h, h'. split; [done|]. split; [done|]. unfold buffer_header, buffer_body. rewrite data_at_set_data.
  split; [done|]. split; [|by eauto]. apply list_eq. intros i. rewrite !lookup_drop. apply Hbody. lia.
Qed.

Lemma lock_wf h k h' : pod_wf h -> MintBuffer.lock h k = Ok h' -> pod_wf h'.
Proof.
  intros (? & ? & ? & ? & ? & ? & ?) Hf. unfold MintBuffer.lock in Hf. peel Hf as F0. peel Hf as F1. peel Hf as F2.
  injection Hf as <-. split; [done|]. split; [done|]. split; [change (in_width 8 1); unfold in_width; lia|].
  repeat (split; [done|]). done.
Qed.

Lemma unlock_wf h k h' : pod_wf h -> MintBuffer.unlock h k = Ok h' -> pod_wf h'.
Proof.
  intros (? & ? & ? & ? & ? & ? & ?) Hf. unfold MintBuffer.unlock in Hf. peel Hf as F0. peel Hf as F1.
  injection Hf as <-. split; [done|]. split; [done|]. split; [change (in_width 8 0); unfold in_width; lia|].
  split; [done|]. repeat (split; [change (in_width 16 0); unfold in_width; lia|]).
  change (in_width 16 0). unfold in_width. lia.
Qed.

Lemma lock_call_effect acc prog auth w w' :
  Forall is_byte (data_at w (key acc)) ->
  lock_buffer (mint_buffer_locker pid acc prog auth) w = Ok w' ->
  exists h h', buffer_header w (key acc) = Some h /\ lockable h (key auth) /\
    MintBuffer.lock h (key auth) = Ok h' /\ buffer_header w' (key acc) = Some h' /\
    buffer_body w' (key acc) = buffer_body w (key acc) /\
    (exists d, w' = set_data w (key acc) d) /\ Forall is_byte (data_at w' (key acc)).
Proof.
  intros Hb Hr%map_err_Ok%cpi_runs_buffer.
  change (MintBuffer.process_lock PENDING_MINT_BUFFER_BUILDER_PROGRAM_ID
    [called_buffer acc; called_authority auth] (called_buffer acc) w = Ok w') in Hr.
  unfold MintBuffer.process_lock in Hr. peel Hr as E0.
  change (nth_account [called_buffer acc; called_authority auth] 1) with (@Ok ProgramError _ (called_authority auth)) in Hr.
  cbn [res_bind] in Hr. peel Hr as E1.
  apply update_header_effect in Hr as (h & h' & Hh & Hf & Hrest); [|done|by intros; eapply lock_wf].
  exists h, h'. split; [done|]. split; [|by split].
  unfold MintBuffer.lock in Hf. peel Hf as F0. peel Hf as F1. peel Hf as F2.
  apply negb_false_iff, Z.eqb_eq in F0, F1. apply negb_false_iff, bool_decide_eq_true in F2. by split_and!.
Qed.

Lemma unlock_call_effect acc prog auth w w' :
  Forall is_byte (data_at w (key acc)) ->
  unlock_buffer (mint_buffer_locker pid acc prog auth) w = Ok w' ->
  exists h h', buffer_header w (key acc) = Some h /\ MintBuffer.unlock h (key auth) = Ok h' /\
    buffer_header w' (key acc) = Some h' /\ buffer_body w' (key acc) = buffer_body w (key acc) /\
    exists d, w' = set_data w (key acc) d.
Proof.
  intros Hb Hr%map_err_Ok%cpi_runs_buffer.
  change (MintBuffer.process_unlock PENDING_MINT_BUFFER_BUILDER_PROGRAM_ID
    [called_buffer acc; called_authority auth] (called_buffer acc) w = Ok w') in Hr.
  unfold MintBuffer.process_unlock in Hr. peel Hr as E0.
  change (nth_account [called_buffer acc; called_authority auth] 1) with (@Ok ProgramError _ (called_authority auth)) in Hr.
  cbn [res_bind] in Hr. peel Hr as E1.
  apply update_header_effect in Hr as (h & h' & Hh & Hf & Hh' & Hbody & Hd & _); [|done|by intros; eapply unlock_wf].
  by exists h, h'.
Qed.

(** [C10] A block update locks what it accepts.  When a block update or reorg succeeds,
    the mint buffer passed to it was complete, unlocked and had the bridge account as
    its locker; afterwards its mints are unchanged, and it is locked for the bridge when
    the block brings new automatic deposits, or unlocked and emptied for reuse when
    it brings none. *)
Theorem block_update_locks_buffer accounts proof new_header extra b6 b7 is_reorg w w' :
  memory_typed w ->
  run_block_update_common pid accounts proof new_header extra b6 b7 is_reorg w = Ok w' ->
  exists bridge buffer bs bs' h h',
    accounts !! 0%nat = Some bridge /\ accounts !! 1%nat = Some buffer /\
    buffer_header w (key buffer) = Some h /\ lockable h (key bridge) /\
    buffer_header w' (key buffer) = Some h' /\ authorized_locker_public_key h' = key bridge /\
    buffer_body w' (key buffer) = buffer_body w (key buffer) /\
    load_bridge_state w (key bridge) = Ok bs /\ data_at w' (key bridge) = bytes_of bs' /\
    bridge_header (core_state bs') = new_header /\
    if deposits_index bs =? deposits_index bs'
    then is_locked h' = 0 /\ pending_mints_count h' = 0
    else is_locked h' = 1 /\ pending_mints_count h' = pending_mints_count h.
Proof.
  intros Hmem Hr. unfold run_block_update_common in Hr.
  peel Hr as A0. rename x into a0. peel Hr as A1. rename x into a1. peel Hr as A2. rename x into a2.
  peel Hr as A3. peel Hr as A4. peel Hr as A5. peel Hr as A6. peel Hr as B0. peel Hr as B1. peel Hr as B2.
  peel Hr as B3. peel Hr as B4. cbv zeta in Hr. peel Hr as B5. peel Hr as C0. rename x5 into w1.
  peel Hr as C1. rename x5 into bs. peel Hr as C2. peel Hr as C3. peel Hr as C4. peel Hr as C5.
  apply on_core_Ok in C5 as [C5 _]. destruct x5 as [[] bs']. cbn [fst snd] in *.
  apply bool_decide_eq_false in C3. apply map_err_Ok in C0.
  destruct (lock_call_effect _ _ _ _ _ (Hmem _) C0) as (h & h1 & Hh & Hlk & Hlock & Hh1 & Hbody & [d ->] & Hb1).
  assert (bridge_header (core_state bs') = new_header) as Hnew.
  { assert (Forall is_byte (data_at (set_data w (key a1) d) (key a2))) as Hb2.
    { destruct (decide (key a1 = key a2)) as [<-|Hne]; [done|]. rewrite data_at_set_data_ne by done. apply Hmem. }
    destruct is_reorg.
    - by destruct (reorg_frame _ _ _ _ _ _ _ _ _ _ Hb2 Hb1 C5) as (m & _ & ->).
    - by destruct (single_block_frame _ _ _ _ _ _ _ _ _ Hb2 Hb1 C5) as (m & _ & ->). }
  assert (load_bridge_state w (key a0) = Ok bs) as Hload.
  { unfold load_bridge_state in *. by rewrite data_at_set_data_ne in C1. }
  unfold MintBuffer.lock in Hlock. peel Hlock as F0. peel Hlock as F1. peel Hlock as F2. injection Hlock as <-.
  set (w2 := store_bridge_state _ (key a0) bs') in Hr.
  assert (data_at w2 (key a1) = d) as Hd2.
  { unfold w2, store_bridge_state. rewrite data_at_set_data_ne by congruence. apply data_at_set_data. }
  rewrite data_at_set_data in Hb1. unfold buffer_header, buffer_body in *. rewrite data_at_set_data in Hh1, Hbody.
  branch Hr as Eu.
  - apply map_err_Ok, unlock_call_effect in Hr as (h1 & h2 & Hh1' & Hun & Hh2 & Hbody2 & [d2 ->]); [|by rewrite Hd2].
    unfold buffer_header, buffer_body in *. rewrite Hd2 in *. rewrite Hh1 in Hh1'. injection Hh1' as <-.
    unfold MintBuffer.unlock in Hun. peel Hun as G0. peel Hun as G1. injection Hun as <-.
    eexists a0, a1, bs, bs', h, _. split; [by apply nth_account_Ok|]. split; [by apply nth_account_Ok|].
    split; [done|]. split; [done|]. split; [exact Hh2|]. split; [by destruct Hlk as (_ & _ & ?)|].
    split; [congruence|]. split; [done|]. split; [|by rewrite Eu].
    rewrite data_at_set_data_ne by done. apply data_at_set_data.
  - injection Hr as <-. eexists a0, a1, bs, bs', h, _. split; [by apply nth_account_Ok|].
    split; [by apply nth_account_Ok|]. split; [done|]. split; [done|]. split; [rewrite Hd2; exact Hh1|].
    split; [by destruct Hlk as (_ & _ & ?)|]. split; [by rewrite Hd2|]. split; [done|].
    split; [apply data_at_set_data|]. by rewrite Eu.
Qed.
End lock.

(** ** Payments *)

Section payments.
Context `{Sha256} `{ZkVerifier} `{Runtime} `{ProgramIds} `{Features}.
Context (pid : Pubkey).
Implicit Types (w : World) (accounts : list AccountInfo).

(** The calls of the token program that mint each amount to its account, in order. *)
Fixpoint mint_calls (minter : SolanaMinter) (payments : list (AccountInfo * Z)) w : res ProgramError World :=
  match payments with
  | [] => Ok w
  | (account, amount) :: payments =>
      try w1 <- invoke_signed w
        (TokenMintTo (key (minter_mint minter)) (key account) (key (minter_authority_info minter)) amount)
        [minter_mint minter; account; minter_authority_info minter; minter_token_program minter]
        [minter_authority_seeds minter];
      mint_calls minter payments w1
  end.

Lemma mint_to_Ok minter held p account amount w w' :
  mint_to minter held p account amount w = Ok w' ->
  exists info, minter_recipient_map minter !! Z.to_nat p = Some info /\ key info = account /\
    mint_calls minter [(info, amount)] w = Ok w'.
Proof.
  unfold mint_to. intros Hr. peel Hr as E0. peel Hr as E1. peel Hr as E2.
  destruct (invoke_signed_holding _ _ _ _ _ _) as [w1| |] eqn:E; [|discriminate Hr..]. injection Hr as <-.
  apply invoke_holding_Ok in E. apply index_Some in E1 as [_ E1]. apply key_eqb_true in E2.
  exists x. split; [done|]. split; [done|]. cbn [mint_calls]. by rewrite E.
Qed.

(** The mint that starts at [offset] in a buffer. *)
Definition mint_from (buf : bytes) (offset : Z) : PendingMint := from_bytes (take 40 (drop (Z.to_nat offset) buf)).

Lemma mint_group_loop_Ok minter held buf start p todo w w' :
  0 <= p -> mint_group_loop minter held buf start p todo w = Ok w' ->
  let mints := (fun q => mint_from buf (start + q * 40)) <$> seqZ p (Z.of_nat todo) in
  let infos := take todo (drop (Z.to_nat p) (minter_recipient_map minter)) in
  key <$> infos = recipient <$> mints /\ mint_calls minter (zip infos (amount <$> mints)) w = Ok w'.
Proof.
  intros Hp Hr. cbv zeta. revert p w Hp Hr. induction todo as [|todo IH]; intros p w Hp Hr; cbn [mint_group_loop] in Hr.
  { injection Hr as <-. by rewrite take_0. }
  cbv zeta in Hr. unfold PM_DA_PENDING_MINT_SIZE in Hr. peel Hr as E0. peel Hr as E1. peel Hr as E2.
  apply map_err_Ok, mint_to_Ok in E2 as (info & Hi & Hk & Hc). apply (IH (p + 1)) in Hr as [Hkeys Hcalls]; [|lia].
  apply slice_Some in E0 as (? & _ & ->). apply cast_Some in E1 as [_ ->].
  replace (Z.to_nat (start + p * 40 + 40 - (start + p * 40))) with 40%nat in * by lia.
  fold (mint_from buf (start + p * 40)) in *. rewrite (seqZ_cons p) by lia.
  replace (Z.pred (Z.of_nat (S todo))) with (Z.of_nat todo) by lia. replace (Z.succ p) with (p + 1) by lia.
  rewrite (drop_S _ _ _ Hi). cbn [take fmap list_fmap zip zip_with]. replace (S (Z.to_nat p)) with (Z.to_nat (p + 1)) by lia.
  split; [by rewrite Hkeys, Hk|]. cbn [mint_calls] in *. peel Hc as Ec. injection Hc as ->.
  by cbn [res_bind].
Qed.

(** The first mint of group [g], and the number of its mints, as the tracker counts. *)
Definition group_first (g : Z) : Z := u16 (g * 24).

Lemma precheck_result (s s' : PsyBridgeProgramState) g account b n off :
  run_auto_mint_group_precheck s g account = (Ok (b, n, off), s') ->
  let t := current_pending_mints_tracker (pending_mint_txos s) in
  let G := get_current_total_pending_mints_groups t in
  n = mints_count_for_group t G g /\ off = get_nth_pending_mint_offset G (group_first g).
Proof.
  intros E. unfold run_auto_mint_group_precheck in E. cbv zeta in E.
  peel E as E0. peel E as E1. peel E as E2. peel E as E3. peel E as E4. peel E as E5. by injection E as _ <- <- _.
Qed.

(** Reading from the offset of the group's first mint is reading by index. *)
Lemma group_mints buf G g n :
  (fun q => mint_from buf (get_nth_pending_mint_offset G (group_first g) + q * 40)) <$> seqZ 0 n
  = mint_at buf G <$> seqZ (group_first g) n.
Proof.
  transitivity (mint_at buf G <$> (Z.add (group_first g) <$> seqZ 0 n)); [|by rewrite fmap_add_seqZ, Z.add_0_r].
  rewrite <- list_fmap_compose.
  apply list_fmap_ext. intros i q _. unfold compose, mint_from, mint_at, get_nth_pending_mint_offset,
    PM_DA_PENDING_MINTS_BUFFER_STATE_HEADER_SIZE, PM_DA_PENDING_MINT_SIZE. do 4 f_equal. lia.
Qed.

(** What the check before the payment of a group returns and records. *)
Lemma precheck_records (s s' : PsyBridgeProgramState) g account b n off :
  bridge_inv s -> 0 <= g -> run_auto_mint_group_precheck s g account = (Ok (b, n, off), s') ->
  let t := current_pending_mints_tracker (pending_mint_txos s) in
  0 < total_pending_mints t < 2 ^ 16 /\ 24 * g < total_pending_mints t /\ n = Z.min 24 (total_pending_mints t - 24 * g) /\
  off = get_nth_pending_mint_offset (groups t) (group_first g) /\ group_first g = 24 * g /\
  b = (pending_mints_groups_remaining t =? 1) /\
  exists m', group_claimed g (pending_mint_txos s) m' /\ s' = with_pending_mint_txos m' s.
Proof.
  intros (Hm & _) Hg Hr t. destruct (precheck_result _ _ _ _ _ _ _ Hr) as [Hn Ho]. fold t in Hn, Ho.
  assert (b = (pending_mints_groups_remaining t =? 1) /\ 0 < total_pending_mints t < 2 ^ 16 /\ g < groups t /\ g < 256 /\
    exists m', group_claimed g (pending_mint_txos s) m' /\ s' = with_pending_mint_txos m' s)
    as (Hb & Ht & Hlt & H256 & Hrec).
  { unfold run_auto_mint_group_precheck in Hr. fold t in Hr. cbv zeta in Hr. peel Hr as E0. peel Hr as E1.
    peel Hr as E2. peel Hr as E3. destruct x. peel Hr as E4. peel Hr as E5. injection Hr as <- _ _ <-.
    apply claim_recorded in E5 as (? & ? & ? & ? & ?); [by eauto 10|done..]. }
  destruct (mints_count_group_size t _ g eq_refl Ht (conj Hg Hlt)) as (Hc & ? & ?).
  pose proof (groups_eq t ltac:(lia)) as HG. rewrite Hc in Hn. unfold group_size in *.
  assert (24 * g < total_pending_mints t) by (Z.to_euclidean_division_equations; lia).
  split; [done|]. split; [done|]. split; [destruct (Z.eqb_spec g (groups t - 1)); Z.to_euclidean_division_equations; lia|].
  split; [exact Ho|]. split; [unfold group_first; rewrite wrap_id; [lia|unfold in_width; lia]|]. by split.
Qed.

(** [C8] A mint group is paid exactly, and recorded as paid.  Let the instruction for
    group [g] succeed on a state whose mint queue is consistent, as it is after any
    history of the bridge.  The group was unclaimed, and of the block's mints it has the
    24 from number [24 g] on, or what is left of them, at least one.  The calls of the
    token program that the instruction makes are one per mint of the group in the active
    buffer, in order, each to the recipient and with the amount stored there, of the
    bridge's own mint; the accounts passed for them are exactly these recipients.  In the
    new state the group is claimed, one group less remains, and nothing else has changed,
    except that the last group of a block moves the queue on to the next.  The buffer is
    unlocked exactly with the last group. *)
Theorem mint_group_pays_exactly accounts g unlock bridge bs w w' :
  accounts !! 0%nat = Some bridge -> load_bridge_state w (key bridge) = Ok bs ->
  bridge_inv (core_state bs) -> 0 <= g -> process_process_mint_group pid accounts g unlock w = Ok w' ->
  let t := current_pending_mints_tracker (pending_mint_txos (core_state bs)) in
  let total := total_pending_mints t in
  exists buffer mint program token m' w2,
    accounts !! 1%nat = Some buffer /\ accounts !! 3%nat = Some mint /\
    accounts !! 5%nat = Some program /\ accounts !! 6%nat = Some token /\
    key buffer = active_buffer bs /\ key mint = doge_mint bs /\
    24 * g < total /\
    let bs' := {| core_state := with_pending_mint_txos m' (core_state bs); doge_mint := doge_mint bs |} in
    let w1 := store_bridge_state w (key bridge) bs' in
    let mints := mint_at (data_at w1 (key buffer)) ((total + 23) / 24) <$> seqZ (24 * g) (Z.min 24 (total - 24 * g)) in
    let minter := {| minter_mint := mint; minter_authority_info := bridge;
                     minter_authority_seeds := bridge_seeds pid;
                     minter_recipient_map := drop 7 accounts; minter_token_program := token |} in
    group_claimed g (pending_mint_txos (core_state bs)) m' /\
    key <$> drop 7 accounts = recipient <$> mints /\
    mint_calls minter (zip (drop 7 accounts) (amount <$> mints)) w1 = Ok w2 /\
    unlock = (pending_mints_groups_remaining t =? 1) /\
    (if unlock then doge_err (unlock_buffer (mint_buffer_locker pid buffer program bridge) w2) else Ok w2) = Ok w'.
Proof.
  intros A0 B1 Hinv Hg Hr t total. unfold process_process_mint_group in Hr. peel Hr as A.
  apply nth_account_Ok in A. rewrite A0 in A. injection A as <-. peel Hr as A1. rename x into a1. peel Hr as A2. peel Hr as A3. rename x0 into a3.
  peel Hr as A4. peel Hr as A5. rename x1 into a5. peel Hr as A6. rename x1 into a6. peel Hr as B0.
  rewrite B1 in Hr. cbn [res_bind] in Hr.
  peel Hr as B2. peel Hr as B3. peel Hr as B4. peel Hr as B5. apply on_core_Ok in B5 as [B5 Hd].
  destruct x1 as [[[can n] off] bs']. cbn [fst snd] in *. peel Hr as B6. cbv zeta in Hr. peel Hr as B7. peel Hr as B8.
  apply negb_false_iff, Z.eqb_eq in B7. apply key_eqb_true in B2, B3.
  assert (can = unlock) as ->.
  { unfold check_unlock in B6. destruct (eqb can unlock) eqn:E; [by apply eqb_prop in E|]. by destruct unlock. }
  destruct (precheck_records _ _ _ _ _ _ _ Hinv Hg B5) as (Ht & Hlt & -> & -> & Hf & Hu & m' & Hcl & Hs). fold t in Ht, Hlt, Hu, B7, B8.
  fold total in Ht, Hlt, B7, B8.
  assert (bs' = {| core_state := with_pending_mint_txos m' (core_state bs); doge_mint := doge_mint bs |}) as ->
    by (destruct bs'; cbn in *; congruence).
  apply mint_group_loop_Ok in B8 as [Hkeys Hcalls]; [|lia]. cbn [minter_recipient_map] in *.
  rewrite Z2Nat.id, group_mints, drop_0, take_ge, Hf in * by (rewrite ?B7; unfold len; lia).
  assert (groups t = (total + 23) / 24) as HG by (apply groups_eq; unfold total in Ht; lia).
  eexists a1, a3, a5, a6, m', _. do 4 (split; [by apply nth_account_Ok|]). split; [done|]. split; [done|]. split; [done|].
  cbv zeta. rewrite <- HG. split; [done|]. split; [exact Hkeys|]. split; [exact Hcalls|]. by split.
Qed.
End payments.

(** ** Messages *)

Section messages.
Context `{Sha256} `{ZkVerifier} `{Runtime} `{ProgramIds} `{Features}.
Context (pid : Pubkey).
Implicit Types (w : World) (accounts : list AccountInfo).

(** The call of the message program for [tx]. *)
Definition send_message (wh : WormholeAccounts) (nonce : Z) (sighash tx : bytes) w : res ProgramError World :=
  invoke_signed w (vaa_instruction nonce wh sighash tx)
    [wh_bridge_config wh; wh_message wh; wh_emitter wh; wh_sequence wh; wh_payer wh; wh_fee_collector wh;
     wh_clock wh; wh_system_program wh; wh_core_bridge_program wh; wh_event_authority wh] [bridge_seeds pid].

(** The messages that a build sends: one per feature of the two that call the message
    program; none in the default build. *)
Definition send_messages (wh : WormholeAccounts) (nonce : Z) (sighash tx : bytes) w : res ProgramError World :=
  try w1 <- (if wormhole then send_message wh nonce sighash tx w else Ok w);
  (if noopshim then send_message wh nonce sighash tx w1 else Ok w1).

Lemma vaa_messages nonce wh held sighash tx w w' :
  send_wormhole_vaa nonce wh held (bridge_seeds pid) sighash tx w = Ok w' ->
  send_messages wh nonce sighash tx w = Ok w'.
Proof.
  unfold send_wormhole_vaa, send_messages. cbv zeta. intros Hr. peel Hr as E.
  assert ((if wormhole then send_message wh nonce sighash tx w else Ok w) = Ok x) as ->
    by (destruct wormhole; [by apply invoke_holding_Ok in E|done]).
  cbn [res_bind]. destruct noopshim; [by apply invoke_holding_Ok in Hr|done].
Qed.

(** [C11] A withdrawal is announced with its transaction.  When a withdrawal instruction
    succeeds, the transaction that it processes is the content of the buffer account
    behind its 32-byte header; the state records the SHA-256 of these bytes as sent, and
    the only calls made are the messages of the build, for every choice of features: one
    with the Wormhole feature, one with that of the shim, none with neither.  Each is a
    message of the bridge account that consists of this hash and these bytes.  The shim
    that stands in for Wormhole in tests accepts that message from the bridge program. *)
Theorem withdrawal_announces_transaction accounts proof ro root next w w' :
  process_process_withdrawal pid accounts proof ro root next w = Ok w' ->
  exists bridge buffer wh bs bs' tx,
    accounts !! 0%nat = Some bridge /\ accounts !! 1%nat = Some buffer /\ key bridge = bridge_pda pid /\
    owner_at w (key buffer) = GENERIC_BUFFER_BUILDER_PROGRAM_ID /\
    tx = drop 32 (data_at w (key buffer)) /\ sha256 tx = ro_sighash ro /\
    load_bridge_state w (key bridge) = Ok bs /\
    run_process_bridge_withdrawal (core_state bs) proof WITHDRAWAL_VK tx ro root next
      = (Ok (sha256 tx), core_state bs') /\
    send_messages wh (withdrawal_nonce bs') (sha256 tx) tx (store_bridge_state w (key bridge) bs') = Ok w' /\
    (pid = DOGE_BRIDGE_PROGRAM_ID -> forall shim w0,
       NoopShim.process_instruction shim
         (BufferClient.account_info <$> instruction_metas (vaa_instruction (withdrawal_nonce bs') wh (sha256 tx) tx))
         [] w0 = Ok w0).
Proof.
  intros Hr. unfold process_process_withdrawal in Hr. peel Hr as A0. destruct x as [[a0 a1] wh].
  peel Hr as B0. peel Hr as B1. peel Hr as B2. peel Hr as B3. rename x into bs. cbv zeta in Hr.
  peel Hr as B4. peel Hr as B5. peel Hr as B6. rename x into tx. peel Hr as B7.
  apply on_core_Ok in B7 as [B7 _]. destruct x as [sighash bs']. cbn [fst snd] in *.
  assert (sighash = sha256 tx /\ sha256 tx = ro_sighash ro) as [-> Hsig].
  { unfold run_process_bridge_withdrawal in B7. peel B7 as F0. peel B7 as F1. peel B7 as F2.
    injection B7 as <- _. by apply negb_false_iff, bool_decide_eq_true in F0. }
  assert (wh_emitter wh = a0) as Hem
    by (unfold withdrawal_accounts in A0; peel_all A0; by injection A0 as <- <- <-).
  apply withdrawal_accounts_Ok in A0 as [A0 A1]. apply key_eqb_true in B0, B1.
  exists a0, a1, wh, bs, bs', tx. split; [by apply nth_account_Ok|]. split; [by apply nth_account_Ok|].
  split; [done|]. split; [done|]. split.
  { apply slice_Some in B6 as (_ & _ & ->). rewrite firstn_all2; [done|]. rewrite length_drop. unfold len. lia. }
  split; [done|]. split; [done|]. split; [done|]. split.
  { by apply vaa_messages in Hr. }
  intros Hpid shim w0. unfold NoopShim.process_instruction. cbn. rewrite Hem, B0. unfold bridge_pda. rewrite Hpid.
  destruct (find_program_address _ DOGE_BRIDGE_PROGRAM_ID). by rewrite bool_decide_true.
Qed.

(** The shim is silent about everything but the sender. *)
Lemma shim_accepts_only_bridge shim accounts input w w' :
  NoopShim.process_instruction shim accounts input w = Ok w' ->
  w' = w /\ signed_by accounts 2 (bridge_pda DOGE_BRIDGE_PROGRAM_ID).
Proof.
  unfold NoopShim.process_instruction. intros Hr. peel Hr as E0. peel Hr as E1. peel Hr as E2. peel Hr as E3.
  peel Hr as E4. peel Hr as E5. peel Hr as E6. destruct (find_program_address _ _) as [pda b] eqn:Ef.
  peel Hr as E7. injection Hr as <-. split; [done|]. eapply signed_Ok; [done|done|].
  apply negb_false_iff, bool_decide_eq_true in E7. unfold bridge_pda. by rewrite Ef.
Qed.
End messages.

(** ** Missing guards *)

Section guards.
Context `{Sha256} `{ZkVerifier} `{Runtime} `{ProgramIds} `{Features}.
Context (pid : Pubkey).
Implicit Types (w : World) (accounts : list AccountInfo).

(** The state after a second initialisation. *)
Definition reinitialized (bs : BridgeState) (ix : InitializeBridgeInstructionData) : BridgeState :=
  {| core_state := initialize (core_state bs) ix; doge_mint := init_doge_mint ix |}.

Lemma reinitialize_succeeds (ix : InitializeBridgeInstructionData) prefix b6 b7 bridge payer system w bs :
  length prefix = 5%nat -> pod_wf ix -> key bridge = bridge_pda pid ->
  load_bridge_state w (bridge_pda pid) = Ok bs ->
  process_instruction pid [bridge; payer; system] (0 :: prefix ++ b6 :: b7 :: bytes_of ix) w
  = Ok (store_bridge_state w (bridge_pda pid) (reinitialized bs ix)).
Proof.
  intros Hl Hix Hk Hload. rewrite process_aligned by done. cbn [dispatch]. unfold parse.
  rewrite (cast_bytes_of ix Hix). cbn [ok_or res_bind]. unfold process_initialize.
  cbn [nth_account ok_or lookup list_lookup res_bind]. rewrite Hk. unfold bridge_pda in *.
  destruct (find_program_address _ pid) as [pda bump]. cbn [fst] in *.
  unfold key_eqb. rewrite bool_decide_true by done. cbn [negb].
  rewrite (proj2 (Z.eqb_neq _ _)); [by cbn [res_bind]; rewrite Hload|].
  unfold load_bridge_state in Hload. apply ok_or_Ok, cast_Some in Hload as [Hsz _]. unfold len. rewrite Hsz. done.
Qed.

Lemma withdraw_fees_call (bs : BridgeState) bridge dest mint operator token prefix b6 b7 data w w' :
  length prefix = 5%nat -> pod_wf bs -> data_at w (key bridge) = bytes_of bs ->
  key mint = doge_mint bs -> is_signer operator = true ->
  key operator = operator_pubkey (access_control (core_state bs)) ->
  total_fees_withdrawn_sats (core_state bs) = 0 -> 0 < get_total_finalized_fees (core_state bs) < 2 ^ 64 ->
  let bs' := {| core_state := with_total_fees_withdrawn_sats (get_total_finalized_fees (core_state bs)) (core_state bs);
                doge_mint := doge_mint bs |} in
  invoke_signed (store_bridge_state w (key bridge) bs')
    (TokenMintTo (doge_mint bs) (key dest) (key bridge) (get_total_finalized_fees (core_state bs)))
    [mint; dest; bridge; token] [bridge_seeds pid] = Ok w' ->
  process_instruction pid [bridge; dest; mint; operator; token] (4 :: prefix ++ b6 :: b7 :: data) w = Ok w'.
Proof.
  intros Hl Hwf Hd Hm Hs Ho Hz Hf bs' Hi. rewrite process_aligned by done. cbn [dispatch].
  unfold process_operator_withdraw_fees. cbn [nth_account ok_or lookup list_lookup res_bind]. rewrite Hs. cbn [negb].
  unfold load_bridge_state. rewrite Hd, (cast_bytes_of bs Hwf). cbn [ok_or res_bind].
  unfold key_eqb. rewrite !bool_decide_true by done. cbn [negb].
  unfold run_bridge_operator_withdraw_fees_precheck. rewrite Hz, Z.sub_0_r, Z.add_0_l, !wrap_id by (rewrite ?wrap_id; unfold in_width; lia).
  rewrite (proj2 (Z.leb_gt _ _)), (proj2 (Z.eqb_neq _ _)) by lia. cbn [on_core res_bind].
  unfold mint_to. cbn [minter_recipient_map minter_mint minter_authority_info minter_token_program minter_authority_seeds len length].
  change (len [dest] <=? 0) with false. change (index [dest] 0) with (Some dest). cbn [or_panic res_bind].
  unfold key_eqb. rewrite bool_decide_true by done. cbn [negb].
  rewrite Hm, invoke_holding_nothing. fold bs'. by rewrite Hi.
Qed.

(** [C12] The initialisation has no guard.  Whoever sends the initialise instruction for a
    bridge that is already in use, with accounts of which none need have signed, resets
    its whole state to parameters of their choice.  By naming themselves as the operator
    and any amount as the fees collected so far, they then withdraw that amount of the
    bridge's own token: the second instruction succeeds whenever the token program
    executes the mint call, which carries the bridge's authority. *)
Theorem reinitialize_mints_at_will w (bs : BridgeState) (ix : InitializeBridgeInstructionData)
    bridge payer system dest mint attacker token w' :
  load_bridge_state w (bridge_pda pid) = Ok bs -> key bridge = bridge_pda pid ->
  pod_wf ix -> init_doge_mint ix = doge_mint bs -> init_operator_pubkey ix = key attacker ->
  is_signer attacker = true -> key mint = doge_mint bs ->
  let amount := total_finalized_fees_collected_chain_history (init_bridge_header ix) in
  0 < amount ->
  let w1 := store_bridge_state w (bridge_pda pid) (reinitialized bs ix) in
  let w2 := store_bridge_state w1 (bridge_pda pid)
              {| core_state := with_total_fees_withdrawn_sats amount (core_state (reinitialized bs ix));
                 doge_mint := doge_mint bs |} in
  process_instruction pid [bridge; payer; system] (0 :: zeros 7 ++ bytes_of ix) w = Ok w1 /\
  (invoke_signed w2 (TokenMintTo (doge_mint bs) (key dest) (bridge_pda pid) amount)
     [mint; dest; bridge; token] [bridge_seeds pid] = Ok w' ->
   process_instruction pid [bridge; dest; mint; attacker; token] (4 :: zeros 7) w1 = Ok w').
Proof.
  intros Hload Hk Hix Hmint Hop Hs Hm amount Hpos w1 w2.
  destruct (header_typed _ (proj1 (proj2 (proj2 (proj2 Hix))))) as (_ & _ & Ht). fold amount in Ht.
  assert (get_total_finalized_fees (core_state (reinitialized bs ix)) = amount) as Hfees.
  { change (u64 (u64 (0 + 0) + amount) = amount). by apply wrap_id. }
  split; [by apply (reinitialize_succeeds ix (zeros 5) 0 0)|]. intros Hi.
  apply (withdraw_fees_call (reinitialized bs ix) bridge dest mint attacker token (zeros 5) 0 0 []);
    [done| | | |exact Hs|by symmetry|done| |].
  - apply (bridge_state_typed (reinitialized bs ix)); [exact (initialize_typed _ _ Hix)|by destruct Hix as (_ & _ & ? & _)].
  - rewrite Hk. unfold w1, store_bridge_state. apply data_at_set_data.
  - by rewrite Hm, <- Hmint.
  - rewrite Hfees. split; [exact Hpos|apply Ht].
  - rewrite Hfees, Hk. change (doge_mint (reinitialized bs ix)) with (init_doge_mint ix). by rewrite Hmint.
Qed.
End guards.
