(* ===== verification/TokenSupply.v ===== *)
(** * TokenSupply: the token against the books of the bridge

    The supply of the bridged token over histories of calls.  The token program is an
    interface, [TokenBooks] with [TokenLaws]: minting needs the authority of the token and
    adds to its supply, burning takes from it, and nothing else that the bridge does
    touches it.  The result is that tokens in circulation, withdrawals requested and fees
    not yet paid are together covered by what was deposited; and what this rests on, in
    two lemmas about what the bridge does not check. *)
From S2P Require Import Prelude Errors Pod Hash Sha256 AppendTree TxoIndex Fees Types PublicInputs Runtime MintBuffer BufferClient MintGroup ProgramState StateProofs BlockUpdate Payout BridgeInstructions DogeBridge Ledger StateTypes DogeBridgeProofs BridgeHistory BridgeSafety.
From Stdlib Require Import ZArith Lia.
From stdpp Require Import base decidable list numbers option countable gmap.
Import DogeBridge.

Open Scope Z_scope.
Open Scope bridge_scope.

(** ** The token program *)

(** The supply of the token, and who may mint it. *)
Class TokenBooks := {
  supply : World -> Z;
  mint_authority : World -> option Pubkey
}.

Definition same_books `{TokenBooks} (w w' : World) : Prop :=
  supply w' = supply w /\ mint_authority w' = mint_authority w.

(** Documented behaviour of the token program, and of the runtime for accounts that
    belong to other programs. *)
Class TokenLaws `{Runtime} `{ProgramIds} `{TokenBooks} (pid token : Pubkey) : Prop := {
  token_minted w mint account authority amount infos seeds w' :
    invoke_signed w (TokenMintTo mint account authority amount) infos seeds = Ok w' ->
    if decide (mint = token)
    then mint_authority w = Some authority /\ supply w' = supply w + amount /\ mint_authority w' = mint_authority w
    else same_books w w';
  token_burned w account mint authority amount infos seeds w' :
    invoke_signed w (TokenBurn account mint authority amount) infos seeds = Ok w' ->
    if decide (mint = token) then supply w' = supply w - amount /\ mint_authority w' = mint_authority w
    else same_books w w';
  token_buffer w metas input infos seeds w' :
    invoke_signed w (RawInstruction PENDING_MINT_BUFFER_BUILDER_PROGRAM_ID metas input) infos seeds = Ok w' ->
    same_books w w';
  token_own w k d : owner_at w k = pid -> same_books w (set_data w k d)
}.

Section supply.
Context `{Sha256Laws} `{ZkVerifier} `{Runtime} `{ProgramIds} `{Features} `{TokenBooks} `{!BufferCpi}.
Context (pid token : Pubkey) `{!CpiLaws pid} `{!TokenLaws pid token}.
Context (Hbuffer : PENDING_MINT_BUFFER_BUILDER_PROGRAM_ID <> pid).
Implicit Types (w : World) (accounts : list AccountInfo) (bs : BridgeState).

Abbreviation P := (bridge_pda pid).

(** The bridge keeps the authority, and the supply grows by at most [n]. *)
Definition grows (n : Z) w w' : Prop := supply w' <= supply w + n /\ (mint_authority w = Some P -> mint_authority w' = Some P).

Lemma grows_refl w : grows 0 w w.
Proof. split; [lia|done]. Qed.

Lemma grows_trans n1 n2 w1 w2 w3 : grows n1 w1 w2 -> grows n2 w2 w3 -> grows (n1 + n2) w1 w3.
Proof. intros [E1 A1] [E2 A2]. split; [lia|auto]. Qed.

Lemma grows_le n n' w w' : grows n w w' -> n <= n' -> grows n' w w'.
Proof. intros [E A] Hn. split; [lia|done]. Qed.

Lemma same_books_grows w w' : same_books w w' -> grows 0 w w'.
Proof. intros [E A]. split; [lia|congruence]. Qed.

(** What the bridge itself mints: only its own account is the authority. *)
Definition credit (authority : Pubkey) (n : Z) : Z := if bool_decide (authority = P) then n else 0.

Lemma invoke_mint_grows w mint account authority amount infos seeds w' :
  mint_authority w = Some P -> (authority = P -> mint = token \/ 0 <= amount) ->
  invoke_signed w (TokenMintTo mint account authority amount) infos seeds = Ok w' ->
  grows (credit authority amount) w w'.
Proof.
  intros Ha Hn Hr. apply token_minted in Hr. unfold credit. destruct (decide (mint = token)).
  - destruct Hr as (Hauth & Hs & Hm). rewrite bool_decide_true by congruence. split; [lia|congruence].
  - eapply grows_le; [by apply same_books_grows|]. destruct (bool_decide_reflect (authority = P)) as [E|]; [|done].
    by destruct (Hn E).
Qed.

Lemma mint_to_grows minter held p account amount w w' :
  mint_authority w = Some P ->
  (key (minter_authority_info minter) = P -> key (minter_mint minter) = token \/ 0 <= amount) ->
  mint_to minter held p account amount w = Ok w' ->
  grows (credit (key (minter_authority_info minter)) amount) w w'.
Proof.
  intros Ha Hn Hr. apply mint_to_Ok in Hr as (info & _ & _ & Hc). cbn [mint_calls] in Hc. peel Hc as E. injection Hc as <-.
  by eapply invoke_mint_grows.
Qed.

(** ** What the steps of a handler do to the books *)

Fixpoint total (mints : list PendingMint) : Z :=
  match mints with [] => 0 | m :: mints => amount m + total mints end.

(** The [n] mints of a buffer from [offset] on. *)
Definition mints_from (buf : bytes) (offset n : Z) : list PendingMint :=
  (fun q => mint_from buf (offset + q * 40)) <$> seqZ 0 n.

Lemma mint_amount_nonneg d : length d = 40%nat -> Forall is_byte d -> 0 <= amount (from_bytes d : PendingMint).
Proof. intros Hl Hd. assert (pod_wf (from_bytes d : PendingMint)) as [_ [Ha _]] by (by apply from_bytes_wf). exact Ha. Qed.

Lemma mint_group_loop_grows minter held buf start p todo w w' :
  (key (minter_authority_info minter) = P -> key (minter_mint minter) = token \/ Forall is_byte buf) ->
  mint_authority w = Some P -> mint_group_loop minter held buf start p todo w = Ok w' ->
  grows (credit (key (minter_authority_info minter))
           (total ((fun q => mint_from buf (start + q * 40)) <$> seqZ p (Z.of_nat todo)))) w w'.
Proof.
  intros Hb. revert p w. induction todo as [|todo IH]; intros p w Ha Hr; cbn [mint_group_loop] in Hr.
  { injection Hr as <-. eapply grows_le; [apply grows_refl|]. unfold credit. by destruct (bool_decide _). }
  cbv zeta in Hr. unfold PM_DA_PENDING_MINT_SIZE in Hr. peel Hr as E0. peel Hr as E1. peel Hr as E2.
  apply slice_Some in E0 as (? & _ & ->). apply cast_Some in E1 as [Hl ->].
  assert (key (minter_authority_info minter) = P -> key (minter_mint minter) = token \/
    0 <= amount (from_bytes (take (Z.to_nat (start + p * 40 + 40 - (start + p * 40))) (drop (Z.to_nat (start + p * 40)) buf)))) as Hn.
  { intros E. destruct (Hb E) as [?|Hbuf]; [by left|right]. by apply mint_amount_nonneg, Forall_take, Forall_drop. }
  replace (Z.to_nat (start + p * 40 + 40 - (start + p * 40))) with 40%nat in * by lia.
  fold (mint_from buf (start + p * 40)) in *.
  apply map_err_Ok in E2. apply (mint_to_grows _ _ _ _ _ _ _ Ha Hn) in E2.
  pose proof (proj2 E2 Ha) as Ha1. apply (IH (p + 1) _ Ha1) in Hr. rewrite (seqZ_cons p) by lia.
  replace (Z.pred (Z.of_nat (S todo))) with (Z.of_nat todo) by lia. replace (Z.succ p) with (p + 1) by lia.
  eapply grows_le; [eapply grows_trans; [exact E2|exact Hr]|].
  unfold credit. cbn [fmap list_fmap total]. destruct (bool_decide _); lia.
Qed.

Lemma store_grows w k bs : owner_at w k = pid -> grows 0 w (store_bridge_state w k bs).
Proof. intros Ho. apply same_books_grows. by apply token_own. Qed.

Lemma lock_grows acc prog auth w w' :
  lock_buffer (mint_buffer_locker pid acc prog auth) w = Ok w' -> grows 0 w w'.
Proof. intros Hr%map_err_Ok. apply same_books_grows. by eapply token_buffer. Qed.

Lemma unlock_grows acc prog auth w w' :
  unlock_buffer (mint_buffer_locker pid acc prog auth) w = Ok w' -> grows 0 w w'.
Proof. intros Hr%map_err_Ok. apply same_books_grows. by eapply token_buffer. Qed.

(** A program that leaves the books alone, whoever calls it. *)
Definition keeps_books (p : Pubkey) : Prop :=
  forall w metas input infos seeds w', invoke_signed w (RawInstruction p metas input) infos seeds = Ok w' -> same_books w w'.

Lemma send_vaa_grows nonce a held seeds sighash tx w w' :
  keeps_books (key (wh_shim_program a)) ->
  send_wormhole_vaa nonce a held seeds sighash tx w = Ok w' -> grows 0 w w'.
Proof.
  intros Hk. unfold send_wormhole_vaa. cbv zeta. intros Hr. peel Hr as E. rename x into w1.
  eapply (grows_trans 0 0 w w1); [|].
  - destruct wormhole; [|injection E as <-; apply grows_refl]. apply invoke_holding_Ok in E.
    apply same_books_grows. by eapply Hk.
  - destruct noopshim; [|injection Hr as <-; apply grows_refl]. apply invoke_holding_Ok in Hr.
    apply same_books_grows. by eapply Hk.
Qed.

Lemma finish_grows (unlock : bool) acc prog auth w w' :
  (if unlock then doge_err (unlock_buffer (mint_buffer_locker pid acc prog auth) w) else Ok w) = Ok w' -> grows 0 w w'.
Proof. destruct unlock; [by intros Hr%map_err_Ok%unlock_grows|]. intros [= <-]. apply grows_refl. Qed.

(** ** The handlers *)

(** The mints of group [g] as the state finds them in the buffer. *)
Definition group_mints_of (bs : BridgeState) (g : Z) (bridge buffer : Pubkey) w : list PendingMint :=
  match on_core bs (run_auto_mint_group_precheck (core_state bs) g buffer) with
  | Ok ((_, n, offset), bs') => mints_from (data_at (store_bridge_state w bridge bs') buffer) offset n
  | _ => []
  end.

(** With an empty tracker and a backlog, the next block is set up first. *)
Definition next_block (bs : BridgeState) (bridge buffer txos : Pubkey) w : BridgeState :=
  if advance_with_jit bs then
    match on_core bs (run_setup_next_pending_buffer (core_state bs) bridge buffer (data_at w txos) (data_at w buffer)) with
    | Ok r => r.2
    | _ => bs
    end
  else bs.

(** What the bridge pays out of the buffer in a call: nothing unless a group is paid. *)
Definition group_paid accounts (input : bytes) w : Z :=
  let data := drop 8 input in
  match input, accounts, load_bridge_state w P with
  | 7 :: _, a0 :: a1 :: _, Ok bs =>
      if decide (key a0 = P) then
        match parse_mint_group data with
        | Ok (g, _) => total (group_mints_of bs g P (key a1) w)
        | _ => 0
        end
      else 0
  | 9 :: _, a0 :: a1 :: a2 :: _, Ok bs =>
      if decide (key a0 = P) then
        match parse_mint_group data with
        | Ok (g, _) => total (group_mints_of (next_block bs P (key a1) (key a2) w) g P (key a1) w)
        | _ => 0
        end
      else 0
  | _, _, _ => 0
  end.

Lemma block_grows accounts proof h extra b6 b7 is_reorg a0 w w' :
  nth_account accounts 0 = Ok a0 -> owner_at w (key a0) = pid ->
  run_block_update_common pid accounts proof h extra b6 b7 is_reorg w = Ok w' -> grows 0 w w'.
Proof.
  intros A Ho Hr. unfold run_block_update_common in Hr. rewrite A in Hr. cbn [res_bind] in Hr.
  peel Hr as A1. peel Hr as A2. peel Hr as A3. peel Hr as A4. peel Hr as A5. peel Hr as A6. peel Hr as B0.
  peel Hr as B1. peel Hr as B2. peel Hr as B3. peel Hr as B4. cbv zeta in Hr. peel Hr as B5. peel Hr as C0.
  match type of C0 with _ = Ok ?x => rename x into w1 end. pose proof (proj1 (lock_buffer_own pid Hbuffer _ _ _ _ _ (map_err_Ok _ _ _ C0)) _ Ho) as [Ho1 _].
  apply map_err_Ok, lock_grows in C0. peel Hr as C1. peel Hr as C2. peel Hr as C3. peel Hr as C4. peel Hr as C5.
  eapply (grows_trans 0 0 w w1); [exact C0|]. eapply (grows_trans 0 0); [by apply (store_grows w1 (key a0))|].
  branch Hr as Eu; [by apply map_err_Ok, unlock_grows in Hr|]. injection Hr as <-. apply grows_refl.
Qed.

Lemma group_grows accounts g unlock a0 w w' :
  nth_account accounts 0 = Ok a0 -> owner_at w (key a0) = pid -> mint_authority w = Some P ->
  (key a0 = P -> forall bs, load_bridge_state w P = Ok bs -> doge_mint bs = token) ->
  process_process_mint_group pid accounts g unlock w = Ok w' ->
  exists a1 bs, accounts !! 1%nat = Some a1 /\ load_bridge_state w (key a0) = Ok bs /\
    grows (credit (key a0) (total (group_mints_of bs g (key a0) (key a1) w))) w w'.
Proof.
  intros A Ho Ha Hm Hr. unfold process_process_mint_group in Hr. rewrite A in Hr. cbn [res_bind] in Hr.
  peel Hr as A1. rename x into a1. peel Hr as A2. peel Hr as A3. rename x0 into a3. peel Hr as A4.
  peel Hr as A5. peel Hr as A6. peel Hr as B0. peel Hr as B1. rename x3 into bs. peel Hr as B2. peel Hr as B3.
  peel Hr as B4. peel Hr as B5. destruct x3 as [[[can n] off] bs'] eqn:Ex. peel Hr as B6. cbv zeta in Hr.
  peel Hr as B7. peel Hr as B8. exists a1, bs. split; [by apply nth_account_Ok|]. split; [done|].
  pose proof (store_grows w (key a0) bs' Ho) as Hs. pose proof (proj2 Hs Ha) as Ha1.
  assert (key a0 = P -> key a3 = token) as Hmint.
  { intros E. apply key_eqb_true in B3. rewrite B3. apply (Hm E). by rewrite <- E. }
  apply mint_group_loop_grows in B8; [|by left; apply Hmint|exact Ha1]. cbn [minter_authority_info] in B8.
  unfold group_mints_of. rewrite B5. unfold mints_from.
  apply negb_false_iff, Z.eqb_eq in B7. rewrite Z2Nat.id in B8 by (rewrite B7; unfold len; lia).
  eapply grows_le; [eapply grows_trans; [exact Hs|]; eapply grows_trans; [exact B8|by eapply finish_grows]|lia].
Qed.

(** Locking keeps what the mints are read from. *)
Lemma mints_from_body buf buf' G g n :
  drop 72 buf' = drop 72 buf -> 0 <= G ->
  mints_from buf' (get_nth_pending_mint_offset G (group_first g)) n
  = mints_from buf (get_nth_pending_mint_offset G (group_first g)) n.
Proof.
  intros Hd HG. unfold mints_from. rewrite !group_mints. apply list_fmap_ext. intros i x Hx.
  apply list_elem_of_lookup_2, elem_of_seqZ in Hx. unfold group_first in Hx.
  pose proof (wrap_in_width 16 (g * 24) ltac:(lia)) as Hw. unfold in_width in Hw. unfold mint_at. do 2 f_equal.
  replace (Z.to_nat (72 + G * 32 + x * 40)) with (72 + Z.to_nat (G * 32 + x * 40))%nat by lia.
  by rewrite <- !drop_drop, Hd.
Qed.

Lemma groups_nonneg t : 0 <= get_current_total_pending_mints_groups t.
Proof.
  unfold get_current_total_pending_mints_groups, PM_MAX_PENDING_MINTS_PER_GROUP.
  pose proof (wrap_in_width 16 (total_pending_mints t) ltac:(lia)) as Hw. unfold in_width in Hw.
  destruct (_ =? 0); Z.to_euclidean_division_equations; lia.
Qed.

Lemma load_wf w k (bs : BridgeState) : memory_typed w -> load_bridge_state w k = Ok bs -> pod_wf bs.
Proof. intros Hw Hl%ok_or_Ok%cast_Some. destruct Hl as [Hl ->]. by apply from_bytes_wf. Qed.

Lemma load_typed_core w k (bs : BridgeState) :
  memory_typed w -> load_bridge_state w k = Ok bs -> state_typed (core_state bs) /\ byte_array 32 (doge_mint bs).
Proof. intros Hw Hl%load_wf; [|done]. destruct Hl as [Hs Hm]. split; [by apply state_typed_pod|done]. Qed.

(** The lock call that may come first leaves the mints in place. *)
Lemma relock_grows (jit : bool) acc prog auth w w' :
  memory_typed w ->
  (if jit then doge_err (lock_buffer (mint_buffer_locker pid acc prog auth) w) else Ok w) = Ok w' ->
  grows 0 w w' /\ Forall is_byte (data_at w' (key acc)) /\
  drop 72 (data_at w' (key acc)) = drop 72 (data_at w (key acc)).
Proof.
  intros Hmem Hr. destruct jit; [|injection Hr as <-; split; [apply grows_refl|by split]].
  apply map_err_Ok in Hr. split; [by eapply lock_grows|].
  destruct (lock_call_effect _ _ _ _ _ _ (Hmem _) Hr) as (h & h' & _ & _ & _ & _ & Hbody & _ & Hb). by split.
Qed.

(** The state that the group is paid from is a state. *)
Lemma next_block_typed (bs : BridgeState) bridge buffer txos w :
  byte_array 32 buffer -> memory_typed w -> state_typed (core_state bs) ->
  state_typed (core_state (next_block bs bridge buffer txos w)) /\
  doge_mint (next_block bs bridge buffer txos w) = doge_mint bs.
Proof.
  intros Hk Hmem Hs. unfold next_block. destruct (advance_with_jit bs); [|done].
  destruct (on_core _ _) as [[[] bs1]| |] eqn:E; [|done..]. apply on_core_Ok in E as [E Hd]. split; [|done].
  apply (execute_typed granted_burn granted_mint (core_state bs) _
    (SetupNextPendingBuffer bridge buffer (data_at w txos) (data_at w buffer))); [done| |exact E].
  split; [done|split; apply Hmem].
Qed.

Lemma advance_grows accounts g b7 unlock a0 w w' :
  nth_account accounts 0 = Ok a0 -> owner_at w (key a0) = pid -> mint_authority w = Some P -> memory_typed w ->
  keys_typed accounts -> 0 <= g ->
  process_process_mint_group_auto_advance pid accounts g b7 unlock w = Ok w' ->
  exists a1 a2 bs, accounts !! 1%nat = Some a1 /\ accounts !! 2%nat = Some a2 /\ load_bridge_state w (key a0) = Ok bs /\
    grows (credit (key a0)
      (total (group_mints_of (next_block bs (key a0) (key a1) (key a2) w) g (key a0) (key a1) w))) w w'.
Proof.
  intros A Ho Ha Hmem Hk Hg Hr. unfold process_process_mint_group_auto_advance in Hr. rewrite A in Hr. cbn [res_bind] in Hr.
  peel Hr as A1. rename x into a1. peel Hr as A2. rename x into a2. peel Hr as A3. peel Hr as A4. rename x0 into a4.
  peel Hr as A5. peel Hr as A6. peel Hr as A7. peel Hr as A8. peel Hr as B0. cbv zeta in Hr. peel Hr as B1.
  rename x4 into bs. peel Hr as B2. rename x4 into bs1. peel Hr as B3. peel Hr as B4.
  destruct x4 as [[[can n] off] bs'] eqn:Ex. peel Hr as B5. cbv zeta in Hr. peel Hr as B6. peel Hr as B7.
  rename x6 into w2. peel Hr as B8. exists a1, a2, bs. do 2 (split; [by apply nth_account_Ok|]). split; [done|].
  destruct (load_typed_core _ _ _ Hmem B1) as [Hs Hd].
  assert (bs1 = next_block bs (key a0) (key a1) (key a2) w) as E1.
  { unfold next_block. destruct (advance_with_jit bs); [|by injection B2].
    peel B2 as E0. peel B2 as E1. peel B2 as E2. peel B2 as E3. peel B2 as E4. peel B2 as E5.
    change (get_mint_buffer_program_address _) with (key a1) in E5. rewrite E5. by injection B2. }
  destruct (next_block_typed bs (key a0) (key a1) (key a2) w (key_typed _ _ _ Hk A1) Hmem Hs) as [Hs1 Hd1]. rewrite <- E1 in *. clear E1.
  assert (pod_wf bs') as Hwf.
  { apply on_core_Ok in B4 as [B4 Hd2]. cbn [fst snd] in *. apply bridge_state_typed; [|by rewrite Hd2, Hd1].
    apply (execute_typed granted_burn granted_mint (core_state bs1) _ (AutoMintGroupPrecheck (key a1) g)); [done|exact Hg|].
    cbn [execute]. by rewrite B4. }
  pose proof (store_grows w (key a0) bs' Ho) as Hst. pose proof (memory_store w (key a0) bs' Hwf Hmem) as Hmem1.
  apply relock_grows in B7 as (Hl & Hb & Hbody); [|exact Hmem1].
  pose proof (proj2 Hl (proj2 Hst Ha)) as Ha2. apply mint_group_loop_grows in B8; [|by right|exact Ha2].
  cbn [minter_authority_info] in B8. apply negb_false_iff, Z.eqb_eq in B6.
  rewrite Z2Nat.id in B8 by (rewrite B6; unfold len; lia). unfold group_mints_of. rewrite B4.
  apply on_core_Ok in B4 as [B4 _]. destruct (precheck_result _ _ _ _ _ _ _ B4) as [_ Eoff]. rewrite Eoff in *.
  rewrite <- (mints_from_body _ _ _ _ _ Hbody (groups_nonneg _)).
  eapply grows_le; [eapply grows_trans; [exact Hst|]; eapply grows_trans; [exact Hl|];
    eapply grows_trans; [exact B8|]|].
  - destruct unlock; [peel Hr as Eu; by apply map_err_Ok, unlock_grows in Hr|injection Hr as <-; apply grows_refl].
  - unfold mints_from. lia.
Qed.

Lemma request_grows accounts (request : PsyWithdrawalRequest) a0 w w' :
  nth_account accounts 0 = Ok a0 -> owner_at w (key a0) = pid ->
  (key a0 = P -> key_of accounts 2 = Some token) -> 0 <= wr_amount_sats request ->
  process_request_withdrawal accounts request w = Ok w' ->
  grows (credit (key a0) (- wr_amount_sats request)) w w'.
Proof.
  intros A Ho Ht Hn Hr. unfold process_request_withdrawal in Hr. rewrite A in Hr. cbn [res_bind] in Hr.
  peel Hr as A1. peel Hr as A2. peel Hr as A3. peel Hr as A4. peel Hr as B0. rename x3 into bs. cbv zeta in Hr.
  peel Hr as B1. apply on_core_Ok in B1 as [B1 _]. injection Hr as <-. destruct x3 as [w1 bs']. cbn [fst snd] in *.
  apply request_in_Ok in B1 as [_ Hb]. pose proof (proj1 (burn_from_own pid _ _ _ _ _ Hb _ Ho)) as Ho1.
  unfold burn_from in Hb. apply map_err_Ok, invoke_holding_Ok, token_burned in Hb. cbn [burner_mint] in Hb.
  eapply grows_le; [eapply (grows_trans (if decide (key x0 = token) then - wr_amount_sats request else 0));
    [|by apply (store_grows w1 (key a0))]|].
  - destruct (decide _); [|by apply same_books_grows]. destruct Hb as [Es Em]. split; [lia|congruence].
  - unfold credit. destruct (bool_decide_reflect (key a0 = P)) as [E|_]; [|destruct (decide _); lia].
    specialize (Ht E). unfold key_of in Ht. apply nth_account_Ok in A2. rewrite A2 in Ht. injection Ht as ->.
    rewrite decide_True by done. lia.
Qed.

(** The program that withdrawals are announced to. *)
Lemma withdrawal_shim accounts a0 a1 wh :
  withdrawal_accounts accounts = Ok (a0, a1, wh) ->
  nth_account accounts 0 = Ok a0 /\ key_of accounts 2 = Some (key (wh_shim_program wh)).
Proof.
  unfold withdrawal_accounts. intros Hr. peel_all Hr. injection Hr as <- <- <-. cbn [wh_shim_program].
  split; [done|]. by eapply key_of_Ok.
Qed.

Lemma withdrawal_grows accounts proof ro root next a0 w w' :
  nth_account accounts 0 = Ok a0 -> owner_at w (key a0) = pid ->
  (forall p, key_of accounts 2 = Some p -> keeps_books p) ->
  process_process_withdrawal pid accounts proof ro root next w = Ok w' -> grows 0 w w'.
Proof.
  intros A Ho Hp Hr. unfold process_process_withdrawal in Hr. peel Hr as A0. destruct x as [[a0' a1] wh].
  apply withdrawal_shim in A0 as [A0 A2]. rewrite A in A0. injection A0 as <-.
  peel Hr as B0. peel Hr as B1. peel Hr as B2. peel Hr as B3.
  cbv zeta in Hr. peel Hr as B4. peel Hr as B5. peel Hr as B6. peel Hr as B7. destruct x1 as [sighash bs'].
  eapply (grows_trans 0 0); [by apply (store_grows w (key a0))|]. eapply send_vaa_grows; [by apply Hp|exact Hr].
Qed.

Lemma replay_grows accounts a0 w w' :
  nth_account accounts 0 = Ok a0 -> owner_at w (key a0) = pid ->
  (forall p, key_of accounts 2 = Some p -> keeps_books p) ->
  process_replay_withdrawal pid accounts w = Ok w' -> grows 0 w w'.
Proof.
  intros A Ho Hp Hr. unfold process_replay_withdrawal in Hr. peel Hr as A0. destruct x as [[a0' a1] wh].
  apply withdrawal_shim in A0 as [A0 A2]. rewrite A in A0. injection A0 as <-.
  peel Hr as B0. peel Hr as B1. peel Hr as B2. peel Hr as B3. cbv zeta in Hr. peel Hr as B4. peel Hr as B5.
  peel Hr as B6. peel Hr as B7. peel Hr as B8. peel Hr as B9. peel Hr as B10. destruct x3 as [[] bs']; [|discriminate Hr].
  eapply (grows_trans 0 0); [by apply (store_grows w (key a0))|]. eapply send_vaa_grows; [by apply Hp|exact Hr].
Qed.

Lemma snapshot_grows accounts a0 w w' :
  nth_account accounts 0 = Ok a0 -> owner_at w (key a0) = pid ->
  process_snapshot_withdrawals pid accounts w = Ok w' -> grows 0 w w'.
Proof.
  intros A Ho Hr. unfold process_snapshot_withdrawals in Hr. rewrite A in Hr. cbn [res_bind] in Hr.
  peel Hr as A1. peel Hr as A2. peel Hr as B0. peel Hr as B1. peel Hr as B2. peel Hr as B3. injection Hr as <-.
  by apply store_grows.
Qed.

(** What the operator takes, and what a depositor is credited. *)
Lemma fees_grows accounts a0 w w' :
  nth_account accounts 0 = Ok a0 -> owner_at w (key a0) = pid -> mint_authority w = Some P ->
  process_operator_withdraw_fees pid accounts w = Ok w' ->
  exists bs fees s', load_bridge_state w (key a0) = Ok bs /\
    run_bridge_operator_withdraw_fees_precheck (core_state bs) = (Ok fees, s') /\ grows (credit (key a0) fees) w w'.
Proof.
  intros A Ho Ha Hr. unfold process_operator_withdraw_fees in Hr. rewrite A in Hr. cbn [res_bind] in Hr. peel Hr as A1.
  peel Hr as A2. peel Hr as A3. peel Hr as A4. peel Hr as B0. cbv zeta in Hr. peel Hr as B1. rename x3 into bs.
  peel Hr as B2. peel Hr as B3. peel Hr as B4. apply on_core_Ok in B4 as [B4 _]. destruct x3 as [fees bs'].
  cbn [fst snd] in *. exists bs, fees, (core_state bs'). split; [done|]. split; [done|].
  pose proof (store_grows w (key a0) bs' Ho) as Hs. apply map_err_Ok in Hr.
  assert (0 <= fees) as Hn.
  { unfold run_bridge_operator_withdraw_fees_precheck in B4. peel B4 as F0. cbv zeta in B4. peel B4 as F1.
    injection B4 as <- _. apply (wrap_in_width 64). lia. }
  apply mint_to_grows in Hr; [|exact (proj2 Hs Ha)|by right]. exact (grows_trans 0 _ _ _ _ Hs Hr).
Qed.

Lemma deposit_net (s s' : PsyBridgeProgramState) tx br ar i d amount m :
  process_manual_claimed_deposit s tx br ar i d amount = (Ok m, s') ->
  m = amount - deposit_fee (config_params s) amount /\ 0 <= m.
Proof.
  unfold process_manual_claimed_deposit. intros Hr.
  destruct (get_txo_block_number_tx_number_output_index_from_combined_index i) as [[bh txn] oi].
  destruct (find_recent_auto_claim_txo_tree_root_and_block_merkle_root s ar) as [h root].
  peel Hr as E2. peel Hr as E3. cbv zeta in Hr. peel Hr as E4.
  destruct (calcuate_deposit_fee _ _ _ _) as [f| |] eqn:Ef; cbn [fee_or_zero] in Hr, E4; [|discriminate E4..].
  change calcuate_deposit_fee with calcuate_withdrawal_fee in Ef. apply withdrawal_fee_Ok in Ef as (Hf & Hn & Hpos).
  peel Hr as E5. injection Hr as <- _. split; [by rewrite Hn, Hf|done].
Qed.

Lemma deposit_grows accounts tx br ar i amount depositor a0 w w' :
  nth_account accounts 0 = Ok a0 -> owner_at w (key a0) = pid -> mint_authority w = Some P ->
  process_process_manual_deposit pid accounts tx br ar i amount depositor w = Ok w' ->
  exists bs, load_bridge_state w (key a0) = Ok bs /\
    grows (credit (key a0) (amount - deposit_fee (config_params (core_state bs)) amount)) w w'.
Proof.
  intros A Ho Ha Hr. unfold process_process_manual_deposit in Hr. rewrite A in Hr. cbn [res_bind] in Hr. peel Hr as A1.
  peel Hr as A2. peel Hr as A3. peel Hr as A4. peel Hr as B0. peel Hr as B1. peel Hr as B2. rename x4 into bs.
  peel Hr as B3. apply on_core_Ok in B3 as [B3 _]. destruct x4 as [minted bs']. cbn [fst snd] in *. cbv zeta in Hr.
  apply map_err_Ok in Hr. exists bs. split; [done|]. apply deposit_net in B3 as [<- Hn].
  pose proof (store_grows w (key a0) bs' Ho) as Hs. apply mint_to_grows in Hr; [|exact (proj2 Hs Ha)|by right].
  exact (grows_trans 0 _ _ _ _ Hs Hr).
Qed.

(** ** One call *)

(** The bridge writes to an account of its own (the runtime rejects anything else);
    requests burn the token; withdrawals are announced to a program that leaves the
    books alone.  The bridge checks none of the three. *)
Definition plain_call accounts (input : bytes) w : Prop :=
  (forall a0, accounts !! 0%nat = Some a0 -> owner_at w (key a0) = pid) /\
  match input with
  | 2 :: _ => key_of accounts 0 = Some P -> key_of accounts 2 = Some token
  | 3 :: _ | 6 :: _ => forall p, key_of accounts 2 = Some p -> keeps_books p
  | _ => True
  end.

(** Deposits net of fees, requests net of fees, and what the ledger allows in
    circulation, groups aside. *)
Definition deposited (l : Ledger) : Z := foldr (fun d s => d.2 + s) 0 (l_deposits l).
Definition requested (l : Ledger) : Z := foldr (fun r s => wr_amount_sats r + s) 0 (l_requests l).
Definition issued (l : Ledger) : Z := deposited l + l_operator_paid l - l_requested_sats l.

Lemma total_deposits_app (ds : list (QHash256 * Z * bytes * Z)) d :
  foldr (fun d s => d.2 + s) 0 (ds ++ [d]) = foldr (fun d s => d.2 + s) 0 ds + d.2.
Proof. induction ds as [|d' ds IH]; cbn [app foldr]; lia. Qed.

(** The ledger after a call. *)
Definition ledger_after ix (l : Ledger) accounts (input : bytes) : Ledger :=
  if bool_decide (key <$> accounts !! 0%nat = Some P) then meaning (init_config_params ix) l accounts input else l.

Definition covered ix (l : Ledger) accounts (input : bytes) w w' : Prop :=
  grows (group_paid accounts input w + (issued (ledger_after ix l accounts input) - issued l)) w w'.

Lemma group_paid_foreign accounts input a0 w :
  accounts !! 0%nat = Some a0 -> key a0 <> P -> group_paid accounts input w = 0.
Proof.
  intros Ha Hk. unfold group_paid. destruct accounts as [|b0 accounts]; [discriminate Ha|]. injection Ha as ->. cbv zeta.
  assert (forall x : Z, (if decide (key a0 = P) then x else 0) = 0) as Hd by (intros x; by rewrite decide_False).
  destruct input as [|[|p|p] rest]; [done..| |done]. do 4 (try (destruct p as [p|p|]; try done)).
  all: destruct accounts as [|b1 [|b2 accounts]]; try done; destruct (load_bridge_state w P); done || apply Hd.
Qed.

(** Credit within the bounds of the ledger is covered. *)
Lemma covered_credit ix l accounts input a0 n w w' :
  accounts !! 0%nat = Some a0 -> grows (credit (key a0) n) w w' ->
  (key a0 = P -> n <= group_paid accounts input w + (issued (meaning (init_config_params ix) l accounts input) - issued l)) ->
  covered ix l accounts input w w'.
Proof.
  intros Ha Hg Hn. eapply grows_le; [exact Hg|]. unfold credit, ledger_after. rewrite Ha. cbn [fmap option_fmap option_map].
  destruct (bool_decide_reflect (key a0 = P)) as [E|E].
  - rewrite bool_decide_true by congruence. auto.
  - rewrite bool_decide_false by congruence. rewrite (group_paid_foreign _ _ a0) by done. lia.
Qed.

(** Blocks, messages, groups and snapshots issue nothing by the ledger. *)
Lemma issued_quiet cfg l accounts tag rest :
  tag <> 2 -> tag <> 4 -> tag <> 5 -> issued (meaning cfg l accounts (tag :: rest)) = issued l.
Proof.
  intros N2 N4 N5. unfold meaning, operation_of. cbv zeta.
  destruct tag as [|p|p]; [done| |done]. do 4 (try (destruct p as [p|p|]; try done)).
  all: destruct (cast _); done.
Qed.

Lemma covered_quiet ix l accounts tag rest a0 w w' :
  tag <> 2 -> tag <> 4 -> tag <> 5 -> tag <> 7 -> tag <> 9 -> accounts !! 0%nat = Some a0 -> grows 0 w w' ->
  covered ix l accounts (tag :: rest) w w'.
Proof.
  intros N2 N4 N5 N7 N9 Ha Hg. apply (covered_credit _ _ _ _ a0 0); [done| |].
  - unfold credit. by destruct (bool_decide _).
  - intros _. rewrite issued_quiet by done. unfold group_paid. cbv zeta.
    destruct tag as [|p|p]; [simpl; lia| |simpl; lia]. do 4 (try (destruct p as [p|p|]; try (simpl; lia))); done.
Qed.

Section one_call.
Context (ix : InitializeBridgeInstructionData) (n : Z) (l : Ledger) (accounts : list AccountInfo) (w w' : World).
Context (a0 : AccountInfo) (tag : Z) (rest : bytes).
Abbreviation input := (tag :: rest).
Context (Hix : pod_wf ix) (Htoken : token = init_doge_mint ix) (Himp : account_implements pid ix n l w).
Context (Hcall : call_typed accounts input w) (Ha : accounts !! 0%nat = Some a0) (Ho : owner_at w (key a0) = pid).
Context (Hauth : mint_authority w = Some P).

Lemma data_typed : Forall is_byte (drop 8 input).
Proof. apply Forall_drop, Hcall. Qed.

Lemma first_Ok : nth_account accounts 0 = Ok a0.
Proof. unfold nth_account. by rewrite Ha. Qed.

(** The state in the bridge account. *)
Lemma bridge_loads :
  exists bs, load_bridge_state w P = Ok bs /\ doge_mint bs = token /\
    refines (init_config_params ix) (core_state bs) l /\ ledger_size n l.
Proof.
  destruct Himp as (bs & _ & Hd & Ht & Hm & Href & Hsz & _). exists bs. split; [|by rewrite Hm].
  apply load_typed; [|done]. apply bridge_state_typed; [done|]. rewrite Hm. by destruct Hix as (_ & _ & ? & _).
Qed.

Lemma covered_group : tag = 7 ->
  (try params <- parse_mint_group (drop 8 input); process_process_mint_group pid accounts params.1 params.2 w) = Ok w' ->
  covered ix l accounts input w w'.
Proof.
  pose proof data_typed as Hd. pose proof bridge_loads as Hb. pose proof first_Ok as Hfst.
  intros -> Hr. peel Hr as E. destruct x as [g unlock]. destruct Hb as (bs0 & Hl0 & Hm & _ & _).
  destruct (group_grows accounts g unlock a0 w w' Hfst Ho Hauth) as (a1 & bs & Ha1 & Hl & Hg); [|exact Hr|].
  { intros _ bs. rewrite Hl0. by intros [= <-]. }
  eapply covered_credit; [exact Ha|exact Hg|]. intros Hk. rewrite issued_quiet by done. unfold group_paid. cbv zeta.
  destruct accounts as [|b0 [|b1 accs]]; [discriminate Ha|discriminate Ha1|]. injection Ha as ->. injection Ha1 as ->.
  rewrite <- Hk at 1. rewrite Hl, decide_True, E, Hk by done. lia.
Qed.

Lemma covered_advance b7 : tag = 9 ->
  (try params <- parse_mint_group (drop 8 input);
   process_process_mint_group_auto_advance pid accounts params.1 b7 params.2 w) = Ok w' ->
  covered ix l accounts input w w'.
Proof.
  pose proof data_typed as Hd. pose proof bridge_loads as Hb. pose proof first_Ok as Hfst.
  intros -> Hr. peel Hr as E. destruct x as [g unlock].
  destruct (advance_grows accounts g b7 unlock a0 w w' Hfst Ho Hauth) as (a1 & a2 & bs & Ha1 & Ha2 & Hl & Hg);
    [apply Hcall|apply Hcall|exact (group_index_nonneg _ _ Hd E)|exact Hr|].
  eapply covered_credit; [exact Ha|exact Hg|]. intros Hk. rewrite issued_quiet by done. unfold group_paid. cbv zeta.
  destruct accounts as [|b0 [|b1 [|b2 accs]]]; [discriminate Ha|discriminate Ha1|discriminate Ha2|].
  injection Ha as ->. injection Ha1 as ->. injection Ha2 as ->.
  rewrite <- Hk at 1. rewrite Hl, decide_True, E, Hk by done. lia.
Qed.

Lemma covered_request : tag = 2 -> (key a0 = P -> key_of accounts 2 = Some token) ->
  (try params <- parse (A := RequestWithdrawalInstructionData) (drop 8 input);
   process_request_withdrawal accounts (rw_request params) w) = Ok w' ->
  covered ix l accounts input w w'.
Proof.
  pose proof data_typed as Hd. pose proof bridge_loads as Hb. pose proof first_Ok as Hfst.
  intros -> Hburn Hr. peel Hr as E. apply parse_Ok in E as [Ec Hwf]. specialize (Hwf Hd).
  change (pod_wf (rw_request x)) in Hwf. assert (0 <= wr_amount_sats (rw_request x)) as Hn by apply Hwf.
  destruct (request_handled pid accounts _ w w' Hwf Hr) as (a3 & Ha3 & _).
  eapply covered_credit; [exact Ha|eapply (request_grows accounts); [exact Hfst|exact Ho|exact Hburn|exact Hn|exact Hr]|].
  intros _. unfold meaning, operation_of. rewrite Ec, Ha3. cbn [mbind option_bind].
  unfold group_paid, issued, deposited. ledger_simpl. lia.
Qed.

Lemma covered_fees : tag = 4 -> process_operator_withdraw_fees pid accounts w = Ok w' -> covered ix l accounts input w w'.
Proof.
  pose proof data_typed as Hd. pose proof bridge_loads as Hb. pose proof first_Ok as Hfst.
  intros -> Hr. destruct (fees_handled pid accounts w w' Hr) as (a1 & Ha1 & _).
  destruct (fees_grows accounts a0 w w' Hfst Ho Hauth Hr) as (bs & fees & s' & Hl & Hf & Hg).
  destruct Hb as (bs0 & Hl0 & _ & Href & Hsz).
  eapply covered_credit; [exact Ha|exact Hg|]. intros Hk. rewrite Hk, Hl0 in Hl. injection Hl as <-.
  unfold run_bridge_operator_withdraw_fees_precheck in Hf.
  rewrite (get_total_finalized_fees_ledger _ _ _ Href), (ref_operator_paid _ _ _ Href) in Hf.
  peel Hf as F0. cbv zeta in Hf. peel Hf as F1. injection Hf as <- _. apply Z.leb_gt in F0.
  assert (in_width 64 (l_fees l)) as Hw by (apply wrap_in_width; lia). destruct Hsz as (_ & _ & _ & Hpaid).
  unfold in_width in *. rewrite wrap_id by (unfold in_width; lia).
  unfold meaning, operation_of. rewrite Ha1. cbn [mbind option_bind].
  unfold group_paid, issued, deposited. ledger_simpl. lia.
Qed.

Lemma covered_deposit : tag = 5 ->
  (try params <- parse (A := ProcessManualDepositInstructionData) (drop 8 input);
   process_process_manual_deposit pid accounts (md_tx_hash params) (md_recent_block_merkle_tree_root params)
     (md_recent_auto_claim_txo_root params) (md_combined_txo_index params) (md_deposit_amount_sats params)
     (md_depositor_solana_public_key params) w) = Ok w' ->
  covered ix l accounts input w w'.
Proof.
  pose proof data_typed as Hd. pose proof bridge_loads as Hb. pose proof first_Ok as Hfst.
  intros -> Hr. peel Hr as E. apply parse_Ok in E as [Ec Hwf]. specialize (Hwf Hd).
  destruct Hwf as (_ & _ & _ & _ & _ & Hamt).
  destruct (manual_deposit_handled pid accounts _ _ _ _ _ _ w w' Hamt Hr) as (a1 & Ha1 & _).
  destruct (deposit_grows accounts _ _ _ _ _ _ a0 w w' Hfst Ho Hauth Hr) as (bs & Hl & Hg).
  destruct Hb as (bs0 & Hl0 & _ & Href & _).
  eapply covered_credit; [exact Ha|exact Hg|]. intros Hk. rewrite Hk, Hl0 in Hl. injection Hl as <-.
  rewrite (ref_config _ _ _ Href). unfold meaning, operation_of. rewrite Ec, Ha1. cbn [mbind option_bind].
  unfold group_paid, issued, deposited. ledger_simpl. rewrite total_deposits_app. cbn [snd]. lia.
Qed.
End one_call.

Lemma first_account accounts input w w' :
  process_instruction pid accounts input w = Ok w' -> input !! 0%nat <> Some 0 -> exists a0, accounts !! 0%nat = Some a0.
Proof.
  intros Hr Hne. destruct accounts as [|a0 accounts]; [|by exists a0].
  destruct (process_instruction_Ok _ _ _ _ _ Hr) as (tag & rest & b6 & b7 & -> & _ & Hd). clear Hr.
  unfold dispatch in Hd. destruct tag as [|p|p]; [done| |done]. do 4 (try (destruct p as [p|p|]; try done)).
  all: try (peel Hd as E). all: try discriminate Hd. by destruct x.
Qed.

Lemma call_covered ix n l accounts input w w' :
  pod_wf ix -> token = init_doge_mint ix -> account_implements pid ix n l w -> call_typed accounts input w ->
  input !! 0%nat <> Some 0 -> plain_call accounts input w -> mint_authority w = Some P ->
  process_instruction pid accounts input w = Ok w' -> covered ix l accounts input w w'.
Proof.
  intros Hix Htoken Himp Hcall Hne [Hown Hplain] Hauth Hr. destruct (first_account _ _ _ _ Hr Hne) as [a0 Ha].
  pose proof (Hown a0 Ha) as Ho. assert (nth_account accounts 0 = Ok a0) as A by (unfold nth_account; by rewrite Ha).
  destruct (process_instruction_Ok _ _ _ _ _ Hr) as (tag & rest & b6 & b7 & -> & _ & Hd). clear Hr. rename Hd into Hr.
  unfold dispatch in Hr. destruct tag as [|p|p]; [done| |done]. do 4 (try (destruct p as [p|p|]; try done)).
  all: lazymatch type of Hr with
    | context [process_process_mint_group_auto_advance] => by eapply covered_advance
    | context [process_process_mint_group] => by eapply covered_group
    | context [process_operator_withdraw_fees] => by eapply covered_fees
    | context [process_process_manual_deposit] => by eapply covered_deposit
    | context [process_request_withdrawal] =>
        eapply covered_request; try done; intros E; apply Hplain; unfold key_of; rewrite Ha; cbn; congruence
    | _ => apply (covered_quiet _ _ _ _ _ a0); [done..|]
    end.
  all: lazymatch type of Hr with
    | context [process_process_withdrawal] => peel Hr as E; exact (withdrawal_grows _ _ _ _ _ a0 _ _ A Ho Hplain Hr)
    | context [process_replay_withdrawal] => exact (replay_grows _ a0 _ _ A Ho Hplain Hr)
    | context [process_snapshot_withdrawals] => exact (snapshot_grows _ a0 _ _ A Ho Hr)
    | context [process_block_update] =>
        peel Hr as E; unfold process_block_update in Hr; exact (block_grows _ _ _ _ _ _ _ a0 _ _ A Ho Hr)
    | _ =>
        peel Hr as E; destruct x; [|discriminate Hr]; unfold process_reorg_blocks in Hr;
        exact (block_grows _ _ _ _ _ _ _ a0 _ _ A Ho Hr)
    end.
Qed.

(** ** Histories *)

(** Histories of the bridge in which the calls are plain and other programs do not issue
    the token: the supply at the initialisation is [s0], and [paid] what the groups
    paid. *)
Inductive token_history (ix : InitializeBridgeInstructionData) (s0 : Z)
    : list (list AccountInfo * bytes) -> Z -> World -> Prop :=
  | token_init accounts prefix w w' :
      length prefix = 7%nat -> pod_wf ix ->
      process_instruction pid accounts (0 :: prefix ++ bytes_of ix) w = Ok w' -> owner_at w' P = pid ->
      supply w' = s0 -> mint_authority w' = Some P -> token_history ix s0 [] 0 w'
  | token_call calls paid accounts input w w' :
      token_history ix s0 calls paid w -> call_typed accounts input w -> input !! 0%nat <> Some 0 ->
      plain_call accounts input w -> process_instruction pid accounts input w = Ok w' ->
      token_history ix s0 (calls ++ [(accounts, input)]) (paid + group_paid accounts input w) w'
  | token_other calls paid w w' :
      token_history ix s0 calls paid w -> own_eq pid w w' -> supply w' <= supply w ->
      mint_authority w' = mint_authority w -> token_history ix s0 calls paid w'.

Lemma token_history_history ix s0 calls paid w : token_history ix s0 calls paid w -> history pid ix calls w.
Proof. induction 1; [by eapply history_init|by eapply history_call|by eapply history_other]. Qed.

Lemma requested_sum cfg l accounts input :
  l_requested_sats l = requested l + l_withdrawal_fees l ->
  let l' := meaning cfg l accounts input in l_requested_sats l' = requested l' + l_withdrawal_fees l'.
Proof.
  cbv zeta. unfold requested. intros Hs. unfold meaning. destruct (operation_of accounts input) as [op|]; [|done]. destruct op; try done.
  ledger_simpl. rewrite foldr_app. cbn [foldr wr_amount_sats].
  assert (forall x (rs : list PsyWithdrawalRequest), foldr (fun r s => wr_amount_sats r + s) x rs
    = foldr (fun r s => wr_amount_sats r + s) 0 rs + x) as Hf.
  { intros x rs. induction rs as [|r rs IH]; cbn [foldr]; lia. }
  rewrite (Hf (_ + 0)). lia.
Qed.

(** [C3] The token is covered by the deposits.  Take any history of the bridge, as calls
    given by raw accounts and bytes among anything that other programs do, in which the
    bridge account has the token's mint authority.  Then the supply of the token is at
    most its supply at the start, plus what groups paid out of the buffers that the blocks
    commit to, plus the manual deposits net of fees and the fees paid to the operator,
    less all that was requested to be withdrawn; and what was requested is what the
    requests of the ledger are owed and the fees kept on them.  This holds of calls that
    burn the token they record as requested, and announce withdrawals to a program that
    does not issue the token: the bridge checks neither. *)
Theorem token_covered_by_deposits ix s0 calls paid w :
  token_history ix s0 calls paid w -> token = init_doge_mint ix -> 2 * len calls < 2 ^ 32 ->
  let l := ledger_of_calls P ix calls in
  supply w + requested l + l_withdrawal_fees l <= s0 + paid + deposited l + l_operator_paid l /\
  mint_authority w = Some P.
Proof.
  intros Hh Htoken. cbv zeta. enough (2 * len calls < 2 ^ 32 ->
    let l := ledger_of_calls P ix calls in supply w <= s0 + paid + issued l /\ mint_authority w = Some P /\
    l_requested_sats l = requested l + l_withdrawal_fees l) as He.
  { intros Hlen. destruct (He Hlen) as (Hs & Hm & Hq). unfold issued in Hs. split; [lia|done]. }
  cbv zeta. induction Hh as [accounts prefix w w' _ _ _ _ Hs Hm|calls paid accounts input w w' Hh IH Hc Hne Hp Hr
    |calls paid w w' Hh IH _ Hs Hm]; intros Hlen.
  - split; [|by split]. unfold issued, deposited. cbn. lia.
  - rewrite len_app, len_cons, len_nil in Hlen. pose proof (len_nonneg calls).
    destruct IH as (Hs & Hm & Hq); [lia|].
    destruct (history_implements pid Hbuffer ix calls w (token_history_history _ _ _ _ _ Hh) ltac:(lia)) as [Hix Himp].
    destruct (call_covered ix _ _ accounts input w w' Hix Htoken Himp Hc Hne Hp Hm Hr) as [Hs' Hm'].
    unfold ledger_of_calls in *. rewrite fold_left_app. cbn [fold_left]. fold (ledger_of_calls P ix calls) in *.
    fold (ledger_after ix (ledger_of_calls P ix calls) accounts input).
    split; [lia|]. split; [auto|]. unfold ledger_after. destruct (bool_decide _); [by apply requested_sum|done].
  - destruct (IH Hlen) as (Hs' & Hm' & Hq). split; [lia|]. split; [congruence|done].
Qed.

(** ** What this rests on *)

(** A request whose mint is another token's is recorded all the same, and burns none of
    the bridge's token. *)
Lemma request_burns_any_token accounts (request : PsyWithdrawalRequest) a0 w w' :
  pod_wf request -> nth_account accounts 0 = Ok a0 -> owner_at w (key a0) = pid -> key_of accounts 2 <> Some token ->
  process_request_withdrawal accounts request w = Ok w' ->
  same_books w w' /\ exists user, accounts !! 3%nat = Some user /\
    handled pid accounts [RequestWithdrawal (key user) request] w w'.
Proof.
  intros Hreq A Ho Ht Hr. split; [|by apply (request_handled pid)]. unfold process_request_withdrawal in Hr.
  rewrite A in Hr. cbn [res_bind] in Hr. peel Hr as A1. peel Hr as A2. peel Hr as A3. peel Hr as A4. peel Hr as B0.
  rename x3 into bs. cbv zeta in Hr. peel Hr as B1. apply on_core_Ok in B1 as [B1 _]. injection Hr as <-.
  destruct x3 as [w1 bs']. cbn [fst snd] in *. apply request_in_Ok in B1 as [_ Hb].
  pose proof (proj1 (burn_from_own pid _ _ _ _ _ Hb _ Ho)) as Ho1.
  unfold burn_from in Hb. apply map_err_Ok, invoke_holding_Ok, token_burned in Hb. cbn [burner_mint] in Hb.
  rewrite decide_False in Hb.
  - destruct Hb as [Es Em]. destruct (token_own w1 (key a0) (bytes_of bs') Ho1) as [Es1 Em1].
    unfold store_bridge_state. split; congruence.
  - intros E. apply Ht. by eapply key_of_Ok.
Qed.

Definition with_shim (program : AccountInfo) (a : WormholeAccounts) : WormholeAccounts :=
  {| wh_shim_program := program; wh_bridge_config := wh_bridge_config a; wh_message := wh_message a;
     wh_emitter := wh_emitter a; wh_sequence := wh_sequence a; wh_payer := wh_payer a;
     wh_fee_collector := wh_fee_collector a; wh_clock := wh_clock a; wh_system_program := wh_system_program a;
     wh_core_bridge_program := wh_core_bridge_program a; wh_event_authority := wh_event_authority a |}.

Lemma withdrawal_accounts_shim accounts program a0 a1 wh :
  withdrawal_accounts accounts = Ok (a0, a1, wh) ->
  withdrawal_accounts (<[2%nat := program]> accounts) = Ok (a0, a1, with_shim program wh).
Proof.
  unfold withdrawal_accounts. intros Hr. peel_all Hr. injection Hr as <- <- <-.
  do 12 (destruct accounts as [|? accounts]; [discriminate|]). cbn in *. simplify_eq. reflexivity.
Qed.

(** Whoever sends a withdrawal chooses the program that the bridge signs for: with any
    program in place of the message program, the call of it that carries the bridge's
    signature decides the outcome, whatever that program does with the authority. *)
Lemma message_program_unchecked accounts program proof ro root next w w1 :
  wormhole = true -> noopshim = false ->
  process_process_withdrawal pid accounts proof ro root next w = Ok w1 ->
  exists wh bs' sighash tx, forall w',
    send_message pid (with_shim program wh) (withdrawal_nonce bs') sighash tx (store_bridge_state w P bs') = Ok w' ->
    process_process_withdrawal pid (<[2%nat := program]> accounts) proof ro root next w = Ok w'.
Proof.
  intros Hw Hn Hr. unfold process_process_withdrawal in *. peel Hr as A0. destruct x as [[a0 a1] wh].
  peel Hr as B0. peel Hr as B1. peel Hr as B2. peel Hr as B3. rename x into bs. cbv zeta in Hr.
  peel Hr as B4. peel Hr as B5. peel Hr as B6. rename x into tx. peel Hr as B7. destruct x as [sighash bs'].
  exists wh, bs', sighash, tx. intros w' Hs. rewrite (withdrawal_accounts_shim _ program _ _ _ A0). cbn [res_bind].
  rewrite B0, B1, B2, B3. cbn [res_bind]. cbv zeta. rewrite B4, B5, B6. cbn [or_panic res_bind]. rewrite B7. cbn [res_bind].
  apply key_eqb_true in B0. rewrite B0. unfold send_wormhole_vaa in *. rewrite Hw, Hn in *. cbv zeta in *. peel Hr as E.
  unfold invoke_signed_holding in *. peel E as E1.
  change (borrow_conflict [] [key a1] (vaa_instruction (withdrawal_nonce bs') (with_shim program wh) sighash tx) = false) in E1.
  rewrite E1. unfold send_message in Hs. cbn [res_bind]. by rewrite Hs.
Qed.
End supply.
