(* ===== verification/ManualClaim.v ===== *)
(** * ManualClaim: the program for manual deposits

    Models [programs/manual-claim/src/processor.rs] and the per-user state of
    [psy-doge-solana-core/src/user_manual_deposit_manager/mod.rs].  A user proves a
    deposit against recent roots of the bridge; the program keeps, per user, the root of
    the tree of claimed outputs and calls the bridge to credit the deposit, signing
    with the user's claim account. *)
From S2P Require Import Prelude Errors Pod Hash Sha256 AppendTree TxoIndex Types PublicInputs Runtime BufferClient MintGroup ProgramState BridgeInstructions DogeBridge Ledger DogeBridgeProofs.
From Stdlib Require Import ZArith Lia.
From stdpp Require Import base decidable list numbers option countable gmap.

Open Scope Z_scope.
Open Scope bridge_scope.

(** [spl_associated_token_account::get_associated_token_address(wallet, mint)] *)
Class TokenAddresses := get_associated_token_address : Pubkey -> Pubkey -> Pubkey.

Module ManualClaim.

(** ** user_manual_deposit_manager/mod.rs *)

Record UserManualDepositManagerProgramState := {
  manual_claimed_txo_tree_root : QHash256
}.

#[global] Instance UserManualDepositManagerProgramState_pod : Pod UserManualDepositManagerProgramState.
Proof.
  refine (pod_iso (pod_array 32)
    (fun x0 => {| manual_claimed_txo_tree_root := x0 |})
    (fun r => manual_claimed_txo_tree_root r) _ _);
    pod_iso_tac.
Defined.

Abbreviation UserState := UserManualDepositManagerProgramState.

Definition new_empty : UserState := {| manual_claimed_txo_tree_root := TXO_EMPTY_MERKLE_TREE_ROOT |}.

(** [ManualDepositMainBridgeCPIHelper]: the three functions that the operation needs
    of its caller.  [W] is what the call acts on. *)
Record ManualDepositHelper (W : Type) := {
  ensure_current_program_is_lowest_possible_pda_seed : bytes -> bool;
  derive_token_ata_from_signer : bytes -> bytes;
  process_manual_deposit : forall (recent_block_merkle_tree_root recent_auto_claim_txo_root tx_hash : QHash256)
      (combined_txo_index : Z) (depositor_solana_public_key : bytes) (deposit_amount_sats : Z),
    W -> res DogeBridgeError W
}.
Arguments ensure_current_program_is_lowest_possible_pda_seed {W}.
Arguments derive_token_ata_from_signer {W}.
Arguments process_manual_deposit {W}.

Section state.
Context `{Sha256} `{ZkVerifier} {W : Type}.

Definition manual_claim_deposit (self : UserState) (proof known_manual_claim_deposit_vk : bytes)
    (manual_claim_helper : ManualDepositHelper W)
    (recent_block_merkle_tree_root recent_auto_claim_txo_root new_manual_claim_txo_root
     custodian_wallet_config_hash tx_hash : QHash256)
    (combined_txo_index : Z) (signer_public_key : bytes) (deposit_amount_sats : Z) (w : W)
    : res DogeBridgeError W * UserState :=
  bail InvalidPDAForManualDepositManager
    if negb (ensure_current_program_is_lowest_possible_pda_seed manual_claim_helper signer_public_key) on self;
  let token_pda := derive_token_ata_from_signer manual_claim_helper signer_public_key in
  let expected_public_inputs := get_manual_deposit_proof_public_inputs recent_block_merkle_tree_root
    recent_auto_claim_txo_root (manual_claimed_txo_tree_root self) new_manual_claim_txo_root tx_hash token_pda
    custodian_wallet_config_hash combined_txo_index deposit_amount_sats in
  bail BridgeZKPError
    if negb (verify_compact_zkp_slice proof known_manual_claim_deposit_vk expected_public_inputs) on self;
  let self1 := {| manual_claimed_txo_tree_root := new_manual_claim_txo_root |} in
  try w1 <- process_manual_deposit manual_claim_helper recent_block_merkle_tree_root recent_auto_claim_txo_root
              tx_hash combined_txo_index signer_public_key deposit_amount_sats w on self1;
  (Ok w1, self1).
End state.

(** ** processor.rs *)

Section program.
Context `{Sha256} `{ZkVerifier} `{Runtime} `{Features} `{TokenAddresses}.

Definition MANUAL_CLAIM_VK : bytes :=
  if mock_zkp then [
    244; 238; 171; 78; 131; 171; 99; 200; 141; 114; 186; 29; 84; 79; 47; 233; 193; 81; 129; 115; 35; 74; 185; 6;
    230; 88; 87; 77; 239; 104; 25; 48] else zeros 32.

Abbreviation claim_err e := (ManualClaimError.to_program_error e).

Record SolanaManualDepositHelper := {
  mh_bridge_program : AccountInfo;
  mh_bridge_state : AccountInfo;
  mh_recipient_account : AccountInfo;
  mh_doge_mint : AccountInfo;
  mh_token_program : AccountInfo;
  mh_claim_pda : AccountInfo;
  mh_claim_pda_seeds : list bytes
}.

(** The instruction for the bridge: the discriminator, seven zero bytes, the data. *)
Definition deposit_instruction (self : SolanaManualDepositHelper)
    (recent_block_merkle_tree_root recent_auto_claim_txo_root tx_hash : QHash256) (combined_txo_index : Z)
    (depositor_solana_public_key : bytes) (deposit_amount_sats : Z) : Instruction :=
  let ix_data := {| md_tx_hash := tx_hash; md_recent_block_merkle_tree_root := recent_block_merkle_tree_root;
                    md_recent_auto_claim_txo_root := recent_auto_claim_txo_root;
                    md_combined_txo_index := combined_txo_index;
                    md_depositor_solana_public_key := depositor_solana_public_key;
                    md_deposit_amount_sats := deposit_amount_sats |} in
  RawInstruction (key (mh_bridge_program self))
    [BufferClient.meta_new (key (mh_bridge_state self)) false;
     BufferClient.meta_new (key (mh_recipient_account self)) false;
     BufferClient.meta_new (key (mh_doge_mint self)) false;
     BufferClient.meta_new_readonly (key (mh_token_program self)) false;
     BufferClient.meta_new_readonly (key (mh_claim_pda self)) true]
    (DOGE_BRIDGE_INSTRUCTION_PROCESS_MANUAL_DEPOSIT :: zeros 7 ++ bytes_of ix_data).

(** [held_mut]: the accounts whose data the caller has borrowed mutably. *)
Definition solana_helper (self : SolanaManualDepositHelper) (held_mut : list Pubkey) : ManualDepositHelper World := {|
  ensure_current_program_is_lowest_possible_pda_seed _ := true;
  derive_token_ata_from_signer _ := key (mh_recipient_account self);
  process_manual_deposit br ar tx i depositor amount w :=
    map_err (fun _ => CpiManualDepositCallError)
      (invoke_signed_holding held_mut [] w (deposit_instruction self br ar tx i depositor amount)
         [mh_bridge_state self; mh_recipient_account self; mh_doge_mint self; mh_token_program self; mh_claim_pda self]
         [mh_claim_pda_seeds self])
|}.

Definition USER_STATE_SIZE : Z := Z.of_nat (pod_size UserState).

Definition process_claim (program_id : Pubkey) (accounts : list AccountInfo) (proof : bytes)
    (recent_block_merkle_tree_root recent_auto_claim_txo_root new_manual_claim_txo_root tx_hash : QHash256)
    (combined_txo_index deposit_amount_sats : Z) (w : World) : res ProgramError World :=
  try claim_state_pda <- nth_account accounts 0;
  try bridge_state_account <- nth_account accounts 1;
  try recipient_account <- nth_account accounts 2;
  try doge_mint <- nth_account accounts 3;
  try token_program <- nth_account accounts 4;
  try main_bridge_program <- nth_account accounts 5;
  try user <- nth_account accounts 6;
  try payer <- nth_account accounts 7;
  try system_program <- nth_account accounts 8;
  bail MissingRequiredSignature if negb (is_signer user);
  let '(pda, bump) := find_program_address [DogeBridge.manual_claim_seed; key user] program_id in
  let claim_pda_seeds := [DogeBridge.manual_claim_seed; key user; [bump]] in
  bail claim_err ManualClaimError.InvalidPDA if negb (bool_decide (pda = key claim_state_pda));
  bail claim_err ManualClaimError.InvalidRecipientATA
    if negb (bool_decide (get_associated_token_address (key user) (key doge_mint) = key recipient_account));
  try w1 <- (if len (data_at w (key claim_state_pda)) =? 0 then
      try w1 <- invoke_signed w
        (SystemCreateAccount (key payer) (key claim_state_pda) (minimum_balance USER_STATE_SIZE) USER_STATE_SIZE program_id)
        [payer; claim_state_pda; system_program] [claim_pda_seeds];
      try d <- or_panic (write_slice 0 (bytes_of new_empty) (data_at w1 (key claim_state_pda)));
      Ok (set_data w1 (key claim_state_pda) d)
    else
      bail claim_err ManualClaimError.InvalidPDA
        if negb (bool_decide (owner_at w (key claim_state_pda) = program_id));
      Ok w);
  try state <- ok_or (cast (A := UserState) (data_at w1 (key claim_state_pda)))
                 (claim_err ManualClaimError.SerializationError);
  bail AccountBorrowFailed if bool_decide (key bridge_state_account = key claim_state_pda);
  try bridge_state <- ok_or (cast (A := BridgeProgramStateWithDogeMint) (data_at w1 (key bridge_state_account)))
                        (claim_err ManualClaimError.SerializationError);
  let helper := {| mh_bridge_program := main_bridge_program; mh_bridge_state := bridge_state_account;
                   mh_recipient_account := recipient_account; mh_doge_mint := doge_mint;
                   mh_token_program := token_program; mh_claim_pda := claim_state_pda;
                   mh_claim_pda_seeds := claim_pda_seeds |} in
  match manual_claim_deposit state proof MANUAL_CLAIM_VK (solana_helper helper [key claim_state_pda])
          recent_block_merkle_tree_root recent_auto_claim_txo_root new_manual_claim_txo_root
          (custodian_wallet_config_hash (core_state bridge_state)) tx_hash combined_txo_index (key user)
          deposit_amount_sats w1 with
  | (Ok w2, state') => Ok (set_data w2 (key claim_state_pda) (bytes_of state'))
  | (Err _, _) => Err (claim_err ManualClaimError.CoreError)
  | (Panic, _) => Panic
  end.

(** [&instruction_data[8..]] panics on fewer than eight bytes; the first eight bytes are
    not looked at. *)
Definition process_instruction (program_id : Pubkey) (accounts : list AccountInfo)
    (instruction_data : bytes) (w : World) : res ProgramError World :=
  try data <- or_panic (slice 8 (len instruction_data) instruction_data);
  try instruction <- ok_or (cast (A := ManualClaimInstruction) data) (claim_err ManualClaimError.SerializationError);
  process_claim program_id accounts (mc_proof instruction) (mc_recent_block_merkle_tree_root instruction)
    (mc_recent_auto_claim_txo_root instruction) (mc_new_manual_claim_txo_root instruction) (mc_tx_hash instruction)
    (mc_combined_txo_index instruction) (mc_deposit_amount_sats instruction) w.
End program.

(** ** Theorems *)

Section state_theorems.
Context `{Sha256} `{ZkVerifier} {W : Type}.

(** A manual claim needs a proof of the step from the user's claimed outputs.  The
    operation succeeds only when the helper vouches for the claim account, the verifier
    accepts the proof for the public inputs that name the user's current root, the new
    root, the transaction, the output, the amount and the user's token account, and the
    bridge credits exactly this deposit; then the user's root is the new root. *)
Theorem manual_claim_sound (self self' : UserState) proof vk (helper : ManualDepositHelper W) br ar new custodian tx i
    signer amount w w' :
  manual_claim_deposit self proof vk helper br ar new custodian tx i signer amount w = (Ok w', self') ->
  ensure_current_program_is_lowest_possible_pda_seed helper signer = true /\
  verify_compact_zkp_slice proof vk
    (get_manual_deposit_proof_public_inputs br ar (manual_claimed_txo_tree_root self) new tx
       (derive_token_ata_from_signer helper signer) custodian i amount) = true /\
  process_manual_deposit helper br ar tx i signer amount w = Ok w' /\ manual_claimed_txo_tree_root self' = new.
Proof.
  intros Hr. unfold manual_claim_deposit in Hr. peel Hr as E0. cbv zeta in Hr. peel Hr as E1. peel Hr as E2.
  injection Hr as <- <-. apply negb_false_iff in E0, E1. done.
Qed.
End state_theorems.

Section program_theorems.
Context `{Sha256} `{ZkVerifier} `{Runtime} `{ProgramIds} `{Features} `{TokenAddresses}.

(** The call of the bridge is refused as long as the claim account is borrowed. *)
Lemma helper_refuses_borrowed helper held br ar tx i depositor amount w :
  key (mh_claim_pda helper) ∈ held ->
  process_manual_deposit (solana_helper helper held) br ar tx i depositor amount w = Err CpiManualDepositCallError.
Proof.
  intros Hin. cbn [process_manual_deposit solana_helper]. unfold invoke_signed_holding.
  replace (borrow_conflict _ _ _) with true; [done|]. symmetry. apply existsb_exists.
  exists (BufferClient.meta_new_readonly (key (mh_claim_pda helper)) true). split.
  - cbn. auto 10.
  - by rewrite bool_decide_true.
Qed.

(** [C21] No manual claim ever succeeds.  The handler keeps the data of the claim account
    mutably borrowed while it calls the bridge with that same account as the signer; the
    call checks the borrows of its accounts first and is refused.  So whatever proof,
    accounts and instruction data are given, the program never returns success. *)
Theorem manual_claim_never_succeeds program_id accounts instruction_data w w' :
  process_instruction program_id accounts instruction_data w <> Ok w'.
Proof.
  intros Hr. unfold process_instruction in Hr. peel Hr as D0. peel Hr as D1. unfold process_claim in Hr.
  peel Hr as A0. peel Hr as A1. peel Hr as A2. peel Hr as A3. peel Hr as A4. peel Hr as A5. peel Hr as A6.
  peel Hr as A7. peel Hr as A8. peel Hr as B0. destruct (find_program_address _ program_id) as [pda bump].
  cbv zeta in Hr. peel Hr as B1. peel Hr as B2. peel Hr as B3. peel Hr as B4. peel Hr as B5. peel Hr as B6.
  destruct (manual_claim_deposit _ _ _ _ _ _ _ _ _ _ _ _ _) as [[w2|e|] s] eqn:E; [|discriminate Hr..].
  unfold manual_claim_deposit in E. peel E as F0. cbv zeta in E. peel E as F1.
  rewrite helper_refuses_borrowed in E by (cbn; apply list_elem_of_singleton; done). discriminate E.
Qed.
End program_theorems.
End ManualClaim.
