(* ===== verification/BridgeClient.v ===== *)
(** * BridgeClient: the client's instructions for the bridge

    Models the bridge and claim instructions of [clients/rust/src/instructions.rs] and
    shows that the programs read them as the client means them. *)
From S2P Require Import Prelude Errors Pod Hash Sha256 AppendTree Types PublicInputs Runtime BufferClient MintGroup ProgramState BridgeInstructions DogeBridge Ledger StateTypes DogeBridgeProofs BridgeHistory BridgeSafety ManualClaim.
From Stdlib Require Import ZArith Lia.
From stdpp Require Import base decidable list numbers option countable gmap.

Open Scope Z_scope.
Open Scope bridge_scope.

Module BridgeClient.
Import BufferClient.

(** The discriminator, repeated to fill eight bytes, before the struct. *)
Definition gen_aligned_instruction (instruction_discriminator : Z) (data_struct_bytes : bytes) : bytes :=
  replicate 8 instruction_discriminator ++ data_struct_bytes.

(** [None] is the panic on seven or more bumps. *)
Definition gen_aligned_instruction_with_bumps (instruction_discriminator : Z) (data_struct_bytes bumps : bytes)
    : option bytes :=
  if 7 <=? len bumps then None
  else Some (replicate (8 - length bumps) instruction_discriminator ++ bumps ++ data_struct_bytes).

Section client.
Context `{Runtime} `{ProgramIds}.

(** [Pubkey::find_program_address(&[seeds], &program).0] *)
Definition pda (seeds : list bytes) (program : Pubkey) : Pubkey := (find_program_address seeds program).1.

Definition initialize_bridge (payer operator_pubkey fee_spender_pubkey doge_mint : Pubkey)
    (params : InitializeBridgeParams) : Instruction :=
  let bridge_state := pda [DogeBridge.bridge_state_seed] DOGE_BRIDGE_PROGRAM_ID in
  let data_struct := {|
    init_operator_pubkey := operator_pubkey; init_fee_spender_pubkey := fee_spender_pubkey;
    init_doge_mint := doge_mint; init_bridge_header := ip_bridge_header params;
    init_start_return_txo_output := ip_start_return_txo_output params;
    init_config_params := ip_config_params params;
    init_custodian_wallet_config_hash := ip_custodian_wallet_config_hash params |} in
  RawInstruction DOGE_BRIDGE_PROGRAM_ID
    [meta_new bridge_state false; meta_new payer true; meta_new_readonly system_program_id false]
    (gen_aligned_instruction DOGE_BRIDGE_INSTRUCTION_INITIALIZE (bytes_of data_struct)).

(** The accounts of the two block instructions. *)
Definition block_accounts (program_id payer operator mint_buffer txo_buffer : Pubkey) : list AccountMeta :=
  [meta_new (pda [DogeBridge.bridge_state_seed] program_id) false; meta_new mint_buffer false;
   meta_new txo_buffer false; meta_new_readonly operator true; meta_new payer true;
   meta_new_readonly PENDING_MINT_BUFFER_BUILDER_PROGRAM_ID false;
   meta_new_readonly TXO_BUFFER_BUILDER_PROGRAM_ID false].

Definition block_update (program_id payer : Pubkey) (proof : bytes) (header : PsyBridgeHeader)
    (operator mint_buffer txo_buffer : Pubkey) (mint_buffer_bump txo_buffer_bump : Z) : option Instruction :=
  data ← gen_aligned_instruction_with_bumps DOGE_BRIDGE_INSTRUCTION_BLOCK_UPDATE
           (bytes_of {| bu_proof := proof; bu_header := header |}) [mint_buffer_bump; txo_buffer_bump];
  Some (RawInstruction program_id (block_accounts program_id payer operator mint_buffer txo_buffer) data).

Definition process_reorg_blocks (program_id payer : Pubkey) (proof : bytes) (header : PsyBridgeHeader)
    (extra_blocks : list FinalizedBlockMintTxoInfo) (operator mint_buffer txo_buffer : Pubkey)
    (mint_buffer_bump txo_buffer_bump : Z) : option Instruction :=
  data ← gen_aligned_instruction_with_bumps DOGE_BRIDGE_INSTRUCTION_PROCESS_REORG_BLOCKS
           (bytes_of {| pr_proof := proof; pr_header := header |}) [mint_buffer_bump; txo_buffer_bump];
  Some (RawInstruction program_id (block_accounts program_id payer operator mint_buffer txo_buffer)
          (data ++ concat (bytes_of <$> extra_blocks))).

Definition request_withdrawal (program_id user_authority mint user_token_account : Pubkey)
    (recipient_address : bytes) (amount_sats address_type : Z) : Instruction :=
  let request := {| wr_amount_sats := amount_sats; wr_address_type := address_type;
                    wr_recipient_address := recipient_address |} in
  RawInstruction program_id
    [meta_new (pda [DogeBridge.bridge_state_seed] program_id) false; meta_new user_token_account false;
     meta_new mint false; meta_new_readonly user_authority true; meta_new_readonly TOKEN_PROGRAM_ID false]
    (gen_aligned_instruction DOGE_BRIDGE_INSTRUCTION_REQUEST_WITHDRAWAL (bytes_of {| rw_request := request |})).

(** The accounts of the two withdrawal instructions; the addresses of the message
    program are derived from the bridge account, which is the emitter.  [clock] is the
    address of the clock sysvar. *)
Definition withdrawal_metas (clock program_id payer generic_buffer_account wormhole_shim_program_id
    wormhole_core_program_id : Pubkey) : list AccountMeta :=
  let bridge_state := pda [DogeBridge.bridge_state_seed] program_id in
  let bridge_config := pda [[66; 114; 105; 100; 103; 101]] wormhole_core_program_id in
  let fee_collector := pda [[102; 101; 101; 95; 99; 111; 108; 108; 101; 99; 116; 111; 114]] wormhole_core_program_id in
  let emitter := bridge_state in
  let sequence := pda [[83; 101; 113; 117; 101; 110; 99; 101]; emitter] wormhole_core_program_id in
  let message := pda [emitter] wormhole_shim_program_id in
  let event_authority := pda [[95; 95; 101; 118; 101; 110; 116; 95; 97; 117; 116; 104; 111; 114; 105; 116; 121]] wormhole_shim_program_id in
  [meta_new bridge_state false; meta_new_readonly generic_buffer_account false;
   meta_new_readonly wormhole_shim_program_id false; meta_new bridge_config false; meta_new message false;
   meta_new sequence false; meta_new payer true; meta_new fee_collector false; meta_new_readonly clock false;
   meta_new_readonly system_program_id false; meta_new_readonly wormhole_core_program_id false;
   meta_new_readonly event_authority false].

Definition process_withdrawal (clock program_id payer generic_buffer_account wormhole_shim_program_id
    wormhole_core_program_id : Pubkey) (proof : bytes) (new_return_output : PsyReturnTxOutput)
    (new_spent_txo_tree_root : QHash256) (new_next_processed_withdrawals_index : Z) : Instruction :=
  RawInstruction program_id
    (withdrawal_metas clock program_id payer generic_buffer_account wormhole_shim_program_id wormhole_core_program_id)
    (gen_aligned_instruction DOGE_BRIDGE_INSTRUCTION_PROCESS_WITHDRAWAL
       (bytes_of {| pw_proof := proof; pw_new_return_output := new_return_output;
                    pw_new_spent_txo_tree_root := new_spent_txo_tree_root;
                    pw_new_next_processed_withdrawals_index := new_next_processed_withdrawals_index |})).

Definition process_replay_withdrawal (clock program_id payer generic_buffer_account wormhole_shim_program_id
    wormhole_core_program_id : Pubkey) : Instruction :=
  RawInstruction program_id
    (withdrawal_metas clock program_id payer generic_buffer_account wormhole_shim_program_id wormhole_core_program_id)
    (gen_aligned_instruction DOGE_BRIDGE_INSTRUCTION_REPLAY_WITHDRAWAL []).

Definition process_manual_deposit (program_id manual_claim_program_id mint recipient : Pubkey)
    (tx_hash recent_block_merkle_tree_root recent_auto_claim_txo_root : QHash256) (combined_txo_index : Z)
    (depositor_solana_public_key : bytes) (deposit_amount_sats : Z) : Instruction :=
  RawInstruction program_id
    [meta_new (pda [DogeBridge.bridge_state_seed] program_id) false; meta_new recipient false; meta_new mint false;
     meta_new_readonly TOKEN_PROGRAM_ID false; meta_new_readonly manual_claim_program_id true]
    (gen_aligned_instruction DOGE_BRIDGE_INSTRUCTION_PROCESS_MANUAL_DEPOSIT
       (bytes_of {| md_tx_hash := tx_hash; md_recent_block_merkle_tree_root := recent_block_merkle_tree_root;
                    md_recent_auto_claim_txo_root := recent_auto_claim_txo_root;
                    md_combined_txo_index := combined_txo_index;
                    md_depositor_solana_public_key := depositor_solana_public_key;
                    md_deposit_amount_sats := deposit_amount_sats |})).

(** The bridge account is passed read-only here, although the claim program calls the
    bridge with it as a writable account. *)
Definition manual_claim_deposit_instruction (program_id bridge_program_id user_signer payer mint recipient : Pubkey)
    (proof : bytes) (recent_block_merkle_tree_root recent_auto_claim_txo_root new_manual_claim_txo_root
     tx_hash : QHash256) (combined_txo_index deposit_amount_sats : Z) : Instruction :=
  let claim_pda := pda [DogeBridge.manual_claim_seed; user_signer] program_id in
  let bridge_state := pda [DogeBridge.bridge_state_seed] bridge_program_id in
  RawInstruction program_id
    [meta_new claim_pda false; meta_new_readonly bridge_state false; meta_new recipient false; meta_new mint false;
     meta_new_readonly TOKEN_PROGRAM_ID false; meta_new_readonly bridge_program_id false;
     meta_new_readonly user_signer true; meta_new payer true; meta_new_readonly system_program_id false]
    (gen_aligned_instruction MC_MANUAL_CLAIM_TRANSACTION_DESCRIMINATOR
       (bytes_of {| mc_proof := proof; mc_recent_block_merkle_tree_root := recent_block_merkle_tree_root;
                    mc_recent_auto_claim_txo_root := recent_auto_claim_txo_root;
                    mc_new_manual_claim_txo_root := new_manual_claim_txo_root; mc_tx_hash := tx_hash;
                    mc_combined_txo_index := combined_txo_index; mc_deposit_amount_sats := deposit_amount_sats |})).

(** The four bytes of the two mint group instructions. *)
Definition group_payload (group_index mint_buffer_bump : Z) (should_unlock : bool) : bytes :=
  le_bytes 2 group_index ++ [mint_buffer_bump; flag should_unlock].

Definition process_mint_group (program_id operator mint_buffer doge_mint : Pubkey) (recipients : list Pubkey)
    (group_index mint_buffer_bump : Z) (should_unlock : bool) : Instruction :=
  RawInstruction program_id
    ([meta_new (pda [DogeBridge.bridge_state_seed] program_id) false; meta_new mint_buffer false;
      meta_new_readonly operator true; meta_new doge_mint false; meta_new operator true;
      meta_new_readonly PENDING_MINT_BUFFER_BUILDER_PROGRAM_ID false; meta_new_readonly TOKEN_PROGRAM_ID false]
     ++ ((fun r => meta_new r false) <$> recipients))
    (gen_aligned_instruction DOGE_BRIDGE_INSTRUCTION_PROCESS_MINT_GROUP
       (group_payload group_index mint_buffer_bump should_unlock)).

Definition process_mint_group_auto_advance (program_id operator mint_buffer txo_buffer doge_mint : Pubkey)
    (recipients : list Pubkey) (group_index mint_buffer_bump txo_buffer_bump : Z) (should_unlock : bool)
    : option Instruction :=
  data ← gen_aligned_instruction_with_bumps DOGE_BRIDGE_INSTRUCTION_PROCESS_MINT_GROUP_AUTO_ADVANCE
           (group_payload group_index mint_buffer_bump should_unlock) [mint_buffer_bump; txo_buffer_bump];
  Some (RawInstruction program_id
    ([meta_new (pda [DogeBridge.bridge_state_seed] program_id) false; meta_new mint_buffer false;
      meta_new txo_buffer false; meta_new_readonly operator true; meta_new doge_mint false; meta_new operator true;
      meta_new_readonly PENDING_MINT_BUFFER_BUILDER_PROGRAM_ID false;
      meta_new_readonly TXO_BUFFER_BUILDER_PROGRAM_ID false; meta_new_readonly TOKEN_PROGRAM_ID false]
     ++ ((fun r => meta_new r false) <$> recipients)) data).

Definition operator_withdraw_fees (program_id operator operator_token_account doge_mint : Pubkey) : Instruction :=
  RawInstruction program_id
    [meta_new (pda [DogeBridge.bridge_state_seed] program_id) false; meta_new operator_token_account false;
     meta_new doge_mint false; meta_new operator true; meta_new_readonly TOKEN_PROGRAM_ID false]
    (gen_aligned_instruction DOGE_BRIDGE_INSTRUCTION_OPERATOR_WITHDRAW_FEES []).

Definition snapshot_withdrawals (program_id operator payer : Pubkey) : Instruction :=
  RawInstruction program_id
    [meta_new (pda [DogeBridge.bridge_state_seed] program_id) false; meta_new_readonly operator true;
     meta_new payer true]
    (gen_aligned_instruction DOGE_BRIDGE_INSTRUCTION_SNAPSHOT_WITHDRAWALS []).
End client.

(** ** Reading back *)

(** The records behind the fixed part: what is appended is what is read. *)
Lemma read_appended_blocks (pre : bytes) (before todo : list FinalizedBlockMintTxoInfo) :
  Forall pod_wf before -> Forall pod_wf todo ->
  read_extra_blocks (pre ++ concat (bytes_of <$> before ++ todo)) (len pre) FINALIZED_BLOCK_INFO_SIZE
    (len before) (length todo) = Ok todo.
Proof.
  intros Hb Ht. revert before Hb. induction Ht as [|x todo Hx Ht IH]; intros before Hb; [done|].
  cbn [length read_extra_blocks]. cbv zeta.
  destruct (bytes_of_array x Hx) as [Hl _].
  rewrite fmap_app, concat_app, fmap_cons, concat_cons, app_assoc.
  rewrite (slice_app_mid _ _ (pre ++ concat (bytes_of <$> before)) (bytes_of x)).
  - cbn [or_panic res_bind]. rewrite (cast_bytes_of x Hx). cbn [or_panic res_bind].
    replace (len before + 1) with (len (before ++ [x])) by (by rewrite len_app, len_cons, len_nil).
    rewrite <- app_assoc, <- concat_cons, <- fmap_cons, <- concat_app, <- fmap_app.
    replace (before ++ x :: todo) with ((before ++ [x]) ++ todo) by (by rewrite <- app_assoc).
    rewrite IH by (apply Forall_app; auto). done.
  - rewrite len_app, len_concat_pods by done. unfold FINALIZED_BLOCK_INFO_SIZE. lia.
  - rewrite len_app, len_concat_pods by done. unfold FINALIZED_BLOCK_INFO_SIZE. unfold len at 5. rewrite Hl. lia.
Qed.

Lemma read_reorg_data (fixed : ProcessReorgBlocksFixedData) extra :
  pod_wf fixed -> Forall pod_wf extra ->
  ReorgBlockUpdateReader_new (bytes_of fixed ++ concat (bytes_of <$> extra)) =
  Ok (Some {| rbr_proof := pr_proof fixed; rbr_header := pr_header fixed; rbr_extra_finalized_blocks := extra |}).
Proof.
  intros Hf He. destruct (bytes_of_array fixed Hf) as [Hl _]. unfold ReorgBlockUpdateReader_new.
  assert (len (bytes_of fixed) = Z.of_nat (pod_size ProcessReorgBlocksFixedData)) as Hlen by (unfold len; by rewrite Hl).
  rewrite <- Hlen. cbv zeta. pose proof (len_nonneg (concat (bytes_of <$> extra))) as Hn.
  destruct (Z.ltb_spec (len (bytes_of fixed ++ concat (bytes_of <$> extra))) (len (bytes_of fixed))) as [Hlt|_].
  { rewrite len_app in Hlt. lia. }
  rewrite (slice_prefix _ (bytes_of fixed)) by done. cbn [or_panic res_bind]. rewrite (cast_bytes_of fixed Hf).
  cbn [or_panic res_bind].
  assert (Z.to_nat (extra_block_count (bytes_of fixed ++ concat (bytes_of <$> extra)) (len (bytes_of fixed)))
          = length extra) as ->.
  { unfold extra_block_count. rewrite len_app, len_concat_pods by done. fold FINALIZED_BLOCK_INFO_SIZE.
    replace (len (bytes_of fixed) + FINALIZED_BLOCK_INFO_SIZE * len extra - len (bytes_of fixed))
      with (len extra * FINALIZED_BLOCK_INFO_SIZE) by lia.
    rewrite Z.div_mul by done. unfold len. change FINALIZED_BLOCK_INFO_SIZE with 64.
    destruct (Z.ltb_spec 0 (Z.of_nat (length extra) * 64)); lia. }
  by rewrite (read_appended_blocks (bytes_of fixed) [] extra) by (done || constructor).
Qed.

Section delivery.
Context `{Sha256} `{ZkVerifier} `{Runtime} `{ProgramIds} `{Features}.
Implicit Types (program_id : Pubkey) (i : Instruction) (w : World).

(** The bridge program runs [handler] on the accounts that the instruction lists. *)
Definition delivered i (handler : list AccountInfo -> World -> res ProgramError World) : Prop :=
  forall w, deliver DogeBridge.process_instruction i w = handler (account_info <$> instruction_metas i) w.

(** Both ways to prefix a struct reach the dispatcher with tag, bumps and struct. *)
Lemma delivered_aligned program_id metas tag data :
  delivered (RawInstruction program_id metas (gen_aligned_instruction tag data))
    (fun accounts => DogeBridge.dispatch program_id accounts tag data tag tag).
Proof. intros w. exact (process_aligned program_id _ tag (replicate 5 tag) tag tag data w eq_refl). Qed.

Lemma aligned_bumps tag data b6 b7 :
  gen_aligned_instruction_with_bumps tag data [b6; b7] = Some (tag :: replicate 5 tag ++ b6 :: b7 :: data).
Proof. done. Qed.

Lemma delivered_bumps program_id metas tag data b6 b7 :
  delivered (RawInstruction program_id metas (tag :: replicate 5 tag ++ b6 :: b7 :: data))
    (fun accounts => DogeBridge.dispatch program_id accounts tag data b6 b7).
Proof. intros w. exact (process_aligned program_id _ tag (replicate 5 tag) b6 b7 data w eq_refl). Qed.

Lemma delivered_ext i h h' : delivered i h -> (forall accounts w, h accounts w = h' accounts w) -> delivered i h'.
Proof. intros Hd He w. by rewrite Hd, He. Qed.

Lemma parse_bytes_of {A} {PA : Pod A} (a : A) : pod_wf a -> DogeBridge.parse (bytes_of a) = Ok a.
Proof. intros Ha. unfold DogeBridge.parse. by rewrite (cast_bytes_of a Ha). Qed.

Lemma parse_group_payload group bump unlock :
  in_width 16 group -> DogeBridge.parse_mint_group (group_payload group bump unlock) = Ok (group, unlock).
Proof.
  intros Hg. unfold group_payload.
  assert (exists b0 b1, le_bytes 2 group = [b0; b1]) as (b0 & b1 & E) by (by do 2 eexists).
  rewrite E. cbn [app DogeBridge.parse_mint_group]. rewrite <- E, le_val_bytes by done. by destruct unlock.
Qed.

Lemma block_update_delivered program_id payer proof header operator mb tb b6 b7 :
  pod_wf {| bu_proof := proof; bu_header := header |} ->
  exists i, block_update program_id payer proof header operator mb tb b6 b7 = Some i /\
    delivered i (fun accounts => DogeBridge.process_block_update program_id accounts proof header b6 b7) /\
    signed_by (account_info <$> instruction_metas i) 3 operator.
Proof.
  intros Hwf. eexists. split; [unfold block_update; rewrite aligned_bumps; reflexivity|]. split; [|by eexists].
  eapply delivered_ext; [apply delivered_bumps|]. intros accounts w.
  cbn [DogeBridge.dispatch DOGE_BRIDGE_INSTRUCTION_BLOCK_UPDATE]. by rewrite (parse_bytes_of _ Hwf).
Qed.

Lemma reorg_delivered program_id payer proof header extra operator mb tb b6 b7 :
  pod_wf {| pr_proof := proof; pr_header := header |} -> Forall pod_wf extra ->
  exists i, process_reorg_blocks program_id payer proof header extra operator mb tb b6 b7 = Some i /\
    delivered i (fun accounts => DogeBridge.process_reorg_blocks program_id accounts proof header extra b6 b7) /\
    signed_by (account_info <$> instruction_metas i) 3 operator.
Proof.
  intros Hwf He. eexists. split; [unfold process_reorg_blocks; rewrite aligned_bumps; reflexivity|]. split; [|by eexists].
  eapply delivered_ext; [apply (delivered_bumps program_id _ _ (bytes_of {| pr_proof := proof; pr_header := header |} ++ concat (bytes_of <$> extra)))|].
  intros accounts w. cbn [DogeBridge.dispatch DOGE_BRIDGE_INSTRUCTION_PROCESS_REORG_BLOCKS].
  by rewrite (read_reorg_data _ _ Hwf He).
Qed.

(** Solves the delivery of an instruction with the eight-byte prefix of [tag]; the
    struct, if any, parses by [lem]. *)
Ltac deliver_with lem :=
  eapply delivered_ext; [apply delivered_aligned|]; intros ? ?;
  cbn [DogeBridge.dispatch DOGE_BRIDGE_INSTRUCTION_INITIALIZE DOGE_BRIDGE_INSTRUCTION_REQUEST_WITHDRAWAL
    DOGE_BRIDGE_INSTRUCTION_PROCESS_WITHDRAWAL DOGE_BRIDGE_INSTRUCTION_OPERATOR_WITHDRAW_FEES
    DOGE_BRIDGE_INSTRUCTION_PROCESS_MANUAL_DEPOSIT DOGE_BRIDGE_INSTRUCTION_REPLAY_WITHDRAWAL
    DOGE_BRIDGE_INSTRUCTION_PROCESS_MINT_GROUP DOGE_BRIDGE_INSTRUCTION_SNAPSHOT_WITHDRAWALS];
  rewrite lem; reflexivity.

Lemma mint_group_delivered program_id operator mb mint recipients group bump unlock :
  in_width 16 group ->
  let i := process_mint_group program_id operator mb mint recipients group bump unlock in
  delivered i (fun accounts => DogeBridge.process_process_mint_group program_id accounts group unlock) /\
  signed_by (account_info <$> instruction_metas i) 2 operator /\
  key <$> drop 7 (account_info <$> instruction_metas i) = recipients.
Proof.
  intros Hg i. split; [deliver_with (parse_group_payload group bump unlock Hg)|]. split; [by eexists|].
  cbn. rewrite drop_0, <- !list_fmap_compose. apply list_fmap_id.
Qed.

Lemma auto_advance_delivered program_id operator mb tb mint recipients group b6 b7 unlock :
  in_width 16 group ->
  exists i, process_mint_group_auto_advance program_id operator mb tb mint recipients group b6 b7 unlock = Some i /\
    delivered i (fun accounts =>
      DogeBridge.process_process_mint_group_auto_advance program_id accounts group b7 unlock) /\
    signed_by (account_info <$> instruction_metas i) 3 operator /\
    key <$> drop 9 (account_info <$> instruction_metas i) = recipients.
Proof.
  intros Hg. eexists. split; [unfold process_mint_group_auto_advance; rewrite aligned_bumps; reflexivity|]. split.
  { eapply delivered_ext; [apply delivered_bumps|]. intros accounts w.
    cbn [DogeBridge.dispatch DOGE_BRIDGE_INSTRUCTION_PROCESS_MINT_GROUP_AUTO_ADVANCE].
    by rewrite (parse_group_payload _ _ _ Hg). }
  split; [by eexists|]. cbn. rewrite drop_0, <- !list_fmap_compose. apply list_fmap_id.
Qed.

(** [C23] The program understands the client's block and mint instructions.  For
    arguments of the right types, building a block update, a reorg with any list of
    skipped blocks or a mint group succeeds, and the bridge program answers the
    instruction by running exactly its handler, on the proof, header, skipped blocks,
    group, bumps and flag that the client was given, with the operator as the signer
    where the handler looks for it and the recipients where it pays them. *)
Theorem client_operator_instructions_delivered program_id payer proof header extra operator mb tb mint recipients
    group b6 b7 unlock :
  byte_array 256 proof -> pod_wf header -> Forall pod_wf extra -> in_width 16 group ->
  (exists i, block_update program_id payer proof header operator mb tb b6 b7 = Some i /\
    delivered i (fun accounts => DogeBridge.process_block_update program_id accounts proof header b6 b7) /\
    signed_by (account_info <$> instruction_metas i) 3 operator) /\
  (exists i, process_reorg_blocks program_id payer proof header extra operator mb tb b6 b7 = Some i /\
    delivered i (fun accounts => DogeBridge.process_reorg_blocks program_id accounts proof header extra b6 b7) /\
    signed_by (account_info <$> instruction_metas i) 3 operator) /\
  (let i := process_mint_group program_id operator mb mint recipients group b6 unlock in
    delivered i (fun accounts => DogeBridge.process_process_mint_group program_id accounts group unlock) /\
    signed_by (account_info <$> instruction_metas i) 2 operator /\
    key <$> drop 7 (account_info <$> instruction_metas i) = recipients) /\
  (exists i, process_mint_group_auto_advance program_id operator mb tb mint recipients group b6 b7 unlock = Some i /\
    delivered i (fun accounts =>
      DogeBridge.process_process_mint_group_auto_advance program_id accounts group b7 unlock) /\
    signed_by (account_info <$> instruction_metas i) 3 operator /\
    key <$> drop 9 (account_info <$> instruction_metas i) = recipients).
Proof.
  intros Hp Hh He Hg. split; [by apply block_update_delivered|]. split; [by apply reorg_delivered|].
  split; [by apply mint_group_delivered|by apply auto_advance_delivered].
Qed.

(** The other instructions. *)

Lemma initialize_delivered payer operator fee_spender mint params :
  byte_array 32 operator -> byte_array 32 fee_spender -> byte_array 32 mint -> pod_wf params ->
  delivered (initialize_bridge payer operator fee_spender mint params)
    (fun accounts => DogeBridge.process_initialize DOGE_BRIDGE_PROGRAM_ID accounts
      {| init_operator_pubkey := operator; init_fee_spender_pubkey := fee_spender; init_doge_mint := mint;
         init_bridge_header := ip_bridge_header params;
         init_start_return_txo_output := ip_start_return_txo_output params;
         init_config_params := ip_config_params params;
         init_custodian_wallet_config_hash := ip_custodian_wallet_config_hash params |}).
Proof.
  intros Ho Hf Hm (Hw1 & Hw2 & Hw3 & Hw4). unfold initialize_bridge. cbv zeta.
  match goal with |- context [bytes_of ?x] => assert (pod_wf x) as Hwf by exact (conj Ho (conj Hf (conj Hm (conj Hw1 (conj Hw2 (conj Hw3 Hw4)))))) end.
  deliver_with (parse_bytes_of _ Hwf).
Qed.

Lemma request_delivered program_id user mint token recipient sats ty :
  pod_wf {| wr_amount_sats := sats; wr_address_type := ty; wr_recipient_address := recipient |} ->
  delivered (request_withdrawal program_id user mint token recipient sats ty)
    (fun accounts => DogeBridge.process_request_withdrawal accounts
      {| wr_amount_sats := sats; wr_address_type := ty; wr_recipient_address := recipient |}).
Proof.
  intros Hr. unfold request_withdrawal. cbv zeta.
  match goal with |- context [bytes_of ?x] => assert (pod_wf x) as Hwf by exact Hr end.
  deliver_with (parse_bytes_of _ Hwf).
Qed.

Lemma withdrawal_delivered clock program_id payer buffer shim core proof output root next :
  byte_array 256 proof -> pod_wf output -> byte_array 32 root -> in_width 64 next ->
  delivered (process_withdrawal clock program_id payer buffer shim core proof output root next)
    (fun accounts => DogeBridge.process_process_withdrawal program_id accounts proof output root next).
Proof.
  intros Hp Ho Hr Hn. unfold process_withdrawal.
  match goal with |- context [bytes_of ?x] => assert (pod_wf x) as Hwf by exact (conj Hp (conj Ho (conj Hr Hn))) end.
  deliver_with (parse_bytes_of _ Hwf).
Qed.

Lemma deposit_delivered program_id claim mint recipient tx br ar idx depositor sats :
  pod_wf {| md_tx_hash := tx; md_recent_block_merkle_tree_root := br; md_recent_auto_claim_txo_root := ar;
            md_combined_txo_index := idx; md_depositor_solana_public_key := depositor;
            md_deposit_amount_sats := sats |} ->
  delivered (process_manual_deposit program_id claim mint recipient tx br ar idx depositor sats)
    (fun accounts => DogeBridge.process_process_manual_deposit program_id accounts tx br ar idx sats depositor).
Proof. intros Hwf. unfold process_manual_deposit. deliver_with (parse_bytes_of _ Hwf). Qed.

Lemma no_data_delivered program_id metas tag handler :
  (forall accounts w, DogeBridge.dispatch program_id accounts tag [] tag tag w = handler accounts w) ->
  delivered (RawInstruction program_id metas (gen_aligned_instruction tag [])) handler.
Proof. intros He. by eapply delivered_ext; [apply delivered_aligned|]. Qed.

(** [C24] The program understands the client's other instructions: the initialisation,
    withdrawal requests, withdrawals and their replay, manual deposits, fee withdrawals
    and snapshots.  For arguments of the right types each is answered by exactly its
    handler, on the arguments that the client was given; the user, and the operator for
    fees and snapshots, sign where the handler looks for the signature. *)
Theorem client_user_instructions_delivered program_id payer operator fee_spender mint params user token recipient sats
    ty clock buffer shim core proof output root next claim tx br ar idx depositor deposit :
  byte_array 32 operator -> byte_array 32 fee_spender -> byte_array 32 mint -> pod_wf params ->
  pod_wf {| wr_amount_sats := sats; wr_address_type := ty; wr_recipient_address := recipient |} ->
  byte_array 256 proof -> pod_wf output -> byte_array 32 root -> in_width 64 next ->
  pod_wf {| md_tx_hash := tx; md_recent_block_merkle_tree_root := br; md_recent_auto_claim_txo_root := ar;
            md_combined_txo_index := idx; md_depositor_solana_public_key := depositor;
            md_deposit_amount_sats := deposit |} ->
  delivered (initialize_bridge payer operator fee_spender mint params)
    (fun accounts => DogeBridge.process_initialize DOGE_BRIDGE_PROGRAM_ID accounts
      {| init_operator_pubkey := operator; init_fee_spender_pubkey := fee_spender; init_doge_mint := mint;
         init_bridge_header := ip_bridge_header params;
         init_start_return_txo_output := ip_start_return_txo_output params;
         init_config_params := ip_config_params params;
         init_custodian_wallet_config_hash := ip_custodian_wallet_config_hash params |}) /\
  (let i := request_withdrawal program_id user mint token recipient sats ty in
    delivered i (fun accounts => DogeBridge.process_request_withdrawal accounts
      {| wr_amount_sats := sats; wr_address_type := ty; wr_recipient_address := recipient |}) /\
    signed_by (account_info <$> instruction_metas i) 3 user) /\
  delivered (process_withdrawal clock program_id payer buffer shim core proof output root next)
    (fun accounts => DogeBridge.process_process_withdrawal program_id accounts proof output root next) /\
  delivered (process_replay_withdrawal clock program_id payer buffer shim core)
    (DogeBridge.process_replay_withdrawal program_id) /\
  delivered (process_manual_deposit program_id claim mint recipient tx br ar idx depositor deposit)
    (fun accounts => DogeBridge.process_process_manual_deposit program_id accounts tx br ar idx deposit depositor) /\
  (let i := operator_withdraw_fees program_id operator token mint in
    delivered i (DogeBridge.process_operator_withdraw_fees program_id) /\
    signed_by (account_info <$> instruction_metas i) 3 operator) /\
  (let i := snapshot_withdrawals program_id operator payer in
    delivered i (DogeBridge.process_snapshot_withdrawals program_id) /\
    signed_by (account_info <$> instruction_metas i) 1 operator).
Proof.
  intros. split; [by apply initialize_delivered|].
  split; [split; [by apply request_delivered|by eexists]|].
  split; [by apply withdrawal_delivered|]. split; [by apply no_data_delivered|].
  split; [by apply deposit_delivered|].
  split; (split; [by apply no_data_delivered|by eexists]).
Qed.
End delivery.

(** ** The claim program *)

Section claims.
Context `{Sha256} `{ZkVerifier} `{Runtime} `{ProgramIds} `{Features} `{TokenAddresses}.

(** The claim program reads the client's claim as it was meant, and what it passes on
    to the bridge is read as the same deposit, signed for by the claim account of the
    depositor. *)
Lemma claim_delivered program_id bridge user payer mint recipient proof br ar new tx idx sats w :
  pod_wf {| mc_proof := proof; mc_recent_block_merkle_tree_root := br; mc_recent_auto_claim_txo_root := ar;
            mc_new_manual_claim_txo_root := new; mc_tx_hash := tx; mc_combined_txo_index := idx;
            mc_deposit_amount_sats := sats |} ->
  let i := manual_claim_deposit_instruction program_id bridge user payer mint recipient proof br ar new tx idx sats in
  deliver ManualClaim.process_instruction i w =
  ManualClaim.process_claim program_id (account_info <$> instruction_metas i) proof br ar new tx idx sats w.
Proof.
  intros Hwf i. unfold i, manual_claim_deposit_instruction, deliver, instruction_metas, ManualClaim.process_instruction.
  cbv zeta. unfold gen_aligned_instruction.
  rewrite (slice_suffix 8 _ (replicate 8 MC_MANUAL_CLAIM_TRANSACTION_DESCRIMINATOR)); [|done|by rewrite len_app].
  cbn [or_panic res_bind]. by rewrite (cast_bytes_of _ Hwf).
Qed.

Lemma claim_passed_on (helper : ManualClaim.SolanaManualDepositHelper) br ar tx idx depositor sats :
  pod_wf {| md_tx_hash := tx; md_recent_block_merkle_tree_root := br; md_recent_auto_claim_txo_root := ar;
            md_combined_txo_index := idx; md_depositor_solana_public_key := depositor;
            md_deposit_amount_sats := sats |} ->
  let i := ManualClaim.deposit_instruction helper br ar tx idx depositor sats in
  delivered i (fun accounts => DogeBridge.process_process_manual_deposit (key (ManualClaim.mh_bridge_program helper))
    accounts tx br ar idx sats depositor) /\
  signed_by (account_info <$> instruction_metas i) 4 (key (ManualClaim.mh_claim_pda helper)).
Proof.
  intros Hwf i. split; [|by eexists]. intros w. unfold i, ManualClaim.deposit_instruction, deliver, instruction_metas.
  cbv zeta. etrans; [exact (process_aligned _ _ 5 (zeros 5) 0 0 _ w eq_refl)|].
  cbn [DogeBridge.dispatch]. by rewrite (parse_bytes_of _ Hwf).
Qed.

(** A manual claim reaches the bridge as the user meant it.  The claim program
    reads the client's instruction as the claim with exactly the given proof, roots,
    transaction, output and amount; and the call that it makes is answered by the
    bridge with the deposit handler on the same transaction, roots, output, amount and
    depositor, with the claim account as the signer. *)
Theorem manual_claim_passed_on program_id bridge user payer mint recipient proof br ar new tx idx sats helper :
  byte_array 256 proof -> byte_array 32 br -> byte_array 32 ar -> byte_array 32 new -> byte_array 32 tx ->
  in_width 64 idx -> in_width 64 sats -> byte_array 32 user ->
  (let i := manual_claim_deposit_instruction program_id bridge user payer mint recipient proof br ar new tx idx sats in
   forall w, deliver ManualClaim.process_instruction i w =
     ManualClaim.process_claim program_id (account_info <$> instruction_metas i) proof br ar new tx idx sats w) /\
  (let i := ManualClaim.deposit_instruction helper br ar tx idx user sats in
   delivered i (fun accounts => DogeBridge.process_process_manual_deposit (key (ManualClaim.mh_bridge_program helper))
     accounts tx br ar idx sats user) /\
   signed_by (account_info <$> instruction_metas i) 4 (key (ManualClaim.mh_claim_pda helper))).
Proof. intros. split; [intros i w; by apply claim_delivered|by apply claim_passed_on]. Qed.
End claims.
End BridgeClient.
