(* ===== verification/HistorySync.v ===== *)
(** * HistorySync: rebuilding the history of the bridge from the chain

    Models [clients/rust/src/history.rs]: the client reads the transactions of the
    bridge account and of the operator, parses the instructions in them and rebuilds
    for every block the mints and transaction outputs that were uploaded for it.

    The RPC server is the interface [RpcServer].  It returns transactions as the
    Solana crates decode them; [Binary None] is a transaction that does not decode.
    Every call first takes a slot of the rate limiter ([acquire]), which may fail.
    The client reads structs from the heap buffer of the instruction, whose start the
    allocator aligns to eight bytes. *)
From S2P Require Import Prelude Errors Pod Hash Types BufferClient Runtime MintGroup ProgramState BridgeInstructions RpcClient.
From Stdlib Require Import ZArith Lia.
From stdpp Require Import base decidable list numbers option countable gmap sorting.

Open Scope Z_scope.
Open Scope bridge_scope.

Abbreviation Signature := bytes.

(** ** Transactions as the RPC client returns them *)

Record CompiledInstruction := {
  program_id_index : Z;
  ci_accounts : list Z;
  ci_data : bytes
}.

Record Message := {
  static_account_keys : list Pubkey;
  instructions : list CompiledInstruction
}.

Inductive EncodedTransaction :=
  | Binary (decoded : option Message)
  | OtherEncoding.

Record TransactionStatus := {
  tx_slot : Z;
  tx_block_time : option Z;
  tx_transaction : EncodedTransaction
}.

(** A signature string may fail to parse. *)
Record SignatureInfo := {
  si_signature : option Signature;
  si_slot : Z
}.

(** What a slot of the limiter is taken for. *)
Inductive Request :=
  | SignaturesOf (address : Pubkey) (before : option Signature)
  | TransactionOf (signature : Signature)
  | AccountOf (account : Pubkey).

Class RpcServer `{ForeignErrors} := {
  (** [rate_limiter.acquire()] before a request *)
  acquire : Request -> res RpcClient.BridgeError unit;
  (** [get_signatures_for_address_with_config], newest first: address, [before],
      [until], [limit] *)
  get_signatures : Pubkey -> option Signature -> option Signature -> Z ->
    res RpcClient.BridgeError (list SignatureInfo);
  (** [get_transaction_with_config] *)
  get_transaction : Signature -> res RpcClient.BridgeError TransactionStatus;
  (** [get_account], of which only the data is used *)
  get_account : Pubkey -> res RpcClient.BridgeError bytes
}.

(** The order in which a [HashMap] is traversed. *)
Class HashMapOrder := {
  iterate : gmap Z bytes -> list (Z * bytes);
  iterate_perm m : iterate m ≡ₚ map_to_list m
}.

Module HistorySync.

Definition PM_TAG_INSERT : Z := 3.
Definition TXO_TAG_WRITE : Z := 2.
Definition TXO_TAG_SET_LEN : Z := 1.

Record ParsedOperatorTx := {
  slot : Z;
  is_block_update : bool;
  mint_inserts : list (Pubkey * Z * list PendingMint);
  txo_set_lens : list (Pubkey * Z * Z);
  txo_writes : list (Pubkey * Z * Z * bytes);
  mint_reinits : list Pubkey
}.

Record OperatorTxCache := { transactions : list ParsedOperatorTx }.

Record BlockUpdateInfo := {
  bi_block_height : Z;
  bi_signature : Signature;
  bi_slot : Z;
  bi_block_time : option Z;
  bi_is_reorg : bool;
  bi_extra_finalized_blocks : list FinalizedBlockMintTxoInfo;
  bi_mint_buffer : option Pubkey;
  bi_txo_buffer : option Pubkey;
  bi_operator : option Pubkey
}.

Record BlockRecord := {
  br_block_height : Z;
  br_signature : Signature;
  br_slot : Z;
  br_block_time : option Z;
  br_txo_indices : list Z;
  br_pending_mints : list PendingMint;
  br_is_reorg : bool;
  br_extra_finalized_blocks : list FinalizedBlockMintTxoInfo
}.

Definition to_block_record (self : BlockUpdateInfo) (pending_mints : list PendingMint) (txo_indices : list Z)
    : BlockRecord :=
  {| br_block_height := bi_block_height self; br_signature := bi_signature self; br_slot := bi_slot self;
     br_block_time := bi_block_time self; br_txo_indices := txo_indices; br_pending_mints := pending_mints;
     br_is_reorg := bi_is_reorg self; br_extra_finalized_blocks := bi_extra_finalized_blocks self |}.

Record WithdrawalRequestRecord := {
  wq_signature : Signature;
  wq_slot : Z;
  wq_block_time : option Z;
  wq_amount_sats : Z;
  wq_recipient_address : bytes;
  wq_address_type : Z;
  wq_user_pubkey : Pubkey
}.

Record ProcessedWithdrawalRecord := {
  pwr_signature : Signature;
  pwr_slot : Z;
  pwr_block_time : option Z;
  pwr_return_output_sighash : bytes;
  pwr_return_output_index : Z;
  pwr_return_output_amount : Z;
  pwr_spent_txo_tree_root : bytes;
  pwr_next_processed_withdrawals_index : Z
}.

Record ManualDepositRecord := {
  mdr_signature : Signature;
  mdr_slot : Z;
  mdr_block_time : option Z;
  mdr_tx_hash : bytes;
  mdr_combined_txo_index : Z;
  mdr_deposit_amount_sats : Z;
  mdr_depositor_pubkey : bytes
}.

Inductive HistoryRecord :=
  | Block (r : BlockRecord)
  | WithdrawalRequest (r : WithdrawalRequestRecord)
  | ProcessedWithdrawal (r : ProcessedWithdrawalRecord)
  | ManualDeposit (r : ManualDepositRecord).

Record SyncCheckpoint := {
  last_signature : Signature;
  last_slot : Z;
  records_processed : Z;
  last_block_height : option Z
}.

(** [Signature::default()] is all zero. *)
Definition SyncCheckpoint_new : SyncCheckpoint :=
  {| last_signature := zeros 64; last_slot := 0; records_processed := 0; last_block_height := None |}.

Record HistorySyncConfig := {
  rpc_url : bytes;
  program_id : Pubkey;
  bridge_state_pda : Pubkey;
  pending_mint_program_id : Pubkey;
  txo_buffer_program_id : Pubkey;
  rate_limit : RpcClient.RateLimitConfig;
  signature_batch_size : Z;
  include_withdrawals : bool;
  include_manual_deposits : bool
}.

Definition config_new (rpc_url : bytes) (program_id bridge_state_pda pending_mint_program_id
    txo_buffer_program_id : Pubkey) : HistorySyncConfig :=
  {| rpc_url := rpc_url; program_id := program_id; bridge_state_pda := bridge_state_pda;
     pending_mint_program_id := pending_mint_program_id; txo_buffer_program_id := txo_buffer_program_id;
     rate_limit := RpcClient.RateLimitConfig_default; signature_batch_size := 100; include_withdrawals := true;
     include_manual_deposits := true |}.

(** ** Parsing instructions *)

(** [account_keys[accounts[i] as usize]], if both exist. *)
Definition instruction_account (accounts : list Z) (account_keys : list Pubkey) (i : nat) : option Pubkey :=
  a ← accounts !! i; index account_keys a.

(** [slice::chunks_exact] *)
Definition chunks_exact {A} (n : nat) (l : list A) : list (list A) :=
  (fun i => take n (drop (i * n) l)) <$> seq 0 (length l / n).

(** The mints in the data of an insert, read byte by byte. *)
Definition parse_mints (mint_data : bytes) : list PendingMint :=
  (fun chunk => {| recipient := take 32 chunk; amount := le_val (take 8 (drop 32 chunk)) |})
    <$> chunks_exact 40 mint_data.

(** [u16::from_le_bytes] and [u32::from_le_bytes] at an offset. *)
Definition le_at (n : nat) (offset : nat) (d : bytes) : Z := le_val (take n (drop offset d)).

Definition parse_txo_buffer_set_len_with_batch (ix_data : bytes) (accounts : list Z) (account_keys : list Pubkey)
    (expected_buffer : Pubkey) : option (Z * Z) :=
  if negb (bool_decide (head ix_data = Some TXO_TAG_SET_LEN)) then None else
  if negb (bool_decide (instruction_account accounts account_keys 0 = Some expected_buffer)) then None else
  if len ix_data <? 14 then None else
  Some (le_at 4 6 ix_data, le_at 4 1 ix_data).

Definition parse_txo_buffer_write_with_batch (ix_data : bytes) (accounts : list Z) (account_keys : list Pubkey)
    (expected_buffer : Pubkey) : option (Z * Z * bytes) :=
  if negb (bool_decide (head ix_data = Some TXO_TAG_WRITE)) then None else
  if negb (bool_decide (instruction_account accounts account_keys 0 = Some expected_buffer)) then None else
  if len ix_data <? 9 then None else
  Some (le_at 4 1 ix_data, le_at 4 5 ix_data, drop 9 ix_data).

Definition parse_pending_mint_insert (ix_data : bytes) (accounts : list Z) (account_keys : list Pubkey)
    (expected_buffer : Pubkey) : option (Z * list PendingMint) :=
  if negb (bool_decide (head ix_data = Some PM_TAG_INSERT)) then None else
  if negb (bool_decide (instruction_account accounts account_keys 0 = Some expected_buffer)) then None else
  if len ix_data <? 3 then None else
  Some (le_at 2 1 ix_data, parse_mints (drop 3 ix_data)).

(** [ix.data[4]], when there are at least five bytes. *)
Definition discriminator_of (ix_data : bytes) : option Z := ix_data !! 4%nat.

Definition is_block_discriminator (d : Z) : bool :=
  (d =? DOGE_BRIDGE_INSTRUCTION_BLOCK_UPDATE) || (d =? DOGE_BRIDGE_INSTRUCTION_PROCESS_REORG_BLOCKS).

(** An instruction of the bridge that updates blocks. *)
Definition is_block_instruction (config : HistorySyncConfig) (account_keys : list Pubkey) (ix : CompiledInstruction)
    : bool :=
  match index account_keys (program_id_index ix), discriminator_of (ci_data ix) with
  | Some p, Some d => bool_decide (p = program_id config) && is_block_discriminator d
  | _, _ => false
  end.

(** *** parse_operator_tx *)

Definition set_block_update (p : ParsedOperatorTx) : ParsedOperatorTx :=
  {| slot := slot p; is_block_update := true; mint_inserts := mint_inserts p; txo_set_lens := txo_set_lens p;
     txo_writes := txo_writes p; mint_reinits := mint_reinits p |}.
Definition push_reinit (b : Pubkey) (p : ParsedOperatorTx) : ParsedOperatorTx :=
  {| slot := slot p; is_block_update := is_block_update p; mint_inserts := mint_inserts p;
     txo_set_lens := txo_set_lens p; txo_writes := txo_writes p; mint_reinits := mint_reinits p ++ [b] |}.
Definition push_insert (x : Pubkey * Z * list PendingMint) (p : ParsedOperatorTx) : ParsedOperatorTx :=
  {| slot := slot p; is_block_update := is_block_update p; mint_inserts := mint_inserts p ++ [x];
     txo_set_lens := txo_set_lens p; txo_writes := txo_writes p; mint_reinits := mint_reinits p |}.
Definition push_set_len (x : Pubkey * Z * Z) (p : ParsedOperatorTx) : ParsedOperatorTx :=
  {| slot := slot p; is_block_update := is_block_update p; mint_inserts := mint_inserts p;
     txo_set_lens := txo_set_lens p ++ [x]; txo_writes := txo_writes p; mint_reinits := mint_reinits p |}.
Definition push_write (x : Pubkey * Z * Z * bytes) (p : ParsedOperatorTx) : ParsedOperatorTx :=
  {| slot := slot p; is_block_update := is_block_update p; mint_inserts := mint_inserts p;
     txo_set_lens := txo_set_lens p; txo_writes := txo_writes p ++ [x]; mint_reinits := mint_reinits p |}.

(** The instructions of the mint buffer program. *)
Definition parse_mint_instruction (buffer : Pubkey) (d : bytes) (p : ParsedOperatorTx) : ParsedOperatorTx :=
  let p := if bool_decide (head d = Some 1) then push_reinit buffer p else p in
  if (3 <=? len d) && bool_decide (head d = Some PM_TAG_INSERT) then
    match parse_mints (drop 3 d) with
    | [] => p
    | mints => push_insert (buffer, le_at 2 1 d, mints) p
    end
  else p.

(** The instructions of the TXO buffer program. *)
Definition parse_txo_instruction (buffer : Pubkey) (d : bytes) (p : ParsedOperatorTx) : ParsedOperatorTx :=
  let p := if (14 <=? len d) && bool_decide (head d = Some TXO_TAG_SET_LEN)
           then push_set_len (buffer, le_at 4 6 d, le_at 4 1 d) p else p in
  if (9 <=? len d) && bool_decide (head d = Some TXO_TAG_WRITE)
  then push_write (buffer, le_at 4 1 d, le_at 4 5 d, drop 9 d) p else p.

(** The body of the loop; a [continue] leaves what was recorded so far. *)
Definition parse_operator_instruction (config : HistorySyncConfig) (account_keys : list Pubkey)
    (parsed : ParsedOperatorTx) (ix : CompiledInstruction) : ParsedOperatorTx :=
  match index account_keys (program_id_index ix) with
  | None => parsed
  | Some program =>
      let parsed := if is_block_instruction config account_keys ix then set_block_update parsed else parsed in
      let buffer := instruction_account (ci_accounts ix) account_keys 0 in
      let txo_part p :=
        if bool_decide (program = txo_buffer_program_id config) then
          match buffer with None => p | Some b => parse_txo_instruction b (ci_data ix) p end
        else p in
      if bool_decide (program = pending_mint_program_id config) then
        match buffer with None => parsed | Some b => txo_part (parse_mint_instruction b (ci_data ix) parsed) end
      else txo_part parsed
  end.

Definition empty_tx (slot : Z) : ParsedOperatorTx :=
  {| slot := slot; is_block_update := false; mint_inserts := []; txo_set_lens := []; txo_writes := [];
     mint_reinits := [] |}.

Definition parse_operator_tx (config : HistorySyncConfig) (slot : Z) (message : Message) : ParsedOperatorTx :=
  fold_left (parse_operator_instruction config (static_account_keys message)) (instructions message) (empty_tx slot).

(** ** Rebuilding the buffers *)

(** What is known of the buffers of a block while the transactions are read. *)
Record Rebuild := {
  rb_mints : gmap Z (list PendingMint);
  rb_writes : gmap Z bytes;
  rb_size : Z;
  rb_batch : option Z;
  rb_found : bool
}.

Definition rebuild_empty : Rebuild :=
  {| rb_mints := ∅; rb_writes := ∅; rb_size := 0; rb_batch := None; rb_found := false |}.

Definition with_mints (m : gmap Z (list PendingMint)) (r : Rebuild) : Rebuild :=
  {| rb_mints := m; rb_writes := rb_writes r; rb_size := rb_size r; rb_batch := rb_batch r; rb_found := rb_found r |}.
Definition with_size (b : option Z) (n : Z) (r : Rebuild) : Rebuild :=
  {| rb_mints := rb_mints r; rb_writes := rb_writes r; rb_size := n; rb_batch := b; rb_found := rb_found r |}.
Definition with_writes (b : option Z) (ws : gmap Z bytes) (r : Rebuild) : Rebuild :=
  {| rb_mints := rb_mints r; rb_writes := ws; rb_size := rb_size r; rb_batch := b; rb_found := rb_found r |}.
Definition with_found (r : Rebuild) : Rebuild :=
  {| rb_mints := rb_mints r; rb_writes := rb_writes r; rb_size := rb_size r; rb_batch := rb_batch r; rb_found := true |}.

Section rebuild.
Context (mint_buffer txo_buffer : Pubkey).

(** A reinit clears the mints, unless the block update has been seen. *)
Fixpoint rebuild_reinits (l : list Pubkey) (r : Rebuild) : Rebuild :=
  match l with
  | [] => r
  | b :: l =>
      if bool_decide (b = mint_buffer) then
        if rb_found r then r else rebuild_reinits l (with_mints ∅ r)
      else rebuild_reinits l r
  end.

Fixpoint rebuild_inserts (l : list (Pubkey * Z * list PendingMint)) (r : Rebuild) : Rebuild :=
  match l with
  | [] => r
  | (b, group_idx, mints) :: l =>
      rebuild_inserts l
        (if bool_decide (b = mint_buffer) then with_mints (<[group_idx := mints]> (rb_mints r)) r else r)
  end.

Fixpoint rebuild_set_lens (l : list (Pubkey * Z * Z)) (r : Rebuild) : Rebuild :=
  match l with
  | [] => r
  | (b, batch_id, size) :: l =>
      if bool_decide (b = txo_buffer) then
        match rb_batch r with
        | None => rebuild_set_lens l (with_size (Some batch_id) size r)
        | Some current =>
            if current =? batch_id then rebuild_set_lens l (with_size (Some current) size r)
            else if rb_found r then r
            else rebuild_set_lens l (with_size (Some batch_id) size (with_writes (Some batch_id) ∅ r))
        end
      else rebuild_set_lens l r
  end.

Fixpoint rebuild_writes (l : list (Pubkey * Z * Z * bytes)) (r : Rebuild) : Rebuild :=
  match l with
  | [] => r
  | (b, batch_id, offset, d) :: l =>
      rebuild_writes l
        (if bool_decide (b = txo_buffer) &&
            (bool_decide (rb_batch r = None) || bool_decide (rb_batch r = Some batch_id))
         then with_writes (Some batch_id) (<[offset := d]> (rb_writes r)) r else r)
  end.

(** The loop over the transactions, newest first; it ends at the second block update. *)
Fixpoint rebuild_loop (txs : list ParsedOperatorTx) (r : Rebuild) : Rebuild :=
  match txs with
  | [] => r
  | tx :: txs =>
      if is_block_update tx && rb_found r then r else
      let r := if is_block_update tx then with_found r else r in
      rebuild_loop txs
        (rebuild_writes (txo_writes tx) (rebuild_set_lens (txo_set_lens tx)
          (rebuild_inserts (mint_inserts tx) (rebuild_reinits (mint_reinits tx) r))))
  end.
End rebuild.

(** The groups in the order of their indices. *)
Definition assemble_mints (m : gmap Z (list PendingMint)) : list PendingMint :=
  concat ((fun idx => default [] (m !! idx)) <$> merge_sort Z.le (map_to_list m).*1).

Section assemble.
Context `{HashMapOrder}.

(** [end - start] panics when a write starts behind the expected size. *)
Fixpoint copy_writes (writes : list (Z * bytes)) (raw_data : bytes) : option bytes :=
  match writes with
  | [] => Some raw_data
  | (start, d) :: writes =>
      let end_ := Z.min (start + len d) (len raw_data) in
      if end_ <? start then None else
      raw_data ← write_slice start (take (Z.to_nat (end_ - start)) d) raw_data;
      copy_writes writes raw_data
  end.

Definition assemble_txo_indices (writes : gmap Z bytes) (expected_size : Z) : option (list Z) :=
  if bool_decide (writes = ∅) || (expected_size =? 0) then Some [] else
  raw_data ← copy_writes (iterate writes) (zeros (Z.to_nat expected_size));
  Some (le_val <$> chunks_exact 4 raw_data).

Definition reconstruct_buffers_from_cache (cache : OperatorTxCache) (mint_buffer txo_buffer : Pubkey)
    (block_update_slot : Z) : option (list PendingMint * list Z) :=
  let relevant_txs := filter (fun tx => slot tx <= block_update_slot) (transactions cache) in
  let r := rebuild_loop mint_buffer txo_buffer relevant_txs rebuild_empty in
  txo_indices ← assemble_txo_indices (rb_writes r) (rb_size r);
  Some (assemble_mints (rb_mints r), txo_indices).
End assemble.

(** ** Block updates *)

(** The records behind the fixed data of a reorg. *)
Definition parse_extra_blocks (d : bytes) : list FinalizedBlockMintTxoInfo :=
  from_bytes <$> chunks_exact (pod_size FinalizedBlockMintTxoInfo) d.

Definition FIXED_SIZE : Z := Z.of_nat (pod_size BlockUpdateFixedData).

(** The height and the extra blocks in the data of a block update; [None] when it is
    too short. *)
Definition parse_block_data (ix_data : bytes) (is_reorg : bool) : option (Z * list FinalizedBlockMintTxoInfo) :=
  if len ix_data <? 8 + FIXED_SIZE then None else
  fixed ← (b ← slice 8 (8 + FIXED_SIZE) ix_data; cast (A := BlockUpdateFixedData) b);
  Some (sc_block_height (finalized_state (bu_header fixed)),
        if is_reorg then parse_extra_blocks (drop (Z.to_nat (8 + FIXED_SIZE)) ix_data) else []).

Section fetch.
Context `{ForeignErrors} `{!RpcServer}.
Abbreviation result A := (res RpcClient.BridgeError A).

(** The loop over the instructions of [fetch_block_update_info]. *)
Fixpoint find_block_update (config : HistorySyncConfig) (account_keys : list Pubkey) (signature : Signature)
    (slot : Z) (block_time : option Z) (l : list CompiledInstruction) : option BlockUpdateInfo :=
  match l with
  | [] => None
  | ix :: l =>
      if is_block_instruction config account_keys ix then
        let is_reorg := bool_decide (discriminator_of (ci_data ix) = Some DOGE_BRIDGE_INSTRUCTION_PROCESS_REORG_BLOCKS) in
        '(block_height, extra_blocks) ← parse_block_data (ci_data ix) is_reorg;
        Some {| bi_block_height := block_height; bi_signature := signature; bi_slot := slot;
                bi_block_time := block_time; bi_is_reorg := is_reorg; bi_extra_finalized_blocks := extra_blocks;
                bi_mint_buffer := instruction_account (ci_accounts ix) account_keys 1;
                bi_txo_buffer := instruction_account (ci_accounts ix) account_keys 2;
                bi_operator := instruction_account (ci_accounts ix) account_keys 3 |}
      else find_block_update config account_keys signature slot block_time l
  end.

Definition fetch_block_update_info (config : HistorySyncConfig) (signature : Signature)
    : result (option BlockUpdateInfo) :=
  try _ <- acquire (TransactionOf signature);
  try tx <- get_transaction signature;
  match tx_transaction tx with
  | Binary (Some message) =>
      Ok (find_block_update config (static_account_keys message) signature (tx_slot tx) (tx_block_time tx)
            (instructions message))
  | _ => Ok None
  end.

(** The operator's latest thousand transactions; those that cannot be fetched or
    decoded are skipped. *)
Fixpoint cache_transactions (config : HistorySyncConfig) (signatures : list SignatureInfo) : result (list ParsedOperatorTx) :=
  match signatures with
  | [] => Ok []
  | sig_info :: signatures =>
      match si_signature sig_info with
      | None => cache_transactions config signatures
      | Some sig =>
          try _ <- acquire (TransactionOf sig);
          match get_transaction sig with
          | Ok {| tx_transaction := Binary (Some message) |} =>
              try rest <- cache_transactions config signatures;
              Ok (parse_operator_tx config (si_slot sig_info) message :: rest)
          | Ok _ | Err _ => cache_transactions config signatures
          | Panic => Panic
          end
      end
  end.

Definition build_operator_tx_cache (config : HistorySyncConfig) (operator : Pubkey) : result OperatorTxCache :=
  try _ <- acquire (SignaturesOf operator None);
  try signatures <- get_signatures operator None None 1000;
  try txs <- cache_transactions config signatures;
  Ok {| transactions := txs |}.

(** *** fetch_blocks *)

Record FetchState := {
  fs_infos : list BlockUpdateInfo;
  fs_operator : option Pubkey;
  fs_before : option Signature
}.

(** The loop over one batch of signatures. *)
Fixpoint fetch_batch (config : HistorySyncConfig) (from_height : option Z) (l : list SignatureInfo) (st : FetchState)
    : result FetchState :=
  match l with
  | [] => Ok st
  | sig_info :: l =>
      match si_signature sig_info with
      | None => fetch_batch config from_height l st
      | Some sig =>
          try info <- fetch_block_update_info config sig;
          let seen := {| fs_infos := fs_infos st; fs_operator := fs_operator st; fs_before := Some sig |} in
          match info with
          | None => fetch_batch config from_height l seen
          | Some info =>
              if match from_height with Some from => bi_block_height info <? from | None => false end
              then fetch_batch config from_height l seen
              else fetch_batch config from_height l
                     {| fs_infos := fs_infos st ++ [info];
                        fs_operator := match fs_operator st with None => bi_operator info | o => o end;
                        fs_before := Some sig |}
          end
      end
  end.

(** The [loop] over the batches; [None]: out of fuel. *)
Fixpoint fetch_loop (fuel : nat) (config : HistorySyncConfig) (from_height : option Z) (st : FetchState)
    : option (result FetchState) :=
  match fuel with
  | O => None
  | S fuel =>
      match (try _ <- acquire (SignaturesOf (bridge_state_pda config) (fs_before st));
             try signatures <- get_signatures (bridge_state_pda config) (fs_before st) None
                                 (signature_batch_size config);
             match signatures with
             | [] => Ok (true, st)
             | _ => try st <- fetch_batch config from_height signatures st; Ok (false, st)
             end) with
      | Ok (true, st) => Some (Ok st)
      | Ok (false, st) => fetch_loop fuel config from_height st
      | Err e => Some (Err e)
      | Panic => Some Panic
      end
  end.

(** [sort_by_key] is stable. *)
Fixpoint insert_by_height (b : BlockRecord) (l : list BlockRecord) : list BlockRecord :=
  match l with
  | [] => [b]
  | c :: l => if br_block_height c <? br_block_height b then c :: insert_by_height b l else b :: c :: l
  end.
Definition sort_by_height (l : list BlockRecord) : list BlockRecord := foldr insert_by_height [] l.

Context `{HashMapOrder}.

Fixpoint rebuild_blocks (cache : OperatorTxCache) (infos : list BlockUpdateInfo) : result (list BlockRecord) :=
  match infos with
  | [] => Ok []
  | info :: infos =>
      try r <- or_panic (reconstruct_buffers_from_cache cache (default (zeros 32) (bi_mint_buffer info))
                           (default (zeros 32) (bi_txo_buffer info)) (bi_slot info));
      try blocks <- rebuild_blocks cache infos;
      Ok (to_block_record info r.1 r.2 :: blocks)
  end.

(** [to_height] is looked at but has no effect. *)
Definition fetch_blocks (fuel : nat) (config : HistorySyncConfig) (from_height to_height : option Z)
    : option (result (list BlockRecord)) :=
  r ← fetch_loop fuel config from_height {| fs_infos := []; fs_operator := None; fs_before := None |};
  Some (try st <- r;
        match fs_infos st, fs_operator st with
        | [], _ => Ok []
        | infos, None => Ok ((fun info => to_block_record info [] []) <$> infos)
        | infos, Some operator =>
            try cache <- build_operator_tx_cache config operator;
            try blocks <- rebuild_blocks cache infos;
            Ok (sort_by_height blocks)
        end).

Definition reconstruct_block (fuel : nat) (config : HistorySyncConfig) (block_height : Z)
    : option (result (option BlockRecord)) :=
  r ← fetch_blocks fuel config (Some block_height) (Some block_height);
  Some (try blocks <- r;
        Ok (head (filter (fun b => br_block_height b = block_height) blocks))).

(** ** Reading buffer accounts *)

(** [for i in 0..count]: structs of [size] bytes, until the account ends. *)
Fixpoint read_items {A} (f : bytes -> A) (size : Z) (d : bytes) (offset : Z) (count : nat) : list A :=
  match count with
  | O => []
  | S count =>
      if len d <? offset + size then []
      else f (take (Z.to_nat size) (drop (Z.to_nat offset) d)) :: read_items f size d (offset + size) count
  end.

(** The errors carry the text "Buffer too small". *)
Definition too_small : RpcClient.BridgeError :=
  RpcClient.InvalidInput [66; 117; 102; 102; 101; 114; 32; 116; 111; 111; 32; 115; 109; 97; 108; 108].

Definition fetch_pending_mints_from_buffer (buffer_account : Pubkey) : result (list PendingMint) :=
  try _ <- acquire (AccountOf buffer_account);
  try d <- get_account buffer_account;
  bail too_small if len d <? PM_DA_PENDING_MINTS_BUFFER_STATE_HEADER_SIZE;
  try header <- or_panic (read_pod (A := PendingMintsBufferStateHeader) d);
  let mints_offset := PM_DA_PENDING_MINTS_BUFFER_STATE_HEADER_SIZE + pending_mint_groups_count header * 32 in
  Ok (read_items from_bytes PM_DA_PENDING_MINT_SIZE d mints_offset (Z.to_nat (pending_mints_count header))).

Definition fetch_txos_from_buffer (buffer_account : Pubkey) : result (list Z) :=
  try _ <- acquire (AccountOf buffer_account);
  try d <- get_account buffer_account;
  bail too_small if len d <? PM_TXO_BUFFER_HEADER_SIZE;
  try header <- or_panic (read_pod (A := PendingMintsTxoBufferHeader) d);
  Ok (read_items le_val 4 d PM_TXO_BUFFER_HEADER_SIZE (Z.to_nat (txo_data_size header / 4))).

(** ** Streaming *)

(** *** reconstruct_buffers_from_operator_txs *)

(** One TXO length, as in [rebuild_set_lens]; [None] is the [break]. *)
Definition stream_set_len (batch_id size : Z) (r : Rebuild) : option Rebuild :=
  match rb_batch r with
  | None => Some (with_size (Some batch_id) size r)
  | Some current =>
      if current =? batch_id then Some (with_size (Some current) size r)
      else if rb_found r then None
      else Some (with_size (Some batch_id) size (with_writes (Some batch_id) ∅ r))
  end.

Definition stream_write (x : Z * Z * bytes) (r : Rebuild) : Rebuild :=
  let '(batch_id, offset, d) := x in
  if bool_decide (rb_batch r = None) || bool_decide (rb_batch r = Some batch_id)
  then with_writes (Some batch_id) (<[offset := d]> (rb_writes r)) r else r.

(** The loop over the instructions of one transaction; a [break] leaves the rest of
    the transaction.  A reinit of any mint buffer counts here. *)
Fixpoint stream_instructions (config : HistorySyncConfig) (keys : list Pubkey) (mint_buffer txo_buffer : Pubkey)
    (l : list CompiledInstruction) (r : Rebuild) : Rebuild :=
  match l with
  | [] => r
  | ix :: l =>
      let continue := stream_instructions config keys mint_buffer txo_buffer l in
      match index keys (program_id_index ix) with
      | None => continue r
      | Some program =>
          let txo_part r :=
            if bool_decide (program = txo_buffer_program_id config) then
              match (match parse_txo_buffer_set_len_with_batch (ci_data ix) (ci_accounts ix) keys txo_buffer with
                     | Some (batch_id, size) => stream_set_len batch_id size r
                     | None => Some r
                     end) with
              | None => r
              | Some r =>
                  continue (match parse_txo_buffer_write_with_batch (ci_data ix) (ci_accounts ix) keys txo_buffer with
                            | Some x => stream_write x r
                            | None => r
                            end)
              end
            else continue r in
          if bool_decide (program = pending_mint_program_id config) then
            let reinit := bool_decide (head (ci_data ix) = Some 1) in
            if reinit && rb_found r then r else
            let r := if reinit then with_mints ∅ r else r in
            txo_part (match parse_pending_mint_insert (ci_data ix) (ci_accounts ix) keys mint_buffer with
                      | Some (group_idx, mints) => with_mints (<[group_idx := mints]> (rb_mints r)) r
                      | None => r
                      end)
          else txo_part r
      end
  end.

(** The loop over the operator's transactions, newest first. *)
Fixpoint stream_transactions (config : HistorySyncConfig) (mint_buffer txo_buffer : Pubkey) (l : list SignatureInfo)
    (r : Rebuild) : result Rebuild :=
  match l with
  | [] => Ok r
  | sig_info :: l =>
      let continue := stream_transactions config mint_buffer txo_buffer l in
      match si_signature sig_info with
      | None => continue r
      | Some sig =>
          try _ <- acquire (TransactionOf sig);
          match get_transaction sig with
          | Ok {| tx_transaction := Binary (Some message) |} =>
              let keys := static_account_keys message in
              let is_block_update_tx := existsb (is_block_instruction config keys) (instructions message) in
              if is_block_update_tx && rb_found r then Ok r else
              let r := if is_block_update_tx then with_found r else r in
              continue (stream_instructions config keys mint_buffer txo_buffer (instructions message) r)
          | Ok _ | Err _ => continue r
          | Panic => Panic
          end
      end
  end.

(** Only the operator's latest hundred transactions are looked at. *)
Definition reconstruct_buffers_from_operator_txs (config : HistorySyncConfig)
    (operator mint_buffer txo_buffer : Pubkey) (block_update_slot : Z) : result (list PendingMint * list Z) :=
  try _ <- acquire (SignaturesOf operator None);
  try signatures <- get_signatures operator None None 100;
  let relevant_sigs := filter (fun s => si_slot s <= block_update_slot) signatures in
  try r <- stream_transactions config mint_buffer txo_buffer relevant_sigs rebuild_empty;
  try txo_indices <- or_panic (assemble_txo_indices (rb_writes r) (rb_size r));
  Ok (assemble_mints (rb_mints r), txo_indices).

(** *** Records *)

(** [unwrap_or((Vec::new(), Vec::new()))]: an error becomes empty buffers. *)
Definition parse_block_update (config : HistorySyncConfig) (signature : Signature) (slot : Z) (block_time : option Z)
    (ix_data : bytes) (accounts : list Z) (account_keys : list Pubkey) (is_reorg : bool)
    : result (option HistoryRecord) :=
  match parse_block_data ix_data is_reorg with
  | None => Ok None
  | Some (block_height, extra_blocks) =>
      try buffers <-
        match instruction_account accounts account_keys 3, instruction_account accounts account_keys 1,
              instruction_account accounts account_keys 2 with
        | Some op, Some mint_buf, Some txo_buf =>
            match reconstruct_buffers_from_operator_txs config op mint_buf txo_buf slot with
            | Err _ => Ok ([], [])
            | r => r
            end
        | _, _, _ => Ok ([], [])
        end;
      Ok (Some (Block {| br_block_height := block_height; br_signature := signature; br_slot := slot;
                         br_block_time := block_time; br_txo_indices := buffers.2; br_pending_mints := buffers.1;
                         br_is_reorg := is_reorg; br_extra_finalized_blocks := extra_blocks |}))
  end.

(** The struct behind the eight bytes; what follows it is ignored. *)
Definition parse_struct (A : Type) {PA : Pod A} (ix_data : bytes) : option A :=
  b ← slice 8 (8 + Z.of_nat (pod_size A)) ix_data; cast b.

(** The user is taken from the first account. *)
Definition parse_withdrawal_request (signature : Signature) (slot : Z) (block_time : option Z) (ix_data : bytes)
    (accounts : list Z) (account_keys : list Pubkey) : option HistoryRecord :=
  d ← parse_struct RequestWithdrawalInstructionData ix_data;
  Some (WithdrawalRequest
    {| wq_signature := signature; wq_slot := slot; wq_block_time := block_time;
       wq_amount_sats := wr_amount_sats (rw_request d); wq_recipient_address := wr_recipient_address (rw_request d);
       wq_address_type := wr_address_type (rw_request d);
       wq_user_pubkey := default (zeros 32) (instruction_account accounts account_keys 0) |}).

Definition parse_processed_withdrawal (signature : Signature) (slot : Z) (block_time : option Z) (ix_data : bytes)
    : option HistoryRecord :=
  d ← parse_struct ProcessWithdrawalInstructionData ix_data;
  Some (ProcessedWithdrawal
    {| pwr_signature := signature; pwr_slot := slot; pwr_block_time := block_time;
       pwr_return_output_sighash := ro_sighash (pw_new_return_output d);
       pwr_return_output_index := ro_output_index (pw_new_return_output d);
       pwr_return_output_amount := ro_amount_sats (pw_new_return_output d);
       pwr_spent_txo_tree_root := pw_new_spent_txo_tree_root d;
       pwr_next_processed_withdrawals_index := pw_new_next_processed_withdrawals_index d |}).

Definition parse_manual_deposit (signature : Signature) (slot : Z) (block_time : option Z) (ix_data : bytes)
    : option HistoryRecord :=
  d ← parse_struct ProcessManualDepositInstructionData ix_data;
  Some (ManualDeposit
    {| mdr_signature := signature; mdr_slot := slot; mdr_block_time := block_time; mdr_tx_hash := md_tx_hash d;
       mdr_combined_txo_index := md_combined_txo_index d; mdr_deposit_amount_sats := md_deposit_amount_sats d;
       mdr_depositor_pubkey := md_depositor_solana_public_key d |}).

(** The loop over the instructions of a transaction: the first that concerns the
    history decides. *)
Fixpoint process_instructions (config : HistorySyncConfig) (signature : Signature) (slot : Z) (block_time : option Z)
    (keys : list Pubkey) (l : list CompiledInstruction) : result (option HistoryRecord) :=
  match l with
  | [] => Ok None
  | ix :: l =>
      let continue := process_instructions config signature slot block_time keys l in
      let d := ci_data ix in
      match index keys (program_id_index ix), discriminator_of d with
      | Some program, Some discriminator =>
          if negb (bool_decide (program = program_id config)) then continue else
          if discriminator =? DOGE_BRIDGE_INSTRUCTION_BLOCK_UPDATE then
            parse_block_update config signature slot block_time d (ci_accounts ix) keys false
          else if discriminator =? DOGE_BRIDGE_INSTRUCTION_PROCESS_REORG_BLOCKS then
            parse_block_update config signature slot block_time d (ci_accounts ix) keys true
          else if (discriminator =? DOGE_BRIDGE_INSTRUCTION_REQUEST_WITHDRAWAL) && include_withdrawals config then
            Ok (parse_withdrawal_request signature slot block_time d (ci_accounts ix) keys)
          else if (discriminator =? DOGE_BRIDGE_INSTRUCTION_PROCESS_WITHDRAWAL) && include_withdrawals config then
            Ok (parse_processed_withdrawal signature slot block_time d)
          else if (discriminator =? DOGE_BRIDGE_INSTRUCTION_PROCESS_MANUAL_DEPOSIT) && include_manual_deposits config then
            Ok (parse_manual_deposit signature slot block_time d)
          else continue
      | _, _ => continue
      end
  end.

(** A transaction that does not decode is an [InvalidInput]; its text is left out. *)
Definition process_transaction (config : HistorySyncConfig) (signature : Signature) : result (option HistoryRecord) :=
  try _ <- acquire (TransactionOf signature);
  try tx <- get_transaction signature;
  match tx_transaction tx with
  | Binary (Some message) =>
      process_instructions config signature (tx_slot tx) (tx_block_time tx) (static_account_keys message)
        (instructions message)
  | Binary None => Err (RpcClient.InvalidInput [])
  | OtherEncoding => Ok None
  end.

(** The parsed signatures of a batch, and the last of them. *)
Definition parsed_signatures (l : list SignatureInfo) : list Signature := omap si_signature l.

Fixpoint collect_loop (fuel : nat) (address : Pubkey) (after_signature : option Signature) (batch_size : Z)
    (all_signatures : list Signature) (before_sig : option Signature) : option (result (list Signature)) :=
  match fuel with
  | O => None
  | S fuel =>
      match (try _ <- acquire (SignaturesOf address before_sig);
             get_signatures address before_sig after_signature batch_size) with
      | Ok [] => Some (Ok all_signatures)
      | Ok signatures =>
          let new := parsed_signatures signatures in
          collect_loop fuel address after_signature batch_size (all_signatures ++ new)
            (match last new with Some sig => Some sig | None => before_sig end)
      | Err e => Some (Err e)
      | Panic => Some Panic
      end
  end.

Definition collect_all_signatures (fuel : nat) (address : Pubkey) (after_signature : option Signature) (batch_size : Z)
    : option (result (list Signature)) :=
  collect_loop fuel address after_signature batch_size [] None.

(** *** stream_loop *)

(** The loop over the signatures, oldest first.  [stopped n] says whether the stop
    signal is there before the [n]-th signature, [open n] whether the receiver still
    takes the record of it.  The result is what was sent, and the checkpoint. *)
Fixpoint stream_records (config : HistorySyncConfig) (stopped open : nat -> bool) (n : nat) (l : list Signature)
    (checkpoint : SyncCheckpoint) : res RpcClient.BridgeError (list HistoryRecord * SyncCheckpoint) :=
  match l with
  | [] => Ok ([], checkpoint)
  | sig :: l =>
      if stopped n then Ok ([], checkpoint) else
      match process_transaction config sig with
      | Ok (Some record) =>
          let checkpoint :=
            {| last_signature := sig; last_slot := last_slot checkpoint;
               records_processed := u64 (records_processed checkpoint + 1);
               last_block_height := match record with
                                    | Block block => Some (br_block_height block)
                                    | _ => last_block_height checkpoint
                                    end |} in
          if open n then
            try r <- stream_records config stopped open (S n) l checkpoint;
            Ok (record :: r.1, r.2)
          else Ok ([], checkpoint)
      | Ok None =>
          stream_records config stopped open (S n) l
            {| last_signature := sig; last_slot := last_slot checkpoint;
               records_processed := records_processed checkpoint; last_block_height := last_block_height checkpoint |}
      | Err _ => stream_records config stopped open (S n) l checkpoint
      | Panic => Panic
      end
  end.

Definition stream_loop (fuel : nat) (config : HistorySyncConfig) (stopped open : nat -> bool)
    (checkpoint : SyncCheckpoint) : option (res RpcClient.BridgeError (list HistoryRecord * SyncCheckpoint)) :=
  let after_sig := if bool_decide (last_signature checkpoint = zeros 64) then None
                   else Some (last_signature checkpoint) in
  r ← collect_all_signatures fuel (bridge_state_pda config) after_sig (signature_batch_size config);
  Some (match r with
        | Ok signatures => stream_records config stopped open 0 (reverse signatures) checkpoint
        | Err _ => Ok ([], checkpoint)
        | Panic => Panic
        end).
End fetch.
End HistorySync.
