(* ===== verification/HistoryProofs.v ===== *)
(** * HistoryProofs: what the history client rebuilds

    The parsers of [HistorySync.v] against the instructions that the client sends
    ([BufferClient.v], [BridgeClient.v]): a block's mints and outputs are rebuilt
    exactly from the operator's transactions, in whatever order the uploads were
    executed. *)
From S2P Require Import Prelude Errors Pod Hash Types BufferClient Runtime MintGroup ProgramState TxoBuffer TxoUpload BridgeInstructions RpcClient DogeBridge BridgeClient HistorySync.
From Stdlib Require Import ZArith Lia.
From stdpp Require Import base decidable list numbers option countable gmap sorting fin_maps.
Import BufferClient HistorySync.

Open Scope Z_scope.
Open Scope bridge_scope.

(** ** Pieces of equal size *)

Lemma concat_drop_pieces {A} (n : nat) (ls : list (list A)) (i : nat) :
  Forall (fun l => length l = n) ls -> drop (i * n) (concat ls) = concat (drop i ls).
Proof.
  intros Hls. revert i. induction Hls as [|l ls Hl Hls IH]; intros i.
  { cbn [concat]. by rewrite !drop_nil. }
  destruct i as [|i]; [done|]. cbn [concat drop]. rewrite drop_app_ge by lia. rewrite <- IH. f_equal. lia.
Qed.

Lemma length_concat_pieces {A} (n : nat) (ls : list (list A)) :
  Forall (fun l => length l = n) ls -> length (concat ls) = (length ls * n)%nat.
Proof.
  induction 1 as [|l ls Hl Hls IH]; [done|]. cbn [concat length]. rewrite length_app, IH. lia.
Qed.

Lemma chunks_exact_concat {A} (n : nat) (ls : list (list A)) :
  (0 < n)%nat -> Forall (fun l => length l = n) ls -> chunks_exact n (concat ls) = ls.
Proof.
  intros Hn Hls. unfold chunks_exact. rewrite (length_concat_pieces n) by done. rewrite Nat.div_mul by lia.
  apply list_eq. intros i. rewrite list_lookup_fmap. destruct (decide (i < length ls)%nat) as [Hi|Hi].
  - rewrite lookup_seq_lt by done. cbn [fmap option_fmap option_map Nat.add]. rewrite concat_drop_pieces by done.
    destruct (lookup_lt_is_Some_2 ls i Hi) as [l Hl]. rewrite (drop_S _ _ _ Hl), Hl. cbn [concat].
    pose proof (Forall_lookup_1 _ _ _ _ Hls Hl) as Hln. cbn beta in Hln. by rewrite take_app_length' by lia.
  - rewrite lookup_seq_ge by lia. cbn. symmetry. apply lookup_ge_None_2. lia.
Qed.

(** Structs one after the other. *)
Lemma chunks_exact_pods {A} {PA : Pod A} (l : list A) :
  (0 < pod_size A)%nat -> Forall pod_wf l -> chunks_exact (pod_size A) (concat (bytes_of <$> l)) = bytes_of <$> l.
Proof.
  intros Hs Hl. apply chunks_exact_concat; [done|]. apply Forall_fmap, (Forall_impl _ _ _ Hl).
  intros m Hm. by destruct (bytes_of_array m Hm).
Qed.

(** The mints of an insert, the blocks behind a reorg and the indices of a buffer,
    read back. *)
Lemma parse_mints_of (l : list PendingMint) : Forall pod_wf l -> parse_mints (concat (bytes_of <$> l)) = l.
Proof.
  intros Hl. unfold parse_mints. change 40%nat with (pod_size PendingMint). rewrite (chunks_exact_pods l) by (done || apply Nat.lt_0_succ).
  rewrite <- list_fmap_compose. rewrite <- (list_fmap_id l) at 2. apply list_fmap_ext. intros i m Hm.
  pose proof (Forall_lookup_1 _ _ _ _ Hl Hm) as Hwf. destruct (bytes_of_array m Hwf) as [Hlen _].
  change (pod_size PendingMint) with 40%nat in Hlen. unfold compose, id.
  rewrite (take_ge (drop 32 _)) by (rewrite length_drop; lia). exact (from_bytes_of m Hwf).
Qed.

Lemma parse_extra_blocks_of (l : list FinalizedBlockMintTxoInfo) :
  Forall pod_wf l -> parse_extra_blocks (concat (bytes_of <$> l)) = l.
Proof.
  intros Hl. unfold parse_extra_blocks. rewrite (chunks_exact_pods l) by (done || apply Nat.lt_0_succ).
  rewrite <- list_fmap_compose. rewrite <- (list_fmap_id l) at 2. apply list_fmap_ext. intros i m Hm.
  exact (from_bytes_of m (Forall_lookup_1 _ _ _ _ Hl Hm)).
Qed.

Lemma parse_indices (b : TxoBufferBuilder) :
  Forall (in_width 32) (indices b) -> le_val <$> chunks_exact 4 (serialize_all b) = indices b.
Proof.
  intros Hi. unfold serialize_all. rewrite chunks_exact_concat.
  - rewrite <- list_fmap_compose. rewrite <- (list_fmap_id (indices b)) at 2. apply list_fmap_ext. intros i z Hz.
    apply (le_val_bytes 4). exact (Forall_lookup_1 _ _ _ _ Hi Hz).
  - lia.
  - apply Forall_fmap, Forall_true. done.
Qed.

Lemma filter_none {A} (P : A -> Prop) `{!forall x, Decision (P x)} l : Forall (fun x => ~ P x) l -> filter P l = [].
Proof. induction 1 as [|x l Hx Hl IH]; [done|]. by rewrite filter_cons_False. Qed.

Lemma sorted_seqZ n m : Sorted Z.le (seqZ n m).
Proof.
  unfold seqZ. generalize 0%nat. induction (Z.to_nat m) as [|k IH]; intros i; [constructor|].
  cbn [seq fmap list_fmap]. constructor; [apply IH|]. destruct k; constructor. lia.
Qed.

Section rebuilt.
Context (mb : PendingMintBufferBuilder) (tb : TxoBufferBuilder).

Lemma group_piece g group :
  get_group mb g = Some group -> 0 <= g -> group = take 24 (drop (Z.to_nat g * 24) (BufferClient.mints mb)).
Proof.
  unfold get_group, PM_MAX_PENDING_MINTS_PER_GROUP. intros (Ha & Hb & Hk)%slice_Some Hg. rewrite Hk.
  replace (Z.to_nat (g * 24)) with (Z.to_nat g * 24)%nat by lia. unfold len in *.
  destruct (Z.min_spec (g * 24 + 24) (Z.of_nat (length (BufferClient.mints mb)))) as [[Hlt ->]|[Hge ->]].
  - f_equal. lia.
  - rewrite !take_ge by (rewrite length_drop; lia). done.
Qed.

Lemma num_groups_bounds : 0 <= num_groups mb /\ len (BufferClient.mints mb) <= 24 * num_groups mb /\
  (0 < num_groups mb -> 24 * (num_groups mb - 1) < len (BufferClient.mints mb)).
Proof.
  unfold num_groups, PM_MAX_PENDING_MINTS_PER_GROUP. pose proof (len_nonneg (BufferClient.mints mb)).
  destruct (Z.eqb_spec (len (BufferClient.mints mb)) 0); Z.to_euclidean_division_equations; lia.
Qed.

Lemma get_group_Some g : 0 <= g < num_groups mb -> exists group, get_group mb g = Some group /\ group <> [].
Proof.
  intros Hg. pose proof num_groups_bounds. unfold get_group, PM_MAX_PENDING_MINTS_PER_GROUP.
  destruct (slice_is_Some (g * 24) (Z.min (g * 24 + 24) (len (BufferClient.mints mb))) (BufferClient.mints mb))
    as [k Hk]; [lia..|]. exists k. split; [done|]. intros ->. apply slice_len in Hk. rewrite len_nil in Hk. lia.
Qed.

(** The groups, put together in the order of their indices, are the mints. *)
Lemma assemble_mints_all (m : gmap Z (list PendingMint)) :
  (forall g group, m !! g = Some group -> 0 <= g < num_groups mb /\ get_group mb g = Some group) ->
  (forall g, 0 <= g < num_groups mb -> is_Some (m !! g)) ->
  assemble_mints m = BufferClient.mints mb.
Proof.
  intros Hin Hall. pose proof num_groups_bounds as (HG & Hlen & _). unfold assemble_mints.
  assert (merge_sort Z.le (map_to_list m).*1 = seqZ 0 (num_groups mb)) as ->.
  { apply (Sorted_unique Z.le); [apply Sorted_merge_sort; intros x y; lia| |].
    - apply sorted_seqZ.
    - rewrite merge_sort_Permutation. apply NoDup_Permutation; [apply NoDup_fst_map_to_list|apply NoDup_seqZ|].
      intros g. rewrite elem_of_seqZ. split.
      + intros ([g' k] & -> & Hk%elem_of_map_to_list)%list_elem_of_fmap. cbn. destruct (Hin _ _ Hk). lia.
      + intros Hg. destruct (Hall g) as [k Hk]; [lia|]. apply list_elem_of_fmap. exists (g, k). split; [done|].
        by apply elem_of_map_to_list. }
  unfold seqZ. rewrite <- list_fmap_compose.
  rewrite (list_fmap_ext _ (fun i => take 24 (drop (i * 24) (BufferClient.mints mb)))).
  - rewrite concat_pieces. apply take_ge. unfold len in *. lia.
  - intros j x [-> Hj]%lookup_seq. unfold compose. destruct (Hall (Z.of_nat j + 0)) as [k Hk]; [lia|].
    cbn [Nat.add]. rewrite Hk. cbn [default from_option id]. destruct (Hin _ _ Hk) as [_ Hg].
    rewrite (group_piece _ _ Hg) by lia. do 3 f_equal. lia.
Qed.

(** Copying pieces of the data into a vector of its size: the positions that were
    right stay right, those that a piece covers become right. *)
Lemma copy_pieces (l : list (Z * bytes)) raw :
  (forall o c, (o, c) ∈ l -> (o, c) ∈ chunks tb) -> len raw = data_size tb ->
  exists raw', copy_writes l raw = Some raw' /\ len raw' = data_size tb /\
    forall i : nat, (raw !! i = serialize_all tb !! i \/ exists o c, (o, c) ∈ l /\ o <= Z.of_nat i < o + len c) ->
      raw' !! i = serialize_all tb !! i.
Proof.
  revert raw. induction l as [|[o c] l IH]; intros raw Hl Hraw.
  { exists raw. split; [done|]. split; [done|]. intros i [Hi|(o & c & Hin & _)]; [done|by apply not_elem_of_nil in Hin]. }
  destruct (chunk_piece tb o c) as [Ho Hc]; [apply Hl, list_elem_of_here|].
  pose proof Hc as (_ & Hle & _)%slice_Some. rewrite serialize_len in Hle. cbn [copy_writes].
  rewrite Z.min_l by lia. pose proof (len_nonneg c). rewrite (proj2 (Z.ltb_ge _ _)) by lia.
  rewrite take_ge by (unfold len; lia).
  destruct (write_slice o c raw) as [raw1|] eqn:Hw; cbn [mbind option_bind].
  2:{ exfalso. unfold write_slice in Hw. rewrite !(proj2 (Z.leb_le _ _)) in Hw by lia. discriminate Hw. }
  destruct (IH raw1) as (raw' & Hr & Hlen & Hpos).
  { intros o' c' Hin. by apply Hl, list_elem_of_further. }
  { by rewrite (write_slice_len _ _ _ _ Hw). }
  exists raw'. split; [done|]. split; [done|]. intros i Hi. apply Hpos.
  destruct (decide (o <= Z.of_nat i < o + len c)) as [Hc'|Hc'].
  - left. rewrite (write_slice_lookup_in _ _ _ _ _ Hw Hc'). rewrite (slice_lookup _ _ _ _ _ Hc) by lia. f_equal. lia.
  - destruct Hi as [Hi|(o' & c' & [[= -> ->]|Hin]%elem_of_cons & Hi)]; [|done|eauto].
    left. rewrite <- Hi. apply (write_slice_lookup_out _ _ _ _ _ Hw). lia.
Qed.

(** The chunks, in whatever order the map yields them, give the indices. *)
Lemma assemble_indices_all `{HashMapOrder} (writes : gmap Z bytes) :
  Forall (in_width 32) (indices tb) ->
  (forall o c, writes !! o = Some c -> (o, c) ∈ chunks tb) ->
  (forall o c, (o, c) ∈ chunks tb -> writes !! o = Some c) ->
  assemble_txo_indices writes (data_size tb) = Some (indices tb).
Proof.
  intros Hi Hin Hall. unfold assemble_txo_indices. destruct (decide (indices tb = [])) as [E|E].
  { unfold data_size. rewrite E. cbn. by rewrite orb_true_r. }
  assert (0 < data_size tb) as Hpos by (unfold data_size, len; destruct (indices tb); [done|cbn [length]; lia]).
  rewrite (proj2 (Z.eqb_neq _ 0)), orb_false_r by lia. rewrite bool_decide_eq_false_2.
  2:{ intros ->. destruct (chunks_cover tb 0) as (o & c & Hc & _).
      { pose proof (serialize_len tb) as Hl. unfold len in Hl. lia. }
      by apply Hall in Hc. }
  destruct (copy_pieces (iterate writes) (zeros (Z.to_nat (data_size tb)))) as (raw & Hr & Hlen & Hraw).
  { intros o c Hc. rewrite iterate_perm in Hc. by apply Hin, elem_of_map_to_list. }
  { unfold len. rewrite length_zeros. lia. }
  rewrite Hr. cbn [mbind option_bind]. replace raw with (serialize_all tb); [by rewrite parse_indices|].
  pose proof (serialize_len tb) as Hl. unfold len in *. apply list_eq. intros i. symmetry.
  destruct (decide (i < length raw)%nat) as [Hlt|Hge]; [|by rewrite !lookup_ge_None_2 by lia].
  apply Hraw. right. destruct (chunks_cover tb i) as (o & c & Hc & Hi'); [lia|]. exists o, c. split; [|done].
  rewrite iterate_perm. apply elem_of_map_to_list. by apply Hall.
Qed.
End rebuilt.

(** ** Uploads *)

(** A compiled instruction stands for an instruction of the client. *)
Definition resolves (keys : list Pubkey) (ix : CompiledInstruction) (i : Instruction) : Prop :=
  match i with
  | RawInstruction program metas d =>
      index keys (program_id_index ix) = Some program /\
      Forall2 (fun a m => index keys a = Some (meta_key m)) (ci_accounts ix) metas /\ ci_data ix = d
  | _ => False
  end.

Lemma resolves_account keys ix program metas d i m :
  resolves keys ix (RawInstruction program metas d) -> metas !! i = Some m ->
  instruction_account (ci_accounts ix) keys i = Some (meta_key m).
Proof.
  intros (_ & Hm & _) Hi. destruct (Forall2_lookup_r _ _ _ _ _ Hm Hi) as (a & Ha & Hk).
  unfold instruction_account. by rewrite Ha.
Qed.

(** A piece of what is uploaded for a block. *)
Inductive Piece :=
  | Group (g : Z) (group : list PendingMint)
  | Size
  | Chunk (o : Z) (c : bytes).

Section history.
Context (config : HistorySyncConfig) (mint_buffer txo_buffer : Pubkey) (batch : Z).
Context (mb : PendingMintBufferBuilder) (tb : TxoBufferBuilder).
Context (Hprograms : NoDup [program_id config; pending_mint_program_id config; txo_buffer_program_id config]).
Context (Hmints : Forall pod_wf (BufferClient.mints mb)) (Hgroups : num_groups mb <= 65536).
Context (Hindices : Forall (in_width 32) (indices tb)) (Hsize : in_width 32 (data_size tb)).
Context (Hbatch : in_width 32 batch).

Definition expected (p : Piece) : Prop :=
  match p with
  | Group g group => 0 <= g < num_groups mb /\ get_group mb g = Some group
  | Size => True
  | Chunk o c => (o, c) ∈ chunks tb
  end.

(** The client's instructions for the block, with the piece that each uploads. *)
Inductive uploads : Instruction -> option Piece -> Prop :=
  | uploads_reinit payer n : uploads (pending_mint_reinit (pending_mint_program_id config) mint_buffer payer n) None
  | uploads_group payer g group d :
      expected (Group g group) -> serialize_group mb g = Some d ->
      uploads (pending_mint_insert (pending_mint_program_id config) mint_buffer payer g d) (Some (Group g group))
  | uploads_size payer writer resize height finalize :
      uploads (txo_buffer_set_len (txo_buffer_program_id config) txo_buffer payer writer (data_size tb) resize batch
                 height finalize) (Some Size)
  | uploads_chunk writer o c :
      (o, c) ∈ chunks tb ->
      uploads (txo_buffer_write (txo_buffer_program_id config) txo_buffer writer batch o c) (Some (Chunk o c)).

(** Any other instruction: no block update, and not on the two buffers. *)
Definition unrelated (keys : list Pubkey) (ix : CompiledInstruction) : Prop :=
  is_block_instruction config keys ix = false /\
  (index keys (program_id_index ix) = Some (pending_mint_program_id config) ->
     instruction_account (ci_accounts ix) keys 0 <> Some mint_buffer) /\
  (index keys (program_id_index ix) = Some (txo_buffer_program_id config) ->
     instruction_account (ci_accounts ix) keys 0 <> Some txo_buffer).

Definition upload_ix (keys : list Pubkey) (ix : CompiledInstruction) (p : option Piece) : Prop :=
  (exists i, uploads i p /\ resolves keys ix i) \/ (unrelated keys ix /\ p = None).

(** What a parsed transaction holds. *)
Definition recorded (tx : ParsedOperatorTx) (p : Piece) : Prop :=
  match p with
  | Group g group => (mint_buffer, g, group) ∈ mint_inserts tx
  | Size => (txo_buffer, batch, data_size tb) ∈ txo_set_lens tx
  | Chunk o c => (txo_buffer, batch, o, c) ∈ txo_writes tx
  end.

Definition faithful (tx : ParsedOperatorTx) : Prop :=
  (forall g group, (mint_buffer, g, group) ∈ mint_inserts tx -> expected (Group g group)) /\
  (forall b n, (txo_buffer, b, n) ∈ txo_set_lens tx -> b = batch /\ n = data_size tb) /\
  (forall b o c, (txo_buffer, b, o, c) ∈ txo_writes tx -> b = batch /\ expected (Chunk o c)).

(** The effect of one instruction. *)
Definition extends (tx tx' : ParsedOperatorTx) (p : option Piece) : Prop :=
  (faithful tx -> faithful tx') /\ is_block_update tx' = is_block_update tx /\
  forall q, recorded tx q \/ p = Some q -> recorded tx' q.

Lemma extends_refl tx : extends tx tx None.
Proof. split; [done|]. split; [done|]. by intros q [|]. Qed.

Lemma extends_trans tx1 tx2 tx3 : extends tx1 tx2 None -> extends tx2 tx3 None -> extends tx1 tx3 None.
Proof.
  intros (H1 & E1 & R1) (H2 & E2 & R2). split; [auto|]. split; [congruence|]. intros q [Hq|[=]].
  apply R2. left. apply R1. by left.
Qed.

Lemma extends_reinit b tx : extends tx (push_reinit b tx) None.
Proof. split; [done|]. split; [done|]. by intros [] [|]. Qed.

(** An entry pushed for this block's buffer, with its piece, or for another one. *)
Lemma extends_insert b g group tx p :
  (b = mint_buffer -> expected (Group g group)) -> (p = None \/ p = Some (Group g group) /\ b = mint_buffer) ->
  extends tx (push_insert (b, g, group) tx) p.
Proof.
  intros He Hp. split.
  { intros (H1 & H2 & H3). split; [|by split]. cbn [mint_inserts push_insert].
    intros g' group' [Hin|[= -> -> ->]%list_elem_of_singleton]%elem_of_app; eauto. }
  split; [done|]. intros [g' group'| |o c] [Hq|Hq]; destruct Hp as [->|[-> ->]]; try done;
    cbn [recorded mint_inserts push_insert] in *; apply elem_of_app; [by left..|].
  right. injection Hq as <- <-. by apply list_elem_of_singleton.
Qed.

Lemma extends_set_len b bt n tx p :
  (b = txo_buffer -> bt = batch /\ n = data_size tb) -> (p = None \/ p = Some Size /\ b = txo_buffer) ->
  extends tx (push_set_len (b, bt, n) tx) p.
Proof.
  intros He Hp. split.
  { intros (H1 & H2 & H3). split; [done|]. split; [|done]. cbn [txo_set_lens push_set_len].
    intros b' n' [Hin|[= -> -> ->]%list_elem_of_singleton]%elem_of_app; eauto. }
  split; [done|]. intros [g' group'| |o c] [Hq|Hq]; destruct Hp as [->|[-> ->]]; try done;
    cbn [recorded txo_set_lens push_set_len] in *; apply elem_of_app; [by left..|].
  right. destruct (He eq_refl) as [-> ->]. by apply list_elem_of_singleton.
Qed.

Lemma extends_write b bt o c tx p :
  (b = txo_buffer -> bt = batch /\ expected (Chunk o c)) -> (p = None \/ p = Some (Chunk o c) /\ b = txo_buffer) ->
  extends tx (push_write (b, bt, o, c) tx) p.
Proof.
  intros He Hp. split.
  { intros (H1 & H2 & H3). split; [done|]. split; [done|]. cbn [txo_writes push_write].
    intros b' o' c' [Hin|[= -> -> -> ->]%list_elem_of_singleton]%elem_of_app; eauto. }
  split; [done|]. intros [g' group'| |o' c'] [Hq|Hq]; destruct Hp as [->|[-> ->]]; try done;
    cbn [recorded txo_writes push_write] in *; apply elem_of_app; [by left..|].
  right. injection Hq as <- <-. destruct (He eq_refl) as [-> _]. by apply list_elem_of_singleton.
Qed.

(** Instructions on other buffers leave no trace of this block. *)
Lemma extends_other_mint b d tx : b <> mint_buffer -> extends tx (parse_mint_instruction b d tx) None.
Proof.
  intros Hb. unfold parse_mint_instruction.
  apply (extends_trans _ (if bool_decide (head d = Some 1) then push_reinit b tx else tx)).
  { destruct (bool_decide _); [apply extends_reinit|apply extends_refl]. }
  destruct (_ && _); [|apply extends_refl]. destruct (parse_mints (drop 3 d)); [apply extends_refl|].
  apply extends_insert; [done|by left].
Qed.

Lemma extends_other_txo b d tx : b <> txo_buffer -> extends tx (parse_txo_instruction b d tx) None.
Proof.
  intros Hb. unfold parse_txo_instruction.
  set (tx1 := if _ && _ then _ else tx). assert (extends tx tx1 None) as H1.
  { unfold tx1. destruct (_ && _); [|apply extends_refl]. apply extends_set_len; [done|by left]. }
  apply (extends_trans _ tx1); [done|]. clearbody tx1.
  destruct (_ && _); [|apply extends_refl]. apply extends_write; [done|by left].
Qed.

(** *** The client's instructions, parsed *)

Lemma parse_reinit_ix b n tx : parse_mint_instruction b (1 :: le_bytes 2 n) tx = push_reinit b tx.
Proof.
  unfold parse_mint_instruction. rewrite (bool_decide_eq_true_2 (_ = Some 1)) by done.
  rewrite (bool_decide_eq_false_2 (_ = Some PM_TAG_INSERT)) by done. by rewrite andb_false_r.
Qed.

Lemma parse_group_ix b g group tx :
  expected (Group g group) ->
  parse_mint_instruction b (3 :: le_bytes 2 g ++ concat (bytes_of <$> group)) tx = push_insert (b, g, group) tx.
Proof.
  intros [Hg Hgr]. unfold parse_mint_instruction. rewrite (bool_decide_eq_false_2 (_ = Some 1)) by done.
  assert (group <> []) as Hne.
  { destruct (get_group_Some mb g Hg) as (group' & Hg' & Hne). rewrite Hgr in Hg'. by injection Hg' as <-. }
  assert (Forall pod_wf group) as Hwf by (exact (slice_Forall _ _ _ _ _ Hgr Hmints)).
  rewrite (proj2 (Z.leb_le 3 _)) by (rewrite len_cons, len_app; change (len (le_bytes 2 g)) with 2;
    pose proof (len_nonneg (concat (bytes_of <$> group))); lia).
  rewrite bool_decide_eq_true_2 by done. cbn [andb].
  replace (drop 3 (3 :: le_bytes 2 g ++ _)) with (concat (bytes_of <$> group)) by reflexivity.
  rewrite parse_mints_of by done. destruct group as [|m group]; [done|]. do 3 f_equal.
  unfold le_at. replace (take 2 (drop 1 _)) with (le_bytes 2 g) by reflexivity. apply (le_val_bytes 2).
  unfold in_width. lia.
Qed.

Lemma parse_size_ix b resize height finalize tx :
  parse_txo_instruction b
    (1 :: le_bytes 4 (data_size tb) ++ [flag resize] ++ le_bytes 4 batch ++ le_bytes 4 height ++ [flag finalize]) tx
    = push_set_len (b, batch, data_size tb) tx.
Proof.
  unfold parse_txo_instruction. rewrite (bool_decide_eq_true_2 (_ = Some TXO_TAG_SET_LEN)) by done. rewrite andb_true_r.
  rewrite (bool_decide_eq_false_2 (_ = Some TXO_TAG_WRITE)) by done. rewrite andb_false_r.
  change (14 <=? len _) with true. cbn match. do 3 f_equal; [f_equal|].
  - unfold le_at. replace (take 4 (drop 6 _)) with (le_bytes 4 batch) by reflexivity. by apply (le_val_bytes 4).
  - unfold le_at. replace (take 4 (drop 1 _)) with (le_bytes 4 (data_size tb)) by reflexivity. by apply (le_val_bytes 4).
Qed.

Lemma parse_chunk_ix b o c tx :
  (o, c) ∈ chunks tb ->
  parse_txo_instruction b (2 :: le_bytes 4 batch ++ le_bytes 4 o ++ c) tx = push_write (b, batch, o, c) tx.
Proof.
  intros Hc. destruct (chunk_piece tb o c Hc) as [Ho (_ & Hle & _)%slice_Some]. rewrite serialize_len in Hle.
  pose proof (len_nonneg c). unfold parse_txo_instruction.
  rewrite (bool_decide_eq_false_2 (_ = Some TXO_TAG_SET_LEN)) by done. rewrite andb_false_r.
  rewrite bool_decide_eq_true_2 by done. rewrite (proj2 (Z.leb_le 9 _)).
  2:{ rewrite len_cons, !len_app. change (len (le_bytes 4 batch)) with 4. change (len (le_bytes 4 o)) with 4. lia. }
  cbn [andb]. unfold le_at. replace (take 4 (drop 1 _)) with (le_bytes 4 batch) by reflexivity.
  replace (take 4 (drop 5 _)) with (le_bytes 4 o) by reflexivity. replace (drop 9 _) with c by reflexivity.
  rewrite !le_val_bytes by (done || unfold in_width in *; lia). done.
Qed.

Lemma programs_differ :
  program_id config <> pending_mint_program_id config /\ program_id config <> txo_buffer_program_id config /\
  pending_mint_program_id config <> txo_buffer_program_id config.
Proof.
  apply list.NoDup_cons in Hprograms as [H1 [H2 _]%list.NoDup_cons].
  rewrite !not_elem_of_cons in H1. rewrite !not_elem_of_cons in H2. destruct H1 as (? & ? & _), H2 as [? _]. by split_and!.
Qed.

(** The block instruction itself only sets the flag. *)
Lemma step_block keys ix tx :
  index keys (program_id_index ix) = Some (program_id config) -> is_block_instruction config keys ix = true ->
  parse_operator_instruction config keys tx ix = set_block_update tx.
Proof.
  intros Hi Hb. destruct programs_differ as (H1 & H2 & _). unfold parse_operator_instruction. rewrite Hi, Hb.
  by rewrite !bool_decide_eq_false_2.
Qed.

(** An instruction of a buffer program is no block update. *)
Lemma no_block_instruction keys ix program :
  index keys (program_id_index ix) = Some program -> program <> program_id config ->
  is_block_instruction config keys ix = false.
Proof.
  intros Hi Hp. unfold is_block_instruction. rewrite Hi. destruct (discriminator_of _); [|done].
  by rewrite bool_decide_eq_false_2.
Qed.

Lemma upload_no_block keys ix p : upload_ix keys ix p -> is_block_instruction config keys ix = false.
Proof.
  destruct programs_differ as (H1 & H2 & _). intros [(i & Hu & Hr)|[[Hb _] _]]; [|done].
  destruct Hu; destruct Hr as [Hi _]; by eapply no_block_instruction.
Qed.

(** Instructions of the two buffer programs reach their parsers. *)
Lemma step_mint keys ix b metas d tx :
  resolves keys ix (RawInstruction (pending_mint_program_id config) (meta_new b false :: metas) d) ->
  parse_operator_instruction config keys tx ix = parse_mint_instruction b d tx.
Proof.
  intros Hr. destruct programs_differ as (H1 & H2 & H3).
  pose proof (resolves_account _ _ _ _ _ 0 _ Hr eq_refl) as Ha. destruct Hr as (Hi & _ & Hd).
  unfold parse_operator_instruction. rewrite Hi, (no_block_instruction _ _ _ Hi) by done.
  rewrite bool_decide_eq_true_2, Ha, Hd by done. cbn [meta_key meta_new].
  by rewrite bool_decide_eq_false_2.
Qed.

Lemma step_txo keys ix b metas d tx :
  resolves keys ix (RawInstruction (txo_buffer_program_id config) (meta_new b false :: metas) d) ->
  parse_operator_instruction config keys tx ix = parse_txo_instruction b d tx.
Proof.
  intros Hr. destruct programs_differ as (H1 & H2 & H3).
  pose proof (resolves_account _ _ _ _ _ 0 _ Hr eq_refl) as Ha. destruct Hr as (Hi & _ & Hd).
  unfold parse_operator_instruction. rewrite Hi, (no_block_instruction _ _ _ Hi) by done.
  rewrite bool_decide_eq_false_2 by done. by rewrite bool_decide_eq_true_2, Ha, Hd.
Qed.

Lemma step_unrelated keys ix tx :
  unrelated keys ix -> extends tx (parse_operator_instruction config keys tx ix) None.
Proof.
  intros (Hb & Hm & Ht). unfold parse_operator_instruction. rewrite Hb. destruct programs_differ as (_ & _ & H3).
  destruct (index keys (program_id_index ix)) as [program|] eqn:Hi; [|apply extends_refl].
  destruct (decide (program = pending_mint_program_id config)) as [->|Hp].
  - rewrite bool_decide_eq_true_2, bool_decide_eq_false_2 by done.
    destruct (instruction_account _ _ 0) as [b|] eqn:Ha; [|apply extends_refl].
    apply extends_other_mint. intros ->. by apply Hm.
  - rewrite bool_decide_eq_false_2 by done. destruct (decide (program = txo_buffer_program_id config)) as [->|Hp'].
    + rewrite bool_decide_eq_true_2 by done. destruct (instruction_account _ _ 0) as [b|] eqn:Ha; [|apply extends_refl].
      apply extends_other_txo. intros ->. by apply Ht.
    + rewrite bool_decide_eq_false_2 by done. apply extends_refl.
Qed.

Lemma step_upload keys ix p tx :
  upload_ix keys ix p -> extends tx (parse_operator_instruction config keys tx ix) p.
Proof.
  intros [(i & Hu & Hr)|[Hu ->]]; [|by apply step_unrelated]. destruct Hu as [payer n|payer g group d He Hs|payer writer resize height finalize|writer o c Hc].
  - rewrite (step_mint _ _ _ _ _ _ Hr), parse_reinit_ix. apply extends_reinit.
  - rewrite (step_mint _ _ _ _ _ _ Hr). pose proof He as [_ Hg]. unfold serialize_group in Hs. rewrite Hg in Hs.
    injection Hs as <-. rewrite parse_group_ix by done. apply extends_insert; [done|by right].
  - rewrite (step_txo _ _ _ _ _ _ Hr), parse_size_ix. apply extends_set_len; [done|by right].
  - rewrite (step_txo _ _ _ _ _ _ Hr), parse_chunk_ix by done. apply extends_write; [done|by right].
Qed.

(** A transaction of uploads holds faithfully what its instructions upload. *)
Lemma parse_uploads keys ixs tx :
  Forall (fun ix => exists p, upload_ix keys ix p) ixs ->
  let tx' := fold_left (parse_operator_instruction config keys) ixs tx in
  (faithful tx -> faithful tx') /\ is_block_update tx' = is_block_update tx /\
  forall q, (recorded tx q \/ exists ix, ix ∈ ixs /\ upload_ix keys ix (Some q)) -> recorded tx' q.
Proof.
  intros Hixs. revert tx. induction Hixs as [|ix ixs [p Hp] Hixs IH]; intros tx; cbn [fold_left].
  { split; [done|]. split; [done|]. intros q [Hq|(ix & Hix & _)]; [done|by apply not_elem_of_nil in Hix]. }
  destruct (step_upload _ _ _ tx Hp) as (Hf & He & _).
  destruct (IH (parse_operator_instruction config keys tx ix)) as (Hf' & He' & Hr').
  split; [auto|]. split; [congruence|]. intros q Hq. apply Hr'.
  destruct Hq as [Hq|(ix' & [->|Hix]%elem_of_cons & Hq)]; [left..|eauto].
  - destruct (step_upload _ _ _ tx Hp) as (_ & _ & Hr). auto.
  - destruct (step_upload _ _ _ tx Hq) as (_ & _ & Hr). auto.
Qed.

Lemma faithful_empty s : faithful (empty_tx s).
Proof. split; [|split]; intros *; cbn; by intros ?%not_elem_of_nil. Qed.

(** ** Rebuilding *)

(** What the loop knows of the block once it has seen the block update. *)
Definition known (r : Rebuild) (p : Piece) : Prop :=
  match p with
  | Group g group => rb_mints r !! g = Some group
  | Size => rb_size r = data_size tb
  | Chunk o c => rb_writes r !! o = Some c
  end.

Definition sound (r : Rebuild) : Prop :=
  rb_found r = true /\ (rb_batch r = None \/ rb_batch r = Some batch) /\
  (forall g group, rb_mints r !! g = Some group -> expected (Group g group)) /\
  (forall o c, rb_writes r !! o = Some c -> expected (Chunk o c)).

Lemma chunk_unique o c c' : (o, c) ∈ chunks tb -> (o, c') ∈ chunks tb -> c = c'.
Proof.
  unfold chunks, CHUNK_SIZE. intros (i & x & [= -> ->] & Hx)%elem_of_lookup_imap (j & y & [= Hij ->] & Hy)%elem_of_lookup_imap.
  assert (i = j) as <- by lia. congruence.
Qed.

Lemma sound_reinits l r : sound r -> rebuild_reinits mint_buffer l r = r.
Proof.
  intros [Hf _]. induction l as [|b l IH]; [done|]. cbn [rebuild_reinits]. rewrite Hf. by destruct (bool_decide _).
Qed.

Lemma sound_inserts l r :
  (forall g group, (mint_buffer, g, group) ∈ l -> expected (Group g group)) -> sound r ->
  let r' := rebuild_inserts mint_buffer l r in
  sound r' /\ forall p, (known r p \/ exists g group, p = Group g group /\ (mint_buffer, g, group) ∈ l) -> known r' p.
Proof.
  revert r. induction l as [|[[b g] group] l IH]; intros r Hl Hr; cbn [rebuild_inserts].
  { split; [done|]. intros p [Hp|(g & group & _ & Hin)]; [done|by apply not_elem_of_nil in Hin]. }
  assert (forall g group, (mint_buffer, g, group) ∈ l -> expected (Group g group)) as Hl'
    by (intros; by apply Hl, list_elem_of_further).
  case_bool_decide as Hb.
  - subst b. assert (expected (Group g group)) as He by apply Hl, list_elem_of_here.
    destruct (IH (with_mints (<[g := group]> (rb_mints r)) r)) as [Hs Hk]; [done| |split; [done|]].
    { destruct Hr as (Hf & Hbt & Hm & Hw). split; [done|]. split; [done|]. split; [|done]. cbn [rb_mints with_mints].
      intros g' group' [[<- <-]|[_ Hg]]%lookup_insert_Some; eauto. }
    intros p Hp. apply Hk. destruct Hp as [Hp|(g' & group' & -> & [[= -> ->]|Hin]%elem_of_cons)].
    + left. destruct p as [g' group'| |]; [|done..]. cbn [known rb_mints with_mints] in *.
      destruct (decide (g = g')) as [<-|Hne]; [|by rewrite lookup_insert_ne]. rewrite lookup_insert_eq.
      destruct He as [_ He], Hr as (_ & _ & Hm & _). destruct (Hm _ _ Hp). congruence.
    + left. cbn [known rb_mints with_mints]. apply lookup_insert_eq.
    + right. eauto.
  - destruct (IH r) as [Hs Hk]; [done..|]. split; [done|]. intros p Hp. apply Hk.
    destruct Hp as [Hp|(g' & group' & -> & [[= <- -> ->]|Hin]%elem_of_cons)]; [by left|done|right; eauto].
Qed.

Lemma sound_set_lens l r :
  (forall b n, (txo_buffer, b, n) ∈ l -> b = batch /\ n = data_size tb) -> sound r ->
  let r' := rebuild_set_lens txo_buffer l r in
  sound r' /\ forall p, (known r p \/ p = Size /\ (txo_buffer, batch, data_size tb) ∈ l) -> known r' p.
Proof.
  revert r. induction l as [|[[b bt] n] l IH]; intros r Hl Hr; cbn [rebuild_set_lens].
  { split; [done|]. intros p [Hp|[_ Hin]]; [done|by apply not_elem_of_nil in Hin]. }
  assert (forall b n, (txo_buffer, b, n) ∈ l -> b = batch /\ n = data_size tb) as Hl'
    by (intros; by apply Hl, list_elem_of_further).
  case_bool_decide as Hb.
  - subst b. destruct (Hl bt n (list_elem_of_here _ _)) as [-> ->].
    pose proof Hr as (Hf & Hbt & Hm & Hw).
    assert (sound (with_size (Some batch) (data_size tb) r)) as Hs by (split; [done|]; split; [by right|]; by split).
    assert (match rb_batch r with
            | Some current => if current =? batch
                then rebuild_set_lens txo_buffer l (with_size (Some current) (data_size tb) r)
                else if rb_found r then r
                else rebuild_set_lens txo_buffer l
                       (with_size (Some batch) (data_size tb) (with_writes (Some batch) ∅ r))
            | None => rebuild_set_lens txo_buffer l (with_size (Some batch) (data_size tb) r)
            end = rebuild_set_lens txo_buffer l (with_size (Some batch) (data_size tb) r)) as ->.
    { destruct Hbt as [->| ->]; [done|]. by rewrite Z.eqb_refl. }
    destruct (IH _ Hl' Hs) as [Hs' Hk]. split; [done|]. intros p Hp. apply Hk. left.
    destruct Hp as [Hp|[-> _]]; [|done]. by destruct p.
  - destruct (IH r) as [Hs Hk]; [done..|]. split; [done|]. intros p Hp. apply Hk.
    destruct Hp as [Hp|[-> [[= <- _ _]|Hin]%elem_of_cons]]; [by left|done|by right].
Qed.

Lemma sound_writes l r :
  (forall b o c, (txo_buffer, b, o, c) ∈ l -> b = batch /\ expected (Chunk o c)) -> sound r ->
  let r' := rebuild_writes txo_buffer l r in
  sound r' /\
  forall p, (known r p \/ exists o c, p = Chunk o c /\ (txo_buffer, batch, o, c) ∈ l) -> known r' p.
Proof.
  revert r. induction l as [|[[[b bt] o] c] l IH]; intros r Hl Hr; cbn [rebuild_writes].
  { split; [done|]. intros p [Hp|(o & c & _ & Hin)]; [done|by apply not_elem_of_nil in Hin]. }
  assert (forall b o c, (txo_buffer, b, o, c) ∈ l -> b = batch /\ expected (Chunk o c)) as Hl'
    by (intros; by apply Hl, list_elem_of_further).
  case_bool_decide as Hb; cbn [andb].
  - subst b. destruct (Hl bt o c (list_elem_of_here _ _)) as [-> He]. pose proof Hr as (Hf & Hbt & Hm & Hw).
    assert (bool_decide (rb_batch r = None) || bool_decide (rb_batch r = Some batch) = true) as ->.
    { destruct Hbt as [->| ->]; [done|]. by rewrite (bool_decide_eq_true_2 (Some batch = Some batch)). }
    destruct (IH (with_writes (Some batch) (<[o := c]> (rb_writes r)) r)) as [Hs Hk]; [done| |split; [done|]].
    { split; [done|]. split; [by right|]. split; [done|]. cbn [rb_writes with_writes].
      intros o' c' [[<- <-]|[_ Hc]]%lookup_insert_Some; eauto. }
    intros p Hp. apply Hk. destruct Hp as [Hp|(o' & c' & -> & [[= -> ->]|Hin]%elem_of_cons)].
    + left. destruct p as [| |o' c']; [done..|]. cbn [known rb_writes with_writes] in *.
      destruct (decide (o = o')) as [<-|Hne]; [|by rewrite lookup_insert_ne]. rewrite lookup_insert_eq. f_equal.
      exact (chunk_unique _ _ _ He (Hw _ _ Hp)).
    + left. cbn [known rb_writes with_writes]. apply lookup_insert_eq.
    + right. eauto.
  - destruct (IH r) as [Hs Hk]; [done..|]. split; [done|]. intros p Hp. apply Hk.
    destruct Hp as [Hp|(o' & c' & -> & [[= <- _ -> ->]|Hin]%elem_of_cons)]; [by left|done|right; eauto].
Qed.

(** One transaction. *)
Definition rebuild_tx (tx : ParsedOperatorTx) (r : Rebuild) : Rebuild :=
  rebuild_writes txo_buffer (txo_writes tx) (rebuild_set_lens txo_buffer (txo_set_lens tx)
    (rebuild_inserts mint_buffer (mint_inserts tx) (rebuild_reinits mint_buffer (mint_reinits tx) r))).

Lemma sound_tx tx r :
  faithful tx -> sound r ->
  sound (rebuild_tx tx r) /\ forall p, known r p \/ recorded tx p -> known (rebuild_tx tx r) p.
Proof.
  intros (H1 & H2 & H3) Hr. unfold rebuild_tx. rewrite sound_reinits by done.
  destruct (sound_inserts _ _ H1 Hr) as [S1 K1]. destruct (sound_set_lens _ _ H2 S1) as [S2 K2].
  destruct (sound_writes _ _ H3 S2) as [S3 K3]. split; [done|]. intros p Hp. apply K3.
  destruct Hp as [Hp|Hp]; [left; apply K2; left; apply K1; by left|].
  destruct p as [g group| |o c]; cbn [recorded] in Hp; [left..|right; eauto].
  - apply K2. left. apply K1. right. eauto.
  - apply K2. by right.
Qed.

(** The loop ends here: nothing is left, or an earlier block update. *)
Definition at_end (txs : list ParsedOperatorTx) : Prop :=
  match txs with [] => True | tx :: _ => is_block_update tx = true end.

Lemma sound_loop txs older r :
  Forall (fun tx => faithful tx /\ is_block_update tx = false) txs -> at_end older -> sound r ->
  let r' := rebuild_loop mint_buffer txo_buffer (txs ++ older) r in
  sound r' /\ forall p, (known r p \/ exists tx, tx ∈ txs /\ recorded tx p) -> known r' p.
Proof.
  intros Htxs Hend. revert r. induction Htxs as [|tx txs [Hf Hb] Htxs IH]; intros r Hr; cbn [app].
  - assert (rebuild_loop mint_buffer txo_buffer older r = r) as ->.
    { destruct older as [|tx older]; [done|]. cbn [rebuild_loop]. cbn [at_end] in Hend. rewrite Hend.
      by destruct Hr as [-> _]. }
    split; [done|]. intros p [Hp|(tx & Hin & _)]; [done|by apply not_elem_of_nil in Hin].
  - cbn [rebuild_loop]. rewrite Hb. cbn [andb]. fold (rebuild_tx tx r).
    destruct (sound_tx tx r Hf Hr) as [Hs Hk]. destruct (IH _ Hs) as [Hs' Hk']. split; [done|].
    intros p Hp. apply Hk'. destruct Hp as [Hp|(tx' & [->|Hin]%elem_of_cons & Hp)]; [left; auto..|right; eauto].
Qed.

(** The whole cache, from a block update on. *)
Lemma reconstruct_block_buffers `{HashMapOrder} later block txs older s :
  Forall (fun tx => s < slot tx) later -> Forall (fun tx => slot tx <= s) (block :: txs ++ older) ->
  is_block_update block = true -> faithful block ->
  Forall (fun tx => faithful tx /\ is_block_update tx = false) txs -> at_end older ->
  (forall p, expected p -> exists tx, tx ∈ txs /\ recorded tx p) ->
  reconstruct_buffers_from_cache {| transactions := later ++ block :: txs ++ older |} mint_buffer txo_buffer s
    = Some (BufferClient.mints mb, indices tb).
Proof.
  intros Hlater Hslot Hbl Hfb Htxs Hend Hall. unfold reconstruct_buffers_from_cache. cbn [transactions].
  rewrite filter_app, (filter_none _ later), (filter_all _ (block :: txs ++ older)); [|done|].
  2:{ apply (Forall_impl _ _ _ Hlater). lia. }
  cbn [app rebuild_loop]. rewrite Hbl. cbn [andb rb_found rebuild_empty]. fold (rebuild_tx block (with_found rebuild_empty)).
  destruct (sound_tx block (with_found rebuild_empty) Hfb) as [Hs _].
  { split; [done|]. split; [by left|]. split; intros ? ? [=]. }
  destruct (sound_loop _ _ _ Htxs Hend Hs) as [(_ & _ & Hm & Hw) Hk].
  set (r := rebuild_loop _ _ _ _) in *. assert (forall p, expected p -> known r p) as Hknown by auto.
  assert (rb_size r = data_size tb) as -> by exact (Hknown Size I).
  rewrite (assemble_indices_all tb); [|done|exact Hw|intros o c Hc; exact (Hknown (Chunk o c) Hc)].
  cbn [mbind option_bind]. do 2 f_equal. apply assemble_mints_all; [exact Hm|].
  intros g Hg. destruct (get_group_Some mb g Hg) as (group & Hgr & _). exists group. exact (Hknown (Group g group) (conj Hg Hgr)).
Qed.

(** ** The block update *)

Section block.
Context `{Runtime} `{ProgramIds}.

(** The client's block instruction: plain, or a reorg with the blocks it skips. *)
Inductive client_block (operator : Pubkey) (header : PsyBridgeHeader)
  : Instruction -> bool -> list FinalizedBlockMintTxoInfo -> Prop :=
  | plain_block payer proof b6 b7 i :
      byte_array 256 proof -> pod_wf header ->
      BridgeClient.block_update (program_id config) payer proof header operator mint_buffer txo_buffer b6 b7 = Some i ->
      client_block operator header i false []
  | reorg_block payer proof extra b6 b7 i :
      byte_array 256 proof -> pod_wf header -> Forall pod_wf extra ->
      BridgeClient.process_reorg_blocks (program_id config) payer proof header extra operator mint_buffer txo_buffer b6 b7
        = Some i ->
      client_block operator header i true extra.

Lemma parse_block_data_of (p : bytes) proof header rest is_reorg :
  length p = 8%nat -> byte_array 256 proof -> pod_wf header ->
  parse_block_data (p ++ bytes_of {| bu_proof := proof; bu_header := header |} ++ rest) is_reorg
    = Some (sc_block_height (finalized_state header), if is_reorg then parse_extra_blocks rest else []).
Proof.
  intros Hp Hpr Hh. set (fixed := {| bu_proof := proof; bu_header := header |}).
  assert (pod_wf fixed) as Hwf by (by split). destruct (bytes_of_array fixed Hwf) as [Hl _].
  unfold parse_block_data. rewrite (proj2 (Z.ltb_ge _ _)).
  2:{ rewrite !len_app. unfold len, FIXED_SIZE. rewrite Hp, Hl. lia. }
  rewrite (slice_app_mid 8 (8 + FIXED_SIZE) p (bytes_of fixed) rest); [|unfold len; lia|unfold len, FIXED_SIZE; lia].
  cbn [mbind option_bind]. rewrite (cast_bytes_of fixed Hwf). cbn [mbind option_bind]. do 3 f_equal. destruct is_reorg; [|done].
  f_equal. replace (Z.to_nat (8 + FIXED_SIZE)) with (length (p ++ bytes_of fixed)).
  - rewrite app_assoc. apply drop_app_length.
  - rewrite length_app, Hp, Hl. unfold FIXED_SIZE. lia.
Qed.

Lemma client_block_parsed operator header i reorg extra keys ix :
  client_block operator header i reorg extra -> resolves keys ix i ->
  index keys (program_id_index ix) = Some (program_id config) /\
  discriminator_of (ci_data ix) = Some (if reorg then DOGE_BRIDGE_INSTRUCTION_PROCESS_REORG_BLOCKS
                                        else DOGE_BRIDGE_INSTRUCTION_BLOCK_UPDATE) /\
  parse_block_data (ci_data ix) reorg = Some (sc_block_height (finalized_state header), extra) /\
  instruction_account (ci_accounts ix) keys 1 = Some mint_buffer /\
  instruction_account (ci_accounts ix) keys 2 = Some txo_buffer /\
  instruction_account (ci_accounts ix) keys 3 = Some operator.
Proof.
  intros Hb Hr. destruct Hb as [payer proof b6 b7 i Hp Hh Hi|payer proof extra b6 b7 i Hp Hh He Hi];
    [unfold BridgeClient.block_update in Hi|unfold BridgeClient.process_reorg_blocks in Hi];
    rewrite BridgeClient.aligned_bumps in Hi; cbn [mbind option_bind] in Hi; apply (inj Some) in Hi; subst i;
    pose proof Hr as (Hprog & _ & Hd); rewrite Hd;
    (split; [exact Hprog|]); (split; [reflexivity|]);
    (split; [|split_and!; [exact (resolves_account _ _ _ _ _ 1 _ Hr eq_refl)
                          |exact (resolves_account _ _ _ _ _ 2 _ Hr eq_refl)
                          |exact (resolves_account _ _ _ _ _ 3 _ Hr eq_refl)]]).
  - rewrite <- (app_nil_r (bytes_of _)).
    exact (parse_block_data_of (replicate 6 DOGE_BRIDGE_INSTRUCTION_BLOCK_UPDATE ++ [b6; b7]) proof header [] false eq_refl Hp Hh).
  - rewrite <- (parse_extra_blocks_of extra He) at 2.
    exact (parse_block_data_of (replicate 6 DOGE_BRIDGE_INSTRUCTION_PROCESS_REORG_BLOCKS ++ [b6; b7]) proof header
      (concat (bytes_of <$> extra)) true eq_refl Hp Hh).
Qed.

Definition uploading (keys : list Pubkey) (ix : CompiledInstruction) : Prop := exists p, upload_ix keys ix p.

Lemma parse_block_tx operator header i reorg extra keys pre ix post s :
  client_block operator header i reorg extra -> resolves keys ix i -> Forall (uploading keys) (pre ++ post) ->
  let tx := parse_operator_tx config s {| static_account_keys := keys; instructions := pre ++ ix :: post |} in
  faithful tx /\ is_block_update tx = true.
Proof.
  intros Hb Hr [Hpre Hpost]%Forall_app. destruct (client_block_parsed _ _ _ _ _ _ _ Hb Hr) as (Hi & Hd & _).
  unfold parse_operator_tx. cbn [instructions static_account_keys]. rewrite fold_left_app. cbn [fold_left].
  rewrite step_block; [|done|].
  2:{ unfold is_block_instruction. rewrite Hi, Hd. rewrite bool_decide_eq_true_2 by done. by destruct reorg. }
  set (tx1 := fold_left _ pre _). destruct (parse_uploads keys pre (empty_tx s) Hpre) as (Hf & _). fold tx1 in Hf.
  destruct (parse_uploads keys post (set_block_update tx1) Hpost) as (Hf' & He & _). split; [|exact He].
  apply Hf'. exact (Hf (faithful_empty s)).
Qed.

Lemma find_block operator header i reorg extra keys pre ix post sig s time :
  client_block operator header i reorg extra -> resolves keys ix i -> Forall (uploading keys) pre ->
  find_block_update config keys sig s time (pre ++ ix :: post) =
    Some {| bi_block_height := sc_block_height (finalized_state header); bi_signature := sig; bi_slot := s;
            bi_block_time := time; bi_is_reorg := reorg; bi_extra_finalized_blocks := extra;
            bi_mint_buffer := Some mint_buffer; bi_txo_buffer := Some txo_buffer; bi_operator := Some operator |}.
Proof.
  intros Hb Hr Hpre. destruct (client_block_parsed _ _ _ _ _ _ _ Hb Hr) as (Hi & Hd & Hp & H1 & H2 & H3).
  induction Hpre as [|ix' pre [p Hu] Hpre IH]; cbn [app find_block_update].
  - assert (is_block_instruction config keys ix = true) as ->.
    { unfold is_block_instruction. rewrite Hi, Hd. rewrite bool_decide_eq_true_2 by done. by destruct reorg. }
    rewrite Hd. assert (bool_decide (Some (if reorg then DOGE_BRIDGE_INSTRUCTION_PROCESS_REORG_BLOCKS
      else DOGE_BRIDGE_INSTRUCTION_BLOCK_UPDATE) = Some DOGE_BRIDGE_INSTRUCTION_PROCESS_REORG_BLOCKS) = reorg) as ->
      by (by destruct reorg).
    rewrite Hp. cbn [mbind option_bind]. by rewrite H1, H2, H3.
  - by rewrite (upload_no_block _ _ _ Hu).
Qed.
End block.

(** Whether a parsed transaction updates a block. *)
Lemma step_is_block keys tx ix :
  is_block_update (parse_operator_instruction config keys tx ix)
    = is_block_update tx || is_block_instruction config keys ix.
Proof.
  assert (forall b d tx, is_block_update (parse_mint_instruction b d tx) = is_block_update tx) as Hm.
  { intros b d tx0. unfold parse_mint_instruction. by repeat case_match. }
  assert (forall b d tx, is_block_update (parse_txo_instruction b d tx) = is_block_update tx) as Ht.
  { intros b d tx0. unfold parse_txo_instruction. by repeat case_match. }
  unfold parse_operator_instruction. destruct (index keys (program_id_index ix)) as [program|] eqn:Hi.
  2:{ unfold is_block_instruction. by rewrite Hi, orb_false_r. }
  destruct (is_block_instruction config keys ix); rewrite ?orb_true_r, ?orb_false_r;
    repeat case_match; rewrite ?Ht, ?Hm; done.
Qed.

Lemma parse_is_block s m :
  is_block_update (parse_operator_tx config s m)
    = existsb (is_block_instruction config (static_account_keys m)) (instructions m).
Proof.
  unfold parse_operator_tx. transitivity (is_block_update (empty_tx s) ||
    existsb (is_block_instruction config (static_account_keys m)) (instructions m)); [|done].
  generalize (empty_tx s). induction (instructions m) as [|ix l IH]; intros tx; cbn [fold_left existsb].
  - by rewrite orb_false_r.
  - by rewrite IH, step_is_block, orb_assoc.
Qed.

(** ** From the server's answers to the block *)

(** A transaction of uploads, with its slot. *)
Definition upload_tx (tx : Z * Message) : Prop := Forall (uploading (static_account_keys tx.2)) (instructions tx.2).

(** It contains an instruction that uploads the piece. *)
Definition carries (tx : Z * Message) (p : Piece) : Prop :=
  exists ix, ix ∈ instructions tx.2 /\ upload_ix (static_account_keys tx.2) ix (Some p).

Definition updates_block (tx : Z * Message) : bool :=
  existsb (is_block_instruction config (static_account_keys tx.2)) (instructions tx.2).

Definition parsed (tx : Z * Message) : ParsedOperatorTx := parse_operator_tx config tx.1 tx.2.

Lemma parsed_slot tx : slot (parsed tx) = tx.1.
Proof.
  assert (forall keys p ix, slot (parse_operator_instruction config keys p ix) = slot p) as Hs.
  { intros keys p ix. unfold parse_operator_instruction, parse_mint_instruction, parse_txo_instruction.
    by repeat case_match. }
  unfold parsed, parse_operator_tx. change (tx.1) with (slot (empty_tx tx.1)) at 2. generalize (empty_tx tx.1).
  induction (instructions tx.2) as [|ix l IH]; intros p; [done|]. cbn [fold_left]. by rewrite IH, Hs.
Qed.

Lemma parsed_upload tx : upload_tx tx -> faithful (parsed tx) /\ is_block_update (parsed tx) = false.
Proof.
  intros Hu. destruct (parse_uploads _ _ (empty_tx tx.1) Hu) as (Hf & Hb & _). split; [|exact Hb].
  exact (Hf (faithful_empty _)).
Qed.

Lemma parsed_carries tx p : upload_tx tx -> carries tx p -> recorded (parsed tx) p.
Proof.
  intros Hu Hc. destruct (parse_uploads _ _ (empty_tx tx.1) Hu) as (_ & _ & Hr). apply Hr. by right.
Qed.

Section server.
Context `{ForeignErrors} `{!RpcServer} `{Runtime} `{ProgramIds} `{HashMapOrder}.
Context (Hacquire : forall r, acquire r = Ok tt).

(** The server lists and returns these transactions. *)
Definition serves (sigs : list SignatureInfo) (txs : list (Z * Message)) : Prop :=
  Forall2 (fun si tx => exists sig time, si_signature si = Some sig /\ si_slot si = tx.1 /\
    get_transaction sig = Ok {| tx_slot := tx.1; tx_block_time := time; tx_transaction := Binary (Some tx.2) |})
    sigs txs.

Lemma cache_served sigs txs : serves sigs txs -> cache_transactions config sigs = Ok (parsed <$> txs).
Proof.
  induction 1 as [|si tx sigs txs (sig & time & Hs & Hsl & Hg) Hrest IH]; [done|].
  cbn [cache_transactions]. rewrite Hs, Hacquire, Hg, IH, Hsl. done.
Qed.

(** [C25] The history client rebuilds a block from the operator's transactions.  If the
    operator's list holds the block update, after it (newer) only later slots, before
    it transactions that upload the block's mints and outputs with the client's own
    instructions, in any order, with repetitions and among unrelated instructions,
    and then nothing or an earlier block update, the record that is rebuilt has the
    header's height, exactly the uploaded mints and outputs, and for a reorg the
    blocks it skipped. *)
Theorem history_rebuilds_block operator header i reorg extra sigs later txs older keys pre ix post s time sig :
  get_signatures operator None None 1000 = Ok sigs ->
  let block := {| static_account_keys := keys; instructions := pre ++ ix :: post |} in
  serves sigs (later ++ (s, block) :: txs ++ older) ->
  get_transaction sig = Ok {| tx_slot := s; tx_block_time := time; tx_transaction := Binary (Some block) |} ->
  client_block operator header i reorg extra -> resolves keys ix i -> Forall (uploading keys) (pre ++ post) ->
  Forall (fun tx => s < tx.1) later -> Forall (fun tx => tx.1 <= s) (txs ++ older) ->
  Forall upload_tx txs -> match older with [] => True | tx :: _ => updates_block tx = true end ->
  (forall p, expected p -> exists tx, tx ∈ txs /\ carries tx p) ->
  exists cache info, build_operator_tx_cache config operator = Ok cache /\
    fetch_block_update_info config sig = Ok (Some info) /\
    rebuild_blocks cache [info] = Ok
      [{| br_block_height := sc_block_height (finalized_state header); br_signature := sig; br_slot := s;
          br_block_time := time; br_txo_indices := indices tb; br_pending_mints := BufferClient.mints mb;
          br_is_reorg := reorg; br_extra_finalized_blocks := extra |}].
Proof.
  intros Hsigs block Hserve Htx Hb Hr Hixs Hlater Hslots Hup Hend Hall.
  eexists _, _. split; [unfold build_operator_tx_cache; rewrite Hacquire; cbn [res_bind]; rewrite Hsigs; cbn [res_bind];
    rewrite (cache_served _ _ Hserve); reflexivity|].
  split; [unfold fetch_block_update_info; rewrite Hacquire; cbn [res_bind]; rewrite Htx;
    cbn [res_bind tx_transaction block static_account_keys instructions tx_slot tx_block_time];
    rewrite (find_block _ _ _ _ _ _ _ _ _ _ _ _ Hb Hr) by (by apply Forall_app in Hixs as [? _]); reflexivity|].
  cbn [rebuild_blocks bi_mint_buffer bi_txo_buffer bi_slot]. cbn [default from_option id].
  rewrite fmap_app, fmap_cons, fmap_app. destruct (parse_block_tx _ _ _ _ _ _ _ _ _ s Hb Hr Hixs) as [Hf Hu].
  rewrite reconstruct_block_buffers; [done|..].
  - apply Forall_fmap, (Forall_impl _ _ _ Hlater). intros tx. unfold compose. by rewrite parsed_slot.
  - constructor; [by rewrite parsed_slot|]. rewrite <- fmap_app. apply Forall_fmap, (Forall_impl _ _ _ Hslots).
    intros tx. unfold compose. by rewrite parsed_slot.
  - exact Hu.
  - exact Hf.
  - apply Forall_fmap, (Forall_impl _ _ _ Hup). exact parsed_upload.
  - destruct older as [|tx older]; [done|]. cbn [fmap list_fmap at_end]. unfold parsed. by rewrite parse_is_block.
  - intros p Hp. destruct (Hall p Hp) as (tx & Hin & Hc). exists (parsed tx). split; [by apply list_elem_of_fmap_2|].
    apply parsed_carries; [|done]. by apply (list.Forall_forall upload_tx txs).
Qed.
End server.
End history.

(** ** Collecting the signatures of an address *)

(** The signatures that are older than [before]. *)
Fixpoint behind (b : Signature) (l : list Signature) : list Signature :=
  match l with
  | [] => []
  | x :: l => if bool_decide (x = b) then l else behind b l
  end.
Definition older_than (before : option Signature) (l : list Signature) : list Signature :=
  match before with None => l | Some b => behind b l end.

(** Those that are newer than [until]. *)
Fixpoint in_front (u : Signature) (l : list Signature) : list Signature :=
  match l with
  | [] => []
  | x :: l => if bool_decide (x = u) then [] else x :: in_front u l
  end.
Definition newer_than (until : option Signature) (l : list Signature) : list Signature :=
  match until with None => l | Some u => in_front u l end.

Lemma behind_app p b q : b ∉ p -> behind b (p ++ b :: q) = q.
Proof.
  induction p as [|x p IH]; cbn [app behind]; intros Hb; [by rewrite bool_decide_eq_true_2|].
  apply not_elem_of_cons in Hb as [Hx Hb]. rewrite bool_decide_eq_false_2 by done. by apply IH.
Qed.

(** The newer part is a prefix; dropping from the front keeps the end in place. *)
Lemma newer_than_prefix until l : exists rest, l = newer_than until l ++ rest.
Proof.
  destruct until as [u|]; [|exists []; by rewrite app_nil_r]. cbn [newer_than].
  induction l as [|x l [rest IH]]; [by exists []|]. cbn [in_front]. case_bool_decide; [by eexists|].
  exists rest. cbn [app]. by rewrite <- IH.
Qed.

Lemma newer_than_drop until l done todo rest :
  newer_than until l = done ++ todo -> l = (done ++ todo) ++ rest -> newer_than until (todo ++ rest) = todo.
Proof.
  destruct until as [u|]; cbn [newer_than].
  - revert l. induction done as [|x done IH]; intros l Hn Hl; cbn [app] in *; [by rewrite <- Hl|].
    rewrite Hl in Hn. cbn [in_front] in Hn. case_bool_decide; [discriminate Hn|]. injection Hn as Hn. by apply (IH _ Hn).
  - intros -> Hl. assert (rest = []) as -> by (apply (f_equal length) in Hl; rewrite !length_app in Hl;
      destruct rest; [done|cbn [length] in Hl; lia]). by rewrite app_nil_r.
Qed.

(** The answer to a page that starts behind what has been read. *)
Lemma next_page (history done todo : list Signature) until :
  NoDup history -> newer_than until history = done ++ todo ->
  newer_than until (older_than (last done) history) = todo.
Proof.
  intros Hnd Hn. destruct (newer_than_prefix until history) as [rest Hrest]. rewrite Hn in Hrest.
  assert (older_than (last done) history = todo ++ rest) as ->; [|exact (newer_than_drop _ _ _ _ _ Hn Hrest)].
  destruct (last done) as [b|] eqn:Hb.
  - apply last_Some in Hb as [p ->]. cbn [older_than]. rewrite Hrest, <- !app_assoc. apply behind_app.
    rewrite Hrest, <- !app_assoc in Hnd. apply list.NoDup_app in Hnd as (_ & Hd & _). intros Hin.
    apply (Hd _ Hin). apply list_elem_of_here.
  - apply last_None in Hb as ->. by rewrite Hrest.
Qed.

Section collect.
Context `{ForeignErrors} `{!RpcServer}.
Context (address : Pubkey) (history : list Signature) (limit : Z).

(** The documented answer: at most [limit] signatures, newest first, that are older
    than [before] and newer than [until]. *)
Definition lists_signatures : Prop :=
  forall before until, (exists l, get_signatures address before until limit = Ok l /\
    si_signature <$> l = Some <$> take (Z.to_nat limit) (newer_than until (older_than before history))).

Lemma parsed_all l (k : list Signature) : si_signature <$> l = Some <$> k -> parsed_signatures l = k.
Proof.
  intros Hl. unfold parsed_signatures. revert k Hl. induction l as [|x l IH]; intros [|y k] Hl; [done..|].
  rewrite !fmap_cons in Hl. injection Hl as Hx Hl. cbn [omap list_omap]. by rewrite Hx, (IH k Hl).
Qed.

Lemma collect_loop_all until fuel done todo :
  (forall r, acquire r = Ok tt) -> lists_signatures -> NoDup history -> 0 < limit ->
  newer_than until history = done ++ todo -> (length todo < fuel)%nat ->
  collect_loop fuel address until limit done (last done) = Some (Ok (done ++ todo)).
Proof.
  intros Hacq Hserver Hnd Hlim. revert done todo. induction fuel as [|fuel IH]; intros done todo Hn Hf; [lia|].
  cbn [collect_loop]. rewrite Hacq. cbn [res_bind]. destruct (Hserver (last done) until) as (l & -> & Hl).
  rewrite (next_page _ _ _ _ Hnd Hn) in Hl. apply parsed_all in Hl as Hp. destruct l as [|si l].
  - destruct todo as [|x todo]; [by rewrite app_nil_r|]. exfalso.
    destruct (Z.to_nat limit) eqn:E; [lia|]. discriminate Hl.
  - rewrite Hp. assert (todo <> []) as Hne.
    { intros ->. rewrite take_nil in Hl. discriminate Hl. }
    set (new := take (Z.to_nat limit) todo) in *.
    assert (new <> []) as Hnew by (intros E; rewrite E in Hl; discriminate Hl).
    assert ((match last new with Some sig => Some sig | None => last done end) = last (done ++ new)) as ->.
    { rewrite last_app. by destruct (last new). }
    rewrite (IH _ (drop (Z.to_nat limit) todo)).
    + unfold new. by rewrite <- app_assoc, take_drop.
    + rewrite Hn. unfold new. by rewrite <- app_assoc, take_drop.
    + rewrite length_drop. destruct todo; [done|]. cbn [length] in *. lia.
Qed.

(** Collecting signatures ends and misses none.  Against a server that answers as
    documented and a limiter that lets requests pass, the loop over the batches ends
    after at most one request more than there are signatures, whatever the batch size,
    and returns exactly the signatures that are newer than the checkpoint, newest
    first. *)
Theorem collect_all_signatures_complete until fuel :
  (forall r, acquire r = Ok tt) -> lists_signatures -> NoDup history -> 0 < limit -> (length history < fuel)%nat ->
  collect_all_signatures fuel address until limit = Some (Ok (newer_than until history)).
Proof.
  intros Hacq Hserver Hnd Hlim Hf. unfold collect_all_signatures.
  apply (collect_loop_all until fuel [] (newer_than until history)); [done..|].
  destruct (newer_than_prefix until history) as [rest Hrest]. apply (f_equal length) in Hrest. rewrite length_app in Hrest. lia.
Qed.
End collect.

(** ** Withdrawal requests *)

(** The history names the bridge as the user of every withdrawal.  Of the client's
    withdrawal request the history records amount, recipient and address type, but as
    the user the first account of the instruction, which is the bridge's own address;
    the requesting user is the fourth. *)
Theorem history_names_bridge_as_user `{ForeignErrors} `{!RpcServer} `{HashMapOrder} `{Runtime} `{ProgramIds}
    config sig s time keys ix user mint token recipient sats ty :
  include_withdrawals config = true ->
  pod_wf {| wr_amount_sats := sats; wr_address_type := ty; wr_recipient_address := recipient |} ->
  resolves keys ix (BridgeClient.request_withdrawal (program_id config) user mint token recipient sats ty) ->
  process_instructions config sig s time keys [ix] = Ok (Some (WithdrawalRequest
    {| wq_signature := sig; wq_slot := s; wq_block_time := time; wq_amount_sats := sats;
       wq_recipient_address := recipient; wq_address_type := ty;
       wq_user_pubkey := BridgeClient.pda [DogeBridge.bridge_state_seed] (program_id config) |})) /\
  instruction_account (ci_accounts ix) keys 3 = Some user.
Proof.
  intros Hinc Hwf Hr. unfold BridgeClient.request_withdrawal in Hr. cbv zeta in Hr.
  pose proof (resolves_account _ _ _ _ _ 0 _ Hr eq_refl) as Hacc0. pose proof (resolves_account _ _ _ _ _ 3 _ Hr eq_refl) as Hacc3.
  split; [|exact Hacc3]. destruct Hr as (Hi & _ & Hd). cbn [process_instructions]. rewrite Hi, Hd.
  change (discriminator_of _) with (Some DOGE_BRIDGE_INSTRUCTION_REQUEST_WITHDRAWAL).
  rewrite bool_decide_eq_true_2 by done. rewrite Hinc. cbn [negb]. cbv match beta.
  change (DOGE_BRIDGE_INSTRUCTION_REQUEST_WITHDRAWAL =? _) with false at 1 2.
  rewrite Z.eqb_refl. cbn [andb]. f_equal. unfold parse_withdrawal_request, parse_struct.
  set (request := {| rw_request := _ |}). assert (pod_wf request) as Hw by exact Hwf.
  destruct (bytes_of_array request Hw) as [Hl _].
  unfold BridgeClient.gen_aligned_instruction.
  rewrite (slice_suffix 8 _ (replicate 8 _) (bytes_of request)); [|done|unfold len; rewrite Hl; done].
  cbn [mbind option_bind]. rewrite (cast_bytes_of request Hw). cbn [mbind option_bind]. by rewrite Hacc0.
Qed.

(** ** Abandoned uploads *)

(** A cached transaction with one insertion, and one with a reinit. *)
Definition insert_tx (s : Z) (b : Pubkey) (g : Z) (group : list PendingMint) : ParsedOperatorTx :=
  push_insert (b, g, group) (empty_tx s).
Definition reinit_tx (s : Z) (b : Pubkey) : ParsedOperatorTx := push_reinit b (empty_tx s).

(** An abandoned upload replaces the one that was used.  When the operator inserts
    a group, starts the buffer over and inserts the group again before the block
    update, the history reports the mints that were abandoned: the [break] at the
    reinit only leaves the loop over the reinits of one transaction, and what is older
    is inserted over what is newer. *)
Theorem abandoned_upload_wins `{HashMapOrder} mint_buffer txo_buffer g used abandoned s1 s2 s3 s4 :
  s1 <= s2 <= s3 -> s3 <= s4 ->
  reconstruct_buffers_from_cache
    {| transactions := [set_block_update (empty_tx s4); insert_tx s3 mint_buffer g used; reinit_tx s2 mint_buffer;
                        insert_tx s1 mint_buffer g abandoned] |} mint_buffer txo_buffer s4
  = Some (abandoned, []).
Proof.
  intros H1 H2. unfold reconstruct_buffers_from_cache. cbn [transactions]. rewrite filter_all.
  2:{ repeat constructor; cbn; lia. }
  cbn [rebuild_loop set_block_update insert_tx reinit_tx push_insert push_reinit empty_tx is_block_update rb_found
    rebuild_empty andb mint_reinits mint_inserts txo_set_lens txo_writes rebuild_reinits rebuild_inserts rebuild_set_lens
    rebuild_writes app with_found].
  rewrite bool_decide_eq_true_2 by done. cbn [with_mints rb_mints rb_found rb_writes rb_size].
  unfold assemble_txo_indices. rewrite bool_decide_eq_true_2 by done. cbn [orb mbind option_bind]. do 2 f_equal.
  cbn [rb_found with_found rebuild_empty rb_mints with_mints].
  rewrite insert_insert_eq, insert_empty. unfold assemble_mints. rewrite map_to_list_singleton.
  cbn [fmap list_fmap fst]. change (merge_sort Z.le [g]) with [g]. cbn [fmap list_fmap concat].
  by rewrite lookup_singleton_eq, app_nil_r.
Qed.
