(* ===== verification/Monitor.v ===== *)
(** * Monitor: following the bridge on the chain

    Models [clients/rust/src/monitor.rs] and [noop_shim_monitor.rs]: two monitors that
    poll the signatures of an address and turn transactions into events, withdrawal
    requests, withdrawals and claimed deposits for the first, announced withdrawal
    transactions for the second.  Both have the same loops, which are modelled once,
    over the function [parse] that reads a transaction.

    A monitor runs for a long time, during which the chain grows; a poll is made
    against the answers that the server gives at that time. *)
From S2P Require Import Prelude Errors Pod Hash Types Runtime BufferClient MintGroup ProgramState BridgeInstructions DogeBridge RpcClient HistorySync.
From Stdlib Require Import ZArith Lia.
From stdpp Require Import base decidable list numbers option countable gmap.
Import HistorySync.

Open Scope Z_scope.
Open Scope bridge_scope.

Module Monitor.
Abbreviation result A := (res RpcClient.BridgeError A).

(** ** The loops *)

Section loops.
Context `{ForeignErrors} {Event : Type}.

(** The loop over the signatures of a poll, oldest first: what is sent, and how the
    loop ends.  [open n] says whether the receiver takes the [n]-th event; if not, the
    loop ends without an error. *)
Fixpoint send_events (parse : Signature -> result (option Event)) (open : nat -> bool) (n : nat)
    (l : list SignatureInfo) : list Event * result unit :=
  match l with
  | [] => ([], Ok tt)
  | sig_info :: l =>
      match si_signature sig_info with
      | None => send_events parse open n l
      | Some sig =>
          match parse sig with
          | Ok (Some event) =>
              if open n then
                let r := send_events parse open (S n) l in (event :: r.1, r.2)
              else ([], Ok tt)
          | Ok None => send_events parse open n l
          | Err e => ([], Err e)
          | Panic => ([], Panic)
          end
      end
  end.

(** The checkpoint is moved to the newest signature before anything is processed. *)
Definition poll_once `{!RpcServer} (parse : Signature -> result (option Event)) (address : Pubkey) (batch_size : Z)
    (open : nat -> bool) (after_signature : option Signature) : list Event * option Signature * result unit :=
  match (try _ <- acquire (SignaturesOf address None);
         get_signatures address None after_signature batch_size) with
  | Ok [] => ([], after_signature, Ok tt)
  | Ok (newest :: l) =>
      let after_signature := match si_signature newest with Some sig => Some sig | None => after_signature end in
      let r := send_events parse open 0 (reverse (newest :: l)) in
      (r.1, after_signature, r.2)
  | Err e => ([], after_signature, Err e)
  | Panic => ([], after_signature, Panic)
  end.

(** What a poll finds: the server at its time and the receiver. *)
Record Tick := {
  tick_server : RpcServer;
  tick_open : nat -> bool
}.

(** [select!] between the stop signal, which ends the list of ticks, and the interval.
    Errors of a poll are logged; a panic ends the task. *)
Fixpoint monitor_loop (parse : RpcServer -> Signature -> result (option Event)) (address : Pubkey) (batch_size : Z)
    (ticks : list Tick) (after_signature : option Signature) : list Event * option Signature :=
  match ticks with
  | [] => ([], after_signature)
  | tick :: ticks =>
      let '(events, after_signature, outcome) :=
        @poll_once (tick_server tick) (parse (tick_server tick)) address batch_size (tick_open tick) after_signature in
      match outcome with
      | Panic => (events, after_signature)
      | Ok _ | Err _ =>
          let r := monitor_loop parse address batch_size ticks after_signature in (events ++ r.1, r.2)
      end
  end.

(** The loop over a batch of [fetch_since]. *)
Fixpoint parse_batch (parse : SignatureInfo -> result (option Event)) (l : list SignatureInfo) (events : list Event)
    : result (list Event) :=
  match l with
  | [] => Ok events
  | sig_info :: l =>
      try event <- parse sig_info;
      parse_batch parse l (match event with Some event => events ++ [event] | None => events end)
  end.

(** The [while] of [fetch_since]; [None]: out of fuel. *)
Fixpoint fetch_since_loop `{!RpcServer} (fuel : nat) (parse : SignatureInfo -> result (option Event))
    (address : Pubkey) (batch_size : Z) (after_signature : option Signature) (limit : Z) (events : list Event)
    (before_signature : option Signature) : option (result (list Event)) :=
  match fuel with
  | O => None
  | S fuel =>
      if len events <? limit then
        match (try _ <- acquire (SignaturesOf address before_signature);
               try signatures <- get_signatures address before_signature after_signature
                                   (Z.min batch_size (limit - len events));
               match last signatures with
               | None => Ok None
               | Some oldest =>
                   try events <- parse_batch parse signatures events;
                   Ok (Some (events, si_signature oldest))
               end) with
        | Ok None => Some (Ok events)
        | Ok (Some (events, before_signature)) =>
            fetch_since_loop fuel parse address batch_size after_signature limit events before_signature
        | Err e => Some (Err e)
        | Panic => Some Panic
        end
      else Some (Ok events)
  end.

(** Without a limit it is [usize::MAX]. *)
Definition fetch_since `{!RpcServer} (fuel : nat) (parse : SignatureInfo -> result (option Event)) (address : Pubkey)
    (batch_size : Z) (after_signature : option Signature) (limit : option Z) : option (result (list Event)) :=
  r ← fetch_since_loop fuel parse address batch_size after_signature (default (2 ^ 64 - 1) limit) [] None;
  Some (try events <- r; Ok (reverse events)).
End loops.

(** ** monitor.rs *)

Record WithdrawalRequestedEvent := {
  wre_signature : Signature;
  wre_slot : Z;
  wre_block_time : option Z;
  wre_amount_sats : Z;
  wre_recipient_address : bytes;
  wre_address_type : Z;
  wre_user_pubkey : Pubkey;
  wre_withdrawal_index : Z
}.

Record WithdrawalProcessedEvent := {
  wpe_signature : Signature;
  wpe_slot : Z;
  wpe_block_time : option Z;
  wpe_new_return_output_sighash : bytes;
  wpe_new_return_output_index : Z;
  wpe_new_return_output_amount : Z;
  wpe_new_spent_txo_tree_root : bytes;
  wpe_new_next_processed_withdrawals_index : Z
}.

Record ManualDepositClaimedEvent := {
  mdc_signature : Signature;
  mdc_slot : Z;
  mdc_block_time : option Z;
  mdc_tx_hash : bytes;
  mdc_combined_txo_index : Z;
  mdc_deposit_amount_sats : Z;
  mdc_depositor_pubkey : bytes;
  mdc_claimer_pubkey : Pubkey
}.

Record BlockTransitionEvent := {
  bte_signature : Signature;
  bte_slot : Z;
  bte_block_time : option Z;
  bte_block_height : Z;
  bte_is_reorg : bool
}.

Inductive BridgeEvent :=
  | WithdrawalRequested (e : WithdrawalRequestedEvent)
  | WithdrawalProcessed (e : WithdrawalProcessedEvent)
  | ManualDepositClaimed (e : ManualDepositClaimedEvent)
  | BlockTransition (e : BlockTransitionEvent).

Record MonitorConfig := {
  mc_rpc_url : bytes;
  mc_program_id : Pubkey;
  mc_bridge_state_pda : Pubkey;
  mc_rate_limit : RpcClient.RateLimitConfig;
  mc_poll_interval_ms : Z;
  mc_batch_size : Z
}.

Definition MonitorConfig_new (rpc_url : bytes) (program_id bridge_state_pda : Pubkey) : MonitorConfig :=
  {| mc_rpc_url := rpc_url; mc_program_id := program_id; mc_bridge_state_pda := bridge_state_pda;
     mc_rate_limit := RpcClient.RateLimitConfig_default; mc_poll_interval_ms := 1000; mc_batch_size := 100 |}.

(** The user is taken from the first account, the index is not filled in. *)
Definition parse_withdrawal_request (signature : Signature) (slot : Z) (block_time : option Z) (ix_data : bytes)
    (accounts : list Z) (account_keys : list Pubkey) : option WithdrawalRequestedEvent :=
  d ← parse_struct RequestWithdrawalInstructionData ix_data;
  Some {| wre_signature := signature; wre_slot := slot; wre_block_time := block_time;
          wre_amount_sats := wr_amount_sats (rw_request d); wre_recipient_address := wr_recipient_address (rw_request d);
          wre_address_type := wr_address_type (rw_request d);
          wre_user_pubkey := default (zeros 32) (instruction_account accounts account_keys 0);
          wre_withdrawal_index := 0 |}.

Definition parse_process_withdrawal (signature : Signature) (slot : Z) (block_time : option Z) (ix_data : bytes)
    : option WithdrawalProcessedEvent :=
  d ← parse_struct ProcessWithdrawalInstructionData ix_data;
  Some {| wpe_signature := signature; wpe_slot := slot; wpe_block_time := block_time;
          wpe_new_return_output_sighash := ro_sighash (pw_new_return_output d);
          wpe_new_return_output_index := ro_output_index (pw_new_return_output d);
          wpe_new_return_output_amount := ro_amount_sats (pw_new_return_output d);
          wpe_new_spent_txo_tree_root := pw_new_spent_txo_tree_root d;
          wpe_new_next_processed_withdrawals_index := pw_new_next_processed_withdrawals_index d |}.

Definition parse_manual_deposit (signature : Signature) (slot : Z) (block_time : option Z) (ix_data : bytes)
    (accounts : list Z) (account_keys : list Pubkey) : option ManualDepositClaimedEvent :=
  d ← parse_struct ProcessManualDepositInstructionData ix_data;
  Some {| mdc_signature := signature; mdc_slot := slot; mdc_block_time := block_time; mdc_tx_hash := md_tx_hash d;
          mdc_combined_txo_index := md_combined_txo_index d; mdc_deposit_amount_sats := md_deposit_amount_sats d;
          mdc_depositor_pubkey := md_depositor_solana_public_key d;
          mdc_claimer_pubkey := default (zeros 32) (instruction_account accounts account_keys 0) |}.

(** One instruction of the bridge; [BlockTransition] is never produced. *)
Definition parse_event (signature : Signature) (slot : Z) (block_time : option Z) (keys : list Pubkey)
    (ix : CompiledInstruction) (discriminator : Z) : option BridgeEvent :=
  let d := ci_data ix in
  if discriminator =? DOGE_BRIDGE_INSTRUCTION_REQUEST_WITHDRAWAL then
    WithdrawalRequested <$> parse_withdrawal_request signature slot block_time d (ci_accounts ix) keys
  else if discriminator =? DOGE_BRIDGE_INSTRUCTION_PROCESS_WITHDRAWAL then
    WithdrawalProcessed <$> parse_process_withdrawal signature slot block_time d
  else if discriminator =? DOGE_BRIDGE_INSTRUCTION_PROCESS_MANUAL_DEPOSIT then
    ManualDepositClaimed <$> parse_manual_deposit signature slot block_time d (ci_accounts ix) keys
  else None.

(** The loop over the instructions: the first event counts. *)
Fixpoint find_event (program_id : Pubkey) (signature : Signature) (slot : Z) (block_time : option Z)
    (keys : list Pubkey) (l : list CompiledInstruction) : option BridgeEvent :=
  match l with
  | [] => None
  | ix :: l =>
      let continue := find_event program_id signature slot block_time keys l in
      match index keys (program_id_index ix), discriminator_of (ci_data ix) with
      | Some program, Some discriminator =>
          if bool_decide (program = program_id) then
            match parse_event signature slot block_time keys ix discriminator with
            | Some event => Some event
            | None => continue
            end
          else continue
      | _, _ => continue
      end
  end.

Section bridge_monitor.
Context `{ForeignErrors}.

Definition parse_transaction_static `{!RpcServer} (program_id : Pubkey) (signature : Signature) : result (option BridgeEvent) :=
  try _ <- acquire (TransactionOf signature);
  try tx <- get_transaction signature;
  match tx_transaction tx with
  | Binary (Some message) =>
      Ok (find_event program_id signature (tx_slot tx) (tx_block_time tx) (static_account_keys message)
            (instructions message))
  | Binary None => Err (RpcClient.InvalidInput [])
  | OtherEncoding => Ok None
  end.

(** A signature that does not parse is an error here; its text is left out. *)
Definition parse_transaction `{!RpcServer} (config : MonitorConfig) (sig_info : SignatureInfo) : result (option BridgeEvent) :=
  match si_signature sig_info with
  | None => Err (RpcClient.InvalidInput [])
  | Some sig => parse_transaction_static (mc_program_id config) sig
  end.

Definition bridge_poll_once `{!RpcServer} (config : MonitorConfig) :=
  poll_once (parse_transaction_static (mc_program_id config)) (mc_bridge_state_pda config) (mc_batch_size config).

Definition bridge_monitor_loop (config : MonitorConfig) :=
  monitor_loop (fun server => @parse_transaction_static server (mc_program_id config)) (mc_bridge_state_pda config)
    (mc_batch_size config).

Definition bridge_fetch_since `{!RpcServer} (fuel : nat) (config : MonitorConfig) :=
  fetch_since fuel (parse_transaction config) (mc_bridge_state_pda config) (mc_batch_size config).
End bridge_monitor.

(** ** noop_shim_monitor.rs *)

(** The first eight bytes of the instruction. *)
Definition WORMHOLE_VAA_DISCRIMINATOR : bytes := [214; 50; 100; 209; 38; 34; 7; 76].

Record NoopShimWithdrawalMessage := {
  nm_signature : Signature;
  nm_slot : Z;
  nm_block_time : option Z;
  nm_nonce : Z;
  nm_consistency_level : Z;
  nm_sighash : bytes;
  nm_doge_tx_bytes : bytes;
  nm_emitter : Pubkey;
  nm_payer : Pubkey
}.

Record NoopShimMonitorConfig := {
  nc_rpc_url : bytes;
  nc_noop_shim_program_id : Pubkey;
  nc_bridge_state_pda : Pubkey;
  nc_rate_limit : RpcClient.RateLimitConfig;
  nc_poll_interval_ms : Z;
  nc_batch_size : Z
}.

(** The address of the shim is a constant of the client. *)
Definition NoopShimMonitorConfig_new (NOOP_SHIM_PROGRAM_ID : Pubkey) (rpc_url : bytes) (bridge_state_pda : Pubkey)
    : NoopShimMonitorConfig :=
  {| nc_rpc_url := rpc_url; nc_noop_shim_program_id := NOOP_SHIM_PROGRAM_ID; nc_bridge_state_pda := bridge_state_pda;
     nc_rate_limit := RpcClient.RateLimitConfig_default; nc_poll_interval_ms := 1000; nc_batch_size := 100 |}.

Record WithdrawalPage := {
  messages : list NoopShimWithdrawalMessage;
  next_cursor : option Signature;
  has_more : bool
}.

(** An instruction in the metadata: the data of a compiled one is a base-58 text, which
    may fail to decode. *)
Inductive UiInstruction :=
  | Compiled (program_id_index : Z) (accounts : list Z) (data : option bytes)
  | OtherUi.

(** A transaction with what this monitor reads of it in addition: the signatures, the
    bytes that were signed and the calls of other programs. *)
Record SignedTransaction := {
  st_signatures : list Signature;
  st_num_required_signatures : Z;
  st_message_bytes : bytes;
  st_static_account_keys : list Pubkey;
  st_inner_instructions : list (list UiInstruction)
}.

Inductive EncodedSigned :=
  | BinarySigned (decoded : option SignedTransaction)
  | OtherSigned.

Record SignedStatus := {
  ss_slot : Z;
  ss_block_time : option Z;
  ss_transaction : EncodedSigned
}.

(** The server's answer with metadata, and the verification of an ed25519 signature:
    signature, key, message. *)
Class SignedServer `{ForeignErrors} := {
  get_signed_transaction : Signature -> res RpcClient.BridgeError SignedStatus;
  verify_signature : Signature -> Pubkey -> bytes -> bool
}.

(** The message in an instruction of the shim; [None] is a [continue]. *)
Definition parse_shim_instruction (config : NoopShimMonitorConfig) (signature : Signature) (slot : Z)
    (block_time : option Z) (keys : list Pubkey) (ix : UiInstruction) : option NoopShimWithdrawalMessage :=
  match ix with
  | Compiled program_id_index accounts (Some d) =>
      program ← index keys program_id_index;
      if negb (bool_decide (program = nc_noop_shim_program_id config)) then None else
      if len d <? 17 then None else
      if negb (bool_decide (take 8 d = WORMHOLE_VAA_DISCRIMINATOR)) then None else
      let payload_len := le_at 4 13 d in
      if len d <? 17 + payload_len then None else
      let payload := take (Z.to_nat payload_len) (drop 17 d) in
      if len payload <? 32 then None else
      emitter ← instruction_account accounts keys 2;
      Some {| nm_signature := signature; nm_slot := slot; nm_block_time := block_time; nm_nonce := le_at 4 8 d;
              nm_consistency_level := default 0 (d !! 12%nat); nm_sighash := take 32 payload;
              nm_doge_tx_bytes := drop 32 payload; nm_emitter := emitter;
              nm_payer := default (zeros 32) (instruction_account accounts keys 4) |}
  | _ => None
  end.

(** The two loops over the inner instructions: the first message counts. *)
Fixpoint find_message (config : NoopShimMonitorConfig) (signature : Signature) (slot : Z) (block_time : option Z)
    (keys : list Pubkey) (l : list UiInstruction) : option NoopShimWithdrawalMessage :=
  match l with
  | [] => None
  | ix :: l =>
      match parse_shim_instruction config signature slot block_time keys ix with
      | Some message => Some message
      | None => find_message config signature slot block_time keys l
      end
  end.

Section shim_monitor.
Context `{ForeignErrors} `{!SignedServer}.

(** The loop over the required signatures: [Ok false] when one is missing. *)
Fixpoint verify_signatures (transaction : SignedTransaction) (i n : nat) : result bool :=
  match n with
  | O => Ok true
  | S n =>
      match st_signatures transaction !! i, st_static_account_keys transaction !! i with
      | Some sig, Some pubkey =>
          if verify_signature sig pubkey (st_message_bytes transaction) then verify_signatures transaction (S i) n
          else Err (RpcClient.InvalidInput [])
      | _, _ => Ok false
      end
  end.

Definition shim_parse_transaction_static `{!RpcServer} (config : NoopShimMonitorConfig) (signature : Signature)
    : result (option NoopShimWithdrawalMessage) :=
  try _ <- acquire (TransactionOf signature);
  try tx <- get_signed_transaction signature;
  match ss_transaction tx with
  | BinarySigned (Some transaction) =>
      try verified <- verify_signatures transaction 0 (Z.to_nat (st_num_required_signatures transaction));
      Ok (if verified then
            find_message config signature (ss_slot tx) (ss_block_time tx) (st_static_account_keys transaction)
              (concat (st_inner_instructions transaction))
          else None)
  | BinarySigned None => Err (RpcClient.InvalidInput [])
  | OtherSigned => Ok None
  end.

(** Messages of other emitters are dropped. *)
Definition from_bridge `{!RpcServer} (config : NoopShimMonitorConfig) (signature : Signature)
    : result (option NoopShimWithdrawalMessage) :=
  try message <- shim_parse_transaction_static config signature;
  Ok (match message with
      | Some msg => if bool_decide (nm_emitter msg = nc_bridge_state_pda config) then Some msg else None
      | None => None
      end).

(** Signatures that do not parse are skipped. *)
Definition from_bridge_info `{!RpcServer} (config : NoopShimMonitorConfig) (sig_info : SignatureInfo)
    : result (option NoopShimWithdrawalMessage) :=
  match si_signature sig_info with
  | None => Ok None
  | Some sig => from_bridge config sig
  end.

(** One signature more than asked for tells whether there are more. *)
Definition get_withdrawals `{!RpcServer} (config : NoopShimMonitorConfig) (before : option Signature) (limit : Z)
    : result WithdrawalPage :=
  try _ <- acquire (SignaturesOf (nc_noop_shim_program_id config) before);
  try signatures <- get_signatures (nc_noop_shim_program_id config) before None (limit + 1);
  let has_more := limit <? len signatures in
  let signatures_to_process := take (Z.to_nat limit) signatures in
  try messages <- parse_batch (from_bridge_info config) signatures_to_process [];
  Ok {| messages := messages;
        next_cursor := if has_more then last (parsed_signatures signatures_to_process) else None;
        has_more := has_more |}.

Definition shim_poll_once `{!RpcServer} (config : NoopShimMonitorConfig) :=
  poll_once (from_bridge config) (nc_noop_shim_program_id config) (nc_batch_size config).

Definition shim_monitor_loop (config : NoopShimMonitorConfig) :=
  monitor_loop (fun server => @from_bridge server config) (nc_noop_shim_program_id config) (nc_batch_size config).

Definition shim_fetch_since `{!RpcServer} (fuel : nat) (config : NoopShimMonitorConfig) :=
  fetch_since fuel (from_bridge_info config) (nc_noop_shim_program_id config) (nc_batch_size config).
End shim_monitor.
End Monitor.
