(* ===== verification/OperatorClient.v ===== *)
(** * OperatorClient: the client of the operator

    Models [clients/rust/src/client.rs], the implementations of its calls in [api/], and
    the configuration with its builder ([config.rs]) and results ([types.rs]).  The
    network is the interface [Cluster]; a key pair is identified by its public key.

    The client keeps the address of the token in a cache ([RwLock]); a call takes and
    leaves the cache and the store.  The signature of a transaction is left out. *)
From S2P Require Import Prelude Errors Pod Hash Sha256 Types Runtime BufferClient MintGroup ProgramState BridgeInstructions DogeBridge RpcClient BufferManager ManualClaim BridgeClient HistorySync Monitor.
From Stdlib Require Import ZArith Lia.
From stdpp Require Import base decidable list numbers option countable gmap.
Import BufferManager.

Open Scope Z_scope.
Open Scope bridge_scope.

(** The crates of the token programs, and base 58. *)
Class SplToken := {
  (** [get_associated_token_address(owner, mint)] *)
  get_associated_token_address : Pubkey -> Pubkey -> Pubkey;
  (** [create_associated_token_account(payer, owner, mint, token_program)] *)
  create_associated_token_account : Pubkey -> Pubkey -> Pubkey -> Pubkey -> Instruction;
  (** [token_instruction::transfer(token_program, source, destination, authority, &[], amount)] *)
  token_transfer : Pubkey -> Pubkey -> Pubkey -> Pubkey -> Z -> option Instruction;
  (** [token_instruction::set_authority(.., None, CloseAccount, owner, &[])] *)
  token_clear_close_authority : Pubkey -> Pubkey -> Pubkey -> option Instruction;
  (** the amount of [spl_token::state::Account::unpack] *)
  unpack_token_amount : bytes -> option Z;
  (** [Pubkey::to_string] *)
  pubkey_text : Pubkey -> bytes
}.

Module OperatorClient.
Abbreviation text := bytes.

(** ** config.rs *)

Inductive ConfigError :=
  | MissingField (field : text)
  | Invalid (message : text)
  | InvalidKeypair (message : text).

Record BridgeClientConfig := {
  cfg_rpc_url : text;
  cfg_bridge_state_pda : Pubkey;
  cfg_operator : Pubkey;
  cfg_payer : Pubkey;
  cfg_doge_mint : option Pubkey;
  cfg_rate_limit : RpcClient.RateLimitConfig;
  cfg_retry : RpcClient.RetryConfig;
  cfg_parallelism : ParallelismConfig;
  cfg_program_id : Pubkey;
  cfg_manual_claim_program_id : Pubkey;
  cfg_pending_mint_program_id : Pubkey;
  cfg_txo_buffer_program_id : Pubkey;
  cfg_generic_buffer_program_id : Pubkey;
  cfg_wormhole_core_program_id : Pubkey;
  cfg_wormhole_shim_program_id : Pubkey
}.

Record BridgeClientConfigBuilder := {
  b_rpc_url : option text;
  b_bridge_state_pda : option Pubkey;
  b_operator : option Pubkey;
  b_payer : option Pubkey;
  b_doge_mint : option Pubkey;
  b_rate_limit : option RpcClient.RateLimitConfig;
  b_retry : option RpcClient.RetryConfig;
  b_parallelism : option ParallelismConfig;
  b_program_id : option Pubkey;
  b_manual_claim_program_id : option Pubkey;
  b_pending_mint_program_id : option Pubkey;
  b_txo_buffer_program_id : option Pubkey;
  b_generic_buffer_program_id : option Pubkey;
  b_wormhole_core_program_id : option Pubkey;
  b_wormhole_shim_program_id : option Pubkey
}.

Definition builder_new : BridgeClientConfigBuilder := {|
  b_rpc_url := None; b_bridge_state_pda := None; b_operator := None; b_payer := None;
  b_doge_mint := None; b_rate_limit := None; b_retry := None; b_parallelism := None;
  b_program_id := None; b_manual_claim_program_id := None; b_pending_mint_program_id := None; b_txo_buffer_program_id := None;
  b_generic_buffer_program_id := None; b_wormhole_core_program_id := None; b_wormhole_shim_program_id := None |}.

Definition set_rpc_url (v : text) (self : BridgeClientConfigBuilder) : BridgeClientConfigBuilder :=
  {| b_rpc_url := Some v; b_bridge_state_pda := b_bridge_state_pda self; b_operator := b_operator self; b_payer := b_payer self;
     b_doge_mint := b_doge_mint self; b_rate_limit := b_rate_limit self; b_retry := b_retry self; b_parallelism := b_parallelism self;
     b_program_id := b_program_id self; b_manual_claim_program_id := b_manual_claim_program_id self; b_pending_mint_program_id := b_pending_mint_program_id self; b_txo_buffer_program_id := b_txo_buffer_program_id self;
     b_generic_buffer_program_id := b_generic_buffer_program_id self; b_wormhole_core_program_id := b_wormhole_core_program_id self; b_wormhole_shim_program_id := b_wormhole_shim_program_id self |}.
Definition set_bridge_state_pda (v : Pubkey) (self : BridgeClientConfigBuilder) : BridgeClientConfigBuilder :=
  {| b_rpc_url := b_rpc_url self; b_bridge_state_pda := Some v; b_operator := b_operator self; b_payer := b_payer self;
     b_doge_mint := b_doge_mint self; b_rate_limit := b_rate_limit self; b_retry := b_retry self; b_parallelism := b_parallelism self;
     b_program_id := b_program_id self; b_manual_claim_program_id := b_manual_claim_program_id self; b_pending_mint_program_id := b_pending_mint_program_id self; b_txo_buffer_program_id := b_txo_buffer_program_id self;
     b_generic_buffer_program_id := b_generic_buffer_program_id self; b_wormhole_core_program_id := b_wormhole_core_program_id self; b_wormhole_shim_program_id := b_wormhole_shim_program_id self |}.
Definition set_operator (v : Pubkey) (self : BridgeClientConfigBuilder) : BridgeClientConfigBuilder :=
  {| b_rpc_url := b_rpc_url self; b_bridge_state_pda := b_bridge_state_pda self; b_operator := Some v; b_payer := b_payer self;
     b_doge_mint := b_doge_mint self; b_rate_limit := b_rate_limit self; b_retry := b_retry self; b_parallelism := b_parallelism self;
     b_program_id := b_program_id self; b_manual_claim_program_id := b_manual_claim_program_id self; b_pending_mint_program_id := b_pending_mint_program_id self; b_txo_buffer_program_id := b_txo_buffer_program_id self;
     b_generic_buffer_program_id := b_generic_buffer_program_id self; b_wormhole_core_program_id := b_wormhole_core_program_id self; b_wormhole_shim_program_id := b_wormhole_shim_program_id self |}.
Definition set_payer (v : Pubkey) (self : BridgeClientConfigBuilder) : BridgeClientConfigBuilder :=
  {| b_rpc_url := b_rpc_url self; b_bridge_state_pda := b_bridge_state_pda self; b_operator := b_operator self; b_payer := Some v;
     b_doge_mint := b_doge_mint self; b_rate_limit := b_rate_limit self; b_retry := b_retry self; b_parallelism := b_parallelism self;
     b_program_id := b_program_id self; b_manual_claim_program_id := b_manual_claim_program_id self; b_pending_mint_program_id := b_pending_mint_program_id self; b_txo_buffer_program_id := b_txo_buffer_program_id self;
     b_generic_buffer_program_id := b_generic_buffer_program_id self; b_wormhole_core_program_id := b_wormhole_core_program_id self; b_wormhole_shim_program_id := b_wormhole_shim_program_id self |}.
Definition set_doge_mint (v : Pubkey) (self : BridgeClientConfigBuilder) : BridgeClientConfigBuilder :=
  {| b_rpc_url := b_rpc_url self; b_bridge_state_pda := b_bridge_state_pda self; b_operator := b_operator self; b_payer := b_payer self;
     b_doge_mint := Some v; b_rate_limit := b_rate_limit self; b_retry := b_retry self; b_parallelism := b_parallelism self;
     b_program_id := b_program_id self; b_manual_claim_program_id := b_manual_claim_program_id self; b_pending_mint_program_id := b_pending_mint_program_id self; b_txo_buffer_program_id := b_txo_buffer_program_id self;
     b_generic_buffer_program_id := b_generic_buffer_program_id self; b_wormhole_core_program_id := b_wormhole_core_program_id self; b_wormhole_shim_program_id := b_wormhole_shim_program_id self |}.
Definition set_rate_limit (v : RpcClient.RateLimitConfig) (self : BridgeClientConfigBuilder) : BridgeClientConfigBuilder :=
  {| b_rpc_url := b_rpc_url self; b_bridge_state_pda := b_bridge_state_pda self; b_operator := b_operator self; b_payer := b_payer self;
     b_doge_mint := b_doge_mint self; b_rate_limit := Some v; b_retry := b_retry self; b_parallelism := b_parallelism self;
     b_program_id := b_program_id self; b_manual_claim_program_id := b_manual_claim_program_id self; b_pending_mint_program_id := b_pending_mint_program_id self; b_txo_buffer_program_id := b_txo_buffer_program_id self;
     b_generic_buffer_program_id := b_generic_buffer_program_id self; b_wormhole_core_program_id := b_wormhole_core_program_id self; b_wormhole_shim_program_id := b_wormhole_shim_program_id self |}.
Definition set_retry (v : RpcClient.RetryConfig) (self : BridgeClientConfigBuilder) : BridgeClientConfigBuilder :=
  {| b_rpc_url := b_rpc_url self; b_bridge_state_pda := b_bridge_state_pda self; b_operator := b_operator self; b_payer := b_payer self;
     b_doge_mint := b_doge_mint self; b_rate_limit := b_rate_limit self; b_retry := Some v; b_parallelism := b_parallelism self;
     b_program_id := b_program_id self; b_manual_claim_program_id := b_manual_claim_program_id self; b_pending_mint_program_id := b_pending_mint_program_id self; b_txo_buffer_program_id := b_txo_buffer_program_id self;
     b_generic_buffer_program_id := b_generic_buffer_program_id self; b_wormhole_core_program_id := b_wormhole_core_program_id self; b_wormhole_shim_program_id := b_wormhole_shim_program_id self |}.
Definition set_parallelism (v : ParallelismConfig) (self : BridgeClientConfigBuilder) : BridgeClientConfigBuilder :=
  {| b_rpc_url := b_rpc_url self; b_bridge_state_pda := b_bridge_state_pda self; b_operator := b_operator self; b_payer := b_payer self;
     b_doge_mint := b_doge_mint self; b_rate_limit := b_rate_limit self; b_retry := b_retry self; b_parallelism := Some v;
     b_program_id := b_program_id self; b_manual_claim_program_id := b_manual_claim_program_id self; b_pending_mint_program_id := b_pending_mint_program_id self; b_txo_buffer_program_id := b_txo_buffer_program_id self;
     b_generic_buffer_program_id := b_generic_buffer_program_id self; b_wormhole_core_program_id := b_wormhole_core_program_id self; b_wormhole_shim_program_id := b_wormhole_shim_program_id self |}.
Definition set_program_id (v : Pubkey) (self : BridgeClientConfigBuilder) : BridgeClientConfigBuilder :=
  {| b_rpc_url := b_rpc_url self; b_bridge_state_pda := b_bridge_state_pda self; b_operator := b_operator self; b_payer := b_payer self;
     b_doge_mint := b_doge_mint self; b_rate_limit := b_rate_limit self; b_retry := b_retry self; b_parallelism := b_parallelism self;
     b_program_id := Some v; b_manual_claim_program_id := b_manual_claim_program_id self; b_pending_mint_program_id := b_pending_mint_program_id self; b_txo_buffer_program_id := b_txo_buffer_program_id self;
     b_generic_buffer_program_id := b_generic_buffer_program_id self; b_wormhole_core_program_id := b_wormhole_core_program_id self; b_wormhole_shim_program_id := b_wormhole_shim_program_id self |}.
Definition set_manual_claim_program_id (v : Pubkey) (self : BridgeClientConfigBuilder) : BridgeClientConfigBuilder :=
  {| b_rpc_url := b_rpc_url self; b_bridge_state_pda := b_bridge_state_pda self; b_operator := b_operator self; b_payer := b_payer self;
     b_doge_mint := b_doge_mint self; b_rate_limit := b_rate_limit self; b_retry := b_retry self; b_parallelism := b_parallelism self;
     b_program_id := b_program_id self; b_manual_claim_program_id := Some v; b_pending_mint_program_id := b_pending_mint_program_id self; b_txo_buffer_program_id := b_txo_buffer_program_id self;
     b_generic_buffer_program_id := b_generic_buffer_program_id self; b_wormhole_core_program_id := b_wormhole_core_program_id self; b_wormhole_shim_program_id := b_wormhole_shim_program_id self |}.
Definition set_pending_mint_program_id (v : Pubkey) (self : BridgeClientConfigBuilder) : BridgeClientConfigBuilder :=
  {| b_rpc_url := b_rpc_url self; b_bridge_state_pda := b_bridge_state_pda self; b_operator := b_operator self; b_payer := b_payer self;
     b_doge_mint := b_doge_mint self; b_rate_limit := b_rate_limit self; b_retry := b_retry self; b_parallelism := b_parallelism self;
     b_program_id := b_program_id self; b_manual_claim_program_id := b_manual_claim_program_id self; b_pending_mint_program_id := Some v; b_txo_buffer_program_id := b_txo_buffer_program_id self;
     b_generic_buffer_program_id := b_generic_buffer_program_id self; b_wormhole_core_program_id := b_wormhole_core_program_id self; b_wormhole_shim_program_id := b_wormhole_shim_program_id self |}.
Definition set_txo_buffer_program_id (v : Pubkey) (self : BridgeClientConfigBuilder) : BridgeClientConfigBuilder :=
  {| b_rpc_url := b_rpc_url self; b_bridge_state_pda := b_bridge_state_pda self; b_operator := b_operator self; b_payer := b_payer self;
     b_doge_mint := b_doge_mint self; b_rate_limit := b_rate_limit self; b_retry := b_retry self; b_parallelism := b_parallelism self;
     b_program_id := b_program_id self; b_manual_claim_program_id := b_manual_claim_program_id self; b_pending_mint_program_id := b_pending_mint_program_id self; b_txo_buffer_program_id := Some v;
     b_generic_buffer_program_id := b_generic_buffer_program_id self; b_wormhole_core_program_id := b_wormhole_core_program_id self; b_wormhole_shim_program_id := b_wormhole_shim_program_id self |}.
Definition set_generic_buffer_program_id (v : Pubkey) (self : BridgeClientConfigBuilder) : BridgeClientConfigBuilder :=
  {| b_rpc_url := b_rpc_url self; b_bridge_state_pda := b_bridge_state_pda self; b_operator := b_operator self; b_payer := b_payer self;
     b_doge_mint := b_doge_mint self; b_rate_limit := b_rate_limit self; b_retry := b_retry self; b_parallelism := b_parallelism self;
     b_program_id := b_program_id self; b_manual_claim_program_id := b_manual_claim_program_id self; b_pending_mint_program_id := b_pending_mint_program_id self; b_txo_buffer_program_id := b_txo_buffer_program_id self;
     b_generic_buffer_program_id := Some v; b_wormhole_core_program_id := b_wormhole_core_program_id self; b_wormhole_shim_program_id := b_wormhole_shim_program_id self |}.
Definition set_wormhole_core_program_id (v : Pubkey) (self : BridgeClientConfigBuilder) : BridgeClientConfigBuilder :=
  {| b_rpc_url := b_rpc_url self; b_bridge_state_pda := b_bridge_state_pda self; b_operator := b_operator self; b_payer := b_payer self;
     b_doge_mint := b_doge_mint self; b_rate_limit := b_rate_limit self; b_retry := b_retry self; b_parallelism := b_parallelism self;
     b_program_id := b_program_id self; b_manual_claim_program_id := b_manual_claim_program_id self; b_pending_mint_program_id := b_pending_mint_program_id self; b_txo_buffer_program_id := b_txo_buffer_program_id self;
     b_generic_buffer_program_id := b_generic_buffer_program_id self; b_wormhole_core_program_id := Some v; b_wormhole_shim_program_id := b_wormhole_shim_program_id self |}.
Definition set_wormhole_shim_program_id (v : Pubkey) (self : BridgeClientConfigBuilder) : BridgeClientConfigBuilder :=
  {| b_rpc_url := b_rpc_url self; b_bridge_state_pda := b_bridge_state_pda self; b_operator := b_operator self; b_payer := b_payer self;
     b_doge_mint := b_doge_mint self; b_rate_limit := b_rate_limit self; b_retry := b_retry self; b_parallelism := b_parallelism self;
     b_program_id := b_program_id self; b_manual_claim_program_id := b_manual_claim_program_id self; b_pending_mint_program_id := b_pending_mint_program_id self; b_txo_buffer_program_id := b_txo_buffer_program_id self;
     b_generic_buffer_program_id := b_generic_buffer_program_id self; b_wormhole_core_program_id := b_wormhole_core_program_id self; b_wormhole_shim_program_id := Some v |}.
Definition set_operator_and_payer (v : Pubkey) (self : BridgeClientConfigBuilder) : BridgeClientConfigBuilder :=
  {| b_rpc_url := b_rpc_url self; b_bridge_state_pda := b_bridge_state_pda self; b_operator := Some v; b_payer := Some v;
     b_doge_mint := b_doge_mint self; b_rate_limit := b_rate_limit self; b_retry := b_retry self; b_parallelism := b_parallelism self;
     b_program_id := b_program_id self; b_manual_claim_program_id := b_manual_claim_program_id self; b_pending_mint_program_id := b_pending_mint_program_id self; b_txo_buffer_program_id := b_txo_buffer_program_id self;
     b_generic_buffer_program_id := b_generic_buffer_program_id self; b_wormhole_core_program_id := b_wormhole_core_program_id self; b_wormhole_shim_program_id := b_wormhole_shim_program_id self |}.

(** The names of the fields in errors: "rpc_url", "bridge_state_pda", "operator", "payer",
    "wormhole_core_program_id", "wormhole_shim_program_id". *)
Definition name_rpc_url : text := [114; 112; 99; 95; 117; 114; 108].
Definition name_bridge_state_pda : text := [98; 114; 105; 100; 103; 101; 95; 115; 116; 97; 116; 101; 95; 112; 100; 97].
Definition name_operator : text := [111; 112; 101; 114; 97; 116; 111; 114].
Definition name_payer : text := [112; 97; 121; 101; 114].
Definition name_wormhole_core_program_id : text := [119; 111; 114; 109; 104; 111; 108; 101; 95; 99; 111; 114; 101; 95; 112; 114; 111; 103; 114; 97; 109; 95; 105; 100].
Definition name_wormhole_shim_program_id : text := [119; 111; 114; 109; 104; 111; 108; 101; 95; 115; 104; 105; 109; 95; 112; 114; 111; 103; 114; 97; 109; 95; 105; 100].

Definition build `{ProgramIds} (self : BridgeClientConfigBuilder) : res ConfigError BridgeClientConfig :=
  try rpc_url <- ok_or (b_rpc_url self) (MissingField name_rpc_url);
  try bridge_state_pda <- ok_or (b_bridge_state_pda self) (MissingField name_bridge_state_pda);
  try operator <- ok_or (b_operator self) (MissingField name_operator);
  try payer <- ok_or (b_payer self) (MissingField name_payer);
  try wormhole_core_program_id <- ok_or (b_wormhole_core_program_id self) (MissingField name_wormhole_core_program_id);
  try wormhole_shim_program_id <- ok_or (b_wormhole_shim_program_id self) (MissingField name_wormhole_shim_program_id);
  Ok {| cfg_rpc_url := rpc_url; cfg_bridge_state_pda := bridge_state_pda; cfg_operator := operator; cfg_payer := payer;
        cfg_doge_mint := b_doge_mint self;
        cfg_rate_limit := default RpcClient.RateLimitConfig_default (b_rate_limit self);
        cfg_retry := default RpcClient.RetryConfig_default (b_retry self);
        cfg_parallelism := default ParallelismConfig_default (b_parallelism self);
        cfg_program_id := default DOGE_BRIDGE_PROGRAM_ID (b_program_id self);
        cfg_manual_claim_program_id := default MANUAL_CLAIM_PROGRAM_ID (b_manual_claim_program_id self);
        cfg_pending_mint_program_id := default PENDING_MINT_BUFFER_BUILDER_PROGRAM_ID (b_pending_mint_program_id self);
        cfg_txo_buffer_program_id := default TXO_BUFFER_BUILDER_PROGRAM_ID (b_txo_buffer_program_id self);
        cfg_generic_buffer_program_id := default GENERIC_BUFFER_BUILDER_PROGRAM_ID (b_generic_buffer_program_id self);
        cfg_wormhole_core_program_id := wormhole_core_program_id;
        cfg_wormhole_shim_program_id := wormhole_shim_program_id |}.

(** ** types.rs *)

(** The signatures of the transactions are left out. *)
Record ProcessMintsResult := {
  groups_processed : Z;
  total_mints_processed : Z;
  fully_completed : bool
}.

Definition ProcessMintsResult_empty : ProcessMintsResult :=
  {| groups_processed := 0; total_mints_processed := 0; fully_completed := true |}.
Definition ProcessMintsResult_new (groups_processed total_mints_processed : Z) (fully_completed : bool)
    : ProcessMintsResult :=
  {| groups_processed := groups_processed; total_mints_processed := total_mints_processed;
     fully_completed := fully_completed |}.

Record DepositTxOutputRecord := {
  do_tx_hash : QHash256;
  do_combined_txo_index : Z;
  do_recipient_pubkey : bytes;
  do_amount_sats : Z;
  do_block_height : Z
}.

Section client.
Context `{Runtime} `{ProgramIds} `{ForeignErrors} `{!Cluster} `{SplToken}.

(** ** client.rs

    [Keypair::from_bytes] yields the public key here. *)
Definition new (keypair_from_bytes : bytes -> option Pubkey) (rpc_url : text)
    (operator_private_key payer_private_key : bytes) (bridge_state_pda wormhole_core_program_id
     wormhole_shim_program_id : Pubkey) : res RpcClient.BridgeError BridgeClientConfig :=
  try operator <- ok_or (keypair_from_bytes operator_private_key) (RpcClient.InvalidInput []);
  try payer <- ok_or (keypair_from_bytes payer_private_key) (RpcClient.InvalidInput []);
  map_err (fun _ => RpcClient.InvalidConfig [])
    (build (set_wormhole_shim_program_id wormhole_shim_program_id
      (set_wormhole_core_program_id wormhole_core_program_id
        (set_payer payer (set_operator operator (set_bridge_state_pda bridge_state_pda
          (set_rpc_url rpc_url builder_new))))))).

(** The cache of the token address, and the store. *)
Abbreviation Session := (option Pubkey * World)%type.
Abbreviation outcome A := (res RpcClient.BridgeError A * Session)%type.

(** [with_config]: the client is its configuration and an empty cache; [pick] is the
    scheduler of the buffer manager's concurrent writes. *)
Context (self : BridgeClientConfig) (pick : nat -> nat -> nat).

Definition buffer_manager : ParallelBufferManager :=
  {| pm_payer := cfg_payer self; pm_operator := cfg_operator self; pm_retry := cfg_retry self;
     pm_config := cfg_parallelism self; pm_pick := pick |}.

Definition with_config (w : World) : Session := (None, w).

Definition operator_pubkey : Pubkey := cfg_operator self.
Definition payer_pubkey : Pubkey := cfg_payer self.

Definition send_and_confirm (instructions : list Instruction) (extra_signers : list Pubkey) (s : Session) : outcome unit :=
  try _ <- acquire_slot s.2 on s;
  call (_, s) <- submit_retrying (retries_of buffer_manager) instructions (cfg_payer self :: extra_signers) s.2
    into (pair s.1);
  (Ok tt, s).

(** *** api/state.rs *)

(** [bytemuck::from_bytes(&account.data)] panics on other lengths. *)
Definition read_state_account (w : World) : res RpcClient.BridgeError BridgeProgramStateWithDogeMint :=
  try account <- account_data w (cfg_bridge_state_pda self);
  try d <- ok_or account (RpcClient.AccountNotFound (pubkey_text (cfg_bridge_state_pda self)));
  or_panic (cast d).

(** The executor around a read. *)
Fixpoint read_retrying {A} (retries : nat) (read : res RpcClient.BridgeError A) : res RpcClient.BridgeError A :=
  match read, retries with
  | Err e, S retries => if RpcClient.is_retryable e then read_retrying retries read else Err e
  | r, _ => r
  end.

Definition get_current_bridge_state (s : Session) : outcome PsyBridgeProgramState :=
  try _ <- acquire_slot s.2 on s;
  try bridge_state <- read_retrying (retries_of buffer_manager) (read_state_account s.2) on s;
  (Ok (core_state bridge_state), s).

Definition get_doge_mint_from_state (s : Session) : outcome Pubkey :=
  try _ <- acquire_slot s.2 on s;
  try bridge_state <- read_state_account s.2 on s;
  (Ok (doge_mint bridge_state), s).

Definition get_doge_mint (s : Session) : outcome Pubkey :=
  match s.1 with
  | Some mint => (Ok mint, s)
  | None =>
      match cfg_doge_mint self with
      | Some mint => (Ok mint, (Some mint, s.2))
      | None =>
          call (mint, s) <- get_doge_mint_from_state s into id;
          (Ok mint, (Some mint, s.2))
      end
  end.

Definition snapshot_withdrawals (s : Session) : outcome PsyWithdrawalChainSnapshot :=
  call (state, s) <- get_current_bridge_state s into id;
  (Ok (withdrawal_snapshot state), s).

(** *** api/blocks.rs *)

Definition process_block_transition (proof : bytes) (header : PsyBridgeHeader) (mint_buffer_account : Pubkey)
    (mint_buffer_bump : Z) (txo_buffer_account : Pubkey) (txo_buffer_bump : Z) (s : Session) : outcome unit :=
  try ix <- or_panic (BridgeClient.block_update (cfg_program_id self) (cfg_payer self) proof header (cfg_operator self)
    mint_buffer_account txo_buffer_account mint_buffer_bump txo_buffer_bump) on s;
  send_and_confirm [ix] [cfg_operator self] s.

Definition process_block_reorg (proof : bytes) (header : PsyBridgeHeader) (extra_blocks : list FinalizedBlockMintTxoInfo)
    (mint_buffer_account : Pubkey) (mint_buffer_bump : Z) (txo_buffer_account : Pubkey) (txo_buffer_bump : Z)
    (s : Session) : outcome unit :=
  try ix <- or_panic (BridgeClient.process_reorg_blocks (cfg_program_id self) (cfg_payer self) proof header extra_blocks
    (cfg_operator self) mint_buffer_account txo_buffer_account mint_buffer_bump txo_buffer_bump) on s;
  send_and_confirm [ix] [cfg_operator self] s.

(** *** api/buffers.rs *)

Definition setup_txo_buffer (block_height : Z) (txos : list Z) (s : Session) : outcome (Pubkey * Z) :=
  call (r, s) <- parallel_create_txo_buffer buffer_manager (cfg_txo_buffer_program_id self) block_height txos s.2
    into (pair s.1);
  (Ok r, s).

Definition setup_pending_mints_buffer (block_height : Z) (pending_mints : list PendingMint) (s : Session)
    : outcome (Pubkey * Z) :=
  call (r, s) <- parallel_create_pending_mint_buffer buffer_manager (cfg_pending_mint_program_id self)
    (cfg_bridge_state_pda self) pending_mints s.2 into (pair s.1);
  (Ok r, s).

(** *** api/mints.rs *)

(** [&pending_mints[group_start..group_end]] panics when the group starts behind the
    list. *)
Definition group_mints (pending_mints : list PendingMint) (group_idx : Z) : option (list PendingMint) :=
  let group_start := group_idx * PM_MAX_PENDING_MINTS_PER_GROUP in
  let group_end := Z.min (group_start + PM_MAX_PENDING_MINTS_PER_GROUP) (len pending_mints) in
  slice group_start group_end pending_mints.

(** The loop over the groups; [make] builds the instruction of a group. *)
Fixpoint process_groups (make : list Pubkey -> Z -> bool -> option Instruction) (tracker : PendingMintsTracker)
    (pending_mints : list PendingMint) (total_groups : Z) (groups : list Z) (groups_processed total_mints_processed : Z)
    (s : Session) : outcome ProcessMintsResult :=
  match groups with
  | [] => (Ok (ProcessMintsResult_new groups_processed total_mints_processed true), s)
  | group_idx :: groups =>
      try claimed <- or_panic (is_pending_mints_group_already_claimed tracker group_idx) on s;
      if claimed then
        process_groups make tracker pending_mints total_groups groups groups_processed total_mints_processed s
      else
        let is_last := group_idx =? total_groups - 1 in
        try group <- or_panic (group_mints pending_mints group_idx) on s;
        let recipients := recipient <$> group in
        try ix <- or_panic (make recipients group_idx is_last) on s;
        call (_, s) <- send_and_confirm [ix] [cfg_operator self] s into id;
        process_groups make tracker pending_mints total_groups groups (groups_processed + 1)
          (total_mints_processed + len group) s
  end.

(** The two implementations differ in the instruction only. *)
Definition process_remaining (make : Pubkey -> list Pubkey -> Z -> bool -> option Instruction)
    (pending_mints : list PendingMint) (s : Session) : outcome ProcessMintsResult :=
  if bool_decide (pending_mints = []) then (Ok ProcessMintsResult_empty, s) else
  call (state, s) <- get_current_bridge_state s into id;
  call (doge_mint, s) <- get_doge_mint s into id;
  let tracker := current_pending_mints_tracker (pending_mint_txos state) in
  let total_groups := get_current_total_pending_mints_groups tracker in
  process_groups (make doge_mint) tracker pending_mints total_groups (seqZ 0 total_groups) 0 0 s.

Definition process_remaining_pending_mints_groups (pending_mints : list PendingMint) (mint_buffer_account : Pubkey)
    (mint_buffer_bump : Z) (s : Session) : outcome ProcessMintsResult :=
  process_remaining (fun doge_mint recipients group_idx is_last =>
      Some (BridgeClient.process_mint_group (cfg_program_id self) (cfg_operator self) mint_buffer_account doge_mint
              recipients group_idx mint_buffer_bump is_last)) pending_mints s.

Definition process_remaining_pending_mints_groups_auto_advance (pending_mints : list PendingMint)
    (mint_buffer_account : Pubkey) (mint_buffer_bump : Z) (txo_buffer_account : Pubkey) (txo_buffer_bump : Z)
    (s : Session) : outcome ProcessMintsResult :=
  process_remaining (fun doge_mint recipients group_idx is_last =>
      BridgeClient.process_mint_group_auto_advance (cfg_program_id self) (cfg_operator self) mint_buffer_account
        txo_buffer_account doge_mint recipients group_idx mint_buffer_bump txo_buffer_bump is_last) pending_mints s.

(** *** api/deposits.rs *)

(** A placeholder in the source. *)
Definition get_manual_deposits_at (next_processed_manual_deposit_index max_count : Z) (s : Session)
    : outcome (list DepositTxOutputRecord) := (Ok [], s).

Definition manual_claim_deposit (user_signer : Pubkey) (proof : bytes) (recent_block_merkle_tree_root
     recent_auto_claim_txo_root new_manual_claim_txo_root tx_hash : QHash256)
    (combined_txo_index deposit_amount_sats : Z) (s : Session) : outcome unit :=
  call (doge_mint, s) <- get_doge_mint s into id;
  let user_token_account := get_associated_token_address user_signer doge_mint in
  let ix := BridgeClient.manual_claim_deposit_instruction (cfg_manual_claim_program_id self) (cfg_program_id self)
    user_signer (cfg_payer self) doge_mint user_token_account proof recent_block_merkle_tree_root
    recent_auto_claim_txo_root new_manual_claim_txo_root tx_hash combined_txo_index deposit_amount_sats in
  send_and_confirm [ix] [user_signer] s.

(** The text is "doge_mint"; the fee spender is the payer. *)
Definition initialize_bridge (params : InitializeBridgeParams) (s : Session) : outcome unit :=
  try doge_mint <- ok_or (cfg_doge_mint self)
    (RpcClient.MissingField [100; 111; 103; 101; 95; 109; 105; 110; 116]) on s;
  let ix := BridgeClient.initialize_bridge (cfg_payer self) (cfg_operator self) (cfg_payer self) doge_mint params in
  send_and_confirm [ix] [cfg_operator self] s.

Definition operator_withdraw_fees (s : Session) : outcome unit :=
  call (doge_mint, s) <- get_doge_mint s into id;
  let operator_token_account := get_associated_token_address (cfg_operator self) doge_mint in
  let ix := BridgeClient.operator_withdraw_fees (cfg_program_id self) (cfg_operator self) operator_token_account
    doge_mint in
  send_and_confirm [ix] [cfg_operator self] s.

(** *** api/withdrawals.rs *)

Definition request_withdrawal (user_authority : Pubkey) (recipient_address : bytes) (amount_sats address_type : Z)
    (s : Session) : outcome unit :=
  call (doge_mint, s) <- get_doge_mint s into id;
  let user_token_account := get_associated_token_address user_authority doge_mint in
  let ix := BridgeClient.request_withdrawal (cfg_program_id self) user_authority doge_mint user_token_account
    recipient_address amount_sats address_type in
  send_and_confirm [ix] [user_authority] s.

(** [buffer_pubkey] is the fresh key of the buffer, [clock] the address of the sysvar. *)
Definition process_withdrawal (clock buffer_pubkey : Pubkey) (proof : bytes) (new_return_output : PsyReturnTxOutput)
    (new_spent_txo_tree_root : QHash256) (new_next_processed_withdrawals_index : Z) (doge_tx_bytes : bytes)
    (s : Session) : outcome unit :=
  call (buffer, s) <- parallel_create_generic_buffer buffer_manager buffer_pubkey (cfg_generic_buffer_program_id self)
    doge_tx_bytes s.2 into (pair s.1);
  let ix := BridgeClient.process_withdrawal clock (cfg_program_id self) (cfg_payer self) buffer
    (cfg_wormhole_shim_program_id self) (cfg_wormhole_core_program_id self) proof new_return_output
    new_spent_txo_tree_root new_next_processed_withdrawals_index in
  send_and_confirm [ix] [cfg_operator self] s.

Definition replay_withdrawal (clock buffer_pubkey : Pubkey) (doge_tx_bytes : bytes) (s : Session) : outcome unit :=
  call (buffer, s) <- parallel_create_generic_buffer buffer_manager buffer_pubkey (cfg_generic_buffer_program_id self)
    doge_tx_bytes s.2 into (pair s.1);
  let ix := BridgeClient.process_replay_withdrawal clock (cfg_program_id self) (cfg_payer self) buffer
    (cfg_wormhole_shim_program_id self) (cfg_wormhole_core_program_id self) in
  send_and_confirm [ix] [] s.

Definition execute_snapshot_withdrawals (s : Session) : outcome unit :=
  let ix := BridgeClient.snapshot_withdrawals (cfg_program_id self) (cfg_operator self) (cfg_payer self) in
  send_and_confirm [ix] [cfg_operator self] s.

(** *** client.rs, events *)

Definition event_signature (e : Monitor.BridgeEvent) : HistorySync.Signature :=
  match e with
  | Monitor.WithdrawalRequested ev => Monitor.wre_signature ev
  | Monitor.WithdrawalProcessed ev => Monitor.wpe_signature ev
  | Monitor.ManualDepositClaimed ev => Monitor.mdc_signature ev
  | Monitor.BlockTransition ev => Monitor.bte_signature ev
  end.

Definition monitor_rate_limit (config : RpcClient.RateLimitConfig) (self : Monitor.MonitorConfig) : Monitor.MonitorConfig :=
  {| Monitor.mc_rpc_url := Monitor.mc_rpc_url self; Monitor.mc_program_id := Monitor.mc_program_id self;
     Monitor.mc_bridge_state_pda := Monitor.mc_bridge_state_pda self; Monitor.mc_rate_limit := config;
     Monitor.mc_poll_interval_ms := Monitor.mc_poll_interval_ms self; Monitor.mc_batch_size := Monitor.mc_batch_size self |}.
Definition monitor_batch_size (size : Z) (self : Monitor.MonitorConfig) : Monitor.MonitorConfig :=
  {| Monitor.mc_rpc_url := Monitor.mc_rpc_url self; Monitor.mc_program_id := Monitor.mc_program_id self;
     Monitor.mc_bridge_state_pda := Monitor.mc_bridge_state_pda self; Monitor.mc_rate_limit := Monitor.mc_rate_limit self;
     Monitor.mc_poll_interval_ms := Monitor.mc_poll_interval_ms self; Monitor.mc_batch_size := size |}.

(** [None]: the fuel of the paging is used up.  The last signature defaults to the
    checkpoint, and to zeros without one. *)
Definition fetch_bridge_events_since `{!HistorySync.RpcServer} (fuel : nat) (after_signature : option HistorySync.Signature)
    (limit : option Z) : option (res RpcClient.BridgeError (HistorySync.Signature * list Monitor.BridgeEvent)) :=
  let monitor_config := monitor_batch_size (default 100 limit) (monitor_rate_limit (cfg_rate_limit self)
    (Monitor.MonitorConfig_new (cfg_rpc_url self) (cfg_program_id self) (cfg_bridge_state_pda self))) in
  events ← Monitor.bridge_fetch_since fuel monitor_config after_signature limit;
  Some (try events <- events;
        Ok (default (default (zeros 64) after_signature) (event_signature <$> last events), events)).
End client.
End OperatorClient.
