(* ===== verification/OperatorProofs.v ===== *)
(** * OperatorProofs: what the operator's client achieves

    Theorems on [OperatorClient.v].  The payment of a block's mints, group by group,
    through the bridge program ([DogeBridge.v]), the token program and the mint buffer
    program; and the signatures of the transactions that the calls send. *)
From S2P Require Import Prelude Errors Pod Hash Sha256 AppendTree Types PublicInputs Runtime MintBuffer MintBufferProofs BufferClient MintGroup ProgramState BlockUpdate BlockUpdateProofs Payout BridgeInstructions DogeBridge StateTypes DogeBridgeProofs BridgeHistory BridgeSafety RpcClient BufferManager BufferManagerProofs ManualClaim BridgeClient HistorySync Monitor OperatorClient.
From Stdlib Require Import ZArith Lia.
From stdpp Require Import base decidable list numbers option countable gmap.
Import BufferManager OperatorClient.

Open Scope Z_scope.
Open Scope bridge_scope.

(** ** Payments *)

Lemma seqZ_slice a k n :
  0 <= a -> 0 <= k -> a + k <= n -> take (Z.to_nat k) (drop (Z.to_nat a) (seqZ 0 n)) = seqZ a k.
Proof.
  intros Ha Hk Hle. replace n with (a + (k + (n - a - k))) by lia.
  rewrite seqZ_app, drop_app_length' by (rewrite ?length_seqZ; lia). rewrite Z.add_0_l.
  by rewrite seqZ_app, take_app_length' by (rewrite ?length_seqZ; lia).
Qed.

(** What a list of payments brings to an account. *)
Definition paid_to (payments : list (bytes * Z)) (k : Pubkey) : Z :=
  foldr (fun p sum => (if bool_decide (p.1 = k) then p.2 else 0) + sum) 0 payments.

Lemma paid_to_cons p l k : paid_to (p :: l) k = (if bool_decide (p.1 = k) then p.2 else 0) + paid_to l k.
Proof. done. Qed.

Lemma paid_to_app l1 l2 k : paid_to (l1 ++ l2) k = paid_to l1 k + paid_to l2 k.
Proof. induction l1 as [|p l1 IH]; [done|]. cbn [app]. rewrite !paid_to_cons, IH. lia. Qed.

Lemma paid_to_nonneg l k : Forall (fun p => 0 <= p.2) l -> 0 <= paid_to l k.
Proof. induction 1 as [|p l Hp _ IH]; [done|]. rewrite paid_to_cons. destruct (bool_decide _); lia. Qed.

(** The balance that the memory of an account of the token program holds. *)
Class TokenLedger := token_balance : Pubkey -> bytes -> option Z.

Section payment.
Context `{Runtime} `{ProgramIds} `{Sha256} `{ZkVerifier} `{Features} `{TokenLedger}.
Context (pid mint : Pubkey).
Implicit Types (w : World) (payments : list (bytes * Z)).

Definition balance w (k : Pubkey) : option Z := token_balance (owner_at w k) (data_at w k).

(** What the bridge's calls of the two programs rely on: balances are in accounts of the
    token program; a mint of the bridge's token, with the bridge's authority, to an
    account that has room for it is carried out and touches the account and the mint
    only; and the mint buffer program is run for the unlock that the bridge signs. *)
Class PayoutCpi : Prop := {
  balance_owned o d b : token_balance o d = Some b -> o = TOKEN_PROGRAM_ID;
  mint_credits w mint_info recipient_info authority token b amount :
    key mint_info = mint -> key authority = DogeBridge.bridge_pda pid ->
    owner_at w mint = TOKEN_PROGRAM_ID -> balance w (key recipient_info) = Some b ->
    0 <= amount -> b + amount < 2 ^ 64 ->
    exists w', invoke_signed w (TokenMintTo mint (key recipient_info) (key authority) amount)
        [mint_info; recipient_info; authority; token] [DogeBridge.bridge_seeds pid] = Ok w' /\
      balance w' (key recipient_info) = Some (b + amount) /\
      (forall k, k <> key recipient_info -> balance w' k = balance w k) /\
      (forall k, owner_at w' k = owner_at w k) /\
      (forall k, k <> key recipient_info -> k <> mint -> data_at w' k = data_at w k);
  unlock_runs w buffer program authority w' :
    key authority = DogeBridge.bridge_pda pid ->
    MintBuffer.process_instruction PENDING_MINT_BUFFER_BUILDER_PROGRAM_ID
      [called_buffer buffer; called_authority authority] [5] w = Ok w' ->
    invoke_signed w (DogeBridge.buffer_instruction (DogeBridge.mint_buffer_locker pid buffer program authority) 5)
      [program; buffer; authority] [DogeBridge.bridge_seeds pid] = Ok w'
}.

(** Every recipient has a token account, with room for all that it is paid. *)
Definition room payments w : Prop :=
  Forall (fun p => 0 <= p.2 /\ exists b, balance w p.1 = Some b /\ b + paid_to payments p.1 < 2 ^ 64) payments.

(** The payments are made, and nobody else's balance or account changes hands. *)
Definition credited payments w w' : Prop :=
  (forall k b, balance w k = Some b -> balance w' k = Some (b + paid_to payments k)) /\
  (forall k, owner_at w' k = owner_at w k).

Lemma credited_nil w : credited [] w w.
Proof. split; [|done]. intros k b ->. change (paid_to [] k) with 0. by rewrite Z.add_0_r. Qed.

Lemma credited_app l1 l2 w w1 w2 : credited l1 w w1 -> credited l2 w1 w2 -> credited (l1 ++ l2) w w2.
Proof.
  intros [B1 O1] [B2 O2]. split; [|congruence]. intros k b Hb. rewrite (B2 _ _ (B1 _ _ Hb)), paid_to_app. f_equal. lia.
Qed.

Lemma room_nonneg l w : room l w -> Forall (fun p => 0 <= p.2) l.
Proof. intros Hr. eapply Forall_impl; [exact Hr|by intros p []]. Qed.

Lemma room_app_l l1 l2 w : room (l1 ++ l2) w -> room l1 w.
Proof.
  intros Hr. pose proof (room_nonneg _ _ Hr) as [_ P2]%Forall_app. apply Forall_app in Hr as [L1 _].
  eapply Forall_impl; [exact L1|]. intros p (Hp & b & Hpb & Hlt). split; [done|]. exists b. split; [done|].
  rewrite paid_to_app in Hlt. pose proof (paid_to_nonneg l2 p.1 P2). lia.
Qed.

Lemma room_app_r l1 l2 w w1 : room (l1 ++ l2) w -> credited l1 w w1 -> room l2 w1.
Proof.
  intros [_ L2]%Forall_app [Hb _]. eapply Forall_impl; [exact L2|]. intros p (Hp & b & Hpb & Hlt).
  split; [done|]. rewrite paid_to_app in Hlt. eexists. split; [by apply Hb|]. lia.
Qed.

(** Writing the memory of an account that is not of the token program. *)
Lemma credited_set_data w k d : (forall o d b, token_balance o d = Some b -> o = TOKEN_PROGRAM_ID) ->
  owner_at w k <> TOKEN_PROGRAM_ID -> credited [] w (set_data w k d).
Proof.
  intros Hown Hk. split; [|by intros; rewrite owner_at_set_data]. intros k' b Hb. change (paid_to [] k') with 0.
  rewrite Z.add_0_r. unfold balance in *. rewrite owner_at_set_data. destruct (decide (k = k')) as [<-|Hne].
  - by apply Hown in Hb.
  - by rewrite data_at_set_data_ne.
Qed.

Context {Hcpi : PayoutCpi}.

(** The loop over a group pays it. *)
Lemma mint_group_loop_pays minter held buf start p todo w :
  key (DogeBridge.minter_mint minter) = mint ->
  key (DogeBridge.minter_authority_info minter) = DogeBridge.bridge_pda pid ->
  DogeBridge.minter_authority_seeds minter = DogeBridge.bridge_seeds pid ->
  let mints := (fun q => mint_from buf (start + q * 40)) <$> seqZ p (Z.of_nat todo) in
  let payments := (fun m => (recipient m, amount m)) <$> mints in
  0 <= p -> 0 <= start -> start + (p + Z.of_nat todo) * 40 <= len buf ->
  key <$> take todo (drop (Z.to_nat p) (DogeBridge.minter_recipient_map minter)) = recipient <$> mints ->
  owner_at w mint = TOKEN_PROGRAM_ID -> owner_at w held <> TOKEN_PROGRAM_ID -> room payments w ->
  exists w', DogeBridge.mint_group_loop minter [held] buf start p todo w = Ok w' /\ credited payments w w' /\
    (forall k, owner_at w k <> TOKEN_PROGRAM_ID -> data_at w' k = data_at w k).
Proof.
  intros Hmint Hauth Hseeds. cbv zeta. revert p w. induction todo as [|todo IH]; intros p w Hp Hs Hle Hkeys Hmo Hh Hroom.
  { exists w. split; [done|]. split; [apply credited_nil|done]. }
  rewrite (seqZ_cons p) in * by lia. replace (Z.pred (Z.of_nat (S todo))) with (Z.of_nat todo) in * by lia.
  replace (Z.succ p) with (p + 1) in * by lia. rewrite !fmap_cons in *.
  set (m := mint_from buf (start + p * 40)) in *. set (rest := (fun q => mint_from buf (start + q * 40)) <$> seqZ (p + 1) _) in *.
  destruct (drop (Z.to_nat p) (DogeBridge.minter_recipient_map minter)) as [|info infos] eqn:Ed; [discriminate Hkeys|].
  cbn [take] in Hkeys. rewrite fmap_cons in Hkeys. injection Hkeys as Hkey Hkeys.
  change (key info = recipient m) in Hkey. change (key <$> take todo infos = recipient <$> rest) in Hkeys.
  assert (DogeBridge.minter_recipient_map minter !! Z.to_nat p = Some info) as Hinfo.
  { rewrite <- (Nat.add_0_r (Z.to_nat p)), <- lookup_drop, Ed. done. }
  change (?x :: ?l) with ([x] ++ l) in Hroom at 1.
  pose proof Hroom as Hhd. unfold room in Hhd. cbn [app] in Hhd. apply Forall_cons in Hhd as [(Ha & b & Hb & Hlt) _].
  cbn [fst snd] in Ha, Hb, Hlt. rewrite paid_to_cons, bool_decide_true in Hlt by done. cbn [fst snd] in Hlt.
  assert (0 <= paid_to ((fun m => (recipient m, amount m)) <$> rest) (recipient m)) as Hnn
    by (apply paid_to_nonneg; pose proof (room_nonneg _ _ Hroom) as Hr; by apply Forall_app in Hr as [_ Hr]).
  destruct (mint_credits w (DogeBridge.minter_mint minter) info (DogeBridge.minter_authority_info minter)
    (DogeBridge.minter_token_program minter) b (amount m)) as (w1 & Hi & Hb1 & Hbo & Ho & Hd); [done..|by rewrite Hkey|done|lia|].
  assert (credited [(recipient m, amount m)] w w1) as Hc1.
  { split; [|done]. intros k b' Hk. rewrite paid_to_cons. change (paid_to [] k) with 0. cbn [fst snd].
    destruct (decide (recipient m = k)) as [<-|Hne].
    - rewrite bool_decide_true by done. rewrite Hb in Hk. injection Hk as <-. rewrite <- Hkey, Hb1. f_equal. lia.
    - rewrite bool_decide_false, Hbo by (done || congruence). rewrite Hk. f_equal. lia. }
  pose proof (room_app_r _ _ _ _ Hroom Hc1) as Hroom1.
  assert (key info <> held) as Hne.
  { intros E. apply Hh. rewrite <- E, Hkey. unfold balance in Hb. by apply balance_owned in Hb. }
  destruct (IH (p + 1) w1) as (w' & Hw' & Hc & Hdata); [lia|done|lia| |by rewrite Ho|by rewrite Ho|exact Hroom1|].
  { replace (Z.to_nat (p + 1)) with (S (Z.to_nat p)) by lia. rewrite <- (Nat.add_1_r (Z.to_nat p)), <- drop_drop, Ed.
    cbn [drop]. by rewrite drop_0. }
  exists w'. split; [|split; [exact (credited_app _ _ _ _ _ Hc1 Hc)|]].
  2: { intros k Hk. rewrite Hdata by (by rewrite Ho). apply Hd; [|congruence]. intros ->. apply Hk.
       rewrite Hkey. unfold balance in Hb. by apply balance_owned in Hb. }
  cbn [DogeBridge.mint_group_loop]. cbv zeta. unfold PM_DA_PENDING_MINT_SIZE.
  assert (slice (start + p * 40) (start + p * 40 + 40) buf = Some (take 40 (drop (Z.to_nat (start + p * 40)) buf))) as ->
    by (apply slice_Some; repeat split; try lia; do 2 f_equal; lia).
  cbn [or_panic res_bind].
  assert (cast (A := PendingMint) (take 40 (drop (Z.to_nat (start + p * 40)) buf)) = Some m) as ->.
  { apply cast_Some. split; [|done]. rewrite length_take, length_drop. change (pod_size PendingMint) with 40%nat.
    unfold len in Hle. lia. }
  cbn [or_panic res_bind]. unfold DogeBridge.mint_to.
  pose proof (lookup_lt_Some _ _ _ Hinfo). rewrite (proj2 (Z.leb_gt _ _)) by (unfold len; lia).
  unfold index. rewrite (proj2 (Z.leb_le 0 p)), Hinfo by done. cbn [or_panic res_bind].
  unfold DogeBridge.key_eqb. rewrite bool_decide_true by done. cbn [negb].
  unfold invoke_signed_holding, borrow_conflict. cbn [instruction_metas existsb meta_key meta_is_writable].
  rewrite !bool_decide_false by (try apply not_elem_of_nil; try (rewrite list_elem_of_singleton); congruence).
  rewrite Hmint, Hseeds in *. cbn [orb andb]. rewrite Hi. cbn [DogeBridge.doge_err map_err res_bind]. exact Hw'.
Qed.
End payment.

Section groups.
Context `{Runtime} `{ProgramIds} `{Sha256} `{ZkVerifier} `{Features} `{TokenLedger}.
Context (pid mint operator mb buf : bytes) (n : Z) {Hcpi : PayoutCpi pid mint}.
Implicit Types (w : World) (bs : DogeBridge.BridgeState).

Local Abbreviation bridge := (DogeBridge.bridge_pda pid).
Local Abbreviation G := ((n + 23) / 24).
Local Abbreviation tracker bs := (current_pending_mints_tracker (pending_mint_txos (core_state bs))).

(** The buffer holds [n] mints and is locked for the bridge. *)
Context (buf_bytes : Forall is_byte buf) (n_range : 0 < n <= 6144) (buf_size : pm_calculate_data_account_min_size n <= len buf).
Context (buf_locked : exists h, MintBuffer.get_header buf = Some h /\ is_locked h <> 0 /\ authorized_locker_public_key h = bridge).
Context (buffer_not_token : PENDING_MINT_BUFFER_BUILDER_PROGRAM_ID <> TOKEN_PROGRAM_ID) (buffer_not_bridge : mb <> bridge).

Definition group_payments (g : Z) : list (bytes * Z) := payment_at buf G <$> group_range n G g.

(** The bridge is paying out this buffer. *)
Record paying w bs : Prop := {
  paying_data : data_at w bridge = bytes_of bs;
  paying_typed : state_typed (core_state bs) /\ byte_array 32 (doge_mint bs);
  paying_owner : owner_at w bridge <> TOKEN_PROGRAM_ID;
  paying_mint_owner : owner_at w mint = TOKEN_PROGRAM_ID;
  paying_buffer : data_at w mb = buf /\ owner_at w mb = PENDING_MINT_BUFFER_BUILDER_PROGRAM_ID;
  paying_mint : doge_mint bs = mint;
  paying_operator : Types.operator_pubkey (access_control (core_state bs)) = operator;
  paying_tracks : tracks (pending_mint_txos (core_state bs)) mb n;
  paying_current : pending_finalized_info_current_index (pending_mint_txos (core_state bs))
                     < pending_finalized_info_total_count (pending_mint_txos (core_state bs))
}.

(** All is paid, and the buffer is free for the next block. *)
Definition paid_out w bs : Prop :=
  data_at w bridge = bytes_of bs /\ tracker_is_empty (tracker bs) = true /\
  exists h, MintBuffer.get_header (data_at w mb) = Some h /\ is_locked h = 0.

Definition can_unlock bs : bool := pending_mints_groups_remaining (tracker bs) =? 1.

Lemma precheck_ok bs w g :
  paying w bs -> 0 <= g < G -> claimed_bit (tracker bs) g = false ->
  exists m', let s' := with_pending_mint_txos m' (core_state bs) in
    run_auto_mint_group_precheck (core_state bs) g mb
      = (Ok (can_unlock bs, group_size n G g, get_nth_pending_mint_offset G (group_first g)), s') /\
    tracks m' mb n /\ current_pending_mints_tracker m' = marked (tracker bs) g /\
    pending_finalized_info_total_count m' = pending_finalized_info_total_count (pending_mint_txos (core_state bs)) /\
    pending_finalized_info_current_index m' =
      pending_finalized_info_current_index (pending_mint_txos (core_state bs)) + (if can_unlock bs then 1 else 0).
Proof.
  intros Hp Hg Hc. pose proof (paying_tracks _ _ Hp) as Htr. pose proof Htr as (_ & _ & Hacc & Htot).
  destruct (claim_ready _ _ _ g Htr n_range (paying_current _ _ Hp) Hg Hc) as (HG & Hme & Hte & Hcan & m' & Hm & Htr' & Ht' & Htc' & Hi').
  destruct (mints_count_group_size (tracker bs) n g Htot ltac:(lia)) as [Hmc _]; [rewrite HG; lia|]. rewrite HG in Hmc.
  exists m'. cbv zeta. split; [|split; [done|split; [done|split; [done|]]]].
  - unfold run_auto_mint_group_precheck. rewrite Hme, HG. rewrite (proj2 (Z.eqb_neq _ _)) by lia. rewrite Hte, Hcan, Hmc.
    rewrite bool_decide_eq_true_2 by done. cbn [negb pure_call]. rewrite Hm. done.
  - rewrite Hi'. unfold can_unlock. destruct (_ =? 1); lia.
Qed.

(** Unlocking the buffer. *)
Lemma unlock_ok w acc prog auth :
  key acc = mb -> key auth = bridge ->
  data_at w mb = buf -> owner_at w mb = PENDING_MINT_BUFFER_BUILDER_PROGRAM_ID ->
  exists d h, DogeBridge.unlock_buffer (DogeBridge.mint_buffer_locker pid acc prog auth) w = Ok (set_data w mb d) /\
    MintBuffer.get_header d = Some h /\ is_locked h = 0.
Proof.
  intros Hacc Hauth Hd Ho. destruct buf_locked as (h & Hh & Hl & Hk).
  destruct (get_header_wf _ _ buf_bytes Hh) as [Hwf _].
  assert (MintBuffer.unlock h bridge = Ok (match MintBuffer.unlock h bridge with Ok h' => h' | _ => h end)) as Hun.
  { unfold MintBuffer.unlock. rewrite (proj2 (Z.eqb_neq _ _)) by done. by rewrite Hk, bool_decide_true. }
  set (h' := match MintBuffer.unlock h bridge with Ok h' => h' | _ => h end) in Hun.
  pose proof (unlock_wf _ _ _ Hwf Hun) as Hwf'. destruct (bytes_of_array h' Hwf') as [Hlen _].
  assert (exists d, MintBuffer.put_header h' buf = Some d) as [d Hput].
  { eexists. apply write_slice_Some. split; [lia|]. split; [|done]. unfold len at 1. rewrite Hlen.
    unfold MintBuffer.get_header in Hh. destruct (slice 0 MintBuffer.HEADER_SIZE buf) as [b|] eqn:Es; [|discriminate Hh].
    apply slice_Some in Es as (_ & Hle & _). exact Hle. }
  destruct (put_header_spec h' _ _ Hwf' buf_bytes Hput) as (Hget & _).
  exists d, h'. split; [|split; [exact Hget|]].
  - unfold DogeBridge.unlock_buffer. cbn [DogeBridge.mint_buffer_locker DogeBridge.locker_buffer_program_account
      DogeBridge.locker_buffer_account DogeBridge.locker_authority_info DogeBridge.locker_authority_seeds].
    rewrite (unlock_runs pid mint w acc prog auth (set_data w mb d) Hauth); [done|].
    unfold MintBuffer.process_instruction, MintBuffer.process_unlock, MintBuffer.require_signer.
    cbn [nth_account ok_or lookup list_lookup res_bind called_buffer called_authority key is_signer negb].
    rewrite Hacc, Ho, bool_decide_true by done. cbn [negb]. unfold MintBuffer.update_header.
    rewrite Hd, Hh, Hauth. cbn [or_panic res_bind]. rewrite Hun. cbn [res_bind]. by rewrite Hput.
  - unfold h', MintBuffer.unlock. rewrite (proj2 (Z.eqb_neq _ _)) by done. by rewrite Hk, bool_decide_true.
Qed.

(** The mints of a group lie in the buffer. *)
Lemma group_bounds g :
  0 <= g < G -> 0 < group_size n G g <= 24 /\ u16 (g * 24) = 24 * g /\
  0 <= get_nth_pending_mint_offset G (group_first g) /\
  get_nth_pending_mint_offset G (group_first g) + group_size n G g * 40 <= len buf.
Proof.
  intros Hg. assert (G <= 256) as H256 by (Z.to_euclidean_division_equations; lia).
  assert (24 * (G - 1) < n <= 24 * G) as Hn by (Z.to_euclidean_division_equations; lia).
  assert (u16 (g * 24) = 24 * g) as Ho by (rewrite wrap_id; [lia|unfold in_width; lia]).
  assert (0 < group_size n G g <= 24 /\ 24 * g + group_size n G g <= n) as [Hs Hle].
  { unfold group_size. destruct (Z.eqb_spec g (G - 1)); lia. }
  split; [done|]. split; [done|]. pose proof buf_size as Hsz.
  unfold pm_calculate_data_account_min_size, PM_MAX_PENDING_MINTS_PER_GROUP,
    PM_DA_PENDING_MINTS_BUFFER_STATE_HEADER_SIZE, PM_DA_PENDING_MINT_SIZE in Hsz.
  replace (n + 24 - 1) with (n + 23) in Hsz by lia. cbv zeta in Hsz.
  unfold get_nth_pending_mint_offset, group_first, PM_DA_PENDING_MINTS_BUFFER_STATE_HEADER_SIZE, PM_DA_PENDING_MINT_SIZE.
  rewrite Ho. lia.
Qed.

(** The accounts that the client passes for group [g]. *)
Definition group_accounts (recipients : list Pubkey) (g bump : Z) (unlock : bool) : list AccountInfo :=
  BufferClient.account_info <$> instruction_metas (BridgeClient.process_mint_group pid operator mb mint recipients g bump unlock).

Lemma key_recipients recipients g bump unlock :
  key <$> drop 7 (group_accounts recipients g bump unlock) = recipients.
Proof. unfold group_accounts. cbn. rewrite drop_0, <- !list_fmap_compose. apply list_fmap_id. Qed.

Lemma group_payments_mints g :
  group_payments g = (fun m => (recipient m, amount m)) <$> (mint_at buf G <$> group_range n G g).
Proof. unfold group_payments. by rewrite <- list_fmap_compose. Qed.

(** The roles of the accounts. *)
Definition group_minter (recipients : list AccountInfo) : DogeBridge.SolanaMinter := {|
  DogeBridge.minter_mint := {| key := mint; is_signer := false; is_writable := true |};
  DogeBridge.minter_authority_info := {| key := bridge; is_signer := false; is_writable := true |};
  DogeBridge.minter_authority_seeds := DogeBridge.bridge_seeds pid;
  DogeBridge.minter_recipient_map := recipients;
  DogeBridge.minter_token_program := {| key := TOKEN_PROGRAM_ID; is_signer := false; is_writable := false |} |}.

Definition group_locker : DogeBridge.SolanaMintBufferLocker :=
  DogeBridge.mint_buffer_locker pid {| key := mb; is_signer := false; is_writable := true |}
    {| key := PENDING_MINT_BUFFER_BUILDER_PROGRAM_ID; is_signer := false; is_writable := false |}
    {| key := bridge; is_signer := false; is_writable := true |}.

Lemma length_recipients g bump unlock :
  0 <= g < G ->
  len (drop 7 (group_accounts (fst <$> group_payments g) g bump unlock)) = group_size n G g.
Proof.
  intros Hg. destruct (group_bounds g Hg) as (? & _). unfold len.
  rewrite <- (length_fmap key), key_recipients, length_fmap. unfold group_payments, group_range.
  rewrite length_fmap, length_seqZ. lia.
Qed.

(** The handler, when the precheck and the payments succeed. *)
Lemma group_handler w bs g bump unlock bs' w2 :
  paying w bs -> 0 <= g < G ->
  let recipients := drop 7 (group_accounts (fst <$> group_payments g) g bump unlock) in
  run_auto_mint_group_precheck (core_state bs) g mb
    = (Ok (can_unlock bs, group_size n G g, get_nth_pending_mint_offset G (group_first g)), core_state bs') ->
  doge_mint bs' = doge_mint bs ->
  DogeBridge.mint_group_loop (group_minter recipients) [mb] (data_at (DogeBridge.store_bridge_state w bridge bs') mb)
    (get_nth_pending_mint_offset G (group_first g)) 0 (Z.to_nat (group_size n G g))
    (DogeBridge.store_bridge_state w bridge bs') = Ok w2 ->
  DogeBridge.process_process_mint_group pid (group_accounts (fst <$> group_payments g) g bump unlock) g unlock w
    = try _ <- DogeBridge.check_unlock (can_unlock bs) unlock;
      if unlock then DogeBridge.doge_err (DogeBridge.unlock_buffer group_locker w2) else Ok w2.
Proof.
  intros [Hdata [Hty Hmt] _ _ _ Hm Hop (_ & _ & Hacc & _) _] Hg recipients Hpre Hmint Hloop.
  pose proof (length_recipients g bump unlock Hg) as Hl. fold recipients in Hl.
  assert (group_accounts (fst <$> group_payments g) g bump unlock
    = {| key := bridge; is_signer := false; is_writable := true |}
      :: {| key := mb; is_signer := false; is_writable := true |}
      :: {| key := operator; is_signer := true; is_writable := false |}
      :: DogeBridge.minter_mint (group_minter recipients)
      :: {| key := operator; is_signer := true; is_writable := true |}
      :: {| key := PENDING_MINT_BUFFER_BUILDER_PROGRAM_ID; is_signer := false; is_writable := false |}
      :: DogeBridge.minter_token_program (group_minter recipients) :: recipients) as -> by reflexivity.
  clearbody recipients. unfold DogeBridge.process_process_mint_group. cbn [nth_account ok_or lookup list_lookup res_bind].
  cbn [is_signer key negb DogeBridge.minter_mint group_minter].
  rewrite (BridgeHistory.load_typed w bridge bs (bridge_state_typed bs Hty Hmt) Hdata). cbn [res_bind].
  unfold DogeBridge.active_buffer, DogeBridge.key_eqb. rewrite Hacc, Hm, Hop, !bool_decide_true by done. cbn [negb].
  rewrite Hpre. cbn [DogeBridge.on_core res_bind]. rewrite <- Hm, <- Hmint.
  replace {| core_state := core_state bs'; doge_mint := doge_mint bs' |} with bs' by (by destruct bs').
  destruct (DogeBridge.check_unlock (can_unlock bs) unlock) as [u| |]; [|done..].
  cbn [res_bind drop]. rewrite drop_0, Hl, Z.eqb_refl. cbn [negb].
  unfold group_minter in Hloop. rewrite <- Hm, <- Hmint in Hloop.
  cbn [DogeBridge.minter_token_program group_minter]. rewrite Hloop. done.
Qed.

(** The payments of a group, after the state is written. *)
Lemma group_loop_ok w g bump unlock bs' :
  data_at w mb = buf -> owner_at w mb = PENDING_MINT_BUFFER_BUILDER_PROGRAM_ID -> owner_at w bridge <> TOKEN_PROGRAM_ID ->
  owner_at w mint = TOKEN_PROGRAM_ID -> 0 <= g < G -> room (group_payments g) w ->
  let w1 := DogeBridge.store_bridge_state w bridge bs' in
  let recipients := drop 7 (group_accounts (fst <$> group_payments g) g bump unlock) in
  exists w2, DogeBridge.mint_group_loop (group_minter recipients) [mb] (data_at w1 mb)
      (get_nth_pending_mint_offset G (group_first g)) 0 (Z.to_nat (group_size n G g)) w1 = Ok w2 /\
    credited (group_payments g) w w2 /\ data_at w2 bridge = bytes_of bs' /\ data_at w2 mb = buf.
Proof.
  intros Hbuf Hbo Hown Hmo Hg Hroom w1 recipients. destruct (group_bounds g Hg) as (Hpos & Hoff & Hstart & Hend).
  assert (forall k, owner_at w1 k = owner_at w k) as Ho1 by (intros; apply owner_at_set_data).
  assert (data_at w1 mb = buf) as Hbuf1 by (unfold w1, DogeBridge.store_bridge_state; by rewrite data_at_set_data_ne).
  assert (credited [] w w1) as Hc0 by (apply credited_set_data; [exact (balance_owned pid mint)|done]).
  assert ((fun q => mint_from buf (get_nth_pending_mint_offset G (group_first g) + q * 40)) <$> seqZ 0 (Z.of_nat (Z.to_nat (group_size n G g)))
    = mint_at buf G <$> group_range n G g) as Hmints.
  { rewrite Z2Nat.id, BridgeSafety.group_mints by lia. unfold group_range, group_first. do 2 f_equal. exact Hoff. }
  destruct (mint_group_loop_pays pid mint (group_minter recipients) mb buf (get_nth_pending_mint_offset G (group_first g)) 0
    (Z.to_nat (group_size n G g)) w1) as (w2 & Hloop & Hcr & Hdata2);
    rewrite ?Hmints, <- ?group_payments_mints, ?Ho1, ?Hbo; [done..|lia| |done|done| |].
  { cbn [group_minter DogeBridge.minter_recipient_map Z.to_nat]. rewrite drop_0.
    pose proof (length_recipients g bump unlock Hg) as Hl. unfold len in Hl.
    rewrite take_ge by (unfold recipients; lia). unfold recipients. rewrite key_recipients, group_payments_mints, <- list_fmap_compose. done. }
  { by apply (room_app_r [] _ w w1). }
  exists w2. rewrite Hmints, <- group_payments_mints in Hcr. rewrite Hbuf1. split; [done|].
  split; [exact (credited_app _ _ _ _ _ Hc0 Hcr)|].
  split; rewrite Hdata2 by (by rewrite Ho1, ?Hbo); [apply data_at_set_data|done].
Qed.

(** One group is paid; the last one frees the buffer. *)
Lemma group_paid w bs g bump :
  paying w bs -> 0 <= g < G -> claimed_bit (tracker bs) g = false -> room (group_payments g) w ->
  exists w' bs',
    DogeBridge.process_process_mint_group pid (group_accounts (fst <$> group_payments g) g bump (can_unlock bs)) g
      (can_unlock bs) w = Ok w' /\
    credited (group_payments g) w w' /\ tracker bs' = marked (tracker bs) g /\
    (if can_unlock bs then paid_out w' bs' else paying w' bs').
Proof.
  intros Hp Hg Hc Hroom. destruct (precheck_ok bs w g Hp Hg Hc) as (m' & Hpre & Htr' & Ht' & Htc' & Hi'). cbv zeta in Hpre.
  set (bs' := {| core_state := with_pending_mint_txos m' (core_state bs); doge_mint := doge_mint bs |}).
  pose proof Hp as [_ [Hty Hmt] Hown Hmo [Hbuf Hbo] Hm Hop _ Hcur].
  destruct (group_loop_ok w g bump (can_unlock bs) bs' Hbuf Hbo Hown Hmo Hg Hroom) as (w2 & Hloop & Hcr & Hd2 & Hb2).
  pose proof (group_handler w bs g bump (can_unlock bs) bs' w2 Hp Hg Hpre eq_refl Hloop) as ->.
  unfold DogeBridge.check_unlock. rewrite eqb_reflx. cbn [res_bind].
  assert (forall k, owner_at w2 k = owner_at w k) as Ho2 by apply Hcr.
  destruct (can_unlock bs) eqn:Ecan.
  - destruct (unlock_ok w2 {| key := mb; is_signer := false; is_writable := true |}
      {| key := PENDING_MINT_BUFFER_BUILDER_PROGRAM_ID; is_signer := false; is_writable := false |}
      {| key := bridge; is_signer := false; is_writable := true |}) as (d & h & Hun & Hh & Hl); [done..|by rewrite Ho2|].
    exists (set_data w2 mb d), bs'. unfold group_locker. rewrite Hun. split; [done|]. split.
    { rewrite <- (app_nil_r (group_payments g)). eapply credited_app; [exact Hcr|].
      apply credited_set_data; [exact (balance_owned pid mint)|by rewrite Ho2, Hbo]. }
    split; [done|]. split; [by rewrite data_at_set_data_ne|]. split; [|exists h; by rewrite data_at_set_data].
    unfold tracker_is_empty. change (tracker bs') with (current_pending_mints_tracker m'). rewrite Ht'.
    unfold can_unlock in Ecan. apply Z.eqb_eq in Ecan. cbn [marked pending_mints_groups_remaining]. by rewrite Ecan.
  - exists w2, bs'. split; [done|]. split; [done|]. split; [done|]. constructor; cbn [bs' core_state doge_mint]; rewrite ?Ho2; try done.
    + split; [by eapply precheck_typed|done].
    + change (pending_mint_txos _) with m'. rewrite Htc', Hi'. lia.
Qed.

(** The client asks for the unlock with the group of the highest index only.  When that
    group was paid before another one, the payment of the last open group is refused. *)
Lemma last_group_first_blocks w bs g bump :
  paying w bs -> 0 <= g < G - 1 -> claimed_bit (tracker bs) g = false -> room (group_payments g) w ->
  can_unlock bs = true ->
  DogeBridge.process_process_mint_group pid (group_accounts (fst <$> group_payments g) g bump (g =? G - 1)) g (g =? G - 1) w
    = Err (doge_to_program_error FailedUnlockPendingMintBuffer).
Proof.
  intros Hp Hg Hc Hroom Hlast. destruct (precheck_ok bs w g Hp ltac:(lia) Hc) as (m' & Hpre & _). cbv zeta in Hpre.
  set (bs' := {| core_state := with_pending_mint_txos m' (core_state bs); doge_mint := doge_mint bs |}).
  pose proof Hp as [_ _ Hown Hmo [Hbuf Hbo] _ _ _ _].
  destruct (group_loop_ok w g bump (g =? G - 1) bs' Hbuf Hbo Hown Hmo ltac:(lia) Hroom) as (w2 & Hloop & _).
  rewrite (group_handler w bs g bump (g =? G - 1) bs' w2 Hp ltac:(lia) Hpre eq_refl Hloop), Hlast.
  by rewrite (proj2 (Z.eqb_neq _ _)) by lia.
Qed.

(** The groups from [g] on that [t] counts as open. *)
Definition open_groups (t : PendingMintsTracker) (g : Z) : list Z :=
  filter (fun h => claimed_bit t h = false) (seqZ g (G - g)).

Lemma open_groups_step t g :
  0 <= g < G -> open_groups t g = (if claimed_bit t g then [] else [g]) ++ open_groups t (g + 1).
Proof.
  intros Hg. unfold open_groups. rewrite (seqZ_cons g) by lia. rewrite filter_cons.
  replace (Z.succ g) with (g + 1) by lia. replace (Z.pred (G - g)) with (G - (g + 1)) by lia.
  destruct (claimed_bit t g); [by rewrite decide_False|by rewrite decide_True].
Qed.

Lemma open_groups_end t : open_groups t G = [].
Proof. unfold open_groups. by rewrite Z.sub_diag. Qed.

Lemma elem_of_open_groups t g h : h ∈ open_groups t g <-> claimed_bit t h = false /\ g <= h < G.
Proof. unfold open_groups. rewrite list_elem_of_filter, elem_of_seqZ. intuition lia. Qed.

Lemma open_groups_pos t g : claimed_bit t (G - 1) = false -> g < G -> 0 < len (open_groups t g).
Proof.
  intros Hc Hg. assert (G - 1 ∈ open_groups t g) as Hin by (apply elem_of_open_groups; split; [done|lia]).
  destruct (open_groups t g) as [|h l]; [by apply not_elem_of_nil in Hin|]. rewrite len_cons. pose proof (len_nonneg l). lia.
Qed.

Lemma open_groups_short t g : 0 <= g -> len (open_groups t g) <= 256.
Proof.
  intros Hg. pose proof (length_filter (fun h => claimed_bit t h = false) (seqZ g (G - g))) as Hl.
  rewrite length_seqZ in Hl. unfold len, open_groups. Z.to_euclidean_division_equations; lia.
Qed.

(** The counter of the tracker is the number of open groups. *)
Lemma remaining_open t : tracker_inv t -> groups t = G -> pending_mints_groups_remaining t = len (open_groups t 0).
Proof.
  intros (_ & _ & -> & Hlt) HG. rewrite HG in *.
  assert (G <= 256) as Hle by (Z.to_euclidean_division_equations; lia). assert (1 <= G) as Hge by (Z.to_euclidean_division_equations; lia).
  assert (claimed t = filter (fun h => claimed_bit t h = true) (seqZ 0 G)) as Hcl.
  { unfold claimed. replace 256 with (G + (256 - G)) by lia. rewrite seqZ_app, filter_app by lia.
    destruct (filter _ (seqZ (0 + G) (256 - G))) as [|h l] eqn:E; [apply app_nil_r|].
    assert (h ∈ h :: l) as Hh by (by left). rewrite <- E in Hh. apply list_elem_of_filter in Hh as [Hc Hh%elem_of_seqZ].
    assert (h < G) by (apply Hlt, elem_of_claimed; split; [done|lia]). lia. }
  pose proof (Permutation_length (filter_app_complement (fun h => claimed_bit t h = true) (seqZ 0 G))) as Hp.
  rewrite <- Hcl, length_app, length_seqZ in Hp. unfold len, open_groups. rewrite Z.sub_0_r.
  rewrite (list_filter_iff (fun h => claimed_bit t h = false) (fun h => ~ claimed_bit t h = true)) by
    (intros h; by rewrite not_true_iff_false). lia.
Qed.

Section client.
Context `{ForeignErrors} `{!Cluster} `{SplToken}.
Context (self : BridgeClientConfig) (pick : nat -> nat -> nat) (pending_mints : list PendingMint) (bump : Z).
Context (Hpid : cfg_program_id self = pid) (Hop : cfg_operator self = operator) (Hpda : cfg_bridge_state_pda self = bridge).
Context (Hnet : executes_program DogeBridge.process_instruction pid operator).
(** The client knows the recipients of the buffer. *)
Context (Hmints : recipient <$> pending_mints = (fun i => recipient (mint_at buf G i)) <$> seqZ 0 n).

Lemma sent ixs metas d c w w' :
  ixs = [RawInstruction pid metas d] ->
  BufferClient.deliver DogeBridge.process_instruction (RawInstruction pid metas d) w = Ok w' ->
  OperatorClient.send_and_confirm self pick ixs [operator] (c, w) = (Ok tt, (c, w')).
Proof.
  intros -> Hd. destruct Hnet as [Hslot Hsub]. unfold OperatorClient.send_and_confirm. cbn [fst snd].
  rewrite Hslot. cbn [pure_call]. rewrite (submit_retrying_ok _ _ _ _ w'); [by rewrite state_call_ok|].
  apply Hsub; [by right; left|done].
Qed.

(** The slice of the client's list is the group. *)
Lemma group_of_list g :
  0 <= g < G -> exists l, OperatorClient.group_mints pending_mints g = Some l /\
    recipient <$> l = fst <$> group_payments g /\ len l = len (group_payments g).
Proof.
  intros Hg. destruct (group_bounds g Hg) as (Hs & _). unfold OperatorClient.group_mints.
  assert (len pending_mints = n) as Hl.
  { unfold len. rewrite <- (length_fmap recipient), Hmints, length_fmap, length_seqZ. lia. }
  assert (24 * g + group_size n G g <= n /\ Z.min (g * 24 + 24) n = 24 * g + group_size n G g) as [Hle Hmin].
  { unfold group_size. destruct (Z.eqb_spec g (G - 1)); Z.to_euclidean_division_equations; lia. }
  unfold PM_MAX_PENDING_MINTS_PER_GROUP. rewrite Hl, Hmin, Z.mul_comm.
  destruct (slice_is_Some (24 * g) (24 * g + group_size n G g) pending_mints) as [l Hsl]; [lia..|].
  exists l. split; [done|]. apply slice_Some in Hsl as (_ & _ & ->).
  assert (recipient <$> take (Z.to_nat (24 * g + group_size n G g - 24 * g)) (drop (Z.to_nat (24 * g)) pending_mints)
    = fst <$> group_payments g) as Hk.
  { rewrite fmap_take, fmap_drop, Hmints, <- fmap_drop, <- fmap_take. unfold group_payments.
    rewrite <- list_fmap_compose. unfold group_range. replace (24 * g + group_size n G g - 24 * g) with (group_size n G g) by lia.
    by rewrite seqZ_slice by lia. }
  split; [exact Hk|]. unfold len. by rewrite <- (length_fmap recipient), Hk, length_fmap.
Qed.

Local Abbreviation make := (fun recipients group_idx is_last =>
  Some (BridgeClient.process_mint_group pid operator mb mint recipients group_idx bump is_last)).

(** The progress of the loop before group [g]: the claims after [g] are those of the
    tracker that the client read. *)
Definition loop_at (t0 : PendingMintsTracker) g w : Prop :=
  if g =? G then exists bs, paid_out w bs
  else exists bs, paying w bs /\ pending_mints_groups_remaining (tracker bs) = len (open_groups t0 g) /\
    forall h, g <= h < G -> claimed_bit (tracker bs) h = claimed_bit t0 h.

Lemma process_groups_pays t0 todo g c w processed total :
  tracker_inv t0 -> 0 <= g -> g + Z.of_nat todo = G -> claimed_bit t0 (G - 1) = false -> loop_at t0 g w ->
  room (concat (group_payments <$> open_groups t0 g)) w ->
  exists w', OperatorClient.process_groups self pick make t0 pending_mints G (seqZ g (Z.of_nat todo)) processed total (c, w)
      = (Ok (ProcessMintsResult_new (processed + len (open_groups t0 g))
               (total + len (concat (group_payments <$> open_groups t0 g))) true), (c, w')) /\
    credited (concat (group_payments <$> open_groups t0 g)) w w' /\ loop_at t0 G w'.
Proof.
  intros Ht0 Hg Htodo Hlast. revert g c w processed total Hg Htodo.
  induction todo as [|todo IH]; intros g c w processed total Hg Htodo Hat Hroom.
  { assert (g = G) as -> by lia. exists w. rewrite open_groups_end. cbn [fmap list_fmap concat]. rewrite !Z.add_0_r.
    split; [done|]. split; [apply credited_nil|done]. }
  assert (0 <= g < 256) as Hg256 by (Z.to_euclidean_division_equations; lia).
  assert (in_width 16 g) as Hgw by (unfold in_width; lia).
  pose proof Hat as Hat'. unfold loop_at in Hat'. rewrite (proj2 (Z.eqb_neq g G)) in Hat' by lia.
  destruct Hat' as (bs & Hp & Hrem & Hsame).
  rewrite (seqZ_cons g) by lia. replace (Z.succ g) with (g + 1) by lia. replace (Z.pred (Z.of_nat (S todo))) with (Z.of_nat todo) by lia.
  cbn [OperatorClient.process_groups]. rewrite already_claimed_spec by (apply Ht0 || done). cbn [or_panic pure_call].
  pose proof (open_groups_step t0 g ltac:(lia)) as Hopen.
  destruct (claimed_bit t0 g) eqn:Ecl; rewrite Hopen in *; cbn [app] in *.
  - apply IH; [lia..| |done]. unfold loop_at. destruct (Z.eqb_spec (g + 1) G) as [E|_].
    + replace (G - 1) with g in Hlast by lia. congruence.
    + exists bs. split; [done|]. split; [done|]. intros h Hh. apply Hsame. lia.
  - destruct (group_of_list g ltac:(lia)) as (l & -> & Hrec & Hlen). cbn [or_panic pure_call]. rewrite Hrec.
    rewrite fmap_cons in Hroom |- *. cbn [concat] in *.
    assert ((g =? G - 1) = can_unlock bs) as ->.
    { unfold can_unlock. rewrite Hrem. destruct (Z.eqb_spec g (G - 1)) as [->|Hne].
      - replace (G - 1 + 1) with G by lia. by rewrite open_groups_end.
      - symmetry. apply Z.eqb_neq. rewrite len_cons. pose proof (open_groups_pos t0 (g + 1) Hlast ltac:(lia)). lia. }
    assert (0 <= g < G) as HgG by lia. assert (claimed_bit (tracker bs) g = false) as Hcl by (rewrite Hsame; [done|lia]).
    destruct (group_paid w bs g bump Hp HgG Hcl (room_app_l _ _ _ Hroom)) as (w1 & bs' & Hrun & Hcr & Ht' & Hnext).
    pose proof (room_app_r _ _ _ _ Hroom Hcr) as Hroom1.
    destruct (BridgeClient.mint_group_delivered pid operator mb mint (fst <$> group_payments g) g bump (can_unlock bs) Hgw)
      as (Hdel & _). cbv zeta in Hdel. pose proof (eq_trans (Hdel w) Hrun) as Hdel'.
    rewrite Hop. erewrite sent; [|reflexivity|exact Hdel']. rewrite state_call_ok. unfold id.
    destruct (IH (g + 1) c w1 (processed + 1) (total + len l)) as (w' & -> & Hcr' & Hend); [lia..| |exact Hroom1|].
    { unfold can_unlock in Hnext. rewrite Hrem, len_cons in Hnext. unfold loop_at. destruct (Z.eqb_spec (g + 1) G) as [Eg|Hne].
      - rewrite Eg, open_groups_end in Hnext. by exists bs'.
      - assert (0 < len (open_groups t0 (g + 1)) <= 256) as Hpos.
        { split; [|apply open_groups_short; lia]. apply open_groups_pos; [done|lia]. }
        rewrite (proj2 (Z.eqb_neq _ _)) in Hnext by lia. exists bs'. split; [done|]. rewrite Ht'. split.
        + cbn [marked pending_mints_groups_remaining]. rewrite Hrem, len_cons, wrap_id; [lia|unfold in_width; lia].
        + intros h Hh. assert (h < 256) by (Z.to_euclidean_division_equations; lia). pose proof (paying_tracks _ _ Hp) as (_ & (Hb & _) & _).
          rewrite marked_bit, Hsame, (proj2 (Z.eqb_neq _ _)), orb_false_r by (done || lia). done. }
    exists w'. rewrite !len_cons, len_app, Hlen. split; [do 3 f_equal; lia|].
    split; [by eapply credited_app|done].
Qed.

Lemma state_read w bs c :
  paying w bs -> account_data w bridge = Ok (Some (data_at w bridge)) ->
  get_current_bridge_state self pick (c, w) = (Ok (core_state bs), (c, w)) /\
  get_doge_mint_from_state self (c, w) = (Ok mint, (c, w)).
Proof.
  intros [Hdata [Hty Hmt] _ _ _ Hm _ _ _] Hacc. destruct Hnet as [Hslot _].
  unfold get_current_bridge_state, get_doge_mint_from_state, read_state_account. cbn [fst snd].
  rewrite Hslot, Hpda, Hacc. cbn [pure_call ok_or res_bind].
  rewrite Hdata, (cast_bytes_of bs (bridge_state_typed bs Hty Hmt)). cbn [or_panic res_bind pure_call]. rewrite Hm.
  split; [|done]. by destruct (retries_of (buffer_manager self pick)).
Qed.

Lemma mint_known w bs c :
  paying w bs -> account_data w bridge = Ok (Some (data_at w bridge)) ->
  (forall m, c = Some m -> m = mint) -> (forall m, cfg_doge_mint self = Some m -> m = mint) ->
  get_doge_mint self (c, w) = (Ok mint, (Some mint, w)).
Proof.
  intros Hp Hacc Hc Hcfg. unfold get_doge_mint. cbn [fst snd]. destruct c as [m|]; [by rewrite (Hc m eq_refl)|].
  destruct (cfg_doge_mint self) as [m|]; [by rewrite (Hcfg m eq_refl)|].
  destruct (state_read w bs None Hp Hacc) as [_ ->]. by rewrite state_call_ok.
Qed.

(** [C6] The operator's client pays out a block.  Take a network that executes
    transactions, a token program that carries out the bridge's mints to accounts with
    room, and a bridge that is paying out a buffer of 1 to 6144 mints, some groups of
    which may be paid already, but not the last one.  Then the client's call for the
    remaining groups succeeds: it sends one transaction per open group and reports
    their number and that of their mints; every account of the token program has
    received exactly the sum of the amounts that the open groups hold for it; the
    tracker is empty and the buffer is unlocked for the next block. *)
Theorem remaining_groups_paid w bs c :
  paying w bs -> account_data w bridge = Ok (Some (data_at w bridge)) ->
  (forall m, c = Some m -> m = mint) -> (forall m, cfg_doge_mint self = Some m -> m = mint) ->
  claimed_bit (tracker bs) (G - 1) = false ->
  let open := open_groups (tracker bs) 0 in
  let payments := concat (group_payments <$> open) in
  room payments w ->
  exists w' bs',
    process_remaining_pending_mints_groups self pick pending_mints mb bump (c, w)
      = (Ok (ProcessMintsResult_new (len open) (len payments) true), (Some mint, w')) /\
    credited payments w w' /\ paid_out w' bs'.
Proof.
  intros Hp Hacc Hc Hcfg Hlast open payments Hroom. pose proof (paying_tracks _ _ Hp) as (_ & Hinv & _ & Htot).
  assert (groups (tracker bs) = G) as HG by (rewrite groups_eq, Htot by lia; done).
  assert (1 <= G) as Hge by (Z.to_euclidean_division_equations; lia).
  destruct (process_groups_pays (tracker bs) (Z.to_nat G) 0 (Some mint) w 0 0 Hinv) as (w' & Hrun & Hcr & Hend);
    [lia|lia|done| |done|].
  { unfold loop_at. rewrite (proj2 (Z.eqb_neq 0 G)) by lia. exists bs. split; [done|]. split; [by apply remaining_open|done]. }
  unfold loop_at in Hend. rewrite Z.eqb_refl in Hend. destruct Hend as [bs' Hpaid]. exists w', bs'. split; [|done].
  unfold process_remaining_pending_mints_groups, process_remaining. rewrite bool_decide_false.
  2: { intros ->. apply (f_equal length) in Hmints. rewrite !length_fmap, length_seqZ in Hmints. cbn [length] in Hmints. lia. }
  destruct (state_read w bs c Hp Hacc) as [-> _]. rewrite state_call_ok. unfold id.
  rewrite (mint_known w bs c Hp Hacc Hc Hcfg), state_call_ok. rewrite HG, Hpid, Hop.
  rewrite Z2Nat.id in Hrun by lia. exact Hrun.
Qed.
End client.
End groups.
