(* ===== verification/BlockPosting.v ===== *)
(** * BlockPosting: a block is posted and paid out

    Completeness of a block update, the converse of the soundness theorems of
    [BlockUpdateProofs.v]: when the header follows the stored one, its proof is accepted
    and the buffers are as the managers leave them ([MintUpload.v], [TxoUpload.v]), the
    operator's client ([OperatorClient.v]) gets the block through the bridge program,
    which is then paying out the client's mints ([OperatorProofs.v]). *)
From S2P Require Import Prelude Errors Pod Hash Sha256 AppendTree Types PublicInputs Runtime MintBuffer MintBufferProofs TxoBuffer BufferClient MintGroup ProgramState BlockUpdate BlockUpdateProofs Payout CommittedMints MintUpload BridgeInstructions DogeBridge Ledger StateTypes DogeBridgeProofs BridgeHistory BridgeSafety RpcClient BufferManager BufferManagerProofs ManualClaim BridgeClient HistorySync Monitor OperatorClient OperatorProofs.
From Stdlib Require Import ZArith Lia.
From stdpp Require Import base decidable list numbers option countable gmap.
Import BufferClient BufferManager OperatorClient.

Open Scope Z_scope.
Open Scope bridge_scope.

(** ** The state *)

Section state.
Context `{Sha256} `{ZkVerifier}.

(** The header continues the stored one with [n] new automatic deposits, and its proof
    is accepted. *)
Record continues (s : PsyBridgeProgramState) (proof : bytes) (header : PsyBridgeHeader) (vk : bytes) (n : Z) : Prop := {
  cont_height : sc_block_height (finalized_state header) = u32 (sc_block_height (finalized_state (bridge_header s)) + 1);
  cont_tip : tip_block_height (tip_state (bridge_header s)) < tip_block_height (tip_state header);
  cont_deposits : sc_auto_claimed_deposits_next_index (finalized_state header)
                    = sc_auto_claimed_deposits_next_index (finalized_state (bridge_header s)) + n;
  cont_brings_mints : info_is_empty (header_info header) = false;
  cont_sizes : len proof = COMPACT_BRIDGE_ZK_PROOF_SIZE /\ len vk = COMPACT_BRIDGE_ZK_VERIFIER_KEY_SIZE;
  cont_proof : verify_compact_zkp_slice proof vk
                 (get_block_transition_public_inputs (get_hash_canonical (bridge_header s)) (get_hash_canonical header)
                    (config_get_hash (config_params s)) (custodian_wallet_config_hash s)) = true
}.

(** The transition succeeds, and arms the mint queue. *)
Lemma transition_accepts (s : PsyBridgeProgramState) proof vk header n program account txos mints :
  continues s proof header vk n -> 0 < n <= u16_MAX -> bridge_inv s -> is_ready_for_new_block_update s = true ->
  ensure_pending_mints_ready_for_transition_inner program (sc_pending_mints_finalized_hash (finalized_state header)) mints
    = Ok (sc_pending_mints_finalized_hash (finalized_state header), n) ->
  read_txo_hash txos n (fun h => (txo_doge_block_height h =? sc_block_height (finalized_state header)) && negb (txo_data_size h =? 0))
    InvalidAutoClaimTxoBufferPendingMintsCount = Ok (sc_txo_output_list_finalized_hash (finalized_state header)) ->
  exists s', run_standard_single_block_transition s proof vk header program account txos mints = (Ok tt, s') /\
    bridge_header s' = header /\ access_control s' = access_control s /\
    let m := pending_mint_txos s' in
    manager_wf m /\ pending_finalized_info_current_index m = 0 /\ pending_finalized_info_total_count m = 1 /\
    current_pending_mints_tracker m = fresh_tracker account n ((n + 23) / 24).
Proof.
  intros [Hh Htip Hdep Hne [Hpl Hvl] Hproof] Hn ([Hwf _] & Hlen & Hidx) Hready Hmints Htxos.
  unfold run_standard_single_block_transition. cbv zeta. rewrite Hready, Hpl, Hvl, Hh, !Z.eqb_refl. cbn [negb].
  rewrite (proj2 (Z.leb_gt _ _)) by lia. rewrite (proj2 (Z.ltb_ge _ _)) by lia.
  replace (_ - _) with n by lia. rewrite (proj2 (Z.ltb_ge _ _)) by lia. rewrite Hproof. cbn [negb].
  unfold ensure_pending_mints_ready_for_transition. rewrite (proj2 (Z.eqb_neq n 0)) by lia. rewrite Hmints.
  cbn [res_bind fst snd]. rewrite Z.eqb_refl. cbn [negb res_bind pure_call fst snd]. rewrite bool_decide_true by done. cbn [negb].
  rewrite (proj2 (Z.ltb_lt 0 n)) by lia. unfold queue_new_mints. rewrite Htxos. cbn [pure_call].
  rewrite bool_decide_true by done. cbn [negb].
  pose proof (mint_group_count n ltac:(unfold u16_MAX in Hn; lia)) as Hg.
  destruct (compute_mint_group_info n) as [g last]. cbn [fst] in Hg. subst g.
  destruct (append_block_arms_tracker (pending_mint_txos s) (sc_block_height (finalized_state header)) (header_info header) []
    account n ((n + 23) / 24) Hready (proj1 Hwf) ltac:(cbn; lia) Hne) as (m & Hm & Hmwf & _ & Hcur & Htot & _ & Ht).
  unfold header_info in Hm. rewrite Hm, !state_call_ok.
  cbn [recent_finalized_blocks next_recent_finalized_block_index with_bridge_header with_pending_mint_txos].
  rewrite set_index_ok by (unfold len; lia). cbn [or_panic pure_call].
  eexists. split; [reflexivity|]. split; [done|]. split; [done|]. by split_and!.
Qed.
End state.

(** ** The bridge program *)

Section post.
Context `{Runtime} `{ProgramIds} `{Sha256Laws} `{ZkVerifier} `{Features} `{TokenLedger}.
Context (pid mint operator mb tb : Pubkey) (b : PendingMintBufferBuilder) {Hcpi : PayoutCpi pid mint}.
Implicit Types (w : World) (bs : DogeBridge.BridgeState).

Local Abbreviation bridge := (DogeBridge.bridge_pda pid).
Local Abbreviation n := (total_mints b).
Local Abbreviation G := ((total_mints b + 23) / 24).

Context (Hn : 0 < n <= 6144).
Context (mb_not_bridge : mb <> bridge) (tb_not_bridge : tb <> bridge) (mb_not_tb : mb <> tb).
Context (pmb_not_token : PENDING_MINT_BUFFER_BUILDER_PROGRAM_ID <> TOKEN_PROGRAM_ID) (mb_bytes : byte_array 32 mb).

(** The mint buffer program is run for the lock that the bridge signs. *)
Definition locks : Prop := forall w buffer program authority w',
  key authority = bridge ->
  MintBuffer.process_instruction PENDING_MINT_BUFFER_BUILDER_PROGRAM_ID
    [called_buffer buffer; called_authority authority] [4] w = Ok w' ->
  invoke_signed w (DogeBridge.buffer_instruction (DogeBridge.mint_buffer_locker pid buffer program authority) 4)
    [program; buffer; authority] [DogeBridge.bridge_seeds pid] = Ok w'.

(** The bridge, as it signs for the lock. *)
Definition bridge_signer : AccountInfo := {| key := bridge; is_signer := true; is_writable := false |}.

(** A buffer after its lock. *)
Record locked_buffer (d : bytes) : Prop := {
  locked_bytes : Forall is_byte d;
  locked_for_bridge : exists h, MintBuffer.get_header d = Some h /\ is_locked h <> 0 /\ authorized_locker_public_key h = bridge;
  locked_accepted : ensure_pending_mints_ready_for_transition_inner bridge (sha256 (commitment_preimage b)) d
                      = Ok (sha256 (commitment_preimage b), n);
  locked_payments : all_payments d G n = payment <$> mints b
}.

Lemma accepted_locks w :
  mints_accepted PENDING_MINT_BUFFER_BUILDER_PROGRAM_ID mb b bridge_signer w -> Forall is_byte (data_at w mb) ->
  exists d, MintBuffer.process_instruction PENDING_MINT_BUFFER_BUILDER_PROGRAM_ID [storage_info mb; bridge_signer] [4] w
    = Ok (set_data w mb d) /\ locked_buffer d.
Proof.
  intros (w' & Hr & Hacc & Hpay) Hb. pose proof Hr as Hlock.
  change (MintBuffer.process_lock PENDING_MINT_BUFFER_BUILDER_PROGRAM_ID [storage_info mb; bridge_signer] (storage_info mb) w
    = Ok w') in Hlock.
  unfold MintBuffer.process_lock in Hlock. peel Hlock as E0.
  change (nth_account [storage_info mb; bridge_signer] 1) with (@Ok ProgramError _ bridge_signer) in Hlock.
  cbn [res_bind] in Hlock. peel Hlock as E1.
  apply update_header_effect in Hlock as (h & h' & _ & Hf & Hh' & _ & [d ->] & Hb'); [|exact Hb|by intros; eapply lock_wf].
  change (key (storage_info mb)) with mb in *. unfold buffer_header in Hh'. rewrite data_at_set_data in *.
  exists d. split; [done|]. constructor; [done| |done|done]. exists h'. split; [done|].
  unfold MintBuffer.lock in Hf. peel Hf as F0. peel Hf as F1. peel Hf as F2. injection Hf as <-.
  apply negb_false_iff, bool_decide_eq_true in F2. change (key bridge_signer) with bridge in F2.
  split; [discriminate|]. cbn [authorized_locker_public_key]. congruence.
Qed.

Lemma locked_size d : locked_buffer d -> pm_calculate_data_account_min_size n <= len d.
Proof.
  intros [Hb _ Hacc _]. apply ensure_inner_ok in Hacc as [_ (h & p & _ & _ & _ & _ & _ & _ & Hl & _)]; done.
Qed.

(** The bridge is idle, the buffers are uploaded, and the header is due. *)
Record postable w bs (proof : bytes) (header : PsyBridgeHeader) : Prop := {
  post_data : data_at w bridge = bytes_of bs;
  post_typed : state_typed (core_state bs) /\ byte_array 32 (doge_mint bs) /\ bridge_inv (core_state bs);
  post_owner : owner_at w bridge <> TOKEN_PROGRAM_ID /\ owner_at w mint = TOKEN_PROGRAM_ID;
  post_mint : doge_mint bs = mint;
  post_operator : Types.operator_pubkey (access_control (core_state bs)) = operator;
  post_idle : is_ready_for_new_block_update (core_state bs) = true;
  post_mint_buffer : owner_at w mb = PENDING_MINT_BUFFER_BUILDER_PROGRAM_ID /\ Forall is_byte (data_at w mb);
  post_mints : mints_accepted PENDING_MINT_BUFFER_BUILDER_PROGRAM_ID mb b bridge_signer w;
  post_txo_buffer : owner_at w tb = TXO_BUFFER_BUILDER_PROGRAM_ID /\ Forall is_byte (data_at w tb);
  post_txos : read_txo_hash (data_at w tb) n
      (fun h => (txo_doge_block_height h =? sc_block_height (finalized_state header)) && negb (txo_data_size h =? 0))
      InvalidAutoClaimTxoBufferPendingMintsCount = Ok (sc_txo_output_list_finalized_hash (finalized_state header));
  post_header : pod_wf header;
  post_committed : sc_pending_mints_finalized_hash (finalized_state header) = sha256 (commitment_preimage b);
  post_continues : continues (core_state bs) proof header DogeBridge.SINGLE_BLOCK_UPDATE_VK n
}.

Context (Hlocks : locks).

(** The accounts that the client lists. *)
Definition post_accounts (payer : Pubkey) : list AccountInfo :=
  account_info <$> BridgeClient.block_accounts pid payer operator mb tb.

(** A buffer that is being paid out, with nothing paid yet. *)
Definition unpaid w bs : Prop :=
  exists d, paying pid mint operator mb d n w bs /\ locked_buffer d /\
    current_pending_mints_tracker (pending_mint_txos (core_state bs)) = fresh_tracker mb n G.

Lemma post_block w bs proof header bump_m bump_t payer :
  postable w bs proof header ->
  create_program_address [MintBuffer.mint_buffer_seed; operator; [bump_m]] PENDING_MINT_BUFFER_BUILDER_PROGRAM_ID = Some mb ->
  create_program_address [TxoBuffer.txo_buffer_seed; operator; [bump_t]] TXO_BUFFER_BUILDER_PROGRAM_ID = Some tb ->
  exists w' bs', DogeBridge.process_block_update pid (post_accounts payer) proof header bump_m bump_t w = Ok w' /\
    bridge_header (core_state bs') = header /\ unpaid w' bs' /\ credited [] w w'.
Proof.
  intros [Hd (Hty & Hm32 & Hinv) [Hbo Hmo] Hm Hop Hidle [Hmbo Hmb] Hacc [Htbo Htb] Htx Hhw Hcom Hcont] Hpm Hpt.
  destruct (accepted_locks w Hacc Hmb) as (d & Hlock & Hld). pose proof Hld as [Hdb Hlh Hens Hpay].
  rewrite <- Hcom in Hens.
  destruct (transition_accepts (core_state bs) proof DogeBridge.SINGLE_BLOCK_UPDATE_VK header n bridge mb (data_at w tb) d
    Hcont ltac:(unfold u16_MAX; lia) Hinv Hidle Hens Htx) as (s' & Hrun & Hhd & Hac & Hmwf & Hcur & Htot & Htr).
  set (w1 := set_data w mb d) in *. set (bs' := {| core_state := s'; doge_mint := doge_mint bs |}).
  pose proof (single_block_typed _ _ _ _ _ _ _ _ _ Hty Hhw mb_bytes Htb Hdb Hrun) as Hty'.
  assert (data_at w1 bridge = bytes_of bs) as Hd1 by (unfold w1; by rewrite data_at_set_data_ne).
  assert (data_at w1 tb = data_at w tb) as Htb1 by (unfold w1; by rewrite data_at_set_data_ne).
  assert (data_at w1 mb = d) as Hmb1 by (unfold w1; by rewrite data_at_set_data).
  set (w2 := DogeBridge.store_bridge_state w1 bridge bs').
  assert (forall k, owner_at w2 k = owner_at w k) as Ho2
    by (intros k; unfold w2, DogeBridge.store_bridge_state, w1; by rewrite !owner_at_set_data).
  exists w2, bs'. split; [|split; [exact Hhd|split]].
  - unfold DogeBridge.process_block_update, DogeBridge.run_block_update_common, post_accounts, BridgeClient.block_accounts.
    change (BridgeClient.pda [DogeBridge.bridge_state_seed] pid) with bridge.
    cbn [fmap list_fmap nth_account ok_or lookup list_lookup res_bind account_info meta_new meta_new_readonly
         key is_signer meta_key meta_is_signer negb].
    rewrite Hpm. cbn [ok_or res_bind]. unfold DogeBridge.key_eqb. rewrite bool_decide_true by done. cbn [negb].
    rewrite Hpt. cbn [ok_or res_bind]. rewrite bool_decide_true by done. cbn [negb].
    rewrite Hmbo, bool_decide_true by done. cbn [negb]. unfold DogeBridge.lock_buffer.
    cbn [DogeBridge.mint_buffer_locker DogeBridge.locker_buffer_program_account DogeBridge.locker_buffer_account
         DogeBridge.locker_authority_info DogeBridge.locker_authority_seeds].
    match goal with |- context [invoke_signed w ?i ?l ?s] => assert (invoke_signed w i l s = Ok w1) as -> end.
    { refine (Hlocks w _ _ _ w1 _ _); [done|]. exact Hlock. }
    cbn [map_err DogeBridge.doge_err res_bind meta_is_writable].
    rewrite (BridgeHistory.load_typed w1 bridge bs (bridge_state_typed bs Hty Hm32) Hd1). cbn [res_bind].
    assert (owner_at w1 tb = TXO_BUFFER_BUILDER_PROGRAM_ID) as -> by (unfold w1; by rewrite owner_at_set_data).
    rewrite bool_decide_true by done. cbn [negb].
    rewrite !bool_decide_false by done. rewrite Htb1, Hmb1.
    match goal with |- context [DogeBridge.get_mint_buffer_program_address ?l] =>
      change (DogeBridge.get_mint_buffer_program_address l) with mb end.
    rewrite Hrun.
    cbn [DogeBridge.on_core res_bind snd]. fold bs'. fold w2. unfold DogeBridge.deposits_index.
    change (core_state bs') with s'. rewrite Hhd. destruct Hcont as [_ _ -> _ _ _].
    by rewrite (proj2 (Z.eqb_neq _ _)) by lia.
  - exists d. split; [|split; [exact Hld|exact Htr]]. constructor; rewrite ?Ho2; try done.
    + unfold w2, DogeBridge.store_bridge_state. by rewrite data_at_set_data.
    + split; [|done]. unfold w2, DogeBridge.store_bridge_state. by rewrite data_at_set_data_ne.
    + change (access_control (core_state bs')) with (access_control s'). by rewrite Hac.
    + change (pending_mint_txos (core_state bs')) with (pending_mint_txos s'). split; [exact Hmwf|]. rewrite Htr.
      split; [|done]. pose proof (fresh_tracker_inv mb n ltac:(lia)) as Hti.
      rewrite groups_eq in Hti by (cbn; lia). exact Hti.
    + change (pending_mint_txos (core_state bs')) with (pending_mint_txos s'). rewrite Hcur, Htot. lia.
  - pose proof (balance_owned pid mint) as Hown.
    apply (credited_app [] [] w w1 w2); apply credited_set_data; try exact Hown; unfold w1; rewrite ?owner_at_set_data; congruence.
Qed.
(** ** The client *)

Section client.
Context `{ForeignErrors} `{!Cluster} `{SplToken}.
Context (self : BridgeClientConfig) (pick : nat -> nat -> nat).
Context (Hpid : cfg_program_id self = pid) (Hop : cfg_operator self = operator) (Hpda : cfg_bridge_state_pda self = bridge).
Context (Hnet : executes_program DogeBridge.process_instruction pid operator).
Context (Hreads : forall w, data_at w bridge <> [] -> account_data w bridge = Ok (Some (data_at w bridge))).

Lemma fresh_open : open_groups n (fresh_tracker mb n G) 0 = seqZ 0 G.
Proof.
  unfold open_groups. rewrite Z.sub_0_r. apply filter_all, Forall_forall. intros g Hg%elem_of_seqZ.
  assert (g < 256) by (Z.to_euclidean_division_equations; lia).
  destruct (claimed_bit (fresh_tracker mb n G) g) eqn:Ec; [|done]. exfalso.
  apply (not_elem_of_nil g). rewrite <- (claimed_fresh mb n G). apply elem_of_claimed. split; [exact Ec|lia].
Qed.

(** The groups hold the client's mints. *)
Lemma groups_payments d :
  locked_buffer d -> concat (group_payments d n <$> seqZ 0 G) = payment <$> mints b.
Proof.
  intros [_ _ _ <-]. unfold group_payments, all_payments. rewrite <- (ranges_partition n G) by (Z.to_euclidean_division_equations; lia).
  change (payment_at d G <$> ?l) with (map (payment_at d G) l). rewrite concat_map. by rewrite <- list_fmap_compose.
Qed.

Lemma recipients_known d :
  locked_buffer d -> recipient <$> mints b = (fun i => recipient (mint_at d G i)) <$> seqZ 0 n.
Proof.
  intros [_ _ _ Hp]. apply (f_equal (fmap fst)) in Hp. unfold all_payments in Hp. rewrite <- !list_fmap_compose in Hp. done.
Qed.

Lemma length_payments : len (payment <$> mints b) = n.
Proof. unfold len. by rewrite length_fmap. Qed.

(** [C4] A block, from the upload to the last payment.  Take a bridge that is idle, a
    header that continues the stored one with 1 to 6144 new deposits, and the operator's
    two buffers as the managers leave them: mints and outputs that hash to what the
    header commits to, the outputs tagged with its finalized height.  On a network that
    executes transactions, with the calls between the programs carried out and room in
    the recipients' accounts, the client's two calls succeed: after the first one the
    bridge stores the header, and the second one sends one transaction per group and
    reports all groups and all mints; then every account of the token program holds
    exactly what the client's mints bring to it more than at the start, the tracker is
    empty and the buffer is unlocked for the next block. *)
Theorem block_posted_and_paid w bs proof header bump_m bump_t c :
  postable w bs proof header -> byte_array 256 proof ->
  create_program_address [MintBuffer.mint_buffer_seed; operator; [bump_m]] PENDING_MINT_BUFFER_BUILDER_PROGRAM_ID = Some mb ->
  create_program_address [TxoBuffer.txo_buffer_seed; operator; [bump_t]] TXO_BUFFER_BUILDER_PROGRAM_ID = Some tb ->
  (forall m, c = Some m -> m = mint) -> (forall m, cfg_doge_mint self = Some m -> m = mint) ->
  room (payment <$> mints b) w ->
  exists w1 bs1 w2 bs2,
    process_block_transition self pick proof header mb bump_m tb bump_t (c, w) = (Ok tt, (c, w1)) /\
    data_at w1 bridge = bytes_of bs1 /\ bridge_header (core_state bs1) = header /\
    process_remaining_pending_mints_groups self pick (mints b) mb bump_m (c, w1)
      = (Ok (ProcessMintsResult_new G n true), (Some mint, w2)) /\
    credited (payment <$> mints b) w w2 /\ paid_out pid mb w2 bs2.
Proof.
  intros Hp Hproof Hpm Hpt Hc Hcfg Hroom. pose proof (post_header _ _ _ _ Hp) as Hhw.
  destruct (post_block w bs proof header bump_m bump_t (cfg_payer self) Hp Hpm Hpt)
    as (w1 & bs1 & Hrun & Hhd & (d & Hpay & Hld & Htr) & Hcr).
  pose proof (groups_payments d Hld) as Hgp. pose proof (paying_data _ _ _ _ _ _ _ _ Hpay) as Hd1.
  assert (1 <= G) as HG by (Z.to_euclidean_division_equations; lia).
  assert (bytes_of bs1 <> []) as Hne.
  { destruct (paying_typed _ _ _ _ _ _ _ _ Hpay) as [Hty Hm32].
    destruct (bytes_of_array bs1 (bridge_state_typed bs1 Hty Hm32)) as [Hlen _]. intros E. rewrite E in Hlen. discriminate Hlen. }
  assert (process_block_transition self pick proof header mb bump_m tb bump_t (c, w) = (Ok tt, (c, w1))) as Hpost.
  { unfold process_block_transition.
    destruct (BridgeClient.block_update_delivered pid (cfg_payer self) proof header operator mb tb bump_m bump_t (conj Hproof Hhw))
      as (i & Hi & Hdel & _).
    rewrite Hpid, Hop, Hi. cbn [or_panic pure_call]. injection Hi as <-.
    eapply (sent pid operator self pick); [done|reflexivity|]. exact (eq_trans (Hdel w) Hrun). }
  destruct (remaining_groups_paid pid mint operator mb d n (locked_bytes d Hld) Hn (locked_size d Hld) (locked_for_bridge d Hld)
    pmb_not_token mb_not_bridge self pick (mints b) bump_m Hpid Hop Hpda Hnet (recipients_known d Hld) w1 bs1 c Hpay)
    as (w2 & bs2 & Hgroups & Hcr2 & Hout).
  - rewrite Hreads; [done|by rewrite Hd1].
  - exact Hc.
  - exact Hcfg.
  - rewrite Htr. destruct (claimed_bit (fresh_tracker mb n G) (G - 1)) eqn:Ec; [|done]. exfalso.
    assert (G - 1 < 256) by (Z.to_euclidean_division_equations; lia).
    apply (not_elem_of_nil (G - 1)). rewrite <- (claimed_fresh mb n G). apply elem_of_claimed. split; [exact Ec|lia].
  - rewrite Htr, fresh_open, Hgp. by apply (room_app_r [] _ w w1).
  - rewrite Htr, fresh_open, Hgp, length_payments in Hgroups. unfold len in Hgroups at 1. rewrite length_seqZ, Z2Nat.id in Hgroups by lia.
    rewrite Htr, fresh_open, Hgp in Hcr2. exists w1, bs1, w2, bs2. split; [exact Hpost|]. split; [exact Hd1|]. split; [exact Hhd|].
    split; [exact Hgroups|]. split; [exact (credited_app [] _ w w1 w2 Hcr Hcr2)|exact Hout].
Qed.
End client.
End post.
