(* ===== verification/ClientSignatures.v ===== *)
(** * ClientSignatures: who signs the operator client's transactions

    The network interface of the client models takes a transaction with the key pairs
    that are to sign it.  In the code it is signed first, by [Transaction::sign] of the
    SDK, which panics unless these key pairs are exactly the signers that the
    transaction lists: the payer and the signing accounts of the instructions.  Here
    this check is made explicit, and the calls of [OperatorClient.v] are compared with
    and without it. *)
From S2P Require Import Prelude Errors Pod Hash Types Runtime BufferClient MintGroup ProgramState BridgeInstructions DogeBridge RpcClient BufferManager ManualClaim BridgeClient HistorySync Monitor OperatorClient.
From Stdlib Require Import ZArith Lia.
From stdpp Require Import base decidable list numbers option countable gmap.
Import BufferClient BufferManager OperatorClient.

Open Scope Z_scope.
Open Scope bridge_scope.

Fixpoint signer_keys (metas : list AccountMeta) : list Pubkey :=
  match metas with
  | [] => []
  | m :: metas => if meta_is_signer m then meta_key m :: signer_keys metas else signer_keys metas
  end.

(** The signers of a message: the payer, then the signing accounts. *)
Definition required_signers (payer : Pubkey) (ixs : list Instruction) : list Pubkey :=
  payer :: signer_keys (concat (instruction_metas <$> ixs)).

Definition same_keys (a b : list Pubkey) : bool :=
  forallb (fun k => bool_decide (k ∈ b)) a && forallb (fun k => bool_decide (k ∈ a)) b.

Definition signatures_fit (ixs : list Instruction) (signers : list Pubkey) : bool :=
  match signers with
  | payer :: _ => same_keys signers (required_signers payer ixs)
  | [] => false
  end.

Lemma same_keys_spec a b : same_keys a b = true <-> forall k, k ∈ a <-> k ∈ b.
Proof.
  unfold same_keys. rewrite andb_true_iff, !forallb_forall. split.
  - intros [Hab Hba] k. split; intros Hk.
    + exact (bool_decide_eq_true_1 _ (Hab k (proj1 (list_elem_of_In _ _) Hk))).
    + exact (bool_decide_eq_true_1 _ (Hba k (proj1 (list_elem_of_In _ _) Hk))).
  - intros Hk. split; intros k Hin%list_elem_of_In; apply bool_decide_eq_true_2; by apply Hk.
Qed.

(** [hash]: the request for the latest block hash, which comes before the signing. *)
Definition checked `{ForeignErrors} (hash : World -> res RpcClient.BridgeError unit) (C : Cluster) : Cluster := {|
  acquire_slot := acquire_slot;
  account_data := account_data;
  rent_exemption := rent_exemption;
  submit ixs signers w :=
    if signatures_fit ixs signers then submit ixs signers w else (res_bind (hash w) (fun _ => Panic), w)
|}.

Section signatures.
Context `{Runtime} `{ProgramIds} `{ForeignErrors} `{SplToken} (C : Cluster) (hash : World -> res RpcClient.BridgeError unit).
Context (self : BridgeClientConfig) (pick : nat -> nat -> nat).
Local Abbreviation C' := (checked hash C).

Lemma submit_checked ixs signers w :
  signatures_fit ixs signers = true -> @submit _ C' ixs signers w = @submit _ C ixs signers w.
Proof. intros Hf. cbn [checked submit]. by rewrite Hf. Qed.

Lemma retrying_checked n ixs signers w :
  signatures_fit ixs signers = true ->
  @submit_retrying _ C' n ixs signers w = @submit_retrying _ C n ixs signers w.
Proof.
  intros Hf. revert w. induction n as [|n IH]; intros w; cbn [submit_retrying]; rewrite submit_checked by done; [done|].
  destruct (submit ixs signers w) as [[| |] w']; try done. destruct (RpcClient.is_retryable e); [apply IH|done].
Qed.

(** What does not fit is never sent. *)
Lemma retrying_refused n ixs signers w :
  signatures_fit ixs signers = false ->
  is_ok (@submit_retrying _ C' n ixs signers w).1 = false /\ (@submit_retrying _ C' n ixs signers w).2 = w.
Proof.
  intros Hf. induction n as [|n IH]; cbn [submit_retrying checked submit]; rewrite Hf;
    destruct (hash w) as [|e|]; cbn [res_bind]; try done. by destruct (RpcClient.is_retryable e).
Qed.

Lemma client_checked ixs extra s :
  signatures_fit ixs (cfg_payer self :: extra) = true ->
  @OperatorClient.send_and_confirm _ C' self pick ixs extra s = @OperatorClient.send_and_confirm _ C self pick ixs extra s.
Proof.
  intros Hf. unfold OperatorClient.send_and_confirm. change (@acquire_slot _ C' s.2) with (@acquire_slot _ C s.2).
  by rewrite retrying_checked.
Qed.

Lemma client_refused ixs extra s :
  signatures_fit ixs (cfg_payer self :: extra) = false ->
  is_ok (@OperatorClient.send_and_confirm _ C' self pick ixs extra s).1 = false /\
  (@OperatorClient.send_and_confirm _ C' self pick ixs extra s).2 = s.
Proof.
  intros Hf. unfold OperatorClient.send_and_confirm. destruct s as [c w]. cbn [fst snd].
  destruct (@acquire_slot _ C' w); [|done..]. cbn [pure_call].
  destruct (retrying_refused (retries_of (buffer_manager self pick)) _ _ w Hf) as [Hok Hw].
  destruct (@submit_retrying _ C' _ _ _ _) as [r w']. cbn [fst snd] in *. by destruct r; subst.
Qed.
End signatures.

(** ** The instructions *)

Section instructions.
Context `{Runtime} `{ProgramIds}.

Lemma fit_keys ixs payer extra :
  (forall k, k ∈ payer :: extra <-> k ∈ required_signers payer ixs) -> signatures_fit ixs (payer :: extra) = true.
Proof. intros Hk. by apply same_keys_spec. Qed.

(** The recipients of a group do not sign. *)
Lemma no_recipient_signs recipients : signer_keys ((fun r => meta_new r false) <$> recipients) = [].
Proof. by induction recipients. Qed.

Ltac fit :=
  intros; apply fit_keys; intros k; unfold required_signers; cbn; rewrite ?app_nil_r, ?no_recipient_signs; cbn;
  rewrite ?elem_of_cons, ?elem_of_nil; intuition congruence.

Lemma fit_group pid op mb mint recipients g bump unlock payer :
  signatures_fit [BridgeClient.process_mint_group pid op mb mint recipients g bump unlock] [payer; op] = true.
Proof. fit. Qed.

Lemma fit_block pid payer proof header op mb tb b6 b7 i :
  BridgeClient.block_update pid payer proof header op mb tb b6 b7 = Some i -> signatures_fit [i] [payer; op] = true.
Proof. unfold BridgeClient.block_update. intros [d [_ [= <-]]]%bind_Some. fit. Qed.

Lemma fit_reorg pid payer proof header extra op mb tb b6 b7 i :
  BridgeClient.process_reorg_blocks pid payer proof header extra op mb tb b6 b7 = Some i ->
  signatures_fit [i] [payer; op] = true.
Proof. unfold BridgeClient.process_reorg_blocks. intros [d [_ [= <-]]]%bind_Some. fit. Qed.

Lemma fit_auto pid op mb tb mint recipients g b6 b7 unlock payer i :
  BridgeClient.process_mint_group_auto_advance pid op mb tb mint recipients g b6 b7 unlock = Some i ->
  signatures_fit [i] [payer; op] = true.
Proof. unfold BridgeClient.process_mint_group_auto_advance. intros [d [_ [= <-]]]%bind_Some. fit. Qed.

Lemma fit_claim pid bridge_pid user payer mint recipient proof r1 r2 r3 tx i sats :
  signatures_fit [BridgeClient.manual_claim_deposit_instruction pid bridge_pid user payer mint recipient proof r1 r2 r3 tx i sats]
    [payer; user] = true.
Proof. fit. Qed.

Lemma fit_fees pid op token mint payer :
  signatures_fit [BridgeClient.operator_withdraw_fees pid op token mint] [payer; op] = true.
Proof. fit. Qed.

Lemma fit_request pid user mint token recipient sats ty payer :
  signatures_fit [BridgeClient.request_withdrawal pid user mint token recipient sats ty] [payer; user] = true.
Proof. fit. Qed.

Lemma fit_replay clock pid payer buffer shim core :
  signatures_fit [BridgeClient.process_replay_withdrawal clock pid payer buffer shim core] [payer] = true.
Proof. fit. Qed.

Lemma fit_snapshot pid op payer :
  signatures_fit [BridgeClient.snapshot_withdrawals pid op payer] [payer; op] = true.
Proof. fit. Qed.

(** The operator signs, but is not an account of these two. *)
Lemma extra_signer ixs payer op :
  required_signers payer ixs = [payer] \/ required_signers payer ixs = [payer; payer] ->
  signatures_fit ixs [payer; op] = bool_decide (op = payer).
Proof.
  intros Hr. apply eq_true_iff_eq. rewrite bool_decide_eq_true. unfold signatures_fit. rewrite same_keys_spec. split.
  - intros Hk. destruct (Hk op) as [Hop _]. destruct Hr as [Hr|Hr]; rewrite Hr in Hop; set_solver.
  - intros -> k. destruct Hr as [-> | ->]; set_solver.
Qed.

Lemma fit_withdrawal clock pid payer op buffer shim core proof ro root next :
  signatures_fit [BridgeClient.process_withdrawal clock pid payer buffer shim core proof ro root next] [payer; op]
    = bool_decide (op = payer).
Proof. apply extra_signer. by right. Qed.

Lemma fit_initialize payer op fee mint params :
  signatures_fit [BridgeClient.initialize_bridge payer op fee mint params] [payer; op] = bool_decide (op = payer).
Proof. apply extra_signer. by right. Qed.

(** The buffers. *)
Lemma fit_mint_setup payer buffer rent pid locker writer :
  signatures_fit [SystemTransfer payer buffer rent; pending_mint_setup pid buffer locker writer] [payer] = true.
Proof. fit. Qed.
Lemma fit_reinit pid buffer op total payer : signatures_fit [pending_mint_reinit pid buffer op total] [payer; op] = true.
Proof. fit. Qed.
Lemma fit_insert pid buffer op g d payer : signatures_fit [pending_mint_insert pid buffer op g d] [payer; op] = true.
Proof. fit. Qed.
Lemma fit_txo_init payer buffer rent pid writer :
  signatures_fit [SystemTransfer payer buffer rent; txo_buffer_init pid buffer writer] [payer] = true.
Proof. fit. Qed.
Lemma fit_set_len pid buffer payer op n resize batch height finalize :
  signatures_fit [txo_buffer_set_len pid buffer payer op n resize batch height finalize] [payer; op] = true.
Proof. fit. Qed.
Lemma fit_txo_write pid buffer op batch offset d payer :
  signatures_fit [txo_buffer_write pid buffer op batch offset d] [payer; op] = true.
Proof. fit. Qed.
Lemma fit_generic_create payer buffer rent space pid n :
  signatures_fit [SystemCreateAccount payer buffer rent space pid; generic_buffer_init pid buffer payer n]
    [payer; buffer] = true.
Proof. fit. Qed.
Lemma fit_generic_write pid buffer payer offset d : signatures_fit [generic_buffer_write pid buffer payer offset d] [payer] = true.
Proof. fit. Qed.
End instructions.

(** ** The calls *)

Section calls.
Context `{Runtime} `{ProgramIds} `{ForeignErrors} `{SplToken} (C : Cluster) (hash : World -> res RpcClient.BridgeError unit).
Context (self : BridgeClientConfig) (pick : nat -> nat -> nat).
Local Abbreviation C' := (checked hash C).
Local Abbreviation manager := (buffer_manager self pick).

(** A concurrent batch, each transaction signed by the payer and the operator. *)
Lemma tasks_checked steps tasks w :
  Forall (fun t => signatures_fit (task_ixs t) (task_signers t) = true) tasks ->
  @join_tasks _ C' steps (pm_pick manager) tasks w = @join_tasks _ C steps (pm_pick manager) tasks w.
Proof.
  revert tasks w. induction steps as [|steps IH]; intros tasks w Ht; [done|]. cbn [join_tasks].
  destruct tasks as [|t0 tasks0]; [done|]. set (tasks := t0 :: tasks0) in *. clearbody tasks. clear t0 tasks0.
  set (i := (_ mod _)%nat). destruct (tasks !! i) as [t|] eqn:Ei; [|done].
  pose proof (Forall_lookup_1 _ _ _ _ Ht Ei) as Hf. cbn beta in Hf.
  assert (forall n, Forall (fun t => signatures_fit (task_ixs t) (task_signers t) = true) (<[i := with_retries n t]> tasks))
    as Hretry by (intros n; by apply Forall_insert).
  destruct (task_ready t).
  - rewrite submit_checked by done. destruct (submit (task_ixs t) (task_signers t) w) as [[u|e|] w1]; [| |done].
    + by apply IH, Forall_delete.
    + destruct (task_retries t) as [|n]; [done|]. destruct (RpcClient.is_retryable e); [by apply IH|done].
  - change (@acquire_slot _ C' w) with (@acquire_slot _ C w). destruct (acquire_slot w); [|done..]. cbn [pure_call].
    by apply IH, Forall_insert.
Qed.

Lemma batches_checked signers batches w :
  Forall (fun ix => signatures_fit [ix] signers = true) (concat batches) ->
  @join_batches _ C' manager signers batches w = @join_batches _ C manager signers batches w.
Proof.
  revert w. induction batches as [|batch batches IH]; intros w Hf; [done|]. cbn [concat] in Hf.
  apply Forall_app in Hf as [Hb Hf]. cbn [join_batches]. unfold join_batch. rewrite tasks_checked.
  - destruct (join_tasks _ _ _ w) as [[u|e|] w1]; [|done..]. by apply IH.
  - apply Forall_fmap. eapply Forall_impl; [exact Hb|]. by intros ix Hix.
Qed.

Lemma pieces_checked signers size l batches w :
  or_panic (E := RpcClient.BridgeError) (batches_of size l) = Ok batches ->
  Forall (fun ix => signatures_fit [ix] signers = true) l ->
  @join_batches _ C' manager signers batches w = @join_batches _ C manager signers batches w.
Proof.
  unfold batches_of. destruct (size =? 0); intros [= <-] Hl. apply batches_checked.
  unfold slice_chunks. rewrite concat_pieces. by apply Forall_take.
Qed.

(** Equal calls are continued by equal continuations. *)
Lemma pure_call_ext {E S A B} (s : S) (r : res E A) (k k' : A -> res E B * S) :
  (forall a, r = Ok a -> k a = k' a) -> pure_call s r k = pure_call s r k'.
Proof. intros Hk. destruct r as [a| |]; [by apply Hk|done..]. Qed.

Lemma state_call_ext {E S T A B} (c c' : res E A * T) (wrap : T -> S) (k k' : A -> S -> res E B * S) :
  c = c' -> (forall a s, k a s = k' a s) -> state_call c wrap k = state_call c' wrap k'.
Proof. intros -> Hk. destruct c' as [[a| |] t]; [apply Hk|done..]. Qed.

(** The transactions of the manager. *)
Lemma manager_checked ixs w :
  signatures_fit ixs [pm_payer manager] = true ->
  @BufferManager.send_and_confirm _ C' manager ixs w = @BufferManager.send_and_confirm _ C manager ixs w.
Proof. intros Hf. apply pure_call_ext. intros _ _. by apply retrying_checked. Qed.

Lemma manager_operator_checked ixs w :
  signatures_fit ixs [pm_payer manager; pm_operator manager] = true ->
  @send_and_confirm_with_operator _ C' manager ixs w = @send_and_confirm_with_operator _ C manager ixs w.
Proof. intros Hf. apply pure_call_ext. intros _ _. by apply retrying_checked. Qed.

Lemma manager_signer_checked ixs extra w :
  signatures_fit ixs [pm_payer manager; extra] = true ->
  @send_and_confirm_with_signer _ C' manager ixs extra w = @send_and_confirm_with_signer _ C manager ixs extra w.
Proof. intros Hf. apply pure_call_ext. intros _ _. by apply retrying_checked. Qed.

Ltac same :=
  repeat match goal with
  | |- ?x = ?x => reflexivity
  | |- pure_call _ _ _ = pure_call _ _ _ => apply pure_call_ext; intros
  | |- state_call _ _ _ = state_call _ _ _ => apply state_call_ext; [|intros]
  | |- (if ?b then _ else _) = (if ?b then _ else _) => destruct b
  | |- match ?x with Some _ => _ | None => _ end = _ => destruct x
  | |- _ => reflexivity
  end.

Lemma mint_buffer_checked pid locker mints w :
  @parallel_create_pending_mint_buffer _ _ C' manager pid locker mints w
  = @parallel_create_pending_mint_buffer _ _ C manager pid locker mints w.
Proof.
  unfold parallel_create_pending_mint_buffer. destruct (find_program_address _ _) as [buffer bump]. same.
  - unfold ensure_pending_mint_buffer_exists. same. apply manager_checked, fit_mint_setup.
  - apply manager_operator_checked, fit_reinit.
  - eapply pieces_checked; [eassumption|]. match goal with H : or_panic (mapM _ _) = Ok _ |- _ => rename H into Hins end.
    destruct (mapM _ _) as [l|] eqn:E; [|discriminate Hins]. injection Hins as ->. apply mapM_Some_1 in E.
    eapply Forall2_Forall_r; [exact E|]. apply list.Forall_forall. intros g _ ix Hix. cbn beta in Hix.
    apply bind_Some in Hix as (d & _ & [= <-]). apply fit_insert.
Qed.

Lemma txo_buffer_checked pid height txos w :
  @parallel_create_txo_buffer _ _ C' manager pid height txos w
  = @parallel_create_txo_buffer _ _ C manager pid height txos w.
Proof.
  unfold parallel_create_txo_buffer. destruct (find_program_address _ _) as [buffer bump]. same.
  - unfold ensure_txo_buffer_exists. same. apply manager_checked, fit_txo_init.
  - apply manager_operator_checked, fit_set_len.
  - eapply pieces_checked; [eassumption|]. apply Forall_fmap, list.Forall_forall. intros oc _. apply fit_txo_write.
  - apply manager_operator_checked, fit_set_len.
Qed.

Lemma generic_buffer_checked buffer pid d w :
  @parallel_create_generic_buffer _ C' manager buffer pid d w
  = @parallel_create_generic_buffer _ C manager buffer pid d w.
Proof.
  unfold parallel_create_generic_buffer. same.
  - apply manager_signer_checked, fit_generic_create.
  - eapply pieces_checked; [eassumption|]. apply Forall_fmap, list.Forall_forall. intros oc _. apply fit_generic_write.
Qed.

(** The groups that are still to be paid. *)
Lemma groups_checked make tracker mints total groups processed count s :
  (forall recipients g last ix, make recipients g last = Some ix ->
     signatures_fit [ix] [cfg_payer self; cfg_operator self] = true) ->
  @process_groups _ C' self pick make tracker mints total groups processed count s
  = @process_groups _ C self pick make tracker mints total groups processed count s.
Proof.
  intros Hm. revert processed count s. induction groups as [|g groups IH]; intros processed count s; [done|].
  cbn [process_groups]. same; [apply IH| |apply IH].
  apply client_checked. match goal with H : or_panic (make _ _ _) = Ok _ |- _ => rename H into Hix end.
  destruct (make _ _ _) as [ix|] eqn:E; [|discriminate Hix]. injection Hix as <-. by apply Hm in E.
Qed.

Lemma remaining_checked make mints s :
  (forall mint recipients g last ix, make mint recipients g last = Some ix ->
     signatures_fit [ix] [cfg_payer self; cfg_operator self] = true) ->
  @process_remaining _ C' _ self pick make mints s = @process_remaining _ C _ self pick make mints s.
Proof. intros Hm. unfold process_remaining. same. apply groups_checked. intros. by eapply Hm. Qed.

(** A call is the same with the check and without it. *)
Definition unaffected {A} (f : Cluster -> A) : Prop := f C' = f C.

Lemma blocks_unaffected proof h extra mb b1 tb b2 s :
  unaffected (fun D => process_block_transition self pick proof h mb b1 tb b2 s) /\
  unaffected (fun D => process_block_reorg self pick proof h extra mb b1 tb b2 s).
Proof.
  split; apply pure_call_ext; intros ix Hix; apply client_checked; unfold or_panic in Hix.
  - destruct (BridgeClient.block_update _ _ _ _ _ _ _ _ _) as [i|] eqn:E; [injection Hix as <-; by apply fit_block in E|discriminate Hix].
  - destruct (BridgeClient.process_reorg_blocks _ _ _ _ _ _ _ _ _ _) as [i|] eqn:E; [injection Hix as <-; by apply fit_reorg in E|discriminate Hix].
Qed.

Lemma buffers_unaffected height txos mints s :
  unaffected (fun D => setup_txo_buffer self pick height txos s) /\
  unaffected (fun D => setup_pending_mints_buffer self pick height mints s).
Proof. split; apply state_call_ext; [apply txo_buffer_checked|done|apply mint_buffer_checked|done]. Qed.

Lemma groups_unaffected mints mb b1 tb b2 s :
  unaffected (fun D => process_remaining_pending_mints_groups self pick mints mb b1 s) /\
  unaffected (fun D => process_remaining_pending_mints_groups_auto_advance self pick mints mb b1 tb b2 s).
Proof.
  split; apply remaining_checked; intros mint recipients g last ix Hix.
  - injection Hix as <-. apply fit_group.
  - eapply fit_auto, Hix.
Qed.

(** [C32] The transactions of the client are signed by the keys that they need.  With the
    check of the SDK made explicit, the calls for blocks, buffers, mint groups, claims,
    fees, withdrawal requests, replays and snapshots behave exactly as without it: no
    transaction of theirs is refused.  The two others, which initialise the bridge and
    process a withdrawal, add the operator's signature to an instruction that does not
    list it: they behave as without the check if the operator is the payer, and never
    succeed otherwise. *)
Theorem client_signatures_fit s :
  (forall proof h extra mb b1 tb b2,
     unaffected (fun D => process_block_transition self pick proof h mb b1 tb b2 s) /\
     unaffected (fun D => process_block_reorg self pick proof h extra mb b1 tb b2 s)) /\
  (forall height txos mints,
     unaffected (fun D => setup_txo_buffer self pick height txos s) /\
     unaffected (fun D => setup_pending_mints_buffer self pick height mints s)) /\
  (forall mints mb b1 tb b2,
     unaffected (fun D => process_remaining_pending_mints_groups self pick mints mb b1 s) /\
     unaffected (fun D => process_remaining_pending_mints_groups_auto_advance self pick mints mb b1 tb b2 s)) /\
  (forall user proof r1 r2 r3 tx i sats,
     unaffected (fun D => manual_claim_deposit self pick user proof r1 r2 r3 tx i sats s)) /\
  (forall user recipient sats ty, unaffected (fun D => request_withdrawal self pick user recipient sats ty s)) /\
  (forall clock buffer d, unaffected (fun D => replay_withdrawal self pick clock buffer d s)) /\
  unaffected (fun D => operator_withdraw_fees self pick s) /\
  unaffected (fun D => execute_snapshot_withdrawals self pick s) /\
  (forall clock buffer proof ro root next d params,
     let withdraw (D : Cluster) := process_withdrawal self pick clock buffer proof ro root next d s in
     let start (D : Cluster) := initialize_bridge self pick params s in
     if bool_decide (cfg_operator self = cfg_payer self) then unaffected withdraw /\ unaffected start
     else is_ok (withdraw C').1 = false /\ is_ok (start C').1 = false /\ (start C').2 = s).
Proof.
  split; [intros; apply blocks_unaffected|]. split; [intros; apply buffers_unaffected|].
  split; [intros; apply groups_unaffected|].
  split; [intros; apply state_call_ext; [reflexivity|]; intros; apply client_checked, fit_claim|].
  split; [intros; apply state_call_ext; [reflexivity|]; intros; apply client_checked, fit_request|].
  split; [intros; apply state_call_ext; [apply generic_buffer_checked|]; intros; apply client_checked, fit_replay|].
  split; [apply state_call_ext; [reflexivity|]; intros; apply client_checked, fit_fees|].
  split; [apply client_checked, fit_snapshot|]. intros clock buffer proof ro root next d params withdraw start.
  pose proof (fit_initialize (cfg_payer self) (cfg_operator self) (cfg_payer self)) as Hinit.
  case_bool_decide as Hop.
  - split.
    + apply state_call_ext; [apply generic_buffer_checked|]. intros. apply client_checked. rewrite fit_withdrawal. by apply bool_decide_true.
    + apply pure_call_ext. intros. apply client_checked, Hinit.
  - split.
    + unfold withdraw, process_withdrawal. destruct (parallel_create_generic_buffer _ _ _ _ _) as [[b| |] w]; [|done..].
      cbn [state_call]. apply client_refused. rewrite fit_withdrawal. by apply bool_decide_false.
    + unfold start, initialize_bridge. destruct (cfg_doge_mint self) as [mint|]; [|done]. cbn [ok_or pure_call].
      apply client_refused, Hinit.
Qed.
End calls.
