(* ===== verification/BlockUpdateClient.v ===== *)
(** * BlockUpdateClient: the block update builder of the client

    Models [clients/rust/src/bridge_client.rs]: the hashes that the client puts into a
    header, the client with its three key pairs, and the builder that uploads the
    buffers of a block and sends the block instruction.  The hashes are those that the
    bridge computes from the buffers ([MintUpload.v], [TxoUpload.v]); the height that
    the builder gives to the buffer of the outputs is not the one that the bridge
    compares it with. *)
From S2P Require Import Prelude Errors Pod Hash Sha256 Types Runtime TxoBuffer TxoBufferProofs BufferClient MintGroup ProgramState BlockUpdate BlockUpdateProofs Payout CommittedMints TxoUpload MintUpload BridgeInstructions DogeBridge RpcClient BufferManager BufferManagerProofs ManualClaim BridgeClient HistorySync OperatorClient ClientSignatures.
From Stdlib Require Import ZArith Lia.
From stdpp Require Import base decidable list numbers option countable gmap.
Import BufferClient BufferManager.

Open Scope Z_scope.
Open Scope bridge_scope.

Module BlockUpdateClient.

(** [mints[start..end]] and its bytes; the slices exist. *)
Definition compute_mints_hash `{Sha256} (mints : list PendingMint) : QHash256 :=
  if bool_decide (mints = []) then PM_DA_DEFAULT_PENDING_MINTS_BUFFER_HASH else
  let count := u16 (len mints) in
  let group_size := 24 in
  let num_groups := (len mints + group_size - 1) / group_size in
  let group_hash i :=
    let start := i * group_size in
    let end_ := Z.min (start + group_size) (len mints) in
    let group_bytes := concat (bytes_of <$> take (Z.to_nat (end_ - start)) (drop (Z.to_nat start) mints)) in
    hash_impl_sha256_bytes group_bytes in
  hash_impl_sha256_bytes (le_bytes 2 count ++ concat (group_hash <$> seqZ 0 num_groups)).

Definition compute_txo_hash `{Sha256} (indices : list Z) : QHash256 :=
  if bool_decide (indices = []) then PM_TXO_DEFAULT_BUFFER_HASH else
  hash_impl_sha256_bytes (concat (le_bytes 4 <$> indices)).

(** A key pair is its public key. *)
Record DogeBridgeClient := {
  payer : Pubkey;
  operator : Pubkey;
  fee_spender : Pubkey;
  program_id : Pubkey;
  manual_claim_program_id : Pubkey;
  pending_mint_program_id : Pubkey;
  txo_buffer_program_id : Pubkey;
  generic_buffer_program_id : Pubkey;
  wormhole_core_program_id : Pubkey;
  wormhole_shim_program_id : Pubkey;
  doge_mint : Pubkey
}.

Definition client_new `{ProgramIds} (payer operator fee_spender doge_mint wormhole_core_program_id
    wormhole_shim_program_id : Pubkey) : DogeBridgeClient := {|
  payer := payer; operator := operator; fee_spender := fee_spender;
  program_id := DOGE_BRIDGE_PROGRAM_ID; manual_claim_program_id := MANUAL_CLAIM_PROGRAM_ID;
  pending_mint_program_id := PENDING_MINT_BUFFER_BUILDER_PROGRAM_ID;
  txo_buffer_program_id := TXO_BUFFER_BUILDER_PROGRAM_ID;
  generic_buffer_program_id := GENERIC_BUFFER_BUILDER_PROGRAM_ID;
  wormhole_core_program_id := wormhole_core_program_id; wormhole_shim_program_id := wormhole_shim_program_id;
  doge_mint := doge_mint |}.

Record BlockUpdateBuilder := {
  ub_client : DogeBridgeClient;
  ub_current_state : PsyBridgeProgramState;
  ub_header_update : option PsyBridgeHeaderUpdate;
  ub_proof : option bytes;
  ub_new_doge_block_height : option Z;
  ub_pending_mints : list PendingMint;
  ub_txo_indices : list Z;
  ub_extra_blocks : list FinalizedBlockMintTxoInfo;
  ub_required_confirmations : Z
}.

Definition block_update_builder (self : DogeBridgeClient) (current_state : PsyBridgeProgramState)
    (required_confirmations : Z) : BlockUpdateBuilder := {|
  ub_client := self; ub_current_state := current_state; ub_header_update := None; ub_proof := None;
  ub_new_doge_block_height := None; ub_pending_mints := []; ub_txo_indices := []; ub_extra_blocks := [];
  ub_required_confirmations := required_confirmations |}.

Definition with_header_update (header_update : PsyBridgeHeaderUpdate) (self : BlockUpdateBuilder) : BlockUpdateBuilder := {|
  ub_client := ub_client self; ub_current_state := ub_current_state self; ub_header_update := Some header_update;
  ub_proof := ub_proof self; ub_new_doge_block_height := ub_new_doge_block_height self;
  ub_pending_mints := ub_pending_mints self; ub_txo_indices := ub_txo_indices self;
  ub_extra_blocks := ub_extra_blocks self; ub_required_confirmations := ub_required_confirmations self |}.
Definition with_proof (proof : bytes) (self : BlockUpdateBuilder) : BlockUpdateBuilder := {|
  ub_client := ub_client self; ub_current_state := ub_current_state self; ub_header_update := ub_header_update self;
  ub_proof := Some proof; ub_new_doge_block_height := ub_new_doge_block_height self;
  ub_pending_mints := ub_pending_mints self; ub_txo_indices := ub_txo_indices self;
  ub_extra_blocks := ub_extra_blocks self; ub_required_confirmations := ub_required_confirmations self |}.
Definition with_new_doge_block_height (height : Z) (self : BlockUpdateBuilder) : BlockUpdateBuilder := {|
  ub_client := ub_client self; ub_current_state := ub_current_state self; ub_header_update := ub_header_update self;
  ub_proof := ub_proof self; ub_new_doge_block_height := Some height;
  ub_pending_mints := ub_pending_mints self; ub_txo_indices := ub_txo_indices self;
  ub_extra_blocks := ub_extra_blocks self; ub_required_confirmations := ub_required_confirmations self |}.
Definition with_pending_mints (mints : list PendingMint) (self : BlockUpdateBuilder) : BlockUpdateBuilder := {|
  ub_client := ub_client self; ub_current_state := ub_current_state self; ub_header_update := ub_header_update self;
  ub_proof := ub_proof self; ub_new_doge_block_height := ub_new_doge_block_height self;
  ub_pending_mints := mints; ub_txo_indices := ub_txo_indices self;
  ub_extra_blocks := ub_extra_blocks self; ub_required_confirmations := ub_required_confirmations self |}.
Definition with_txo_indices (indices : list Z) (self : BlockUpdateBuilder) : BlockUpdateBuilder := {|
  ub_client := ub_client self; ub_current_state := ub_current_state self; ub_header_update := ub_header_update self;
  ub_proof := ub_proof self; ub_new_doge_block_height := ub_new_doge_block_height self;
  ub_pending_mints := ub_pending_mints self; ub_txo_indices := indices;
  ub_extra_blocks := ub_extra_blocks self; ub_required_confirmations := ub_required_confirmations self |}.
Definition with_reorg_blocks (blocks : list FinalizedBlockMintTxoInfo) (self : BlockUpdateBuilder) : BlockUpdateBuilder := {|
  ub_client := ub_client self; ub_current_state := ub_current_state self; ub_header_update := ub_header_update self;
  ub_proof := ub_proof self; ub_new_doge_block_height := ub_new_doge_block_height self;
  ub_pending_mints := ub_pending_mints self; ub_txo_indices := ub_txo_indices self;
  ub_extra_blocks := blocks; ub_required_confirmations := ub_required_confirmations self |}.

Section client.
Context `{Runtime} `{ProgramIds} `{ForeignErrors} `{!Cluster} `{Sha256}.
Abbreviation outcome A := (res RpcClient.BridgeError A * World)%type.

(** [Keypair::from_bytes(&self.payer.to_bytes()).unwrap()] is the payer again. *)
Definition client_initialize (self : DogeBridgeClient) (params : InitializeBridgeParams) (w : World) : outcome unit :=
  let ix := BridgeClient.initialize_bridge (payer self) (operator self) (fee_spender self) (doge_mint self) params in
  send_tx (payer self) [ix] [] w.

Definition client_request_withdrawal (self : DogeBridgeClient) (mint user_token_account user_authority : Pubkey)
    (recipient_address : bytes) (amount_sats address_type : Z) (w : World) : outcome unit :=
  let ix := BridgeClient.request_withdrawal (program_id self) user_authority mint user_token_account recipient_address
              amount_sats address_type in
  send_tx (payer self) [ix] [user_authority] w.

(** [buffer_pubkey] is the fresh key of the buffer, [clock] the address of the sysvar. *)
Definition client_process_withdrawal (self : DogeBridgeClient) (clock buffer_pubkey : Pubkey) (proof : bytes)
    (new_return_output : PsyReturnTxOutput) (new_spent_txo_tree_root : QHash256)
    (new_next_processed_withdrawals_index : Z) (doge_tx_bytes : bytes) (w : World) : outcome unit :=
  call (buffer, w) <- create_generic_buffer (payer self) buffer_pubkey (generic_buffer_program_id self) doge_tx_bytes w
    into id;
  let ix := BridgeClient.process_withdrawal clock (program_id self) (payer self) buffer (wormhole_shim_program_id self)
              (wormhole_core_program_id self) proof new_return_output new_spent_txo_tree_root
              new_next_processed_withdrawals_index in
  send_tx (payer self) [ix] [] w.

Definition with_finalized (f : PsyBridgeStateCommitment) (h : PsyBridgeHeader) : PsyBridgeHeader := {|
  tip_state := tip_state h; finalized_state := f; bridge_state_hash := bridge_state_hash h;
  last_rollback_at_secs := last_rollback_at_secs h; paused_until_secs := paused_until_secs h;
  total_finalized_fees_collected_chain_history := total_finalized_fees_collected_chain_history h |}.
Definition with_tip (t : PsyBridgeTipStateCommitment) (h : PsyBridgeHeader) : PsyBridgeHeader := {|
  tip_state := t; finalized_state := finalized_state h; bridge_state_hash := bridge_state_hash h;
  last_rollback_at_secs := last_rollback_at_secs h; paused_until_secs := paused_until_secs h;
  total_finalized_fees_collected_chain_history := total_finalized_fees_collected_chain_history h |}.
Definition at_height (height : Z) (f : PsyBridgeStateCommitment) : PsyBridgeStateCommitment := {|
  sc_block_hash := sc_block_hash f; sc_block_merkle_tree_root := sc_block_merkle_tree_root f;
  sc_pending_mints_finalized_hash := sc_pending_mints_finalized_hash f;
  sc_txo_output_list_finalized_hash := sc_txo_output_list_finalized_hash f;
  sc_auto_claimed_txo_tree_root := sc_auto_claimed_txo_tree_root f;
  sc_auto_claimed_deposits_tree_root := sc_auto_claimed_deposits_tree_root f;
  sc_auto_claimed_deposits_next_index := sc_auto_claimed_deposits_next_index f; sc_block_height := height |}.
Definition with_hashes (mints txos : QHash256) (f : PsyBridgeStateCommitment) : PsyBridgeStateCommitment := {|
  sc_block_hash := sc_block_hash f; sc_block_merkle_tree_root := sc_block_merkle_tree_root f;
  sc_pending_mints_finalized_hash := mints; sc_txo_output_list_finalized_hash := txos;
  sc_auto_claimed_txo_tree_root := sc_auto_claimed_txo_tree_root f;
  sc_auto_claimed_deposits_tree_root := sc_auto_claimed_deposits_tree_root f;
  sc_auto_claimed_deposits_next_index := sc_auto_claimed_deposits_next_index f; sc_block_height := sc_block_height f |}.
Definition tip_at_height (height : Z) (t : PsyBridgeTipStateCommitment) : PsyBridgeTipStateCommitment := {|
  tip_block_hash := tip_block_hash t; tip_block_merkle_tree_root := tip_block_merkle_tree_root t;
  tip_block_time := tip_block_time t; tip_block_height := height |}.

(** The header that [execute] makes, with its assignments in order. *)
Definition new_header (self : BlockUpdateBuilder) (header_update : PsyBridgeHeaderUpdate) (new_height : Z)
    : PsyBridgeHeader :=
  let pending_mints_hash := compute_mints_hash (ub_pending_mints self) in
  let txo_hash := compute_txo_hash (ub_txo_indices self) in
  let auto_claimed_deposits_next_index :=
    u32 (sc_auto_claimed_deposits_next_index (finalized_state (bridge_header (ub_current_state self)))
           + u32 (len (ub_pending_mints self))) in
  let h := to_header header_update (ub_required_confirmations self) pending_mints_hash txo_hash
             auto_claimed_deposits_next_index in
  let h := with_finalized (at_height (u32 (new_height - ub_required_confirmations self)) (finalized_state h)) h in
  let h := with_tip (tip_at_height new_height (tip_state h)) h in
  let h := with_finalized (with_hashes pending_mints_hash txo_hash (finalized_state h)) h in
  with_tip (hu_tip_state header_update) h.

Definition block_instruction (self : BlockUpdateBuilder) (proof : bytes) (header : PsyBridgeHeader)
    (mint_buffer : Pubkey) (mint_buffer_bump : Z) (txo_buffer : Pubkey) (txo_buffer_bump : Z) : option Instruction :=
  let client := ub_client self in
  if bool_decide (ub_extra_blocks self = []) then
    BridgeClient.block_update (program_id client) (payer client) proof header (operator client) mint_buffer txo_buffer
      mint_buffer_bump txo_buffer_bump
  else
    BridgeClient.process_reorg_blocks (program_id client) (payer client) proof header (ub_extra_blocks self)
      (operator client) mint_buffer txo_buffer mint_buffer_bump txo_buffer_bump.

(** The texts of the errors are left out. *)
Definition execute (self : BlockUpdateBuilder) (w : World) : outcome unit :=
  try proof <- ok_or (ub_proof self) (RpcClient.InvalidInput []) on w;
  try new_height <- ok_or (ub_new_doge_block_height self) (RpcClient.InvalidInput []) on w;
  try header_update <- ok_or (ub_header_update self) (RpcClient.InvalidInput []) on w;
  bail RpcClient.InvalidInput []
    if new_height <? u32 (sc_block_height (finalized_state (bridge_header (ub_current_state self)))
                            + ub_required_confirmations self) on w;
  let header := new_header self header_update new_height in
  let client := ub_client self in
  let bridge_state_pda := BridgeClient.pda [DogeBridge.bridge_state_seed] (program_id client) in
  call (mint_buffer, w) <- create_pending_mint_buffer (payer client) (pending_mint_program_id client) bridge_state_pda
    (ub_pending_mints self) w into id;
  call (txo_buffer, w) <- create_txo_buffer (payer client) (txo_buffer_program_id client) new_height
    (ub_txo_indices self) w into id;
  try ix <- or_panic (block_instruction self proof header mint_buffer.1 mint_buffer.2 txo_buffer.1 txo_buffer.2) on w;
  send_tx (payer client) [ix] [] w.
End client.
End BlockUpdateClient.

Import BlockUpdateClient.

(** ** The hashes *)

Section hashes.
Context `{Sha256}.

(** The hash of the mints is that of what the bridge reads from the full buffer. *)
Lemma mints_hash_ok (b : PendingMintBufferBuilder) :
  0 < total_mints b <= 65512 -> compute_mints_hash (mints b) = sha256 (commitment_preimage b).
Proof.
  unfold total_mints. intros Hn. unfold compute_mints_hash. rewrite bool_decide_false by (intros E; rewrite E in Hn; unfold len in Hn; cbn in Hn; lia).
  unfold commitment_preimage, total_mints. rewrite wrap_id by (unfold in_width; lia).
  replace (len (mints b) + 24 - 1) with (len (mints b) + 23) by lia. unfold hash_impl_sha256_bytes. do 3 f_equal.
  apply list_fmap_ext. intros i g Hg. apply lookup_seqZ in Hg as [-> Hi]. f_equal. unfold group_bytes. do 2 f_equal.
  replace (24 * (0 + Z.of_nat i)) with ((0 + Z.of_nat i) * 24) by lia. set (s := (0 + Z.of_nat i) * 24).
  destruct (Z.le_gt_cases (s + 24) (len (mints b))); [f_equal; lia|].
  rewrite !take_ge by (rewrite length_drop; unfold len in *; lia). done.
Qed.

Lemma txo_hash_ok (b : TxoBufferBuilder) : 0 < total_indices b -> compute_txo_hash (indices b) = sha256 (serialize_all b).
Proof.
  intros Hn. unfold compute_txo_hash. rewrite bool_decide_false; [done|]. intros E. unfold total_indices, len in Hn. rewrite E in Hn.
  cbn in Hn. lia.
Qed.
End hashes.

(** ** The height of the outputs *)

Lemma read_txo_hash_at `{Sha256} d n a c (ok : PendingMintsTxoBufferHeader -> bool) err x :
  read_txo_hash d n (fun h => (txo_doge_block_height h =? a) && ok h) err = Ok x ->
  read_txo_hash d n (fun h => (txo_doge_block_height h =? c) && ok h) err = if c =? a then Ok x else Err err.
Proof.
  intros Hr. destruct (Z.eqb_spec c a) as [->|Hne]; [done|]. unfold read_txo_hash in *. cbv zeta in *.
  destruct (len d <? _); [done|]. destruct (slice 0 _ d) as [header_bytes|]; [|done]. cbn [or_panic res_bind] in *.
  destruct (cast header_bytes) as [h|]; [|done]. cbn [or_panic res_bind] in *.
  destruct (Z.eqb_spec (txo_doge_block_height h) a) as [E|_]; [|done].
  by rewrite (proj2 (Z.eqb_neq _ c)) by congruence.
Qed.

Section outputs.
Context `{RuntimeLaws} `{ProgramIds} `{Sha256} `{ForeignErrors} `{!Cluster}.
Context (self : BlockUpdateBuilder) (header_update : PsyBridgeHeaderUpdate) (new_height batch bump : Z) (account : Pubkey).

Local Abbreviation pid := (txo_buffer_program_id (ub_client self)).
Local Abbreviation writer := (payer (ub_client self)).
Local Abbreviation outputs := {| indices := ub_txo_indices self; BufferClient.block_height := new_height |}.
Local Abbreviation fin := (finalized_state (new_header self header_update new_height)).

(** The header of the block update builder and the buffers that it uploads.  Its
    hashes are those that the bridge computes from the uploaded mints (up to 65512) and
    outputs, and the fixed ones that the bridge expects for none; its tip is that of
    the update, whatever height the builder was given.  But the builder tags the outputs
    with the new tip's height: on a network that executes transactions its upload
    succeeds, and then the bridge, which compares the tag with the finalized height,
    accepts the outputs only if no confirmations are required. *)
Theorem builder_outputs_need_zero_confirmations w w1 err :
  in_width 32 batch -> in_width 32 new_height -> in_width 32 (data_size outputs) ->
  0 <= ub_required_confirmations self <= new_height ->
  find_program_address [TxoBuffer.txo_buffer_seed; writer] pid = (account, bump) ->
  executes_program TxoBuffer.process_instruction pid writer ->
  account_data w account = Ok (Some (data_at w account)) -> batch_after (data_at w account) = Some batch ->
  Forall is_byte (data_at w account) -> 0 < total_indices outputs -> len (ub_pending_mints self) <= 65512 ->
  deliver TxoBuffer.process_instruction (txo_buffer_set_len pid account writer writer (data_size outputs) true batch new_height false) w
    = Ok w1 ->
  sc_pending_mints_finalized_hash fin =
    (if bool_decide (ub_pending_mints self = []) then PM_DA_DEFAULT_PENDING_MINTS_BUFFER_HASH
     else sha256 (commitment_preimage {| mints := ub_pending_mints self |})) /\
  tip_state (new_header self header_update new_height) = hu_tip_state header_update /\
  exists w', create_txo_buffer writer pid new_height (ub_txo_indices self) w = (Ok (account, bump), w') /\
    read_txo_hash (data_at w' account) (total_indices outputs)
      (fun h => (txo_doge_block_height h =? sc_block_height fin) && negb (txo_data_size h =? 0)) err
    = if ub_required_confirmations self =? 0 then Ok (sc_txo_output_list_finalized_hash fin) else Err err.
Proof.
  intros Hbatch Hheight Hsize Hrc Hpda Hex Hacc Hba Hb Hpos Hmints Hset. split; [|split; [done|]].
  - change (sc_pending_mints_finalized_hash fin) with (compute_mints_hash (ub_pending_mints self)).
    case_bool_decide as E; [unfold compute_mints_hash; by rewrite bool_decide_true|].
    apply (mints_hash_ok {| mints := ub_pending_mints self |}). unfold total_mints, len in *. cbn [mints].
    destruct (ub_pending_mints self); [done|]. cbn [length] in *. lia.
  - destruct (sequential_upload pid account writer bump batch new_height outputs Hbatch Hheight Hsize Hpda w w1 err
      Hex Hacc Hba Hb Hpos Hset) as (w' & Hrun & Hread & _).
    exists w'. split; [exact Hrun|].
    change (sc_txo_output_list_finalized_hash fin) with (compute_txo_hash (indices outputs)). rewrite (txo_hash_ok outputs Hpos).
    change (sc_block_height fin) with (u32 (new_height - ub_required_confirmations self)).
    rewrite (read_txo_hash_at _ _ new_height (u32 (new_height - ub_required_confirmations self)) _ err _ Hread).
    rewrite wrap_id by (unfold in_width in *; lia). destruct (Z.eqb_spec (ub_required_confirmations self) 0) as [->|Hne].
    + by rewrite Z.sub_0_r, Z.eqb_refl.
    + by rewrite (proj2 (Z.eqb_neq _ _)) by lia.
Qed.
End outputs.

(** ** The operator's signature *)

(** The block instruction lists the operator as a signer, but the builder signs with the
    payer's key only. *)
Lemma builder_lacks_signature `{Runtime} `{ProgramIds} self proof header mb b6 tb b7 ix :
  block_instruction self proof header mb b6 tb b7 = Some ix ->
  signatures_fit [ix] [payer (ub_client self)] = true -> operator (ub_client self) = payer (ub_client self).
Proof.
  intros Hi Hf. pose proof (proj1 (same_keys_spec _ _) Hf (operator (ub_client self))) as Hk.
  rewrite list_elem_of_singleton in Hk. apply Hk.
  unfold block_instruction, BridgeClient.block_update, BridgeClient.process_reorg_blocks in Hi. unfold required_signers.
  destruct (bool_decide _); apply bind_Some in Hi as (d & _ & [= <-]); cbn; set_solver.
Qed.
