(* ===== verification/UserClient.v ===== *)
(** * UserClient: the clients of the users

    Models [clients/rust_user/src]: the client for token accounts, transfers and
    withdrawal requests ([client.rs], [instructions.rs], [config.rs]) and the client for
    manual claims with its scan of the claim history ([manual_claim_client.rs]).  The
    network is the interface [UserRpc]; a key pair is identified by its public key, and
    a call takes and leaves the cached address of the token and the store.  The texts
    that errors format from other errors are left out. *)
From S2P Require Import Prelude Errors Pod Hash Types Runtime BufferClient MintGroup ProgramState BridgeInstructions DogeBridge RpcClient ManualClaim BridgeClient HistorySync BufferManager OperatorClient.
From Stdlib Require Import ZArith Lia.
From stdpp Require Import base decidable list numbers option countable gmap.

Open Scope Z_scope.
Open Scope bridge_scope.

(** An entry of [get_signatures_for_address_with_config]. *)
Record UserSignatureInfo := {
  us_signature : option HistorySync.Signature;
  us_failed : bool;
  us_slot : Z;
  us_block_time : option Z
}.

Class UserRpc `{ForeignErrors} := {
  (** [get_account_with_commitment], of which the data is used *)
  user_account : World -> Pubkey -> res client_error (option bytes);
  (** [get_latest_blockhash] and [send_and_confirm_transaction], with the signers *)
  user_submit : list Instruction -> list Pubkey -> World -> res client_error unit * World;
  (** [get_signatures_for_address_with_config], newest first: address, [before], [limit] *)
  user_signatures : Pubkey -> option HistorySync.Signature -> Z -> res client_error (list UserSignatureInfo);
  (** [get_transaction_with_config], decoded *)
  user_transaction : HistorySync.Signature -> res client_error (option Message)
}.

Module UserClient.
Import BufferClient.
Abbreviation text := bytes.

(** ** errors.rs *)

Inductive UserClientError `{ForeignErrors} :=
  | Rpc (e : client_error)
  | InvalidInput (message : text)
  | AccountNotFound (address : text)
  | InvalidConfig (message : text)
  | TransactionFailed (message : text)
  | TokenAccountExists (address : text)
  | InsufficientBalance (required available : Z).

(** ** config.rs *)

Record UserClientConfig := {
  uc_rpc_url : text;
  uc_program_id : Pubkey;
  uc_bridge_state_pda : Pubkey
}.

Record UserClientConfigBuilder := {
  ub_rpc_url : option text;
  ub_program_id : option Pubkey;
  ub_bridge_state_pda : option Pubkey
}.

Definition builder_new : UserClientConfigBuilder :=
  {| ub_rpc_url := None; ub_program_id := None; ub_bridge_state_pda := None |}.
Definition rpc_url (url : text) (self : UserClientConfigBuilder) : UserClientConfigBuilder :=
  {| ub_rpc_url := Some url; ub_program_id := ub_program_id self; ub_bridge_state_pda := ub_bridge_state_pda self |}.
Definition program_id (id : Pubkey) (self : UserClientConfigBuilder) : UserClientConfigBuilder :=
  {| ub_rpc_url := ub_rpc_url self; ub_program_id := Some id; ub_bridge_state_pda := ub_bridge_state_pda self |}.
Definition bridge_state_pda (pda : Pubkey) (self : UserClientConfigBuilder) : UserClientConfigBuilder :=
  {| ub_rpc_url := ub_rpc_url self; ub_program_id := ub_program_id self; ub_bridge_state_pda := Some pda |}.

(** "RPC URL is required" *)
Definition url_required : text :=
  [82; 80; 67; 32; 85; 82; 76; 32; 105; 115; 32; 114; 101; 113; 117; 105; 114; 101; 100].

Section user.
Context `{Runtime} `{ProgramIds} `{ForeignErrors} `{!UserRpc} `{SplToken}.

(** The default of the program is the decoded address of the bridge. *)
Definition build (self : UserClientConfigBuilder) : res text UserClientConfig :=
  try rpc_url <- ok_or (ub_rpc_url self) url_required;
  let program_id := default DOGE_BRIDGE_PROGRAM_ID (ub_program_id self) in
  let bridge_state_pda := default (BridgeClient.pda [DogeBridge.bridge_state_seed] program_id) (ub_bridge_state_pda self) in
  Ok {| uc_rpc_url := rpc_url; uc_program_id := program_id; uc_bridge_state_pda := bridge_state_pda |}.

(** ** client.rs *)

Definition new (url : text) : res UserClientError UserClientConfig :=
  map_err InvalidConfig (build (rpc_url url builder_new)).
Definition with_program_id (url : text) (id : Pubkey) : res UserClientError UserClientConfig :=
  map_err InvalidConfig (build (program_id id (rpc_url url builder_new))).

Abbreviation Session := (option Pubkey * World)%type.
Abbreviation outcome A := (res UserClientError A * Session)%type.

(** A request, with [?] on its error. *)
Definition fetch (w : World) (k : Pubkey) : res UserClientError (option bytes) := map_err Rpc (user_account w k).

Definition send_and_confirm (instructions : list Instruction) (payer : Pubkey) (extra_signers : list Pubkey)
    (s : Session) : outcome unit :=
  let '(r, w) := user_submit instructions (payer :: extra_signers) s.2 in
  (map_err Rpc r, (s.1, w)).

(** The code of both clients. *)
Definition read_doge_mint (state_pda : Pubkey) (s : Session) : outcome Pubkey :=
  match s.1 with
  | Some mint => (Ok mint, s)
  | None =>
      try account <- fetch s.2 state_pda on s;
      try d <- ok_or account (AccountNotFound (pubkey_text state_pda)) on s;
      try bridge_state <- or_panic (cast (A := BridgeProgramStateWithDogeMint) d) on s;
      let mint := doge_mint bridge_state in
      (Ok mint, (Some mint, s.2))
  end.

Context (self : UserClientConfig).

Definition get_doge_mint (s : Session) : outcome Pubkey := read_doge_mint (uc_bridge_state_pda self) s.

Definition get_token_account_address (owner : Pubkey) (s : Session) : outcome Pubkey :=
  call (doge_mint, s) <- get_doge_mint s into id;
  (Ok (get_associated_token_address owner doge_mint), s).

Definition token_account_exists (owner : Pubkey) (s : Session) : outcome bool :=
  call (token_account, s) <- get_token_account_address owner s into id;
  try account <- fetch s.2 token_account on s;
  (Ok (bool_decide (is_Some account)), s).

Definition get_balance (owner : Pubkey) (s : Session) : outcome Z :=
  call (token_account, s) <- get_token_account_address owner s into id;
  try account <- fetch s.2 token_account on s;
  try d <- ok_or account (AccountNotFound (pubkey_text token_account)) on s;
  try amount <- ok_or (unpack_token_amount d) (InvalidInput []) on s;
  (Ok amount, s).

Definition create_token_account (payer : Pubkey) (owner : option Pubkey) (s : Session) : outcome Pubkey :=
  let owner_pubkey := default payer owner in
  call (doge_mint, s) <- get_doge_mint s into id;
  let token_account := get_associated_token_address owner_pubkey doge_mint in
  call (exists_, s) <- token_account_exists owner_pubkey s into id;
  bail TokenAccountExists (pubkey_text token_account) if exists_ on s;
  let ix := create_associated_token_account payer owner_pubkey doge_mint TOKEN_PROGRAM_ID in
  call (_, s) <- send_and_confirm [ix] payer [] s into id;
  (Ok token_account, s).

Definition transfer (sender recipient : Pubkey) (amount_sats : Z) (s : Session) : outcome unit :=
  call (doge_mint, s) <- get_doge_mint s into id;
  let sender_token_account := get_associated_token_address sender doge_mint in
  let recipient_token_account := get_associated_token_address recipient doge_mint in
  call (balance, s) <- get_balance sender s into id;
  bail InsufficientBalance amount_sats balance if balance <? amount_sats on s;
  try recipient_account <- fetch s.2 recipient_token_account on s;
  let create := match recipient_account with
                | Some _ => []
                | None => [create_associated_token_account sender recipient doge_mint TOKEN_PROGRAM_ID]
                end in
  try ix <- ok_or (token_transfer TOKEN_PROGRAM_ID sender_token_account recipient_token_account sender amount_sats)
              (InvalidInput []) on s;
  send_and_confirm (create ++ [ix]) sender [] s.

(** ** instructions.rs *)

Definition gen_aligned_instruction (instruction_discriminator : Z) (data_struct_bytes : bytes) : bytes :=
  replicate 8 instruction_discriminator ++ data_struct_bytes.

Definition request_withdrawal_instruction (program_id user_authority mint user_token_account : Pubkey)
    (recipient_address : bytes) (amount_sats address_type : Z) : Instruction :=
  let bridge_state := BridgeClient.pda [DogeBridge.bridge_state_seed] program_id in
  let request := {| wr_amount_sats := amount_sats; wr_address_type := address_type;
                    wr_recipient_address := recipient_address |} in
  RawInstruction program_id
    [meta_new bridge_state false; meta_new user_token_account false; meta_new mint false;
     meta_new_readonly user_authority true; meta_new_readonly TOKEN_PROGRAM_ID false]
    (gen_aligned_instruction DOGE_BRIDGE_INSTRUCTION_REQUEST_WITHDRAWAL (bytes_of {| rw_request := request |})).

Definition request_withdrawal (user : Pubkey) (recipient_address : bytes) (amount_sats address_type : Z) (s : Session)
    : outcome unit :=
  call (doge_mint, s) <- get_doge_mint s into id;
  let user_token_account := get_associated_token_address user doge_mint in
  call (balance, s) <- get_balance user s into id;
  bail InsufficientBalance amount_sats balance if balance <? amount_sats on s;
  let ix := request_withdrawal_instruction (uc_program_id self) user doge_mint user_token_account recipient_address
    amount_sats address_type in
  send_and_confirm [ix] user [] s.

Definition set_close_authority_to_null (owner : Pubkey) (token_account : option Pubkey) (s : Session) : outcome unit :=
  call (doge_mint, s) <- get_doge_mint s into id;
  let account := default (get_associated_token_address owner doge_mint) token_account in
  try ix <- ok_or (token_clear_close_authority TOKEN_PROGRAM_ID account owner) (InvalidInput []) on s;
  send_and_confirm [ix] owner [] s.
End user.
End UserClient.

(** ** manual_claim_client.rs *)

Module ManualClaimClient.
Import BufferClient.
Import UserClient.

Record ParsedManualClaim := {
  pc_signature : HistorySync.Signature;
  pc_slot : Z;
  pc_block_time : option Z;
  pc_instruction : ManualClaimInstruction
}.

Record ManualClaimClientConfig := {
  cc_rpc_url : text;
  cc_manual_claim_program_id : Pubkey;
  cc_bridge_program_id : Pubkey;
  cc_bridge_state_pda : Pubkey
}.

Record ManualClaimClientConfigBuilder := {
  cb_rpc_url : option text;
  cb_manual_claim_program_id : option Pubkey;
  cb_bridge_program_id : option Pubkey;
  cb_bridge_state_pda : option Pubkey
}.

Definition claim_builder_new : ManualClaimClientConfigBuilder :=
  {| cb_rpc_url := None; cb_manual_claim_program_id := None; cb_bridge_program_id := None; cb_bridge_state_pda := None |}.
Definition set_rpc_url (url : text) (self : ManualClaimClientConfigBuilder) : ManualClaimClientConfigBuilder :=
  {| cb_rpc_url := Some url; cb_manual_claim_program_id := cb_manual_claim_program_id self;
     cb_bridge_program_id := cb_bridge_program_id self; cb_bridge_state_pda := cb_bridge_state_pda self |}.
Definition set_manual_claim_program_id (id : Pubkey) (self : ManualClaimClientConfigBuilder) : ManualClaimClientConfigBuilder :=
  {| cb_rpc_url := cb_rpc_url self; cb_manual_claim_program_id := Some id;
     cb_bridge_program_id := cb_bridge_program_id self; cb_bridge_state_pda := cb_bridge_state_pda self |}.
Definition set_bridge_program_id (id : Pubkey) (self : ManualClaimClientConfigBuilder) : ManualClaimClientConfigBuilder :=
  {| cb_rpc_url := cb_rpc_url self; cb_manual_claim_program_id := cb_manual_claim_program_id self;
     cb_bridge_program_id := Some id; cb_bridge_state_pda := cb_bridge_state_pda self |}.
Definition set_bridge_state_pda (pda : Pubkey) (self : ManualClaimClientConfigBuilder) : ManualClaimClientConfigBuilder :=
  {| cb_rpc_url := cb_rpc_url self; cb_manual_claim_program_id := cb_manual_claim_program_id self;
     cb_bridge_program_id := cb_bridge_program_id self; cb_bridge_state_pda := Some pda |}.

Section claim.
Context `{Runtime} `{ProgramIds} `{ForeignErrors} `{!UserRpc} `{SplToken}.

Abbreviation Session := (option Pubkey * World)%type.
Abbreviation outcome A := (res UserClientError A * Session)%type.

Definition build_claim_config (self : ManualClaimClientConfigBuilder) : res text ManualClaimClientConfig :=
  try rpc_url <- ok_or (cb_rpc_url self) url_required;
  let manual_claim_program_id := default MANUAL_CLAIM_PROGRAM_ID (cb_manual_claim_program_id self) in
  let bridge_program_id := default DOGE_BRIDGE_PROGRAM_ID (cb_bridge_program_id self) in
  let bridge_state_pda :=
    default (BridgeClient.pda [DogeBridge.bridge_state_seed] bridge_program_id) (cb_bridge_state_pda self) in
  Ok {| cc_rpc_url := rpc_url; cc_manual_claim_program_id := manual_claim_program_id;
        cc_bridge_program_id := bridge_program_id; cc_bridge_state_pda := bridge_state_pda |}.

Definition claim_client_new (url : text) : res UserClientError ManualClaimClientConfig :=
  map_err InvalidConfig (build_claim_config (set_rpc_url url claim_builder_new)).

Context (self : ManualClaimClientConfig).

Definition claim_get_doge_mint (s : Session) : outcome Pubkey := read_doge_mint (cc_bridge_state_pda self) s.

Definition derive_claim_pda (user : Pubkey) : Pubkey * Z :=
  find_program_address [DogeBridge.manual_claim_seed; user] (cc_manual_claim_program_id self).
Definition get_claim_pda_address (user : Pubkey) : Pubkey := (derive_claim_pda user).1.

Definition claim_account_exists (user : Pubkey) (w : World) : res UserClientError bool :=
  try account <- fetch w (derive_claim_pda user).1;
  Ok (bool_decide (is_Some account)).

Definition get_claim_state (user : Pubkey) (w : World)
    : res UserClientError (option ManualClaim.UserManualDepositManagerProgramState) :=
  try account <- fetch w (derive_claim_pda user).1;
  match account with
  | Some d => try state <- or_panic (cast d); Ok (Some state)
  | None => Ok None
  end.

Definition build_manual_claim_instruction (user payer claim_pda recipient_ata doge_mint : Pubkey)
    (instruction_data : ManualClaimInstruction) : Instruction :=
  RawInstruction (cc_manual_claim_program_id self)
    [meta_new claim_pda false; meta_new_readonly (cc_bridge_state_pda self) false; meta_new recipient_ata false;
     meta_new doge_mint false; meta_new_readonly TOKEN_PROGRAM_ID false;
     meta_new_readonly (cc_bridge_program_id self) false; meta_new_readonly user true; meta_new payer true;
     meta_new_readonly system_program_id false]
    (gen_aligned_instruction MC_MANUAL_CLAIM_TRANSACTION_DESCRIMINATOR (bytes_of instruction_data)).

Definition submit_manual_claim (user payer : Pubkey) (instruction_data : ManualClaimInstruction) (s : Session)
    : outcome unit :=
  call (doge_mint, s) <- claim_get_doge_mint s into id;
  let claim_pda := (derive_claim_pda user).1 in
  let recipient_ata := get_associated_token_address user doge_mint in
  let ix := build_manual_claim_instruction user payer claim_pda recipient_ata doge_mint instruction_data in
  send_and_confirm [ix] payer [user] s.

(** *** The history *)

(** The loop over the instructions of a message; [None]: a panic. *)
Fixpoint find_claim (keys : list Pubkey) (ixs : list CompiledInstruction) : option (option ManualClaimInstruction) :=
  match ixs with
  | [] => Some None
  | ix :: ixs =>
      match index keys (program_id_index ix) with
      | None => find_claim keys ixs
      | Some program =>
          let d := ci_data ix in
          if bool_decide (program = cc_manual_claim_program_id self) && (8 <=? len d)
             && bool_decide (d !! 0%nat = Some MC_MANUAL_CLAIM_TRANSACTION_DESCRIMINATOR)
             && (8 + Z.of_nat (pod_size ManualClaimInstruction) <=? len d)
          then b ← slice 8 (8 + Z.of_nat (pod_size ManualClaimInstruction)) d; instruction ← cast b; Some (Some instruction)
          else find_claim keys ixs
      end
  end.

Definition fetch_and_parse_claim_transaction (signature : HistorySync.Signature)
    : res UserClientError (option ManualClaimInstruction) :=
  try tx <- map_err Rpc (user_transaction signature);
  match tx with
  | Some message => or_panic (find_claim (static_account_keys message) (instructions message))
  | None => Ok None
  end.

(** The loop over the signatures of a page. *)
Fixpoint collect_claims (signatures : list UserSignatureInfo) (claims : list ParsedManualClaim)
    : res UserClientError (list ParsedManualClaim) :=
  match signatures with
  | [] => Ok claims
  | sig_info :: signatures =>
      if us_failed sig_info then collect_claims signatures claims else
      try signature <- ok_or (us_signature sig_info) (InvalidInput []);
      match fetch_and_parse_claim_transaction signature with
      | Ok (Some instruction) =>
          collect_claims signatures
            (claims ++ [{| pc_signature := signature; pc_slot := us_slot sig_info;
                           pc_block_time := us_block_time sig_info; pc_instruction := instruction |}])
      | Ok None | Err _ => collect_claims signatures claims
      | Panic => Panic
      end
  end.

Definition get_claim_history (user : Pubkey) (before : option HistorySync.Signature) (limit : option Z)
    : res UserClientError (list ParsedManualClaim) :=
  let claim_pda := (derive_claim_pda user).1 in
  try signatures <- map_err Rpc (user_signatures claim_pda before (default 100 limit));
  collect_claims signatures [].

(** The [loop]; [None]: out of fuel. *)
Fixpoint all_claims_loop (fuel : nat) (user : Pubkey) (batch_size : Z) (before : option HistorySync.Signature)
    (all_claims : list ParsedManualClaim) : option (res UserClientError (list ParsedManualClaim)) :=
  match fuel with
  | O => None
  | S fuel =>
      match get_claim_history user before (Some batch_size) with
      | Ok claims =>
          match last claims with
          | None => Some (Ok all_claims)
          | Some oldest =>
              if len claims <? batch_size then Some (Ok (all_claims ++ claims))
              else all_claims_loop fuel user batch_size (Some (pc_signature oldest)) (all_claims ++ claims)
          end
      | Err e => Some (Err e)
      | Panic => Some Panic
      end
  end.

Definition get_all_claim_history (fuel : nat) (user : Pubkey) (batch_size : option Z)
    : option (res UserClientError (list ParsedManualClaim)) :=
  all_claims_loop fuel user (default 100 batch_size) None [].
End claim.
End ManualClaimClient.
