(* ===== verification/UserClientProofs.v ===== *)
(** * UserClientProofs: what the users' clients achieve

    Theorems on [UserClient.v]: the scan of the claim history, page by page, and the
    request of a withdrawal, from the client's call to the queue of the bridge. *)
From S2P Require Import Prelude Errors Pod Hash Sha256 AppendTree Fees Types PublicInputs Runtime MintBuffer BufferClient MintGroup ProgramState BlockUpdate BridgeInstructions DogeBridge Ledger StateTypes DogeBridgeProofs BridgeHistory RpcClient ManualClaim BridgeClient HistorySync BufferManager OperatorClient UserClient.
From Stdlib Require Import ZArith Lia.
From stdpp Require Import base decidable list numbers option countable gmap.
Import BufferClient UserClient ManualClaimClient.

Open Scope Z_scope.
Open Scope bridge_scope.

(** ** The claim history *)

Section history.
Context `{Runtime} `{ProgramIds} `{ForeignErrors} `{!UserRpc} `{SplToken}.
Context (self : ManualClaimClientConfig) (user : Pubkey).

(** The search in a message never panics: the slices it takes exist. *)
Lemma find_claim_total keys ixs : is_Some (find_claim self keys ixs).
Proof.
  induction ixs as [|ix ixs IH]; [by eexists|]. cbn [find_claim]. cbv zeta.
  destruct (index keys (program_id_index ix)) as [program|]; [|exact IH].
  destruct (_ && _) eqn:Eg; [|exact IH]. apply andb_prop in Eg as [_ Hle%Z.leb_le].
  destruct (slice_is_Some 8 (8 + Z.of_nat (pod_size ManualClaimInstruction)) (ci_data ix)) as [b Hb]; [lia|done|].
  rewrite Hb. cbn [mbind option_bind].
  assert (cast (A := ManualClaimInstruction) b = Some (from_bytes b)) as ->; [|by eexists].
  apply cast_Some. split; [|done]. apply slice_Some in Hb as (_ & Hlen & ->).
  rewrite length_take, length_drop. unfold len in Hlen. lia.
Qed.

(** The claim that an entry of the history carries. *)
Definition claim_of (info : UserSignatureInfo) : option ParsedManualClaim :=
  if us_failed info then None else
  signature ← us_signature info;
  match fetch_and_parse_claim_transaction self signature with
  | Ok (Some instruction) =>
      Some {| pc_signature := signature; pc_slot := us_slot info; pc_block_time := us_block_time info;
              pc_instruction := instruction |}
  | _ => None
  end.

(** The claims of a page, in order. *)
Lemma collect_claims_spec page claims :
  Forall (fun info => is_Some (us_signature info)) page -> (forall sg, user_transaction sg <> Panic) ->
  collect_claims self page claims = Ok (claims ++ omap claim_of page).
Proof.
  intros Hp Htx. revert claims. induction Hp as [|info page [sg Hsg] _ IH]; intros claims.
  { cbn. by rewrite app_nil_r. }
  cbn [collect_claims omap list_omap]. unfold claim_of at 1. rewrite Hsg. cbn [ok_or res_bind mbind option_bind].
  destruct (us_failed info); [apply IH|].
  destruct (fetch_and_parse_claim_transaction self sg) as [[instruction|]|e|] eqn:Ef; [|apply IH..|].
  - by rewrite IH, <- app_assoc.
  - exfalso. unfold fetch_and_parse_claim_transaction in Ef. specialize (Htx sg).
    destruct (user_transaction sg) as [[message|]|e|]; [|done..]. cbn [map_err res_bind] in Ef.
    destruct (find_claim_total (static_account_keys message) (instructions message)) as [r Hr]. by rewrite Hr in Ef.
Qed.

(** The history of the claim account, newest first, and a server for it, as documented
    for [getSignaturesForAddress]: at most 1000 entries, from behind the cursor on. *)
Context (history : list UserSignatureInfo).

Record serves_claims : Prop := {
  serves_signed : Forall (fun info => is_Some (us_signature info)) history;
  serves_newest limit : 0 < limit <= 1000 ->
    user_signatures (get_claim_pda_address self user) None limit = Ok (take (Z.to_nat limit) history);
  serves_older sg i info limit : 0 < limit <= 1000 -> history !! i = Some info -> us_signature info = Some sg ->
    user_signatures (get_claim_pda_address self user) (Some sg) limit = Ok (take (Z.to_nat limit) (drop (S i) history));
  serves_transactions sg : user_transaction sg <> Panic
}.

(** The entries before the first one that carries no claim. *)
Fixpoint leading_claims (l : list UserSignatureInfo) : nat :=
  match l with
  | [] => 0
  | info :: l => match claim_of info with Some _ => S (leading_claims l) | None => 0 end
  end.

Lemma leading_claims_le l : (leading_claims l <= length l)%nat.
Proof. induction l as [|info l IH]; cbn; [lia|]. destruct (claim_of info); lia. Qed.

Lemma leading_claims_drop l k : (k <= leading_claims l)%nat -> leading_claims (drop k l) = (leading_claims l - k)%nat.
Proof.
  revert k. induction l as [|info l IH]; intros [|k] Hk; [done|cbn in Hk; lia|by rewrite drop_0, Nat.sub_0_r|].
  cbn [drop leading_claims] in *. destruct (claim_of info); [|lia]. rewrite IH by lia. lia.
Qed.

(** A page is full of claims just when the leading claims fill it. *)
Lemma page_claims l k : (length (omap claim_of (take k l)) <= k)%nat.
Proof.
  revert l. induction k as [|k IH]; intros [|info l]; cbn; [lia..|]. specialize (IH l).
  destruct (claim_of info); cbn [length]; lia.
Qed.

Lemma page_full l k : length (omap claim_of (take k l)) = k <-> (k <= leading_claims l)%nat.
Proof.
  revert l. induction k as [|k IH]; intros [|info l]; cbn; [split; lia..|].
  specialize (IH l). pose proof (page_claims l k). destruct (claim_of info); cbn [length]; [split; lia|split; lia].
Qed.

Lemma page_last l k claims info :
  (0 < k <= leading_claims l)%nat -> omap claim_of (take k l) = claims -> l !! (k - 1)%nat = Some info ->
  exists claim, last claims = Some claim /\ claim_of info = Some claim.
Proof.
  intros Hk <-. revert l Hk. induction k as [|k IH]; intros l Hk Hl; [lia|].
  destruct l as [|info0 l]; [done|]. cbn [leading_claims] in Hk. destruct (claim_of info0) as [claim0|] eqn:Ec; [|lia].
  cbn [take omap list_omap]. rewrite Ec. replace (S k - 1)%nat with k in Hl by lia.
  destruct k as [|k]; [injection Hl as <-; by exists claim0|].
  destruct (IH l ltac:(lia)) as (claim & Hlast & Hc); [by replace (S k - 1)%nat with k by lia|].
  exists claim. split; [|done]. by rewrite last_cons, Hlast.
Qed.

Lemma claim_of_signature info claim : claim_of info = Some claim -> us_signature info = Some (pc_signature claim).
Proof.
  unfold claim_of. destruct (us_failed info); [done|]. destruct (us_signature info) as [sg|]; [|done].
  cbn [mbind option_bind]. by destruct (fetch_and_parse_claim_transaction self sg) as [[?|]| |]; intros [= <-].
Qed.

Context (Hserver : serves_claims).

(** One page. *)
Lemma get_claim_history_page p before limit :
  0 < limit <= 1000 ->
  match p with
  | O => before = None
  | S i => exists info sg, history !! i = Some info /\ us_signature info = Some sg /\ before = Some sg
  end ->
  get_claim_history self user before (Some limit) = Ok (omap claim_of (take (Z.to_nat limit) (drop p history))).
Proof.
  intros Hl Hb. destruct Hserver as [Hsig Hnew Hold Htx]. unfold get_claim_history. cbv zeta.
  change (derive_claim_pda self user).1 with (get_claim_pda_address self user).
  change (default 100 (Some limit)) with limit.
  assert (user_signatures (get_claim_pda_address self user) before limit = Ok (take (Z.to_nat limit) (drop p history))) as ->.
  { destruct p as [|i]; [subst before; by apply Hnew|]. destruct Hb as (info & sg & Hi & Hsg & ->). by eapply Hold. }
  cbn [map_err res_bind]. apply collect_claims_spec; [by apply Forall_take, Forall_drop|exact Htx].
Qed.

Lemma all_claims_loop_spec n fuel p before claims :
  (0 < n <= 1000)%nat -> (length history < p + fuel * n)%nat -> (p <= leading_claims history)%nat ->
  match p with
  | O => before = None
  | S i => exists info sg, history !! i = Some info /\ us_signature info = Some sg /\ before = Some sg
  end ->
  all_claims_loop self fuel user (Z.of_nat n) before claims
  = Some (Ok (claims ++ omap claim_of (take (((leading_claims history - p) / n + 1) * n) (drop p history)))).
Proof.
  intros Hn. revert p before claims. induction fuel as [|fuel IH]; intros p before claims Hf Hp Hb.
  { pose proof (leading_claims_le history). lia. }
  cbn [all_claims_loop]. rewrite (get_claim_history_page p) by (done || lia). rewrite Nat2Z.id.
  set (page := omap claim_of (take n (drop p history))).
  assert (length page = n <-> (n <= leading_claims history - p)%nat) as Hfull
    by (unfold page; rewrite page_full, leading_claims_drop by done; done).
  assert (length page <= n)%nat as Hle by apply page_claims.
  destruct (decide (n <= leading_claims history - p)%nat) as [Hmore|Hlast].
  - apply Hfull in Hmore as Hlen.
    assert (is_Some (history !! (p + n - 1)%nat)) as [info Hi].
    { apply lookup_lt_is_Some_2. pose proof (leading_claims_le history). lia. }
    destruct (page_last (drop p history) n page info) as (claim & Hc & Hclaim); [|done|rewrite lookup_drop, <- Hi; f_equal; lia|].
    { rewrite leading_claims_drop by done. lia. }
    rewrite Hc. unfold len. rewrite Hlen, Z.ltb_irrefl.
    rewrite (IH (p + n)%nat); [|lia|lia|].
    + replace (leading_claims history - (p + n))%nat with (leading_claims history - p - n)%nat by lia.
      replace ((leading_claims history - p) / n)%nat with (S ((leading_claims history - p - n) / n)).
      2: { replace (leading_claims history - p)%nat with (1 * n + (leading_claims history - p - n))%nat at 2 by lia.
           rewrite Nat.div_add_l by lia. lia. }
      set (q := ((leading_claims history - p - n) / n)%nat).
      replace ((S q + 1) * n)%nat with (n + (q + 1) * n)%nat by lia.
      rewrite <- (take_take_drop _ n), omap_app, drop_drop, <- app_assoc. reflexivity.
    + destruct (p + n)%nat as [|i] eqn:Epn; [lia|]. exists info, (pc_signature claim).
      replace (S i - 1)%nat with i in Hi by lia. split; [done|]. split; [|done]. by apply claim_of_signature.
  - assert (length page < n)%nat as Hlt by lia. rewrite Nat.div_small by lia. cbn [Nat.add Nat.mul].
    rewrite Nat.add_0_r. fold page. destruct (last page) as [claim|] eqn:El.
    + unfold len. by rewrite (proj2 (Z.ltb_lt _ _)) by lia.
    + apply last_None in El. rewrite El. by rewrite app_nil_r.
Qed.

(** [C30] The scan of a user's claim history ends, and it returns the claims of the
    pages up to the first entry that carries no claim, that page included, newest
    first; so a history of claims only is returned as a whole, whatever the page size. *)
Theorem claim_history_scanned batch_size fuel :
  0 < batch_size <= 1000 -> len history < Z.of_nat fuel * batch_size ->
  get_all_claim_history self fuel user (Some batch_size)
  = Some (Ok (omap claim_of (take ((leading_claims history / Z.to_nat batch_size + 1) * Z.to_nat batch_size) history))) /\
  (leading_claims history = length history ->
   get_all_claim_history self fuel user (Some batch_size) = Some (Ok (omap claim_of history))).
Proof.
  intros Hb Hf. unfold get_all_claim_history. change (default 100 (Some batch_size)) with batch_size.
  pose proof (all_claims_loop_spec (Z.to_nat batch_size) fuel 0 None [] ltac:(lia)) as Hs.
  rewrite Z2Nat.id, Nat.sub_0_r, drop_0 in Hs by lia. cbn [app] in Hs.
  rewrite Hs; [|unfold len in Hf; nia|lia|done]. split; [done|]. intros ->. do 3 f_equal.
  apply take_ge. pose proof (Nat.div_mod_eq (length history) (Z.to_nat batch_size)).
  pose proof (Nat.mod_upper_bound (length history) (Z.to_nat batch_size) ltac:(lia)). nia.
Qed.
End history.

(** ** The request of a withdrawal *)

(** The token program burns from the account of a user who signs and has the balance;
    it touches that account and the mint only. *)
Class BurnCpi `{Runtime} `{ProgramIds} `{SplToken} : Prop := {
  burn_debits w account mint authority token amount b :
    key account = get_associated_token_address (key authority) (key mint) -> is_signer authority = true ->
    owner_at w (key account) = TOKEN_PROGRAM_ID -> unpack_token_amount (data_at w (key account)) = Some b -> 0 <= amount <= b ->
    exists w', invoke_signed w (TokenBurn (key account) (key mint) (key authority) amount)
        [account; mint; authority; token] [] = Ok w' /\
      unpack_token_amount (data_at w' (key account)) = Some (b - amount) /\
      forall k, k <> key account -> k <> key mint -> data_at w' k = data_at w k
}.

Section request.
Context `{Runtime} `{ProgramIds} `{ForeignErrors} `{!UserRpc} `{SplToken} `{Sha256Laws} `{ZkVerifier} `{Features}.
Context {Hburn : BurnCpi}.
Context (self : UserClientConfig) (user : Pubkey).

Local Abbreviation pid := (uc_program_id self).
Local Abbreviation bridge := (DogeBridge.bridge_pda pid).

(** The network reports accounts as they are, and runs the bridge program. *)
Record runs_bridge : Prop := {
  reports w k : user_account w k = Ok (data <$> w !! k);
  runs w w' metas d signers : user ∈ signers ->
    deliver DogeBridge.process_instruction (RawInstruction pid metas d) w = Ok w' ->
    user_submit [RawInstruction pid metas d] signers w = (Ok tt, w');
  refuses w e metas d signers : user ∈ signers ->
    deliver DogeBridge.process_instruction (RawInstruction pid metas d) w = Err e ->
    exists e', user_submit [RawInstruction pid metas d] signers w = (Err e', w)
}.

Lemma account_data_nonempty (w : World) k d : data_at w k = d -> d <> [] -> data <$> w !! k = Some d.
Proof.
  unfold data_at, account_at. destruct (w !! k) as [a|]; cbn; [by intros ->|]. intros <- Hd. by destruct Hd.
Qed.

Context (mint : Pubkey).
Local Abbreviation token := (get_associated_token_address user mint).

Context (Hnet : runs_bridge) (Hpda : uc_bridge_state_pda self = bridge).
Context (token_not_bridge : token <> bridge) (mint_not_bridge : mint <> bridge) (user_not_bridge : user <> bridge).

(** The client knows the token, from its cache or from the bridge. *)
Lemma get_doge_mint_ok w bs cache :
  data_at w bridge = bytes_of bs -> pod_wf bs -> doge_mint bs = mint -> cache = None \/ cache = Some mint ->
  get_doge_mint self (cache, w) = (Ok mint, (Some mint, w)).
Proof.
  intros Hd Hwf Hm [-> | ->]; [|done]. unfold get_doge_mint, read_doge_mint, fetch. cbn [fst snd].
  rewrite Hpda, (reports Hnet), (account_data_nonempty _ _ _ Hd).
  - cbn [map_err res_bind ok_or pure_call]. rewrite (cast_bytes_of bs Hwf). cbn. by rewrite Hm.
  - destruct (bytes_of_array bs Hwf) as [Hlen _]. intros E. rewrite E in Hlen. discriminate Hlen.
Qed.

Lemma get_balance_ok w acc b :
  w !! token = Some acc -> unpack_token_amount (data acc) = Some b ->
  get_balance self user (Some mint, w) = (Ok b, (Some mint, w)).
Proof.
  intros Hw Hb. unfold get_balance, get_token_account_address. cbn [get_doge_mint read_doge_mint fst pure_call].
  unfold fetch. cbn. rewrite (reports Hnet), Hw. cbn. by rewrite Hb.
Qed.

Context (cfg : PsyBridgeConfig).
Implicit Types (request : PsyWithdrawalRequest).

(** What is left of the amount after the fee, as the bridge computes it. *)
Definition request_fees (sats : Z) : FeeResult :=
  fee_or_zero (calcuate_withdrawal_fee sats (withdrawal_flat_fee_sats cfg) (withdrawal_fee_rate_numerator cfg)
    (withdrawal_fee_rate_denominator cfg)).

(** The bridge takes requests that pay a fee and leave something. *)
Definition acceptable (sats : Z) : bool :=
  negb ((fees_generated (request_fees sats) =? 0) || (amount_after_fees (request_fees sats) =? 0)).

Lemma request_fees_Ok sats : acceptable sats = true ->
  calcuate_withdrawal_fee sats (withdrawal_flat_fee_sats cfg) (withdrawal_fee_rate_numerator cfg)
    (withdrawal_fee_rate_denominator cfg) = Ok (request_fees sats).
Proof. unfold acceptable, request_fees. by destruct (calcuate_withdrawal_fee _ _ _ _). Qed.

(** Without fees the bridge takes no request at all. *)
Lemma no_fees_no_withdrawals sats :
  withdrawal_flat_fee_sats cfg = 0 -> withdrawal_fee_rate_numerator cfg = 0 -> acceptable sats = false.
Proof.
  intros Hf Hn. unfold acceptable, request_fees. apply negb_false_iff, orb_true_iff. left.
  destruct (calcuate_withdrawal_fee _ _ _ _) as [r|e|] eqn:E; [|done..].
  apply withdrawal_fee_Ok in E as (Hr & _). cbn [fee_or_zero]. rewrite Hr, Hf, Hn.
  unfold exact_fee. by rewrite Z.mul_0_r, Zdiv_0_l.
Qed.

(** The queue of the bridge takes an acceptable request. *)
Lemma queue_accepts (s : PsyBridgeProgramState) l request :
  refines cfg s l -> pod_wf request -> len (l_requests l) < 2 ^ 32 -> acceptable (wr_amount_sats request) = true ->
  exists s', ProgramState.process_request_withdrawal s (wr_address_type request) (wr_recipient_address request)
    (wr_amount_sats request) = (Ok true, s').
Proof.
  intros [] Hwf Hlen Ha. pose proof (request_fees_Ok _ Ha) as Hf. apply withdrawal_fee_Ok in Hf as (Hg & Hn & Hpos).
  unfold ProgramState.process_request_withdrawal. rewrite ref_config. fold (request_fees (wr_amount_sats request)).
  apply negb_true_iff in Ha. rewrite Ha. rewrite to_leaf_layout.
  2: { apply net_request_wf; [done|]. fold (withdrawal_fee cfg (wr_amount_sats request)) in Hg.
       pose proof (withdrawal_fee_nonneg cfg (wr_amount_sats request)). lia. }
  cbn [or_panic pure_call requested_withdrawals_tree with_total_withdrawal_fees_sats].
  rewrite ref_requests, append_tree_of by (unfold len in *; rewrite length_fmap; lia).
  by eexists.
Qed.

Lemma queue_refuses (s : PsyBridgeProgramState) ty recipient sats :
  config_params s = cfg -> acceptable sats = false ->
  ProgramState.process_request_withdrawal s ty recipient sats = (Ok false, s).
Proof.
  intros Hc Ha. unfold ProgramState.process_request_withdrawal. rewrite Hc. fold (request_fees sats).
  apply negb_false_iff in Ha. by rewrite Ha.
Qed.

(** The handler, on the accounts that the client lists. *)
Lemma request_handler w bs l b request :
  data_at w bridge = bytes_of bs -> state_typed (core_state bs) -> byte_array 32 (doge_mint bs) ->
  refines cfg (core_state bs) l -> len (l_requests l) < 2 ^ 32 -> pod_wf request ->
  owner_at w token = TOKEN_PROGRAM_ID -> unpack_token_amount (data_at w token) = Some b -> wr_amount_sats request <= b ->
  acceptable (wr_amount_sats request) = true ->
  exists w' bs', DogeBridge.process_request_withdrawal
      (account_info <$> instruction_metas (request_withdrawal_instruction pid user mint token
         (wr_recipient_address request) (wr_amount_sats request) (wr_address_type request))) request w = Ok w' /\
    data_at w' bridge = bytes_of bs' /\ unpack_token_amount (data_at w' token) = Some (b - wr_amount_sats request) /\
    state_typed (core_state bs') /\ refines cfg (core_state bs') (record cfg l (RequestWithdrawal user request)).
Proof.
  intros Hd Hty Hm Href Hlen Hwf Ho Hb Hle Ha.
  destruct (queue_accepts (core_state bs) l request Href Hwf Hlen Ha) as [s' Hq].
  assert (0 <= wr_amount_sats request) as Hpos by (destruct Hwf as ((? & _) & _); done).
  destruct (burn_debits w {| key := token; is_signer := false; is_writable := true |}
    {| key := mint; is_signer := false; is_writable := true |} {| key := user; is_signer := true; is_writable := false |}
    {| key := TOKEN_PROGRAM_ID; is_signer := false; is_writable := false |} (wr_amount_sats request) b)
    as (w1 & Hi & Hb1 & Hkeep); [done..|].
  cbn [key] in Hi, Hb1.
  set (bs' := {| core_state := s'; doge_mint := doge_mint bs |}).
  assert (ProgramState.request_withdrawal (core_state bs) granted_burn user request = (Ok tt, s')) as Hr
    by (unfold ProgramState.request_withdrawal; by rewrite Hq).
  exists (DogeBridge.store_bridge_state w1 bridge bs'), bs'. split_and!.
  - unfold DogeBridge.process_request_withdrawal.
    cbn [request_withdrawal_instruction instruction_metas fmap list_fmap nth_account ok_or lookup list_lookup res_bind].
    change (key (account_info (meta_new (BridgeClient.pda [DogeBridge.bridge_state_seed] pid) false))) with bridge.
    rewrite (BridgeHistory.load_typed w bridge bs (bridge_state_typed bs Hty Hm) Hd). cbn [res_bind].
    unfold DogeBridge.request_withdrawal_in. rewrite Hq. cbn [negb state_call].
    unfold DogeBridge.burn_from, invoke_signed_holding, borrow_conflict.
    cbn [DogeBridge.burner_user_token_account DogeBridge.burner_mint DogeBridge.burner_authority DogeBridge.burner_token_program
         instruction_metas existsb meta_key meta_is_writable].
    cbn [account_info key meta_key meta_new meta_new_readonly is_signer meta_is_signer is_writable meta_is_writable].
    rewrite !(bool_decide_false (_ ∈ [bridge])) by (by rewrite list_elem_of_singleton).
    rewrite !bool_decide_false by (apply not_elem_of_nil). cbn [orb andb].
    match type of Hi with ?x = _ => match goal with |- context [invoke_signed w ?i ?l ?s] => change (invoke_signed w i l s) with x end end.
    by rewrite Hi.
  - apply data_at_set_data.
  - unfold DogeBridge.store_bridge_state. by rewrite data_at_set_data_ne.
  - by eapply request_typed.
  - by eapply refines_request.
Qed.

Lemma request_refused w bs request :
  data_at w bridge = bytes_of bs -> state_typed (core_state bs) -> byte_array 32 (doge_mint bs) ->
  config_params (core_state bs) = cfg -> acceptable (wr_amount_sats request) = false ->
  DogeBridge.process_request_withdrawal
      (account_info <$> instruction_metas (request_withdrawal_instruction pid user mint token
         (wr_recipient_address request) (wr_amount_sats request) (wr_address_type request))) request w
    = Err (doge_to_program_error InvalidWithdrawalAmount).
Proof.
  intros Hd Hty Hm Hc Ha. unfold DogeBridge.process_request_withdrawal.
  cbn [request_withdrawal_instruction instruction_metas fmap list_fmap nth_account ok_or lookup list_lookup res_bind].
  change (key (account_info (meta_new (BridgeClient.pda [DogeBridge.bridge_state_seed] pid) false))) with bridge.
  rewrite (BridgeHistory.load_typed w bridge bs (bridge_state_typed bs Hty Hm) Hd). cbn [res_bind].
  unfold DogeBridge.request_withdrawal_in. by rewrite (queue_refuses _ _ _ _ Hc Ha).
Qed.

(** The client's call, when the balance is known. *)
Lemma request_withdrawal_call w bs acc b cache recipient sats ty :
  data_at w bridge = bytes_of bs -> pod_wf bs -> doge_mint bs = mint -> cache = None \/ cache = Some mint ->
  w !! token = Some acc -> unpack_token_amount (data acc) = Some b ->
  request_withdrawal self user recipient sats ty (cache, w) =
    if b <? sats then (Err (InsufficientBalance sats b), (Some mint, w)) else
    send_and_confirm [request_withdrawal_instruction pid user mint token recipient sats ty] user [] (Some mint, w).
Proof.
  intros Hd Hwf Hm Hc Hw Hb. unfold request_withdrawal. rewrite (get_doge_mint_ok w bs) by done. cbn [state_call id].
  by rewrite (get_balance_ok w acc b).
Qed.

(** [C7] A user's request for a withdrawal, through the users' client and the bridge
    program.  More than the balance: the client refuses, and sends nothing.  An amount on
    which the bridge's fee is zero or leaves nothing (as every amount is, when no fees
    are configured: [no_fees_no_withdrawals]), or whose fee cannot be computed: the bridge
    refuses, and nothing changes.  Otherwise the call succeeds, whether the client knows
    the token already or not: the amount is burned from the user's account, and the
    bridge's books have exactly this request, net of the fee, at the end of the queue. *)
Theorem withdrawal_requested w bs l acc b cache recipient sats ty :
  data_at w bridge = bytes_of bs -> state_typed (core_state bs) -> byte_array 32 (doge_mint bs) -> doge_mint bs = mint ->
  refines cfg (core_state bs) l -> len (l_requests l) < 2 ^ 32 -> cache = None \/ cache = Some mint ->
  w !! token = Some acc -> owner acc = TOKEN_PROGRAM_ID -> unpack_token_amount (data acc) = Some b ->
  let request := {| wr_amount_sats := sats; wr_address_type := ty; wr_recipient_address := recipient |} in
  pod_wf request ->
  let outcome := request_withdrawal self user recipient sats ty (cache, w) in
  if b <? sats then outcome = (Err (InsufficientBalance sats b), (Some mint, w)) else
  if acceptable sats then
    exists w' bs', outcome = (Ok tt, (Some mint, w')) /\
      unpack_token_amount (data_at w' token) = Some (b - sats) /\
      data_at w' bridge = bytes_of bs' /\ state_typed (core_state bs') /\
      refines cfg (core_state bs') (record cfg l (RequestWithdrawal user request))
  else exists e, outcome = (Err e, (Some mint, w)).
Proof.
  intros Hd Hty Hm32 Hm Href Hlen Hc Hw Ho Hb request Hwf outcome.
  assert (owner_at w token = TOKEN_PROGRAM_ID /\ unpack_token_amount (data_at w token) = Some b) as [Ho' Hb']
    by (unfold owner_at, data_at, account_at; by rewrite Hw).
  unfold outcome. rewrite (request_withdrawal_call w bs acc b) by (done || by apply bridge_state_typed).
  destruct (Z.ltb_spec b sats) as [|Hle]; [done|].
  pose proof (BridgeClient.request_delivered pid user mint token recipient sats ty Hwf) as Hdel.
  unfold send_and_confirm. cbn [fst snd]. destruct (acceptable sats) eqn:Ea.
  - destruct (request_handler w bs l b request) as (w' & bs' & Hr & Hd' & Hb1 & Hty' & Href'); [done..|].
    exists w', bs'. split; [|done].
    assert (user_submit [request_withdrawal_instruction pid user mint token recipient sats ty] [user] w = (Ok tt, w')) as ->; [|done].
    apply (runs Hnet); [by apply list_elem_of_singleton|]. exact (eq_trans (Hdel w) Hr).
  - assert (exists e, user_submit [request_withdrawal_instruction pid user mint token recipient sats ty] [user] w = (Err e, w))
      as [e ->]; [|by eexists].
    eapply (refuses Hnet); [by apply list_elem_of_singleton|].
    refine (eq_trans (Hdel w) (request_refused w bs request _ _ _ _ _)); [done..|by destruct Href|done].
Qed.
End request.
