(* ===== verification/Cli.v ===== *)
(** * Cli: the command line tool

    Models [cli/src/commands]: key generation, the creation of the token, the two ways to
    initialise the bridge, and the accounts of users.  The machine that a command runs on
    (key pairs, files, the console) is the interface [Machine]; the formats that files
    hold are [Codecs], the RPC client is [BlockingRpc] and the instructions that the
    token crates build are [TokenCrates].  What the commands print is left out, and so are
    the texts and contexts of errors.  A path is the list of its components. *)
From S2P Require Import Prelude Errors Pod Hash Types Runtime BufferClient ProgramState BridgeInstructions DogeBridge RpcClient BridgeClient HistorySync OperatorClient.
From Stdlib Require Import String Ascii.
From Stdlib Require Import ZArith Lia.
From stdpp Require Import base decidable list sorting numbers option countable gmap.

Open Scope Z_scope.
Open Scope bridge_scope.

Abbreviation Path := (list bytes).

(** [None] stands for an error of the operating system. *)
Class Machine := {
  (** a key pair, with [pubkey()], [to_bytes()] and [from_bytes()] *)
  Keypair : Type;
  pubkey : Keypair -> Pubkey;
  keypair_to_bytes : Keypair -> bytes;
  keypair_from_bytes : bytes -> option Keypair;
  (** the files, the source of random keys and the console *)
  Host : Type;
  keypair_new : Host -> Keypair * Host;
  path_exists : Host -> Path -> bool;
  read_to_string : Host -> Path -> option bytes;
  write_file : Path -> bytes -> Host -> option unit * Host;
  create_dir_all : Path -> Host -> option unit * Host;
  (** the entries, of which some may be unreadable *)
  read_dir : Host -> Path -> option (list (option Path));
  home_dir : Host -> option Path;
  (** [stdout().flush()] and [stdin().read_line()] *)
  read_line : Host -> option bytes * Host
}.

Class BlockingRpc `{ForeignErrors} := {
  (** [get_account], an error if there is none *)
  rpc_account : World -> Pubkey -> res client_error bytes;
  rpc_balance : World -> Pubkey -> res client_error Z;
  rpc_rent : Z -> res client_error Z;
  rpc_blockhash : World -> res client_error unit;
  (** [send_and_confirm_transaction], with the signers *)
  rpc_send : list Instruction -> list Pubkey -> World -> res client_error HistorySync.Signature * World;
  (** the command [solana airdrop 100], whose outcome is only printed *)
  airdrop : Pubkey -> World -> World
}.

(** [DataV2]; creators, collection and uses are always [None]. *)
Record DataV2 := { dv_name : bytes; dv_symbol : bytes; dv_uri : bytes; dv_seller_fee_basis_points : Z }.

Class TokenCrates := {
  TOKEN_METADATA_PROGRAM_ID : Pubkey;
  (** [Mint::LEN] *)
  MINT_LEN : Z;
  (** [initialize_mint2(token_program, mint, authority, freeze_authority, decimals)] *)
  initialize_mint2 : Pubkey -> Pubkey -> Pubkey -> option Pubkey -> Z -> option Instruction;
  (** [set_authority(token_program, mint, new_authority, MintTokens, owner, &[])] *)
  set_mint_authority : Pubkey -> Pubkey -> option Pubkey -> Pubkey -> option Instruction;
  (** [CreateMetadataAccountV3Builder]: metadata, mint, mint authority, payer, update
      authority (a signer), data, and whether it is mutable *)
  create_metadata_account_v3 : Pubkey -> Pubkey -> Pubkey -> Pubkey -> Pubkey -> DataV2 -> bool -> Instruction
}.

Module Cli.
Abbreviation text := bytes.

Definition str (s : string) : text := (fun c => Z.of_nat (nat_of_ascii c)) <$> list_ascii_of_string s.
Arguments str s%_string.

(** ** The standard library's strings and paths *)

(** [s.strip_prefix("0x").unwrap_or(s)] *)
Definition strip_0x (s : text) : text := if bool_decide (take 2 s = str "0x") then drop 2 s else s.

(** The code points with the property White_Space, in UTF-8. *)
Definition white_space : list text :=
  [[9]; [10]; [11]; [12]; [13]; [32]; [0xC2; 0x85]; [0xC2; 0xA0]; [0xE1; 0x9A; 0x80]; [0xE2; 0x80; 0xA8];
   [0xE2; 0x80; 0xA9]; [0xE2; 0x80; 0xAF]; [0xE2; 0x81; 0x9F]; [0xE3; 0x80; 0x80]]
  ++ ((fun i => [0xE2; 0x80; 0x80 + i]) <$> seqZ 0 11).

Fixpoint strip_start (patterns : list text) (fuel : nat) (s : text) : text :=
  match fuel with
  | O => s
  | S fuel =>
      match list_find (fun p => take (length p) s = p) patterns with
      | Some (_, p) => strip_start patterns fuel (drop (length p) s)
      | None => s
      end
  end.

Definition trim (s : text) : text :=
  let s := strip_start white_space (length s) s in
  reverse (strip_start (reverse <$> white_space) (length s) (reverse s)).

Definition join (p : Path) (file : text) : Path := p ++ [file].

Definition parent (p : Path) : option Path :=
  match p with [] => None | _ => Some (take (length p - 1) p) end.

(** Behind the last dot of the file name, unless that is its first character. *)
Definition extension (p : Path) : option text :=
  name ← last p;
  if bool_decide (name = str "..") then None else
  '(i, _) ← list_find (fun c => c = 46) (reverse name);
  if bool_decide (S i < length name)%nat then Some (drop (length name - i) name) else None.

Fixpoint compare_lists {A} (compare : A -> A -> comparison) (l1 l2 : list A) : comparison :=
  match l1, l2 with
  | [], [] => Eq
  | [], _ => Lt
  | _, [] => Gt
  | x :: l1, y :: l2 => match compare x y with Eq => compare_lists compare l1 l2 | c => c end
  end.

(** The order of paths. *)
Definition path_le (p q : Path) : Prop := compare_lists (compare_lists Z.compare) p q <> Gt.
#[export] Instance path_le_dec p q : Decision (path_le p q).
Proof. unfold path_le. destruct (compare_lists _ p q); first [right; congruence | left; congruence]. Defined.

(** ** Configuration files *)

Record TipStateConfig := {
  tc_block_hash : text;
  tc_block_merkle_tree_root : text;
  tc_block_time : Z;
  tc_block_height : Z
}.

Record StateCommitmentConfig := {
  cc_block_hash : text;
  cc_block_merkle_tree_root : text;
  cc_pending_mints_finalized_hash : text;
  cc_txo_output_list_finalized_hash : text;
  cc_auto_claimed_txo_tree_root : text;
  cc_auto_claimed_deposits_tree_root : text;
  cc_auto_claimed_deposits_next_index : Z;
  cc_block_height : Z
}.

Record BridgeHeaderConfig := {
  hc_tip_state : TipStateConfig;
  hc_finalized_state : StateCommitmentConfig;
  hc_bridge_state_hash : text;
  hc_last_rollback_at_secs : Z;
  hc_paused_until_secs : Z;
  hc_total_finalized_fees_collected_chain_history : Z
}.

Record ReturnTxOutputConfig := { rc_sighash : text; rc_output_index : Z; rc_amount_sats : Z }.

Record BridgeConfigParams := {
  bp_deposit_fee_rate_numerator : Z;
  bp_deposit_fee_rate_denominator : Z;
  bp_withdrawal_fee_rate_numerator : Z;
  bp_withdrawal_fee_rate_denominator : Z;
  bp_deposit_flat_fee_sats : Z;
  bp_withdrawal_flat_fee_sats : Z
}.

Record InitializeBridgeConfigFile := {
  if_operator_pubkey : text;
  if_fee_spender_pubkey : text;
  if_doge_mint : text;
  if_bridge_header : BridgeHeaderConfig;
  if_start_return_txo_output : ReturnTxOutputConfig;
  if_config_params : BridgeConfigParams;
  if_custodian_wallet_config_hash : text
}.

Record InitializationOutput := {
  io_bridge_state_pda : text;
  io_bridge_state_pda_hex : text;
  io_doge_mint : text;
  io_doge_mint_hex : text;
  io_doge_mint_metadata_pda : option text;
  io_operator_pubkey : text;
  io_operator_pubkey_hex : text;
  io_fee_spender_pubkey : text;
  io_fee_spender_pubkey_hex : text;
  io_payer_pubkey : text;
  io_payer_pubkey_hex : text;
  io_initialize_tx_signature : text;
  io_create_mint_tx_signature : option text;
  io_create_metadata_tx_signature : option text
}.

Record UserAccountInfo := {
  ua_pubkey : text;
  ua_pubkey_hex : text;
  ua_private_key : bytes;
  ua_doge_ata : text;
  ua_doge_ata_hex : text
}.

(** serde_json, the hex crate, base58 and the format of key files.  The layout of
    [InitializeBridgeInstructionDataDoge] is that of [InitializeBridgeParams]. *)
Class Codecs `{Machine} := {
  json_bytes : bytes -> option text;
  (** what [read_keypair_file] makes of the content of a file *)
  parse_keypair : text -> option Keypair;
  parse_config_file : text -> option InitializeBridgeConfigFile;
  parse_doge_data : text -> option InitializeBridgeParams;
  json_output : InitializationOutput -> option text;
  json_user_info : UserAccountInfo -> option text;
  parse_user_info : text -> option UserAccountInfo;
  pubkey_from_str : text -> option Pubkey;
  signature_text : HistorySync.Signature -> text;
  hex_encode : bytes -> text;
  hex_decode : text -> option bytes
}.

Inductive CliError `{ForeignErrors} :=
  | HomeUnknown
  | KeypairUnreadable (path : Path)
  | KeypairInvalid
  | FileUnreadable (path : Path)
  | FileNotWritten (path : Path)
  | DirectoryNotCreated (path : Path)
  | DirectoryUnreadable (path : Path)
  | InputUnreadable
  | JsonInvalid
  | JsonNotWritten
  | PubkeyInvalid (s : text)
  | HexInvalid (s : text)
  | HexLength (n : Z) (s : text)
  | InstructionInvalid
  | Rpc (e : client_error).

Section cli.
Context `{Runtime} `{ProgramIds} `{ForeignErrors} `{!BlockingRpc} `{SplToken} `{TokenCrates} `{Machine} `{!Codecs}.

(** The machine and the chain. *)
Abbreviation Session := (Host * World)%type.
Abbreviation outcome A := (res CliError A * Session)%type.

(** ** Key files *)

Definition read_keypair_file (h : Host) (path : Path) : res CliError Keypair :=
  ok_or (content ← read_to_string h path; parse_keypair content) (KeypairUnreadable path).

Definition load_keypair (h : Host) (keypair_path : option Path) : res CliError Keypair :=
  match keypair_path with
  | Some path => read_keypair_file h path
  | None =>
      try home <- ok_or (home_dir h) HomeUnknown;
      read_keypair_file h (home ++ [str ".config"; str "solana"; str "id.json"])
  end.

(** A system call on the machine. *)
Definition host_call {A} (e : CliError) (r : option A * Host) (s : Session) : outcome A := (ok_or r.1 e, (r.2, s.2)).

Definition write_keypair (path : Path) (keypair : Keypair) (s : Session) : outcome unit :=
  try json <- ok_or (json_bytes (keypair_to_bytes keypair)) JsonNotWritten on s;
  host_call (FileNotWritten path) (write_file path json s.1) s.

(** ** generate_keys.rs *)

Record GenerateKeysArgs := {
  gk_output_dir : Path;
  gk_operator_only : bool;
  gk_fee_spender_only : bool;
  gk_payer_only : bool
}.

Definition generate_and_save_keypair (output_dir : Path) (name : text) (s : Session) : outcome unit :=
  let '(keypair, h) := keypair_new s.1 in
  write_keypair (join output_dir (name ++ str ".json")) keypair (h, s.2).

Definition generate_keys (args : GenerateKeysArgs) (s : Session) : outcome unit :=
  call (_, s) <- host_call (DirectoryNotCreated (gk_output_dir args)) (create_dir_all (gk_output_dir args) s.1) s into id;
  let generate_all := negb (gk_operator_only args) && negb (gk_fee_spender_only args) && negb (gk_payer_only args) in
  let generate (wanted : bool) name s :=
    if generate_all || wanted then generate_and_save_keypair (gk_output_dir args) name s else (Ok tt, s) in
  call (_, s) <- generate (gk_operator_only args) (str "operator") s into id;
  call (_, s) <- generate (gk_fee_spender_only args) (str "fee_spender") s into id;
  generate (gk_payer_only args) (str "payer") s.

(** ** Transactions *)

Definition send (instructions : list Instruction) (signers : list Keypair) (s : Session) : outcome HistorySync.Signature :=
  try _ <- map_err Rpc (rpc_blockhash s.2) on s;
  let '(r, w) := rpc_send instructions (pubkey <$> signers) s.2 in
  (map_err Rpc r, (s.1, w)).

Definition bridge_state_pda : Pubkey := BridgeClient.pda [DogeBridge.bridge_state_seed] DOGE_BRIDGE_PROGRAM_ID.
Definition metadata_pda (mint : Pubkey) : Pubkey :=
  BridgeClient.pda [str "metadata"; TOKEN_METADATA_PROGRAM_ID; mint] TOKEN_METADATA_PROGRAM_ID.

Definition DOGE_TOKEN_NAME : text := str "Dogecoin".
Definition DOGE_TOKEN_SYMBOL : text := str "PDOGE".
Definition DOGE_TOKEN_URI : text := str "https://fs.psydoge.com/metadata/pdoge.json".

(** ** create_dogemint.rs *)

Record CreateDogemintArgs := {
  cd_mint_authority : option Path;
  cd_decimals : Z;
  cd_output : option Path;
  cd_bridge_pda_authority : bool;
  cd_token_name : text;
  cd_token_symbol : text;
  cd_token_uri : text;
  cd_skip_metadata : bool
}.

(** The transaction that creates the mint. *)
Definition create_mint (payer mint_keypair : Keypair) (initial_mint_authority : Pubkey) (decimals : Z) (s : Session)
    : outcome HistorySync.Signature :=
  try mint_rent <- map_err Rpc (rpc_rent MINT_LEN) on s;
  let create_account_ix := SystemCreateAccount (pubkey payer) (pubkey mint_keypair) mint_rent MINT_LEN TOKEN_PROGRAM_ID in
  try init_mint_ix <- ok_or (initialize_mint2 TOKEN_PROGRAM_ID (pubkey mint_keypair) initial_mint_authority None decimals)
                        InstructionInvalid on s;
  send [create_account_ix; init_mint_ix] [payer; mint_keypair] s.

(** The transaction that hands the mint over to the bridge. *)
Definition transfer_mint_authority (payer : Keypair) (mint new_authority : Pubkey) (s : Session)
    : outcome HistorySync.Signature :=
  try set_authority_ix <- ok_or (set_mint_authority TOKEN_PROGRAM_ID mint (Some new_authority) (pubkey payer))
                            InstructionInvalid on s;
  send [set_authority_ix] [payer] s.

Definition create_dogemint (keypair_path : option Path) (args : CreateDogemintArgs) (s : Session) : outcome unit :=
  try payer <- load_keypair s.1 keypair_path on s;
  let '(mint_keypair, h) := keypair_new s.1 in
  let s := (h, s.2) in
  let mint_pubkey := pubkey mint_keypair in
  try authorities <-
    (if cd_bridge_pda_authority args then Ok (pubkey payer, Some bridge_state_pda)
     else match cd_mint_authority args with
          | Some authority_path =>
              try authority <- read_keypair_file s.1 authority_path; Ok (pubkey authority, None)
          | None => Ok (pubkey payer, None)
          end) on s;
  let '(initial_mint_authority, final_mint_authority) := authorities in
  call (_, s) <- create_mint payer mint_keypair initial_mint_authority (cd_decimals args) s into id;
  call (_, s) <-
    (if cd_skip_metadata args then (Ok tt, s) else
     try mint_authority_signer <-
       (if cd_bridge_pda_authority args then ok_or (keypair_from_bytes (keypair_to_bytes payer)) KeypairInvalid
        else match cd_mint_authority args with
             | Some authority_path => read_keypair_file s.1 authority_path
             | None => ok_or (keypair_from_bytes (keypair_to_bytes payer)) KeypairInvalid
             end) on s;
     let metadata_data := {| dv_name := cd_token_name args; dv_symbol := cd_token_symbol args;
                             dv_uri := cd_token_uri args; dv_seller_fee_basis_points := 0 |} in
     let create_metadata_ix := create_metadata_account_v3 (metadata_pda mint_pubkey) mint_pubkey
       (pubkey mint_authority_signer) (pubkey payer) (pubkey mint_authority_signer) metadata_data true in
     call (_, s) <- send [create_metadata_ix] [payer; mint_authority_signer] s into id;
     (Ok tt, s)) into id;
  call (_, s) <-
    (match final_mint_authority with
     | Some new_authority =>
         call (_, s) <- transfer_mint_authority payer mint_pubkey new_authority s into id; (Ok tt, s)
     | None => (Ok tt, s)
     end) into id;
  match cd_output args with
  | Some output_path => write_keypair output_path mint_keypair s
  | None => (Ok tt, s)
  end.

(** ** initialize.rs *)

Definition parse_hex_32 (s : text) : res CliError bytes :=
  let s := strip_0x s in
  if bool_decide (s = []) then Ok (zeros 32) else
  try bytes <- ok_or (hex_decode s) (HexInvalid s);
  bail HexLength (len bytes) s if negb (len bytes =? 32);
  Ok bytes.

Definition build_bridge_header (config : BridgeHeaderConfig) : res CliError PsyBridgeHeader :=
  let tip := hc_tip_state config in
  try tip_hash <- parse_hex_32 (tc_block_hash tip);
  try tip_root <- parse_hex_32 (tc_block_merkle_tree_root tip);
  let fin := hc_finalized_state config in
  try block_hash <- parse_hex_32 (cc_block_hash fin);
  try root <- parse_hex_32 (cc_block_merkle_tree_root fin);
  try mints_hash <- parse_hex_32 (cc_pending_mints_finalized_hash fin);
  try txo_hash <- parse_hex_32 (cc_txo_output_list_finalized_hash fin);
  try txo_root <- parse_hex_32 (cc_auto_claimed_txo_tree_root fin);
  try deposits_root <- parse_hex_32 (cc_auto_claimed_deposits_tree_root fin);
  try state_hash <- parse_hex_32 (hc_bridge_state_hash config);
  Ok {|
    tip_state := {|
      tip_block_hash := tip_hash; tip_block_merkle_tree_root := tip_root;
      tip_block_time := tc_block_time tip; tip_block_height := tc_block_height tip |};
    finalized_state := {|
      sc_block_hash := block_hash; sc_block_merkle_tree_root := root;
      sc_pending_mints_finalized_hash := mints_hash; sc_txo_output_list_finalized_hash := txo_hash;
      sc_auto_claimed_txo_tree_root := txo_root; sc_auto_claimed_deposits_tree_root := deposits_root;
      sc_auto_claimed_deposits_next_index := cc_auto_claimed_deposits_next_index fin;
      sc_block_height := cc_block_height fin |};
    bridge_state_hash := state_hash;
    last_rollback_at_secs := hc_last_rollback_at_secs config;
    paused_until_secs := hc_paused_until_secs config;
    total_finalized_fees_collected_chain_history := hc_total_finalized_fees_collected_chain_history config |}.

Definition build_return_txo_output (config : ReturnTxOutputConfig) : res CliError PsyReturnTxOutput :=
  try sighash <- parse_hex_32 (rc_sighash config);
  Ok {| ro_sighash := sighash; ro_output_index := rc_output_index config; ro_amount_sats := rc_amount_sats config |}.

Definition build_config_params (config : BridgeConfigParams) : PsyBridgeConfig := {|
  deposit_fee_rate_numerator := bp_deposit_fee_rate_numerator config;
  deposit_fee_rate_denominator := bp_deposit_fee_rate_denominator config;
  withdrawal_fee_rate_numerator := bp_withdrawal_fee_rate_numerator config;
  withdrawal_fee_rate_denominator := bp_withdrawal_fee_rate_denominator config;
  deposit_flat_fee_sats := bp_deposit_flat_fee_sats config;
  withdrawal_flat_fee_sats := bp_withdrawal_flat_fee_sats config
|}.

(** The prompt of both commands that initialise the bridge. *)
Definition confirmation (yes : bool) (s : Session) : outcome bool :=
  if yes then (Ok true, s) else
  call (input, s) <- host_call InputUnreadable (read_line s.1) s into id;
  (Ok (bool_decide (trim input ∈ [str "y"; str "Y"])), s).

Record InitializeBridgeArgs := {
  ib_config : Path;
  ib_operator_keypair : option Path;
  ib_fee_spender_keypair : option Path;
  ib_doge_mint : option text;
  ib_yes : bool
}.

Definition parse_pubkey (s : text) : res CliError Pubkey := ok_or (pubkey_from_str s) (PubkeyInvalid s).

(** A key given as a file overrides the configuration. *)
Definition resolve_key (h : Host) (keypair_path : option Path) (configured : text) : res CliError Pubkey :=
  match keypair_path with
  | Some path => try keypair <- read_keypair_file h path; Ok (pubkey keypair)
  | None => parse_pubkey configured
  end.

(** The custodian's hash is decoded without [parse_hex_32]. *)
Definition parse_custodian_hash (s : text) : res CliError bytes :=
  try d <- ok_or (hex_decode s) (HexInvalid s);
  bail HexLength (len d) s if negb (len d =? 32);
  Ok d.

Definition initialize_bridge_command (keypair_path : option Path) (args : InitializeBridgeArgs) (s : Session)
    : outcome unit :=
  try payer <- load_keypair s.1 keypair_path on s;
  try config_content <- ok_or (read_to_string s.1 (ib_config args)) (FileUnreadable (ib_config args)) on s;
  try config <- ok_or (parse_config_file config_content) JsonInvalid on s;
  try operator_pubkey <- resolve_key s.1 (ib_operator_keypair args) (if_operator_pubkey config) on s;
  try fee_spender_pubkey <- resolve_key s.1 (ib_fee_spender_keypair args) (if_fee_spender_pubkey config) on s;
  try doge_mint <- parse_pubkey (default (if_doge_mint config) (ib_doge_mint args)) on s;
  try bridge_header <- build_bridge_header (if_bridge_header config) on s;
  try start_return_txo_output <- build_return_txo_output (if_start_return_txo_output config) on s;
  let config_params := build_config_params (if_config_params config) in
  try custodian_wallet_config_hash <- parse_custodian_hash (if_custodian_wallet_config_hash config) on s;
  call (yes, s) <- confirmation (ib_yes args) s into id;
  if negb yes then (Ok tt, s) else
  let init_params := {| ip_bridge_header := bridge_header; ip_start_return_txo_output := start_return_txo_output;
                        ip_config_params := config_params;
                        ip_custodian_wallet_config_hash := custodian_wallet_config_hash |} in
  let init_ix := BridgeClient.initialize_bridge (pubkey payer) operator_pubkey fee_spender_pubkey doge_mint init_params in
  call (_, s) <- send [init_ix] [payer] s into id;
  (Ok tt, s).

(** ** initialize_from_doge.rs *)

Record InitializeFromDogeArgs := {
  fd_config : Path;
  fd_keys_dir : Path;
  fd_decimals : Z;
  fd_output : Path;
  fd_yes : bool;
  fd_airdrop : bool
}.

Definition load_or_create_keypair (keys_dir : Path) (name : text) (s : Session) : outcome Keypair :=
  let path := join keys_dir (name ++ str ".json") in
  if path_exists s.1 path then
    try keypair <- read_keypair_file s.1 path on s; (Ok keypair, s)
  else
    let '(keypair, h) := keypair_new s.1 in
    call (_, s) <- write_keypair path keypair (h, s.2) into id;
    (Ok keypair, s).

(** The same, and whether the file existed. *)
Definition load_or_create_mint_keypair (path : Path) (s : Session) : outcome (Keypair * bool) :=
  if path_exists s.1 path then
    try keypair <- read_keypair_file s.1 path on s; (Ok (keypair, true), s)
  else
    let '(keypair, h) := keypair_new s.1 in
    call (_, s) <- write_keypair path keypair (h, s.2) into id;
    (Ok (keypair, false), s).

(** Below ten SOL, if it is asked for. *)
Definition request_airdrop (wanted : bool) (payer : Pubkey) (s : Session) : Session :=
  if wanted && (match rpc_balance s.2 payer with Ok b => b | _ => 0 end <? 10000000000)
  then (s.1, airdrop payer s.2) else s.

(** Step 1: the signatures of the mint, and of the metadata with their address; a
    failure to create the metadata is only reported. *)
Definition setup_mint (payer mint_keypair : Keypair) (decimals : Z) (s : Session)
    : outcome (HistorySync.Signature * option (HistorySync.Signature * Pubkey)) :=
  let doge_mint := pubkey mint_keypair in
  call (mint_signature, s) <- create_mint payer mint_keypair (pubkey payer) decimals s into id;
  let metadata_data := {| dv_name := DOGE_TOKEN_NAME; dv_symbol := DOGE_TOKEN_SYMBOL; dv_uri := DOGE_TOKEN_URI;
                          dv_seller_fee_basis_points := 0 |} in
  let create_metadata_ix := create_metadata_account_v3 (metadata_pda doge_mint) doge_mint (pubkey payer) (pubkey payer)
    (pubkey payer) metadata_data true in
  try _ <- map_err Rpc (rpc_blockhash s.2) on s;
  let '(r, w) := rpc_send [create_metadata_ix] [pubkey payer] s.2 in
  let s := (s.1, w) in
  let metadata := match r with Ok sig => Some (sig, metadata_pda doge_mint) | _ => None end in
  call (_, s) <- transfer_mint_authority payer doge_mint bridge_state_pda s into id;
  (Ok (mint_signature, metadata), s).

Definition initialization_output (mint operator fee_spender payer : Pubkey) (initialize_tx_signature : HistorySync.Signature)
    (created : option (HistorySync.Signature * option (HistorySync.Signature * Pubkey))) : InitializationOutput :=
  let metadata := created ≫= snd in
  {| io_bridge_state_pda := pubkey_text bridge_state_pda; io_bridge_state_pda_hex := hex_encode bridge_state_pda;
     io_doge_mint := pubkey_text mint; io_doge_mint_hex := hex_encode mint;
     io_doge_mint_metadata_pda := (fun p => pubkey_text p.2) <$> metadata;
     io_operator_pubkey := pubkey_text operator; io_operator_pubkey_hex := hex_encode operator;
     io_fee_spender_pubkey := pubkey_text fee_spender; io_fee_spender_pubkey_hex := hex_encode fee_spender;
     io_payer_pubkey := pubkey_text payer; io_payer_pubkey_hex := hex_encode payer;
     io_initialize_tx_signature := signature_text initialize_tx_signature;
     io_create_mint_tx_signature := (fun p => signature_text p.1) <$> created;
     io_create_metadata_tx_signature := (fun p => signature_text p.1) <$> metadata |}.

(** The directories above a file that is written. *)
Definition create_parent (path : Path) (s : Session) : outcome unit :=
  match parent path with
  | Some dir => host_call (DirectoryNotCreated dir) (create_dir_all dir s.1) s
  | None => (Ok tt, s)
  end.

Definition initialize_from_doge (payer_keypair_path : option Path) (args : InitializeFromDogeArgs) (s : Session)
    : outcome unit :=
  call (_, s) <- host_call (DirectoryNotCreated (fd_keys_dir args)) (create_dir_all (fd_keys_dir args) s.1) s into id;
  call (payer, s) <- (match payer_keypair_path with
                      | Some path => try k <- read_keypair_file s.1 path on s; (Ok k, s)
                      | None => load_or_create_keypair (fd_keys_dir args) (str "payer") s
                      end) into id;
  let s := request_airdrop (fd_airdrop args) (pubkey payer) s in
  call (operator, s) <- load_or_create_keypair (fd_keys_dir args) (str "operator") s into id;
  call (fee_spender, s) <- load_or_create_keypair (fd_keys_dir args) (str "fee_spender") s into id;
  try config_content <- ok_or (read_to_string s.1 (fd_config args)) (FileUnreadable (fd_config args)) on s;
  try doge_data <- ok_or (parse_doge_data config_content) JsonInvalid on s;
  call (loaded, s) <- load_or_create_mint_keypair (join (fd_keys_dir args) (str "doge_mint.json")) s into id;
  let doge_mint := pubkey loaded.1 in
  let mint_needs_creation := negb (is_ok (rpc_account s.2 doge_mint)) in
  call (yes, s) <- confirmation (fd_yes args) s into id;
  if negb yes then (Ok tt, s) else
  call (created, s) <- (if mint_needs_creation then
                          call (c, s) <- setup_mint payer loaded.1 (fd_decimals args) s into id; (Ok (Some c), s)
                        else (Ok None, s)) into id;
  let init_ix := BridgeClient.initialize_bridge (pubkey payer) (pubkey operator) (pubkey fee_spender) doge_mint doge_data in
  call (signature, s) <- send [init_ix] [payer] s into id;
  call (_, s) <- create_parent (fd_output args) s into id;
  try json <- ok_or (json_output (initialization_output doge_mint (pubkey operator) (pubkey fee_spender) (pubkey payer)
                                    signature created)) JsonNotWritten on s;
  host_call (FileNotWritten (fd_output args)) (write_file (fd_output args) json s.1) s.

(** ** create_user.rs *)

Record CreateUserArgs := {
  cu_doge_mint : text;
  cu_output : Path;
  cu_user_keypair : option Path;
  cu_skip_ata_creation : bool
}.

(** The user's key, and whether it is new. *)
Definition load_user (args : CreateUserArgs) (s : Session) : outcome (Keypair * bool) :=
  match cu_user_keypair args with
  | Some user_path => try keypair <- read_keypair_file s.1 user_path on s; (Ok (keypair, false), s)
  | None =>
      if path_exists s.1 (cu_output args) then
        try content <- ok_or (read_to_string s.1 (cu_output args)) (FileUnreadable (cu_output args)) on s;
        try info <- ok_or (parse_user_info content) JsonInvalid on s;
        try keypair <- ok_or (keypair_from_bytes (ua_private_key info)) KeypairInvalid on s;
        (Ok (keypair, false), s)
      else let '(keypair, h) := keypair_new s.1 in (Ok (keypair, true), (h, s.2))
  end.

Definition user_info (user_keypair : Keypair) (doge_ata : Pubkey) : UserAccountInfo := {|
  ua_pubkey := pubkey_text (pubkey user_keypair); ua_pubkey_hex := hex_encode (pubkey user_keypair);
  ua_private_key := keypair_to_bytes user_keypair;
  ua_doge_ata := pubkey_text doge_ata; ua_doge_ata_hex := hex_encode doge_ata
|}.

Definition create_ata (payer : Keypair) (user doge_mint : Pubkey) (s : Session) : outcome HistorySync.Signature :=
  send [create_associated_token_account (pubkey payer) user doge_mint TOKEN_PROGRAM_ID] [payer] s.

Definition create_user (payer_keypair_path : option Path) (args : CreateUserArgs) (s : Session) : outcome unit :=
  try doge_mint <- parse_pubkey (cu_doge_mint args) on s;
  call (loaded, s) <- load_user args s into id;
  let '(user_keypair, is_new) := loaded in
  let user_pubkey := pubkey user_keypair in
  let doge_ata := get_associated_token_address user_pubkey doge_mint in
  call (_, s) <-
    (if cu_skip_ata_creation args then (Ok tt, s) else
     if is_ok (rpc_account s.2 doge_ata) then (Ok tt, s) else
     try payer <- load_keypair s.1 payer_keypair_path on s;
     call (_, s) <- create_ata payer user_pubkey doge_mint s into id; (Ok tt, s)) into id;
  if is_new || negb (path_exists s.1 (cu_output args)) then
    try json <- ok_or (json_user_info (user_info user_keypair doge_ata)) JsonNotWritten on s;
    call (_, s) <- create_parent (cu_output args) s into id;
    host_call (FileNotWritten (cu_output args)) (write_file (cu_output args) json s.1) s
  else (Ok tt, s).

(** ** setup_user_atas.rs *)

Record SetupUserAtasArgs := {
  su_doge_mint : text;
  su_users_dir : Path;
  su_set_close_authority_null : bool;
  su_skip_existing : bool
}.

(** One user file; an error counts and ends the work on this file only. *)
Definition setup_user_ata (args : SetupUserAtasArgs) (doge_mint : Pubkey) (payer : Keypair) (path : Path) (s : Session)
    : outcome unit :=
  try content <- ok_or (read_to_string s.1 path) (FileUnreadable path) on s;
  try user_info <- ok_or (parse_user_info content) JsonInvalid on s;
  try user_keypair <- ok_or (keypair_from_bytes (ua_private_key user_info)) KeypairInvalid on s;
  let user_pubkey := pubkey user_keypair in
  let doge_ata := get_associated_token_address user_pubkey doge_mint in
  let ata_exists := is_ok (rpc_account s.2 doge_ata) in
  if ata_exists && (su_skip_existing args && negb (su_set_close_authority_null args)) then (Ok tt, s) else
  call (_, s) <- (if ata_exists then (Ok tt, s) else
                  call (_, s) <- create_ata payer user_pubkey doge_mint s into id; (Ok tt, s)) into id;
  if su_set_close_authority_null args then
    try set_auth_ix <- ok_or (token_clear_close_authority TOKEN_PROGRAM_ID doge_ata user_pubkey) InstructionInvalid on s;
    try _ <- map_err Rpc (rpc_blockhash s.2) on s;
    (Ok tt, (s.1, (rpc_send [set_auth_ix] [pubkey payer; user_pubkey] s.2).2))
  else (Ok tt, s).

(** The numbers of files that succeeded and failed, which the command prints. *)
Fixpoint setup_files (args : SetupUserAtasArgs) (doge_mint : Pubkey) (payer : Keypair) (files : list Path)
    (success_count error_count : Z) (s : Session) : outcome (Z * Z) :=
  match files with
  | [] => (Ok (success_count, error_count), s)
  | path :: files =>
      match setup_user_ata args doge_mint payer path s with
      | (Ok _, s) => setup_files args doge_mint payer files (success_count + 1) error_count s
      | (Err _, s) => setup_files args doge_mint payer files success_count (error_count + 1) s
      | (Panic, s) => (Panic, s)
      end
  end.

(** The readable entries with the extension "json", in the order of their paths. *)
Definition user_files (entries : list (option Path)) : list Path :=
  merge_sort path_le (filter (fun p => extension p = Some (str "json")) (omap id entries)).

Definition setup_user_atas (payer_keypair_path : option Path) (args : SetupUserAtasArgs) (s : Session) : outcome (Z * Z) :=
  try doge_mint <- parse_pubkey (su_doge_mint args) on s;
  try payer <- load_keypair s.1 payer_keypair_path on s;
  bail DirectoryUnreadable (su_users_dir args) if negb (path_exists s.1 (su_users_dir args)) on s;
  try entries <- ok_or (read_dir s.1 (su_users_dir args)) (DirectoryUnreadable (su_users_dir args)) on s;
  setup_files args doge_mint payer (user_files entries) 0 0 s.

(** ** main.rs *)

Inductive Commands :=
  | GenerateKeys (args : GenerateKeysArgs)
  | CreateDogemint (args : CreateDogemintArgs)
  | InitializeBridge (args : InitializeBridgeArgs)
  | InitializeFromDogeData (args : InitializeFromDogeArgs)
  | CreateUser (args : CreateUserArgs)
  | SetupUserAtas (args : SetupUserAtasArgs).

Definition main (keypair : option Path) (command : Commands) (s : Session) : outcome unit :=
  match command with
  | GenerateKeys args => generate_keys args s
  | CreateDogemint args => create_dogemint keypair args s
  | InitializeBridge args => initialize_bridge_command keypair args s
  | InitializeFromDogeData args => initialize_from_doge keypair args s
  | CreateUser args => create_user keypair args s
  | SetupUserAtas args => call (_, s) <- setup_user_atas keypair args s into id; (Ok tt, s)
  end.
End cli.
End Cli.
