(* ===== verification/CliProofs.v ===== *)
(** * CliProofs: what the commands leave behind

    On a machine with room on its disk and a network that executes transactions: the
    parsing of hashes, the key files, the initialisation of the bridge with its token,
    and the accounts of users. *)
From S2P Require Import Prelude Errors Pod Hash Sha256 AppendTree Types PublicInputs Runtime BufferClient MintGroup ProgramState BridgeInstructions DogeBridge Ledger StateTypes DogeBridgeProofs BridgeHistory BridgeSafety RpcClient BridgeClient HistorySync OperatorClient Cli.
From Stdlib Require Import String.
From Stdlib Require Import ZArith Lia.
From stdpp Require Import base decidable list sorting numbers option countable gmap.
Import BufferClient Cli.

Open Scope Z_scope.
Open Scope bridge_scope.

(** ** The interfaces *)

(** Which paths are directories; the empty path is the current one. *)
Class DirectoryTree `{Machine} := is_directory : Host -> Path -> bool.

(** No file is in the way of a directory at [p], and a file can be put at [p]: the
    directory that it goes into is there, and [p] is not one itself. *)
Definition creatable `{DirectoryTree} (h : Host) (p : Path) : Prop :=
  forall q, q `prefix_of` p -> path_exists h q = true -> is_directory h q = true.
Definition writable `{DirectoryTree} (h : Host) (p : Path) : Prop :=
  (forall d, parent p = Some d -> is_directory h d = true) /\ is_directory h p = false.

(** A machine with room on its disk and permission to write, as the file system behaves:
    a directory is created with all those above it unless a file is in the way; a file is
    written if the directory that it goes into exists, and holds what was written. *)
Class MachineLaws `{Machine} `{!DirectoryTree} : Prop := {
  pubkey_array k : byte_array 32 (pubkey k);
  keypair_bytes_back k : keypair_from_bytes (keypair_to_bytes k) = Some k;
  directory_exists h p : p <> [] -> is_directory h p = true -> path_exists h p = true;
  new_key_keeps_files h p :
    read_to_string (keypair_new h).2 p = read_to_string h p /\ path_exists (keypair_new h).2 p = path_exists h p /\
    is_directory (keypair_new h).2 p = is_directory h p;
  directory_created p h :
    creatable h p ->
    (create_dir_all p h).1 = Some tt /\
    forall q, read_to_string (create_dir_all p h).2 q = read_to_string h q /\
              (q `prefix_of` p -> is_directory (create_dir_all p h).2 q = true) /\
              (~ q `prefix_of` p -> path_exists (create_dir_all p h).2 q = path_exists h q /\
                                    is_directory (create_dir_all p h).2 q = is_directory h q);
  file_written p t h :
    writable h p ->
    (write_file p t h).1 = Some tt /\ read_to_string (write_file p t h).2 p = Some t /\
    path_exists (write_file p t h).2 p = true /\
    (forall q, q <> p -> read_to_string (write_file p t h).2 q = read_to_string h q /\
                         path_exists (write_file p t h).2 q = path_exists h q) /\
    forall q, is_directory (write_file p t h).2 q = is_directory h q;
  (** there is no file without a directory that holds it *)
  file_not_written p t h d : parent p = Some d -> is_directory h d = false -> (write_file p t h).1 = None
}.

Definition hex_digit (c : Z) : Prop := 48 <= c <= 57 \/ 97 <= c <= 102.

Class CodecLaws `{Codecs} : Prop := {
  keypair_json_back k : exists t, json_bytes (keypair_to_bytes k) = Some t /\ parse_keypair t = Some k;
  json_output_total o : exists t, json_output o = Some t;
  user_json_back i : exists t, json_user_info i = Some t /\ parse_user_info t = Some i;
  hex_back d : Forall is_byte d -> hex_decode (hex_encode d) = Some d;
  hex_digits d : Forall is_byte d -> Forall hex_digit (hex_encode d) /\ len (hex_encode d) = 2 * len d
}.

(** ** Hashes in configuration files *)

Section hashes.
Context `{ForeignErrors} `{Machine} `{!Codecs} `{!CodecLaws}.

Lemma strip_0x_prefixed s : strip_0x (str "0x" ++ s) = s.
Proof. unfold strip_0x. by rewrite bool_decide_true. Qed.

Lemma strip_0x_digits s : Forall hex_digit s -> strip_0x s = s.
Proof.
  intros Hd. unfold strip_0x. rewrite bool_decide_false; [done|].
  destruct s as [|a [|b l]]; [done..|]. change (str "0x") with [48; 120]. intros [= -> ->].
  inversion_clear Hd as [|? ? _ Ht]. inversion_clear Ht as [|? ? Hx _]. unfold hex_digit in Hx. lia.
Qed.

(** The encoding of a hash is read back, with or without the prefix; the empty text is
    the zero hash, and whatever is accepted has 32 bytes. *)
Lemma parse_hex_32_back d :
  byte_array 32 d ->
  parse_hex_32 (hex_encode d) = Ok d /\ parse_hex_32 (str "0x" ++ hex_encode d) = Ok d.
Proof.
  intros [Hl Hb]. destruct (hex_digits d Hb) as [Hd Hlen].
  unfold parse_hex_32. rewrite strip_0x_prefixed, strip_0x_digits by done. cbv zeta.
  assert (hex_encode d <> []) as Hne by (intros E; rewrite E in Hlen; unfold len in Hlen; rewrite Hl in Hlen; discriminate Hlen).
  rewrite bool_decide_false, (hex_back d Hb) by done. cbn [ok_or res_bind]. unfold len. by rewrite Hl.
Qed.

Lemma parse_hex_32_empty : parse_hex_32 [] = Ok (zeros 32) /\ parse_hex_32 (str "0x") = Ok (zeros 32).
Proof. done. Qed.

Lemma parse_hex_32_len s d : parse_hex_32 s = Ok d -> len d = 32.
Proof.
  unfold parse_hex_32. cbv zeta. case_bool_decide; [by intros [= <-]|]. intros Hr. peel Hr as E.
  destruct (len x =? 32) eqn:El; [|done]. injection Hr as <-. by apply Z.eqb_eq.
Qed.
End hashes.

(** ** Key files *)

Section files.
Context `{ForeignErrors} `{Machine} `{!Codecs} `{!DirectoryTree} `{!MachineLaws} `{!CodecLaws}.
Implicit Types (h : Host) (p q : Path) (w : World).

Lemma parent_join dir name : parent (join dir name) = Some dir.
Proof.
  unfold parent, join. destruct (dir ++ [name]) as [|x l] eqn:E; [by destruct dir|]. rewrite <- E, length_app, Nat.add_sub.
  by rewrite take_app_length.
Qed.

(** A file that is not there can be put into a directory that is. *)
Lemma writable_new dir name h :
  is_directory h dir = true -> path_exists h (join dir name) = false -> writable h (join dir name).
Proof.
  intros Hd Hx. split; [intros d; rewrite parent_join; by intros [= <-]|].
  destruct (is_directory h (join dir name)) eqn:E; [|done]. apply directory_exists in E; [congruence|]. by destruct dir.
Qed.

Lemma prefix_parent p d q : parent p = Some d -> q `prefix_of` d -> q `prefix_of` p.
Proof.
  unfold parent. destruct p as [|x p]; [done|]. intros [= <-] Hq. etransitivity; [exact Hq|].
  rewrite <- (take_drop (length (x :: p) - 1) (x :: p)) at 2. by apply prefix_app_r.
Qed.

Lemma parent_not_above p d : parent p = Some d -> ~ p `prefix_of` d.
Proof.
  unfold parent. destruct p as [|x p]; [done|]. intros [= <-] Hp%prefix_length. rewrite length_take in Hp. cbn [length] in Hp. lia.
Qed.

(** All files but these are as they were. *)
Definition files_kept (ps : list Path) h h' : Prop :=
  forall q, q ∉ ps -> read_to_string h' q = read_to_string h q /\ path_exists h' q = path_exists h q.

Lemma files_kept_trans ps1 ps2 h1 h2 h3 :
  files_kept ps1 h1 h2 -> files_kept ps2 h2 h3 -> files_kept (ps1 ++ ps2) h1 h3.
Proof.
  intros K1 K2 q [Hq1 Hq2]%not_elem_of_app. destruct (K1 q Hq1) as [<- <-]. by apply K2.
Qed.

(** A key file, if there is one, holds a key. *)
Definition key_file_ok h p : Prop := path_exists h p = true -> exists k, read_keypair_file h p = Ok k.

(** The key is in the file now, and was there before if the file existed. *)
Record key_loaded p (k : Keypair) h h' : Prop := {
  loaded_now : read_keypair_file h' p = Ok k;
  loaded_exists : path_exists h' p = true;
  loaded_before : path_exists h p = true -> read_keypair_file h p = Ok k;
  loaded_kept : files_kept [p] h h';
  loaded_directories q : is_directory h' q = is_directory h q
}.

Lemma read_keypair_kept ps h h' p : files_kept ps h h' -> p ∉ ps -> read_keypair_file h' p = read_keypair_file h p.
Proof. intros K Hp. unfold read_keypair_file. by destruct (K p Hp) as [-> _]. Qed.

Lemma key_file_ok_kept ps h h' p : files_kept ps h h' -> p ∉ ps -> key_file_ok h p -> key_file_ok h' p.
Proof. intros K Hp Hk. unfold key_file_ok. rewrite (read_keypair_kept _ _ _ _ K Hp). by destruct (K p Hp) as [_ ->]. Qed.

Lemma write_keypair_ok p k h w :
  writable h p ->
  exists h', write_keypair p k (h, w) = (Ok tt, (h', w)) /\
    read_keypair_file h' p = Ok k /\ path_exists h' p = true /\ files_kept [p] h h' /\
    forall q, is_directory h' q = is_directory h q.
Proof.
  intros Hwr. destruct (keypair_json_back k) as (t & Ht & Hp). destruct (file_written p t h Hwr) as (Hok & Hr & Hx & Hk & Hd).
  exists (write_file p t h).2. unfold write_keypair, host_call. cbn [fst snd]. rewrite Ht. cbn [ok_or pure_call].
  rewrite Hok. split; [done|]. split; [by unfold read_keypair_file; rewrite Hr; cbn; rewrite Hp|]. split; [done|].
  split; [|done]. intros q Hq. apply Hk. intros ->. apply Hq. by left.
Qed.

Lemma new_key_writable h p : writable h p -> writable (keypair_new h).2 p.
Proof.
  intros [Hd Hp]. split; [|by destruct (new_key_keeps_files h p) as (_ & _ & ->)].
  intros d E. destruct (new_key_keeps_files h d) as (_ & _ & ->). by apply Hd.
Qed.

(** A new key for the file, or the key that it holds. *)
Lemma new_keypair_ok p h w :
  path_exists h p = false -> writable h p ->
  exists k h', keypair_new h = (k, (keypair_new h).2) /\
    write_keypair p k ((keypair_new h).2, w) = (Ok tt, (h', w)) /\ key_loaded p k h h'.
Proof.
  intros Hn Hwr. destruct (write_keypair_ok p (keypair_new h).1 (keypair_new h).2 w (new_key_writable h p Hwr))
    as (h' & Hw & Hr & Hx & Hk & Hd).
  exists (keypair_new h).1, h'. split; [by destruct (keypair_new h)|]. split; [done|]. constructor; [done..|by rewrite Hn| |].
  - intros q Hq. destruct (Hk q Hq) as [-> ->]. by destruct (new_key_keeps_files h q) as (-> & -> & _).
  - intros q. rewrite Hd. apply new_key_keeps_files.
Qed.

Lemma key_loaded_same p k h : path_exists h p = true -> read_keypair_file h p = Ok k -> key_loaded p k h h.
Proof. by constructor. Qed.

Lemma load_or_create_ok dir name h w :
  let p := join dir (name ++ str ".json") in
  key_file_ok h p -> is_directory h dir = true ->
  exists k h', load_or_create_keypair dir name (h, w) = (Ok k, (h', w)) /\ key_loaded p k h h'.
Proof.
  intros p Hp Hd. unfold load_or_create_keypair. cbn [fst snd]. fold p. destruct (path_exists h p) eqn:Ex.
  - destruct (Hp Ex) as [k Hk]. rewrite Hk. exists k, h. split; [done|by apply key_loaded_same].
  - destruct (new_keypair_ok p h w Ex (writable_new _ _ _ Hd Ex)) as (k & h' & Hn & Hw & Hl).
    rewrite Hn. cbn [fst snd]. rewrite Hw. by exists k, h'.
Qed.

Lemma load_or_create_mint_ok dir name h w :
  let p := join dir name in
  key_file_ok h p -> is_directory h dir = true ->
  exists k h', load_or_create_mint_keypair p (h, w) = (Ok (k, path_exists h p), (h', w)) /\ key_loaded p k h h'.
Proof.
  intros p Hp Hd. unfold load_or_create_mint_keypair. cbn [fst snd]. destruct (path_exists h p) eqn:Ex.
  - destruct (Hp Ex) as [k Hk]. rewrite Hk. exists k, h. split; [done|by apply key_loaded_same].
  - destruct (new_keypair_ok p h w Ex (writable_new _ _ _ Hd Ex)) as (k & h' & Hn & Hw & Hl).
    rewrite Hn. cbn [fst snd]. rewrite Hw. by exists k, h'.
Qed.

Lemma key_loaded_kept ps p k h h' h'' :
  key_loaded p k h h' -> files_kept ps h' h'' -> p ∉ ps -> read_keypair_file h'' p = Ok k.
Proof. intros Hl K Hp. rewrite (read_keypair_kept _ _ _ _ K Hp). apply (loaded_now _ _ _ _ Hl). Qed.

(** [generate-keys] does not look whether the files exist: after it the operator's file
    holds the new key, whatever it held before. *)
Lemma generate_keys_overwrites args h w :
  gk_fee_spender_only args = false -> gk_payer_only args = false -> gk_operator_only args = true ->
  creatable h (gk_output_dir args) -> is_directory h (join (gk_output_dir args) (str "operator" ++ str ".json")) = false ->
  exists h', generate_keys args (h, w) = (Ok tt, (h', w)) /\
    read_keypair_file h' (join (gk_output_dir args) (str "operator" ++ str ".json"))
    = Ok (keypair_new (create_dir_all (gk_output_dir args) h).2).1.
Proof.
  intros Hf Hp Ho Hc Hnd. unfold generate_keys, host_call, generate_and_save_keypair. rewrite Hf, Hp, Ho. cbn [fst snd orb andb negb].
  set (f := join (gk_output_dir args) (str "operator" ++ str ".json")) in *.
  destruct (directory_created (gk_output_dir args) h Hc) as [-> Hd]. cbn [ok_or state_call id fst snd].
  assert (parent f = Some (gk_output_dir args)) as Hpar by apply parent_join.
  assert (writable (create_dir_all (gk_output_dir args) h).2 f) as Hwr.
  { split; [rewrite Hpar; intros d [= <-]; by apply Hd|].
    destruct (Hd f) as (_ & _ & Hb). by destruct (Hb (parent_not_above _ _ Hpar)) as [_ ->]. }
  apply new_key_writable in Hwr. destruct (keypair_new _) as [k h1]. cbn [fst snd] in *.
  destruct (write_keypair_ok f k h1 w Hwr) as (h' & -> & Hr & _). by exists h'.
Qed.
End files.

(** ** The initialisation of the bridge *)

(** What the commands rely on in the network and in the token programs, for a payer with
    funds: [mint_authority] is the authority in the memory of a mint. *)
Class SetupNetwork `{Sha256} `{ZkVerifier} `{Runtime} `{ProgramIds} `{Features} `{ForeignErrors} `{!BlockingRpc}
    `{TokenCrates} `{Machine} (mint_authority : bytes -> option Pubkey) : Prop := {
  account_reported w k : is_ok (rpc_account w k) = bool_decide (is_Some (w !! k));
  rent_reported n : exists r, rpc_rent n = Ok r;
  blockhash_reported w : rpc_blockhash w = Ok tt;
  mint_instruction_built mint authority decimals :
    exists ix, initialize_mint2 TOKEN_PROGRAM_ID mint authority None decimals = Some ix;
  authority_instruction_built mint new owner : exists ix, set_mint_authority TOKEN_PROGRAM_ID mint (Some new) owner = Some ix;
  mint_created payer mint authority rent decimals ix w :
    w !! mint = None -> initialize_mint2 TOKEN_PROGRAM_ID mint authority None decimals = Some ix ->
    exists sig w', rpc_send [SystemCreateAccount payer mint rent MINT_LEN TOKEN_PROGRAM_ID; ix] [payer; mint] w = (Ok sig, w') /\
      mint_authority (data_at w' mint) = Some authority /\ forall k, k <> mint -> data_at w' k = data_at w k;
  (** whether or not it succeeds *)
  metadata_created md mint authority payer updater d mutable signers w r w' :
    rpc_send [create_metadata_account_v3 md mint authority payer updater d mutable] signers w = (r, w') ->
    forall k, k <> md -> data_at w' k = data_at w k;
  authority_set mint owner new ix w :
    mint_authority (data_at w mint) = Some owner -> set_mint_authority TOKEN_PROGRAM_ID mint (Some new) owner = Some ix ->
    exists sig w', rpc_send [ix] [owner] w = (Ok sig, w') /\ mint_authority (data_at w' mint) = Some new /\
      forall k, k <> mint -> data_at w' k = data_at w k;
  bridge_initialised payer operator fee_spender mint params w w' :
    deliver DogeBridge.process_instruction (BridgeClient.initialize_bridge payer operator fee_spender mint params) w = Ok w' ->
    exists sig, rpc_send [BridgeClient.initialize_bridge payer operator fee_spender mint params] [payer] w = (Ok sig, w');
  state_account_created w payer account lamports space owner infos seeds :
    data_at w account = [] ->
    exists w', invoke_signed w (SystemCreateAccount payer account lamports space owner) infos seeds = Ok w' /\
      data_at w' account = zeros (Z.to_nat space) /\ forall k, k <> account -> data_at w' k = data_at w k;
  (** derived addresses have no key pair, and those of two programs differ *)
  derived_not_keys k : pubkey k <> bridge_state_pda /\ forall m, pubkey k <> metadata_pda m;
  metadata_not_bridge m : metadata_pda m <> bridge_state_pda
}.

Section initialise.
Context `{Sha256} `{!Sha256Laws} `{ZkVerifier} `{Runtime} `{ProgramIds} `{Features} `{ForeignErrors} `{!BlockingRpc} `{SplToken} `{TokenCrates}
  `{Machine} `{!Codecs} `{!DirectoryTree} `{!MachineLaws} `{!CodecLaws} (mint_authority : bytes -> option Pubkey)
  `{!SetupNetwork mint_authority}.
Implicit Types (w : World) (h : Host).

Local Abbreviation bridge := bridge_state_pda.

Lemma send_ok ixs (signers : list Keypair) h w sig w' :
  rpc_send ixs (pubkey <$> signers) w = (Ok sig, w') -> send ixs signers (h, w) = (Ok sig, (h, w')).
Proof. intros Hs. unfold send. cbn [fst snd]. by rewrite blockhash_reported, Hs. Qed.

Lemma create_mint_ok (payer mint : Keypair) authority decimals h w :
  w !! pubkey mint = None ->
  exists sig w', create_mint payer mint authority decimals (h, w) = (Ok sig, (h, w')) /\
    mint_authority (data_at w' (pubkey mint)) = Some authority /\ forall k, k <> pubkey mint -> data_at w' k = data_at w k.
Proof.
  intros Hn. destruct (rent_reported MINT_LEN) as [rent Hr].
  destruct (mint_instruction_built (pubkey mint) authority decimals) as [ix Hix].
  destruct (mint_created (pubkey payer) (pubkey mint) authority rent decimals ix w Hn Hix) as (sig & w' & Hs & Ha & Hk).
  exists sig, w'. split; [|done]. unfold create_mint. rewrite Hr, Hix. cbn [map_err pure_call ok_or].
  exact (send_ok _ [payer; mint] h w sig w' Hs).
Qed.

Lemma transfer_authority_ok (payer : Keypair) mint new h w :
  mint_authority (data_at w mint) = Some (pubkey payer) ->
  exists sig w', transfer_mint_authority payer mint new (h, w) = (Ok sig, (h, w')) /\
    mint_authority (data_at w' mint) = Some new /\ forall k, k <> mint -> data_at w' k = data_at w k.
Proof.
  intros Ha. destruct (authority_instruction_built mint new (pubkey payer)) as [ix Hix].
  destruct (authority_set mint (pubkey payer) new ix w Ha Hix) as (sig & w' & Hs & Ha' & Hk).
  exists sig, w'. split; [|done]. unfold transfer_mint_authority. rewrite Hix. cbn [pure_call ok_or].
  exact (send_ok _ [payer] h w sig w' Hs).
Qed.

(** The mint of a set-up belongs to the bridge, whether or not its metadata could be
    created. *)
Lemma setup_mint_ok (payer mint : Keypair) decimals h w :
  w !! pubkey mint = None ->
  exists c w', setup_mint payer mint decimals (h, w) = (Ok c, (h, w')) /\
    mint_authority (data_at w' (pubkey mint)) = Some bridge /\
    forall k, k <> pubkey mint -> k <> metadata_pda (pubkey mint) -> data_at w' k = data_at w k.
Proof.
  intros Hn. destruct (create_mint_ok payer mint (pubkey payer) decimals h w Hn) as (sig & w1 & Hc & Ha1 & Hk1).
  unfold setup_mint. rewrite Hc. cbn [state_call id fst snd]. rewrite blockhash_reported. cbn [map_err pure_call].
  destruct (rpc_send _ [pubkey payer] w1) as [r w2] eqn:Hs. pose proof (metadata_created _ _ _ _ _ _ _ _ _ _ _ Hs) as Hk2.
  assert (pubkey mint <> metadata_pda (pubkey mint)) as Hmd by apply derived_not_keys.
  destruct (transfer_authority_ok payer (pubkey mint) bridge h w2) as (sig' & w3 & Ht & Ha3 & Hk3); [by rewrite Hk2|].
  rewrite Ht. eexists _, w3. split; [done|]. split; [done|]. intros k Hm Hmeta. by rewrite Hk3, Hk2, Hk1.
Qed.

(** The bridge as the initialisation leaves it: its books are empty. *)
Definition initialised (params : InitializeBridgeParams) (operator fee_spender mint : Pubkey) w : Prop :=
  exists bs, data_at w bridge = bytes_of bs /\ doge_mint bs = mint /\
    access_control (core_state bs) = {| operator_pubkey := operator; fee_spender_pubkey := fee_spender |} /\
    bridge_header (core_state bs) = ip_bridge_header params /\
    last_return_output (core_state bs) = ip_start_return_txo_output params /\
    custodian_wallet_config_hash (core_state bs) = ip_custodian_wallet_config_hash params /\
    refines (ip_config_params params) (core_state bs) (empty_ledger (ip_bridge_header params) (ip_start_return_txo_output params)).

(** No account yet, or that of a bridge. *)
Definition bridge_startable w : Prop :=
  data_at w bridge = [] \/ exists bs : DogeBridge.BridgeState, data_at w bridge = bytes_of bs /\ pod_wf bs.

Lemma process_initialize_ok (ix : InitializeBridgeInstructionData) account payer system w :
  key account = bridge -> bridge_startable w ->
  exists bs w', DogeBridge.process_initialize DOGE_BRIDGE_PROGRAM_ID [account; payer; system] ix w = Ok w' /\
    data_at w' bridge = bytes_of (reinitialized bs ix) /\ forall k, k <> bridge -> data_at w' k = data_at w k.
Proof.
  intros Hkey Hstart.
  assert (exists bs w1, (if len (data_at w bridge) =? 0 then
      let space := Z.of_nat (pod_size DogeBridge.BridgeState) in
      invoke_signed w (SystemCreateAccount (key payer) bridge (minimum_balance space) space DOGE_BRIDGE_PROGRAM_ID)
        [payer; account; system] [[DogeBridge.bridge_state_seed; [(find_program_address [DogeBridge.bridge_state_seed] DOGE_BRIDGE_PROGRAM_ID).2]]]
      else Ok w) = Ok w1 /\ DogeBridge.load_bridge_state w1 bridge = Ok bs /\
      forall k, k <> bridge -> data_at w1 k = data_at w k) as (bs & w1 & Hw1 & Hload & Hk1).
  { destruct Hstart as [He|(bs & He & Hwf)].
    - rewrite He. cbn [len length Z.of_nat Z.eqb]. cbv zeta.
      destruct (state_account_created w (key payer) bridge (minimum_balance (Z.of_nat (pod_size DogeBridge.BridgeState)))
        (Z.of_nat (pod_size DogeBridge.BridgeState)) DOGE_BRIDGE_PROGRAM_ID [payer; account; system]
        [[DogeBridge.bridge_state_seed; [(find_program_address [DogeBridge.bridge_state_seed] DOGE_BRIDGE_PROGRAM_ID).2]]] He)
        as (w1 & Hw1 & Hd & Hk). rewrite Nat2Z.id in Hd.
      eexists _, w1. split; [exact Hw1|]. split; [|done]. unfold DogeBridge.load_bridge_state. rewrite Hd.
      rewrite (proj2 (cast_Some _ _) (conj (length_zeros _) eq_refl)). done.
    - destruct (bytes_of_array bs Hwf) as [Hlen _]. exists bs, w. rewrite He. split; [|split; [|done]].
      + unfold len. by rewrite Hlen.
      + unfold DogeBridge.load_bridge_state. by rewrite He, (cast_bytes_of bs Hwf). }
  exists bs, (DogeBridge.store_bridge_state w1 bridge (reinitialized bs ix)). split; [|split].
  - unfold DogeBridge.process_initialize. cbn [nth_account ok_or lookup list_lookup res_bind]. rewrite Hkey.
    unfold bridge_state_pda, BridgeClient.pda in *. destruct (find_program_address _ _) as [pda bump]. cbn [fst snd] in *.
    unfold DogeBridge.key_eqb. rewrite bool_decide_true by done. cbn [negb]. cbv zeta in Hw1 |- *. rewrite Hw1. cbn [res_bind]. by rewrite Hload.
  - apply data_at_set_data.
  - intros k Hk. unfold DogeBridge.store_bridge_state. by rewrite data_at_set_data_ne, Hk1.
Qed.

Lemma initialize_ok (payer operator fee_spender mint : Keypair) params h w :
  pod_wf params -> bridge_startable w ->
  let ix := BridgeClient.initialize_bridge (pubkey payer) (pubkey operator) (pubkey fee_spender) (pubkey mint) params in
  exists sig w', send [ix] [payer] (h, w) = (Ok sig, (h, w')) /\
    initialised params (pubkey operator) (pubkey fee_spender) (pubkey mint) w' /\
    forall k, k <> bridge -> data_at w' k = data_at w k.
Proof.
  intros Hwf Hstart ix. pose proof (BridgeClient.initialize_delivered (pubkey payer) (pubkey operator) (pubkey fee_spender)
    (pubkey mint) params (pubkey_array _) (pubkey_array _) (pubkey_array _) Hwf w) as Hd.
  cbn beta in Hd. match type of Hd with _ = DogeBridge.process_initialize _ _ ?d _ =>
    destruct (process_initialize_ok d (account_info (meta_new bridge false)) (account_info (meta_new (pubkey payer) true))
      (account_info (meta_new_readonly system_program_id false)) w eq_refl Hstart) as (bs & w' & Hr & Hdata & Hk) end.
  pose proof (eq_trans Hd Hr) as Hd'. destruct (bridge_initialised _ _ _ _ _ _ _ Hd') as [sig Hs].
  exists sig, w'. split; [exact (send_ok [ix] [payer] h w sig w' Hs)|]. split; [|done].
  eexists. split; [exact Hdata|]. repeat (split; [try done|]).
  - by destruct params as [[] ? ? ?].
  - match type of Hdata with _ = bytes_of (reinitialized _ ?ix) => exact (refines_initial (core_state bs) ix) end.
Qed.
(** ** The whole set-up *)

Definition key_file (dir : Path) (name : bytes) : Path := join dir (name ++ str ".json").

Context (args : InitializeFromDogeArgs) (payer_path : option Path).
Local Abbreviation dir := (fd_keys_dir args).
Local Abbreviation mint_file := (key_file dir (str "doge_mint")).
Local Abbreviation operator_file := (key_file dir (str "operator")).
Local Abbreviation fee_spender_file := (key_file dir (str "fee_spender")).
Local Abbreviation payer_file := (match payer_path with Some p => p | None => key_file dir (str "payer") end).

(** The files are in order: the configuration is readable, the key files that exist hold
    keys, a payer that is named exists, no file serves two purposes or is in the way of
    the directories that are created, and the output is not a directory. *)
Record files_ready (params : InitializeBridgeParams) h : Prop := {
  fr_config : exists content, read_to_string h (fd_config args) = Some content /\ parse_doge_data content = Some params;
  fr_params : pod_wf params;
  fr_keys : Forall (key_file_ok h) [payer_file; operator_file; fee_spender_file; mint_file];
  fr_payer : forall p, payer_path = Some p -> path_exists h p = true;
  fr_distinct : NoDup [payer_file; operator_file; fee_spender_file; mint_file; fd_config args; fd_output args];
  fr_beside : Forall (fun p => ~ p `prefix_of` dir /\ ~ p `prefix_of` fd_output args)
                [payer_file; operator_file; fee_spender_file; mint_file];
  fr_directories : creatable h dir /\ forall d, parent (fd_output args) = Some d -> creatable h d;
  fr_output : ~ fd_output args `prefix_of` dir /\ is_directory h (fd_output args) = false
}.

(** The key is in its file now, and was there before if the file existed. *)
Definition key_settled f (k : Keypair) h h' : Prop :=
  read_keypair_file h' f = Ok k /\ (path_exists h f = true -> read_keypair_file h f = Ok k).

Lemma key_settled_after (ps qs : list Path) f k h h1 h2 h' :
  files_kept ps h h1 -> key_loaded f k h1 h2 -> (forall q, q ∉ qs -> read_to_string h' q = read_to_string h2 q) ->
  f ∉ ps -> f ∉ qs -> key_settled f k h h'.
Proof.
  intros K1 L K2 Hp Hq. split.
  - unfold read_keypair_file. rewrite (K2 f Hq). apply (loaded_now _ _ _ _ L).
  - intros Hx. rewrite <- (read_keypair_kept _ _ _ _ K1 Hp). apply (loaded_before _ _ _ _ L). by destruct (K1 f Hp) as [_ ->].
Qed.

Lemma reads_trans (ps qs : list Path) h1 h2 h' :
  files_kept ps h1 h2 -> (forall q, q ∉ qs -> read_to_string h' q = read_to_string h2 q) ->
  forall q, q ∉ ps ++ qs -> read_to_string h' q = read_to_string h1 q.
Proof. intros K Hr q [Hp Hq]%not_elem_of_app. rewrite (Hr q Hq). by destruct (K q Hp) as [-> _]. Qed.

Lemma payer_loaded h w :
  key_file_ok h payer_file -> is_directory h dir = true -> (forall p, payer_path = Some p -> path_exists h p = true) ->
  exists k h', match payer_path with
               | Some path => try k <- read_keypair_file h path on (h, w); (Ok k, (h, w))
               | None => load_or_create_keypair dir (str "payer") (h, w)
               end = (Ok k, (h', w)) /\ key_loaded payer_file k h h'.
Proof.
  intros Hk Hd Hp. destruct payer_path as [p|]; [|by apply load_or_create_ok].
  destruct (Hk (Hp p eq_refl)) as [k Hr]. exists k, h. rewrite Hr. split; [done|]. apply key_loaded_same; [by apply Hp|done].
Qed.

(** The keys directory is created: no file changes, and nothing but the directories down
    to it appears. *)
Lemma directory_kept p h q :
  creatable h p -> ~ q `prefix_of` p -> let h' := (create_dir_all p h).2 in
  read_to_string h' q = read_to_string h q /\ path_exists h' q = path_exists h q /\ is_directory h' q = is_directory h q.
Proof. intros Hc Hq h'. destruct (directory_created p h Hc) as [_ Hk]. destruct (Hk q) as (Hr & _ & Hx). by split; [|apply Hx]. Qed.

(** After [create_parent] the file can be written. *)
Lemma create_parent_ok p h w :
  (forall d, parent p = Some d -> creatable h d) -> is_directory h p = false ->
  exists h', create_parent p (h, w) = (Ok tt, (h', w)) /\ writable h' p /\ forall q, read_to_string h' q = read_to_string h q.
Proof.
  intros Hc Hp. unfold create_parent, host_call. cbn [fst snd]. destruct (parent p) as [d|] eqn:E.
  - destruct (directory_created d h (Hc d eq_refl)) as [-> Hk]. exists (create_dir_all d h).2. split; [done|]. split; [|apply Hk].
    split; [rewrite E; intros d' [= <-]; by apply Hk|]. destruct (Hk p) as (_ & _ & Hb).
    by destruct (Hb (parent_not_above _ _ E)) as [_ ->].
  - exists h. split; [done|]. split; [|done]. split; [by rewrite E|done].
Qed.

(** The key files do not get in the way of the output. *)
Lemma output_creatable (ps : list Path) params h hm :
  files_ready params h -> ps ⊆ [payer_file; operator_file; fee_spender_file; mint_file] ->
  let h1 := (create_dir_all dir h).2 in
  files_kept ps h1 hm -> (forall q, is_directory hm q = is_directory h1 q) ->
  (forall d, parent (fd_output args) = Some d -> creatable hm d) /\ is_directory hm (fd_output args) = false.
Proof.
  intros Hready Hps h1 Hk Hd. destruct Hready as [_ _ _ _ _ Hbeside [Hdir Hpar] [Hout Houtd]].
  split; [|rewrite Hd; destruct (directory_kept dir h _ Hdir Hout) as (_ & _ & E); by fold h1 in E; rewrite E].
  intros d E q Hq Hx. rewrite Hd. destruct (decide (q `prefix_of` dir)) as [Hqd|Hqd].
  { destruct (directory_created dir h Hdir) as [_ Hc]. by apply Hc. }
  destruct (directory_kept dir h q Hdir Hqd) as (_ & Ex & Ed). fold h1 in Ex, Ed. rewrite Ed.
  apply (Hpar d E q Hq). rewrite <- Ex. destruct (Hk q) as [_ <-]; [|done].
  intros Hin%Hps. rewrite Forall_forall in Hbeside. destruct (Hbeside q Hin) as [_ Hno]. apply Hno. by eapply prefix_parent.
Qed.

(** The four keys in the order in which the command loads them; what it writes later
    spares them. *)
Lemma keys_loaded params h w :
  files_ready params h ->
  let h1 := (create_dir_all dir h).2 in
  exists payer operator fee_spender mint hp ho hf hm,
    match payer_path with
    | Some path => try k <- read_keypair_file h1 path on (h1, w); (Ok k, (h1, w))
    | None => load_or_create_keypair dir (str "payer") (h1, w)
    end = (Ok payer, (hp, w)) /\
    load_or_create_keypair dir (str "operator") (hp, w) = (Ok operator, (ho, w)) /\
    load_or_create_keypair dir (str "fee_spender") (ho, w) = (Ok fee_spender, (hf, w)) /\
    load_or_create_mint_keypair mint_file (hf, w) = (Ok (mint, path_exists hf mint_file), (hm, w)) /\
    read_to_string hf (fd_config args) = read_to_string h (fd_config args) /\
    (forall d, parent (fd_output args) = Some d -> creatable hm d) /\ is_directory hm (fd_output args) = false /\
    forall h', (forall q : Path, q ∉ [fd_output args] -> read_to_string h' q = read_to_string hm q) ->
      key_settled payer_file payer h h' /\ key_settled operator_file operator h h' /\
      key_settled fee_spender_file fee_spender h h' /\ key_settled mint_file mint h h'.
Proof.
  intros Hready h1. pose proof Hready as [_ _ Hkeys Hpx Hdist Hbeside [Hdir _] _].
  rewrite !Forall_cons in Hkeys, Hbeside. destruct Hkeys as (Kp & Ko & Kf & Km & _). destruct Hbeside as ([Bp _] & [Bo _] & [Bf _] & [Bm _] & _).
  assert (is_directory h1 dir = true) as D1 by (by apply (directory_created dir h Hdir)).
  set (fp := payer_file) in *. set (fo := operator_file) in *. set (ff := fee_spender_file) in *. set (fm := mint_file) in *.
  assert (forall f, ~ f `prefix_of` dir -> key_file_ok h f -> key_file_ok h1 f) as Hok.
  { intros f Hf Hk. destruct (directory_kept dir h f Hdir Hf) as (Hr & Hx & _). fold h1 in Hr, Hx. unfold key_file_ok, read_keypair_file. by rewrite Hr, Hx. }
  assert (forall f k h', ~ f `prefix_of` dir -> key_settled f k h1 h' -> key_settled f k h h') as Hback.
  { intros f k h' Hf [Hn Hb]. split; [done|]. destruct (directory_kept dir h f Hdir Hf) as (Hr & Hx & _).
    revert Hb. unfold read_keypair_file. fold h1 in Hr, Hx. by rewrite Hr, Hx. }
  assert (fo ∉ [fp] /\ ff ∉ [fp] ++ [fo] /\ fm ∉ ([fp] ++ [fo]) ++ [ff] /\ fd_config args ∉ ([fp] ++ [fo]) ++ [ff]) as (N1 & N2 & N3 & N4).
  { clear -Hdist. cbn [app]. rewrite !NoDup_cons in Hdist. set_solver. }
  assert (fp ∉ [fo] ++ [ff] ++ [fm] ++ [fd_output args] /\ fo ∉ [ff] ++ [fm] ++ [fd_output args] /\
    ff ∉ [fm] ++ [fd_output args] /\ fm ∉ [fd_output args]) as (M1 & M2 & M3 & M4).
  { clear -Hdist. cbn [app]. rewrite !NoDup_cons in Hdist. set_solver. }
  destruct (payer_loaded h1 w) as (payer & hp & Ep & Lp); [by apply Hok|done| |].
  { intros p E. destruct (directory_kept dir h fp Hdir Bp) as (_ & Hx & _). fold h1 in Hx. unfold fp in Hx. rewrite E in Hx. rewrite Hx. by apply Hpx. }
  pose proof (loaded_kept _ _ _ _ Lp) as K1.
  destruct (load_or_create_ok dir (str "operator") hp w) as (operator & ho & Eo & Lo).
  { eapply (key_file_ok_kept [fp]); [exact K1|assumption|by apply Hok]. }
  { by rewrite (loaded_directories _ _ _ _ Lp). }
  pose proof (files_kept_trans _ _ _ _ _ K1 (loaded_kept _ _ _ _ Lo)) as K2.
  destruct (load_or_create_ok dir (str "fee_spender") ho w) as (fee_spender & hf & Ef & Lf).
  { eapply (key_file_ok_kept ([fp] ++ [fo])); [exact K2|assumption|by apply Hok]. }
  { by rewrite (loaded_directories _ _ _ _ Lo), (loaded_directories _ _ _ _ Lp). }
  pose proof (files_kept_trans _ _ _ _ _ K2 (loaded_kept _ _ _ _ Lf)) as K3.
  destruct (load_or_create_mint_ok dir (str "doge_mint" ++ str ".json") hf w) as (mint & hm & Em & Lm).
  { eapply (key_file_ok_kept (([fp] ++ [fo]) ++ [ff])); [exact K3|assumption|by apply Hok]. }
  { by rewrite (loaded_directories _ _ _ _ Lf), (loaded_directories _ _ _ _ Lo), (loaded_directories _ _ _ _ Lp). }
  pose proof (files_kept_trans _ _ _ _ _ K3 (loaded_kept _ _ _ _ Lm)) as K4.
  exists payer, operator, fee_spender, mint, hp, ho, hf, hm.
  do 4 (split; [done|]). split.
  { destruct (K3 (fd_config args)) as [-> _]; [assumption|]. unfold h1. by apply directory_created. }
  destruct (output_creatable ((([fp] ++ [fo]) ++ [ff]) ++ [fm]) params h hm Hready) as [Hpar Hout]; [|exact K4| |].
  { cbn [app]. fold fp fo ff fm. set_solver. }
  { intros q. by rewrite (loaded_directories _ _ _ _ Lm), (loaded_directories _ _ _ _ Lf), (loaded_directories _ _ _ _ Lo), (loaded_directories _ _ _ _ Lp). }
  split; [exact Hpar|]. split; [exact Hout|].
  intros h' R3. pose proof (reads_trans _ _ _ _ _ (loaded_kept _ _ _ _ Lm) R3) as R2.
  pose proof (reads_trans _ _ _ _ _ (loaded_kept _ _ _ _ Lf) R2) as R1.
  pose proof (reads_trans _ _ _ _ _ (loaded_kept _ _ _ _ Lo) R1) as R0.
  split; [|split; [|split]]; (apply Hback; [done|]).
  - by apply (key_settled_after [] _ _ _ h1 h1 hp h' ltac:(done) Lp R0 ltac:(apply not_elem_of_nil)).
  - by apply (key_settled_after _ _ _ _ h1 hp ho h' K1 Lo R1).
  - by apply (key_settled_after _ _ _ _ h1 ho hf h' K2 Lf R2).
  - by apply (key_settled_after _ _ _ _ h1 hf hm h' K3 Lm R3).
Qed.

(** [C28] [initialize-from-doge-data] sets the bridge up, when it is confirmed by [--yes] and
    asks for no airdrop.  On a machine that behaves as its file system is documented, where
    no file is in the way of the directories that the command needs, on a network that
    executes transactions, with its files in order and for a bridge account that is missing
    or holds a bridge, the command succeeds, having created the directories that were
    missing: the bridge stores the parameters of the file with empty books, and its
    operator, fee spender and token are the keys that the key files hold afterwards, which
    are those that they held before if they existed.  A mint that the command creates ends
    under the authority of the bridge, with or without metadata; one that is on the chain
    already keeps whatever authority it has, so a run that was interrupted before the
    transfer is never made good. *)
Theorem bridge_set_up params h w :
  files_ready params h -> fd_yes args = true -> fd_airdrop args = false -> bridge_startable w ->
  exists payer operator fee_spender mint h' w',
    initialize_from_doge payer_path args (h, w) = (Ok tt, (h', w')) /\
    initialised params (pubkey operator) (pubkey fee_spender) (pubkey mint) w' /\
    mint_authority (data_at w' (pubkey mint)) =
      match w !! pubkey mint with None => Some bridge | Some a => mint_authority (data a) end /\
    key_settled payer_file payer h h' /\ key_settled operator_file operator h h' /\
    key_settled fee_spender_file fee_spender h h' /\ key_settled mint_file mint h h'.
Proof.
  intros Hready Hyes Hair Hstart. destruct (keys_loaded params h w Hready)
    as (payer & operator & fee_spender & mint & hp & ho & hf & hm & Ep & Eo & Ef & Em & Hcfg & Hpar & Hout & Hsettled).
  destruct Hready as [(content & Hcontent & Hparse) Hwf _ _ _ _ [Hdir _] _].
  assert (exists created w1, (if negb (is_ok (rpc_account w (pubkey mint))) then
      call (c, s) <- setup_mint payer mint (fd_decimals args) (hm, w) into id; (Ok (Some c), s) else (Ok None, (hm, w)))
      = (Ok created, (hm, w1)) /\ bridge_startable w1 /\
      mint_authority (data_at w1 (pubkey mint)) =
        match w !! pubkey mint with None => Some bridge | Some a => mint_authority (data a) end) as (created & w1 & Ec & Hstart1 & Ha).
  { rewrite account_reported. destruct (w !! pubkey mint) as [a|] eqn:Hm.
    - rewrite bool_decide_true by done. exists None, w. split; [done|]. split; [done|]. unfold data_at, account_at. by rewrite Hm.
    - rewrite bool_decide_false by (by intros []). destruct (setup_mint_ok payer mint (fd_decimals args) hm w Hm) as (c & w1 & -> & Ha & Hk).
      exists (Some c), w1. split; [done|]. split; [|done]. unfold bridge_startable. rewrite Hk; [done| |].
      + apply not_eq_sym, derived_not_keys.
      + apply not_eq_sym, metadata_not_bridge. }
  destruct (initialize_ok payer operator fee_spender mint params hm w1 Hwf Hstart1) as (sig & w2 & Ei & Hi & Hk2).
  destruct (create_parent_ok (fd_output args) hm w2 Hpar Hout) as (h6 & Epar & Hwr & Hr6).
  destruct (json_output_total (initialization_output (pubkey mint) (pubkey operator) (pubkey fee_spender) (pubkey payer) sig created))
    as [json Ejson].
  destruct (file_written (fd_output args) json h6 Hwr) as (Ew & _ & _ & Hk7 & _).
  exists payer, operator, fee_spender, mint, (write_file (fd_output args) json h6).2, w2.
  split.
  { unfold initialize_from_doge, host_call at 1. cbn [fst snd]. destruct (directory_created dir h Hdir) as [-> _].
    cbn [ok_or state_call id fst snd]. rewrite Ep. cbn [state_call id]. unfold request_airdrop. rewrite Hair. cbn [andb].
    rewrite Eo. cbn [state_call id]. rewrite Ef. cbn [state_call id fst snd]. rewrite Hcfg, Hcontent. cbn [ok_or pure_call].
    rewrite Hparse. cbn [ok_or pure_call]. change (join dir (str "doge_mint.json")) with mint_file. rewrite Em.
    cbn [state_call id fst snd]. unfold confirmation. rewrite Hyes. cbn [state_call id negb]. rewrite Ec.
    cbn [state_call id]. rewrite Ei. cbn [state_call id]. rewrite Epar. cbn [state_call id]. rewrite Ejson.
    cbn [ok_or pure_call]. unfold host_call. cbn [fst snd]. by rewrite Ew. }
  split; [done|]. split; [rewrite Hk2; [done|apply derived_not_keys]|].
  apply Hsettled. intros q Hq. rewrite not_elem_of_cons in Hq. destruct (Hk7 q) as [-> _]; [tauto|]. apply Hr6.
Qed.
End initialise.

(** ** The accounts of users *)

(** The network of the two commands for users: accounts are never removed, and the token
    account that is asked for is created if there was none. *)
Class UserNetwork `{ProgramIds} `{ForeignErrors} `{!BlockingRpc} `{SplToken} `{Machine} : Prop := {
  user_account_reported w k : is_ok (rpc_account w k) = bool_decide (is_Some (w !! k));
  user_blockhash_reported w : rpc_blockhash w = Ok tt;
  ata_created payer owner mint w :
    w !! get_associated_token_address owner mint = None ->
    exists sig w', rpc_send [create_associated_token_account payer owner mint TOKEN_PROGRAM_ID] [payer] w = (Ok sig, w') /\
      is_Some (w' !! get_associated_token_address owner mint) /\ forall k, is_Some (w !! k) -> is_Some (w' !! k);
  close_instruction_built account owner : exists ix, token_clear_close_authority TOKEN_PROGRAM_ID account owner = Some ix;
  (** whether or not it succeeds *)
  close_authority_sent account owner ix signers w :
    token_clear_close_authority TOKEN_PROGRAM_ID account owner = Some ix ->
    forall k, is_Some (w !! k) -> is_Some ((rpc_send [ix] signers w).2 !! k)
}.

Section users.
Context `{ProgramIds} `{ForeignErrors} `{!BlockingRpc} `{SplToken} `{Machine} `{!Codecs} `{!DirectoryTree} `{!MachineLaws} `{!CodecLaws}
  `{!UserNetwork}.
Implicit Types (w : World) (h : Host) (p : Path).

(** The user in a file, if it can be read. *)
Definition user_of h p : option Keypair :=
  content ← read_to_string h p; info ← parse_user_info content; keypair_from_bytes (ua_private_key info).

Local Abbreviation account mint k := (get_associated_token_address (pubkey k) mint).

Lemma create_ata_ok payer (user : Keypair) mint h w :
  w !! account mint user = None ->
  exists sig w', create_ata payer (pubkey user) mint (h, w) = (Ok sig, (h, w')) /\
    is_Some (w' !! account mint user) /\ forall k, is_Some (w !! k) -> is_Some (w' !! k).
Proof.
  intros Hn. destruct (ata_created (pubkey payer) (pubkey user) mint w Hn) as (sig & w' & Hs & Ha & Hk).
  exists sig, w'. split; [|done]. unfold create_ata, send. cbn [fst snd fmap list_fmap].
  by rewrite user_blockhash_reported, Hs.
Qed.

Context (args : SetupUserAtasArgs) (mint : Pubkey) (payer : Keypair).

Lemma unreadable_user p h w : user_of h p = None -> exists e, setup_user_ata args mint payer p (h, w) = (Err e, (h, w)).
Proof.
  unfold user_of, setup_user_ata. cbn [fst]. destruct (read_to_string h p) as [c|]; [|by eexists]. cbn [mbind option_bind ok_or pure_call].
  destruct (parse_user_info c) as [i|]; [|by eexists]. cbn [mbind option_bind ok_or pure_call].
  destruct (keypair_from_bytes _); [done|by eexists].
Qed.

Lemma readable_user p k h w :
  user_of h p = Some k ->
  exists w', setup_user_ata args mint payer p (h, w) = (Ok tt, (h, w')) /\ is_Some (w' !! account mint k) /\
    (forall q, is_Some (w !! q) -> is_Some (w' !! q)) /\
    (su_set_close_authority_null args = false -> is_Some (w !! account mint k) -> w' = w).
Proof.
  unfold user_of, setup_user_ata. cbn [fst snd]. destruct (read_to_string h p) as [c|]; [|done]. cbn [mbind option_bind ok_or pure_call].
  destruct (parse_user_info c) as [i|]; [|done]. cbn [mbind option_bind ok_or pure_call]. intros ->. cbn [ok_or pure_call].
  rewrite user_account_reported. case_bool_decide as Hx.
  - destruct (su_set_close_authority_null args) eqn:Ec; cbn [negb andb].
    + rewrite andb_false_r. cbn [state_call id]. destruct (close_instruction_built (account mint k) (pubkey k)) as [ix Hix].
      rewrite Hix. cbn [ok_or pure_call fst snd]. rewrite user_blockhash_reported. cbn [map_err pure_call].
      eexists. split; [done|]. pose proof (close_authority_sent _ _ ix [pubkey payer; pubkey k] w Hix) as Hk. naive_solver.
    + exists w. destruct (su_skip_existing args); by cbn.
  - apply eq_None_not_Some in Hx. destruct (create_ata_ok payer k mint h w Hx) as (sig & w1 & -> & Ha & Hk1).
    cbn [andb state_call id]. destruct (su_set_close_authority_null args) eqn:Ec.
    + destruct (close_instruction_built (account mint k) (pubkey k)) as [ix Hix].
      rewrite Hix. cbn [ok_or pure_call fst snd]. rewrite user_blockhash_reported. cbn [map_err pure_call].
      eexists. split; [done|]. pose proof (close_authority_sent _ _ ix [pubkey payer; pubkey k] w1 Hix) as Hk. naive_solver.
    + exists w1. split; [done|]. split; [done|]. split; [done|]. rewrite Hx. by intros _ [].
Qed.

Lemma setup_files_ok files : forall n m h w,
  exists w', setup_files args mint payer files n m (h, w)
      = (Ok (n + len (omap (user_of h) files), m + (len files - len (omap (user_of h) files))), (h, w')) /\
    Forall (fun k => is_Some (w' !! account mint k)) (omap (user_of h) files) /\
    (forall q, is_Some (w !! q) -> is_Some (w' !! q)) /\
    (su_set_close_authority_null args = false ->
     Forall (fun k => is_Some (w !! account mint k)) (omap (user_of h) files) -> w' = w).
Proof.
  assert (forall h p files, omap (user_of h) (p :: files) =
    match user_of h p with Some k => k :: omap (user_of h) files | None => omap (user_of h) files end) as Hcons by done.
  induction files as [|p files IH]; intros n m h w; [|rewrite Hcons]; cbn [setup_files].
  - exists w. split; [do 3 f_equal; [change (n = n + 0)|change (m = m + (0 - 0))]; lia|done].
  - destruct (user_of h p) as [k|] eqn:Hu.
    + destruct (readable_user p k h w Hu) as (w1 & -> & Ha & Hk & Hsame). destruct (IH (n + 1) m h w1) as (w' & -> & Hall & Hk' & Hsame').
      exists w'. rewrite !len_cons. split; [do 3 f_equal; lia|]. split; [by constructor; [apply Hk'|]|]. split; [by auto|].
      intros Hc [Hx Hxs]%Forall_cons. rewrite (Hsame Hc Hx) in Hsame'. by apply Hsame'.
    + destruct (unreadable_user p h w Hu) as [e ->]. destruct (IH n (m + 1) h w) as (w' & -> & Hall & Hk & Hsame).
      exists w'. rewrite len_cons. split; [do 3 f_equal; lia|]. by auto.
Qed.

(** Every entry with the extension "json" is one of the files, once. *)
Lemma user_files_entries entries :
  user_files entries ≡ₚ filter (fun p => extension p = Some (str "json")) (omap id entries).
Proof. apply merge_sort_Permutation. Qed.


(** [create-user] for a new file: the file holds the key of the user whose token account
    exists afterwards, and the same command once more finds this user and changes nothing. *)
Lemma created_user_found payer_path cargs h w :
  pubkey_from_str (cu_doge_mint cargs) = Some mint -> cu_user_keypair cargs = None -> cu_skip_ata_creation cargs = false ->
  path_exists h (cu_output cargs) = false -> read_keypair_file h payer_path = Ok payer ->
  (forall d, parent (cu_output cargs) = Some d -> creatable h d) -> is_directory h (cu_output cargs) = false ->
  exists k h' w', create_user (Some payer_path) cargs (h, w) = (Ok tt, (h', w')) /\
    user_of h' (cu_output cargs) = Some k /\ is_Some (w' !! account mint k) /\
    create_user (Some payer_path) cargs (h', w') = (Ok tt, (h', w')).
Proof.
  intros Hm Hk Hs Hx Hp Hpar Hnd. set (k := (keypair_new h).1). set (h1 := (keypair_new h).2).
  assert (exists w1, (if is_ok (rpc_account w (account mint k)) then (Ok tt, (h1, w)) else
      try payer <- load_keypair h1 (Some payer_path) on (h1, w);
      call (_, s) <- create_ata payer (pubkey k) mint (h1, w) into id; (Ok tt, s)) = (Ok tt, (h1, w1)) /\
      is_Some (w1 !! account mint k)) as (w1 & Eata & Ha).
  { rewrite user_account_reported. case_bool_decide as Hex; [by exists w|]. apply eq_None_not_Some in Hex.
    destruct (create_ata_ok payer k mint h1 w Hex) as (sig & w1 & Ec & Ha & _). exists w1. split; [|done].
    assert (load_keypair h1 (Some payer_path) = Ok payer) as ->.
    { rewrite <- Hp. cbn [load_keypair]. unfold read_keypair_file, h1. by destruct (new_key_keeps_files h payer_path) as [-> _]. }
    cbn [pure_call]. by rewrite Ec. }
  destruct (user_json_back (user_info k (account mint k))) as (json & Ej & Eback).
  destruct (create_parent_ok (cu_output cargs) h1 w1) as (h2 & Epar & Hwr & _).
  { intros d E q Hq. destruct (new_key_keeps_files h q) as (_ & Ex & Ed). unfold h1. rewrite Ex, Ed. by apply (Hpar d E). }
  { unfold h1. by destruct (new_key_keeps_files h (cu_output cargs)) as (_ & _ & ->). }
  destruct (file_written (cu_output cargs) json h2 Hwr) as (Ew & Er & Exs & _).
  set (h' := (write_file (cu_output cargs) json h2).2) in *.
  exists k, h', w1. split; [|split; [|split; [exact Ha|]]].
  - unfold create_user, parse_pubkey. rewrite Hm. cbn [ok_or pure_call]. unfold load_user. rewrite Hk. cbn [fst snd].
    rewrite Hx. destruct (keypair_new h) as [k0 h0]. cbn [fst snd] in k, h1. subst k h1. cbn [state_call id fst snd]. rewrite Hs.
    rewrite Eata. cbn [state_call id orb]. rewrite Ej. cbn [ok_or pure_call]. rewrite Epar. cbn [state_call id].
    unfold host_call. cbn [fst snd]. by rewrite Ew.
  - unfold user_of. rewrite Er. cbn [mbind option_bind]. rewrite Eback. cbn [mbind option_bind user_info ua_private_key].
    apply keypair_bytes_back.
  - unfold create_user, parse_pubkey. rewrite Hm. cbn [ok_or pure_call]. unfold load_user. rewrite Hk. cbn [fst snd].
    rewrite Exs, Er. cbn [ok_or pure_call]. rewrite Eback. cbn [ok_or pure_call user_info ua_private_key].
    rewrite keypair_bytes_back. cbn [ok_or pure_call state_call id fst snd]. rewrite Hs, user_account_reported, bool_decide_true by done.
    cbn [state_call id orb fst]. by rewrite Exs.
Qed.
End users.
