(* ===== verification/MonitorProofs.v ===== *)
(** * MonitorProofs: what the monitors report

    A server lists the history of an address as documented ([lists_signatures],
    [HistoryProofs.v]).  Catching up reports every event; polling reports the newest
    batch of what is new at each poll, each once and in the order of the chain; and the
    shim monitor reads the very message that the bridge sends. *)
From S2P Require Import Prelude Errors Pod Hash Types BufferClient Runtime MintGroup ProgramState BridgeInstructions DogeBridge BridgeClient RpcClient HistorySync HistoryProofs Monitor.
From Stdlib Require Import ZArith Lia.
From stdpp Require Import base decidable list numbers option countable gmap.
Import HistorySync Monitor.

Open Scope Z_scope.
Open Scope bridge_scope.

Section loops.
Context `{ForeignErrors} {Event : Type}.
Implicit Types (l : list SignatureInfo) (sigs : list Signature).

(** ** One batch *)

Lemma send_events_all (parse : Signature -> result (option Event)) (f : Signature -> option Event) n l sigs :
  si_signature <$> l = Some <$> sigs -> Forall (fun sig => parse sig = Ok (f sig)) sigs ->
  send_events parse (fun _ => true) n l = (omap f sigs, Ok tt).
Proof.
  revert n sigs. induction l as [|si l IH]; intros n [|sig sigs] Hl Hf; try discriminate Hl; [done|].
  rewrite !fmap_cons in Hl. injection Hl as Hs Hl. apply Forall_cons in Hf as [Hsig Hf].
  cbn [send_events omap list_omap]. rewrite Hs, Hsig. destruct (f sig) as [event|].
  - by rewrite (IH (S n) sigs Hl Hf).
  - by rewrite (IH n sigs Hl Hf).
Qed.

Lemma parse_batch_all (parse : SignatureInfo -> result (option Event)) (f : Signature -> option Event) l sigs events :
  si_signature <$> l = Some <$> sigs ->
  Forall (fun sig => forall si, si_signature si = Some sig -> parse si = Ok (f sig)) sigs ->
  parse_batch parse l events = Ok (events ++ omap f sigs).
Proof.
  revert sigs events. induction l as [|si l IH]; intros [|sig sigs] events Hl Hf; try discriminate Hl.
  { by rewrite app_nil_r. }
  rewrite !fmap_cons in Hl. injection Hl as Hs Hl. apply Forall_cons in Hf as [Hsig Hf].
  cbn [parse_batch omap list_omap]. rewrite (Hsig si Hs). cbn [res_bind]. rewrite (IH sigs _ Hl Hf).
  destruct (f sig) as [event|]; [|done]. by rewrite <- app_assoc.
Qed.

(** ** Catching up *)

Lemma length_omap_le {A B} (g : A -> option B) (k : list A) : (length (omap g k) <= length k)%nat.
Proof. induction k as [|x k IH]; [done|]. cbn [omap list_omap]. destruct (g x); cbn [length]; lia. Qed.

Context `{!RpcServer}.
Context (parse : SignatureInfo -> result (option Event)) (f : Signature -> option Event).
Context (address : Pubkey) (history : list Signature) (batch_size limit : Z) (until : option Signature).

Lemma fetch_since_loop_all fuel done todo :
  (forall r, acquire r = Ok tt) -> (forall n, lists_signatures address history n) -> NoDup history ->
  Forall (fun sig => forall si, si_signature si = Some sig -> parse si = Ok (f sig)) history ->
  0 < batch_size -> newer_than until history = done ++ todo -> len (omap f done) <= limit ->
  (length todo < fuel)%nat ->
  fetch_since_loop fuel parse address batch_size until limit (omap f done) (last done)
    = Some (Ok (take (Z.to_nat limit) (omap f (done ++ todo)))).
Proof.
  intros Hacq Hserver Hnd Hparse Hbs. revert done todo. induction fuel as [|fuel IH]; intros done todo Hn Hle Hf; [lia|].
  cbn [fetch_since_loop]. rewrite omap_app. destruct (Z.ltb_spec (len (omap f done)) limit) as [Hlt|Hge].
  2:{ rewrite take_app_length' by (unfold len in *; lia). done. }
  rewrite Hacq. cbn [res_bind]. set (page := Z.min batch_size (limit - len (omap f done))).
  destruct (Hserver page (last done) until) as (l & -> & Hl). cbn [res_bind].
  rewrite (next_page _ _ _ _ Hnd Hn) in Hl. assert (0 < page) as Hpage by lia.
  destruct (last l) as [oldest|] eqn:Hlast.
  - assert (parse_batch parse l (omap f done) = Ok (omap f (done ++ take (Z.to_nat page) todo))) as ->.
    { rewrite omap_app. apply parse_batch_all; [done|]. apply list.Forall_forall. intros sig Hsig.
      apply (proj1 (list.Forall_forall _ _) Hparse). destruct (newer_than_prefix until history) as [rest ->].
      rewrite Hn, <- (take_drop (Z.to_nat page) todo), !elem_of_app. tauto. }
    cbn [res_bind]. assert (todo <> []) as Hne by (intros ->; rewrite take_nil in Hl; destruct l; [discriminate Hlast|discriminate Hl]).
    assert (si_signature oldest = last (done ++ take (Z.to_nat page) todo)) as ->.
    { assert (last (si_signature <$> l) = Some (si_signature oldest)) as Hx by (by rewrite fmap_last, Hlast).
      rewrite Hl, fmap_last in Hx. rewrite last_app. destruct (last (take (Z.to_nat page) todo)); [by injection Hx as <-|discriminate Hx]. }
    rewrite (IH _ (drop (Z.to_nat page) todo)).
    + by rewrite <- app_assoc, take_drop, omap_app.
    + by rewrite Hn, <- app_assoc, take_drop.
    + rewrite omap_app, len_app. pose proof (length_omap_le f (take (Z.to_nat page) todo)) as Hom.
      rewrite length_take in Hom. unfold len in *. lia.
    + rewrite length_drop. destruct todo; [done|]. cbn [length] in *. lia.
  - apply last_None in Hlast as ->. destruct todo as [|x todo].
    + cbn [omap list_omap]. rewrite app_nil_r. rewrite take_ge by (unfold len in *; lia). done.
    + exfalso. destruct (Z.to_nat page) eqn:E; [lia|]. discriminate Hl.
Qed.

(** [C37] Catching up ends and misses nothing.  Against a server that answers as
    documented, the loop of [fetch_since] ends after at most one page more than there
    are signatures and returns the events of the transactions after the checkpoint in
    the order of the chain; with a limit, the latest events up to the limit. *)
Theorem fetch_since_complete fuel :
  (forall r, acquire r = Ok tt) -> (forall n, lists_signatures address history n) -> NoDup history ->
  Forall (fun sig => forall si, si_signature si = Some sig -> parse si = Ok (f sig)) history ->
  0 < batch_size -> 0 <= limit -> (length history < fuel)%nat ->
  fetch_since fuel parse address batch_size until (Some limit)
    = Some (Ok (reverse (take (Z.to_nat limit) (omap f (newer_than until history))))).
Proof.
  intros Hacq Hserver Hnd Hparse Hbs Hlim Hf. unfold fetch_since. cbn [default from_option id].
  assert (fetch_since_loop fuel parse address batch_size until limit [] None
    = Some (Ok (take (Z.to_nat limit) (omap f (newer_than until history))))) as ->; [|done].
  apply (fetch_since_loop_all fuel [] (newer_than until history)); [done..|].
  destruct (newer_than_prefix until history) as [rest Hrest]. apply (f_equal length) in Hrest.
  rewrite length_app in Hrest. lia.
Qed.
End loops.

(** ** Polling *)

Section polling.
Context `{ForeignErrors} {Event : Type}.
Context (parse : RpcServer -> Signature -> result (option Event)) (f : Signature -> option Event).
Context (address : Pubkey) (batch_size : Z).

(** At this poll the server knows the history [now], and everything works. *)
Definition polled (tick : Tick) (now : list Signature) : Prop :=
  (forall r, @acquire _ (tick_server tick) r = Ok tt) /\
  @lists_signatures _ (tick_server tick) address now batch_size /\
  (forall n, tick_open tick n = true) /\
  Forall (fun sig => parse (tick_server tick) sig = Ok (f sig)) now.

Lemma in_front_app u new rest : u ∉ new -> in_front u (new ++ u :: rest) = new.
Proof.
  induction new as [|x new IH]; cbn [app in_front]; intros Hu; [by rewrite bool_decide_eq_true_2|].
  apply not_elem_of_cons in Hu as [Hx Hu]. rewrite bool_decide_eq_false_2 by done. by rewrite IH.
Qed.

Lemma send_events_open (g : Signature -> result (option Event)) open n (l : list SignatureInfo) :
  (forall n, open n = true) -> send_events g open n l = send_events g (fun _ => true) n l.
Proof.
  intros Ho. revert n. induction l as [|si l IH]; intros n; [done|]. cbn [send_events]. rewrite Ho.
  destruct (si_signature si) as [sig|]; [|apply IH]. destruct (g sig) as [[e|]| |]; [|apply IH|done..]. by rewrite IH.
Qed.

(** The events of the newest [batch_size] of the new transactions, oldest first. *)
Definition reported (new : list Signature) : list Event := omap f (reverse (take (Z.to_nat batch_size) new)).

Lemma poll_once_reports tick new seen rest :
  0 < batch_size -> NoDup (new ++ seen :: rest) -> polled tick (new ++ seen :: rest) ->
  @poll_once _ _ (tick_server tick) (parse (tick_server tick)) address batch_size (tick_open tick) (Some seen)
    = (reported new, head (new ++ [seen]), Ok tt).
Proof.
  intros Hbs Hnd (Hacq & Hserver & Hopen & Hparse). unfold poll_once. rewrite Hacq. cbn [res_bind].
  destruct (Hserver None (Some seen)) as (l & -> & Hl). cbn [older_than newer_than] in Hl.
  apply list.NoDup_app in Hnd as (_ & Hd & _). rewrite in_front_app in Hl.
  2:{ intros Hin. apply (Hd _ Hin), list_elem_of_here. }
  unfold reported. destruct new as [|newest new].
  { rewrite take_nil in *. destruct l; [done|discriminate Hl]. }
  destruct (Z.to_nat batch_size) as [|k] eqn:Hk; [lia|]. destruct l as [|si l]; [discriminate Hl|].
  rewrite send_events_open by done. rewrite (send_events_all _ f _ _ (reverse (take (S k) (newest :: new)))).
  - cbn [take] in *. rewrite !fmap_cons in Hl. injection Hl as Hs _. by rewrite Hs.
  - by rewrite !fmap_reverse, Hl.
  - apply Forall_reverse. apply Forall_app in Hparse as [Hparse _]. by apply Forall_take.
Qed.

(** The chain as it grows from poll to poll: the new transactions of each. *)
Fixpoint growing (ticks : list Tick) (news : list (list Signature)) (before : list Signature) : Prop :=
  match ticks, news with
  | [], [] => True
  | tick :: ticks, new :: news =>
      NoDup (new ++ before) /\ polled tick (new ++ before) /\ growing ticks news (new ++ before)
  | _, _ => False
  end.

(** [C36] Polling reports each transaction at most once, in the order of the chain.
    From a checkpoint at the newest transaction, while the chain grows and the server
    answers as documented, the monitor sends at each poll the events of the newest
    [batch_size] of the transactions that are new since the poll before, oldest first,
    and nothing else: all of them when no more than [batch_size] are new, but when more
    are, those in between are never reported. *)
Theorem monitor_reports_newest ticks news seen rest :
  0 < batch_size -> growing ticks news (seen :: rest) ->
  (monitor_loop parse address batch_size ticks (Some seen)).1 = concat (reported <$> news).
Proof.
  intros Hbs. revert news seen rest. induction ticks as [|tick ticks IH]; intros [|new news] seen rest Hg;
    try contradiction Hg; [done|].
  destruct Hg as (Hnd & Hp & Hg). cbn [monitor_loop fmap list_fmap concat].
  rewrite (poll_once_reports tick new seen rest) by done. cbn [fst]. f_equal.
  destruct new as [|newest new]; [by apply (IH _ _ rest)|]. exact (IH _ _ (new ++ seen :: rest) Hg).
Qed.
End polling.

(** ** The message of a withdrawal *)

Lemma parse_vaa_data (nonce : Z) (sighash tx : bytes) :
  in_width 32 nonce -> byte_array 32 sighash -> in_width 32 (32 + len tx) ->
  let d := DogeBridge.WORMHOLE_VAA_DISCRIMINATOR ++ le_bytes 4 nonce ++ [1] ++ le_bytes 4 (u32 (len sighash + len tx))
             ++ sighash ++ tx in
  len d = 49 + len tx /\ take 8 d = WORMHOLE_VAA_DISCRIMINATOR /\ le_at 4 8 d = nonce /\ d !! 12%nat = Some 1 /\
  le_at 4 13 d = 32 + len tx /\ take (Z.to_nat (32 + len tx)) (drop 17 d) = sighash ++ tx.
Proof.
  intros Hn Hs Ht d. pose proof (byte_array_len _ _ Hs) as Hls. pose proof (len_nonneg tx).
  assert (u32 (len sighash + len tx) = 32 + len tx) as Hu by (rewrite Hls; by apply wrap_id).
  subst d. rewrite Hu. split_and!.
  - rewrite !len_app, Hls. change (len (le_bytes 4 nonce)) with 4. change (len (le_bytes 4 (32 + len tx))) with 4.
    change (len DogeBridge.WORMHOLE_VAA_DISCRIMINATOR) with 8. change (len [1]) with 1. lia.
  - reflexivity.
  - unfold le_at. replace (take 4 (drop 8 _)) with (le_bytes 4 nonce) by reflexivity. by apply (le_val_bytes 4).
  - reflexivity.
  - unfold le_at. replace (take 4 (drop 13 _)) with (le_bytes 4 (32 + len tx)) by reflexivity. by apply (le_val_bytes 4).
  - replace (drop 17 _) with (sighash ++ tx) by reflexivity. apply take_ge. rewrite length_app. unfold len in *. lia.
Qed.

Section shim.
Context `{ForeignErrors} `{!SignedServer} `{!RpcServer}.
Context (config : NoopShimMonitorConfig) (sig : Signature) (s : Z) (time : option Z) (keys : list Pubkey).

Lemma parse_announcement nonce (a : DogeBridge.WormholeAccounts) sighash tx program accounts d :
  in_width 32 nonce -> byte_array 32 sighash -> in_width 32 (32 + len tx) ->
  key (DogeBridge.wh_shim_program a) = nc_noop_shim_program_id config ->
  resolves keys {| program_id_index := program; ci_accounts := accounts; ci_data := d |}
    (DogeBridge.vaa_instruction nonce a sighash tx) ->
  parse_shim_instruction config sig s time keys (Compiled program accounts (Some d)) = Some
    {| nm_signature := sig; nm_slot := s; nm_block_time := time; nm_nonce := nonce; nm_consistency_level := 1;
       nm_sighash := sighash; nm_doge_tx_bytes := tx; nm_emitter := key (DogeBridge.wh_emitter a);
       nm_payer := key (DogeBridge.wh_payer a) |}.
Proof.
  intros Hn Hs Ht Hshim Hr. unfold DogeBridge.vaa_instruction in Hr. cbv zeta in Hr.
  pose proof (resolves_account _ _ _ _ _ 2 _ Hr eq_refl) as H2. pose proof (resolves_account _ _ _ _ _ 4 _ Hr eq_refl) as H4.
  destruct Hr as (Hp & _ & Hd). cbn [program_id_index ci_accounts ci_data meta_key] in *. subst d.
  destruct (parse_vaa_data nonce sighash tx Hn Hs Ht) as (Hl & Hdis & Hno & Hc & Hpl & Hpay).
  pose proof (len_nonneg tx). unfold parse_shim_instruction. rewrite Hp. cbn [mbind option_bind].
  rewrite bool_decide_eq_true_2 by done. cbn [negb]. rewrite Hl, (proj2 (Z.ltb_ge _ 17)) by lia.
  rewrite bool_decide_eq_true_2 by done. cbn [negb]. rewrite Hpl, (proj2 (Z.ltb_ge _ _)) by lia.
  rewrite Hpay, Hno, Hc. rewrite len_app, (byte_array_len _ _ Hs), (proj2 (Z.ltb_ge _ 32)) by lia.
  rewrite H2, H4. cbn [mbind option_bind default from_option id]. destruct Hs as [Hs _].
  by rewrite take_app_length', drop_app_length' by done.
Qed.

(** Calls of other programs before it are passed over. *)
Definition other_call (ix : UiInstruction) : Prop :=
  match ix with
  | Compiled program _ _ => index keys program <> Some (nc_noop_shim_program_id config)
  | OtherUi => True
  end.

Lemma other_call_skipped ix : other_call ix -> parse_shim_instruction config sig s time keys ix = None.
Proof.
  destruct ix as [program accounts [d|]|]; [|done..]. intros Ho. cbn [other_call] in Ho. unfold parse_shim_instruction.
  destruct (index keys program) as [p|]; [|done]. cbn [mbind option_bind]. rewrite bool_decide_eq_false_2; [done|congruence].
Qed.

Lemma find_message_skips pre ix post m :
  Forall other_call pre -> parse_shim_instruction config sig s time keys ix = Some m ->
  find_message config sig s time keys (pre ++ ix :: post) = Some m.
Proof.
  intros Hpre Hix. induction Hpre as [|x pre Hx Hpre IH]; cbn [app find_message]; [by rewrite Hix|].
  by rewrite (other_call_skipped x Hx).
Qed.

(** [C38] The shim monitor reads the message that the bridge sends.  From a transaction
    whose required signatures verify and in which the bridge calls the shim with the
    instruction of [send_wormhole_vaa], the monitor reports exactly the nonce, the hash
    and the transaction that the bridge announced, with the payer. *)
Theorem announcement_reported transaction pre post nonce a sighash tx program accounts d :
  acquire (TransactionOf sig) = Ok tt ->
  get_signed_transaction sig = Ok {| ss_slot := s; ss_block_time := time;
    ss_transaction := BinarySigned (Some transaction) |} ->
  verify_signatures transaction 0 (Z.to_nat (st_num_required_signatures transaction)) = Ok true ->
  st_static_account_keys transaction = keys ->
  concat (st_inner_instructions transaction) = pre ++ Compiled program accounts (Some d) :: post ->
  Forall other_call pre ->
  in_width 32 nonce -> byte_array 32 sighash -> in_width 32 (32 + len tx) ->
  key (DogeBridge.wh_shim_program a) = nc_noop_shim_program_id config ->
  key (DogeBridge.wh_emitter a) = nc_bridge_state_pda config ->
  resolves keys {| program_id_index := program; ci_accounts := accounts; ci_data := d |}
    (DogeBridge.vaa_instruction nonce a sighash tx) ->
  from_bridge config sig = Ok (Some
    {| nm_signature := sig; nm_slot := s; nm_block_time := time; nm_nonce := nonce; nm_consistency_level := 1;
       nm_sighash := sighash; nm_doge_tx_bytes := tx; nm_emitter := nc_bridge_state_pda config;
       nm_payer := key (DogeBridge.wh_payer a) |}).
Proof.
  intros Hacq Hget Hver Hkeys Hinner Hpre Hn Hs Ht Hshim Hem Hr. unfold from_bridge, shim_parse_transaction_static.
  rewrite Hacq, Hget. cbn [res_bind ss_transaction ss_slot ss_block_time]. rewrite Hver. cbn [res_bind].
  rewrite Hkeys, Hinner. rewrite (find_message_skips _ _ _ _ Hpre (parse_announcement _ _ _ _ _ _ _ Hn Hs Ht Hshim Hr)).
  cbn [nm_emitter]. rewrite Hem, bool_decide_eq_true_2 by done. done.
Qed.
End shim.
