(* ===== verification/Tasks.v ===== *)
(** * Tasks: the background tasks of the history stream and of the monitors

    Models how [history.rs], [monitor.rs] and [noop_shim_monitor.rs] start their loops in
    the background and how the handles stop, join and abort them.  A task, the owner of
    the receiver and the owner of the handle act concurrently: an action is what one of
    them does between two awaits, a schedule is a list of actions, and an action that has
    to wait leaves the state as it is.  [received] and [reported] record what the owners
    have got so far. *)
From S2P Require Import Prelude Errors Pod Hash Types Runtime BufferClient MintGroup ProgramState BridgeInstructions DogeBridge RpcClient HistorySync Monitor.
From Stdlib Require Import ZArith Lia.
From stdpp Require Import base decidable list numbers option countable gmap.
Import HistorySync.

Open Scope Z_scope.
Open Scope bridge_scope.

Module Tasks.

(** ** Channels and handles *)

(** The bounded channels of tokio: a queue with a capacity, in which a sender waits for
    room and a receiver for a message ([None]: it waits). *)
Class Channels := {
  channel : Type -> Type;
  new_channel {A} : Z -> channel A;
  send {A} : A -> channel A -> option (channel A);
  recv {A} : channel A -> option (A * channel A);
  capacity {A} : channel A -> Z;
  contents {A} : channel A -> list A;
  new_channel_spec {A} n : capacity (new_channel (A:=A) n) = n /\ contents (new_channel (A:=A) n) = [];
  send_spec {A} (x : A) c :
    match send x c with
    | Some c' => len (contents c) < capacity c /\ contents c' = contents c ++ [x] /\ capacity c' = capacity c
    | None => capacity c <= len (contents c)
    end;
  recv_spec {A} (c : channel A) :
    match recv c with
    | Some (x, c') => contents c = x :: contents c' /\ capacity c' = capacity c
    | None => contents c = []
    end
}.

(** [mpsc::channel(1000)] *)
Definition CHANNEL_CAPACITY : Z := 1000.

(** The channel to the receiver, the signal to stop, and the two fields of the handle:
    whether it still has the sender of the signal and the task. *)
Record Link `{Channels} {A : Type} := {
  pipe : channel A;
  received : list A;
  receiver_alive : bool;
  stop_signal : bool;
  stop_sender : bool;
  join_handle : bool
}.
Arguments Link {_} A.

Section link.
Context `{Channels} {A : Type}.
Implicit Types (l : Link A).

Definition link_new (receiver_alive : bool) : Link A :=
  {| pipe := new_channel CHANNEL_CAPACITY; received := []; receiver_alive := receiver_alive; stop_signal := false;
     stop_sender := true; join_handle := true |}.

(** [sender.send(x).await] while the receiver is there; [None]: it waits. *)
Definition push (x : A) l : option (Link A) :=
  c ← send x (pipe l);
  Some {| pipe := c; received := received l; receiver_alive := receiver_alive l; stop_signal := stop_signal l;
          stop_sender := stop_sender l; join_handle := join_handle l |}.

(** [receiver.recv().await] by the owner of the receiver, as long as there is one. *)
Definition receive l : option (Link A) :=
  if negb (receiver_alive l) then None else
  r ← recv (pipe l);
  Some {| pipe := r.2; received := received l ++ [r.1]; receiver_alive := receiver_alive l; stop_signal := stop_signal l;
          stop_sender := stop_sender l; join_handle := join_handle l |}.

(** The receiver is dropped. *)
Definition close_receiver l : Link A :=
  {| pipe := pipe l; received := received l; receiver_alive := false; stop_signal := stop_signal l;
     stop_sender := stop_sender l; join_handle := join_handle l |}.

(** [stop] of the handles, which [drop] calls too. *)
Definition stop l : Link A :=
  if stop_sender l then
    {| pipe := pipe l; received := received l; receiver_alive := receiver_alive l; stop_signal := true;
       stop_sender := false; join_handle := join_handle l |}
  else l.

(** [self.handle.take()], after [stop]. *)
Definition stop_and_take l : Link A :=
  let l := stop l in
  {| pipe := pipe l; received := received l; receiver_alive := receiver_alive l; stop_signal := stop_signal l;
     stop_sender := stop_sender l; join_handle := false |}.
End link.

(** What the owners of the receiver and of the handle do, and a step of the task.
    [Join] is the part of [join] before it waits for the task. *)
Inductive action := Run | Receive | CloseReceiver | GetCheckpoint | Stop | Join | Abort.

(** ** history.rs *)

Inductive stream_phase :=
  | Collecting
  | Ready (todo : list Signature)
  | Sending (record : HistoryRecord) (todo : list Signature)
  | Ended
  | Panicked
  | Aborted.

Record SyncTask `{Channels} := {
  st_phase : stream_phase;
  st_checkpoint : SyncCheckpoint;
  (** the channel for checkpoints, of capacity 1, and what [get_checkpoint] has returned *)
  st_slot : channel SyncCheckpoint;
  st_reported : list SyncCheckpoint;
  st_link : Link HistoryRecord
}.

Section stream.
Context `{ForeignErrors} `{!RpcServer} `{HashMapOrder} `{Channels}.
Context (fuel : nat) (config : HistorySyncConfig).
Implicit Types (s : SyncTask).

(** [stream_history]: the channels and the task, before its first step. *)
Definition stream_history (checkpoint : option SyncCheckpoint) : SyncTask :=
  {| st_phase := Collecting; st_checkpoint := default SyncCheckpoint_new checkpoint; st_slot := new_channel 1; st_reported := [];
     st_link := link_new true |}.

Definition with_phase (phase : stream_phase) (checkpoint : SyncCheckpoint) s : SyncTask :=
  {| st_phase := phase; st_checkpoint := checkpoint; st_slot := st_slot s; st_reported := st_reported s; st_link := st_link s |}.

Definition with_link (l : Link HistoryRecord) s : SyncTask :=
  {| st_phase := st_phase s; st_checkpoint := st_checkpoint s; st_slot := st_slot s; st_reported := st_reported s; st_link := l |}.

(** The checkpoint behind a record, and behind a transaction without one. *)
Definition count_record (sig : Signature) (record : HistoryRecord) (checkpoint : SyncCheckpoint) : SyncCheckpoint :=
  {| last_signature := sig; last_slot := last_slot checkpoint;
     records_processed := u64 (records_processed checkpoint + 1);
     last_block_height := match record with Block block => Some (br_block_height block) | _ => last_block_height checkpoint end |}.
Definition pass_signature (sig : Signature) (checkpoint : SyncCheckpoint) : SyncCheckpoint :=
  {| last_signature := sig; last_slot := last_slot checkpoint; records_processed := records_processed checkpoint;
     last_block_height := last_block_height checkpoint |}.

(** [stream_loop], from one await to the next.  The checkpoint is offered to its channel
    with [try_send], which gives up when one is there. *)
Definition run_stream s : option SyncTask :=
  let checkpoint := st_checkpoint s in
  match st_phase s with
  | Collecting =>
      let after_sig := if bool_decide (last_signature checkpoint = zeros 64) then None
                       else Some (last_signature checkpoint) in
      collected ← collect_all_signatures fuel (bridge_state_pda config) after_sig (signature_batch_size config);
      Some (with_phase (match collected with
                        | Ok signatures => Ready (reverse signatures)
                        | Err _ => Ended
                        | Panic => Panicked
                        end) checkpoint s)
  | Ready [] => Some (with_phase Ended checkpoint s)
  | Ready (sig :: todo) =>
      if stop_signal (st_link s) then Some (with_phase Ended checkpoint s) else
      Some (match process_transaction config sig with
            | Ok (Some record) => with_phase (Sending record todo) (count_record sig record checkpoint) s
            | Ok None => with_phase (Ready todo) (pass_signature sig checkpoint) s
            | Err _ => with_phase (Ready todo) checkpoint s
            | Panic => with_phase Panicked checkpoint s
            end)
  | Sending record todo =>
      if negb (receiver_alive (st_link s)) then Some (with_phase Ended checkpoint s) else
      l ← push record (st_link s);
      Some {| st_phase := Ready todo; st_checkpoint := checkpoint; st_slot := default (st_slot s) (send checkpoint (st_slot s));
              st_reported := st_reported s; st_link := l |}
  | Ended | Panicked | Aborted => None
  end.

Definition stream_over s : bool :=
  match st_phase s with Ended | Panicked | Aborted => true | _ => false end.

(** [abort] cancels a task that is still at work. *)
Definition act_stream (a : action) s : option SyncTask :=
  match a with
  | Run => run_stream s
  | Receive => l ← receive (st_link s); Some (with_link l s)
  | CloseReceiver => Some (with_link (close_receiver (st_link s)) s)
  | GetCheckpoint =>
      r ← recv (st_slot s);
      Some {| st_phase := st_phase s; st_checkpoint := st_checkpoint s; st_slot := r.2;
              st_reported := st_reported s ++ [r.1]; st_link := st_link s |}
  | Stop => Some (with_link (stop (st_link s)) s)
  | Join => Some (with_link (stop_and_take (st_link s)) s)
  | Abort =>
      let cancelled := join_handle (st_link s) && negb (stream_over s) in
      let s := with_link (stop_and_take (st_link s)) s in
      Some (if cancelled then with_phase Aborted (st_checkpoint s) s else s)
  end.

(** A schedule; an action that waits changes nothing. *)
Definition perform (schedule : list action) s : SyncTask := fold_left (fun s a => default s (act_stream a s)) schedule s.
End stream.

(** ** monitor.rs, noop_shim_monitor.rs *)

Section monitors.
Context `{ForeignErrors} `{Channels} {Event : Type}.

(** [Delivering]: the events of a poll that are still to be sent, and whether the poll
    panics after them. *)
Inductive monitor_phase :=
  | Waiting
  | Delivering (events : list Event) (panics : bool)
  | MonitorEnded
  | MonitorPanicked
  | MonitorAborted.

Record MonitorTask := {
  mt_phase : monitor_phase;
  mt_after : option Signature;
  mt_link : Link Event
}.

(** [start], after [subscribe] or without: [new] drops the receiver of its channel. *)
Definition start (subscribed : bool) (after_signature : option Signature) : MonitorTask :=
  {| mt_phase := Waiting; mt_after := after_signature; mt_link := link_new subscribed |}.

Context (parse : RpcServer -> Signature -> Monitor.result (option Event)) (address : Pubkey) (batch_size : Z).
Implicit Types (m : MonitorTask).

Definition in_phase (phase : monitor_phase) m : MonitorTask :=
  {| mt_phase := phase; mt_after := mt_after m; mt_link := mt_link m |}.
Definition on_link (l : Link Event) m : MonitorTask :=
  {| mt_phase := mt_phase m; mt_after := mt_after m; mt_link := l |}.

(** The branches of [select!]: a tick, with the server as it answers then, and the stop
    signal; when both are ready either may be taken. *)
Definition tick_monitor (server : RpcServer) m : option MonitorTask :=
  match mt_phase m with
  | Waiting =>
      let '(events, after_signature, outcome) :=
        @Monitor.poll_once _ _ server (parse server) address batch_size (fun _ => true) (mt_after m) in
      let panics := match outcome with Panic => true | _ => false end in
      Some {| mt_phase := Delivering events panics; mt_after := after_signature; mt_link := mt_link m |}
  | _ => None
  end.

Definition heed_stop m : option MonitorTask :=
  match mt_phase m with
  | Waiting => if stop_signal (mt_link m) then Some (in_phase MonitorEnded m) else None
  | _ => None
  end.

(** One event of the poll.  Without a receiver the poll returns, and the loop goes on. *)
Definition deliver_event m : option MonitorTask :=
  match mt_phase m with
  | Delivering [] panics => Some (in_phase (if panics then MonitorPanicked else Waiting) m)
  | Delivering (event :: events) panics =>
      if negb (receiver_alive (mt_link m)) then Some (in_phase Waiting m) else
      l ← push event (mt_link m);
      Some {| mt_phase := Delivering events panics; mt_after := mt_after m; mt_link := l |}
  | _ => None
  end.

Inductive monitor_action :=
  | MTick (server : RpcServer)
  | MHeedStop
  | MDeliver
  | MReceive
  | MCloseReceiver
  | MStop
  | MJoin
  | MAbort.

Definition monitor_over m : bool :=
  match mt_phase m with MonitorEnded | MonitorPanicked | MonitorAborted => true | _ => false end.

Definition act_monitor (a : monitor_action) m : option MonitorTask :=
  match a with
  | MTick server => tick_monitor server m
  | MHeedStop => heed_stop m
  | MDeliver => deliver_event m
  | MReceive => l ← receive (mt_link m); Some (on_link l m)
  | MCloseReceiver => Some (on_link (close_receiver (mt_link m)) m)
  | MStop => Some (on_link (stop (mt_link m)) m)
  | MJoin => Some (on_link (stop_and_take (mt_link m)) m)
  | MAbort =>
      let cancelled := join_handle (mt_link m) && negb (monitor_over m) in
      let m := on_link (stop_and_take (mt_link m)) m in
      Some (if cancelled then in_phase MonitorAborted m else m)
  end.

Definition perform_monitor (schedule : list monitor_action) m : MonitorTask :=
  fold_left (fun m a => default m (act_monitor a m)) schedule m.
End monitors.

(** The two monitors. *)
Section both.
Context `{ForeignErrors} `{!Monitor.SignedServer} `{Channels}.

Definition perform_bridge_monitor (config : Monitor.MonitorConfig) :=
  perform_monitor (fun server => @Monitor.parse_transaction_static _ server (Monitor.mc_program_id config))
    (Monitor.mc_bridge_state_pda config) (Monitor.mc_batch_size config).

Definition start_shim_monitor (subscribed : bool) (after_signature : option Signature)
    : MonitorTask (Event:=Monitor.NoopShimWithdrawalMessage) := start subscribed after_signature.

Definition act_shim_monitor (config : Monitor.NoopShimMonitorConfig) :=
  act_monitor (fun server => @Monitor.from_bridge _ _ server config) (Monitor.nc_noop_shim_program_id config)
    (Monitor.nc_batch_size config).

Definition perform_shim_monitor (config : Monitor.NoopShimMonitorConfig) :=
  perform_monitor (fun server => @Monitor.from_bridge _ _ server config) (Monitor.nc_noop_shim_program_id config)
    (Monitor.nc_batch_size config).
End both.
End Tasks.
