(* ===== verification/TaskProofs.v ===== *)
(** * TaskProofs: what the background tasks deliver, and when they end

    An invariant of the history stream over all schedules, from which: the receiver gets
    the records in order and without gaps, checkpoints never run ahead of what was sent,
    and a stream that ends by itself has sent everything.  Then the end of the tasks: by
    their work, by the stop signal, or never. *)
From S2P Require Import Prelude Errors Pod Hash Types Runtime BufferClient MintGroup ProgramState BridgeInstructions DogeBridge RpcClient HistorySync Monitor Tasks.
From Stdlib Require Import ZArith Lia.
From stdpp Require Import base decidable list numbers option countable gmap.
Import HistorySync Tasks.

Open Scope Z_scope.
Open Scope bridge_scope.

(** ** The link *)

Section links.
Context `{Channels} {A : Type}.
Implicit Types (l : Link A).

(** What is in the channel, and what the receiver has or will have. *)
Definition queue l : list A := contents (pipe l).
Definition sent l : list A := received l ++ queue l.
Definition link_ok l : Prop := capacity (pipe l) = CHANNEL_CAPACITY /\ len (queue l) <= CHANNEL_CAPACITY.

Lemma link_new_spec alive : sent (link_new (A:=A) alive) = [] /\ link_ok (link_new alive).
Proof.
  unfold sent, link_ok, queue. cbn. destruct (new_channel_spec (A:=A) CHANNEL_CAPACITY) as [-> ->]. repeat split. done.
Qed.

Lemma push_spec x l l' :
  push x l = Some l' ->
  sent l' = sent l ++ [x] /\ received l' = received l /\ (link_ok l -> link_ok l') /\
  receiver_alive l' = receiver_alive l /\ stop_signal l' = stop_signal l.
Proof.
  unfold push. pose proof (send_spec x (pipe l)) as Hs. destruct (send x (pipe l)) as [c|]; [|done]. intros [= <-].
  destruct Hs as (Hroom & Hc & Hcap). unfold sent, link_ok, queue. cbn. rewrite Hc, Hcap, app_assoc, len_app, len_cons, len_nil.
  repeat split; lia.
Qed.

Lemma push_waits x l : link_ok l -> push x l = None <-> CHANNEL_CAPACITY <= len (queue l).
Proof.
  intros [Hcap _]. unfold push, queue. pose proof (send_spec x (pipe l)) as Hs. rewrite Hcap in Hs.
  destruct (send x (pipe l)); split; try done; destruct Hs; lia.
Qed.

Lemma receive_spec l l' :
  receive l = Some l' ->
  sent l' = sent l /\ received l `prefix_of` received l' /\ len (queue l') = len (queue l) - 1 /\ (link_ok l -> link_ok l') /\
  receiver_alive l = true /\ receiver_alive l' = receiver_alive l /\ stop_signal l' = stop_signal l /\ join_handle l' = join_handle l.
Proof.
  unfold receive. destruct (receiver_alive l); [|done]. cbn [negb]. pose proof (recv_spec (pipe l)) as Hr.
  destruct (recv (pipe l)) as [[x c]|]; [|done]. destruct Hr as [Hc Hcap]. intros [= <-]. unfold sent, link_ok, queue. cbn.
  rewrite Hc, Hcap, <- app_assoc, len_cons. repeat split; try lia. by apply prefix_app_r.
Qed.

Lemma receive_waits l : receiver_alive l = true -> receive l = None -> queue l = [].
Proof.
  unfold receive, queue. intros ->. cbn [negb]. pose proof (recv_spec (pipe l)) as Hr. by destruct (recv (pipe l)).
Qed.

(** [stop] and [stop_and_take] leave the channel as it is. *)
Definition same_channel l l' : Prop :=
  sent l' = sent l /\ received l' = received l /\ queue l' = queue l /\ receiver_alive l' = receiver_alive l /\
  (link_ok l -> link_ok l') /\ (stop_signal l = true -> stop_signal l' = true).

Lemma stop_spec l : same_channel l (stop l).
Proof. unfold stop. by destruct (stop_sender l). Qed.

Lemma stop_and_take_spec l : same_channel l (stop_and_take l).
Proof. destruct (stop_spec l) as (E1 & E2 & E3 & E4 & E5 & E6). by repeat split; try apply E5. Qed.

Lemma same_channel_stop l l' : same_channel l l' -> stop_signal l' = false -> stop_signal l = false.
Proof. intros (_ & _ & _ & _ & _ & E) Hf. destruct (stop_signal l); [|done]. by rewrite E in Hf. Qed.
End links.

(** ** The history stream *)

Section stream.
Context `{ForeignErrors} `{!RpcServer} `{HashMapOrder} `{Channels}.
Context (fuel : nat) (config : HistorySyncConfig) (start_checkpoint : SyncCheckpoint) (sigs : list Signature).
Implicit Types (s : SyncTask) (c : SyncCheckpoint).

(** The records of some transactions, oldest first, and the checkpoint behind them. *)
Fixpoint produced (l : list Signature) : list HistoryRecord :=
  match l with
  | [] => []
  | sig :: l => match process_transaction config sig with Ok (Some record) => record :: produced l | _ => produced l end
  end.

Definition advance c sig : SyncCheckpoint :=
  match process_transaction config sig with
  | Ok (Some record) => count_record sig record c
  | Ok None => pass_signature sig c
  | _ => c
  end.
Definition checkpoint_after (l : list Signature) : SyncCheckpoint := foldl advance start_checkpoint l.

Lemma produced_app l1 l2 : produced (l1 ++ l2) = produced l1 ++ produced l2.
Proof.
  induction l1 as [|sig l1 IH]; [done|]. cbn [app produced]. rewrite IH.
  destruct (process_transaction config sig) as [[r|]|e|]; done.
Qed.

Lemma checkpoint_after_snoc l sig : checkpoint_after (l ++ [sig]) = advance (checkpoint_after l) sig.
Proof. unfold checkpoint_after. by rewrite foldl_app. Qed.

Lemma produced_prefix l1 l2 : l1 `prefix_of` l2 -> produced l1 `prefix_of` produced l2.
Proof. intros [k ->]. rewrite produced_app. by apply prefix_app_r. Qed.

(** The transactions that are done, and the record that is on its way. *)
Definition progress (done_ : list Signature) (pending : list HistoryRecord) s : Prop :=
  match st_phase s with
  | Collecting => done_ = [] /\ pending = []
  | Ready todo => sigs = done_ ++ todo /\ pending = []
  | Sending record todo => sigs = done_ ++ todo /\ pending = [record]
  | Ended => done_ `prefix_of` sigs /\
      (receiver_alive (st_link s) = true -> pending = [] /\ (stop_signal (st_link s) = false -> done_ = sigs))
  | Panicked | Aborted => done_ `prefix_of` sigs
  end.

(** A checkpoint behind some of the transactions done, whose records have been sent. *)
Definition covered (done_ : list Signature) s c : Prop :=
  exists d, d `prefix_of` done_ /\ c = checkpoint_after d /\
    (receiver_alive (st_link s) = true -> produced d `prefix_of` sent (st_link s)).

Record inv_at (done_ : list Signature) (pending : list HistoryRecord) s : Prop := {
  inv_progress : progress done_ pending s;
  inv_checkpoint : st_checkpoint s = checkpoint_after done_;
  inv_sent : receiver_alive (st_link s) = true -> sent (st_link s) ++ pending = produced done_;
  inv_covered : Forall (covered done_ s) (contents (st_slot s) ++ st_reported s);
  inv_received : received (st_link s) `prefix_of` produced sigs;
  inv_link : link_ok (st_link s)
}.
Definition stream_inv s : Prop := exists done_ pending, inv_at done_ pending s.

Lemma progress_prefix done_ pending s : progress done_ pending s -> done_ `prefix_of` sigs.
Proof.
  unfold progress. destruct (st_phase s) as [|todo|r todo| | |].
  - intros [-> _]. apply prefix_nil.
  - intros [E _]. by exists todo.
  - intros [E _]. by exists todo.
  - by intros [Hp _].
  - done.
  - done.
Qed.

Lemma covered_mono d1 d2 s s' c :
  covered d1 s c -> d1 `prefix_of` d2 -> 
  (receiver_alive (st_link s') = true -> receiver_alive (st_link s) = true /\ sent (st_link s) `prefix_of` sent (st_link s')) ->
  covered d2 s' c.
Proof.
  intros (d & Hd & Hc & Hs) Hp Hl. exists d. split; [by etrans|]. split; [done|]. intros Ha.
  destruct (Hl Ha) as [Ha' Hsent]. etrans; [by apply Hs|done].
Qed.

(** The owners of the receiver and of the handle. *)
Lemma inv_with_link l' done_ pending s :
  inv_at done_ pending s ->
  (receiver_alive l' = true -> receiver_alive (st_link s) = true /\ sent l' = sent (st_link s)) ->
  (stop_signal l' = false -> stop_signal (st_link s) = false) ->
  received l' `prefix_of` produced sigs -> link_ok l' ->
  stream_inv (with_link l' s).
Proof.
  intros [Hp Hc Hs Hcov _ _] Hl Hstop Hr' Hl'. exists done_, pending. constructor; try done.
  - unfold progress in *. cbn [st_phase st_link with_link]. destruct (st_phase s); try done.
    destruct Hp as [Hpre Hend]. split; [done|]. intros Ha. destruct (Hl Ha) as [Ha' _]. destruct (Hend Ha') as [-> Hall].
    split; [done|]. intros Hst. by apply Hall, Hstop.
  - cbn [st_link with_link]. intros Ha. destruct (Hl Ha) as [Ha' ->]. by apply Hs.
  - cbn [st_slot st_reported with_link]. eapply Forall_impl; [exact Hcov|]. intros c Hcc.
    eapply covered_mono; [exact Hcc|done|]. cbn [st_link with_link]. intros Ha. by destruct (Hl Ha) as [? ->].
Qed.

Lemma inv_same_channel l' s : stream_inv s -> same_channel (st_link s) l' -> stream_inv (with_link l' s).
Proof.
  intros (done_ & pending & Hinv) Hsame. pose proof Hinv as [_ _ _ _ Hr Hl]. pose proof Hsame as (E1 & E2 & _ & E4 & E5 & _).
  apply (inv_with_link _ done_ pending); [done|by rewrite E1, E4|by apply same_channel_stop|by rewrite E2|by apply E5].
Qed.

Lemma inv_receive s l' : stream_inv s -> receive (st_link s) = Some l' -> stream_inv (with_link l' s).
Proof.
  intros (done_ & pending & Hinv) Hl. pose proof Hinv as [Hp _ Hs _ Hr Hok].
  destruct (receive_spec _ _ Hl) as (E1 & E2 & _ & E3 & Ha & E4 & E5 & _).
  apply (inv_with_link _ done_ pending); [done|by rewrite E1|by rewrite E5| |by apply E3].
  trans (sent l'); [by apply prefix_app_r|]. rewrite E1. trans (produced done_).
  - rewrite <- (Hs Ha). by apply prefix_app_r.
  - by eapply produced_prefix, progress_prefix.
Qed.

Lemma inv_close s : stream_inv s -> stream_inv (with_link (close_receiver (st_link s)) s).
Proof. intros (done_ & pending & Hinv). pose proof Hinv as [_ _ _ _ Hr Hl]. by apply (inv_with_link _ done_ pending). Qed.

(** A step of the task that leaves the channel alone. *)
Lemma inv_with_phase phase c done_ pending done' pending' s :
  inv_at done_ pending s -> done_ `prefix_of` done' -> progress done' pending' (with_phase phase c s) -> c = checkpoint_after done' ->
  (receiver_alive (st_link s) = true -> sent (st_link s) ++ pending' = produced done') ->
  stream_inv (with_phase phase c s).
Proof.
  intros [_ _ _ Hcov Hr Hok] Hpre Hp' Hc' Hs'. exists done', pending'. constructor; try done.
  cbn [st_slot st_reported with_phase]. eapply Forall_impl; [exact Hcov|]. intros c0 Hc0. by eapply covered_mono.
Qed.

Lemma inv_take s c slot :
  stream_inv s -> recv (st_slot s) = Some (c, slot) ->
  stream_inv {| st_phase := st_phase s; st_checkpoint := st_checkpoint s; st_slot := slot;
                st_reported := st_reported s ++ [c]; st_link := st_link s |}.
Proof.
  intros (done_ & pending & [Hp Hc Hs Hcov Hr Hok]) Hslot. exists done_, pending. constructor; try done.
  pose proof (recv_spec (st_slot s)) as Hrecv. rewrite Hslot in Hrecv. destruct Hrecv as [Hslots _]. rewrite Hslots in Hcov.
  apply Forall_cons in Hcov as [Hc1 Hc2]. change (Forall (covered done_ s) (contents slot ++ st_reported s ++ [c])).
  rewrite app_assoc. apply Forall_app. split; [done|by constructor].
Qed.

Lemma inv_abort s : stream_inv s -> stream_inv (with_phase Aborted (st_checkpoint s) s).
Proof.
  intros (done_ & pending & Hinv). pose proof Hinv as [Hp Hc Hs _ _ _].
  eapply (inv_with_phase _ _ done_ pending done_ pending); [done|done| |done|done]. by eapply progress_prefix.
Qed.

Context (collected : collect_all_signatures fuel (bridge_state_pda config)
  (if bool_decide (last_signature start_checkpoint = zeros 64) then None else Some (last_signature start_checkpoint))
  (signature_batch_size config) = Some (Ok (reverse sigs))).

Lemma inv_run s s' : stream_inv s -> run_stream fuel config s = Some s' -> stream_inv s'.
Proof.
  intros (done_ & pending & Hinv). pose proof Hinv as [Hp Hc Hs Hcov Hr Hok]. unfold run_stream, progress in *.
  destruct (st_phase s) as [|[|sig todo]|record todo| | |] eqn:Eph; try done.
  - destruct Hp as [-> ->]. rewrite Hc. cbn [checkpoint_after foldl]. rewrite collected. cbn [mbind option_bind].
    rewrite reverse_involutive. intros [= <-]. by apply (inv_with_phase _ _ [] [] [] []).
  - intros [= <-]. destruct Hp as [E ->]. rewrite app_nil_r in E.
    apply (inv_with_phase _ _ done_ [] done_ []); [done|done| |done|done].
    unfold progress. cbn. split; [by rewrite E|]. done.
  - destruct Hp as [E ->]. assert (done_ ++ [sig] ++ todo = sigs) as E' by done.
    destruct (stop_signal (st_link s)) eqn:Est.
    + intros [= <-]. apply (inv_with_phase _ _ done_ [] done_ []); [done..| |done|done]. unfold progress. cbn.
      split; [by exists (sig :: todo)|]. by rewrite Est.
    + intros [= <-]. pose proof (produced_app done_ [sig]) as Hpr. cbn [produced] in Hpr.
      pose proof (checkpoint_after_snoc done_ sig) as Hca. rewrite <- Hc in Hca. unfold advance in Hca.
      rewrite app_assoc in E'. assert (done_ `prefix_of` done_ ++ [sig]) as Hpre by by apply prefix_app_r.
      destruct (process_transaction config sig) as [[record|]|e|] eqn:Ep; cbn [app] in Hpr; rewrite ?app_nil_r in Hpr.
      * eapply (inv_with_phase _ _ done_ [] (done_ ++ [sig]) [record]); [done|done|done|done|].
        intros Ha. rewrite Hpr, <- (Hs Ha). by rewrite app_nil_r.
      * eapply (inv_with_phase _ _ done_ [] (done_ ++ [sig]) []); [done|done|done|done|]. intros Ha. by rewrite Hpr, <- (Hs Ha).
      * eapply (inv_with_phase _ _ done_ [] (done_ ++ [sig]) []); [done|done|done|done|]. intros Ha. by rewrite Hpr, <- (Hs Ha).
      * eapply (inv_with_phase _ _ done_ [] done_ []); [done|done| |done|done]. by exists ([sig] ++ todo).
  - destruct Hp as [E ->]. destruct (receiver_alive (st_link s)) eqn:Ea; cbn [negb].
    + destruct (push record (st_link s)) as [l|] eqn:El; [|done]. intros [= <-].
      destruct (push_spec _ _ _ El) as (Hsent & Hrec & Hlen & Hal & Hst). specialize (Hs eq_refl).
      exists done_, []. constructor; cbn [st_phase st_checkpoint st_slot st_reported st_link]; [done|done| | |by rewrite Hrec|by apply Hlen].
      * intros _. by rewrite app_nil_r, Hsent.
      * set (s1 := {| st_phase := _ |}). assert (Forall (covered done_ s1) (contents (st_slot s) ++ st_reported s)) as Hcov1.
        { eapply Forall_impl; [exact Hcov|]. intros c Hcc. eapply covered_mono; [exact Hcc|done|]. subst s1. cbn [st_link]. intros _.
          split; [done|]. rewrite Hsent. by apply prefix_app_r. }
        pose proof (send_spec (st_checkpoint s) (st_slot s)) as Hslot. destruct (send _ _) as [slot|]; cbn [default]; [|done].
        unfold id. destruct Hslot as (_ & -> & _). apply Forall_app in Hcov1 as [Hc1 Hc2]. rewrite !Forall_app. split; [split; [done|]|done].
        constructor; [|done]. exists done_. split; [done|]. split; [done|]. intros _. subst s1. cbn [st_link]. by rewrite Hsent, Hs.
    + intros [= <-]. apply (inv_with_phase _ _ done_ [record] done_ [record]); [done|done| |done|by rewrite Ea].
      unfold progress. cbn. split; [by exists todo|]. by rewrite Ea.
Qed.

Lemma inv_act a s s' : stream_inv s -> act_stream fuel config a s = Some s' -> stream_inv s'.
Proof.
  intros Hs. pose proof (inv_same_channel _ _ Hs (stop_spec _)) as Hstop.
  pose proof (inv_same_channel _ _ Hs (stop_and_take_spec _)) as Htake. destruct a; cbn [act_stream].
  - by apply inv_run.
  - destruct (receive (st_link s)) as [l|] eqn:El; [|done]. intros [= <-]. by apply inv_receive.
  - intros [= <-]. by apply inv_close.
  - destruct (recv (st_slot s)) as [[c slot]|] eqn:Ec; [|done]. intros [= <-]. by apply inv_take.
  - by intros [= <-].
  - by intros [= <-].
  - intros [= <-]. destruct (_ && _); [exact (inv_abort _ Htake)|done].
Qed.

Lemma inv_perform schedule s : stream_inv s -> stream_inv (perform fuel config schedule s).
Proof.
  revert s. induction schedule as [|a schedule IH]; [done|]. intros s Hs. apply IH.
  destruct (act_stream fuel config a s) as [s'|] eqn:Ea; [by eapply inv_act|done].
Qed.

Lemma inv_start checkpoint : default SyncCheckpoint_new checkpoint = start_checkpoint -> stream_inv (stream_history checkpoint).
Proof.
  intros Hc. destruct (link_new_spec (A:=HistoryRecord) true) as [E Hok]. exists [], []. constructor; try done.
  - intros _. change (sent (link_new (A:=HistoryRecord) true) ++ [] = []). by rewrite E.
  - cbn. destruct (new_channel_spec (A:=SyncCheckpoint) 1) as [_ ->]. constructor.
  - apply prefix_nil.
Qed.

(** *** The end of the task *)

(** The steps the task still has to make, at most. *)
Definition remaining s : nat :=
  match st_phase s with
  | Collecting => 2 * length sigs + 2
  | Ready todo => 2 * length todo + 1
  | Sending _ todo => 2 * length todo + 2
  | Ended | Panicked | Aborted => 0
  end.

(** The task waits for room in the channel. *)
Definition blocked s : bool :=
  match st_phase s with
  | Sending _ _ => receiver_alive (st_link s) && (CHANNEL_CAPACITY <=? len (queue (st_link s)))
  | _ => false
  end.

Lemma blocked_same_channel l' s : same_channel (st_link s) l' -> blocked (with_link l' s) = blocked s.
Proof. intros (_ & _ & E3 & E4 & _). unfold blocked, with_link. cbn [st_phase st_link]. by rewrite E3, E4. Qed.

Lemma remaining_over s : stream_over s = true <-> remaining s = 0%nat.
Proof. unfold stream_over, remaining. destruct (st_phase s); split; try done; lia. Qed.

Lemma run_none s : stream_over s = true -> run_stream fuel config s = None.
Proof. unfold stream_over, run_stream. by destruct (st_phase s). Qed.

Lemma remaining_run s s' : run_stream fuel config s = Some s' -> st_phase s = Collecting -> st_checkpoint s = start_checkpoint ->
  (remaining s' < remaining s)%nat.
Proof.
  unfold run_stream. intros Hs Hp Hc. unfold remaining at 2. rewrite Hp, Hc, collected in *. injection Hs as <-. cbn.
  rewrite reverse_involutive. lia.
Qed.

Lemma run_decreases s s' : run_stream fuel config s = Some s' -> stream_inv s -> (remaining s' < remaining s)%nat.
Proof.
  intros Hs (done_ & pending & [Hp Hc _ _ _ _]). destruct (st_phase s) as [|[|sig todo]|record todo| | |] eqn:Eph.
  - apply remaining_run; [done|done|]. unfold progress in Hp. rewrite Eph in Hp. by destruct Hp as [-> _].
  - unfold run_stream, remaining in *. rewrite Eph in *. injection Hs as <-. cbn. lia.
  - unfold run_stream, remaining in *. rewrite Eph in *. destruct (stop_signal _); [injection Hs as <-; cbn; lia|].
    injection Hs as <-. destruct (process_transaction config sig) as [[r|]|e|]; cbn; lia.
  - unfold run_stream, remaining in *. rewrite Eph in *. destruct (negb _); [injection Hs as <-; cbn; lia|].
    destruct (push _ _); [|done]. injection Hs as <-. cbn. lia.
  - unfold run_stream in Hs. by rewrite Eph in Hs.
  - unfold run_stream in Hs. by rewrite Eph in Hs.
  - unfold run_stream in Hs. by rewrite Eph in Hs.
Qed.

(** The task waits only for room. *)
Lemma run_blocked s : stream_inv s -> run_stream fuel config s = None -> blocked s = true \/ stream_over s = true.
Proof.
  intros (done_ & pending & [Hp Hc _ _ _ Hok]). unfold run_stream, blocked, stream_over, progress in *.
  destruct (st_phase s) as [|[|sig todo]|record todo| | |]; auto; try done.
  - destruct Hp as [-> _]. rewrite Hc. cbn [checkpoint_after foldl]. by rewrite collected.
  - by destruct (stop_signal _).
  - destruct (receiver_alive (st_link s)); [|done]. cbn [negb]. destruct (push record (st_link s)) eqn:El; [done|].
    apply push_waits in El; [|done]. left. by apply Z.leb_le.
Qed.

(** No action adds to what remains, and none but the task's own fills the channel. *)
Definition closer s s' : Prop :=
  (remaining s' < remaining s)%nat \/ ((remaining s' <= remaining s)%nat /\ (blocked s = false -> blocked s' = false)).

Lemma closer_refl s : closer s s.
Proof. right. by split. Qed.

Lemma closer_trans s1 s2 s3 : closer s1 s2 -> closer s2 s3 -> closer s1 s3.
Proof.
  intros [?|[? H12]] [?|[? H23]]; [left; lia|left; lia|left; lia|]. right. split; [lia|auto].
Qed.

Lemma act_closer a s s' : stream_inv s -> act_stream fuel config a s = Some s' -> closer s s'.
Proof.
  intros Hinv. unfold closer. destruct a; cbn [act_stream].
  - intros Hs. left. by apply run_decreases.
  - destruct (receive (st_link s)) as [l|] eqn:El; [|done]. intros [= <-]. right. split; [done|].
    destruct (receive_spec _ _ El) as (_ & _ & Hlen & _ & _ & Ha & _). unfold blocked. cbn. destruct (st_phase s); try done.
    rewrite Ha. destruct (receiver_alive (st_link s)); [|done]. cbn. rewrite !Z.leb_gt. lia.
  - intros [= <-]. right. split; [done|]. unfold blocked. cbn. by destruct (st_phase s).
  - destruct (recv (st_slot s)); [|done]. intros [= <-]. by right.
  - intros [= <-]. right. split; [done|]. by rewrite (blocked_same_channel _ _ (stop_spec _)).
  - intros [= <-]. right. split; [done|]. by rewrite (blocked_same_channel _ _ (stop_and_take_spec _)).
  - intros [= <-]. destruct (_ && _); right; (split; [unfold remaining; cbn; lia|]); [done|].
    by rewrite (blocked_same_channel _ _ (stop_and_take_spec _)).
Qed.

Lemma perform_app l1 l2 s : perform fuel config (l1 ++ l2) s = perform fuel config l2 (perform fuel config l1 s).
Proof. unfold perform. by rewrite fold_left_app. Qed.

Lemma perform_closer schedule s : stream_inv s -> closer s (perform fuel config schedule s).
Proof.
  revert s. induction schedule as [|a schedule IH]; intros s Hinv; [apply closer_refl|].
  change (a :: schedule) with ([a] ++ schedule). rewrite perform_app. unfold perform at 2. cbn [fold_left].
  destruct (act_stream fuel config a s) as [s'|] eqn:Ea; cbn [default]; [|by apply IH].
  eapply closer_trans; [by eapply act_closer|]. apply IH. by eapply inv_act.
Qed.

(** In a round the receiver takes a record and after that the task gets its turn. *)
Definition fair_round (round : list action) : Prop :=
  exists before between after_, round = before ++ Receive :: between ++ Run :: after_.

Lemma receive_unblocks s : stream_inv s -> blocked (perform fuel config [Receive] s) = false.
Proof.
  intros (done_ & pending & [_ _ _ _ _ Hok]). unfold perform. cbn [fold_left act_stream].
  destruct (receive (st_link s)) as [l|] eqn:El; cbn [mbind option_bind default].
  - destruct (receive_spec _ _ El) as (_ & _ & Hlen & _). destruct Hok as [_ Hq]. unfold blocked. cbn.
    destruct (st_phase s); try done. apply andb_false_iff. right. apply Z.leb_gt. lia.
  - unfold blocked. destruct (st_phase s); try done. destruct (receiver_alive (st_link s)) eqn:Ea; [|done].
    by rewrite (receive_waits _ Ea El).
Qed.

Lemma run_unblocked s : stream_inv s -> blocked s = false ->
  (remaining (perform fuel config [Run] s) < remaining s)%nat \/ remaining s = 0%nat.
Proof.
  intros Hinv Hb. unfold perform. cbn [fold_left act_stream]. destruct (run_stream fuel config s) as [s'|] eqn:Er; cbn [default].
  - left. by apply run_decreases.
  - right. apply remaining_over. destruct (run_blocked _ Hinv Er); congruence.
Qed.

Lemma round_decreases round s : stream_inv s -> fair_round round ->
  (remaining (perform fuel config round s) < remaining s)%nat \/ remaining (perform fuel config round s) = 0%nat.
Proof.
  intros Hinv (l1 & l2 & l3 & ->). change (Receive :: l2 ++ Run :: l3) with ([Receive] ++ l2 ++ [Run] ++ l3).
  rewrite !perform_app. set (s1 := perform fuel config l1 s). assert (stream_inv s1) as Hs1 by by apply inv_perform.
  pose proof (receive_unblocks _ Hs1) as Hb. set (s2 := perform fuel config [Receive] s1) in *.
  assert (stream_inv s2) as Hs2 by by apply inv_perform. set (s3 := perform fuel config l2 s2).
  assert (stream_inv s3) as Hs3 by by apply inv_perform. set (s4 := perform fuel config [Run] s3).
  assert (stream_inv s4) as Hs4 by by apply inv_perform. set (s5 := perform fuel config l3 s4).
  pose proof (perform_closer l1 s Hinv) as C1. pose proof (perform_closer [Receive] s1 Hs1) as C2.
  pose proof (perform_closer l2 s2 Hs2) as C3. pose proof (perform_closer [Run] s3 Hs3) as C4.
  pose proof (perform_closer l3 s4 Hs4) as C5. pose proof (run_unblocked s3 Hs3) as C6.
  fold s1 in C1. fold s2 in C2. fold s3 in C3. fold s4 in C4, C6. fold s5 in C5.
  unfold closer in *. destruct C3 as [C3|[C3 Hb3]]; [|specialize (C6 (Hb3 Hb))]; lia.
Qed.

Lemma rounds_end rounds s : stream_inv s -> Forall fair_round rounds -> (remaining s <= length rounds)%nat ->
  stream_over (perform fuel config (concat rounds) s) = true.
Proof.
  revert s. induction rounds as [|round rounds IH]; intros s Hinv Hfair Hlen; cbn [concat length] in *.
  - apply remaining_over. unfold perform. cbn. lia.
  - apply Forall_cons in Hfair as [Hr Hrs]. rewrite perform_app. apply IH; [by apply inv_perform|done|].
    destruct (round_decreases _ _ Hinv Hr); lia.
Qed.

(** *** Nobody interferes *)

(** The actions of a receiver that stays and of a handle that only reads checkpoints. *)
Definition peaceful (a : action) : Prop := match a with Run | Receive | GetCheckpoint => True | _ => False end.

Definition undisturbed s : Prop :=
  receiver_alive (st_link s) = true /\ stop_signal (st_link s) = false /\ st_phase s <> Panicked /\ st_phase s <> Aborted.

Context (no_panic : Forall (fun sig => process_transaction config sig <> Panic) sigs).

Lemma undisturbed_run s s' : stream_inv s -> undisturbed s -> run_stream fuel config s = Some s' -> undisturbed s'.
Proof.
  intros (done_ & pending & [Hp Hc _ _ _ _]) (Ha & Hst & Hph1 & Hph2). unfold run_stream, progress, undisturbed in *.
  destruct (st_phase s) as [|[|sig todo]|record todo| | |]; try done.
  - destruct Hp as [-> _]. rewrite Hc. cbn [checkpoint_after foldl]. rewrite collected. by intros [= <-].
  - by intros [= <-].
  - rewrite Hst. destruct Hp as [E _]. assert (process_transaction config sig <> Panic) as Hnp.
    { rewrite Forall_forall in no_panic. apply no_panic. rewrite E. apply elem_of_app. right. by left. }
    intros [= <-]. by destruct (process_transaction config sig) as [[r|]|e|].
  - rewrite Ha. cbn [negb]. destruct (push record (st_link s)) as [l|] eqn:El; [|done].
    destruct (push_spec _ _ _ El) as (_ & _ & _ & E1 & E2). intros [= <-]. cbn. by rewrite E1, E2.
Qed.

Lemma undisturbed_act a s s' :
  peaceful a -> stream_inv s -> undisturbed s -> act_stream fuel config a s = Some s' -> undisturbed s'.
Proof.
  destruct a; cbn [peaceful act_stream]; intros Hpeace Hinv Hu; try done.
  - by apply undisturbed_run.
  - destruct (receive (st_link s)) as [l|] eqn:El; [|done]. intros [= <-].
    destruct (receive_spec _ _ El) as (_ & _ & _ & _ & _ & E1 & E2 & _). unfold undisturbed in *. cbn. by rewrite E1, E2.
  - destruct (recv (st_slot s)); [|done]. by intros [= <-].
Qed.

Lemma undisturbed_perform schedule s :
  Forall peaceful schedule -> stream_inv s -> undisturbed s -> undisturbed (perform fuel config schedule s).
Proof.
  intros Hs. revert s. induction Hs as [|a schedule Ha _ IH]; intros s Hinv Hu; [done|]. unfold perform. cbn [fold_left].
  destruct (act_stream fuel config a s) as [s'|] eqn:Ea; cbn [default].
  - apply IH; [by eapply inv_act|by eapply undisturbed_act].
  - by apply IH.
Qed.

(** The loop by itself, as [HistorySync] has it. *)
Lemma stream_records_all n l c :
  Forall (fun sig => process_transaction config sig <> Panic) l ->
  stream_records config (fun _ => false) (fun _ => true) n l c = Ok (produced l, foldl advance c l).
Proof.
  intros Hl. revert n c. induction Hl as [|sig l Hsig _ IH]; intros n c; [done|]. cbn [stream_records produced foldl].
  unfold advance at 2. destruct (process_transaction config sig) as [[r|]|e|]; rewrite ?IH; done.
Qed.

Lemma undisturbed_end s : stream_inv s -> undisturbed s -> stream_over s = true ->
  st_phase s = Ended /\
  stream_loop fuel config (fun _ => false) (fun _ => true) start_checkpoint = Some (Ok (sent (st_link s), st_checkpoint s)).
Proof.
  intros (done_ & pending & [Hp Hc Hs _ _ _]) (Ha & Hst & Hph1 & Hph2) Hover. unfold stream_over, progress in *.
  destruct (st_phase s); try done. split; [done|]. destruct Hp as [_ Hend]. destruct (Hend Ha) as [-> Hall].
  specialize (Hall Hst). subst done_. specialize (Hs Ha). rewrite app_nil_r in Hs.
  unfold stream_loop. rewrite collected. cbn [mbind option_bind]. by rewrite reverse_involutive, stream_records_all, Hs, Hc.
Qed.
End stream.

Section theorems.
Context `{ForeignErrors} `{!RpcServer} `{HashMapOrder} `{Channels}.
Context (fuel : nat) (config : HistorySyncConfig) (checkpoint : option SyncCheckpoint).

(** Where the stream starts, and that the transactions after it are [sigs], oldest first. *)
Definition from : SyncCheckpoint := default SyncCheckpoint_new checkpoint.
Definition collects (sigs : list Signature) : Prop :=
  collect_all_signatures fuel (bridge_state_pda config)
    (if bool_decide (last_signature from = zeros 64) then None else Some (last_signature from))
    (signature_batch_size config) = Some (Ok (reverse sigs)).

(** [C33] Whatever the task, the owner of the receiver and the owner of the handle do, and in
    whatever order: what has been received is the beginning of the records of the
    transactions behind the checkpoint, oldest first and without gaps; the channel holds
    at most its capacity; every checkpoint that was reported is the one behind the first
    transactions, as many as there may be, whose records have all been sent if the
    receiver is still there; and a task that has ended by itself, the receiver being
    there, has sent the records of all of them. *)
Theorem stream_delivers sigs schedule :
  collects sigs ->
  let s := perform fuel config schedule (stream_history checkpoint) in
  received (st_link s) `prefix_of` produced config sigs /\
  len (queue (st_link s)) <= CHANNEL_CAPACITY /\
  Forall (fun c => exists d, d `prefix_of` sigs /\ c = checkpoint_after config from d /\
    (receiver_alive (st_link s) = true -> produced config d `prefix_of` received (st_link s) ++ queue (st_link s))) (st_reported s) /\
  (st_phase s = Ended -> stop_signal (st_link s) = false -> receiver_alive (st_link s) = true ->
    received (st_link s) ++ queue (st_link s) = produced config sigs /\ st_checkpoint s = checkpoint_after config from sigs).
Proof.
  intros Hcol s. destruct (inv_perform fuel config from sigs Hcol schedule (stream_history checkpoint)) as (done_ & pending & Hinv).
  { by apply inv_start. }
  fold s in Hinv. pose proof (progress_prefix _ _ _ _ (inv_progress _ _ _ _ _ _ Hinv)) as Hpre.
  destruct Hinv as [Hp Hc Hs Hcov Hr [_ Hq]]. split; [done|]. split; [done|]. split.
  - apply Forall_app in Hcov as [_ Hcov]. eapply Forall_impl; [exact Hcov|]. intros c (d & Hd & Hcd & Hsent).
    exists d. split; [by etrans|done].
  - intros Hph Hst Ha. unfold progress in Hp. rewrite Hph in Hp. destruct Hp as [_ Hend]. destruct (Hend Ha) as [-> Hall].
    rewrite <- (Hall Hst). split; [|done]. rewrite <- (Hs Ha). by rewrite app_nil_r.
Qed.

(** [C34] The task ends under every schedule in which, twice as often as there are
    transactions and two times more, the receiver takes a record and the task gets a turn
    after it, whatever else happens in between.  When nobody interferes and no
    transaction panics, it has then sent what the loop by itself produces, and its
    checkpoint is the loop's. *)
Theorem stream_ends sigs schedule rounds :
  collects sigs -> Forall fair_round rounds -> (2 * length sigs + 2 <= length rounds)%nat ->
  let s := perform fuel config (schedule ++ concat rounds) (stream_history checkpoint) in
  stream_over s = true /\
  (Forall (fun sig => process_transaction config sig <> Panic) sigs -> Forall peaceful (schedule ++ concat rounds) ->
    st_phase s = Ended /\
    stream_loop fuel config (fun _ => false) (fun _ => true) from =
      Some (Ok (received (st_link s) ++ queue (st_link s), st_checkpoint s))).
Proof.
  intros Hcol Hfair Hlen s. assert (stream_inv config from sigs (stream_history checkpoint)) as Hinv by by apply inv_start.
  assert (stream_over s = true) as Hover.
  { subst s. rewrite perform_app. apply (rounds_end fuel config from sigs Hcol); [by apply inv_perform|done|].
    destruct (perform_closer fuel config from sigs Hcol schedule _ Hinv) as [Hm|[Hm _]]; unfold remaining at 2 in Hm; cbn in Hm; lia. }
  split; [done|]. intros Hnp Hpeace. apply (undisturbed_end fuel config from sigs Hcol Hnp s); [by apply inv_perform| |done].
  by apply (undisturbed_perform fuel config from sigs Hcol Hnp).
Qed.

Lemma link_ok_act a s s' : link_ok (st_link s) -> act_stream fuel config a s = Some s' -> link_ok (st_link s').
Proof.
  intros Hok. destruct a; cbn [act_stream].
  - unfold run_stream. destruct (st_phase s) as [|[|sig todo]|record todo| | |]; try done.
    + destruct (collect_all_signatures _ _ _ _); [|done]. by intros [= <-].
    + by intros [= <-].
    + destruct (stop_signal _); intros [= <-]; [done|]. by destruct (process_transaction config sig) as [[r|]|e|].
    + destruct (negb _); [by intros [= <-]|]. destruct (push record (st_link s)) as [l|] eqn:El; [|done]. intros [= <-].
      destruct (push_spec _ _ _ El) as (_ & _ & E & _). by apply E.
  - destruct (receive (st_link s)) as [l|] eqn:El; [|done]. intros [= <-].
    destruct (receive_spec _ _ El) as (_ & _ & _ & E & _). by apply E.
  - by intros [= <-].
  - destruct (recv (st_slot s)); [|done]. by intros [= <-].
  - intros [= <-]. by apply (stop_spec (st_link s)).
  - intros [= <-]. by apply (stop_and_take_spec (st_link s)).
  - intros [= <-]. destruct (_ && _); by apply (stop_and_take_spec (st_link s)).
Qed.

Lemma link_ok_perform schedule s : link_ok (st_link s) -> link_ok (st_link (perform fuel config schedule s)).
Proof.
  revert s. induction schedule as [|a schedule IH]; [done|]. intros s Hok. apply IH.
  destruct (act_stream fuel config a s) as [s'|] eqn:Ea; [by eapply link_ok_act|done].
Qed.

(** A task that waits for room waits on until somebody receives, drops the receiver or
    aborts it: [join] on it, which only sends the stop signal, never returns. *)
Lemma join_waits schedule s :
  link_ok (st_link s) -> blocked s = true -> Forall (fun a => match a with Receive | CloseReceiver | Abort => False | _ => True end) schedule ->
  let s' := perform fuel config schedule s in blocked s' = true /\ stream_over s' = false.
Proof.
  intros Hok Hb Hsched s'. enough (blocked s' = true) as Hb'.
  { split; [done|]. unfold blocked in Hb'. unfold stream_over. by destruct (st_phase s'). }
  subst s'. revert s Hok Hb. induction Hsched as [|a schedule Ha _ IH]; [done|]. intros s Hok Hb. unfold perform. cbn [fold_left].
  destruct a; try done; cbn [act_stream].
  - replace (run_stream fuel config s) with (@None SyncTask); [by apply IH|]. unfold run_stream. unfold blocked in Hb.
    destruct (st_phase s) as [| |r todo| | |]; try done. apply andb_true_iff in Hb as [-> Hfull]. cbn [negb].
    apply Z.leb_le in Hfull. by rewrite (proj2 (push_waits r (st_link s) Hok) Hfull).
  - destruct (recv (st_slot s)); by apply IH.
  - destruct (stop_spec (st_link s)) as (_ & _ & _ & _ & E & _). apply IH; [by apply E|].
    change (blocked (with_link (stop (st_link s)) s) = true). by rewrite (blocked_same_channel _ _ (stop_spec _)).
  - destruct (stop_and_take_spec (st_link s)) as (_ & _ & _ & _ & E & _). apply IH; [by apply E|].
    change (blocked (with_link (stop_and_take (st_link s)) s) = true). by rewrite (blocked_same_channel _ _ (stop_and_take_spec _)).
Qed.
End theorems.

(** ** The monitors *)

Section monitors.
Context `{ForeignErrors} `{Channels} {Event : Type}.
Context (parse : RpcServer -> Signature -> Monitor.result (option Event)) (address : Pubkey) (batch_size : Z).
Notation act := (act_monitor parse address batch_size).
Notation perform_all := (perform_monitor parse address batch_size).
Implicit Types (m : @MonitorTask _ Event).

(** The events a step finds on the chain: those of the poll, when it is a poll. *)
Definition polled (a : monitor_action) m : list Event :=
  match a, mt_phase m with
  | MTick server, Waiting => (@Monitor.poll_once _ _ server (parse server) address batch_size (fun _ => true) (mt_after m)).1.1
  | _, _ => []
  end.

(** The events of all polls of a schedule. *)
Fixpoint polls (schedule : list monitor_action) m : list Event :=
  match schedule with
  | [] => []
  | a :: schedule => polled a m ++ polls schedule (default m (act a m))
  end.

(** The events of the poll that is being delivered. *)
Definition in_hand m : list Event := match mt_phase m with Delivering events _ => events | _ => [] end.

Record monitor_inv (found : list Event) m : Prop := {
  mi_sent : receiver_alive (mt_link m) = true -> mt_phase m <> MonitorAborted -> sent (mt_link m) ++ in_hand m = found;
  mi_received : received (mt_link m) `prefix_of` found;
  mi_sent_prefix : receiver_alive (mt_link m) = true -> sent (mt_link m) `prefix_of` found;
  mi_link : link_ok (mt_link m);
  mi_ended : mt_phase m = MonitorEnded -> stop_signal (mt_link m) = true;
  mi_over : mt_phase m = MonitorAborted -> join_handle (mt_link m) = false
}.

Lemma monitor_inv_phase phase found m :
  monitor_inv found m -> monitor_over m = false ->
  (receiver_alive (mt_link m) = true -> in_hand (in_phase phase m) = in_hand m \/ phase = MonitorAborted) ->
  (phase = MonitorEnded -> stop_signal (mt_link m) = true) -> (phase = MonitorAborted -> join_handle (mt_link m) = false) ->
  monitor_inv found (in_phase phase m).
Proof.
  intros [Hs Hr Hp Hok He Ho] Hover Hhand Hend Hab. constructor; try done. cbn [mt_link in_phase mt_phase]. intros Ha Hna.
  destruct (Hhand Ha) as [-> |]; [|done]. apply Hs; [done|]. intros E. unfold monitor_over in Hover. by rewrite E in Hover.
Qed.

Lemma monitor_inv_link l' found m :
  monitor_inv found m ->
  (receiver_alive l' = true -> receiver_alive (mt_link m) = true /\ sent l' = sent (mt_link m)) ->
  (stop_signal (mt_link m) = true -> stop_signal l' = true) -> (join_handle (mt_link m) = false -> join_handle l' = false) ->
  received l' `prefix_of` found -> link_ok l' ->
  monitor_inv found (on_link l' m).
Proof.
  intros [Hs Hr Hp Hok He Ho] Hl Hst Hj Hr' Hok'. constructor; cbn [mt_link on_link mt_phase]; auto.
  - intros Ha Hph. destruct (Hl Ha) as [Ha' ->]. by apply Hs.
  - intros Ha. destruct (Hl Ha) as [Ha' ->]. by apply Hp.
Qed.

Lemma monitor_inv_handle found m :
  monitor_inv found m -> monitor_inv found (on_link (stop (mt_link m)) m) /\ monitor_inv found (on_link (stop_and_take (mt_link m)) m).
Proof.
  intros Hinv. pose proof Hinv as [_ Hr _ Hok _ _]. destruct (stop_spec (mt_link m)) as (E1 & E2 & _ & E4 & E5 & E6).
  destruct (stop_and_take_spec (mt_link m)) as (F1 & F2 & _ & F4 & F5 & F6).
  split; apply monitor_inv_link; rewrite ?E1, ?E2, ?E4, ?F1, ?F2, ?F4; auto. unfold stop. by destruct (stop_sender _).
Qed.

Lemma monitor_inv_act a found m m' :
  monitor_inv found m -> act a m = Some m' -> monitor_inv (found ++ polled a m) m'.
Proof.
  intros Hinv. pose proof Hinv as [Hs Hr Hp Hok He Ho]. destruct (monitor_inv_handle _ _ Hinv) as [Hstop Htake].
  destruct a as [server| | | | | | |]; cbn [act_monitor polled]; try rewrite app_nil_r.
  - unfold tick_monitor, polled. destruct (mt_phase m) eqn:Eph; try done.
    destruct (Monitor.poll_once _ _ _ _ _) as [[events after] outcome]. intros [= <-]. unfold in_hand in Hs. rewrite Eph, app_nil_r in Hs.
    constructor; cbn [mt_link mt_phase in_hand fst]; try done.
    + intros Ha _. by rewrite Hs.
    + by apply prefix_app_r.
    + intros Ha. apply prefix_app_r. by apply Hp.
  - unfold heed_stop. destruct (mt_phase m) eqn:Eph; try done. destruct (stop_signal (mt_link m)) eqn:Est; [|done]. intros [= <-].
    apply monitor_inv_phase; try done; [unfold monitor_over; by rewrite Eph|]. intros _. left. unfold in_hand. by rewrite Eph.
  - unfold deliver_event. destruct (mt_phase m) as [|[|event events] panics| | |] eqn:Eph; try done.
    + intros [= <-]. apply monitor_inv_phase; try done; [unfold monitor_over; by rewrite Eph| | |].
      * intros _. left. unfold in_hand. rewrite Eph. by destruct panics.
      * by destruct panics.
      * by destruct panics.
    + destruct (receiver_alive (mt_link m)) eqn:Ea; cbn [negb].
      * destruct (push event (mt_link m)) as [l|] eqn:El; [|done]. intros [= <-].
        destruct (push_spec _ _ _ El) as (Hsent & Hrec & Hlen & Hal & Hst).
        assert (sent l ++ events = found) as Hfound.
        { rewrite Hsent. unfold in_hand in Hs. rewrite Eph in Hs. rewrite <- Hs by done. by rewrite <- app_assoc. }
        constructor; cbn [mt_link mt_phase in_hand]; try done.
        -- by rewrite Hrec.
        -- intros _. rewrite <- Hfound. by apply prefix_app_r.
        -- by apply Hlen.
      * intros [= <-]. apply monitor_inv_phase; try done; [unfold monitor_over; by rewrite Eph|]. by rewrite Ea.
  - destruct (receive (mt_link m)) as [l|] eqn:El; [|done]. intros [= <-].
    destruct (receive_spec _ _ El) as (E1 & _ & _ & E3 & Ha & E4 & E5 & E6).
    apply monitor_inv_link; [done|by rewrite E1|by rewrite E5|by rewrite E6| |by apply E3].
    trans (sent l); [by apply prefix_app_r|]. rewrite E1. by apply Hp.
  - intros [= <-]. by apply monitor_inv_link.
  - by intros [= <-].
  - by intros [= <-].
  - destruct (join_handle (mt_link m) && negb (monitor_over m)) eqn:Ec; intros [= <-]; [|done].
    apply andb_true_iff in Ec as [_ Hov]. apply negb_true_iff in Hov. apply monitor_inv_phase; try done. intros _. by right.
Qed.

Lemma monitor_inv_perform schedule found m :
  monitor_inv found m -> monitor_inv (found ++ polls schedule m) (perform_all schedule m).
Proof.
  revert found m. induction schedule as [|a schedule IH]; intros found m Hinv; [by rewrite app_nil_r|].
  cbn [polls]. unfold perform_monitor. cbn [fold_left]. rewrite app_assoc. destruct (act a m) as [m'|] eqn:Ea; cbn [default].
  - apply IH. by eapply monitor_inv_act.
  - apply IH. enough (polled a m = []) as ->; [by rewrite app_nil_r|]. destruct a; try done. cbn [act_monitor] in Ea.
    unfold polled, tick_monitor in *. destruct (mt_phase m); try done. by destruct (Monitor.poll_once _ _ _ _ _) as [[events after] outcome].
Qed.

(** [C35] Whatever the monitor, the chain, the owner of the receiver and the owner of the
    handle do: what has been received is the beginning of the events that the polls found,
    in their order; with what is in the channel and what is on its way it is all of them,
    as long as the receiver is there and the monitor was not aborted; the channel holds at
    most its capacity; and the loop ends only on the stop signal. *)
Theorem monitor_delivers schedule subscribed after :
  let m := perform_all schedule (start subscribed after) in
  let found := polls schedule (start subscribed after) in
  received (mt_link m) `prefix_of` found /\
  (receiver_alive (mt_link m) = true -> mt_phase m <> MonitorAborted ->
    received (mt_link m) ++ queue (mt_link m) ++ in_hand m = found) /\
  len (queue (mt_link m)) <= CHANNEL_CAPACITY /\
  (mt_phase m = MonitorEnded -> stop_signal (mt_link m) = true).
Proof.
  intros m found. destruct (monitor_inv_perform schedule [] (start subscribed after)) as [Hs Hr _ [_ Hq] He _].
  { destruct (link_new_spec (A:=Event) subscribed) as [E Hok]. constructor; try done; unfold start; cbn [mt_link]; by rewrite E. }
  split; [done|]. split; [|done]. intros Ha Hph. rewrite app_assoc. by apply Hs.
Qed.

(** Nothing but the stop signal, an abort or a panic ends a monitor; dropping the receiver
    does not: it polls on, and throws away what it finds. *)
Definition goes_on m : Prop :=
  stop_signal (mt_link m) = false /\ mt_phase m <> MonitorEnded /\ mt_phase m <> MonitorAborted.

Lemma goes_on_act a m m' :
  match a with MStop | MJoin | MAbort => False | _ => True end -> goes_on m -> act a m = Some m' -> goes_on m'.
Proof.
  intros Ha (Hst & Hp1 & Hp2). destruct a as [server| | | | | | |]; try done; cbn [act_monitor].
  - unfold tick_monitor. destruct (mt_phase m); try done. destruct (Monitor.poll_once _ _ _ _ _) as [[? ?] ?]. by intros [= <-].
  - unfold heed_stop. destruct (mt_phase m); try done. by rewrite Hst.
  - unfold deliver_event. destruct (mt_phase m) as [|[|event events] panics| | |]; try done.
    + intros [= <-]. by destruct panics.
    + destruct (negb _); [by intros [= <-]|]. destruct (push event (mt_link m)) as [l|] eqn:El; [|done]. intros [= <-].
      destruct (push_spec _ _ _ El) as (_ & _ & _ & _ & E). unfold goes_on. cbn. by rewrite E.
  - destruct (receive (mt_link m)) as [l|] eqn:El; [|done]. intros [= <-].
    destruct (receive_spec _ _ El) as (_ & _ & _ & _ & _ & _ & E & _). unfold goes_on. cbn. by rewrite E.
  - by intros [= <-].
Qed.

Lemma monitor_goes_on schedule m :
  goes_on m -> Forall (fun a => match a with MStop | MJoin | MAbort => False | _ => True end) schedule ->
  goes_on (perform_all schedule m).
Proof.
  intros Hm Hs. revert m Hm. induction Hs as [|a schedule Ha _ IH]; intros m Hm; [done|]. unfold perform_monitor. cbn [fold_left].
  apply IH. destruct (act a m) as [m'|] eqn:Ea; [by eapply goes_on_act|done].
Qed.
End monitors.
