(* ===== verification/Scenario.v ===== *)
(** * Scenario: one small history run through the model

    A bridge is initialised, receives a block with one pending mint, pays it out,
    takes a withdrawal request and pays the operator.  The witnesses of the
    theorems on the bridge state are instances at the states of this history, with
    FIPS SHA-256, a verifier that accepts and a token program that succeeds. *)
From S2P Require Import Prelude Pod Hash Sha256 Errors MerkleProof AppendTree TxoIndex Fees Types PublicInputs MintGroup ProgramState StateProofs BlockUpdate BlockUpdateProofs Payout Ledger StateTypes.
From Stdlib Require Import ZArith Lia.
From stdpp Require Import base decidable list numbers option.

Open Scope Z_scope.
Open Scope bridge_scope.

#[local] Existing Instance fips_sha256.
#[local] Existing Instance fips_sha256_laws.

Definition accept_all : ZkVerifier := fun _ _ _ => true.
#[local] Existing Instance accept_all.

Definition mint_ok (p : Z) (r : bytes) (a : Z) : res DogeBridgeError unit := Ok tt.
Definition burn_ok (r : bytes) (a : Z) : res DogeBridgeError unit := Ok tt.

(** Addresses: the bridge state account, the mint buffer, a user. *)
Definition program_id : bytes := replicate 32 5.
Definition account : bytes := replicate 32 6.
Definition user : bytes := replicate 32 3.

(** ** Initialisation at height 100 *)

Definition finalized_at (height next_index : Z) (mints txos : QHash256) : PsyBridgeStateCommitment :=
  {| sc_block_hash := zeros 32; sc_block_merkle_tree_root := replicate 32 1;
     sc_pending_mints_finalized_hash := mints; sc_txo_output_list_finalized_hash := txos;
     sc_auto_claimed_txo_tree_root := zeros 32; sc_auto_claimed_deposits_tree_root := replicate 32 2;
     sc_auto_claimed_deposits_next_index := next_index; sc_block_height := height |}.

Definition header_at (tip : Z) (fin : PsyBridgeStateCommitment) (fees : Z) : PsyBridgeHeader :=
  {| tip_state := {| tip_block_hash := zeros 32; tip_block_merkle_tree_root := zeros 32;
                     tip_block_time := 0; tip_block_height := tip |};
     finalized_state := fin; bridge_state_hash := zeros 32; last_rollback_at_secs := 0;
     paused_until_secs := 0; total_finalized_fees_collected_chain_history := fees |}.

Definition ix : InitializeBridgeInstructionData :=
  {| init_operator_pubkey := replicate 32 7; init_fee_spender_pubkey := replicate 32 8;
     init_doge_mint := replicate 32 9;
     init_bridge_header := header_at 105 (finalized_at 100 0 PM_DA_DEFAULT_PENDING_MINTS_BUFFER_HASH
                                            PM_TXO_DEFAULT_BUFFER_HASH) 0;
     init_start_return_txo_output := zeroed PsyReturnTxOutput;
     init_config_params :=
       {| deposit_fee_rate_numerator := 1; deposit_fee_rate_denominator := 100;
          withdrawal_fee_rate_numerator := 1; withdrawal_fee_rate_denominator := 100;
          deposit_flat_fee_sats := 10; withdrawal_flat_fee_sats := 10 |};
     init_custodian_wallet_config_hash := zeros 32 |}.

Definition state0 : PsyBridgeProgramState := initialize (zeroed PsyBridgeProgramState) ix.

(** ** Block 101 with one mint *)

Definition mint_header : PendingMintsBufferStateHeader :=
  {| authorized_locker_public_key := program_id; authorized_writer_public_key := zeros 32; is_locked := 1;
     mode := 0; pending_mint_groups_count := 1; pending_mints_initialized := 1; pending_mints_count := 1 |}.
Definition group_hash : bytes := replicate 32 4.
Definition mint_buffer : bytes :=
  bytes_of mint_header ++ group_hash ++ bytes_of {| recipient := user; amount := 5000 |}.
Definition txo_buffer : bytes :=
  bytes_of {| txo_authorized_writer := zeros 32; txo_init_status := 1; txo_finalized_status := 1;
              txo_doge_block_height := 101; txo_batch_id := 0; txo_data_size := 4 |} ++ [1; 0; 0; 0].

Definition mint_hash : QHash256 := sha256 ([1; 0] ++ group_hash).
Definition txo_hash : QHash256 := sha256 [1; 0; 0; 0].

Definition header1 : PsyBridgeHeader := header_at 106 (finalized_at 101 1 mint_hash txo_hash) 50.

Definition state1 : PsyBridgeProgramState :=
  (run_standard_single_block_transition state0 (zeros 256) (zeros 32) header1 program_id account
     txo_buffer mint_buffer).2.

Lemma state1_run :
  run_standard_single_block_transition state0 (zeros 256) (zeros 32) header1 program_id account
    txo_buffer mint_buffer = (Ok tt, state1).
Proof. vm_compute. reflexivity. Qed.

Lemma mint_buffer_bytes : Forall is_byte mint_buffer.
Proof. apply (bool_decide_unpack _). vm_compute. exact I. Qed.

Lemma txo_buffer_bytes : Forall is_byte txo_buffer.
Proof. apply (bool_decide_unpack _). vm_compute. exact I. Qed.

Lemma single_block_transition_sound_witness :
  exists m, state1 = block_stored header1 m state0 /\
    bridge_header state1 = header1 /\ next_recent_finalized_block_index state1 = 1.
Proof.
  destruct (single_block_transition_sound state0 state1 (zeros 256) (zeros 32) header1 program_id account
    txo_buffer mint_buffer txo_buffer_bytes mint_buffer_bytes state1_run) as (_ & _ & _ & _ & m & _ & Hs).
  exists m. split; [exact Hs|]. rewrite Hs. split; reflexivity.
Defined.

(** ** The same block arriving in a reorg that ends at height 102 *)

Definition header2 : PsyBridgeHeader :=
  header_at 107 (finalized_at 102 1 PM_DA_DEFAULT_PENDING_MINTS_BUFFER_HASH PM_TXO_DEFAULT_BUFFER_HASH) 50.
Definition extra1 : list FinalizedBlockMintTxoInfo :=
  [{| pending_mints_finalized_hash := mint_hash; txo_output_list_finalized_hash := txo_hash |}].

Definition state2 : PsyBridgeProgramState :=
  (run_block_transition_reorg state0 (zeros 256) (zeros 32) header2 extra1 program_id account
     txo_buffer mint_buffer).2.

Lemma state2_run :
  run_block_transition_reorg state0 (zeros 256) (zeros 32) header2 extra1 program_id account
    txo_buffer mint_buffer = (Ok tt, state2).
Proof. vm_compute. reflexivity. Qed.

Lemma reorg_transition_sound_witness :
  bridge_header state2 = header2 /\ recent_finalized_blocks state2 = recent_finalized_blocks state0.
Proof.
  destruct (reorg_transition_sound state0 state2 (zeros 256) (zeros 32) header2 extra1 program_id account
    txo_buffer mint_buffer txo_buffer_bytes mint_buffer_bytes state2_run) as (_ & _ & _ & Hh & Hr & _).
  exact (conj Hh Hr).
Defined.

(** ** Paying the mint of block 101 *)

Lemma mint_header_wf : pod_wf mint_header.
Proof.
  split; [apply (bool_decide_unpack (byte_array 32 program_id)); vm_compute; exact I|].
  split; [apply byte_array_zeros|]. repeat (split; [vm_compute; done|]). vm_compute. done.
Qed.

Lemma mint_buffer_is_committed : mint_buffer_committed program_id mint_hash 1 mint_buffer.
Proof.
  exists mint_header, ([1; 0] ++ group_hash). split; [vm_compute; reflexivity|].
  split; [exact mint_header_wf|]. repeat (split; [vm_compute; done|]). vm_compute. reflexivity.
Qed.

Lemma every_pending_mint_paid_exactly_once_witness :
  exists self' payments,
    run_groups mint_ok program_id account mint_buffer state1 [0] = Some (self', payments) /\
    payments ≡ₚ [(user, 5000)].
Proof.
  destruct (every_pending_mint_paid_exactly_once mint_ok program_id account mint_buffer 1 mint_hash
    (fun _ _ _ => eq_refl) ltac:(lia) mint_buffer_is_committed state1 [0]) as (s & ps & Hr & Hp & _).
  - vm_compute. done.
  - vm_compute. done.
  - vm_compute. reflexivity.
  - vm_compute. reflexivity.
  - exists s, ps. split; [exact Hr|]. vm_compute in Hp. exact Hp.
Defined.

(** ** A history: block 101, a withdrawal request, the operator's fees *)

Definition request : PsyWithdrawalRequest :=
  {| wr_amount_sats := 100000; wr_address_type := 0; wr_recipient_address := replicate 20 7 |}.

Lemma request_wf : pod_wf request.
Proof.
  split; [vm_compute; done|]. split; [vm_compute; done|].
  apply (bool_decide_unpack (byte_array 20 (replicate 20 7))). vm_compute. exact I.
Qed.

Definition trace : list operation :=
  [ SingleBlockTransition (zeros 256) (zeros 32) header1 program_id account txo_buffer mint_buffer;
    RequestWithdrawal user request; OperatorWithdrawFees account ].

Definition state3 : PsyBridgeProgramState := (request_withdrawal state1 burn_ok user request).2.
Definition state4 : PsyBridgeProgramState := (run_bridge_operator_withdraw_fees state3 mint_ok account).2.

Lemma trace_reaches : reaches burn_ok mint_ok state0 trace state4.
Proof.
  apply (reaches_step burn_ok mint_ok state0 [_; _] state3 (OperatorWithdrawFees account) state4);
    [|exact I|vm_compute; reflexivity].
  apply (reaches_step burn_ok mint_ok state0 [_] state1 (RequestWithdrawal user request) state3);
    [|exact request_wf|vm_compute; reflexivity].
  apply (reaches_step burn_ok mint_ok state0 [] state0 _ state1); [constructor| |exact state1_run].
  split; [vm_compute; done|]. split; [exact txo_buffer_bytes|exact mint_buffer_bytes].
Qed.

(** A fee of 1010 on the request, and 50 for the block, are paid out. *)
Lemma bridge_state_refines_ledger_witness :
  requested_withdrawals_tree state4 =
    tree_of [bytes_of {| wr_amount_sats := 98990; wr_address_type := 0;
                         wr_recipient_address := replicate 20 7 |}] /\
  total_fees_withdrawn_sats state4 = 1060.
Proof.
  pose proof (bridge_state_refines_ledger burn_ok mint_ok (zeroed _) state4 ix trace trace_reaches
    ltac:(vm_compute; reflexivity)) as Href.
  split; [exact (ref_requests _ _ _ Href)|].
  rewrite (ref_operator_paid _ _ _ Href). vm_compute. reflexivity.
Defined.

Lemma bridge_inv_reachable_witness : bridge_inv state4.
Proof. exact (bridge_inv_reachable burn_ok mint_ok (zeroed _) state4 ix trace trace_reaches). Defined.

Lemma reachable_state_typed_witness : cast (bytes_of state4) = Some state4.
Proof.
  apply (reachable_state_typed burn_ok mint_ok (zeroed _) ix trace state4); [pod_wf_closed| |exact trace_reaches].
  constructor; [|constructor; [exact request_wf|constructor; [exact I|constructor]]].
  split; [pod_wf_closed|]. split; [by apply (bool_decide_unpack _)|].
  split; [exact txo_buffer_bytes|exact mint_buffer_bytes].
Defined.

(** ** A withdrawal transaction is sent, and replayed after a minute *)

Definition doge_tx : bytes := [1; 2; 3].
Definition sighash : QHash256 := sha256 doge_tx.
Definition return_output : PsyReturnTxOutput :=
  {| ro_sighash := sighash; ro_output_index := 1; ro_amount_sats := 7000 |}.
Definition state5 : PsyBridgeProgramState :=
  (run_process_bridge_withdrawal state4 (zeros 256) (zeros 32) doge_tx return_output (zeros 32) 1).2.

Lemma process_withdrawal_sound_witness : sighash = ro_sighash return_output.
Proof.
  assert (run_process_bridge_withdrawal state4 (zeros 256) (zeros 32) doge_tx return_output (zeros 32) 1
    = (Ok sighash, state5)) as Hr by (vm_compute; reflexivity).
  exact (proj1 (proj2 (process_withdrawal_sound state4 state5 (zeros 256) (zeros 32) doge_tx return_output
    (zeros 32) 1 sighash Hr))).
Defined.

Lemma state5_sent : sent_transactions_tree state5 = tree_of [sighash].
Proof.
  assert (append (tree_of []) sighash = Some (tree_of [sighash])) as Ha by (apply append_tree_of; done).
  rewrite tree_of_nil in Ha.
  assert (append new_empty sighash = Some (sent_transactions_tree state5)) as Hb by (vm_compute; reflexivity).
  congruence.
Qed.

Definition replay_proof : FixedMerkleAppendTreePartialMerkleProof :=
  {| fpp_index := 0; fpp_value := sighash; fpp_siblings := zero_siblings |}.

Lemma replay_sound_and_rate_limited_witness :
  exists s, process_replay_withdrawal_proof state5 replay_proof 100 = (Ok true, s) /\
    fpp_value replay_proof = leaf [sighash] 0.
Proof.
  eexists. split; [vm_compute; reflexivity|].
  refine (proj1 (replay_sound_and_rate_limited state5 _ [sighash] replay_proof 100 state5_sent _ _ _ _ _ _)).
  - reflexivity.
  - simpl. lia.
  - cbn [fpp_index fpp_value fpp_siblings replay_proof]. rewrite authentic_siblings_first by done.
    apply collision_free_twice, collision_free_NoDup.
    apply (bool_decide_unpack _). vm_compute. exact I.
  - vm_compute. done.
  - vm_compute. done.
  - vm_compute. reflexivity.
Defined.

(** ** Fees and a manual deposit *)

Lemma operator_fees_paid_once_witness :
  (run_bridge_operator_withdraw_fees_precheck state3).1 = Ok 1060 /\
  get_operator_withdrawable_fees (run_bridge_operator_withdraw_fees_precheck state3).2 = 0.
Proof.
  split; [vm_compute; reflexivity|].
  refine (proj1 (proj2 (proj2 (proj2 (proj2 (operator_fees_paid_once state3
    (run_bridge_operator_withdraw_fees_precheck state3).2 1060 _ _)))))).
  - vm_compute. done.
  - vm_compute. reflexivity.
Defined.

Lemma manual_deposit_sound_witness :
  exists tree, append (manual_deposits_tree state1)
    (hash_deposit_leaf (replicate 32 11) 0 user 4940) = Some tree.
Proof.
  destruct (manual_deposit_sound state1
    (process_manual_claimed_deposit state1 (replicate 32 11) (replicate 32 1) (replicate 32 2) 0 user 5000).2
    (replicate 32 11) (replicate 32 1) (replicate 32 2) 0 user 5000 4940) as (_ & _ & _ & _ & tree & Ht & _).
  - vm_compute. reflexivity.
  - exists tree. exact Ht.
Defined.
