(* ===== verification/BridgeScenario.v ===== *)
(** * BridgeScenario: the programs working together

    A concrete runtime with a token program, the mint buffer program and the message
    shim behind [invoke_signed], which satisfies [CpiLaws] and [BufferCpi], and one
    history of the bridge in it, sent through the client's instructions: the bridge
    is initialised, accepts a block with one mint, pays it, takes a withdrawal request,
    pays the operator's fees and announces a withdrawal transaction.  The witnesses of
    the theorems on the bridge program are instances at the stores of this history, with
    FIPS SHA-256 and a verifier that accepts. *)
From S2P Require Import Prelude Errors Pod Hash Sha256 AppendTree TxoIndex Fees Types PublicInputs Runtime MintBuffer MintBufferProofs TxoBuffer BufferClient MintGroup ProgramState BlockUpdate Payout BridgeInstructions DogeBridge NoopShim Ledger StateTypes DogeBridgeProofs BridgeHistory BridgeSafety ManualClaim BridgeClient Scenario.
From Stdlib Require Import ZArith Lia.
From stdpp Require Import base decidable list numbers option countable gmap fin_maps.
Import BufferClient DogeBridge.

Open Scope Z_scope.
Open Scope bridge_scope.

#[local] Existing Instance fips_sha256.
#[local] Existing Instance fips_sha256_laws.
#[local] Existing Instance accept_all.

(** ** The programs and the runtime *)

Definition bridge_id : Pubkey := replicate 32 31.
Definition mint_buffer_id : Pubkey := replicate 32 32.
Definition txo_buffer_id : Pubkey := replicate 32 33.
Definition generic_buffer_id : Pubkey := replicate 32 34.
Definition claim_id : Pubkey := replicate 32 35.
Definition token_id : Pubkey := replicate 32 36.
Definition shim_id : Pubkey := replicate 32 37.

#[local] Instance ids : ProgramIds := {|
  DOGE_BRIDGE_PROGRAM_ID := bridge_id;
  MANUAL_CLAIM_PROGRAM_ID := claim_id;
  TXO_BUFFER_BUILDER_PROGRAM_ID := txo_buffer_id;
  GENERIC_BUFFER_BUILDER_PROGRAM_ID := generic_buffer_id;
  PENDING_MINT_BUFFER_BUILDER_PROGRAM_ID := mint_buffer_id;
  TOKEN_PROGRAM_ID := token_id
|}.

#[local] Instance test_features : Features := {| mock_zkp := true; wormhole := true; noopshim := false |}.

(** Addresses are hashes of the seeds and the program. *)
Definition derive (seeds : list bytes) (program : Pubkey) : Pubkey := sha256 (concat seeds ++ program).

(** A token account holds its balance in eight bytes. *)
Definition set_balance (w : World) (account : Pubkey) (balance : Z) : res ProgramError World :=
  bail IllegalOwner if negb (key_eqb (owner_at w account) token_id);
  bail InsufficientFunds if (balance <? 0) || (2 ^ 64 <=? balance);
  Ok (set_data w account (le_bytes 8 balance)).
Definition balance_at (w : World) (account : Pubkey) : Z := le_val (data_at w account).

(** The programs that the bridge calls. *)
Definition run_program (base : Runtime) (program : Pubkey) (metas : list AccountMeta) (input : bytes) (w : World)
    : res ProgramError World :=
  let accounts := account_info <$> metas in
  if key_eqb program mint_buffer_id then
    match input, accounts with
    | [4], storage :: _ => MintBuffer.process_lock program accounts storage w
    | [5], storage :: _ => MintBuffer.process_unlock program accounts storage w
    | _, _ => Err InvalidInstructionData
    end
  else if key_eqb program shim_id then NoopShim.process_instruction program accounts input w
  else Err IncorrectProgramId.

Definition bridge_invoke (base : Runtime) (w : World) (i : Instruction) : res ProgramError World :=
  match i with
  | SystemCreateAccount from to amount space new_owner =>
      bail AccountAlreadyInitialized if negb (key_eqb (owner_at w to) system_program_id);
      Ok (<[to := {| lamports := amount; owner := new_owner; data := zeros (Z.to_nat space) |}]> w)
  | TokenMintTo _ account _ amount => set_balance w account (balance_at w account + amount)
  | TokenBurn account _ _ amount => set_balance w account (balance_at w account - amount)
  | RawInstruction program metas input => run_program base program metas input w
  | _ => Err InvalidArgument
  end.

Definition base_runtime : Runtime := {|
  minimum_balance n := 1000 + 7 * n;
  find_program_address seeds program := (derive (seeds ++ [[255]]) program, 255);
  create_program_address seeds program := Some (derive seeds program);
  unix_timestamp := 1700000000;
  realloc w k n := Err InvalidRealloc;
  invoke_signed w i _ _ := Err InvalidArgument
|}.

#[local] Instance bridge_runtime : Runtime := {|
  minimum_balance := @minimum_balance base_runtime;
  find_program_address := @find_program_address base_runtime;
  create_program_address := @create_program_address base_runtime;
  unix_timestamp := @unix_timestamp base_runtime;
  realloc := @realloc base_runtime;
  invoke_signed w i _ _ := bridge_invoke base_runtime w i
|}.

(** ** The runtime obeys the rules *)

(** Decides a closed proposition by evaluation. *)
Ltac decide_closed := apply (bool_decide_unpack _); vm_compute; exact I.

Lemma buffer_program_frame program accounts storage w w' :
  MintBuffer.process_lock program accounts storage w = Ok w' \/
  MintBuffer.process_unlock program accounts storage w = Ok w' ->
  owner_at w (key storage) = program /\ exists d, w' = set_data w (key storage) d /\
    (Forall is_byte (data_at w (key storage)) -> Forall is_byte d).
Proof.
  intros Hr.
  assert (owner_at w (key storage) = program /\ exists f, MintBuffer.update_header w (key storage) f = Ok w' /\
    forall h h', pod_wf h -> f h = Ok h' -> pod_wf h') as (Ho & f & Hu & Hwf).
  { destruct Hr as [Hr|Hr].
    - unfold MintBuffer.process_lock in Hr. peel Hr as E0. peel Hr as E1. peel Hr as E2.
      apply negb_false_iff, bool_decide_eq_true in E0. split; [exact E0|]. eexists. split; [exact Hr|].
      intros h h' Hh Hf. exact (lock_wf _ _ _ Hh Hf).
    - unfold MintBuffer.process_unlock in Hr. peel Hr as E0. peel Hr as E1. peel Hr as E2.
      apply negb_false_iff, bool_decide_eq_true in E0. split; [exact E0|]. eexists. split; [exact Hr|].
      intros h h' Hh Hf. exact (unlock_wf _ _ _ Hh Hf). }
  split; [done|]. apply update_header_inv in Hu as (h & h' & d & Hh & Hf & Hp & ->).
  exists d. split; [done|]. intros Hb. destruct (get_header_wf _ _ Hb Hh) as [Hwfh _].
  by destruct (put_header_spec h' _ _ (Hwf _ _ Hwfh Hf) Hb Hp) as (_ & ? & _).
Qed.

Lemma run_buffer_program metas input w w' :
  run_program base_runtime mint_buffer_id metas input w = Ok w' ->
  exists storage l, account_info <$> metas = storage :: l /\
    (input = [4] /\ MintBuffer.process_lock mint_buffer_id (storage :: l) storage w = Ok w' \/
     input = [5] /\ MintBuffer.process_unlock mint_buffer_id (storage :: l) storage w = Ok w').
Proof.
  intros Hr. unfold run_program in Hr. cbv zeta in Hr. change (key_eqb mint_buffer_id mint_buffer_id) with true in Hr.
  destruct (account_info <$> metas) as [|storage l].
  { destruct input as [|[|p|p] [|b input]]; try discriminate Hr; do 3 (destruct p as [p|p|]; try discriminate Hr). }
  exists storage, l. split; [done|].
  destruct input as [|[|p|p] [|b input]]; try discriminate Hr; do 3 (destruct p as [p|p|]; try discriminate Hr); auto.
Qed.

Lemma run_program_frame program metas input w w' :
  run_program base_runtime program metas input w = Ok w' ->
  w' = w \/ exists k d, owner_at w k = mint_buffer_id /\ w' = set_data w k d /\
    (Forall is_byte (data_at w k) -> Forall is_byte d).
Proof.
  intros Hr. destruct (decide (program = mint_buffer_id)) as [->|Hne].
  - right. apply run_buffer_program in Hr as (storage & l & _ & Hs).
    destruct (buffer_program_frame mint_buffer_id (storage :: l) storage w w') as (Ho & d & -> & Hb); [tauto|].
    by exists (key storage), d.
  - left. unfold run_program in Hr. cbv zeta in Hr. unfold key_eqb in Hr. rewrite bool_decide_false in Hr by done.
    destruct (bool_decide (program = shim_id)); [|discriminate Hr].
    by apply shim_accepts_only_bridge in Hr as [-> _].
Qed.

(** Writing the memory of an account of another program. *)
Lemma own_eq_set_data w k d : owner_at w k <> bridge_id -> own_eq bridge_id w (set_data w k d).
Proof.
  intros Hk k' Hk'. rewrite owner_at_set_data. split; [done|]. apply data_at_set_data_ne. congruence.
Qed.

Lemma memory_set_data w k d : memory_typed w -> Forall is_byte d -> memory_typed (set_data w k d).
Proof.
  intros Hw Hd k'. destruct (decide (k = k')) as [<-|Hne]; [by rewrite data_at_set_data|by rewrite data_at_set_data_ne].
Qed.

Lemma set_balance_Ok w account b w' :
  set_balance w account b = Ok w' -> owner_at w account = token_id /\ w' = set_data w account (le_bytes 8 b).
Proof.
  unfold set_balance. intros Hr. peel Hr as E0. peel Hr as E1. injection Hr as <-.
  by apply negb_false_iff, bool_decide_eq_true in E0.
Qed.

Lemma set_balance_from_zero w account n :
  owner_at w account = token_id -> balance_at w account = 0 -> in_width 64 n ->
  set_balance w account (balance_at w account + n) = Ok (set_data w account (le_bytes 8 n)).
Proof.
  intros Ho Hb Hn. unfold set_balance, key_eqb. rewrite Ho, Hb, bool_decide_true, Z.add_0_l by done. cbn [negb].
  unfold in_width in Hn. by rewrite (proj2 (Z.ltb_ge _ _)), (proj2 (Z.leb_gt _ _)) by lia.
Qed.

Lemma mint_call_from_zero w token account authority n infos seeds :
  owner_at w account = token_id -> balance_at w account = 0 -> in_width 64 n ->
  invoke_signed w (TokenMintTo token account authority n) infos seeds = Ok (set_data w account (le_bytes 8 n)).
Proof. exact (set_balance_from_zero w account n). Qed.

(** A call creates an account that nobody owned, or writes to one account of a
    companion program, or changes nothing. *)
Lemma bridge_invoke_frame w i w' :
  bridge_invoke base_runtime w i = Ok w' ->
  w' = w \/
  (exists k d, owner_at w k <> bridge_id /\ w' = set_data w k d /\ (Forall is_byte (data_at w k) -> Forall is_byte d)) \/
  (exists k a n, owner_at w k <> bridge_id /\ data a = zeros n /\ w' = <[k := a]> w).
Proof.
  destruct i as [| | |from to amount space own|mint account auth amount|account mint auth amount|program metas input];
    intros Hr; cbn [bridge_invoke] in Hr; try discriminate Hr.
  - peel Hr as E. injection Hr as <-. apply negb_false_iff, bool_decide_eq_true in E.
    right. right. eexists to, _, _. split; [rewrite E; decide_closed|]. split; [|reflexivity]. reflexivity.
  - apply set_balance_Ok in Hr as [Ho ->]. right. left. eexists account, _. split; [rewrite Ho; decide_closed|].
    split; [done|]. intros _. by apply le_bytes_array.
  - apply set_balance_Ok in Hr as [Ho ->]. right. left. eexists account, _. split; [rewrite Ho; decide_closed|].
    split; [done|]. intros _. by apply le_bytes_array.
  - apply run_program_frame in Hr as [->|(k & d & Ho & -> & Hb)]; [by left|]. right. left.
    exists k, d. split; [rewrite Ho; decide_closed|done].
Qed.

#[local] Instance bridge_cpi_laws : CpiLaws bridge_id.
Proof.
  constructor.
  - intros w i infos seeds w' Hr _. change (bridge_invoke base_runtime w i = Ok w') in Hr.
    apply bridge_invoke_frame in Hr as [->|[(k & d & Ho & -> & _)|(k & a & n & Ho & _ & ->)]];
      [apply own_eq_refl|by apply own_eq_set_data|].
    intros k' Hk'. unfold owner_at, data_at in *. rewrite account_at_insert_ne by congruence. done.
  - intros w metas input infos seeds w' Hr. change (run_program base_runtime bridge_id metas input w = Ok w') in Hr.
    unfold run_program in Hr. cbv zeta in Hr. change (key_eqb bridge_id mint_buffer_id) with false in Hr.
    change (key_eqb bridge_id shim_id) with false in Hr. discriminate Hr.
  - intros w i infos seeds w' Hr _ Hw. change (bridge_invoke base_runtime w i = Ok w') in Hr.
    apply bridge_invoke_frame in Hr as [->|[(k & d & _ & -> & Hb)|(k & a & n & _ & Ha & ->)]];
      [done|apply memory_set_data; [done|by apply Hb]|].
    intros k'. unfold data_at. destruct (decide (k = k')) as [<-|Hne].
    + rewrite account_at_insert, Ha. apply zeros_bytes.
    + rewrite account_at_insert_ne by done. apply Hw.
Qed.

#[local] Instance bridge_buffer_cpi : BufferCpi.
Proof.
  intros w metas input infos seeds w' Hr. change (run_program base_runtime mint_buffer_id metas input w = Ok w') in Hr.
  apply run_buffer_program in Hr as (storage & l & Ha & Hs). rewrite Ha. by destruct Hs as [[-> Hs]|[-> Hs]].
Qed.

(** ** A history *)

Definition operator : Pubkey := init_operator_pubkey ix.
Definition mint : Pubkey := init_doge_mint ix.
Definition bridge : Pubkey := bridge_pda bridge_id.
Definition buffer : Pubkey := derive [MintBuffer.mint_buffer_seed; operator; [255]] mint_buffer_id.
Definition txos : Pubkey := derive [TxoBuffer.txo_buffer_seed; operator; [255]] txo_buffer_id.
Definition user_token : Pubkey := replicate 32 41.
Definition operator_token : Pubkey := replicate 32 42.
Definition tx_buffer : Pubkey := replicate 32 43.
Definition clock : Pubkey := replicate 32 44.
Definition wormhole_core : Pubkey := replicate 32 45.

Definition first_mint : PendingMint := {| recipient := user_token; amount := 5000 |}.
Definition first_group : bytes := sha256 (bytes_of first_mint).
Definition first_buffer : bytes :=
  bytes_of {| authorized_locker_public_key := bridge; authorized_writer_public_key := operator; is_locked := 0;
              mode := 0; pending_mint_groups_count := 1; pending_mints_initialized := 1; pending_mints_count := 1 |}
  ++ first_group ++ bytes_of first_mint.
Definition block101 : PsyBridgeHeader :=
  header_at 106 (finalized_at 101 1 (sha256 ([1; 0] ++ first_group)) txo_hash) 50.

Definition account_of (program : Pubkey) (d : bytes) : Account := {| lamports := 100000; owner := program; data := d |}.
Definition world0 : World :=
  {[ buffer := account_of mint_buffer_id first_buffer; txos := account_of txo_buffer_id txo_buffer;
     user_token := account_of token_id (le_bytes 8 200000); operator_token := account_of token_id (le_bytes 8 0);
     tx_buffer := account_of generic_buffer_id (zeros 32 ++ doge_tx) ]}.

(** Sending an instruction of the client. *)
Definition send (i : option Instruction) (w : World) : res ProgramError World :=
  match i with Some i => deliver process_instruction i w | None => Err InvalidArgument end.
Definition world_of (r : res ProgramError World) : World := match r with Ok w => w | _ => ∅ end.

Lemma world_of_ok r : is_ok r = true -> r = Ok (world_of r).
Proof. by destruct r. Qed.

Definition params : InitializeBridgeParams :=
  {| ip_bridge_header := init_bridge_header ix; ip_start_return_txo_output := init_start_return_txo_output ix;
     ip_config_params := init_config_params ix;
     ip_custodian_wallet_config_hash := init_custodian_wallet_config_hash ix |}.

Definition initialization : Instruction :=
  BridgeClient.initialize_bridge operator operator (init_fee_spender_pubkey ix) mint params.
Definition block_instruction : option Instruction :=
  BridgeClient.block_update bridge_id operator (zeros 256) block101 operator buffer txos 255 255.
Definition group_instruction : Instruction :=
  BridgeClient.process_mint_group bridge_id operator buffer mint [user_token] 0 255 true.
Definition request_instruction : Instruction :=
  BridgeClient.request_withdrawal bridge_id user mint user_token (wr_recipient_address request)
    (wr_amount_sats request) (wr_address_type request).
Definition fees_instruction : Instruction :=
  BridgeClient.operator_withdraw_fees bridge_id operator operator_token mint.
Definition withdrawal_instruction : Instruction :=
  BridgeClient.process_withdrawal clock bridge_id operator tx_buffer shim_id wormhole_core (zeros 256) return_output
    (zeros 32) 1.

Definition world1 : World := world_of (send (Some initialization) world0).
Definition world2 : World := world_of (send block_instruction world1).
Definition world3 : World := world_of (send (Some group_instruction) world2).
Definition world4 : World := world_of (send (Some request_instruction) world3).
Definition world5 : World := world_of (send (Some fees_instruction) world4).
Definition world6 : World := world_of (send (Some withdrawal_instruction) world5).

Lemma sent1 : send (Some initialization) world0 = Ok world1.
Proof. apply world_of_ok. vm_compute. reflexivity. Qed.
Lemma sent2 : send block_instruction world1 = Ok world2.
Proof. apply world_of_ok. vm_compute. reflexivity. Qed.
Lemma sent3 : send (Some group_instruction) world2 = Ok world3.
Proof. apply world_of_ok. vm_compute. reflexivity. Qed.
Lemma sent4 : send (Some request_instruction) world3 = Ok world4.
Proof. apply world_of_ok. vm_compute. reflexivity. Qed.
Lemma sent5 : send (Some fees_instruction) world4 = Ok world5.
Proof. apply world_of_ok. vm_compute. reflexivity. Qed.
Lemma sent6 : send (Some withdrawal_instruction) world5 = Ok world6.
Proof. apply world_of_ok. vm_compute. reflexivity. Qed.

(** What the token accounts hold in the end. *)
Example final_balances : balance_at world6 user_token = 105000 /\ balance_at world6 operator_token = 1060.
Proof. vm_compute. done. Qed.

(** ** The history as the theorems take it *)

Lemma memory_of_map (w : World) : map_Forall (fun _ a => Forall is_byte (data a)) w -> memory_typed w.
Proof.
  intros Hw k. unfold data_at, account_at. destruct (w !! k) as [a|] eqn:E; [exact (Hw k a E)|constructor].
Qed.

Ltac memory_closed := apply memory_of_map; decide_closed.

(** The accounts and the bytes of an instruction. *)
Definition call_of (i : Instruction) : list AccountInfo * bytes :=
  match i with RawInstruction _ metas input => (account_info <$> metas, input) | _ => ([], []) end.

Definition block_call : Instruction :=
  match block_instruction with Some i => i | None => initialization end.
Definition history_calls : list (list AccountInfo * bytes) :=
  [] ++ [call_of block_call] ++ [call_of group_instruction] ++ [call_of request_instruction] ++ [call_of fees_instruction].

Lemma ix_wf : pod_wf ix.
Proof. pod_wf_closed. Qed.

Definition program_of (i : Instruction) : option Pubkey :=
  match i with RawInstruction p _ _ => Some p | _ => None end.

Lemma sent_call i w w' :
  program_of i = Some bridge_id -> send (Some i) w = Ok w' ->
  process_instruction bridge_id (call_of i).1 (call_of i).2 w = Ok w'.
Proof. by destruct i; intros [= ->]. Qed.

(** One more instruction of the client. *)
Lemma history_sent calls i w w' :
  history bridge_id ix calls w -> program_of i = Some bridge_id -> send (Some i) w = Ok w' -> memory_typed w ->
  bool_decide (keys_typed (call_of i).1) && bool_decide (Forall is_byte (call_of i).2)
    && bool_decide ((call_of i).2 !! 0%nat <> Some 0) = true ->
  history bridge_id ix (calls ++ [call_of i]) w'.
Proof.
  intros Hh Hp Hs Hm [[Hk Hb]%andb_true_iff Hn]%andb_true_iff. apply bool_decide_eq_true in Hk, Hb, Hn.
  pose proof (sent_call i w w' Hp Hs) as Hr. destruct (call_of i) as [accounts input].
  by apply (history_call bridge_id ix calls accounts input w).
Qed.

Lemma history_runs : history bridge_id ix history_calls world5.
Proof.
  unfold history_calls. rewrite !app_assoc.
  eapply history_sent; [|reflexivity|exact sent5|memory_closed|vm_compute; reflexivity].
  eapply history_sent; [|reflexivity|exact sent4|memory_closed|vm_compute; reflexivity].
  eapply history_sent; [|reflexivity|exact sent3|memory_closed|vm_compute; reflexivity].
  eapply history_sent; [|reflexivity|exact sent2|memory_closed|vm_compute; reflexivity].
  apply (history_init bridge_id ix (call_of initialization).1 (zeros 7) world0 world1);
    [done|exact ix_wf|exact sent1|].
  vm_compute. reflexivity.
Qed.

(** The account holds the request of the user and the fees paid to the operator. *)
Lemma bridge_account_implements_ledger_witness :
  exists bs, load_bridge_state world5 bridge = Ok bs /\
    requested_withdrawals_tree (core_state bs) =
      tree_of [bytes_of {| wr_amount_sats := 98990; wr_address_type := 0; wr_recipient_address := replicate 20 7 |}] /\
    total_fees_withdrawn_sats (core_state bs) = 1060.
Proof.
  destruct (bridge_account_implements_ledger bridge_id ltac:(decide_closed) ix history_calls world5 history_runs
    ltac:(vm_compute; reflexivity)) as (bs & Hl & _ & _ & Href & _).
  exists bs. split; [exact Hl|]. split.
  { rewrite (ref_requests _ _ _ Href). f_equal. }
  rewrite (ref_operator_paid _ _ _ Href). vm_compute. reflexivity.
Defined.

Lemma privileged_instructions_authorised_witness :
  exists bs, first_state (call_of group_instruction).1 world2 bs /\
    signed_by (call_of group_instruction).1 2 (operator_pubkey (access_control (core_state bs))).
Proof.
  destruct (privileged_instructions_authorised bridge_id (call_of group_instruction).1 (call_of group_instruction).2
    world2 world3 (sent_call group_instruction world2 world3 eq_refl sent3)) as (bs & Hf & _ & Hs).
  exists bs. exact (conj Hf Hs).
Defined.

Lemma block_update_locks_buffer_witness :
  exists h, buffer_header world2 buffer = Some h /\ is_locked h = 1.
Proof.
  assert (run_block_update_common bridge_id (call_of block_call).1 (zeros 256) block101 [] 255 255 false world1
    = Ok world2) as Hr by (apply world_of_ok; vm_compute; reflexivity).
  destruct (block_update_locks_buffer bridge_id (call_of block_call).1 (zeros 256) block101 [] 255 255 false world1
    world2 ltac:(memory_closed) Hr) as (br & bu & bs & bs' & h & h' & H0 & H1 & _ & _ & Hh & _ & _ & _ & _ & _ & Hlock).
  injection H0 as <-. injection H1 as <-. exists h'. split; [exact Hh|].
  assert (is_locked <$> buffer_header world2 buffer = Some 1) as Hl by (vm_compute; reflexivity).
  change (buffer_header world2 buffer = Some h') in Hh. rewrite Hh in Hl. by injection Hl.
Defined.

(** The state with the block queued: its one mint is to be paid. *)
Definition queued_state : DogeBridge.BridgeState :=
  match load_bridge_state world2 bridge with Ok bs => bs | _ => zeroed _ end.

Lemma queued_state_loaded : load_bridge_state world2 bridge = Ok queued_state.
Proof. vm_compute. reflexivity. Qed.

Lemma queued_state_inv : bridge_inv (core_state queued_state).
Proof.
  set (s := core_state queued_state).
  assert (current_pending_mints_tracker (pending_mint_txos s) = fresh_tracker buffer 1 1) as Ht
    by (vm_compute; reflexivity).
  assert (let m := pending_mint_txos s in
    (length (pending_finalized_info m), pending_finalized_info_current_index m, pending_finalized_info_total_count m,
     length (recent_finalized_blocks s), next_recent_finalized_block_index s) = (8%nat, 0, 1, 8%nat, 1)) as E
    by (vm_compute; reflexivity).
  clearbody s. injection E as E1 E2 E3 E4 E5. unfold bridge_inv, manager_ok, manager_wf. rewrite Ht, E1, E2, E3, E4, E5.
  split; [|lia]. split; [lia|right]. split; [apply (fresh_tracker_inv buffer 1)|]; lia.
Qed.

(** The mints of group 0 are one, to the account that is passed for it; it is the last. *)
Lemma mint_group_pays_exactly_witness :
  exists m', group_claimed 0 (pending_mint_txos (core_state queued_state)) m' /\
    pending_mints_groups_remaining (current_pending_mints_tracker m') = 0 /\
    let bs' := {| core_state := with_pending_mint_txos m' (core_state queued_state); doge_mint := doge_mint queued_state |} in
    [user_token] = recipient <$> (mint_at (data_at (store_bridge_state world2 bridge bs') buffer) 1 <$> seqZ 0 1).
Proof.
  assert (process_process_mint_group bridge_id (call_of group_instruction).1 0 true world2 = Ok world3) as Hr
    by (apply world_of_ok; vm_compute; reflexivity).
  destruct (mint_group_pays_exactly bridge_id (call_of group_instruction).1 0 true _ queued_state world2 world3 eq_refl
    queued_state_loaded queued_state_inv ltac:(reflexivity || lia) Hr)
    as (bu & mi & pr & tk & m' & w2 & H1 & _ & _ & _ & _ & _ & _ & Hcl & Hk & _).
  injection H1 as <-. exists m'. split; [exact Hcl|]. split; [|exact Hk].
  destruct Hcl as (_ & _ & Hrem & _). rewrite Hrem. vm_compute. reflexivity.
Defined.

Lemma withdrawal_announces_transaction_witness :
  exists wh bs', send_messages bridge_id wh (withdrawal_nonce bs') (sha256 doge_tx) doge_tx
    (store_bridge_state world5 bridge bs') = Ok world6.
Proof.
  assert (process_process_withdrawal bridge_id (call_of withdrawal_instruction).1 (zeros 256) return_output (zeros 32) 1
    world5 = Ok world6) as Hr by (apply world_of_ok; vm_compute; reflexivity).
  destruct (withdrawal_announces_transaction bridge_id _ (zeros 256) return_output (zeros 32) 1 world5 world6 Hr) as (br & bu & wh & bs & bs' & tx & H0 & H1 & _ & _ & Htx & _ & _ & _ & Hsend & _).
  injection H0 as <-. injection H1 as <-.
  assert (tx = doge_tx) as -> by (rewrite Htx; vm_compute; reflexivity).
  exists wh, bs'. exact Hsend.
Defined.

(** ** An attack: whoever sends it becomes the operator and has a million paid out *)

Definition attacker : Pubkey := replicate 32 66.
Definition attacker_token : Pubkey := replicate 32 67.
Definition ix2 : InitializeBridgeInstructionData :=
  {| init_operator_pubkey := attacker; init_fee_spender_pubkey := attacker; init_doge_mint := mint;
     init_bridge_header := header_at 0 (finalized_at 0 0 (zeros 32) (zeros 32)) 1000000;
     init_start_return_txo_output := zeroed PsyReturnTxOutput; init_config_params := init_config_params ix;
     init_custodian_wallet_config_hash := zeros 32 |}.
Definition world7 : World := <[attacker_token := account_of token_id (le_bytes 8 0)]> world6.

Definition signer (k : Pubkey) : AccountInfo := account_info (meta_new k true).
Definition plain (k : Pubkey) : AccountInfo := account_info (meta_new k false).

Lemma reinitialize_mints_at_will_witness :
  exists w1 w', process_instruction bridge_id [plain bridge; plain attacker; plain system_program_id]
      (0 :: zeros 7 ++ bytes_of ix2) world7 = Ok w1 /\
    process_instruction bridge_id [plain bridge; plain attacker_token; plain mint; signer attacker; plain token_id]
      (4 :: zeros 7) w1 = Ok w'.
Proof.
  assert (exists bs, load_bridge_state world7 bridge = Ok bs /\ doge_mint bs = mint) as (bs & Hload & Hmint).
  { assert ((fun r => match r with Ok bs => bool_decide (doge_mint bs = mint) | _ => false end)
      (load_bridge_state world7 bridge) = true) as Hok by (vm_compute; reflexivity).
    destruct (load_bridge_state world7 bridge) as [bs| |]; [|discriminate Hok..].
    exists bs. split; [reflexivity|]. exact (bool_decide_unpack _ (proj2 (Is_true_true _) Hok)). }
  assert (owner_at world7 attacker_token = token_id /\ balance_at world7 attacker_token = 0) as [Ho Hb]
    by (split; vm_compute; reflexivity).
  assert (bridge_pda bridge_id <> attacker_token) as Hne by decide_closed.
  pose (stolen := total_finalized_fees_collected_chain_history (init_bridge_header ix2)).
  revert Hload Ho Hb. generalize world7. intros w Hload Ho Hb.
  destruct (reinitialize_mints_at_will bridge_id w bs ix2 (plain bridge) (plain attacker)
    (plain system_program_id) (plain attacker_token) (plain mint) (signer attacker) (plain token_id)
    (set_data (store_bridge_state (store_bridge_state w (bridge_pda bridge_id) (reinitialized bs ix2)) (bridge_pda bridge_id)
       {| core_state := with_total_fees_withdrawn_sats stolen (core_state (reinitialized bs ix2));
          doge_mint := doge_mint bs |}) attacker_token (le_bytes 8 stolen))) as [Hw1 Hw2].
  - exact Hload.
  - reflexivity.
  - pod_wf_closed.
  - by rewrite Hmint.
  - reflexivity.
  - reflexivity.
  - by rewrite Hmint.
  - vm_compute. reflexivity.
  - eexists _, _. split; [exact Hw1|]. apply Hw2. apply mint_call_from_zero; [| |vm_compute; split; [discriminate|reflexivity]].
    + unfold store_bridge_state. rewrite !owner_at_set_data. exact Ho.
    + unfold balance_at, store_bridge_state. rewrite !data_at_set_data_ne by exact Hne. exact Hb.
Defined.

(** ** The client's instructions *)

Lemma client_operator_instructions_delivered_witness :
  exists i, BridgeClient.process_reorg_blocks bridge_id operator (zeros 256) header2 extra1 operator buffer txos 255 254
      = Some i /\
    BridgeClient.delivered i (fun accounts =>
      process_reorg_blocks bridge_id accounts (zeros 256) header2 extra1 255 254).
Proof.
  destruct (BridgeClient.client_operator_instructions_delivered bridge_id operator (zeros 256) header2 extra1 operator
    buffer txos mint [user_token] 3 255 254 true) as (_ & (i & Hi & Hd & _) & _).
  - apply byte_array_zeros.
  - pod_wf_closed.
  - apply Forall_singleton. pod_wf_closed.
  - decide_closed.
  - exists i. exact (conj Hi Hd).
Defined.

Lemma client_user_instructions_delivered_witness :
  BridgeClient.delivered fees_instruction (process_operator_withdraw_fees bridge_id) /\
  BridgeClient.delivered withdrawal_instruction (fun accounts =>
    process_process_withdrawal bridge_id accounts (zeros 256) return_output (zeros 32) 1).
Proof.
  destruct (BridgeClient.client_user_instructions_delivered bridge_id operator operator (init_fee_spender_pubkey ix) mint
    params user operator_token (wr_recipient_address request) (wr_amount_sats request) (wr_address_type request) clock
    tx_buffer shim_id wormhole_core (zeros 256) return_output (zeros 32) 1 claim_id (zeros 32) (zeros 32) (zeros 32) 7
    user 5000) as (_ & _ & Hw & _ & _ & [Hf _] & _).
  - decide_closed.
  - decide_closed.
  - decide_closed.
  - pod_wf_closed.
  - pod_wf_closed.
  - apply byte_array_zeros.
  - pod_wf_closed.
  - apply byte_array_zeros.
  - decide_closed.
  - pod_wf_closed.
  - exact (conj Hf Hw).
Defined.

(** ** Manual claims *)

#[local] Instance test_addresses : TokenAddresses := fun wallet token => derive [wallet; token] token_id.

Definition claim_helper : ManualClaim.SolanaManualDepositHelper :=
  {| ManualClaim.mh_bridge_program := plain bridge_id; ManualClaim.mh_bridge_state := plain bridge;
     ManualClaim.mh_recipient_account := plain user_token; ManualClaim.mh_doge_mint := plain mint;
     ManualClaim.mh_token_program := plain token_id; ManualClaim.mh_claim_pda := plain clock;
     ManualClaim.mh_claim_pda_seeds := [] |}.

Lemma manual_claim_passed_on_witness :
  BridgeClient.delivered
    (ManualClaim.deposit_instruction claim_helper (zeros 32) (zeros 32) (zeros 32) 7 user 5000)
    (fun accounts => process_process_manual_deposit bridge_id accounts (zeros 32) (zeros 32) (zeros 32) 7 5000 user).
Proof.
  destruct (BridgeClient.manual_claim_passed_on claim_id bridge_id user user mint user_token (zeros 256) (zeros 32)
    (zeros 32) (zeros 32) (zeros 32) 7 5000 claim_helper) as [_ [Hd _]].
  - apply byte_array_zeros.
  - apply byte_array_zeros.
  - apply byte_array_zeros.
  - apply byte_array_zeros.
  - apply byte_array_zeros.
  - decide_closed.
  - decide_closed.
  - decide_closed.
  - exact Hd.
Defined.

(** A bridge that credits every deposit by adding it to a number. *)
Definition crediting_helper : ManualClaim.ManualDepositHelper Z :=
  {| ManualClaim.ensure_current_program_is_lowest_possible_pda_seed _ := true;
     ManualClaim.derive_token_ata_from_signer signer := derive [signer] token_id;
     ManualClaim.process_manual_deposit _ _ _ _ _ amount total := Ok (total + amount) |}.

Lemma manual_claim_sound_witness :
  ManualClaim.manual_claimed_txo_tree_root
    (ManualClaim.manual_claim_deposit ManualClaim.new_empty (zeros 256) (zeros 32) crediting_helper (zeros 32) (zeros 32)
       (replicate 32 9) (zeros 32) (zeros 32) 7 user 5000 100).2 = replicate 32 9.
Proof.
  refine (proj2 (proj2 (proj2 (ManualClaim.manual_claim_sound ManualClaim.new_empty _ (zeros 256) (zeros 32)
    crediting_helper (zeros 32) (zeros 32) (replicate 32 9) (zeros 32) (zeros 32) 7 user 5000 100 5100 _)))).
  vm_compute. reflexivity.
Defined.
