(* ===== verification/HistoryScenario.v ===== *)
(** * HistoryScenario: a block read back from the chain

    A server with five transactions of the operator: an unrelated one after the
    block, the block update with its reorg, the upload of the block's mints and outputs
    in one transaction with a repeated write, and the block before.  The witnesses of
    the theorems on the history are instances at this server. *)
From S2P Require Import Prelude Errors Pod Hash Sha256 Types Runtime BufferClient MintGroup ProgramState BridgeInstructions DogeBridge BridgeClient RpcClient HistorySync HistoryProofs Scenario BridgeScenario.
From Stdlib Require Import ZArith Lia.
From stdpp Require Import base decidable list numbers option countable gmap fin_maps.
Import BufferClient HistorySync.

Open Scope Z_scope.
Open Scope bridge_scope.

#[local] Existing Instance ids.
#[local] Existing Instance bridge_runtime.

(** The history client of the bridge. *)
Definition config : HistorySyncConfig :=
  config_new [] bridge_id (BridgeClient.pda [DogeBridge.bridge_state_seed] bridge_id) mint_buffer_id txo_buffer_id.

Definition block_mints : PendingMintBufferBuilder :=
  {| BufferClient.mints := [{| recipient := user; amount := 5000 |}; {| recipient := operator; amount := 700 |}] |}.
Definition block_txos : TxoBufferBuilder := {| indices := [7; 65536; 4294967295]; block_height := 101 |}.

(** The accounts of every message, and instructions compiled against them. *)
Definition keys : list Pubkey :=
  [BridgeClient.pda [DogeBridge.bridge_state_seed] bridge_id; buffer; txos; operator; mint_buffer_id; txo_buffer_id;
   system_program_id; bridge_id].

Definition compiled (program : Z) (accounts : list Z) (i : Instruction) : CompiledInstruction :=
  {| program_id_index := program; ci_accounts := accounts;
     ci_data := match i with RawInstruction _ _ d => d | _ => [] end |}.

Definition reinit : Instruction := pending_mint_reinit mint_buffer_id buffer operator 2.
Definition insert : Instruction :=
  pending_mint_insert mint_buffer_id buffer operator 0 (concat (bytes_of <$> BufferClient.mints block_mints)).
Definition set_len : Instruction := txo_buffer_set_len txo_buffer_id txos operator operator 12 true 9 101 false.
Definition write : Instruction := txo_buffer_write txo_buffer_id txos operator 9 0 (serialize_all block_txos).
Definition reorg : option Instruction :=
  BridgeClient.process_reorg_blocks bridge_id operator (zeros 256) header2 extra1 operator buffer txos 255 254.

Definition upload : Message :=
  {| static_account_keys := keys;
     instructions := [compiled 5 [2; 3] write; compiled 4 [1; 3; 6] reinit; compiled 4 [1; 3; 6] insert;
                      compiled 5 [2; 3; 6; 3] set_len; compiled 5 [2; 3] write] |}.
Definition block_ix : CompiledInstruction := compiled 7 [0; 1; 2; 3; 3; 4; 5] (default reinit reorg).
Definition block : Message := {| static_account_keys := keys; instructions := [] ++ block_ix :: [] |}.
Definition transfer : Message :=
  {| static_account_keys := keys;
     instructions := [{| program_id_index := 6; ci_accounts := [3]; ci_data := [2; 0; 0; 0; 1] |}] |}.

Definition served : list (Z * Message) := [(20, transfer); (10, block); (8, upload); (5, block); (4, transfer)].

Lemma compiled_resolves program accounts p metas d :
  index keys program = Some p -> (fun a => index keys a) <$> accounts = Some <$> (meta_key <$> metas) ->
  resolves keys (compiled program accounts (RawInstruction p metas d)) (RawInstruction p metas d).
Proof.
  intros Hp Ha. split; [done|]. split; [|done]. cbn [ci_accounts compiled].
  revert metas Ha. induction accounts as [|a accounts IH]; intros [|m metas] Ha; try discriminate Ha; [constructor|].
  cbn [fmap list_fmap] in Ha. injection Ha as Hm Ha. constructor; [done|]. by apply IH.
Qed.

(** ** The server *)

#[local] Instance no_errors : ForeignErrors := {| client_error := Empty_set; anyhow_error := Empty_set |}.

#[local] Instance list_order : HashMapOrder := {| iterate := map_to_list; iterate_perm m := reflexivity _ |}.

(** A transaction's signature is its slot. *)
Definition signature_list : list Signature := (fun tx => [tx.1]) <$> served.

Definition sigs_of (l : list Signature) : list SignatureInfo :=
  (fun s => {| si_signature := Some s; si_slot := default 0 (head s) |}) <$> l.

Definition answer (s : Signature) : res RpcClient.BridgeError TransactionStatus :=
  match list_find (fun tx : Z * Message => [tx.1] = s) served with
  | Some (_, tx) =>
      Ok {| tx_slot := tx.1; tx_block_time := Some 1700000000; tx_transaction := Binary (Some tx.2) |}
  | None => Err RpcClient.ConnectionTimeout
  end.

#[local] Instance server : RpcServer := {|
  acquire _ := Ok tt;
  get_signatures _ before until limit :=
    Ok (sigs_of (take (Z.to_nat limit) (newer_than until (older_than before signature_list))));
  get_transaction := answer;
  get_account _ := Err RpcClient.ConnectionTimeout
|}.

(** ** What the upload carries *)

Local Abbreviation uploads_ix := (upload_ix config buffer txos 9 block_mints block_txos keys).

Lemma write_ix : uploads_ix (compiled 5 [2; 3] write) (Some (Chunk 0 (serialize_all block_txos))).
Proof.
  left. exists write. split; [apply uploads_chunk; by apply list_elem_of_here|by apply compiled_resolves].
Qed.

Lemma insert_ix : uploads_ix (compiled 4 [1; 3; 6] insert) (Some (Group 0 (BufferClient.mints block_mints))).
Proof. left. exists insert. split; [apply uploads_group; by vm_compute|by apply compiled_resolves]. Qed.

Lemma set_len_ix : uploads_ix (compiled 5 [2; 3; 6; 3] set_len) (Some HistoryProofs.Size).
Proof.
  left. exists set_len. split; [exact (uploads_size _ _ _ _ _ block_txos operator operator true 101 false)|].
  by apply compiled_resolves.
Qed.

Lemma upload_is_upload : upload_tx config buffer txos 9 block_mints block_txos (8, upload).
Proof.
  repeat apply Forall_cons_2; [eexists; exact write_ix|..|eexists; exact set_len_ix|eexists; exact write_ix|constructor].
  - exists None. left. exists reinit. split; [apply uploads_reinit|by apply compiled_resolves].
  - eexists. exact insert_ix.
Qed.

Lemma upload_carries p :
  expected block_mints block_txos p -> carries config buffer txos 9 block_mints block_txos (8, upload) p.
Proof.
  destruct p as [g group| |o c]; intros Hp.
  - exists (compiled 4 [1; 3; 6] insert). split; [by right; right; left|]. destruct Hp as [Hg Hgr].
    change (num_groups block_mints) with 1 in Hg. assert (g = 0) as -> by lia. injection Hgr as <-. exact insert_ix.
  - exists (compiled 5 [2; 3; 6; 3] set_len). split; [do 3 right; left|]. exact set_len_ix.
  - exists (compiled 5 [2; 3] write). split; [left|]. cbn [expected] in Hp.
    change (chunks block_txos) with [(0, serialize_all block_txos)] in Hp.
    apply list_elem_of_singleton in Hp as [= -> ->]. exact write_ix.
Qed.

Lemma reorg_is_block :
  client_block config buffer txos operator header2 (default reinit reorg) true extra1.
Proof.
  apply (reorg_block _ _ _ _ _ operator (zeros 256) extra1 255 254);
    [apply byte_array_zeros|pod_wf_closed|constructor; [pod_wf_closed|constructor]|reflexivity].
Qed.

(** ** Witnesses *)

Lemma history_rebuilds_block_witness : exists cache info,
  build_operator_tx_cache config operator = Ok cache /\ fetch_block_update_info config [10] = Ok (Some info) /\
  rebuild_blocks cache [info] = Ok
    [{| br_block_height := 102; br_signature := [10]; br_slot := 10; br_block_time := Some 1700000000;
        br_txo_indices := [7; 65536; 4294967295]; br_pending_mints := BufferClient.mints block_mints;
        br_is_reorg := true; br_extra_finalized_blocks := extra1 |}].
Proof.
  refine (history_rebuilds_block config buffer txos 9 block_mints block_txos _ _ _ _ _ _ _ operator header2
    (default reinit reorg) true extra1 (sigs_of signature_list) [(20, transfer)] [(8, upload)]
    [(5, block); (4, transfer)] keys [] block_ix [] 10 (Some 1700000000) [10] _ _ _ _ _ _ _ _ _ _ _).
  - by apply (bool_decide_unpack _).
  - constructor; [pod_wf_closed|]. constructor; [pod_wf_closed|constructor].
  - by vm_compute.
  - by apply (bool_decide_unpack _).
  - by vm_compute.
  - by vm_compute.
  - done.
  - reflexivity.
  - repeat constructor; by do 2 eexists.
  - reflexivity.
  - exact reorg_is_block.
  - by apply compiled_resolves.
  - constructor.
  - by repeat constructor.
  - by repeat constructor.
  - constructor; [exact upload_is_upload|constructor].
  - reflexivity.
  - intros p Hp. exists (8, upload). split; [left|by apply upload_carries].
Defined.

Lemma collect_all_signatures_complete_witness :
  collect_all_signatures 6 operator (Some [5]) 2 = Some (Ok [[20]; [10]; [8]]).
Proof.
  apply (collect_all_signatures_complete operator signature_list 2 (Some [5]) 6); [done| |by apply (bool_decide_unpack _)|lia|cbn; lia].
  intros before until. eexists. split; [reflexivity|]. unfold sigs_of. by rewrite <- list_fmap_compose.
Defined.

Lemma history_names_bridge_as_user_witness :
  process_instructions config [10] 10 None (keys ++ [user; token_id])
    [compiled 7 [0; 1; 2; 8; 9] (BridgeClient.request_withdrawal bridge_id user txos buffer (replicate 20 1) 5000 0)]
  = Ok (Some (WithdrawalRequest
      {| wq_signature := [10]; wq_slot := 10; wq_block_time := None; wq_amount_sats := 5000;
         wq_recipient_address := replicate 20 1; wq_address_type := 0;
         wq_user_pubkey := BridgeClient.pda [DogeBridge.bridge_state_seed] bridge_id |})).
Proof.
  apply (history_names_bridge_as_user config [10] 10 None (keys ++ [user; token_id]) _ user txos buffer); [done|pod_wf_closed|].
  split; [done|]. split; [|done]. by repeat constructor.
Defined.

Lemma abandoned_upload_wins_witness :
  reconstruct_buffers_from_cache
    {| transactions := [set_block_update (empty_tx 9); insert_tx 8 buffer 0 [{| recipient := user; amount := 5000 |}];
                        reinit_tx 7 buffer; insert_tx 6 buffer 0 [{| recipient := user; amount := 1 |}]] |} buffer txos 9
  = Some ([{| recipient := user; amount := 1 |}], []).
Proof. apply (abandoned_upload_wins buffer txos 0 _ _ 6 7 8 9); lia. Defined.
