(* ===== verification/MonitorScenario.v ===== *)
(** * MonitorScenario: the monitors at work

    Withdrawal requests on a chain that grows, followed by the bridge monitor, and a
    withdrawal whose announcement the shim monitor reads: instances of the theorems of
    [MonitorProofs.v]. *)
From S2P Require Import Prelude Errors Pod Hash Sha256 Types Runtime BufferClient MintGroup ProgramState BridgeInstructions DogeBridge BridgeClient RpcClient HistorySync HistoryProofs Monitor MonitorProofs Scenario BridgeScenario HistoryScenario.
From Stdlib Require Import ZArith Lia.
From stdpp Require Import base decidable list numbers option countable gmap fin_maps.
Import BufferClient HistorySync Monitor.

Open Scope Z_scope.
Open Scope bridge_scope.

#[local] Existing Instance ids.
#[local] Existing Instance bridge_runtime.
#[local] Existing Instance no_errors.

(** ** Requests *)

Definition request_keys : list Pubkey := keys ++ [user; token_id].

Definition request_tx (sats : Z) : Message :=
  {| static_account_keys := request_keys;
     instructions := [compiled 7 [0; 1; 2; 8; 9]
       (BridgeClient.request_withdrawal bridge_id user txos buffer (replicate 20 1) sats 0)] |}.

(** The transaction in slot [n] requests [1000 * n] satoshis; every third does nothing. *)
Definition transaction_at (s : Signature) : Message :=
  let n := default 0 (head s) in if n mod 3 =? 0 then transfer else request_tx (1000 * n).

(** A server that knows the slots [n], ..., 1. *)
Definition slots (n : nat) : list Signature := reverse ((fun i => [Z.of_nat i]) <$> seq 1 n).

Definition server_at (n : nat) : RpcServer := {|
  acquire _ := Ok tt;
  get_signatures _ before until limit :=
    Ok (sigs_of (take (Z.to_nat limit) (newer_than until (older_than before (slots n)))));
  get_transaction s := Ok {| tx_slot := default 0 (head s); tx_block_time := None;
                             tx_transaction := Binary (Some (transaction_at s)) |};
  get_account _ := Err RpcClient.ConnectionTimeout
|}.

Definition monitor_config : MonitorConfig :=
  {| mc_rpc_url := []; mc_program_id := bridge_id;
     mc_bridge_state_pda := BridgeClient.pda [DogeBridge.bridge_state_seed] bridge_id;
     mc_rate_limit := RpcClient.RateLimitConfig_default; mc_poll_interval_ms := 1000; mc_batch_size := 2 |}.

(** What a transaction reports. *)
Definition event_of (s : Signature) : option BridgeEvent :=
  find_event bridge_id s (default 0 (head s)) None (static_account_keys (transaction_at s))
    (instructions (transaction_at s)).

(** The amounts in the reported requests. *)
Definition amounts (l : list BridgeEvent) : list Z :=
  omap (fun e => match e with WithdrawalRequested e => Some (wre_amount_sats e) | _ => None end) l.

Lemma lists_slots n address limit : @lists_signatures _ (server_at n) address (slots n) limit.
Proof.
  intros before until. eexists. split; [reflexivity|]. unfold sigs_of. by rewrite <- list_fmap_compose.
Qed.

Lemma fetch_since_complete_witness :
  exists events, @bridge_fetch_since _ (server_at 7) 8 monitor_config (Some [1]) (Some 3) = Some (Ok events) /\
    amounts events = [4000; 5000; 7000].
Proof.
  eexists. split.
  - refine (@fetch_since_complete _ _ (server_at 7) (@parse_transaction _ (server_at 7) monitor_config) event_of
      (mc_bridge_state_pda monitor_config) (slots 7) 2 3 (Some [1]) 8 _ _ _ _ _ _ _).
    + done.
    + intros n. apply lists_slots.
    + by apply (bool_decide_unpack _).
    + apply list.Forall_forall. intros sig _ si Hs. unfold parse_transaction. by rewrite Hs.
    + lia.
    + lia.
    + cbn. lia.
  - vm_compute. reflexivity.
Defined.

(** ** Polling *)

Definition tick_at (n : nat) : Tick := {| tick_server := server_at n; tick_open := fun _ => true |}.

Lemma polled_at n :
  polled (fun server => @parse_transaction_static _ server bridge_id) event_of (mc_bridge_state_pda monitor_config) 2
    (tick_at n) (slots n).
Proof.
  split; [done|]. split; [apply lists_slots|]. split; [done|]. apply list.Forall_forall. by intros sig _.
Qed.

(** After slot 1, polls at slots 2, 2 and 7: of the five transactions that are new at
    the last, only the two newest are read, and the requests in slots 4 and 5 are never
    reported. *)
Lemma monitor_reports_newest_witness :
  amounts (bridge_monitor_loop monitor_config (tick_at <$> [2%nat; 2%nat; 7%nat]) (Some [1])).1 = [2000; 7000].
Proof.
  unfold bridge_monitor_loop.
  rewrite (monitor_reports_newest (fun server => @parse_transaction_static _ server bridge_id) event_of
    (mc_bridge_state_pda monitor_config) 2 (tick_at <$> [2%nat; 2%nat; 7%nat]) [[[2]]; []; [[7]; [6]; [5]; [4]; [3]]] [1] []).
  - vm_compute. reflexivity.
  - lia.
  - split; [by apply (bool_decide_unpack _)|]. split; [exact (polled_at 2)|].
    split; [by apply (bool_decide_unpack _)|]. split; [exact (polled_at 2)|].
    split; [by apply (bool_decide_unpack _)|]. split; [exact (polled_at 7)|]. done.
Defined.

(** ** An announcement *)

Definition shim_config : NoopShimMonitorConfig :=
  NoopShimMonitorConfig_new shim_id [] (BridgeClient.pda [DogeBridge.bridge_state_seed] bridge_id).

Definition info (k : Pubkey) : AccountInfo := {| key := k; is_signer := false; is_writable := true |}.

Definition wormhole_accounts : DogeBridge.WormholeAccounts :=
  {| DogeBridge.wh_shim_program := info shim_id; DogeBridge.wh_bridge_config := info buffer;
     DogeBridge.wh_message := info txos;
     DogeBridge.wh_emitter := info (BridgeClient.pda [DogeBridge.bridge_state_seed] bridge_id);
     DogeBridge.wh_sequence := info buffer; DogeBridge.wh_payer := info operator;
     DogeBridge.wh_fee_collector := info buffer; DogeBridge.wh_clock := info buffer;
     DogeBridge.wh_system_program := info system_program_id; DogeBridge.wh_core_bridge_program := info buffer;
     DogeBridge.wh_event_authority := info buffer |}.

Definition announcement : Instruction :=
  DogeBridge.vaa_instruction 3 wormhole_accounts (replicate 32 9) [1; 0; 0; 0; 1].

Definition announcing : SignedTransaction :=
  {| st_signatures := [[10]]; st_num_required_signatures := 1; st_message_bytes := [1; 2; 3];
     st_static_account_keys := keys ++ [shim_id];
     st_inner_instructions := [[Compiled 6 [3; 0] (Some [2; 0])];
       [OtherUi; Compiled 8 [1; 2; 0; 1; 3; 1; 1; 6; 1; 1] (Some (ci_data (compiled 8 [] announcement)))]] |}.

#[local] Instance signed_server : SignedServer := {|
  get_signed_transaction _ := Ok {| ss_slot := 11; ss_block_time := None; ss_transaction := BinarySigned (Some announcing) |};
  verify_signature s k m := bool_decide (s = [10])
|}.

Lemma announcement_reported_witness :
  exists m, @from_bridge _ signed_server (server_at 1) shim_config [10] = Ok (Some m) /\
    nm_nonce m = 3 /\ nm_sighash m = replicate 32 9 /\ nm_doge_tx_bytes m = [1; 0; 0; 0; 1] /\ nm_payer m = operator.
Proof.
  eexists. split.
  - refine (@announcement_reported _ signed_server (server_at 1) shim_config [10] 11 None (keys ++ [shim_id]) announcing
      [Compiled 6 [3; 0] (Some [2; 0]); OtherUi] [] 3 wormhole_accounts (replicate 32 9) [1; 0; 0; 0; 1] 8
      [1; 2; 0; 1; 3; 1; 1; 6; 1; 1] _ _ _ _ _ _ _ _ _ _ _ _ _);
      [reflexivity|reflexivity|reflexivity|reflexivity|reflexivity| |by vm_compute| |by vm_compute|reflexivity|reflexivity|].
    + repeat constructor. cbn. discriminate.
    + by apply (bool_decide_unpack _).
    + split; [reflexivity|]. split; [|reflexivity]. by repeat constructor.
  - by repeat split.
Defined.
