(* ===== verification/ManagerScenario.v ===== *)
(** * ManagerScenario: an upload through the managers

    The buffers of [BufferScenario.v], filled by both managers: the instances of the
    theorems of [BufferManagerProofs.v] and [MintManagerProofs.v]. *)
From S2P Require Import Prelude Errors Pod Hash Sha256 Types Runtime TxoBuffer TxoBufferProofs BufferClient MintGroup ProgramState BlockUpdate TxoUpload MintBuffer Payout CommittedMints MintUpload RpcClient BufferManager BufferManagerProofs MintManagerProofs BridgeInstructions BlockUpdateClient BufferScenario.
From Stdlib Require Import ZArith Lia.
From stdpp Require Import base decidable list numbers option countable gmap.
Import BufferClient BufferManager.

Open Scope Z_scope.
Open Scope bridge_scope.

#[local] Existing Instance fips_sha256.
#[local] Existing Instance fips_sha256_laws.
#[local] Existing Instance simple_runtime.
#[local] Existing Instance simple_runtime_laws.

#[local] Instance no_client_errors : ForeignErrors := {| client_error := Empty_set; anyhow_error := Empty_set |}.

(** A network with one program. *)
Definition cluster_of (entry : Pubkey -> list AccountInfo -> bytes -> World -> res ProgramError World) : Cluster := {|
  acquire_slot _ := Ok tt;
  account_data w k := Ok (Some (data_at w k));
  rent_exemption _ := Ok 1000;
  submit ixs _ w :=
    match deliver_all entry ixs w with
    | Ok w' => (Ok tt, w')
    | Err e => (Err (RpcClient.Program e), w)
    | Panic => (Err RpcClient.ConnectionTimeout, w)
    end
|}.

Lemma cluster_executes entry pid writer : @executes_program _ _ (cluster_of entry) entry pid writer.
Proof.
  split; [done|]. intros w w' metas d signers _ Hd. cbn [submit cluster_of deliver_all]. by rewrite Hd.
Qed.

(** The scheduler always lets the last task go first. *)
Definition manager : ParallelBufferManager :=
  {| pm_payer := alice; pm_operator := alice; pm_retry := RpcClient.RetryConfig_default;
     pm_config := ParallelismConfig_default; pm_pick := fun _ m => (m - 1)%nat |}.

(** Outputs for more than one chunk. *)
Definition many_txos : TxoBufferBuilder := {| indices := seqZ 5 500; block_height := 102 |}.

Definition next_size : Instruction := txo_buffer_set_len txo_program txo_key alice alice 2000 true 1 102 false.
Definition next_sized : World := txo_send next_size txo_initialized.

Lemma next_sized_run : deliver TxoBuffer.process_instruction next_size txo_initialized = Ok next_sized.
Proof. apply ok_world_default. vm_compute. reflexivity. Qed.

#[local] Instance local_cluster : Cluster := cluster_of TxoBuffer.process_instruction.

Lemma managers_upload_outputs_witness :
  exists w', parallel_create_txo_buffer manager txo_program 102 (seqZ 5 500) txo_initialized = (Ok (txo_key, 255), w') /\
    read_txo_hash (data_at w' txo_key) 500 (fun h => (txo_doge_block_height h =? 102) && negb (txo_data_size h =? 0))
      InvalidAutoClaimTxoBufferPendingMintsCount = Ok (sha256 (serialize_all many_txos)).
Proof.
  destruct (managers_upload_outputs txo_program txo_key alice 255 1 102 many_txos
    ltac:(vm_compute; split; [discriminate|reflexivity]) ltac:(vm_compute; split; [discriminate|reflexivity])
    ltac:(vm_compute; split; [discriminate|reflexivity]) manager (conj eq_refl eq_refl) ltac:(vm_compute; reflexivity)
    txo_initialized next_sized InvalidAutoClaimTxoBufferPendingMintsCount
    (cluster_executes TxoBuffer.process_instruction txo_program alice)
    ltac:(vm_compute; reflexivity) eq_refl ltac:(vm_compute; reflexivity) txo_initialized_bytes
    ltac:(vm_compute; reflexivity) next_sized_run) as ((w' & Hrun & Hread & _) & _).
  exists w'. split; [exact Hrun|exact Hread].
Defined.

(** The locker of the buffer, as the bridge calls the program. *)
Definition locker : AccountInfo := {| key := bridge_program; is_signer := true; is_writable := false |}.

Lemma mints_ready : buffer_ready buffer_program (storage_key alice) alice mint_builder locker mint_set_up mint_sized.
Proof.
  split; [exact mint_set_up_bytes|]. split; [exact mint_sized_run|]. exists mint_sized_header.
  split_and!; vm_compute; reflexivity.
Qed.


(** ** The block update builder *)

#[local] Instance builder_ids : ProgramIds := {|
  DOGE_BRIDGE_PROGRAM_ID := bridge_program;
  MANUAL_CLAIM_PROGRAM_ID := zeros 32;
  TXO_BUFFER_BUILDER_PROGRAM_ID := txo_program;
  GENERIC_BUFFER_BUILDER_PROGRAM_ID := zeros 32;
  PENDING_MINT_BUFFER_BUILDER_PROGRAM_ID := buffer_program;
  TOKEN_PROGRAM_ID := zeros 32
|}.

(** Outputs of a block that is final after three confirmations, at the new tip 102. *)
Definition builder : BlockUpdateClient.BlockUpdateBuilder :=
  BlockUpdateClient.with_txo_indices (seqZ 5 500)
    (BlockUpdateClient.block_update_builder
       (BlockUpdateClient.client_new alice alice alice (zeros 32) (zeros 32) (zeros 32)) (zeroed PsyBridgeProgramState) 3).

Lemma builder_outputs_need_zero_confirmations_witness :
  let header := BlockUpdateClient.new_header builder
    {| hu_tip_state := zeroed PsyBridgeTipStateCommitment; hu_finalized_block_hash := zeros 32;
       hu_finalized_block_merkle_tree_root := zeros 32; hu_finalized_auto_claimed_txo_tree_root := zeros 32;
       hu_finalized_auto_claimed_deposits_tree_root := zeros 32; hu_bridge_state_hash := zeros 32;
       hu_last_rollback_at_secs := 0; hu_paused_until_secs := 0;
       hu_total_finalized_fees_collected_chain_history := 0 |} 102 in
  exists w', create_txo_buffer alice txo_program 102 (seqZ 5 500) txo_initialized = (Ok (txo_key, 255), w') /\
    read_txo_hash (data_at w' txo_key) 500
      (fun h => (txo_doge_block_height h =? sc_block_height (finalized_state header)) && negb (txo_data_size h =? 0))
      InvalidAutoClaimTxoBufferPendingMintsCount = Err InvalidAutoClaimTxoBufferPendingMintsCount.
Proof.
  intros header.
  destruct (builder_outputs_need_zero_confirmations builder
    {| hu_tip_state := zeroed PsyBridgeTipStateCommitment; hu_finalized_block_hash := zeros 32;
       hu_finalized_block_merkle_tree_root := zeros 32; hu_finalized_auto_claimed_txo_tree_root := zeros 32;
       hu_finalized_auto_claimed_deposits_tree_root := zeros 32; hu_bridge_state_hash := zeros 32;
       hu_last_rollback_at_secs := 0; hu_paused_until_secs := 0;
       hu_total_finalized_fees_collected_chain_history := 0 |} 102 1 255 txo_key
    txo_initialized next_sized InvalidAutoClaimTxoBufferPendingMintsCount
    ltac:(vm_compute; split; [discriminate|reflexivity]) ltac:(vm_compute; split; [discriminate|reflexivity])
    ltac:(vm_compute; split; [discriminate|reflexivity]) ltac:(vm_compute; split; discriminate)
    ltac:(vm_compute; reflexivity) (cluster_executes TxoBuffer.process_instruction txo_program alice)
    ltac:(vm_compute; reflexivity) eq_refl txo_initialized_bytes ltac:(vm_compute; reflexivity)
    ltac:(vm_compute; discriminate) next_sized_run) as (_ & _ & w' & Hrun & Hread).
  exists w'. split; [exact Hrun|exact Hread].
Defined.
