(* ===== verification/OperatorScenario.v ===== *)
(** * OperatorScenario: the operator's client pays out a block

    A network around the bridge program and the runtime of [BridgeScenario.v], and a
    bridge that is paying out a buffer of 50 mints in three groups, of which the second
    is paid already: the instance of the theorem on the remaining groups.  The same bridge,
    idle, then takes a block of 50 mints and pays it: the instance of the theorem on
    posting and paying a block. *)
From S2P Require Import Prelude Errors Pod Hash Sha256 AppendTree Types PublicInputs Runtime MintBuffer MintBufferProofs BufferClient MintGroup ProgramState BlockUpdate Payout CommittedMints MintUpload BridgeInstructions DogeBridge Ledger StateTypes DogeBridgeProofs BridgeHistory BridgeSafety RpcClient BufferManager BufferManagerProofs ManualClaim BridgeClient HistorySync Monitor OperatorClient OperatorProofs BlockPosting Scenario BridgeScenario ManagerScenario.
From Stdlib Require Import ZArith Lia.
From stdpp Require Import base decidable list numbers option countable gmap.
Import BufferManager OperatorClient.

Open Scope Z_scope.
Open Scope bridge_scope.

#[local] Existing Instance fips_sha256.
#[local] Existing Instance accept_all.
#[local] Existing Instance BridgeScenario.ids.
#[local] Existing Instance BridgeScenario.test_features.
#[local] Existing Instance BridgeScenario.bridge_runtime.
#[local] Existing Instance ManagerScenario.no_client_errors.

Local Abbreviation bridge := BridgeScenario.bridge.
Local Abbreviation buffer := BridgeScenario.buffer.
Local Abbreviation operator := BridgeScenario.operator.
Local Abbreviation mint := BridgeScenario.mint.

#[local] Instance bridge_cluster : Cluster := cluster_of DogeBridge.process_instruction.

(** A token account holds a balance in its memory. *)
#[local] Instance token_memory : TokenLedger := fun o d =>
  if bool_decide (o = BridgeScenario.token_id /\ 0 <= le_val d) then Some (le_val d) else None.

(** No call of the client needs more of the token programs here. *)
#[local] Instance no_spl : SplToken := {|
  get_associated_token_address owner _ := owner;
  create_associated_token_account payer _ _ _ := SystemAllocate payer 0;
  token_transfer _ _ _ _ _ := None;
  token_clear_close_authority _ _ _ := None;
  unpack_token_amount _ := None;
  pubkey_text k := k
|}.

Lemma balance_spec w k b :
  balance w k = Some b <-> owner_at w k = BridgeScenario.token_id /\ 0 <= b /\ b = BridgeScenario.balance_at w k.
Proof.
  unfold balance, token_balance, token_memory, BridgeScenario.balance_at. case_bool_decide as Hk; split.
  - intros [= <-]. tauto.
  - intros (_ & _ & ->). done.
  - done.
  - intros (? & ? & ->). tauto.
Qed.

#[local] Instance payout_cpi : PayoutCpi BridgeScenario.bridge_id mint.
Proof.
  constructor.
  - intros o d b. unfold token_balance, token_memory. case_bool_decide as Hk; [by destruct Hk|done].
  - intros w mi info auth token b amount _ _ _ [Ho [Hb ->]]%balance_spec Ha Hlt.
    assert (in_width 64 (BridgeScenario.balance_at w (key info) + amount)) as Hw by (unfold in_width; lia).
    exists (set_data w (key info) (le_bytes 8 (BridgeScenario.balance_at w (key info) + amount))). split.
    { change (BridgeScenario.set_balance w (key info) (BridgeScenario.balance_at w (key info) + amount) = Ok
        (set_data w (key info) (le_bytes 8 (BridgeScenario.balance_at w (key info) + amount)))).
      unfold BridgeScenario.set_balance, DogeBridge.key_eqb. rewrite Ho, bool_decide_true by done. cbn [negb].
      by rewrite (proj2 (Z.ltb_ge _ _)), (proj2 (Z.leb_gt _ _)) by lia. }
    split; [|split; [|split]].
    + apply balance_spec. rewrite owner_at_set_data. split; [done|]. split; [lia|].
      unfold BridgeScenario.balance_at at 2. by rewrite data_at_set_data, le_val_bytes.
    + intros k Hk. unfold balance. by rewrite owner_at_set_data, data_at_set_data_ne.
    + intros k. apply owner_at_set_data.
    + intros k Hk _. by apply data_at_set_data_ne.
  - intros w acc prog auth w' Hk Hr. exact Hr.
Qed.

(** ** The bridge, half paid out *)

Definition mint50 (i : Z) : PendingMint :=
  {| recipient := if Z.even i then BridgeScenario.user_token else BridgeScenario.operator_token; amount := 1000 + i |}.
Definition fifty_mints : list PendingMint := mint50 <$> seqZ 0 50.

Definition locked_header : PendingMintsBufferStateHeader :=
  {| authorized_locker_public_key := bridge; authorized_writer_public_key := operator; is_locked := 1; mode := 0;
     pending_mint_groups_count := 3; pending_mints_initialized := 50; pending_mints_count := 50 |}.
Definition locked_buffer : bytes := bytes_of locked_header ++ zeros 96 ++ concat (bytes_of <$> fifty_mints).

Definition half_claimed : PendingMintsTracker := marked (fresh_tracker buffer 50 3) 1.
Definition paying_state : DogeBridge.BridgeState :=
  {| core_state := with_pending_mint_txos
       {| pending_finalized_info := replicate 8 empty_info; pending_finalized_info_current_index := 0;
          pending_finalized_info_total_count := 1; start_block_height := 101; current_pending_mints_tracker := half_claimed |} state0;
     doge_mint := mint |}.

Definition paying_world : World :=
  {[ bridge := BridgeScenario.account_of BridgeScenario.bridge_id (bytes_of paying_state);
     buffer := BridgeScenario.account_of BridgeScenario.mint_buffer_id locked_buffer;
     mint := BridgeScenario.account_of BridgeScenario.token_id (zeros 8);
     BridgeScenario.user_token := BridgeScenario.account_of BridgeScenario.token_id (le_bytes 8 7);
     BridgeScenario.operator_token := BridgeScenario.account_of BridgeScenario.token_id (le_bytes 8 0) ]}.

Definition operator_config : BridgeClientConfig :=
  match build (set_wormhole_shim_program_id BridgeScenario.shim_id
    (set_wormhole_core_program_id BridgeScenario.wormhole_core (set_operator_and_payer operator
      (set_bridge_state_pda bridge (set_rpc_url [] builder_new))))) with
  | Ok c => c
  | _ => {| cfg_rpc_url := []; cfg_bridge_state_pda := []; cfg_operator := []; cfg_payer := []; cfg_doge_mint := None;
            cfg_rate_limit := RpcClient.RateLimitConfig_default; cfg_retry := RpcClient.RetryConfig_default;
            cfg_parallelism := ParallelismConfig_default; cfg_program_id := []; cfg_manual_claim_program_id := [];
            cfg_pending_mint_program_id := []; cfg_txo_buffer_program_id := []; cfg_generic_buffer_program_id := [];
            cfg_wormhole_core_program_id := []; cfg_wormhole_shim_program_id := [] |}
  end.

Lemma half_claimed_tracks : tracks (pending_mint_txos (core_state paying_state)) buffer 50.
Proof.
  assert (tracker_inv (fresh_tracker buffer 50 3)) as Hinv by (apply (fresh_tracker_inv buffer 50); lia).
  split; [vm_compute; intuition discriminate|]. split; [|done]. apply marked_inv; [done|lia|done|done].
Qed.

Lemma bridge_paying : paying BridgeScenario.bridge_id mint operator buffer locked_buffer 50 paying_world paying_state.
Proof.
  constructor; try (vm_compute; reflexivity).
  - split; [apply state_typed_pod; pod_wf_closed|split; [done|decide_closed]].
  - vm_compute. discriminate.
  - split; vm_compute; reflexivity.
  - exact half_claimed_tracks.
Qed.

(** The groups that are open hold the mints 0 to 23, 48 and 49. *)
Definition open_payments : list (bytes * Z) :=
  concat (group_payments locked_buffer 50 <$> open_groups 50 half_claimed 0).

Lemma enough_room : room open_payments paying_world.
Proof.
  apply list.Forall_forall. intros p Hp. assert (bool_decide (Forall (fun p => 0 <= p.2 /\
      (p.1 = BridgeScenario.user_token \/ p.1 = BridgeScenario.operator_token)) open_payments) = true) as Hall
    by (vm_compute; reflexivity).
  apply bool_decide_eq_true in Hall. rewrite list.Forall_forall in Hall. destruct (Hall p Hp) as [Ha Hk].
  split; [exact Ha|]. destruct Hk as [-> | ->]; [exists 7|exists 0]; split; vm_compute; reflexivity.
Qed.

Lemma remaining_groups_paid_witness :
  exists w' bs', process_remaining_pending_mints_groups operator_config (fun _ _ => 0%nat) fifty_mints buffer 255
      (None, paying_world) = (Ok (ProcessMintsResult_new 2 26 true), (Some mint, w')) /\
    balance w' BridgeScenario.user_token = Some 13187 /\ balance w' BridgeScenario.operator_token = Some 13193 /\
    paid_out BridgeScenario.bridge_id buffer w' bs'.
Proof.
  destruct (remaining_groups_paid BridgeScenario.bridge_id mint operator buffer locked_buffer 50
    ltac:(apply (bool_decide_unpack _); vm_compute; exact I) ltac:(lia) ltac:(vm_compute; discriminate)
    ltac:(eexists; split; [vm_compute; reflexivity|split; [discriminate|vm_compute; reflexivity]])
    ltac:(vm_compute; discriminate) ltac:(vm_compute; discriminate)
    operator_config (fun _ _ => 0%nat) fifty_mints 255 ltac:(vm_compute; reflexivity) ltac:(vm_compute; reflexivity)
    ltac:(vm_compute; reflexivity) (cluster_executes _ _ _) ltac:(vm_compute; reflexivity)
    paying_world paying_state None bridge_paying ltac:(reflexivity) ltac:(discriminate)
    ltac:(intros m; vm_compute; discriminate) ltac:(vm_compute; reflexivity) enough_room)
    as (w' & bs' & Hrun & [Hb _] & Hpaid).
  exists w', bs'. split; [exact Hrun|]. split; [|split; [|exact Hpaid]].
  - rewrite (Hb BridgeScenario.user_token 7 ltac:(vm_compute; reflexivity)). vm_compute. reflexivity.
  - rewrite (Hb BridgeScenario.operator_token 0 ltac:(vm_compute; reflexivity)). vm_compute. reflexivity.
Defined.

(** ** A block with one mint, posted and paid *)

#[local] Existing Instance fips_sha256_laws.

(** The bridge of [BridgeScenario.v] at its start, and the token. *)
Definition start_world : World :=
  <[mint := BridgeScenario.account_of BridgeScenario.token_id (zeros 8)]> BridgeScenario.world1.

Definition one_mint : BufferClient.PendingMintBufferBuilder := {| BufferClient.mints := [BridgeScenario.first_mint] |}.

Lemma bridge_locks : locks BridgeScenario.bridge_id.
Proof. intros w acc prog auth w' _ Hr. exact Hr. Qed.

Definition idle_bridge : DogeBridge.BridgeState := {| core_state := state0; doge_mint := mint |}.

Lemma one_mint_accepted :
  mints_accepted BridgeScenario.mint_buffer_id buffer one_mint (bridge_signer BridgeScenario.bridge_id) start_world.
Proof.
  eexists. split; [apply BridgeScenario.world_of_ok; vm_compute; reflexivity|]. split; vm_compute; reflexivity.
Qed.

Lemma block101_postable :
  postable BridgeScenario.bridge_id mint operator buffer BridgeScenario.txos one_mint start_world idle_bridge
    (zeros 256) BridgeScenario.block101.
Proof.
  constructor.
  - vm_compute. reflexivity.
  - split; [apply state_typed_pod; pod_wf_closed|]. split; [split; [done|decide_closed]|].
    split; [|split; [reflexivity|by vm_compute]]. split; [vm_compute; intuition discriminate|by left].
  - split; vm_compute; [discriminate|reflexivity].
  - reflexivity.
  - reflexivity.
  - vm_compute. reflexivity.
  - split; [vm_compute; reflexivity|decide_closed].
  - exact one_mint_accepted.
  - split; [vm_compute; reflexivity|decide_closed].
  - vm_compute. reflexivity.
  - pod_wf_closed.
  - vm_compute. reflexivity.
  - constructor; [vm_compute; reflexivity..|split; reflexivity|vm_compute; reflexivity].
Qed.

Lemma block_posted_and_paid_witness :
  exists w1 w2 bs2,
    process_block_transition operator_config (fun _ _ => 0%nat) (zeros 256) BridgeScenario.block101 buffer 255
      BridgeScenario.txos 255 (None, start_world) = (Ok tt, (None, w1)) /\
    process_remaining_pending_mints_groups operator_config (fun _ _ => 0%nat) [BridgeScenario.first_mint] buffer 255 (None, w1)
      = (Ok (ProcessMintsResult_new 1 1 true), (Some mint, w2)) /\
    balance w2 BridgeScenario.user_token = Some 205000 /\ paid_out BridgeScenario.bridge_id buffer w2 bs2.
Proof.
  destruct (block_posted_and_paid BridgeScenario.bridge_id mint operator buffer BridgeScenario.txos one_mint
    ltac:(vm_compute; split; [reflexivity|discriminate])
    ltac:(vm_compute; discriminate) ltac:(vm_compute; discriminate) ltac:(vm_compute; discriminate)
    ltac:(vm_compute; discriminate) ltac:(split; [reflexivity|decide_closed]) bridge_locks
    operator_config (fun _ _ => 0%nat) ltac:(vm_compute; reflexivity) ltac:(vm_compute; reflexivity)
    ltac:(vm_compute; reflexivity) (cluster_executes _ _ _) ltac:(reflexivity)
    start_world idle_bridge (zeros 256) BridgeScenario.block101 255 255 None block101_postable
    ltac:(split; [reflexivity|decide_closed]) eq_refl eq_refl ltac:(discriminate) ltac:(intros m; vm_compute; discriminate))
    as (w1 & bs1 & w2 & bs2 & Hpost & _ & _ & Hpay & [Hb _] & Hout).
  { constructor; [|constructor]. split; [vm_compute; discriminate|]. exists 200000. split; vm_compute; reflexivity. }
  exists w1, w2, bs2. split; [exact Hpost|]. split; [exact Hpay|]. split; [|exact Hout].
  rewrite (Hb BridgeScenario.user_token 200000 ltac:(vm_compute; reflexivity)). vm_compute. reflexivity.
Defined.
