(* ===== verification/UserScenario.v ===== *)
(** * UserScenario: a user's request and a user's claims

    The bridge and the runtime of [BridgeScenario.v] behind the network interface of the
    users' clients: the instances of the theorems of [UserClientProofs.v].  The claim
    account has five transactions, one of which failed. *)
From S2P Require Import Prelude Errors Pod Hash Sha256 AppendTree Types PublicInputs Runtime MintBuffer BufferClient MintGroup ProgramState BridgeInstructions DogeBridge Ledger StateTypes DogeBridgeProofs BridgeHistory RpcClient ManualClaim BridgeClient HistorySync BufferManager OperatorClient UserClient UserClientProofs Scenario BridgeScenario ManagerScenario.
From Stdlib Require Import ZArith Lia.
From stdpp Require Import base decidable list numbers option countable gmap.
Import UserClient ManualClaimClient.

Open Scope Z_scope.
Open Scope bridge_scope.

#[local] Existing Instance fips_sha256.
#[local] Existing Instance fips_sha256_laws.
#[local] Existing Instance accept_all.
#[local] Existing Instance BridgeScenario.ids.
#[local] Existing Instance BridgeScenario.test_features.
#[local] Existing Instance BridgeScenario.bridge_runtime.

(** The errors of the Solana client are program errors here. *)
#[local] Instance program_errors : ForeignErrors := {| client_error := ProgramError; anyhow_error := Empty_set |}.

(** ** The claim account *)

Definition claim_number (n : Z) : ManualClaimInstruction :=
  {| mc_proof := zeros 256; mc_recent_block_merkle_tree_root := zeros 32; mc_recent_auto_claim_txo_root := zeros 32;
     mc_new_manual_claim_txo_root := zeros 32; mc_tx_hash := replicate 32 n; mc_combined_txo_index := n;
     mc_deposit_amount_sats := 1000 * n |}.

Definition claim_message (n : Z) : Message :=
  {| static_account_keys := [user; BridgeScenario.claim_id];
     instructions := [{| program_id_index := 1; ci_accounts := [];
                         ci_data := gen_aligned_instruction MC_MANUAL_CLAIM_TRANSACTION_DESCRIMINATOR (bytes_of (claim_number n)) |}] |}.

Definition entry (n : Z) (failed : bool) : UserSignatureInfo :=
  {| us_signature := Some [n]; us_failed := failed; us_slot := n; us_block_time := None |}.
Definition claim_entries : list UserSignatureInfo :=
  [entry 5 false; entry 4 false; entry 3 false; entry 2 true; entry 1 false].

(** The entries behind a cursor. *)
Fixpoint behind (cursor : HistorySync.Signature) (l : list UserSignatureInfo) : list UserSignatureInfo :=
  match l with
  | [] => []
  | info :: l => if bool_decide (us_signature info = Some cursor) then l else behind cursor l
  end.

#[local] Instance user_network : UserRpc := {|
  user_account w k := Ok (data <$> w !! k);
  user_submit ixs _ w :=
    match BufferClient.deliver_all DogeBridge.process_instruction ixs w with
    | Ok w' => (Ok tt, w')
    | Err e => (Err e, w)
    | Panic => (Err InvalidArgument, w)
    end;
  user_signatures _ before limit :=
    Ok (take (Z.to_nat limit) (match before with None => claim_entries | Some cursor => behind cursor claim_entries end));
  user_transaction sg := match sg with [n] => Ok (Some (claim_message n)) | _ => Ok None end
|}.

#[local] Instance user_tokens : SplToken := {|
  get_associated_token_address owner mint :=
    if bool_decide (owner = user) then BridgeScenario.user_token else BridgeScenario.derive [owner; mint] BridgeScenario.token_id;
  create_associated_token_account payer _ _ _ := SystemAllocate payer 0;
  token_transfer _ _ _ _ _ := None;
  token_clear_close_authority _ _ _ := None;
  unpack_token_amount d := if bool_decide (in_width 64 (le_val d)) then Some (le_val d) else None;
  pubkey_text k := k
|}.

Definition claim_config : ManualClaimClientConfig :=
  match build_claim_config (set_rpc_url [104] claim_builder_new) with
  | Ok c => c
  | _ => {| cc_rpc_url := []; cc_manual_claim_program_id := []; cc_bridge_program_id := []; cc_bridge_state_pda := [] |}
  end.

Lemma claims_served : serves_claims claim_config user claim_entries.
Proof.
  constructor.
  - repeat constructor; by eexists.
  - done.
  - intros sg i info limit _ Hi Hsg. cbn [user_signatures user_network]. do 2 f_equal.
    repeat (destruct i as [|i]; [injection Hi as <-; injection Hsg as <-; reflexivity|cbn [lookup list_lookup claim_entries] in Hi]).
    done.
  - intros [|n [|? ?]]; discriminate.
Qed.

Definition claim_record (n : Z) : ParsedManualClaim :=
  {| pc_signature := [n]; pc_slot := n; pc_block_time := None; pc_instruction := claim_number n |}.

(** With pages of two entries the scan ends in the second page, at the failed entry;
    the oldest claim is not found. *)
Lemma claim_history_scanned_witness :
  get_all_claim_history claim_config 3 user (Some 2) = Some (Ok [claim_record 5; claim_record 4; claim_record 3]).
Proof.
  etransitivity; [exact (proj1 (claim_history_scanned claim_config user claim_entries claims_served 2 3 ltac:(lia) ltac:(reflexivity)))|].
  vm_compute. reflexivity.
Defined.

(** ** The request *)

#[local] Instance burn_cpi : BurnCpi.
Proof.
  constructor. intros w account mint authority token amount b _ _ Ho Hb Ha.
  cbn [unpack_token_amount user_tokens] in *. case_bool_decide as Hw; [|done]. injection Hb as Hb.
  assert (in_width 64 (b - amount)) as Hwidth by (unfold in_width in *; lia).
  exists (set_data w (Runtime.key account) (le_bytes 8 (b - amount))). split; [|split].
  - change (BridgeScenario.set_balance w (Runtime.key account) (BridgeScenario.balance_at w (Runtime.key account) - amount)
      = Ok (set_data w (Runtime.key account) (le_bytes 8 (b - amount)))).
    unfold BridgeScenario.set_balance, BridgeScenario.balance_at, DogeBridge.key_eqb.
    rewrite Ho, bool_decide_true, Hb by done. cbn [negb].
    by rewrite (proj2 (Z.ltb_ge _ _)), (proj2 (Z.leb_gt _ _)) by (unfold in_width in *; lia).
  - rewrite data_at_set_data, le_val_bytes by done. by rewrite bool_decide_true.
  - intros k Hk _. by apply data_at_set_data_ne.
Qed.

Definition user_config : UserClientConfig :=
  match build (rpc_url [104] builder_new) with
  | Ok c => c
  | _ => {| uc_rpc_url := []; uc_program_id := []; uc_bridge_state_pda := [] |}
  end.

Lemma bridge_runs : runs_bridge user_config user.
Proof.
  constructor; [done|..].
  - intros w w' metas d signers _ Hd. cbn [user_submit user_network BufferClient.deliver_all]. by rewrite Hd.
  - intros w e metas d signers _ Hd. cbn [user_submit user_network BufferClient.deliver_all]. rewrite Hd. by eexists.
Qed.

Definition bridge_at_start : DogeBridge.BridgeState := {| core_state := state0; doge_mint := BridgeScenario.mint |}.

(** 100000 of 200000 satoshis: the bridge owes 98990 of them. *)
Lemma withdrawal_requested_witness :
  exists w' bs', request_withdrawal user_config user (replicate 20 7) 100000 0 (None, BridgeScenario.world1)
      = (Ok tt, (Some BridgeScenario.mint, w')) /\
    unpack_token_amount (data_at w' BridgeScenario.user_token) = Some 100000 /\
    data_at w' BridgeScenario.bridge = bytes_of bs' /\
    requested_withdrawals_tree (core_state bs') =
      tree_of [bytes_of {| wr_amount_sats := 98990; wr_address_type := 0; wr_recipient_address := replicate 20 7 |}].
Proof.
  pose proof (withdrawal_requested user_config user BridgeScenario.mint bridge_runs ltac:(vm_compute; reflexivity)
    ltac:(vm_compute; discriminate) ltac:(vm_compute; discriminate) ltac:(vm_compute; discriminate)
    (init_config_params ix) BridgeScenario.world1 bridge_at_start (empty_ledger (init_bridge_header ix) (init_start_return_txo_output ix))
    (BridgeScenario.account_of BridgeScenario.token_id (le_bytes 8 200000)) 200000 None (replicate 20 7) 100000 0
    ltac:(vm_compute; reflexivity) ltac:(apply state_typed_pod; pod_wf_closed) ltac:(split; [done|BridgeScenario.decide_closed])
    eq_refl (refines_initial _ ix) ltac:(reflexivity) ltac:(by left) ltac:(vm_compute; reflexivity) eq_refl
    ltac:(vm_compute; reflexivity) ltac:(pod_wf_closed)) as Hr.
  assert (acceptable (init_config_params ix) 100000 = true) as Ha by (vm_compute; reflexivity).
  cbv zeta in Hr. change (200000 <? 100000) with false in Hr. rewrite Ha in Hr.
  destruct Hr as (w' & bs' & Hrun & Hb & Hd & _ & Href).
  exists w', bs'. split; [exact Hrun|]. split; [exact Hb|]. split; [exact Hd|].
  rewrite (ref_requests _ _ _ Href). apply (f_equal tree_of). vm_compute. reflexivity.
Defined.
