(* ===== verification/CliScenario.v ===== *)
(** * CliScenario: a machine and a network for the commands

    Files in a map, keys drawn in sequence and a network that runs the bridge program
    beside small token programs.  It satisfies the interfaces of [CliProofs.v]; the
    set-up of the bridge is run on an empty chain, and once more after a run that was
    interrupted before it handed over the mint. *)
From S2P Require Import Prelude Errors Pod Hash Sha256 AppendTree Types PublicInputs Runtime BufferClient MintGroup ProgramState BridgeInstructions DogeBridge Ledger StateTypes DogeBridgeProofs BridgeHistory BridgeSafety RpcClient BridgeClient HistorySync OperatorClient Cli CliProofs Scenario BridgeScenario.
From Stdlib Require Import String.
From Stdlib Require Import ZArith Lia.
From stdpp Require Import base decidable list sorting numbers option countable gmap.
Import BufferClient Cli.

Open Scope Z_scope.
Open Scope bridge_scope.

#[local] Existing Instance fips_sha256.
#[local] Existing Instance fips_sha256_laws.
#[local] Existing Instance accept_all.
#[local] Existing Instance BridgeScenario.ids.
#[local] Existing Instance BridgeScenario.test_features.

(** ** The machine *)

(** Files, directories, and the next key. *)
Record Disk := { files : gmap Path bytes; directories : list Path; next_key : Z }.

(** A path and the directories above it. *)
Definition prefixes (p : Path) : list Path := (fun n => take n p) <$> seq 0 (S (length p)).

Lemma elem_of_prefixes p q : q ∈ prefixes p <-> q `prefix_of` p.
Proof.
  unfold prefixes. rewrite list_elem_of_fmap. split.
  - intros (n & -> & _). exists (drop n p). by rewrite take_drop.
  - intros [l ->]. exists (length q). rewrite take_app_length. split; [done|]. apply elem_of_seq. rewrite length_app. lia.
Qed.

(** What is not a directory may be a file. *)
Definition is_dir (h : Disk) (p : Path) : bool := bool_decide (p ∈ [] :: directories h).
Definition file_at (h : Disk) (p : Path) : option bytes := if is_dir h p then None else files h !! p.

#[local] Instance machine : Machine := {|
  Keypair := Z;
  pubkey k := replicate 31 200 ++ [k mod 256];
  keypair_to_bytes k := [k];
  keypair_from_bytes b := match b with [k] => Some k | _ => None end;
  Host := Disk;
  keypair_new h := (next_key h, {| files := files h; directories := directories h; next_key := next_key h + 1 |});
  path_exists h p := bool_decide (is_Some (file_at h p)) || bool_decide (p ∈ directories h);
  read_to_string h p := file_at h p;
  write_file p t h :=
    if is_dir h p || negb (is_dir h (default [] (parent p))) then (None, h)
    else (Some tt, {| files := <[p := t]> (files h); directories := directories h; next_key := next_key h |});
  create_dir_all p h :=
    if bool_decide (Exists (fun q => is_Some (file_at h q)) (prefixes p)) then (None, h)
    else (Some tt, {| files := files h; directories := prefixes p ++ directories h; next_key := next_key h |});
  read_dir h p := Some (Some <$> filter (fun q => parent q = Some p) (map_to_list (files h)).*1);
  home_dir _ := None;
  read_line h := (None, h)
|}.

#[local] Instance tree : DirectoryTree := is_dir.

#[local] Instance machine_laws : MachineLaws.
Proof.
  constructor.
  - intros k. split; [done|]. unfold pubkey, machine. apply Forall_app. split; [by apply Forall_replicate|].
    constructor; [|done]. unfold is_byte. pose proof (Z.mod_pos_bound k 256). lia.
  - done.
  - intros h p Hp Hd%bool_decide_eq_true. cbn [path_exists machine]. apply elem_of_cons in Hd as [?|Hd]; [done|].
    by rewrite (bool_decide_true (_ ∈ _) Hd), orb_true_r.
  - done.
  - intros p h Hc. assert (~ Exists (fun q => is_Some (file_at h q)) (prefixes p)) as Hfree.
    { rewrite Exists_exists. intros (q & Hq%elem_of_prefixes & Hs). pose proof (Hc q Hq) as Hd. cbn [path_exists machine] in Hd.
      rewrite (bool_decide_true _ Hs) in Hd. specialize (Hd eq_refl). unfold file_at in Hs. unfold is_directory, tree in Hd.
      rewrite Hd in Hs. by destruct Hs. }
    unfold create_dir_all, machine. rewrite bool_decide_false by done. split; [done|]. intros q. cbn [snd].
    set (h' := {| files := _ |}). assert (is_dir h' q = bool_decide (q `prefix_of` p) || is_dir h q) as Hd.
    { unfold is_dir, h'. cbn [directories]. rewrite <- bool_decide_or. apply bool_decide_ext.
      rewrite !elem_of_cons, elem_of_app, elem_of_prefixes. tauto. }
    destruct (decide (q `prefix_of` p)) as [Hq|Hq].
    + rewrite bool_decide_true in Hd by done. split; [|split; [by intros _|done]].
      unfold read_to_string, file_at. rewrite Hd. cbn [orb]. fold (file_at h q).
      destruct (file_at h q) eqn:E; [|done]. destruct Hfree. apply Exists_exists. exists q. rewrite elem_of_prefixes, E. by split.
    + rewrite bool_decide_false in Hd by done. cbn [orb] in Hd. assert (file_at h' q = file_at h q) as Hf.
      { unfold file_at. by rewrite Hd. }
      split; [done|]. split; [done|]. intros _. split; [|done]. unfold path_exists. rewrite Hf. f_equal. apply bool_decide_ext.
      unfold h'. cbn [directories]. rewrite elem_of_app, elem_of_prefixes. tauto.
  - intros p t h [Hpar Hp]. unfold is_directory, tree in *. unfold write_file, machine. rewrite Hp. cbn [orb].
    assert (is_dir h (default [] (parent p)) = true) as -> by (destruct (parent p); [by apply Hpar|done]). cbn [negb fst snd].
    set (h' := {| files := _ |}). assert (forall q, is_dir h' q = is_dir h q) as Hd by done.
    assert (forall q, file_at h' q = if decide (q = p) then Some t else file_at h q) as Hf.
    { intros q. unfold file_at. rewrite Hd. cbn [files h']. destruct (decide (q = p)) as [->|Hne]; [by rewrite Hp, lookup_insert_eq|].
      by rewrite lookup_insert_ne. }
    unfold read_to_string, path_exists. rewrite Hf, decide_True by done. split; [done|]. split; [done|]. split; [by rewrite bool_decide_true|].
    split; [|done]. intros q Hq. by rewrite Hf, decide_False.
  - intros p t h d Hpar Hd. unfold is_directory, tree in Hd. unfold write_file, machine. rewrite Hpar. cbn [default from_option id].
    rewrite Hd. by rewrite orb_true_r.
Qed.

(** ** The codecs *)

(** A list with its length before it. *)
Definition put (l : bytes) : bytes := len l :: l.
Definition get (s : bytes) : option (bytes * bytes) :=
  match s with n :: s => Some (take (Z.to_nat n) s, drop (Z.to_nat n) s) | [] => None end.

Lemma get_put l s : get (put l ++ s) = Some (l, s).
Proof. unfold get, put. cbn [app]. unfold len. by rewrite Nat2Z.id, take_app_length, drop_app_length. Qed.

Definition put_user (i : UserAccountInfo) : bytes :=
  put (ua_pubkey i) ++ put (ua_pubkey_hex i) ++ put (ua_private_key i) ++ put (ua_doge_ata i) ++ put (ua_doge_ata_hex i) ++ [].
Definition get_user (s : bytes) : option UserAccountInfo :=
  '(a, s) ← get s; '(b, s) ← get s; '(c, s) ← get s; '(d, s) ← get s; '(e, s) ← get s;
  Some {| ua_pubkey := a; ua_pubkey_hex := b; ua_private_key := c; ua_doge_ata := d; ua_doge_ata_hex := e |}.

Definition digit (n : Z) : Z := if n <? 10 then 48 + n else 87 + n.
Definition undigit (c : Z) : option Z :=
  if (48 <=? c) && (c <=? 57) then Some (c - 48) else if (97 <=? c) && (c <=? 102) then Some (c - 87) else None.
Fixpoint undigits (s : bytes) : option bytes :=
  match s with
  | [] => Some []
  | a :: b :: s => x ← undigit a; y ← undigit b; l ← undigits s; Some (16 * x + y :: l)
  | _ => None
  end.

Lemma undigit_digit n : 0 <= n < 16 -> undigit (digit n) = Some n /\ hex_digit (digit n).
Proof.
  intros Hn. unfold digit, undigit, hex_digit. destruct (Z.ltb_spec n 10).
  - rewrite (proj2 (Z.leb_le 48 _)), (proj2 (Z.leb_le _ 57)) by lia. cbn [andb]. split; [f_equal|]; lia.
  - rewrite (proj2 (Z.leb_gt _ 57)), (proj2 (Z.leb_le 97 _)), (proj2 (Z.leb_le _ 102)) by lia. rewrite andb_false_r. cbn [andb].
    split; [f_equal|]; lia.
Qed.

#[local] Instance codecs : Codecs := {|
  json_bytes b := Some b;
  parse_keypair t := match t with [k] => Some k | _ => None end;
  parse_config_file _ := None;
  parse_doge_data t := if bool_decide (t = [1]) then Some BridgeScenario.params else None;
  json_output _ := Some [];
  json_user_info i := Some (put_user i);
  parse_user_info := get_user;
  pubkey_from_str s := if bool_decide (length s = 32%nat) then Some s else None;
  signature_text s := s;
  hex_encode d := d ≫= fun b => [digit (b / 16); digit (b mod 16)];
  hex_decode := undigits
|}.

#[local] Instance codec_laws : CodecLaws.
Proof.
  constructor.
  - intros k. by exists [k].
  - intros o. by exists [].
  - intros i. exists (put_user i). split; [done|]. unfold parse_user_info, codecs, get_user, put_user.
    do 5 (rewrite get_put; cbn [mbind option_bind]). by destruct i.
  - induction 1 as [|b d Hb Hd IH]; [done|]. cbn [hex_encode hex_decode codecs mbind list_bind] in *.
    destruct (undigit_digit (b / 16)) as [E1 _]; [unfold is_byte in Hb; Z.to_euclidean_division_equations; lia|].
    destruct (undigit_digit (b mod 16)) as [E2 _]; [apply Z.mod_pos_bound; lia|].
    cbn [app undigits]. rewrite E1, E2, IH. cbn [mbind option_bind]. do 2 f_equal. symmetry. apply Z.div_mod. lia.
  - induction 1 as [|b d Hb Hd [IH1 IH2]]; [done|]. cbn [hex_encode codecs mbind list_bind app] in *.
    split; [|rewrite !len_cons, IH2; lia]. constructor; [|constructor; [|done]].
    + apply undigit_digit. unfold is_byte in Hb. Z.to_euclidean_division_equations; lia.
    + apply undigit_digit, Z.mod_pos_bound. lia.
Qed.

(** ** The network *)

Definition metadata_id : Pubkey := replicate 32 41.
Definition ata_id : Pubkey := replicate 32 42.
Definition derived (n : Z) : Pubkey := replicate 32 n.

Definition new_account (k owner : Pubkey) (space : Z) (w : World) : World :=
  <[k := {| lamports := 1; owner := owner; data := zeros (Z.to_nat space) |}]> w.

#[local] Instance cli_runtime : Runtime := {|
  minimum_balance n := 1000 + 7 * n;
  find_program_address _ program := (if bool_decide (program = BridgeScenario.bridge_id) then derived 50 else derived 51, 255);
  create_program_address _ _ := None;
  unix_timestamp := 1700000000;
  realloc _ _ _ := Err InvalidRealloc;
  invoke_signed w i _ _ :=
    match i with
    | SystemCreateAccount _ to _ space new_owner => Ok (new_account to new_owner space w)
    | _ => Err InvalidArgument
    end
|}.

#[local] Instance program_errors : ForeignErrors := {| client_error := ProgramError; anyhow_error := Empty_set |}.

(** The memory of a mint is its authority. *)
Definition authority_of (d : bytes) : option Pubkey := Some d.

Definition token_program (metas : list AccountMeta) (input : bytes) (w : World) : res ProgramError World :=
  match metas, input with
  | [mint], 0 :: authority => Ok (set_data w (meta_key mint) authority)
  | [mint; owner], 1 :: authority =>
      bail MissingRequiredSignature if negb (DogeBridge.key_eqb (data_at w (meta_key mint)) (meta_key owner));
      Ok (set_data w (meta_key mint) authority)
  | _, _ => Err InvalidInstructionData
  end.

(** Metadata cannot be created here. *)
Definition run (i : Instruction) (w : World) : res ProgramError World :=
  match i with
  | SystemCreateAccount _ to _ space new_owner => Ok (new_account to new_owner space w)
  | RawInstruction program metas input =>
      if DogeBridge.key_eqb program BridgeScenario.token_id then token_program metas input w
      else if DogeBridge.key_eqb program ata_id then
        match metas with [m] => Ok (new_account (meta_key m) BridgeScenario.token_id 8 w) | _ => Err InvalidArgument end
      else if DogeBridge.key_eqb program BridgeScenario.bridge_id then
        DogeBridge.process_instruction program (account_info <$> metas) input w
      else Err IncorrectProgramId
  | _ => Err InvalidArgument
  end.

Fixpoint run_all (l : list Instruction) (w : World) : res ProgramError World :=
  match l with [] => Ok w | i :: l => try w <- run i w; run_all l w end.

#[local] Instance cli_rpc : BlockingRpc := {|
  rpc_account w k := ok_or (data <$> w !! k) UninitializedAccount;
  rpc_balance _ _ := Ok 0;
  rpc_rent n := Ok (1000 + 7 * n);
  rpc_blockhash _ := Ok tt;
  rpc_send ixs _ w := match run_all ixs w with Ok w' => (Ok [1], w') | Err e => (Err e, w) | Panic => (Panic, w) end;
  airdrop _ w := w
|}.

#[local] Instance cli_tokens : SplToken := {|
  get_associated_token_address owner _ := 7 :: owner;
  create_associated_token_account _ owner _ _ := RawInstruction ata_id [meta_new (7 :: owner) false] [];
  token_transfer _ _ _ _ _ := None;
  token_clear_close_authority _ _ _ := Some (RawInstruction metadata_id [] []);
  unpack_token_amount _ := None;
  pubkey_text k := k
|}.

#[local] Instance cli_crates : TokenCrates := {|
  TOKEN_METADATA_PROGRAM_ID := metadata_id;
  MINT_LEN := 82;
  initialize_mint2 _ mint authority _ _ := Some (RawInstruction BridgeScenario.token_id [meta_new mint false] (0 :: authority));
  set_mint_authority _ mint new owner :=
    new ← new; Some (RawInstruction BridgeScenario.token_id [meta_new mint false; meta_new_readonly owner true] (1 :: new));
  create_metadata_account_v3 _ _ _ _ _ _ _ := RawInstruction metadata_id [] []
|}.

Lemma data_new_account w k owner space k' : k' <> k -> data_at (new_account k owner space w) k' = data_at w k'.
Proof. intros Hk. unfold new_account, data_at, account_at. by rewrite lookup_insert_ne by congruence. Qed.

#[local] Instance setup_network : SetupNetwork authority_of.
Proof.
  constructor.
  - intros w k. cbn. destruct (w !! k); by rewrite ?bool_decide_true, ?bool_decide_false by (done || by intros []).
  - intros n. by eexists.
  - done.
  - intros. by eexists.
  - intros. by eexists.
  - intros payer mint authority rent decimals ix w Hn [= <-]. eexists _, _. split; [reflexivity|]. split.
    + cbn [meta_key meta_new]. by rewrite data_at_set_data.
    + intros k Hk. cbn [meta_key meta_new]. rewrite data_at_set_data_ne by congruence. by apply data_new_account.
  - intros md mint authority payer updater d mutable signers w r w' Hs k _. by injection Hs as <- <-.
  - intros mint owner new ix w [= Ha] [= <-]. cbn [rpc_send cli_rpc run_all run]. unfold DogeBridge.key_eqb at 1.
    rewrite bool_decide_true by done. cbn [token_program meta_key meta_new meta_new_readonly]. unfold DogeBridge.key_eqb.
    rewrite Ha, bool_decide_true by done. cbn [negb res_bind]. eexists _, _. split; [reflexivity|].
    split; [by rewrite data_at_set_data|]. intros k Hk. by rewrite data_at_set_data_ne by congruence.
  - intros payer operator fee_spender mint params w w' Hd. exists [1]. cbn [rpc_send cli_rpc run_all].
    change (run (BridgeClient.initialize_bridge payer operator fee_spender mint params) w)
      with (deliver DogeBridge.process_instruction (BridgeClient.initialize_bridge payer operator fee_spender mint params) w).
    by rewrite Hd.
  - intros w payer account lamports space owner infos seeds _. eexists. split; [reflexivity|]. split.
    + unfold new_account, data_at, account_at. by rewrite lookup_insert_eq.
    + intros k Hk. by apply data_new_account.
  - intros k. split; [|intros m]; unfold pubkey, machine, bridge_state_pda, metadata_pda, BridgeClient.pda; vm_compute; congruence.
  - intros m. unfold metadata_pda, bridge_state_pda, BridgeClient.pda. cbn [find_program_address cli_runtime fst]. vm_compute. congruence.
Qed.

#[local] Instance user_network : UserNetwork.
Proof.
  assert (forall k k' o n w, is_Some (w !! k') -> is_Some (new_account k o n w !! k')) as Hgrow.
  { intros k k' o n w Hk. unfold new_account. destruct (decide (k' = k)) as [->|Hne]; [by rewrite lookup_insert_eq|].
    by rewrite lookup_insert_ne by congruence. }
  constructor.
  - intros w k. apply setup_network.
  - done.
  - intros payer owner mint w Hn. eexists _, _. split; [reflexivity|]. split; [|intros k; apply Hgrow].
    cbn [meta_key meta_new get_associated_token_address cli_tokens]. unfold new_account. by rewrite lookup_insert_eq.
  - intros. by eexists.
  - intros account owner ix signers w [= <-] k Hk. exact Hk.
Qed.

(** ** The set-up of the bridge *)

Definition keys_dir : Path := [str "keys"].
Definition set_up_args : InitializeFromDogeArgs := {|
  fd_config := [str "doge.json"]; fd_keys_dir := keys_dir; fd_decimals := 8; fd_output := [str "out"; str "bridge.json"];
  fd_yes := true; fd_airdrop := false
|}.

Definition fresh_disk : Disk := {| files := {[ [str "doge.json"] := [1] ]}; directories := []; next_key := 11 |}.

(** After a run that ended before the mint was handed over: its authority is the payer. *)
Definition used_disk : Disk := {|
  files := {[ [str "doge.json"] := [1]; join keys_dir (str "payer.json") := [11]; join keys_dir (str "operator.json") := [12];
              join keys_dir (str "fee_spender.json") := [13]; join keys_dir (str "doge_mint.json") := [14] ]};
  directories := [keys_dir]; next_key := 15 |}.
Definition interrupted : World :=
  {[ pubkey 14 := {| lamports := 1; owner := BridgeScenario.token_id; data := pubkey 11 |} ]}.

Lemma creatable_prefixes (h : Disk) (p : Path) :
  forallb (fun q => implb (@path_exists machine h q) (is_dir h q)) (prefixes p) = true -> creatable h p.
Proof.
  intros Hf q Hq Hx. rewrite forallb_forall in Hf. specialize (Hf q (proj1 (list_elem_of_In _ _) (proj2 (elem_of_prefixes p q) Hq))).
  rewrite Hx in Hf. exact Hf.
Qed.

Lemma disks_ready : files_ready set_up_args None BridgeScenario.params fresh_disk /\
  files_ready set_up_args None BridgeScenario.params used_disk.
Proof.
  split; constructor.
  all: match goal with
       | |- exists _, _ => by exists [1]
       | |- pod_wf _ => pod_wf_closed
       | |- NoDup _ => apply (bool_decide_unpack _); vm_compute; exact I
       | |- forall _, _ => done
       | |- creatable _ _ /\ _ => split; [|intros d [= <-]]; apply creatable_prefixes; vm_compute; reflexivity
       | |- ~ _ /\ _ => split; [apply (bool_decide_unpack _); vm_compute; exact I|vm_compute; reflexivity]
       | |- Forall (key_file_ok _) _ => repeat constructor; intros Hx; try discriminate Hx; by eexists
       | |- Forall _ _ => repeat constructor; apply (bool_decide_unpack _); vm_compute; exact I
       end.
Qed.

(** On the empty chain the mint ends with the bridge.  Where an earlier run was
    interrupted, the bridge is initialised with a mint that it cannot mint. *)
Lemma bridge_set_up_witness :
  (exists h' w', initialize_from_doge None set_up_args (fresh_disk, ∅) = (Ok tt, (h', w')) /\
     initialised BridgeScenario.params (pubkey 12) (pubkey 13) (pubkey 14) w' /\
     authority_of (data_at w' (pubkey 14)) = Some bridge_state_pda) /\
  (exists h' w', initialize_from_doge None set_up_args (used_disk, interrupted) = (Ok tt, (h', w')) /\
     initialised BridgeScenario.params (pubkey 12) (pubkey 13) (pubkey 14) w' /\
     authority_of (data_at w' (pubkey 14)) = Some (pubkey 11)).
Proof.
  destruct disks_ready as [Hfresh Hused]. split.
  - destruct (bridge_set_up authority_of set_up_args None _ (fresh_disk : @Host machine) ∅ Hfresh eq_refl eq_refl ltac:(left; vm_compute; reflexivity))
      as (p & o & f & m & h' & w' & Hr & Hi & Ha & _ & [Ho _] & [Hf _] & [Hm _]).
    assert (o = 12 /\ f = 13 /\ m = 14) as (-> & -> & ->).
    { assert (h' = (initialize_from_doge None set_up_args (fresh_disk, ∅)).2.1) as -> by exact (eq_sym (f_equal (fun r => r.2.1) Hr)).
      vm_compute in Ho, Hf, Hm. clear -Ho Hf Hm. injection Ho as <-. injection Hf as <-. injection Hm as <-. split; [reflexivity|split; reflexivity]. }
    exists h', w'. split; [exact Hr|]. split; [exact Hi|]. exact Ha.
  - destruct (bridge_set_up authority_of set_up_args None _ (used_disk : @Host machine) interrupted Hused eq_refl eq_refl ltac:(left; vm_compute; reflexivity))
      as (p & o & f & m & h' & w' & Hr & Hi & Ha & _ & [_ Ho] & [_ Hf] & [_ Hm]).
    injection (Ho eq_refl) as <-. injection (Hf eq_refl) as <-. injection (Hm eq_refl) as <-.
    exists h', w'. split; [exact Hr|]. split; [exact Hi|]. etransitivity; [exact Ha|]. vm_compute. reflexivity.
Defined.

(** ** The accounts of users *)

Definition users_dir : Path := [str "users"].
Definition user_file (k : Z) : bytes :=
  put_user {| ua_pubkey := []; ua_pubkey_hex := []; ua_private_key := [k]; ua_doge_ata := []; ua_doge_ata_hex := [] |}.
Definition users_disk : Disk := {|
  files := {[ join users_dir (str "b.json") := user_file 22; join users_dir (str "a.json") := user_file 21;
              join users_dir (str "c.json") := [9]; join users_dir (str "notes.txt") := []; [str "payer.json"] := [11] ]};
  directories := [users_dir]; next_key := 30 |}.
Definition atas_args : SetupUserAtasArgs :=
  {| su_doge_mint := pubkey 14; su_users_dir := users_dir; su_set_close_authority_null := false; su_skip_existing := false |}.

