(* ===== verification/TaskScenario.v ===== *)
(** * TaskScenario: a history stream with a slow receiver

    A server with two withdrawal requests and an unrelated transaction between them, and
    schedules of the stream task against it.  The witnesses of the theorems on the tasks
    are instances at this server. *)
From S2P Require Import Prelude Errors Pod Hash Sha256 Types Runtime BufferClient MintGroup ProgramState BridgeInstructions DogeBridge BridgeClient RpcClient HistorySync HistoryProofs Monitor Tasks TaskProofs Scenario BridgeScenario HistoryScenario.
From Stdlib Require Import ZArith Lia.
From stdpp Require Import base decidable list numbers option countable gmap fin_maps.
Import HistorySync Tasks.

Open Scope Z_scope.
Open Scope bridge_scope.

#[local] Existing Instance ids.
#[local] Existing Instance bridge_runtime.
#[local] Existing Instance no_errors.
#[local] Existing Instance list_order.

(** A channel is its capacity and its messages. *)
#[local, program] Instance list_channels : Channels := {|
  channel A := (Z * list A)%type;
  new_channel _ n := (n, []);
  send _ x c := if len c.2 <? c.1 then Some (c.1, c.2 ++ [x]) else None;
  recv _ c := match c.2 with x :: l => Some (x, (c.1, l)) | [] => None end;
  capacity _ c := c.1;
  contents _ c := c.2
|}.
Next Obligation. done. Qed.
Next Obligation. intros A x [n l]. cbn. by destruct (Z.ltb_spec (len l) n). Qed.
Next Obligation. by intros A [n [|x l]]. Qed.

Definition withdrawal (amount : Z) : Message :=
  {| static_account_keys := keys ++ [user; token_id];
     instructions := [compiled 7 [0; 1; 2; 8; 9] (BridgeClient.request_withdrawal bridge_id user txos buffer (replicate 20 1) amount 0)] |}.

Definition chain : list (Z * Message) := [(12, withdrawal 700); (11, transfer); (10, withdrawal 5000)].

Definition chain_answer (s : Signature) : res RpcClient.BridgeError TransactionStatus :=
  match list_find (fun tx : Z * Message => [tx.1] = s) chain with
  | Some (_, tx) => Ok {| tx_slot := tx.1; tx_block_time := None; tx_transaction := Binary (Some tx.2) |}
  | None => Err RpcClient.ConnectionTimeout
  end.

#[local] Instance chain_server : RpcServer := {|
  acquire _ := Ok tt;
  get_signatures _ before until limit :=
    Ok (sigs_of (take (Z.to_nat limit) (newer_than until (older_than before ((fun tx => [tx.1]) <$> chain)))));
  get_transaction := chain_answer;
  get_account _ := Err RpcClient.ConnectionTimeout
|}.

Definition chain_sigs : list Signature := [[10]; [11]; [12]].

(** The receiver takes the first record and a checkpoint is read; then the stream is
    stopped, and the task heeds it behind the second transaction. *)
Definition stopped_early : list action := [Run; Run; Run; Receive; GetCheckpoint; Run; Stop; Run; Run].

Lemma stream_delivers_witness :
  let s := perform 5 config stopped_early (stream_history None) in
  st_phase s = Ended /\ len (received (st_link s)) = 1 /\ len (st_reported s) = 1 /\
  received (st_link s) `prefix_of` produced config chain_sigs /\
  Forall (fun c => exists d, d `prefix_of` chain_sigs /\ c = checkpoint_after config (from None) d /\
    (receiver_alive (st_link s) = true -> produced config d `prefix_of` received (st_link s) ++ queue (st_link s))) (st_reported s).
Proof.
  intros s. assert (collects 5 config None chain_sigs) as Hcol by by vm_compute.
  pose proof (stream_delivers 5 config None chain_sigs stopped_early Hcol) as (Hr & _ & Hc & _).
  split; [by vm_compute|]. split; [by vm_compute|]. split; [by vm_compute|]. by split.
Defined.

(** Eight rounds of the receiver and the task. *)
Lemma stream_ends_witness :
  let s := perform 5 config ([Run] ++ concat (replicate 8 [Receive; GetCheckpoint; Run])) (stream_history None) in
  stream_over s = true /\ st_phase s = Ended /\
  stream_loop 5 config (fun _ => false) (fun _ => true) (from None) =
    Some (Ok (received (st_link s) ++ queue (st_link s), st_checkpoint s)).
Proof.
  intros s. assert (collects 5 config None chain_sigs) as Hcol by by vm_compute.
  assert (Forall fair_round (replicate 8 [Receive; GetCheckpoint; Run])) as Hfair.
  { apply Forall_replicate. by exists [], [GetCheckpoint], []. }
  destruct (stream_ends 5 config None chain_sigs [Run] _ Hcol Hfair ltac:(cbn; lia)) as [Hover Hall].
  split; [done|]. apply Hall.
  - repeat constructor; by vm_compute.
  - by repeat constructor.
Defined.

(** A monitor that finds two events in a poll; the receiver has taken the first when the
    monitor polls again. *)
Lemma monitor_delivers_witness :
  let parse server sig := Ok (if bool_decide (sig = [11]) then None else Some sig) in
  let schedule := [MTick chain_server; MDeliver; MReceive; MDeliver; MDeliver; MTick chain_server] in
  let m := perform_monitor parse [] 10 schedule (start true None) in
  let found := polls parse [] 10 schedule (start true None) in
  found = [[10]; [12]] /\ received (mt_link m) = [[10]] /\ received (mt_link m) `prefix_of` found /\
  (receiver_alive (mt_link m) = true -> mt_phase m <> MonitorAborted ->
    received (mt_link m) ++ queue (mt_link m) ++ in_hand m = found).
Proof.
  intros parse schedule. destruct (monitor_delivers parse [] 10 schedule true None) as (Hr & Hall & _).
  split; [by vm_compute|]. split; [by vm_compute|]. by split.
Defined.

(** ** A receiver that does not read *)

(** With more records than the channel holds, the task comes to wait for room. *)
Section unread.
Definition many : list Signature := (fun n : nat => [Z.of_nat n]) <$> seq 1 1001.

#[local] Instance busy_server : RpcServer := {|
  acquire _ := Ok tt;
  get_signatures _ before until limit := Ok (sigs_of (take (Z.to_nat limit) (newer_than until (older_than before many))));
  get_transaction _ :=
    Ok {| tx_slot := 1; tx_block_time := None; tx_transaction := Binary (Some (withdrawal 700)) |};
  get_account _ := Err RpcClient.ConnectionTimeout
|}.

(** It is still waiting after [join]. *)
Example join_never_returns schedule :
  Forall (fun a => match a with Receive | CloseReceiver | Abort => False | _ => True end) schedule ->
  stream_over (perform 20 config (Join :: schedule) (perform 20 config (replicate 2100 Run) (stream_history None))) = false.
Proof.
  intros Hs. apply join_waits; [|lazy; reflexivity|by constructor].
  by apply link_ok_perform, link_new_spec.
Qed.
End unread.
