(* ===== verification/SupplyScenario.v ===== *)
(** * SupplyScenario: a token with a mint account

    The runtime of [BridgeScenario.v] with a token program that keeps the supply of the
    token and its authority in the mint account, and the history of the bridge in it: a
    block, its mint, a withdrawal request, the operator's fees and the announcement of a
    withdrawal.  It satisfies the laws of [TokenSupply.v], and the witness of its
    theorem is this history. *)
From S2P Require Import Prelude Errors Pod Hash Sha256 AppendTree TxoIndex Fees Types PublicInputs Runtime MintBuffer MintBufferProofs TxoBuffer BufferClient MintGroup ProgramState BlockUpdate Payout BridgeInstructions DogeBridge NoopShim Ledger StateTypes DogeBridgeProofs BridgeHistory BridgeSafety TokenSupply ManualClaim BridgeClient Scenario BridgeScenario.
From Stdlib Require Import ZArith Lia.
From stdpp Require Import base decidable list numbers option countable gmap fin_maps.
Import BufferClient DogeBridge.

Open Scope Z_scope.
Open Scope bridge_scope.

#[local] Existing Instance fips_sha256.
#[local] Existing Instance fips_sha256_laws.
#[local] Existing Instance accept_all.
#[local] Existing Instance ids.
#[local] Existing Instance test_features.

(** ** The token program *)

(** The mint account: eight bytes of supply, then the authority. *)
Definition add_supply (w : World) (amount : Z) : res ProgramError World :=
  let supply := le_val (take 8 (data_at w mint)) + amount in
  bail IllegalOwner if negb (key_eqb (owner_at w mint) token_id);
  bail InsufficientFunds if (supply <? 0) || (2 ^ 64 <=? supply);
  Ok (set_data w mint (le_bytes 8 supply ++ drop 8 (data_at w mint))).

Definition token_invoke (w : World) (i : Instruction) : res ProgramError World :=
  match i with
  | TokenMintTo token account authority amount =>
      bail InvalidArgument if negb (key_eqb token mint) || key_eqb account mint;
      bail MissingRequiredSignature if negb (key_eqb authority (drop 8 (data_at w mint)));
      try w1 <- set_balance w account (balance_at w account + amount);
      add_supply w1 amount
  | TokenBurn account token authority amount =>
      bail InvalidArgument if negb (key_eqb token mint) || key_eqb account mint;
      try w1 <- set_balance w account (balance_at w account - amount);
      add_supply w1 (- amount)
  | _ => bridge_invoke base_runtime w i
  end.

#[local] Instance token_runtime : Runtime := {|
  minimum_balance := @minimum_balance base_runtime;
  find_program_address := @find_program_address base_runtime;
  create_program_address := @create_program_address base_runtime;
  unix_timestamp := @unix_timestamp base_runtime;
  realloc := @realloc base_runtime;
  invoke_signed w i _ _ := token_invoke w i
|}.

#[local] Instance token_books : TokenBooks := {|
  supply w := if key_eqb (owner_at w mint) token_id then le_val (take 8 (data_at w mint)) else 0;
  mint_authority w := if key_eqb (owner_at w mint) token_id then Some (drop 8 (data_at w mint)) else None
|}.

(** ** It obeys the laws *)

Lemma books_of w :
  owner_at w mint = token_id ->
  supply w = le_val (take 8 (data_at w mint)) /\ mint_authority w = Some (drop 8 (data_at w mint)).
Proof. intros Ho. unfold supply, mint_authority, token_books, key_eqb. by rewrite bool_decide_true. Qed.

Lemma add_supply_Ok w amount w' :
  add_supply w amount = Ok w' ->
  owner_at w mint = token_id /\ supply w' = supply w + amount /\ mint_authority w' = mint_authority w /\
  exists d, w' = set_data w mint d /\ (Forall is_byte (data_at w mint) -> Forall is_byte d).
Proof.
  unfold add_supply. cbv zeta. intros Hr. peel Hr as E0. peel Hr as E1.
  set (d := le_bytes 8 _ ++ _) in Hr. injection Hr as <-. apply key_eqb_true in E0. apply orb_false_iff in E1 as [E1%Z.ltb_ge E2%Z.leb_gt]. split; [done|].
  destruct (books_of w E0) as [-> ->].
  destruct (books_of (set_data w mint d)) as [-> ->]; [by rewrite owner_at_set_data|]. rewrite data_at_set_data.
  unfold d. rewrite take_app_length', drop_app_length' by (by rewrite length_le_bytes).
  split; [rewrite le_val_bytes; [done|unfold in_width; lia]|]. split; [done|]. eexists. split; [done|].
  intros Hb. apply Forall_app. split; [apply le_bytes_bytes|by apply Forall_drop].
Qed.

(** Writing any account that is not the token program's keeps the books; so does a
    balance. *)
Lemma set_data_books w k d : owner_at w k <> token_id -> same_books w (set_data w k d).
Proof.
  intros Ho. unfold same_books, supply, mint_authority, token_books, key_eqb. rewrite owner_at_set_data.
  destruct (bool_decide_reflect (owner_at w mint = token_id)) as [E|E]; [|done].
  by rewrite data_at_set_data_ne by congruence.
Qed.

Lemma set_balance_books w account b w' :
  account <> mint -> set_balance w account b = Ok w' -> same_books w w' /\ owner_at w' mint = owner_at w mint.
Proof.
  intros Hne Hr. apply set_balance_Ok in Hr as [_ ->]. unfold same_books, supply, mint_authority, token_books.
  by rewrite owner_at_set_data, data_at_set_data_ne by done.
Qed.

(** A program other than the token program and the bridge writes an account of the
    buffer program at most. *)
Lemma run_program_books program metas input w w' :
  run_program base_runtime program metas input w = Ok w' -> same_books w w'.
Proof.
  intros [->|(k & d & Ho & -> & _)]%run_program_frame; [done|]. apply set_data_books. rewrite Ho. decide_closed.
Qed.

Lemma mint_call_Ok w token account authority amount w' :
  token_invoke w (TokenMintTo token account authority amount) = Ok w' ->
  token = mint /\ mint_authority w = Some authority /\ supply w' = supply w + amount /\
  mint_authority w' = mint_authority w.
Proof.
  cbn [token_invoke]. intros Hr. peel Hr as E0. peel Hr as E1. peel Hr as E2. rename x into w1.
  apply orb_false_iff in E0 as [E0%key_eqb_true Hne%bool_decide_eq_false]. apply key_eqb_true in E1.
  apply set_balance_books in E2 as [[Es Em] Eo]; [|done]. apply add_supply_Ok in Hr as (Ho & Hs & Hm & _).
  rewrite Eo in Ho. split; [done|]. rewrite Hs, Hm, Es, Em. destruct (books_of w Ho) as [_ ->]. by rewrite E1.
Qed.

Lemma burn_call_Ok w account token authority amount w' :
  token_invoke w (TokenBurn account token authority amount) = Ok w' ->
  token = mint /\ supply w' = supply w - amount /\ mint_authority w' = mint_authority w.
Proof.
  cbn [token_invoke]. intros Hr. peel Hr as E0. peel Hr as E2. rename x into w1.
  apply orb_false_iff in E0 as [E0%key_eqb_true Hne%bool_decide_eq_false].
  apply set_balance_books in E2 as [[Es Em] Eo]; [|done]. apply add_supply_Ok in Hr as (_ & Hs & Hm & _).
  split; [done|]. rewrite Hs, Hm, Es, Em. by split; [lia|].
Qed.

#[local] Instance token_laws : TokenLaws bridge_id mint.
Proof.
  constructor.
  - intros w token account authority amount infos seeds w' Hr.
    destruct (mint_call_Ok w token account authority amount w' Hr) as (-> & Ha & Hs & Hm). by rewrite decide_True.
  - intros w account token authority amount infos seeds w' Hr.
    destruct (burn_call_Ok w account token authority amount w' Hr) as (-> & Hs & Hm). by rewrite decide_True.
  - intros w metas input infos seeds w' Hr. exact (run_program_books _ metas input w w' Hr).
  - intros w k d Ho. apply set_data_books. rewrite Ho. decide_closed.
Qed.

(** The two writes of a token call. *)
Lemma token_writes w account b amount w1 w' :
  set_balance w account b = Ok w1 -> add_supply w1 amount = Ok w' ->
  own_eq bridge_id w w' /\ (memory_typed w -> memory_typed w').
Proof.
  intros [Ho ->]%set_balance_Ok (Ho1 & _ & _ & d & -> & Hd)%add_supply_Ok. split.
  - eapply own_eq_trans; apply own_eq_set_data; [rewrite Ho|rewrite Ho1]; decide_closed.
  - intros Hw. assert (memory_typed (set_data w account (le_bytes 8 b))) as Hw1
      by (apply memory_set_data; [done|apply le_bytes_bytes]).
    apply memory_set_data; [done|]. by apply Hd.
Qed.

(** Everything but the token calls is as before. *)
Lemma token_invoke_frame w i w' :
  token_invoke w i = Ok w' -> bridge_invoke base_runtime w i = Ok w' \/
  own_eq bridge_id w w' /\ (memory_typed w -> memory_typed w').
Proof.
  destruct i; cbn [token_invoke]; intros Hr; try (by left); right; cbn [token_invoke] in Hr.
  - peel Hr as E0. peel Hr as E1. peel Hr as E2. by eapply token_writes.
  - peel Hr as E0. peel Hr as E2. by eapply token_writes.
Qed.

#[local] Instance token_cpi_laws : CpiLaws bridge_id.
Proof.
  constructor.
  - intros w i infos seeds w' Hr Hc. destruct (token_invoke_frame w i w' Hr) as [Hb|[Ho _]]; [|done].
    exact (@cpi_keeps_own _ _ _ _ _ _ bridge_cpi_laws w i infos seeds w' Hb Hc).
  - intros w metas input infos seeds w' Hr. change (run_program base_runtime bridge_id metas input w = Ok w') in Hr.
    unfold run_program in Hr. cbv zeta in Hr. change (key_eqb bridge_id mint_buffer_id) with false in Hr.
    change (key_eqb bridge_id shim_id) with false in Hr. discriminate Hr.
  - intros w i infos seeds w' Hr Ht Hw. destruct (token_invoke_frame w i w' Hr) as [Hb|[_ Hm]]; [|auto].
    exact (@cpi_memory _ _ _ _ _ _ bridge_cpi_laws w i infos seeds w' Hb Ht Hw).
Qed.

#[local] Instance token_buffer_cpi : BufferCpi.
Proof.
  intros w metas input infos seeds w' Hr. change (run_program base_runtime mint_buffer_id metas input w = Ok w') in Hr.
  apply run_buffer_program in Hr as (storage & l & Ha & Hs). rewrite Ha. by destruct Hs as [[-> Hs]|[-> Hs]].
Qed.

(** The programs that can be called leave the books alone. *)
Lemma programs_keep_books p : keeps_books p.
Proof. intros w metas input infos seeds w' Hr. exact (run_program_books p metas input w w' Hr). Qed.

(** ** The history *)

Definition minted_before : Z := 200000.
Definition token_world0 : World :=
  <[mint := account_of token_id (le_bytes 8 minted_before ++ bridge)]> world0.

Definition submit (i : Instruction) (w : World) : res ProgramError World := deliver process_instruction i w.

Definition token_world1 : World := world_of (submit initialization token_world0).
Definition token_world2 : World := world_of (submit block_call token_world1).
Definition token_world3 : World := world_of (submit group_instruction token_world2).
Definition token_world4 : World := world_of (submit request_instruction token_world3).
Definition token_world5 : World := world_of (submit fees_instruction token_world4).
Definition token_world6 : World := world_of (submit withdrawal_instruction token_world5).

Lemma submitted1 : submit initialization token_world0 = Ok token_world1.
Proof. apply world_of_ok. vm_compute. reflexivity. Qed.
Lemma submitted2 : submit block_call token_world1 = Ok token_world2.
Proof. apply world_of_ok. vm_compute. reflexivity. Qed.
Lemma submitted3 : submit group_instruction token_world2 = Ok token_world3.
Proof. apply world_of_ok. vm_compute. reflexivity. Qed.
Lemma submitted4 : submit request_instruction token_world3 = Ok token_world4.
Proof. apply world_of_ok. vm_compute. reflexivity. Qed.
Lemma submitted5 : submit fees_instruction token_world4 = Ok token_world5.
Proof. apply world_of_ok. vm_compute. reflexivity. Qed.
Lemma submitted6 : submit withdrawal_instruction token_world5 = Ok token_world6.
Proof. apply world_of_ok. vm_compute. reflexivity. Qed.

(** The first account belongs to the bridge, and a request burns the token. *)
Definition plainly (accounts : list AccountInfo) (input : bytes) (w : World) : bool :=
  forallb (fun a => bool_decide (owner_at w (key a) = bridge_id)) (take 1 accounts)
  && (negb (bool_decide (head input = Some 2)) || bool_decide (key_of accounts 2 = Some mint)).

Lemma plainly_call accounts input w : plainly accounts input w = true -> plain_call bridge_id mint accounts input w.
Proof.
  unfold plainly. intros [Ho Hb]%andb_true_iff. split.
  - intros a0 Ha. destruct accounts as [|b0 accounts]; [discriminate Ha|]. injection Ha as ->.
    cbn [take forallb] in Ho. apply andb_true_iff in Ho as [Ho _]. by apply bool_decide_eq_true in Ho.
  - destruct input as [|tag rest]; [done|]. cbn [head] in Hb.
    destruct tag as [|p|p]; [done| |done]. do 3 (try (destruct p as [p|p|]; try done)).
    all: try (intros; apply programs_keep_books). intros _. by apply bool_decide_eq_true in Hb.
Qed.

Lemma token_submitted calls paid i n w w' :
  token_history bridge_id mint ix minted_before calls paid w -> program_of i = Some bridge_id -> submit i w = Ok w' ->
  memory_typed w ->
  bool_decide (keys_typed (call_of i).1) && bool_decide (Forall is_byte (call_of i).2)
    && bool_decide ((call_of i).2 !! 0%nat <> Some 0) && plainly (call_of i).1 (call_of i).2 w
    && (group_paid bridge_id (call_of i).1 (call_of i).2 w =? n) = true ->
  token_history bridge_id mint ix minted_before (calls ++ [call_of i]) (paid + n) w'.
Proof.
  intros Hh Hp Hs Hm Hc. apply andb_true_iff in Hc as [Hc ->%Z.eqb_eq%symmetry]. apply andb_true_iff in Hc as [Hc Hplain].
  apply andb_true_iff in Hc as [[Hk Hb]%andb_true_iff Hn]. apply bool_decide_eq_true in Hk, Hb, Hn.
  assert (process_instruction bridge_id (call_of i).1 (call_of i).2 w = Ok w') as Hr
    by (destruct i; [discriminate Hp..|]; by injection Hp as ->).
  destruct (call_of i) as [accounts input].
  apply (token_call bridge_id mint ix minted_before calls paid accounts input w); try done. by apply plainly_call.
Qed.

Definition token_calls : list (list AccountInfo * bytes) :=
  [] ++ [call_of block_call] ++ [call_of group_instruction] ++ [call_of request_instruction]
  ++ [call_of fees_instruction] ++ [call_of withdrawal_instruction].

Ltac one_more H := eapply token_submitted; [|reflexivity|exact H|memory_closed|vm_compute; reflexivity].

Lemma token_history_runs : token_history bridge_id mint ix minted_before token_calls (0 + 0 + 5000 + 0 + 0 + 0) token_world6.
Proof.
  unfold token_calls. rewrite !app_assoc.
  one_more submitted6. one_more submitted5. one_more submitted4. one_more submitted3. one_more submitted2.
  apply (token_init bridge_id mint ix minted_before (call_of initialization).1 (zeros 7) token_world0 token_world1);
    [done|exact ix_wf|exact submitted1|vm_compute; reflexivity..].
Qed.

(** 200000 at the start, 5000 paid to a depositor and 1060 to the operator; 98990 are
    owed and 1010 kept as fees.  The bound is reached. *)
Lemma token_covered_by_deposits_witness :
  let l := ledger_of_calls (bridge_pda bridge_id) ix token_calls in
  supply token_world6 = 106060 /\ requested l = 98990 /\ l_withdrawal_fees l = 1010 /\ l_operator_paid l = 1060 /\
  supply token_world6 + requested l + l_withdrawal_fees l <= 200000 + 5000 + deposited l + l_operator_paid l.
Proof.
  cbv zeta. do 4 (split; [vm_compute; reflexivity|]).
  exact (proj1 (token_covered_by_deposits bridge_id mint ltac:(decide_closed) ix minted_before token_calls _ token_world6
    token_history_runs eq_refl ltac:(vm_compute; reflexivity))).
Defined.
